(* ===== verification/_CoqProject ===== *)
-Q . S2P
Prelude.v
PyVal.v
PyText.v
PyTime.v
Devices.v
DevicesSpec.v
Gateway.v
Topology.v
TopologySpec.v
Network.v
NetworkSpec.v
GatewayHosts.v
GatewaySpec.v
Host.v
HostSpec.v
FaucetEvents.v
Sessions.v
Runner.v
RunnerSpec.v
RunnerLimits.v
Main.v
DhcpMonitor.v
StreamMonitor.v
IpAddrModule.v
ExternalModule.v
Report.v
ReportSpec.v
ReportTables.v
CombineReports.v
TrafficTests.v
NtpTests.v
TrafficSpec.v
DhcpTests.v
TrafficStats.v
Generator.v
Pentests.v
Configurator.v
FlatConfig.v
GeneratorFiles.v
Forchestrator.v
Services.v
Startup.v
HostConfig.v
HostFiles.v
NativeHost.v
RunnerConfig.v
Gcp.v
GcpSpec.v
HostCloud.v
Bytes.v
Mac.v
AuthSockets.v
Eap.v
Messages.v
Md5.v
RadiusData.v
RadiusAttr.v
RadiusList.v
Radius.v
EapModule.v
RadiusModule.v
AuthSM.v
Authenticator.v
