(* ===== verification/Prelude.v ===== *)
(** * DAQ: a verification library for the device qualification framework

    DAQ plugs untrusted network devices into an isolated, software-defined
    network, gives each of them an address, runs a list of test modules against
    it, and reports the results.  The library models the Python core of the
    repository as executable functions and proves what makes its parts correct.

    ** The program and its parts

    - The runner (src/daq/runner.py) keeps the registry of the devices that were
      seen on the test switch, handles the controller's events, gives every
      device (or group) a gateway, starts a host per device and handles errors
      and completion.  It reads the base configuration, the list of tests and
      the installed tests, and calls callbacks of other threads from its loop.
    - A gateway (src/daq/base_gateway.py, container_gateway.py,
      external_gateway.py) owns six switch ports of its port set, adds its own
      hosts to two of them and lends four to running tests.
    - A connected host (src/daq/host.py) takes one device through its test run,
      with the test modules of src/daq/test_modules.
    - The test network (src/daq/network.py) adds and removes hosts in mininet and
      publishes the topology (src/daq/topology.py), which turns devices and port
      sets into the interfaces and access lists of the SDN controller; the event
      client (src/daq/faucet_event_client.py) reads the controller's events.
    - The stream monitor (src/daq/stream_monitor.py) is the main loop's poller;
      the DHCP monitor (src/daq/dhcp_monitor.py) reads address leases from a
      packet trace; the session server (src/daq/session_server.py) serves
      devices of remote switches.
    - Reports (src/daq/report.py) count the result lines of the tests;
      src/bin/python/combine_reports.py adds reports up; the cloud connection
      (src/daq/gcp.py) stores configurations, messages and reports.
    - The configurator (src/daq/configurator.py) merges configuration files and
      prints them; src/daq/generator.py generates topologies; the collectors and
      the traffic analyzer count the packets of access list rules.
    - Around them: the orchestrator (src/daq/forchestrator.py) with its request
      server (src/daq/http_server.py), and the loggers (src/daq/logger.py).
    - Test modules: the network traffic tests (src/subset/network), the address
      tests (src/subset/ipaddr), the brute-force login test (src/subset/pentests),
      and the 802.1x authenticator (src/subset/dot1x/authenticator), which relays
      EAP between a supplicant and a RADIUS server.

    ** Files and the code they model

    A file [XSpec] (and [RunnerLimits], [ReportTables]) holds the properties of
    the component [X]; where there is none they are in the component's file.

    - [Prelude]: exceptions, results, the state and error monad [M], frame and
      invariant reasoning ([preserves], [keeps], [spec], the tactic [walk]),
      insertion-ordered dictionaries, the least free number.  [PyVal]:
      configuration values with Python's operations; [PyText]: texts, regular
      expressions, formatting; [PyTime]: dates and times.
    - [Devices], [DevicesSpec]: [PortInfo], [IpInfo], [Device], [Devices] of
      runner.py, with object identity (heaps of devices and of port infos).
    - [Gateway]: [BaseGateway] as the runner sees it; [GatewayHosts],
      [GatewaySpec]: the container and external gateways with their hosts, and
      the discovery of a device's address.
    - [Topology], [TopologySpec]: [FaucetTopology], the whole class.
    - [Network], [NetworkSpec]: [TestNetwork].
    - [Host], [HostSpec]: [ConnectedHost] and the runner's callbacks for one
      device; [HostConfig]: the test list and the layers of a host's
      configuration; [HostFiles]: the directories of devices and tests;
      [HostCloud]: a host's documents in the cloud, and the parameters of its
      test modules.
    - [Runner], [RunnerSpec], [RunnerLimits]: [DAQRunner] on [Devices],
      [Gateway], [FaucetEvents] and [Sessions]; [RunnerConfig]: the base
      configuration, the callback queue and the switch port of a device; [Main]:
      the main loop and the program of src/daq/entry.py.
    - [FaucetEvents]: [FaucetEventClient].  [Sessions]: [SessionServer].
      [DhcpMonitor], [StreamMonitor]: the classes of these names.
    - [IpAddrModule], [ExternalModule]: the test modules; [NativeHost]: the hosts
      of native tests.  [TrafficTests], [NtpTests], [TrafficSpec], [DhcpTests],
      [Pentests]: the test scripts.
    - [Report], [ReportSpec], [ReportTables]: [ReportGenerator];
      [CombineReports]: the script of this name.
    - [Gcp], [GcpSpec]: [GcpManager].  [TrafficStats]: the collectors and the
      traffic analyzer.  [Generator], [GeneratorFiles]: [TopologyGenerator].
      [Configurator], [FlatConfig]: reading and printing configurations.
    - [Forchestrator]: the orchestrator, the request server and the connection of
      the event client.  [Services]: the loggers, the life of the traffic
      analyzer, and the set-up of programs and of the authenticator.  [Startup]:
      what the runner sets up and cleans up, the base class of test modules, and
      the timer of the authenticator.
    - [Bytes], [Md5]: what the authenticator uses of Python's [bytes], [str],
      [struct], [hashlib] and [hmac].
    - [Mac], [Eap], [Messages], [RadiusData], [RadiusAttr], [RadiusList],
      [Radius]: the packet formats, one file per source file or class group.
    - [AuthSockets]: the sockets of the authenticator and its loggers.
    - [EapModule], [RadiusModule], [AuthSM], [Authenticator]: the two protocol
      modules, the state machine per supplicant, and the authenticator that
      connects them, as a transition function on events.

    ** Interfaces

    - [FaucetEvents.Json]: the JSON codec; the client relies on its round trip.
    - [Host.RunnerOps]: what a host calls on the runner, with the laws
      [HostSpec.RunnerLaws] that the runner's operations satisfy; the host's
      theorems use the laws, [daq_runner_laws] discharges them.
    - [Host.ext_env], [Runner.renv]: the outcomes of the calls outside, oracles
      indexed by the calls so far; theorems hold for every oracle unless they
      say that something does not fail (such as [can_retire], for the gateways).
    - [Network.Mininet.MininetLaws]: what mininet does to the tables of hosts,
      links and interfaces, discharged by a small network in [NetworkSpec].
    - [Gcp.Firestore.FirestoreLaws]: documents and listeners of the cloud's
      store, discharged by a store in memory in [GcpSpec].
    - [StreamMonitor]: the contract of the poller.
    - [AuthSM.AuthCallbacks]: the callbacks of the authentication state machine.
    - Files, YAML documents, sockets, shells and docker are parameters, recorded
      calls or oracle answers; [HostFiles] has a file tree of its own.

    ** What the theorems show

    - Registry and gateways: the registry implements a finite map; port sets are
      exclusive and test ports never collide; a gateway that cannot start leaves
      the network as it was; a host discovery answers once.
    - Runner: handling events ends; hosts stay within the limit; callbacks are
      called once and in order; a changed site configuration takes effect; the
      exit code of the program says whether anything failed.
    - Hosts: the life cycle along every sequence of calls and failures; the
      complete run of all tests when nothing fails; the precedence of the
      configuration layers; fresh directories.  A native test host leaves the file
      system as it found it; a host takes back the cloud documents it registered;
      the parameters a host gives to a test module are those the module reads.
    - Configuration: a printed configuration reads back as the same settings;
      normalizing a topology removes the files it included.
    - Network and topology: tables of hosts and links stay consistent, removing
      undoes adding; VLANs of device ports along every sequence of updates, up
      to the document the controller has loaded; mirror rules within a port set.
    - Events, streams, sessions: no stale "port down"; handlers that raise leave
      the monitor consistent; the stream of a session.
    - Reports: every result is counted once, in one report and in the combined
      one; PASS requires every required test; the results of the test scripts
      are those the report reads.
    - Cloud: listeners are those of the table, a change is delivered once, a
      query gives the newest runs of its window, time stamps are faithful; a
      logger has one cloud handler, in whichever order it was created.
    - Orchestrator: waiting for the controller and connecting share one budget of
      retries; the first event the orchestrator handles ends its program.
    - Brute-force test: the client reports a default login exactly if it is among
      its first three pairs.
    - Packets: parsing any bytes ends in a message or a parse error; packing
      and parsing are inverse; a response is accepted only with the right
      authenticators; one attribute of length zero makes the parser loop.
    - Authenticator: the state invariant over all event sequences; success only
      after a validated Access-Accept for that supplicant; results are final;
      messages are relayed unchanged; a silent supplicant fails in time.

    ** Bounds and fuel

    - [first_free] scans one number more than the set has elements, which always
      suffices ([first_free_total]).
    - The event loop runs with one unit more than there are waiting events.
    - Attribute extraction runs with one unit of fuel per byte and one more:
      every iteration but the one on a zero-length EAP-Message consumes a byte;
      the theorems give the result for this fuel and every larger one.
    - Include chains run with fuel for the number of files there are and one
      more; a test list that includes itself has no bound ([endless_include]).
    - Connecting has the code's own budget of 20 retries; a brute-force attack runs
      with 10 receptions, three for each of the three tries and a last one.
    - Searching a text for all matches runs with its length and one; a host
      discovery with one scan per network.
    - Integers of packet formats keep their width: packing raises out of range.
    - MD5 works on words modulo 2^32.

    ** Not modelled

    - Process start, HTTP and gRPC transport, PDF rendering, docker, the kernel's
      side of sockets, the TLS test servers, generated protocol code, argument
      parsers: input and output around the modelled code.
    - The texts of log messages and exceptions; URL parsing; writing JSON.
    - Threads interleave between handlers, not inside one.
    - The streams of a turn of the main loop and what they bring are given as
      sequences, over which the theorems quantify.
    - The periodic loops of the traffic analyzer are modelled one tick at a time,
      without the clock that starts them.

    This file is the shared prelude. *)

From stdpp Require Import base list gmap strings sorting.
From Stdlib Require Import ZArith Lia.

#[global] Open Scope Z_scope.

(** ** Python exceptions

    The exception classes the modelled code raises or catches.  The message
    text of an exception is not modelled: no modelled code inspects it. *)

Inductive exn :=
  | AssertionError
  | KeyError
  | IndexError
  | ValueError
  | TypeError
  | AttributeError
  | RuntimeError
  | OverflowError
  | StructError
  | UnicodeDecodeError
  | UnicodeEncodeError
  | MessageParseError
  | InvalidResponseAuthenticatorError
  | InvalidMessageAuthenticatorError
  | DisconnectedException
  | DaqException
  | UnboundLocalError
  | OtherException.

#[global] Instance exn_eq_dec : EqDecision exn.
Proof. solve_decision. Defined.

(** ** The error monad: a value or the exception that was raised *)

Inductive res (A : Type) :=
  | Ok (a : A)
  | Raise (e : exn).
Arguments Ok {A} a.
Arguments Raise {A} e.

#[global] Instance res_ret : MRet res := λ A a, Ok a.
#[global] Instance res_bind : MBind res :=
  λ A B f r, match r with Ok a => f a | Raise e => Raise e end.
#[global] Instance res_fmap : FMap res :=
  λ A B f r, match r with Ok a => Ok (f a) | Raise e => Raise e end.

#[global] Instance res_eq_dec {A} `{EqDecision A} : EqDecision (res A).
Proof. solve_decision. Defined.

Definition is_ok {A} (r : res A) : bool :=
  match r with Ok _ => true | Raise _ => false end.

(** [try: r / except e1, ...: raise e']: the listed classes are replaced. *)
Definition rethrow {A} (catches : exn → bool) (e' : exn) (r : res A) : res A :=
  match r with
  | Ok a => Ok a
  | Raise e => if catches e then Raise e' else Raise e
  end.

(** The exception classes the [except] clauses name. *)
Definition is_unicode (e : exn) : bool := bool_decide (e = UnicodeDecodeError).
Definition is_struct (e : exn) : bool := bool_decide (e = StructError).
Definition is_key (e : exn) : bool := bool_decide (e = KeyError).

Definition of_option {A} (e : exn) (o : option A) : res A :=
  match o with Some a => Ok a | None => Raise e end.

Definition guard_res (b : bool) (e : exn) : res unit :=
  if b then Ok tt else Raise e.

(** ** The state-and-exception monad

    Python keeps the mutations made before an exception is raised, so the
    state is returned in both outcomes. *)

Definition M (S A : Type) : Type := S → S * res A.

#[global] Instance M_ret {S} : MRet (M S) := λ A a s, (s, Ok a).
#[global] Instance M_bind {S} : MBind (M S) :=
  λ A B f m s,
    match m s with
    | (s', Ok a) => f a s'
    | (s', Raise e) => (s', Raise e)
    end.

Section state_monad.
Context {S : Type}.

Definition getS : M S S := λ s, (s, Ok s).
Definition gets {A} (f : S → A) : M S A := λ s, (s, Ok (f s)).
Definition modify (f : S → S) : M S unit := λ s, (f s, Ok tt).
Definition raise {A} (e : exn) : M S A := λ s, (s, Raise e).
Definition lift {A} (r : res A) : M S A := λ s, (s, r).
Definition assertM (b : bool) : M S unit :=
  λ s, (s, if b then Ok tt else Raise AssertionError).
Definition whenM (b : bool) (m : M S unit) : M S unit :=
  if b then m else mret tt.

(** [try: m / except Exception as e: h e] *)
Definition try_except {A} (m : M S A) (h : exn → M S A) : M S A :=
  λ s, match m s with
       | (s', Ok a) => (s', Ok a)
       | (s', Raise e) => h e s'
       end.

(** [for x in l: f x] over a list fixed before the loop starts. *)
Fixpoint for_each {A} (l : list A) (f : A → M S unit) : M S unit :=
  match l with
  | [] => mret tt
  | x :: l' => f x ≫= λ _, for_each l' f
  end.

(** A loop that carries a value. *)
Fixpoint fold_each {A B} (f : B → A → M S B) (b : B) (l : list A) : M S B :=
  match l with
  | [] => mret b
  | a :: l' => b' ← f b a; fold_each f b' l'
  end.

(** A relation every run of [m] respects, whatever its outcome. *)
Definition preserves {A} (R : S → S → Prop) (m : M S A) : Prop :=
  ∀ s, R s (fst (m s)).

Lemma preserves_ret {A} (R : relation S) `{!Reflexive R} (a : A) :
  preserves R (mret a).
Proof. intros s. simpl. reflexivity. Qed.

Lemma preserves_bind {A B} (R : relation S) `{!Transitive R}
    (m : M S A) (f : A → M S B) :
  preserves R m → (∀ a, preserves R (f a)) → preserves R (m ≫= f).
Proof.
  intros Hm Hf s. specialize (Hm s). unfold mbind, M_bind.
  destruct (m s) as [s' [a|e]]; simpl in *; [|done].
  etrans; [apply Hm|apply Hf].
Qed.

Lemma preserves_try {A} (R : relation S) `{!Transitive R}
    (m : M S A) (h : exn → M S A) :
  preserves R m → (∀ e, preserves R (h e)) → preserves R (try_except m h).
Proof.
  intros Hm Hh s. specialize (Hm s). unfold try_except.
  destruct (m s) as [s' [a|e]]; simpl in *; [done|].
  etrans; [apply Hm|apply Hh].
Qed.

Lemma preserves_for_each {A} (R : relation S) `{!Reflexive R, !Transitive R}
    (l : list A) (f : A → M S unit) :
  (∀ x, x ∈ l → preserves R (f x)) → preserves R (for_each l f).
Proof.
  induction l as [|x l IH]; intros Hf; simpl.
  - by apply preserves_ret.
  - apply preserves_bind; [done|apply Hf; left|].
    intros _. apply IH. intros y Hy. apply Hf. by right.
Qed.

End state_monad.

Lemma preserves_lift {S A} (R : relation S) `{!Reflexive R} (r : res A) : preserves R (lift r).
Proof. intros s. simpl. reflexivity. Qed.

Lemma preserves_getS {S} (R : relation S) `{!Reflexive R} : preserves R (getS (S := S)).
Proof. intros s. simpl. reflexivity. Qed.

Lemma preserves_assert {S} (R : relation S) `{!Reflexive R} b : preserves R (assertM (S := S) b).
Proof. intros s. simpl. reflexivity. Qed.

Lemma preserves_when {S} (P : relation S) `{!Reflexive P} b m :
  preserves P m → preserves P (whenM b m).
Proof. intros Hm. destruct b; [done|]. by apply preserves_ret. Qed.

Lemma preserves_raise {S A} (P : relation S) `{!Reflexive P} e : preserves P (raise (A := A) e).
Proof. intros s. simpl. reflexivity. Qed.

Lemma preserves_gets {S A} (P : relation S) `{!Reflexive P} (f : S → A) : preserves P (gets f).
Proof. intros s. simpl. reflexivity. Qed.

Lemma bind_ok {S A B} (m : M S A) (f : A → M S B) s s' a :
  m s = (s', Ok a) → (m ≫= f) s = f a s'.
Proof. intros H. unfold mbind, M_bind. by rewrite H. Qed.

Lemma bind_ok_inv {S A B} (m : M S A) (f : A → M S B) s s' b :
  (m ≫= f) s = (s', Ok b) → ∃ s1 a, m s = (s1, Ok a) ∧ f a s1 = (s', Ok b).
Proof. unfold mbind, M_bind. destruct (m s) as [s1 [a|e]]; [by eauto|done]. Qed.

Lemma bind_assoc {S A B C} (m : M S A) (f : A → M S B) (g : B → M S C) s :
  ((m ≫= f) ≫= g) s = (m ≫= λ a, f a ≫= g) s.
Proof. unfold mbind, M_bind. destruct (m s) as [s' [a|e]]; done. Qed.

(** Frame goals [preserves R m]: follow the structure of [m]. *)
Ltac frame :=
  repeat first
    [ apply preserves_bind; [apply _| |intros ?]
    | apply preserves_lift; apply _
    | apply preserves_getS; apply _
    | apply preserves_assert; apply _
    | apply preserves_ret; apply _
    | apply preserves_for_each; [apply _|apply _|intros ? ?]
    | case_match ].

(** A predicate on states kept by every run of [m], whatever its outcome. *)
Definition keeps {S A} (P : S → Prop) (m : M S A) : Prop :=
  ∀ s, P s → P (fst (m s)).

Lemma keeps_ret {S A} (P : S → Prop) (a : A) : keeps P (mret (M := M S) a).
Proof. by intros s Hs. Qed.

Lemma keeps_bind {S A B} (P : S → Prop) (m : M S A) (f : A → M S B) :
  keeps P m → (∀ a, keeps P (f a)) → keeps P (m ≫= f).
Proof.
  intros Hm Hf s Hs. specialize (Hm s Hs). unfold mbind, M_bind.
  destruct (m s) as [s' [a|e]]; simpl in *; [by apply Hf|done].
Qed.

Lemma keeps_modify {S} (P : S → Prop) (f : S → S) :
  (∀ s, P s → P (f s)) → keeps P (modify f).
Proof. intros Hf s Hs. by apply Hf. Qed.

Lemma keeps_try {S A} (P : S → Prop) (m : M S A) (h : exn → M S A) :
  keeps P m → (∀ e, keeps P (h e)) → keeps P (try_except m h).
Proof.
  intros Hm Hh s Hs. specialize (Hm s Hs). unfold try_except.
  destruct (m s) as [s' [a|e]]; simpl in *; [done|by apply Hh].
Qed.

Lemma keeps_when {S} (P : S → Prop) b (m : M S unit) : keeps P m → keeps P (whenM b m).
Proof. intros Hm. destruct b; [done|]. apply keeps_ret. Qed.

Lemma keeps_for_each {S A} (P : S → Prop) (l : list A) (f : A → M S unit) :
  (∀ a, a ∈ l → keeps P (f a)) → keeps P (for_each l f).
Proof.
  induction l as [|a l IH]; intros Hf; [by intros s Hs|].
  apply keeps_bind; [apply Hf; set_solver|]. intros _. apply IH. set_solver.
Qed.

(** A computation that does not touch the state. *)
Lemma keeps_pure {S A} (P : S → Prop) (m : M S A) : (∀ s, fst (m s) = s) → keeps P m.
Proof. intros Hm s Hs. by rewrite Hm. Qed.

(** Started in [P] the invariant [J] is kept, and a returned value satisfies [Q]. *)
Definition spec {S A} (J P : S → Prop) (m : M S A) (Q : A → S → Prop) : Prop :=
  ∀ s, J s → P s → J (fst (m s)) ∧ ∀ a, snd (m s) = Ok a → Q a (fst (m s)).

Lemma spec_bind {S A B} (J P : S → Prop) (Q : A → S → Prop) (R : B → S → Prop)
    (m : M S A) (f : A → M S B) :
  spec J P m Q → (∀ a, spec J (Q a) (f a) R) → spec J P (m ≫= f) R.
Proof.
  intros Hm Hf s Hj Hp. destruct (Hm s Hj Hp) as [Hj' Hq]. unfold mbind, M_bind.
  destruct (m s) as [s' [a|e]]; cbn [fst snd] in *; [|done].
  apply Hf; [done|]. by apply Hq.
Qed.

Lemma spec_keeps {S A} (J P : S → Prop) (m : M S A) : keeps J m → spec J P m (λ _ _, True).
Proof. intros Hm s Hj _. by split; [apply Hm|]. Qed.

Lemma keeps_spec {S A} (J : S → Prop) (m : M S A) Q : spec J (λ _, True) m Q → keeps J m.
Proof. intros Hm s Hj. by apply Hm. Qed.

Lemma spec_try {S A} (J P : S → Prop) (m : M S A) (h : exn → M S A) Q :
  spec J P m Q → (∀ e, keeps J (h e)) → spec J P (try_except m h) (λ _ _, True).
Proof.
  intros Hm Hh s Hj HP. destruct (Hm s Hj HP) as [Hj' _]. split; [|done]. unfold try_except.
  destruct (m s) as [s' [a|e]]; cbn [fst] in *; [done|by apply Hh].
Qed.

(** A precondition that [m] keeps is still there afterwards. *)
Lemma spec_frame {S A} (J P : S → Prop) (m : M S A) :
  keeps J m → (∀ s, P s → P (fst (m s))) → spec J P m (λ _, P).
Proof. intros Hm Hp s Hj HP. split; [by apply Hm|]. intros a _. by apply Hp. Qed.

Lemma spec_weaken {S A} (J P P' : S → Prop) (m : M S A) Q :
  spec J P m Q → (∀ s, P' s → P s) → spec J P' m Q.
Proof. intros Hm Hp s Hj HP. apply Hm; auto. Qed.

(** Follow the structure of a computation in a goal [preserves R m] or
    [keeps P m]; [base] does the leaves. *)
Ltac walk base :=
  repeat first
    [ base
    | match goal with
      | |- preserves _ (_ ≫= _) => apply preserves_bind; [apply _| |intros ?]
      | |- preserves _ (try_except _ _) => apply preserves_try; [apply _| |intros ?]
      | |- preserves _ (for_each _ _) => apply preserves_for_each; [apply _|apply _|intros ? ?]
      | |- preserves _ (whenM _ _) => apply preserves_when; [apply _|]
      | |- preserves _ (lift _) => apply preserves_lift; apply _
      | |- preserves _ getS => apply preserves_getS; apply _
      | |- preserves _ (gets _) => apply preserves_gets; apply _
      | |- preserves _ (assertM _) => apply preserves_assert; apply _
      | |- preserves _ (raise _) => apply preserves_raise; apply _
      | |- preserves _ (mret _) => apply preserves_ret; apply _
      | |- preserves _ (match _ with _ => _ end) => case_match
      | |- keeps _ (_ ≫= _) => apply keeps_bind; [|intros ?]
      | |- keeps _ (try_except _ _) => apply keeps_try; [|intros ?]
      | |- keeps _ (whenM _ _) => apply keeps_when
      | |- keeps _ (for_each _ _) => apply keeps_for_each; intros ? ?
      | |- keeps _ (match _ with _ => _ end) => case_match
      | |- keeps _ (lift _) => apply keeps_pure; intros ?; reflexivity
      | |- keeps _ getS => apply keeps_pure; intros ?; reflexivity
      | |- keeps _ (gets _) => apply keeps_pure; intros ?; reflexivity
      | |- keeps _ (assertM _) => apply keeps_pure; intros ?; reflexivity
      | |- keeps _ (raise _) => apply keeps_pure; intros ?; reflexivity
      | |- keeps _ (mret _) => apply keeps_ret
      end ].

(** ** Python dictionaries

    A [dict] is the list of its items in insertion order, with the keys
    distinct ([dict_wf]).  Assignment to a present key keeps its position. *)

Definition dict (K V : Type) : Type := list (K * V).

Section dict.
Context {K V : Type} `{EqDecision K}.
Implicit Types (d : dict K V) (k : K) (v : V).

Fixpoint dget (k : K) (d : dict K V) : option V :=
  match d with
  | [] => None
  | (k', v) :: d' => if decide (k = k') then Some v else dget k d'
  end.

Fixpoint dset (k : K) (v : V) (d : dict K V) : dict K V :=
  match d with
  | [] => [(k, v)]
  | (k', v') :: d' =>
      if decide (k = k') then (k', v) :: d' else (k', v') :: dset k v d'
  end.

Fixpoint ddel (k : K) (d : dict K V) : dict K V :=
  match d with
  | [] => []
  | (k', v') :: d' => if decide (k = k') then d' else (k', v') :: ddel k d'
  end.

Definition dmem (k : K) (d : dict K V) : bool :=
  match dget k d with Some _ => true | None => false end.

Definition dkeys (d : dict K V) : list K := d.*1.
Definition dvals (d : dict K V) : list V := d.*2.
Definition dict_wf (d : dict K V) : Prop := NoDup (dkeys d).

Lemma dget_dset k k' v d :
  dget k (dset k' v d) = if decide (k = k') then Some v else dget k d.
Proof.
  induction d as [|[k2 v2] d IH]; simpl; [done|].
  destruct (decide (k' = k2)); simpl; rewrite ?IH; repeat case_decide; congruence.
Qed.

Lemma dget_dset_eq k v d : dget k (dset k v d) = Some v.
Proof. rewrite dget_dset. by rewrite decide_True. Qed.

Lemma dget_dset_ne k k' v d : k ≠ k' → dget k (dset k' v d) = dget k d.
Proof. intros ?. rewrite dget_dset. by rewrite decide_False. Qed.

Lemma dset_dset k v v' d : dset k v (dset k v' d) = dset k v d.
Proof.
  induction d as [|[k2 v2] d IH]; simpl; [by rewrite decide_True|].
  destruct (decide (k = k2)); simpl; [by rewrite decide_True|]. by rewrite decide_False, IH.
Qed.

Lemma dget_None k d : dget k d = None ↔ k ∉ dkeys d.
Proof.
  unfold dkeys. induction d as [|[k2 v2] d IH]; simpl; [set_solver|].
  case_decide; set_solver.
Qed.

Lemma dget_Some_elem k v d : dget k d = Some v → (k, v) ∈ d.
Proof.
  induction d as [|[k2 v2] d IH]; simpl; [done|].
  case_decide; [intros [= ->]; subst; left|intros ?; right; auto].
Qed.

Lemma dget_wf_elem k v d : dict_wf d → (k, v) ∈ d → dget k d = Some v.
Proof.
  unfold dict_wf, dkeys. induction d as [|[k2 v2] d IH]; simpl; [set_solver|].
  intros [Hni Hnd]%NoDup_cons [[= -> ->]|Hin]%elem_of_cons.
  - by rewrite decide_True.
  - rewrite decide_False; [by apply IH|]. intros ->. apply Hni.
    apply list_elem_of_fmap. by exists (k2, v).
Qed.

Lemma dkeys_dset_new k v d : dget k d = None → dset k v d = d ++ [(k, v)].
Proof.
  induction d as [|[k2 v2] d IH]; simpl; [done|].
  case_decide; [done|]. intros ?. by rewrite IH.
Qed.

Lemma dkeys_dset k v d k' : k' ∈ dkeys (dset k v d) ↔ k' = k ∨ k' ∈ dkeys d.
Proof.
  unfold dkeys. induction d as [|[k2 v2] d IH]; simpl; [set_solver|].
  case_decide; set_solver.
Qed.

Lemma dict_wf_dset k v d : dict_wf d → dict_wf (dset k v d).
Proof.
  unfold dict_wf. induction d as [|[k2 v2] d IH]; simpl.
  - intros _. apply NoDup_singleton.
  - intros [Hni Hnd]%NoDup_cons. case_decide; simpl; apply NoDup_cons; [done|].
    split; [|auto]. fold (dkeys (dset k v d)). rewrite dkeys_dset.
    intros [->|?]; done.
Qed.

Lemma dkeys_ddel_sub k d k' : k' ∈ dkeys (ddel k d) → k' ∈ dkeys d.
Proof.
  unfold dkeys. induction d as [|[k2 v2] d IH]; simpl; [done|].
  case_decide; set_solver.
Qed.

Lemma dict_wf_ddel k d : dict_wf d → dict_wf (ddel k d).
Proof.
  unfold dict_wf. induction d as [|[k2 v2] d IH]; simpl; [done|].
  intros [Hni Hnd]%NoDup_cons. case_decide; [done|].
  simpl. apply NoDup_cons. split; [|auto].
  intros Hin. apply Hni. by eapply dkeys_ddel_sub.
Qed.

Lemma dget_ddel_eq k d : dict_wf d → dget k (ddel k d) = None.
Proof.
  intros Hwf. induction d as [|[k2 v2] d IH]; simpl; [done|].
  unfold dict_wf, dkeys in Hwf. simpl in Hwf. apply NoDup_cons in Hwf as [Hni Hnd].
  case_decide; simpl.
  - subst. by apply dget_None.
  - case_decide; [done|]. by apply IH.
Qed.

Lemma dget_ddel_ne k k' d : k ≠ k' → dget k (ddel k' d) = dget k d.
Proof.
  intros ?. induction d as [|[k2 v2] d IH]; simpl; [done|].
  destruct (decide (k' = k2)); simpl; rewrite ?IH; repeat case_decide; congruence.
Qed.

Lemma ddel_dset_new k v d : dget k d = None → ddel k (dset k v d) = d.
Proof.
  induction d as [|[k2 v2] d IH]; simpl; intros Hn.
  - by rewrite decide_True.
  - destruct (decide (k = k2)); [done|]. simpl. rewrite decide_False by done.
    by rewrite IH.
Qed.

Lemma ddel_dset_ne k k' v d : k ≠ k' → ddel k (dset k' v d) = dset k' v (ddel k d).
Proof.
  intros Hne. induction d as [|[x w] d IH]; simpl.
  - by rewrite decide_False.
  - destruct (decide (k' = x)) as [->|Hx]; simpl.
    + rewrite !(decide_False (P := k = x)) by done. simpl. by rewrite decide_True.
    + destruct (decide (k = x)); [done|]. simpl. rewrite decide_False by done. by rewrite IH.
Qed.

Lemma ddel_dset k v d : ddel k (dset k v d) = ddel k d.
Proof.
  induction d as [|[k2 v2] d IH]; simpl; [by rewrite decide_True|].
  destruct (decide (k = k2)); simpl; [by rewrite decide_True|]. by rewrite decide_False, IH.
Qed.

Lemma elem_of_dkeys k d : k ∈ dkeys d ↔ is_Some (dget k d).
Proof.
  rewrite <- not_eq_None_Some, dget_None. destruct (decide (k ∈ dkeys d)); naive_solver.
Qed.

Lemma dkeys_ddel k d k' : dict_wf d → k' ∈ dkeys (ddel k d) ↔ k' ≠ k ∧ k' ∈ dkeys d.
Proof.
  intros Hd. rewrite !elem_of_dkeys. destruct (decide (k' = k)) as [->|Hne].
  - rewrite dget_ddel_eq by done. split; [by intros []|naive_solver].
  - rewrite dget_ddel_ne by done. naive_solver.
Qed.

Lemma length_ddel k d v : dget k d = Some v → length d = S (length (ddel k d)).
Proof.
  induction d as [|[k2 v2] d IH]; simpl; [done|].
  case_decide; [done|]. intros Hd. simpl. by rewrite <- IH.
Qed.

Lemma length_dset k v d v' : dget k d = Some v' → length (dset k v d) = length d.
Proof.
  induction d as [|[k2 v2] d IH]; simpl; [done|].
  case_decide; [done|]. intros Hd. simpl. by rewrite IH.
Qed.

Lemma dmem_true k d : dmem k d = true ↔ ∃ v, dget k d = Some v.
Proof. unfold dmem. destruct (dget k d); naive_solver. Qed.

Lemma dmem_false k d : dmem k d = false ↔ dget k d = None.
Proof. unfold dmem. destruct (dget k d); naive_solver. Qed.

End dict.

(** [d.update(e)], with the values of [e] mapped by [f] *)
Lemma dget_update {K V W} `{EqDecision K} (f : W → V) (e : dict K W) (k : K) : ∀ d : dict K V,
  dict_wf e →
  dget k (foldl (λ d '(k, w), dset k (f w) d) d e)
  = match dget k e with Some w => Some (f w) | None => dget k d end.
Proof.
  induction e as [|[k' w] e IH]; intros d Hnd; [done|].
  inversion Hnd as [|?? Hni Hnd']; subst. simpl. rewrite IH by done.
  destruct (decide (k = k')) as [->|Hne].
  - apply dget_None in Hni. by rewrite Hni, dget_dset_eq.
  - by rewrite dget_dset_ne by done.
Qed.

(** ** Python slices *)

(** [l[a:b]] for [0 <= a] and [0 <= b]. *)
Definition slice {A} (a b : nat) (l : list A) : list A := take (b - a) (drop a l).

(** [l[:z]] for any integer [z]: a negative bound counts from the end. *)
Definition slice_to {A} (z : Z) (l : list A) : list A :=
  take (Z.to_nat (if z <? 0 then Z.of_nat (length l) + z else z)) l.

(** [len l] *)
Definition len {A} (l : list A) : Z := Z.of_nat (length l).

Lemma len_app {A} (l1 l2 : list A) : len (l1 ++ l2) = len l1 + len l2.
Proof. unfold len. rewrite length_app. lia. Qed.

Lemma len_nonneg {A} (l : list A) : 0 ≤ len l.
Proof. unfold len. lia. Qed.

Lemma len_nil {A} : len (@nil A) = 0.
Proof. done. Qed.

Lemma len_cons {A} (x : A) l : len (x :: l) = 1 + len l.
Proof. unfold len. simpl. lia. Qed.

Lemma slice_to_nil {A} (z : Z) : slice_to z (@nil A) = [].
Proof. unfold slice_to. by rewrite take_nil. Qed.

Lemma slice_to_len {A} (z : Z) (l : list A) : len l ≤ z → slice_to z l = l.
Proof.
  unfold slice_to, len. intros ?. destruct (Z.ltb_spec z 0); [lia|].
  apply take_ge. lia.
Qed.

(** ** Scanning for a free number

    [while n in used: n = n + 1], the allocation loop of the set ids and of the
    test ports.  [None] means that the fuel ran out. *)

Fixpoint scan_free (fuel : nat) (n : Z) (used : gset Z) : option Z :=
  match fuel with
  | O => None
  | S fuel' => if decide (n ∈ used) then scan_free fuel' (n + 1) used else Some n
  end.

(** The loop run with the fuel that always suffices. *)
Definition first_free (n : Z) (used : gset Z) : option Z :=
  scan_free (S (size used)) n used.

Lemma scan_free_Some fuel n used k :
  scan_free fuel n used = Some k →
  n ≤ k ∧ (k ∉ used) ∧ (∀ j, n ≤ j < k → j ∈ used).
Proof.
  revert n. induction fuel as [|fuel IH]; intros n; simpl; [done|].
  case_decide as Hin.
  - intros (Hle & Hni & Hall)%IH. split_and!; [lia|done|].
    intros j Hj. destruct (decide (j = n)) as [->|]; [done|]. apply Hall. lia.
  - intros [= <-]. split_and!; [lia|done|]. intros j Hj. lia.
Qed.

Lemma scan_free_None fuel n used :
  scan_free fuel n used = None → ∀ j, n ≤ j < n + Z.of_nat fuel → j ∈ used.
Proof.
  revert n. induction fuel as [|fuel IH]; intros n; simpl.
  - intros _ j Hj. lia.
  - case_decide as Hin; [|done]. intros HN j Hj.
    destruct (decide (j = n)) as [->|]; [done|]. apply (IH _ HN). lia.
Qed.

Lemma scan_free_complete fuel n used k :
  n ≤ k < n + Z.of_nat fuel → k ∉ used → is_Some (scan_free fuel n used).
Proof.
  intros Hk Hni. destruct (scan_free fuel n used) eqn:E; [by eexists|].
  exfalso. apply Hni. by eapply scan_free_None.
Qed.

(** The numbers [n, n+1, ..., n+k-1]. *)
Definition zseq (n : Z) (k : nat) : list Z := (λ i, n + Z.of_nat i) <$> seq 0 k.

Lemma elem_of_zseq n k j : j ∈ zseq n k ↔ n ≤ j < n + Z.of_nat k.
Proof.
  unfold zseq. rewrite list_elem_of_fmap. split.
  - intros (i & -> & Hi%elem_of_seq). lia.
  - intros Hj. exists (Z.to_nat (j - n)). rewrite elem_of_seq. lia.
Qed.

Lemma NoDup_zseq n k : NoDup (zseq n k).
Proof. unfold zseq. apply NoDup_fmap_2; [intros ???; lia|apply NoDup_seq]. Qed.

Lemma length_zseq n k : length (zseq n k) = k.
Proof. unfold zseq. by rewrite length_fmap, length_seq. Qed.

(** The allocation loop terminates: among [size used + 1] consecutive numbers
    one is free. *)
Lemma first_free_total n used : is_Some (first_free n used).
Proof.
  unfold first_free. destruct (scan_free _ n used) eqn:E; [by eexists|].
  exfalso. pose proof (scan_free_None _ _ _ E) as Hall.
  assert (list_to_set (zseq n (S (size used))) ⊆ used) as Hsub.
  { intros j. rewrite elem_of_list_to_set, elem_of_zseq. apply Hall. }
  apply subseteq_size in Hsub.
  rewrite size_list_to_set in Hsub by apply NoDup_zseq.
  rewrite length_zseq in Hsub. lia.
Qed.

Lemma first_free_spec n used k :
  first_free n used = Some k →
  n ≤ k ∧ (k ∉ used) ∧ (∀ j, n ≤ j < k → j ∈ used).
Proof. apply scan_free_Some. Qed.

(** ** Sorted lists *)

Lemma sublist_sorted {A} (R : relation A) l k :
  l `sublist_of` k → StronglySorted R k → StronglySorted R l.
Proof.
  induction 1 as [|x l k Hsub IH|x l k Hsub IH]; [done| |];
    rewrite ?StronglySorted_cons; intros [Hx Hk]; [|by apply IH].
  split; [|by apply IH]. rewrite Forall_forall in *. intros y Hy.
  apply Hx. by eapply elem_of_sublist.
Qed.

Lemma reverse_sorted {A} (R : relation A) l :
  StronglySorted R l → StronglySorted (flip R) (rev l).
Proof.
  induction 1 as [|x l Hl IH Hx]; simpl; [constructor|].
  apply StronglySorted_app_2; [|done|by repeat constructor].
  intros y z Hy ->%list_elem_of_singleton. rewrite Forall_forall in Hx. apply Hx.
  by rewrite list_elem_of_In, in_rev, <- list_elem_of_In.
Qed.

(** ** Sums *)

Definition zsum {A} (f : A → Z) (l : list A) : Z := foldr (λ x z, f x + z) 0 l.

Lemma zsum_ext {A} (f g : A → Z) l : (∀ x, x ∈ l → f x = g x) → zsum f l = zsum g l.
Proof.
  induction l as [|x l IH]; intros H; simpl; [done|].
  rewrite (H x), IH; [done|intros y Hy; apply H|]; set_solver.
Qed.

Lemma zsum_add {A} (f g : A → Z) l : zsum (λ x, f x + g x) l = zsum f l + zsum g l.
Proof. induction l as [|x l IH]; simpl; [done|]. rewrite IH. lia. Qed.

Lemma zsum_zero {A} (l : list A) : zsum (λ _, 0) l = 0.
Proof. by induction l. Qed.

(** One summand of a list without duplicates. *)
Lemma zsum_one {A} `{EqDecision A} (f : A → Z) l a :
  NoDup l → a ∈ l → (∀ x, x ≠ a → f x = 0) → zsum f l = f a.
Proof.
  induction 1 as [|x l Hx Hl IH]; [set_solver|]. intros Ha Hf; simpl.
  destruct (decide (x = a)) as [->|Hne].
  - rewrite (zsum_ext f (λ _, 0)), zsum_zero; [lia|].
    intros y Hy. apply Hf. intros ->. done.
  - rewrite (Hf x Hne), IH; [done|set_solver|done].
Qed.

(** ** Automation *)

Create HintDb daq.
#[export] Hint Resolve dict_wf_dset dict_wf_ddel keeps_ret keeps_bind : daq.
Create Rewrite HintDb daq_len.
#[export] Hint Rewrite @len_app @len_cons @len_nil : daq_len.

(** Split a hypothesis [m = Ok a] built with the error monad into its steps. *)
Ltac inv_res :=
  repeat match goal with
  | H : Ok _ = Ok _ |- _ => injection H as H; subst
  | H : Ok _ = Raise _ |- _ => discriminate H
  | H : Raise _ = Ok _ |- _ => discriminate H
  | H : Raise _ = Raise _ |- _ => injection H as H; subst
  | H : mbind _ ?r = Ok _ |- _ =>
      unfold mbind, res_bind in H
  | H : match ?r with Ok _ => _ | Raise _ => Raise _ end = Ok _ |- _ =>
      let E := fresh "E" in destruct r eqn:E; [|discriminate H]
  end.

(** [lia] with division and remainder by constants. *)
Ltac zlia := Z.div_mod_to_equations; lia.

(** Case analysis on the comparison booleans of [Z]. *)
Ltac z_cases :=
  repeat match goal with
  | |- context [Z.ltb ?a ?b] => destruct (Z.ltb_spec a b)
  | |- context [Z.leb ?a ?b] => destruct (Z.leb_spec a b)
  | |- context [Z.eqb ?a ?b] => destruct (Z.eqb_spec a b)
  | H : context [Z.ltb ?a ?b] |- _ => destruct (Z.ltb_spec a b)
  | H : context [Z.leb ?a ?b] |- _ => destruct (Z.leb_spec a b)
  | H : context [Z.eqb ?a ?b] |- _ => destruct (Z.eqb_spec a b)
  end.
