(* ===== verification/PyVal.v ===== *)
(** * Values of configuration documents

    What [yaml.safe_load] and the command line give the program, and what it
    hands to [yaml.safe_dump]: [None], booleans, integers, strings, lists and
    mappings with string keys.  The operations are those of Python: subscripts,
    [.get], membership, truth value, equality and [int()], with the exception
    each raises on an operand of another type. *)

From stdpp Require Import base list gmap strings.
From Stdlib Require Import ZArith Lia Ascii.
From S2P Require Import Prelude.

Inductive val :=
  | VNone
  | VBool (b : bool)
  | VInt (z : Z)
  | VStr (s : string)
  | VList (l : list val)
  | VDict (d : list (string * val)).

Module PyVal.

(** Truth value. *)
Definition truth (v : val) : bool :=
  match v with
  | VNone => false
  | VBool b => b
  | VInt z => negb (z =? 0)
  | VStr s => negb (bool_decide (s = EmptyString))
  | VList l => negb (bool_decide (length l = 0%nat))
  | VDict d => negb (bool_decide (length d = 0%nat))
  end.

(** [v == w]; [True] and [False] are the integers 1 and 0, and mappings are
    compared without regard to the order of their items. *)
Fixpoint py_eq (v w : val) {struct v} : bool :=
  match v, w with
  | VNone, VNone => true
  | VBool b, VBool c => Bool.eqb b c
  | VBool b, VInt z => Z.b2z b =? z
  | VInt z, VBool b => z =? Z.b2z b
  | VInt y, VInt z => y =? z
  | VStr s, VStr t => bool_decide (s = t)
  | VList l, VList m =>
      (fix go (l m : list val) : bool :=
         match l, m with
         | [], [] => true
         | x :: l', y :: m' => py_eq x y && go l' m'
         | _, _ => false
         end) l m
  | VDict d, VDict e =>
      bool_decide (length d = length e) &&
      (fix go (d : list (string * val)) : bool :=
         match d with
         | [] => true
         | (k, x) :: d' =>
             match dget k e with Some y => py_eq x y | None => false end && go d'
         end) d
  | _, _ => false
  end.

(** [v[k]] *)
Definition getitem (v : val) (k : string) : res val :=
  match v with
  | VDict d => of_option KeyError (dget k d)
  | _ => Raise TypeError
  end.

(** [v.get(k, dflt)] *)
Definition get (v : val) (k : string) (dflt : val) : res val :=
  match v with
  | VDict d => Ok (default dflt (dget k d))
  | _ => Raise AttributeError
  end.

(** [k in s] on strings *)
Definition substring (k s : string) : bool :=
  match String.index 0 k s with Some _ => true | None => false end.

(** [k in v] *)
Definition contains (k : string) (v : val) : res bool :=
  match v with
  | VDict d => Ok (dmem k d)
  | VList l => Ok (existsb (py_eq (VStr k)) l)
  | VStr s => Ok (substring k s)
  | _ => Raise TypeError
  end.

(** [for x in v] *)
Definition iter (v : val) : res (list val) :=
  match v with
  | VList l => Ok l
  | VDict d => Ok (VStr <$> dkeys d)
  | VStr s => Ok ((λ c, VStr (String c EmptyString)) <$> String.list_ascii_of_string s)
  | _ => Raise TypeError
  end.

(** A mapping that is assigned to. *)
Definition as_dict (v : val) : res (dict string val) :=
  match v with VDict d => Ok d | _ => Raise TypeError end.

(** [s.startswith(p)]; a value that is no string has no such method. *)
Definition startswith (v : val) (p : string) : res bool :=
  match v with
  | VStr s => Ok (String.prefix p s)
  | _ => Raise AttributeError
  end.

(** ** [int(v)] and [int(v, 0)] *)

Definition digit_val (base : Z) (c : ascii) : option Z :=
  let n := Z.of_nat (Ascii.nat_of_ascii c) in
  let d := if (48 <=? n) && (n <=? 57) then n - 48
           else if (97 <=? n) && (n <=? 122) then n - 87
           else if (65 <=? n) && (n <=? 90) then n - 55
           else 99 in
  if d <? base then Some d else None.

(** Digits with single underscores between them; [sep] says that the last
    character was one (or that no digit was seen yet). *)
Fixpoint digits (base acc : Z) (sep : bool) (l : list ascii) : option Z :=
  match l with
  | [] => if sep then None else Some acc
  | c :: l' =>
      if bool_decide (c = "_"%char) then
        if sep then None else digits base acc true l'
      else match digit_val base c with
           | Some d => digits base (base * acc + d) false l'
           | None => None
           end
  end.

(** White space of [str.strip], below code point 256. *)
Definition is_space (c : ascii) : bool :=
  bool_decide (Ascii.nat_of_ascii c ∈ [9; 10; 11; 12; 13; 28; 29; 30; 31; 32; 133; 160]%nat).

Fixpoint lstrip (l : list ascii) : list ascii :=
  match l with
  | c :: l' => if is_space c then lstrip l' else l
  | [] => []
  end.

Definition strip (l : list ascii) : list ascii := rev (lstrip (rev (lstrip l))).

Definition signed (f : list ascii → option Z) (l : list ascii) : option Z :=
  match l with
  | c :: l' =>
      if bool_decide (c = "-"%char) then Z.opp <$> f l'
      else if bool_decide (c = "+"%char) then f l' else f l
  | [] => f l
  end.

(** The prefixes of a literal: hexadecimal, octal, binary; a decimal literal
    other than zero has no leading zero.  An underscore may follow a prefix. *)
Definition literal (l : list ascii) : option Z :=
  let prefixed base l' :=
    match l' with
    | c :: l'' => if bool_decide (c = "_"%char) then digits base 0 true l'' else digits base 0 true l'
    | [] => None
    end in
  match l with
  | c0 :: c :: l' =>
      if bool_decide (c0 = "0"%char) then
        if bool_decide (c = "x"%char ∨ c = "X"%char) then prefixed 16 l'
        else if bool_decide (c = "o"%char ∨ c = "O"%char) then prefixed 8 l'
        else if bool_decide (c = "b"%char ∨ c = "B"%char) then prefixed 2 l'
        else match digits 10 0 true l with Some 0 => Some 0 | _ => None end
      else digits 10 0 true l
  | _ => digits 10 0 true l
  end.

(** [int(v)] *)
Definition to_int (v : val) : res Z :=
  match v with
  | VInt z => Ok z
  | VBool b => Ok (Z.b2z b)
  | VStr s => of_option ValueError (signed (digits 10 0 true) (strip (String.list_ascii_of_string s)))
  | _ => Raise TypeError
  end.

(** [int(v, 0)]: the operand must be a string. *)
Definition to_int0 (v : val) : res Z :=
  match v with
  | VStr s => of_option ValueError (signed literal (strip (String.list_ascii_of_string s)))
  | _ => Raise TypeError
  end.

(** An optional integer field as a value. *)
Definition vopt (z : option Z) : val := match z with Some n => VInt n | None => VNone end.

Definition vints (l : list Z) : val := VList (VInt <$> l).

Example to_int_dpid : to_int0 (VStr "0x7f"%string) = Ok 127 ∧ to_int (VStr " 12 "%string) = Ok 12
  ∧ to_int (VStr "1_000"%string) = Ok 1000 ∧ to_int (VStr "x"%string) = Raise ValueError
  ∧ to_int0 (VStr "-010"%string) = Raise ValueError ∧ to_int0 (VInt 3) = Raise TypeError.
Proof. repeat split; reflexivity. Qed.

End PyVal.
