(* ===== verification/PyText.v ===== *)
(** * Strings, sorted keys and regular expressions of Python

    The string methods and the part of [re] the components use: a backtracking
    matcher with greedy and lazy repetition of character classes, alternatives
    tried in order, and groups.  A declarative meaning of the expressions
    ([den]) and the lemmas that relate the matcher to it ([go_sound],
    [go_complete], [search_spec]) are shared by its clients.  Characters are
    code points below 256. *)

From stdpp Require Import base list gmap strings pretty.
From Stdlib Require Import ZArith Lia Ascii Sorted.
From S2P Require Import Prelude.

Module PyText.
Local Open Scope string_scope.
Local Open Scope list_scope.
Local Open Scope Z_scope.

Abbreviation chars := String.list_ascii_of_string (only parsing).
Abbreviation text := String.string_of_list_ascii (only parsing).

(** ** [list.sort] and [sorted] on strings *)

Fixpoint insert_key (k : string) (l : list string) : list string :=
  match l with
  | [] => [k]
  | k' :: l' => if String.leb k k' then k :: l else k' :: insert_key k l'
  end.
Definition sort_keys (l : list string) : list string := foldr insert_key [] l.

Lemma insert_key_perm k l : insert_key k l ≡ₚ k :: l.
Proof.
  induction l as [|x l IH]; simpl; [done|]. destruct (String.leb k x); [done|].
  rewrite IH. apply Permutation_swap.
Qed.

Lemma sort_keys_perm l : sort_keys l ≡ₚ l.
Proof. induction l as [|x l IH]; simpl; [done|]. by rewrite insert_key_perm, IH. Qed.

Lemma elem_of_sort_keys k l : k ∈ sort_keys l ↔ k ∈ l.
Proof. by rewrite sort_keys_perm. Qed.

Lemma insert_key_sorted k l : StronglySorted String.le l → StronglySorted String.le (insert_key k l).
Proof.
  induction 1 as [|x l Hl IH Hx]; simpl; [by repeat constructor|].
  destruct (String.leb k x) eqn:Hk.
  - constructor; [by constructor|]. constructor; [by rewrite <- Is_true_true in Hk|].
    eapply Forall_impl; [done|]. intros y Hy. transitivity x; [by rewrite <- Is_true_true in Hk|done].
  - constructor; [done|]. rewrite insert_key_perm. constructor; [|done].
    destruct (total String.le k x) as [H|H]; [|done]. unfold String.le in H. by rewrite Hk in H.
Qed.

Lemma sort_keys_sorted l : StronglySorted String.le (sort_keys l).
Proof. induction l; simpl; [constructor|by apply insert_key_sorted]. Qed.

(** ** String methods *)

Definition code (c : ascii) : nat := Ascii.nat_of_ascii c.

(** White space: [str.isspace] and [\s]. *)
Definition is_space (c : ascii) : bool :=
  bool_decide (code c ∈ [9; 10; 11; 12; 13; 28; 29; 30; 31; 32; 133; 160]%nat).

Definition newline : ascii := "010"%char.
Definition nl : string := String newline EmptyString.

Fixpoint lstrip (l : list ascii) : list ascii :=
  match l with
  | c :: l' => if is_space c then lstrip l' else l
  | [] => []
  end.

(** [s.strip()] *)
Definition strip (s : string) : string := text (rev (lstrip (rev (lstrip (chars s))))).

(** [sep.join(l)] *)
Fixpoint join (sep : string) (l : list string) : string :=
  match l with
  | [] => ""
  | [x] => x
  | x :: l' => x +:+ sep +:+ join sep l'
  end.

(** [s.split(c)] for a character *)
Fixpoint split_on (c : ascii) (l : list ascii) : list string :=
  match l with
  | [] => [""]
  | x :: l' =>
      if bool_decide (x = c) then "" :: split_on c l'
      else match split_on c l' with
           | w :: r => String x w :: r
           | [] => [String x ""]
           end
  end.

(** [s.split()]: the words between white space *)
Fixpoint words_from (cur : list ascii) (l : list ascii) : list string :=
  match l with
  | [] => if bool_decide (cur = []) then [] else [text cur]
  | x :: l' =>
      if is_space x then
        if bool_decide (cur = []) then words_from [] l' else text cur :: words_from [] l'
      else words_from (cur ++ [x]) l'
  end.
Definition words (s : string) : list string := words_from [] (chars s).

(** [s.upper()] on ASCII letters *)
Definition upper_char (c : ascii) : ascii :=
  if bool_decide (97 ≤ code c ≤ 122)%nat then Ascii.ascii_of_nat (code c - 32) else c.
Definition upper (s : string) : string := text (upper_char <$> chars s).

(** [s.lower()] on ASCII letters *)
Definition lower_char (c : ascii) : ascii :=
  if bool_decide (65 ≤ code c ≤ 90)%nat then Ascii.ascii_of_nat (code c + 32) else c.
Definition lower (s : string) : string := text (lower_char <$> chars s).

(** [s.replace(c, '')] for a character *)
Definition remove_char (c : ascii) (s : string) : string :=
  text (filter (λ x, x ≠ c) (chars s)).

(** [str(z)] *)
Definition str_int (z : Z) : string := pretty z.

Lemma chars_app s t : chars (s +:+ t) = chars s ++ chars t.
Proof. induction s as [|c s IH]; simpl; [done|]. by rewrite IH. Qed.

Lemma append_assoc s t u : (s +:+ t) +:+ u = s +:+ t +:+ u.
Proof.
  induction s as [|c s IH]; [done|].
  change (String c ((s +:+ t) +:+ u) = String c (s +:+ t +:+ u)). by rewrite IH.
Qed.

Lemma text_app l m : text (l ++ m) = text l +:+ text m.
Proof. induction l as [|c l IH]; simpl; [done|]. by rewrite IH. Qed.

End PyText.

Module Regex.
Import PyText.
Local Open Scope list_scope.

(** ** Expressions *)

Abbreviation input := (list ascii) (only parsing).
Abbreviation groups := (dict nat string) (only parsing).

Inductive re :=
  | Eps
  | Cls (p : ascii → bool)
  | Seq (a b : re)
  | Alt (a b : re)
  | Rep (greedy : bool) (p : ascii → bool)
  | Grp (n : nat) (a : re)
  | Bol
  | Eol.

(** [.], a literal, and one or more *)
Definition any (c : ascii) : bool := negb (bool_decide (c = newline)).
Definition lit (s : string) : re :=
  foldr (λ c r, Seq (Cls (λ x, bool_decide (x = c))) r) Eps (String.list_ascii_of_string s).
Definition Plus (p : ascii → bool) : re := Seq (Cls p) (Rep true p).
Definition Opt (a : re) : re := Alt a Eps.

(** What a group took: the part of [rest] before [rest']. *)
Definition taken (rest rest' : input) : string :=
  String.string_of_list_ascii (take (length rest - length rest') rest).

(** ** The matcher

    [k] is what remains to be matched; a choice that makes [k] fail is undone. *)

Fixpoint greedy_rep {X} (p : ascii → bool) (rest : input) (k : input → option X) : option X :=
  match rest with
  | c :: rest' =>
      if p c then match greedy_rep p rest' k with Some x => Some x | None => k rest end
      else k rest
  | [] => k []
  end.

Fixpoint lazy_rep {X} (p : ascii → bool) (rest : input) (k : input → option X) : option X :=
  match k rest with
  | Some x => Some x
  | None =>
      match rest with
      | c :: rest' => if p c then lazy_rep p rest' k else None
      | [] => None
      end
  end.

Definition at_end (rest : input) : bool :=
  match rest with
  | [] => true
  | [c] => bool_decide (c = newline)
  | _ => false
  end.

Fixpoint go {X} (full : input) (r : re) (rest : input) (g : groups)
    (k : input → groups → option X) {struct r} : option X :=
  match r with
  | Eps => k rest g
  | Cls p => match rest with c :: rest' => if p c then k rest' g else None | [] => None end
  | Seq a b => go full a rest g (λ rest g, go full b rest g k)
  | Alt a b =>
      match go full a rest g k with Some x => Some x | None => go full b rest g k end
  | Rep true p => greedy_rep p rest (λ rest, k rest g)
  | Rep false p => lazy_rep p rest (λ rest, k rest g)
  | Grp n a => go full a rest g (λ rest' g, k rest' (dset n (taken rest rest') g))
  | Bol => if bool_decide (length rest = length full) then k rest g else None
  | Eol => if at_end rest then k rest g else None
  end.

(** [re.search]: the first position at which the expression matches. *)
Fixpoint search_from (full : input) (r : re) (rest : input) : option groups :=
  match go full r rest [] (λ _ g, Some g) with
  | Some g => Some g
  | None => match rest with _ :: rest' => search_from full r rest' | [] => None end
  end.
Definition search (r : re) (s : string) : option groups :=
  let l := String.list_ascii_of_string s in search_from l r l.

(** [match.group(n)] *)
Definition group (n : nat) (g : groups) : option string := dget n g.

(** ** The meaning of an expression *)

Fixpoint den (full : input) (r : re) (rest : input) (g : groups) (rest' : input) (g' : groups) :
    Prop :=
  match r with
  | Eps => rest' = rest ∧ g' = g
  | Cls p => ∃ c, rest = c :: rest' ∧ p c = true ∧ g' = g
  | Seq a b => ∃ rest1 g1, den full a rest g rest1 g1 ∧ den full b rest1 g1 rest' g'
  | Alt a b => den full a rest g rest' g' ∨ den full b rest g rest' g'
  | Rep _ p => ∃ l, rest = l ++ rest' ∧ Forall (λ c, p c = true) l ∧ g' = g
  | Grp n a => ∃ g1, den full a rest g rest' g1 ∧ g' = dset n (taken rest rest') g1
  | Bol => length rest = length full ∧ rest' = rest ∧ g' = g
  | Eol => at_end rest = true ∧ rest' = rest ∧ g' = g
  end.

Lemma greedy_rep_sound {X} p rest (k : input → option X) x :
  greedy_rep p rest k = Some x →
  ∃ l rest', rest = l ++ rest' ∧ Forall (λ c, p c = true) l ∧ k rest' = Some x.
Proof.
  induction rest as [|c rest IH]; simpl; intros H; [by exists [], []|].
  destruct (p c) eqn:Hc; [|by exists [], (c :: rest)].
  destruct (greedy_rep p rest k) eqn:E; simplify_eq.
  - destruct IH as (l & rest' & -> & Hl & Hk); [done|]. exists (c :: l), rest'. auto.
  - by exists [], (c :: rest).
Qed.

Lemma greedy_rep_complete {X} p l rest' (k : input → option X) :
  Forall (λ c, p c = true) l → greedy_rep p (l ++ rest') k = None → k rest' = None.
Proof.
  induction 1 as [|c l Hc Hl IH]; simpl.
  - destruct rest' as [|c rest']; simpl; [done|]. destruct (p c); [|done].
    by destruct (greedy_rep p rest' k).
  - rewrite Hc. destruct (greedy_rep p (l ++ rest') k); [done|auto].
Qed.

Lemma lazy_rep_sound {X} p rest (k : input → option X) x :
  lazy_rep p rest k = Some x →
  ∃ l rest', rest = l ++ rest' ∧ Forall (λ c, p c = true) l ∧ k rest' = Some x.
Proof.
  induction rest as [|c rest IH]; simpl; intros H.
  - destruct (k []) eqn:E; [|done]. exists [], []. by simplify_eq.
  - destruct (k (c :: rest)) eqn:E; [by simplify_eq; exists [], (c :: rest)|].
    destruct (p c) eqn:Hc; [|done].
    destruct IH as (l & rest' & -> & Hl & Hk); [done|]. exists (c :: l), rest'. auto.
Qed.

Lemma lazy_rep_complete {X} p l rest' (k : input → option X) :
  Forall (λ c, p c = true) l → lazy_rep p (l ++ rest') k = None → k rest' = None.
Proof.
  induction 1 as [|c l Hc Hl IH]; simpl.
  - destruct rest'; simpl; by destruct (k _).
  - rewrite Hc. destruct (k (c :: l ++ rest')); [done|auto].
Qed.

(** The matcher finds what the expression means, ... *)
Lemma go_sound {X} full r : ∀ rest g (k : input → groups → option X) x,
  go full r rest g k = Some x →
  ∃ rest' g', den full r rest g rest' g' ∧ k rest' g' = Some x.
Proof.
  induction r as [|p|a IHa b IHb|a IHa b IHb|greedy p|n a IHa| |];
    intros rest g k x H; simpl in *.
  - eauto.
  - destruct rest as [|c rest]; [done|]. destruct (p c) eqn:Hc; [|done].
    exists rest, g. eauto.
  - apply IHa in H as (rest1 & g1 & Ha & H). apply IHb in H as (rest2 & g2 & Hb & H).
    exists rest2, g2. split; [by exists rest1, g1|done].
  - destruct (go full a rest g k) eqn:E; simplify_eq.
    + apply IHa in E as (rest' & g' & Ha & E). exists rest', g'. auto.
    + apply IHb in H as (rest' & g' & Hb & H). exists rest', g'. auto.
  - destruct greedy; [apply greedy_rep_sound in H|apply lazy_rep_sound in H];
      destruct H as (l & rest' & -> & Hl & Hk); exists rest', g; split; eauto.
  - apply IHa in H as (rest' & g' & Ha & H). by exists rest', (dset n (taken rest rest') g'); eauto.
  - case_bool_decide; [|done]. by exists rest, g.
  - destruct (at_end rest) eqn:He; [|done]. by exists rest, g.
Qed.

(** ... and fails only when nothing the expression means fits. *)
Lemma go_complete {X} full r : ∀ rest g rest' g' (k : input → groups → option X),
  den full r rest g rest' g' → go full r rest g k = None → k rest' g' = None.
Proof.
  induction r as [|p|a IHa b IHb|a IHa b IHb|greedy p|n a IHa| |];
    intros rest g rest' g' k Hd H; simpl in *.
  - destruct Hd as [-> ->]. done.
  - destruct Hd as (c & -> & Hc & ->). by rewrite Hc in H.
  - destruct Hd as (rest1 & g1 & Ha & Hb). eapply IHb; [done|].
    by apply (IHa _ _ _ _ _ Ha) in H.
  - destruct (go full a rest g k) eqn:E; [done|]. destruct Hd as [Hd|Hd]; eauto.
  - destruct Hd as (l & -> & Hl & ->).
    destruct greedy; [by eapply greedy_rep_complete in H|by eapply lazy_rep_complete in H].
  - destruct Hd as (g1 & Ha & ->). by apply (IHa _ _ _ _ _ Ha) in H.
  - destruct Hd as (Hl & -> & ->). by rewrite bool_decide_true in H.
  - destruct Hd as (Hl & -> & ->). by rewrite Hl in H.
Qed.

(** A search fails exactly when the expression matches nowhere. *)
Lemma search_spec full r rest :
  search_from full r rest = None ↔
  ∀ l rest1 rest2 g, rest = l ++ rest1 → ¬ den full r rest1 [] rest2 g.
Proof.
  induction rest as [|c rest IH]; simpl.
  - split.
    + intros H l rest1 rest2 g Hr Hd. symmetry in Hr. apply app_eq_nil in Hr as [-> ->].
      destruct (go full r [] [] (λ _ g, Some g)) eqn:E; [done|].
      by apply (go_complete _ _ _ _ _ _ _ Hd) in E.
    + intros H. destruct (go full r [] [] (λ _ g, Some g)) eqn:E; [|done].
      apply go_sound in E as (rest2 & g' & Hd & _). by destruct (H [] [] rest2 g' eq_refl).
  - split.
    + intros H l rest1 rest2 g Hr Hd.
      destruct (go full r (c :: rest) [] (λ _ g, Some g)) eqn:E; [done|].
      destruct l as [|c' l]; simplify_eq/=.
      * by apply (go_complete _ _ _ _ _ _ _ Hd) in E.
      * by apply (proj1 IH H l rest1 rest2 g eq_refl).
    + intros H. destruct (go full r (c :: rest) [] (λ _ g, Some g)) eqn:E.
      * apply go_sound in E as (rest2 & g' & Hd & _).
        by destruct (H [] (c :: rest) rest2 g' eq_refl).
      * apply IH. intros l rest1 rest2 g ->. by apply (H (c :: l)).
Qed.

(** ** What repetitions take *)

(** A lazy repetition takes a token whose characters cannot start the rest. *)
Lemma lazy_token {X} p tok rest (k : input → option X) x :
  Forall (λ c, p c = true) tok →
  (∀ l c m, tok = l ++ c :: m → k (c :: m ++ rest) = None) →
  k rest = Some x → lazy_rep p (tok ++ rest) k = Some x.
Proof.
  induction tok as [|c tok IH]; intros Hp Hk Hx; simpl.
  - destruct rest; simpl; by rewrite Hx.
  - inversion Hp; subst. rewrite (Hk [] c tok) by done. case_match; [|congruence].
    apply IH; [done| |done]. intros l d m ->. by apply (Hk (c :: l)).
Qed.

(** A greedy repetition takes as much as it can. *)
Lemma greedy_token {X} p tok rest (k : input → option X) x :
  Forall (λ c, p c = true) tok →
  (∀ c m, rest = c :: m → p c = false) →
  k rest = Some x → greedy_rep p (tok ++ rest) k = Some x.
Proof.
  induction tok as [|c tok IH]; intros Hp Hk Hx; simpl.
  - destruct rest as [|c m]; simpl; [done|]. by rewrite (Hk c m).
  - inversion Hp; subst. case_match; [|congruence]. by rewrite IH.
Qed.

Lemma taken_app tok rest : taken (tok ++ rest) rest = String.string_of_list_ascii tok.
Proof.
  unfold taken. f_equal. rewrite length_app.
  replace (length tok + length rest - length rest)%nat with (length tok) by lia.
  apply take_app_length.
Qed.

Lemma go_lit {X} full s : ∀ rest g (k : input → groups → option X),
  go full (lit s) (String.list_ascii_of_string s ++ rest) g k = k rest g.
Proof.
  induction s as [|c s IH]; intros rest g k; [done|].
  unfold lit in *. simpl. by rewrite bool_decide_true, IH.
Qed.

Lemma go_seq_lit {X} full s r rest g (k : input → groups → option X) :
  go full (Seq (lit s) r) (String.list_ascii_of_string s ++ rest) g k = go full r rest g k.
Proof. apply (go_lit full s rest g). Qed.

(** A sequence of character classes takes a word of fitting characters. *)
Definition classes (ps : list (ascii → bool)) : re := foldr (λ p r, Seq (Cls p) r) Eps ps.

Lemma go_classes {X} full ps w rest g (k : input → groups → option X) :
  Forall2 (λ (p : ascii → bool) c, p c = true) ps w → go full (classes ps) (w ++ rest) g k = k rest g.
Proof. induction 1 as [|p c ps w Hc Hw IH]; simpl; [done|]. by rewrite Hc. Qed.

Lemma go_bol {X} full r g (k : input → groups → option X) :
  go full (Seq Bol r) full g k = go full r full g k.
Proof. simpl. by rewrite bool_decide_true. Qed.

(** A match at the first position is what a search finds. *)
Lemma search_here full r rest g :
  go full r rest [] (λ _ g, Some g) = Some g → search_from full r rest = Some g.
Proof. intros H. destruct rest; simpl; by rewrite H. Qed.

End Regex.
