(* ===== verification/PyTime.v ===== *)
(** * Dates and times of Python

    [datetime] values without a time zone: their text ([isoformat]), their order
    and distance, and the parser the traffic tests use for the time stamps of
    tcpdump ([strptime]), with the regular expression Python makes of its
    format.  Comparing texts of times compares the times ([compare_padded]), and
    a printed time stamp is parsed back ([strptime_stamp]). *)

From stdpp Require Import base list gmap strings.
From Stdlib Require Import ZArith Lia Ascii.
From S2P Require Import Prelude PyText.

Import PyText.

Module PyTime.
Local Open Scope string_scope.
Local Open Scope list_scope.
Local Open Scope Z_scope.

(** ** Times *)

Record datetime := mkTime {
  year : Z; month : Z; day : Z; hour : Z; minute : Z; second : Z; microsecond : Z
}.

Definition digit_char (z : Z) : ascii := Ascii.ascii_of_nat (Z.to_nat (48 + z)).
(** [z] with [w] digits *)
Fixpoint padded (w : nat) (z : Z) : list ascii :=
  match w with
  | O => []
  | S w' => padded w' (z / 10) ++ [digit_char (z mod 10)]
  end.
Definition fraction (t : datetime) : list ascii :=
  if microsecond t =? 0 then [] else ["."%char] ++ padded 6 (microsecond t).

(** [t.isoformat(sep)] *)
Definition isoformat (sep : ascii) (t : datetime) : string :=
  String.string_of_list_ascii
    (padded 4 (year t) ++ ["-"%char] ++ padded 2 (month t) ++ ["-"%char] ++ padded 2 (day t)
     ++ [sep] ++ padded 2 (hour t) ++ [":"%char] ++ padded 2 (minute t) ++ [":"%char]
     ++ padded 2 (second t) ++ fraction t).

Definition is_digit (c : ascii) : bool := bool_decide (48 ≤ code c ≤ 57)%nat.

Definition valid_time (t : datetime) : Prop :=
  0 ≤ year t < 10000 ∧ 0 ≤ month t < 100 ∧ 0 ≤ day t < 100 ∧ 0 ≤ hour t < 100 ∧
  0 ≤ minute t < 100 ∧ 0 ≤ second t < 100 ∧ 0 ≤ microsecond t < 1000000.

Definition then_compare (c d : comparison) : comparison := match c with Eq => d | _ => c end.
Definition time_compare (s t : datetime) : comparison :=
  then_compare (year s ?= year t) (then_compare (month s ?= month t)
  (then_compare (day s ?= day t) (then_compare (hour s ?= hour t)
  (then_compare (minute s ?= minute t) (then_compare (second s ?= second t)
    (microsecond s ?= microsecond t)))))).


(** ** Texts of times *)

Definition all_digits (l : list ascii) : Prop := Forall (λ c, is_digit c = true) l.

Lemma padded_digits w z : all_digits (padded w z).
Proof.
  revert z. induction w as [|w IH]; intros z; simpl; [constructor|].
  apply Forall_app. split; [apply IH|]. repeat constructor.
  unfold is_digit, digit_char, code. apply bool_decide_true.
  pose proof (Z.mod_pos_bound z 10 ltac:(lia)). rewrite nat_ascii_embedding by lia. lia.
Qed.

Lemma filter_digits c l : is_digit c = false → all_digits l → filter (λ x, x ≠ c) l = l.
Proof.
  intros Hc. induction 1 as [|d l Hd Hl IH]; [done|]. rewrite filter_cons_True, IH; [done|]. congruence.
Qed.

Abbreviation compare_chars l m :=
  (String.compare (String.string_of_list_ascii l) (String.string_of_list_ascii m)) (only parsing).

Lemma compare_app l l' m m' :
  length l = length l' →
  compare_chars (l ++ m) (l' ++ m') = then_compare (compare_chars l l') (compare_chars m m').
Proof.
  revert l'. induction l as [|a l IH]; intros [|b l'] Hl; simplify_eq/=; [done|].
  rewrite IH by done. by destruct (Ascii.compare a b).
Qed.

Lemma compare_digits a b :
  0 ≤ a < 10 → 0 ≤ b < 10 → compare_chars [digit_char a] [digit_char b] = (a ?= b).
Proof.
  intros Ha Hb.
  assert (a ∈ zseq 0 10) as Ha' by (apply elem_of_zseq; lia).
  assert (b ∈ zseq 0 10) as Hb' by (apply elem_of_zseq; lia).
  cbn in Ha', Hb'.
  repeat (apply elem_of_cons in Ha' as [->|Ha'];
    [repeat (apply elem_of_cons in Hb' as [->|Hb']; [reflexivity|]); set_solver|]); set_solver.
Qed.

Lemma length_padded w z : length (padded w z) = w.
Proof. revert z. induction w; intros z; simpl; [done|]. rewrite length_app, IHw. simpl. lia. Qed.

Lemma compare_padded w : ∀ a b,
  0 ≤ a < 10 ^ Z.of_nat w → 0 ≤ b < 10 ^ Z.of_nat w →
  compare_chars (padded w a) (padded w b) = (a ?= b).
Proof.
  induction w as [|w IH]; intros a b Ha Hb; cbn [padded].
  - change (10 ^ Z.of_nat 0) with 1 in *. by replace a with 0 by lia; replace b with 0 by lia.
  - rewrite Nat2Z.inj_succ, Z.pow_succ_r in Ha, Hb by lia.
    rewrite compare_app by (by rewrite !length_padded).
    rewrite IH by (split; zlia). rewrite compare_digits by zlia.
    unfold then_compare. clear IH.
    pose proof (Z.div_mod a 10 ltac:(lia)). pose proof (Z.div_mod b 10 ltac:(lia)).
    pose proof (Z.mod_pos_bound a 10 ltac:(lia)). pose proof (Z.mod_pos_bound b 10 ltac:(lia)).
    clear Ha Hb. destruct (a / 10 ?= b / 10) eqn:E; symmetry;
      [apply Z.compare_eq_iff in E; destruct (a mod 10 ?= b mod 10) eqn:F;
        [apply Z.compare_eq_iff in F; apply Z.compare_eq_iff
        |rewrite Z.compare_lt_iff in F; apply Z.compare_lt_iff
        |apply Z.compare_gt_iff in F; apply Z.compare_gt_iff]
      |rewrite Z.compare_lt_iff in E; apply Z.compare_lt_iff
      |apply Z.compare_gt_iff in E; apply Z.compare_gt_iff]; lia.
Qed.

Lemma compare_fraction s t :
  valid_time s → valid_time t →
  compare_chars (fraction s) (fraction t) = (microsecond s ?= microsecond t).
Proof.
  intros (_ & _ & _ & _ & _ & _ & Hs) (_ & _ & _ & _ & _ & _ & Ht). unfold fraction.
  destruct (microsecond s =? 0) eqn:Es, (microsecond t =? 0) eqn:Et;
    rewrite ?Z.eqb_eq, ?Z.eqb_neq in *; cbn [app].
  - by rewrite Es, Et.
  - symmetry. apply Z.compare_lt_iff. lia.
  - symmetry. apply Z.compare_gt_iff. lia.
  - change ("."%char :: ?l) with (["."%char] ++ l).
    rewrite (compare_app ["."%char] ["."%char]) by done. apply compare_padded; lia.
Qed.

Lemma compare_refl_chars l : compare_chars l l = Eq.
Proof. induction l as [|a l IH]; simpl; [done|]. unfold Ascii.compare. by rewrite N.compare_refl. Qed.


(** ** The calendar *)

Definition is_leap (y : Z) : bool :=
  (y mod 4 =? 0) && (negb (y mod 100 =? 0) || (y mod 400 =? 0)).
Definition month_lengths (y : Z) : list Z :=
  [31; if is_leap y then 29 else 28; 31; 30; 31; 30; 31; 31; 30; 31; 30; 31].
Definition days_in_month (y m : Z) : Z := default 0 (month_lengths y !! Z.to_nat (m - 1)).

(** What the constructor [datetime(...)] accepts *)
Definition date_ok (t : datetime) : bool :=
  (1 <=? year t) && (year t <=? 9999) && (1 <=? month t) && (month t <=? 12)
  && (1 <=? day t) && (day t <=? days_in_month (year t) (month t))
  && (0 <=? hour t) && (hour t <? 24) && (0 <=? minute t) && (minute t <? 60)
  && (0 <=? second t) && (second t <? 60) && (0 <=? microsecond t) && (microsecond t <? 1000000).

(** [t.toordinal()], and the microseconds since the beginning of the calendar:
    [t - u] is the difference of these. *)
Definition toordinal (t : datetime) : Z :=
  let y := year t - 1 in
  y * 365 + y / 4 - y / 100 + y / 400
  + zsum id (take (Z.to_nat (month t - 1)) (month_lengths (year t))) + day t.
Definition microseconds (t : datetime) : Z :=
  (((toordinal t * 24 + hour t) * 60 + minute t) * 60 + second t) * 1000000 + microsecond t.

(** ** [strptime] with the format "%Y-%m-%d %H:%M:%S.%f" *)

Definition between (a b : nat) (c : ascii) : bool := bool_decide (a + 48 ≤ code c ≤ b + 48)%nat.
Definition two (a b c d : nat) : Regex.re := Regex.classes [between a b; between c d].
Definition one (a b : nat) : Regex.re := Regex.classes [between a b].
Definition is_blank (c : ascii) : bool := bool_decide (c = " "%char).

Definition year_re : Regex.re := Regex.classes (replicate 4 is_digit).
Definition month_re : Regex.re := Regex.Alt (two 1 1 0 2) (Regex.Alt (two 0 0 1 9) (one 1 9)).
Definition day_re : Regex.re :=
  Regex.Alt (two 3 3 0 1) (Regex.Alt (two 1 2 0 9) (Regex.Alt (two 0 0 1 9)
    (Regex.Alt (one 1 9) (Regex.classes [is_blank; between 1 9])))).
Definition hour_re : Regex.re := Regex.Alt (two 2 2 0 3) (Regex.Alt (two 0 1 0 9) (one 0 9)).
Definition minute_re : Regex.re := Regex.Alt (two 0 5 0 9) (one 0 9).
Definition second_re : Regex.re := Regex.Alt (two 6 6 0 1) (Regex.Alt (two 0 5 0 9) (one 0 9)).
(** One to [n + 1] digits *)
Fixpoint up_to (n : nat) : Regex.re :=
  match n with
  | O => Regex.Cls is_digit
  | S n' => Regex.Seq (Regex.Cls is_digit) (Regex.Opt (up_to n'))
  end.

Definition stamp_re : Regex.re :=
  Regex.Seq (Regex.Grp 1 year_re) (Regex.Seq (Regex.lit "-")
  (Regex.Seq (Regex.Grp 2 month_re) (Regex.Seq (Regex.lit "-")
  (Regex.Seq (Regex.Grp 3 day_re) (Regex.Seq (Regex.Plus is_space)
  (Regex.Seq (Regex.Grp 4 hour_re) (Regex.Seq (Regex.lit ":")
  (Regex.Seq (Regex.Grp 5 minute_re) (Regex.Seq (Regex.lit ":")
  (Regex.Seq (Regex.Grp 6 second_re) (Regex.Seq (Regex.lit ".")
    (Regex.Grp 7 (up_to 5))))))))))))).

(** [int] of a string of digits, perhaps with a blank before them *)
Definition int_of (l : list ascii) : Z :=
  foldl (λ z c, 10 * z + (Z.of_nat (code c) - 48)) 0 (filter (λ c, c ≠ " "%char) l).
Definition field (n : nat) (g : dict nat string) : Z :=
  int_of (default [] (String.list_ascii_of_string <$> Regex.group n g)).
(** The fraction is filled up with zeros. *)
Definition micro_field (g : dict nat string) : Z :=
  let s := default [] (String.list_ascii_of_string <$> Regex.group 7 g) in
  int_of (s ++ replicate (6 - length s) "0"%char).

Definition strptime (s : string) : res datetime :=
  let l := String.list_ascii_of_string s in
  match Regex.go l stamp_re l [] (λ rest g, Some (rest, g)) with
  | Some ([], g) =>
      let t := mkTime (field 1 g) (field 2 g) (field 3 g) (field 4 g) (field 5 g) (field 6 g)
                 (micro_field g) in
      if date_ok t then Ok t else Raise ValueError
  | _ => Raise ValueError
  end.

(** The time stamp of tcpdump *)
Definition stamp (t : datetime) : list ascii :=
  padded 4 (year t) ++ ["-"%char] ++ padded 2 (month t) ++ ["-"%char] ++ padded 2 (day t)
  ++ [" "%char] ++ padded 2 (hour t) ++ [":"%char] ++ padded 2 (minute t) ++ [":"%char]
  ++ padded 2 (second t) ++ ["."%char] ++ padded 6 (microsecond t).

Lemma int_of_padded w z : 0 ≤ z < 10 ^ Z.of_nat w → int_of (padded w z) = z.
Proof.
  unfold int_of. rewrite filter_digits by (done || apply padded_digits).
  revert z. induction w as [|w IH]; intros z Hz; cbn [padded].
  - change (10 ^ Z.of_nat 0) with 1 in Hz. simpl. lia.
  - rewrite Nat2Z.inj_succ, Z.pow_succ_r in Hz by lia.
    pose proof (Z.div_mod z 10 ltac:(lia)). pose proof (Z.mod_pos_bound z 10 ltac:(lia)).
    rewrite foldl_app, IH by lia. simpl. unfold digit_char, code.
    rewrite nat_ascii_embedding by lia. lia.
Qed.

(** A field of two digits: its expression takes both. *)
Definition takes_two (r : Regex.re) (a b : Z) : Prop :=
  ∀ X full n z rest g (k : list ascii → dict nat string → option X) x,
    a ≤ z ≤ b →
    k rest (dset n (String.string_of_list_ascii (padded 2 z)) g) = Some x →
    Regex.go full (Regex.Grp n r) (padded 2 z ++ rest) g k = Some x.

Lemma taken_two c d rest :
  Regex.taken (c :: d :: rest) rest = String.string_of_list_ascii [c; d].
Proof. apply (Regex.taken_app [c; d] rest). Qed.

Ltac field_cases a b :=
  unfold takes_two; intros X full n z rest g k x Hz Hk;
  let l := eval vm_compute in (zseq a (Z.to_nat (b - a + 1))) in
  assert (z ∈ l) as Hl by (change l with (zseq a (Z.to_nat (b - a + 1)));
    apply elem_of_zseq; simpl; lia);
  clear Hz;
  repeat (apply elem_of_cons in Hl as [->|Hl];
    [match type of Hk with context [padded 2 ?y] =>
       let p := eval vm_compute in (padded 2 y) in change (padded 2 y) with p in * end;
     cbn [Regex.go Regex.classes two one foldr app];
     repeat match goal with |- context [between ?p ?q ?c] =>
       let v := eval vm_compute in (between p q c) in change (between p q c) with v end;
     cbn iota; rewrite ?taken_two, Hk; reflexivity|]); by apply elem_of_nil in Hl.

Lemma month_takes : takes_two month_re 1 12.
Proof. unfold month_re. field_cases 1 12. Qed.
Lemma day_takes : takes_two day_re 1 31.
Proof. unfold day_re. field_cases 1 31. Qed.
Lemma hour_takes : takes_two hour_re 0 23.
Proof. unfold hour_re. field_cases 0 23. Qed.
Lemma minute_takes : takes_two minute_re 0 59.
Proof. unfold minute_re. field_cases 0 59. Qed.
Lemma second_takes : takes_two second_re 0 59.
Proof. unfold second_re. field_cases 0 59. Qed.

Lemma two_then {X} r a b full n r' z rest g (k : list ascii → dict nat string → option X) x :
  takes_two r a b → a ≤ z ≤ b →
  Regex.go full r' rest (dset n (String.string_of_list_ascii (padded 2 z)) g) k = Some x →
  Regex.go full (Regex.Seq (Regex.Grp n r) r') (padded 2 z ++ rest) g k = Some x.
Proof. intros Hr Hz Hk. by apply (Hr X full n z rest g). Qed.

Lemma padded_fits w z : Forall2 (λ (p : ascii → bool) c, p c = true) (replicate w is_digit) (padded w z).
Proof.
  pose proof (padded_digits w z) as H. rewrite <- (length_padded w z) at 1.
  induction H as [|c l Hc Hl IH]; simpl; by constructor.
Qed.

Lemma year_then {X} full n r w z rest g (k : list ascii → dict nat string → option X) x :
  Regex.go full r rest (dset n (String.string_of_list_ascii (padded w z)) g) k = Some x →
  Regex.go full (Regex.Seq (Regex.Grp n (Regex.classes (replicate w is_digit))) r)
    (padded w z ++ rest) g k = Some x.
Proof.
  intros Hk. cbn [Regex.go]. rewrite Regex.go_classes by apply padded_fits.
  by rewrite Regex.taken_app.
Qed.

Lemma digit_not_space c : is_digit c = true → is_space c = false.
Proof.
  unfold is_digit, is_space. intros H%bool_decide_eq_true. apply bool_decide_false.
  intros Hc. repeat (apply elem_of_cons in Hc as [Hc|Hc]; [lia|]). by apply elem_of_nil in Hc.
Qed.

Lemma blank_then {X} full r l rest g (k : list ascii → dict nat string → option X) x :
  all_digits l → l ≠ [] → Regex.go full r (l ++ rest) g k = Some x →
  Regex.go full (Regex.Seq (Regex.Plus is_space) r) ([" "%char] ++ l ++ rest) g k = Some x.
Proof.
  intros Hd Hl Hk. simpl. apply (Regex.greedy_token is_space [] (l ++ rest)); [done| |done].
  destruct Hd as [|c l Hc]; [done|]. intros ?? [= <- _]. by apply digit_not_space.
Qed.

Lemma char_then {X} c full r rest g (k : list ascii → dict nat string → option X) x :
  Regex.go full r rest g k = Some x →
  Regex.go full (Regex.Seq (Regex.lit (String c EmptyString)) r) ([c] ++ rest) g k = Some x.
Proof. intros Hk. by rewrite (Regex.go_seq_lit full (String c EmptyString)). Qed.

Lemma up_to_takes {X} full n : ∀ l rest g (k : list ascii → dict nat string → option X) x,
  length l = S n → all_digits l → k rest g = Some x →
  Regex.go full (up_to n) (l ++ rest) g k = Some x.
Proof.
  induction n as [|n IH]; intros [|c l] rest g k x Hl Hd Hk; simplify_eq/=;
    inversion Hd as [|?? Hc Hd']; subst; rewrite Hc.
  - by destruct l.
  - by rewrite (IH l rest g k x).
Qed.

Lemma date_ok_spec t : date_ok t = true →
  1 ≤ year t < 10000 ∧ 1 ≤ month t ≤ 12 ∧ 1 ≤ day t ≤ 31 ∧ 0 ≤ hour t ≤ 23 ∧
  0 ≤ minute t ≤ 59 ∧ 0 ≤ second t ≤ 59 ∧ 0 ≤ microsecond t < 1000000.
Proof.
  unfold date_ok. rewrite !andb_true_iff, !Z.leb_le, !Z.ltb_lt.
  assert (days_in_month (year t) (month t) ≤ 31); [|lia].
  unfold days_in_month, month_lengths.
  generalize (Z.to_nat (month t - 1)). intros n.
  destruct (is_leap _); do 12 (destruct n as [|n]; simpl; [lia|]); simpl; lia.
Qed.

Lemma field_eq n g w z :
  dget n g = Some (String.string_of_list_ascii (padded w z)) → 0 ≤ z < 10 ^ Z.of_nat w →
  field n g = z.
Proof.
  intros Hg Hz. unfold field, Regex.group. rewrite Hg. simpl.
  by rewrite String.list_ascii_of_string_of_list_ascii, int_of_padded.
Qed.

Lemma micro_field_eq g z :
  dget 7%nat g = Some (String.string_of_list_ascii (padded 6 z)) → 0 ≤ z < 1000000 →
  micro_field g = z.
Proof.
  intros Hg Hz. unfold micro_field, Regex.group. rewrite Hg.
  cbn [fmap option_fmap option_map default]. unfold default, id.
  rewrite String.list_ascii_of_string_of_list_ascii, length_padded.
  change (replicate (6 - 6) "0"%char) with (@nil ascii). rewrite app_nil_r.
  by apply int_of_padded.
Qed.

(** What the groups hold after a match of the time stamp *)
Definition stamp_groups (t : datetime) : dict nat string :=
  [(1%nat, String.string_of_list_ascii (padded 4 (year t)));
   (2%nat, String.string_of_list_ascii (padded 2 (month t)));
   (3%nat, String.string_of_list_ascii (padded 2 (day t)));
   (4%nat, String.string_of_list_ascii (padded 2 (hour t)));
   (5%nat, String.string_of_list_ascii (padded 2 (minute t)));
   (6%nat, String.string_of_list_ascii (padded 2 (second t)));
   (7%nat, String.string_of_list_ascii (padded 6 (microsecond t)))].

Lemma stamp_matches t : date_ok t = true →
  Regex.go (stamp t) stamp_re (stamp t) [] (λ rest g, Some (rest, g)) = Some ([], stamp_groups t).
Proof.
  intros Ht. destruct (date_ok_spec t Ht) as (?&?&?&?&?&?&?).
  unfold stamp_re, stamp at 2. apply year_then, char_then.
  eapply two_then; [exact month_takes|done|]. apply char_then.
  eapply two_then; [exact day_takes|done|].
  apply blank_then; [apply padded_digits|by intros Hn; apply (f_equal length) in Hn;
    rewrite length_padded in Hn|].
  eapply two_then; [exact hour_takes|done|]. apply char_then.
  eapply two_then; [exact minute_takes|done|]. apply char_then.
  eapply two_then; [exact second_takes|done|]. apply char_then.
  rewrite <- (app_nil_r (padded 6 _)) at 1. cbn [Regex.go].
  apply up_to_takes; [apply length_padded|apply padded_digits|].
  unfold stamp_groups. by rewrite <- (Regex.taken_app (padded 6 (microsecond t)) []), app_nil_r.
Qed.

(** The time stamp of a line is parsed back. *)
Lemma strptime_stamp t :
  date_ok t = true → strptime (String.string_of_list_ascii (stamp t)) = Ok t.
Proof.
  intros Ht. destruct (date_ok_spec t Ht) as (?&?&?&?&?&?&?).
  unfold strptime. rewrite String.list_ascii_of_string_of_list_ascii, stamp_matches by done.
  rewrite (field_eq 1 _ 4 (year t)), (field_eq 2 _ 2 (month t)),
    (field_eq 3 _ 2 (day t)), (field_eq 4 _ 2 (hour t)), (field_eq 5 _ 2 (minute t)),
    (field_eq 6 _ 2 (second t)) by (done || simpl; lia).
  rewrite (micro_field_eq _ (microsecond t)) by done.
  destruct t. simpl in *. by rewrite Ht.
Qed.

End PyTime.
