(* ===== verification/Devices.v ===== *)
(** * The device registry of the runner (src/daq/runner.py, [PortInfo],
    [IpInfo], [Device] and [Devices])

    Python objects are modelled by references into two heaps, one of devices
    and one of port infos, because the runner shares them: a [PortInfo] is held
    both by the runner's port table and by the device learned on that port.
    The registry proper is the insertion-ordered dictionary from MAC address to
    device reference and the set of allocated set ids. *)

From stdpp Require Import base list gmap strings.
From Stdlib Require Import ZArith Lia.
From S2P Require Import Prelude.

Module Devices.

(** An object reference. *)
Abbreviation ref := nat (only parsing).

(** [DhcpMode] of the system configuration (src/proto/system_config.proto). *)
Inductive dhcp_mode_t :=
  | DHCP_NORMAL | DHCP_STATIC_IP | DHCP_EXTERNAL | DHCP_LONG_RESPONSE | DHCP_IP_CHANGE.

#[global] Instance dhcp_mode_eq_dec : EqDecision dhcp_mode_t.
Proof. solve_decision. Defined.

Record PortInfo := mkPortInfo {
  active : bool;
  flapping_start : option Z;
  port_no : option Z
}.

Record IpInfo := mkIpInfo {
  ip_addr : option string;
  ip_state : option string;
  delta_sec : option Z
}.

Record Device := mkDevice {
  mac : string;
  host : option ref;
  gateway : option ref;
  group : option string;
  port : option ref;
  dhcp_ready : bool;
  dhcp_mode : option dhcp_mode_t;
  ip_info : IpInfo;
  vlan : option Z;
  set_id : option Z;
  assigned : option Z;
  wait_remote : bool
}.

Definition PortInfo_init : PortInfo := mkPortInfo false None None.
Definition IpInfo_init : IpInfo := mkIpInfo None None None.

Definition with_active (b : bool) (p : PortInfo) : PortInfo :=
  mkPortInfo b (flapping_start p) (port_no p).
Definition with_flapping (f : option Z) (p : PortInfo) : PortInfo :=
  mkPortInfo (active p) f (port_no p).
Definition with_port_no (n : option Z) (p : PortInfo) : PortInfo :=
  mkPortInfo (active p) (flapping_start p) n.

(** [Device()] followed by [device.mac = mac] *)
Definition Device_init (m : string) : Device :=
  mkDevice m None None None None false None IpInfo_init None None None false.

Definition with_port (p : option ref) (d : Device) : Device :=
  mkDevice (mac d) (host d) (gateway d) (group d) p (dhcp_ready d) (dhcp_mode d)
    (ip_info d) (vlan d) (set_id d) (assigned d) (wait_remote d).
Definition with_vlan (v : option Z) (d : Device) : Device :=
  mkDevice (mac d) (host d) (gateway d) (group d) (port d) (dhcp_ready d) (dhcp_mode d)
    (ip_info d) v (set_id d) (assigned d) (wait_remote d).
Definition with_set_id (i : option Z) (d : Device) : Device :=
  mkDevice (mac d) (host d) (gateway d) (group d) (port d) (dhcp_ready d) (dhcp_mode d)
    (ip_info d) (vlan d) i (assigned d) (wait_remote d).
Definition with_host (h : option ref) (d : Device) : Device :=
  mkDevice (mac d) h (gateway d) (group d) (port d) (dhcp_ready d) (dhcp_mode d)
    (ip_info d) (vlan d) (set_id d) (assigned d) (wait_remote d).

Definition with_gateway (g : option ref) (d : Device) : Device :=
  mkDevice (mac d) (host d) g (group d) (port d) (dhcp_ready d) (dhcp_mode d)
    (ip_info d) (vlan d) (set_id d) (assigned d) (wait_remote d).
Definition with_group (n : option string) (d : Device) : Device :=
  mkDevice (mac d) (host d) (gateway d) n (port d) (dhcp_ready d) (dhcp_mode d)
    (ip_info d) (vlan d) (set_id d) (assigned d) (wait_remote d).
Definition with_dhcp_ready (b : bool) (d : Device) : Device :=
  mkDevice (mac d) (host d) (gateway d) (group d) (port d) b (dhcp_mode d)
    (ip_info d) (vlan d) (set_id d) (assigned d) (wait_remote d).
Definition with_dhcp_mode (m : option dhcp_mode_t) (d : Device) : Device :=
  mkDevice (mac d) (host d) (gateway d) (group d) (port d) (dhcp_ready d) m
    (ip_info d) (vlan d) (set_id d) (assigned d) (wait_remote d).
Definition with_ip_info (i : IpInfo) (d : Device) : Device :=
  mkDevice (mac d) (host d) (gateway d) (group d) (port d) (dhcp_ready d) (dhcp_mode d)
    i (vlan d) (set_id d) (assigned d) (wait_remote d).
Definition with_assigned (a : option Z) (d : Device) : Device :=
  mkDevice (mac d) (host d) (gateway d) (group d) (port d) (dhcp_ready d) (dhcp_mode d)
    (ip_info d) (vlan d) (set_id d) a (wait_remote d).
Definition with_wait_remote (b : bool) (d : Device) : Device :=
  mkDevice (mac d) (host d) (gateway d) (group d) (port d) (dhcp_ready d) (dhcp_mode d)
    (ip_info d) (vlan d) (set_id d) (assigned d) b.

(** The registry and the heaps its references point into. *)
Record Devices := mkDevices {
  dev_heap : gmap ref Device;
  port_heap : gmap ref PortInfo;
  next_ref : ref;
  _devices : dict string ref;
  _set_ids : gset Z
}.

(** Truth value of an optional integer: [None] and 0 are false. *)
Definition truthy (z : option Z) : bool :=
  match z with Some 0 | None => false | Some _ => true end.

Definition upd_dev (r : ref) (f : Device → Device) (s : Devices) : Devices :=
  mkDevices (alter f r (dev_heap s)) (port_heap s) (next_ref s) (_devices s) (_set_ids s).
Definition upd_port (r : ref) (f : PortInfo → PortInfo) (s : Devices) : Devices :=
  mkDevices (dev_heap s) (alter f r (port_heap s)) (next_ref s) (_devices s) (_set_ids s).
Definition upd_devices (f : dict string ref → dict string ref) (s : Devices) : Devices :=
  mkDevices (dev_heap s) (port_heap s) (next_ref s) (f (_devices s)) (_set_ids s).
Definition upd_set_ids (f : gset Z → gset Z) (s : Devices) : Devices :=
  mkDevices (dev_heap s) (port_heap s) (next_ref s) (_devices s) (f (_set_ids s)).

Definition alloc_dev (d : Device) : M Devices ref := λ s,
  (mkDevices (<[next_ref s := d]> (dev_heap s)) (port_heap s) (S (next_ref s))
     (_devices s) (_set_ids s), Ok (next_ref s)).
Definition alloc_port (p : PortInfo) : M Devices ref := λ s,
  (mkDevices (dev_heap s) (<[next_ref s := p]> (port_heap s)) (S (next_ref s))
     (_devices s) (_set_ids s), Ok (next_ref s)).

(** [_allocate_set_id]: the search starts at 1 and its fuel always suffices
    ([first_free_total]). *)
Definition _allocate_set_id : M Devices Z := λ s,
  (s, of_option RuntimeError (first_free 1 (_set_ids s))).

(** [new_device].  The assertion on the set id comes after the device was put
    into the dictionary. *)
Definition new_device (m : string) (port_info : option ref) (vl : option Z) : M Devices ref :=
  s ← getS;
  assertM (negb (dmem m (_devices s)));;
  device ← alloc_dev (Device_init m);
  modify (upd_devices (dset m device));;
  p ← match port_info with Some p => mret p | None => alloc_port PortInfo_init end;
  modify (upd_dev device (with_port (Some p)));;
  modify (upd_dev device (with_vlan vl));;
  s ← getS;
  let pno := port_heap s !! p ≫= port_no in
  sid ← (if truthy pno then lift (of_option TypeError pno) else _allocate_set_id);
  assertM (bool_decide (sid ∉ _set_ids s));;
  modify (upd_set_ids (λ ids, {[sid]} ∪ ids));;
  modify (upd_dev device (with_set_id (Some sid)));;
  mret device.

(** [create_if_absent].  A device object is always true. *)
Definition create_if_absent (m : string) (port_info : option ref) (vl : option Z) :
    M Devices ref :=
  s ← getS;
  match dget m (_devices s) with
  | Some prev => mret prev
  | None => new_device m port_info vl
  end.

(** [get]: the device registered for a MAC address. *)
Definition get (m : string) (s : Devices) : option ref := dget m (_devices s).

(** [contains]: [self._devices.get(device.mac) == device], comparing objects. *)
Definition contains (r : ref) (s : Devices) : bool :=
  match dev_heap s !! r with
  | Some d => bool_decide (dget (mac d) (_devices s) = Some r)
  | None => false
  end.

(** [remove] *)
Definition remove (r : ref) : M Devices unit :=
  s ← getS;
  assertM (contains r s);;
  d ← lift (of_option AttributeError (dev_heap s !! r));
  modify (upd_devices (ddel (mac d)));;
  match set_id d with
  | Some sid =>
      if decide (sid ∈ _set_ids s) then modify (upd_set_ids (λ ids, ids ∖ {[sid]}))
      else raise KeyError
  | None => raise KeyError
  end.

(** The queries over [self._devices.values()], in insertion order. *)
Definition device_values (s : Devices) : list ref := dvals (_devices s).
Definition select (P : Device → bool) (s : Devices) : list ref :=
  filter (λ r, match dev_heap s !! r with Some d => P d | None => false end = true)
    (device_values s).

Definition get_by_port_info (p : ref) (s : Devices) : option ref :=
  head (select (λ d, bool_decide (port d = Some p)) s).
Definition get_by_gateway (g : ref) (s : Devices) : list ref :=
  select (λ d, bool_decide (gateway d = Some g)) s.
Definition get_by_group (g : string) (s : Devices) : list ref :=
  select (λ d, bool_decide (group d = Some g)) s.
Definition get_all_devices (s : Devices) : list ref := device_values s.
Definition get_triggered_devices (s : Devices) : list ref :=
  select (λ d, bool_decide (is_Some (host d))) s.

(** ** The registry invariant *)

(** Device [r] is registered under the MAC address [m] with set id [i]. *)
Definition registered (s : Devices) (m : string) (r : ref) (i : Z) : Prop :=
  dget m (_devices s) = Some r ∧
  ∃ d, dev_heap s !! r = Some d ∧ mac d = m ∧ set_id d = Some i.

Record wf (s : Devices) : Prop := {
  wf_dict : dict_wf (_devices s);
  (** every registered device knows its MAC address and owns a set id *)
  wf_reg : ∀ m r, dget m (_devices s) = Some r → ∃ i, registered s m r i;
  (** set ids are the ids of the registered devices, and none is shared *)
  wf_ids : ∀ i, i ∈ _set_ids s ↔ ∃ m r, registered s m r i;
  wf_uniq : ∀ m r m' r' i, registered s m r i → registered s m' r' i → m = m';
  (** references below [next_ref] only *)
  wf_fresh : ∀ r, (next_ref s ≤ r)%nat → dev_heap s !! r = None ∧ port_heap s !! r = None
}.

Definition empty : Devices := mkDevices ∅ ∅ O [] ∅.

Lemma wf_empty : wf empty.
Proof.
  split; simpl.
  - apply NoDup_nil_2.
  - done.
  - intros i. split; [set_solver|]. intros (m & r & [? _]). done.
  - by intros m r m' r' i [? _].
  - intros r _. by rewrite !lookup_empty.
Qed.

(** ** What the operations do *)

(** The port info a new device gets, and the heap and counter after it. *)
Definition chosen_port (port_info : option ref) (s : Devices) : ref :=
  match port_info with Some p => p | None => S (next_ref s) end.
Definition port_heap_after (port_info : option ref) (s : Devices) : gmap ref PortInfo :=
  match port_info with
  | Some _ => port_heap s
  | None => <[S (next_ref s) := PortInfo_init]> (port_heap s)
  end.
Definition next_after (port_info : option ref) (s : Devices) : ref :=
  match port_info with Some _ => S (next_ref s) | None => S (S (next_ref s)) end.

(** The device object [new_device] builds, before and after it gets a set id. *)
Definition built (m : string) (p : ref) (vl : option Z) (i : option Z) : Device :=
  with_set_id i (with_vlan vl (with_port (Some p) (Device_init m))).

(** The state in which the set id is chosen. *)
Definition staged (m : string) (port_info : option ref) (vl : option Z) (s : Devices) : Devices :=
  mkDevices (<[next_ref s := built m (chosen_port port_info s) vl None]> (dev_heap s))
    (port_heap_after port_info s) (next_after port_info s)
    (dset m (next_ref s) (_devices s)) (_set_ids s).

(** The port number of the device's port, as [new_device] reads it. *)
Definition port_number (port_info : option ref) (s : Devices) : option Z :=
  match port_info with Some p => port_heap s !! p ≫= port_no | None => None end.

Lemma new_device_unfold m port_info vl s :
  dget m (_devices s) = None →
  new_device m port_info vl s =
    (sid ← (if truthy (port_number port_info s)
            then lift (of_option TypeError (port_number port_info s))
            else _allocate_set_id);
     assertM (bool_decide (sid ∉ _set_ids s));;
     modify (upd_set_ids (λ ids, {[sid]} ∪ ids));;
     modify (upd_dev (next_ref s) (with_set_id (Some sid)));;
     mret (next_ref s)) (staged m port_info vl s).
Proof.
  intros Hm. unfold new_device, getS, assertM, alloc_dev, modify, mbind, M_bind, mret, M_ret.
  unfold dmem. rewrite Hm. simpl.
  destruct port_info as [p|]; simpl.
  - unfold upd_dev, upd_devices, staged. simpl.
    rewrite !alter_insert_eq. done.
  - unfold upd_dev, upd_devices, staged, alloc_port. simpl.
    rewrite !alter_insert_eq, lookup_insert_eq. done.
Qed.

(** The registry after a successful [new_device]. *)
Definition added (m : string) (port_info : option ref) (vl : option Z) (i : Z)
    (s : Devices) : Devices :=
  mkDevices (<[next_ref s := built m (chosen_port port_info s) vl (Some i)]> (dev_heap s))
    (port_heap_after port_info s) (next_after port_info s)
    (dset m (next_ref s) (_devices s)) ({[i]} ∪ _set_ids s).

(** The set id [new_device] wants: the port number, or the least free one. *)
Definition wanted_id (port_info : option ref) (s : Devices) (i : Z) : Prop :=
  if truthy (port_number port_info s)
  then port_number port_info s = Some i
  else first_free 1 (_set_ids s) = Some i.

Lemma wanted_id_run m port_info vl s i :
  wanted_id port_info s i →
  (if truthy (port_number port_info s)
   then lift (of_option TypeError (port_number port_info s))
   else _allocate_set_id) (staged m port_info vl s) = (staged m port_info vl s, Ok i).
Proof.
  unfold wanted_id. intros Hi. destruct (truthy _); [by rewrite Hi|].
  unfold _allocate_set_id. simpl. by rewrite Hi.
Qed.

Lemma new_device_run m port_info vl s i :
  dget m (_devices s) = None → wanted_id port_info s i → i ∉ _set_ids s →
  new_device m port_info vl s = (added m port_info vl i s, Ok (next_ref s)).
Proof.
  intros Hm Hi Hni. rewrite new_device_unfold by done.
  erewrite bind_ok by (by apply wanted_id_run).
  unfold assertM, mbind, M_bind, modify, mret, M_ret.
  rewrite bool_decide_true by done. unfold upd_set_ids, upd_dev, staged, added. simpl.
  by rewrite alter_insert_eq.
Qed.

Lemma wf_fresh_ne s r d : wf s → dev_heap s !! r = Some d → next_ref s ≠ r.
Proof.
  intros Hwf Hd Heq. destruct (wf_fresh s Hwf r) as [HN _]; [lia|]. congruence.
Qed.

Lemma registered_added_other m port_info vl i s m' r' i' :
  wf s → dget m (_devices s) = None → m' ≠ m →
  registered (added m port_info vl i s) m' r' i' ↔ registered s m' r' i'.
Proof.
  intros Hwf Hm Hne. unfold registered, added; simpl.
  rewrite dget_dset_ne by done. split.
  - intros [Hg (d & Hd & ? & ?)]. split; [done|].
    destruct (wf_reg s Hwf _ _ Hg) as [j [_ (d' & Hd' & _)]].
    rewrite lookup_insert_ne in Hd by (by eapply wf_fresh_ne). by exists d.
  - intros [Hg (d & Hd & ? & ?)]. split; [done|]. exists d. split; [|done].
    by rewrite lookup_insert_ne by (by eapply wf_fresh_ne).
Qed.

Lemma registered_added_new m port_info vl i s r j :
  registered (added m port_info vl i s) m r j ↔ r = next_ref s ∧ j = i.
Proof.
  unfold registered, added; simpl. rewrite dget_dset_eq. split.
  - intros [[= <-] (d & Hd & _ & Hj)]. rewrite lookup_insert_eq in Hd.
    injection Hd as <-. simpl in Hj. by injection Hj as <-.
  - intros [-> ->]. split; [done|]. eexists. by rewrite lookup_insert_eq.
Qed.

(** Adding a device keeps the invariant. *)
Lemma wf_added m port_info vl i s :
  wf s → dget m (_devices s) = None → i ∉ _set_ids s →
  (∀ p, port_info = Some p → is_Some (port_heap s !! p)) →
  wf (added m port_info vl i s).
Proof.
  intros Hwf Hm Hni Hp.
  assert (∀ m' r' j, registered (added m port_info vl i s) m' r' j ↔
    (m' = m ∧ r' = next_ref s ∧ j = i) ∨ (m' ≠ m ∧ registered s m' r' j)) as Hreg.
  { intros m' r' j. destruct (decide (m' = m)) as [->|Hne].
    - rewrite registered_added_new. naive_solver.
    - rewrite registered_added_other by done. naive_solver. }
  split.
  - apply dict_wf_dset, (wf_dict s Hwf).
  - intros m' r' Hg. destruct (decide (m' = m)) as [->|Hne].
    + exists i. apply Hreg. left. simpl in Hg. rewrite dget_dset_eq in Hg. naive_solver.
    + simpl in Hg. rewrite dget_dset_ne in Hg by done.
      destruct (wf_reg s Hwf _ _ Hg) as [j Hj]. exists j. apply Hreg. by right.
  - intros j. simpl. rewrite elem_of_union, elem_of_singleton, (wf_ids s Hwf j).
    setoid_rewrite Hreg. split.
    + intros [->|(m' & r' & Hr)]; [by exists m, (next_ref s); left|].
      exists m', r'. right. split; [|done]. intros ->. destruct Hr as [Hr _]. congruence.
    + intros (m' & r' & [(-> & -> & ->)|[_ Hr]]); [by left|right; eauto].
  - intros m1 r1 m2 r2 j H1%Hreg H2%Hreg.
    destruct H1 as [(?&?&?)|[? H1]], H2 as [(?&?&?)|[? H2]]; subst; [done|..].
    + destruct Hni. apply (wf_ids s Hwf). eauto.
    + destruct Hni. apply (wf_ids s Hwf). eauto.
    + by eapply (wf_uniq s Hwf).
  - intros r. simpl. unfold next_after, port_heap_after. intros Hr.
    assert (next_ref s ≠ r) by (destruct port_info; lia).
    rewrite lookup_insert_ne by done.
    destruct (wf_fresh s Hwf r) as [? ?]; [destruct port_info; lia|].
    split; [done|]. destruct port_info; [done|]. by rewrite lookup_insert_ne by lia.
Qed.

(** The state after [remove] took device [r], registered under [m] with id [i]. *)
Definition removed (m : string) (i : Z) (s : Devices) : Devices :=
  mkDevices (dev_heap s) (port_heap s) (next_ref s) (ddel m (_devices s))
    (_set_ids s ∖ {[i]}).

Lemma remove_run s m r i :
  registered s m r i → i ∈ _set_ids s → remove r s = (removed m i s, Ok tt).
Proof.
  intros [Hg (d & Hd & Hm & Hi)] Hin.
  unfold remove, getS, assertM, lift, mbind, M_bind, modify.
  unfold contains. rewrite Hd. simpl. rewrite Hm, bool_decide_true by done. simpl.
  rewrite Hi. rewrite decide_True by done. done.
Qed.

Lemma registered_removed m i s m' r' j :
  dict_wf (_devices s) →
  registered (removed m i s) m' r' j ↔ m' ≠ m ∧ registered s m' r' j.
Proof.
  intros Hwf. unfold registered, removed; simpl. split.
  - intros [Hg Hd]. assert (m' ≠ m).
    { intros ->. by rewrite dget_ddel_eq in Hg. }
    rewrite dget_ddel_ne in Hg by done. done.
  - intros [Hne [Hg Hd]]. by rewrite dget_ddel_ne.
Qed.

Lemma wf_removed s m r i : wf s → registered s m r i → wf (removed m i s).
Proof.
  intros Hwf Hr.
  pose proof (λ m' r' j, registered_removed m i s m' r' j (wf_dict s Hwf)) as Hreg.
  split.
  - apply dict_wf_ddel, (wf_dict s Hwf).
  - intros m' r' Hg. simpl in Hg.
    assert (m' ≠ m). { intros ->. by rewrite dget_ddel_eq in Hg by apply (wf_dict s Hwf). }
    rewrite dget_ddel_ne in Hg by done.
    destruct (wf_reg s Hwf _ _ Hg) as [j Hj]. exists j. by apply Hreg.
  - intros j. simpl. rewrite elem_of_difference, elem_of_singleton, (wf_ids s Hwf j).
    setoid_rewrite Hreg. split.
    + intros [(m' & r' & Hr') Hne]. exists m', r'. split; [|done].
      intros ->. destruct Hr as [Hg (d & Hd & _ & Hi)], Hr' as [Hg' (d' & Hd' & _ & Hi')].
      congruence.
    + intros (m' & r' & Hne & Hr'). split; [eauto|]. intros ->.
      by apply Hne, (wf_uniq s Hwf _ _ _ _ _ Hr' Hr).
  - intros m1 r1 m2 r2 j [? H1]%Hreg [? H2]%Hreg. by eapply (wf_uniq s Hwf).
  - apply (wf_fresh s Hwf).
Qed.

(** ** Properties *)

(** Registering a device with a new MAC address whose port number (if it
    has one) is not yet a set id succeeds: the device gets its port number or,
    without one, the least free positive number as its set id, which was unused
    before; the registry invariant holds afterwards (ids are unique and are
    exactly those of the registered devices) and every other registration is
    unchanged. *)
Theorem new_device_correct (s : Devices) (m : string) (port_info : option ref) (vl : option Z)
    (Hwf : wf s) (Hnew : dget m (_devices s) = None)
    (Hport : ∀ p, port_info = Some p → is_Some (port_heap s !! p))
    (Hfree : ∀ n, port_number port_info s = Some n → n ∉ _set_ids s) :
  ∃ i s', new_device m port_info vl s = (s', Ok (next_ref s)) ∧
    wf s' ∧ registered s' m (next_ref s) i ∧ (i ∉ _set_ids s) ∧
    (truthy (port_number port_info s) = true → port_number port_info s = Some i) ∧
    (truthy (port_number port_info s) = false →
       1 ≤ i ∧ (∀ j, 1 ≤ j < i → j ∈ _set_ids s)) ∧
    (∀ m' r j, m' ≠ m → registered s' m' r j ↔ registered s m' r j).
Proof.
  assert (∃ i, wanted_id port_info s i ∧ (i ∉ _set_ids s) ∧
    (truthy (port_number port_info s) = false →
       1 ≤ i ∧ (∀ j, 1 ≤ j < i → j ∈ _set_ids s))) as (i & Hi & Hni & Hleast).
  { unfold wanted_id. destruct (truthy (port_number port_info s)) eqn:Ht.
    - destruct (port_number port_info s) as [n|]; [|done].
      exists n. split_and!; [done|by apply Hfree|done].
    - destruct (first_free_total 1 (_set_ids s)) as [i Hi].
      destruct (first_free_spec _ _ _ Hi) as (? & ? & ?). eauto 10. }
  exists i, (added m port_info vl i s). split_and!.
  - by apply new_device_run.
  - by apply wf_added.
  - by apply registered_added_new.
  - done.
  - intros Ht. unfold wanted_id in Hi. by rewrite Ht in Hi.
  - done.
  - intros m' r j Hne. by apply registered_added_other.
Qed.

Lemma new_device_correct_witness :
  ∃ i s', new_device "aa"%string None (Some 7) empty = (s', Ok 0%nat) ∧
    wf s' ∧ registered s' "aa"%string 0%nat i.
Proof.
  destruct (new_device_correct empty "aa"%string None (Some 7)) as (i & s' & H1 & H2 & H3 & _);
    [apply wf_empty|reflexivity|discriminate|discriminate|].
  exists i, s'. done.
Defined.

(** Removing a registered device succeeds, frees exactly its set id, leaves
    every other registration alone and keeps the registry invariant; and
    removing a device that was just registered restores the registry. *)
Theorem remove_correct (s : Devices) (m : string) (r : ref) (i : Z)
    (Hwf : wf s) (Hreg : registered s m r i) :
  ∃ s', remove r s = (s', Ok tt) ∧ wf s' ∧ get m s' = None ∧
    _set_ids s' = _set_ids s ∖ {[i]} ∧
    (∀ m' r' j, m' ≠ m → registered s' m' r' j ↔ registered s m' r' j) ∧
    (∀ s0 vl, dget m (_devices s0) = None → i ∉ _set_ids s0 →
       s = added m None vl i s0 →
       _devices s' = _devices s0 ∧ _set_ids s' = _set_ids s0).
Proof.
  exists (removed m i s). split_and!.
  - eapply remove_run; [done|]. apply (wf_ids s Hwf). eauto.
  - by eapply wf_removed.
  - apply dget_ddel_eq, (wf_dict s Hwf).
  - done.
  - intros m' r' j Hne. rewrite registered_removed by apply (wf_dict s Hwf). naive_solver.
  - intros s0 vl Hn Hni ->. simpl. split; [by apply ddel_dset_new|]. set_solver.
Qed.

Lemma remove_correct_witness :
  ∃ s', remove 0%nat (added "aa"%string None None 1 empty) = (s', Ok tt) ∧ wf s'.
Proof.
  destruct (remove_correct (added "aa"%string None None 1 empty) "aa"%string 0%nat 1)
    as (s' & H1 & H2 & _).
  - apply wf_added; [apply wf_empty|reflexivity|set_solver|discriminate].
  - apply registered_added_new. split; reflexivity.
  - exists s'. done.
Defined.

(** When the port number of a new device is already in use as a set id (a
    second MAC address learned on the same port, or a port whose number was
    given to a device without a port), [new_device] raises only after it put
    the device into the dictionary: the half-built device stays registered
    without a set id, [create_if_absent] hands it out from then on, and
    [remove] deletes it but raises [KeyError]. *)
Theorem new_device_duplicate_id (s : Devices) (m : string) (p : ref) (pi : PortInfo) (n : Z)
    (vl : option Z)
    (Hnew : dget m (_devices s) = None) (Hp : port_heap s !! p = Some pi)
    (Hn : port_no pi = Some n) (Hn0 : n ≠ 0) (Hused : n ∈ _set_ids s) :
  ∃ s', new_device m (Some p) vl s = (s', Raise AssertionError) ∧
    get m s' = Some (next_ref s) ∧ ¬ wf s' ∧
    (∀ pi' vl', create_if_absent m pi' vl' s' = (s', Ok (next_ref s))) ∧
    (let '(s'', o) := remove (next_ref s) s' in o = Raise KeyError ∧
       _devices s'' = ddel m (_devices s')).
Proof.
  assert (port_number (Some p) s = Some n) as Hpn by (simpl; by rewrite Hp).
  assert (truthy (Some n) = true) as Ht by (by destruct n).
  exists (staged m (Some p) vl s).
  assert (get m (staged m (Some p) vl s) = Some (next_ref s)) as Hg.
  { unfold get, staged; simpl. apply dget_dset_eq. }
  split_and!.
  - rewrite new_device_unfold by done. rewrite Hpn, Ht.
    unfold mbind, M_bind, lift, assertM; simpl. by rewrite bool_decide_false by naive_solver.
  - done.
  - intros Hwf. destruct (wf_reg _ Hwf m (next_ref s) Hg) as [i [_ (d & Hd & _ & Hi)]].
    unfold staged in Hd; simpl in Hd. rewrite lookup_insert_eq in Hd. by injection Hd as <-.
  - intros pi' vl'. unfold create_if_absent, getS, mbind, M_bind.
    unfold get in Hg. by rewrite Hg.
  - unfold remove, getS, assertM, lift, mbind, M_bind, modify, contains.
    unfold staged at 1; simpl. rewrite !lookup_insert_eq. simpl.
    rewrite dget_dset_eq, bool_decide_true by done. done.
Qed.

Lemma new_device_duplicate_id_witness :
  ∃ s', new_device "bb"%string (Some 5%nat) None
      (mkDevices ∅ {[5%nat := mkPortInfo true None (Some 1)]} 6 [("aa"%string, 0%nat)] {[1]})
    = (s', Raise AssertionError) ∧ get "bb"%string s' = Some 6%nat.
Proof.
  destruct (new_device_duplicate_id
    (mkDevices ∅ {[5%nat := mkPortInfo true None (Some 1)]} 6 [("aa"%string, 0%nat)] {[1]})
    "bb"%string 5%nat (mkPortInfo true None (Some 1)) 1 None) as (s' & H1 & H2 & _);
    [reflexivity|reflexivity|reflexivity|discriminate|set_solver|].
  exists s'. done.
Defined.

End Devices.
