(* ===== verification/DevicesSpec.v ===== *)
(** * The device registry as a finite map

    What [Devices] promises to the runner, without references, heaps or
    insertion order: a finite map from MAC address to set id.  Creating a device
    inserts its port number or the least free positive number, removing one
    deletes its entry, and both fail exactly when the map cannot take the step.
    [registry_refines_map] says that every history of calls of the registry
    (Devices.v) is simulated by the same history on the map. *)

From stdpp Require Import base list gmap strings fin_maps fin_map_dom.
From Stdlib Require Import ZArith Lia.
From S2P Require Import Prelude Devices.

Import Devices.

Module RegistrySpec.

(** ** The specification *)

(** The set ids in use. *)
Definition used_ids (μ : gmap string Z) : gset Z := map_to_set (λ _ i, i) μ.

Definition create_spec (m : string) (pno : option Z) (μ : gmap string Z) :
    option (gmap string Z) :=
  match μ !! m with
  | Some _ => Some μ
  | None =>
      i ← if truthy pno then pno else first_free 1 (used_ids μ);
      if decide (i ∈ used_ids μ) then None else Some (<[m := i]> μ)
  end.

Definition remove_spec (m : string) (μ : gmap string Z) : option (gmap string Z) :=
  match μ !! m with
  | Some _ => Some (delete m μ)
  | None => None
  end.

(** ** Histories of calls *)

Inductive call :=
  | Create (m : string) (port_info : option nat) (vl : option Z)
  | Remove (m : string).

(** [create_if_absent(m, port_info, vlan)] and [remove(get(m))]. *)
Definition exec (c : call) : M Devices unit :=
  match c with
  | Create m port_info vl => create_if_absent m port_info vl;; mret tt
  | Remove m =>
      s ← getS;
      match get m s with Some r => remove r | None => raise AttributeError end
  end.

(** The map takes the same step; [pno] tells the number of a port. *)
Definition exec_spec (pno : nat → option Z) (c : call) (μ : gmap string Z) :
    option (gmap string Z) :=
  match c with
  | Create m port_info _ => create_spec m (port_info ≫= pno) μ
  | Remove m => remove_spec m μ
  end.

Fixpoint exec_all (pno : nat → option Z) (cs : list call) (μ : gmap string Z) :
    option (gmap string Z) :=
  match cs with
  | [] => Some μ
  | c :: cs' => μ' ← exec_spec pno c μ; exec_all pno cs' μ'
  end.

(** The numbers of the ports of a registry; every port a history names is known. *)
Definition numbers (s : Devices) (p : nat) : option Z := port_heap s !! p ≫= port_no.

Definition known (s : Devices) (c : call) : Prop :=
  match c with
  | Create _ (Some p) _ => is_Some (port_heap s !! p)
  | _ => True
  end.

#[global] Instance known_dec s c : Decision (known s c).
Proof. destruct c as [m [p|] vl|m]; simpl; apply _. Defined.

(** ** The abstraction function *)

Definition entry (s : Devices) (x : string * nat) : option (string * Z) :=
  i ← (dev_heap s !! x.2 ≫= set_id); Some (x.1, i).

Definition abs (s : Devices) : gmap string Z := list_to_map (omap (entry s) (_devices s)).

Lemma entry_fst s d : (omap (entry s) d).*1 `sublist_of` d.*1.
Proof.
  induction d as [|[m r] d IH]; simpl; [done|].
  unfold entry at 1. simpl. destruct (dev_heap s !! r ≫= set_id); simpl.
  - by apply sublist_skip.
  - by apply sublist_cons.
Qed.

(** An entry of the map is a registration. *)
Lemma abs_lookup s m i : wf s → abs s !! m = Some i ↔ ∃ r, registered s m r i.
Proof.
  intros Hwf. unfold abs. rewrite <- elem_of_list_to_map.
  2: { eapply sublist_NoDup; [apply (wf_dict s Hwf)|apply entry_fst]. }
  rewrite list_elem_of_omap. split.
  - intros ([m' r] & Hin & He). unfold entry in He; simpl in He.
    destruct (dev_heap s !! r) as [d|] eqn:Hd; [|done]. simpl in He.
    destruct (set_id d) as [j|] eqn:Hj; [|done]. simplify_eq/=.
    pose proof (dget_wf_elem _ _ _ (wf_dict s Hwf) Hin) as Hg.
    destruct (wf_reg s Hwf _ _ Hg) as [k [_ (d' & Hd' & Hm & _)]].
    exists r. split; [done|]. exists d. simplify_eq. done.
  - intros (r & Hg & d & Hd & _ & Hi). exists (m, r).
    split; [by apply dget_Some_elem|]. unfold entry; simpl. by rewrite Hd; simpl; rewrite Hi.
Qed.

Lemma abs_None s m : wf s → abs s !! m = None ↔ dget m (_devices s) = None.
Proof.
  intros Hwf. rewrite eq_None_not_Some. split.
  - intros Hn. destruct (dget m (_devices s)) as [r|] eqn:Hg; [|done].
    destruct (wf_reg s Hwf _ _ Hg) as [i Hi]. destruct Hn. exists i. apply abs_lookup; eauto.
  - intros Hg [i Hi]. apply abs_lookup in Hi as (r & Hr & _); [congruence|done].
Qed.

Lemma abs_used s : wf s → used_ids (abs s) = _set_ids s.
Proof.
  intros Hwf. apply set_eq. intros i. unfold used_ids.
  rewrite elem_of_map_to_set, (wf_ids s Hwf i). setoid_rewrite abs_lookup; [|done].
  naive_solver.
Qed.

(** ** One call at a time *)

Lemma abs_added m port_info vl i s :
  wf s → dget m (_devices s) = None → i ∉ _set_ids s →
  (∀ p, port_info = Some p → is_Some (port_heap s !! p)) →
  abs (added m port_info vl i s) = <[m := i]> (abs s).
Proof.
  intros Hwf Hm Hi Hp. pose proof (wf_added m port_info vl i s Hwf Hm Hi Hp) as Hwf'.
  apply map_eq. intros m'. apply option_eq. intros j. rewrite abs_lookup by done.
  destruct (decide (m' = m)) as [->|Hne].
  - rewrite lookup_insert_eq. setoid_rewrite registered_added_new. naive_solver.
  - rewrite lookup_insert_ne by done. rewrite abs_lookup by done.
    setoid_rewrite registered_added_other; done.
Qed.

Lemma abs_removed m r i s : wf s → registered s m r i → abs (removed m i s) = delete m (abs s).
Proof.
  intros Hwf Hr. pose proof (wf_removed s m r i Hwf Hr) as Hwf'.
  apply map_eq. intros m'. apply option_eq. intros j. rewrite abs_lookup by done.
  setoid_rewrite registered_removed; [|apply (wf_dict s Hwf)].
  destruct (decide (m' = m)) as [->|Hne].
  - rewrite lookup_delete_eq. naive_solver.
  - rewrite lookup_delete_ne by done. rewrite abs_lookup by done. naive_solver.
Qed.

(** The outcome of one call agrees with the map: it succeeds where the map
    takes the step, the map follows and the invariant and the ports are kept;
    it raises where the map cannot. *)
Definition simulated (pno : nat → option Z) (s : Devices) (c : call) : Prop :=
  let '(s', o) := exec c s in
  match exec_spec pno c (abs s) with
  | Some μ => o = Ok tt ∧ wf s' ∧ abs s' = μ ∧ port_heap s ⊆ port_heap s'
  | None => is_ok o = false
  end.

Lemma port_heap_added m port_info vl i s :
  wf s → port_heap s ⊆ port_heap (added m port_info vl i s).
Proof.
  intros Hwf. unfold added, port_heap_after; simpl. destruct port_info; [done|].
  apply insert_subseteq. apply (wf_fresh s Hwf). lia.
Qed.

Lemma new_device_clash m port_info vl s i :
  dget m (_devices s) = None → wanted_id port_info s i → i ∈ _set_ids s →
  (new_device m port_info vl s).2 = Raise AssertionError.
Proof.
  intros Hm Hi Hin. rewrite new_device_unfold by done.
  erewrite bind_ok by (by apply wanted_id_run). unfold mbind, M_bind, assertM.
  by rewrite bool_decide_false by naive_solver.
Qed.

(** The ports known at the start are still there, with their numbers. *)
Lemma numbers_later s0 s p :
  port_heap s0 ⊆ port_heap s → is_Some (port_heap s0 !! p) →
  is_Some (port_heap s !! p) ∧ numbers s0 p = numbers s p.
Proof.
  intros Hsub [x Hx]. pose proof (lookup_weaken _ _ _ _ Hx Hsub) as Hx'.
  unfold numbers. rewrite Hx, Hx'. eauto.
Qed.

Lemma create_simulated s0 s m port_info vl :
  wf s → known s0 (Create m port_info vl) → port_heap s0 ⊆ port_heap s →
  simulated (numbers s0) s (Create m port_info vl).
Proof.
  intros Hwf Hk Hsub. unfold simulated, exec, exec_spec, create_spec, create_if_absent.
  rewrite abs_used by done.
  assert (port_info ≫= numbers s0 = port_number port_info s) as ->.
  { destruct port_info as [p|]; [|done]. by apply numbers_later. }
  assert (∀ p, port_info = Some p → is_Some (port_heap s !! p)) as Hp.
  { intros p ->. by eapply numbers_later. }
  unfold mbind at 1 2, M_bind at 1 2, getS. simpl.
  destruct (dget m (_devices s)) as [r|] eqn:Hg.
  - destruct (wf_reg s Hwf _ _ Hg) as [i Hi].
    by rewrite (proj2 (abs_lookup s m i Hwf)) by eauto.
  - rewrite (proj2 (abs_None s m Hwf)) by done.
    assert (∃ i, (if truthy (port_number port_info s) then port_number port_info s
                  else first_free 1 (_set_ids s)) = Some i ∧ wanted_id port_info s i)
      as (i & Hi & Hw).
    { unfold wanted_id. destruct (truthy (port_number port_info s)) eqn:Ht.
      - destruct (port_number port_info s) as [n|]; [by exists n|done].
      - destruct (first_free_total 1 (_set_ids s)) as [i Hi]. eauto. }
    rewrite Hi. simpl. destruct (decide (i ∈ _set_ids s)) as [Hin|Hin].
    + pose proof (new_device_clash m port_info vl s i Hg Hw Hin) as Hc.
      destruct (new_device m port_info vl s) as [s' o]; simpl in Hc; by subst o.
    + rewrite (new_device_run m port_info vl s i) by done. simpl.
      split_and!; [done|by apply wf_added|by apply abs_added|].
      by apply (port_heap_added m port_info vl i).
Qed.

Lemma remove_simulated pno s m : wf s → simulated pno s (Remove m).
Proof.
  intros Hwf. unfold simulated, exec, exec_spec, remove_spec, get.
  unfold mbind, M_bind, getS. simpl.
  destruct (dget m (_devices s)) as [r|] eqn:Hg.
  - destruct (wf_reg s Hwf _ _ Hg) as [i Hi].
    rewrite (proj2 (abs_lookup s m i Hwf)) by eauto.
    rewrite (remove_run s m r i) by (try apply (wf_ids s Hwf); eauto).
    split_and!; [done|by eapply wf_removed|by eapply abs_removed|done].
  - by rewrite (proj2 (abs_None s m Hwf)) by done.
Qed.

Lemma call_simulated s0 s c :
  wf s → known s0 c → port_heap s0 ⊆ port_heap s → simulated (numbers s0) s c.
Proof. destruct c; [by apply create_simulated|by intros; apply remove_simulated]. Qed.

(** ** The refinement *)

Lemma history_simulated s0 cs : ∀ s,
  wf s → port_heap s0 ⊆ port_heap s → Forall (known s0) cs →
  let '(s', o) := for_each cs exec s in
  match exec_all (numbers s0) cs (abs s) with
  | Some μ => o = Ok tt ∧ wf s' ∧ abs s' = μ
  | None => is_ok o = false
  end.
Proof.
  induction cs as [|c cs IH]; intros s Hwf Hsub Hk; simpl; [done|].
  inversion Hk as [|?? Hc Hcs]; subst.
  pose proof (call_simulated s0 s c Hwf Hc Hsub) as Hsim. unfold simulated in Hsim.
  unfold mbind at 1, M_bind at 1. destruct (exec c s) as [s' o].
  destruct (exec_spec (numbers s0) c (abs s)) as [μ|]; simpl.
  - destruct Hsim as (-> & Hwf' & <- & Hsub'). apply IH; [done|by etrans|done].
  - by destruct o.
Qed.

(** C1: the registry refines a finite map from MAC address to set id.  For every
    history of [create_if_absent] and [remove] calls whose ports exist, starting
    in any state that satisfies the invariant: if the map can take all the steps
    (a creation takes the port number or the least free positive number, and
    needs it to be unused; a removal needs the address) every call succeeds and
    the registry then stands for the resulting map, in which [get] finds exactly
    the addresses of the map; if the map gets stuck, some call raises. *)
Theorem registry_refines_map (s : Devices) (cs : list call)
    (Hwf : wf s) (Hports : Forall (known s) cs) :
  let '(s', o) := for_each cs exec s in
  match exec_all (numbers s) cs (abs s) with
  | Some μ => o = Ok tt ∧ wf s' ∧ abs s' = μ ∧
      (∀ m, is_Some (get m s') ↔ is_Some (μ !! m))
  | None => is_ok o = false
  end.
Proof.
  pose proof (history_simulated s cs s Hwf (reflexivity _) Hports) as H.
  destruct (for_each cs exec s) as [s' o].
  destruct (exec_all (numbers s) cs (abs s)) as [μ|]; [|done].
  destruct H as (-> & Hwf' & <-). split_and!; [done..|]. intros m.
  rewrite <- !not_eq_None_Some. unfold get. by rewrite abs_None.
Qed.

(** Three devices, one on port 2 of the switch, with the second removed and
    another one taking over its id. *)
Abbreviation some_ports :=
  (mkDevices ∅ {[4%nat := mkPortInfo true None (Some 2)]} 5%nat [] ∅) (only parsing).
Abbreviation some_calls :=
  [Create "aa" (Some 4%nat) None; Create "bb" None (Some 10); Create "cc" None None;
   Remove "bb"; Create "dd" None None]%string (only parsing).

Lemma registry_refines_map_witness :
  let '(s', o) := for_each some_calls exec some_ports in
  o = Ok tt ∧ wf s' ∧ abs s' = {["aa"%string := 2; "cc"%string := 3; "dd"%string := 1]} ∧
  (∀ m, is_Some (get m s') ↔ is_Some (abs s' !! m)).
Proof.
  assert (wf some_ports) as Hwf.
  { split; simpl; [apply NoDup_nil_2|done| | |].
    - intros i. split; [set_solver|]. by intros (m & r & [? _]).
    - by intros m r m' r' i [? _].
    - intros r Hr. rewrite lookup_empty, lookup_singleton_ne by lia. done. }
  assert (Forall (known some_ports) some_calls) as Hk by (by apply (bool_decide_unpack _)).
  pose proof (registry_refines_map some_ports some_calls Hwf Hk) as H.
  destruct (for_each some_calls exec some_ports) as [s' o] eqn:E.
  assert (exec_all (numbers some_ports) some_calls (abs some_ports)
    = Some {["aa"%string := 2; "cc"%string := 3; "dd"%string := 1]}) as Hs
    by (vm_compute; reflexivity).
  rewrite Hs in H. destruct H as (Ho & Hw & Ha & Hg). rewrite Ha.
  split; [exact Ho|split; [exact Hw|split; [reflexivity|exact Hg]]].
Defined.

End RegistrySpec.
