(* ===== verification/Gateway.v ===== *)
(** * Gateways (src/daq/base_gateway.py, [BaseGateway])

    A gateway owns the switch ports [10 * port_set .. 10 * port_set + 5]: one
    for its own host, one for the dummy target and four test ports that the
    hosts under test borrow.  The state is the object's fields; targets are
    kept by MAC address, devices by reference ([Devices.ref]). *)

From stdpp Require Import base list gmap strings.
From Stdlib Require Import ZArith Lia.
From S2P Require Import Prelude Devices.

Module Gateway.

Definition GATEWAY_OFFSET : Z := 0.
Definition DUMMY_OFFSET : Z := 1.
Definition TEST_OFFSET_START : Z := 2.
Definition NUM_SET_PORTS : Z := 6.
Definition SET_SPACING : Z := 10.
Definition _PING_RETRY_COUNT : nat := 5.

(** A mininet host object (outside the repository), by reference. *)
Abbreviation href := nat (only parsing).

Record Gateway := mkGateway {
  name : string;
  port_set : Z;
  host : option href;
  dummy : option href;
  targets : dict string nat;
  test_ports : gset Z;
  ready : gset nat;
  activated : bool;
  result_linger : bool;
  dhcp_monitor : bool;
  _is_native : bool
}.

Definition with_host (h : option href) (g : Gateway) : Gateway :=
  mkGateway (name g) (port_set g) h (dummy g) (targets g) (test_ports g) (ready g)
    (activated g) (result_linger g) (dhcp_monitor g) (_is_native g).
Definition with_dummy (h : option href) (g : Gateway) : Gateway :=
  mkGateway (name g) (port_set g) (host g) h (targets g) (test_ports g) (ready g)
    (activated g) (result_linger g) (dhcp_monitor g) (_is_native g).
Definition with_targets (t : dict string nat) (g : Gateway) : Gateway :=
  mkGateway (name g) (port_set g) (host g) (dummy g) t (test_ports g) (ready g)
    (activated g) (result_linger g) (dhcp_monitor g) (_is_native g).
Definition with_test_ports (p : gset Z) (g : Gateway) : Gateway :=
  mkGateway (name g) (port_set g) (host g) (dummy g) (targets g) p (ready g)
    (activated g) (result_linger g) (dhcp_monitor g) (_is_native g).
Definition with_ready (r : gset nat) (g : Gateway) : Gateway :=
  mkGateway (name g) (port_set g) (host g) (dummy g) (targets g) (test_ports g) r
    (activated g) (result_linger g) (dhcp_monitor g) (_is_native g).
Definition with_activated (b : bool) (g : Gateway) : Gateway :=
  mkGateway (name g) (port_set g) (host g) (dummy g) (targets g) (test_ports g) (ready g)
    b (result_linger g) (dhcp_monitor g) (_is_native g).
Definition with_linger (b : bool) (g : Gateway) : Gateway :=
  mkGateway (name g) (port_set g) (host g) (dummy g) (targets g) (test_ports g) (ready g)
    (activated g) b (dhcp_monitor g) (_is_native g).

(** [__init__]: [env_params] matters through [ext_intf] only. *)
Definition init (nm : string) (ps : Z) (ext_intf : option string) : res Gateway :=
  guard_res (0 <? ps) AssertionError ;;
  Ok (mkGateway nm ps None None [] ∅ ∅ false false false
        (match ext_intf with Some s => negb (bool_decide (s = ""%string)) | None => false end)).

Definition _switch_port (offset : Z) (g : Gateway) : Z := port_set g * SET_SPACING + offset.

(** [activate] *)
Definition activate : M Gateway unit := modify (with_activated true).

(** [allocate_test_port]; the scan's fuel always suffices. *)
Definition allocate_test_port : M Gateway Z :=
  g ← getS;
  test_port ← lift (of_option RuntimeError
                (first_free (_switch_port TEST_OFFSET_START g) (test_ports g)));
  let limit_port := _switch_port NUM_SET_PORTS g in
  assertM (test_port <? limit_port);;
  modify (λ g, with_test_ports ({[test_port]} ∪ test_ports g) g);;
  mret test_port.

(** [release_test_port] *)
Definition release_test_port (test_port : Z) : M Gateway unit :=
  g ← getS;
  assertM (bool_decide (test_port ∈ test_ports g));;
  modify (λ g, with_test_ports (test_ports g ∖ {[test_port]}) g).

(** [get_possible_test_ports] *)
Definition get_possible_test_ports (g : Gateway) : list Z :=
  zseq (_switch_port TEST_OFFSET_START g)
    (Z.to_nat (_switch_port NUM_SET_PORTS g - _switch_port TEST_OFFSET_START g)).

(** [attach_target] and [detach_target] return the number of targets. *)
Definition attach_target (mac : string) (device : nat) : M Gateway Z :=
  g ← getS;
  assertM (negb (dmem mac (targets g)));;
  modify (λ g, with_targets (dset mac device (targets g)) g);;
  gets (λ g, len (targets g)).

Definition detach_target (mac : string) : M Gateway Z :=
  g ← getS;
  assertM (dmem mac (targets g));;
  modify (λ g, with_targets (ddel mac (targets g)) g);;
  gets (λ g, len (targets g)).

(** [target_ready] *)
Definition target_ready (device : nat) : M Gateway (gset nat) :=
  modify (λ g, if decide (device ∈ ready g) then g else with_ready ({[device]} ∪ ready g) g);;
  gets ready.

(** What the DHCP monitor reports about a target. *)
Record dhcp_target := mkTarget {
  t_type : string; t_mac : string; t_ip : string; t_delta : Z
}.

Definition _is_target_expected (target : option dhcp_target) (g : Gateway) : bool :=
  match target with
  | None => false
  | Some t => dmem (t_mac t) (targets g)
  end.

(** [_dhcp_callback]: the call it makes to [runner.ip_notify], if any. *)
Definition _dhcp_callback (state : string) (target : option dhcp_target) (exception : bool)
    (g : Gateway) : option (string * option dhcp_target * bool) :=
  let expected := _is_target_expected target g in
  let use_state := if _is_native g && negb expected then "NEW"%string else state in
  if expected || _is_native g || exception then Some (use_state, target, exception) else None.

(** The calls [terminate] makes outside the gateway.  They may raise. *)
Inductive ext_call :=
  | DhcpMonitorCleanup
  | HostTerminate (h : href)
  | RemoveHost (h : href).

Section terminate.
(** Outcome of a call into the DHCP monitor, mininet or the network. *)
Context (ext : ext_call → res unit).

(** One [try] block of [terminate]: on an exception the field is kept. *)
Definition stop_host (h : option href) (clear : Gateway → Gateway) (g : Gateway) :
    Gateway * list ext_call :=
  match h with
  | None => (g, [])
  | Some r =>
      match ext (HostTerminate r) with
      | Raise _ => (g, [HostTerminate r])
      | Ok _ =>
          match ext (RemoveHost r) with
          | Raise _ => (g, [HostTerminate r; RemoveHost r])
          | Ok _ => (clear g, [HostTerminate r; RemoveHost r])
          end
      end
  end.

(** [terminate]: the new state, the calls made, and the outcome. *)
Definition terminate (g : Gateway) : Gateway * list ext_call * res unit :=
  match targets g with
  | _ :: _ => (g, [], Raise AssertionError)
  | [] =>
      let stop_hosts g0 pre :=
        let '(g1, c1) := stop_host (host g0) (with_host None) g0 in
        let '(g2, c2) := stop_host (dummy g1) (with_dummy None) g1 in
        (g2, pre ++ c1 ++ c2, Ok tt) in
      if dhcp_monitor g then
        match ext DhcpMonitorCleanup with
        | Raise e => (g, [DhcpMonitorCleanup], Raise e)
        | Ok _ => stop_hosts g [DhcpMonitorCleanup]
        end
      else stop_hosts g []
  end.
End terminate.

(** The warm-up loop of [_initialize]: ping until it succeeds, give up with an
    assertion once the retry counter reaches 0.  [ping k] is the outcome of the
    [k]-th ping; the result is the number of pings made. *)
Fixpoint warmup_loop (ping_retry : nat) (k : nat) (ping : nat → bool) : res nat :=
  if ping k then Ok (S k)
  else match ping_retry with
       | O | S O => Raise AssertionError
       | S r => warmup_loop r (S k) ping
       end.

Definition warmup (ping : nat → bool) : res nat := warmup_loop _PING_RETRY_COUNT 0 ping.

(** ** The invariant *)

(** The test ports of a port set. *)
Definition test_port_range (ps p : Z) : Prop :=
  ps * SET_SPACING + TEST_OFFSET_START ≤ p < ps * SET_SPACING + NUM_SET_PORTS.

Record wf (g : Gateway) : Prop := {
  wf_set : 0 < port_set g;
  wf_ports : ∀ p, p ∈ test_ports g → test_port_range (port_set g) p;
  wf_targets : dict_wf (targets g)
}.

Lemma wf_init nm ps e g : init nm ps e = Ok g → wf g.
Proof.
  unfold init, guard_res. destruct (Z.ltb_spec 0 ps); [|done]. simpl.
  intros [= <-]. split; simpl; [done|set_solver|apply NoDup_nil_2].
Qed.

Lemma allocate_unfold g p :
  first_free (_switch_port TEST_OFFSET_START g) (test_ports g) = Some p →
  allocate_test_port g =
    if p <? _switch_port NUM_SET_PORTS g
    then (with_test_ports ({[p]} ∪ test_ports g) g, Ok p)
    else (g, Raise AssertionError).
Proof.
  intros Hp. unfold allocate_test_port, getS, lift, assertM, modify, mbind, M_bind, mret, M_ret.
  rewrite Hp. simpl. by destruct (p <? _).
Qed.

Lemma elem_of_possible g p :
  p ∈ get_possible_test_ports g ↔ test_port_range (port_set g) p.
Proof.
  unfold get_possible_test_ports, test_port_range, _switch_port,
    TEST_OFFSET_START, NUM_SET_PORTS, SET_SPACING.
  rewrite elem_of_zseq. lia.
Qed.

(** Port sets are spaced so that their port ranges do not meet. *)
Lemma port_ranges_disjoint ps ps' o o' :
  0 ≤ o < NUM_SET_PORTS → 0 ≤ o' < NUM_SET_PORTS →
  ps * SET_SPACING + o = ps' * SET_SPACING + o' → ps = ps' ∧ o = o'.
Proof. unfold NUM_SET_PORTS, SET_SPACING. lia. Qed.

(** The two outcomes of an allocation, with the state it leaves. *)
Lemma allocate_cases (g : Gateway) (Hwf : wf g) :
  (∃ p, allocate_test_port g = (with_test_ports ({[p]} ∪ test_ports g) g, Ok p) ∧
     wf (with_test_ports ({[p]} ∪ test_ports g) g) ∧
     test_port_range (port_set g) p ∧ (p ∉ test_ports g) ∧
     (∀ q, test_port_range (port_set g) q → q < p → q ∈ test_ports g))
  ∨ (allocate_test_port g = (g, Raise AssertionError) ∧
     ∀ q, test_port_range (port_set g) q → q ∈ test_ports g).
Proof.
  destruct (first_free_total (_switch_port TEST_OFFSET_START g) (test_ports g)) as [p Hp].
  rewrite (allocate_unfold g p Hp).
  destruct (first_free_spec _ _ _ Hp) as (Hge & Hni & Hall).
  destruct (Z.ltb_spec p (_switch_port NUM_SET_PORTS g)) as [Hlt|Hge'].
  - left. exists p.
    assert (test_port_range (port_set g) p) as Hr.
    { unfold test_port_range. unfold _switch_port in *. lia. }
    split_and!; try done.
    + split; simpl; [apply Hwf| |apply Hwf].
      intros q [->%elem_of_singleton|Hq]%elem_of_union; [done|by apply Hwf].
    + intros q Hq Hlt'. apply Hall. unfold test_port_range in Hq. unfold _switch_port. lia.
  - right. split; [done|]. intros q Hq. apply Hall.
    unfold test_port_range in Hq. unfold _switch_port in *. lia.
Qed.

(** Releasing undoes an allocation. *)
Lemma release_undoes g p :
  p ∉ test_ports g →
  release_test_port p (with_test_ports ({[p]} ∪ test_ports g) g) = (g, Ok tt).
Proof.
  intros Hp. unfold release_test_port, getS, assertM, modify, mbind, M_bind; simpl.
  rewrite bool_decide_true by set_solver. unfold with_test_ports; simpl.
  replace (({[p]} ∪ test_ports g) ∖ {[p]}) with (test_ports g) by set_solver.
  by destruct g.
Qed.

(** ** Properties *)

(** On a well-formed gateway [allocate_test_port] returns the least port of
    the set's four test ports that is not allocated, marks it allocated and
    keeps the invariant; it raises exactly when all four are taken, and then
    nothing changed. *)
Theorem allocate_test_port_correct (g : Gateway) (Hwf : wf g) :
  (∃ p g', allocate_test_port g = (g', Ok p) ∧ wf g' ∧
     test_port_range (port_set g) p ∧ (p ∉ test_ports g) ∧
     (∀ q, test_port_range (port_set g) q → q < p → q ∈ test_ports g) ∧
     test_ports g' = {[p]} ∪ test_ports g ∧ targets g' = targets g)
  ∨ (allocate_test_port g = (g, Raise AssertionError) ∧
     ∀ q, test_port_range (port_set g) q → q ∈ test_ports g).
Proof.
  destruct (allocate_cases g Hwf) as [(p & H & Hwf' & Hr & Hni & Hl)|H]; [left|by right].
  eexists p, _. split_and!; [exact H|exact Hwf'|done..].
Qed.

Lemma allocate_test_port_correct_witness :
  wf (mkGateway "gw"%string 3 None None [] {[32]} ∅ false false false false) ∧
  allocate_test_port (mkGateway "gw"%string 3 None None [] {[32]} ∅ false false false false)
  = (mkGateway "gw"%string 3 None None [] {[33; 32]} ∅ false false false false, Ok 33).
Proof.
  assert (wf (mkGateway "gw"%string 3 None None [] {[32]} ∅ false false false false)) as Hwf.
  { split; simpl; [lia| |apply NoDup_nil_2].
    intros p ->%elem_of_singleton. unfold test_port_range, SET_SPACING, TEST_OFFSET_START,
      NUM_SET_PORTS. lia. }
  split; [exact Hwf|].
  destruct (allocate_test_port_correct _ Hwf) as [(p & g' & H & _)|[H _]]; reflexivity.
Defined.

(** What one gateway allocates never collides with the ports of another
    one, nor with its own gateway and dummy ports: from well-formed gateways
    with different port sets, successful allocations give different ports, both
    inside the block of six switch ports of their set and outside its first
    two; releasing an allocated port makes the gateway as it was before. *)
Theorem test_ports_isolated (g1 g2 g1' g2' : Gateway) (p1 p2 : Z)
    (Hwf1 : wf g1) (Hwf2 : wf g2) (Hne : port_set g1 ≠ port_set g2)
    (H1 : allocate_test_port g1 = (g1', Ok p1)) (H2 : allocate_test_port g2 = (g2', Ok p2)) :
  p1 ≠ p2 ∧
  (p1 ∈ get_possible_test_ports g1) ∧
  p1 ≠ _switch_port GATEWAY_OFFSET g1 ∧ p1 ≠ _switch_port DUMMY_OFFSET g1 ∧
  p1 ≠ _switch_port GATEWAY_OFFSET g2 ∧ p1 ≠ _switch_port DUMMY_OFFSET g2 ∧
  release_test_port p1 g1' = (g1, Ok tt).
Proof.
  destruct (allocate_cases g1 Hwf1) as [(q1&Hq1&_&Hr1&Hni1&_)|[Hq1 _]];
    rewrite H1 in Hq1; [injection Hq1 as -> <-|done].
  destruct (allocate_cases g2 Hwf2) as [(q2&Hq2&_&Hr2&_)|[Hq2 _]];
    rewrite H2 in Hq2; [injection Hq2 as -> <-|done].
  split_and!.
  - unfold test_port_range, SET_SPACING, TEST_OFFSET_START, NUM_SET_PORTS in *. lia.
  - by apply elem_of_possible.
  - unfold test_port_range, _switch_port, GATEWAY_OFFSET, TEST_OFFSET_START in *. lia.
  - unfold test_port_range, _switch_port, DUMMY_OFFSET, TEST_OFFSET_START in *. lia.
  - unfold test_port_range, _switch_port, GATEWAY_OFFSET, TEST_OFFSET_START,
      NUM_SET_PORTS, SET_SPACING in *. lia.
  - unfold test_port_range, _switch_port, DUMMY_OFFSET, TEST_OFFSET_START,
      NUM_SET_PORTS, SET_SPACING in *. lia.
  - by apply release_undoes.
Qed.

Lemma test_ports_isolated_witness :
  12 ≠ 22 ∧ release_test_port 12
    (mkGateway "a"%string 1 None None [] {[12]} ∅ false false false false)
  = (mkGateway "a"%string 1 None None [] ∅ ∅ false false false false, Ok tt).
Proof.
  assert (∀ n k, 0 < k → wf (mkGateway n k None None [] ∅ ∅ false false false false)) as Hwf.
  { intros n k Hk. split; simpl; [done|set_solver|apply NoDup_nil_2]. }
  destruct (test_ports_isolated
    (mkGateway "a"%string 1 None None [] ∅ ∅ false false false false)
    (mkGateway "b"%string 2 None None [] ∅ ∅ false false false false)
    (mkGateway "a"%string 1 None None [] {[12]} ∅ false false false false)
    (mkGateway "b"%string 2 None None [] {[22]} ∅ false false false false) 12 22)
    as (H1 & _ & _ & _ & _ & _ & H7);
    [apply Hwf; lia|apply Hwf; lia|simpl; lia|reflexivity|reflexivity|].
  split; assumption.
Defined.

End Gateway.
