(* ===== verification/Topology.v ===== *)
(** * The network topology (src/daq/topology.py, [FaucetTopology])

    The topology turns the registered devices into the configuration of the
    SDN controller: the interfaces of the primary and secondary switches and
    the access control lists of the switch ports.  The state keeps what the
    object keeps, and the files it writes below the run directory.

    - The controller documents are [val]s; the interface tables have integer
      keys and are dictionaries of their own.
    - Devices and gateways are shared objects: the topology holds references
      and reads their fields when it generates rules, from the heaps of
      [Devices] and [Gateway] ([world]).
    - Rule lists that Python methods append to are passed and returned. *)

From stdpp Require Import base list gmap strings pretty.
From Stdlib Require Import ZArith Lia Ascii.
From S2P Require Import Prelude PyVal Devices Gateway.

(** The heaps the topology reads. *)
Record world := mkWorld {
  w_devices : Devices.Devices;
  w_gateways : gmap nat Gateway.Gateway
}.

Module FaucetTopology.
Import PyVal.
Local Open Scope string_scope.
Local Open Scope list_scope.
Local Open Scope Z_scope.

Definition MAC_PREFIX : string := "@mac:".
Definition DNS_PREFIX : string := "@dns:".
Definition CTL_PREFIX : string := "@ctrl:".
Definition BROADCAST_MAC : string := "ff:ff:ff:ff:ff:ff".
Definition IPV4_DL_TYPE : string := "0x0800".
Definition _DEFAULT_SEC_TRUNK_NAME : string := "trunk_sec".
Definition _MIRROR_PORT_BASE : Z := 1000.
Definition _SWITCH_LOCAL_PORT : Z := _MIRROR_PORT_BASE.
Definition _LOCAL_VLAN : Z := 1000.
Definition _DUMP_VLAN : Z := 999.
Definition PRI_DPID : Z := 1.
Definition PRI_TRUNK_PORT : Z := 1.
Definition PRI_TRUNK_NAME : string := "trunk_pri".
Definition _NO_VLAN : string := "0x0000/0x1000".
Definition _EXT_STACK : string := "EXT_STACK".
Definition _OFPP_IN_PORT : Z := 4294967288.
Definition _DOT1X_ETH_TYPE : Z := 34958.
Definition _DEFAULT_GAUGE_VARZ_PORT : Z := 9303.

(** The name formats. *)
Definition PORT_ACL_NAME_FORMAT (sw : string) (port : Z) : string :=
  "dp_" +:+ sw +:+ "_port_" +:+ pretty port +:+ "_acl".
Definition DP_ACL_FILE_FORMAT : string := "dp_port_acls.yaml".
Definition PORT_ACL_FILE_FORMAT (sw : string) (port : Z) : string :=
  "port_acls/dp_" +:+ sw +:+ "_port_" +:+ pretty port +:+ "_acl.yaml".
Definition FROM_ACL_KEY_FORMAT (ty : string) : string := "@from:template_" +:+ ty +:+ "_acl".
Definition TO_ACL_KEY_FORMAT (ty : string) : string := "@to:template_" +:+ ty +:+ "_acl".
Definition INCOMING_ACL_FORMAT (sw : string) : string := "dp_" +:+ sw +:+ "_incoming_acl".
Definition PORTSET_ACL_FORMAT (sw : string) (ps : Z) : string :=
  "dp_" +:+ sw +:+ "_portset_" +:+ pretty ps +:+ "_acl".
Definition LOCAL_ACL_FORMAT (sw : string) : string := "dp_" +:+ sw +:+ "_local_acl".
Definition _MIRROR_IFACE_FORMAT (port : Z) : string := "mirror-" +:+ pretty port.

(** The [target] dictionary the runner passes for a port. *)
Record target := mkTarget {
  t_port : Z;
  t_group : string;
  t_fake : option string;
  t_port_set : Z;
  t_mac : string
}.

#[global] Instance target_eq_dec : EqDecision target.
Proof. solve_decision. Defined.

Abbreviation iface := (dict string val) (only parsing).

Record dp := mkDp { dp_id : Z; interfaces : dict Z iface }.

Record net := mkNet {
  dps : dict string dp;
  vlans : dict Z val;
  include : list string
}.

Record Topology := mkTopology {
  config : val;
  pri_name : option string;
  sec_name : string;
  sec_port : Z;
  sec_dpid : Z;
  ext_ofip : val;
  ext_intf : val;
  _native_faucet : val;
  _ext_faucet : bool;
  _gauge_varz_port : Z;
  _device_specs : val;
  _port_targets : dict Z target;
  _set_devices : dict Z (gset nat);
  _egress_vlan : val;
  _native_vlan : val;
  topology : option net;
  files : dict string val;
  event_sock : option string
}.

Definition with_config (c : val) (t : Topology) : Topology :=
  mkTopology c (pri_name t) (sec_name t) (sec_port t) (sec_dpid t) (ext_ofip t) (ext_intf t)
    (_native_faucet t) (_ext_faucet t) (_gauge_varz_port t) (_device_specs t) (_port_targets t)
    (_set_devices t) (_egress_vlan t) (_native_vlan t) (topology t) (files t) (event_sock t).
Definition with_pri (n : option string) (t : Topology) : Topology :=
  mkTopology (config t) n (sec_name t) (sec_port t) (sec_dpid t) (ext_ofip t) (ext_intf t)
    (_native_faucet t) (_ext_faucet t) (_gauge_varz_port t) (_device_specs t) (_port_targets t)
    (_set_devices t) (_egress_vlan t) (_native_vlan t) (topology t) (files t) (event_sock t).
Definition with_port_targets (d : dict Z target) (t : Topology) : Topology :=
  mkTopology (config t) (pri_name t) (sec_name t) (sec_port t) (sec_dpid t) (ext_ofip t) (ext_intf t)
    (_native_faucet t) (_ext_faucet t) (_gauge_varz_port t) (_device_specs t) d
    (_set_devices t) (_egress_vlan t) (_native_vlan t) (topology t) (files t) (event_sock t).
Definition with_set_devices (d : dict Z (gset nat)) (t : Topology) : Topology :=
  mkTopology (config t) (pri_name t) (sec_name t) (sec_port t) (sec_dpid t) (ext_ofip t) (ext_intf t)
    (_native_faucet t) (_ext_faucet t) (_gauge_varz_port t) (_device_specs t) (_port_targets t)
    d (_egress_vlan t) (_native_vlan t) (topology t) (files t) (event_sock t).
Definition with_topology (n : option net) (t : Topology) : Topology :=
  mkTopology (config t) (pri_name t) (sec_name t) (sec_port t) (sec_dpid t) (ext_ofip t) (ext_intf t)
    (_native_faucet t) (_ext_faucet t) (_gauge_varz_port t) (_device_specs t) (_port_targets t)
    (_set_devices t) (_egress_vlan t) (_native_vlan t) n (files t) (event_sock t).
Definition with_files (f : dict string val) (t : Topology) : Topology :=
  mkTopology (config t) (pri_name t) (sec_name t) (sec_port t) (sec_dpid t) (ext_ofip t) (ext_intf t)
    (_native_faucet t) (_ext_faucet t) (_gauge_varz_port t) (_device_specs t) (_port_targets t)
    (_set_devices t) (_egress_vlan t) (_native_vlan t) (topology t) f (event_sock t).
Definition with_event_sock (s : option string) (t : Topology) : Topology :=
  mkTopology (config t) (pri_name t) (sec_name t) (sec_port t) (sec_dpid t) (ext_ofip t) (ext_intf t)
    (_native_faucet t) (_ext_faucet t) (_gauge_varz_port t) (_device_specs t) (_port_targets t)
    (_set_devices t) (_egress_vlan t) (_native_vlan t) (topology t) (files t) s.

(** [range(a, b)] *)
Definition range (a b : Z) : list Z := zseq a (Z.to_nat (b - a)).

(** ** Rules *)

(** [_maybe_apply] *)
Definition _maybe_apply (tgt : dict string val) (keyword : string) (origin : dict string val)
    (source : option string) : res (dict string val) :=
  let source_keyword := match source with
                        | Some s => if bool_decide (s = "") then keyword else s
                        | None => keyword end in
  match dget source_keyword origin with
  | None | Some VNone => Ok tgt
  | Some v =>
      guard_res (negb (dmem keyword tgt)) AssertionError;;
      Ok (dset keyword v tgt)
  end.

(** [_make_acl_rule] with its keyword arguments as a dictionary *)
Definition _make_acl_rule (kwargs : dict string val) : res val :=
  let in_vlan := match dget "in_vlan" kwargs with
                 | Some v => [("pop_vlans", VBool true); ("vlan_vid", v)]
                 | None => [] end in
  output ← _maybe_apply [] "port" kwargs None;
  output ← _maybe_apply output "ports" kwargs None;
  output ← _maybe_apply output "vlan_vid" kwargs (Some "out_vid");
  output ← _maybe_apply output "swap_vid" kwargs None;
  output ← _maybe_apply output "pop_vlans" in_vlan None;
  let actions := match output with [] => [] | _ => [("output", VDict output)] end in
  actions ← _maybe_apply actions "allow" kwargs None;
  actions ← _maybe_apply actions "mirror" kwargs None;
  subrule ← _maybe_apply [("actions", VDict actions)] "dl_type" kwargs None;
  subrule ← _maybe_apply subrule "dl_src" kwargs None;
  subrule ← _maybe_apply subrule "dl_dst" kwargs None;
  subrule ← _maybe_apply subrule "nw_proto" kwargs None;
  subrule ← _maybe_apply subrule "udp_src" kwargs None;
  subrule ← _maybe_apply subrule "udp_dst" kwargs None;
  subrule ← _maybe_apply subrule "vlan_vid" in_vlan None;
  subrule ← _maybe_apply subrule "vlan_vid" kwargs None;
  subrule ← _maybe_apply subrule "ipv4_dst" kwargs None;
  subrule ← _maybe_apply subrule "eth_type" kwargs None;
  Ok (VDict [("rule", VDict subrule)]).

Abbreviation acl := (list val) (only parsing).

Definition _add_acl_rule (a : acl) (kwargs : dict string val) : res acl :=
  rule ← _make_acl_rule kwargs; Ok (a ++ [rule]).

Definition _prepend_acl_rule (a : acl) (kwargs : dict string val) : res acl :=
  rule ← _make_acl_rule kwargs; Ok (rule :: a).

(** [portset_acls[port_set]] is appended to in place. *)
Definition add_portset_rule (acls : dict Z acl) (port_set : Z) (kwargs : dict string val) :
    res (dict Z acl) :=
  a ← of_option KeyError (dget port_set acls);
  a ← _add_acl_rule a kwargs;
  Ok (dset port_set a acls).

(** [for x in l: acc = f acc x] *)
Fixpoint foldM {A B} (f : A → B → res A) (acc : A) (l : list B) : res A :=
  match l with
  | [] => Ok acc
  | x :: l' => acc' ← f acc x; foldM f acc' l'
  end.

(** [_add_dot1x_allow_rule] *)
Definition _add_dot1x_allow_rule (a : acl) (ports : list Z) (vlan_vid out_vid : option Z) : res acl :=
  if Devices.truthy vlan_vid then
    _add_acl_rule a [("eth_type", VInt _DOT1X_ETH_TYPE); ("ports", vints ports);
                     ("vlan_vid", vopt vlan_vid)]
  else if Devices.truthy out_vid then
    _add_acl_rule a [("eth_type", VInt _DOT1X_ETH_TYPE); ("ports", vints ports);
                     ("out_vid", vopt out_vid)]
  else Ok a.

(** ** Ports and VLANs *)

Definition mirror_iface_name (input_port : Z) : string := _MIRROR_IFACE_FORMAT input_port.
Definition mirror_port (input_port : Z) : Z := _MIRROR_PORT_BASE + input_port.
Definition switch_port : Z := _SWITCH_LOCAL_PORT.

Definition _get_gw_ports (port_set : Z) : list Z :=
  let base_port := Gateway.SET_SPACING * port_set in
  range base_port (base_port + Gateway.NUM_SET_PORTS).

Definition _get_bcast_ports (port_set : Z) : list Z :=
  [1; _SWITCH_LOCAL_PORT] ++ _get_gw_ports port_set.

Definition _port_set_vlan (port_set : option Z) : Z :=
  match port_set with
  | Some ps => if ps =? 0 then _DUMP_VLAN else _LOCAL_VLAN + ps
  | None => _DUMP_VLAN
  end.

Definition _get_port_vlan (t : Topology) (port_no : option Z) : Z :=
  _port_set_vlan (port_no ≫= λ p, t_port_set <$> dget p (_port_targets t)).

Definition _has_sec_switch (t : Topology) : bool :=
  negb (sec_dpid t =? 0) && negb (sec_port t =? 0).

(** [get_device_intfs] *)
Definition get_device_intfs (t : Topology) : res (list string) :=
  intfs ← get (config t) "interfaces" (VDict []);
  intf_names ← match intfs with VDict d => Ok (dkeys d) | _ => Raise AttributeError end;
  Ok ((λ port, default (sec_name t +:+ "-" +:+ pretty port) (intf_names !! Z.to_nat (port - 1)))
        <$> range 1 (sec_port t)).

(** ** Interfaces *)

Definition run_trigger (t : Topology) : res val := get (config t) "run_trigger" (VDict []).

Definition _use_vlan_triggers (t : Topology) : res bool :=
  rt ← run_trigger t; v ← get rt "vlan_start" VNone; Ok (truth v).

Definition as_int (v : val) : res Z :=
  match v with VInt z => Ok z | VBool b => Ok (Z.b2z b) | _ => Raise TypeError end.

Definition _vlan_tags (t : Topology) : res (list Z) :=
  rt ← run_trigger t;
  vlan_start ← get rt "vlan_start" VNone;
  vlan_end ← get rt "vlan_end" VNone;
  use ← _use_vlan_triggers t;
  if use : bool then
    e ← as_int vlan_end; s ← as_int vlan_start;
    Ok (range s (e + 1) ++ [_LOCAL_VLAN])
  else Ok (range _LOCAL_VLAN (_LOCAL_VLAN + sec_port t)).

(** [%s] of the name of the primary switch *)
Definition pri_s (t : Topology) : string := default "None" (pri_name t).

Definition _make_mirror_interface (input_port : Z) : iface :=
  [("name", VStr (mirror_iface_name input_port)); ("output_only", VBool true)].

Definition _make_local_interface (t : Topology) : iface :=
  [("name", VStr "local_switch"); ("native_vlan", VInt _LOCAL_VLAN);
   ("acl_in", VStr (LOCAL_ACL_FORMAT (pri_s t)))].

Definition _make_gw_interface (t : Topology) (port_set : Z) : res iface :=
  use ← _use_vlan_triggers t;
  let vlan_id := if use : bool then _DUMP_VLAN else _port_set_vlan (Some port_set) in
  Ok [("acl_in", VStr (PORTSET_ACL_FORMAT (pri_s t) port_set)); ("native_vlan", VInt vlan_id)].

Definition _make_in_port_interface : iface :=
  [("description", VStr "OFPP_IN_PORT"); ("output_only", VBool true)].

Definition _make_pri_trunk_interface (t : Topology) : res iface :=
  vl ← (if truth (_native_vlan t) then Ok ("native_vlan", _native_vlan t)
        else tags ← _vlan_tags t; Ok ("tagged_vlans", vints tags));
  Ok [("acl_in", VStr (INCOMING_ACL_FORMAT (pri_s t))); vl; ("name", VStr PRI_TRUNK_NAME)].

Definition get_ext_intf (t : Topology) : val := ext_intf t.

Definition _make_sec_trunk_interface (t : Topology) : res iface :=
  tags ← _vlan_tags t;
  Ok [("acl_in", VStr (INCOMING_ACL_FORMAT (sec_name t))); ("tagged_vlans", vints tags);
      ("name", if truth (get_ext_intf t) then get_ext_intf t else VStr _DEFAULT_SEC_TRUNK_NAME)].

Definition _make_sec_port_interface (t : Topology) (port_no : Z) : res iface :=
  use ← _use_vlan_triggers t;
  let vlan_id := if use : bool then _port_set_vlan (Some port_no) else _DUMP_VLAN in
  Ok [("acl_in", VStr (PORT_ACL_NAME_FORMAT (sec_name t) port_no)); ("native_vlan", VInt vlan_id)].

(** The body of the loop of [_make_pri_interfaces]. *)
Definition add_port_set (t : Topology) (ifs : dict Z iface) (port_set : Z) : res (dict Z iface) :=
  ifs ← foldM (λ d port, i ← _make_gw_interface t port_set; Ok (dset port i d))
          ifs (_get_gw_ports port_set);
  Ok (dset (mirror_port port_set) (_make_mirror_interface port_set) ifs).

Definition _make_pri_interfaces (t : Topology) : res (dict Z iface) :=
  trunk ← _make_pri_trunk_interface t;
  let ifs := dset _OFPP_IN_PORT _make_in_port_interface (dset PRI_TRUNK_PORT trunk []) in
  ifs ← foldM (add_port_set t) ifs (range 1 (sec_port t));
  Ok (dset _SWITCH_LOCAL_PORT (_make_local_interface t) ifs).

Definition _make_sec_interfaces (t : Topology) : res (dict Z iface) :=
  trunk ← _make_sec_trunk_interface t;
  foldM (λ d port, i ← _make_sec_port_interface t port; Ok (dset port i d))
    (dset (sec_port t) trunk []) (range 1 (sec_port t)).

Definition _make_acl_include (t : Topology) : list string :=
  DP_ACL_FILE_FORMAT :: (PORT_ACL_FILE_FORMAT (sec_name t) <$> range 1 (sec_port t)).

Definition _make_pri_topology (t : Topology) : res dp :=
  ifs ← _make_pri_interfaces t; Ok (mkDp PRI_DPID ifs).

Definition _make_sec_topology (t : Topology) : res dp :=
  ifs ← _make_sec_interfaces t; Ok (mkDp (sec_dpid t) ifs).

Definition _make_vlan_description (vlan_id : Z) : dict Z val :=
  [(vlan_id, VDict [("unicast_flood", VBool false)])].

Definition _make_base_network_topology (t : Topology) : res net :=
  guard_res (match pri_name t with Some _ => true | None => false end) AssertionError;;
  pri ← _make_pri_topology t;
  ds ← (if _has_sec_switch t then sec ← _make_sec_topology t; Ok [("pri", pri); ("sec", sec)]
        else Ok [("pri", pri)]);
  Ok (mkNet ds (_make_vlan_description 10) (_make_acl_include t)).

(** [get_network_topology] copies the tables deeply; in the model values are
    never shared. *)
Definition get_network_topology (t : Topology) : option net := topology t.

Definition get_gauge_config (t : Topology) : val :=
  let poller ty := VDict [("all_dps", VBool true); ("db", VStr "prometheus"); ("type", VStr ty)] in
  VDict [("dbs", VDict [("prometheus", VDict [("prometheus_port", VInt (_gauge_varz_port t));
                                              ("type", VStr "prometheus")])]);
         ("faucet_configs", VList [VStr "/etc/faucet/faucet.yaml"]);
         ("watchers", VDict [("flow_table_poller", poller "flow_table");
                             ("port_stats_poller", poller "port_stats");
                             ("port_status_poller", poller "port_state")])].

(** ** The main rules *)

Section rules.
(** The heaps; the order in which Python iterates over a set; the files that
    can be read; [DAQ_RUN_DIR]. *)
Context (W : world) (set_iter : gset nat → list nat) (load : string → option val)
  (run_dir : string).

Definition device (r : nat) : res Devices.Device :=
  of_option AttributeError (Devices.dev_heap (w_devices W) !! r).

(** [device.gateway], which the attribute accesses require to be set. *)
Definition device_gateway (d : Devices.Device) : res Gateway.Gateway :=
  of_option AttributeError (Devices.gateway d ≫= λ g, w_gateways W !! g).

Definition device_port_no (d : Devices.Device) : res (option Z) :=
  p ← of_option AttributeError (Devices.port d ≫= λ p, Devices.port_heap (w_devices W) !! p);
  Ok (Devices.port_no p).

(** The devices in the order of [for devices in self._set_devices.values(): for
    device in devices]. *)
Definition all_set_devices (t : Topology) : list nat := dvals (_set_devices t) ≫= set_iter.

Definition _generate_switch_local_acls (t : Topology) (portset_acls : dict Z acl) (local_acl : acl) :
    res (dict Z acl * acl) :=
  '(portset_acls, all_ports) ←
    (if truth (ext_ofip t) then
       foldM (λ '(acls, ports) port_set,
                acls ← add_portset_rule acls port_set
                         [("ports", vints [_SWITCH_LOCAL_PORT]); ("ipv4_dst", ext_ofip t);
                          ("dl_type", VStr IPV4_DL_TYPE)];
                Ok (acls, ports ++ _get_gw_ports port_set))
         (portset_acls, []) (range 1 (sec_port t))
     else Ok (portset_acls, []));
  local_acl ← _add_acl_rule local_acl [("ports", vints all_ports)];
  Ok (portset_acls, local_acl).

(** [port_set_mirrors]: per port set, the MAC address and mirror port of its
    targets. *)
Abbreviation mirrors := (dict Z (list (string * Z))) (only parsing).

Definition add_mirror (m : mirrors) (tg : target) : mirrors :=
  dset (t_port_set tg)
    (default [] (dget (t_port_set tg) m) ++ [(t_mac tg, mirror_port (t_port tg))]) m.

Definition _generate_port_target_acls (t : Topology) (portset_acls : dict Z acl) :
    res (mirrors * dict Z acl) :=
  foldM (λ '(m, acls) tg,
           acls ← add_portset_rule acls (t_port_set tg)
                    [("dl_dst", VStr (t_mac tg)); ("ports", vints [mirror_port (t_port tg)]);
                     ("allow", VInt 1)];
           Ok (add_mirror m tg, acls))
    ([], portset_acls) (dvals (_port_targets t)).

(** The rules of one source of a port set. *)
Definition add_source_mirrors (mirror_tuples : list (string * Z)) (incoming_acl : acl)
    (src : string * Z) : res acl :=
  let '(src_mac, src_mirror) := src in
  incoming_acl ← _add_acl_rule incoming_acl
    [("dl_src", VStr src_mac); ("dl_dst", VStr BROADCAST_MAC); ("vlan_vid", VStr _NO_VLAN);
     ("ports", vints mirror_tuples.*2)];
  incoming_acl ←
    foldM (λ a '(dst_mac, dst_mirror),
             if bool_decide (dst_mac ≠ src_mac) then
               _add_acl_rule a
                 [("dl_src", VStr src_mac); ("dl_dst", VStr dst_mac); ("vlan_vid", VStr _NO_VLAN);
                  ("ports", vints [src_mirror; dst_mirror])]
             else Ok a) incoming_acl mirror_tuples;
  _add_acl_rule incoming_acl
    [("dl_src", VStr src_mac); ("vlan_vid", VStr _NO_VLAN); ("ports", vints [src_mirror])].

Definition _generate_mirror_acls (port_set_mirrors : mirrors) (incoming_acl : acl)
    (portset_acls : dict Z acl) : res (acl * dict Z acl) :=
  foldM (λ '(incoming_acl, portset_acls) '(port_set, mirror_tuples),
           incoming_acl ← foldM (add_source_mirrors mirror_tuples) incoming_acl mirror_tuples;
           portset_acls ← add_portset_rule portset_acls port_set
             [("dl_dst", VStr BROADCAST_MAC);
              ("ports", vints (mirror_tuples.*2 ++ [_SWITCH_LOCAL_PORT])); ("allow", VInt 1)];
           Ok (incoming_acl, portset_acls))
    (incoming_acl, portset_acls) port_set_mirrors.

(** The two rules of one device in [_add_dhcp_reflectors]. *)
Definition add_device_reflectors (t : Topology) (a : acl) (r : nat) : res acl :=
  d ← device r;
  let egress_vlan := if Devices.truthy (Devices.assigned d) then vopt (Devices.assigned d)
                     else _egress_vlan t in
  a ← _add_acl_rule a
    [("dl_type", VStr "0x800"); ("nw_proto", VInt 17); ("udp_src", VInt 68); ("udp_dst", VInt 67);
     ("vlan_vid", vopt (Devices.vlan d)); ("swap_vid", egress_vlan); ("port", VInt _OFPP_IN_PORT)];
  _add_acl_rule a
    [("dl_type", VStr "0x800"); ("dl_dst", VStr (Devices.mac d)); ("nw_proto", VInt 17);
     ("udp_src", VInt 67); ("udp_dst", VInt 68); ("vlan_vid", egress_vlan);
     ("swap_vid", vopt (Devices.vlan d)); ("port", VInt _OFPP_IN_PORT); ("allow", VBool true)].

Definition _add_dhcp_reflectors (t : Topology) (acl_list : acl) : res acl :=
  if negb (_ext_faucet t) then Ok acl_list else
  a ← foldM (add_device_reflectors t) acl_list (all_set_devices t);
  a ← _add_acl_rule a [("dl_type", VStr "0x800"); ("allow", VBool true); ("nw_proto", VInt 17);
                       ("udp_src", VInt 68); ("udp_dst", VInt 67)];
  _add_acl_rule a [("dl_type", VStr "0x800"); ("allow", VBool false); ("nw_proto", VInt 17);
                   ("udp_src", VInt 67); ("udp_dst", VInt 68)].

(** One device of [_add_dot1x_incoming_rule]. *)
Definition add_device_dot1x (t : Topology) (acls : acl * acl) (r : nat) : res (acl * acl) :=
  let '(incoming_acl, secondary_acl) := acls in
  d ← device r;
  match Devices.gateway d with
  | None => Ok acls
  | Some _ =>
      device_port ← device_port_no d;
      let vlan := _get_port_vlan t device_port in
      gw ← device_gateway d;
      let test_ports := Gateway.get_possible_test_ports gw in
      incoming_acl ← match test_ports with
                     | [] => Ok incoming_acl
                     | _ => _add_dot1x_allow_rule incoming_acl test_ports (Some vlan) None
                     end;
      secondary_acl ← match device_port with
                      | Some p => if p =? 0 then Ok secondary_acl
                                  else _add_dot1x_allow_rule secondary_acl [p] (Some vlan) None
                      | None => Ok secondary_acl
                      end;
      Ok (incoming_acl, secondary_acl)
  end.

Definition _add_dot1x_incoming_rule (t : Topology) (incoming_acl secondary_acl : acl) :
    res (acl * acl) :=
  foldM (add_device_dot1x t) (incoming_acl, secondary_acl) (all_set_devices t).

(** The last loop of [_generate_main_acls], one port set. *)
Definition finish_port_set (t : Topology) (st : dict Z acl * dict string val) (port_set : Z) :
    res (dict Z acl * dict string val) :=
  let '(portset_acls, acls) := st in
  let vlan := _port_set_vlan (Some port_set) in
  a ← of_option KeyError (dget port_set portset_acls);
  a ← _add_dot1x_allow_rule a [PRI_TRUNK_PORT] None (Some vlan);
  a ← _add_acl_rule a [("allow", VInt 1)];
  Ok (dset port_set a portset_acls, dset (PORTSET_ACL_FORMAT (pri_s t) port_set) (VList a) acls).

(** The document [_generate_main_acls] writes. *)
Definition main_acls (t : Topology) : res val :=
  '(incoming_acl, secondary_acl) ← _add_dot1x_incoming_rule t [] [];
  let portset_acls := foldl (λ d ps, dset ps [] d) [] (range 1 (sec_port t)) in
  '(portset_acls, local_acl) ← _generate_switch_local_acls t portset_acls [];
  '(port_set_mirrors, portset_acls) ← _generate_port_target_acls t portset_acls;
  '(incoming_acl, portset_acls) ← _generate_mirror_acls port_set_mirrors incoming_acl portset_acls;
  incoming_acl ← _add_dhcp_reflectors t incoming_acl;
  incoming_acl ← _add_acl_rule incoming_acl [("allow", VInt 1)];
  let acls := dset (INCOMING_ACL_FORMAT (pri_s t)) (VList incoming_acl) [] in
  secondary_acl ← _add_acl_rule secondary_acl [("allow", VInt 1)];
  let acls := dset (INCOMING_ACL_FORMAT (sec_name t)) (VList secondary_acl) acls in
  '(portset_acls, acls) ← foldM (finish_port_set t) (portset_acls, acls) (range 1 (sec_port t));
  let acls := dset (LOCAL_ACL_FORMAT (pri_s t)) (VList local_acl) acls in
  Ok (VDict [("acls", VDict acls)]).

(** [os.path.join] of a directory and a relative name. *)
Definition join_path (dir file : string) : string :=
  match rev (String.list_ascii_of_string dir) with
  | [] => file
  | c :: _ => if bool_decide (c = "/"%char) then dir +:+ file else dir +:+ "/" +:+ file
  end.

Definition _write_acl_file (filename : string) (doc : val) : M Topology unit :=
  modify (λ t, with_files (dset filename doc (files t)) t).

Definition _write_main_acls (doc : val) : M Topology unit :=
  _write_acl_file (join_path run_dir DP_ACL_FILE_FORMAT) doc.

Definition _generate_main_acls : M Topology unit :=
  t ← getS; doc ← lift (main_acls t); _write_main_acls doc.

(** ** The rules of a device port *)

(** [_load_file] *)
Definition _load_file (filename : string) : res val := of_option OtherException (load filename).

(** [%s] of a template name.  No file is named after a list or a mapping, so
    that the load that follows fails. *)
Definition name_of (v : val) : res string :=
  match v with
  | VStr s => Ok s
  | VInt z => Ok (pretty z)
  | VBool b => Ok (if b then "True" else "False")
  | VNone => Ok "None"
  | VList _ | VDict _ => Raise OtherException
  end.

Definition TEMPLATE_FILE_FORMAT (ty : string) : string :=
  join_path (join_path run_dir "acl_templates") ("template_" +:+ ty +:+ "_acl.yaml").

Definition macAddrs (t : Topology) : res val := getitem (_device_specs t) "macAddrs".

(** [mac in device_macs] for a value read from a document *)
Definition mac_in (m : val) (macs : val) : res bool :=
  match m, macs with
  | VStr s, _ => contains s macs
  | (VList _ | VDict _), VDict _ => Raise TypeError
  | _, VDict _ => Ok false
  | _, VList l => Ok (existsb (py_eq m) l)
  | _, _ => Raise TypeError
  end.

Definition mac_item (m : val) (macs : val) : res val :=
  match m with VStr s => getitem macs s | _ => Raise TypeError end.

(** [info['type'] if 'type' in info else 'default'] *)
Definition type_or_default (info : val) : res val :=
  b ← contains "type" info; if b : bool then getitem info "type" else Ok (VStr "default").

Definition _get_device_type (t : Topology) (target_mac : val) : res val :=
  device_macs ← macAddrs t;
  b ← mac_in target_mac device_macs;
  if b : bool then info ← mac_item target_mac device_macs; type_or_default info
  else Ok (VStr "default").

Definition _get_acl_template (t : Topology) (device_type : val) : res val :=
  if negb (truth (_device_specs t)) then Ok VNone
  else ty ← name_of device_type; _load_file (TEMPLATE_FILE_FORMAT ty).

Definition _conditional_match (src_rule dst_rule : val) (field : string) : res bool :=
  src ← get src_rule field VNone;
  dst ← get dst_rule field VNone;
  Ok (if truth src && truth dst then py_eq src dst else true).

(** [m and self._conditional_match(...)] *)
Definition and_match (m : res bool) (r : res bool) : res bool :=
  b ← m; if b : bool then r else Ok false.

Definition _rule_match (src_rule dst_rule : val) (controller : string) : res bool :=
  nw_src ← get dst_rule "nw_src" VNone;
  if negb (py_eq nw_src (VStr (CTL_PREFIX +:+ controller))) then Ok false else
  let m := _conditional_match src_rule dst_rule "udp_src" in
  let m := and_match m (_conditional_match src_rule dst_rule "udp_dst") in
  let m := and_match m (_conditional_match src_rule dst_rule "tcp_src") in
  and_match m (_conditional_match src_rule dst_rule "tcp_dst").

(** The loop of [_allow_target_mac]: the first rule that matches ends it. *)
Fixpoint any_rule_match (src_rule : val) (controller : string) (acls : list val) : res bool :=
  match acls with
  | [] => Ok false
  | a :: acls' =>
      target_rule ← getitem a "rule";
      b ← _rule_match src_rule target_rule controller;
      if b : bool then Ok true else any_rule_match src_rule controller acls'
  end.

Definition _allow_target_mac (t : Topology) (target_mac src_rule : val) (controller : string) :
    res bool :=
  device_type ← _get_device_type t target_mac;
  template_acl ← _get_acl_template t device_type;
  if negb (truth template_acl) then Ok false else
  device_macs ← macAddrs t;
  b ← mac_in target_mac device_macs;
  if negb b then Ok false else
  info ← mac_item target_mac device_macs;
  device_type ← type_or_default info;
  ty ← name_of device_type;
  acls ← getitem template_acl "acls";
  l ← getitem acls (TO_ACL_KEY_FORMAT ty);
  l ← iter l;
  any_rule_match src_rule controller l.

(** The result of [_resolve_targets]: [None], or the port targets of the
    controlees that accept the traffic. *)
Definition _resolve_targets (t : Topology) (tgt : val) (src_mac : option string) (src_rule : val) :
    res (option (list target)) :=
  if negb (truth tgt) then Ok None else
  c ← startswith tgt CTL_PREFIX;
  match c, tgt with
  | true, VStr s =>
      let controller := String.substring (String.length CTL_PREFIX) (String.length s) s in
      macs ← macAddrs t;
      bridge ← match src_mac with Some m => getitem macs m | None => Raise KeyError end;
      b ← contains "controllers" bridge;
      if negb b then Ok None else
      ctls ← getitem bridge "controllers";
      b ← contains controller ctls;
      if negb b then Ok None else
      ctl ← getitem ctls controller;
      middle ← getitem ctl "controlees";
      b ← contains controller middle;
      if negb b then Ok None else
      m ← getitem middle controller;
      target_macs ← getitem m "mac_addrs";
      target_macs ← iter target_macs;
      targets ← foldM (λ acc target_mac,
                         b ← _allow_target_mac t target_mac src_rule controller;
                         if b : bool then
                           Ok (acc ++ filter (λ tg, py_eq (VStr (t_mac tg)) target_mac = true)
                                 (dvals (_port_targets t)))
                         else Ok acc) [] target_macs;
      Ok (Some targets)
  | _, _ => Ok None
  end.

(** [_resolve_template_field]: the rule afterwards and the placeholder. *)
Definition _resolve_template_field (rule : dict string val) (field : string)
    (target_mac : option string) : res (dict string val * val) :=
  match dget field rule with
  | None => Ok (rule, VNone)
  | Some placeholder =>
      m ← startswith placeholder MAC_PREFIX;
      d ← startswith placeholder DNS_PREFIX;
      c ← startswith placeholder CTL_PREFIX;
      let mac_val := match target_mac with Some s => VStr s | None => VNone end in
      Ok (if m : bool then dset field mac_val rule
          else if d || c then ddel field rule else rule, placeholder)
  end.

(** [_augment_sec_port_acl] *)
Definition _augment_sec_port_acl (t : Topology) (a : val) (ports : option (list Z))
    (dl_dst : option string) : res val :=
  rule ← getitem a "rule";
  actions ← getitem rule "actions";
  o ← contains "output" actions;
  guard_res (negb o) AssertionError;;
  allow ← getitem actions "allow";
  if negb (truth allow) then Ok a else
  actions ← as_dict actions;
  rule ← as_dict rule;
  a ← as_dict a;
  let out_ports := default [] ports ++ [sec_port t] in
  let actions := dset "output" (VDict [("ports", vints out_ports)]) actions in
  let rule := match dl_dst with
              | Some m => if bool_decide (m = "") then rule else dset "dl_dst" (VStr m) rule
              | None => rule
              end in
  let udp_src := default VNone (dget "udp_src" rule) in
  is_dhcp ← (if truth udp_src then n ← to_int udp_src; Ok (n =? 68) else Ok false);
  let actions := match ports with
                 | Some _ => if is_dhcp : bool then actions else ddel "allow" actions
                 | None => actions
                 end in
  Ok (VDict (dset "rule" (VDict (dset "actions" (VDict actions) rule)) a)).

Definition _append_augmented_rule (t : Topology) (rules : acl) (a : val)
    (targets : option (list target)) : res acl :=
  match targets with
  | None => r ← _augment_sec_port_acl t a None None; Ok (rules ++ [r])
  | Some targets =>
      r ← _augment_sec_port_acl t a (Some (t_port <$> targets)) (Some BROADCAST_MAC);
      foldM (λ rules tg,
               r ← _augment_sec_port_acl t a (Some [t_port tg]) (Some (t_mac tg));
               Ok (rules ++ [r])) (rules ++ [r]) targets
  end.

(** One rule of a template in [_append_acl_template]; the resolution of the
    fields updates the rule in place. *)
Definition append_template_rule (t : Topology) (target_mac : option string) (rules : acl) (a : val) :
    res acl :=
  new_rule ← getitem a "rule";
  new_rule ← as_dict new_rule;
  '(new_rule, _) ← _resolve_template_field new_rule "dl_src" target_mac;
  '(new_rule, tgt) ← _resolve_template_field new_rule "nw_dst" None;
  targets ← _resolve_targets t tgt target_mac (VDict new_rule);
  a ← as_dict a;
  _append_augmented_rule t rules (VDict (dset "rule" (VDict new_rule) a)) targets.

(** [_append_acl_template]: the rules afterwards and whether there was a
    template. *)
Definition _append_acl_template (t : Topology) (rules : acl) (device_type : val)
    (target_mac : option string) : res (acl * bool) :=
  template_acl ← _get_acl_template t device_type;
  if negb (truth template_acl) then Ok (rules, false) else
  ty ← name_of device_type;
  acls ← getitem template_acl "acls";
  l ← getitem acls (FROM_ACL_KEY_FORMAT ty);
  l ← iter l;
  rules ← foldM (append_template_rule t target_mac) rules l;
  Ok (rules, true).

Definition _make_default_allow_rule : val :=
  VDict [("rule", VDict [("actions", VDict [("allow", VInt 1)])])].

Definition _make_default_acl_rules (t : Topology) : res acl :=
  '(rules, b) ← _append_acl_template t [] (VStr "raw") None;
  if b : bool then Ok rules else _append_augmented_rule t rules _make_default_allow_rule None.

Definition _append_device_default_allow (t : Topology) (rules : acl) (target_mac : string) : res acl :=
  macs ← macAddrs t;
  device_spec ← get macs target_mac VNone;
  if negb (truth device_spec) then Ok rules else
  b ← contains "default_allow" device_spec;
  if negb b then Ok rules else
  v ← getitem device_spec "default_allow";
  _append_augmented_rule t rules
    (VDict [("rule", VDict [("actions", VDict [("allow", VInt (if truth v then 1 else 0))]);
                            ("description", VStr "device_spec default_allow")])]) None.

Definition _add_acl_port_rules (t : Topology) (rules : acl) (target_mac : string) : res acl :=
  device_type ← _get_device_type t (VStr target_mac);
  '(rules, _) ← _append_acl_template t rules device_type (Some target_mac);
  Ok rules.

(** The rules [_generate_port_acl] writes for a port and the MAC address it
    returns. *)
Definition port_rules (t : Topology) (port : Z) : res (acl * option string) :=
  rules ← _add_dot1x_allow_rule [] [sec_port t] None (Some (_get_port_vlan t (Some port)));
  '(rules, target_mac) ←
    (if truth (_device_specs t) then
       match dget port (_port_targets t) with
       | Some tg => rules ← _add_acl_port_rules t rules (t_mac tg); Ok (rules, Some (t_mac tg))
       | None => Ok (rules, None)
       end
     else Ok (rules, None));
  rules ← (match target_mac with
           | Some m =>
               if bool_decide (m = "") then d ← _make_default_acl_rules t; Ok (rules ++ d)
               else
                 '(rules, b) ← _append_acl_template t rules (VStr "baseline") None;
                 guard_res b AssertionError;;
                 _append_device_default_allow t rules m
           | None => d ← _make_default_acl_rules t; Ok (rules ++ d)
           end);
  Ok (rules, target_mac).

Definition _write_port_acl (port : Z) (rules : acl) (filename : string) : M Topology unit :=
  t ← getS;
  _write_acl_file filename
    (VDict [("acls", VDict [(PORT_ACL_NAME_FORMAT (sec_name t) port, VList rules)])]).

Definition _generate_port_acl (port : Z) : M Topology (option string) :=
  t ← getS;
  '(rules, target_mac) ← lift (port_rules t port);
  _write_port_acl port rules (join_path run_dir (PORT_ACL_FILE_FORMAT (sec_name t) port));;
  mret target_mac.

Definition _generate_port_acls : M Topology unit :=
  t ← getS;
  for_each (range 1 (sec_port t)) (λ port, _generate_port_acl port;; mret tt).

Definition _generate_acls : M Topology unit := _generate_main_acls;; _generate_port_acls.

(** ** The operations of the runner *)

(** [_populate_set_devices] *)
Definition _populate_set_devices (r : nat) (port_set : option Z) : M Topology (Z * option Z) :=
  d ← lift (device r);
  gw ← lift (device_gateway d);
  let device_set := Gateway.port_set gw in
  assertM (bool_decide (port_set = Some device_set) || negb (Devices.truthy port_set));;
  t ← getS;
  (if Devices.truthy port_set then
     modify (λ t, with_set_devices
       (dset device_set ({[r]} ∪ default ∅ (dget device_set (_set_devices t))) (_set_devices t)) t)
   else
     s ← lift (of_option KeyError (dget device_set (_set_devices t)));
     if bool_decide (r ∈ s) then
       modify (λ t, with_set_devices (dset device_set (s ∖ {[r]}) (_set_devices t)) t)
     else raise KeyError);;
  t ← getS;
  s ← lift (of_option KeyError (dget device_set (_set_devices t)));
  mret (device_set, if bool_decide (s = ∅) then Some _DUMP_VLAN else Devices.vlan d).

(** [self.topology['dps'][sw]['interfaces'][port]['native_vlan'] = vlan] *)
Definition set_native_vlan (sw : option string) (port : Z) (vlan : Z) : M Topology unit := λ t,
  match topology t with
  | None => (t, Raise TypeError)
  | Some n =>
      match (sw ≫= λ s, (s,.) <$> dget s (dps n)) with
      | None => (t, Raise KeyError)
      | Some (s, d) =>
          match dget port (interfaces d) with
          | None => (t, Raise KeyError)
          | Some i =>
              let d' := mkDp (dp_id d) (dset port (dset "native_vlan" (VInt vlan) i) (interfaces d)) in
              (with_topology (Some (mkNet (dset s d' (dps n)) (vlans n) (include n))) t, Ok tt)
          end
      end
  end.

Definition direct_device_traffic (r : nat) (port_set : option Z) : M Topology unit :=
  '(device_set, vlan) ← _populate_set_devices r port_set;
  assertM (Devices.truthy vlan);;
  t ← getS;
  for_each (_get_gw_ports device_set)
    (λ port, set_native_vlan (pri_name t) port (default 0 vlan));;
  _generate_acls.

Definition direct_port_traffic (r : nat) (port_no : Z) (tgt : option target) : M Topology unit :=
  d ← lift (device r);
  gw ← lift (device_gateway d);
  _populate_set_devices r (Some (Gateway.port_set gw));;
  t ← getS;
  changed ←
    (match tgt, dget port_no (_port_targets t) with
     | None, Some _ =>
         modify (λ t, with_port_targets (ddel port_no (_port_targets t)) t);; mret true
     | Some tg, None =>
         modify (λ t, with_port_targets (dset port_no tg (_port_targets t)) t);; mret true
     | None, None => raise KeyError
     | Some tg, Some old => assertM (bool_decide (old = tg));; mret false
     end);
  if changed : bool then
    _generate_acls;;
    set_native_vlan (Some (sec_name t)) port_no (_port_set_vlan (t_port_set <$> tgt))
  else mret tt.

(** [initialize] *)
Definition initialize (name : string) : M Topology unit :=
  modify (with_pri (Some name));;
  t ← getS;
  n ← lift (_make_base_network_topology t);
  modify (with_topology (Some n));;
  _generate_acls.

(** [device_group_for] *)
Definition _sanitize_mac (mac_addr : string) : string :=
  String.string_of_list_ascii
    (filter (λ c, c ≠ ":"%char) (String.list_ascii_of_string mac_addr)).

Definition device_group_for (t : Topology) (r : nat) : res val :=
  d ← device r;
  if _ext_faucet t then
    Ok (VStr ("vlan-" +:+ match Devices.vlan d with Some v => pretty v | None => "None" end))
  else
    let target_mac := Devices.mac d in
    if negb (truth (_device_specs t)) then Ok (VStr (_sanitize_mac target_mac)) else
    mac_map ← macAddrs t;
    b ← contains target_mac mac_map;
    g ← (if b : bool then info ← getitem mac_map target_mac; contains "group" info else Ok false);
    if g : bool then info ← getitem mac_map target_mac; getitem info "group"
    else Ok (VStr (_sanitize_mac target_mac)).

(** [device_group_size] *)
Definition device_group_size (t : Topology) (group_name : val) : res Z :=
  if negb (truth (_device_specs t)) then Ok 1 else
  mac_map ← macAddrs t;
  macs ← iter mac_map;
  count ← foldM (λ count target_mac,
                   info ← mac_item target_mac mac_map;
                   g ← get info "group" VNone;
                   Ok (if py_eq g group_name then count + 1 else count)) 0 macs;
  Ok (if count =? 0 then 1 else count).

(** [_load_device_specs] *)
Definition _load_device_specs (cfg : val) : res val :=
  device_specs ← get cfg "device_specs" VNone;
  if truth device_specs then
    match device_specs with VStr f => _load_file f | _ => Raise TypeError end
  else Ok VNone.

(** [__init__] *)
Definition init (cfg : val) : res Topology :=
  switch_setup ← get cfg "switch_setup" (VDict []);
  v ← getitem switch_setup "uplink_port"; sp ← to_int v;
  v ← getitem switch_setup "of_dpid"; dpid ← to_int0 v;
  ofip ← get switch_setup "lo_addr" VNone;
  intf ← get switch_setup "data_intf" VNone;
  nat_faucet ← get switch_setup "native" VNone;
  model ← get switch_setup "model" VNone;
  v ← get switch_setup "varz_port_2" (VInt _DEFAULT_GAUGE_VARZ_PORT); gp ← to_int v;
  specs ← _load_device_specs cfg;
  c ← as_dict cfg;
  let c := if dmem "run_trigger" c then c else dset "run_trigger" (VDict []) c in
  rt ← getitem (VDict c) "run_trigger";
  egress ← get rt "egress_vlan" VNone;
  native ← get rt "native_vlan" VNone;
  Ok (mkTopology (VDict c) None "sec" sp dpid ofip intf nat_faucet
        (py_eq model (VStr _EXT_STACK)) gp specs [] [] egress native None [] None).

End rules.

(** ** Starting and stopping the controller *)

Section faucet.
(** The shell of the primary switch: the output of a command. *)
Context (cmd : string → string) (lib_dir : string).

(** [s.split(c)] *)
Fixpoint split_on (c : ascii) (l : list ascii) : list (list ascii) :=
  match l with
  | [] => [[]]
  | x :: l' =>
      if bool_decide (x = c) then [] :: split_on c l'
      else match split_on c l' with
           | w :: ws => (x :: w) :: ws
           | [] => [[x]]
           end
  end.

Definition endswith (l suffix : list ascii) : bool :=
  bool_decide (drop (length l - length suffix) l = suffix).

Definition chars (s : string) : list ascii := String.list_ascii_of_string s.

Definition _run_faucet (kill as_gauge : bool) : M Topology unit :=
  t ← getS;
  let native_arg := if truth (_native_faucet t) then " native" else "" in
  let gauge_arg := if as_gauge then " gauge" else "" in
  let kill_arg := if kill then " kill" else "" in
  let command := lib_dir +:+ "/cmd/faucet" +:+ native_arg +:+ kill_arg +:+ gauge_arg
    +:+ " && echo FAUCET_EVENT_SOCK=$FAUCET_EVENT_SOCK && echo SUCCESS" in
  let output := chars (cmd command) in
  assertM (endswith (strip output) (chars "SUCCESS"));;
  if as_gauge then mret tt else
  let lines := split_on "010"%char output in
  match filter (λ l, String.prefix "FAUCET_EVENT_SOCK=" (String.string_of_list_ascii l) = true) lines with
  | [] => raise AssertionError
  | l :: _ =>
      sock ← lift (of_option IndexError (split_on "="%char l !! 1%nat));
      modify (with_event_sock (Some (String.string_of_list_ascii (strip sock))))
  end.

Definition start : M Topology unit := _run_faucet false false;; _run_faucet false true.

Definition stop : M Topology unit :=
  t ← getS;
  if _ext_faucet t && negb (truth (_native_faucet t)) then mret tt
  else _run_faucet true false;; _run_faucet true true.

End faucet.

End FaucetTopology.
