(* ===== verification/TopologySpec.v ===== *)
(** * Properties of the network topology (src/daq/topology.py)

    - the interface table of the primary switch: one interface per gateway
      port, mirror port and system port, none overwritten ([pri_ports_distinct]);
    - VLAN isolation of the device ports, an invariant of every sequence of
      traffic updates ([device_port_vlans]);
    - the mirror rules stay within a port set ([mirror_rules_within_set]);
    - rule generation is total on a consistent state ([acl_generation_total]);
    - two behaviours of [direct_port_traffic] on released devices. *)

From stdpp Require Import base list gmap strings pretty relations.
From Stdlib Require Import ZArith Lia Ascii.
From S2P Require Import Prelude PyVal Devices Gateway Topology.

Module TopologySpec.
Import PyVal FaucetTopology.
Local Open Scope string_scope.
Local Open Scope list_scope.
Local Open Scope Z_scope.

(** ** Loops *)

Lemma foldM_inv {A B} (P : A → Prop) (f : A → B → res A) acc l acc' :
  (∀ a x a', x ∈ l → P a → f a x = Ok a' → P a') →
  P acc → foldM f acc l = Ok acc' → P acc'.
Proof.
  revert acc. induction l as [|x l IH]; intros acc Hf Hacc; simpl.
  - by intros [= <-].
  - destruct (f acc x) as [a|e] eqn:E; cbn [mbind res_bind]; [|done].
    apply IH; [intros; eapply Hf; eauto; by right|]. eapply Hf; eauto. left.
Qed.

Lemma foldM_total {A B} (P : A → Prop) (f : A → B → res A) acc l :
  (∀ a x, x ∈ l → P a → ∃ a', f a x = Ok a' ∧ P a') →
  P acc → ∃ acc', foldM f acc l = Ok acc' ∧ P acc'.
Proof.
  revert acc. induction l as [|x l IH]; intros acc Hf Hacc; simpl; [eauto|].
  destruct (Hf acc x) as (a & -> & Ha); [left|done|]. cbn [mbind res_bind].
  apply IH; [|done]. intros a' y Hy. apply Hf. by right.
Qed.

(** A loop that only appends. *)
Lemma foldM_appends {A B} (f : list A → B → res (list A)) (g : B → list A) acc l :
  (∀ a x, f a x = Ok (a ++ g x)) → foldM f acc l = Ok (acc ++ (l ≫= g)).
Proof.
  intros Hf. revert acc. induction l as [|x l IH]; intros acc; simpl.
  - by rewrite app_nil_r.
  - rewrite Hf. cbn [mbind res_bind]. rewrite IH. by rewrite <- (assoc_L (++)).
Qed.

Lemma elem_of_range a b x : x ∈ range a b ↔ a ≤ x < b.
Proof. unfold range. rewrite elem_of_zseq. lia. Qed.

Lemma range_snoc a b : a ≤ b → range a (b + 1) = range a b ++ [b].
Proof.
  intros ?. unfold range, zseq. replace (Z.to_nat (b + 1 - a)) with (S (Z.to_nat (b - a))) by lia.
  rewrite seq_S, fmap_app. simpl. do 2 f_equal. lia.
Qed.

Lemma range_nil a b : b ≤ a → range a b = [].
Proof. intros ?. unfold range. by replace (Z.to_nat (b - a)) with 0%nat by lia. Qed.

Lemma foldM_app {A B} (f : A → B → res A) acc l1 l2 :
  foldM f acc (l1 ++ l2) = (foldM f acc l1 ≫= λ a, foldM f a l2).
Proof.
  revert acc. induction l1 as [|x l1 IH]; intros acc; simpl; [done|].
  destruct (f acc x) as [a|e]; cbn [mbind res_bind]; [apply IH|done].
Qed.

(** ** The interface table of the primary switch *)

(** The interface a port of the primary switch must have. *)
Definition pri_interface (trunk : dict string val) (gw : Z → dict string val)
    (n p : Z) : option (dict string val) :=
  if decide (p = PRI_TRUNK_PORT) then Some trunk
  else if decide (p = _OFPP_IN_PORT) then Some _make_in_port_interface
  else if decide (_MIRROR_PORT_BASE < p < _MIRROR_PORT_BASE + n) then
    Some (_make_mirror_interface (p - _MIRROR_PORT_BASE))
  else if decide (Gateway.SET_SPACING ≤ p < Gateway.SET_SPACING * n ∧
                  p mod Gateway.SET_SPACING < Gateway.NUM_SET_PORTS) then
    Some (gw (p / Gateway.SET_SPACING))
  else None.

Lemma gw_interface_ok t ps use :
  _use_vlan_triggers t = Ok use →
  _make_gw_interface t ps = Ok
    [("acl_in", VStr (PORTSET_ACL_FORMAT (pri_s t) ps));
     ("native_vlan", VInt (if use : bool then _DUMP_VLAN else _port_set_vlan (Some ps)))].
Proof. intros H. unfold _make_gw_interface. by rewrite H. Qed.

Lemma set_ports_ok t (ifs : dict Z (dict string val)) ps i (l : list Z) :
  _make_gw_interface t ps = Ok i →
  ∃ ifs', foldM (λ d port, i ← _make_gw_interface t ps; Ok (dset port i d)) ifs l = Ok ifs' ∧
    ∀ p, dget p ifs' = if decide (p ∈ l) then Some i else dget p ifs.
Proof.
  intros ->. cbn [mbind res_bind]. revert ifs. induction l as [|q l IH]; intros ifs; simpl.
  - exists ifs. split; [done|]. intros p. destruct (decide (p ∈ [])); [set_solver|done].
  - destruct (IH (dset q i ifs)) as (ifs' & -> & H).
    exists ifs'. split; [done|]. intros p. rewrite H, dget_dset.
    destruct (decide (p ∈ l)), (decide (p = q)), (decide (p ∈ q :: l)); set_solver.
Qed.

Lemma elem_of_gw_ports ps p :
  p ∈ _get_gw_ports ps ↔
  Gateway.SET_SPACING * ps ≤ p < Gateway.SET_SPACING * ps + Gateway.NUM_SET_PORTS.
Proof. apply elem_of_range. Qed.

Lemma add_port_sets t trunk gw (n : nat) :
  (∀ ps, _make_gw_interface t ps = Ok (gw ps)) → Z.of_nat n < 100 →
  ∃ ifs, foldM (add_port_set t)
           (dset _OFPP_IN_PORT _make_in_port_interface (dset PRI_TRUNK_PORT trunk []))
           (range 1 (Z.of_nat n + 1)) = Ok ifs ∧
    ∀ p, dget p ifs = pri_interface trunk gw (Z.of_nat n + 1) p.
Proof.
  intros Hgw. induction n as [|n IH]; intros Hn.
  - rewrite range_nil by lia. eexists; split; [done|]. intros p.
    unfold pri_interface. rewrite !dget_dset. cbn [dget].
    unfold PRI_TRUNK_PORT, _OFPP_IN_PORT, _MIRROR_PORT_BASE, Gateway.SET_SPACING.
    repeat case_decide; try done; lia.
  - destruct IH as (ifs & Hifs & Hall); [lia|].
    replace (Z.of_nat (S n) + 1) with (Z.of_nat n + 1 + 1) by lia.
    rewrite range_snoc, foldM_app, Hifs by lia. cbn [mbind res_bind foldM].
    set (ps := Z.of_nat n + 1) in *. unfold add_port_set.
    destruct (set_ports_ok t ifs ps (gw ps) (_get_gw_ports ps)) as (ifs' & -> & H); [done|].
    cbn [mbind res_bind]. eexists; split; [done|]. intros p. rewrite dget_dset, H, Hall.
    unfold pri_interface, mirror_port.
    pose proof (elem_of_gw_ports ps p) as Hgp.
    unfold PRI_TRUNK_PORT, _OFPP_IN_PORT, _MIRROR_PORT_BASE, Gateway.SET_SPACING,
      Gateway.NUM_SET_PORTS in *.
    assert (0 < ps < 100) by lia. clearbody ps.
    destruct (decide (p ∈ _get_gw_ports ps)) as [Hin|Hni];
      [apply Hgp in Hin|assert (¬ 10 * ps ≤ p < 10 * ps + 6) by tauto];
      repeat case_decide; try done; try (exfalso; zlia).
    + do 2 f_equal. zlia.
    + do 2 f_equal. lia.
Qed.

(** ** VLANs of the device ports *)

(** The native VLAN the generated topology gives to a port of the secondary
    switch. *)
Definition sec_port_vlan (t : Topology) (p : Z) : option val :=
  n ← topology t; d ← dget (sec_name t) (dps n); i ← dget p (interfaces d);
  dget "native_vlan" i.

(** The port tables agree with the directed targets. *)
Record vlan_inv (t : Topology) : Prop := {
  vi_vlan : ∀ p, 1 ≤ p < sec_port t →
    sec_port_vlan t p = Some (VInt (_get_port_vlan t (Some p)));
  vi_names : pri_name t ≠ Some (sec_name t);
  vi_targets : dict_wf (_port_targets t)
}.

(** Everything the invariant and the port tables depend on is unchanged. *)
Definition same_ports (t t' : Topology) : Prop :=
  sec_port t' = sec_port t ∧ sec_name t' = sec_name t ∧ pri_name t' = pri_name t ∧
  _port_targets t' = _port_targets t ∧
  (∀ p, sec_port_vlan t' p = sec_port_vlan t p).

#[local] Instance same_ports_refl : Reflexive same_ports.
Proof. intros t. split_and!; done. Qed.

#[local] Instance same_ports_trans : Transitive same_ports.
Proof.
  intros t1 t2 t3 (?&?&?&?&H) (?&?&?&?&H'). split_and!; [congruence..|].
  intros p. by rewrite H', H.
Qed.

Lemma same_ports_inv t t' : same_ports t t' → vlan_inv t → vlan_inv t'.
Proof.
  intros (H1&H2&H3&H4&H5) [Hv Hn Ht]. split; [|congruence..].
  intros p Hp. rewrite H5, Hv by congruence. unfold _get_port_vlan. by rewrite H4.
Qed.

Lemma write_acl_file_frame f doc : preserves same_ports (_write_acl_file f doc).
Proof. intros t. split_and!; done. Qed.

Lemma generate_acls_frame W si load dir : preserves same_ports (_generate_acls W si load dir).
Proof.
  unfold _generate_acls, _generate_main_acls, _write_main_acls, _generate_port_acls,
    _generate_port_acl, _write_port_acl.
  frame; apply write_acl_file_frame.
Qed.

Lemma populate_frame W r ps : preserves same_ports (_populate_set_devices W r ps).
Proof.
  unfold _populate_set_devices. frame; intros t; split_and!; done.
Qed.

(** Updates of the primary switch leave the secondary one alone. *)
Lemma set_native_vlan_other sw port v t :
  sw ≠ Some (sec_name t) → same_ports t (fst (set_native_vlan sw port v t)).
Proof.
  intros Hne. unfold set_native_vlan.
  destruct (topology t) as [n|] eqn:Ht; [|reflexivity].
  destruct sw as [s|]; [|reflexivity]. simpl.
  destruct (dget s (dps n)) as [d|]; [|reflexivity]. simpl.
  destruct (dget port (interfaces d)); [|reflexivity].
  split_and!; try done. intros p. unfold sec_port_vlan. rewrite Ht. simpl.
  rewrite dget_dset_ne; [done|congruence].
Qed.

Lemma for_each_other sw v l t :
  sw ≠ Some (sec_name t) →
  same_ports t (fst (for_each l (λ port, set_native_vlan sw port v) t)).
Proof.
  revert t. induction l as [|p l IH]; intros t Hne; [reflexivity|].
  simpl. unfold mbind, M_bind.
  pose proof (set_native_vlan_other sw p v t Hne) as H.
  destruct (set_native_vlan sw p v t) as [t1 [[]|e]]; simpl in H |- *; [|done].
  etrans; [done|]. apply IH. destruct H as (_&->&_). done.
Qed.

Lemma direct_device_frame W si load dir r ps t :
  pri_name t ≠ Some (sec_name t) →
  same_ports t (fst (direct_device_traffic W si load dir r ps t)).
Proof.
  intros Hne. unfold direct_device_traffic, mbind at 1, M_bind at 1.
  pose proof (populate_frame W r ps t) as H1.
  destruct (_populate_set_devices W r ps t) as [t1 [[dset0 v]|e]]; simpl in H1; [|done].
  unfold mbind, M_bind, assertM, getS. destruct (Devices.truthy v); [|done]. simpl.
  assert (∀ l, same_ports t1 (fst (for_each l
    (λ port, set_native_vlan (pri_name t1) port (default 0 v)) t1))) as Hloop.
  { intros l. assert (pri_name t1 ≠ Some (sec_name t1)) as Hne1
      by (destruct H1 as (?&?&?&?); congruence).
    revert Hne1. generalize (pri_name t1) as pn. intros pn Hne1.
    by apply for_each_other. }
  specialize (Hloop (_get_gw_ports dset0)).
  destruct (for_each _ _ t1) as [t2 [[]|e]]; simpl in Hloop; [|by etrans].
  etrans; [done|]. etrans; [done|]. apply generate_acls_frame.
Qed.

(** A successful update of the secondary switch sets the port's VLAN. *)
Lemma set_native_vlan_sec port v t t' :
  set_native_vlan (Some (sec_name t)) port v t = (t', Ok tt) →
  sec_port t' = sec_port t ∧ sec_name t' = sec_name t ∧ pri_name t' = pri_name t ∧
  _port_targets t' = _port_targets t ∧
  ∀ p, sec_port_vlan t' p = if decide (p = port) then Some (VInt v) else sec_port_vlan t p.
Proof.
  unfold set_native_vlan.
  destruct (topology t) as [n|] eqn:Ht; [|done]. simpl.
  destruct (dget (sec_name t) (dps n)) as [d|] eqn:Hd; [|done]. simpl.
  destruct (dget port (interfaces d)) as [i|] eqn:Hi; [|done].
  intros [= <-]. split_and!; try done. intros p. unfold sec_port_vlan. rewrite Ht. simpl.
  rewrite dget_dset_eq. simpl. rewrite dget_dset, Hd. simpl.
  case_decide; [|done]. simpl. by rewrite dget_dset_eq.
Qed.

(** Steps of the traffic update after the device was registered. *)
Lemma direct_port_update W si load dir port tg (f : dict Z target → dict Z target) t t' :
  vlan_inv t →
  dict_wf (f (_port_targets t)) →
  dget port (f (_port_targets t)) = tg →
  (∀ p, p ≠ port → dget p (f (_port_targets t)) = dget p (_port_targets t)) →
  (_generate_acls W si load dir;;
   set_native_vlan (Some (sec_name t)) port (_port_set_vlan (t_port_set <$> tg)))
    (with_port_targets (f (_port_targets t)) t) = (t', Ok tt) →
  vlan_inv t'.
Proof.
  intros [Hv Hn Ht] Hwf Hp Hne. unfold mbind, M_bind.
  pose proof (generate_acls_frame W si load dir (with_port_targets (f (_port_targets t)) t)) as H.
  destruct (_generate_acls W si load dir _) as [t2 [[]|e]]; simpl in H; [|done].
  destruct H as (H1&H2&H3&H4&H5). simpl in *. rewrite <- H2.
  intros (K1&K2&K3&K4&K5)%set_native_vlan_sec. split; [|congruence..].
  intros p Hr. rewrite K5. unfold _get_port_vlan. rewrite K4, H4. simpl.
  destruct (decide (p = port)) as [->|Hd]; [by rewrite Hp|].
  rewrite H5. replace (sec_port_vlan _ p) with (sec_port_vlan t p) by done.
  rewrite Hv by (rewrite K1, H1 in Hr; done). unfold _get_port_vlan. simpl. by rewrite Hne.
Qed.

Lemma direct_port_inv W si load dir r port tg t t' :
  vlan_inv t → direct_port_traffic W si load dir r port tg t = (t', Ok tt) → vlan_inv t'.
Proof.
  intros Hinv. unfold direct_port_traffic, mbind at 1, M_bind at 1, lift at 1.
  destruct (device W r) as [d|]; [|done].
  unfold mbind at 1, M_bind at 1, lift at 1. destruct (device_gateway W d) as [gw|]; [|done].
  unfold mbind at 1, M_bind at 1.
  pose proof (populate_frame W r (Some (Gateway.port_set gw)) t) as H1.
  destruct (_populate_set_devices W r _ t) as [t1 [x|e]]; simpl in H1; [|done].
  apply (same_ports_inv t t1 H1) in Hinv. clear H1 t.
  unfold mbind at 1, M_bind at 1, getS.
  destruct tg as [tg|], (dget port (_port_targets t1)) as [old|] eqn:Hold; simpl.
  - unfold mbind at 1 2, M_bind at 1 2, assertM. case_bool_decide; [|done]. by intros [= <-].
  - apply (direct_port_update _ _ _ _ _ (Some tg) (dset port tg)); [done|..].
    + apply dict_wf_dset, Hinv.
    + apply dget_dset_eq.
    + intros p Hp. by apply dget_dset_ne.
  - apply (direct_port_update _ _ _ _ _ None (ddel port)); [done|..].
    + apply dict_wf_ddel, Hinv.
    + apply dget_ddel_eq, Hinv.
    + intros p Hp. by apply dget_ddel_ne.
  - done.
Qed.

Lemma sec_interfaces_ok t ifs :
  _use_vlan_triggers t = Ok false → _make_sec_interfaces t = Ok ifs →
  ∀ p, 1 ≤ p < sec_port t → ∃ i, dget p ifs = Some i ∧
    dget "native_vlan" i = Some (VInt _DUMP_VLAN).
Proof.
  intros Hu. unfold _make_sec_interfaces.
  destruct (_make_sec_trunk_interface t) as [trunk|]; cbn [mbind res_bind]; [|done].
  unfold _make_sec_port_interface. rewrite Hu. cbn [mbind res_bind].
  intros H p Hp%elem_of_range. revert ifs H Hp. generalize (dset (sec_port t) trunk []).
  induction (range 1 (sec_port t)) as [|q l IH] using rev_ind; intros d ifs; [set_solver|].
  rewrite foldM_app. destruct (foldM _ d l) as [d'|] eqn:E; [|done]. simpl.
  intros [= <-] [Hin| ->%list_elem_of_singleton]%elem_of_app.
  - rewrite dget_dset. case_decide; [by eexists|]. by eapply IH.
  - rewrite dget_dset_eq. by eexists.
Qed.

Lemma init_fresh load cfg t0 :
  init load cfg = Ok t0 → sec_name t0 = "sec" ∧ _port_targets t0 = [] ∧ _set_devices t0 = [].
Proof.
  unfold init.
  repeat (match goal with
          | |- mbind _ ?r = _ → _ => destruct r; cbn [mbind res_bind]; [|done]
          end).
  by intros [= <-].
Qed.

Lemma initialize_inv W si load dir cfg name t0 t1 :
  init load cfg = Ok t0 → _use_vlan_triggers t0 = Ok false → _has_sec_switch t0 = true →
  name ≠ "sec" →
  initialize W si load dir name t0 = (t1, Ok tt) → vlan_inv t1.
Proof.
  intros (Hs & Ht & _)%init_fresh Hu Hsec Hname.
  unfold initialize, mbind, M_bind, modify, getS, lift.
  destruct (_make_base_network_topology _) as [n|] eqn:Hn; [|done].
  intros Hgen. pose proof (generate_acls_frame W si load dir
    (with_topology (Some n) (with_pri (Some name) t0))) as Hf.
  rewrite Hgen in Hf. simpl in Hf. refine (same_ports_inv _ _ Hf _).
  unfold _make_base_network_topology in Hn. simpl in Hn.
  destruct (_make_pri_topology _) as [pri|]; [|done]. cbn [mbind res_bind] in Hn.
  change (_has_sec_switch (with_pri (Some name) t0)) with (_has_sec_switch t0) in Hn.
  rewrite Hsec in Hn. unfold _make_sec_topology in Hn.
  destruct (_make_sec_interfaces _) as [ifs|] eqn:Hi; [|done].
  cbn [mbind res_bind] in Hn. injection Hn as <-.
  split; simpl.
  - intros p Hp. destruct (sec_interfaces_ok _ ifs Hu Hi p Hp) as (i & H1 & H2).
    unfold sec_port_vlan, _get_port_vlan. simpl. rewrite Hs. simpl. rewrite H1. simpl.
    rewrite Ht. done.
  - congruence.
  - rewrite Ht. apply NoDup_nil_2.
Qed.

(** The updates a network performs after its initialization: devices and
    gateways may change in between.  A port update counts when it returns; a
    device update may also fail. *)
Inductive traffic_step (load : string → option val) (dir : string) : relation Topology :=
  | port_step W si r port tg t t' :
      direct_port_traffic W si load dir r port tg t = (t', Ok tt) → traffic_step load dir t t'
  | device_step W si r ps t t' o :
      direct_device_traffic W si load dir r ps t = (t', o) → traffic_step load dir t t'.

Lemma traffic_inv load dir t t' :
  vlan_inv t → rtc (traffic_step load dir) t t' → vlan_inv t'.
Proof.
  intros Hinv Hs. revert Hinv. induction Hs as [|t t1 t2 H _ IH]; [done|].
  intros Hinv. apply IH. destruct H as [W si r port tg t t' H|W si r ps t t' o H].
  - by eapply direct_port_inv.
  - pose proof (direct_device_frame W si load dir r ps t) as Hf. rewrite H in Hf.
    eapply same_ports_inv; [apply Hf, Hinv|done].
Qed.

(** ** The mirror rules *)

(** A rule of the incoming list that copies the frames of a source. *)
Definition mirror_rule (src : string) (dst : option string) (ports : list Z) : val :=
  VDict [("rule", VDict ([("actions", VDict [("output", VDict [("ports", vints ports)])]);
                          ("dl_src", VStr src)] ++
                         match dst with Some d => [("dl_dst", VStr d)] | None => [] end ++
                         [("vlan_vid", VStr _NO_VLAN)]))].

Definition allow_rule : val :=
  VDict [("rule", VDict [("actions", VDict [("allow", VInt 1)])])].

Definition mirror_of (tg : target) : string * Z := (t_mac tg, mirror_port (t_port tg)).

(** The rules of one source among the mirrors of its port set. *)
Definition source_rules (tuples : list (string * Z)) (src : string * Z) : list val :=
  mirror_rule (fst src) (Some BROADCAST_MAC) tuples.*2 ::
  (tuples ≫= λ dst, if bool_decide (fst dst ≠ fst src)
                    then [mirror_rule (fst src) (Some (fst dst)) [snd src; snd dst]] else []) ++
  [mirror_rule (fst src) None [snd src]].

Lemma add_source_mirrors_ok tuples a src :
  add_source_mirrors tuples a src = Ok (a ++ source_rules tuples src).
Proof.
  destruct src as [m p]. unfold add_source_mirrors, source_rules.
  change (_add_acl_rule a _) with (Ok (a ++ [mirror_rule m (Some BROADCAST_MAC) tuples.*2])).
  cbn [mbind res_bind].
  rewrite (foldM_appends _ (λ dst, if bool_decide (dst.1 ≠ m)
                     then [mirror_rule m (Some dst.1) [p; dst.2]] else [])).
  - cbn [mbind res_bind fst snd].
    change (_add_acl_rule ?x _) with (Ok (x ++ [mirror_rule m None [p]])).
    by rewrite <- !(assoc_L (++)).
  - intros a' [d q]. simpl. case_bool_decide; [done|]. by rewrite app_nil_r.
Qed.

Lemma mirror_acls_incoming m inc acls inc' acls' :
  _generate_mirror_acls m inc acls = Ok (inc', acls') →
  inc' = inc ++ (m ≫= λ '(_, tuples), tuples ≫= source_rules tuples).
Proof.
  unfold _generate_mirror_acls. revert inc acls. induction m as [|[ps tuples] m IH]; intros inc acls.
  - cbn. intros [= <- <-]. by rewrite app_nil_r.
  - cbn [foldM]. rewrite (foldM_appends _ (source_rules tuples)) by apply add_source_mirrors_ok.
    cbn [mbind res_bind]. destruct (add_portset_rule _ _ _) as [acls2|]; [|done].
    cbn [mbind res_bind]. intros ->%IH. cbn. by rewrite <- (assoc_L (++)).
Qed.

Lemma target_acls_mirrors t acls m acls' :
  _generate_port_target_acls t acls = Ok (m, acls') →
  m = foldl add_mirror [] (dvals (_port_targets t)).
Proof.
  unfold _generate_port_target_acls. generalize (@nil (Z * list (string * Z))) as m0.
  generalize (dvals (_port_targets t)). intros l. revert acls.
  induction l as [|tg l IH]; intros acls m0; cbn [foldM]; [by intros [= <- <-]|].
  destruct (add_portset_rule _ _ _) as [acls2|]; [|done].
  cbn [mbind res_bind]. intros ->%IH. done.
Qed.

(** The mirrors of a port set are those of its targets, in order. *)
Definition set_mirrors (l : list target) (ps : Z) : list (string * Z) :=
  mirror_of <$> filter (λ tg, t_port_set tg = ps) l.

Lemma set_mirrors_snoc l tg ps :
  set_mirrors (l ++ [tg]) ps =
  set_mirrors l ps ++ if decide (ps = t_port_set tg) then [mirror_of tg] else [].
Proof.
  unfold set_mirrors. rewrite filter_app, fmap_app. f_equal.
  destruct (decide (ps = t_port_set tg)).
  - by rewrite filter_cons_True.
  - by rewrite filter_cons_False.
Qed.

Lemma mirrors_spec l :
  dict_wf (foldl add_mirror [] l) ∧
  (∀ ps, dget ps (foldl add_mirror [] l) =
         if bool_decide (set_mirrors l ps = []) then None else Some (set_mirrors l ps)).
Proof.
  induction l as [|tg l [IHw IH]] using rev_ind; [split; [apply NoDup_nil_2|done]|].
  rewrite foldl_app. simpl. unfold add_mirror at 1 3.
  split; [by apply dict_wf_dset|]. intros ps.
  rewrite dget_dset. rewrite set_mirrors_snoc.
  destruct (decide (ps = t_port_set tg)) as [->|Hne].
  - rewrite IH. simpl.
    destruct (set_mirrors l (t_port_set tg)) as [|x xs]; [done|].
    rewrite !bool_decide_false by done. done.
  - rewrite app_nil_r. apply IH.
Qed.

Lemma elem_of_mirrors l ps tuples :
  (ps, tuples) ∈ foldl add_mirror [] l ↔ tuples ≠ [] ∧ tuples = set_mirrors l ps.
Proof.
  destruct (mirrors_spec l) as [Hwf Hget]. split.
  - intros Hin. apply (dget_wf_elem _ _ _ Hwf) in Hin. rewrite Hget in Hin.
    case_bool_decide; naive_solver.
  - intros [Hne ->]. apply dget_Some_elem. rewrite Hget. by rewrite bool_decide_false.
Qed.

Lemma elem_of_set_mirrors l ps x :
  x ∈ set_mirrors l ps ↔ ∃ tg, tg ∈ l ∧ t_port_set tg = ps ∧ x = mirror_of tg.
Proof.
  unfold set_mirrors. rewrite list_elem_of_fmap. setoid_rewrite list_elem_of_filter. naive_solver.
Qed.

(** All mirror rules of the targets [l]. *)
Definition all_mirror_rules (l : list target) : list val :=
  foldl add_mirror [] l ≫= λ '(_, tuples), tuples ≫= source_rules tuples.

Lemma elem_of_mirror_rules l r :
  r ∈ all_mirror_rules l ↔
  ∃ tg, tg ∈ l ∧ r ∈ source_rules (set_mirrors l (t_port_set tg)) (mirror_of tg).
Proof.
  unfold all_mirror_rules. rewrite list_elem_of_bind. split.
  - intros ([ps tuples] & Hr & [Hne ->]%elem_of_mirrors).
    apply list_elem_of_bind in Hr as (src & Hr & (tg & Hin & <- & ->)%elem_of_set_mirrors). eauto.
  - intros (tg & Hin & Hr).
    assert (mirror_of tg ∈ set_mirrors l (t_port_set tg)) as Hm by (apply elem_of_set_mirrors; eauto).
    exists (t_port_set tg, set_mirrors l (t_port_set tg)). rewrite elem_of_mirrors. split_and!.
    + apply list_elem_of_bind. eauto.
    + intros Hnil. rewrite Hnil in Hm. by apply not_elem_of_nil in Hm.
    + done.
Qed.

(** ** Rule generation is total *)

Lemma maybe_apply_new tgt k o src :
  dget k tgt = None →
  ∃ tgt', _maybe_apply tgt k o src = Ok tgt' ∧ ∀ k', k' ≠ k → dget k' tgt' = dget k' tgt.
Proof.
  intros Hk. unfold _maybe_apply, dmem, guard_res. rewrite Hk. cbn [negb mbind res_bind].
  destruct (dget _ o) as [[]|]; eexists; (split; [done|]); intros k' Hne;
    rewrite ?dget_dset_ne by done; done.
Qed.

(** A rule without [in_vlan] is always well formed: its keywords differ. *)
Lemma make_acl_rule_total kwargs :
  dget "in_vlan" kwargs = None → ∃ rule, _make_acl_rule kwargs = Ok rule.
Proof.
  intros Hin. unfold _make_acl_rule. rewrite Hin.
  repeat match goal with
  | |- context [_maybe_apply ?tgt ?k [] ?src] =>
      change (_maybe_apply tgt k [] src) with (Ok tgt); cbn [mbind res_bind]
  | |- context [_maybe_apply ?tgt ?k ?o ?src] =>
      let x := fresh "x" in let Hx := fresh "Hx" in let E := fresh "E" in
      destruct (maybe_apply_new tgt k o src) as (x & E & Hx);
      [repeat match goal with
         | H : ∀ k', k' ≠ _ → dget k' ?x = _ |- dget _ ?x = _ => rewrite H by discriminate
         end; try reflexivity; case_match; reflexivity
      |rewrite E; clear E; cbn [mbind res_bind]]
  end.
  by eexists.
Qed.

Lemma add_acl_rule_total a kwargs :
  dget "in_vlan" kwargs = None → ∃ rule, _add_acl_rule a kwargs = Ok (a ++ [rule]).
Proof.
  intros [rule H]%make_acl_rule_total. exists rule. unfold _add_acl_rule. by rewrite H.
Qed.

Lemma dot1x_allow_total a ports v o :
  ∃ a', _add_dot1x_allow_rule a ports v o = Ok (a ++ a').
Proof.
  unfold _add_dot1x_allow_rule.
  repeat case_match; [edestruct add_acl_rule_total as [r ->]; [done|eauto]..|].
  exists []. by rewrite app_nil_r.
Qed.

(** The dictionary of the port set lists has exactly the port sets. *)
Definition has_sets (n : Z) (acls : dict Z (list val)) : Prop :=
  ∀ ps, is_Some (dget ps acls) ↔ 1 ≤ ps < n.

Lemma add_portset_rule_spec n acls ps kwargs :
  has_sets n acls → dget "in_vlan" kwargs = None →
  if decide (1 ≤ ps < n) then ∃ acls', add_portset_rule acls ps kwargs = Ok acls' ∧ has_sets n acls'
  else add_portset_rule acls ps kwargs = Raise KeyError.
Proof.
  intros Hs Hk. unfold add_portset_rule. case_decide as Hps.
  - destruct (proj2 (Hs ps) Hps) as [a Ha]. rewrite Ha.
    cbn [of_option mbind res_bind]. destruct (add_acl_rule_total a kwargs Hk) as [r ->].
    cbn [mbind res_bind]. eexists; split; [done|]. intros q. rewrite dget_dset.
    case_decide; [subst; split; [done|by eexists]|apply Hs].
  - destruct (dget ps acls) eqn:E; [|done]. exfalso. apply Hps, Hs. by eexists.
Qed.

Lemma empty_sets n : has_sets n (foldl (λ d ps, dset ps [] d) [] (range 1 n)).
Proof.
  unfold has_sets. setoid_rewrite <- elem_of_range.
  induction (range 1 n) as [|q l IH] using rev_ind; intros ps.
  - simpl. split; [by intros []|by intros ?%not_elem_of_nil].
  - rewrite foldl_app. simpl. rewrite dget_dset, elem_of_app, list_elem_of_singleton, <- IH.
    case_decide; naive_solver.
Qed.

(** The objects the registered devices refer to exist. *)
Definition heap_ok (W : world) (si : gset nat → list nat) (t : Topology) : Prop :=
  ∀ r, r ∈ all_set_devices si t → ∃ d, device W r = Ok d ∧
    (Devices.gateway d ≠ None →
     is_ok (device_gateway W d) = true ∧ is_ok (device_port_no W d) = true).

Lemma dot1x_incoming_total W si t :
  heap_ok W si t → ∃ i s, _add_dot1x_incoming_rule W si t [] [] = Ok (i, s).
Proof.
  intros Hh. unfold _add_dot1x_incoming_rule.
  destruct (foldM_total (λ _, True) (add_device_dot1x W t) ([], []) (all_set_devices si t))
    as ([i s] & H & _); [|done|eauto].
  intros [i s] r Hr _. destruct (Hh r Hr) as (d & Hd & Hg). unfold add_device_dot1x.
  rewrite Hd. cbn [mbind res_bind]. destruct (Devices.gateway d) eqn:E; [|eauto].
  destruct Hg as [Hg Hp]; [done|].
  destruct (device_port_no W d) as [po|]; [|done]. cbn [mbind res_bind].
  destruct (device_gateway W d) as [gw|]; [|done]. cbn [mbind res_bind].
  destruct (dot1x_allow_total i (Gateway.get_possible_test_ports gw)
    (Some (_get_port_vlan t po)) None) as [i' Hi].
  assert (∃ i2, match Gateway.get_possible_test_ports gw with [] => Ok i
     | _ => _add_dot1x_allow_rule i (Gateway.get_possible_test_ports gw)
         (Some (_get_port_vlan t po)) None end = Ok i2) as [i2 ->] by (case_match; eauto).
  cbn [mbind res_bind]. destruct po as [p|]; [|by eauto].
  destruct (dot1x_allow_total s [p] (Some (_get_port_vlan t (Some p))) None) as [s' Hs].
  case_match; [by eauto|]. rewrite Hs. by eauto.
Qed.

Lemma switch_local_total t acls l :
  has_sets (sec_port t) acls →
  ∃ acls' l', _generate_switch_local_acls t acls l = Ok (acls', l') ∧ has_sets (sec_port t) acls'.
Proof.
  intros Hs. unfold _generate_switch_local_acls. destruct (truth (ext_ofip t)).
  - match goal with |- context [foldM ?f ?acc ?r] =>
      destruct (foldM_total (λ x : dict Z (list val) * list Z, has_sets (sec_port t) x.1) f acc r)
        as ([acls' ps] & -> & H') end.
    + intros [a ports] ps Hps%elem_of_range Ha. simpl in Ha.
      pose proof (add_portset_rule_spec _ a ps [("ports", vints [_SWITCH_LOCAL_PORT]);
        ("ipv4_dst", ext_ofip t); ("dl_type", VStr IPV4_DL_TYPE)] Ha eq_refl) as H.
      rewrite decide_True in H by done. destruct H as (a' & -> & Ha').
      cbn [mbind res_bind]. by eexists.
    + done.
    + cbn [mbind res_bind]. destruct (add_acl_rule_total l [("ports", vints ps)]) as [r ->]; [done|].
      by do 2 eexists.
  - cbn [mbind res_bind]. by do 2 eexists.
Qed.

(** The targets decide: an unknown port set is a [KeyError]. *)
Lemma port_target_acls_spec t acls :
  has_sets (sec_port t) acls →
  if decide (Forall (λ tg, 1 ≤ t_port_set tg < sec_port t) (dvals (_port_targets t)))
  then ∃ m acls', _generate_port_target_acls t acls = Ok (m, acls') ∧ has_sets (sec_port t) acls'
  else _generate_port_target_acls t acls = Raise KeyError.
Proof.
  unfold _generate_port_target_acls. generalize (@nil (Z * list (string * Z))).
  generalize (dvals (_port_targets t)). intros l. revert acls.
  induction l as [|tg l IH]; intros acls m Hs.
  - rewrite decide_True by constructor. by do 2 eexists.
  - cbn [foldM].
    pose proof (add_portset_rule_spec _ acls (t_port_set tg) [("dl_dst", VStr (t_mac tg));
      ("ports", vints [mirror_port (t_port tg)]); ("allow", VInt 1)] Hs eq_refl) as H.
    destruct (decide (1 ≤ t_port_set tg < sec_port t)) as [Hr|Hr].
    + destruct H as (a' & -> & Ha'). cbn [mbind res_bind].
      specialize (IH a' (add_mirror m tg) Ha').
      destruct (decide (Forall _ l)) as [Hl|Hl].
      * rewrite decide_True; [done|by constructor].
      * rewrite decide_False; [done|]. by intros [_ ?]%Forall_cons.
    + rewrite H. rewrite decide_False; [done|]. by intros [? _]%Forall_cons.
Qed.

Lemma mirror_acls_total n l inc acls :
  has_sets n acls → Forall (λ tg, 1 ≤ t_port_set tg < n) l →
  ∃ inc' acls', _generate_mirror_acls (foldl add_mirror [] l) inc acls = Ok (inc', acls') ∧
    has_sets n acls'.
Proof.
  intros Hs Hl. unfold _generate_mirror_acls.
  match goal with |- context [foldM ?f ?acc ?r] =>
    destruct (foldM_total (λ x : list val * dict Z (list val), has_sets n x.2) f acc r)
      as ([inc' acls'] & -> & H') end; [|done|by eauto].
  intros [i a] [ps tuples] Hin Ha. simpl in Ha.
  apply elem_of_mirrors in Hin as [Hne Htup].
  assert (1 ≤ ps < n) as Hps.
  { destruct tuples as [|x tuples]; [done|].
    assert (x ∈ set_mirrors l ps) as (tg & Htg & <- & _)%elem_of_set_mirrors
      by (rewrite <- Htup; left).
    rewrite Forall_forall in Hl. by apply Hl. }
  rewrite (foldM_appends _ (source_rules tuples)) by apply add_source_mirrors_ok.
  cbn [mbind res_bind].
  pose proof (add_portset_rule_spec n a ps [("dl_dst", VStr BROADCAST_MAC);
    ("ports", vints (tuples.*2 ++ [_SWITCH_LOCAL_PORT])); ("allow", VInt 1)] Ha eq_refl) as H.
  rewrite decide_True in H by done. destruct H as (a' & -> & Ha'). cbn [mbind res_bind]. eauto.
Qed.

Lemma reflectors_total W si t a :
  heap_ok W si t → ∃ a', _add_dhcp_reflectors W si t a = Ok (a ++ a').
Proof.
  intros Hh. unfold _add_dhcp_reflectors. destruct (_ext_faucet t); simpl;
    [|exists []; by rewrite app_nil_r].
  destruct (foldM_total (λ b, ∃ c, b = a ++ c) (add_device_reflectors W t) a
    (all_set_devices si t)) as (b & -> & c & ->).
  - intros b r Hr [c ->]. destruct (Hh r Hr) as (d & Hd & _). unfold add_device_reflectors.
    rewrite Hd. cbn [mbind res_bind].
    edestruct add_acl_rule_total as [r1 ->]; [done|]. cbn [mbind res_bind].
    edestruct add_acl_rule_total as [r2 ->]; [done|].
    eexists; split; [done|]. eexists. by rewrite <- !(assoc_L (++)).
  - exists []. by rewrite app_nil_r.
  - cbn [mbind res_bind]. edestruct add_acl_rule_total as [r1 ->]; [done|]. cbn [mbind res_bind].
    eexists. by rewrite <- !(assoc_L (++)).
Qed.

(** The last loop only adds entries of port set lists. *)
Lemma finish_port_sets t acls docs :
  has_sets (sec_port t) acls →
  ∃ acls' docs', foldM (finish_port_set t) (acls, docs) (range 1 (sec_port t)) = Ok (acls', docs') ∧
    ∀ k, (∀ ps, k ≠ PORTSET_ACL_FORMAT (pri_s t) ps) → dget k docs' = dget k docs.
Proof.
  intros Hs.
  destruct (foldM_total (λ x : dict Z (list val) * dict string val, has_sets (sec_port t) x.1 ∧
      ∀ k, (∀ ps, k ≠ PORTSET_ACL_FORMAT (pri_s t) ps) → dget k x.2 = dget k docs)
      (finish_port_set t) (acls, docs) (range 1 (sec_port t)))
    as ([acls' docs'] & -> & _ & H'); [|done|eauto].
  intros [a d] ps Hps%elem_of_range [Ha Hd]. simpl in Ha, Hd. unfold finish_port_set.
  destruct (proj2 (Ha ps) Hps) as [x Hx]. rewrite Hx. cbn [of_option mbind res_bind].
  destruct (dot1x_allow_total x [PRI_TRUNK_PORT] None (Some (_port_set_vlan (Some ps)))) as [y ->].
  cbn [mbind res_bind]. edestruct add_acl_rule_total as [r ->]; [done|]. cbn [mbind res_bind].
  eexists; split; [done|]. simpl. split.
  - intros q. rewrite dget_dset. case_decide; [subst; split; [done|by eexists]|apply Ha].
  - intros k Hk. rewrite dget_dset_ne by apply Hk. by apply Hd.
Qed.

(** The list of a document. *)
Definition doc_acl (doc : val) (name : string) : option val :=
  match doc with
  | VDict d => match dget "acls" d with Some (VDict acls) => dget name acls | _ => None end
  | _ => None
  end.

Lemma main_acls_spec W si t :
  heap_ok W si t → pri_name t = Some "pri" → sec_name t = "sec" →
  if decide (Forall (λ tg, 1 ≤ t_port_set tg < sec_port t) (dvals (_port_targets t)))
  then ∃ doc before sec after,
    main_acls W si t = Ok doc ∧ _add_dot1x_incoming_rule W si t [] [] = Ok (before, sec) ∧
    _add_dhcp_reflectors W si t (before ++ all_mirror_rules (dvals (_port_targets t))) =
      Ok ((before ++ all_mirror_rules (dvals (_port_targets t))) ++ after) ∧
    doc_acl doc (INCOMING_ACL_FORMAT "pri") = Some (VList
      (((before ++ all_mirror_rules (dvals (_port_targets t))) ++ after) ++ [allow_rule]))
  else main_acls W si t = Raise KeyError.
Proof.
  intros Hh Hp Hsn. unfold main_acls.
  destruct (dot1x_incoming_total W si t Hh) as (before & sec & Hb). rewrite Hb. cbn [mbind res_bind].
  destruct (switch_local_total t _ [] (empty_sets (sec_port t))) as (a1 & l1 & -> & H1).
  cbn [mbind res_bind]. pose proof (port_target_acls_spec t a1 H1) as H2.
  destruct (decide (Forall _ _)) as [Hall|_]; [|by rewrite H2].
  destruct H2 as (m & a2 & H2 & Hs2). rewrite H2. cbn [mbind res_bind].
  apply target_acls_mirrors in H2 as ->.
  destruct (mirror_acls_total (sec_port t) (dvals (_port_targets t)) before a2 Hs2 Hall)
    as (inc & a3 & H3 & Hs3). rewrite H3. cbn [mbind res_bind].
  apply mirror_acls_incoming in H3 as ->. fold (all_mirror_rules (dvals (_port_targets t))).
  destruct (reflectors_total W si t (before ++ all_mirror_rules (dvals (_port_targets t))) Hh)
    as (after & Haf). rewrite Haf. cbn [mbind res_bind].
  change (_add_acl_rule ?x [("allow", VInt 1)]) with (Ok (x ++ [allow_rule])).
  cbn [mbind res_bind].
  edestruct (finish_port_sets t a3) as (a4 & docs & -> & Hk); [done|]. cbn [mbind res_bind].
  do 4 eexists. split_and!; [done|done|done|].
  cbn [doc_acl dget]. rewrite decide_True by done. unfold pri_s in *. rewrite Hp, Hsn in *.
  cbn [default] in *. rewrite dget_dset_ne by done. rewrite Hk by done.
  rewrite dget_dset_ne by done. by rewrite dget_dset_eq.
Qed.

(** ** The files *)

Lemma string_length_app s1 s2 :
  String.length (s1 +:+ s2) = (String.length s1 + String.length s2)%nat.
Proof.
  induction s1 as [|c s1 IH]; [done|].
  change (S (String.length (s1 +:+ s2)) = S (String.length s1 + String.length s2)). by rewrite IH.
Qed.

Lemma string_app_inv_r s1 s2 s : s1 +:+ s = s2 +:+ s → s1 = s2.
Proof.
  revert s2. induction s1 as [|c s1 IH]; intros [|c' s2] H; [done|..].
  - apply (f_equal String.length) in H. rewrite !string_length_app in H. simpl in H. lia.
  - apply (f_equal String.length) in H. rewrite !string_length_app in H. simpl in H. lia.
  - change (String c (s1 +:+ s) = String c' (s2 +:+ s)) in H.
    injection H as -> H. by rewrite (IH s2 H).
Qed.

#[local] Instance join_path_inj dir : Inj (=) (=) (join_path dir).
Proof.
  intros f1 f2. unfold join_path. destruct (rev _); [done|].
  case_bool_decide; [by intros ?%(inj _)|]. by intros ?%(inj _)%(inj _).
Qed.

#[local] Instance port_file_inj sw : Inj (=) (=) (PORT_ACL_FILE_FORMAT sw).
Proof.
  intros p1 p2. unfold PORT_ACL_FILE_FORMAT.
  by intros ?%(inj _)%(inj _)%(inj _)%string_app_inv_r%(inj _).
Qed.

(** The default rules of a port: authentication frames go out on the trunk in
    the port's VLAN, and everything is allowed towards the trunk. *)
Definition dot1x_out_rule (ports : list Z) (vid : Z) : val :=
  VDict [("rule", VDict [("actions", VDict [("output", VDict [("ports", vints ports);
                                                              ("vlan_vid", VInt vid)])]);
                         ("eth_type", VInt _DOT1X_ETH_TYPE)])].

Definition default_rule (sec_port : Z) : val :=
  VDict [("rule", VDict [("actions", VDict [("allow", VInt 1);
                                            ("output", VDict [("ports", vints [sec_port])])])])].

Definition default_port_doc (t : Topology) (p : Z) : val :=
  VDict [("acls", VDict [(PORT_ACL_NAME_FORMAT (sec_name t) p,
    VList [dot1x_out_rule [sec_port t] (_get_port_vlan t (Some p)); default_rule (sec_port t)])])].

Lemma port_rules_default load dir t p :
  truth (_device_specs t) = false → _get_port_vlan t (Some p) ≠ 0 →
  port_rules load dir t p =
    Ok ([dot1x_out_rule [sec_port t] (_get_port_vlan t (Some p)); default_rule (sec_port t)], None).
Proof.
  intros Hs Hv. unfold port_rules, _add_dot1x_allow_rule.
  replace (Devices.truthy (Some (_get_port_vlan t (Some p)))) with true
    by (unfold Devices.truthy; by destruct (_get_port_vlan t (Some p))).
  cbn [Devices.truthy vopt].
  change (_add_acl_rule [] _) with (Ok [dot1x_out_rule [sec_port t] (_get_port_vlan t (Some p))]).
  cbn [mbind res_bind]. rewrite Hs. cbn [mbind res_bind].
  unfold _make_default_acl_rules, _append_acl_template, _get_acl_template. by rewrite Hs.
Qed.

Lemma generate_port_acl_default load dir t p :
  truth (_device_specs t) = false → _get_port_vlan t (Some p) ≠ 0 →
  (_generate_port_acl load dir p;; mret tt) t =
    (with_files (dset (join_path dir (PORT_ACL_FILE_FORMAT (sec_name t) p)) (default_port_doc t p)
       (files t)) t, Ok tt).
Proof.
  intros Hs Hv. unfold _generate_port_acl, mbind, M_bind, getS, lift.
  by rewrite port_rules_default.
Qed.

Lemma generate_ports_default load dir t l :
  truth (_device_specs t) = false → (∀ p, p ∈ l → _get_port_vlan t (Some p) ≠ 0) →
  ∃ f, for_each l (λ port, _generate_port_acl load dir port;; mret tt) t = (with_files f t, Ok tt) ∧
    (∀ p, p ∈ l → dget (join_path dir (PORT_ACL_FILE_FORMAT (sec_name t) p)) f =
                  Some (default_port_doc t p)) ∧
    (∀ name, (∀ p, p ∈ l → name ≠ join_path dir (PORT_ACL_FILE_FORMAT (sec_name t) p)) →
             dget name f = dget name (files t)).
Proof.
  revert t. induction l as [|p l IH]; intros t Hs Hv.
  - exists (files t). split; [by destruct t|]. split; [set_solver|done].
  - cbn [for_each].
    erewrite bind_ok by (apply generate_port_acl_default; [done|apply Hv; left]).
    set (t1 := with_files _ t).
    destruct (IH t1) as (f & Hf & H1 & H2); [done|intros q Hq; apply Hv; by right|].
    exists f. split_and!; [exact Hf| |].
    + intros q [->|Hq]%elem_of_cons; [|by apply H1].
      destruct (decide (p ∈ l)) as [Hin|Hni]; [by apply H1|].
      rewrite H2; [unfold t1; simpl; by rewrite dget_dset_eq|].
      intros q Hq Heq. apply (inj _), (inj _) in Heq. by subst.
    + intros name Hn. rewrite H2 by (intros q Hq; apply Hn; by right).
      unfold t1. simpl. rewrite dget_dset_ne; [done|]. apply Hn. left.
Qed.

Lemma generate_acls_default W si load dir t doc :
  truth (_device_specs t) = false →
  Forall (λ tg, 1 ≤ t_port_set tg < sec_port t) (dvals (_port_targets t)) →
  main_acls W si t = Ok doc →
  ∃ f, _generate_acls W si load dir t = (with_files f t, Ok tt) ∧
    dget (join_path dir DP_ACL_FILE_FORMAT) f = Some doc ∧
    ∀ p, 1 ≤ p < sec_port t →
      dget (join_path dir (PORT_ACL_FILE_FORMAT (sec_name t) p)) f = Some (default_port_doc t p).
Proof.
  intros Hs Hr Hm. unfold _generate_acls, _generate_main_acls, _write_main_acls, _write_acl_file,
    _generate_port_acls, mbind, M_bind, getS, lift, modify. rewrite Hm.
  set (t1 := with_files _ t).
  destruct (generate_ports_default load dir t1 (range 1 (sec_port t1))) as (f & Hf & H1 & H2).
  - done.
  - intros p _. unfold _get_port_vlan. unfold t1; simpl.
    destruct (dget p (_port_targets t)) as [tg|] eqn:E; [|done]. simpl.
    apply dget_Some_elem in E. rewrite Forall_forall in Hr.
    assert (tg ∈ dvals (_port_targets t)) as Hin by (apply list_elem_of_fmap; by exists (p, tg)).
    specialize (Hr _ Hin). unfold _LOCAL_VLAN, _DUMP_VLAN. case_match; lia.
  - exists f. split_and!; [exact Hf| |].
    + rewrite H2; [unfold t1; simpl; by rewrite dget_dset_eq|].
      intros p _ Heq%(inj _). unfold DP_ACL_FILE_FORMAT, PORT_ACL_FILE_FORMAT in Heq. discriminate.
    + intros p Hp. apply H1. by apply elem_of_range.
Qed.

(** ** The registered devices *)

(** Only [_populate_set_devices] changes the registration. *)
Definition same_sets (t t' : Topology) : Prop := _set_devices t' = _set_devices t.

#[local] Instance same_sets_preorder : PreOrder same_sets.
Proof. split; [done|]. intros t1 t2 t3. unfold same_sets. congruence. Qed.

Lemma generate_acls_sets W si load dir : preserves same_sets (_generate_acls W si load dir).
Proof.
  unfold _generate_acls, _generate_main_acls, _write_main_acls, _generate_port_acls,
    _generate_port_acl, _write_port_acl, _write_acl_file.
  frame; intros t; done.
Qed.

Lemma set_native_vlan_sets sw port v : preserves same_sets (set_native_vlan sw port v).
Proof. intros t. unfold set_native_vlan. repeat case_match; done. Qed.

Lemma populate_adds W r d gw t :
  device W r = Ok d → device_gateway W d = Ok gw → 0 < Gateway.port_set gw →
  ∃ v, _populate_set_devices W r (Some (Gateway.port_set gw)) t =
    (with_set_devices (dset (Gateway.port_set gw)
      ({[r]} ∪ default ∅ (dget (Gateway.port_set gw) (_set_devices t))) (_set_devices t)) t, Ok v).
Proof.
  intros Hd Hg Hps. unfold _populate_set_devices.
  erewrite bind_ok by (unfold lift; by rewrite Hd).
  erewrite bind_ok by (unfold lift; by rewrite Hg).
  rewrite bool_decide_true by done.
  assert (Devices.truthy (Some (Gateway.port_set gw)) = true) as -> by (destruct (Gateway.port_set gw); simpl; lia || done).
  erewrite bind_ok by reflexivity. erewrite bind_ok by reflexivity.
  erewrite bind_ok by reflexivity. erewrite bind_ok by reflexivity.
  cbn [_set_devices with_set_devices]. rewrite dget_dset_eq.
  erewrite bind_ok by reflexivity. by eexists.
Qed.

(** ** A network with two device ports and one directed device *)

Definition demo_cfg : val :=
  VDict [("switch_setup", VDict [("uplink_port", VStr "3"); ("of_dpid", VStr "0x2")])].

Definition demo_t0 : Topology :=
  mkTopology (VDict [("switch_setup", VDict [("uplink_port", VStr "3"); ("of_dpid", VStr "0x2")]);
                     ("run_trigger", VDict [])])
    None "sec" 3 2 VNone VNone VNone false 9303 VNone [] [] VNone VNone None [] None.

Definition demo_device (gw : option nat) : Devices.Device :=
  Devices.mkDevice "02:00:00:00:00:01" None gw None (Some 1%nat) false None
    (Devices.mkIpInfo None None None) None (Some 1) None false.

Definition demo_gw : Gateway.Gateway :=
  Gateway.mkGateway "gw01" 1 None None [] ∅ ∅ false false false false.

Definition demo_world (gw : option nat) : world :=
  mkWorld (Devices.mkDevices {[ 0%nat := demo_device gw ]}
             {[ 1%nat := Devices.mkPortInfo true None (Some 1) ]} 2 [("02:00:00:00:00:01", 0%nat)] {[1]})
    {[ 7%nat := demo_gw ]}.

Definition no_files : string → option val := λ _, None.

Definition demo_target : target := mkTarget 1 "020000000001" None 1 "02:00:00:00:00:01".

Definition demo_t1 : Topology :=
  fst (initialize (demo_world (Some 7%nat)) elements no_files "inst" "pri" demo_t0).

Definition demo_t2 : Topology :=
  fst (direct_port_traffic (demo_world (Some 7%nat)) elements no_files "inst" 0 1
         (Some demo_target) demo_t1).

Definition demo_t3 : Topology :=
  fst (direct_port_traffic (demo_world (Some 7%nat)) elements no_files "inst" 0 1 None demo_t2).

Lemma demo_heap_ok : heap_ok (demo_world (Some 7%nat)) elements demo_t2.
Proof.
  intros r Hr. assert (r = 0%nat) as ->.
  { revert Hr. vm_compute (all_set_devices elements demo_t2).
    by intros ->%list_elem_of_singleton. }
  exists (demo_device (Some 7%nat)). split; [done|]. intros _. split; reflexivity.
Qed.

(** The bound of the table: the ports of set 100 contain the local port. *)
Lemma gw_ports_meet_local : _SWITCH_LOCAL_PORT ∈ _get_gw_ports 100.
Proof. apply elem_of_gw_ports. vm_compute. split; [discriminate|reflexivity]. Qed.

(** ** Properties *)

(** C36: up to 100 ports (99 port sets and the uplink), the interface table of
    the primary switch is complete and nothing in it is overwritten: the trunk,
    the reflection port and the local port have their interface, each of the
    six gateway ports of a port set carries the set's access list and VLAN, the
    set has its mirror port, and there is no other port.  (From 101 on, the
    gateway ports of set 100 meet the local port 1000.) *)
Theorem pri_ports_distinct (t : Topology) (use : bool) (trunk : dict string val)
    (Huse : _use_vlan_triggers t = Ok use) (Htrunk : _make_pri_trunk_interface t = Ok trunk)
    (Hport : 1 ≤ sec_port t ≤ 100) :
  ∃ ifs, _make_pri_interfaces t = Ok ifs ∧
    dget PRI_TRUNK_PORT ifs = Some trunk ∧
    dget _OFPP_IN_PORT ifs = Some _make_in_port_interface ∧
    dget _SWITCH_LOCAL_PORT ifs = Some (_make_local_interface t) ∧
    (∀ ps, 1 ≤ ps < sec_port t →
       (∀ q, q ∈ _get_gw_ports ps → dget q ifs = Some
          [("acl_in", VStr (PORTSET_ACL_FORMAT (pri_s t) ps));
           ("native_vlan", VInt (if use then _DUMP_VLAN else _LOCAL_VLAN + ps))]) ∧
       dget (mirror_port ps) ifs = Some (_make_mirror_interface ps)) ∧
    (∀ q i, dget q ifs = Some i →
       q = PRI_TRUNK_PORT ∨ q = _OFPP_IN_PORT ∨ q = _SWITCH_LOCAL_PORT ∨
       ∃ ps, 1 ≤ ps < sec_port t ∧ (q ∈ _get_gw_ports ps ∨ q = mirror_port ps)).
Proof.
  set (gw := λ ps, [("acl_in", VStr (PORTSET_ACL_FORMAT (pri_s t) ps));
    ("native_vlan", VInt (if use : bool then _DUMP_VLAN else _port_set_vlan (Some ps)))]).
  destruct (add_port_sets t trunk gw (Z.to_nat (sec_port t - 1))) as (ifs & Hifs & Hget);
    [intros ps; by apply gw_interface_ok|lia|].
  replace (Z.of_nat (Z.to_nat (sec_port t - 1)) + 1) with (sec_port t) in * by lia.
  unfold _make_pri_interfaces. rewrite Htrunk. cbn [mbind res_bind]. rewrite Hifs.
  cbn [mbind res_bind]. eexists; split; [done|].
  assert (∀ q, dget q (dset _SWITCH_LOCAL_PORT (_make_local_interface t) ifs) =
    if decide (q = _SWITCH_LOCAL_PORT) then Some (_make_local_interface t)
    else pri_interface trunk gw (sec_port t) q) as Hd by (intros q; by rewrite dget_dset, Hget).
  unfold pri_interface, mirror_port, _SWITCH_LOCAL_PORT, PRI_TRUNK_PORT, _OFPP_IN_PORT,
    _MIRROR_PORT_BASE in *.
  split_and!; [by rewrite Hd..| |].
  - intros ps Hps. split.
    + intros q Hq%elem_of_gw_ports. rewrite Hd.
      unfold Gateway.SET_SPACING, Gateway.NUM_SET_PORTS in *.
      repeat (rewrite decide_False by lia). rewrite decide_True by zlia.
      replace (q / 10) with ps by zlia. unfold gw, _port_set_vlan.
      by destruct (Z.eqb_spec ps 0); [lia|].
    + rewrite Hd. rewrite !decide_False by lia. rewrite decide_True by lia. do 2 f_equal. lia.
  - intros q i. rewrite Hd. setoid_rewrite elem_of_gw_ports.
    unfold Gateway.SET_SPACING, Gateway.NUM_SET_PORTS in *. repeat case_decide; try (intros; tauto).
    + intros _. do 3 right. exists (q - 1000). lia.
    + intros _. do 3 right. exists (q / 10). zlia.
    + done.
Qed.

Lemma pri_ports_distinct_witness :
  ∃ ifs, _make_pri_interfaces demo_t1 = Ok ifs ∧ dget 13 ifs =
    Some [("acl_in", VStr "dp_pri_portset_1_acl"); ("native_vlan", VInt 1001)].
Proof.
  destruct (pri_ports_distinct demo_t1 false
    [("acl_in", VStr "dp_pri_incoming_acl"); ("tagged_vlans", vints [1000; 1001; 1002]);
     ("name", VStr "trunk_pri")]) as (ifs & H & _ & _ & _ & Hps & _);
    [vm_compute; reflexivity..|vm_compute; split; discriminate|].
  exists ifs. split; [exact H|].
  destruct (Hps 1) as [Hg _]; [vm_compute; split; [discriminate|reflexivity]|].
  refine (Hg 13 _). apply elem_of_gw_ports. vm_compute. split; [discriminate|reflexivity].
Defined.



(** C16: mirroring.  When the access lists are generated, the incoming list of
    the primary switch is the authentication rules, the mirror rules, the DHCP
    rules and a final allow.  For each directed target the mirror rules copy
    its broadcasts to the mirror ports of all targets of its port set, its
    frames to another device of the set to both mirrors, and all its frames to
    its own mirror; and every mirror rule is for the frames of a target and
    copies them to mirror ports of its own port set only. *)
Theorem mirror_rules_within_set (W : world) (si : gset nat → list nat) (t : Topology)
    (Hheap : heap_ok W si t) (Hpri : pri_name t = Some "pri") (Hsec : sec_name t = "sec")
    (Hsets : Forall (λ tg, 1 ≤ t_port_set tg < sec_port t) (dvals (_port_targets t))) :
  ∃ doc before sec mirror after,
    main_acls W si t = Ok doc ∧
    doc_acl doc (INCOMING_ACL_FORMAT "pri") =
      Some (VList (((before ++ mirror) ++ after) ++ [allow_rule])) ∧
    _add_dot1x_incoming_rule W si t [] [] = Ok (before, sec) ∧
    _add_dhcp_reflectors W si t (before ++ mirror) = Ok ((before ++ mirror) ++ after) ∧
    (∀ tg, tg ∈ dvals (_port_targets t) →
       (mirror_rule (t_mac tg) (Some BROADCAST_MAC)
          ((mirror_port ∘ t_port) <$>
            filter (λ tg', t_port_set tg' = t_port_set tg) (dvals (_port_targets t))) ∈ mirror) ∧
       (mirror_rule (t_mac tg) None [mirror_port (t_port tg)] ∈ mirror) ∧
       (∀ tg', tg' ∈ dvals (_port_targets t) → t_port_set tg' = t_port_set tg →
          t_mac tg' ≠ t_mac tg →
          mirror_rule (t_mac tg) (Some (t_mac tg'))
            [mirror_port (t_port tg); mirror_port (t_port tg')] ∈ mirror)) ∧
    (∀ r, r ∈ mirror → ∃ tg dst ports, (tg ∈ dvals (_port_targets t)) ∧
       r = mirror_rule (t_mac tg) dst ports ∧
       ∀ x, x ∈ ports → ∃ tg', (tg' ∈ dvals (_port_targets t)) ∧
         t_port_set tg' = t_port_set tg ∧ x = mirror_port (t_port tg')).
Proof.
  pose proof (main_acls_spec W si t Hheap Hpri Hsec) as H. rewrite decide_True in H by done.
  destruct H as (doc & before & sec & after & H1 & H2 & H3 & H4).
  exists doc, before, sec, (all_mirror_rules (dvals (_port_targets t))), after.
  split_and!; [done..| |].
  - intros tg Htg. split_and!.
    + apply elem_of_mirror_rules. exists tg. split; [done|]. unfold source_rules, set_mirrors.
      rewrite <- list_fmap_compose. left.
    + apply elem_of_mirror_rules. exists tg. split; [done|]. right.
      apply elem_of_app. right. by apply list_elem_of_singleton.
    + intros tg' Htg' Hps Hne. apply elem_of_mirror_rules. exists tg. split; [done|]. right.
      apply elem_of_app. left. apply list_elem_of_bind. exists (mirror_of tg').
      rewrite bool_decide_true by done. split; [by apply list_elem_of_singleton|].
      apply elem_of_set_mirrors. eauto.
  - intros r (tg & Htg & Hr)%elem_of_mirror_rules. exists tg.
    assert (∀ x, x ∈ set_mirrors (dvals (_port_targets t)) (t_port_set tg) →
      ∃ tg', (tg' ∈ dvals (_port_targets t)) ∧ t_port_set tg' = t_port_set tg ∧
        x.2 = mirror_port (t_port tg')) as Hset.
    { intros x (tg' & Hin & Heq & ->)%elem_of_set_mirrors. eauto. }
    apply elem_of_cons in Hr as [->|[Hr| ->%list_elem_of_singleton]%elem_of_app].
    + do 2 eexists. split_and!; [done..|]. intros x (y & -> & Hy)%list_elem_of_fmap. by apply Hset.
    + apply list_elem_of_bind in Hr as (dst & Hr & Hdst).
      case_bool_decide; [|by apply not_elem_of_nil in Hr]. apply list_elem_of_singleton in Hr as ->.
      do 2 eexists. split_and!; [done..|].
      intros x [->|[->|[]%not_elem_of_nil]%elem_of_cons]%elem_of_cons; [by eauto|by apply Hset].
    + do 2 eexists. split_and!; [done..|]. intros x ->%list_elem_of_singleton. eauto.
Qed.

Lemma mirror_rules_within_set_witness :
  ∃ doc, main_acls (demo_world (Some 7%nat)) elements demo_t2 = Ok doc.
Proof.
  destruct (mirror_rules_within_set (demo_world (Some 7%nat)) elements demo_t2)
    as (doc & _ & _ & _ & _ & H & _);
    [exact demo_heap_ok|vm_compute; reflexivity|vm_compute; reflexivity
    |refine (bool_decide_unpack _ _); vm_compute; exact I|].
  exists doc. exact H.
Defined.

(** Generating the access lists never fails half way on a consistent
    state.  Without device specifications, and with the registered devices'
    objects in place, [_generate_acls] succeeds exactly when every target's
    port set exists: it then writes the main document and, for each device
    port, a list that sends authentication frames out in the port's VLAN and
    allows the rest to the trunk, and changes nothing else; otherwise it is a
    [KeyError] and no file was written. *)
Theorem acl_generation_total (W : world) (si : gset nat → list nat) (load : string → option val)
    (dir : string) (t : Topology)
    (Hspecs : truth (_device_specs t) = false) (Hheap : heap_ok W si t)
    (Hpri : pri_name t = Some "pri") (Hsec : sec_name t = "sec") :
  if decide (Forall (λ tg, 1 ≤ t_port_set tg < sec_port t) (dvals (_port_targets t)))
  then ∃ doc f, main_acls W si t = Ok doc ∧
    _generate_acls W si load dir t = (with_files f t, Ok tt) ∧
    dget (join_path dir DP_ACL_FILE_FORMAT) f = Some doc ∧
    ∀ p, 1 ≤ p < sec_port t →
      dget (join_path dir (PORT_ACL_FILE_FORMAT (sec_name t) p)) f =
      Some (VDict [("acls", VDict [(PORT_ACL_NAME_FORMAT (sec_name t) p, VList
        [dot1x_out_rule [sec_port t] (_get_port_vlan t (Some p)); default_rule (sec_port t)])])])
  else _generate_acls W si load dir t = (t, Raise KeyError).
Proof.
  pose proof (main_acls_spec W si t Hheap Hpri Hsec) as H.
  destruct (decide (Forall _ _)) as [Hall|_].
  - destruct H as (doc & _ & _ & _ & H & _).
    destruct (generate_acls_default W si load dir t doc Hspecs Hall H) as (f & H1 & H2 & H3).
    by exists doc, f.
  - unfold _generate_acls, _generate_main_acls, mbind, M_bind, getS, lift. by rewrite H.
Qed.

Lemma acl_generation_total_witness :
  ∃ f, _generate_acls (demo_world (Some 7%nat)) elements no_files "inst" demo_t2 =
    (with_files f demo_t2, Ok tt).
Proof.
  pose proof (acl_generation_total (demo_world (Some 7%nat)) elements no_files "inst" demo_t2) as H.
  rewrite decide_True in H by (refine (bool_decide_unpack _ _); vm_compute; exact I).
  destruct H as (doc & f & _ & H & _);
    [vm_compute; reflexivity|exact demo_heap_ok|vm_compute; reflexivity..|].
  exists f. exact H.
Defined.

(** Releasing a port.  When [direct_port_traffic] with no target returns,
    the port was directed before, is not directed any more and is back in the
    dump VLAN; but the device is still registered for its port set, so that
    its rules keep being generated. *)
Theorem release_keeps_device (W : world) (si : gset nat → list nat) (load : string → option val)
    (dir : string) (r : nat) (port : Z) (d : Devices.Device) (gw : Gateway.Gateway) (t t' : Topology)
    (Hdev : device W r = Ok d) (Hgw : device_gateway W d = Ok gw) (Hset : 0 < Gateway.port_set gw)
    (Hwf : dict_wf (_port_targets t))
    (Hrun : direct_port_traffic W si load dir r port None t = (t', Ok tt)) :
  is_Some (dget port (_port_targets t)) ∧
  dget port (_port_targets t') = None ∧
  sec_port_vlan t' port = Some (VInt _DUMP_VLAN) ∧
  ∃ s, dget (Gateway.port_set gw) (_set_devices t') = Some s ∧ r ∈ s.
Proof.
  destruct (populate_adds W r d gw t Hdev Hgw Hset) as [v Hv].
  unfold direct_port_traffic in Hrun.
  erewrite bind_ok in Hrun by (unfold lift; by rewrite Hdev).
  erewrite bind_ok in Hrun by (unfold lift; by rewrite Hgw).
  rewrite (bind_ok _ _ _ _ _ Hv) in Hrun. unfold mbind at 1, M_bind at 1, getS in Hrun.
  cbn [_port_targets with_set_devices] in Hrun.
  destruct (dget port (_port_targets t)) as [old|] eqn:Hold; [|done].
  unfold mbind at 1 2, M_bind at 1 2, modify in Hrun. cbn [mret M_ret] in Hrun.
  unfold mbind, M_bind in Hrun.
  set (t1 := with_port_targets _ _) in Hrun.
  pose proof (generate_acls_frame W si load dir t1) as Hf.
  pose proof (generate_acls_sets W si load dir t1) as Hg.
  cbv [mret M_ret] in Hrun.
  destruct (_generate_acls W si load dir t1) as [t2 [[]|e]]; simpl in Hf, Hg; [|done].
  destruct Hf as (_ & H2 & _ & H4 & _).
  change (sec_name _) with (sec_name t1) in Hrun at 1. rewrite <- H2 in Hrun.
  pose proof (set_native_vlan_sets (Some (sec_name t2)) port _DUMP_VLAN t2) as Hsd.
  simpl in Hrun. rewrite Hrun in Hsd. apply set_native_vlan_sec in Hrun as (_&_&_&K4&K5).
  split_and!; [by eexists| | |].
  - rewrite K4, H4. by apply dget_ddel_eq.
  - rewrite K5. by rewrite decide_True.
  - simpl in Hsd. rewrite Hsd, Hg. unfold t1. simpl. rewrite dget_dset_eq.
    eexists; split; [done|set_solver].
Qed.

Lemma release_keeps_device_witness :
  sec_port_vlan demo_t3 1 = Some (VInt 999) ∧
  ∃ s, dget 1 (_set_devices demo_t3) = Some s ∧ 0%nat ∈ s.
Proof.
  destruct (release_keeps_device (demo_world (Some 7%nat)) elements no_files "inst" 0 1
    (demo_device (Some 7%nat)) demo_gw demo_t2 demo_t3) as (_ & _ & H1 & H2).
  - vm_compute. reflexivity.
  - vm_compute. reflexivity.
  - vm_compute. reflexivity.
  - refine (bool_decide_unpack _ _). vm_compute. exact I.
  - vm_compute. reflexivity.
  - split; [exact H1|exact H2].
Defined.

(** A device without gateway cannot be released: [direct_port_traffic]
    raises before it changes anything, whatever the port and target. *)
Theorem release_without_gateway (W : world) (si : gset nat → list nat)
    (load : string → option val) (dir : string) (r : nat) (d : Devices.Device) (port : Z)
    (tgt : option target) (t : Topology)
    (Hdev : device W r = Ok d) (Hgw : Devices.gateway d = None) :
  direct_port_traffic W si load dir r port tgt t = (t, Raise AttributeError).
Proof.
  unfold direct_port_traffic, mbind, M_bind, lift. rewrite Hdev.
  unfold device_gateway. by rewrite Hgw.
Qed.

Lemma release_without_gateway_witness :
  direct_port_traffic (demo_world None) elements no_files "inst" 0 1 None demo_t2 =
  (demo_t2, Raise AttributeError).
Proof.
  apply (release_without_gateway _ _ _ _ _ (demo_device None)); vm_compute; reflexivity.
Defined.

End TopologySpec.
