(* ===== verification/Network.v ===== *)
(** * The test network (src/daq/network.py)

    [TestNetwork] builds the emulated network in mininet: the primary switch,
    the secondary switch or the interface of an external one, the hosts of
    gateways and tests.  It also publishes the topology ([Topology]) to the SDN
    controller.

    - Mininet is not part of the repository: its operations are a class
      ([Mininet]) on the tables of a network that the code itself reads and
      changes ([net]: the hosts, the links, the ports of the switches), and what
      they do to these tables is [MininetLaws].  Whatever else they do is in the
      component [outside].  Every operation may raise.
    - Hosts, interfaces, links and switches are objects, known by a number.
    - The controller's configurator (forch) is a recorded call: the documents it
      loaded, in order.  It may raise. *)

From stdpp Require Import base list gmap strings pretty relations.
From Stdlib Require Import ZArith Lia Ascii.
From S2P Require Import Prelude PyVal PyText Devices Gateway Topology TopologySpec.

(** ** What the code uses of mininet *)

Module Mininet.
Local Open Scope Z_scope.

Record intf := mkIntf { intf_id : nat; name : string }.
Record link := mkLink { link_id : nat; intf1 : intf; intf2 : intf }.
#[global] Instance intf_eq_dec : EqDecision intf.
Proof. solve_decision. Defined.
#[global] Instance link_eq_dec : EqDecision link.
Proof. solve_decision. Defined.

(** The tables of a switch: the interface of a port, the port of an interface,
    the interface of a name *)
Record switch := mkSwitch {
  switch_name : string;
  intfs : dict Z intf;
  ports : dict intf Z;
  nameToIntf : dict string intf
}.

Inductive node := HostNode (h : nat) | SwitchNode (s : nat).

Record host_params := mkParams {
  ip : option string;
  tmpdir : option string;
  env_vars : list string;
  vol_maps : list string
}.

Record net (W : Type) := mkNet {
  hosts : list nat;
  links : list link;
  built : bool;
  switches : gmap nat switch;
  outside : W
}.
Arguments mkNet {W}.
Arguments hosts {W}.
Arguments links {W}.
Arguments built {W}.
Arguments switches {W}.
Arguments outside {W}.

Definition with_hosts {W} (l : list nat) (n : net W) : net W :=
  mkNet l (links n) (built n) (switches n) (outside n).
Definition with_links {W} (l : list link) (n : net W) : net W :=
  mkNet (hosts n) l (built n) (switches n) (outside n).
Definition with_switches {W} (m : gmap nat switch) (n : net W) : net W :=
  mkNet (hosts n) (links n) (built n) m (outside n).

Class Mininet (W : Type) := {
  create : string → res (net W);
  addHost : string → string → host_params → M (net W) nat;
  addSwitch : string → string → M (net W) nat;
  addLink : nat → node → option Z → option Z → M (net W) link;
  addController : string → string → Z → M (net W) unit;
  start : M (net W) unit;
  stop : M (net W) unit;
  Intf : string → Z → M (net W) intf;
  intf_delete : intf → M (net W) unit;
  addIntf : nat → intf → Z → M (net W) unit;
  attach : nat → intf → M (net W) unit;
  detach : nat → intf → M (net W) unit;
  vsctl : nat → list string → M (net W) unit;
  intfOpts : nat → intf → M (net W) string;
  cmd : nat → string → M (net W) unit;
  configDefault : nat → M (net W) unit;
  terminate : nat → M (net W) unit;
  makeIntfPair : string → string → M (net W) unit
}.

(** The tables are unchanged. *)
Definition same_tables {W} (n n' : net W) : Prop :=
  hosts n' = hosts n ∧ links n' = links n ∧ built n' = built n ∧ switches n' = switches n.

(** An interface is entered into a switch at a free port. *)
Definition plugged (i : intf) (p : Z) (s s' : switch) : Prop :=
  dget p (intfs s) = None ∧ dget i (ports s) = None ∧ dget (name i) (nameToIntf s) = None ∧
  s' = mkSwitch (switch_name s) (dset p i (intfs s)) (dset i p (ports s))
         (dset (name i) i (nameToIntf s)).

(** What the code relies on: a new host is at the end of the host list; a new
    link is at the end of the link list and its first interface, a new one, is
    plugged into the switch at a free port; what fails leaves the tables as they were; the
    operations on interfaces that are in use only run commands. *)
Class MininetLaws (W : Type) `{Mininet W} := {
  addHost_ok nm cls ps n n' h : addHost nm cls ps n = (n', Ok h) →
    (h ∉ hosts n) ∧ hosts n' = hosts n ++ [h] ∧ links n' = links n ∧ built n' = built n ∧
    switches n' = switches n;
  addHost_fail nm cls ps n n' e : addHost nm cls ps n = (n', Raise e) → same_tables n n';
  addLink_ok s nd p1 p2 n n' l : addLink s (HostNode nd) p1 p2 n = (n', Ok l) →
    (l ∉ links n) ∧ links n' = links n ++ [l] ∧ hosts n' = hosts n ∧ built n' = built n ∧
    ∃ sw sw' p, switches n !! s = Some sw ∧ switches n' = <[s := sw']> (switches n) ∧
      plugged (intf1 l) p sw sw' ∧ (∀ q, p1 = Some q → p = q) ∧
      (∀ s0 sw0, switches n !! s0 = Some sw0 → dget (intf1 l) (ports sw0) = None);
  addLink_fail s nd p1 p2 n n' e : addLink s nd p1 p2 n = (n', Raise e) → same_tables n n';
  configDefault_tables h n : same_tables n (fst (configDefault h n));
  terminate_tables h n : same_tables n (fst (terminate h n));
  attach_tables s i n : same_tables n (fst (attach s i n));
  detach_tables s i n : same_tables n (fst (detach s i n));
  vsctl_tables s l n : same_tables n (fst (vsctl s l n));
  intfOpts_tables s i n : same_tables n (fst (intfOpts s i n));
  intf_delete_tables i n : (∀ s sw, switches n !! s = Some sw → dget i (ports sw) = None) →
    same_tables n (fst (intf_delete i n))
}.

#[global] Instance same_tables_preorder {W} : PreOrder (@same_tables W).
Proof.
  split; [by intros n; split_and!|].
  intros n1 n2 n3 (H1&H2&H3&H4) (K1&K2&K3&K4). split_and!; congruence.
Qed.

End Mininet.

Module TestNetwork.
Import PyVal PyText FaucetTopology.
Import Mininet(intf, link, net, switch, Mininet, MininetLaws, same_tables, plugged).
Local Open Scope string_scope.
Local Open Scope list_scope.
Local Open Scope Z_scope.

Definition DEFAULT_FAUCET_OF_PORT : Z := 6653.
Definition DEFAULT_GAUGE_OF_PORT : Z := 6654.
Definition DEFAULT_MININET_SUBNET : string := "10.20.0.0/16".
Definition _CTRL_PRI_IFACE : string := "ctrl-pri".
Definition MAX_INTERNAL_DPID : Z := 100.
Definition _DEFAULT_VXLAN_PORT : Z := 4789.
Definition _DEFAULT_VXLAN_VNI : Z := 0.

(** The documents for the controller *)
Inductive doc := Structural (d : option FaucetTopology.net) | Gauge (d : val).

(** What does not change after construction *)
Record conf := mkConf {
  config : val;
  _settle_sec : Z;
  _mininet_subnet : string;
  ext_mac : val;
  ext_faucet_ofpt : Z;
  ext_gauge_ofpt : Z;
  ext_loip : val
}.

Section network.
Context {W : Type} `{Mininet W}.

Record TestNetwork := mkNetwork {
  net : option (Mininet.net W);
  pri : option nat;
  sec : option nat;
  sec_dpid : option Z;
  sec_port : option Z;
  tap_intf : val;
  ext_intf : val;
  topology : Topology;
  switch_links : dict nat link;
  files : dict string doc;
  loaded : list doc
}.

Definition set_net v s := mkNetwork v (pri s) (sec s) (sec_dpid s) (sec_port s) (tap_intf s)
  (ext_intf s) (topology s) (switch_links s) (files s) (loaded s).
Definition set_pri v s := mkNetwork (net s) v (sec s) (sec_dpid s) (sec_port s) (tap_intf s)
  (ext_intf s) (topology s) (switch_links s) (files s) (loaded s).
Definition set_sec v s := mkNetwork (net s) (pri s) v (sec_dpid s) (sec_port s) (tap_intf s)
  (ext_intf s) (topology s) (switch_links s) (files s) (loaded s).
Definition set_sec_switch d p s := mkNetwork (net s) (pri s) (sec s) (Some d) (Some p) (tap_intf s)
  (ext_intf s) (topology s) (switch_links s) (files s) (loaded s).
Definition set_tap_intf v s := mkNetwork (net s) (pri s) (sec s) (sec_dpid s) (sec_port s) v
  (ext_intf s) (topology s) (switch_links s) (files s) (loaded s).
Definition set_ext_intf v s := mkNetwork (net s) (pri s) (sec s) (sec_dpid s) (sec_port s) (tap_intf s)
  v (topology s) (switch_links s) (files s) (loaded s).
Definition set_topology v s := mkNetwork (net s) (pri s) (sec s) (sec_dpid s) (sec_port s) (tap_intf s)
  (ext_intf s) v (switch_links s) (files s) (loaded s).
Definition set_switch_links v s := mkNetwork (net s) (pri s) (sec s) (sec_dpid s) (sec_port s)
  (tap_intf s) (ext_intf s) (topology s) v (files s) (loaded s).
Definition set_files v s := mkNetwork (net s) (pri s) (sec s) (sec_dpid s) (sec_port s) (tap_intf s)
  (ext_intf s) (topology s) (switch_links s) v (loaded s).
Definition set_loaded v s := mkNetwork (net s) (pri s) (sec s) (sec_dpid s) (sec_port s) (tap_intf s)
  (ext_intf s) (topology s) (switch_links s) (files s) v.

Abbreviation NM := (M TestNetwork) (only parsing).

(** A call on the mininet object, or on an object of it *)
Definition on_net {A} (m : M (Mininet.net W) A) : NM A := λ s,
  match net s with
  | None => (s, Raise AttributeError)
  | Some n => let '(n', r) := m n in (set_net (Some n') s, r)
  end.
(** A call on the topology *)
Definition on_topology {A} (m : M Topology A) : NM A := λ s,
  let '(t', r) := m (topology s) in (set_topology t' s, r).
Definition the_pri : NM nat := s ← getS; lift (of_option AttributeError (pri s)).
Definition the_sec : NM nat := s ← getS; lift (of_option AttributeError (sec s)).

(** ** Construction *)

(** [ip_network] of the configured text, and the YAML files of the topology *)
Context (ip_network : val → res string) (load : string → option val).

Definition init (cfg : val) : res (conf * TestNetwork) :=
  v ← get cfg "settle_sec" (VInt 0); settle ← to_int v;
  internal ← get cfg "internal_subnet" (VDict []);
  v ← get internal "subnet" (VStr DEFAULT_MININET_SUBNET);
  subnet ← ip_network v;
  t ← FaucetTopology.init load cfg;
  switch_setup ← get cfg "switch_setup" (VDict []);
  data_intf ← get switch_setup "data_intf" VNone;
  data_mac ← get switch_setup "data_mac" VNone;
  v ← get switch_setup "lo_port" (VInt DEFAULT_FAUCET_OF_PORT); faucet_port ← to_int v;
  v ← get switch_setup "lo_port_2" (VInt DEFAULT_GAUGE_OF_PORT); gauge_port ← to_int v;
  mods_addr ← get switch_setup "mods_addr" VNone;
  Ok (mkConf (FaucetTopology.config t) settle subnet data_mac faucet_port gauge_port mods_addr,
      mkNetwork None None None None None VNone data_intf t [] [] []).

(** ** Hosts *)

(** [_retry_func]: three tries *)
Fixpoint retry_loop {A} (tries : nat) (func : NM A) : NM A :=
  match tries with
  | O => raise OtherException
  | S rest =>
      try_except func (λ e, if bool_decide (rest = O) then raise e else retry_loop rest func)
  end.
Definition _retry_func {A} (func : NM A) : NM A := retry_loop 3 func.

(** [_switch_attach] *)
Definition _switch_attach (sw : nat) (i : intf) : NM unit :=
  _retry_func (on_net (Mininet.attach sw i));;
  opts ← on_net (Mininet.intfOpts sw i);
  on_net (Mininet.vsctl sw [opts]).

Definition true_text (o : option string) : option string :=
  match o with Some "" => None | _ => o end.

(** [add_host]; [os.path.join(tmpdir, 'nodes')] *)
Definition add_host (name cls : string) (ip_addr : option string) (env_vars vol_maps : list string)
    (port : option Z) (tmpdir : option string) : NM nat :=
  let params := Mininet.mkParams (true_text ip_addr)
    ((λ d, join_path d "nodes") <$> true_text tmpdir) env_vars vol_maps in
  host ← on_net (Mininet.addHost name cls params);
  try_except
    (p ← the_pri;
     switch_link ← _retry_func (on_net (Mininet.addLink p (Mininet.HostNode host) port None));
     modify (λ s, set_switch_links (dset host switch_link (switch_links s)) s);;
     s ← getS;
     whenM (match net s with Some n => Mininet.built n | None => false end)
       (on_net (Mininet.configDefault host);; _switch_attach p (Mininet.intf1 switch_link)))
    (λ e, on_net (Mininet.terminate host);; raise e);;
  mret host.

(** [get_host_interface] *)
Definition get_host_interface (host : nat) : NM intf :=
  s ← getS; l ← lift (of_option KeyError (dget host (switch_links s))); mret (Mininet.intf2 l).

(** [_switch_del_intf]; the three deletions are in order, each may raise. *)
Definition on_switch (sw : nat) (f : switch → switch * res unit) : NM unit :=
  on_net (λ n, match Mininet.switches n !! sw with
               | None => (n, Raise AttributeError)
               | Some s => let '(s', r) := f s in
                           (Mininet.with_switches (<[sw := s']> (Mininet.switches n)) n, r)
               end).
Definition _switch_del_intf (sw : nat) (i : intf) : NM unit := on_switch sw (λ s,
  match dget i (Mininet.ports s) with
  | None => (s, Raise KeyError)
  | Some p =>
      if negb (dmem p (Mininet.intfs s)) then (s, Raise KeyError) else
      let s := Mininet.mkSwitch (Mininet.switch_name s) (ddel p (Mininet.intfs s))
                 (ddel i (Mininet.ports s)) (Mininet.nameToIntf s) in
      if negb (dmem (Mininet.name i) (Mininet.nameToIntf s)) then (s, Raise KeyError) else
      (Mininet.mkSwitch (Mininet.switch_name s) (Mininet.intfs s) (Mininet.ports s)
         (ddel (Mininet.name i) (Mininet.nameToIntf s)), Ok tt)
  end).

(** [l.index(x)] *)
Fixpoint index {A} `{EqDecision A} (x : A) (l : list A) : option nat :=
  match l with
  | [] => None
  | y :: l' => if decide (x = y) then Some O else S <$> index x l'
  end.

(** [remove_host]; the host at index 0 stays in the list. *)
Definition remove_host (host : nat) : NM unit :=
  i ← on_net (λ n, (n, of_option ValueError (index host (Mininet.hosts n))));
  whenM (negb (bool_decide (i = O)))
    (on_net (modify (λ n, Mininet.with_hosts (delete i (Mininet.hosts n)) n)));;
  s ← getS;
  match dget host (switch_links s) with
  | None => mret tt
  | Some switch_link =>
      modify (λ s, set_switch_links (ddel host (switch_links s)) s);;
      let i := Mininet.intf1 switch_link in
      p ← the_pri;
      on_net (Mininet.detach p i);;
      _switch_del_intf p i;;
      on_net (Mininet.intf_delete i);;
      j ← on_net (λ n, (n, of_option ValueError (index switch_link (Mininet.links n))));
      on_net (modify (λ n, Mininet.with_links (delete j (Mininet.links n)) n))
  end.

(** [get_subnet] *)
Definition get_subnet (C : conf) : string := _mininet_subnet C.

(** ** The secondary switch *)

(** [str] of a configuration value; that of a list or a mapping is a parameter. *)
Context (repr : val → string).
Definition str (v : val) : string :=
  match v with
  | VNone => "None"
  | VBool b => if b then "True" else "False"
  | VInt z => pretty z
  | VStr t => t
  | v => repr v
  end.

(** [_link_secondary] *)
Definition _link_secondary (sec_intf : intf) : NM unit :=
  p ← the_pri; on_net (Mininet.addIntf p sec_intf 1).

(** [_attach_sec_device_links] *)
Definition attach_device (name : string) (intf_port : Z) : NM unit :=
  i ← on_net (Mininet.Intf name intf_port);
  sw ← the_sec;
  on_net (Mininet.addIntf sw i intf_port);;
  _switch_attach sw i.
Definition _attach_sec_device_links : NM unit :=
  s ← getS;
  topology_intfs ← lift (get_device_intfs (topology s));
  for_each (zip topology_intfs (range 1 (len topology_intfs + 1)))
    (λ '(name, port), attach_device name port).

(** [_create_secondary] *)
Definition _create_secondary : NM unit :=
  modify (λ s, set_sec_switch (FaucetTopology.sec_dpid (topology s))
                 (FaucetTopology.sec_port (topology s)) s);;
  s ← getS;
  if truth (ext_intf s) then
    sec_intf ← on_net (Mininet.Intf (str (ext_intf s)) 1);
    _link_secondary sec_intf
  else
    sw ← on_net (Mininet.addSwitch "sec" (str (vopt (sec_dpid s))));
    modify (set_sec (Some sw));;
    p ← the_pri;
    l ← _retry_func (on_net (Mininet.addLink p (Mininet.SwitchNode sw) (Some 1) (sec_port s)));
    modify (set_ext_intf (VStr (Mininet.name (Mininet.intf1 l))));;
    _attach_sec_device_links.

(** [_is_dpid_external] *)
Definition _is_dpid_external (dpid : val) : res bool :=
  d ← to_int dpid; Ok (MAX_INTERNAL_DPID <? d).

(** [_attach_switch_interface] *)
Definition add_port (sw : nat) (intf_name : string) (port : Z) : NM unit :=
  n ← on_net (λ n, (n, of_option AttributeError
                         (Mininet.switch_name <$> Mininet.switches n !! sw)));
  on_net (Mininet.vsctl sw ["add-port"; n; intf_name; "--"; "set"; "interface"; intf_name;
                            "ofport_request=" +:+ pretty port]).
Definition _attach_switch_interface (switch_intf_name : string) : NM unit :=
  p ← the_pri; add_port p switch_intf_name switch_port.

(** ** Publishing the topology *)

(** [DAQ_RUN_DIR]; the outcome of a load of a document by the controller's
    configurator, which may depend on what it loaded before; [DAQ_LIB_DIR] and
    the shell of the primary switch, which starts and stops the controller *)
Context (run_dir : string) (reload : list doc → doc → res unit).
Context (lib_dir : string) (shell : string → string).

Definition INTERMEDIATE_FAUCET_FILE : string := join_path run_dir "faucet_intermediate.yaml".
Definition INTERMEDIATE_GAUGE_FILE : string := join_path run_dir "gauge.yaml".

Definition write_file (file : string) (d : doc) : NM unit :=
  modify (λ s, set_files (dset file d (files s)) s).
(** The configurator reads the file and loads it. *)
Definition reload_config (file : string) : NM unit :=
  s ← getS;
  d ← lift (of_option OtherException (dget file (files s)));
  lift (reload (loaded s) d);;
  modify (λ s, set_loaded (loaded s ++ [d]) s).

(** [_generate_behavioral_config] *)
Definition _generate_behavioral_config : NM unit :=
  s ← getS;
  write_file INTERMEDIATE_FAUCET_FILE (Structural (get_network_topology (topology s)));;
  reload_config INTERMEDIATE_FAUCET_FILE;;
  s ← getS;
  write_file INTERMEDIATE_GAUGE_FILE (Gauge (get_gauge_config (topology s)));;
  reload_config INTERMEDIATE_GAUGE_FILE.

(** [initialize] *)
Definition initialize (C : conf) (Wd : world) (set_iter : gset nat → list nat) : NM unit :=
  n ← lift (Mininet.create (_mininet_subnet C));
  modify (set_net (Some n));;
  p ← on_net (Mininet.addSwitch "pri" "1");
  modify (set_pri (Some p));;
  on_topology (FaucetTopology.initialize Wd set_iter load run_dir "pri");;
  _generate_behavioral_config;;
  on_topology (FaucetTopology.start shell lib_dir);;
  on_net (Mininet.addController "faucet" "127.0.0.1" (ext_faucet_ofpt C));;
  on_net (Mininet.addController "gauge" "127.0.0.1" (ext_gauge_ofpt C)).

(** [activate]; the switch interface of the native gateway's host, if there is
    a native gateway *)
Definition activate (C : conf) (native_gateway : option intf) : NM unit :=
  (match native_gateway with
   | Some switch_intf => _link_secondary switch_intf
   | None => _create_secondary
   end);;
  on_net Mininet.start;;
  whenM (truth (ext_loip C)) (_attach_switch_interface _CTRL_PRI_IFACE);;
  modify (λ s, set_tap_intf (ext_intf s) s).

(** [stop] *)
Definition stop : NM unit := on_topology (FaucetTopology.stop shell lib_dir);; on_net Mininet.stop.

(** [configure_remote_tap] *)
Definition _VXLAN_CMD_FMT (intf_name vni remote_ip dst src local : string) : string :=
  "ip link add " +:+ intf_name +:+ " type vxlan id " +:+ vni +:+ " remote " +:+ remote_ip +:+
  " dstport " +:+ dst +:+ " srcport " +:+ src +:+ " " +:+ local +:+ " nolearning".
Definition configure_remote_tap (C : conf) (remote_ip : string) : NM bool :=
  switch_setup ← lift (get (config C) "switch_setup" (VDict []));
  vxlan_config ← lift (get switch_setup "endpoint" (VDict []));
  has_ip ← lift (contains "ip" vxlan_config);
  if negb has_ip then mret false else
  vxlan_vni ← lift (get vxlan_config "vni" (VInt _DEFAULT_VXLAN_VNI));
  v ← lift (get vxlan_config "port" (VInt _DEFAULT_VXLAN_PORT));
  dst_port ← lift (to_int v);
  s ← getS;
  p ← the_pri;
  on_net (Mininet.cmd p (_VXLAN_CMD_FMT (str (ext_intf s)) (str vxlan_vni) remote_ip
    (pretty dst_port) (pretty dst_port) (pretty dst_port)));;
  on_net (Mininet.cmd p ("ip link set " +:+ str (ext_intf s) +:+ " up"));;
  mret true.

(** [direct_port_traffic] and [direct_device_traffic] *)
Definition direct_port_traffic (Wd : world) (set_iter : gset nat → list nat) (device : nat)
    (port : Z) (tgt : option target) : NM unit :=
  on_topology (FaucetTopology.direct_port_traffic Wd set_iter load run_dir device port tgt);;
  _generate_behavioral_config.
Definition direct_device_traffic (Wd : world) (set_iter : gset nat → list nat) (device : nat)
    (port_set : option Z) : NM unit :=
  on_topology (FaucetTopology.direct_device_traffic Wd set_iter load run_dir device port_set);;
  _generate_behavioral_config.

(** [create_mirror_interface] and [delete_mirror_interface] *)
Definition create_mirror_interface (port : Z) (delete : bool) : NM string :=
  let mirror_intf_name := mirror_iface_name port in
  let mirror_intf_peer := mirror_intf_name +:+ "-ext" in
  (if delete then
     p ← the_pri; on_net (Mininet.cmd p ("ip link del " +:+ mirror_intf_name))
   else
     on_net (Mininet.makeIntfPair mirror_intf_name mirror_intf_peer);;
     p ← the_pri;
     on_net (Mininet.cmd p ("ip link set " +:+ mirror_intf_name +:+ " up"));;
     on_net (Mininet.cmd p ("ip link set " +:+ mirror_intf_peer +:+ " up"));;
     add_port p mirror_intf_name (mirror_port port));;
  mret mirror_intf_name.
Definition delete_mirror_interface (port : Z) : NM string := create_mirror_interface port true.

(** [device_group_for] and [device_group_size] *)
Definition device_group_for (Wd : world) (s : TestNetwork) (device : nat) : res val :=
  FaucetTopology.device_group_for Wd (topology s) device.
Definition device_group_size (s : TestNetwork) (group_name : val) : res Z :=
  FaucetTopology.device_group_size (topology s) group_name.

End network.

End TestNetwork.
