(* ===== verification/NetworkSpec.v ===== *)
(** * Properties of the test network (src/daq/network.py)

    - the tables of hosts, links and switch ports stay consistent in every
      history of [add_host] and [remove_host], whatever mininet raises, so that
      a host can always be removed ([host_tables_consistent]);
    - removing a host undoes adding it, except for the first host
      ([add_remove_restores], [first_host_stays]);
    - what the controller has loaded keeps devices apart
      ([published_vlans]). *)

From stdpp Require Import base list gmap strings pretty relations.
From Stdlib Require Import ZArith Lia Ascii.
From S2P Require Import Prelude PyVal PyText Devices Gateway Topology TopologySpec Network.

Module NetworkSpec.
Import FaucetTopology(Topology, target).
Import Mininet(intf, link, net, switch, Mininet, MininetLaws, same_tables, plugged).
Import TestNetwork.
Local Open Scope string_scope.
Local Open Scope list_scope.
Local Open Scope Z_scope.

Section hosts.
Context {W : Type} {HM : Mininet W} {HL : MininetLaws W}.
Implicit Types (s : @TestNetwork W) (n : Mininet.net W).

(** ** Positions in lists *)

Lemma index_elem {A} `{EqDecision A} (x : A) l : x ∈ l ↔ is_Some (index x l).
Proof.
  induction l as [|y l IH]; simpl; [split; [by intros ?%elem_of_nil|by intros []]|].
  rewrite elem_of_cons. destruct (decide (x = y)) as [->|Hne]; [naive_solver|].
  rewrite IH. destruct (index x l); split; [by eauto| |by intros [?|[]]|by intros []]. intros _. right. by eauto.
Qed.

Lemma index_last {A} `{EqDecision A} (x : A) l : x ∉ l → index x (l ++ [x]) = Some (length l).
Proof.
  induction l as [|y l IH]; simpl; [by rewrite decide_True|]. intros Hx.
  rewrite decide_False by set_solver. rewrite IH by set_solver. done.
Qed.

Lemma index_delete {A} `{EqDecision A} (x : A) l i : NoDup l → index x l = Some i →
  NoDup (delete i l) ∧ ∀ y, y ∈ delete i l ↔ y ≠ x ∧ y ∈ l.
Proof.
  revert i. induction l as [|z l IH]; intros i Hnd; [done|]. simpl.
  inversion Hnd as [|?? Hz Hl]; subst. destruct (decide (x = z)) as [->|Hne].
  - intros [= <-]. simpl. split; [done|]. set_solver.
  - destruct (index x l) as [j|] eqn:E; [|done]. intros [= <-]. simpl.
    destruct (IH j Hl eq_refl) as [Hd Hin]. split.
    + constructor; [rewrite Hin; tauto|done].
    + intros y. rewrite !elem_of_cons, Hin. naive_solver.
Qed.

Lemma delete_last {A} (x : A) l : delete (length l) (l ++ [x]) = l.
Proof. induction l as [|y l IH]; simpl; [done|]. by f_equal. Qed.

(** ** Calls that leave the tables alone *)

Definition net_frame s s' : Prop :=
  s' = set_net (TestNetwork.net s') s ∧
  match TestNetwork.net s, TestNetwork.net s' with
  | Some n, Some n' => same_tables n n'
  | None, None => True
  | _, _ => False
  end.

#[local] Instance net_frame_preorder : PreOrder net_frame.
Proof.
  split.
  - intros [[n|] ??????????]; by split.
  - intros s1 s2 s3 [H1 K1] [H2 K2]. split; [by rewrite H2, H1 at 1|].
    destruct (TestNetwork.net s1), (TestNetwork.net s2), (TestNetwork.net s3); try done. by etrans.
Qed.

Lemma on_net_frame {A} (m : M (Mininet.net W) A) s :
  (∀ n, TestNetwork.net s = Some n → same_tables n (fst (m n))) → net_frame s (fst (on_net m s)).
Proof.
  intros Hm. unfold on_net. destruct s as [[n|] ??????????]; simpl; [|by split].
  specialize (Hm n eq_refl). destruct (m n) as [n' r]. by split.
Qed.

Lemma on_net_preserves {A} (m : M (Mininet.net W) A) :
  (∀ n, same_tables n (fst (m n))) → preserves net_frame (on_net m).
Proof. intros Hm s. apply on_net_frame. intros; apply Hm. Qed.

Lemma retry_preserves {A} k (m : M TestNetwork A) :
  preserves net_frame m → preserves net_frame (retry_loop k m).
Proof.
  intros Hm. induction k as [|k IH]; simpl; [apply preserves_raise, _|].
  apply preserves_try; [apply _|done|]. intros e. case_bool_decide; [apply preserves_raise, _|done].
Qed.

(** Retrying: the first success, after failures that left the tables alone *)
Lemma retry_cases {A} k (m : M (Mininet.net W) A) s s' r :
  (∀ n n' e, m n = (n', Raise e) → same_tables n n') →
  retry_loop k (on_net m) s = (s', r) →
  match r with
  | Ok a => ∃ s0 n0 n', net_frame s s0 ∧ TestNetwork.net s0 = Some n0 ∧ m n0 = (n', Ok a) ∧
                        s' = set_net (Some n') s0
  | Raise _ => net_frame s s'
  end.
Proof.
  intros Hf. revert s. induction k as [|k IH]; intros s; simpl; [by intros [= <- <-]|].
  unfold try_except, on_net at 1. destruct (TestNetwork.net s) as [n|] eqn:Hn.
  - destruct (m n) as [n' [a|e]] eqn:Hm.
    + intros [= <- <-]. by exists s, n, n'.
    + assert (net_frame s (set_net (Some n') s)) as Hfr.
      { split; [by destruct s|]. rewrite Hn. by eapply Hf. }
      case_bool_decide; [by intros [= <- <-]|]. intros Hr%IH. destruct r as [a|e'].
      * destruct Hr as (s0 & n0 & n1 & H0 & ? & ? & ?). exists s0, n0, n1. split_and!; [|done..].
        by etrans.
      * by etrans.
  - case_bool_decide; [by intros [= <- <-]|]. apply IH.
Qed.

Lemma switch_attach_frame sw i : preserves net_frame (_switch_attach sw i).
Proof.
  unfold _switch_attach, _retry_func.
  apply preserves_bind; [apply _| |intros _; apply preserves_bind; [apply _| |intros opts]].
  - apply retry_preserves, on_net_preserves. intros n. apply Mininet.attach_tables.
  - apply on_net_preserves. intros n. apply Mininet.intfOpts_tables.
  - apply on_net_preserves. intros n. apply Mininet.vsctl_tables.
Qed.

(** ** Consistency of the tables *)

(** The link of a host is in the tables of the network and of the switch. *)
Definition plugged_in (n : Mininet.net W) (p : nat) (l : link) : Prop :=
  let i := Mininet.intf1 l in
  (l ∈ Mininet.links n) ∧
  (∃ sw q, Mininet.switches n !! p = Some sw ∧ dget i (Mininet.ports sw) = Some q ∧
     dget q (Mininet.intfs sw) = Some i ∧ dget (Mininet.name i) (Mininet.nameToIntf sw) = Some i) ∧
  (∀ p' sw', p' ≠ p → Mininet.switches n !! p' = Some sw' → dget i (Mininet.ports sw') = None).

Definition tables_wf (sw : switch) : Prop :=
  dict_wf (Mininet.intfs sw) ∧ dict_wf (Mininet.ports sw) ∧ dict_wf (Mininet.nameToIntf sw).

Record consistent s : Prop := {
  c_ready : ∃ n p sw, TestNetwork.net s = Some n ∧ pri s = Some p ∧
    Mininet.switches n !! p = Some sw ∧ tables_wf sw ∧
    NoDup (Mininet.hosts n) ∧ NoDup (Mininet.links n) ∧
    (∀ h l, dget h (switch_links s) = Some l → (h ∈ Mininet.hosts n) ∧ plugged_in n p l);
  c_keys : dict_wf (switch_links s);
  c_distinct : ∀ h h' l l', dget h (switch_links s) = Some l → dget h' (switch_links s) = Some l' →
    Mininet.intf1 l = Mininet.intf1 l' → h = h'
}.

Lemma same_tables_plugged n n' p l : same_tables n n' → plugged_in n p l → plugged_in n' p l.
Proof. intros (_&Hl&_&Hs). unfold plugged_in. by rewrite Hl, Hs. Qed.

Lemma consistent_frame s s' : net_frame s s' → consistent s → consistent s'.
Proof.
  intros [-> Hn] [(n & p & sw & Hnet & Hpri & Hsw & Hwf & Hh & Hl & Hall) Hk Hd].
  rewrite Hnet in Hn. destruct (TestNetwork.net s') as [n'|] eqn:E; [|done].
  pose proof Hn as (H1&H2&H3&H4). split; [|done..].
  exists n', p, sw. simpl. rewrite H1, H2, H4. split_and!; try done.
  intros h l Hg. destruct (Hall h l Hg) as [? ?]. split; [done|]. by apply (same_tables_plugged n).
Qed.

(** ** Adding a host *)

(** What [add_host] does to the tables once mininet made the host: the host is
    in the list ([host_made]), and its link is entered everywhere
    ([host_linked]). *)
Definition host_made (h : nat) s s' : Prop := ∃ n n',
  TestNetwork.net s = Some n ∧ (h ∉ Mininet.hosts n) ∧ s' = set_net (Some n') s ∧
  Mininet.hosts n' = Mininet.hosts n ++ [h] ∧ Mininet.built n' = Mininet.built n ∧
  Mininet.links n' = Mininet.links n ∧ Mininet.switches n' = Mininet.switches n.
Definition host_linked (h : nat) (port : option Z) s s' : Prop := ∃ n n' p l sw sw' q,
  TestNetwork.net s = Some n ∧ (h ∉ Mininet.hosts n) ∧ pri s = Some p ∧
  s' = set_switch_links (dset h l (switch_links s)) (set_net (Some n') s) ∧
  Mininet.hosts n' = Mininet.hosts n ++ [h] ∧ Mininet.built n' = Mininet.built n ∧
  (l ∉ Mininet.links n) ∧ Mininet.links n' = Mininet.links n ++ [l] ∧
  Mininet.switches n !! p = Some sw ∧ Mininet.switches n' = <[p := sw']> (Mininet.switches n) ∧
  plugged (Mininet.intf1 l) q sw sw' ∧ (∀ q', port = Some q' → q = q') ∧
  (∀ p0 sw0, Mininet.switches n !! p0 = Some sw0 → dget (Mininet.intf1 l) (Mininet.ports sw0) = None).

Lemma host_made_frame h s s1 s2 : host_made h s s1 → net_frame s1 s2 → host_made h s s2.
Proof.
  intros (n & n1 & Hn & Hh & -> & Hhosts & Hb & Hl & Hs) [-> Hf]. simpl in Hf.
  destruct (TestNetwork.net s2) as [n2|]; [|done]. destruct Hf as (F1&F2&F3&F4).
  exists n, n2. split_and!; congruence || done.
Qed.

Lemma host_linked_frame h port s s1 s2 :
  host_linked h port s s1 → net_frame s1 s2 → host_linked h port s s2.
Proof.
  intros (n & n1 & p & l & sw & sw' & q & ? & ? & ? & -> & ? & ? & ? & ? & ? & ? & ? & ? & ?) [-> Hf].
  simpl in Hf. destruct (TestNetwork.net s2) as [n2|]; [|done]. destruct Hf as (F1&F2&F3&F4).
  exists n, n2, p, l, sw, sw', q. split_and!; congruence || done.
Qed.

(** The link of a new host *)
Lemma link_made h port s s1 s2 p r :
  host_made h s s1 → pri s1 = Some p →
  _retry_func (on_net (Mininet.addLink p (Mininet.HostNode h) port None)) s1 = (s2, r) →
  match r with
  | Ok l => host_linked h port s (set_switch_links (dset h l (switch_links s2)) s2)
  | Raise _ => host_made h s s2
  end.
Proof.
  intros Hmade Hpri Hr. apply retry_cases in Hr;
    [|intros n n' e; apply Mininet.addLink_fail].
  destruct r as [l|e]; [|by eapply host_made_frame].
  destruct Hr as (s0 & n0 & n' & Hf & Hn0 & Hadd & ->).
  apply (host_made_frame _ _ _ _ Hmade) in Hf as (n & n1 & ? & ? & -> & Hh1 & Hb1 & Hl1 & Hs1).
  assert (pri s = Some p) by (destruct Hmade as (? & ? & ? & ? & -> & ?); done).
  simpl in Hn0. injection Hn0 as ->. apply Mininet.addLink_ok in Hadd as (Hl & Hl' & Hh & Hb & sw & sw' & q & Hsw & Hsw' & Hpl & Hq & Hfresh).
  rewrite Hl1 in Hl, Hl'. rewrite Hs1 in Hsw, Hsw', Hfresh.
  eexists n, n', p, l, sw, sw', q. split_and!; try done; congruence.
Qed.

(** Configuring and attaching the interface of a linked host *)
Lemma attach_frame h p i b :
  preserves net_frame (whenM b (on_net (Mininet.configDefault h);; _switch_attach p i)).
Proof.
  apply preserves_when; [apply _|]. apply preserves_bind; [apply _| |intros _; apply switch_attach_frame].
  apply on_net_preserves. intros n. apply Mininet.configDefault_tables.
Qed.

(** The part of [add_host] under [try] *)
Definition link_host (h : nat) (port : option Z) : M (@TestNetwork W) unit :=
  p ← the_pri;
  switch_link ← _retry_func (on_net (Mininet.addLink p (Mininet.HostNode h) port None));
  modify (λ s, set_switch_links (dset h switch_link (switch_links s)) s);;
  s ← getS;
  whenM (match TestNetwork.net s with Some n => Mininet.built n | None => false end)
    (on_net (Mininet.configDefault h);; _switch_attach p (Mininet.intf1 switch_link)).

Lemma link_host_cases h port s s1 s2 r :
  host_made h s s1 → link_host h port s1 = (s2, r) →
  (host_made h s s2 ∧ is_ok r = false) ∨ host_linked h port s s2.
Proof.
  intros Hmade. unfold link_host, the_pri. destruct (pri s1) as [p|] eqn:Hpri.
  2: { unfold mbind, M_bind, getS, lift. rewrite Hpri. intros [= <- <-]. by left. }
  rewrite (bind_ok (getS ≫= λ s, lift (of_option AttributeError (pri s))) _ s1 s1 p)
    by (unfold mbind, M_bind, getS, lift; by rewrite Hpri).
  unfold mbind at 1, M_bind at 1. destruct (_retry_func _ s1) as [s3 [l|e]] eqn:Hr;
    apply (link_made _ _ _ _ _ _ _ Hmade Hpri) in Hr; [|intros [= <- <-]; by left].
  rewrite (bind_ok (modify _) _ s3 _ tt eq_refl), (bind_ok getS _ _ _ _ eq_refl).
  intros Hw. right. eapply host_linked_frame; [exact Hr|].
  apply (f_equal fst) in Hw. simpl in Hw. rewrite <- Hw. apply attach_frame.
Qed.

(** [add_host] on every branch *)
Lemma add_host_cases name cls ip ev vm port td s s' r :
  add_host name cls ip ev vm port td s = (s', r) →
  (net_frame s s' ∧ is_ok r = false) ∨
  ∃ h, (host_made h s s' ∧ is_ok r = false) ∨
       (host_linked h port s s' ∧ (r = Ok h ∨ is_ok r = false)).
Proof.
  unfold add_host. set (ps := Mininet.mkParams _ _ _ _). unfold mbind at 1, M_bind at 1.
  destruct (on_net (Mininet.addHost name cls ps) s) as [s1 [h|e]] eqn:Hadd; unfold on_net in Hadd.
  2: { intros [= <- <-]. left. split; [|done]. destruct (TestNetwork.net s) as [n|] eqn:Hn; [|by simplify_eq].
       destruct (Mininet.addHost name cls ps n) as [n' r] eqn:E. simplify_eq. split; [by destruct s|].
       rewrite Hn. by eapply Mininet.addHost_fail. }
  assert (host_made h s s1) as Hmade.
  { destruct (TestNetwork.net s) as [n|] eqn:Hn; [|done].
    destruct (Mininet.addHost name cls ps n) as [n' r0] eqn:E. simplify_eq.
    apply Mininet.addHost_ok in E as (? & ? & ? & ? & ?). by exists n, n'. }
  clear Hadd. fold (link_host h port). unfold mbind at 1, M_bind at 1, try_except.
  destruct (link_host h port s1) as [s2 r2] eqn:Hl. apply (link_host_cases _ _ _ _ _ _ Hmade) in Hl.
  intros H. right. exists h. destruct r2 as [u|e].
  - injection H as <- <-. right. destruct Hl as [[_ ?]|?]; [done|by auto].
  - assert (preserves net_frame (on_net (Mininet.terminate h);; raise (A := unit) e)) as Ht.
    { apply preserves_bind; [apply _| |intros _; apply preserves_raise, _].
      apply on_net_preserves. intros n. apply Mininet.terminate_tables. }
    specialize (Ht s2). assert (is_ok (snd ((on_net (Mininet.terminate h);; raise (A := unit) e) s2)) = false) as Hno.
    { unfold mbind, M_bind. by destruct (on_net _ s2) as [? []]. }
    destruct ((on_net (Mininet.terminate h);; raise e) s2) as [s3 [u|e']]; [done|]. simpl in *.
    injection H as <- <-. destruct Hl as [[? _]|?]; [left|right]; (split; [|by auto]);
      [by eapply host_made_frame|by eapply host_linked_frame].
Qed.

(** ** Adding and removing keep the tables consistent *)

Lemma host_made_consistent h s s' : host_made h s s' → consistent s → consistent s'.
Proof.
  intros (n & n' & Hn & Hh & -> & Hhosts & _ & Hl & Hs)
    [(n0 & p & sw & Hnet & Hpri & Hsw & Hwf & Hnd & Hnl & Hall) Hk Hd].
  rewrite Hn in Hnet. injection Hnet as <-. split; [|done..].
  exists n', p, sw. simpl. rewrite Hhosts, Hl, Hs. split_and!; try done.
  - apply NoDup_app. split_and!; [done| |apply NoDup_singleton].
    intros x Hx ->%list_elem_of_singleton. done.
  - intros h' l' Hg. destruct (Hall h' l' Hg) as [? (?&?&?)]. split; [set_solver|].
    unfold plugged_in. by rewrite Hl, Hs.
Qed.

Lemma plugged_wf i q sw sw' : plugged i q sw sw' → tables_wf sw → tables_wf sw'.
Proof. intros (_&_&_&->) (?&?&?). split_and!; by apply dict_wf_dset. Qed.

(** A plugged link stays plugged when another interface is plugged in. *)
Lemma plugged_in_add n n' p sw sw' l l' i q :
  Mininet.switches n !! p = Some sw → Mininet.switches n' = <[p := sw']> (Mininet.switches n) →
  Mininet.links n' = Mininet.links n ++ [l'] → plugged i q sw sw' →
  plugged_in n p l → plugged_in n' p l.
Proof.
  intros Hsw Hs Hl (F1 & F2 & F3 & ->) (Hin & (sw0 & q0 & Hsw0 & G1 & G2 & G3) & Hoth).
  rewrite Hsw in Hsw0. injection Hsw0 as <-. unfold plugged_in. rewrite Hl, Hs.
  split_and!; [set_solver| |].
  - eexists _, q0. rewrite lookup_insert_eq. split_and!; [done| | |]; simpl.
    + rewrite dget_dset_ne; [done|]. intros Heq. rewrite Heq in G1. congruence.
    + rewrite dget_dset_ne; [done|]. intros Heq. rewrite Heq in G2. congruence.
    + rewrite dget_dset_ne; [done|]. intros Heq. rewrite Heq in G3. congruence.
  - intros p' swp Hne. rewrite lookup_insert_ne by done. by apply Hoth.
Qed.

Lemma host_linked_consistent h port s s' : host_linked h port s s' → consistent s → consistent s'.
Proof.
  intros (n & n' & p & l & sw & sw' & q & Hn & Hh & Hp & -> & Hhosts & _ & Hl & Hl' & Hsw & Hsw' & Hplug & _ & Hfresh)
    [(n0 & p0 & sw0 & Hnet & Hpri & Hsw0 & Hwf & Hnd & Hnl & Hall) Hk Hd].
  simplify_eq/=.
  assert (dget h (switch_links s) = None) as Hnew.
  { destruct (dget h (switch_links s)) as [l0|] eqn:E; [|done]. by destruct (Hall h l0 E). }
  assert (∀ h' l', dget h' (switch_links s) = Some l' → Mininet.intf1 l' ≠ Mininet.intf1 l) as Hother.
  { intros h' l' Hg Heq. destruct (Hall h' l' Hg) as [_ (_ & (sw1 & q1 & H1 & H2 & _) & _)].
    rewrite Heq in H2. by rewrite (Hfresh _ _ H1) in H2. }
  split.
  - exists n', p, sw'. simpl. rewrite Hhosts, Hl', Hsw'. split_and!; try done.
    + by rewrite lookup_insert_eq.
    + by eapply plugged_wf.
    + apply NoDup_app. split_and!; [done|set_solver|apply NoDup_singleton].
    + apply NoDup_app. split_and!; [done|set_solver|apply NoDup_singleton].
    + intros h' l'. rewrite dget_dset. case_decide as Hc; subst.
      * intros [= <-]. split; [set_solver|]. destruct Hplug as (_&_&_&->).
        unfold plugged_in. rewrite Hl', Hsw'. split_and!; [set_solver| |].
        -- eexists _, q. rewrite lookup_insert_eq. split_and!; [done|..]; simpl; apply dget_dset_eq.
        -- intros p' swp Hne. rewrite lookup_insert_ne by done. apply Hfresh.
      * intros Hg. destruct (Hall h' l' Hg) as [? ?]. split; [set_solver|].
        by eapply plugged_in_add.
  - simpl. by apply dict_wf_dset.
  - simpl. intros h1 h2 l1 l2. rewrite !dget_dset.
    repeat case_decide; subst; intros; simplify_eq; [done|..|by eapply Hd].
    + exfalso. by eapply Hother.
    + exfalso. by eapply Hother.
Qed.

Lemma add_host_consistent name cls ip ev vm port td s :
  consistent s → consistent (fst (add_host name cls ip ev vm port td s)).
Proof.
  intros Hc. destruct (add_host name cls ip ev vm port td s) as [s' r] eqn:E.
  apply add_host_cases in E as [[? _]|(h & [[? _]|[? _]])]; simpl.
  - by eapply consistent_frame.
  - by eapply host_made_consistent.
  - by eapply host_linked_consistent.
Qed.

(** ** Removing a host *)

(** The hosts that are left: the first one is never taken out. *)
Definition remaining (h : nat) (l : list nat) : list nat :=
  match index h l with Some (S i) => delete (S i) l | _ => l end.
Definition unplug (l : link) (sw : switch) : switch :=
  let i := Mininet.intf1 l in
  Mininet.mkSwitch (Mininet.switch_name sw)
    (match dget i (Mininet.ports sw) with Some q => ddel q (Mininet.intfs sw) | None => Mininet.intfs sw end)
    (ddel i (Mininet.ports sw)) (ddel (Mininet.name i) (Mininet.nameToIntf sw)).

(** How far the removal of a linked host got: the host is out of the list and
    out of [switch_links]; its interface may be out of the switch, and its link
    out of the list. *)
Inductive progress := Detached | Unplugged | Unlinked.
Definition removed (h : nat) (l : link) (k : progress) s s' : Prop := ∃ n n' p sw,
  TestNetwork.net s = Some n ∧ pri s = Some p ∧ Mininet.switches n !! p = Some sw ∧
  s' = set_switch_links (ddel h (switch_links s)) (set_net (Some n') s) ∧
  Mininet.hosts n' = remaining h (Mininet.hosts n) ∧ Mininet.built n' = Mininet.built n ∧
  Mininet.switches n' = (match k with
                         | Detached => Mininet.switches n
                         | _ => <[p := unplug l sw]> (Mininet.switches n)
                         end) ∧
  Mininet.links n' = (match k with
                      | Unlinked => default (Mininet.links n) ((λ j, delete j (Mininet.links n)) <$> index l (Mininet.links n))
                      | _ => Mininet.links n
                      end).

Lemma removed_frame h l k s s1 s2 : removed h l k s s1 → net_frame s1 s2 → removed h l k s s2.
Proof.
  intros (n & n1 & p & sw & ? & ? & ? & -> & ? & ? & ? & ?) [-> Hf]. simpl in Hf.
  destruct (TestNetwork.net s2) as [n2|]; [|done]. destruct Hf as (F1&F2&F3&F4).
  exists n, n2, p, sw. split_and!; congruence || done.
Qed.

(** The first part of [remove_host] *)
Lemma remove_from_list h s : (∃ n, TestNetwork.net s = Some n ∧ h ∈ Mininet.hosts n) →
  ∃ n n', TestNetwork.net s = Some n ∧ Mininet.hosts n' = remaining h (Mininet.hosts n) ∧
    Mininet.links n' = Mininet.links n ∧ Mininet.built n' = Mininet.built n ∧
    Mininet.switches n' = Mininet.switches n ∧
    (i ← on_net (λ n, (n, of_option ValueError (index h (Mininet.hosts n))));
     whenM (negb (bool_decide (i = O)))
       (on_net (modify (λ n, Mininet.with_hosts (delete i (Mininet.hosts n)) n)))) s
    = (set_net (Some n') s, Ok tt).
Proof.
  intros (n & Hn & [i Hi]%index_elem). exists n. unfold remaining. rewrite Hi.
  setoid_rewrite (bind_ok _ _ s (set_net (Some n) s) i); [|unfold on_net; by rewrite Hn, Hi].
  destruct i as [|i]; simpl.
  - exists n. split_and!; done.
  - exists (Mininet.with_hosts (delete (S i) (Mininet.hosts n)) n). split_and!; done.
Qed.

Definition delete_link (l : link) : M (@TestNetwork W) unit :=
  j ← on_net (λ n, (n, of_option ValueError (index l (Mininet.links n))));
  on_net (modify (λ n, Mininet.with_links (delete j (Mininet.links n)) n)).

(** The three steps on the tables of a linked host *)
Lemma on_net_eq {A} (m : M (Mininet.net W) A) n s : TestNetwork.net s = Some n →
  on_net m s = (set_net (Some (fst (m n))) s, snd (m n)).
Proof. intros Hn. unfold on_net. rewrite Hn. by destruct (m n). Qed.

Lemma unplug_ok h l s s1 n p :
  TestNetwork.net s = Some n → pri s = Some p → plugged_in n p l → removed h l Detached s s1 →
  ∃ s2, _switch_del_intf p (Mininet.intf1 l) s1 = (s2, Ok tt) ∧ removed h l Unplugged s s2.
Proof.
  intros Hn Hp (_ & (sw & q & Hsw & G1 & G2 & G3) & _) (n0 & n1 & p0 & sw0 & ? & ? & ? & -> & H1 & H2 & H3 & H4).
  simplify_eq. unfold _switch_del_intf, on_switch. erewrite on_net_eq by done. rewrite H3, Hsw. simpl.
  rewrite G1. unfold dmem. rewrite G2. simpl. rewrite G3. simpl. eexists. split; [done|].
  exists n, (Mininet.with_switches (<[p := unplug l sw]> (Mininet.switches n)) n1), p, sw.
  unfold unplug. rewrite G1. by split_and!.
Qed.

Lemma delete_frame h l s s1 n p sw :
  TestNetwork.net s = Some n → pri s = Some p → plugged_in n p l →
  Mininet.switches n !! p = Some sw → dict_wf (Mininet.ports sw) → removed h l Unplugged s s1 →
  net_frame s1 (fst (on_net (Mininet.intf_delete (Mininet.intf1 l)) s1)).
Proof.
  intros Hn Hp (_ & _ & Hoth) Hsw Hwf (n0 & n1 & p0 & sw0 & ? & ? & ? & -> & H1 & H2 & H3 & H4).
  simplify_eq. apply on_net_frame. intros n' [= <-]. apply Mininet.intf_delete_tables.
  intros p' sw'. rewrite H3. destruct (decide (p' = p)) as [->|Hne].
  - rewrite lookup_insert_eq. intros [= <-]. by apply dget_ddel_eq.
  - rewrite lookup_insert_ne by done. by apply Hoth.
Qed.

Lemma unlink_ok h l s s1 n :
  TestNetwork.net s = Some n → l ∈ Mininet.links n → removed h l Unplugged s s1 →
  ∃ s2, delete_link l s1 = (s2, Ok tt) ∧ removed h l Unlinked s s2.
Proof.
  intros Hn [j Hj]%index_elem (n0 & n1 & p0 & sw0 & ? & ? & ? & -> & H1 & H2 & H3 & H4). simplify_eq.
  unfold delete_link. rewrite <- H4 in Hj.
  erewrite (bind_ok _ _ _ _ j); [|erewrite on_net_eq by done; by rewrite Hj]. eexists. split; [done|].
  exists n, (Mininet.with_links (delete j (Mininet.links n)) n1), p0, sw0.
  split_and!; try done; simpl; [by rewrite H4|]. rewrite <- H4, Hj. done.
Qed.

(** [remove_host] of a linked host on every branch: it fails only where
    [detach] or [delete] raise. *)
Lemma remove_host_cases h l s s' r :
  consistent s → dget h (switch_links s) = Some l → remove_host h s = (s', r) →
  (r = Ok tt ∧ removed h l Unlinked s s') ∨
  ((∃ e, r = Raise e) ∧ (removed h l Detached s s' ∨ removed h l Unplugged s s') ∧
   ∃ p i n, is_ok (snd (Mininet.detach p i n)) = false ∨ is_ok (snd (Mininet.intf_delete i n)) = false).
Proof.
  intros [(n & p & sw & Hnet & Hpri & Hsw & (Hwi & Hwp & Hwn) & Hnd & Hnl & Hall) Hk Hd] Hg.
  destruct (Hall h l Hg) as [Hin Hplug].
  destruct (remove_from_list h s (ex_intro _ n (conj Hnet Hin)))
    as (n0 & n1 & Hn0 & Hh1 & Hl1 & Hb1 & Hs1 & Hrun).
  rewrite Hnet in Hn0. injection Hn0 as <-.
  unfold remove_host. rewrite <- bind_assoc, (bind_ok _ _ _ _ _ Hrun), (bind_ok getS _ _ _ _ eq_refl).
  change (switch_links (set_net (Some n1) s)) with (switch_links s). rewrite Hg. cbn zeta.
  rewrite (bind_ok (modify _) _ _ _ _ eq_refl).
  set (s2 := set_switch_links _ (set_net (Some n1) s)).
  rewrite (bind_ok the_pri _ s2 s2 p) by (unfold the_pri, mbind, M_bind, getS, lift; simpl; by rewrite Hpri).
  assert (removed h l Detached s s2) as Hr2 by (exists n, n1, p, sw; split_and!; congruence || done).
  unfold mbind at 1, M_bind at 1.
  pose proof (on_net_preserves _ (Mininet.detach_tables p (Mininet.intf1 l)) s2) as Hf2.
  pose proof (on_net_eq (Mininet.detach p (Mininet.intf1 l)) n1 s2 eq_refl) as Hd2.
  destruct (on_net (Mininet.detach _ _) s2) as [s3 r3]. apply (removed_frame _ _ _ _ _ _ Hr2) in Hf2.
  destruct r3 as [[]|e]; [|intros [= <- <-]; right; split_and!; [by eexists|by left|];
    exists p, (Mininet.intf1 l), n1; left; by injection Hd2 as _ <-].
  destruct (unplug_ok _ _ _ _ _ _ Hnet Hpri Hplug Hf2) as (s4 & H4 & Hr4).
  rewrite (bind_ok _ _ _ _ _ H4).
  pose proof (delete_frame _ _ _ _ _ _ _ Hnet Hpri Hplug Hsw Hwp Hr4) as Hf4.
  assert (∃ n4, TestNetwork.net s4 = Some n4) as [n4 Hn4] by (destruct Hr4 as (?&?&?&?&_&_&_&->&_); by eexists).
  pose proof (on_net_eq (Mininet.intf_delete (Mininet.intf1 l)) n4 s4 Hn4) as Hd4.
  unfold mbind at 1, M_bind at 1.
  destruct (on_net (Mininet.intf_delete _) s4) as [s5 r5]. apply (removed_frame _ _ _ _ _ _ Hr4) in Hf4.
  destruct r5 as [[]|e]; [|intros [= <- <-]; right; split_and!; [by eexists|by right|];
    exists p, (Mininet.intf1 l), n4; right; by injection Hd4 as _ <-].
  destruct (unlink_ok _ _ _ _ _ Hnet (proj1 Hplug) Hf4) as (s6 & H6 & Hr6).
  intros Hrest. left. unfold delete_link in H6. simpl in *. rewrite H6 in Hrest. by injection Hrest as <- <-.
Qed.

(** What a removal leaves is consistent. *)
Lemma unplug_other n n' p sw l l' :
  Mininet.switches n !! p = Some sw → tables_wf sw →
  Mininet.switches n' = <[p := unplug l sw]> (Mininet.switches n) →
  l' ∈ Mininet.links n' → Mininet.intf1 l' ≠ Mininet.intf1 l → plugged_in n p l → plugged_in n p l' →
  plugged_in n' p l'.
Proof.
  intros Hsw (Hw1&Hw2&Hw3) Hs Hin Hne (_ & (swa & qa & Ha & A1 & A2 & A3) & _)
    (_ & (swb & qb & Hb & B1 & B2 & B3) & Hoth). simplify_eq.
  unfold plugged_in. rewrite Hs. split_and!; [done| |].
  - exists (unplug l sw), qb. rewrite lookup_insert_eq. unfold unplug. rewrite A1. simpl. split_and!; [done|..];
      (rewrite dget_ddel_ne; [done|]); [congruence..|]. intros Heq. rewrite Heq in B3. congruence.
  - intros p' sw' Hp. rewrite lookup_insert_ne by done. by apply Hoth.
Qed.

Lemma unplug_wf l sw : tables_wf sw → tables_wf (unplug l sw).
Proof.
  intros (?&?&?). unfold unplug. split_and!; simpl; [case_match|..]; by auto using dict_wf_ddel.
Qed.

Lemma remaining_spec h l : NoDup l → NoDup (remaining h l) ∧ ∀ x, x ≠ h → x ∈ l → x ∈ remaining h l.
Proof.
  intros Hnd. unfold remaining. destruct (index h l) as [[|i]|] eqn:E; [done| |done].
  destruct (index_delete h l (S i) Hnd E) as [? Hi]. split; [done|]. intros x Hx Hl. by apply Hi.
Qed.

Lemma removed_consistent h l k s s' :
  dget h (switch_links s) = Some l → removed h l k s s' → consistent s → consistent s'.
Proof.
  intros Hg (n & n' & p & sw & Hn & Hp & Hsw & -> & Hh & _ & Hs & Hl)
    [(n0 & p0 & sw0 & Hnet & Hpri & Hsw0 & Hwf & Hnd & Hnl & Hall) Hk Hd]. simplify_eq.
  destruct (remaining_spec h _ Hnd) as [Hrnd Hrin].
  destruct (Hall h l Hg) as [_ Hplug].
  assert (∀ h' l', dget h' (ddel h (switch_links s)) = Some l' →
    h' ≠ h ∧ dget h' (switch_links s) = Some l' ∧ Mininet.intf1 l' ≠ Mininet.intf1 l) as Hsub.
  { intros h' l' Hg'. destruct (decide (h' = h)) as [->|Hne]; [by rewrite dget_ddel_eq in Hg'|].
    rewrite dget_ddel_ne in Hg' by done. split_and!; [done..|]. intros Heq. by apply Hne, (Hd h' h l' l). }
  assert (NoDup (Mininet.links n') ∧ ∀ l', l' ∈ Mininet.links n → l' ≠ l → l' ∈ Mininet.links n') as [Hnl' Hinl].
  { rewrite Hl. destruct k; [done|done|]. destruct (index l (Mininet.links n)) as [j|] eqn:Ej; simpl; [|done].
    destruct (index_delete _ _ _ Hnl Ej) as [? Hj]. split; [done|]. intros l' ? ?. by apply Hj. }
  split; simpl; [|by apply dict_wf_ddel|intros h1 h2 l1 l2 (_&?&_)%Hsub (_&?&_)%Hsub; by apply Hd].
  exists n', p, (match k with Detached => sw | _ => unplug l sw end). simpl.
  split_and!; try done; [| |by rewrite Hh|].
  - rewrite Hs. destruct k; [done|by rewrite lookup_insert_eq..].
  - destruct k; [done|by apply unplug_wf..].
  - intros h' l' Hg'. destruct (Hsub _ _ Hg') as (Hne & Hold & Hi). destruct (Hall _ _ Hold) as [Hin' Hpl'].
    split; [rewrite Hh; by apply Hrin|].
    assert (l' ∈ Mininet.links n') by (apply Hinl; [apply Hpl'|congruence]).
    destruct k; [|by eapply unplug_other..].
    destruct Hpl' as (?&?&?). unfold plugged_in. by rewrite Hs.
Qed.

Lemma remove_host_consistent h s : consistent s → consistent (fst (remove_host h s)).
Proof.
  intros Hc. pose proof Hc as [(n & p & sw & Hnet & Hpri & Hsw & Hwf & Hnd & Hnl & Hall) Hk Hd].
  destruct (dget h (switch_links s)) as [l|] eqn:Hg.
  { destruct (remove_host h s) as [s' r] eqn:E.
    apply (remove_host_cases _ _ _ _ _ Hc Hg) in E as [[_ Hr]|(_ & [Hr|Hr] & _)];
      by eapply removed_consistent. }
  unfold remove_host. destruct (decide (h ∈ Mininet.hosts n)) as [Hin|Hout].
  - destruct (remove_from_list h s (ex_intro _ n (conj Hnet Hin)))
      as (n0 & n1 & Hn0 & Hh1 & Hl1 & _ & Hs1 & Hrun). simplify_eq.
    rewrite <- bind_assoc, (bind_ok _ _ _ _ _ Hrun), (bind_ok getS _ _ _ _ eq_refl).
    change (switch_links (set_net (Some n1) s)) with (switch_links s). rewrite Hg. simpl.
    destruct (remaining_spec h _ Hnd) as [Hrnd Hrin]. split; [|done..].
    exists n1, p, sw. simpl. rewrite Hh1, Hl1, Hs1. split_and!; try done.
    intros h' l' Hg'. destruct (Hall _ _ Hg') as [? (?&?&?)]. split; [apply Hrin; congruence|].
    unfold plugged_in. by rewrite Hl1, Hs1.
  - unfold mbind at 1, M_bind at 1. erewrite on_net_eq by done. simpl.
    destruct (index h (Mininet.hosts n)) as [i|] eqn:Hi; [exfalso; apply Hout, index_elem; by eexists|].
    simpl. apply (consistent_frame s); [|done]. split; [by destruct s|]. by rewrite Hnet.
Qed.

(** ** Properties *)

(** A history of hosts that come and go; mininet may raise at every call. *)
Inductive step : relation (@TestNetwork W) :=
  | step_add name cls ip ev vm port td s : step s (fst (add_host name cls ip ev vm port td s))
  | step_remove h s : step s (fst (remove_host h s)).

(** A network before the first host is linked *)
Definition no_links s : Prop := ∃ n p sw,
  TestNetwork.net s = Some n ∧ pri s = Some p ∧ Mininet.switches n !! p = Some sw ∧ tables_wf sw ∧
  NoDup (Mininet.hosts n) ∧ NoDup (Mininet.links n) ∧ switch_links s = [].

Lemma history_consistent s0 s : no_links s0 → rtc step s0 s → consistent s.
Proof.
  intros (n & p & sw & Hn & Hp & Hsw & Hwf & Hh & Hl & Hnone) Hrun.
  assert (consistent s0) as Hc.
  { split; rewrite Hnone; [|apply NoDup_nil_2|done]. exists n, p, sw. by split_and!. }
  clear -HL Hc Hrun. induction Hrun as [|s1 s2 s3 Hs _ IH]; [done|]. apply IH.
  destruct Hs; [by apply add_host_consistent|by apply remove_host_consistent].
Qed.

(** The interface, its name and the link are out of the tables of the switch. *)
Definition gone (l : link) s : Prop := ∃ n p sw,
  TestNetwork.net s = Some n ∧ pri s = Some p ∧ Mininet.switches n !! p = Some sw ∧
  dget (Mininet.intf1 l) (Mininet.ports sw) = None ∧
  dget (Mininet.name (Mininet.intf1 l)) (Mininet.nameToIntf sw) = None ∧ (l ∉ Mininet.links n).

Lemma removed_gone h l s s' : consistent s → removed h l Unlinked s s' → gone l s'.
Proof.
  intros [(n & p & sw & Hnet & Hpri & Hsw & (Hw1&Hw2&Hw3) & Hnd & Hnl & Hall) Hk Hd]
    (n0 & n' & p0 & sw0 & Hn & Hp & Hsw0 & -> & Hh & _ & Hs & Hl). simplify_eq.
  exists n', p, (unplug l sw). simpl. rewrite Hs, lookup_insert_eq.
  split_and!; [done..|by apply dget_ddel_eq|by apply dget_ddel_eq|]. rewrite Hl.
  destruct (index l (Mininet.links n)) as [j|] eqn:Ej; simpl.
  - destruct (index_delete _ _ _ Hnl Ej) as [_ Hj]. rewrite Hj. tauto.
  - intros [? E]%index_elem. congruence.
Qed.


Lemma unplug_plugged l q sw sw' : plugged (Mininet.intf1 l) q sw sw' → unplug l sw' = sw.
Proof.
  intros (F1 & F2 & F3 & ->). unfold unplug. simpl. rewrite dget_dset_eq, !ddel_dset_new by done.
  by destruct sw.
Qed.

Lemma remaining_last h l : h ∉ l → remaining h (l ++ [h]) = if decide (l = []) then [h] else l.
Proof.
  intros Hh. unfold remaining. rewrite index_last by done. destruct l as [|x l]; [done|].
  rewrite decide_False by done. exact (delete_last h (x :: l)).
Qed.

(** Removing a host that was linked last *)
Definition no_failures : Prop :=
  (∀ p i n, is_ok (snd (Mininet.detach p i n)) = true) ∧
  (∀ i n, is_ok (snd (Mininet.intf_delete i n)) = true).

Lemma host_linked_new h port s s1 : consistent s → host_linked h port s s1 → dget h (switch_links s) = None.
Proof.
  intros Hc (n & n1 & p & l & sw & sw' & q & Hn & Hh & _). destruct (dget h (switch_links s)) as [l0|] eqn:E; [|done].
  destruct Hc as [(?&?&?&?&_&_&_&_&_&Hall) _ _]. simplify_eq. by destruct (Hall _ _ E).
Qed.

Lemma remove_linked_cases h l s : no_failures → consistent s → dget h (switch_links s) = Some l →
  ∃ s', remove_host h s = (s', Ok tt) ∧ removed h l Unlinked s s'.
Proof.
  intros [Hdetach Hdelete] Hc Hg. destruct (remove_host h s) as [s' r] eqn:E.
  apply (remove_host_cases _ _ _ _ _ Hc Hg) in E as [[-> Hr]|(_ & _ & p' & i' & n' & [Hx|Hx])];
    [by eexists|by rewrite Hdetach in Hx|by rewrite Hdelete in Hx].
Qed.

Lemma remove_linked h port s s1 n :
  no_failures → consistent s → TestNetwork.net s = Some n → host_linked h port s s1 →
  ∃ n2, remove_host h s1 = (set_net (Some n2) s, Ok tt) ∧
    Mininet.hosts n2 = (if decide (Mininet.hosts n = []) then [h] else Mininet.hosts n) ∧
    Mininet.links n2 = Mininet.links n ∧ Mininet.built n2 = Mininet.built n ∧
    Mininet.switches n2 = Mininet.switches n.
Proof.
  intros Hok Hc Hn Hlinked.
  pose proof (host_linked_consistent _ _ _ _ Hlinked Hc) as Hc1.
  pose proof (host_linked_new _ _ _ _ Hc Hlinked) as Hnone.
  destruct Hlinked as (n0 & n1 & p & l & sw & sw' & q & Hn0 & Hh & Hp & -> & Hhosts & Hb & Hl & Hl' & Hsw
    & Hsw' & Hplug & _). simplify_eq.
  destruct (remove_linked_cases h l _ Hok Hc1 (dget_dset_eq _ _ _)) as (s2 & E & Hr). rewrite E.
  destruct Hr as (m & n2 & p' & swx & Hm & Hp' & Hswx & -> & H1 & H2 & H3 & H4).
  simpl in *. simplify_eq. exists n2. split_and!.
  - unfold set_switch_links, set_net. simpl. by rewrite ddel_dset_new.
  - rewrite H1, Hhosts. by apply remaining_last.
  - rewrite H4, Hl', index_last by done. simpl. apply delete_last.
  - congruence.
  - rewrite Hsw', lookup_insert_eq in Hswx. injection Hswx as <-. rewrite H3, Hsw'.
    rewrite (unplug_plugged _ _ _ _ Hplug). rewrite insert_insert_eq. by apply insert_id.
Qed.


(** Removing the first of two linked hosts leaves the second one linked. *)
Lemma index_app {A} `{EqDecision A} (x : A) l l' i : index x l = Some i → index x (l ++ l') = Some i.
Proof.
  revert i. induction l as [|y l IH]; intros i; [done|]. simpl. destruct (decide (x = y)); [done|].
  destruct (index x l) as [j|]; [|done]. intros [= <-]. by rewrite (IH j).
Qed.
Lemma index_lt {A} `{EqDecision A} (x : A) l i : index x l = Some i → (i < length l)%nat.
Proof.
  revert i. induction l as [|y l IH]; intros i; [done|]. simpl. destruct (decide (x = y)); [intros [= <-]; lia|].
  destruct (index x l) as [j|]; [|done]. intros [= <-]. specialize (IH j eq_refl). lia.
Qed.
Lemma delete_app_lt {A} (l l' : list A) i : (i < length l)%nat → delete i (l ++ l') = delete i l ++ l'.
Proof.
  revert i. induction l as [|y l IH]; intros [|i] Hi; simpl in *; [lia|lia|done|]. by rewrite IH by lia.
Qed.
Lemma delete_index_app {A} `{EqDecision A} (x : A) l l' i : index x l = Some i →
  delete i (l ++ l') = delete i l ++ l'.
Proof. intros Hi. by apply delete_app_lt, (index_lt x). Qed.

Lemma unplug_other_plugged l l' q sw sw' q' : dget (Mininet.intf1 l) (Mininet.ports sw) = Some q' →
  dget q' (Mininet.intfs sw) = Some (Mininet.intf1 l) →
  dget (Mininet.name (Mininet.intf1 l)) (Mininet.nameToIntf sw) = Some (Mininet.intf1 l) →
  tables_wf sw → plugged (Mininet.intf1 l') q sw sw' → plugged (Mininet.intf1 l') q (unplug l sw) (unplug l sw').
Proof.
  intros G1 G2 G3 (Hw1&Hw2&Hw3) (F1 & F2 & F3 & ->).
  assert (q ≠ q') by congruence. assert (Mininet.intf1 l' ≠ Mininet.intf1 l) by congruence.
  assert (Mininet.name (Mininet.intf1 l') ≠ Mininet.name (Mininet.intf1 l)) by congruence.
  unfold unplug. simpl. rewrite dget_dset_ne, G1 by congruence.
  unfold plugged. simpl. rewrite !dget_ddel_ne by congruence. split_and!; [done..|].
  by rewrite !ddel_dset_ne by congruence.
Qed.
(** Two hosts are added, and the first one is removed: as if only the second
    one had been added to what removing the first leaves. *)
Lemma remove_first_of_two h1 h2 p1 p2 s s1 s2 :
  no_failures → consistent s → host_linked h1 p1 s s1 → host_linked h2 p2 s1 s2 →
  ∃ sa sb, remove_host h1 s1 = (sa, Ok tt) ∧ remove_host h1 s2 = (sb, Ok tt) ∧
    consistent sa ∧ host_linked h2 p2 sa sb.
Proof.
  intros Hok Hc H1 H2.
  pose proof (host_linked_consistent _ _ _ _ H1 Hc) as Hc1.
  pose proof (host_linked_consistent _ _ _ _ H2 Hc1) as Hc2.
  pose proof (host_linked_new _ _ _ _ Hc1 H2) as Hnew2.
  assert (∃ l1, dget h1 (switch_links s1) = Some l1) as [l1 Hg1].
  { destruct H1 as (?&?&?&l&?&?&?&_&_&_&->&_). exists l. apply dget_dset_eq. }
  assert (h1 ≠ h2) as Hne by congruence.
  assert (dget h1 (switch_links s2) = Some l1) as Hg2.
  { destruct H2 as (?&?&?&l&?&?&?&_&_&_&->&_). simpl. by rewrite dget_dset_ne. }
  destruct (remove_linked_cases h1 l1 s1 Hok Hc1 Hg1) as (sa & Ea & Ra).
  destruct (remove_linked_cases h1 l1 s2 Hok Hc2 Hg2) as (sb & Eb & Rb).
  exists sa, sb. split_and!; [done|done|exact (removed_consistent _ _ _ _ _ Hg1 Ra Hc1)|].
  destruct Hc1 as [(n1 & p & sw & Hn1 & Hp & Hsw & Hwf & Hnd & Hnl & Hall) _ _].
  destruct (Hall _ _ Hg1) as [Hin (Hl1 & (sw0 & q1 & Hsw0 & G1 & G2 & G3) & _)]. simplify_eq.
  destruct Ra as (na & na' & pa & swa & A1 & A2 & A3 & -> & A4 & A5 & A6 & A7). simplify_eq.
  destruct H2 as (m & n2 & p' & l2 & swx & sw2 & q & B1 & B2 & B3 & -> & B4 & B5 & B6 & B7 & B8 & B9 & B10 & B11 & B12).
  simplify_eq.
  destruct Rb as (nb & nb' & pb & swb & C1 & C2 & C3 & -> & C4 & C5 & C6 & C7). simpl in *. simplify_eq.
  rewrite B9, lookup_insert_eq in C3. injection C3 as <-.
  apply index_elem in Hin as [i Hi]. apply index_elem in Hl1 as [j Hj].
  assert (dget (Mininet.intf1 l2) (Mininet.ports swx) = None) as Hfree by by eapply B12.
  assert (delete j (Mininet.links m) ⊆ Mininet.links m ∧ remaining h1 (Mininet.hosts m) ⊆ Mininet.hosts m) as [Hsl Hsh].
  { split; [intros x Hx; by apply (index_delete _ _ _ Hnl Hj) in Hx as [_ ?]|]. unfold remaining. rewrite Hi.
    destruct i as [|i]; [done|]. intros x Hx. by apply (index_delete _ _ _ Hnd Hi) in Hx as [_ ?]. }
  rewrite Hj in A7. rewrite B7, (index_app _ _ _ _ Hj) in C7. simpl in A7, C7.
  exists na', nb', p', l2, (unplug l1 swx), (unplug l1 sw2), q. simpl. split_and!; try done.
  - rewrite A4. intros Hx. by apply B2, Hsh.
  - unfold set_switch_links, set_net. simpl. by rewrite ddel_dset_ne.
  - rewrite C4, A4, B4. unfold remaining. rewrite (index_app _ _ _ _ Hi), Hi.
    destruct i as [|i]; [done|]. by rewrite (delete_index_app h1).
  - congruence.
  - rewrite A7. intros Hx. by apply B6, Hsl.
  - rewrite C7, A7. by apply (delete_index_app l1).
  - by rewrite A6, lookup_insert_eq.
  - by rewrite C6, B9, A6, !insert_insert_eq.
  - by eapply unplug_other_plugged.
  - intros p0 sw0. rewrite A6. destruct (decide (p0 = p')) as [->|Hp0].
    + rewrite lookup_insert_eq. intros [= <-]. unfold unplug. simpl. rewrite dget_ddel_ne; [done|]. congruence.
    + rewrite lookup_insert_ne by done. apply B12.
Qed.

(** *** Adding hosts at free ports

    When mininet's calls return, a host can be added at every free port. *)
Record works : Prop := {
  w_host nm cls ps n : is_ok (snd (Mininet.addHost nm cls ps n)) = true;
  w_link p sw h q n : Mininet.switches n !! p = Some sw → dget q (Mininet.intfs sw) = None →
    is_ok (snd (Mininet.addLink p (Mininet.HostNode h) (Some q) None n)) = true;
  w_config h n : is_ok (snd (Mininet.configDefault h n)) = true;
  w_attach p i n : is_ok (snd (Mininet.attach p i n)) = true;
  w_opts p i n : is_ok (snd (Mininet.intfOpts p i n)) = true;
  w_vsctl p l n : is_ok (snd (Mininet.vsctl p l n)) = true
}.
Definition free_port s (q : Z) : Prop := ∃ n p sw, TestNetwork.net s = Some n ∧ pri s = Some p ∧
  Mininet.switches n !! p = Some sw ∧ dget q (Mininet.intfs sw) = None.

(** A call that returns *)
Definition returns {A} (P : TestNetwork → Prop) (m : M (@TestNetwork W) A) : Prop :=
  ∀ s, P s → is_ok (snd (m s)) = true ∧ P (fst (m s)).
Definition is_up s : Prop := ∃ n, TestNetwork.net s = Some n.

Lemma up_returns_bind {A B} P (m : M (@TestNetwork W) A) (f : A → M TestNetwork B) :
  returns P m → (∀ a, returns P (f a)) → returns P (m ≫= f).
Proof.
  intros Hm Hf s HP. destruct (Hm s HP) as [Hok HP']. unfold mbind, M_bind.
  destruct (m s) as [s' [a|e]]; simpl in *; [by apply Hf|done].
Qed.
Lemma returns_net {A} (m : M (Mininet.net W) A) :
  (∀ n, is_ok (snd (m n)) = true) → returns is_up (on_net m).
Proof.
  intros Hm s [n Hn]. rewrite (on_net_eq _ n) by done. split; [apply Hm|]. by eexists.
Qed.
Lemma returns_retry {A} P k (m : M (@TestNetwork W) A) : returns P m → returns P (retry_loop (S k) m).
Proof.
  intros Hm s HP. destruct (Hm s HP) as [Hok HP']. cbn [retry_loop]. unfold try_except.
  destruct (m s) as [s' [a|e]]; simpl in *; done.
Qed.

Lemma attach_returns h p i b : works →
  returns is_up (whenM b (on_net (Mininet.configDefault h);; _switch_attach p i)).
Proof.
  intros Hw. destruct b; simpl; [|by intros s Hs]. unfold _switch_attach, _retry_func.
  apply up_returns_bind; [apply returns_net, Hw|]. intros _.
  apply up_returns_bind; [apply returns_retry, returns_net; intros; apply Hw|]. intros _.
  apply up_returns_bind; [apply returns_net; intros; apply Hw|]. intros opts. apply returns_net. intros; apply Hw.
Qed.

Lemma add_host_works name cls ip ev vm q td s :
  works → free_port s q → ∃ s' h, add_host name cls ip ev vm (Some q) td s = (s', Ok h) ∧
    host_linked h (Some q) s s'.
Proof.
  intros Hw (n & p & sw & Hn & Hp & Hsw & Hq).
  assert (is_ok (snd (add_host name cls ip ev vm (Some q) td s)) = true) as Hok.
  { unfold add_host. set (ps := Mininet.mkParams _ _ _ _).
    pose proof (w_host Hw name cls ps n) as H1. destruct (Mininet.addHost name cls ps n) as [n1 [h|]] eqn:E1; [|done].
    pose proof E1 as E1'. apply Mininet.addHost_ok in E1' as (_ & _ & _ & _ & Hs1).
    rewrite (bind_ok _ _ s (set_net (Some n1) s) h) by (unfold on_net; by rewrite Hn, E1).
    pose proof (w_link Hw p sw h q n1 ltac:(by rewrite Hs1) Hq) as H2.
    destruct (Mininet.addLink p (Mininet.HostNode h) (Some q) None n1) as [n2 [l|]] eqn:E2; [|done].
    unfold mbind at 1, M_bind at 1, try_except at 1.
    rewrite (bind_ok the_pri _ _ (set_net (Some n1) s) p)
      by (unfold the_pri, mbind, M_bind, getS, lift; simpl; by rewrite Hp).
    rewrite (bind_ok (_retry_func _) _ _ (set_net (Some n2) (set_net (Some n1) s)) l)
      by (unfold _retry_func; cbn [retry_loop]; unfold try_except, on_net; simpl; by rewrite E2).
    rewrite (bind_ok (modify _) _ _ _ _ eq_refl), (bind_ok getS _ _ _ _ eq_refl).
    match goal with |- context [whenM ?b ?m ?s] => destruct (attach_returns h p (Mininet.intf1 l) b Hw s) as [Hr _] end;
      [by eexists|].
    by destruct (whenM _ _ _) as [s' [u|e]]. }
  destruct (add_host name cls ip ev vm (Some q) td s) as [s' [h|]] eqn:E; [|done].
  exists s', h. split; [done|].
  apply add_host_cases in E as [[_ ?]|(h' & [[_ ?]|[Hl [[= ->]|?]]])]; done.
Qed.

Lemma free_port_linked h q q' s s' : q ≠ q' → free_port s q' → host_linked h (Some q) s s' → free_port s' q'.
Proof.
  intros Hne (n & p & sw & Hn & Hp & Hsw & Hq)
    (m & n' & p' & l & swx & sw' & qx & B1 & B2 & B3 & -> & B4 & B5 & B6 & B7 & B8 & B9 & B10 & B11 & _).
  simplify_eq. specialize (B11 q eq_refl) as ->. eexists n', _, sw'. simpl. split_and!; [done|exact Hp| |].
  - by rewrite B9, lookup_insert_eq.
  - destruct B10 as (_&_&_&->). simpl. by rewrite dget_dset_ne.
Qed.

End hosts.

(** ** What the controller has loaded *)

Section publish.
Context {W : Type} {HM : Mininet W}.
Context (ip_network : val → res string) (load : string → option val) (repr : val → string)
  (run_dir : string) (reload : list doc → doc → res unit) (lib_dir : string) (shell : string → string).
Implicit Types (s : @TestNetwork W).

Definition same_published s s' : Prop := topology s' = topology s ∧ loaded s' = loaded s.
#[local] Instance same_published_preorder : PreOrder same_published.
Proof. split; [by intros s|]. intros s1 s2 s3 [] []. split; congruence. Qed.

Lemma on_net_published {A} (m : M (Mininet.net W) A) : preserves same_published (on_net m).
Proof. intros s. unfold on_net. destruct (TestNetwork.net s) as [n|]; [|done]. by destruct (m n). Qed.

Lemma modify_published (f : @TestNetwork W → TestNetwork) :
  (∀ s, same_published s (f s)) → preserves same_published (modify f).
Proof. intros Hf s. apply Hf. Qed.

Lemma retry_published {A} k (m : M (@TestNetwork W) A) :
  preserves same_published m → preserves same_published (retry_loop k m).
Proof.
  intros Hm. induction k as [|k IH]; simpl; [apply preserves_raise, _|].
  apply preserves_try; [apply _|done|]. intros e. case_bool_decide; [apply preserves_raise, _|done].
Qed.

Ltac published :=
  unfold _switch_attach, _retry_func, the_pri, the_sec, _switch_del_intf, on_switch;
  repeat first
    [ progress frame
    | apply on_net_published
    | apply retry_published
    | apply preserves_when; [apply _|]
    | apply preserves_raise; apply _
    | apply preserves_try; [apply _| |intros ?]
    | apply modify_published; by intros [] ].

Lemma add_host_published name cls ip ev vm port td :
  preserves same_published (add_host name cls ip ev vm port td).
Proof. unfold add_host. published. Qed.
Lemma remove_host_published h : preserves same_published (remove_host h).
Proof. unfold remove_host. published. Qed.
Lemma mirror_published port b : preserves same_published (create_mirror_interface port b).
Proof. unfold create_mirror_interface, add_port. published. Qed.
Lemma activate_published C gw : preserves same_published (activate repr C gw).
Proof.
  unfold activate, _link_secondary, _create_secondary, _attach_sec_device_links, attach_device,
    _attach_switch_interface, add_port.
  published.
Qed.

(** A history after [initialize]: hosts and mirror interfaces come and go, the
    network is activated, traffic is directed; mininet and the controller's
    configurator may raise at any time. *)
Inductive net_step : relation (@TestNetwork W) :=
  | net_add name cls ip ev vm port td s : net_step s (fst (add_host name cls ip ev vm port td s))
  | net_remove h s : net_step s (fst (remove_host h s))
  | net_mirror port b s : net_step s (fst (create_mirror_interface port b s))
  | net_activate C gw s : net_step s (fst (activate repr C gw s))
  | net_port Wd si r port tg s :
      snd (FaucetTopology.direct_port_traffic Wd si load run_dir r port tg (topology s)) = Ok tt →
      net_step s (fst (direct_port_traffic load run_dir reload Wd si r port tg s))
  | net_device Wd si r ps s :
      net_step s (fst (direct_device_traffic load run_dir reload Wd si r ps s)).

(** Publishing changes the files and what is loaded only; if it succeeds, the
    last topology that was loaded is the current one. *)
Definition is_structural (d : doc) : option (option FaucetTopology.net) :=
  match d with Structural n => Some n | Gauge _ => None end.
Definition current s : option (option FaucetTopology.net) := last (omap is_structural (loaded s)).

Lemma publish_doc f d s :
  match reload (loaded s) d with
  | Ok _ => (write_file f d;; reload_config reload f) s
            = (set_loaded (loaded s ++ [d]) (set_files (dset f d (files s)) s), Ok tt)
  | Raise e => (write_file f d;; reload_config reload f) s = (set_files (dset f d (files s)) s, Raise e)
  end.
Proof.
  unfold write_file, reload_config. rewrite (bind_ok (modify _) _ _ _ _ eq_refl).
  rewrite (bind_ok getS _ _ _ _ eq_refl). simpl. rewrite dget_dset_eq. unfold mbind, M_bind, lift. simpl.
  by destruct (reload (loaded s) d) as [[]|e].
Qed.

Lemma behavioral_cases s s' r :
  _generate_behavioral_config run_dir reload s = (s', r) →
  topology s' = topology s ∧ (r = Ok tt → current s' = Some (FaucetTopology.topology (topology s))).
Proof.
  unfold _generate_behavioral_config. rewrite (bind_ok getS _ _ _ _ eq_refl), <- bind_assoc.
  set (d := Structural _). unfold mbind at 1, M_bind at 1.
  pose proof (publish_doc (INTERMEDIATE_FAUCET_FILE run_dir) d s) as H1.
  destruct (reload (loaded s) d); rewrite H1; [|by intros [= <- <-]].
  rewrite (bind_ok getS _ _ _ _ eq_refl). set (s1 := set_loaded _ _). set (g := Gauge _).
  pose proof (publish_doc (INTERMEDIATE_GAUGE_FILE run_dir) g s1) as H2.
  destruct (reload (loaded s1) g); rewrite H2; intros [= <- <-]; [|done].
  split; [done|]. intros _. unfold current. simpl. rewrite !omap_app. simpl. by rewrite app_nil_r, last_snoc.
Qed.

(** The steps follow those of the topology. *)
Lemma on_topology_eq {A} (m : M Topology A) s :
  on_topology m s = (set_topology (fst (m (topology s))) s, snd (m (topology s))).
Proof. unfold on_topology. by destruct (m (topology s)). Qed.

Lemma direct_topology (m : M Topology unit) s :
  topology (fst ((on_topology m;; _generate_behavioral_config run_dir reload) s))
  = fst (m (topology s)).
Proof.
  unfold mbind, M_bind. rewrite on_topology_eq. destruct (m (topology s)) as [t [[]|e]] eqn:E; simpl; [|done].
  destruct (_generate_behavioral_config _ _ _) as [s' r] eqn:Hb. by apply behavioral_cases in Hb as [? _].
Qed.

Lemma net_step_topology s s' : net_step s s' →
  rtc (TopologySpec.traffic_step load run_dir) (topology s) (topology s').
Proof.
  destruct 1 as [name cls ip ev vm port td s|h s|port b s|C gw s|Wd si r port tg s Hok|Wd si r ps s].
  - by destruct (add_host_published name cls ip ev vm port td s) as [-> _].
  - by destruct (remove_host_published h s) as [-> _].
  - by destruct (mirror_published port b s) as [-> _].
  - by destruct (activate_published C gw s) as [-> _].
  - unfold direct_port_traffic. rewrite direct_topology. apply rtc_once.
    eapply TopologySpec.port_step. by rewrite <- Hok, <- surjective_pairing.
  - unfold direct_device_traffic. rewrite direct_topology. apply rtc_once.
    eapply TopologySpec.device_step. by rewrite <- surjective_pairing.
Qed.

Lemma net_steps_topology s s' : rtc net_step s s' →
  rtc (TopologySpec.traffic_step load run_dir) (topology s) (topology s').
Proof.
  induction 1 as [|s1 s2 s3 Hs _ IH]; [done|]. etrans; [by apply net_step_topology|done].
Qed.

(** Starting the controller changes the event socket only. *)
Lemma run_faucet_frame kill gauge : preserves TopologySpec.same_ports
  (FaucetTopology._run_faucet shell lib_dir kill gauge).
Proof.
  intros t. unfold FaucetTopology._run_faucet, mbind, M_bind, getS, assertM. simpl.
  repeat (case_match; simplify_eq/=; try done).
Qed.

Lemma initialize_topology C Wd si s0 s1 :
  initialize load run_dir reload lib_dir shell C Wd si s0 = (s1, Ok tt) →
  ∃ t1, FaucetTopology.initialize Wd si load run_dir "pri" (topology s0) = (t1, Ok tt) ∧
    TopologySpec.same_ports t1 (topology s1).
Proof.
  unfold initialize. intros (a1 & n & E1 & H1)%bind_ok_inv. injection E1 as <- _.
  apply bind_ok_inv in H1 as (a2 & [] & E2 & H2). injection E2 as <-.
  apply bind_ok_inv in H2 as (a3 & p & E3 & H3).
  pose proof (on_net_published (Mininet.addSwitch "pri" "1") (set_net (Some n) s0)) as [T3 _].
  rewrite E3 in T3. simpl in T3.
  apply bind_ok_inv in H3 as (a4 & [] & E4 & H4). injection E4 as <-.
  apply bind_ok_inv in H4 as (a5 & [] & E5 & H5). rewrite on_topology_eq in E5. simpl in E5.
  injection E5 as <- E5. rewrite T3 in *.
  apply bind_ok_inv in H5 as (a6 & [] & E6 & H6). apply behavioral_cases in E6 as [T6 _].
  apply bind_ok_inv in H6 as (a7 & [] & E7 & H7). rewrite on_topology_eq in E7. injection E7 as <- _.
  assert (preserves same_published (on_net (Mininet.addController "faucet" "127.0.0.1" (ext_faucet_ofpt C));;
    on_net (Mininet.addController "gauge" "127.0.0.1" (ext_gauge_ofpt C)))) as Hp by published.
  match type of H7 with _ ?s = _ => specialize (Hp s) end. rewrite H7 in Hp. destruct Hp as [T7 _].
  simpl in T7. rewrite T7, T6. simpl. eexists. rewrite <- E5. split; [apply surjective_pairing|].
  assert (preserves TopologySpec.same_ports (FaucetTopology.start shell lib_dir)) as Hs; [|apply Hs].
  apply (@preserves_bind _ _ _ _ TopologySpec.same_ports_trans);
    [apply run_faucet_frame|intros _; apply run_faucet_frame].
Qed.

(** The VLAN of a port of the secondary switch in a document of the controller *)
Definition document_vlan (sec : string) (d : option FaucetTopology.net) (p : Z) : option val :=
  n ← d; dp ← dget sec (FaucetTopology.dps n); i ← dget p (FaucetTopology.interfaces dp);
  dget "native_vlan" i.

(** The last call directed traffic and returned. *)
Inductive directed : relation (@TestNetwork W) :=
  | directed_port Wd si r port tg s s' :
      direct_port_traffic load run_dir reload Wd si r port tg s = (s', Ok tt) → directed s s'
  | directed_device Wd si r ps s s' :
      direct_device_traffic load run_dir reload Wd si r ps s = (s', Ok tt) → directed s s'.

Lemma directed_current s s' : directed s s' →
  net_step s s' ∧ current s' = Some (FaucetTopology.topology (topology s')).
Proof.
  assert (∀ (m : M Topology unit),
    (on_topology m;; _generate_behavioral_config run_dir reload) s = (s', Ok tt) →
    snd (m (topology s)) = Ok tt ∧ current s' = Some (FaucetTopology.topology (topology s'))) as Hm.
  { intros m (s1 & [] & E1 & [Ht Hc]%behavioral_cases)%bind_ok_inv. rewrite on_topology_eq in E1.
    injection E1 as <- E1. rewrite Ht. by split; [|apply Hc]. }
  destruct 1 as [Wd si r port tg s s' H|Wd si r ps s s' H]; destruct (Hm _ H) as [Hok Hcur]; (split; [|done]).
  - rewrite <- (f_equal fst H : _ = s'). by apply net_port.
  - rewrite <- (f_equal fst H : _ = s'). by apply net_device.
Qed.

End publish.

(** ** A small network *)

(** The numbers of the interfaces in use *)
Definition used_ids (n : Mininet.net unit) : gset nat :=
  list_to_set ((map_to_list (Mininet.switches n)) ≫= λ '(_, sw), Mininet.intf_id <$> dkeys (Mininet.ports sw)).

Definition toy_link (n : Mininet.net unit) (sw : switch) : link :=
  Mininet.mkLink (fresh (list_to_set (Mininet.link_id <$> Mininet.links n) : gset nat))
    (Mininet.mkIntf (fresh (used_ids n)) (fresh (list_to_set (dkeys (Mininet.nameToIntf sw)) : gset string)))
    (Mininet.mkIntf 0 "eth0").

Definition toy_add_link (s : nat) (p1 : option Z) : M (Mininet.net unit) link := λ n,
  match Mininet.switches n !! s with
  | None => (n, Raise OtherException)
  | Some sw =>
      let l := toy_link n sw in
      let i := Mininet.intf1 l in
      let q := default (fresh (list_to_set (dkeys (Mininet.intfs sw)) : gset Z)) p1 in
      if decide (dget q (Mininet.intfs sw) = None) then
        (Mininet.mkNet (Mininet.hosts n) (Mininet.links n ++ [l]) (Mininet.built n)
           (<[s := Mininet.mkSwitch (Mininet.switch_name sw) (dset q i (Mininet.intfs sw))
                     (dset i q (Mininet.ports sw)) (dset (Mininet.name i) i (Mininet.nameToIntf sw))]>
              (Mininet.switches n)) tt, Ok l)
      else (n, Raise OtherException)
  end.

Lemma toy_link_fresh n sw s : Mininet.switches n !! s = Some sw →
  let l := toy_link n sw in
  (l ∉ Mininet.links n) ∧ dget (Mininet.name (Mininet.intf1 l)) (Mininet.nameToIntf sw) = None ∧
  ∀ s0 sw0, Mininet.switches n !! s0 = Some sw0 → dget (Mininet.intf1 l) (Mininet.ports sw0) = None.
Proof.
  intros Hsw l. split_and!.
  - intros Hl. apply (is_fresh (list_to_set (Mininet.link_id <$> Mininet.links n) : gset nat)).
    apply elem_of_list_to_set, list_elem_of_fmap. by exists l.
  - apply dget_None. intros Hn.
    apply (is_fresh (list_to_set (dkeys (Mininet.nameToIntf sw)) : gset string)).
    by apply elem_of_list_to_set.
  - intros s0 sw0 H0. apply dget_None. intros Hi. apply (is_fresh (used_ids n)).
    apply elem_of_list_to_set, list_elem_of_bind. exists (s0, sw0). split; [|by apply elem_of_map_to_list].
    apply list_elem_of_fmap. by exists (Mininet.intf1 l).
Qed.

Definition toy : Mininet unit := {|
  Mininet.create _ := Ok (Mininet.mkNet [] [] false ∅ tt);
  Mininet.addHost _ _ _ := λ n,
    let h := fresh (list_to_set (Mininet.hosts n) : gset nat) in
    (Mininet.with_hosts (Mininet.hosts n ++ [h]) n, Ok h);
  Mininet.addSwitch nm _ := λ n,
    let k := size (Mininet.switches n) in
    (Mininet.with_switches (<[k := Mininet.mkSwitch nm [] [] []]> (Mininet.switches n)) n, Ok k);
  Mininet.addLink s _ p1 _ := toy_add_link s p1;
  Mininet.addController _ _ _ := mret tt;
  Mininet.start := mret tt;
  Mininet.stop := mret tt;
  Mininet.Intf nm p := mret (Mininet.mkIntf (Z.to_nat p) nm);
  Mininet.intf_delete _ := mret tt;
  Mininet.addIntf _ _ _ := mret tt;
  Mininet.attach _ _ := mret tt;
  Mininet.detach _ _ := mret tt;
  Mininet.vsctl _ _ := mret tt;
  Mininet.intfOpts _ _ := mret "";
  Mininet.cmd _ _ := mret tt;
  Mininet.configDefault _ := mret tt;
  Mininet.terminate _ := mret tt;
  Mininet.makeIntfPair _ _ := mret tt
|}.

Lemma toy_laws : @MininetLaws unit toy.
Proof.
  split; try done; simpl.
  - intros nm cls ps n n' h Heq. injection Heq as <- <-. split_and!; [|done..]. intros Hh.
    apply (is_fresh (list_to_set (Mininet.hosts n) : gset nat)). by apply elem_of_list_to_set.
  - intros s nd p1 p2 n n' l. unfold toy_add_link.
    destruct (Mininet.switches n !! s) as [sw|] eqn:Hsw; [|done]. case_decide as Hd; [|done].
    destruct (toy_link_fresh n sw s Hsw) as (H1 & H2 & H3). intros Heq. injection Heq as <- <-.
    split_and!; [done..|]. exists sw. do 2 eexists. split_and!; [done|done| | |exact H3].
    + split_and!; [done|by apply (H3 s)|done|done].
    + by intros q ->.
  - intros s nd p1 p2 n n' e. unfold toy_add_link.
    destruct (Mininet.switches n !! s); [case_decide|]; intros Heq; by simplify_eq.
Qed.

Lemma toy_works : @works unit toy.
Proof.
  split; try done; simpl. intros p sw h q n Hsw Hq. unfold toy_add_link. rewrite Hsw. by rewrite decide_True.
Qed.
Lemma toy_no_failures : @no_failures unit toy.
Proof. by split. Qed.

Definition demo_net : @TestNetwork unit :=
  mkNetwork (Some (Mininet.mkNet [] [] true {[ 0%nat := Mininet.mkSwitch "pri" [] [] [] ]} tt))
    (Some 0%nat) None None None VNone VNone TopologySpec.demo_t0 [] [] [].
Definition demo_gateway : @TestNetwork unit := fst (add_host (H := toy) "gw01" "Host" None [] [] (Some 10) None demo_net).

Lemma demo_no_links : no_links demo_net.
Proof.
  do 3 eexists. split_and!; try reflexivity.
  - split_and!; apply NoDup_nil_2.
  - apply NoDup_nil_2.
  - apply NoDup_nil_2.
Defined.


Definition demo_both : @TestNetwork unit :=
  fst (add_host (H := toy) "dummy01" "Host" None [] [] (Some 11) None demo_gateway).


Definition demo_shell (_ : string) : string :=
  "FAUCET_EVENT_SOCK=/run/sock" +:+ PyText.nl +:+ "SUCCESS".
Definition demo_created : conf * @TestNetwork unit :=
  match init (W := unit) (λ _, Ok "10.20.0.0/16") TopologySpec.no_files TopologySpec.demo_cfg with
  | Ok r => r
  | Raise _ => (mkConf VNone 0 "" VNone 0 0 VNone, demo_net)
  end.
Definition demo_world : world := TopologySpec.demo_world (Some 7%nat).
Definition demo_started : @TestNetwork unit :=
  fst (initialize (H := toy) TopologySpec.no_files "inst" (λ _ _, Ok tt) "daq" demo_shell
         (fst demo_created) demo_world elements (snd demo_created)).
Definition demo_directed : @TestNetwork unit :=
  fst (direct_port_traffic TopologySpec.no_files "inst" (λ _ _, Ok tt) demo_world elements 0 1
         (Some TopologySpec.demo_target) demo_started).


(** The first host stays in mininet's list when it is removed. *)
Example first_host_stays :
  Mininet.hosts <$> TestNetwork.net (fst (remove_host (H := toy) 0 demo_gateway)) = Some [0%nat].
Proof. vm_compute. reflexivity. Qed.

(** A host whose interface cannot be attached is terminated, but stays in the
    list, with its link. *)
Definition toy_no_attach : Mininet unit := {|
  Mininet.create := @Mininet.create _ toy;
  Mininet.addHost := @Mininet.addHost _ toy;
  Mininet.addSwitch := @Mininet.addSwitch _ toy;
  Mininet.addLink := @Mininet.addLink _ toy;
  Mininet.addController _ _ _ := mret tt;
  Mininet.start := mret tt;
  Mininet.stop := mret tt;
  Mininet.Intf := @Mininet.Intf _ toy;
  Mininet.intf_delete _ := mret tt;
  Mininet.addIntf _ _ _ := mret tt;
  Mininet.attach _ _ := raise RuntimeError;
  Mininet.detach _ _ := mret tt;
  Mininet.vsctl _ _ := mret tt;
  Mininet.intfOpts _ _ := mret "";
  Mininet.cmd _ _ := mret tt;
  Mininet.configDefault _ := mret tt;
  Mininet.terminate _ := mret tt;
  Mininet.makeIntfPair _ _ := mret tt
|}.
Example failed_host_stays :
  let '(s, r) := add_host (H := toy_no_attach) "gw01" "Host" None [] [] (Some 10) None demo_net in
  r = Raise RuntimeError ∧ Mininet.hosts <$> TestNetwork.net s = Some [0%nat] ∧
  dkeys (switch_links s) = [0%nat].
Proof. vm_compute. split_and!; reflexivity. Qed.

End NetworkSpec.
