(* ===== verification/GatewayHosts.v ===== *)
(** * Starting gateways (src/daq/base_gateway.py, container_gateway.py,
      external_gateway.py)

    - [GatewayHosts]: a gateway adds its host and a dummy host to the network
      ([Network]), warms up with pings, starts its monitors, and is terminated
      when that fails ([initialize]).  Container gateways also run scripts on
      their host and capture packets while they start.
    - [Discovery]: the search for the address of a device with arp-scan, one
      subnet after the other ([discover_host]).

    What lies outside (directories, commands on hosts, the DHCP monitor's and
    the capture's processes) is a list of calls; the answer to a call, its
    output or an exception, may depend on all calls before. *)

From stdpp Require Import base list gmap strings pretty.
From Stdlib Require Import ZArith Lia Ascii.
From S2P Require Import Prelude PyVal PyText PyTime Devices Gateway Topology TopologySpec Network NetworkSpec.

Module GatewayHosts.
Import PyText.
Import Mininet(intf, link, Mininet, MininetLaws).
Import TestNetwork(TestNetwork).
Local Open Scope string_scope.
Local Open Scope list_scope.
Local Open Scope Z_scope.

Definition TEST_IP_FORMAT (port_set : Z) : string := "192.168.84." +:+ pretty port_set.
(** [%02d] *)
Definition two_digits (z : Z) : string :=
  if (0 <=? z) && (z <? 100) then String.string_of_list_ascii (PyTime.padded 2 z) else pretty z.

(** The calls outside the network *)
Inductive call :=
  | SetupTmpdir (dir : string)
  | HostActivate (h : nat)
  | HostCmd (h : nat) (command : string)
  | SwitchCmd (command : string)
  | Ping (src : nat) (options dst_ip : string)
  | HostTerminate (h : nat)
  | DhcpCreate (log_file : string) (intf_name : option string)
  | DhcpStart
  | DhcpCleanup
  | ScanCreate (intf_name : string)
  | ScanMonitor
  | ScanForget
  | ScanTerminate.

Inductive kind := Container | External.

(** What does not change *)
Record conf := mkConf {
  gw_kind : kind;
  env_params : list (string * string);
  _ext_intf : option string;
  initial_dhcp_lease_time : option string;
  dhcp_lease_time : option string;
  _tap_intf : option string
}.

Section gateway.
Context {W : Type} {HM : Mininet W}.
Context (answer : list call → call → res string).
(** [host.IP()] and [host.pid], and [DAQ_RUN_DIR] *)
Context (IP pid : nat → string) (run_dir : string) (abspath : string → string).
Context (C : conf).

(** The gateway and the network; [_scan_monitor] says whether its stream is
    still open. *)
Record state := mkState {
  gw : Gateway.Gateway;
  netw : @TestNetwork W;
  tmpdir : option string;
  host_intf : option intf;
  fake_target : option string;
  _scan_monitor : option bool;
  calls : list call
}.
Definition set_gw v s := mkState v (netw s) (tmpdir s) (host_intf s) (fake_target s) (_scan_monitor s) (calls s).
Definition set_netw v s := mkState (gw s) v (tmpdir s) (host_intf s) (fake_target s) (_scan_monitor s) (calls s).
Definition set_tmpdir v s := mkState (gw s) (netw s) v (host_intf s) (fake_target s) (_scan_monitor s) (calls s).
Definition set_host_intf v s := mkState (gw s) (netw s) (tmpdir s) v (fake_target s) (_scan_monitor s) (calls s).
Definition set_fake_target v s := mkState (gw s) (netw s) (tmpdir s) (host_intf s) v (_scan_monitor s) (calls s).
Definition set_scan v s := mkState (gw s) (netw s) (tmpdir s) (host_intf s) (fake_target s) v (calls s).
Definition set_calls v s := mkState (gw s) (netw s) (tmpdir s) (host_intf s) (fake_target s) (_scan_monitor s) v.

Abbreviation GM := (M state) (only parsing).

Definition ask (c : call) : GM string := λ s, (set_calls (calls s ++ [c]) s, answer (calls s) c).
Definition tell (c : call) : GM unit := ask c;; mret tt.
Definition on_network {A} (m : M (@TestNetwork W) A) : GM A := λ s,
  let '(n, r) := m (netw s) in (set_netw n s, r).
Definition modify_gw (f : Gateway.Gateway → Gateway.Gateway) : GM unit :=
  modify (λ s, set_gw (f (gw s)) s).
Definition the_host : GM nat := s ← getS; lift (of_option AttributeError (Gateway.host (gw s))).

(** [DAQRunner.ping_test] of a host and an address *)
Definition ping_test (src : nat) (dst_ip : string) (src_addr : option string) : GM bool :=
  assertM (negb (bool_decide (dst_ip = "0.0.0.0")));;
  let ping_opt := match src_addr with
                  | Some a => if bool_decide (a = "") then "" else "-I " +:+ a
                  | None => ""
                  end in
  try_except
    (output ← ask (Ping src ping_opt dst_ip);
     mret (negb (bool_decide (strip output = "ping FAILED"))))
    (λ _, mret false).

(** [_get_env_vars] *)
Definition _get_env_vars : list string := (λ '(k, v), upper k +:+ "=" +:+ v) <$> env_params C.

(** [_setup_tmpdir] *)
Definition _setup_tmpdir (base_name : string) : GM string :=
  let dir := FaucetTopology.join_path run_dir base_name in tell (SetupTmpdir dir);; mret dir.

Definition host_class : string := match gw_kind C with Container => "daqf/networking" | External => "ExternalGatewayHost" end.

(** The warm-up: five pings at most *)
Fixpoint warm_up (ping_retry : nat) (h : nat) (dst : string) : GM unit :=
  ok ← ping_test h dst None;
  if ok : bool then mret tt
  else match ping_retry with
       | O | S O => raise AssertionError
       | S r => warm_up r h dst
       end.

(** [BaseGateway._initialize]: a host is added and prepared with a call, and
    then known to the gateway. *)
Definition new_host (name cls : string) (env_vars vol_maps : list string) (port : Z) (dir : option string)
    (prepare : nat → call) (keep : nat → Gateway.Gateway → Gateway.Gateway) : GM nat :=
  h ← on_network (TestNetwork.add_host name cls None env_vars vol_maps (Some port) dir);
  tell (prepare h);;
  modify_gw (keep h);;
  mret h.

Definition add_gateway_host : GM nat :=
  s ← getS;
  let host_name := "gw" +:+ two_digits (Gateway.port_set (gw s)) in
  let host_port := if Gateway._is_native (gw s) then 1
                   else Gateway._switch_port Gateway.GATEWAY_OFFSET (gw s) in
  dir ← _setup_tmpdir host_name;
  modify (set_tmpdir (Some dir));;
  host ← new_host host_name host_class _get_env_vars
           [abspath (FaucetTopology.join_path run_dir "config") +:+ ":/config/inst"]
           host_port (Some dir) HostActivate (λ h, Gateway.with_host (Some h));
  i ← on_network (TestNetwork.get_host_interface host);
  modify (set_host_intf (Some i));;
  mret host.

Definition add_dummy_host (host : nat) : GM nat :=
  s ← getS;
  new_host ("dummy" +:+ two_digits (Gateway.port_set (gw s))) "DAQHost" [] []
    (Gateway._switch_port Gateway.DUMMY_OFFSET (gw s)) None
    (λ dummy, HostCmd dummy ("route add -net 0.0.0.0 gw " +:+ IP host))
    (λ d, Gateway.with_dummy (Some d)).

Definition check_pings (host dummy : nat) (fake : string) : GM unit :=
  warm_up Gateway._PING_RETRY_COUNT host (IP dummy);;
  b ← ping_test host (IP dummy) None; assertM b;;
  b ← ping_test dummy (IP host) None; assertM b;;
  b ← ping_test dummy fake None; assertM b;;
  b ← ping_test host (IP dummy) (Some fake); assertM b.

Definition base_initialize : GM unit :=
  host ← add_gateway_host;
  s ← getS;
  if Gateway._is_native (gw s) then
    tell (SwitchCmd ("ip link set " +:+ default "None" (_ext_intf C) +:+ " netns " +:+ pid host))
  else
    dummy ← add_dummy_host host;
    let fake := TEST_IP_FORMAT (Gateway.port_set (gw s)) in
    modify (set_fake_target (Some fake));;
    s ← getS;
    tell (HostCmd host ("ip addr add " +:+ fake +:+ " dev "
      +:+ default "None" (Mininet.name <$> host_intf s)));;
    check_pings host dummy fake.

(** [execute_script] and the scripts of a container gateway *)
Definition execute_script (action : string) (args : list string) : GM unit :=
  h ← the_host; tell (HostCmd h (foldl (λ c a, c +:+ " " +:+ a) ("./" +:+ action) args)).
Definition _change_lease_time (lease_time : option string) : GM unit :=
  execute_script "change_lease_time" [default "None" lease_time].
Definition request_new_ip (mac : string) : GM unit := execute_script "new_ip" [mac].
Definition change_dhcp_response_time (mac : string) (time : Z) : GM unit :=
  execute_script "change_dhcp_response_time" [mac; pretty time].
Definition stop_dhcp_response (mac : string) : GM unit := change_dhcp_response_time mac (-1).
Definition change_dhcp_range (start end_ prefix_length : string) : GM unit :=
  execute_script "change_dhcp_range" [start; end_; prefix_length].

(** [_startup_scan] *)
Definition _startup_scan : GM unit :=
  s ← getS;
  assertM (bool_decide (_scan_monitor s = None));;
  tell (ScanCreate (default "None" (Mininet.name <$> host_intf s)));;
  modify (set_scan (Some true));;
  tell ScanMonitor.

(** [_scan_finalize], with its callers [_scan_complete] (after the stream was
    closed) and [_scan_error] *)
Definition _scan_finalize (forget : bool) : GM unit :=
  s ← getS;
  match _scan_monitor s with
  | None => mret tt
  | Some active =>
      assertM (bool_decide (active = forget));;
      whenM forget (tell ScanForget;; tell ScanTerminate);;
      modify (set_scan None)
  end.
Definition _scan_complete : GM unit :=
  modify (λ s, set_scan ((λ _, false) <$> _scan_monitor s) s);; _scan_finalize false.
Definition _scan_error : GM unit := _scan_finalize true.

(** Creating and starting the DHCP monitor *)
Definition start_dhcp : GM unit :=
  s ← getS;
  dir ← lift (of_option TypeError (tmpdir s));
  tell (DhcpCreate (FaucetTopology.join_path dir "dhcp_monitor.txt")
          (match gw_kind C with External => _tap_intf C | Container => None end));;
  modify_gw (λ g, Gateway.mkGateway (Gateway.name g) (Gateway.port_set g) (Gateway.host g)
    (Gateway.dummy g) (Gateway.targets g) (Gateway.test_ports g) (Gateway.ready g)
    (Gateway.activated g) (Gateway.result_linger g) true (Gateway._is_native g));;
  tell DhcpStart.

(** [_initialize] of the two kinds *)
Definition _initialize : GM unit :=
  base_initialize;;
  match gw_kind C with
  | Container => _change_lease_time (initial_dhcp_lease_time C);; _startup_scan;; start_dhcp
  | External => start_dhcp
  end.

(** [terminate] *)
Definition stop_host (h : option nat) (clear : Gateway.Gateway → Gateway.Gateway) : GM unit :=
  match h with
  | None => mret tt
  | Some h =>
      try_except
        (tell (HostTerminate h);; on_network (TestNetwork.remove_host h);; modify_gw clear)
        (λ _, mret tt)
  end.
Definition base_terminate : GM unit :=
  s ← getS;
  assertM (bool_decide (Gateway.targets (gw s) = []));;
  whenM (Gateway.dhcp_monitor (gw s)) (tell DhcpCleanup);;
  s ← getS;
  stop_host (Gateway.host (gw s)) (Gateway.with_host None);;
  s ← getS;
  stop_host (Gateway.dummy (gw s)) (Gateway.with_dummy None).
Definition terminate : GM unit :=
  base_terminate;;
  match gw_kind C with Container => _scan_finalize true | External => mret tt end.

(** [initialize] *)
Definition initialize : GM unit := try_except _initialize (λ e, terminate;; raise e).

(** [activate] *)
Definition activate : GM unit :=
  modify_gw (Gateway.with_activated true);;
  match gw_kind C with
  | Container => _change_lease_time (dhcp_lease_time C);; _scan_finalize true
  | External => mret tt
  end.

End gateway.

End GatewayHosts.

(** ** Looking for a device's address *)

Module Discovery.
Import PyText.
Local Open Scope string_scope.
Local Open Scope list_scope.

Definition tab : ascii := "009"%char.

Section discovery.
(** Python's addresses ([ip_address] raises on other texts), hardware addresses
    (netaddr's [EUI] raises on other texts), and networks: their text, prefix
    length and first host, which a network may lack *)
Context {A E N : Type} `{EqDecision E}.
Context (ip_address : string → option A) (EUI : string → option E).
Context (network_text prefixlen : N → string) (first_host : N → option string).
Context (tmpdir : string).

(** [process_line] of [_discover_host_hangup_callback] *)
Definition process_line (mac line : string) : option A :=
  match filter (λ x, x ≠ "") (split_on tab (String.list_ascii_of_string line)) with
  | ip :: hw :: _ =>
      device_ip ← ip_address ip;
      m ← EUI mac;
      e ← EUI hw;
      if decide (m = e) then Some device_ip else None
  | _ => None
  end.

(** The first line that says it *)
Definition scan_result (mac log : string) : option A :=
  head (omap (process_line mac) (split_on newline (String.list_ascii_of_string log))).

(** The search: the networks that are left (the caller's list), the network
    that is being scanned, the commands that were run and the answers that were
    given *)
Record search := mkSearch {
  subnets : list N;
  scanning : option N;
  commands : list string;
  answers : list (option A)
}.

(** [recursive_discover] *)
Definition recursive_discover (mac intf : string) : M search unit :=
  s ← getS;
  match subnets s with
  | [] => modify (λ s, mkSearch [] None (commands s) (answers s ++ [None]))
  | subnet :: rest =>
      modify (λ s, mkSearch rest None (commands s) (answers s));;
      address ← lift (of_option RuntimeError (first_host subnet));
      modify (λ s, mkSearch (subnets s) (Some subnet)
        (commands s ++ ["ip addr add " +:+ address +:+ "/" +:+ prefixlen subnet +:+ " dev " +:+ intf;
                        "arp-scan --retry=2 --bandwidth=512K --interface=" +:+ intf +:+ " --destaddr=" +:+ mac
                        +:+ " -s " +:+ address +:+ " " +:+ network_text subnet]) (answers s))
  end.

(** [discover_host] *)
Definition discover_host (mac intf : string) (nets : list N) : M search unit :=
  modify (λ s, mkSearch nets None (commands s) (answers s));; recursive_discover mac intf.

(** The scan hangs up with its output. *)
Definition hangup (mac intf log : string) : M search unit :=
  match scan_result mac log with
  | Some ip => modify (λ s, mkSearch (subnets s) None (commands s) (answers s ++ [Some ip]))
  | None => recursive_discover mac intf
  end.

(** The scans one after the other, each with the output of its network *)
Fixpoint scans (fuel : nat) (mac intf : string) (output : N → string) : M search unit :=
  match fuel with
  | O => mret tt
  | S fuel' =>
      s ← getS;
      match scanning s with
      | None => mret tt
      | Some net => hangup mac intf (output net);; scans fuel' mac intf output
      end
  end.

(** The address the first network in order shows *)
Definition first_found (mac : string) (output : N → string) (nets : list N) : option A :=
  head (omap (λ n, scan_result mac (output n)) nets).

Lemma scans_stopped fuel mac intf output s :
  scanning s = None → scans fuel mac intf output s = (s, Ok tt).
Proof. intros Hs. destruct fuel; [done|]. simpl. by rewrite (bind_ok getS _ _ _ _ eq_refl), Hs. Qed.

Lemma discover_scans mac intf output nets : (∀ n, n ∈ nets → is_Some (first_host n)) → ∀ c,
  ∃ s1 s2, recursive_discover mac intf (mkSearch nets None c []) = (s1, Ok tt) ∧
    scans (length nets) mac intf output s1 = (s2, Ok tt) ∧
    scanning s2 = None ∧ answers s2 = [first_found mac output nets].
Proof.
  induction nets as [|net nets IH]; intros Hh c.
  { eexists _, _. by split_and!. }
  destruct (Hh net) as [a Ha]; [left|].
  assert (∃ c', recursive_discover mac intf (mkSearch (net :: nets) None c [])
    = (mkSearch nets (Some net) c' [], Ok tt)) as [c' ->].
  { unfold recursive_discover. rewrite (bind_ok getS _ _ _ _ eq_refl). cbn [subnets].
    rewrite (bind_ok (modify _) _ _ _ _ eq_refl), Ha.
    rewrite (bind_ok (lift (of_option RuntimeError (Some a))) _ _ _ a eq_refl). by eexists. }
  eexists. cbn [length scans]. unfold first_found. cbn [omap list_omap].
  assert (∃ s2, hangup mac intf (output net) (mkSearch nets (Some net) c' []) = (s2, Ok tt) ∧
    ∃ s3, scans (length nets) mac intf output s2 = (s3, Ok tt) ∧ scanning s3 = None ∧
      answers s3 = [match scan_result mac (output net) with
                    | Some ip => Some ip | None => first_found mac output nets end])
    as (s2 & E2 & s3 & E3 & H3 & H4).
  { unfold hangup. destruct (scan_result mac (output net)) as [ip|].
    - eexists. split; [done|]. eexists. rewrite scans_stopped by done. by split_and!.
    - destruct (IH (λ n Hn, Hh n (list_elem_of_further _ _ _ Hn)) c') as (s1 & s2 & E1 & E2 & H3 & H4).
      exists s1. split; [|by exists s2]. rewrite <- E1. by destruct nets. }
  exists s3. split; [done|]. rewrite (bind_ok getS _ _ _ _ eq_refl). cbn [scanning].
  rewrite (bind_ok _ _ _ _ _ E2). split_and!; [done..|]. rewrite H4. f_equal.
  by destruct (scan_result mac (output net)).
Qed.
End discovery.

End Discovery.
