(* ===== verification/GatewaySpec.v ===== *)
(** * Properties of starting gateways (src/daq/base_gateway.py)

    - a gateway that starts has its host and its dummy linked to the first two
      ports of its port set; one that fails to start leaves the network as it
      was ([gateway_start_cleans]);
    - where that is not so: a host whose activation fails stays in the network
      ([failed_activation_leaks]);
    - the search for a device's address ends with one answer
      ([discovery_answers_once]). *)

From stdpp Require Import base list gmap strings pretty relations.
From Stdlib Require Import ZArith Lia Ascii.
From S2P Require Import Prelude PyVal PyText PyTime Devices Gateway Topology TopologySpec Network NetworkSpec GatewayHosts.

Module GatewaySpec.
Import GatewayHosts.
Import Mininet(intf, link, Mininet, MininetLaws).
Import NetworkSpec(consistent, host_linked, no_failures).
Local Open Scope string_scope.
Local Open Scope list_scope.
Local Open Scope Z_scope.

Section start.
Context {W : Type} {HM : Mininet W} {HL : MininetLaws W}.
Context (answer : list call → call → res string).
Context (IP pid : nat → string) (run_dir : string) (abspath : string → string) (C : conf).
Context (s0 : @state W).
Implicit Types (s : @state W).

(** The calls that are assumed to return: those after which a host is not yet
    known to the gateway, and those of the clean-up *)
Definition quiet (c : call) : bool :=
  match c with
  | HostActivate _ | HostTerminate _ | DhcpCleanup => true
  | HostCmd _ command => String.prefix "route add" command
  | _ => false
  end.

(** ** What the steps leave alone *)

Definition same_core s s' : Prop :=
  netw s' = netw s ∧ Gateway.host (gw s') = Gateway.host (gw s) ∧
  Gateway.dummy (gw s') = Gateway.dummy (gw s) ∧ Gateway.targets (gw s') = Gateway.targets (gw s) ∧
  Gateway.port_set (gw s') = Gateway.port_set (gw s) ∧
  Gateway._is_native (gw s') = Gateway._is_native (gw s).
#[local] Instance same_core_preorder : PreOrder same_core.
Proof.
  split; [by intros s; split_and!|]. intros s1 s2 s3 (?&?&?&?&?&?) (?&?&?&?&?&?). split_and!; congruence.
Qed.

Lemma ask_core c : preserves same_core (ask answer c).
Proof. intros s. by split_and!. Qed.
Lemma modify_core f : (∀ s, same_core s (f s)) → preserves same_core (modify f).
Proof. intros Hf s. apply Hf. Qed.

Ltac core := unfold tell, the_host, modify_gw;
  walk ltac:(first [ apply ask_core | apply modify_core; intros ?; by split_and! ]).

Lemma ping_test_core src dst a : preserves same_core (ping_test answer src dst a).
Proof. unfold ping_test. core. Qed.
Lemma warm_up_core k h dst : preserves same_core (warm_up answer k h dst).
Proof.
  induction k as [|k IH]; simpl; walk ltac:(first [apply ping_test_core | exact IH]).
Qed.
Lemma check_pings_core h d fake : preserves same_core (check_pings answer IP h d fake).
Proof. unfold check_pings. walk ltac:(first [apply ping_test_core | apply warm_up_core]). Qed.
Lemma scan_finalize_core b : preserves same_core (_scan_finalize answer b).
Proof. unfold _scan_finalize. core. Qed.
Lemma rest_core : preserves same_core
  (match gw_kind C with
   | Container => _change_lease_time answer (initial_dhcp_lease_time C);; _startup_scan answer;; start_dhcp answer C
   | External => start_dhcp answer C
   end).
Proof. unfold _change_lease_time, execute_script, _startup_scan, start_dhcp. core. Qed.

(** ** How far the start got *)

Definition gw_port : Z := if Gateway._is_native (gw s0) then 1
  else Gateway._switch_port Gateway.GATEWAY_OFFSET (gw s0).
Definition dummy_port : Z := Gateway._switch_port Gateway.DUMMY_OFFSET (gw s0).

Definition phase0 s : Prop :=
  Gateway.host (gw s) = None ∧ Gateway.dummy (gw s) = None ∧ netw s = netw s0.
Definition phase1 h s : Prop :=
  Gateway.host (gw s) = Some h ∧ Gateway.dummy (gw s) = None ∧ host_linked h (Some gw_port) (netw s0) (netw s).
Definition phase2 h d s : Prop :=
  Gateway.host (gw s) = Some h ∧ Gateway.dummy (gw s) = Some d ∧
  ∃ t, host_linked h (Some gw_port) (netw s0) t ∧ host_linked d (Some dummy_port) t (netw s).
Definition J s : Prop :=
  Gateway.targets (gw s) = [] ∧ Gateway.port_set (gw s) = Gateway.port_set (gw s0) ∧
  Gateway._is_native (gw s) = Gateway._is_native (gw s0) ∧
  (phase0 s ∨ (∃ h, phase1 h s) ∨ ∃ h d, phase2 h d s).

Lemma J_core s s' : same_core s s' → J s → J s'.
Proof.
  intros (H1&H2&H3&H4&H5&H6) (?&?&?&Hp). unfold J, phase0, phase1, phase2 in *.
  by rewrite H1, H2, H3, H4, H5, H6.
Qed.

Lemma spec_core {A} (P : state → Prop) (m : M state A) :
  preserves same_core m → (∀ s s', same_core s s' → P s → P s') → spec J P m (λ _, P).
Proof.
  intros Hm HP. apply spec_frame.
  - intros s. apply J_core, Hm.
  - intros s. apply HP, Hm.
Qed.

Hypothesis Hstart : consistent (netw s0).
Hypothesis Hworks : NetworkSpec.works.
Hypothesis Hfree : NetworkSpec.free_port (netw s0) gw_port.
Hypothesis Hfree_dummy : Gateway._is_native (gw s0) = false → NetworkSpec.free_port (netw s0) dummy_port.
Hypothesis Hquiet : ∀ l c, quiet c = true → is_ok (answer l c) = true.

Lemma tell_quiet c s : quiet c = true → tell answer c s = (set_calls (calls s ++ [c]) s, Ok tt).
Proof.
  intros Hq. unfold tell, ask, mbind, M_bind. specialize (Hquiet (calls s) c Hq).
  by destruct (answer (calls s) c).
Qed.

Lemma on_network_eq {A} (m : M (@TestNetwork.TestNetwork W) A) s :
  on_network m s = (set_netw (fst (m (netw s))) s, snd (m (netw s))).
Proof. unfold on_network. by destruct (m (netw s)). Qed.

Lemma linked_interface h port (t t' : @TestNetwork.TestNetwork W) : host_linked h port t t' →
  ∃ i, TestNetwork.get_host_interface h t' = (t', Ok i).
Proof.
  intros (?&?&?&l&?&?&?&_&_&_&->&_). exists (Mininet.intf2 l).
  unfold TestNetwork.get_host_interface, mbind, M_bind, getS, lift. simpl. by rewrite dget_dset_eq.
Qed.

Lemma new_host_linked name cls ev vm port dir prepare keep s :
  NetworkSpec.free_port (netw s) port → (∀ h, quiet (prepare h) = true) →
  ∃ h t l, new_host answer name cls ev vm port dir prepare keep s
         = (set_gw (keep h (gw s)) (set_calls l (set_netw t s)), Ok h) ∧ host_linked h (Some port) (netw s) t.
Proof.
  intros Hc Hq.
  destruct (NetworkSpec.add_host_works name cls None ev vm port dir (netw s) Hworks Hc) as (t & h & E & Hl).
  exists h, t, (calls s ++ [prepare h]). split; [|done]. unfold new_host.
  rewrite (bind_ok _ _ s (set_netw t s) h) by (rewrite on_network_eq; by rewrite E).
  by rewrite (bind_ok _ _ _ _ _ (tell_quiet (prepare h) (set_netw t s) (Hq h))).
Qed.

Lemma phase0_core s s' : same_core s s' → phase0 s → phase0 s'.
Proof. intros (H1&H2&H3&_) ?. unfold phase0. by rewrite H1, H2, H3. Qed.
Lemma phase1_core h s s' : same_core s s' → phase1 h s → phase1 h s'.
Proof. intros (H1&H2&H3&_) ?. unfold phase1. by rewrite H1, H2, H3. Qed.
Lemma phase2_core h d s s' : same_core s s' → phase2 h d s → phase2 h d s'.
Proof. intros (H1&H2&H3&_) ?. unfold phase2. by rewrite H1, H2, H3. Qed.

(** Reading the state: the port set and the kind of the gateway do not change. *)
Definition constants s : Prop :=
  Gateway.port_set (gw s) = Gateway.port_set (gw s0) ∧ Gateway._is_native (gw s) = Gateway._is_native (gw s0).
Lemma spec_read {A} (P : state → Prop) (f : state → M state A) R :
  (∀ s, constants s → spec J P (f s) R) → spec J P (getS ≫= f) R.
Proof.
  intros Hf s Hj HP. rewrite (bind_ok getS _ _ _ _ eq_refl). apply Hf; [|done..].
  destruct Hj as (_&?&?&_). by split.
Qed.

Lemma spec_step {A B} (P : state → Prop) (m : M state A) (f : A → M state B) R :
  preserves same_core m → (∀ s s', same_core s s' → P s → P s') → (∀ a, spec J P (f a) R) →
  spec J P (m ≫= f) R.
Proof. intros Hm HP Hf. eapply spec_bind; [by apply spec_core|done]. Qed.

Lemma new_host_spec (P : state → Prop) (Q : nat → state → Prop) name cls ev vm port dir prepare keep :
  (∀ h, quiet (prepare h) = true) → (∀ s, J s → P s → NetworkSpec.free_port (netw s) port) →
  (∀ s h t l, J s → P s → host_linked h (Some port) (netw s) t →
     let s' := set_gw (keep h (gw s)) (set_calls l (set_netw t s)) in J s' ∧ Q h s') →
  spec J P (new_host answer name cls ev vm port dir prepare keep) Q.
Proof.
  intros Hq Hc HQ s Hj HP.
  destruct (new_host_linked name cls ev vm port dir prepare keep s (Hc s Hj HP) Hq) as (h & t & l & -> & Hl).
  simpl. destruct (HQ s h t l Hj HP Hl) as [HJ' HQ']. split; [exact HJ'|]. intros a [= <-]. exact HQ'.
Qed.

Lemma add_gateway_host_spec : spec J phase0 (add_gateway_host answer run_dir abspath C) phase1.
Proof.
  unfold add_gateway_host, _setup_tmpdir. apply spec_read. intros s [Hps Hnat]. cbn zeta.
  apply spec_step; [core|apply phase0_core|]. intros dir.
  apply spec_step; [core|apply phase0_core|]. intros _.
  eapply spec_bind; [|intros h; apply spec_step; [|apply phase1_core|intros i]].
  - apply (new_host_spec phase0 phase1); [done| |].
    + intros s' _ (_ & _ & ->). unfold gw_port in Hfree. unfold Gateway._switch_port in *.
      by rewrite Hps, Hnat.
    + intros s' h t l (Ht & Hp & Hn & _) (Hh & Hd & Hnet) Hl. rewrite Hnet in Hl.
      assert (phase1 h (set_gw (Gateway.with_host (Some h) (gw s')) (set_calls l (set_netw t s')))) as H1.
      { split_and!; [done|done|]. unfold gw_port. simpl. unfold Gateway._switch_port in *.
        by rewrite <- Hps, <- Hnat. }
      split; [|done]. unfold J. simpl. split_and!; [done..|]. right. left. by exists h.
  - intros s'. rewrite on_network_eq. simpl.
    unfold TestNetwork.get_host_interface, mbind, M_bind, getS, lift. simpl.
    destruct (dget h _); by split_and!.
  - apply spec_step; [core|apply phase1_core|]. intros _ s' Hj H1. split; [done|]. by intros a [= <-].
Qed.

Lemma add_dummy_host_spec h : Gateway._is_native (gw s0) = false → spec J (phase1 h) (add_dummy_host answer IP h) (phase2 h).
Proof.
  intros Hn0. unfold add_dummy_host. apply spec_read. intros s [Hps Hnat].
  apply new_host_spec; [done| |].
  - intros s' _ (_ & _ & Hl).
    apply (NetworkSpec.free_port_linked _ _ (Gateway._switch_port Gateway.DUMMY_OFFSET (gw s))) in Hl; [done| |].
    + unfold gw_port. rewrite Hn0. unfold Gateway._switch_port, Gateway.GATEWAY_OFFSET, Gateway.DUMMY_OFFSET.
      rewrite Hps. lia.
    + specialize (Hfree_dummy Hn0). unfold dummy_port, Gateway._switch_port in *. by rewrite Hps.
  - intros s' d t l (Ht & Hp & Hn & _) (Hh & Hd & Hl1) Hl2.
    assert (phase2 h d (set_gw (Gateway.with_dummy (Some d) (gw s')) (set_calls l (set_netw t s')))) as H2.
    { split_and!; [done|done|]. exists (netw s'). split; [done|]. unfold dummy_port. simpl.
      unfold Gateway._switch_port in *. by rewrite <- Hps. }
    split; [|done]. unfold J. simpl. split_and!; [done..|]. right. right. by exists h, d.
Qed.

(** The gateway after a start that succeeded *)
Definition started s : Prop :=
  if Gateway._is_native (gw s0) then ∃ h, phase1 h s else ∃ h d, phase2 h d s.

Lemma started_core s s' : same_core s s' → started s → started s'.
Proof.
  intros Hc. unfold started. destruct (Gateway._is_native (gw s0)).
  - intros [h ?]. exists h. by eapply phase1_core.
  - intros (h & d & ?). exists h, d. by eapply phase2_core.
Qed.

Lemma initialize_spec : spec J phase0 (_initialize answer IP pid run_dir abspath C) (λ _, started).
Proof.
  unfold _initialize. eapply (spec_bind J phase0 (λ _, started));
    [|intros _; apply spec_core; [apply rest_core|apply started_core]].
  unfold base_initialize. eapply spec_bind; [apply add_gateway_host_spec|]. intros h.
  apply spec_read. intros s [Hps Hnat]. rewrite Hnat. unfold started.
  pose proof (add_dummy_host_spec h) as Hdummy.
  destruct (Gateway._is_native (gw s0)) eqn:Hn0.
  - intros s' Hj H1. destruct (spec_core (phase1 h) (tell answer (SwitchCmd ("ip link set "
      +:+ default "None" (_ext_intf C) +:+ " netns " +:+ pid h))) ltac:(core) (phase1_core h) s' Hj H1) as [? Hq].
    split; [done|]. intros a Ha. exists h. by apply (Hq a).
  - eapply spec_bind; [exact (Hdummy eq_refl)|]. intros d. cbn zeta.
    apply spec_step; [core|apply phase2_core|]. intros _. apply spec_read. intros s1 _.
    apply spec_step; [core|apply phase2_core|]. intros _.
    intros s' Hj H2. destruct (spec_core (phase2 h d) _ (check_pings_core h d
      (TEST_IP_FORMAT (Gateway.port_set (gw s)))) (phase2_core h d) s' Hj H2) as [? Hq].
    split; [done|]. intros a Ha. exists h, d. by apply (Hq a).
Qed.

(** ** Cleaning up *)

Definition restored (t : @TestNetwork.TestNetwork W) : Prop :=
  TestNetwork.switch_links t = TestNetwork.switch_links (netw s0) ∧
  ∃ n n', TestNetwork.net (netw s0) = Some n ∧ TestNetwork.net t = Some n' ∧
    Mininet.links n' = Mininet.links n ∧ Mininet.switches n' = Mininet.switches n.

Hypothesis Hremove : no_failures.

Lemma stop_host_ok h clear s t : TestNetwork.remove_host h (netw s) = (t, Ok tt) →
  stop_host answer (Some h) clear s
  = (set_gw (clear (gw s)) (set_netw t (set_calls (calls s ++ [HostTerminate h]) s)), Ok tt).
Proof.
  intros Hr. unfold stop_host, try_except.
  rewrite (bind_ok _ _ _ _ _ (tell_quiet (HostTerminate h) s eq_refl)).
  rewrite (bind_ok _ _ _ (set_netw t (set_calls (calls s ++ [HostTerminate h]) s)) tt); [done|].
  rewrite on_network_eq. simpl. by rewrite Hr.
Qed.

Lemma start_net : ∃ n, TestNetwork.net (netw s0) = Some n.
Proof. destruct Hstart as [(n & ? & ? & ? & _) _ _]. by exists n. Qed.

Lemma remove_one h port t t' :
  consistent t → host_linked h port t t' → (∃ n, TestNetwork.net t = Some n) →
  ∃ u, TestNetwork.remove_host h t' = (u, Ok tt) ∧ TestNetwork.switch_links u = TestNetwork.switch_links t ∧
    ∃ n n', TestNetwork.net t = Some n ∧ TestNetwork.net u = Some n' ∧
      Mininet.links n' = Mininet.links n ∧ Mininet.switches n' = Mininet.switches n.
Proof.
  intros Hc Hl [n Hn]. destruct (NetworkSpec.remove_linked h port t t' n Hremove Hc Hn Hl)
    as (n2 & E & _ & H1 & _ & H2).
  eexists. split; [exact E|]. split; [done|]. by exists n, n2.
Qed.

Lemma base_terminate_restores s : J s →
  let '(s', r) := base_terminate answer s in
  r = Ok tt ∧ Gateway.host (gw s') = None ∧ Gateway.dummy (gw s') = None ∧ restored (netw s').
Proof.
  intros (Ht & _ & _ & Hphase). destruct start_net as [n0 Hn0].
  unfold base_terminate. rewrite (bind_ok getS _ _ _ _ eq_refl).
  rewrite (bind_ok (assertM _) _ s s tt) by (by rewrite bool_decide_true).
  assert (∃ s1, whenM (Gateway.dhcp_monitor (gw s)) (tell answer DhcpCleanup) s = (s1, Ok tt) ∧
    gw s1 = gw s ∧ netw s1 = netw s) as (s1 & E1 & Hg & Hn).
  { destruct (Gateway.dhcp_monitor (gw s)); simpl; [|by exists s].
    rewrite tell_quiet by done. by eexists. }
  rewrite (bind_ok _ _ _ _ _ E1), (bind_ok getS _ _ _ _ eq_refl), Hg.
  destruct Hphase as [(Hh & Hd & Hnet)|[(h & Hh & Hd & Hl)|(h & d & Hh & Hd & t & Hl1 & Hl2)]]; rewrite Hh.
  - cbn [stop_host]. rewrite (bind_ok (mret tt) _ _ _ _ eq_refl), (bind_ok getS _ _ _ _ eq_refl), Hg, Hd.
    simpl. split_and!; [done|congruence|congruence|]. split; [congruence|]. exists n0, n0.
    split_and!; congruence.
  - destruct (remove_one h _ _ _ Hstart Hl (ex_intro _ _ Hn0)) as (u & Eu & Hu). rewrite <- Hn in Eu.
    rewrite (bind_ok _ _ _ _ _ (stop_host_ok h _ s1 u Eu)), (bind_ok getS _ _ _ _ eq_refl). simpl.
    rewrite Hg, Hd. simpl. split_and!; [done|done|done|exact Hu].
  - destruct (NetworkSpec.remove_first_of_two h d _ _ _ _ _ Hremove Hstart Hl1 Hl2)
      as (sa & sb & Ea & Eb & Hca & Hlb). rewrite <- Hn in Eb.
    rewrite (bind_ok _ _ _ _ _ (stop_host_ok h _ s1 sb Eb)), (bind_ok getS _ _ _ _ eq_refl). simpl.
    rewrite Hg, Hd.
    destruct (remove_one h _ _ _ Hstart Hl1 (ex_intro _ _ Hn0)) as (u & Eu & Hu1 & n & n' & Hu2 & Hu3 & Hu4 & Hu5).
    rewrite Ea in Eu. injection Eu as ->.
    destruct (remove_one d _ _ _ Hca Hlb (ex_intro _ _ Hu3)) as (v & Ev & Hv1 & m & m' & Hv2 & Hv3 & Hv4 & Hv5).
    erewrite stop_host_ok by exact Ev. simpl. split_and!; [done|done|done|].
    split; [congruence|]. exists n, m'. simplify_eq. split_and!; congruence.
Qed.

Lemma terminate_restores s : J s →
  let s' := fst (terminate answer C s) in
  Gateway.host (gw s') = None ∧ Gateway.dummy (gw s') = None ∧ restored (netw s').
Proof.
  intros Hj. pose proof (base_terminate_restores s Hj) as Hb. unfold terminate, mbind, M_bind.
  destruct (base_terminate answer s) as [s1 r]. destruct Hb as (-> & Hh & Hd & Hr).
  destruct (gw_kind C); [|done]. destruct (scan_finalize_core true s1) as (-> & -> & -> & _). done.
Qed.

End start.

(** C32: the search for an address ends with one answer.  Whatever the scans of
    the networks show (networks with hosts), starting the search and letting at
    most one scan per network hang up gives exactly one answer: the address of
    the first line for the device in the first network, in the order of the
    list, that shows one, or that there is none; and no scan is left. *)
Theorem discovery_answers_once {A E N : Type} `{EqDecision E} (ip_address : string → option A)
    (EUI : string → option E) (network_text prefixlen : N → string) (first_host : N → option string)
    (mac intf : string) (output : N → string) (nets : list N) (s : @Discovery.search A N)
    (Hhosts : ∀ n, n ∈ nets → is_Some (first_host n)) (Hnew : Discovery.answers s = []) :
  ∃ s', (Discovery.discover_host network_text prefixlen first_host mac intf nets;;
         Discovery.scans ip_address EUI network_text prefixlen first_host (length nets) mac intf output) s
        = (s', Ok tt) ∧
    Discovery.scanning s' = None ∧
    Discovery.answers s' = [Discovery.first_found ip_address EUI mac output nets].
Proof.
  destruct (Discovery.discover_scans ip_address EUI network_text prefixlen first_host mac intf output nets
    Hhosts (Discovery.commands s)) as (s1 & s2 & E1 & E2 & H3 & H4).
  exists s2. split_and!; [|done..]. unfold Discovery.discover_host. rewrite bind_assoc.
  rewrite (bind_ok (modify _) _ _ _ _ eq_refl), Hnew. by rewrite (bind_ok _ _ _ _ _ E1).
Qed.

(** A scan log with the device in its second line *)
Definition demo_log : string :=
  "Interface: gw01-eth0" +:+ PyText.nl +:+ "10.0.0.9" +:+ String Discovery.tab "9a:02:57:1e:8f:01" +:+ PyText.nl.

Lemma discovery_answers_once_witness :
  ∃ s', (Discovery.discover_host id (λ _, "24") Some "9a:02:57:1e:8f:01" "gw01-eth0" ["10.1.0.0"; "10.0.0.0"];;
         Discovery.scans (λ t, if bool_decide (t = "10.0.0.9") then Some t else None) Some id (λ _, "24") Some 2
           "9a:02:57:1e:8f:01" "gw01-eth0" (λ n, if bool_decide (n = "10.0.0.0") then demo_log else ""))
        (Discovery.mkSearch [] None [] []) = (s', Ok tt) ∧
    Discovery.answers s' = [Some "10.0.0.9"].
Proof.
  destruct (discovery_answers_once (λ t, if bool_decide (t = "10.0.0.9") then Some t else None)
    Some id (λ _, "24") Some "9a:02:57:1e:8f:01" "gw01-eth0"
    (λ n, if bool_decide (n = "10.0.0.0") then demo_log else "") ["10.1.0.0"; "10.0.0.0"]
    (Discovery.mkSearch [] None [] [])) as (s' & H1 & _ & H2).
  - intros n _. by eexists.
  - reflexivity.
  - exists s'. split; [exact H1|]. rewrite H2. vm_compute. reflexivity.
Defined.

(** ** A gateway of port set 1 *)

Definition demo_conf : conf := mkConf Container [] None (Some "10s") None None.
Definition demo_state : @state unit :=
  mkState (Gateway.mkGateway "aa" 1 None None [] ∅ ∅ false false false false) NetworkSpec.demo_net
    None None None None [].
(** Every ping fails. *)
Definition no_pings (l : list call) (c : call) : res string :=
  match c with Ping _ _ _ => Ok "ping FAILED" | _ => Ok "" end.


(** A host whose activation fails is not known to the gateway: it stays in the
    network, linked to the switch. *)
Definition no_activation (l : list call) (c : call) : res string :=
  match c with HostActivate _ => Raise RuntimeError | _ => Ok "" end.
Example failed_activation_leaks :
  let '(s', r) := initialize (HM := NetworkSpec.toy) no_activation (λ _, "10.20.0.1") (λ _, "1") "inst" id demo_conf
                    demo_state in
  r = Raise RuntimeError ∧ Gateway.host (gw s') = None ∧ dkeys (TestNetwork.switch_links (netw s')) = [0%nat].
Proof. vm_compute. split_and!; reflexivity. Qed.

End GatewaySpec.
