(* ===== verification/Host.v ===== *)
(** * A device under test (src/daq/host.py, [ConnectedHost])

    A host takes its device through a test run: initialization, waiting for an
    IP address, base tests, background capture, and then the enabled test
    modules one after the other, each on a test port borrowed from the device's
    gateway.

    - What the host calls outside (files, mininet, tcpdump, docker, cloud) can
      succeed or raise at any call; the outcomes are an oracle indexed by the
      number of calls made so far ([ext_env]).  Times are oracle answers too.
    - The gateway object is part of the state: the host allocates and releases
      its test ports with the operations of [Gateway].
    - The runner is an interface ([RunnerOps]): the host reports errors and
      completion to it, and the runner calls back into the host.
      [daq_runner] is the implementation. *)

From stdpp Require Import base list gmap strings relations.
From Stdlib Require Import ZArith Lia.
From S2P Require Import Prelude Devices Gateway.

Module ConnectedHost.
Local Open Scope string_scope.
Local Open Scope list_scope.
Local Open Scope Z_scope.

(** [_STATE] *)
Inductive _STATE :=
  | ERROR | READY | INIT | WAITING | BASE | MONITOR | NEXT | TESTING | DONE | HOLD | TERM.

#[global] Instance state_eq_dec : EqDecision _STATE.
Proof. solve_decision. Defined.

(** [MODE] *)
Module MODE.
Definition INIT : string := "init".
Definition PREP : string := "prep".
Definition HOLD : string := "hold".
Definition CONF : string := "conf".
Definition EXEC : string := "exec".
Definition FINE : string := "fine".
Definition NOPE : string := "nope".
Definition DONE : string := "done".
Definition TERM : string := "term".
Definition LONG : string := "long".
Definition MERR : string := "merr".
End MODE.

Definition pre_states : list string := ["startup"; "sanity"; "acquire"; "base"; "monitor"].
Definition post_states : list string := ["finish"; "info"; "timer"].

(** The handlers of a test timeout. *)
Inductive handler := AuxModule | MainModule | ExternalDhcp.

#[global] Instance handler_eq_dec : EqDecision handler.
Proof. solve_decision. Defined.

(** A recorded result: the keyword arguments of [record_result] the host and
    the runner look at.  A code may be given and be [None]. *)
Record result := mkResult {
  r_state : option string;
  r_code : option (option Z);
  r_exception : option exn
}.

Definition in_state (m : string) : result := mkResult (Some m) None None.
Definition no_result : result := mkResult None None None.

(** The configuration of the host, fixed for the run. *)
Record conf := mkConf {
  target_mac : string;
  device_ref : nat;
  test_list : list string;
  test_enabled : string → bool;
  _no_test : bool;
  _monitor_scan_sec : Z;
  target_port : option Z;
  static_ip : option string;
  configured_dhcp_mode : Devices.dhcp_mode_t
}.

(** The state: the host's fields, those of its device ([dhcp_mode], [ip_addr],
    [dhcp_ready], and whether [device.host] is this host and [device.gateway] is
    still set), the gateway, and the
    number of calls made so far. *)
Record Host := mkHost {
  state : option _STATE;
  results : dict string result;
  published : list (option string * result);
  test_name : option string;
  test_host : option string;
  test_port : option Z;
  remaining_tests : list string;
  _monitor_ref : bool;
  timeout_handler : option handler;
  target_ip : option string;
  _all_ips : list string;
  _report : bool;
  dhcp_mode : option Devices.dhcp_mode_t;
  ip_addr : option string;
  ip_state : string;
  dhcp_ready : bool;
  gateway : Gateway.Gateway;
  device_host : bool;
  device_gateway : bool;
  calls : nat
}.

Definition set_state (x : option _STATE) (h : Host) : Host :=
  mkHost x (results h) (published h) (test_name h) (test_host h) (test_port h)
    (remaining_tests h) (_monitor_ref h) (timeout_handler h) (target_ip h) (_all_ips h)
    (_report h) (dhcp_mode h) (ip_addr h) (ip_state h) (dhcp_ready h) (gateway h) (device_host h) (device_gateway h) (calls h).
Definition set_results (x : dict string result) (h : Host) : Host :=
  mkHost (state h) x (published h) (test_name h) (test_host h) (test_port h)
    (remaining_tests h) (_monitor_ref h) (timeout_handler h) (target_ip h) (_all_ips h)
    (_report h) (dhcp_mode h) (ip_addr h) (ip_state h) (dhcp_ready h) (gateway h) (device_host h) (device_gateway h) (calls h).
Definition set_published (x : list (option string * result)) (h : Host) : Host :=
  mkHost (state h) (results h) x (test_name h) (test_host h) (test_port h)
    (remaining_tests h) (_monitor_ref h) (timeout_handler h) (target_ip h) (_all_ips h)
    (_report h) (dhcp_mode h) (ip_addr h) (ip_state h) (dhcp_ready h) (gateway h) (device_host h) (device_gateway h) (calls h).
Definition set_test_name (x : option string) (h : Host) : Host :=
  mkHost (state h) (results h) (published h) x (test_host h) (test_port h)
    (remaining_tests h) (_monitor_ref h) (timeout_handler h) (target_ip h) (_all_ips h)
    (_report h) (dhcp_mode h) (ip_addr h) (ip_state h) (dhcp_ready h) (gateway h) (device_host h) (device_gateway h) (calls h).
Definition set_test_host (x : option string) (h : Host) : Host :=
  mkHost (state h) (results h) (published h) (test_name h) x (test_port h)
    (remaining_tests h) (_monitor_ref h) (timeout_handler h) (target_ip h) (_all_ips h)
    (_report h) (dhcp_mode h) (ip_addr h) (ip_state h) (dhcp_ready h) (gateway h) (device_host h) (device_gateway h) (calls h).
Definition set_test_port (x : option Z) (h : Host) : Host :=
  mkHost (state h) (results h) (published h) (test_name h) (test_host h) x
    (remaining_tests h) (_monitor_ref h) (timeout_handler h) (target_ip h) (_all_ips h)
    (_report h) (dhcp_mode h) (ip_addr h) (ip_state h) (dhcp_ready h) (gateway h) (device_host h) (device_gateway h) (calls h).
Definition set_remaining (x : list string) (h : Host) : Host :=
  mkHost (state h) (results h) (published h) (test_name h) (test_host h) (test_port h)
    x (_monitor_ref h) (timeout_handler h) (target_ip h) (_all_ips h)
    (_report h) (dhcp_mode h) (ip_addr h) (ip_state h) (dhcp_ready h) (gateway h) (device_host h) (device_gateway h) (calls h).
Definition set_monitor (x : bool) (h : Host) : Host :=
  mkHost (state h) (results h) (published h) (test_name h) (test_host h) (test_port h)
    (remaining_tests h) x (timeout_handler h) (target_ip h) (_all_ips h)
    (_report h) (dhcp_mode h) (ip_addr h) (ip_state h) (dhcp_ready h) (gateway h) (device_host h) (device_gateway h) (calls h).
Definition set_handler (x : option handler) (h : Host) : Host :=
  mkHost (state h) (results h) (published h) (test_name h) (test_host h) (test_port h)
    (remaining_tests h) (_monitor_ref h) x (target_ip h) (_all_ips h)
    (_report h) (dhcp_mode h) (ip_addr h) (ip_state h) (dhcp_ready h) (gateway h) (device_host h) (device_gateway h) (calls h).
Definition set_target_ip (x : option string) (h : Host) : Host :=
  mkHost (state h) (results h) (published h) (test_name h) (test_host h) (test_port h)
    (remaining_tests h) (_monitor_ref h) (timeout_handler h) x (_all_ips h)
    (_report h) (dhcp_mode h) (ip_addr h) (ip_state h) (dhcp_ready h) (gateway h) (device_host h) (device_gateway h) (calls h).
Definition set_all_ips (x : list string) (h : Host) : Host :=
  mkHost (state h) (results h) (published h) (test_name h) (test_host h) (test_port h)
    (remaining_tests h) (_monitor_ref h) (timeout_handler h) (target_ip h) x
    (_report h) (dhcp_mode h) (ip_addr h) (ip_state h) (dhcp_ready h) (gateway h) (device_host h) (device_gateway h) (calls h).
Definition set_report (x : bool) (h : Host) : Host :=
  mkHost (state h) (results h) (published h) (test_name h) (test_host h) (test_port h)
    (remaining_tests h) (_monitor_ref h) (timeout_handler h) (target_ip h) (_all_ips h)
    x (dhcp_mode h) (ip_addr h) (ip_state h) (dhcp_ready h) (gateway h) (device_host h) (device_gateway h) (calls h).
Definition set_dhcp_mode (x : option Devices.dhcp_mode_t) (h : Host) : Host :=
  mkHost (state h) (results h) (published h) (test_name h) (test_host h) (test_port h)
    (remaining_tests h) (_monitor_ref h) (timeout_handler h) (target_ip h) (_all_ips h)
    (_report h) x (ip_addr h) (ip_state h) (dhcp_ready h) (gateway h) (device_host h) (device_gateway h) (calls h).
Definition set_ip_addr (x : option string) (h : Host) : Host :=
  mkHost (state h) (results h) (published h) (test_name h) (test_host h) (test_port h)
    (remaining_tests h) (_monitor_ref h) (timeout_handler h) (target_ip h) (_all_ips h)
    (_report h) (dhcp_mode h) x (ip_state h) (dhcp_ready h) (gateway h) (device_host h) (device_gateway h) (calls h).
Definition set_ip_state (x : string) (h : Host) : Host :=
  mkHost (state h) (results h) (published h) (test_name h) (test_host h) (test_port h)
    (remaining_tests h) (_monitor_ref h) (timeout_handler h) (target_ip h) (_all_ips h)
    (_report h) (dhcp_mode h) (ip_addr h) x (dhcp_ready h) (gateway h) (device_host h) (device_gateway h) (calls h).
Definition set_dhcp_ready (x : bool) (h : Host) : Host :=
  mkHost (state h) (results h) (published h) (test_name h) (test_host h) (test_port h)
    (remaining_tests h) (_monitor_ref h) (timeout_handler h) (target_ip h) (_all_ips h)
    (_report h) (dhcp_mode h) (ip_addr h) (ip_state h) x (gateway h) (device_host h) (device_gateway h) (calls h).
Definition set_gateway (x : Gateway.Gateway) (h : Host) : Host :=
  mkHost (state h) (results h) (published h) (test_name h) (test_host h) (test_port h)
    (remaining_tests h) (_monitor_ref h) (timeout_handler h) (target_ip h) (_all_ips h)
    (_report h) (dhcp_mode h) (ip_addr h) (ip_state h) (dhcp_ready h) x (device_host h) (device_gateway h) (calls h).
Definition set_device_host (x : bool) (h : Host) : Host :=
  mkHost (state h) (results h) (published h) (test_name h) (test_host h) (test_port h)
    (remaining_tests h) (_monitor_ref h) (timeout_handler h) (target_ip h) (_all_ips h)
    (_report h) (dhcp_mode h) (ip_addr h) (ip_state h) (dhcp_ready h) (gateway h) x (device_gateway h) (calls h).
Definition set_device_gateway (x : bool) (h : Host) : Host :=
  mkHost (state h) (results h) (published h) (test_name h) (test_host h) (test_port h)
    (remaining_tests h) (_monitor_ref h) (timeout_handler h) (target_ip h) (_all_ips h)
    (_report h) (dhcp_mode h) (ip_addr h) (ip_state h) (dhcp_ready h) (gateway h) (device_host h) x (calls h).
Definition set_calls (x : nat) (h : Host) : Host :=
  mkHost (state h) (results h) (published h) (test_name h) (test_host h) (test_port h)
    (remaining_tests h) (_monitor_ref h) (timeout_handler h) (target_ip h) (_all_ips h)
    (_report h) (dhcp_mode h) (ip_addr h) (ip_state h) (dhcp_ready h) (gateway h) (device_host h) (device_gateway h) x.
Definition tick (h : Host) : Host := set_calls (S (calls h)) h.

Abbreviation HM := (M Host) (only parsing).

(** The calls out of the host that may raise, and the questions it asks. *)
Inductive ext :=
  | FileIO | Publish | RegisterConfig | ReleaseConfig | CreateMirror | DeleteMirror
  | Tcpdump | MonitorStream | MonitorForget | TcpdumpTerminate | Upload | Ping | NewTest | StartModule
  | TerminateModule | ModuleHeartbeat | ModuleIpListener | ModuleParams | Accumulate
  | FinalizeReport | ChangeDhcp | DiscoverHost | DirectPort | ActivatePort | DirectDevice | SendResult
  | FinalizeDevice | RemoveDevice | LookupDevice | TriggerOthers | GatewayCall (c : Gateway.ext_call)
  | StreamActive | GroupReady | GroupMany | ResultLinger | HasVlan | PingOk | TimedOut | ScanElapsed | Waited | HostFound | ReportFile.

(** ** Primitives *)

Class ext_env := {
  ext_ok : nat → ext → bool;
  ext_ans : nat → ext → bool
}.

(** The runner as the host uses it. *)
Class RunnerOps := {
  target_set_error : exn → HM unit;
  target_set_complete : HM unit;
  runner_ip_notify : string → string → HM unit;
  dhcp_ready_listener : HM unit
}.

Section host.
Context `{E : ext_env} (C : conf).

(** A call outside: it returns or raises. *)
Definition call (x : ext) : HM unit := λ h,
  (tick h, if ext_ok (calls h) x then Ok tt else Raise OtherException).

(** A question with a truth value. *)
Definition ask (x : ext) : HM bool := λ h, (tick h, Ok (ext_ans (calls h) x)).

(** An operation of the gateway object. *)
Definition on_gateway {A} (m : M Gateway.Gateway A) : HM A := λ h,
  let '(g, r) := m (gateway h) in (set_gateway g h, r).

Definition is_true {A} (o : option A) : bool := match o with Some _ => true | None => false end.

(** A name is true when it is there and not empty. *)
Definition name_true (o : option string) : bool :=
  match o with Some s => negb (bool_decide (s = "")) | None => false end.

Definition port_true (o : option Z) : bool := Devices.truthy o.

(** [_state_transition] *)
Definition _state_transition (tgt : _STATE) (expected : option _STATE) : HM unit :=
  h ← getS;
  (match expected with
   | Some e => assertM (bool_decide (state h = Some e))
   | None => mret tt
   end);;
  assertM (bool_decide (state h ≠ Some TERM));;
  modify (set_state (Some tgt)).

(** [_record_result] *)
Definition _record_result (name : option string) (r : result) : HM unit :=
  (match name with
   | Some n => if bool_decide (n = "") then mret tt else modify (λ h, set_results (dset n r (results h)) h)
   | None => mret tt
   end);;
  call Publish;;
  modify (λ h, set_published (published h ++ [(name, r)]) h).

(** [self._report.accumulate]: the report is gone after [terminate]. *)
Definition accumulate : HM unit :=
  h ← getS; if _report h then call Accumulate else raise AttributeError.

(** [record_result] *)
Definition record_result (name : option string) (r : result) : HM unit :=
  h ← getS;
  whenM (bool_decide (name ≠ test_name h)) (modify (set_test_name name));;
  whenM (name_true name)
    (_record_result name r;;
     whenM (is_true (r_exception r)) accumulate;;
     whenM (is_true (r_code r)) accumulate;;
     accumulate).

(** [is_running], [is_ready] *)
Definition is_running (h : Host) : bool := bool_decide (state h ≠ Some ERROR ∧ state h ≠ Some DONE).
Definition is_ready (h : Host) : bool := bool_decide (state h = Some READY).

(** [notify_activate] *)
Definition notify_activate : HM bool :=
  h ← getS;
  whenM (is_ready h) (_record_result (Some "startup") (in_state MODE.HOLD));;
  gets (λ h, bool_decide (state h = Some WAITING)).

(** [_monitor_cleanup] *)
Definition _monitor_cleanup (forget : bool) : HM unit :=
  h ← getS;
  whenM (_monitor_ref h)
    (active ← ask StreamActive;
     assertM (Bool.eqb active forget);;
     call Upload;;
     whenM forget (call MonitorForget;; call TcpdumpTerminate);;
     modify (set_monitor false)).

(** [_monitor_scan] *)
Definition _monitor_scan : HM unit :=
  h ← getS;
  assertM (negb (_monitor_ref h));;
  call Tcpdump;;
  modify (set_monitor true);;
  call MonitorStream.

(** [_finalize_report] *)
Definition _finalize_report : HM unit :=
  h ← getS;
  (if _report h then call FinalizeReport else raise AttributeError);;
  call Upload;;
  record_result (Some "terminate") (in_state MODE.TERM);;
  modify (set_report false).

Section runner.
Context `{R : RunnerOps}.

(** [terminate] *)
Definition terminate (trigger : bool) : HM unit :=
  _state_transition TERM None;;
  call ReleaseConfig;;
  _monitor_cleanup true;;
  whenM (port_true (target_port C)) (call DeleteMirror);;
  h ← getS;
  whenM (is_true (test_host h))
    (try_except (call TerminateModule;; modify (set_test_host None);; modify (set_handler None))
                (λ _, mret tt));;
  whenM trigger target_set_complete;;
  _finalize_report.

(** [_monitor_error] *)
Definition _monitor_error (exception : exn) (forget : bool) : HM unit :=
  _monitor_cleanup forget;;
  h ← getS;
  record_result (test_name h) (mkResult None None (Some exception));;
  _state_transition ERROR None;;
  target_set_error exception.

(** [_start_test] *)
Definition _start_test (name : string) : HM unit :=
  modify (set_test_name (Some name));;
  call FileIO;;
  _record_result (Some name) (in_state MODE.CONF);;
  record_result (Some name) (in_state MODE.EXEC);;
  _monitor_scan;;
  _state_transition TESTING (Some NEXT).

(** [_run_test]: the gateway's test port is given back when the module cannot
    be started. *)
Definition _run_test (name : string) : HM unit :=
  modify (set_handler (Some MainModule));;
  call NewTest;;
  modify (set_test_host (Some name));;
  port ← try_except (on_gateway Gateway.allocate_test_port)
           (λ e, modify (set_test_host None);; raise e);
  modify (set_test_port (Some port));;
  try_except
    (_start_test name;; call ModuleParams;; call StartModule)
    (λ e, modify (set_test_host None);;
          on_gateway (Gateway.release_test_port port);;
          modify (set_test_port None);;
          _monitor_cleanup true;;
          raise e).

(** [_run_next_test] *)
Definition _run_next_test : HM unit :=
  h ← getS;
  assertM (negb (name_true (test_name h)));;
  try_except
    (match remaining_tests h with
     | name :: rest => modify (set_remaining rest);; _run_test name
     | [] =>
         if _no_test C then _state_transition HOLD (Some NEXT)
         else
           modify (set_handler (Some AuxModule));;
           _state_transition DONE (Some NEXT);;
           record_result (Some "finish") (in_state MODE.FINE)
     end)
    (λ e, _state_transition ERROR None;; target_set_error e).

(** The report files of a finished module, accumulated and uploaded if they
    exist. *)
Definition collect_files : HM unit :=
  for_each [ReportFile; ReportFile; ReportFile]
    (λ x, b ← ask x; whenM b (accumulate;; call Upload)).

(** [_end_test] *)
Definition _end_test (mode : string) (return_code : option Z) (exception : option exn) : HM unit :=
  _monitor_cleanup true;;
  _state_transition NEXT (Some TESTING);;
  collect_files;;
  h ← getS;
  record_result (test_name h) (mkResult (Some mode) (Some return_code) exception);;
  modify (set_test_name None);;
  modify (set_test_host None);;
  modify (set_handler None);;
  _run_next_test.

(** [_module_callback] *)
Definition _module_callback (return_code : option Z) (exception : option exn) : HM unit :=
  let failed := port_true return_code || is_true exception in
  let mode := if failed then MODE.MERR else MODE.DONE in
  h ← getS;
  (match test_port h with
   | Some p => on_gateway (Gateway.release_test_port p)
   | None => raise AssertionError
   end);;
  h ← getS;
  assertM (is_true (test_host h));;
  _end_test mode return_code exception.

(** [_monitor_continue], [_monitor_complete], [_monitor_timeout] *)
Definition _monitor_continue : HM unit :=
  _state_transition NEXT (Some MONITOR);;
  modify (set_test_name None);;
  _run_next_test.

Definition _monitor_complete : HM unit :=
  _monitor_cleanup false;;
  record_result (Some "monitor") (in_state MODE.DONE);;
  _monitor_continue.

Definition _monitor_timeout (timeout : option Z) : HM unit :=
  elapsed ← ask ScanElapsed;
  if negb (port_true timeout) || negb elapsed then _monitor_error OtherException false
  else _monitor_complete.

(** [_background_scan] *)
Definition _background_scan : HM unit :=
  _state_transition MONITOR (Some BASE);;
  if _monitor_scan_sec C =? 0 then _monitor_continue
  else record_result (Some "monitor") (in_state MODE.EXEC);; _monitor_scan.

(** [runner.ping_test], which may raise *)
Definition ping_test : HM bool := call Ping;; ask PingOk.

(** [_base_tests]: the results of the two pings are paired with a message, and
    a pair is always true. *)
Definition _base_tests : HM bool :=
  record_result (Some "base") (in_state MODE.EXEC);;
  ping_test;;
  try_except
    (ping_test;; ping_test;; mret tt)
    (λ e, record_result (Some "base") (mkResult None None (Some e));;
          _monitor_cleanup true;; raise e);;
  record_result (Some "base") (in_state MODE.DONE);;
  mret true.

(** [_base_start] *)
Definition _base_start : HM unit :=
  try_except
    (success ← _base_tests;
     _monitor_cleanup true;;
     if success : bool then _background_scan else _state_transition ERROR None)
    (λ e, _monitor_cleanup true;; _monitor_error e false).

(** [ip_notify] *)
Definition ip_notify (ip : string) : HM unit :=
  call FileIO;;
  modify (λ h, set_all_ips (_all_ips h ++ [ip]) h);;
  h ← getS;
  whenM (name_true (target_ip h)) (modify (set_target_ip (Some ip)));;
  whenM (is_true (test_host h)) (call ModuleIpListener).

(** [trigger_ready]; waiting out the minimal start-up time is a call. *)
Definition trigger_ready : HM bool :=
  h ← getS;
  if bool_decide (state h ≠ Some WAITING) then mret false
  else if bool_decide (configured_dhcp_mode C = Devices.DHCP_IP_CHANGE) then
    mret (1 <? Z.of_nat (length (remove_dups (_all_ips h))))
  else call Waited;; mret true.

(** [trigger] *)
Definition trigger (mode : string) (ip : option string) (exception : option exn) : HM bool :=
  h ← getS;
  ready ← (if name_true (target_ip h) then mret true else trigger_ready);
  if negb ready then mret false else
  if name_true (target_ip h) then assertM (bool_decide (target_ip h = ip));; mret true else
  modify (set_target_ip ip);;
  _record_result (Some "info") (in_state (target_mac C +:+ "/" +:+ default "None" ip));;
  record_result (Some "acquire") (mkResult (Some mode) None exception);;
  match exception with
  | Some e => _state_transition ERROR None;; target_set_error e;; mret true
  | None => _state_transition BASE (Some WAITING);; mret true
  end.

(** [_prepare] *)
Definition _prepare : HM unit :=
  _state_transition WAITING (Some INIT);;
  record_result (Some "sanity") (in_state MODE.DONE);;
  record_result (Some "acquire") (in_state MODE.EXEC);;
  (if name_true (static_ip C) then
       modify (set_dhcp_mode (Some Devices.DHCP_STATIC_IP));;
       call Waited;;
       runner_ip_notify MODE.NOPE (default "" (static_ip C))
   else
       h ← getS;
       whenM (negb (is_true (dhcp_mode h)) || bool_decide (dhcp_mode h = Some Devices.DHCP_NORMAL))
         (modify (set_dhcp_mode (Some (configured_dhcp_mode C))));;
       h ← getS;
       if bool_decide (dhcp_mode h = Some Devices.DHCP_EXTERNAL)
       then modify (set_handler (Some ExternalDhcp))
       else call ChangeDhcp);;
  dhcp_ready_listener.

(** [idle_handler] *)
Definition idle_handler : HM unit :=
  h ← getS;
  if bool_decide (state h = Some INIT) then _prepare
  else if bool_decide (state h = Some BASE) then _base_start
  else mret tt.

(** The timeout handlers. *)
Definition _aux_module_timeout_handler : HM unit := _monitor_error OtherException true.

Definition _main_module_timeout_handler : HM unit :=
  h ← getS;
  (if is_true (test_host h) then call TerminateModule else raise AttributeError);;
  _module_callback None (Some OtherException).

(** The scan for the device calls back with its address, if it was found. *)
Definition _external_dhcp_timeout_handler (ip : string) : HM unit :=
  call DiscoverHost;;
  found ← ask HostFound;
  if found : bool then
    h ← getS;
    if bool_decide (state h ≠ Some WAITING) then mret tt else runner_ip_notify MODE.NOPE ip
  else _aux_module_timeout_handler.

(** [heartbeat]; the oracle says whether a timeout is set and over. *)
Definition heartbeat (ip : string) : HM unit :=
  h ← getS;
  whenM (is_true (test_host h)) (call ModuleHeartbeat);;
  expired ← ask TimedOut;
  h ← getS;
  if negb expired || _no_test C then mret tt else
  match timeout_handler h with
  | None => mret tt
  | Some x =>
      modify (set_handler None);;
      match x with
      | AuxModule => _aux_module_timeout_handler
      | MainModule => _main_module_timeout_handler
      | ExternalDhcp => _external_dhcp_timeout_handler ip
      end
  end.

(** [_mark_skipped_tests], [_start_run] *)
Definition _mark_skipped_tests : HM unit :=
  for_each (test_list C) (λ test,
    whenM (negb (test_enabled C test)) (_record_result (Some test) (in_state MODE.NOPE))).

Definition _start_run : HM unit :=
  _state_transition INIT (Some READY);;
  _mark_skipped_tests;;
  record_result (Some "startup") (in_state MODE.DONE);;
  record_result (Some "sanity") (in_state MODE.EXEC);;
  _monitor_scan.

(** [_control_updated] *)
Definition _control_updated (paused : bool) : HM unit :=
  h ← getS;
  if negb paused && is_ready h then _start_run else mret tt.

(** [initialize]; control updates arrive later, as events of their own. *)
Definition initialize : HM unit :=
  call FileIO;;
  call RegisterConfig;;
  _record_result None no_result;;
  whenM (port_true (target_port C)) (call CreateMirror);;
  match test_list C with
  | _ :: _ => _start_run
  | [] => h ← getS; assertM (is_ready h);; record_result (Some "startup") (in_state MODE.HOLD)
  end.

(** [__init__] of a host for a device with the given gateway. *)
Definition blank (g : Gateway.Gateway) (mode : option Devices.dhcp_mode_t) : Host :=
  mkHost None [] [] None None None [] false None None [] false mode None "" false g true true 0.

Definition init : HM unit :=
  call FileIO;;
  _state_transition READY None;;
  call FileIO;;
  _record_result None no_result;;
  call FileIO;;
  modify (set_remaining (filter (λ t, test_enabled C t = true) (test_list C)));;
  modify (set_report true);;
  record_result (Some "startup") (in_state MODE.PREP);;
  _record_result (Some "info") (in_state (target_mac C));;
  modify (set_handler (Some AuxModule)).

End runner.
End host.

(** ** The runner's side (src/daq/runner.py)

    What the runner does with the host of one device.  Redirecting the port,
    sending the result and removing the device from the registry are calls;
    whether the other members of the device's group are ready is a question. *)

Section daq_runner.
Context `{E : ext_env} (C : conf).

(** The runner as [terminate] of a cancelled host sees it: with [trigger] false
    it is not called. *)
#[local] Instance no_runner : RunnerOps :=
  {| target_set_error := λ _, mret tt; target_set_complete := mret tt;
     runner_ip_notify := λ _ _, mret tt; dhcp_ready_listener := mret tt |}.

(** [gateway.terminate()] *)
Definition gateway_terminate : HM unit := λ h,
  let ext c := if ext_ok (calls h) (GatewayCall c) then Ok tt else Raise OtherException in
  let '(g, _, r) := Gateway.terminate ext (gateway h) in (set_gateway g (tick h), r).

(** [_detach_gateway]; the port set goes back to the runner's pool. *)
Definition _detach_gateway : HM unit :=
  h ← getS;
  whenM (device_gateway h)
    (left ← on_gateway (Gateway.detach_target (target_mac C));
     whenM (left =? 0)
       (gateway_terminate;;
        vlan ← ask HasVlan;
        whenM vlan (call DirectDevice));;
     modify (set_device_gateway false)).

(** [_target_set_cancel]; whether this device's results make the runner linger
    is a question. *)
Definition _target_set_cancel : HM unit :=
  h ← getS;
  if negb (device_host h) then mret tt else
  this_linger ← ask ResultLinger;
  if (device_gateway h && Gateway.result_linger (gateway h)) || this_linger then
    whenM (port_true (target_port C)) (call ActivatePort);;
    if device_gateway h then on_gateway (modify (Gateway.with_linger true))
    else raise AttributeError
  else
    whenM (port_true (target_port C)) (call DirectPort);;
    _detach_gateway;;
    terminate C false;;
    call SendResult.

(** [_target_set_finalize] *)
Definition _target_set_finalize : HM unit :=
  call FinalizeDevice;;
  modify (set_device_host false);;
  call RemoveDevice.

(** [target_set_complete] *)
Definition runner_set_complete : HM unit :=
  try_except _target_set_cancel
    (λ e, h ← getS;
          if device_host h then record_result (test_name h) (mkResult None None (Some e))
          else raise AttributeError);;
  h ← getS;
  if device_host h then _target_set_finalize else raise AttributeError.

(** [target_set_error] *)
Definition runner_set_error (e : exn) : HM unit :=
  h ← getS;
  if device_host h then
    record_result (test_name h) (mkResult None None (Some e));;
    runner_set_complete
  else
    _target_set_finalize;; call SendResult;; _detach_gateway.

(** The runner without IP notifications, for the error case of [trigger]. *)
#[local] Instance error_runner : RunnerOps :=
  {| target_set_error := runner_set_error; target_set_complete := runner_set_complete;
     runner_ip_notify := λ _ _, mret tt; dhcp_ready_listener := mret tt |}.

(** [_check_and_activate_gateway] with [_should_activate_target] and
    [_activate_gateway], for this device; the other ready devices of the group
    are triggered before or after it *)
Definition _check_and_activate_gateway : HM unit :=
  h ← getS;
  if negb (name_true (ip_addr h)) || negb (dhcp_ready h) then mret tt
  else if negb (device_host h) then mret tt
  else if Gateway.activated (gateway h) then
    trigger C (ip_state h) (ip_addr h) None;; mret tt
  else
    notified ← notify_activate;
    if negb notified then mret tt else
    on_gateway (Gateway.target_ready (device_ref C));;
    complete ← ask GroupReady;
    if negb complete then mret tt else
    ready ← trigger_ready C;
    if negb ready then mret tt else
    on_gateway Gateway.activate;;
    many ← ask GroupMany;
    call TriggerOthers;;
    h ← getS;
    triggered ← trigger C (if many : bool then "group" else ip_state h) (ip_addr h) None;
    assertM triggered;;
    call TriggerOthers.

(** [_activate_gateway] by another device of the group, which triggers this one
    if it is ready; a device is made ready after its address was checked. *)
Definition group_trigger : HM unit :=
  h ← getS;
  if negb (name_true (ip_addr h)) then mret tt
  else if device_host h then
    triggered ← trigger C "group" (ip_addr h) None;
    assertM triggered
  else raise AttributeError.

(** [ip_notify] of the runner, for an acknowledged or static address *)
Definition runner_notify_ip (mode ip : string) : HM unit :=
  assertM (negb (bool_decide (ip = "")));;
  call LookupDevice;;
  modify (set_ip_addr (Some ip));;
  modify (set_ip_state mode);;
  h ← getS;
  whenM (device_host h) (ip_notify ip;; _check_and_activate_gateway).

(** [_dhcp_ready_listener] *)
Definition _dhcp_ready_listener : HM unit :=
  modify (set_dhcp_ready true);; _check_and_activate_gateway.

Definition daq_runner : RunnerOps :=
  {| target_set_error := runner_set_error; target_set_complete := runner_set_complete;
     runner_ip_notify := runner_notify_ip; dhcp_ready_listener := _dhcp_ready_listener |}.

End daq_runner.

End ConnectedHost.
