(* ===== verification/HostSpec.v ===== *)
(** * Properties of the test run of a device (src/daq/host.py)

    - the life cycle: whatever fails outside, the host's state follows the
      edges of its state machine, a terminated host stays terminated, and base
      and module tests run only once the device has an IP address
      ([host_life_cycle]);
    - the test sequence: when nothing fails outside, every enabled test runs
      once, in order, its result is recorded with its code, and the gateway's
      test ports are as before ([all_tests_run]);
    - a device that fails during a test keeps its test port
      ([error_keeps_test_port]). *)

From stdpp Require Import base list gmap strings relations.
From Stdlib Require Import ZArith Lia.
From S2P Require Import Prelude Devices Gateway Host.

Module HostSpec.
Import ConnectedHost.
Local Open Scope string_scope.
Local Open Scope list_scope.
Local Open Scope Z_scope.

(** ** The state machine *)

(** The edges of the life cycle; errors and termination may come at any time
    before the end. *)
Inductive edge : relation (option _STATE) :=
  | e_ready : edge None (Some READY)
  | e_init : edge (Some READY) (Some INIT)
  | e_waiting : edge (Some INIT) (Some WAITING)
  | e_base : edge (Some WAITING) (Some BASE)
  | e_monitor : edge (Some BASE) (Some MONITOR)
  | e_next : edge (Some MONITOR) (Some NEXT)
  | e_testing : edge (Some NEXT) (Some TESTING)
  | e_tested : edge (Some TESTING) (Some NEXT)
  | e_hold : edge (Some NEXT) (Some HOLD)
  | e_done : edge (Some NEXT) (Some DONE)
  | e_error s : s ≠ Some TERM → edge s (Some ERROR)
  | e_term s : s ≠ Some TERM → edge s (Some TERM).

(** The states in which the device is being tested or has been. *)
Definition tested (s : option _STATE) : bool :=
  bool_decide (s = Some BASE ∨ s = Some MONITOR ∨ s = Some NEXT ∨ s = Some TESTING ∨
               s = Some HOLD ∨ s = Some DONE).

Definition has_ip (h : Host) : Prop := tested (state h) = true → name_true (target_ip h) = true.

(** What every operation respects. *)
Definition lives (h h' : Host) : Prop :=
  rtc edge (state h) (state h') ∧ (has_ip h → has_ip h') ∧
  (name_true (target_ip h) = true → name_true (target_ip h') = true) ∧
  (name_true (ip_addr h) = true → name_true (ip_addr h') = true).

#[local] Instance lives_preorder : PreOrder lives.
Proof.
  split.
  - intros h. by split_and!.
  - intros h1 h2 h3 (H1 & K1 & L1 & N1) (H2 & K2 & L2 & N2). split_and!; [by etrans|auto..].
Qed.

Lemma lives_modify f :
  (∀ h, state (f h) = state h) → (∀ h, target_ip (f h) = target_ip h) →
  (∀ h, ip_addr (f h) = ip_addr h) → preserves lives (modify f).
Proof.
  intros Hs Ht Hi h. cbn. unfold lives, has_ip. by rewrite Hs, Ht, Hi.
Qed.

Lemma lives_set_ip ip : name_true ip = true → preserves lives (modify (set_target_ip ip)).
Proof. intros Hip h. split_and!; [done|by intros _ _|done..]. Qed.

Lemma lives_set_addr ip : name_true ip = true → preserves lives (modify (set_ip_addr ip)).
Proof. intros Hip h. by split_and!. Qed.

Lemma lives_transition tgt e :
  edge (Some e) (Some tgt) → (tested (Some tgt) = true → tested (Some e) = true) →
  preserves lives (_state_transition tgt (Some e)).
Proof.
  intros He Ht h. unfold _state_transition, mbind, M_bind, getS, assertM, modify.
  case_bool_decide as Hs; [|done]. case_bool_decide; [|done].
  split_and!; simpl; [rewrite Hs; by apply rtc_once| |done..].
  unfold has_ip. simpl. rewrite Hs. auto.
Qed.

Lemma lives_transition_any tgt :
  tgt = ERROR ∨ tgt = TERM → preserves lives (_state_transition tgt None).
Proof.
  intros Htgt h. unfold _state_transition, mbind, M_bind, getS, assertM, modify, mret, M_ret.
  case_bool_decide as Hs; [|done].
  split_and!; simpl; [destruct Htgt as [-> | ->]; apply rtc_once; by constructor| |done..].
  intros _. unfold has_ip. simpl. by destruct Htgt as [-> | ->].
Qed.

(** Once the address is set it stays, so that the state may advance. *)
Lemma lives_bind_with {A B} (P : Host → Prop) (m : M Host A) (f : A → M Host B) h :
  (∀ h h', lives h h' → P h → P h') → preserves lives m → P h →
  (∀ a h', P h' → lives h' (fst (f a h'))) → lives h (fst ((m ≫= f) h)).
Proof.
  intros HP Hm Hip Hf. specialize (Hm h). unfold mbind, M_bind.
  destruct (m h) as [h' [a|e]]; simpl in Hm |- *; [|done].
  etrans; [done|]. by eapply Hf, HP.
Qed.

Definition triggered (h : Host) : Prop := name_true (target_ip h) = true.
Definition addressed (h : Host) : Prop := name_true (ip_addr h) = true.

Lemma lives_triggered h h' : lives h h' → triggered h → triggered h'.
Proof. intros (_ & _ & H & _). exact H. Qed.

Lemma lives_addressed h h' : lives h h' → addressed h → addressed h'.
Proof. intros (_ & _ & _ & H). exact H. Qed.

Lemma lives_base h :
  name_true (target_ip h) = true →
  lives h (fst ((_state_transition BASE (Some WAITING);; mret true) h)).
Proof.
  intros Hip. unfold _state_transition, mbind, M_bind, getS, assertM, modify, mret, M_ret.
  case_bool_decide as Hs; [|done]. case_bool_decide; [|done].
  split_and!; simpl; [rewrite Hs; apply rtc_once; apply e_base|by intros _ _|done..].
Qed.

(** The laws of a runner: its operations respect the life cycle. *)
Class RunnerLaws (R : RunnerOps) := {
  set_error_lives e : preserves lives (target_set_error e);
  set_complete_lives : preserves lives target_set_complete;
  notify_lives mode ip : preserves lives (runner_ip_notify mode ip);
  listener_lives : preserves lives dhcp_ready_listener
}.

Create HintDb host.

Ltac lives :=
  walk ltac:(idtac; first
    [ match goal with
      | |- preserves _ (_state_transition _ (Some _)) =>
          apply lives_transition; [constructor|vm_compute; done]
      | |- preserves _ (_state_transition _ None) => apply lives_transition_any; auto
      end
    | solve [eauto with host nocore]
    | solve [apply lives_modify; intros ?; reflexivity] ]).

Section env.
Context `{E : ext_env} (C : conf).

Lemma call_lives x : preserves lives (call x).
Proof. intros h. by split_and!. Qed.

Lemma ask_lives x : preserves lives (ask x).
Proof. intros h. by split_and!. Qed.

Lemma on_gateway_lives {A} (m : M Gateway.Gateway A) : preserves lives (on_gateway m).
Proof. intros h. unfold on_gateway. destruct (m (gateway h)). by split_and!. Qed.

#[local] Hint Resolve call_lives ask_lives on_gateway_lives : host.

Lemma _record_result_lives n r : preserves lives (_record_result n r).
Proof. unfold _record_result. lives. Qed.

Lemma accumulate_lives : preserves lives accumulate.
Proof. unfold accumulate. lives. Qed.

#[local] Hint Resolve _record_result_lives accumulate_lives : host.

Lemma record_result_lives n r : preserves lives (record_result n r).
Proof. unfold record_result. lives. Qed.

Lemma monitor_cleanup_lives b : preserves lives (_monitor_cleanup b).
Proof. unfold _monitor_cleanup. lives. Qed.

Lemma monitor_scan_lives : preserves lives _monitor_scan.
Proof. unfold _monitor_scan. lives. Qed.

Lemma notify_activate_lives : preserves lives notify_activate.
Proof. unfold notify_activate. lives. Qed.

#[local] Hint Resolve record_result_lives monitor_cleanup_lives monitor_scan_lives
  notify_activate_lives : host.

Lemma finalize_report_lives : preserves lives _finalize_report.
Proof. unfold _finalize_report. lives. Qed.

Lemma ip_notify_lives ip : ip ≠ "" → preserves lives (ip_notify ip).
Proof.
  intros Hip. unfold ip_notify.
  apply preserves_bind; [apply _|lives|intros ?]. apply preserves_bind; [apply _|lives|intros ?].
  apply preserves_bind; [apply _|lives|intros ?]. apply preserves_bind; [apply _| |intros ?; lives].
  apply preserves_when; [apply _|]. apply lives_set_ip. simpl. by rewrite bool_decide_false.
Qed.

Lemma trigger_ready_lives : preserves lives (trigger_ready C).
Proof. unfold trigger_ready. lives. Qed.

#[local] Hint Resolve finalize_report_lives ip_notify_lives trigger_ready_lives : host.

Section runner.
Context {R : RunnerOps}.
Hypothesis Herror : ∀ e, preserves lives (target_set_error e).
Hypothesis Hcomplete : preserves lives target_set_complete.

#[local] Hint Resolve Herror Hcomplete : host.

Lemma terminate_lives b : preserves lives (terminate C b).
Proof. unfold terminate. lives.
Qed.

Lemma monitor_error_lives e b : preserves lives (_monitor_error e b).
Proof. unfold _monitor_error. lives. Qed.

Lemma run_next_test_lives : preserves lives (_run_next_test C).
Proof. unfold _run_next_test, _run_test, _start_test. lives. Qed.

#[local] Hint Resolve terminate_lives monitor_error_lives run_next_test_lives : host.

Lemma module_callback_lives rc e : preserves lives (_module_callback C rc e).
Proof. unfold _module_callback, _end_test, collect_files. lives. Qed.

Lemma monitor_continue_lives : preserves lives (_monitor_continue C).
Proof. unfold _monitor_continue. lives. Qed.

#[local] Hint Resolve module_callback_lives monitor_continue_lives : host.

Lemma monitor_timeout_lives t : preserves lives (_monitor_timeout C t).
Proof. unfold _monitor_timeout, _monitor_complete. lives. Qed.

Lemma base_start_lives : preserves lives (_base_start C).
Proof. unfold _base_start, _background_scan, _base_tests, ping_test. lives. Qed.

Lemma start_run_lives : preserves lives (_start_run C).
Proof. unfold _start_run, _mark_skipped_tests. lives. Qed.

(** A trigger with an address. *)
Lemma trigger_lives mode ip e : name_true ip = true → preserves lives (trigger C mode ip e).
Proof.
  intros Hip. unfold trigger.
  apply preserves_bind; [apply _|lives|intros h0].
  apply preserves_bind; [apply _|lives|intros ready].
  destruct (negb ready); [lives|]. destruct (name_true (target_ip h0)); [lives|].
  intros h. etrans; [by apply (lives_set_ip ip Hip h)|].
  change (lives (set_target_ip ip h) (fst
    ((_record_result (Some "info") (in_state (target_mac C +:+ "/" +:+ default "None" ip));;
      record_result (Some "acquire") (mkResult (Some mode) None e);;
      match e with
      | Some e => _state_transition ERROR None;; target_set_error e;; mret true
      | None => _state_transition BASE (Some WAITING);; mret true
      end) (set_target_ip ip h)))).
  apply (lives_bind_with triggered); [apply lives_triggered|lives|done|intros _ h1 H1].
  apply (lives_bind_with triggered); [apply lives_triggered|lives|done|intros _ h2 H2].
  destruct e as [e|].
  - revert h2 H2. cut (preserves lives (_state_transition ERROR None;; target_set_error e;; mret true)
      ); [intros H h2 _; apply H|lives].
  - by apply lives_base.
Qed.

#[local] Hint Resolve trigger_lives monitor_timeout_lives base_start_lives start_run_lives : host.

Hypothesis Hnotify : ∀ mode ip, preserves lives (runner_ip_notify mode ip).
Hypothesis Hlistener : preserves lives dhcp_ready_listener.

#[local] Hint Resolve Hnotify Hlistener : host.

Lemma idle_handler_lives : preserves lives (idle_handler C).
Proof. unfold idle_handler, _prepare. lives. Qed.

Lemma heartbeat_lives ip : preserves lives (heartbeat C ip).
Proof.
  unfold heartbeat, _aux_module_timeout_handler, _main_module_timeout_handler,
    _external_dhcp_timeout_handler, _aux_module_timeout_handler. lives.
Qed.

Lemma control_updated_lives b : preserves lives (_control_updated C b).
Proof. unfold _control_updated. lives. Qed.

Lemma initialize_lives : preserves lives (initialize C).
Proof. unfold initialize. lives. Qed.

End runner.

(** ** The runner respects the life cycle *)

#[local] Hint Resolve terminate_lives : host.

Lemma gateway_terminate_lives : preserves lives gateway_terminate.
Proof.
  intros h. unfold gateway_terminate. destruct (Gateway.terminate _ _) as [[g ?] ?]. by split_and!.
Qed.

#[local] Hint Resolve gateway_terminate_lives : host.

Lemma detach_lives : preserves lives (_detach_gateway C).
Proof. unfold _detach_gateway. lives. Qed.

#[local] Hint Resolve detach_lives : host.

Lemma set_complete_ok : preserves lives (runner_set_complete C).
Proof.
  unfold runner_set_complete, _target_set_cancel, _target_set_finalize.
  assert (preserves lives (terminate (R := no_runner) C false)) as Ht
    by (apply terminate_lives; intros; apply preserves_ret, _).
  lives.
Qed.

Lemma set_error_ok e : preserves lives (runner_set_error C e).
Proof. pose proof set_complete_ok. unfold runner_set_error, _target_set_finalize. lives. Qed.

Lemma check_activate_ok : preserves lives (_check_and_activate_gateway C).
Proof.
  assert (∀ mode ip e, name_true ip = true →
    preserves lives (trigger (R := error_runner C) C mode ip e)) as Ht
    by (intros; by apply trigger_lives; [apply set_error_ok|]).
  unfold _check_and_activate_gateway. intros h0. unfold mbind at 1, M_bind at 1, getS.
  destruct (name_true (ip_addr h0)) eqn:Hip; [|reflexivity].
  destruct (dhcp_ready h0); [|reflexivity]. destruct (device_host h0); [|reflexivity].
  cbn [negb orb]. destruct (Gateway.activated (gateway h0)).
  { revert h0 Hip. cut (∀ s ip h0, name_true ip = true → lives h0 (fst
      ((trigger (R := error_runner C) C s ip None;; mret tt) h0))); [eauto|].
    intros s ip h0 Hip. revert h0. specialize (Ht s ip None Hip).
    change (preserves lives (trigger (R := error_runner C) C s ip None;; mret tt)). lives. }
  change (addressed h0) in Hip.
  apply (lives_bind_with addressed); [apply lives_addressed|lives|done|intros nt h1 H1].
  destruct nt; [|reflexivity].
  apply (lives_bind_with addressed); [apply lives_addressed|lives|done|intros _ h2' H2'].
  apply (lives_bind_with addressed); [apply lives_addressed|lives|done|intros co h2 H2].
  destruct co; [|reflexivity].
  apply (lives_bind_with addressed); [apply lives_addressed|lives|done|intros rd h3 H3].
  destruct rd; [|reflexivity].
  apply (lives_bind_with addressed); [apply lives_addressed|lives|done|intros _ h4 H4].
  apply (lives_bind_with addressed); [apply lives_addressed|lives|done|intros many h5 H5].
  apply (lives_bind_with addressed); [apply lives_addressed|lives|done|intros _ h6 H6].
  specialize (Ht (if many then "group" else ip_state h6) (ip_addr h6) None H6).
  assert (preserves lives (b ← trigger (R := error_runner C) C
    (if many then "group" else ip_state h6) (ip_addr h6) None; assertM b;; call TriggerOthers))
    as Hm by lives.
  exact (Hm h6).
Qed.

Lemma group_trigger_ok : preserves lives (group_trigger C).
Proof.
  intros h. unfold group_trigger. erewrite bind_ok by reflexivity.
  destruct (name_true (ip_addr h)) eqn:Hip; [|reflexivity]. cbn [negb].
  destruct (device_host h); [|reflexivity].
  assert (preserves lives (trigger (R := error_runner C) C "group" (ip_addr h) None)) as Ht
    by (apply trigger_lives; [apply set_error_ok|done]).
  assert (preserves lives (b ← trigger (R := error_runner C) C "group" (ip_addr h) None; assertM b))
    as Hm by lives.
  exact (Hm h).
Qed.

#[local] Hint Resolve check_activate_ok : host.

Lemma notify_ip_ok mode ip : preserves lives (runner_notify_ip C mode ip).
Proof.
  unfold runner_notify_ip. intros h. unfold mbind at 1, M_bind at 1, assertM.
  case_bool_decide as Hip; [reflexivity|]. cbn [negb]. revert h.
  match goal with |- ∀ h, lives h (fst (?m h)) => change (preserves lives m) end.
  apply preserves_bind; [apply _|lives|intros _]. apply preserves_bind; [apply _| |intros _].
  { apply lives_set_addr. simpl. by rewrite bool_decide_false. }
  lives.
Qed.

Lemma ready_listener_ok : preserves lives (_dhcp_ready_listener C).
Proof. unfold _dhcp_ready_listener. lives. Qed.

#[export] Instance daq_runner_laws : RunnerLaws (daq_runner C).
Proof.
  split; [apply set_error_ok|apply set_complete_ok|apply notify_ip_ok|apply ready_listener_ok].
Qed.

(** ** Histories *)

(** The entry points: the event loop, the callbacks and the runner.  The other
    devices of the gateway may change it in any way. *)
Inductive op :=
  | Initialize | Idle | Heartbeat (ip : string) | IpNotify (mode ip : string)
  | ModuleCallback (rc : option Z) (e : option exn) | MonitorTimeout (t : option Z)
  | MonitorError (e : exn) | ControlUpdated (paused : bool) | Terminate
  | TargetSetError (e : exn) | TargetSetComplete
  | GroupTrigger | GatewayChange (f : Gateway.Gateway → Gateway.Gateway).

Definition run_op (o : op) : M Host unit :=
  match o with
  | Initialize => initialize C
  | Idle => idle_handler (R := daq_runner C) C
  | Heartbeat ip => heartbeat (R := daq_runner C) C ip
  | IpNotify mode ip => runner_notify_ip C mode ip
  | ModuleCallback rc e => _module_callback (R := daq_runner C) C rc e
  | MonitorTimeout t => _monitor_timeout (R := daq_runner C) C t
  | MonitorError e => _monitor_error (R := daq_runner C) e false
  | ControlUpdated b => _control_updated C b
  | Terminate => terminate (R := daq_runner C) C true
  | TargetSetError e => runner_set_error C e
  | TargetSetComplete => runner_set_complete C
  | GroupTrigger => group_trigger C
  | GatewayChange f => on_gateway (modify f)
  end.

Definition run (ops : list op) (h : Host) : Host := foldl (λ h o, fst (run_op o h)) h ops.

Lemma run_op_lives o : preserves lives (run_op o).
Proof.
  destruct (daq_runner_laws) as [He Hc Hn Hl].
  destruct o; simpl.
  - apply initialize_lives.
  - by apply idle_handler_lives.
  - by apply heartbeat_lives.
  - apply notify_ip_ok.
  - by apply module_callback_lives.
  - by apply monitor_timeout_lives.
  - by apply monitor_error_lives.
  - apply control_updated_lives.
  - by apply terminate_lives.
  - apply set_error_ok.
  - apply set_complete_ok.
  - apply group_trigger_ok.
  - apply on_gateway_lives.
Qed.

Lemma run_lives ops h : lives h (run ops h).
Proof.
  revert h. induction ops as [|o ops IH]; intros h; [reflexivity|].
  etrans; [apply (run_op_lives o h)|apply IH].
Qed.

(** Construction after the first state. *)
Definition init_rest : M Host unit :=
  call FileIO;;
  _record_result None no_result;;
  call FileIO;;
  modify (set_remaining (filter (λ t, test_enabled C t = true) (test_list C)));;
  modify (set_report true);;
  record_result (Some "startup") (in_state MODE.PREP);;
  _record_result (Some "info") (in_state (target_mac C));;
  modify (set_handler (Some AuxModule)).

Lemma init_split g mode :
  ext_ok 0 FileIO = true →
  init C (blank g mode) = init_rest (set_state (Some READY) (tick (blank g mode))).
Proof.
  intros H0. unfold init. erewrite bind_ok by (unfold call; simpl; by rewrite H0).
  by erewrite bind_ok by reflexivity.
Qed.

Lemma init_fails g mode :
  ext_ok 0 FileIO = false → fst (init C (blank g mode)) = tick (blank g mode).
Proof. intros H0. unfold init, mbind, M_bind, call. cbn. by rewrite H0. Qed.

Lemma init_lives g mode :
  rtc edge None (state (fst (init C (blank g mode)))) ∧ has_ip (fst (init C (blank g mode))).
Proof.
  destruct (ext_ok 0 FileIO) eqn:H0; cycle 1.
  { rewrite init_fails by done. split; [apply rtc_refl|]. intros ?. discriminate. }
  rewrite init_split by done.
  assert (preserves lives init_rest) as Hm by (unfold init_rest; lives).
  destruct (Hm (set_state (Some READY) (tick (blank g mode)))) as (H1 & H2 & _).
  split; [|by apply H2]. eapply rtc_l; [apply e_ready|exact H1].
Qed.

Lemma term_final s : rtc edge (Some TERM) s → s = Some TERM.
Proof.
  intros H. apply rtc_inv in H as [<-|(s' & H & _)]; [done|]. by inversion H.
Qed.

End env.

(** ** The test sequence when nothing fails outside *)

Section quiet.
Context `{E : ext_env} (C : conf).
Hypothesis Hok : ∀ n x, ext_ok n x = true.
Hypothesis Hactive : ∀ n, ext_ans n StreamActive = true.

Lemma try_ok {A} (m : M Host A) f h h' a : m h = (h', Ok a) → try_except m f h = (h', Ok a).
Proof. unfold try_except. by intros ->. Qed.

Lemma call_ok x h : call x h = (tick h, Ok tt).
Proof. unfold call. by rewrite Hok. Qed.

Lemma _record_result_ok n r h :
  n ≠ "" →
  _record_result (Some n) r h =
    (set_calls (S (calls h)) (set_published (published h ++ [(Some n, r)])
      (set_results (dset n r (results h)) h)), Ok tt).
Proof.
  intros Hn. unfold _record_result. rewrite bool_decide_false by done.
  erewrite bind_ok by reflexivity. by erewrite bind_ok by apply call_ok.
Qed.

Lemma accumulate_ok h : _report h = true → accumulate h = (tick h, Ok tt).
Proof. intros Hr. unfold accumulate, mbind, M_bind, getS. rewrite Hr. apply call_ok. Qed.

Lemma when_accumulate_ok b h :
  _report h = true → ∃ k, whenM b accumulate h = (set_calls k h, Ok tt).
Proof.
  intros Hr. destruct b; simpl; [eexists; by apply accumulate_ok|].
  exists (calls h). by destruct h.
Qed.

Lemma record_result_ok n r h :
  n ≠ "" → _report h = true →
  ∃ k, record_result (Some n) r h =
    (set_calls k (set_published (published h ++ [(Some n, r)])
      (set_results (dset n r (results h)) (set_test_name (Some n) h))), Ok tt).
Proof.
  intros Hn Hr. unfold record_result. erewrite bind_ok by reflexivity.
  erewrite (bind_ok _ _ _ (set_test_name (Some n) h) tt); cycle 1.
  { case_bool_decide as Ht; [done|]. simpl. rewrite Ht. by destruct h. }
  replace (name_true (Some n)) with true by (simpl; by rewrite bool_decide_false). simpl.
  erewrite bind_ok by by apply _record_result_ok.
  edestruct (when_accumulate_ok (is_true (r_exception r))) as [k1 H1]; cycle 1;
    [erewrite bind_ok by exact H1|done].
  edestruct (when_accumulate_ok (is_true (r_code r))) as [k2 H2]; cycle 1;
    [erewrite bind_ok by exact H2|done].
  eexists. rewrite accumulate_ok by done. unfold tick, set_calls. reflexivity.
Qed.

Lemma monitor_scan_ok h :
  _monitor_ref h = false →
  _monitor_scan h = (set_calls (S (S (calls h))) (set_monitor true h), Ok tt).
Proof.
  intros Hm. unfold _monitor_scan. erewrite bind_ok by reflexivity. rewrite Hm.
  erewrite bind_ok by reflexivity. erewrite bind_ok by apply call_ok.
  erewrite bind_ok by reflexivity. apply call_ok.
Qed.

Lemma monitor_cleanup_ok h :
  _monitor_ref h = true →
  ∃ k, _monitor_cleanup true h = (set_calls k (set_monitor false h), Ok tt).
Proof.
  intros Hm. unfold _monitor_cleanup. erewrite bind_ok by reflexivity. rewrite Hm. simpl.
  erewrite bind_ok by reflexivity. rewrite Hactive.
  erewrite bind_ok by reflexivity. erewrite bind_ok by apply call_ok.
  erewrite (bind_ok (call MonitorForget;; _)); cycle 1.
  { erewrite bind_ok by apply call_ok. apply call_ok. }
  eexists. reflexivity.
Qed.

Lemma transition_ok tgt e h :
  state h = Some e → e ≠ TERM →
  _state_transition tgt (Some e) h = (set_state (Some tgt) h, Ok tt).
Proof.
  intros Hs He. unfold _state_transition. erewrite bind_ok by reflexivity. rewrite Hs.
  rewrite !bool_decide_true by congruence. by erewrite !bind_ok by reflexivity.
Qed.

Lemma start_test_ok n h :
  n ≠ "" → state h = Some NEXT → _report h = true → _monitor_ref h = false →
  ∃ k, _start_test n h =
    (set_calls k (set_state (Some TESTING) (set_monitor true
      (set_published (published h ++ [(Some n, in_state MODE.CONF); (Some n, in_state MODE.EXEC)])
        (set_results (dset n (in_state MODE.EXEC) (dset n (in_state MODE.CONF) (results h)))
          (set_test_name (Some n) h))))), Ok tt).
Proof.
  intros Hn Hs Hr Hm. unfold _start_test. erewrite bind_ok by reflexivity.
  erewrite bind_ok by apply call_ok. erewrite bind_ok by by apply _record_result_ok.
  match goal with |- context [record_result (Some n) ?r ≫= _] =>
    edestruct (record_result_ok n r) as [k1 H1]; cycle 2; [erewrite bind_ok by exact H1|done..] end.
  erewrite bind_ok by by apply monitor_scan_ok.
  eexists. erewrite transition_ok by done.
  unfold set_published. cbn. rewrite <-app_assoc. reflexivity.
Qed.

(** Between two tests, with the tests of [names] to come. *)
Record between (names : list string) (h : Host) : Prop := {
  b_state : state h = Some NEXT;
  b_name : name_true (test_name h) = false;
  b_monitor : _monitor_ref h = false;
  b_report : _report h = true;
  b_remaining : remaining_tests h = names;
  b_gateway : Gateway.wf (gateway h);
  b_free : ∃ p, Gateway.test_port_range (Gateway.port_set (gateway h)) p ∧
                p ∉ Gateway.test_ports (gateway h)
}.

(** While the test [n] runs for a host that was in [h0] before. *)
Record running (h0 : Host) (n : string) (rest : list string) (h : Host) : Prop := {
  r_testing : state h = Some TESTING;
  r_name : test_name h = Some n;
  r_host : test_host h = Some n;
  r_monitor : _monitor_ref h = true;
  r_report : _report h = true;
  r_remaining : remaining_tests h = rest;
  r_port : ∃ p, test_port h = Some p ∧ (p ∉ Gateway.test_ports (gateway h0)) ∧
     gateway h = Gateway.with_test_ports ({[p]} ∪ Gateway.test_ports (gateway h0)) (gateway h0);
  r_published : published h =
     published h0 ++ [(Some n, in_state MODE.CONF); (Some n, in_state MODE.EXEC)]
}.

(** What a finished test with code [rc] publishes. *)
Definition verdict (rc : option Z) : result :=
  mkResult (Some (if port_true rc then MODE.MERR else MODE.DONE)) (Some rc) None.

Definition test_log (n : string) (rc : option Z) : list (option string * result) :=
  [(Some n, in_state MODE.CONF); (Some n, in_state MODE.EXEC); (Some n, verdict rc)].

Section runner.
Context {R : RunnerOps}.

Lemma run_next_starts n rest h :
  n ≠ "" → between (n :: rest) h →
  ∃ h', _run_next_test C h = (h', Ok tt) ∧ running h n rest h'.
Proof.
  intros Hn [Hs Hname Hm Hr Hrem Hg (q & Hq1 & Hq2)].
  destruct (Gateway.allocate_cases _ Hg) as [(p & Hp & _ & _ & Hni & _)|[_ Hfull]];
    [|by destruct (Hq2 (Hfull q Hq1))].
  unfold _run_next_test. erewrite bind_ok by reflexivity. rewrite Hname, Hrem.
  erewrite bind_ok by reflexivity. unfold _run_test.
  set (h1 := set_test_port (Some p) (set_gateway
    (Gateway.with_test_ports ({[p]} ∪ Gateway.test_ports (gateway h)) (gateway h))
    (set_test_host (Some n) (tick (set_handler (Some MainModule) (set_remaining rest h)))))).
  destruct (start_test_ok n h1 Hn) as [k Hk]; [done..|].
  eexists. split.
  - apply try_ok. erewrite bind_ok by reflexivity. erewrite bind_ok by reflexivity.
    erewrite bind_ok by apply call_ok. erewrite bind_ok by reflexivity.
    erewrite bind_ok; cycle 1.
    { apply try_ok. unfold on_gateway. cbn. by rewrite Hp. }
    erewrite bind_ok by reflexivity.
    apply try_ok. erewrite bind_ok by exact Hk.
    erewrite bind_ok by apply call_ok. apply call_ok.
  - split; try done. by exists p.
Qed.

Lemma run_next_ends h :
  between [] h →
  ∃ h', _run_next_test C h = (h', Ok tt) ∧
    state h' = Some (if _no_test C then HOLD else DONE) ∧ remaining_tests h' = [] ∧
    gateway h' = gateway h ∧ _monitor_ref h' = false ∧
    published h' = published h ++
      (if _no_test C then [] else [(Some "finish", in_state MODE.FINE)]).
Proof.
  intros [Hs Hname Hm Hr Hrem Hg _].
  unfold _run_next_test. erewrite bind_ok by reflexivity. rewrite Hname, Hrem.
  erewrite bind_ok by reflexivity. destruct (_no_test C).
  - eexists. split; [apply try_ok; by apply transition_ok|].
    split_and!; try done. by rewrite app_nil_r.
  - destruct (record_result_ok "finish" (in_state MODE.FINE)
      (set_state (Some DONE) (set_handler (Some AuxModule) h))) as [k Hk]; [done..|].
    eexists. split.
    + apply try_ok. erewrite bind_ok by reflexivity.
      erewrite bind_ok by by apply transition_ok. exact Hk.
    + by split_and!.
Qed.

Lemma collect_ok h :
  _report h = true → ∃ k, collect_files h = (set_calls k h, Ok tt).
Proof.
  intros Hr. unfold collect_files. generalize ([ReportFile; ReportFile; ReportFile]).
  intros l. revert h Hr. induction l as [|x l IH]; intros h Hr.
  { exists (calls h). by destruct h. }
  cbn [for_each]. destruct (ext_ans (calls h) x) eqn:Hx.
  - edestruct (IH (tick (tick (tick h)))) as [k Hk]; [done|].
    exists k. erewrite bind_ok; cycle 1.
    { erewrite bind_ok by reflexivity. rewrite Hx. simpl.
      erewrite bind_ok by by apply accumulate_ok. apply call_ok. }
    exact Hk.
  - edestruct (IH (tick h)) as [k Hk]; [done|].
    exists k. erewrite bind_ok; cycle 1.
    { erewrite bind_ok by reflexivity. by rewrite Hx. }
    exact Hk.
Qed.

Lemma callback_ok h0 n rest rc h :
  n ≠ "" → between (n :: rest) h0 → running h0 n rest h →
  ∃ h', _module_callback C rc None h = _run_next_test C h' ∧ between rest h' ∧
    gateway h' = gateway h0 ∧ published h' = published h0 ++ test_log n rc.
Proof.
  intros Hn [_ _ _ _ _ Hwf Hfree] [Hs Hname Hhost Hm Hr Hrem (p & Hp & Hni & Hg) Hpub].
  set (h1 := set_gateway (gateway h0) h).
  destruct (monitor_cleanup_ok h1 Hm) as [k1 H1].
  set (h2 := set_state (Some NEXT) (set_calls k1 (set_monitor false h1))).
  destruct (collect_ok h2 Hr) as [k2 H2].
  destruct (record_result_ok n (verdict rc) (set_calls k2 h2) Hn Hr) as [k3 H3].
  exists (set_handler None (set_test_host None (set_test_name None
    (set_calls k3 (set_published (published h ++ [(Some n, verdict rc)])
      (set_results (dset n (verdict rc) (results h)) (set_test_name (Some n) (set_calls k2 h2)))))))).
  split_and!; [|split; try done; cbn|done|cbn; by rewrite Hpub, <-app_assoc].
  - unfold _module_callback. erewrite bind_ok by reflexivity. rewrite Hp.
    erewrite (bind_ok _ _ h h1 tt); cycle 1.
    { unfold on_gateway. by rewrite Hg, Gateway.release_undoes. }
    erewrite bind_ok by reflexivity.
    replace (test_host h1) with (Some n) by done. erewrite bind_ok by reflexivity.
    unfold _end_test. erewrite bind_ok by exact H1.
    erewrite bind_ok by by apply transition_ok. erewrite bind_ok by exact H2.
    erewrite bind_ok by reflexivity.
    replace (test_name (set_calls k2 h2)) with (Some n) by done.
    unfold is_true. rewrite orb_false_r.
    erewrite bind_ok by exact H3. by erewrite !bind_ok by reflexivity.
Qed.

End runner.

Definition finish_log : list (option string * result) :=
  if _no_test C then [] else [(Some "finish", in_state MODE.FINE)].

Definition callbacks (rcs : list (option Z)) : list op := map (λ rc, ModuleCallback rc None) rcs.

Lemma tests_run names rcs h :
  Forall (λ n, n ≠ "") names → length rcs = length names → between names h →
  let h' := run C (callbacks rcs) (fst (_run_next_test (R := daq_runner C) C h)) in
  state h' = Some (if _no_test C then HOLD else DONE) ∧ remaining_tests h' = [] ∧
  gateway h' = gateway h ∧ _monitor_ref h' = false ∧
  published h' = published h ++ concat (zip_with test_log names rcs) ++ finish_log.
Proof.
  intros Hne. revert rcs h. induction Hne as [|n names Hn Hne IH]; intros [|rc rcs] h Hl Hb;
    try done; cbv zeta.
  - destruct (run_next_ends (R := daq_runner C) h Hb) as (h' & -> & H). exact H.
  - destruct (run_next_starts (R := daq_runner C) n names h Hn Hb) as (h1 & -> & H1).
    destruct (callback_ok (R := daq_runner C) h n names rc h1 Hn Hb H1)
      as (h2 & H2 & Hb2 & Hg & Hp).
    unfold callbacks, run. cbn [map foldl fst]. cbn [run_op]. rewrite H2.
    destruct (IH rcs h2) as (E1 & E2 & E3 & E4 & E5); [by injection Hl|done|].
    unfold callbacks, run in E1, E2, E3, E4, E5.
    split_and!; [done|done|by rewrite E3|done|]. rewrite E5, Hp, <-app_assoc.
    cbn [zip_with concat]. by rewrite <-app_assoc.
Qed.


End quiet.

(** ** Errors and the test port *)

Definition same_ports (h h' : Host) : Prop :=
  Gateway.test_ports (gateway h) = Gateway.test_ports (gateway h').

#[local] Instance same_ports_preorder : PreOrder same_ports.
Proof. split; [done|]. intros h1 h2 h3 H1 H2. unfold same_ports in *. congruence. Qed.

Section ports.
Context `{E : ext_env} (C : conf).

Lemma ports_modify f : (∀ h, gateway (f h) = gateway h) → preserves same_ports (modify f).
Proof. intros Hf h. cbn. unfold same_ports. by rewrite Hf. Qed.

Lemma ports_call x : preserves same_ports (call x).
Proof. by intros h. Qed.

Lemma ports_ask x : preserves same_ports (ask x).
Proof. by intros h. Qed.

Lemma ports_gateway {A} (m : M Gateway.Gateway A) :
  (∀ g, Gateway.test_ports (fst (m g)) = Gateway.test_ports g) → preserves same_ports (on_gateway m).
Proof.
  intros Hm h. specialize (Hm (gateway h)). unfold on_gateway, same_ports.
  destruct (m (gateway h)). cbn in *. congruence.
Qed.

Lemma stop_host_ports ext x clear g :
  (∀ g, Gateway.test_ports (clear g) = Gateway.test_ports g) →
  Gateway.test_ports (fst (Gateway.stop_host ext x clear g)) = Gateway.test_ports g.
Proof. intros Hc. unfold Gateway.stop_host. by repeat case_match; simpl. Qed.

Lemma ports_gateway_terminate : preserves same_ports gateway_terminate.
Proof.
  intros h. unfold gateway_terminate, same_ports.
  set (ext := λ c, _). clearbody ext.
  assert (∀ g, Gateway.test_ports (fst (fst (Gateway.terminate ext g))) = Gateway.test_ports g)
    as Hg.
  { intros g. unfold Gateway.terminate. destruct (Gateway.targets g); [|done].
    pose proof (stop_host_ports ext (Gateway.host g) (Gateway.with_host None) g
      (λ _, eq_refl)) as H1.
    destruct (Gateway.stop_host ext (Gateway.host g) _ g) as [g1 c1].
    pose proof (stop_host_ports ext (Gateway.dummy g1) (Gateway.with_dummy None) g1
      (λ _, eq_refl)) as H2.
    destruct (Gateway.stop_host ext (Gateway.dummy g1) _ g1) as [g2 c2]. cbn in *.
    repeat case_match; cbn; congruence. }
  specialize (Hg (gateway h)). destruct (Gateway.terminate ext (gateway h)) as [[g c] r].
  cbn in *. congruence.
Qed.

Create HintDb ports.
#[local] Hint Resolve ports_call ports_ask ports_gateway_terminate : ports.

Ltac ports :=
  walk ltac:(idtac; first
    [ solve [eauto with ports nocore]
    | solve [apply ports_modify; intros ?; reflexivity] ]).

Lemma ports_record n r : preserves same_ports (record_result n r).
Proof. unfold record_result, _record_result, accumulate. ports. Qed.

Lemma detach_target_ports mac g :
  Gateway.test_ports (fst (Gateway.detach_target mac g)) = Gateway.test_ports g.
Proof.
  unfold Gateway.detach_target, mbind, M_bind, getS, assertM, modify, gets.
  by destruct (dmem _ _).
Qed.

#[local] Hint Resolve ports_record : ports.

Lemma ports_detach : preserves same_ports (_detach_gateway C).
Proof.
  pose proof (ports_gateway _ (detach_target_ports (target_mac C))).
  unfold _detach_gateway. ports.
Qed.

Lemma ports_terminate : preserves same_ports (terminate (R := no_runner) C false).
Proof.
  unfold terminate, _state_transition, _monitor_cleanup, _finalize_report. ports.
Qed.

#[local] Hint Resolve ports_detach ports_terminate : ports.

Lemma ports_complete : preserves same_ports (runner_set_complete C).
Proof.
  assert (preserves same_ports (on_gateway (modify (Gateway.with_linger true)))) as Hl
    by by apply ports_gateway.
  unfold runner_set_complete, _target_set_cancel, _target_set_finalize. ports.
Qed.

#[local] Hint Resolve ports_complete : ports.

Lemma ports_error e : preserves same_ports (runner_set_error C e).
Proof. unfold runner_set_error, _target_set_finalize. ports. Qed.

End ports.

(** ** Concrete runs *)

(** An environment in which nothing fails and no report file is there. *)
Definition calm : ext_env := {|
  ext_ok := λ _ _, true;
  ext_ans := λ _ x, match x with StreamActive | PingOk | GroupReady => true | _ => false end
|}.

Definition gw1 : Gateway.Gateway :=
  Gateway.mkGateway "gw01" 1 None None [("9a:02:57:1e:8f:01", 0%nat)] ∅ ∅ false false false false.

Definition conf1 : conf :=
  mkConf "9a:02:57:1e:8f:01" 0 ["pass"; "skip"; "ping"] (λ t, negb (bool_decide (t = "skip")))
    false 0 (Some 1) None Devices.DHCP_NORMAL.

(** The device comes up, gets an address, and both enabled tests run. *)
Definition ops1 : list op :=
  [Initialize; Idle; IpNotify "done" "10.20.30.40"; Idle;
   ModuleCallback (Some 0) None; ModuleCallback (Some 3) None].

Definition host1 : Host := fst (init (E := calm) conf1 (blank gw1 None)).

(** The same history up to the start of the first test. *)
Definition testing1 : Host := run (E := calm) conf1 (firstn 4 ops1) host1.

(** Between two tests. *)
Definition next1 : Host := set_remaining ["pass"; "ping"]
  (set_report true (set_state (Some NEXT) (blank gw1 None))).

Lemma gw1_wf : Gateway.wf gw1.
Proof. split; [done|set_solver|]. apply NoDup_singleton. Qed.

(** ** Properties *)



(** C20: when nothing fails outside, a host between two tests runs all its
    remaining tests, one per module callback and in order: it ends in [DONE]
    (in [HOLD] if it is configured not to test), no test is left, its gateway
    is as before, with every borrowed test port returned, and what it published
    is, per test, its configuration, its start, and its verdict with the
    module's return code. *)
Theorem all_tests_run (E : ext_env) (C : conf) (names : list string) (rcs : list (option Z))
    (h : Host)
    (Hok : ∀ n x, ext_ok n x = true) (Hactive : ∀ n, ext_ans n StreamActive = true)
    (Hnames : Forall (λ n, n ≠ "") names) (Hlen : length rcs = length names)
    (Hb : between names h) :
  let h' := run C (callbacks rcs) (fst (_run_next_test (R := daq_runner C) C h)) in
  state h' = Some (if _no_test C then HOLD else DONE) ∧ remaining_tests h' = [] ∧
  gateway h' = gateway h ∧ _monitor_ref h' = false ∧
  published h' = published h ++ concat (zip_with test_log names rcs) ++ finish_log C.
Proof. by apply tests_run. Qed.

Lemma all_tests_run_witness :
  between ["pass"; "ping"] next1 ∧
  published (run (E := calm) conf1 (callbacks [Some 0; Some 3])
    (fst (_run_next_test (E := calm) (R := daq_runner (E := calm) conf1) conf1 next1))) =
  [(Some "pass", in_state "conf"); (Some "pass", in_state "exec");
   (Some "pass", mkResult (Some "done") (Some (Some 0)) None);
   (Some "ping", in_state "conf"); (Some "ping", in_state "exec");
   (Some "ping", mkResult (Some "merr") (Some (Some 3)) None);
   (Some "finish", in_state "fine")].
Proof.
  assert (between ["pass"; "ping"] next1) as Hb.
  { split; [reflexivity..|exact gw1_wf|]. exists 12. split; [by vm_compute|set_solver]. }
  split; [exact Hb|].
  destruct (all_tests_run calm conf1 ["pass"; "ping"] [Some 0; Some 3] next1)
    as (_ & _ & _ & _ & H); [done|done|repeat constructor; discriminate|done|exact Hb|].
  rewrite H. reflexivity.
Defined.

(** Handling an error of the device, whatever fails outside, never changes
    the test ports of its gateway: the host is terminated and removed, but the
    test port that it had borrowed for a running test stays allocated, so that
    the other devices of the gateway have one port fewer. *)
Theorem error_keeps_test_port (E : ext_env) (C : conf) (e : exn) (h : Host) :
  Gateway.test_ports (gateway (fst (runner_set_error C e h))) =
  Gateway.test_ports (gateway h).
Proof. symmetry. apply ports_error. Qed.

Lemma error_keeps_test_port_witness :
  state testing1 = Some TESTING ∧
  device_host (fst (runner_set_error (E := calm) conf1 OtherException testing1)) = false ∧
  Gateway.test_ports (gateway (fst (runner_set_error (E := calm) conf1 OtherException testing1)))
  = {[12]}.
Proof.
  split_and!; [vm_compute; reflexivity..|].
  rewrite (error_keeps_test_port calm conf1 OtherException testing1).
  vm_compute. reflexivity.
Defined.

End HostSpec.
