(* ===== verification/FaucetEvents.v ===== *)
(** * The controller event client (src/daq/faucet_event_client.py)

    [FaucetEventClient] reads JSON events, one per line, from the controller's
    socket, and debounces port state changes: a port that goes down is reported
    only after a timer ran out, unless the port came up again meanwhile.

    - The buffer is the text received so far; the chunks the socket has
      available are part of the state ([incoming]; an empty chunk is the end of
      the stream).  Calls are the non-blocking ones of the runner.
    - [threading.Timer] objects are numbers; a started timer that was neither
      cancelled nor ran yet is in [pending] with the arguments of its callback,
      and [fire] is its thread running the callback.
    - The JSON codec is an interface ([Json]): what the client relies on is
      that a dumped value is one line and loads to itself. *)

From stdpp Require Import base list gmap strings pretty.
From Stdlib Require Import ZArith Lia Ascii.
From S2P Require Import Prelude PyVal.

Definition newline : ascii := "010"%char.

(** The part of the [json] module the client uses. *)
Class Json := {
  json_loads : list ascii → option val;
  json_dumps : val → list ascii;
  json_round : ∀ v, json_loads (json_dumps v) = Some v;
  json_line : ∀ v, newline ∉ json_dumps v
}.

Module FaucetEventClient.
Import PyVal.
Local Open Scope string_scope.
Local Open Scope list_scope.
Local Open Scope Z_scope.

Definition _PORT_DEBOUNCE_SEC : Z := 5.

Record client := mkClient {
  buffer : list ascii;
  incoming : list (list ascii);
  debounced_q : list val;
  previous_state : dict string val;
  _port_debounce_sec : Z;
  _port_timers : dict string nat;
  pending : gmap nat (val * Z * val);
  next_timer : nat
}.

Definition with_buffer (b : list ascii) (c : client) : client :=
  mkClient b (incoming c) (debounced_q c) (previous_state c) (_port_debounce_sec c)
    (_port_timers c) (pending c) (next_timer c).
Definition with_incoming (i : list (list ascii)) (c : client) : client :=
  mkClient (buffer c) i (debounced_q c) (previous_state c) (_port_debounce_sec c)
    (_port_timers c) (pending c) (next_timer c).
Definition with_queue (q : list val) (c : client) : client :=
  mkClient (buffer c) (incoming c) q (previous_state c) (_port_debounce_sec c)
    (_port_timers c) (pending c) (next_timer c).
Definition with_previous (p : dict string val) (c : client) : client :=
  mkClient (buffer c) (incoming c) (debounced_q c) p (_port_debounce_sec c)
    (_port_timers c) (pending c) (next_timer c).
Definition with_pending (p : gmap nat (val * Z * val)) (c : client) : client :=
  mkClient (buffer c) (incoming c) (debounced_q c) (previous_state c) (_port_debounce_sec c)
    (_port_timers c) p (next_timer c).
Definition with_timer (k : string) (arg : val * Z * val) (c : client) : client :=
  mkClient (buffer c) (incoming c) (debounced_q c) (previous_state c) (_port_debounce_sec c)
    (dset k (next_timer c) (_port_timers c)) (<[next_timer c := arg]> (pending c))
    (S (next_timer c)).

(** [__init__] *)
Definition init (config : val) (sock_path : option string) : res client :=
  v ← get config "port_debounce_sec" (VInt _PORT_DEBOUNCE_SEC);
  sec ← to_int v;
  guard_res (match sock_path with Some s => negb (bool_decide (s = "")) | None => false end)
    AssertionError;;
  Ok (mkClient [] [] [] [] sec [] ∅ 0).

(** ** Views of an event *)

(** [not event or k not in event] *)
Definition lacks (event : val) (k : string) : res bool :=
  if negb (truth event) then Ok true else b ← contains k event; Ok (negb b).

Definition as_config_change (event : val) : res (val * val) :=
  b ← lacks event "CONFIG_CHANGE";
  if b : bool then Ok (VNone, VNone) else
  dpid ← getitem event "dp_id";
  change ← getitem event "CONFIG_CHANGE";
  restart ← get change "restart_type" VNone;
  Ok (dpid, restart).

Definition as_ports_status (event : val) : res (val * val) :=
  b ← lacks event "PORTS_STATUS";
  if b : bool then Ok (VNone, VNone) else
  dpid ← getitem event "dp_id";
  status ← getitem event "PORTS_STATUS";
  Ok (dpid, status).

(** [None] for the port number stands for Python's [None]. *)
Definition as_port_state (event : val) : res (val * option Z * val) :=
  b ← lacks event "PORT_CHANGE";
  if b : bool then Ok (VNone, None, VNone) else
  dpid ← getitem event "dp_id";
  change ← getitem event "PORT_CHANGE";
  port ← getitem change "port_no";
  port_no ← to_int port;
  reason ← getitem change "reason";
  status ← getitem change "status";
  let port_active := if truth status then VBool (negb (py_eq reason (VStr "DELETE"))) else status in
  Ok (dpid, Some port_no, port_active).

Definition as_port_learn (event : val) : res (val * option Z * val * val) :=
  b ← lacks event "L2_LEARN";
  if b : bool then Ok (VNone, None, VNone, VNone) else
  dpid ← getitem event "dp_id";
  learn ← getitem event "L2_LEARN";
  port ← getitem learn "port_no";
  port_no ← to_int port;
  eth_src ← getitem learn "eth_src";
  vid ← getitem learn "vid";
  Ok (dpid, Some port_no, eth_src, vid).

Definition _make_port_state (dpid port status : val) (debounced : bool) : val :=
  VDict [("dp_id", dpid);
         ("PORT_CHANGE", VDict [("port_no", port); ("status", status); ("reason", VStr "MODIFY")]);
         ("debounced", VBool debounced)].

(** ['%s-%d' % (dpid, port)]; a datapath id is a scalar. *)
Definition state_key (dpid : val) (port : Z) : res string :=
  match dpid with
  | VInt z => Ok (pretty z +:+ "-" +:+ pretty port)
  | VStr s => Ok (s +:+ "-" +:+ pretty port)
  | VBool b => Ok ((if b then "True" else "False") +:+ "-" +:+ pretty port)
  | VNone => Ok ("None-" +:+ pretty port)
  | VList _ | VDict _ => Raise TypeError
  end.

(** ** Debouncing *)

Definition _process_state_update (dpid : val) (port : Z) (active : val) : M client bool :=
  k ← lift (state_key dpid port);
  c ← getS;
  match dget k (previous_state c) with
  | Some old =>
      if py_eq old active then mret false
      else modify (with_previous (dset k active (previous_state c)));; mret true
  | None => modify (with_previous (dset k active (previous_state c)));; mret true
  end.

Definition _handle_debounce (dpid : val) (port : Z) (active : val) : M client unit :=
  modify (λ c, with_queue (debounced_q c ++ [_make_port_state dpid (VInt port) active true]) c).

(** [timer.cancel()]: a timer that already ran is unaffected. *)
Definition cancel (id : nat) : M client unit :=
  modify (λ c, with_pending (delete id (pending c)) c).

Definition _debounce_port_event (dpid : val) (port : Z) (active : val) : M client unit :=
  c ← getS;
  if _port_debounce_sec c =? 0 then _handle_debounce dpid port active else
  k ← lift (state_key dpid port);
  (match dget k (_port_timers c) with Some id => cancel id | None => mret tt end);;
  if truth active then _handle_debounce dpid port active
  else modify (with_timer k (dpid, port, active)).

(** The thread of a timer: it runs the callback once. *)
Definition fire (id : nat) : M client unit :=
  c ← getS;
  match pending c !! id with
  | Some (dpid, port, active) =>
      modify (with_pending (delete id (pending c)));; _handle_debounce dpid port active
  | None => mret tt
  end.

(** ** The buffer *)

Section json.
Context `{Json}.

Definition _prepend_event (event : val) : M client unit :=
  modify (λ c, with_buffer (json_dumps event ++ [newline] ++ buffer c) c).

(** The text up to the last newline, that newline excluded ([rfind]), and what
    follows from the newline on. *)
Fixpoint rsplit (l : list ascii) : option (list ascii * list ascii) :=
  match l with
  | [] => None
  | x :: l' =>
      match rsplit l' with
      | Some (a, b) => Some (x :: a, b)
      | None => if bool_decide (x = newline) then Some ([], l) else None
      end
  end.

(** [_append_event]: after the complete lines, before a partial one. *)
Definition _append_event (event : val) : M client unit :=
  let event_str := json_dumps event in
  modify (λ c, with_buffer
    match rsplit (buffer c) with
    | None => match buffer c with
              | [] => event_str ++ [newline]
              | _ => event_str ++ [newline] ++ buffer c
              end
    | Some (a, b) => if bool_decide (length b = 1%nat) then buffer c ++ event_str ++ [newline]
                     else a ++ [newline] ++ event_str ++ b
    end c).

(** [status[port]] in the loop over [status] *)
Definition status_item (status port : val) : res val :=
  match port with VStr k => getitem status k | _ => Raise TypeError end.

(** Truth value of the port number. *)
Definition port_true (port : option Z) : bool :=
  match port with Some p => negb (p =? 0) | None => false end.

(** The second half of [_filter_faucet_event]: a report of all ports becomes
    one event per port. *)
Definition expand_ports_status (event : val) : M client val :=
  '(dpid, status) ← lift (as_ports_status event);
  if truth dpid then
    ports ← lift (iter status);
    for_each ports (λ port,
      st ← lift (status_item status port);
      _prepend_event (_make_port_state dpid port st false));;
    mret VNone
  else mret event.

(** [_filter_faucet_event]: the event to report, or [None]. *)
Definition _filter_faucet_event (event : val) : M client val :=
  '(dpid, port, active) ← lift (as_port_state event);
  if truth dpid && port_true port then
    d ← lift (get event "debounced" VNone);
    if negb (truth d) then _debounce_port_event dpid (default 0 port) active;; mret VNone
    else b ← _process_state_update dpid (default 0 port) active;
         mret (if b : bool then event else VNone)
  else expand_ports_status event.

(** The loop of [has_event] over the available chunks. *)
Fixpoint receive (inc : list (list ascii)) (buf : list ascii) :
    list (list ascii) * list ascii * res bool :=
  if bool_decide (newline ∈ buf) then (inc, buf, Ok true)
  else match inc with
       | [] => (inc, buf, Ok false)
       | [] :: inc' => (inc', buf, Raise DisconnectedException)
       | data :: inc' => receive inc' (buf ++ data)
       end.

Definition has_event : M client bool := λ c,
  let '(inc, buf, r) := receive (incoming c) (buffer c) in
  (with_incoming inc (with_buffer buf c), r).

(** [self.buffer.split('\n', 1)] *)
Fixpoint split_line (l : list ascii) : option (list ascii * list ascii) :=
  match l with
  | [] => None
  | x :: l' =>
      if bool_decide (x = newline) then Some ([], l')
      else '(a, b) ← split_line l'; Some (x :: a, b)
  end.

(** [next_event].  [event] is the local variable of that name, unbound
    ([None]) until a line was parsed; a line that does not parse leaves it as
    it is.  Each round takes one line; out of fuel is [None]. *)
Fixpoint next_event_loop (fuel : nat) (event : option val) (c : client) :
    option (client * res val) :=
  match fuel with
  | O => None
  | S fuel' =>
      match debounced_q c with
      | ev :: q => Some (with_queue q c, Ok ev)
      | [] =>
          match has_event c with
          | (c, Raise e) => Some (c, Raise e)
          | (c, Ok false) => Some (c, Ok VNone)
          | (c, Ok true) =>
              match split_line (buffer c) with
              | None => Some (c, Raise ValueError)
              | Some (line, remainder) =>
                  let c := with_buffer remainder c in
                  let event := match json_loads line with Some v => Some v | None => event end in
                  match event with
                  | None => Some (c, Raise UnboundLocalError)
                  | Some event =>
                      match _filter_faucet_event event c with
                      | (c, Raise e) => Some (c, Raise e)
                      | (c, Ok v) => if truth v then Some (c, Ok v)
                                     else next_event_loop fuel' (Some v) c
                      end
                  end
              end
          end
      end
  end.

Definition next_event (fuel : nat) : client → option (client * res val) := next_event_loop fuel None.

(** ** Histories

    What happens to a client: it handles an event of the controller, a timer
    runs out, the runner takes a debounced event. *)

Inductive action :=
  | Event (ev : val)
  | Fire (id : nat)
  | Take.

Definition act (a : action) (c : client) : client :=
  match a with
  | Event ev => fst (_filter_faucet_event ev c)
  | Fire id => fst (fire id c)
  | Take => with_queue (tail (debounced_q c)) c
  end.

Definition run (l : list action) (c : client) : client := foldl (λ c a, act a c) c l.

(** The debounced events an action puts into the queue. *)
Definition puts (a : action) (c : client) : list val :=
  match a with
  | Take => []
  | _ => drop (length (debounced_q c)) (debounced_q (act a c))
  end.

(** ** The timers *)

(** Every timer that can still run is the registered one of its port, and
    reports the port as inactive. *)
Definition timers_inv (c : client) : Prop :=
  ∀ id d p a, pending c !! id = Some (d, p, a) →
    truth a = false ∧ ∃ k, state_key d p = Ok k ∧ dget k (_port_timers c) = Some id.

(** No timer of port [k] can run. *)
Definition no_timer (k : string) (c : client) : Prop :=
  ∀ id d p a, pending c !! id = Some (d, p, a) → state_key d p ≠ Ok k.

(** Nothing the debouncer uses has changed. *)
Definition same_debounce (c c' : client) : Prop :=
  debounced_q c' = debounced_q c ∧ pending c' = pending c ∧
  _port_timers c' = _port_timers c ∧ _port_debounce_sec c' = _port_debounce_sec c.

#[local] Instance same_debounce_preorder : PreOrder same_debounce.
Proof.
  split; [done|]. intros c1 c2 c3 (?&?&?&?) (?&?&?&?). split_and!; congruence.
Qed.

Lemma process_state_frame d p a : preserves same_debounce (_process_state_update d p a).
Proof.
  intros c. unfold _process_state_update, mbind, M_bind, lift, getS, modify.
  destruct (state_key d p); [|done]. repeat case_match; done.
Qed.

Lemma expand_frame ev : preserves same_debounce (expand_ports_status ev).
Proof.
  unfold expand_ports_status.
  apply preserves_bind; [apply _|done|]. intros [dpid status].
  destruct (truth dpid); [|apply preserves_ret, _].
  apply preserves_bind; [apply _|done|]. intros ports.
  apply preserves_bind; [apply _| |intros _; apply preserves_ret, _].
  apply preserves_for_each; [apply _..|]. intros port _.
  apply preserves_bind; [apply _|done|]. intros st c. done.
Qed.

(** An event either is a port change to debounce or does not concern the
    debouncer. *)
Lemma filter_cases ev c :
  same_debounce c (fst (_filter_faucet_event ev c)) ∨
  ∃ d p a, as_port_state ev = Ok (d, Some p, a) ∧
    fst (_filter_faucet_event ev c) = fst (_debounce_port_event d p a c).
Proof.
  remember (_filter_faucet_event ev c) as r eqn:Hr.
  unfold _filter_faucet_event, mbind at 1, M_bind at 1, lift at 1 in Hr.
  destruct (as_port_state ev) as [[[d [p|]] a]|e] eqn:E; cbn beta iota in Hr; [| |left; by subst].
  - destruct (truth d && port_true (Some p)); [|left; subst; apply expand_frame].
    unfold mbind at 1, M_bind at 1, lift in Hr.
    destruct (get ev _ _) as [f|]; cbn beta iota in Hr; [|left; by subst].
    unfold mbind, M_bind in Hr. cbn [default from_option id] in Hr. destruct (negb (truth f)).
    + right. exists d, p, a. split; [done|]. subst.
      by destruct (_debounce_port_event d p a c) as [? []].
    + left. pose proof (process_state_frame d p a c) as Hf. subst.
      by destruct (_process_state_update d p a c) as [? []].
  - left. rewrite andb_false_r in Hr. subst. apply expand_frame.
Qed.

Definition cancelled (k : string) (c : client) : client :=
  match dget k (_port_timers c) with
  | Some id => with_pending (delete id (pending c)) c
  | None => c
  end.

Lemma debounce_eq d p a k c :
  _port_debounce_sec c ≠ 0 → state_key d p = Ok k →
  _debounce_port_event d p a c =
    (if truth a then with_queue (debounced_q c ++ [_make_port_state d (VInt p) a true]) (cancelled k c)
     else with_timer k (d, p, a) (cancelled k c), Ok tt).
Proof.
  intros Hsec Hk. unfold _debounce_port_event, mbind, M_bind, getS, lift, modify, cancelled.
  destruct (Z.eqb_spec (_port_debounce_sec c) 0); [done|]. rewrite Hk.
  destruct (dget k (_port_timers c)); simpl; by destruct (truth a).
Qed.

Lemma debounce_bad d p a e c :
  _port_debounce_sec c ≠ 0 → state_key d p = Raise e →
  _debounce_port_event d p a c = (c, Raise e).
Proof.
  intros Hsec Hk. unfold _debounce_port_event, mbind, M_bind, getS, lift.
  destruct (Z.eqb_spec (_port_debounce_sec c) 0); [done|]. by rewrite Hk.
Qed.

(** Cancelling keeps the other timers and removes that of the port. *)
Lemma cancelled_inv k c : timers_inv c → timers_inv (cancelled k c) ∧ no_timer k (cancelled k c).
Proof.
  intros Hinv. unfold cancelled, no_timer.
  destruct (dget k (_port_timers c)) as [id0|] eqn:Ht.
  - split; intros id d p a; simpl; intros [Hne Hl]%lookup_delete_Some.
    + by apply Hinv in Hl.
    + intros Hk. apply Hinv in Hl as (_ & k' & Hk' & Hg). congruence.
  - split; [done|]. intros id d p a Hl Hk. apply Hinv in Hl as (_ & k' & Hk' & Hg). congruence.
Qed.

Lemma cancelled_no_timer k k' c : no_timer k c → no_timer k (cancelled k' c).
Proof.
  intros Hn id d p a. unfold cancelled. destruct (dget k' _); simpl; [|by apply Hn].
  intros [_ Hl]%lookup_delete_Some. by eapply Hn.
Qed.

Lemma with_timer_inv k d p a c :
  timers_inv c → no_timer k c → state_key d p = Ok k → truth a = false →
  timers_inv (with_timer k (d, p, a) c).
Proof.
  intros Hinv Hn Hk Ha id d' p' a'. simpl.
  intros [[<- [= <- <- <-]]|[Hne Hl]]%lookup_insert_Some.
  - split; [done|]. exists k. split; [done|]. apply dget_dset_eq.
  - pose proof (Hn _ _ _ _ Hl) as Hk'. apply Hinv in Hl as (Ha' & k' & Hk2 & Hg).
    split; [done|]. exists k'. split; [done|]. rewrite dget_dset_ne; congruence.
Qed.

(** What an action may be for port [k] to stay up: no report that it is down. *)
Definition quiet (k : string) (a : action) : Prop :=
  match a with
  | Event ev => ∀ d p v, as_port_state ev = Ok (d, Some p, v) → state_key d p = Ok k → truth v = true
  | _ => True
  end.

(** The reports of port [k] in a list of debounced events are all active. *)
Definition all_active (k : string) (l : list val) : Prop :=
  ∀ item d p v, item ∈ l → as_port_state item = Ok (d, Some p, v) → state_key d p = Ok k →
    truth v = true.

Lemma port_state_view d p a b :
  as_port_state (_make_port_state d p a b) =
  (n ← to_int p; Ok (d, Some n, if truth a then VBool true else a)).
Proof. reflexivity. Qed.

Lemma all_active_nil k : all_active k [].
Proof. by intros ???? []%not_elem_of_nil. Qed.

Lemma all_active_put k d p a :
  (state_key d p = Ok k → truth a = true) →
  all_active k [_make_port_state d (VInt p) a true].
Proof.
  intros Ha item d' p' v ->%list_elem_of_singleton. rewrite port_state_view.
  intros [= <- <- <-] Hk%Ha. by rewrite Hk.
Qed.

(** One action: the invariants are kept, and a quiet one reports [k] active. *)
Definition settled (k : string) (c : client) : Prop :=
  _port_debounce_sec c ≠ 0 ∧ timers_inv c ∧ no_timer k c.

Lemma debounce_step k d p a c :
  _port_debounce_sec c ≠ 0 → timers_inv c →
  let c' := fst (_debounce_port_event d p a c) in
  _port_debounce_sec c' ≠ 0 ∧ timers_inv c' ∧
  (no_timer k c → (state_key d p = Ok k → truth a = true) →
   no_timer k c' ∧ ∃ l, debounced_q c' = debounced_q c ++ l ∧ all_active k l).
Proof.
  intros Hsec Hinv. destruct (state_key d p) as [k'|e] eqn:Hk.
  - rewrite (debounce_eq d p a k' c Hsec Hk). cbn [fst].
    destruct (cancelled_inv k' c Hinv) as [Hci Hcn].
    assert (_port_debounce_sec (cancelled k' c) = _port_debounce_sec c ∧
      debounced_q (cancelled k' c) = debounced_q c) as [Hcs Hcq]
      by (unfold cancelled; by destruct (dget k' _)).
    destruct (truth a) eqn:Ha; simpl; rewrite Hcs; (split; [done|]); split.
    + done.
    + intros Hn _. split; [by apply (cancelled_no_timer k k')|].
      eexists; split; [done|]. apply all_active_put. by intros _.
    + by apply with_timer_inv.
    + intros Hn Hq. split; [|exists []; rewrite Hcq, app_nil_r; auto using all_active_nil].
      intros id d' p' a'. simpl.
      intros [[<- [= <- <- <-]]|[Hne Hl]]%lookup_insert_Some.
      * rewrite Hk. intros Hkk. by specialize (Hq Hkk).
      * by eapply (cancelled_no_timer k k').
  - rewrite (debounce_bad d p a e c Hsec Hk). cbn [fst]. split_and!; [done..|].
    intros Hn _. split; [done|]. exists []. rewrite app_nil_r. auto using all_active_nil.
Qed.

Lemma same_debounce_step k c c' :
  same_debounce c c' → _port_debounce_sec c ≠ 0 → timers_inv c →
  _port_debounce_sec c' ≠ 0 ∧ timers_inv c' ∧
  (no_timer k c → no_timer k c' ∧ ∃ l, debounced_q c' = debounced_q c ++ l ∧ all_active k l).
Proof.
  intros (H1 & H2 & H3 & H4) Hsec Hinv. unfold timers_inv, no_timer. rewrite H1, H2, H3, H4.
  split_and!; [done..|]. intros Hn. split; [done|]. exists []. rewrite app_nil_r.
  auto using all_active_nil.
Qed.

Lemma act_step k a c :
  _port_debounce_sec c ≠ 0 → timers_inv c →
  _port_debounce_sec (act a c) ≠ 0 ∧ timers_inv (act a c) ∧
  (no_timer k c → quiet k a → no_timer k (act a c) ∧ all_active k (puts a c)).
Proof.
  intros Hsec Hinv. destruct a as [ev|id|]; cbn [act puts quiet].
  - destruct (filter_cases ev c) as [Hs|(d & p & v & Hv & ->)].
    + destruct (same_debounce_step k _ _ Hs Hsec Hinv) as (?&?&Hn). split_and!; [done..|].
      intros Hk _. destruct (Hn Hk) as (?&l&Hl&?). split; [done|].
      by rewrite Hl, drop_app_length.
    + destruct (debounce_step k d p v c Hsec Hinv) as (?&?&Hn). split_and!; [done..|].
      intros Hk Hq. destruct (Hn Hk) as (?&l&Hl&?); [by apply Hq|]. split; [done|].
      by rewrite Hl, drop_app_length.
  - unfold fire, mbind, M_bind, getS. destruct (pending c !! id) as [[[d p] v]|] eqn:Hl.
    + simpl. split_and!; [done| |].
      * intros id' d' p' a'. simpl. intros [_ Hl']%lookup_delete_Some. by apply Hinv in Hl'.
      * intros Hk _. split.
        { intros id' d' p' a'. simpl. intros [_ Hl']%lookup_delete_Some. by eapply Hk. }
        rewrite drop_app_length. apply all_active_put. intros Hkey. by apply Hk in Hl.
    + simpl. split_and!; [done..|]. intros Hk _. split; [done|].
      rewrite drop_all. apply all_active_nil.
  - split_and!; [done..|]. intros Hk _. split; [done|]. apply all_active_nil.
Qed.

Lemma run_timers_inv l c :
  _port_debounce_sec c ≠ 0 → timers_inv c →
  _port_debounce_sec (run l c) ≠ 0 ∧ timers_inv (run l c).
Proof.
  revert c. induction l as [|a l IH]; intros c Hsec Hinv; [done|].
  destruct (act_step "" a c Hsec Hinv) as (? & ? & _). by apply IH.
Qed.

Lemma run_settled k l c :
  settled k c → Forall (quiet k) l → settled k (run l c).
Proof.
  revert c. induction l as [|a l IH]; intros c (Hsec & Hinv & Hn) Hq; [done|].
  apply Forall_cons in Hq as [Ha Hq].
  destruct (act_step k a c Hsec Hinv) as (? & ? & Hk). destruct (Hk Hn Ha) as [? _].
  by apply IH.
Qed.

(** ** Delivery of a port status report *)

Lemma split_line_dumps v rest :
  split_line (json_dumps v ++ newline :: rest) = Some (json_dumps v, rest).
Proof.
  pose proof (json_line v) as Hn. revert Hn. generalize (json_dumps v) as l.
  induction l as [|x l IH]; intros Hn; simpl; [done|].
  - apply not_elem_of_cons in Hn as [Hx Hl]. rewrite bool_decide_false by done.
    by rewrite IH.
Qed.

Lemma has_event_line v rest c :
  buffer c = json_dumps v ++ newline :: rest → has_event c = (c, Ok true).
Proof.
  intros Hb. unfold has_event. rewrite Hb.
  assert (receive (incoming c) (json_dumps v ++ newline :: rest) =
    (incoming c, json_dumps v ++ newline :: rest, Ok true)) as ->.
  { destruct (incoming c); simpl; rewrite bool_decide_true; try done;
      apply elem_of_app; right; left. }
  destruct c; simpl in *. by subst.
Qed.

(** A round that reads an event the filter keeps back. *)
Lemma next_event_round fuel ev0 v rest c c' :
  debounced_q c = [] → buffer c = json_dumps v ++ newline :: rest →
  _filter_faucet_event v (with_buffer rest c) = (c', Ok VNone) →
  next_event_loop (S fuel) ev0 c = next_event_loop fuel (Some VNone) c'.
Proof.
  intros Hq Hb Hf. cbn [next_event_loop]. rewrite Hq, (has_event_line v rest c Hb), Hb.
  rewrite split_line_dumps, json_round, Hf. done.
Qed.

(** The text of a list of events. *)
Definition lines (l : list val) : list ascii := l ≫= λ v, json_dumps v ++ [newline].

Lemma prepend_all (l : list (string * val)) (f : val → val → val) (status : val) c :
  (∀ k v, (k, v) ∈ l → getitem status k = Ok v) →
  for_each (VStr <$> l.*1) (λ port, st ← lift (status_item status port);
                                     _prepend_event (f port st)) c =
  (with_buffer (lines (reverse ((λ '(k, v), f (VStr k) v) <$> l)) ++ buffer c) c, Ok tt).
Proof.
  revert c. induction l as [|[k v] l IH]; intros c Hget.
  - simpl. by destruct c.
  - cbn [fmap list_fmap for_each fst snd].
    rewrite (bind_ok _ _ c (with_buffer (json_dumps (f (VStr k) v) ++ newline :: buffer c) c) tt);
      [|unfold mbind, M_bind, lift, status_item; by rewrite (Hget k v) by left].
    rewrite IH by (intros; apply Hget; by right).
    rewrite reverse_cons. unfold lines at 2. rewrite bind_app. cbn.
    f_equal. unfold with_buffer; simpl. f_equal. unfold lines.
    rewrite app_nil_r, <- !(assoc_L (++)). done.
Qed.

(** Calls of [next_event] one after the other. *)
Fixpoint next_events (fuel n : nat) (c : client) : option (client * list (res val)) :=
  match n with
  | O => Some (c, [])
  | S n' => '(c1, r) ← next_event fuel c; '(c2, l) ← next_events fuel n' c1; Some (c2, r :: l)
  end.

(** The report of one port, not debounced and debounced. *)
Definition raw_state (d : Z) (e : string * val) : val :=
  _make_port_state (VInt d) (VStr e.1) e.2 false.

Definition reported (d : Z) (port : string → Z) (e : string * val) : val :=
  _make_port_state (VInt d) (VInt (port e.1)) (if truth e.2 then VBool true else e.2) true.

Lemma filter_raw d port e c :
  d ≠ 0 → to_int (VStr e.1) = Ok (port e.1) → port e.1 ≠ 0 → _port_debounce_sec c = 0 →
  _filter_faucet_event (raw_state d e) c =
    (with_queue (debounced_q c ++ [reported d port e]) c, Ok VNone).
Proof.
  intros Hd Hp Hne Hsec. destruct e as [k v]. cbn [fst snd] in *.
  assert (as_port_state (raw_state d (k, v)) =
    Ok (VInt d, Some (port k), if truth v then VBool true else v)) as Hs.
  { unfold raw_state. rewrite port_state_view. cbn [fst snd]. by rewrite Hp. }
  unfold _filter_faucet_event. erewrite bind_ok by (unfold lift; by rewrite Hs). cbn beta iota.
  assert (truth (VInt d) && port_true (Some (port k)) = true) as ->.
  { simpl. destruct (Z.eqb_spec d 0); [done|]. by destruct (Z.eqb_spec (port k) 0). }
  rewrite (bind_ok _ _ c c (VBool false)) by reflexivity. cbn [truth negb].
  rewrite (bind_ok _ _ c (with_queue (debounced_q c ++ [reported d port (k, v)]) c) tt); [done|].
  unfold _debounce_port_event. erewrite bind_ok by reflexivity. by rewrite Hsec.
Qed.

Lemma next_event_raw fuel ev0 d port e c rest :
  d ≠ 0 → to_int (VStr e.1) = Ok (port e.1) → port e.1 ≠ 0 →
  _port_debounce_sec c = 0 → debounced_q c = [] →
  buffer c = json_dumps (raw_state d e) ++ newline :: rest → (2 ≤ fuel)%nat →
  next_event_loop fuel ev0 c = Some (with_buffer rest c, Ok (reported d port e)).
Proof.
  intros Hd Hp Hne Hsec Hq Hb Hfuel. destruct fuel as [|[|fuel]]; [lia..|].
  rewrite (next_event_round _ _ (raw_state d e) rest c
    (with_queue [reported d port e] (with_buffer rest c))); [|done|done|].
  - destruct c; simpl in *; by subst.
  - rewrite (filter_raw d port e) by done. simpl. by rewrite Hq.
Qed.

Lemma next_events_raw fuel d port l c rest :
  d ≠ 0 → (∀ e, e ∈ l → to_int (VStr e.1) = Ok (port e.1) ∧ port e.1 ≠ 0) →
  _port_debounce_sec c = 0 → debounced_q c = [] →
  buffer c = lines (raw_state d <$> l) ++ rest → (2 ≤ fuel)%nat →
  next_events fuel (length l) c = Some (with_buffer rest c, (Ok ∘ reported d port) <$> l).
Proof.
  intros Hd. revert c. induction l as [|e l IH]; intros c Hl Hsec Hq Hb Hfuel.
  - simpl. simpl in Hb. subst. by destruct c.
  - destruct (Hl e) as [Hp Hne]; [left|].
    cbn [length next_events]. unfold next_event.
    rewrite (next_event_raw fuel None d port e c (lines (raw_state d <$> l) ++ rest)); try done.
    + cbn [mbind option_bind]. rewrite IH; [done| |done|done|done|done].
      intros e' He'. apply Hl. by right.
    + rewrite Hb. unfold lines. cbn. by rewrite <- !(assoc_L (++)).
Qed.

(** The report of all ports is replaced by the reports of the ports. *)
Lemma expand_status_ok v d ports c :
  as_port_state v = Ok (VNone, None, VNone) → as_ports_status v = Ok (VInt d, VDict ports) →
  d ≠ 0 → dict_wf ports →
  _filter_faucet_event v c =
    (with_buffer (lines (raw_state d <$> reverse ports) ++ buffer c) c, Ok VNone).
Proof.
  intros Hp Hs Hd Hwf. unfold _filter_faucet_event.
  erewrite bind_ok by (unfold lift; by rewrite Hp). cbn beta iota. cbn [truth andb].
  unfold expand_ports_status. erewrite bind_ok by (unfold lift; by rewrite Hs). cbn beta iota.
  assert (truth (VInt d) = true) as -> by (simpl; by destruct (Z.eqb_spec d 0)).
  erewrite bind_ok by reflexivity.
  assert (∀ k x, (k, x) ∈ ports → getitem (VDict ports) k = Ok x) as Hget.
  { intros k x Hin. cbn [getitem]. by rewrite (dget_wf_elem k x ports Hwf Hin). }
  rewrite (bind_ok _ _ c _ tt (prepend_all ports
    (λ port st, _make_port_state (VInt d) port st false) (VDict ports) c Hget)).
  unfold mret, M_ret. rewrite fmap_reverse. do 5 f_equal.
  apply list_fmap_ext. by intros i [k x] _.
Qed.

(** A line that is no JSON, first in a call of [next_event], ends the call with
    an unbound variable, which the runner takes for a failure of the client. *)
Lemma malformed_line_unbound fuel line rest c :
  debounced_q c = [] → newline ∉ line → buffer c = line ++ newline :: rest →
  json_loads line = None →
  next_event (S fuel) c = Some (with_buffer rest c, Raise UnboundLocalError).
Proof.
  intros Hq Hn Hb Hj. unfold next_event. cbn [next_event_loop]. rewrite Hq.
  assert (has_event c = (c, Ok true)) as ->.
  { unfold has_event. rewrite Hb.
    assert (receive (incoming c) (line ++ newline :: rest) =
      (incoming c, line ++ newline :: rest, Ok true)) as ->.
    { destruct (incoming c); simpl; rewrite bool_decide_true; try done;
        apply elem_of_app; right; left. }
    destruct c; simpl in *. by subst. }
  rewrite Hb. assert (split_line (line ++ newline :: rest) = Some (line, rest)) as ->.
  { clear -Hn. induction line as [|x l IH]; simpl; [done|].
    apply not_elem_of_cons in Hn as [Hx Hl]. rewrite bool_decide_false by done. by rewrite IH. }
  by rewrite Hj.
Qed.

End json.

(** ** A codec

    Any injective encoding into lines will do; this one writes values in
    binary. *)

Fixpoint to_tree (v : val) : gen_tree (bool + Z + string) :=
  match v with
  | VNone => GenNode 0 []
  | VBool b => GenLeaf (inl (inl b))
  | VInt z => GenLeaf (inl (inr z))
  | VStr s => GenLeaf (inr s)
  | VList l => GenNode 1 (map to_tree l)
  | VDict d => GenNode 2 (map (λ e, GenNode 3 [GenLeaf (inr (fst e)); to_tree (snd e)]) d)
  end.

Fixpoint of_tree (t : gen_tree (bool + Z + string)) : val :=
  match t with
  | GenLeaf (inl (inl b)) => VBool b
  | GenLeaf (inl (inr z)) => VInt z
  | GenLeaf (inr s) => VStr s
  | GenNode 1 l => VList (map of_tree l)
  | GenNode 2 l =>
      VDict (map (λ t, match t with
                       | GenNode _ [GenLeaf (inr k); x] => (k, of_tree x)
                       | _ => ("", VNone)
                       end) l)
  | GenNode _ _ => VNone
  end.

Lemma of_to_tree : ∀ v, of_tree (to_tree v) = v.
Proof.
  fix IH 1. intros [|b|z|s|l|d]; simpl; [done..| |]; f_equal.
  - induction l as [|x l IHl]; simpl; [done|]. by rewrite IH, IHl.
  - induction d as [|[k x] d IHd]; simpl; [done|]. by rewrite IH, IHd.
Qed.

Fixpoint bits (p : positive) : list ascii :=
  match p with
  | xH => []
  | xO p => "0"%char :: bits p
  | xI p => "1"%char :: bits p
  end.

Fixpoint of_bits (l : list ascii) : option positive :=
  match l with
  | [] => Some xH
  | c :: l' =>
      if bool_decide (c = "0"%char) then xO <$> of_bits l'
      else if bool_decide (c = "1"%char) then xI <$> of_bits l' else None
  end.

Lemma of_bits_bits p : of_bits (bits p) = Some p.
Proof. induction p as [p IH|p IH|]; simpl; rewrite ?IH; done. Qed.

Lemma bits_line p : newline ∉ bits p.
Proof.
  induction p as [p IH|p IH|]; simpl; [apply not_elem_of_cons; split; done..|apply not_elem_of_nil].
Qed.

#[export, refine] Instance bit_codec : Json := {
  json_loads l := of_tree <$> (of_bits l ≫= decode);
  json_dumps v := bits (encode (to_tree v))
}.
Proof.
  - intros v. rewrite of_bits_bits. simpl. rewrite decode_encode. simpl. by rewrite of_to_tree.
  - intros v. apply bits_line.
Defined.

(** A port that goes down and comes up again before its timer ran out. *)
Definition demo_client : client := mkClient [] [] [] [] 5 [] ∅ 0.
Definition demo_down : val := _make_port_state (VInt 2) (VInt 1) (VBool false) false.
Definition demo_up : val := _make_port_state (VInt 2) (VInt 1) (VBool true) false.

Definition demo_ports : dict string val := [("1", VBool true); ("2", VBool false)].
Definition demo_status : val := VDict [("dp_id", VInt 2); ("PORTS_STATUS", VDict demo_ports)].
Definition demo_port (k : string) : Z := if bool_decide (k = "1") then 1 else 2.

(** ** Properties *)

(** C17: no stale report.  In any history of a debouncing client, when the
    controller reports a port up, that is queued for the runner at once; and
    from then on, as long as the controller does not report the port down,
    whatever other events arrive and whichever timers run out, no queued event
    says that the port is down. *)
Theorem no_stale_down `{Json} (config : val) (path : option string) (c0 : client)
    (before after : list action) (last : action) (ev d active flag : val) (p : Z) (k : string)
    (Hinit : init config path = Ok c0) (Hsec : _port_debounce_sec c0 ≠ 0)
    (Hev : as_port_state ev = Ok (d, Some p, active)) (Hactive : truth active = true)
    (Hd : truth d = true) (Hp : p ≠ 0)
    (Hflag : get ev "debounced" VNone = Ok flag) (Hraw : truth flag = false)
    (Hk : state_key d p = Ok k)
    (Hquiet : Forall (quiet k) (after ++ [last])) :
  let c1 := run before c0 in
  let c2 := act (Event ev) c1 in
  debounced_q c2 = debounced_q c1 ++ [_make_port_state d (VInt p) active true] ∧
  (∀ item d' p' v, item ∈ puts last (run after c2) →
     as_port_state item = Ok (d', Some p', v) → state_key d' p' = Ok k → truth v = true).
Proof.
  intros c1 c2.
  assert (timers_inv c0) as Hinv0.
  { intros id d' p' a'. unfold init in Hinit. inv_res. simpl. by rewrite lookup_empty. }
  destruct (run_timers_inv before c0 Hsec Hinv0) as [Hsec1 Hinv1]. fold c1 in Hsec1, Hinv1.
  assert (c2 = with_queue (debounced_q c1 ++ [_make_port_state d (VInt p) active true])
                 (cancelled k c1)) as Hc2.
  { unfold c2. cbn [act]. unfold _filter_faucet_event.
    erewrite bind_ok by (unfold lift; by rewrite Hev). cbn beta iota.
    assert (port_true (Some p) = true) as Hpt by (simpl; by destruct (Z.eqb_spec p 0)).
    rewrite Hd, Hpt. cbn [andb]. erewrite bind_ok by (unfold lift; by rewrite Hflag).
    rewrite Hraw. cbn [negb]. unfold mbind, M_bind. cbn [default from_option id].
    by rewrite (debounce_eq d p active k c1 Hsec1 Hk), Hactive. }
  destruct (cancelled_inv k c1 Hinv1) as [Hci Hcn].
  split; [by rewrite Hc2|].
  apply Forall_app in Hquiet as [Hq1 Hq2]. assert (quiet k last) as Hql by (by inversion Hq2).
  assert (settled k (run after c2)) as (Hs & Hi & Hn).
  { apply run_settled; [|done]. rewrite Hc2. split_and!; [|done|done].
    unfold cancelled. by destruct (dget k _). }
  intros item d' p' v. destruct (act_step k last _ Hs Hi) as (_ & _ & Hl).
  destruct (Hl Hn Hql) as [_ Ha]. apply Ha.
Qed.

Lemma no_stale_down_witness :
  debounced_q (run [Event demo_down; Event demo_up] demo_client) =
    [_make_port_state (VInt 2) (VInt 1) (VBool true) true] ∧
  puts (Fire 0) (run [Event demo_down; Event demo_up] demo_client) = [] ∧
  (∀ item d' p' v, item ∈ puts (Fire 0) (run [Event demo_down; Event demo_up] demo_client) →
     as_port_state item = Ok (d', Some p', v) → state_key d' p' = Ok "2-1" → truth v = true).
Proof.
  destruct (no_stale_down (VDict []) (Some "sock") demo_client [Event demo_down] [] (Fire 0)
    demo_up (VInt 2) (VBool true) (VBool false) 1 "2-1") as [H1 H2];
    [reflexivity|discriminate|reflexivity|reflexivity|reflexivity|discriminate
    |reflexivity|reflexivity|reflexivity|repeat constructor|].
  split; [exact H1|]. split; [vm_compute; reflexivity|exact H2].
Defined.

(** A report of all ports is delivered completely.  Without debouncing, a
    report of the states of [n] ports at the head of the buffer makes the next
    [n] calls of [next_event] return the [n] port states (the last port
    first), and then the buffer is what followed the report; three rounds per
    call are enough. *)
Theorem ports_status_delivered `{Json} (c : client) (v : val) (rest : list ascii) (d : Z)
    (ports : dict string val) (port : string → Z) (fuel : nat)
    (Hstate : as_port_state v = Ok (VNone, None, VNone))
    (Hstatus : as_ports_status v = Ok (VInt d, VDict ports)) (Hd : d ≠ 0)
    (Hwf : dict_wf ports)
    (Hports : ∀ e, e ∈ ports → to_int (VStr e.1) = Ok (port e.1) ∧ port e.1 ≠ 0)
    (Hne : ports ≠ []) (Hsec : _port_debounce_sec c = 0) (Hq : debounced_q c = [])
    (Hb : buffer c = json_dumps v ++ newline :: rest) (Hfuel : (3 ≤ fuel)%nat) :
  next_events fuel (length ports) c =
    Some (with_buffer rest c, (Ok ∘ reported d port) <$> reverse ports).
Proof.
  rewrite <- length_reverse. assert (∀ e, e ∈ reverse ports → e ∈ ports) as Hrev
    by (intros e; by rewrite elem_of_reverse).
  pose proof (expand_status_ok v d ports (with_buffer rest c) Hstate Hstatus Hd Hwf) as Hx.
  destruct (reverse ports) as [|e l] eqn:El; [apply (f_equal reverse) in El; by rewrite reverse_involutive in El|].
  destruct fuel as [|fuel]; [lia|]. cbn [length next_events]. unfold next_event.
  erewrite next_event_round by done.
  destruct (Hports e) as [Hp1 Hp2]; [apply Hrev; left|].
  rewrite (next_event_raw fuel _ d port e _ (lines (raw_state d <$> l) ++ rest)); try done; [|simpl|lia].
  - cbn [mbind option_bind].
    rewrite (next_events_raw (S fuel) d port l _ rest); try done; [|lia].
    intros e' He'. apply Hports, Hrev. by right.
  - unfold lines. cbn. by rewrite <- !(assoc_L (++)).
Qed.

Lemma ports_status_delivered_witness :
  next_events 3 2 (mkClient (json_dumps demo_status ++ [newline]) [] [] [] 0 [] ∅ 0) =
    Some (mkClient [] [] [] [] 0 [] ∅ 0,
          [Ok (_make_port_state (VInt 2) (VInt 2) (VBool false) true);
           Ok (_make_port_state (VInt 2) (VInt 1) (VBool true) true)]).
Proof.
  refine (ports_status_delivered _ demo_status [] 2 demo_ports demo_port 3
    _ _ _ _ _ _ _ _ _ _); [vm_compute; reflexivity|vm_compute; reflexivity|lia| | |discriminate
    |reflexivity|reflexivity|reflexivity|lia].
  - refine (bool_decide_unpack _ _). vm_compute. exact I.
  - intros e [->|[->|[]%not_elem_of_nil]%elem_of_cons]%elem_of_cons;
      vm_compute; split; [reflexivity|discriminate|reflexivity|discriminate].
Defined.

End FaucetEventClient.
