(* ===== verification/Sessions.v ===== *)
(** * The session server (src/daq/session_server.py, [SessionServer])

    A remote controller opens a session per device and reads a stream of
    progress items until the server ends it.  The server keeps a queue per
    device: its endpoint and a start code when the session opens, heartbeats,
    the device's result, and [False] to end the stream.

    - The gRPC server calls [StartSession] and then drains the stream it
      returns; [stream_step] is one [next] of that generator.
    - [on_session] is a computation on the server, because the runner it calls
      may answer at once; the calls of [on_session_end] are recorded.
    - Times are what [time.time()] returns.  The lock of the server covers
      single operations, which are atomic here. *)

From stdpp Require Import base list gmap strings.
From Stdlib Require Import ZArith Lia.
From S2P Require Import Prelude.

Module SessionServer.
Local Open Scope string_scope.
Local Open Scope list_scope.
Local Open Scope Z_scope.

Definition DEFAULT_DISCONNECT_TIMEOUT_SEC : Z := 120.

(** [PortBehavior.Behavior] as far as the results use it. *)
Inductive Behavior := unknown | authenticated | failed | passed | other_behavior.

(** [SessionResult.ResultCode] *)
Inductive ResultCode := PENDING | STARTED | FAILED | PASSED.

#[global] Instance Behavior_eq_dec : EqDecision Behavior.
Proof. solve_decision. Defined.
#[global] Instance ResultCode_eq_dec : EqDecision ResultCode.
Proof. solve_decision. Defined.

(** [SESSION_DEVICE_RESULT[b]] *)
Definition SESSION_DEVICE_RESULT (b : Behavior) : res ResultCode :=
  match b with
  | unknown => Ok PENDING
  | authenticated => Ok STARTED
  | failed => Ok FAILED
  | passed => Ok PASSED
  | other_behavior => Raise KeyError
  end.

(** [SessionParams] *)
Record request := mkRequest {
  device_mac : string;
  device_vlan : Z;
  assigned_vlan : Z;
  endpoint_ip : string
}.

(** What is put into a queue: a [SessionProgress] or [False]. *)
Inductive item :=
  | Endpoint (ip : option string)
  | Result (code : ResultCode)
  | Progress
  | Close.

#[global] Instance item_eq_dec : EqDecision item.
Proof. solve_decision. Defined.

(** [SessionClient] *)
Record client := mkClient {
  return_queue : list item;
  last_streamed : Z;
  init_request : request
}.

Record server := mkServer {
  _clients : dict string client;
  _local_ip : option string;
  _disconnect_timeout_sec : Z;
  ended : list request
}.

Definition init (local_ip : option string) : server :=
  mkServer [] local_ip DEFAULT_DISCONNECT_TIMEOUT_SEC [].

Definition with_clients (c : dict string client) (s : server) : server :=
  mkServer c (_local_ip s) (_disconnect_timeout_sec s) (ended s).
Definition put (i : item) (c : client) : client :=
  mkClient (return_queue c ++ [i]) (last_streamed c) (init_request c).

(** [self._clients[mac]] *)
Definition client_of (mac : string) : M server client :=
  s ← getS; lift (of_option KeyError (dget mac (_clients s))).

(** [_send_reply] *)
Definition _send_reply (mac : string) (i : item) : M server unit :=
  c ← client_of mac;
  modify (λ s, with_clients (dset mac (put i c) (_clients s)) s).

(** [send_device_result] *)
Definition send_device_result (mac : string) (b : Behavior) : M server unit :=
  s ← getS;
  whenM (dmem mac (_clients s))
    (code ← lift (SESSION_DEVICE_RESULT b); _send_reply mac (Result code)).

(** [close_stream] *)
Definition close_stream (mac : string) : M server unit := _send_reply mac Close.

(** [_init_session] up to the call of [on_session] *)
Definition _open_session (now : Z) (r : request) : M server unit :=
  s ← getS;
  assertM (negb (dmem (device_mac r) (_clients s)));;
  modify (λ s, with_clients (dset (device_mac r) (mkClient [] now r) (_clients s)) s);;
  _send_reply (device_mac r) (Endpoint (_local_ip s));;
  send_device_result (device_mac r) authenticated.

Definition _init_session (on_session : request → M server unit) (now : Z) (r : request) :
    M server unit :=
  _open_session now r;; on_session r.

(** [_reap_session] *)
Definition _reap_session (mac : string) : M server unit :=
  c ← client_of mac;
  modify (λ s, mkServer (ddel mac (_clients s)) (_local_ip s) (_disconnect_timeout_sec s)
                 (ended s ++ [init_request c])).

(** What [next] on the generator of [_session_stream] does. *)
Inductive yielded := Blocked | Yield (i : item) | Stop.

Definition stream_step (now : Z) (mac : string) : M server yielded :=
  c ← client_of mac;
  match return_queue c with
  | [] => mret Blocked
  | i :: q =>
      modify (λ s, with_clients (dset mac (mkClient q now (init_request c)) (_clients s)) s);;
      if bool_decide (i = Close) then _reap_session mac;; mret Stop else mret (Yield i)
  end.

(** The reader goes away: [GeneratorExit] *)
Definition stream_exit (mac : string) : M server unit := _reap_session mac.

(** [send_device_heartbeats] *)
Definition heartbeat_item (now : Z) (s : server) (c : client) : item :=
  if now - last_streamed c <? _disconnect_timeout_sec s then Progress else Close.

Definition send_device_heartbeats (now : Z) : M server unit :=
  s ← getS;
  for_each (dkeys (_clients s)) (λ mac,
    c ← client_of mac; s ← getS; _send_reply mac (heartbeat_item now s c)).

(** ** Lemmas *)

Lemma send_reply_ok mac i c s :
  dget mac (_clients s) = Some c →
  _send_reply mac i s = (with_clients (dset mac (put i c) (_clients s)) s, Ok tt).
Proof.
  intros Hc. unfold _send_reply, client_of, mbind, M_bind, getS, lift, modify.
  by rewrite Hc.
Qed.

Lemma open_session_ok now r s :
  dget (device_mac r) (_clients s) = None →
  _open_session now r s =
    (with_clients (dset (device_mac r)
       (mkClient [Endpoint (_local_ip s); Result STARTED] now r) (_clients s)) s, Ok tt).
Proof.
  intros Hn. unfold _open_session. erewrite bind_ok by reflexivity.
  replace (dmem (device_mac r) (_clients s)) with false by (symmetry; by apply dmem_false).
  erewrite bind_ok by reflexivity. erewrite bind_ok by reflexivity.
  erewrite bind_ok by (apply send_reply_ok; apply dget_dset_eq).
  unfold send_device_result. erewrite bind_ok by reflexivity.
  assert (∀ c, dmem (device_mac r) (dset (device_mac r) c (_clients s)) = true) as Hm
    by (intros c; apply dmem_true; exists c; apply dget_dset_eq).
  cbn [with_clients _clients]. rewrite dset_dset. rewrite Hm. cbn [whenM].
  erewrite bind_ok by reflexivity.
  erewrite send_reply_ok by apply dget_dset_eq.
  unfold with_clients. cbn. by rewrite dset_dset.
Qed.

(** ** Histories *)

(** What happens to the server: remote calls, the runner's calls, and readers. *)
Inductive action :=
  | StartSession (on_session : request → M server unit) (now : Z) (r : request)
  | SendResult (mac : string) (b : Behavior)
  | CloseStream (mac : string)
  | Heartbeats (now : Z)
  | Next (now : Z) (mac : string)
  | Exit (mac : string).

Definition act (a : action) (s : server) : server :=
  match a with
  | StartSession f now r => fst (_init_session f now r s)
  | SendResult mac b => fst (send_device_result mac b s)
  | CloseStream mac => fst (close_stream mac s)
  | Heartbeats now => fst (send_device_heartbeats now s)
  | Next now mac => fst (stream_step now mac s)
  | Exit mac => fst (stream_exit mac s)
  end.

Definition run (l : list action) (s : server) : server := foldl (λ s a, act a s) s l.

(** [n] reads of the stream of [mac], with what they yield. *)
Fixpoint reads (n : nat) (now : Z) (mac : string) (s : server) : list (res yielded) * server :=
  match n with
  | O => ([], s)
  | S n' =>
      let '(s1, r) := stream_step now mac s in
      let '(l, s2) := reads n' now mac s1 in (r :: l, s2)
  end.

(** The items an action puts into the queue of [mac], for a client that was read
    last at [t0]. *)
Definition puts_for (mac : string) (t0 timeout : Z) (a : action) : list item :=
  match a with
  | SendResult m b =>
      if decide (m = mac) then
        match SESSION_DEVICE_RESULT b with Ok c => [Result c] | Raise _ => [] end
      else []
  | CloseStream m => if decide (m = mac) then [Close] else []
  | Heartbeats now => [if now - t0 <? timeout then Progress else Close]
  | _ => []
  end.

(** Actions that neither open nor read a session of [mac]; opening another
    session does not touch this one. *)
Definition leaves_stream (mac : string) (a : action) : Prop :=
  match a with
  | StartSession f _ r =>
      device_mac r ≠ mac ∧
      ∀ s, dget mac (_clients (fst (f r s))) = dget mac (_clients s) ∧
           _disconnect_timeout_sec (fst (f r s)) = _disconnect_timeout_sec s ∧
           (dict_wf (_clients s) → dict_wf (_clients (fst (f r s))))
  | Next _ m | Exit m => m ≠ mac
  | _ => True
  end.

(** The session of [mac] holds the items [q], was opened with [r] and read last
    at [t0]. *)
Record session (mac : string) (q : list item) (t0 timeout : Z) (r : request) (s : server) : Prop := {
  s_client : dget mac (_clients s) = Some (mkClient q t0 r);
  s_timeout : _disconnect_timeout_sec s = timeout;
  s_wf : dict_wf (_clients s)
}.

Lemma session_other mac m c q t0 tmo r s :
  m ≠ mac → session mac q t0 tmo r s → session mac q t0 tmo r (with_clients (dset m c (_clients s)) s).
Proof.
  intros Hne [Hc Ht Hw]. split; simpl; [by rewrite dget_dset_ne|done|by apply dict_wf_dset].
Qed.

Lemma session_reply mac q t0 tmo r s m i :
  session mac q t0 tmo r s →
  session mac (q ++ if decide (m = mac) then [i] else []) t0 tmo r (fst (_send_reply m i s)).
Proof.
  intros Hs. destruct (dget m (_clients s)) as [c|] eqn:Hm.
  - rewrite (send_reply_ok _ _ _ _ Hm). cbn [fst]. case_decide as Hmac.
    + subst. destruct Hs as [Hc Ht Hw]. rewrite Hc in Hm. injection Hm as <-.
      split; simpl; [by rewrite dget_dset_eq|done|by apply dict_wf_dset].
    + rewrite app_nil_r. by apply session_other.
  - assert (fst (_send_reply m i s) = s) as ->.
    { unfold _send_reply, client_of, mbind, M_bind, getS, lift. by rewrite Hm. }
    rewrite decide_False; [by rewrite app_nil_r|]. intros ->.
    destruct Hs as [Hc _ _]. congruence.
Qed.

Lemma session_reap mac m q t0 tmo r s :
  m ≠ mac → session mac q t0 tmo r s → session mac q t0 tmo r (fst (_reap_session m s)).
Proof.
  intros Hne [Hc Ht Hw]. unfold _reap_session, client_of, mbind, M_bind, getS, lift, modify.
  destruct (dget m (_clients s)); [|by split].
  split; simpl; [by rewrite dget_ddel_ne|done|by apply dict_wf_ddel].
Qed.

(** A round of heartbeats puts one item into every queue. *)
Lemma session_beats mac now t0 tmo r l s q :
  NoDup l → (∀ m, m ∈ l → is_Some (dget m (_clients s))) → session mac q t0 tmo r s →
  session mac (q ++ if decide (mac ∈ l) then [if now - t0 <? tmo then Progress else Close] else [])
    t0 tmo r (fst (for_each l (λ m, c ← client_of m; s ← getS;
                                  _send_reply m (heartbeat_item now s c)) s)).
Proof.
  intros Hnd. revert s q. induction Hnd as [|m l Hm Hnd IH]; intros s q Hl Hs.
  { rewrite decide_False by set_solver. by rewrite app_nil_r. }
  cbn [for_each]. destruct (Hl m) as [c Hc]; [set_solver|].
  assert (client_of m s = (s, Ok c)) as Hcl.
  { unfold client_of, mbind, M_bind, getS, lift. by rewrite Hc. }
  pose proof (session_reply mac q t0 tmo r s m (heartbeat_item now s c) Hs) as H1.
  erewrite bind_ok; cycle 1.
  { erewrite bind_ok by exact Hcl. erewrite bind_ok by reflexivity. by apply send_reply_ok. }
  rewrite (send_reply_ok _ _ _ _ Hc) in H1. cbn [fst] in H1.
  assert (∀ m', m' ∈ l → is_Some (dget m'
    (_clients (with_clients (dset m (put (heartbeat_item now s c) c) (_clients s)) s)))) as Hl'.
  { intros m' Hm'. simpl. rewrite dget_dset. destruct (decide (m' = m)); [eauto|]. apply Hl. set_solver. }
  pose proof (IH _ _ Hl' H1) as H2.
  match goal with H : session _ ?a _ _ _ _ |- session _ ?b _ _ _ _ => replace b with a; [done|] end.
  destruct (decide (m = mac)) as [->|Hne].
  - rewrite decide_False by done. rewrite decide_True by set_solver. rewrite app_nil_r.
    destruct Hs as [Hmc Ht _]. rewrite Hmc in Hc. injection Hc as <-.
    unfold heartbeat_item. cbn [last_streamed]. by rewrite Ht.
  - rewrite app_nil_r. do 2 case_decide; first [done|set_solver].
Qed.

Lemma session_act mac q t0 tmo r s a :
  leaves_stream mac a → session mac q t0 tmo r s →
  session mac (q ++ puts_for mac t0 tmo a) t0 tmo r (act a s).
Proof.
  intros Ha Hs. destruct a as [f now r'|m b|m|now|now m|m]; cbn [act puts_for leaves_stream] in *.
  - rewrite app_nil_r. destruct Ha as [Hne Hf]. unfold _init_session.
    assert (session mac q t0 tmo r (fst (_open_session now r' s))) as H1.
    { destruct (dget (device_mac r') (_clients s)) eqn:Hd.
      - unfold _open_session, mbind, M_bind, getS, assertM.
        replace (dmem (device_mac r') (_clients s)) with true; [done|].
        symmetry. apply dmem_true. eauto.
      - rewrite open_session_ok by done. by apply session_other. }
    unfold mbind, M_bind. destruct (_open_session now r' s) as [s1 [[]|e]]; cbn [fst] in *; [|done].
    destruct (Hf s1) as (F1 & F2 & F3), H1 as [G1 G2 G3].
    split; [by rewrite F1|by rewrite F2|auto].
  - unfold send_device_result, mbind at 1, M_bind at 1, getS.
    destruct (dmem m (_clients s)) eqn:Hm; cbn [whenM].
    + unfold mbind, M_bind, lift. destruct (SESSION_DEVICE_RESULT b).
      * by apply session_reply.
      * cbn [fst]. by case_decide; rewrite app_nil_r.
    + cbn [mret M_ret fst]. rewrite decide_False; [by rewrite app_nil_r|]. intros ->.
      destruct Hs as [Hc _ _]. unfold dmem in Hm. by rewrite Hc in Hm.
  - by apply session_reply.
  - unfold send_device_heartbeats. erewrite bind_ok by reflexivity.
    pose proof Hs as [Hc _ Hw].
    assert (mac ∈ dkeys (_clients s)) as Hin.
    { destruct (decide (mac ∈ dkeys (_clients s))) as [|Hni]; [done|].
      apply dget_None in Hni. congruence. }
    assert (∀ m, m ∈ dkeys (_clients s) → is_Some (dget m (_clients s))) as Hall.
    { intros m Hm. destruct (dget m (_clients s)) eqn:E; [by eexists|]. by apply dget_None in E. }
    pose proof (session_beats mac now t0 tmo r _ _ q Hw Hall Hs) as H.
    by rewrite decide_True in H.
  - rewrite app_nil_r. unfold stream_step, client_of, mbind, M_bind, getS, lift, modify, mret, M_ret.
    destruct (dget m (_clients s)) as [c|] eqn:Hm; [|done]. cbn [of_option].
    destruct (return_queue c) as [|i l]; [done|].
    assert (session mac q t0 tmo r
      (with_clients (dset m (mkClient l now (init_request c)) (_clients s)) s)) as H1
      by by apply session_other.
    case_bool_decide; [|done]. pose proof (session_reap mac m q t0 tmo r _ Ha H1) as H2.
    by destruct (_reap_session m _) as [? []].
  - rewrite app_nil_r. by apply session_reap.
Qed.

Lemma session_run mac q t0 tmo r l s :
  Forall (leaves_stream mac) l → session mac q t0 tmo r s →
  session mac (q ++ (l ≫= puts_for mac t0 tmo)) t0 tmo r (run l s).
Proof.
  intros Hl. revert q s. induction Hl as [|a l Ha Hl IH]; intros q s Hs.
  { by rewrite app_nil_r. }
  simpl. rewrite app_assoc. apply IH. by apply session_act.
Qed.

(** Reading a queue to its end. *)
Lemma reads_queue mac q rest t0 tmo now r s :
  Close ∉ q → session mac (q ++ Close :: rest) t0 tmo r s →
  reads (S (length q)) now mac s =
    ((Ok ∘ Yield <$> q) ++ [Ok Stop],
     mkServer (ddel mac (_clients s)) (_local_ip s) (_disconnect_timeout_sec s) (ended s ++ [r])).
Proof.
  revert t0 s. induction q as [|i q IH]; intros t0 s Hq [Hc Ht Hw].
  - cbn [reads length app].
    assert (stream_step now mac s = (mkServer (ddel mac (_clients s)) (_local_ip s)
      (_disconnect_timeout_sec s) (ended s ++ [r]), Ok Stop)) as ->; [|done].
    unfold stream_step. erewrite bind_ok; cycle 1.
    { unfold client_of, mbind, M_bind, getS, lift. by rewrite Hc. }
    cbn [return_queue app]. erewrite bind_ok by reflexivity.
    rewrite bool_decide_true by done.
    erewrite bind_ok; [reflexivity|].
    unfold _reap_session. erewrite bind_ok; cycle 1.
    { unfold client_of, mbind, M_bind, getS, lift. cbn. by rewrite dget_dset_eq. }
    unfold modify. cbn. by rewrite ddel_dset.
  - cbn [reads length].
    set (s1 := with_clients (dset mac (mkClient (q ++ Close :: rest) now r) (_clients s)) s).
    assert (stream_step now mac s = (s1, Ok (Yield i))) as ->.
    { unfold stream_step. erewrite bind_ok; cycle 1.
      { unfold client_of, mbind, M_bind, getS, lift. by rewrite Hc. }
      cbn [return_queue app]. erewrite bind_ok by reflexivity.
      by rewrite bool_decide_false by set_solver. }
    specialize (IH now s1 ltac:(set_solver)).
    cbn [reads] in IH. rewrite IH; [|split; [apply dget_dset_eq|done|by apply dict_wf_dset]].
    cbn. by rewrite ddel_dset.
Qed.

(** ** Properties *)

Definition demo_request : request := mkRequest "9a:02:57:1e:8f:01" 10 20 "10.0.0.9".
Definition other_request : request := mkRequest "3c:5a:b4:1e:8f:0b" 11 21 "10.0.0.9".
Definition accept_session (r : request) : M server unit := mret tt.

(** Another device's session, heartbeats, and the results of both devices. *)
Definition demo_actions : list action :=
  [StartSession accept_session 3 other_request; Heartbeats 5;
   SendResult "3c:5a:b4:1e:8f:0b" failed; SendResult "9a:02:57:1e:8f:01" passed;
   CloseStream "9a:02:57:1e:8f:01"].

Lemma demo_leaves : Forall (leaves_stream (device_mac demo_request)) demo_actions.
Proof.
  unfold demo_actions. apply Forall_cons. split; [|by repeat constructor].
  split; [discriminate|]. intros s. by split_and!.
Qed.



(** A session that the runner refuses blocks its device.  When [on_session]
    raises, the client stays registered although nobody reads its stream, so
    that after anything but a read of that stream every further session of the
    same device is refused, and nothing changes. *)
Theorem refused_session_sticks (s : server) (f g : request → M server unit) (now t : Z)
    (r r' : request) (l : list action) (e : exn)
    (Hwf : dict_wf (_clients s)) (Hnew : dget (device_mac r) (_clients s) = None)
    (Hf : ∀ s, f r s = (s, Raise e))
    (Hl : Forall (leaves_stream (device_mac r)) l) (Hsame : device_mac r' = device_mac r) :
  snd (_init_session f now r s) = Raise e ∧
  let s1 := run l (act (StartSession f now r) s) in
  _init_session g t r' s1 = (s1, Raise AssertionError).
Proof.
  assert (session (device_mac r) [Endpoint (_local_ip s); Result STARTED] now
    (_disconnect_timeout_sec s) r (act (StartSession f now r) s)) as H0.
  { cbn [act]. unfold _init_session. erewrite bind_ok by by apply open_session_ok. rewrite Hf.
    split; [apply dget_dset_eq|done|by apply dict_wf_dset]. }
  split.
  - unfold _init_session. erewrite bind_ok by by apply open_session_ok. by rewrite Hf.
  - cbv zeta. destruct (session_run _ _ _ _ _ l _ Hl H0) as [Hc _ _].
    unfold _init_session, _open_session, mbind, M_bind, getS, assertM.
    replace (dmem (device_mac r') _) with true; [done|].
    symmetry. apply dmem_true. rewrite Hsame. eauto.
Qed.

Lemma refused_session_sticks_witness :
  snd (_init_session (λ _, raise AssertionError) 0 demo_request (init None)) = Raise AssertionError ∧
  snd (_init_session accept_session 500 demo_request
         (run [Heartbeats 200] (act (StartSession (λ _, raise AssertionError) 0 demo_request)
            (init None)))) = Raise AssertionError.
Proof.
  destruct (refused_session_sticks (init None) (λ _, raise AssertionError) accept_session 0 500
    demo_request demo_request [Heartbeats 200] AssertionError) as [H1 H2];
    [apply NoDup_nil_2|reflexivity|reflexivity|repeat constructor|reflexivity|].
  split; [exact H1|]. rewrite H2. reflexivity.
Defined.

End SessionServer.
