(* ===== verification/Runner.v ===== *)
(** * The runner (src/daq/runner.py, [DAQRunner])

    The runner learns devices from the controller's events, queues them, gives
    each (or each group) a gateway with a port set of its own, starts a host per
    device, and ends its run on errors, on completion and on shutdown.

    - Devices, port infos and gateways are shared objects, by reference; the
      registry is that of [Devices], the gateways are those of [Gateway].
    - What lies outside (mininet, containers, the cloud, the topology files) may
      return or raise at every call, and answers the questions the runner asks;
      the outcomes are an oracle indexed by the number of calls so far ([renv]).
    - Hosts are known by their calls: a host may call the runner back about its
      own device ([target_set_error], [target_set_complete]) any number of times
      before its call returns or raises; the oracle lists these callbacks.  The
      host itself is modelled in [Host].
    - The controller's events are those the event client still has to deliver
      ([incoming]).  Handling an event may, in single shot mode, handle further
      events before it ends, so the handlers take the event loop as an argument
      and [_handle_faucet_events] ties the knot.
    - The event lock makes every entry point atomic. *)

From stdpp Require Import base list gmap strings.
From Stdlib Require Import ZArith Lia.
From S2P Require Import Prelude PyVal PyText Devices Gateway FaucetEvents Sessions.

Module DAQRunner.
Local Open Scope string_scope.
Local Open Scope list_scope.
Local Open Scope Z_scope.

Definition MAX_GATEWAYS : Z := 9.

(** ** Results *)

(** A recorded result: its return code and its exception message.  The name it
    is recorded under is its key. *)
Record rresult := mkResult {
  code : option Z;
  message : option string
}.
Abbreviation result_set := (dict string rresult) (only parsing).

(** One entry of the combined results. *)
Inductive status := Message (m : string) | Code (c : Z).
Record failure := mkFailure { f_key : nat; f_name : string; f_status : status }.

Definition true_string (o : option string) : bool :=
  match o with Some s => negb (bool_decide (s = "")) | None => false end.

(** The status of a result, if it counts as a failure. *)
Definition status_of (r : rresult) : option status :=
  if true_string (message r) then Some (Message (default "" (message r)))
  else if default 0 (code r) =? 0 then None else Some (Code (default 0 (code r))).

(** [_combine_result_set] *)
Definition _combine_result_set (key : nat) (rs : result_set) : list failure :=
  PyText.sort_keys (dkeys rs) ≫= λ name,
    match dget name rs ≫= status_of with
    | Some st => [mkFailure key name st]
    | None => []
    end.

(** [_combine_results] *)
Definition _combine_results (sets : dict nat result_set) : list failure :=
  sets ≫= λ '(key, rs), _combine_result_set key rs.

(** The report of a terminated host. *)
Record module_result := mkModule {
  m_exception : option string;
  m_return_code : option Z;
  m_tests : dict string (option string)
}.

Definition test_passed (r : option string) : bool :=
  bool_decide (r = Some "pass") || bool_decide (r = Some "skip").

Definition module_failed (m : module_result) : bool :=
  true_string (m_exception m) || Devices.truthy (m_return_code m) ||
  existsb (λ t, negb (test_passed (snd t))) (m_tests m).

(** [_calculate_device_result]; [enabled] is the number of enabled tests. *)
Definition _calculate_device_result (enabled : nat) (modules : dict string module_result) :
    SessionServer.Behavior :=
  let failed := existsb (λ m, module_failed (snd m)) modules in
  let processed := filter (λ m, is_Some (m_return_code (snd m))) modules in
  if failed || negb (Nat.eqb enabled (length processed))
  then SessionServer.failed else SessionServer.passed.

(** ** The state *)

(** What [next_event] of the event client does next. *)
Inductive outcome := Event (e : val) | Disconnected | Broken.

(** The configuration the runner reads. *)
Record conf := mkConf {
  result_linger : bool;
  single_shot : bool;
  fail_mode : bool;
  run_limit : Z;
  _max_hosts : option Z;
  native_vlan : option Z;
  vlan_trigger : bool;
  _default_port_flap_timeout : Z;
  sec_dpid : option Z;
  sec_port : Z;
  ext_intf : option string;
  ext_mac : option string
}.

Record Runner := mkRunner {
  devs : Devices.Devices;
  gws : gmap nat Gateway.Gateway;
  gateway_sets : gset Z;
  _ports : dict Z nat;
  _target_set_queue : list nat;
  _result_sets : dict nat result_set;
  _native_gateway : option nat;
  _system_active : bool;
  run_tests : bool;
  run_count : Z;
  _linger_exit : Z;
  faucet_events : bool;
  incoming : list outcome;
  exception : bool;
  _device_result_handler : option SessionServer.server;
  next : nat;
  calls : nat
}.

Definition set_devs (x : Devices.Devices) (s : Runner) : Runner :=
  mkRunner x (gws s) (gateway_sets s) (_ports s) (_target_set_queue s) (_result_sets s)
    (_native_gateway s) (_system_active s) (run_tests s) (run_count s) (_linger_exit s) (faucet_events s)
    (incoming s) (exception s) (_device_result_handler s) (next s) (calls s).
Definition set_gws (x : gmap nat Gateway.Gateway) (s : Runner) : Runner :=
  mkRunner (devs s) x (gateway_sets s) (_ports s) (_target_set_queue s) (_result_sets s)
    (_native_gateway s) (_system_active s) (run_tests s) (run_count s) (_linger_exit s) (faucet_events s)
    (incoming s) (exception s) (_device_result_handler s) (next s) (calls s).
Definition set_gateway_sets (x : gset Z) (s : Runner) : Runner :=
  mkRunner (devs s) (gws s) x (_ports s) (_target_set_queue s) (_result_sets s)
    (_native_gateway s) (_system_active s) (run_tests s) (run_count s) (_linger_exit s) (faucet_events s)
    (incoming s) (exception s) (_device_result_handler s) (next s) (calls s).
Definition set_ports (x : dict Z nat) (s : Runner) : Runner :=
  mkRunner (devs s) (gws s) (gateway_sets s) x (_target_set_queue s) (_result_sets s)
    (_native_gateway s) (_system_active s) (run_tests s) (run_count s) (_linger_exit s) (faucet_events s)
    (incoming s) (exception s) (_device_result_handler s) (next s) (calls s).
Definition set_queue (x : list nat) (s : Runner) : Runner :=
  mkRunner (devs s) (gws s) (gateway_sets s) (_ports s) x (_result_sets s)
    (_native_gateway s) (_system_active s) (run_tests s) (run_count s) (_linger_exit s) (faucet_events s)
    (incoming s) (exception s) (_device_result_handler s) (next s) (calls s).
Definition set_result_sets (x : dict nat result_set) (s : Runner) : Runner :=
  mkRunner (devs s) (gws s) (gateway_sets s) (_ports s) (_target_set_queue s) x
    (_native_gateway s) (_system_active s) (run_tests s) (run_count s) (_linger_exit s) (faucet_events s)
    (incoming s) (exception s) (_device_result_handler s) (next s) (calls s).
Definition set_native (x : option nat) (s : Runner) : Runner :=
  mkRunner (devs s) (gws s) (gateway_sets s) (_ports s) (_target_set_queue s) (_result_sets s)
    x (_system_active s) (run_tests s) (run_count s) (_linger_exit s) (faucet_events s)
    (incoming s) (exception s) (_device_result_handler s) (next s) (calls s).
Definition set_system_active (x : bool) (s : Runner) : Runner :=
  mkRunner (devs s) (gws s) (gateway_sets s) (_ports s) (_target_set_queue s) (_result_sets s)
    (_native_gateway s) x (run_tests s) (run_count s) (_linger_exit s) (faucet_events s)
    (incoming s) (exception s) (_device_result_handler s) (next s) (calls s).
Definition set_run_tests (x : bool) (s : Runner) : Runner :=
  mkRunner (devs s) (gws s) (gateway_sets s) (_ports s) (_target_set_queue s) (_result_sets s)
    (_native_gateway s) (_system_active s) x (run_count s) (_linger_exit s) (faucet_events s)
    (incoming s) (exception s) (_device_result_handler s) (next s) (calls s).
Definition set_run_count (x : Z) (s : Runner) : Runner :=
  mkRunner (devs s) (gws s) (gateway_sets s) (_ports s) (_target_set_queue s) (_result_sets s)
    (_native_gateway s) (_system_active s) (run_tests s) x (_linger_exit s) (faucet_events s)
    (incoming s) (exception s) (_device_result_handler s) (next s) (calls s).
Definition set_linger_exit (x : Z) (s : Runner) : Runner :=
  mkRunner (devs s) (gws s) (gateway_sets s) (_ports s) (_target_set_queue s) (_result_sets s)
    (_native_gateway s) (_system_active s) (run_tests s) (run_count s) x (faucet_events s)
    (incoming s) (exception s) (_device_result_handler s) (next s) (calls s).
Definition set_faucet_events (x : bool) (s : Runner) : Runner :=
  mkRunner (devs s) (gws s) (gateway_sets s) (_ports s) (_target_set_queue s) (_result_sets s)
    (_native_gateway s) (_system_active s) (run_tests s) (run_count s) (_linger_exit s) x
    (incoming s) (exception s) (_device_result_handler s) (next s) (calls s).
Definition set_incoming (x : list outcome) (s : Runner) : Runner :=
  mkRunner (devs s) (gws s) (gateway_sets s) (_ports s) (_target_set_queue s) (_result_sets s)
    (_native_gateway s) (_system_active s) (run_tests s) (run_count s) (_linger_exit s) (faucet_events s)
    x (exception s) (_device_result_handler s) (next s) (calls s).
Definition set_exception (x : bool) (s : Runner) : Runner :=
  mkRunner (devs s) (gws s) (gateway_sets s) (_ports s) (_target_set_queue s) (_result_sets s)
    (_native_gateway s) (_system_active s) (run_tests s) (run_count s) (_linger_exit s) (faucet_events s)
    (incoming s) x (_device_result_handler s) (next s) (calls s).
Definition set_handler (x : option SessionServer.server) (s : Runner) : Runner :=
  mkRunner (devs s) (gws s) (gateway_sets s) (_ports s) (_target_set_queue s) (_result_sets s)
    (_native_gateway s) (_system_active s) (run_tests s) (run_count s) (_linger_exit s) (faucet_events s)
    (incoming s) (exception s) x (next s) (calls s).
Definition set_next (x : nat) (s : Runner) : Runner :=
  mkRunner (devs s) (gws s) (gateway_sets s) (_ports s) (_target_set_queue s) (_result_sets s)
    (_native_gateway s) (_system_active s) (run_tests s) (run_count s) (_linger_exit s) (faucet_events s)
    (incoming s) (exception s) (_device_result_handler s) x (calls s).
Definition set_calls (x : nat) (s : Runner) : Runner :=
  mkRunner (devs s) (gws s) (gateway_sets s) (_ports s) (_target_set_queue s) (_result_sets s)
    (_native_gateway s) (_system_active s) (run_tests s) (run_count s) (_linger_exit s) (faucet_events s)
    (incoming s) (exception s) (_device_result_handler s) (next s) x.
Definition tick (s : Runner) : Runner := set_calls (S (calls s)) s.

(** Calls out of the runner, and the questions it asks. *)
Inductive rcall :=
  | GroupFor | InitGateway | StopDhcp | NewHost | InitHost | DirectPort | DirectDevice
  | ReleaseDevice | RecordResult | TerminateHost | GatewayCall (c : Gateway.ext_call)
  | ScanFinalize | ActivateGateway | Publish | StopServer | Reconnect | DisconnectEvents
  | IdleHandler | HostHeartbeat | HostIpNotify | NotifyActivate | TriggerReady | Trigger
  | ConfigureTap | InitNetwork | ActivateNetwork | StartServer
  | IsRunning | Notified | IsTriggerReady | Triggered.

(** What the environment does at the [n]-th call. *)
Class renv := {
  rok : nat → rcall → bool;
  rans : nat → rcall → bool;
  rcbs : nat → rcall → list (option exn);
  rgroup : nat → option string;
  rgroup_size : nat → Z;
  rpick : nat → Z;
  rtime : nat → Z;
  rresults : nat → result_set;
  rreport : nat → dict string module_result;
  renabled : nat → nat;
  rflap : nat → option Z
}.

Section runner.
Context `{E : renv} (C : conf).

Abbreviation RM := (M Runner) (only parsing).

(** ** Primitives *)

Definition call (x : rcall) : RM unit := λ s,
  (tick s, if rok (calls s) x then Ok tt else Raise OtherException).
Definition ask (x : rcall) : RM bool := λ s, (tick s, Ok (rans (calls s) x)).
Definition oracle {A} (f : nat → A) : RM A := λ s, (tick s, Ok (f (calls s))).

Definition on_devs {A} (m : M Devices.Devices A) : RM A := λ s,
  let '(d, r) := m (devs s) in (set_devs d s, r).

(** The object behind a reference. *)
Definition dev (r : nat) : RM Devices.Device :=
  s ← getS; lift (of_option AttributeError (Devices.dev_heap (devs s) !! r)).
Definition upd (r : nat) (f : Devices.Device → Devices.Device) : RM unit :=
  on_devs (modify (Devices.upd_dev r f)).
Definition upd_port (p : nat) (f : Devices.PortInfo → Devices.PortInfo) : RM unit :=
  on_devs (modify (Devices.upd_port p f)).

(** [device.port], as an object *)
Definition port_of (r : nat) : RM Devices.PortInfo :=
  d ← dev r;
  s ← getS;
  lift (of_option AttributeError (Devices.port d ≫= λ p, Devices.port_heap (devs s) !! p)).
Definition port_ref (r : nat) : RM nat :=
  d ← dev r; lift (of_option AttributeError (Devices.port d)).

Definition gw (g : nat) : RM Gateway.Gateway :=
  s ← getS; lift (of_option AttributeError (gws s !! g)).
Definition on_gw {A} (g : nat) (m : M Gateway.Gateway A) : RM A := λ s,
  match gws s !! g with
  | Some o => let '(o', r) := m o in (set_gws (<[g := o']> (gws s)) s, r)
  | None => (s, Raise AttributeError)
  end.

Definition triggered_devices (s : Runner) : list nat := Devices.get_triggered_devices (devs s).

(** ** Ports *)

(** [_activate_port] *)
Definition _activate_port (port : Z) : RM unit :=
  s ← getS;
  (match dget port (_ports s) with
   | Some _ => mret tt
   | None =>
       p ← on_devs (Devices.alloc_port Devices.PortInfo_init);
       modify (λ s, set_ports (dset port p (_ports s)) s);;
       upd_port p (Devices.with_port_no (Some port))
   end);;
  s ← getS;
  p ← lift (of_option KeyError (dget port (_ports s)));
  upd_port p (Devices.with_flapping (Some 0));;
  upd_port p (Devices.with_active true).

(** [_is_port_active] *)
Definition _is_port_active (port : Z) (s : Runner) : bool :=
  match dget port (_ports s) ≫= λ p, Devices.port_heap (devs s) !! p with
  | Some pi => Devices.active pi
  | None => false
  end.

(** [_deactivate_port] *)
Definition _deactivate_port (port : Z) : RM unit :=
  s ← getS;
  p ← lift (of_option KeyError (dget port (_ports s)));
  upd_port p (Devices.with_active false).

(** [_send_heartbeat] *)
Definition _send_heartbeat : RM unit :=
  call Publish;;
  now ← oracle rtime;
  s ← getS;
  match _device_result_handler s with
  | None => mret tt
  | Some h =>
      let '(h', r) := SessionServer.send_device_heartbeats now h in
      modify (set_handler (Some h'));; lift r
  end.

(** ** The end of a target set *)

(** [_send_device_result]; an exception of the handler is logged. *)
Definition _send_device_result (r : nat) (report : option (dict string module_result)) : RM unit :=
  s ← getS;
  match _device_result_handler s with
  | None => mret tt
  | Some h =>
      enabled ← oracle renabled;
      d ← dev r;
      let b := match report with
               | None => SessionServer.failed
               | Some m => _calculate_device_result enabled m
               end in
      let '(h', _) := (SessionServer.send_device_result (Devices.mac d) b;;
                       SessionServer.close_stream (Devices.mac d)) h in
      modify (set_handler (Some h'))
  end.

(** [gateway.terminate()] *)
Definition gateway_terminate (g : nat) : RM unit :=
  (λ s,
    let ext c := if rok (calls s) (GatewayCall c) then Ok tt else Raise OtherException in
    match gws s !! g with
    | Some o =>
        let '(o', _, r) := Gateway.terminate ext o in (set_gws (<[g := o']> (gws s)) (tick s), r)
    | None => (s, Raise AttributeError)
    end);;
  call ScanFinalize.

(** [_detach_gateway] *)
Definition _detach_gateway (r : nat) : RM unit :=
  d ← dev r;
  match Devices.gateway d with
  | None => mret tt
  | Some g =>
      left ← on_gw g (Gateway.detach_target (Devices.mac d));
      whenM (left =? 0)
        (gateway_terminate g;;
         o ← gw g;
         modify (λ s, set_gateway_sets ({[Gateway.port_set o]} ∪ gateway_sets s) s);;
         whenM (Devices.truthy (Devices.vlan d)) (call ReleaseDevice));;
      upd r (Devices.with_gateway None)
  end.

Definition remove_first (r : nat) (l : list nat) : list nat :=
  match list_find (λ x, x = r) l with Some (i, _) => delete i l | None => l end.

(** [_target_set_cancel] *)
Definition _target_set_cancel (r : nat) : RM unit :=
  modify (λ s, set_queue (remove_first r (_target_set_queue s)) s);;
  d ← dev r;
  match Devices.host d with
  | None => mret tt
  | Some _ =>
      p ← port_of r;
      s ← getS;
      let results := _combine_result_set r (default [] (dget r (_result_sets s))) in
      let this_linger := negb (Nat.eqb (length results) 0) && result_linger C in
      gateway_linger ← match Devices.gateway d with
                       | None => mret false
                       | Some g => o ← gw g; mret (Gateway.result_linger o)
                       end;
      if gateway_linger || this_linger then
        whenM (Devices.truthy (Devices.port_no p)) (_activate_port (default 0 (Devices.port_no p)));;
        match Devices.gateway d with
        | None => raise AttributeError
        | Some g => on_gw g (modify (Gateway.with_linger true))
        end
      else
        whenM (Devices.truthy (Devices.port_no p)) (call DirectPort);;
        _detach_gateway r;;
        call TerminateHost;;
        report ← oracle rreport;
        _send_device_result r (Some report)
  end.

(** The handlers below may handle further controller events. *)
Section events.
Context (handle_events : RM unit).

(** [_target_set_finalize] *)
Definition _target_set_finalize (r : nat) (rs : result_set) : RM unit :=
  let results := _combine_result_set r rs in
  whenM (negb (Nat.eqb (length results) 0) && (fail_mode C || result_linger C))
    (modify (set_run_tests false);;
     whenM (result_linger C) (modify (set_linger_exit 1)));;
  modify (λ s, set_result_sets (dset r rs (_result_sets s)) s);;
  s ← getS;
  whenM (negb (run_limit C =? 0) && (run_limit C <=? run_count s) && run_tests s)
    (modify (set_run_tests false));;
  s ← getS;
  whenM (single_shot C && run_tests s)
    (handle_events;; modify (set_run_tests false));;
  upd r (Devices.with_host None);;
  on_devs (Devices.remove r).

(** [target_set_complete] *)
Definition target_set_complete (r : nat) : RM unit :=
  try_except (_target_set_cancel r)
    (λ e, d ← dev r;
          match Devices.host d with
          | None => raise AttributeError
          | Some _ => call RecordResult
          end);;
  d ← dev r;
  match Devices.host d with
  | None => raise AttributeError
  | Some _ => rs ← oracle rresults; _target_set_finalize r rs
  end.

(** [target_set_error] *)
Definition target_set_error (r : nat) (e : exn) : RM unit :=
  d ← dev r;
  match Devices.host d with
  | Some _ => call RecordResult;; target_set_complete r
  | None =>
      _target_set_finalize r [("exception", mkResult None (Some "exception"))];;
      _send_device_result r None;;
      _detach_gateway r
  end.

(** A call of the device's host, with the callbacks the host makes meanwhile. *)
Definition host_call (r : nat) (x : rcall) : RM unit :=
  d ← dev r;
  match Devices.host d with
  | None => raise AttributeError
  | Some _ =>
      cbs ← oracle (λ n, rcbs n x);
      for_each cbs (λ cb, match cb with
                          | Some e => target_set_error r e
                          | None => target_set_complete r
                          end);;
      call x
  end.

(** ** The start of a target set *)

(** [_target_set_has_capacity] *)
Definition _target_set_has_capacity (s : Runner) : bool :=
  match _max_hosts C with
  | None => true
  | Some n => Z.of_nat (length (triggered_devices s)) <? n
  end.

(** [set.pop]: any element *)
Definition pop_set (k : Z) (X : gset Z) : option Z :=
  if decide (k ∈ X) then Some k else head (elements X).

(** [_find_gateway_set] *)
Definition _find_gateway_set (r : nat) : RM Z :=
  p ← port_of r;
  k ← oracle rpick;
  s ← getS;
  n ← lift (of_option OtherException
        match Devices.port_no p with
        | Some n => if decide (n ∈ gateway_sets s) then Some n else pop_set k (gateway_sets s)
        | None => pop_set k (gateway_sets s)
        end);
  modify (λ s, set_gateway_sets (gateway_sets s ∖ {[n]}) s);;
  mret n.

(** [gateway.initialize()]: the gateway's host and dummy and its DHCP monitor *)
Definition initialized (h : nat) (o : Gateway.Gateway) : Gateway.Gateway :=
  Gateway.mkGateway (Gateway.name o) (Gateway.port_set o) (Some h)
    (if Gateway._is_native o then None else Some h) (Gateway.targets o) (Gateway.test_ports o)
    (Gateway.ready o) (Gateway.activated o) (Gateway.result_linger o) true (Gateway._is_native o).

Definition new_gateway (name : string) (set_num : Z) (ext : option string) : RM nat :=
  o ← lift (Gateway.init name set_num ext);
  s ← getS;
  modify (λ s, set_next (S (next s)) (set_gws (<[next s := o]> (gws s)) s));;
  mret (next s).

(** [_create_gateway]; without a device, the native gateway *)
Definition _create_gateway (device : option nat) : RM nat :=
  s ← getS;
  assertM (negb (bool_decide (device = None)) || bool_decide (_native_gateway s = None));;
  match _native_gateway s with
  | Some g => mret g
  | None =>
      let start name set_num ext :=
        g ← new_gateway name set_num ext;
        try_except (call InitGateway;; on_gw g (modify (initialized g)))
          (λ e, modify (λ s, set_gateway_sets ({[set_num]} ∪ gateway_sets s) s);; raise e);;
        mret g in
      match device with
      | None =>
          g ← start "native" 1 (ext_intf C);
          on_gw g Gateway.activate;;
          call ActivateGateway;;
          mret g
      | Some r =>
          d ← dev r;
          s ← getS;
          let members := match Devices.group d with
                         | Some n => Devices.get_by_group n (devs s)
                         | None => []
                         end in
          let existing := remove_dups (omap (λ m, Devices.dev_heap (devs s) !! m ≫= Devices.gateway) members) in
          match existing with
          | [] => set_num ← _find_gateway_set r; start (default "" (Devices.group d)) set_num None
          | [g] => mret g
          | _ => raise AssertionError
          end
      end
  end.

(** The first part of [_target_set_activate]: the gateway of the device, or
    [None] when the device is not to be activated. *)
Definition acquire_gateway (r : nat) (external_dhcp : bool) : RM (option nat) :=
  try_except
    (group ← oracle rgroup;
     name ← lift (of_option OtherException group);
     upd r (Devices.with_group (Some name));;
     g ← _create_gateway (Some r);
     o ← gw g;
     mret (if Gateway.activated o && negb external_dhcp then None else Some g))
    (λ e, whenM (fail_mode C) (modify (set_run_tests false));; mret None).

(** The second part: attach the device and start its host. *)
Definition start_host (r g : nat) (external_dhcp port_trigger : bool) : RM bool :=
  whenM (negb external_dhcp) (call StopDhcp);;
  d ← dev r;
  on_gw g (Gateway.attach_target (Devices.mac d) r);;
  upd r (Devices.with_gateway (Some g));;
  try_except
    (modify (λ s, set_run_count (run_count s + 1) s);;
     call NewHost;;
     s ← getS;
     modify (λ s, set_next (S (next s)) s);;
     upd r (Devices.with_host (Some (next s)));;
     host_call r InitHost;;
     call (if port_trigger : bool then DirectPort else DirectDevice);;
     mret true)
    (λ e, target_set_error r e;; mret false).

(** [_target_set_activate] *)
Definition _target_set_activate (r : nat) : RM bool :=
  d ← dev r;
  let external_dhcp := bool_decide (Devices.dhcp_mode d = Some Devices.DHCP_EXTERNAL) in
  p ← port_of r;
  let port_trigger := bool_decide (is_Some (Devices.port_no p)) in
  assertM (negb port_trigger || Devices.active p);;
  gateway ← acquire_gateway r external_dhcp;
  match gateway with
  | None => mret false
  | Some g => start_host r g external_dhcp port_trigger
  end.

(** [_target_set_trigger] *)
Definition _target_set_trigger (r : nat) (remote_trigger : bool) : RM unit :=
  s ← getS;
  assertM (Devices.contains r (devs s));;
  if negb (_system_active s) then mret tt else
  d ← dev r;
  if bool_decide (is_Some (Devices.host d)) then mret tt else
  if negb (run_tests s) then mret tt else
  if Devices.wait_remote d && negb remote_trigger then mret tt else
  if decide (r ∈ _target_set_queue s) then mret tt else
  upd r (Devices.with_wait_remote false);;
  s ← getS;
  if _target_set_has_capacity s then _target_set_activate r;; mret tt
  else modify (λ s, set_queue (_target_set_queue s ++ [r]) s).

(** [_target_set_consider] *)
Definition _target_set_consider : RM unit :=
  s ← getS;
  match _target_set_queue s with
  | r :: queue =>
      if _target_set_has_capacity s then
        modify (set_queue queue);; _target_set_activate r;; mret tt
      else mret tt
  | [] => mret tt
  end.

(** ** Learning *)

(** [_handle_port_learn] *)
Definition is_device_port (dpid : val) (port : Z) : bool :=
  match sec_dpid C with
  | Some d => PyVal.py_eq dpid (VInt d) && (port <? sec_port C)
  | None => PyVal.py_eq dpid VNone && (port <? sec_port C)
  end.
Definition is_system_port (dpid : val) (port : Z) : bool :=
  PyVal.py_eq dpid (VInt 1) && (port =? 1).

Definition _handle_port_learn (dpid : val) (port : Z) (mac : string) : RM unit :=
  s ← getS;
  if is_device_port dpid port && _is_port_active port s then
    p ← lift (of_option KeyError (dget port (_ports s)));
    r ← on_devs (Devices.create_if_absent mac (Some p) None);
    _target_set_trigger r false
  else mret tt.

(** [_handle_device_learn] *)
Definition _handle_device_learn (mac : string) (vid : option Z) : RM unit :=
  r ← on_devs (Devices.create_if_absent mac None vid);
  upd r (Devices.with_dhcp_mode (Some Devices.DHCP_EXTERNAL));;
  s ← getS;
  match _device_result_handler s with
  | None => _target_set_trigger r false
  | Some _ =>
      d ← dev r;
      whenM (negb (Devices.wait_remote d))
        (p ← on_devs (Devices.alloc_port Devices.PortInfo_init);
         upd r (Devices.with_port (Some p));;
         upd_port p (Devices.with_active true);;
         upd r (Devices.with_wait_remote true))
  end.

(** [_remote_trigger] *)
Definition _remote_trigger (r : nat) (device_vlan assigned_vlan : Z) : RM unit :=
  assertM (negb (device_vlan =? 0) && negb (assigned_vlan =? 0));;
  p ← port_ref r;
  upd_port p (Devices.with_flapping (Some 0));;
  upd_port p (Devices.with_active true);;
  upd r (Devices.with_vlan (Some device_vlan));;
  upd r (Devices.with_assigned (Some assigned_vlan));;
  _target_set_trigger r true;;
  d ← dev r;
  whenM (bool_decide (is_Some (Devices.gateway d))) (call DirectDevice).

(** [_on_session] *)
Definition _on_session (q : SessionServer.request) : RM unit :=
  assertM (negb (bool_decide (SessionServer.endpoint_ip q = "")));;
  call ConfigureTap;;
  r ← on_devs (Devices.create_if_absent (SessionServer.device_mac q) None None);
  p ← port_ref r;
  upd_port p (Devices.with_flapping None);;
  upd r (Devices.with_dhcp_mode (Some Devices.DHCP_EXTERNAL));;
  _remote_trigger r (SessionServer.device_vlan q) (SessionServer.assigned_vlan q).

(** [_on_session_end] *)
Definition _on_session_end (q : SessionServer.request) : RM unit :=
  s ← getS;
  match Devices.get (SessionServer.device_mac q) (devs s) with
  | None => mret tt
  | Some r =>
      pi ← port_of r;
      p ← port_ref r;
      now ← oracle rtime;
      whenM (negb (Devices.truthy (Devices.flapping_start pi)))
        (upd_port p (Devices.with_flapping (Some now)))
  end.

(** ** Shutdown *)

(** [_terminate] *)
Definition _terminate : RM unit :=
  s ← getS;
  for_each (triggered_devices s) (λ r, target_set_error r DaqException);;
  s ← getS;
  whenM (bool_decide (is_Some (_device_result_handler s))) (call StopServer).

(** [shutdown] *)
Definition shutdown : RM unit :=
  _terminate;;
  s ← getS;
  whenM (faucet_events s) (call DisconnectEvents;; modify (set_faucet_events false));;
  _send_heartbeat.

(** ** Controller events *)

(** [_handle_port_state] *)
Definition _handle_port_state (dpid : val) (port : Z) (active : val) : RM unit :=
  if is_system_port dpid port then
    s ← getS;
    whenM (_system_active s && negb (PyVal.truth active))
      (modify (set_exception true);; shutdown);;
    modify (set_system_active (PyVal.truth active))
  else if negb (is_device_port dpid port) then mret tt
  else
    s ← getS;
    (if PyVal.truth active then _activate_port port
     else match dget port (_ports s) with
          | None => mret tt
          | Some p =>
              let device := Devices.get_by_port_info p (devs s) in
              pi ← lift (of_option AttributeError (Devices.port_heap (devs s) !! p));
              now ← oracle rtime;
              hosted ← match device with
                       | Some r => d ← dev r; mret (bool_decide (is_Some (Devices.host d)))
                       | None => mret false
                       end;
              whenM (hosted && negb (Devices.truthy (Devices.flapping_start pi)))
                (upd_port p (Devices.with_flapping (Some now)));;
              s ← getS;
              pi ← lift (of_option AttributeError (Devices.port_heap (devs s) !! p));
              whenM (Devices.active pi)
                (whenM (bool_decide (is_Some device) && negb (Devices.truthy (Devices.flapping_start pi)))
                   (call DirectPort);;
                 _deactivate_port port)
          end);;
    _send_heartbeat.

(** [_process_faucet_event] *)
Definition _process_faucet_event (event : val) : RM unit :=
  '(dpid, port, active) ← lift (FaucetEventClient.as_port_state event);
  if PyVal.truth dpid && FaucetEventClient.port_true port then
    _handle_port_state dpid (default 0 port) active
  else
    '(dpid, port, target_mac, vid) ← lift (FaucetEventClient.as_port_learn event);
    if PyVal.truth dpid && FaucetEventClient.port_true port && PyVal.truth vid then
      mac ← lift match target_mac with VStr m => Ok m | _ => Raise TypeError end;
      if vlan_trigger C then
        whenM (is_system_port dpid (default 0 port))
          (v ← lift match vid with VInt v => Ok v | _ => Raise TypeError end; _handle_device_learn mac (Some v))
      else _handle_port_learn dpid (default 0 port) mac
    else
      lift (FaucetEventClient.as_config_change event);;
      mret tt.

End events.

(** [_handle_faucet_events]: every turn takes an event from the client, and
    handling one may run the loop again.  [event] is the local variable of the
    loop; the fuel is enough when it exceeds the number of events
    ([event_loop_fuel]). *)
Fixpoint event_loop (fuel : nat) (event : option val) : RM unit :=
  match fuel with
  | O => mret tt
  | S fuel' =>
      s ← getS;
      if negb (faucet_events s) then mret tt else
      match incoming s with
      | [] => mret tt
      | o :: rest =>
          modify (set_incoming rest);;
          match o with
          | Event e =>
              if negb (PyVal.truth e) then mret tt
              else _process_faucet_event (event_loop fuel' None) e;; event_loop fuel' (Some e)
          | Disconnected => call Reconnect;; event_loop fuel' event
          | Broken =>
              call DisconnectEvents;;
              modify (set_faucet_events false);;
              shutdown (event_loop fuel' None);;
              match event with Some _ => raise AttributeError | None => mret tt end
          end
      end
  end.

Definition _handle_faucet_events : RM unit := λ s, event_loop (S (length (incoming s))) None s.

(** ** The main loop's handlers *)

(** [_handle_system_idle] *)
Definition idle_device (r : nat) : RM unit :=
  try_except
    (d ← dev r;
     if bool_decide (Devices.host d = None) then raise AttributeError else
     running ← ask IsRunning;
     if running : bool then host_call _handle_faucet_events r IdleHandler
     else target_set_complete _handle_faucet_events r)
    (λ e, target_set_error _handle_faucet_events r e).

Definition _handle_system_idle : RM unit :=
  _handle_faucet_events;;
  s ← getS;
  for_each (triggered_devices s) idle_device;;
  s ← getS;
  for_each (Devices.get_all_devices (devs s)) (λ r, _target_set_trigger _handle_faucet_events r false);;
  _target_set_consider _handle_faucet_events;;
  s ← getS;
  whenM (bool_decide (triggered_devices s = []) && negb (run_tests s))
    (whenM (faucet_events s && (_linger_exit s =? 0)) (shutdown _handle_faucet_events);;
     s ← getS;
     whenM (_linger_exit s =? 1) (modify (set_linger_exit 2)));;
  _send_heartbeat.

(** [_reap_stale_ports] *)
Definition reap_device (r : nat) : RM unit :=
  pi ← port_of r;
  if negb (Devices.truthy (Devices.flapping_start pi)) then mret tt else
  d ← dev r;
  if bool_decide (Devices.host d = None) then raise AttributeError else
  timeout ← oracle rflap;
  now ← oracle rtime;
  whenM (default 0 (Devices.flapping_start pi) + default (_default_port_flap_timeout C) timeout <=? now)
    (p ← port_ref r;
     target_set_error _handle_faucet_events r DaqException;;
     upd_port p (Devices.with_flapping (Some 0))).

Definition _reap_stale_ports : RM unit :=
  s ← getS; for_each (triggered_devices s) reap_device.

(** [_module_heartbeat] *)
Definition _module_heartbeat : RM unit :=
  s ← getS;
  for_each (triggered_devices s) (λ r, host_call _handle_faucet_events r HostHeartbeat).

(** ** Addresses *)

(** [_terminate_gateway_set] *)
Definition _terminate_gateway_set (g : nat) : RM unit :=
  s ← getS;
  assertM (negb (bool_decide (Devices.get_by_gateway g (devs s) = [])));;
  for_each (Devices.get_by_gateway g (devs s))
    (λ r, target_set_error _handle_faucet_events r DaqException).

(** What [_should_activate_target] finds. *)
Inductive activation := NotReady | AlreadyActive | ReadyDevices (g : nat) (l : list nat).

Fixpoint all_trigger_ready (r : nat) (l : list nat) : RM bool :=
  match l with
  | [] => mret true
  | _ :: l' =>
      host_call _handle_faucet_events r TriggerReady;;
      b ← ask IsTriggerReady;
      if b : bool then all_trigger_ready r l' else mret false
  end.

Definition _should_activate_target (r : nat) : RM activation :=
  d ← dev r;
  if bool_decide (Devices.host d = None) then mret NotReady else
  g ← lift (of_option AttributeError (Devices.gateway d));
  o ← gw g;
  if Gateway.activated o then mret AlreadyActive else
  host_call _handle_faucet_events r NotifyActivate;;
  notified ← ask Notified;
  if negb notified then mret NotReady else
  ready ← on_gw g (Gateway.target_ready r);
  size ← oracle rgroup_size;
  s ← getS;
  if negb (size - Z.of_nat (base.size ready) =? 0) && run_tests s then mret NotReady else
  ok ← all_trigger_ready r (elements ready);
  mret (if ok : bool then ReadyDevices g (elements ready) else NotReady).

(** [_activate_gateway] *)
Definition trigger_device (r : nat) : RM unit :=
  host_call _handle_faucet_events r Trigger;;
  b ← ask Triggered;
  assertM b.

Definition _activate_gateway (g : nat) (ready : list nat) : RM unit :=
  on_gw g Gateway.activate;;
  call ActivateGateway;;
  for_each ready trigger_device.

(** [_check_and_activate_gateway] *)
Definition _check_and_activate_gateway (r : nat) : RM unit :=
  d ← dev r;
  if negb (true_string (Devices.ip_addr (Devices.ip_info d))) || negb (Devices.dhcp_ready d)
  then mret tt else
  a ← _should_activate_target r;
  match a with
  | NotReady => mret tt
  | AlreadyActive => host_call _handle_faucet_events r Trigger
  | ReadyDevices g l => _activate_gateway g l
  end.

(** [_dhcp_ready_listener] *)
Definition _dhcp_ready_listener (r : nat) : RM unit :=
  upd r (Devices.with_dhcp_ready true);; _check_and_activate_gateway r.

(** [ip_notify] of a target; [state] is the mode the gateway reports *)
Definition ip_notify (state : string) (t : Gateway.dhcp_target) : RM unit :=
  if bool_decide (Some (Gateway.t_mac t) = ext_mac C) then mret tt else
  whenM (bool_decide (state = "NEW"))
    (_handle_device_learn _handle_faucet_events (Gateway.t_mac t) (native_vlan C));;
  assertM (negb (bool_decide (Gateway.t_mac t = "")));;
  assertM (negb (bool_decide (Gateway.t_ip t = "")));;
  s ← getS;
  match Devices.get (Gateway.t_mac t) (devs s) with
  | None => raise AssertionError
  | Some r =>
      upd r (Devices.with_ip_info
        (Devices.mkIpInfo (Some (Gateway.t_ip t)) (Some state) (Some (Gateway.t_delta t))));;
      d ← dev r;
      whenM (bool_decide (is_Some (Devices.host d)) &&
             (bool_decide (Gateway.t_type t = "ACK") || bool_decide (Gateway.t_type t = "STATIC")))
        (host_call _handle_faucet_events r HostIpNotify;; _check_and_activate_gateway r)
  end.

(** [ip_notify] with an exception *)
Definition ip_notify_error (g : nat) : RM unit := _terminate_gateway_set g.

(** [finalize]: the exit code *)
Definition finalize (s : Runner) : Z :=
  if negb (Nat.eqb (length (_combine_results (_result_sets s))) 0) || exception s then 1 else 0.

(** The runner before its first event. *)
Definition start (server : option SessionServer.server) (events : list outcome) : Runner :=
  mkRunner Devices.empty ∅ (list_to_set (zseq 1 9)) [] [] []
    None false true 0 0 true events false server 0 0.

(** [initialize] *)
Definition initialize : RM unit :=
  _send_heartbeat;;
  call Publish;;
  call InitNetwork;;
  whenM (Devices.truthy (native_vlan C))
    (g ← _create_gateway None; modify (set_native (Some g)));;
  call ActivateNetwork;;
  call Reconnect;;
  s ← getS;
  whenM (bool_decide (is_Some (_device_result_handler s))) (call StartServer).

(** ** Histories *)

(** The entry points: the main loop, the stream callbacks of gateways and
    hosts, the session server, and events arriving at the client. *)
Inductive rop :=
  | Initialize | Events | SystemIdle | ReapPorts | ModuleHeartbeat | Shutdown
  | Arrive (l : list outcome)
  | IpNotify (state : string) (t : Gateway.dhcp_target) | IpError (g : nat) | DhcpReady (r : nat)
  | OnSession (q : SessionServer.request) | OnSessionEnd (q : SessionServer.request)
  | TargetSetError (r : nat) (e : exn) | TargetSetComplete (r : nat).

Definition step (o : rop) : RM unit :=
  match o with
  | Initialize => initialize
  | Events => _handle_faucet_events
  | SystemIdle => _handle_system_idle
  | ReapPorts => _reap_stale_ports
  | ModuleHeartbeat => _module_heartbeat
  | Shutdown => shutdown _handle_faucet_events
  | Arrive l => modify (λ s, set_incoming (incoming s ++ l) s)
  | IpNotify state t => ip_notify state t
  | IpError g => ip_notify_error g
  | DhcpReady r => _dhcp_ready_listener r
  | OnSession q => _on_session _handle_faucet_events q
  | OnSessionEnd q => _on_session_end q
  | TargetSetError r e => target_set_error _handle_faucet_events r e
  | TargetSetComplete r => target_set_complete _handle_faucet_events r
  end.

Definition run (ops : list rop) (s : Runner) : Runner := foldl (λ s o, fst (step o s)) s ops.

Lemma run_keeps (P : Runner → Prop) ops s :
  (∀ o, keeps P (step o)) → P s → P (run ops s).
Proof.
  intros Hk. revert s. induction ops as [|o ops IH]; intros s Hs; [done|]. apply IH. by apply Hk.
Qed.

End runner.
End DAQRunner.
