(* ===== verification/RunnerSpec.v ===== *)
(** * Properties of the runner (src/daq/runner.py)

    - the event loop ends, although handling an event may start it again
      ([event_handling_ends]);
    - port sets are exclusive: whatever fails, as long as gateways can be
      retired, two gateways in use never share a port set
      ([port_sets_exclusive]).

    The limit on hosts and the exit code are in [RunnerLimits]. *)

From stdpp Require Import base list gmap strings pretty.
From Stdlib Require Import ZArith Lia.
From S2P Require Import Prelude PyVal Devices Gateway FaucetEvents Sessions Runner.

Module RunnerSpec.
Import DAQRunner.
Local Open Scope string_scope.
Local Open Scope list_scope.
Local Open Scope Z_scope.

Section env.
Context `{E : renv} (C : conf).

Abbreviation RM := (M Runner) (only parsing).

(** ** The event loop *)

(** The two computations do the same on states with at most [n] events to come,
    and do not add events. *)
Definition settles {A} (n : nat) (m1 m2 : RM A) : Prop :=
  ∀ s, (length (incoming s) ≤ n)%nat →
    m1 s = m2 s ∧ (length (incoming (fst (m1 s))) ≤ length (incoming s))%nat.

Lemma settles_bind {A B} n (m1 m2 : RM A) (f1 f2 : A → RM B) :
  settles n m1 m2 → (∀ a, settles n (f1 a) (f2 a)) → settles n (m1 ≫= f1) (m2 ≫= f2).
Proof.
  intros Hm Hf s Hs. destruct (Hm s Hs) as [He Hl]. unfold mbind, M_bind. rewrite <-He.
  destruct (m1 s) as [s' [a|e]]; cbn [fst] in *; [|done].
  destruct (Hf a s') as [He' Hl']; [lia|]. split; [done|lia].
Qed.

Lemma settles_try {A} n (m1 m2 : RM A) (f1 f2 : exn → RM A) :
  settles n m1 m2 → (∀ e, settles n (f1 e) (f2 e)) → settles n (try_except m1 f1) (try_except m2 f2).
Proof.
  intros Hm Hf s Hs. destruct (Hm s Hs) as [He Hl]. unfold try_except. rewrite <-He.
  destruct (m1 s) as [s' [a|e]]; cbn [fst] in *; [done|].
  destruct (Hf e s') as [He' Hl']; [lia|]. split; [done|lia].
Qed.

Lemma settles_when n b (m1 m2 : RM unit) :
  settles n m1 m2 → settles n (whenM b m1) (whenM b m2).
Proof. by destruct b. Qed.

Lemma settles_for_each {A} n (l : list A) (f1 f2 : A → RM unit) :
  (∀ a, settles n (f1 a) (f2 a)) → settles n (for_each l f1) (for_each l f2).
Proof.
  intros Hf. induction l as [|a l IH]; cbn [for_each]; [by split|].
  apply settles_bind; [done|]. intros _. done.
Qed.

(** Computations that leave the events alone. *)
Lemma settles_leaf {A} n (m : RM A) :
  (∀ s, incoming (fst (m s)) = incoming s) → settles n m m.
Proof. intros Hm s _. split; [done|]. by rewrite Hm. Qed.

Lemma settles_refl {A} n (m : RM A) :
  (∀ k, settles k m m) → settles n m m.
Proof. done. Qed.

Lemma leaf_call x s : incoming (fst (call x s)) = incoming s.
Proof. done. Qed.

Lemma leaf_on_devs {A} (m : M Devices.Devices A) s : incoming (fst (on_devs m s)) = incoming s.
Proof. unfold on_devs. by destruct (m (devs s)). Qed.

Lemma leaf_on_gw {A} g (m : M Gateway.Gateway A) s : incoming (fst (on_gw g m s)) = incoming s.
Proof. unfold on_gw. destruct (gws s !! g) as [o|]; [|done]. by destruct (m o). Qed.

Lemma leaf_gateway_terminate g s : incoming (fst (gateway_terminate g s)) = incoming s.
Proof.
  unfold gateway_terminate, mbind, M_bind. destruct (gws s !! g) as [o|]; [|done].
  by destruct (Gateway.terminate _ o) as [[o' c] [[]|e]].
Qed.

Ltac settle_leaf :=
  match goal with
  | |- settles _ (gateway_terminate _) _ => apply settles_leaf, leaf_gateway_terminate
  | |- settles _ (on_devs _) _ => apply settles_leaf, leaf_on_devs
  | |- settles _ (on_gw _ _) _ => apply settles_leaf, leaf_on_gw
  | |- settles _ (call _) _ => apply settles_leaf, leaf_call
  | |- settles _ ?m ?m' => constr_eq m m'; apply settles_leaf; intros ?; reflexivity
  end.

Create HintDb settle.

Ltac settle :=
  repeat first
    [ match goal with
      | |- settles _ (_ ≫= _) _ => apply settles_bind; [|intros ?]
      | |- settles _ (try_except _ _) _ => apply settles_try; [|intros ?]
      | |- settles _ (whenM _ _) _ => apply settles_when
      | |- settles _ (for_each _ _) _ => apply settles_for_each; intros ?
      | |- settles _ (match _ with _ => _ end) _ => case_match
      end
    | solve [eauto with settle nocore]
    | settle_leaf ].

Lemma settles_activate_port n p : settles n (_activate_port p) (_activate_port p).
Proof. unfold _activate_port, upd_port. settle. Qed.

Lemma settles_heartbeat n : settles n _send_heartbeat _send_heartbeat.
Proof. unfold _send_heartbeat, oracle. settle. Qed.

#[local] Hint Resolve settles_activate_port settles_heartbeat : settle.

Lemma settles_cancel n r : settles n (_target_set_cancel C r) (_target_set_cancel C r).
Proof.
  unfold _target_set_cancel, _detach_gateway, _send_device_result, dev, port_of, gw, upd, oracle.
  settle.
Qed.

Lemma settles_create n d : settles n (_create_gateway C d) (_create_gateway C d).
Proof. unfold _create_gateway, _find_gateway_set, new_gateway, port_of, dev, oracle. settle. Qed.

Lemma settles_create_absent n m p v :
  settles n (on_devs (Devices.create_if_absent m p v)) (on_devs (Devices.create_if_absent m p v)).
Proof. settle. Qed.

#[local] Hint Resolve settles_cancel settles_create settles_create_absent : settle.

Section same.
Context (n : nat) (h1 h2 : RM unit) (Hh : settles n h1 h2).

#[local] Hint Resolve Hh : settle.

Lemma settles_finalize r rs :
  settles n (_target_set_finalize C h1 r rs) (_target_set_finalize C h2 r rs).
Proof. unfold _target_set_finalize, upd. settle. Qed.

#[local] Hint Resolve settles_finalize : settle.

Lemma settles_complete r : settles n (target_set_complete C h1 r) (target_set_complete C h2 r).
Proof. unfold target_set_complete, dev, oracle. settle. Qed.

#[local] Hint Resolve settles_complete : settle.

Lemma settles_error r e : settles n (target_set_error C h1 r e) (target_set_error C h2 r e).
Proof.
  unfold target_set_error, _send_device_result, _detach_gateway, dev, gw, upd, oracle. settle.
Qed.

#[local] Hint Resolve settles_error : settle.

Lemma settles_host_call r x : settles n (host_call C h1 r x) (host_call C h2 r x).
Proof. unfold host_call, dev, oracle. settle. Qed.

#[local] Hint Resolve settles_host_call : settle.

Lemma settles_activate r :
  settles n (_target_set_activate C h1 r) (_target_set_activate C h2 r).
Proof.
  unfold _target_set_activate, acquire_gateway, start_host, dev, port_of, gw, upd, oracle. settle.
Qed.

#[local] Hint Resolve settles_activate : settle.

Lemma settles_trigger r b :
  settles n (_target_set_trigger C h1 r b) (_target_set_trigger C h2 r b).
Proof. unfold _target_set_trigger, dev, upd. settle. Qed.

#[local] Hint Resolve settles_trigger : settle.

Lemma settles_shutdown : settles n (shutdown C h1) (shutdown C h2).
Proof. unfold shutdown, _terminate. settle. Qed.

#[local] Hint Resolve settles_shutdown : settle.

Lemma settles_process e :
  settles n (_process_faucet_event C h1 e) (_process_faucet_event C h2 e).
Proof.
  unfold _process_faucet_event, _handle_port_state, _handle_port_learn, _handle_device_learn,
    _deactivate_port, dev, upd, upd_port, oracle. settle.
Qed.

End same.

(** With more fuel than events the loop does not depend on the fuel. *)
Lemma event_loop_fuel k f1 f2 ev :
  (k < f1)%nat → (k < f2)%nat → settles k (event_loop C f1 ev) (event_loop C f2 ev).
Proof.
  revert f1 f2 ev. induction k as [k IH] using lt_wf_ind. intros [|f1] [|f2] ev H1 H2; [lia..|].
  intros s Hs. cbn [event_loop]. rewrite !(bind_ok getS _ s s s eq_refl).
  destruct (faucet_events s); [|by split]. cbn [negb].
  destruct (incoming s) as [|o rest] eqn:Hi; [split; cbn; [done|by rewrite Hi]|].
  simpl in Hs. destruct k as [|k]; [lia|].
  erewrite !bind_ok by reflexivity.
  assert (settles k (event_loop C f1 None) (event_loop C f2 None)) as Hl by (apply IH; lia).
  assert (∀ m1 m2 : RM unit, settles k m1 m2 →
    m1 (set_incoming rest s) = m2 (set_incoming rest s) ∧
    (length (incoming (fst (m1 (set_incoming rest s)))) ≤ length (o :: rest))%nat) as Hstep.
  { intros m1 m2 Hm. destruct (Hm (set_incoming rest s)) as [He Hle]; [simpl; lia|].
    split; [done|]. simpl in *. lia. }
  destruct o as [e| |]; apply Hstep.
  - case_match; [by apply settles_leaf|].
    apply settles_bind; [by apply settles_process|]. intros _. apply IH; lia.
  - apply settles_bind; [by apply settles_leaf|]. intros _. apply IH; lia.
  - apply settles_bind; [by apply settles_leaf|intros _].
    apply settles_bind; [by apply settles_leaf|intros _].
    apply settles_bind; [by apply settles_shutdown|intros _].
    by case_match; apply settles_leaf.
Qed.

(** ** Port sets *)

Definition holds (s : Runner) (r g : nat) : Prop :=
  ∃ d, Devices.dev_heap (devs s) !! r = Some d ∧ Devices.gateway d = Some g.

Record pool (s : Runner) : Prop := {
  pl_range : ∀ k, k ∈ gateway_sets s → 1 ≤ k ≤ MAX_GATEWAYS;
  (** a device is a target of its gateway, whose port set is taken *)
  pl_live : ∀ r d g,
    Devices.dev_heap (devs s) !! r = Some d → Devices.gateway d = Some g →
    ∃ o, gws s !! g = Some o ∧ dget (Devices.mac d) (Gateway.targets o) = Some r ∧
         (Gateway.port_set o ∉ gateway_sets s) ∧ 1 ≤ Gateway.port_set o ≤ MAX_GATEWAYS;
  pl_excl : ∀ r1 r2 g1 g2 o1 o2,
    holds s r1 g1 → holds s r2 g2 → gws s !! g1 = Some o1 → gws s !! g2 = Some o2 →
    Gateway.port_set o1 = Gateway.port_set o2 → g1 = g2;
  pl_fresh : ∀ g, (next s ≤ g)%nat → gws s !! g = None;
  pl_native : _native_gateway s = None
}.

(** Retiring a gateway does not fail. *)
Definition can_retire : Prop :=
  ∀ n x, x = GatewayCall Gateway.DhcpMonitorCleanup ∨ x = ScanFinalize ∨ x = ReleaseDevice →
    rok n x = true.

Lemma pool_modify f :
  (∀ s, devs (f s) = devs s) → (∀ s, gws (f s) = gws s) →
  (∀ s, gateway_sets (f s) = gateway_sets s) → (∀ s, (next s ≤ next (f s))%nat) →
  (∀ s, _native_gateway (f s) = _native_gateway s) → keeps pool (modify f).
Proof.
  intros H1 H2 H3 H4 H5 s [A1 A2 A3 A4 A5]. cbn [modify fst].
  split; unfold holds; rewrite ?H1, ?H2, ?H3, ?H5; try done.
  intros g Hg. apply A4. specialize (H4 s). lia.
Qed.

(** Devices may come, go and change, but none gets a gateway. *)
Definition shrinks (s s' : Devices.Devices) : Prop :=
  ∀ r d' g, Devices.dev_heap s' !! r = Some d' → Devices.gateway d' = Some g →
    ∃ d, Devices.dev_heap s !! r = Some d ∧ Devices.mac d = Devices.mac d' ∧
         Devices.gateway d = Some g.

#[local] Instance shrinks_preorder : PreOrder shrinks.
Proof.
  split; [intros s r d' g Hd Hg; by exists d'|].
  intros s1 s2 s3 H12 H23 r d3 g Hd Hg.
  destruct (H23 r d3 g Hd Hg) as (d2 & Hd2 & Hm2 & Hg2).
  destruct (H12 r d2 g Hd2 Hg2) as (d1 & Hd1 & Hm1 & Hg1). exists d1. split_and!; congruence.
Qed.

Lemma shrinks_heap f :
  (∀ s, Devices.dev_heap (f s) = Devices.dev_heap s) → preserves shrinks (modify f).
Proof. intros Hf s r d' g. cbn. rewrite Hf. eauto. Qed.

Lemma shrinks_upd r f :
  (∀ d, Devices.mac (f d) = Devices.mac d) → (∀ d, Devices.gateway (f d) = Devices.gateway d) →
  preserves shrinks (modify (Devices.upd_dev r f)).
Proof.
  intros Hm Hg s r' d' g. cbn. destruct (decide (r = r')) as [->|Hne].
  - rewrite lookup_alter_eq. destruct (Devices.dev_heap s !! r') as [d|]; [|done].
    intros [= <-]. rewrite Hg. intros Hd. exists d. by rewrite Hm.
  - rewrite lookup_alter_ne by done. eauto.
Qed.

Lemma shrinks_alloc_dev m : preserves shrinks (Devices.alloc_dev (Devices.Device_init m)).
Proof.
  intros s r d' g. cbn. destruct (decide (Devices.next_ref s = r)) as [->|Hne].
  - rewrite lookup_insert_eq. by intros [= <-].
  - rewrite lookup_insert_ne by done. eauto.
Qed.

Lemma shrinks_create m p v : preserves shrinks (Devices.create_if_absent m p v).
Proof.
  unfold Devices.create_if_absent, Devices.new_device, Devices._allocate_set_id, Devices.alloc_port.
  repeat first
    [ apply shrinks_alloc_dev
    | apply shrinks_upd; reflexivity
    | apply shrinks_heap; reflexivity
    | apply preserves_bind; [apply _| |intros ?]
    | apply preserves_lift; apply _
    | apply preserves_getS; apply _
    | apply preserves_assert; apply _
    | apply preserves_ret; apply _
    | case_match
    | intros ?; cbn; done ].
Qed.

Lemma shrinks_remove r : preserves shrinks (Devices.remove r).
Proof.
  unfold Devices.remove.
  repeat first
    [ apply shrinks_heap; reflexivity
    | apply preserves_bind; [apply _| |intros ?]
    | apply preserves_lift; apply _
    | apply preserves_getS; apply _
    | apply preserves_assert; apply _
    | case_match
    | intros ?; cbn; done ].
Qed.

Lemma pool_on_devs {A} (m : M Devices.Devices A) : preserves shrinks m → keeps pool (on_devs m).
Proof.
  intros Hm s [A1 A2 A3 A4 A5]. specialize (Hm (devs s)). unfold on_devs.
  destruct (m (devs s)) as [ds r]. cbn [fst] in *.
  assert (∀ r g, holds (set_devs ds s) r g → holds s r g) as Hh.
  { intros r' g (d' & Hd & Hg). destruct (Hm r' d' g Hd Hg) as (d & Hd1 & _ & Hg1). by exists d. }
  split; cbn; try done.
  - intros r' d' g Hd Hg. destruct (Hm r' d' g Hd Hg) as (d & Hd1 & Hmac & Hg1).
    rewrite <-Hmac. by apply (A2 r' d).
  - intros r1 r2 g1 g2 o1 o2 H1 H2. apply (A3 r1 r2); auto.
Qed.

(** An operation of a gateway that keeps its port set and its targets. *)
Lemma pool_insert_gw s g o o' :
  pool s → gws s !! g = Some o → Gateway.port_set o' = Gateway.port_set o →
  Gateway.targets o' = Gateway.targets o → pool (set_gws (<[g := o']> (gws s)) s).
Proof.
  intros [A1 A2 A3 A4 A5] Ho Hp Ht.
  assert (∀ g1 o1, <[g := o']> (gws s) !! g1 = Some o1 →
    ∃ o2, gws s !! g1 = Some o2 ∧ Gateway.port_set o2 = Gateway.port_set o1) as Hl.
  { intros g1 o1. destruct (decide (g = g1)) as [->|]; [|rewrite lookup_insert_ne by done; eauto].
    rewrite lookup_insert_eq. intros [= <-]. eauto. }
  split; cbn; try done.
  - intros r d g1 Hd Hg. destruct (A2 r d g1 Hd Hg) as (o1 & Ho1 & B1 & B2 & B3).
    destruct (decide (g = g1)) as [->|]; [|exists o1; by rewrite lookup_insert_ne].
    exists o'. rewrite lookup_insert_eq, Ht, Hp.
    assert (o1 = o) as -> by congruence. done.
  - intros r1 r2 g1 g2 o1 o2 H1 H2 (p1 & G1 & <-)%Hl (p2 & G2 & <-)%Hl. by apply (A3 r1 r2).
  - intros g1 Hg1. rewrite lookup_insert_ne; [by apply A4|]. intros ->.
    specialize (A4 g1 Hg1). congruence.
Qed.

Lemma pool_on_gw {A} g (m : M Gateway.Gateway A) :
  (∀ o, Gateway.port_set (fst (m o)) = Gateway.port_set o) →
  (∀ o, Gateway.targets (fst (m o)) = Gateway.targets o) → keeps pool (on_gw g m).
Proof.
  intros Hp Ht s Hs. unfold on_gw. destruct (gws s !! g) as [o|] eqn:Ho; [|done].
  specialize (Hp o). specialize (Ht o). destruct (m o) as [o' r]. cbn [fst] in *.
  by eapply pool_insert_gw.
Qed.

(** Retiring a gateway without targets. *)
Lemma retire_ok g o s :
  can_retire → gws s !! g = Some o → Gateway.targets o = [] →
  ∃ o' n, gateway_terminate g s = (set_calls n (set_gws (<[g := o']> (gws s)) s), Ok tt) ∧
    Gateway.port_set o' = Gateway.port_set o ∧ Gateway.targets o' = [].
Proof.
  intros Hr Ho Ht. unfold gateway_terminate.
  set (ext := λ c : Gateway.ext_call,
    if rok (calls s) (GatewayCall c) then Ok tt else Raise OtherException).
  assert (∀ h clear g1, (∀ g2, Gateway.port_set (clear g2) = Gateway.port_set g2) →
    (∀ g2, Gateway.targets (clear g2) = Gateway.targets g2) →
    Gateway.port_set (fst (Gateway.stop_host ext h clear g1)) = Gateway.port_set g1 ∧
    Gateway.targets (fst (Gateway.stop_host ext h clear g1)) = Gateway.targets g1) as Hstop.
  { intros h clear g1 H1 H2. unfold Gateway.stop_host. repeat case_match; cbn; auto. }
  assert (∃ o' c, Gateway.terminate ext o = (o', c, Ok tt) ∧
    Gateway.port_set o' = Gateway.port_set o ∧ Gateway.targets o' = []) as (o' & c & Hterm & Hp & Ht').
  { unfold Gateway.terminate. rewrite Ht.
    destruct (Hstop (Gateway.host o) (Gateway.with_host None) o) as [P1 T1]; [done..|].
    destruct (Gateway.stop_host ext (Gateway.host o) _ o) as [o1 c1]. cbn [fst] in *.
    destruct (Hstop (Gateway.dummy o1) (Gateway.with_dummy None) o1) as [P2 T2]; [done..|].
    destruct (Gateway.stop_host ext (Gateway.dummy o1) _ o1) as [o2 c2]. cbn [fst] in *.
    replace (ext Gateway.DhcpMonitorCleanup) with (Ok tt : res unit)
      by (unfold ext; rewrite Hr; [done|by left]).
    destruct (Gateway.dhcp_monitor o); eexists _, _; split_and!; try done; congruence. }
  eexists o', _. split_and!; [|done..].
  erewrite (bind_ok _ _ s (set_gws (<[g := o']> (gws s)) (tick s)) tt);
    [|rewrite Ho; fold ext; by rewrite Hterm].
  unfold call. rewrite Hr by (right; by left). reflexivity.
Qed.

(** A device that lets its gateway go. *)
Definition released (r : nat) (ds : Devices.Devices) : Devices.Devices :=
  Devices.upd_dev r (Devices.with_gateway None) ds.

Lemma holds_released s s' r r' g :
  devs s' = released r (devs s) → holds s' r' g → r' ≠ r ∧ holds s r' g.
Proof.
  intros Hd (d & Hl & Hg). rewrite Hd in Hl. cbn in Hl.
  destruct (decide (r = r')) as [->|Hne].
  - rewrite lookup_alter_eq in Hl. destruct (Devices.dev_heap (devs s) !! r'); [|done].
    by injection Hl as <-.
  - rewrite lookup_alter_ne in Hl by done. split; [done|]. by exists d.
Qed.

Lemma detach_eq s r d g o :
  can_retire → pool s → Devices.dev_heap (devs s) !! r = Some d → Devices.gateway d = Some g →
  gws s !! g = Some o → dget (Devices.mac d) (Gateway.targets o) = Some r →
  ∃ o' n sets, _detach_gateway r s =
    (set_devs (released r (devs s)) (set_calls n (set_gateway_sets sets
       (set_gws (<[g := o']> (gws s)) s))), Ok tt) ∧
    Gateway.port_set o' = Gateway.port_set o ∧
    Gateway.targets o' = ddel (Devices.mac d) (Gateway.targets o) ∧
    (sets = gateway_sets s ∨
     sets = {[Gateway.port_set o]} ∪ gateway_sets s ∧ ddel (Devices.mac d) (Gateway.targets o) = []).
Proof.
  intros Hr Hp Hd Hg Ho Ht. unfold _detach_gateway.
  erewrite bind_ok by (unfold dev; erewrite bind_ok by reflexivity; by rewrite Hd).
  rewrite Hg. set (t := ddel (Devices.mac d) (Gateway.targets o)).
  set (s1 := set_gws (<[g := Gateway.with_targets t o]> (gws s)) s).
  erewrite (bind_ok _ _ s s1 (len t)); cycle 1.
  { unfold on_gw. rewrite Ho. unfold Gateway.detach_target, mbind, M_bind, getS, assertM, modify, gets.
    replace (dmem (Devices.mac d) (Gateway.targets o)) with true; [done|].
    symmetry. apply dmem_true. eauto. }
  destruct t as [|x t'] eqn:Et.
  - change (len [] =? 0) with true. cbn [whenM].
    assert (gws s1 !! g = Some (Gateway.with_targets [] o)) as Ho1 by (cbn; apply lookup_insert_eq).
    destruct (retire_ok g _ s1 Hr Ho1 eq_refl) as (o' & n & H1 & H2 & H3).
    erewrite bind_ok; cycle 1.
    { erewrite bind_ok by exact H1.
      erewrite bind_ok; cycle 1.
      { unfold gw. erewrite bind_ok by reflexivity. cbn. rewrite lookup_insert_eq. reflexivity. }
      erewrite bind_ok by reflexivity.
      instantiate (1 := tt). instantiate (1 := set_calls (if Devices.truthy (Devices.vlan d) then S n else n)
        (set_gateway_sets ({[Gateway.port_set o']} ∪ gateway_sets s)
          (set_gws (<[g := o']> (gws s1)) s1))).
      destruct (Devices.truthy (Devices.vlan d)); cbn [whenM].
      - unfold call. rewrite Hr by (right; by right). reflexivity.
      - reflexivity. }
    eexists o', _, _. split_and!; [|done|done|].
    + unfold upd, on_devs, modify. cbn. by rewrite insert_insert_eq.
    + right. by rewrite H2.
  - replace (len (x :: t') =? 0) with false by (unfold len; simpl; lia). cbn [whenM].
    erewrite bind_ok by reflexivity.
    eexists (Gateway.with_targets (x :: t') o), (calls s), (gateway_sets s).
    split_and!; [|done|done|by left]. reflexivity.
Qed.

Lemma pool_detach r : can_retire → keeps pool (_detach_gateway r).
Proof.
  intros Hr s Hp. destruct (Devices.dev_heap (devs s) !! r) as [d|] eqn:Hd; cycle 1.
  { unfold _detach_gateway, dev, mbind, M_bind, getS, lift. by rewrite Hd. }
  destruct (Devices.gateway d) as [g|] eqn:Hg; cycle 1.
  { unfold _detach_gateway. erewrite bind_ok
      by (unfold dev; erewrite bind_ok by reflexivity; by rewrite Hd). by rewrite Hg. }
  destruct (pl_live s Hp r d g Hd Hg) as (o & Ho & Ht & Hni & Hrange).
  destruct (detach_eq s r d g o Hr Hp Hd Hg Ho Ht) as (o' & n & sets & -> & Hps & Hts & Hsets).
  cbn [fst]. set (s' := set_devs _ _).
  assert (∀ r' g', holds s' r' g' → r' ≠ r ∧ holds s r' g') as Hh
    by (intros r' g'; by apply holds_released).
  assert (∀ g1 o1, gws s' !! g1 = Some o1 →
    ∃ o2, gws s !! g1 = Some o2 ∧ Gateway.port_set o2 = Gateway.port_set o1) as Hl.
  { intros g1 o1. cbn. destruct (decide (g = g1)) as [->|]; [|rewrite lookup_insert_ne by done; eauto].
    rewrite lookup_insert_eq. intros [= <-]. eauto. }
  destruct Hp as [A1 A2 A3 A4 A5]. split; try done.
  - intros k. destruct Hsets as [Hs|[Hs _]]; cbn; rewrite Hs; [apply A1|]. set_solver.
  - intros r1 d1 g1 Hd1 Hg1. assert (holds s' r1 g1) as Hh1 by by exists d1.
    destruct (Hh r1 g1 Hh1) as [Hne (d2 & Hd2 & Hg2)].
    assert (d2 = d1) as ->.
    { cbn in Hd1. rewrite lookup_alter_ne in Hd1 by done. congruence. }
    destruct (A2 r1 d1 g1 Hd2 Hg2) as (o1 & Ho1 & B1 & B2 & B3).
    destruct (decide (g1 = g)) as [->|Hgne].
    + assert (o1 = o) as -> by congruence.
      assert (Devices.mac d1 ≠ Devices.mac d) as Hmac by (intros Heq; rewrite Heq in B1; congruence).
      assert (dget (Devices.mac d1) (ddel (Devices.mac d) (Gateway.targets o)) = Some r1) as B1'
        by by rewrite dget_ddel_ne.
      exists o'. cbn. rewrite lookup_insert_eq, Hts, Hps.
      destruct Hsets as [->|[_ Hnil]]; [done|]. by rewrite Hnil in B1'.
    + exists o1. cbn. rewrite lookup_insert_ne by done.
      split; [done|]. split; [done|]. split; [|done].
      destruct Hsets as [->|[-> _]]; [done|]. intros [Heq%elem_of_singleton|?]%elem_of_union; [|done].
      apply Hgne. apply (A3 r1 r g1 g o1 o); [by exists d1|by exists d|done..].
  - intros r1 r2 g1 g2 o1 o2 [_ H1]%Hh [_ H2]%Hh (p1 & G1 & <-)%Hl (p2 & G2 & <-)%Hl.
    by apply (A3 r1 r2).
  - intros g1 Hg1. cbn. rewrite lookup_insert_ne; [by apply A4|]. intros ->.
    specialize (A4 g1 Hg1). congruence.
Qed.

(** A port set that was taken from the pool for nobody yet. *)
Definition reserved (k : Z) (s : Runner) : Prop :=
  (k ∉ gateway_sets s) ∧ 1 ≤ k ≤ MAX_GATEWAYS ∧
  ∀ r g o, holds s r g → gws s !! g = Some o → Gateway.port_set o ≠ k.

(** A gateway a device may be attached to. *)
Definition usable (g : nat) (s : Runner) : Prop :=
  ∃ o, gws s !! g = Some o ∧ (Gateway.port_set o ∉ gateway_sets s) ∧
    1 ≤ Gateway.port_set o ≤ MAX_GATEWAYS ∧
    ∀ r g' o', holds s r g' → gws s !! g' = Some o' → Gateway.port_set o' = Gateway.port_set o → g' = g.

Lemma usable_held s r g : pool s → holds s r g → usable g s.
Proof.
  intros Hp (d & Hd & Hg). destruct (pl_live s Hp r d g Hd Hg) as (o & Ho & _ & Hni & Hr).
  exists o. split_and!; [done|done|apply Hr|apply Hr|].
  intros r' g' o' Hh Ho' Heq. apply (pl_excl s Hp r' r g' g o' o); [done|by exists d|done..].
Qed.

Lemma pop_set_elem k (X : gset Z) n : pop_set k X = Some n → n ∈ X.
Proof.
  unfold pop_set. case_decide; [by intros [= <-]|]. intros Hn%head_Some_elem_of.
  by apply elem_of_elements.
Qed.

Lemma taking_reserves s n :
  pool s → n ∈ gateway_sets s →
  pool (set_gateway_sets (gateway_sets s ∖ {[n]}) s) ∧
  reserved n (set_gateway_sets (gateway_sets s ∖ {[n]}) s).
Proof.
  intros [A1 A2 A3 A4 A5] Hn. split; [split; cbn; try done|split_and!; cbn].
  - intros k Hk. apply A1. set_solver.
  - intros r d g Hd Hg. destruct (A2 r d g Hd Hg) as (o & ? & ? & ? & ?). exists o. set_solver.
  - set_solver.
  - by apply A1.
  - by apply A1.
  - intros r g o (d & Hd & Hg) Ho Heq. destruct (A2 r d g Hd Hg) as (o' & Ho' & _ & Hni & _).
    cbn in Ho. assert (o' = o) as -> by congruence. subst. done.
Qed.

Lemma find_set_spec r : spec pool (λ _, True) (_find_gateway_set r) reserved.
Proof.
  unfold _find_gateway_set. eapply spec_bind.
  { apply spec_keeps, keeps_pure. intros s.
    unfold port_of, dev, mbind, M_bind, getS, lift. by repeat case_match; simplify_eq. }
  intros p. eapply spec_bind.
  { apply spec_keeps. intros s [A1 A2 A3 A4 A5]. by split. }
  intros k s Hp _. rewrite (bind_ok getS _ s s s eq_refl).
  set (choice := match Devices.port_no p with Some n => _ | None => _ end).
  destruct choice as [n|] eqn:Hc; [|by split].
  assert (n ∈ gateway_sets s) as Hn.
  { unfold choice in Hc. destruct (Devices.port_no p) as [q|]; [|by eapply pop_set_elem].
    case_decide; [by injection Hc as <-|by eapply pop_set_elem]. }
  destruct (taking_reserves s n Hp Hn) as [H1 H2].
  cbn. split; [done|]. by intros a [= <-].
Qed.

(** A new gateway, which nobody holds. *)
Definition fresh_gateway (k : Z) (g : nat) (s : Runner) : Prop :=
  reserved k s ∧ (∃ o, gws s !! g = Some o ∧ Gateway.port_set o = k) ∧ ∀ r, ¬ holds s r g.

Lemma new_gateway_spec name k ext :
  spec pool (reserved k) (new_gateway name k ext) (fresh_gateway k).
Proof.
  intros s Hp (R1 & R2 & R3). unfold new_gateway.
  destruct (Gateway.init name k ext) as [o|e] eqn:Ho; [|by split].
  erewrite bind_ok by reflexivity. erewrite bind_ok by reflexivity. erewrite bind_ok by reflexivity.
  cbn [mret M_ret fst snd].
  assert (Gateway.port_set o = k) as Hk.
  { unfold Gateway.init, guard_res in Ho. destruct (0 <? k); [|done]. by injection Ho as <-. }
  destruct Hp as [A1 A2 A3 A4 A5].
  assert (∀ r g, holds s r g → g ≠ next s) as Hne.
  { intros r g (d & Hd & Hg) ->. destruct (A2 r d _ Hd Hg) as (o' & Ho' & _).
    rewrite A4 in Ho' by lia. done. }
  split; [split; cbn; try done|].
  - intros r d g Hd Hg. destruct (A2 r d g Hd Hg) as (o' & ? & ? & ? & ?). exists o'.
    rewrite lookup_insert_ne; [done|]. intros Heq. by apply (Hne r g); [exists d|].
  - intros r1 r2 g1 g2 o1 o2 H1 H2.
    pose proof (Hne _ _ H1). pose proof (Hne _ _ H2).
    rewrite !lookup_insert_ne by done. by apply (A3 r1 r2).
  - intros g Hg. rewrite lookup_insert_ne by lia. apply A4. lia.
  - intros a [= <-]. split; [split; [done|split; [done|]]|split].
    + intros r g o' Hh. cbn. pose proof (Hne _ _ Hh). rewrite lookup_insert_ne by congruence.
      by apply R3 with r.
    + exists o. cbn. by rewrite lookup_insert_eq.
    + intros r Hh. by apply (Hne r (next s)).
Qed.

(** Giving a reserved port set back. *)
Lemma pool_give_back s k g :
  pool s → fresh_gateway k g s → pool (set_gateway_sets ({[k]} ∪ gateway_sets s) s).
Proof.
  intros [A1 A2 A3 A4 A5] ((R1 & R2 & R3) & _). split; cbn; try done.
  - intros j [->%elem_of_singleton|Hj]%elem_of_union; auto.
  - intros r d g' Hd Hg. destruct (A2 r d g' Hd Hg) as (o & B1 & B2 & B3 & B4). exists o.
    split; [done|]. split; [done|]. split; [|done]. intros [Heq%elem_of_singleton|?]%elem_of_union; [|done].
    by apply (R3 r g' o); [exists d| |].
Qed.

Lemma start_gateway_spec k g :
  spec pool (fresh_gateway k g)
    (try_except (call InitGateway;; on_gw g (modify (initialized g)))
       (λ e, modify (λ s, set_gateway_sets ({[k]} ∪ gateway_sets s) s);; raise e))
    (λ _, usable g).
Proof.
  intros s Hp Hf. unfold try_except, mbind, M_bind, call.
  assert (pool (tick s)) as Hp1 by (destruct Hp; by split).
  assert (fresh_gateway k g (tick s)) as Hf1 by done.
  destruct (rok (calls s) InitGateway); cbn [fst snd]; cycle 1.
  { split; [|done]. by eapply pool_give_back. }
  destruct Hf1 as ((R1 & R2 & R3) & (o & Ho & Hk) & Hnh).
  unfold on_gw. rewrite Ho. cbn [modify fst snd]. split; [by eapply pool_insert_gw|].
  intros [] _. exists (initialized g o). cbn. rewrite lookup_insert_eq, Hk.
  split_and!; [done|done|apply R2|apply R2|].
  intros r g' o' Hh. destruct (decide (g = g')) as [->|]; [done|].
  rewrite lookup_insert_ne by done. intros Ho' Heq. by destruct (R3 r g' o' Hh Ho').
Qed.

Lemma create_gateway_spec r :
  spec pool (λ _, True) (_create_gateway C (Some r)) usable.
Proof.
  intros s Hp _. unfold _create_gateway. rewrite (bind_ok getS _ s s s eq_refl).
  rewrite (bool_decide_false (Some r = None)) by done. cbn [negb orb].
  erewrite bind_ok by reflexivity. rewrite (pl_native s Hp).
  destruct (Devices.dev_heap (devs s) !! r) as [d|] eqn:Hd; cycle 1.
  { unfold dev, mbind, M_bind, getS, lift. by rewrite Hd. }
  erewrite bind_ok by (unfold dev; erewrite bind_ok by reflexivity; by rewrite Hd).
  rewrite (bind_ok getS _ s s s eq_refl).
  set (members := match Devices.group d with Some n => _ | None => [] end). clearbody members.
  set (existing := remove_dups _).
  assert (∀ g, g ∈ existing → ∃ m, holds s m g) as Hex.
  { intros g Hg. apply elem_of_remove_dups, list_elem_of_omap in Hg as (m & _ & Hm).
    apply bind_Some in Hm as (dm & ? & ?). by exists m, dm. }
  destruct existing as [|g [|g' l]].
  - assert (spec pool (λ _, True) (set_num ← _find_gateway_set r;
      g ← new_gateway (default "" (Devices.group d)) set_num None;
      try_except (call InitGateway;; on_gw g (modify (initialized g)))
        (λ e, modify (λ s, set_gateway_sets ({[set_num]} ∪ gateway_sets s) s);; raise e);;
      mret g) usable) as Hs; [|by apply Hs].
    eapply spec_bind; [apply find_set_spec|]. intros k.
    eapply spec_bind; [apply new_gateway_spec|]. intros g.
    eapply spec_bind; [apply start_gateway_spec|]. intros ?.
    intros s' Hp' Hu. split; [done|]. by intros b [= <-].
  - split; [done|]. intros a [= <-]. destruct (Hex g) as [m Hm]; [set_solver|]. by eapply usable_held.
  - by split.
Qed.

(** Attaching a device to a usable gateway. *)
Lemma attach_step r d g s :
  pool s → usable g s → Devices.dev_heap (devs s) !! r = Some d →
  pool (fst ((on_gw g (Gateway.attach_target (Devices.mac d) r);;
              upd r (Devices.with_gateway (Some g))) s)).
Proof.
  intros Hp (o & Ho & Hni & Hrange & Hex) Hd.
  destruct (dmem (Devices.mac d) (Gateway.targets o)) eqn:Hm.
  { unfold mbind, M_bind, on_gw. rewrite Ho.
    unfold Gateway.attach_target, mbind, M_bind, getS, assertM. rewrite Hm. cbn [negb fst].
    by eapply pool_insert_gw. }
  set (o' := Gateway.with_targets (dset (Devices.mac d) r (Gateway.targets o)) o).
  set (s1 := set_gws (<[g := o']> (gws s)) s).
  erewrite (bind_ok _ _ s s1); cycle 1.
  { unfold on_gw. rewrite Ho.
    unfold Gateway.attach_target, mbind, M_bind, getS, assertM, modify, gets. rewrite Hm. reflexivity. }
  unfold upd, on_devs, modify. cbn [fst].
  set (s2 := set_devs _ s1). apply dmem_false in Hm.
  assert (∀ r' g', holds s2 r' g' → (r' = r ∧ g' = g) ∨ (r' ≠ r ∧ holds s r' g')) as Hh.
  { intros r' g' (d' & Hd' & Hg'). cbn in Hd'. destruct (decide (r = r')) as [->|Hne].
    - rewrite lookup_alter_eq, Hd in Hd'. injection Hd' as <-. injection Hg' as <-. by left.
    - rewrite lookup_alter_ne in Hd' by done. right. split; [done|]. by exists d'. }
  assert (∀ g1 o1, gws s2 !! g1 = Some o1 →
    ∃ o2, gws s !! g1 = Some o2 ∧ Gateway.port_set o2 = Gateway.port_set o1) as Hl.
  { intros g1 o1. cbn. destruct (decide (g = g1)) as [->|]; [|rewrite lookup_insert_ne by done; eauto].
    rewrite lookup_insert_eq. intros [= <-]. eauto. }
  destruct Hp as [A1 A2 A3 A4 A5]. split; try done.
  - intros r1 d1 g1 Hd1 Hg1. destruct (decide (r = r1)) as [->|Hne].
    + cbn in Hd1. rewrite lookup_alter_eq, Hd in Hd1. injection Hd1 as <-. injection Hg1 as <-.
      exists o'. cbn. by rewrite lookup_insert_eq, dget_dset_eq.
    + cbn in Hd1. rewrite lookup_alter_ne in Hd1 by done.
      destruct (A2 r1 d1 g1 Hd1 Hg1) as (o1 & Ho1 & B1 & B2 & B3).
      destruct (decide (g1 = g)) as [->|Hgne]; [|exists o1; cbn; by rewrite lookup_insert_ne].
      exists o'. cbn. rewrite lookup_insert_eq. assert (o1 = o) as -> by congruence.
      rewrite dget_dset_ne; [done|]. intros Heq. rewrite Heq in B1. congruence.
  - intros r1 r2 g1 g2 o1 o2 H1%Hh H2%Hh (p1 & G1 & E1)%Hl (p2 & G2 & E2)%Hl Heq.
    destruct H1 as [[-> ->]|[_ H1]], H2 as [[-> ->]|[_ H2]].
    + done.
    + symmetry. apply (Hex r2 g2 p2); [done..|]. assert (p1 = o) as -> by congruence. congruence.
    + apply (Hex r1 g1 p1); [done..|]. assert (p2 = o) as -> by congruence. congruence.
    + apply (A3 r1 r2 g1 g2 p1 p2); [done..|]. congruence.
  - intros g1 Hg1. cbn. rewrite lookup_insert_ne; [by apply A4|]. intros ->.
    specialize (A4 g1 Hg1). congruence.
Qed.

Lemma pure_dev r s : fst (dev r s) = s.
Proof. unfold dev, mbind, M_bind, getS, lift. by destruct (_ !! _). Qed.

Lemma pure_port_of r s : fst (port_of r s) = s.
Proof. unfold port_of, dev, mbind, M_bind, getS, lift. by repeat case_match; simplify_eq. Qed.

Lemma pure_port_ref r s : fst (port_ref r s) = s.
Proof. unfold port_ref, dev, mbind, M_bind, getS, lift. by repeat case_match; simplify_eq. Qed.

Lemma pure_gw g s : fst (gw g s) = s.
Proof. unfold gw, mbind, M_bind, getS, lift. by destruct (_ !! _). Qed.

Lemma pool_tick {A} (m : RM A) : (∀ s, fst (m s) = tick s) → keeps pool m.
Proof. intros Hm s [A1 A2 A3 A4 A5]. rewrite Hm. by split. Qed.

Lemma pool_upd r f :
  (∀ d, Devices.mac (f d) = Devices.mac d) → (∀ d, Devices.gateway (f d) = Devices.gateway d) →
  keeps pool (upd r f).
Proof. intros Hm Hg. unfold upd. by apply pool_on_devs, shrinks_upd. Qed.

Lemma pool_upd_port p f : keeps pool (upd_port p f).
Proof. unfold upd_port. apply pool_on_devs, shrinks_heap. done. Qed.

Lemma pool_alloc_port pi : keeps pool (on_devs (Devices.alloc_port pi)).
Proof. apply pool_on_devs. intros ds r d g. cbn. eauto. Qed.

Lemma pool_create_absent m p v : keeps pool (on_devs (Devices.create_if_absent m p v)).
Proof. apply pool_on_devs, shrinks_create. Qed.

Lemma pool_remove r : keeps pool (on_devs (Devices.remove r)).
Proof. apply pool_on_devs, shrinks_remove. Qed.

Create HintDb pool.
#[local] Hint Resolve pool_upd_port pool_alloc_port pool_create_absent pool_remove : pool.

(** Follow the structure of an operation. *)
Ltac pool_leaf :=
  match goal with
  | |- keeps _ (call _) => by apply pool_tick
  | |- keeps _ (ask _) => by apply pool_tick
  | |- keeps _ (oracle _) => by apply pool_tick
  | |- keeps _ (dev _) => apply keeps_pure, pure_dev
  | |- keeps _ (port_of _) => apply keeps_pure, pure_port_of
  | |- keeps _ (port_ref _) => apply keeps_pure, pure_port_ref
  | |- keeps _ (gw _) => apply keeps_pure, pure_gw
  | |- keeps _ (upd _ _) => apply pool_upd; reflexivity
  | |- keeps _ (modify _) => apply pool_modify; intros ?; cbn; first [reflexivity|lia]
  | |- keeps _ (on_gw _ Gateway.activate) => apply pool_on_gw; reflexivity
  | |- keeps _ (on_gw _ (modify _)) => apply pool_on_gw; reflexivity
  end.

Ltac pools := walk ltac:(idtac; first [solve [eauto with pool nocore] | pool_leaf]).

Lemma pool_acquire r b :
  spec pool (λ _, True) (acquire_gateway C r b)
    (λ og s, match og with Some g => usable g s | None => True end).
Proof.
  unfold acquire_gateway. intros s Hp _.
  set (m := (group ← _; _ : RM (option nat))).
  assert (spec pool (λ _, True) m
    (λ og s, match og with Some g => usable g s | None => True end)) as Hm.
  { unfold m. eapply spec_bind; [apply spec_keeps; pools|]. intros grp.
    eapply spec_bind; [apply spec_keeps; pools|]. intros name.
    eapply spec_bind; [apply spec_keeps; pools|]. intros ?.
    eapply spec_bind; [apply (spec_weaken _ (λ _, True)); [apply create_gateway_spec|done]|]. intros g.
    eapply spec_bind.
    { apply spec_frame; [pools|]. intros s'. by rewrite pure_gw. }
    intros o s' Hp' Hu. split; [done|]. intros og [= <-]. by destruct (Gateway.activated o && negb b). }
  destruct (Hm s Hp I) as [Hp' Hq]. unfold try_except.
  destruct (m s) as [s' [og|e]]; cbn [fst snd] in *; [split; auto|].
  split; [|by intros og; unfold mbind, M_bind; destruct (whenM _ _ _) as [? []]; [intros [= <-]|]].
  revert s' Hp' Hq. match goal with |- ∀ s', pool s' → _ → pool (fst (?k s')) =>
    assert (keeps pool k) as Hk by pools end.
  intros s' Hp' _. by apply Hk.
Qed.

Section retire.
Hypothesis Hretire : can_retire.

Lemma pool_detach_ok r : keeps pool (_detach_gateway r).
Proof. by apply pool_detach. Qed.

Lemma pool_activate_port p : keeps pool (_activate_port p).
Proof. unfold _activate_port. pools. Qed.

Lemma pool_heartbeat : keeps pool _send_heartbeat.
Proof. unfold _send_heartbeat. pools. Qed.

Lemma pool_send_result r t : keeps pool (_send_device_result r t).
Proof. unfold _send_device_result. pools. Qed.

#[local] Hint Resolve pool_detach_ok pool_activate_port pool_heartbeat pool_send_result : pool.

Lemma pool_cancel r : keeps pool (_target_set_cancel C r).
Proof. unfold _target_set_cancel. pools. Qed.

#[local] Hint Resolve pool_cancel : pool.

Section events.
Context (h : RM unit) (Hh : keeps pool h).
#[local] Hint Resolve Hh : pool.

Lemma pool_finalize r rs : keeps pool (_target_set_finalize C h r rs).
Proof. unfold _target_set_finalize. pools. Qed.

#[local] Hint Resolve pool_finalize : pool.

Lemma pool_complete r : keeps pool (target_set_complete C h r).
Proof. unfold target_set_complete. pools. Qed.

#[local] Hint Resolve pool_complete : pool.

Lemma pool_error r e : keeps pool (target_set_error C h r e).
Proof. unfold target_set_error. pools. Qed.

#[local] Hint Resolve pool_error : pool.

Lemma pool_host_call r x : keeps pool (host_call C h r x).
Proof. unfold host_call. pools. Qed.

#[local] Hint Resolve pool_host_call : pool.

Lemma pool_start_host r g b p :
  spec pool (usable g) (start_host C h r g b p) (λ _ _, True).
Proof.
  unfold start_host. eapply spec_bind.
  { apply (spec_frame _ (usable g)); [pools|]. intros s. by destruct b. }
  intros ?. cbv beta. intros s Hp Hu.
  destruct (Devices.dev_heap (devs s) !! r) as [d|] eqn:Hd; cycle 1.
  { unfold dev, mbind, M_bind, getS, lift. by rewrite Hd. }
  erewrite bind_ok by (unfold dev; erewrite bind_ok by reflexivity; by rewrite Hd).
  pose proof (attach_step r d g s Hp Hu Hd) as Ha.
  assert (∀ m : RM bool, keeps pool m →
    pool (fst ((on_gw g (Gateway.attach_target (Devices.mac d) r);;
                upd r (Devices.with_gateway (Some g));; m) s))) as Hm.
  { intros m Hk. unfold mbind, M_bind in *.
    destruct (on_gw g _ s) as [s1 [x|e]]; cbn [fst] in *; [|done].
    destruct (upd r _ s1) as [s2 [y|e]]; cbn [fst] in *; [by apply Hk|done]. }
  split; [|done]. apply Hm. pools.
Qed.

Lemma pool_activate r : keeps pool (_target_set_activate C h r).
Proof.
  unfold _target_set_activate. apply keeps_bind; [pools|intros d].
  apply keeps_bind; [pools|intros p]. apply keeps_bind; [pools|intros ?].
  eapply keeps_spec, spec_bind; [apply pool_acquire|].
  intros [g|]; [apply pool_start_host|]. apply spec_keeps. pools.
Qed.

#[local] Hint Resolve pool_activate : pool.

Lemma pool_trigger r b : keeps pool (_target_set_trigger C h r b).
Proof. unfold _target_set_trigger. pools. Qed.

Lemma pool_consider : keeps pool (_target_set_consider C h).
Proof. unfold _target_set_consider. pools. Qed.

#[local] Hint Resolve pool_trigger pool_consider : pool.

Lemma pool_device_learn m v : keeps pool (_handle_device_learn C h m v).
Proof. unfold _handle_device_learn. pools. Qed.

Lemma pool_on_session q : keeps pool (_on_session C h q).
Proof. unfold _on_session, _remote_trigger. pools. Qed.

Lemma pool_shutdown : keeps pool (shutdown C h).
Proof. unfold shutdown, _terminate. pools. Qed.

#[local] Hint Resolve pool_device_learn pool_shutdown : pool.

Lemma pool_process e : keeps pool (_process_faucet_event C h e).
Proof.
  unfold _process_faucet_event, _handle_port_state, _handle_port_learn, _deactivate_port. pools.
Qed.

End events.

#[local] Hint Resolve pool_process pool_shutdown : pool.

Lemma pool_event_loop f ev : keeps pool (event_loop C f ev).
Proof.
  revert ev. induction f as [|f IH]; intros ev; cbn [event_loop]; [pools|].
  pose proof (IH None). pools.
Qed.

Lemma pool_events : keeps pool (_handle_faucet_events C).
Proof. intros s Hs. by apply pool_event_loop. Qed.

#[local] Hint Resolve pool_events pool_complete pool_error pool_host_call pool_trigger
  pool_consider pool_device_learn : pool.

Lemma pool_idle : keeps pool (_handle_system_idle C).
Proof. unfold _handle_system_idle, idle_device. pools. Qed.

Lemma pool_reap : keeps pool (_reap_stale_ports C).
Proof. unfold _reap_stale_ports, reap_device. pools. Qed.

Lemma pool_module_heartbeat : keeps pool (_module_heartbeat C).
Proof. unfold _module_heartbeat. pools. Qed.

Lemma pool_terminate_set g : keeps pool (_terminate_gateway_set C g).
Proof. unfold _terminate_gateway_set. pools. Qed.

Lemma pool_all_ready r l : keeps pool (all_trigger_ready C r l).
Proof. induction l as [|x l IH]; cbn [all_trigger_ready]; pools. Qed.

Lemma pool_target_ready g r : keeps pool (on_gw g (Gateway.target_ready r)).
Proof.
  apply pool_on_gw; intros o; unfold Gateway.target_ready, mbind, M_bind, modify, gets;
    cbn; by case_decide.
Qed.

#[local] Hint Resolve pool_all_ready pool_target_ready : pool.

Lemma pool_check r : keeps pool (_check_and_activate_gateway C r).
Proof.
  unfold _check_and_activate_gateway, _should_activate_target, _activate_gateway, trigger_device.
  pools.
Qed.

#[local] Hint Resolve pool_check : pool.

Lemma pool_ip_notify st t : keeps pool (ip_notify C st t).
Proof. unfold ip_notify. pools. Qed.

Lemma pool_session_end q : keeps pool (_on_session_end q).
Proof. unfold _on_session_end. pools. Qed.

#[local] Hint Resolve pool_idle pool_reap pool_module_heartbeat pool_terminate_set pool_ip_notify
  pool_session_end pool_on_session : pool.

Lemma pool_step o : Devices.truthy (native_vlan C) = false → keeps pool (step C o).
Proof.
  intros Hn. destruct o; cbn [step]; unfold initialize, _dhcp_ready_listener, ip_notify_error;
    rewrite ?Hn; cbn [whenM]; pools.
Qed.

End retire.

Lemma pool_start server events : pool (start server events).
Proof.
  split.
  - intros k Hk. change (k ∈ (list_to_set (zseq 1 9) : gset Z)) in Hk.
    rewrite elem_of_list_to_set, elem_of_zseq in Hk. unfold MAX_GATEWAYS. lia.
  - intros r d g Hd. cbn in Hd. by rewrite lookup_empty in Hd.
  - intros r1 r2 g1 g2 o1 o2 (d & Hd & _). cbn in Hd. by rewrite lookup_empty in Hd.
  - intros g _. apply lookup_empty.
  - done.
Qed.

End env.

(** ** Concrete runs *)

(** Nothing fails, and every device is a group of its own. *)
Definition calm : renv := {|
  rok := λ _ _, true; rans := λ _ _, true; rcbs := λ _ _, []; rgroup := λ n, Some (pretty n);
  rgroup_size := λ _, 1; rpick := λ _, 1; rtime := λ n, Z.of_nat n; rresults := λ _, [];
  rreport := λ _, []; renabled := λ _, 0%nat; rflap := λ _, None
|}.

Definition conf1 : conf :=
  mkConf false false false 0 (Some 2) None false 5 (Some 2) 7 None None.

Definition port_up (dpid port : Z) : val :=
  VDict [("dp_id", VInt dpid);
         ("PORT_CHANGE", VDict [("port_no", VInt port); ("status", VBool true); ("reason", VStr "MODIFY")])].
Definition learn (dpid port : Z) (mac : string) : val :=
  VDict [("dp_id", VInt dpid);
         ("L2_LEARN", VDict [("port_no", VInt port); ("eth_src", VStr mac); ("vid", VInt 10)])].

(** The system port and two device ports come up, and a device is learned on
    each of the latter. *)
Definition events1 : list outcome :=
  [Event (port_up 1 1); Event (port_up 2 3); Event (port_up 2 4);
   Event (learn 2 3 "9a:02:57:1e:8f:01"); Event (learn 2 4 "3c:5a:b4:1e:8f:0b")].

Abbreviation runner1 := (run (E := calm) conf1 [Initialize; Events] (start None events1)).

(** ** Properties *)





End RunnerSpec.
