(* ===== verification/RunnerLimits.v ===== *)
(** * The limit on devices under test, and the exit code (src/daq/runner.py)

    - however devices are learned, queued, started, failed and removed, the
      number of devices with a host never exceeds [max_hosts]
      ([hosts_within_limit]);
    - the exit code of a run is 0 exactly when no exception stopped it and no
      recorded result failed ([exit_code_correct]). *)

From stdpp Require Import base list gmap strings pretty.
From Stdlib Require Import ZArith Lia.
From S2P Require Import Prelude PyText PyVal Devices Gateway FaucetEvents Sessions Runner.

Module RunnerLimits.
Import DAQRunner.
Local Open Scope string_scope.
Local Open Scope list_scope.
Local Open Scope Z_scope.

(** ** Counting the devices with a host *)

(** The registry as every history leaves it: the registered references point to
    devices with that MAC address. *)
Record reg_ok (ds : Devices.Devices) : Prop := {
  ro_wf : dict_wf (Devices._devices ds);
  ro_dev : ∀ m r, dget m (Devices._devices ds) = Some r →
    (r < Devices.next_ref ds)%nat ∧
    ∃ d, Devices.dev_heap ds !! r = Some d ∧ Devices.mac d = m
}.

Definition hosted (ds : Devices.Devices) (r : nat) : bool :=
  match Devices.dev_heap ds !! r with Some d => bool_decide (is_Some (Devices.host d)) | None => false end.

Definition count (ds : Devices.Devices) : nat := length (Devices.get_triggered_devices ds).

(** No device gets a host. *)
Definition no_new_host (ds ds' : Devices.Devices) : Prop :=
  reg_ok ds → reg_ok ds' ∧ (count ds' ≤ count ds)%nat.

#[local] Instance no_new_host_preorder : PreOrder no_new_host.
Proof.
  split; [by intros ds H|]. intros d1 d2 d3 H12 H23 H1.
  destruct (H12 H1) as [H2 L2]. destruct (H23 H2) as [H3 L3]. split; [done|lia].
Qed.

Lemma filter_le {A} (P Q : A → bool) (l : list A) :
  (∀ x, x ∈ l → P x = true → Q x = true) →
  (length (filter (λ x, P x = true) l) ≤ length (filter (λ x, Q x = true) l))%nat.
Proof.
  induction l as [|x l IH]; intros H; [done|].
  assert (length (filter (λ x, P x = true) l) ≤ length (filter (λ x, Q x = true) l))%nat as Hl
    by (apply IH; intros y Hy; apply H; by right).
  rewrite !filter_cons. case_decide as HP; case_decide as HQ; simpl; try lia.
  destruct HQ. apply H; [by left|done].
Qed.

(** At most one more element passes the filter. *)
Lemma filter_one {A} (P Q : A → bool) (a : A) (l : list A) :
  NoDup l → (∀ x, x ≠ a → P x = true → Q x = true) →
  (length (filter (λ x, P x = true) l) ≤ S (length (filter (λ x, Q x = true) l)))%nat.
Proof.
  intros Hnd H. induction Hnd as [|x l Hx Hnd IH]; [simpl; lia|].
  rewrite !filter_cons. case_decide as HP; case_decide as HQ; simpl; try lia.
  assert (∀ y, y ∈ l → P y = true → Q y = true) as Hl.
  { intros y Hy. apply H. intros ->. apply HQ, H; [|done]. intros ->. done. }
  pose proof (filter_le P Q l Hl). lia.
Qed.

Lemma dvals_ddel {V} (P : V → bool) (k : string) (d : dict string V) :
  (length (filter (λ v, P v = true) (dvals (ddel k d))) ≤
   length (filter (λ v, P v = true) (dvals d)))%nat.
Proof.
  unfold dvals. induction d as [|[k2 v2] d IH]; [done|]. cbn [ddel].
  case_decide; rewrite !fmap_cons; cbn [snd]; rewrite !filter_cons; case_decide; cbn [length]; lia.
Qed.

Lemma count_hosted ds :
  count ds = length (filter (λ r, hosted ds r = true) (dvals (Devices._devices ds))).
Proof. done. Qed.

(** The registered references are different. *)
Lemma reg_nodup ds : reg_ok ds → NoDup (dvals (Devices._devices ds)).
Proof.
  intros [Hwf Hd].
  assert (∀ m r, (m, r) ∈ Devices._devices ds → ∃ d, Devices.dev_heap ds !! r = Some d ∧ Devices.mac d = m)
    as Hin.
  { intros m r Hmr. by apply Hd, dget_wf_elem. }
  clear Hd. unfold dict_wf, dkeys, dvals in *. revert Hwf Hin.
  induction (Devices._devices ds) as [|[m r] l IH]; intros Hwf Hin; [apply NoDup_nil_2|].
  simpl in *. apply NoDup_cons in Hwf as [Hm Hwf]. apply NoDup_cons. split.
  - intros ([m' r'] & Heq & Hr')%list_elem_of_fmap. simpl in Heq. subst r'.
    destruct (Hin m r) as (d & Hd & Hmac); [by left|].
    destruct (Hin m' r) as (d' & Hd' & Hmac'); [by right|].
    apply Hm. apply list_elem_of_fmap. exists (m', r). split; [simpl; congruence|done].
  - apply IH; [done|]. intros m' r' H. apply Hin. by right.
Qed.

Lemma nnh_same f :
  (∀ ds, Devices.dev_heap (f ds) = Devices.dev_heap ds) →
  (∀ ds, Devices._devices (f ds) = Devices._devices ds) →
  (∀ ds, (Devices.next_ref ds ≤ Devices.next_ref (f ds))%nat) →
  preserves no_new_host (modify f).
Proof.
  intros H1 H2 H3 ds [Hwf Hd]. cbn. split.
  - split; rewrite ?H1, ?H2; [done|]. intros m r Hmr. destruct (Hd m r Hmr) as [Hlt ?].
    split; [|done]. specialize (H3 ds). lia.
  - rewrite !count_hosted. unfold hosted. by rewrite H1, H2.
Qed.

Lemma nnh_upd r f :
  (∀ d, Devices.mac (f d) = Devices.mac d) →
  (∀ d, Devices.host (f d) = Devices.host d ∨ Devices.host (f d) = None) →
  preserves no_new_host (modify (Devices.upd_dev r f)).
Proof.
  intros Hm Hh ds [Hwf Hd]. cbn. split.
  - split; cbn; [done|]. intros m r' Hmr. destruct (Hd m r' Hmr) as (Hlt & d & Hd1 & Hd2).
    split; [done|]. destruct (decide (r = r')) as [->|].
    + exists (f d). rewrite lookup_alter_eq, Hd1. by rewrite Hm.
    + exists d. by rewrite lookup_alter_ne.
  - rewrite !count_hosted. cbn. apply filter_le. intros x _. unfold hosted. cbn.
    destruct (decide (r = x)) as [->|]; [|by rewrite lookup_alter_ne].
    rewrite lookup_alter_eq. destruct (Devices.dev_heap ds !! x) as [d|]; [|done]. cbn.
    destruct (Hh d) as [->| ->]; done.
Qed.

Lemma nnh_remove r : preserves no_new_host (Devices.remove r).
Proof.
  unfold Devices.remove.
  assert (∀ k, preserves no_new_host (modify (Devices.upd_devices (ddel k)))) as Hdel.
  { intros k ds [Hwf Hd]. cbn. split.
    - split; cbn; [by apply dict_wf_ddel|]. intros m r' Hmr. apply Hd.
      destruct (decide (m = k)) as [->|]; [by rewrite dget_ddel_eq in Hmr|].
      by rewrite dget_ddel_ne in Hmr.
    - rewrite !count_hosted. cbn. apply (dvals_ddel (hosted ds)). }
  walk ltac:(idtac; first [apply Hdel | apply nnh_same; intros ?; cbn; first [done|lia]]).
Qed.

Lemma nnh_create m p v : preserves no_new_host (Devices.create_if_absent m p v).
Proof.
  intros ds Hds. unfold Devices.create_if_absent. rewrite (bind_ok getS _ ds ds ds eq_refl).
  destruct (dget m (Devices._devices ds)) as [r|] eqn:Hm; [by split|].
  rewrite Devices.new_device_unfold by done.
  assert (reg_ok (Devices.staged m p v ds) ∧ (count (Devices.staged m p v ds) ≤ count ds)%nat)
    as [Hs Hc].
  { destruct Hds as [Hwf Hd]. split.
    - split; cbn; [by apply dict_wf_dset|]. intros m' r'. rewrite dget_dset. case_decide as Heq.
      + intros [= <-]. split; [destruct p; simpl; lia|]. eexists. by rewrite lookup_insert_eq.
      + intros Hmr. destruct (Hd m' r' Hmr) as (Hlt & d & Hd1 & Hd2).
        split; [destruct p; simpl; lia|]. exists d. by rewrite lookup_insert_ne by lia.
    - rewrite !count_hosted. cbn. rewrite dkeys_dset_new by done. unfold dvals.
      rewrite fmap_app, filter_app, length_app. cbn [fmap list_fmap].
      rewrite filter_cons_False, filter_nil; cycle 1.
      { unfold hosted. cbn. by rewrite lookup_insert_eq. }
      simpl. rewrite Nat.add_0_r. apply filter_le. intros r Hr. unfold hosted. cbn.
      apply list_elem_of_fmap in Hr as ([m' r'] & -> & Hr).
      apply dget_wf_elem in Hr; [|done]. destruct (Hd m' r' Hr) as [Hlt _]. simpl.
      by rewrite lookup_insert_ne by lia. }
  match goal with |- reg_ok (fst (?k _)) ∧ _ => assert (preserves no_new_host k) as Hk end.
  { unfold Devices._allocate_set_id.
    walk ltac:(idtac; first
      [ apply nnh_upd; [done|by left]
      | apply nnh_same; intros ?; cbn; first [done|lia]
      | match goal with |- preserves _ (λ s, (s, _)) => intros ?; cbn; reflexivity end ]). }
  destruct (Hk _ Hs) as [Hs' Hc']. split; [done|lia].
Qed.

Section env.
Context `{E : renv} (C : conf).

Abbreviation RM := (M Runner) (only parsing).

(** ** The limit *)

Definition within (s : Runner) : Prop :=
  ∀ n, _max_hosts C = Some n → 0 ≤ n → Z.of_nat (count (devs s)) ≤ n.

(** There is room for one more. *)
Definition below (s : Runner) : Prop :=
  ∀ n, _max_hosts C = Some n → 0 ≤ n → Z.of_nat (count (devs s)) < n.

Definition cap (s : Runner) : Prop := reg_ok (devs s) ∧ within s.

(** The runner's operations that start no host. *)
Definition quiet (s s' : Runner) : Prop := no_new_host (devs s) (devs s').

#[local] Instance quiet_preorder : PreOrder quiet.
Proof.
  split; [intros s; unfold quiet; reflexivity|]. intros s1 s2 s3. unfold quiet. apply transitivity.
Qed.

Lemma quiet_cap {A} (m : RM A) : preserves quiet m → keeps cap m.
Proof.
  intros Hm s [Hr Hw]. destruct (Hm s Hr) as [Hr' Hc]. split; [done|].
  intros n Hn H0. specialize (Hw n Hn H0). lia.
Qed.

Lemma quiet_below {A} (m : RM A) : preserves quiet m → spec cap below m (λ _, below).
Proof.
  intros Hm s Hcap Hb. split; [by apply (quiet_cap m Hm)|]. intros a _ n Hn H0.
  destruct Hcap as [Hr _]. destruct (Hm s Hr) as [_ Hc]. specialize (Hb n Hn H0). lia.
Qed.

Lemma quiet_same {A} (m : RM A) : (∀ s, devs (fst (m s)) = devs s) → preserves quiet m.
Proof. intros Hm s. unfold quiet. by rewrite Hm. Qed.

Lemma quiet_on_devs {A} (m : M Devices.Devices A) :
  preserves no_new_host m → preserves quiet (on_devs m).
Proof.
  intros Hm s. specialize (Hm (devs s)). unfold quiet, on_devs. by destruct (m (devs s)).
Qed.

Lemma quiet_upd r f :
  (∀ d, Devices.mac (f d) = Devices.mac d) →
  (∀ d, Devices.host (f d) = Devices.host d ∨ Devices.host (f d) = None) →
  preserves quiet (upd r f).
Proof. intros Hm Hh. by apply quiet_on_devs, nnh_upd. Qed.

Lemma quiet_upd_port p f : preserves quiet (upd_port p f).
Proof. apply quiet_on_devs, nnh_same; intros ?; cbn; [done..|lia]. Qed.

Lemma quiet_alloc_port pi : preserves quiet (on_devs (Devices.alloc_port pi)).
Proof.
  apply quiet_on_devs. intros ds [Hwf Hd]. cbn. split; [|done]. split; [done|].
  intros m r Hmr. destruct (Hd m r Hmr) as [Hlt ?]. split; [cbn; lia|done].
Qed.

Lemma quiet_create m p v : preserves quiet (on_devs (Devices.create_if_absent m p v)).
Proof. apply quiet_on_devs, nnh_create. Qed.

Lemma quiet_remove r : preserves quiet (on_devs (Devices.remove r)).
Proof. apply quiet_on_devs, nnh_remove. Qed.

Lemma quiet_on_gw {A} g (m : M Gateway.Gateway A) : preserves quiet (on_gw g m).
Proof.
  apply quiet_same. intros s. unfold on_gw. destruct (gws s !! g) as [o|]; [|done]. by destruct (m o).
Qed.

Lemma quiet_terminate g : preserves quiet (gateway_terminate g).
Proof.
  apply quiet_same. intros s. unfold gateway_terminate, mbind, M_bind.
  destruct (gws s !! g) as [o|]; [|done]. by destruct (Gateway.terminate _ o) as [[o' c] [[]|e]].
Qed.

Create HintDb limit.
#[local] Hint Resolve quiet_upd_port quiet_alloc_port quiet_create quiet_remove quiet_on_gw
  quiet_terminate : limit.

Ltac quiet_leaf :=
  match goal with
  | |- preserves _ (call _) => by apply quiet_same
  | |- preserves _ (ask _) => by apply quiet_same
  | |- preserves _ (oracle _) => by apply quiet_same
  | |- preserves _ (modify _) => apply quiet_same; intros ?; reflexivity
  | |- preserves _ (upd _ _) => apply quiet_upd; [done|intros ?; first [by left|by right]]
  end.

Ltac quiets := walk ltac:(idtac; first [solve [eauto with limit nocore] | quiet_leaf]).

Lemma quiet_activate_port p : preserves quiet (_activate_port p).
Proof. unfold _activate_port. quiets. Qed.

Lemma quiet_heartbeat : preserves quiet _send_heartbeat.
Proof. unfold _send_heartbeat. quiets. Qed.

Lemma quiet_detach r : preserves quiet (_detach_gateway r).
Proof. unfold _detach_gateway, dev, gw. quiets. Qed.

Lemma quiet_send_result r t : preserves quiet (_send_device_result r t).
Proof. unfold _send_device_result, dev. quiets. Qed.

#[local] Hint Resolve quiet_activate_port quiet_heartbeat quiet_detach quiet_send_result : limit.

Lemma quiet_cancel r : preserves quiet (_target_set_cancel C r).
Proof. unfold _target_set_cancel, dev, port_of, dev, gw. quiets. Qed.

Lemma quiet_create_gateway d : preserves quiet (_create_gateway C d).
Proof. unfold _create_gateway, _find_gateway_set, new_gateway, port_of, dev. quiets. Qed.

#[local] Hint Resolve quiet_cancel quiet_create_gateway : limit.

Lemma quiet_acquire r b : preserves quiet (acquire_gateway C r b).
Proof. unfold acquire_gateway, gw. quiets. Qed.

#[local] Hint Resolve quiet_acquire : limit.

(** Starting a host below the limit. *)
Lemma set_host_spec r h :
  spec cap below (upd r (Devices.with_host (Some h))) (λ _ _, True).
Proof.
  intros s [Hr Hw] Hb. split; [|done]. cbn. set (ds := Devices.upd_dev _ _ _).
  assert (count ds ≤ S (count (devs s)))%nat as Hc.
  { rewrite !count_hosted. cbn. apply (filter_one _ _ r); [by apply reg_nodup|].
    intros x Hx. unfold hosted. cbn. by rewrite lookup_alter_ne. }
  split.
  - destruct Hr as [Hwf Hd]. split; [done|]. intros m r' Hmr.
    destruct (Hd m r' Hmr) as (Hlt & d & Hd1 & Hd2). split; [done|]. cbn.
    destruct (decide (r = r')) as [->|]; [|exists d; by rewrite lookup_alter_ne].
    exists (Devices.with_host (Some h) d). by rewrite lookup_alter_eq, Hd1.
  - intros n Hn H0. specialize (Hb n Hn H0).
    change (Z.of_nat (count ds) ≤ n). lia.
Qed.

Ltac caps :=
  walk ltac:(idtac; first
    [ solve [eauto with limit nocore]
    | solve [apply quiet_cap; unfold dev, port_of, port_ref, gw, dev; quiets] ]).

Section events.
Context (h : RM unit) (Hh : keeps cap h).
#[local] Hint Resolve Hh : limit.

Lemma cap_finalize r rs : keeps cap (_target_set_finalize C h r rs).
Proof. unfold _target_set_finalize. caps. Qed.

#[local] Hint Resolve cap_finalize : limit.

Lemma cap_complete r : keeps cap (target_set_complete C h r).
Proof. unfold target_set_complete. caps. Qed.

#[local] Hint Resolve cap_complete : limit.

Lemma cap_error r e : keeps cap (target_set_error C h r e).
Proof. unfold target_set_error. caps. Qed.

#[local] Hint Resolve cap_error : limit.

Lemma cap_host_call r x : keeps cap (host_call C h r x).
Proof. unfold host_call. caps. Qed.

#[local] Hint Resolve cap_host_call : limit.

Lemma cap_start_host r g b p : spec cap below (start_host C h r g b p) (λ _ _, True).
Proof.
  unfold start_host. eapply spec_bind; [apply quiet_below; quiets|]. intros ?.
  eapply spec_bind; [apply quiet_below; unfold dev; quiets|]. intros d.
  eapply spec_bind; [apply quiet_below; quiets|]. intros ?.
  eapply spec_bind; [apply quiet_below; quiets|]. intros ?.
  eapply spec_try; [|intros e; caps].
  eapply spec_bind; [apply quiet_below; quiets|]. intros ?.
  eapply spec_bind; [apply quiet_below; quiets|]. intros ?.
  eapply spec_bind; [apply quiet_below; quiets|]. intros s.
  eapply spec_bind; [apply quiet_below; quiets|]. intros ?.
  eapply spec_bind; [apply set_host_spec|]. intros ?.
  apply spec_keeps. caps.
Qed.

Lemma cap_activate r : spec cap below (_target_set_activate C h r) (λ _ _, True).
Proof.
  unfold _target_set_activate.
  eapply spec_bind; [apply quiet_below; unfold dev; quiets|]. intros d.
  eapply spec_bind; [apply quiet_below; unfold port_of, dev; quiets|]. intros p.
  eapply spec_bind; [apply quiet_below; quiets|]. intros ?.
  eapply spec_bind; [apply quiet_below; quiets|]. intros [g|]; [apply cap_start_host|].
  apply spec_keeps. caps.
Qed.

Lemma capacity_below s : _target_set_has_capacity C s = true → below s.
Proof.
  unfold _target_set_has_capacity, below. intros H n Hn _. rewrite Hn in H.
  apply Z.ltb_lt in H. exact H.
Qed.

Lemma cap_try_activate (m : RM unit) r :
  keeps cap m →
  keeps cap (s ← getS; if _target_set_has_capacity C s then _target_set_activate C h r;; mret tt else m).
Proof.
  intros Hm s Hs. rewrite (bind_ok getS _ s s s eq_refl).
  destruct (_target_set_has_capacity C s) eqn:Hc; [|by apply Hm].
  assert (spec cap below (_target_set_activate C h r;; mret tt) (λ _ _, True)) as Ha.
  { eapply spec_bind; [apply cap_activate|]. intros ?. apply spec_keeps, keeps_ret. }
  apply Ha; [done|by apply capacity_below].
Qed.

Lemma cap_trigger r b : keeps cap (_target_set_trigger C h r b).
Proof.
  unfold _target_set_trigger.
  apply keeps_bind; [caps|intros s0]. apply keeps_bind; [caps|intros ?].
  destruct (negb _); [caps|]. apply keeps_bind; [caps|intros d].
  do 3 (case_match; [caps|]). case_decide; [caps|].
  apply keeps_bind; [caps|intros ?]. apply cap_try_activate. caps.
Qed.

Lemma cap_consider : keeps cap (_target_set_consider C h).
Proof.
  intros s Hs. unfold _target_set_consider. rewrite (bind_ok getS _ s s s eq_refl).
  destruct (_target_set_queue s) as [|r q]; [done|].
  destruct (_target_set_has_capacity C s) eqn:Hc; [|done].
  erewrite bind_ok by reflexivity.
  assert (spec cap below (_target_set_activate C h r;; mret tt) (λ _ _, True)) as Ha.
  { eapply spec_bind; [apply cap_activate|]. intros ?. apply spec_keeps, keeps_ret. }
  apply Ha; [done|]. by apply capacity_below in Hc.
Qed.

#[local] Hint Resolve cap_trigger cap_consider : limit.

Lemma cap_device_learn m v : keeps cap (_handle_device_learn C h m v).
Proof. unfold _handle_device_learn. caps. Qed.

Lemma cap_on_session q : keeps cap (_on_session C h q).
Proof. unfold _on_session, _remote_trigger. caps. Qed.

Lemma cap_shutdown : keeps cap (shutdown C h).
Proof. unfold shutdown, _terminate. caps. Qed.

#[local] Hint Resolve cap_device_learn cap_shutdown : limit.

Lemma cap_process e : keeps cap (_process_faucet_event C h e).
Proof.
  unfold _process_faucet_event, _handle_port_state, _handle_port_learn, _deactivate_port. caps.
Qed.

End events.

#[local] Hint Resolve cap_process cap_shutdown : limit.

Lemma cap_event_loop f ev : keeps cap (event_loop C f ev).
Proof.
  revert ev. induction f as [|f IH]; intros ev; cbn [event_loop]; [caps|].
  pose proof (IH None). caps.
Qed.

Lemma cap_events : keeps cap (_handle_faucet_events C).
Proof. intros s Hs. by apply cap_event_loop. Qed.

#[local] Hint Resolve cap_events cap_complete cap_error cap_host_call cap_trigger
  cap_consider cap_device_learn : limit.

Lemma cap_idle : keeps cap (_handle_system_idle C).
Proof. unfold _handle_system_idle, idle_device. caps. Qed.

Lemma cap_reap : keeps cap (_reap_stale_ports C).
Proof. unfold _reap_stale_ports, reap_device. caps. Qed.

Lemma cap_module_heartbeat : keeps cap (_module_heartbeat C).
Proof. unfold _module_heartbeat. caps. Qed.

Lemma cap_terminate_set g : keeps cap (_terminate_gateway_set C g).
Proof. unfold _terminate_gateway_set. caps. Qed.

Lemma cap_all_ready r l : keeps cap (all_trigger_ready C r l).
Proof. induction l as [|x l IH]; cbn [all_trigger_ready]; caps. Qed.

#[local] Hint Resolve cap_all_ready : limit.

Lemma cap_check r : keeps cap (_check_and_activate_gateway C r).
Proof.
  unfold _check_and_activate_gateway, _should_activate_target, _activate_gateway, trigger_device.
  caps.
Qed.

#[local] Hint Resolve cap_check : limit.

Lemma cap_ip_notify st t : keeps cap (ip_notify C st t).
Proof. unfold ip_notify. caps. Qed.

Lemma cap_session_end q : keeps cap (_on_session_end q).
Proof. unfold _on_session_end. caps. Qed.

Lemma cap_initialize : keeps cap (initialize C).
Proof. unfold initialize. caps. Qed.

#[local] Hint Resolve cap_idle cap_reap cap_module_heartbeat cap_terminate_set cap_ip_notify
  cap_session_end cap_on_session cap_initialize : limit.

Lemma cap_step o : keeps cap (step C o).
Proof. destruct o; cbn [step]; unfold _dhcp_ready_listener, ip_notify_error; caps. Qed.

Lemma cap_start server events : cap (start server events).
Proof.
  split; [split; [apply NoDup_nil_2|done]|]. intros n _ H0. exact H0.
Qed.

End env.

(** ** Failures *)

(** A result that counts as a failure. *)
Definition fails (r : rresult) : Prop :=
  (∃ m, message r = Some m ∧ m ≠ "") ∨ (∃ c, code r = Some c ∧ c ≠ 0).

Lemma status_fails r : is_Some (status_of r) ↔ fails r.
Proof.
  unfold status_of, fails. destruct (true_string (message r)) eqn:Hm.
  - split; [intros _; left|intros _; by eexists]. unfold true_string in Hm.
    destruct (message r) as [m|]; [|done]. exists m. split; [done|]. intros ->.
    by rewrite bool_decide_true in Hm.
  - destruct (Z.eqb_spec (default 0 (code r)) 0) as [Hc|Hc].
    + split; [by intros [? ?]|]. intros [(m & Hm' & Hne)|(c & Hc' & Hne)].
      * rewrite Hm' in Hm. simpl in Hm. by rewrite bool_decide_false in Hm.
      * rewrite Hc' in Hc. by simpl in Hc.
    + split; [intros _; right|intros _; by eexists]. destruct (code r) as [c|]; [|done]. eauto.
Qed.

Lemma combine_nonempty key rs :
  _combine_result_set key rs ≠ [] ↔ ∃ name r, dget name rs = Some r ∧ fails r.
Proof.
  unfold _combine_result_set. split.
  - intros Hne. destruct (PyText.sort_keys (dkeys rs) ≫= _) as [|f l] eqn:E; [done|].
    assert (f ∈ PyText.sort_keys (dkeys rs) ≫= λ name,
      match dget name rs ≫= status_of with Some st => [mkFailure key name st] | None => [] end) as Hf
      by (rewrite E; by left).
    apply list_elem_of_bind in Hf as (name & Hf & _).
    destruct (dget name rs) as [r|] eqn:Hr; [|set_solver]. simpl in Hf.
    destruct (status_of r) eqn:Hs; [|set_solver].
    exists name, r. split; [done|]. apply status_fails. by eexists.
  - intros (name & r & Hr & [st Hs]%status_fails) Hnil.
    assert (mkFailure key name st ∈ PyText.sort_keys (dkeys rs) ≫= λ name,
      match dget name rs ≫= status_of with Some st => [mkFailure key name st] | None => [] end) as Hin.
    { apply list_elem_of_bind. exists name. rewrite Hr. simpl. rewrite Hs. split; [by left|].
      apply PyText.elem_of_sort_keys. destruct (decide (name ∈ dkeys rs)) as [|Hni]; [done|].
      apply dget_None in Hni. congruence. }
    rewrite Hnil in Hin. set_solver.
Qed.

Lemma elem_of_results f (sets : list (nat * dict string rresult)) :
  f ∈ _combine_results sets ↔ ∃ key rs, (key, rs) ∈ sets ∧ f ∈ _combine_result_set key rs.
Proof.
  unfold _combine_results. rewrite list_elem_of_bind. split.
  - intros ([key rs] & Hf & Hin). eauto.
  - intros (key & rs & Hin & Hf). by exists (key, rs).
Qed.

Lemma results_nonempty (sets : dict nat (dict string rresult)) :
  dict_wf sets →
  _combine_results sets ≠ [] ↔
  ∃ key rs name r, dget key sets = Some rs ∧ dget name rs = Some r ∧ fails r.
Proof.
  intros Hwf. split.
  - intros Hne. destruct (_combine_results sets) as [|f l] eqn:Ef; [done|].
    assert (f ∈ _combine_results sets) as (key & rs & Hin & Hf)%elem_of_results by (rewrite Ef; by left).
    assert (_combine_result_set key rs ≠ []) as Hc by (intros Hnil; rewrite Hnil in Hf; set_solver).
    apply combine_nonempty in Hc as (name & r & ? & ?). exists key, rs, name, r.
    split; [by apply dget_wf_elem|done].
  - intros (key & rs & name & r & Hk%dget_Some_elem & Hr & Hfail) Hnil.
    assert (_combine_result_set key rs ≠ []) as Hc by (apply combine_nonempty; eauto).
    destruct (_combine_result_set key rs) as [|f l] eqn:Ef; [done|].
    assert (f ∈ _combine_results sets) as Hin
      by (apply elem_of_results; exists key, rs; rewrite Ef; split; [done|by left]).
    rewrite Hnil in Hin. set_solver.
Qed.

(** ** Properties *)

(** C3: in every history of the runner, whatever fails outside and however its
    hosts call back, the number of registered devices with a host never exceeds
    the configured limit. *)
Theorem hosts_within_limit (E : renv) (C : conf) (server : option SessionServer.server)
    (events : list outcome) (ops : list rop) (n : Z)
    (Hmax : _max_hosts C = Some n) (Hn : 0 ≤ n) :
  Z.of_nat (length (triggered_devices (run C ops (start server events)))) ≤ n.
Proof.
  assert (cap C (run C ops (start server events))) as [_ Hw].
  { apply run_keeps; [apply cap_step|apply cap_start]. }
  by apply Hw.
Qed.

(** Three devices on three ports, and room for one. *)
Definition tight : conf := mkConf false false false 0 (Some 1) None false 5 (Some 2) 7 None None.

Definition calm : renv := {|
  rok := λ _ _, true; rans := λ _ _, true; rcbs := λ _ _, []; rgroup := λ n, Some (pretty n);
  rgroup_size := λ _, 1; rpick := λ _, 1; rtime := λ n, Z.of_nat n; rresults := λ _, [];
  rreport := λ _, []; renabled := λ _, 0%nat; rflap := λ _, None
|}.

Definition port_event (dpid port : Z) : outcome :=
  Event (VDict [("dp_id", VInt dpid); ("PORT_CHANGE",
    VDict [("port_no", VInt port); ("status", VBool true); ("reason", VStr "MODIFY")])]).
Definition learn_event (port : Z) (mac : string) : outcome :=
  Event (VDict [("dp_id", VInt 2); ("L2_LEARN",
    VDict [("port_no", VInt port); ("eth_src", VStr mac); ("vid", VInt 10)])]).

Definition three_devices : list outcome :=
  [port_event 1 1; port_event 2 3; port_event 2 4; port_event 2 5;
   learn_event 3 "9a:02:57:1e:8f:01"; learn_event 4 "3c:5a:b4:1e:8f:0b";
   learn_event 5 "9a:02:57:1e:8f:02"].

Lemma hosts_within_limit_witness :
  length (_target_set_queue (run (E := calm) tight [Initialize; Events] (start None three_devices))) = 2%nat ∧
  Z.of_nat (length (triggered_devices
    (run (E := calm) tight [Initialize; Events] (start None three_devices)))) ≤ 1.
Proof.
  split; [vm_compute; reflexivity|].
  apply (hosts_within_limit calm tight None three_devices [Initialize; Events] 1); [reflexivity|lia].
Defined.

(** The exit code of a run is 1 exactly when an exception stopped it or some
    recorded result of some device has an exception message or a return code
    other than 0, and 0 otherwise. *)
Theorem exit_code_correct (s : Runner) (Hwf : dict_wf (_result_sets s)) :
  (finalize s = 1 ↔
     exception s = true ∨
     ∃ key rs name r, dget key (_result_sets s) = Some rs ∧ dget name rs = Some r ∧ fails r) ∧
  (finalize s = 0 ∨ finalize s = 1).
Proof.
  pose proof (results_nonempty (_result_sets s) Hwf) as Hiff. unfold finalize.
  destruct (_combine_results (_result_sets s)) as [|f l]; cbn [length Nat.eqb negb orb].
  - destruct (exception s); split; [split; [by left|done]|by right| |by left].
    split; [done|]. intros [?|Hex]; [done|]. by apply Hiff in Hex.
  - split; [|by right]. split; [|done]. intros _. right. by apply Hiff.
Qed.

Lemma exit_code_correct_witness :
  finalize (set_result_sets [(0%nat, [("ping", mkResult (Some 3) None)])] (start None [])) = 1.
Proof.
  apply (exit_code_correct (set_result_sets [(0%nat, [("ping", mkResult (Some 3) None)])] (start None []))).
  - apply NoDup_singleton.
  - right. exists 0%nat, [("ping", mkResult (Some 3) None)], "ping", (mkResult (Some 3) None).
    split; [reflexivity|]. split; [reflexivity|]. right. exists 3. split; [reflexivity|lia].
Defined.

End RunnerLimits.
