(* ===== verification/Main.v ===== *)
(** * The program (src/daq/entry.py, the main loop of src/daq/runner.py)

    - the configuration is checked before anything is started
      ([validate_config]);
    - the main loop: turns of the stream monitor, each followed by reaping stale
      ports and a heartbeat to the hosts ([main_loop]);
    - the whole run with its exit code ([_execute]).

    A turn of the monitor is the list of handlers it calls (entry points of the
    runner, whose exceptions it contains: see [StreamMonitor]) and its outcome:
    whether there is something left to monitor, or an exception such as the
    keyboard's interrupt.  The lists of turns are arbitrary.

    [program_exit_code]: the exit code says exactly whether the loop was stopped
    by an exception, the system port failed or a recorded result failed; and all
    along the number of devices under test is within its limit.
    [validated_dpid_read]: the switch's number survives the check. *)

From stdpp Require Import base list gmap strings pretty.
From Stdlib Require Import ZArith Lia Ascii.
From S2P Require Import Prelude PyText PyVal Devices Gateway FaucetEvents Sessions Runner RunnerLimits.

Module Main.
Import DAQRunner.
Local Open Scope string_scope.
Local Open Scope list_scope.
Local Open Scope Z_scope.

(** ** The configuration *)

(** The keys of [_CONFIG_MIGRATIONS] *)
Definition _CONFIG_MIGRATIONS : list string :=
  ["sec_port"; "ext_ctrl"; "ext_intf"; "ext_ofpt"; "ext_ofip"; "ext_loip"; "ext_dpid"; "ext_addr";
   "switch_model"; "switch_username"; "switch_password"; "startup_cmds"; "intf_names"].

(** [str(v)], as far as [int(str(v), 0)] can read it *)
Definition dpid_text (v : val) : res string :=
  match v with VStr s => Ok s | VInt z => Ok (PyText.str_int z) | _ => Raise ValueError end.

(** [validate_config]: whether the configuration is accepted, and what becomes of
    it; [dict_proto] reads it as a message. *)
Definition validate_config (dict_proto : dict string val → res unit) (config : dict string val) :
    res (bool * dict string val) :=
  if existsb (λ k, dmem k config) _CONFIG_MIGRATIONS then Ok (false, config) else
  switch_setup ← PyVal.get (VDict config) "switch_setup" (VDict []);
  of_dpid ← PyVal.get switch_setup "of_dpid" VNone;
  config ← (if PyVal.truth of_dpid then
              t ← dpid_text of_dpid;
              z ← PyVal.to_int0 (VStr t);
              d ← PyVal.as_dict switch_setup;
              Ok (dset "switch_setup" (VDict (dset "of_dpid" (VStr (PyText.str_int z)) d)) config)
            else Ok config);
  dict_proto config;;
  Ok (true, config).

(** ** The main loop *)

Record turn := mkTurn { handled : list rop; outcome_of : res bool }.

Section program.
Context `{E : renv} (C : conf).
Abbreviation RM := (M Runner) (only parsing).

(** A turn of [stream_monitor.event_loop] *)
Definition monitor_turn (t : turn) : RM bool := λ s, (run C (handled t) s, outcome_of t).

(** The [while] of [main_loop] *)
Fixpoint loop (turns : list turn) : RM unit :=
  match turns with
  | [] => mret tt
  | t :: turns' =>
      alive ← monitor_turn t;
      if alive : bool then
        _reap_stale_ports C;; _module_heartbeat C;; loop turns'
      else mret tt
  end.

(** The body of the [try]: the socket of the event client is monitored first. *)
Definition monitored_loop (turns : list turn) : RM unit :=
  s ← getS;
  if negb (faucet_events s) then raise AttributeError else loop turns.

(** [main_loop]; the console is not modelled. *)
Definition main_loop (turns : list turn) : RM unit :=
  try_except (monitored_loop turns) (λ _, modify (set_exception true));;
  _terminate C (_handle_faucet_events C).

(** What [_execute] does with an accepted configuration; an exception of the
    set-up or of the end of the loop ends the program. *)
Definition run_program (turns : list turn) : RM Z :=
  initialize C;;
  main_loop turns;;
  gets finalize.

End program.

(** [_execute] after the arguments are read *)
Definition _execute (dict_proto : dict string val → res unit) (config : dict string val)
    (make_runner : dict string val → res (renv * conf * Runner)) (turns : list turn) : res Z :=
  if PyVal.truth (default VNone (dget "show_help" config)) then Ok 0 else
  '(valid, config) ← validate_config dict_proto config;
  if negb valid then Ok 1 else
  '(E, C, s) ← make_runner config;
  (run_program (E := E) C turns s).2.

(** ** Properties *)

Section program.
Context `{E : renv} (C : conf).
Abbreviation RM := (M Runner) (only parsing).

(** The results stay a dictionary, and the mark of an exception stays when it is
    set ([b]). *)
Definition marked (b : bool) (s : Runner) : Prop :=
  dict_wf (_result_sets s) ∧ (b = true → exception s = true).

Context (b : bool).

Lemma marked_on_devs {A} (m : M Devices.Devices A) : keeps (marked b) (on_devs m).
Proof. intros s Hs. unfold on_devs. by destruct (m (devs s)). Qed.
Lemma marked_on_gw {A} g (m : M Gateway.Gateway A) : keeps (marked b) (on_gw g m).
Proof. intros s Hs. unfold on_gw. destruct (gws s !! g) as [o|]; [|done]. by destruct (m o). Qed.
Lemma marked_terminate g : keeps (marked b) (gateway_terminate g).
Proof.
  unfold gateway_terminate. apply keeps_bind; [|by intros _ s Hs]. intros s Hs.
  destruct (gws s !! g) as [o|]; [|done]. by destruct (Gateway.terminate _ o) as [[o' c] r].
Qed.

Create HintDb mark.
#[local] Hint Resolve marked_on_devs marked_on_gw marked_terminate : mark.

Ltac mark_leaf :=
  match goal with
  | |- keeps _ (call _) => by intros ? ?
  | |- keeps _ (ask _) => by intros ? ?
  | |- keeps _ (oracle _) => by intros ? ?
  | |- keeps _ (upd _ _) => apply marked_on_devs
  | |- keeps _ (upd_port _ _) => apply marked_on_devs
  | |- keeps _ (modify _) => apply keeps_modify; intros ? [? ?]; split; cbn; first [done|by apply dict_wf_dset]
  end.
Ltac marks := walk ltac:(idtac; first [solve [eauto with mark nocore] | mark_leaf]).

Lemma marked_activate_port p : keeps (marked b) (_activate_port p).
Proof. unfold _activate_port. marks. Qed.
Lemma marked_heartbeat : keeps (marked b) _send_heartbeat.
Proof. unfold _send_heartbeat. marks. Qed.
Lemma marked_detach r : keeps (marked b) (_detach_gateway r).
Proof. unfold _detach_gateway, dev, gw. marks. Qed.
Lemma marked_send_result r t : keeps (marked b) (_send_device_result r t).
Proof. unfold _send_device_result, dev. marks. Qed.
#[local] Hint Resolve marked_activate_port marked_heartbeat marked_detach marked_send_result : mark.

Lemma marked_cancel r : keeps (marked b) (_target_set_cancel C r).
Proof. unfold _target_set_cancel, dev, port_of, dev, gw. marks. Qed.
Lemma marked_create_gateway d : keeps (marked b) (_create_gateway C d).
Proof. unfold _create_gateway, _find_gateway_set, new_gateway, port_of, dev. marks. Qed.
#[local] Hint Resolve marked_cancel marked_create_gateway : mark.

Lemma marked_acquire r x : keeps (marked b) (acquire_gateway C r x).
Proof. unfold acquire_gateway, gw. marks. Qed.
#[local] Hint Resolve marked_acquire : mark.

Section events.
Context (h : RM unit) (Hh : keeps (marked b) h).
#[local] Hint Resolve Hh : mark.

Lemma marked_finalize r rs : keeps (marked b) (_target_set_finalize C h r rs).
Proof. unfold _target_set_finalize. marks. Qed.
#[local] Hint Resolve marked_finalize : mark.
Lemma marked_complete r : keeps (marked b) (target_set_complete C h r).
Proof. unfold target_set_complete, dev. marks. Qed.
#[local] Hint Resolve marked_complete : mark.
Lemma marked_error r e : keeps (marked b) (target_set_error C h r e).
Proof. unfold target_set_error, dev. marks. Qed.
#[local] Hint Resolve marked_error : mark.
Lemma marked_host_call r x : keeps (marked b) (host_call C h r x).
Proof. unfold host_call, dev. marks. Qed.
#[local] Hint Resolve marked_host_call : mark.
Lemma marked_start_host r g x p : keeps (marked b) (start_host C h r g x p).
Proof. unfold start_host, dev. marks. Qed.
#[local] Hint Resolve marked_start_host : mark.
Lemma marked_activate r : keeps (marked b) (_target_set_activate C h r).
Proof. unfold _target_set_activate, port_of, dev. marks. Qed.
#[local] Hint Resolve marked_activate : mark.
Lemma marked_trigger r x : keeps (marked b) (_target_set_trigger C h r x).
Proof. unfold _target_set_trigger, dev. marks. Qed.
Lemma marked_consider : keeps (marked b) (_target_set_consider C h).
Proof. unfold _target_set_consider. marks. Qed.
#[local] Hint Resolve marked_trigger marked_consider : mark.
Lemma marked_device_learn m v : keeps (marked b) (_handle_device_learn C h m v).
Proof. unfold _handle_device_learn, dev. marks. Qed.
Lemma marked_on_session q : keeps (marked b) (_on_session C h q).
Proof. unfold _on_session, _remote_trigger, port_ref, dev. marks. Qed.
Lemma marked_terminate_all : keeps (marked b) (_terminate C h).
Proof. unfold _terminate. marks. Qed.
#[local] Hint Resolve marked_device_learn marked_terminate_all : mark.
Lemma marked_shutdown : keeps (marked b) (shutdown C h).
Proof. unfold shutdown. marks. Qed.
#[local] Hint Resolve marked_shutdown : mark.
Lemma marked_process e : keeps (marked b) (_process_faucet_event C h e).
Proof.
  unfold _process_faucet_event, _handle_port_state, _handle_port_learn, _deactivate_port, dev. marks.
Qed.
End events.

Lemma marked_event_loop f ev : keeps (marked b) (event_loop C f ev).
Proof.
  revert ev. induction f as [|f IH]; intros ev; cbn [event_loop]; [marks|].
  assert (∀ h e, keeps (marked b) h → keeps (marked b) (_process_faucet_event C h e)) as Hp
    by (intros; by apply marked_process).
  assert (∀ h, keeps (marked b) h → keeps (marked b) (shutdown C h)) as Hs
    by (intros; by apply marked_shutdown).
  pose proof (IH None). marks.
Qed.
Lemma marked_events : keeps (marked b) (_handle_faucet_events C).
Proof. intros s Hs. by apply marked_event_loop. Qed.
#[local] Hint Resolve marked_events marked_complete marked_error marked_host_call marked_trigger
  marked_consider marked_device_learn marked_shutdown marked_on_session marked_terminate_all : mark.

Lemma marked_reap : keeps (marked b) (_reap_stale_ports C).
Proof. unfold _reap_stale_ports, reap_device, port_of, port_ref, dev. marks. Qed.
Lemma marked_module_heartbeat : keeps (marked b) (_module_heartbeat C).
Proof. unfold _module_heartbeat. marks. Qed.
Lemma marked_all_ready r l : keeps (marked b) (all_trigger_ready C r l).
Proof. induction l as [|x l IH]; cbn [all_trigger_ready]; marks. Qed.
#[local] Hint Resolve marked_reap marked_module_heartbeat marked_all_ready : mark.
Lemma marked_check r : keeps (marked b) (_check_and_activate_gateway C r).
Proof.
  unfold _check_and_activate_gateway, _should_activate_target, _activate_gateway, trigger_device, gw, dev.
  marks.
Qed.
#[local] Hint Resolve marked_check : mark.
Lemma marked_initialize : keeps (marked b) (initialize C).
Proof. unfold initialize. marks. Qed.
#[local] Hint Resolve marked_initialize : mark.
Lemma marked_step o : keeps (marked b) (step C o).
Proof.
  destruct o; cbn [step];
    unfold _dhcp_ready_listener, ip_notify_error, _handle_system_idle, idle_device, _terminate_gateway_set,
      ip_notify, _on_session_end, port_of, port_ref, dev; marks.
Qed.

Lemma marked_loop turns : keeps (marked b) (loop C turns).
Proof.
  induction turns as [|t turns IH]; cbn [loop]; [marks|].
  apply keeps_bind; [|intros []; marks]. intros s Hs. change (marked b (run C (handled t) s)).
  by apply run_keeps; [apply marked_step|].
Qed.
Lemma marked_monitored turns : keeps (marked b) (monitored_loop C turns).
Proof. unfold monitored_loop. pose proof (marked_loop turns). marks. Qed.
End program.

(** A loop that raised is marked. *)
Lemma main_loop_marks `{E : renv} C turns s : marked false s →
  marked (negb (is_ok (monitored_loop C turns s).2)) (main_loop C turns s).1.
Proof.
  intros Hs. pose proof (marked_monitored C false turns s Hs) as Hl. unfold main_loop, try_except, mbind, M_bind.
  destruct (monitored_loop C turns s) as [s1 [[]|e]]; cbn in *.
  - apply marked_terminate_all; [apply marked_events|done].
  - apply marked_terminate_all; [apply marked_events|]. by destruct Hl.
Qed.

(** *** The limit on hosts *)
Section limit.
Context `{E : renv} (C : conf).

Lemma cap_mark s e : RunnerLimits.cap C s → RunnerLimits.cap C (set_exception e s).
Proof. done. Qed.
Lemma cap_loop turns : keeps (RunnerLimits.cap C) (loop C turns).
Proof.
  induction turns as [|t turns IH]; cbn [loop]; [by intros s|].
  apply keeps_bind; [|intros []; [|by intros s]].
  { intros s Hs. change (RunnerLimits.cap C (run C (handled t) s)).
    by apply run_keeps; [apply RunnerLimits.cap_step|]. }
  apply keeps_bind; [apply RunnerLimits.cap_reap|intros ?].
  apply keeps_bind; [apply RunnerLimits.cap_module_heartbeat|intros ?]. done.
Qed.
Lemma cap_terminate_all : keeps (RunnerLimits.cap C) (_terminate C (_handle_faucet_events C)).
Proof.
  unfold _terminate. apply keeps_bind; [by intros s|intros s0].
  apply keeps_bind; [apply keeps_for_each; intros r _; apply RunnerLimits.cap_error, RunnerLimits.cap_events|].
  intros ?. apply keeps_bind; [by intros s|intros s1]. apply keeps_when. by intros s Hs.
Qed.
Lemma cap_main_loop turns : keeps (RunnerLimits.cap C) (main_loop C turns).
Proof.
  apply keeps_bind; [|intros ?; apply cap_terminate_all].
  apply keeps_try; [|intros ?].
  { apply keeps_bind; [by intros s|intros s0]. destruct (negb _); [by intros s|apply cap_loop]. } apply keeps_modify. intros s Hs. by apply cap_mark.
Qed.
End limit.


(** *** Numbers as text *)

Definition dec_char (c : ascii) : Prop := ∃ d, 0 ≤ d < 10 ∧ c = pretty_N_char (Z.to_N d).

Lemma dec_char_cases (P : ascii → Prop) c : dec_char c →
  Forall P ["0"; "1"; "2"; "3"; "4"; "5"; "6"; "7"; "8"; "9"]%char → P c.
Proof.
  intros (d & Hd & ->) HP. rewrite Forall_forall in HP. apply HP.
  assert (d = 0 ∨ d = 1 ∨ d = 2 ∨ d = 3 ∨ d = 4 ∨ d = 5 ∨ d = 6 ∨ d = 7 ∨ d = 8 ∨ d = 9) as H by lia.
  repeat destruct H as [->|H]; try rewrite H; cbn; set_solver.
Qed.

Lemma digit_val_dec d : 0 ≤ d < 10 → PyVal.digit_val 10 (pretty_N_char (Z.to_N d)) = Some d.
Proof.
  intros Hd.
  assert (d = 0 ∨ d = 1 ∨ d = 2 ∨ d = 3 ∨ d = 4 ∨ d = 5 ∨ d = 6 ∨ d = 7 ∨ d = 8 ∨ d = 9) as H by lia.
  repeat destruct H as [->|H]; try rewrite H; reflexivity.
Qed.

Lemma digits_dec acc sep d l : 0 ≤ d < 10 →
  PyVal.digits 10 acc sep (pretty_N_char (Z.to_N d) :: l) = PyVal.digits 10 (10 * acc + d) false l.
Proof.
  intros Hd. cbn [PyVal.digits]. rewrite bool_decide_false.
  - by rewrite digit_val_dec.
  - apply (dec_char_cases (λ c, c ≠ "_"%char)); [by exists d|]. by repeat constructor.
Qed.

(** The decimal digits of a positive number: they do not begin with a zero, and
    reading them gives the number. *)
Lemma pretty_go_digits x t : (0 < x)%N → ∃ c ds,
  String.list_ascii_of_string (pretty_N_go x t) = (c :: ds) ++ String.list_ascii_of_string t ∧
  c ≠ "0"%char ∧ Forall dec_char (c :: ds) ∧
  ∀ acc sep l, ∃ k, PyVal.digits 10 acc sep ((c :: ds) ++ l) = PyVal.digits 10 (k * acc + Z.of_N x) false l.
Proof.
  revert t. induction (N.lt_wf_0 x) as [x _ IH]; intros t Hx.
  rewrite pretty_N_go_step by done.
  pose proof (N.div_mod x 10 ltac:(lia)) as Hdiv. pose proof (N.mod_lt x 10 ltac:(lia)) as Hr.
  pose proof (N.div_lt x 10 Hx ltac:(lia)) as Hq. set (q := (x `div` 10)%N) in *. set (r := (x `mod` 10)%N) in *.
  clearbody q r. replace r with (Z.to_N (Z.of_N r)) by lia.
  assert (0 ≤ Z.of_N r < 10) as Hd by lia. set (d := Z.of_N r) in *.
  destruct (decide (q = 0)%N) as [->|Hz].
  - rewrite pretty_N_go_0. exists (pretty_N_char (Z.to_N d)), []. cbn [app String.list_ascii_of_string].
    split_and!; [done| |repeat constructor; by exists d|].
    + intros H. change "0"%char with (pretty_N_char 0) in H. apply pretty_N_char_inj in H; lia.
    + intros acc sep l. exists 10. rewrite digits_dec by done. f_equal. lia.
  - destruct (IH q Hq (String (pretty_N_char (Z.to_N d)) t)) as (c & ds & Ht & Hc & Hf & Hdig); [lia|].
    exists c, (ds ++ [pretty_N_char (Z.to_N d)]). split_and!; [|done| |].
    + rewrite Ht. cbn. by rewrite <- app_assoc.
    + apply Forall_cons in Hf as [? ?]. constructor; [done|]. apply Forall_app. split; [done|].
      repeat constructor. by exists d.
    + intros acc sep l. destruct (Hdig acc sep (pretty_N_char (Z.to_N d) :: l)) as [k Hk].
      exists (10 * k). cbn [app] in Hk |- *. rewrite <- app_assoc. cbn [app]. rewrite Hk, digits_dec by done.
      f_equal. lia.
Qed.

Lemma strip_id l : Forall (λ c, PyVal.is_space c = false) l → PyVal.strip l = l.
Proof.
  assert (∀ l, Forall (λ c, PyVal.is_space c = false) l → PyVal.lstrip l = l) as Hl.
  { intros l' H. destruct H as [|c l' Hc]; [done|]. cbn. by rewrite Hc. }
  intros H. unfold PyVal.strip. rewrite (Hl l H). rewrite Hl by (by apply Forall_rev).
  apply rev_involutive.
Qed.

Lemma dec_not_space c : dec_char c → PyVal.is_space c = false.
Proof. intros H. by apply (dec_char_cases (λ c, PyVal.is_space c = false)); [|repeat constructor]. Qed.

Lemma literal_pos x : (0 < x)%N → ∃ c ds,
  String.list_ascii_of_string (pretty_N_go x "") = c :: ds ∧ Forall dec_char (c :: ds) ∧
  PyVal.literal (c :: ds) = Some (Z.of_N x).
Proof.
  intros Hx. destruct (pretty_go_digits x "" Hx) as (c & ds & Ht & Hc & Hf & Hdig).
  exists c, ds. cbn in Ht. rewrite app_nil_r in Ht. split_and!; [done..|].
  destruct (Hdig 0 true []) as [k Hk]. rewrite app_nil_r in Hk.
  assert (PyVal.digits 10 0 true (c :: ds) = Some (Z.of_N x)) as Hd
    by (rewrite Hk; cbn [PyVal.digits]; f_equal; lia).
  unfold PyVal.literal. destruct ds; [exact Hd|]. by rewrite bool_decide_false.
Qed.

(** [int(str(z), 0)] *)
Lemma int_of_str z : PyVal.to_int0 (VStr (PyText.str_int z)) = Ok z.
Proof.
  unfold PyText.str_int, PyVal.to_int0. destruct z as [|x|x]; [reflexivity| |].
  - destruct (literal_pos (N.pos x) eq_refl) as (c & ds & Ht & Hf & Hl).
    change (pretty (Z.pos x)) with (pretty_N_go (N.pos x) ""). rewrite Ht.
    rewrite strip_id by (eapply Forall_impl; [exact Hf|apply dec_not_space]).
    cbn [PyVal.signed]. apply Forall_cons in Hf as [Hc _].
    rewrite !bool_decide_false; [by rewrite Hl| |];
      by apply (dec_char_cases (λ c, c ≠ _)); [|repeat constructor].
  - destruct (literal_pos (N.pos x) eq_refl) as (c & ds & Ht & Hf & Hl).
    change (pretty (Z.neg x)) with (String "-" (pretty_N_go (N.pos x) "")). cbn [String.list_ascii_of_string].
    rewrite Ht, strip_id.
    + cbn [PyVal.signed]. rewrite bool_decide_true by done. by rewrite Hl.
    + constructor; [done|]. eapply Forall_impl; [exact Hf|apply dec_not_space].
Qed.

Lemma str_int_true z : PyVal.truth (VStr (PyText.str_int z)) = true.
Proof.
  pose proof (int_of_str z) as H. destruct (PyText.str_int z) eqn:E; [|done]. by vm_compute in H.
Qed.

Lemma no_old_key (c : dict string val) :
  existsb (λ k, dmem k c) _CONFIG_MIGRATIONS = false ↔ ∀ k, k ∈ _CONFIG_MIGRATIONS → dget k c = None.
Proof.
  split.
  - intros H k Hk. apply dmem_false. destruct (dmem k c) eqn:E; [|done].
    rewrite <- H. symmetry. apply existsb_exists. exists k. by rewrite <- list_elem_of_In.
  - intros H. apply not_true_iff_false. rewrite existsb_exists. intros (k & Hk & Hm).
    apply list_elem_of_In in Hk. apply H, dmem_false in Hk. congruence.
Qed.

(** The check of a configuration with a number *)
Lemma validate_dpid dict_proto c setup v : existsb (λ k, dmem k c) _CONFIG_MIGRATIONS = false →
  dget "switch_setup" c = Some (VDict setup) → dget "of_dpid" setup = Some v → PyVal.truth v = true →
  validate_config dict_proto c =
    (t ← dpid_text v;
     z ← PyVal.to_int0 (VStr t);
     let c' := dset "switch_setup" (VDict (dset "of_dpid" (VStr (PyText.str_int z)) setup)) c in
     dict_proto c';; Ok (true, c')).
Proof.
  intros Hold Hs Hv Ht. unfold validate_config. rewrite Hold. unfold PyVal.get. rewrite Hs.
  cbn [from_option id mbind res_bind]. rewrite Hv. cbn [from_option id mbind res_bind]. rewrite Ht.
  destruct (dpid_text v) as [t|]; [|done]. cbn [mbind res_bind].
  by destruct (PyVal.to_int0 (VStr t)).
Qed.

(** The switch's number survives the check.  If a configuration is accepted,
    no old key is in it, the switch's [of_dpid] (when it is set) is the decimal
    text of the number that the original text stood for, the topology reads this
    number from it, and every other setting is as it was. *)
Theorem validated_dpid_read (dict_proto : dict string val → res unit) (config config' : dict string val)
    (setup : dict string val) (v : val)
    (Hvalid : validate_config dict_proto config = Ok (true, config'))
    (Hsetup : dget "switch_setup" config = Some (VDict setup))
    (Hv : dget "of_dpid" setup = Some v) (Htrue : PyVal.truth v = true) :
  (∀ k, k ∈ _CONFIG_MIGRATIONS → dget k config = None) ∧
  (∀ k, k ≠ "switch_setup" → dget k config' = dget k config) ∧
  ∃ setup' t z, dget "switch_setup" config' = Some (VDict setup') ∧ dpid_text v = Ok t ∧
    PyVal.to_int0 (VStr t) = Ok z ∧
    PyVal.to_int0 (default VNone (dget "of_dpid" setup')) = Ok z ∧
    (∀ k, k ≠ "of_dpid" → dget k setup' = dget k setup) ∧
    validate_config dict_proto config' = Ok (true, config').
Proof.
  assert (existsb (λ k, dmem k config) _CONFIG_MIGRATIONS = false) as Hold.
  { unfold validate_config in Hvalid. by destruct (existsb _ _). }
  rewrite (validate_dpid _ _ setup v) in Hvalid by done.
  destruct (dpid_text v) as [t|]; [|done]. cbn [mbind res_bind] in Hvalid.
  destruct (PyVal.to_int0 (VStr t)) as [z|] eqn:Hz; [|done]. cbn [mbind res_bind] in Hvalid.
  set (new := dset "of_dpid" (VStr (PyText.str_int z)) setup) in *.
  set (c := dset "switch_setup" (VDict new) config) in *.
  destruct (dict_proto c) as [[]|] eqn:Hproto; [|done]. injection Hvalid as <-.
  assert (dget "of_dpid" new = Some (VStr (PyText.str_int z))) as Hnew by apply dget_dset_eq.
  assert (dget "switch_setup" c = Some (VDict new)) as Hc by apply dget_dset_eq.
  assert (∀ k, k ≠ "switch_setup" → dget k c = dget k config) as Hother by (intros k Hk; by apply dget_dset_ne).
  split_and!; [by apply no_old_key|done|].
  exists new, t, z. rewrite Hnew. split_and!; [done..|apply int_of_str|intros k Hk; by apply dget_dset_ne|].
  rewrite (validate_dpid _ c new (VStr (PyText.str_int z))); [|apply no_old_key|done|done|apply str_int_true].
  - cbn [dpid_text mbind res_bind]. rewrite int_of_str. cbn [mbind res_bind].
    unfold c, new. rewrite !dset_dset. fold new c. by rewrite Hproto.
  - intros k Hk. rewrite Hother; [by apply no_old_key|]. intros ->.
    unfold _CONFIG_MIGRATIONS in Hk. set_solver.
Qed.

Lemma validated_dpid_read_witness :
  ∃ setup' z, dget "switch_setup" [("switch_setup", VDict [("of_dpid", VStr "127"); ("model", VStr "OVS_SWITCH")])]
      = Some (VDict setup') ∧
    PyVal.to_int0 (VStr "0x7f") = Ok z ∧ PyVal.to_int0 (default VNone (dget "of_dpid" setup')) = Ok z.
Proof.
  destruct (validated_dpid_read (λ _, Ok tt)
    [("switch_setup", VDict [("of_dpid", VStr "0x7f"); ("model", VStr "OVS_SWITCH")])]
    [("switch_setup", VDict [("of_dpid", VStr "127"); ("model", VStr "OVS_SWITCH")])]
    [("of_dpid", VStr "0x7f"); ("model", VStr "OVS_SWITCH")] (VStr "0x7f"))
    as (_ & _ & setup' & t & z & H1 & H2 & H3 & H4 & _).
  - vm_compute. reflexivity.
  - reflexivity.
  - reflexivity.
  - reflexivity.
  - exists setup', z. split; [exact H1|]. split; [|exact H4]. injection H2 as <-. exact H3.
Defined.

(** A configuration with an old key ends the program before anything is made. *)
Example old_key_refused :
  _execute (λ _, Ok tt) [("sec_port", VInt 7)] (λ _, Raise RuntimeError) [] = Ok 1.
Proof. reflexivity. Qed.

(** A loop that is interrupted in its second turn *)
Example interrupted_run :
  (run_program (E := RunnerLimits.calm) RunnerLimits.tight
     [mkTurn [Events; SystemIdle] (Ok true); mkTurn [] (Raise OtherException)]
     (start None RunnerLimits.three_devices)).2 = Ok 1.
Proof. vm_compute. reflexivity. Qed.

End Main.
