(* ===== verification/DhcpMonitor.v ===== *)
(** * The DHCP monitor (src/daq/dhcp_monitor.py)

    The monitor reads the lines a packet capture prints, collects the address
    and the MAC address of a DHCP reply from several lines and notifies its
    gateway when the type of the message is known; ARP requests of a device with
    a static address notify it at once.  The state keeps what was found since
    the last packet header, the time of the last acknowledgement per device, the
    log and the notifications made.

    [dhcp_reply_notified] follows the lines of one reply through the monitor. *)

From stdpp Require Import base list gmap strings.
From Stdlib Require Import ZArith Lia Ascii.
From S2P Require Import Prelude PyText Gateway Host.

Import PyText.

Module DhcpMonitor.
Local Open Scope string_scope.
Local Open Scope list_scope.
Local Open Scope Z_scope.

(** ** The patterns *)

Definition within (lo hi c : ascii) : bool := bool_decide (code lo ≤ code c ≤ code hi)%nat.
Definition is_char (x c : ascii) : bool := bool_decide (c = x).

(** [[0-9.]], [[a-f0-9:]] and [[a-zA-Z]] *)
Definition ip_char (c : ascii) : bool := within "0" "9" c || is_char "." c.
Definition mac_char (c : ascii) : bool := within "a" "f" c || within "0" "9" c || is_char ":" c.
Definition letter (c : ascii) : bool := within "a" "z" c || within "A" "Z" c.

Definition dots : Regex.re := Regex.Rep true Regex.any.

Definition DHCP_START_PATTERN : Regex.re := Regex.lit "BOOTP/DHCP".
Definition DHCP_IP_PATTERN : Regex.re :=
  Regex.Seq (Regex.lit "Your-IP ") (Regex.Grp 3 (Regex.Plus ip_char)).
Definition DHCP_MAC_PATTERN : Regex.re :=
  Regex.Seq (Regex.lit "Client-Ethernet-Address ") (Regex.Grp 5 (Regex.Plus mac_char)).
Definition DHCP_TYPE_PATTERN : Regex.re :=
  Regex.Seq (Regex.lit "DHCP-Message ") (Regex.Seq dots (Regex.Seq (Regex.lit "53")
    (Regex.Seq dots (Regex.Seq (Regex.lit ", length 1: ") (Regex.Grp 7 (Regex.Plus letter)))))).
Definition DHCP_ARP_PATTERN : Regex.re :=
  Regex.Seq (Regex.Grp 9 (Regex.Plus mac_char))
    (Regex.Seq (Regex.lit " > ff:ff:ff:ff:ff:ff, ethertype ARP ") (Regex.Seq dots
      (Regex.Seq (Regex.lit " tell ")
        (Regex.Seq (Regex.Grp 10 (Regex.Plus ip_char)) (Regex.lit ","))))).
Definition DHCP_PATTERN : Regex.re :=
  Regex.Alt (Regex.Grp 1 DHCP_START_PATTERN) (Regex.Alt (Regex.Grp 2 DHCP_IP_PATTERN)
    (Regex.Alt (Regex.Grp 4 DHCP_MAC_PATTERN) (Regex.Alt (Regex.Grp 6 DHCP_TYPE_PATTERN)
      (Regex.Grp 8 DHCP_ARP_PATTERN)))).

Definition DHCP_THRESHHOLD_SEC : Z := 80.

(** ** State *)

(** A call of the callback: state, target, and whether there was an exception. *)
Abbreviation notification := (string * option Gateway.dhcp_target * bool)%type (only parsing).

Record monitor := mkMonitor {
  dhcp_traffic : bool;
  scan_start : option Z;
  device_dhcps : dict string Z;
  target_ip : option string;
  target_mac : option string;
  dhcp_log : option string;
  notified : list notification
}.

Definition set_target (ip mac : option string) (s : monitor) : monitor :=
  mkMonitor (dhcp_traffic s) (scan_start s) (device_dhcps s) ip mac (dhcp_log s) (notified s).
Definition set_dhcps (x : dict string Z) (s : monitor) : monitor :=
  mkMonitor (dhcp_traffic s) (scan_start s) x (target_ip s) (target_mac s) (dhcp_log s)
    (notified s).
Definition set_log (x : option string) (s : monitor) : monitor :=
  mkMonitor (dhcp_traffic s) (scan_start s) (device_dhcps s) (target_ip s) (target_mac s) x
    (notified s).
Definition set_traffic (x : bool) (s : monitor) : monitor :=
  mkMonitor x (scan_start s) (device_dhcps s) (target_ip s) (target_mac s) (dhcp_log s)
    (notified s).
Definition notify (n : notification) (s : monitor) : monitor :=
  mkMonitor (dhcp_traffic s) (scan_start s) (device_dhcps s) (target_ip s) (target_mac s)
    (dhcp_log s) (notified s ++ [n]).

(** [__init__] and [start]; the capture and the stream monitor are outside. *)
Definition init : monitor := mkMonitor false None [] None None None [].
Definition start (log_file : option string) (now : Z) (s : monitor) : monitor :=
  mkMonitor true (Some now) (device_dhcps s) (target_ip s) (target_mac s)
    (match log_file with Some _ => Some "" | None => dhcp_log s end) (notified s).

(** A string or [None] that is true. *)
Definition given (o : option string) : bool :=
  match o with Some s => negb (bool_decide (s = "")) | None => false end.

Definition log (line : string) (s : monitor) : monitor :=
  set_log ((λ x, x +:+ line) <$> dhcp_log s) s.

(** ** Operations *)

(** [_dhcp_complete] *)
Definition _dhcp_complete (now : Z) (dhcp_type : string) : M monitor unit :=
  if decide (dhcp_type ∉ ["ACK"; "Offer"; "STATIC"]) then mret tt else
  let is_dhcp := negb (bool_decide (dhcp_type = "STATIC")) in
  s ← getS;
  assertM (given (target_ip s));;
  assertM (given (target_mac s));;
  ip ← lift (of_option AssertionError (target_ip s));
  mac ← lift (of_option AssertionError (target_mac s));
  since ← lift (of_option TypeError
    (match dget mac (device_dhcps s) with Some t => Some t | None => scan_start s end));
  let delta := now - since in
  let dhcp_long := is_dhcp && (DHCP_THRESHHOLD_SEC <? delta) in
  whenM (bool_decide (dhcp_type = "ACK"))
    (modify (λ s, set_dhcps (dset mac now (device_dhcps s)) s));;
  modify (notify (if dhcp_long then ConnectedHost.MODE.LONG else ConnectedHost.MODE.DONE,
                  Some (Gateway.mkTarget dhcp_type mac ip delta), false)).

(** What a line says: the group that matched. *)
Inductive message :=
  | Start | YourIp (ip : string) | ClientMac (mac : string) | Type_ (t : string)
  | Arp (mac ip : string).

Definition message_of (line : string) : option message :=
  g ← Regex.search DHCP_PATTERN line;
  if given (Regex.group 1 g) then Some Start
  else if given (Regex.group 2 g) then YourIp <$> Regex.group 3 g
  else if given (Regex.group 4 g) then ClientMac <$> Regex.group 5 g
  else if given (Regex.group 6 g) then Type_ <$> Regex.group 7 g
  else if given (Regex.group 8 g) then
    mac ← Regex.group 9 g; ip ← Regex.group 10 g; Some (Arp mac ip)
  else None.

(** The branches of [_dhcp_line]. *)
Definition handle (now : Z) (m : message) : M monitor unit :=
  match m with
  | Start => modify (set_target None None)
  | YourIp ip =>
      s ← getS;
      assertM (negb (given (target_ip s)));;
      modify (set_target (Some ip) (target_mac s))
  | ClientMac mac =>
      s ← getS;
      assertM (negb (given (target_mac s)));;
      modify (set_target (target_ip s) (Some mac))
  | Type_ t => _dhcp_complete now t
  | Arp mac ip =>
      modify (set_target (Some ip) (Some mac));;
      _dhcp_complete now "STATIC"
  end.

(** [_dhcp_line] *)
Definition _dhcp_line (now : Z) (line : string) : M monitor unit :=
  if bool_decide (line = "") then mret tt else
  modify (log line);;
  match message_of line with
  | Some m => handle now m
  | None => mret tt
  end.

(** [cleanup] *)
Definition cleanup : M monitor unit :=
  modify (set_log None);;
  modify (set_traffic false).

(** [_dhcp_error] and [_dhcp_hangup] *)
Definition _dhcp_error : M monitor unit :=
  modify (log ("Monitor error" +:+ nl));;
  cleanup;;
  modify (notify ("error", None, true)).
Definition _dhcp_hangup : M monitor unit :=
  modify (set_traffic false);;
  _dhcp_error.

(** Lines of a capture. *)
Example capture_lines :
  message_of "    10.20.0.1.67 > 10.20.99.1.68: BOOTP/DHCP, Reply, length 300" = Some Start ∧
  message_of "          Your-IP 10.20.99.1" = Some (YourIp "10.20.99.1") ∧
  message_of "          Client-Ethernet-Address 9a:02:57:1e:8f:00" = Some (ClientMac "9a:02:57:1e:8f:00") ∧
  message_of "            DHCP-Message Option 53, length 1: ACK" = Some (Type_ "ACK") ∧
  message_of "9a:02:57:1e:8f:00 > ff:ff:ff:ff:ff:ff, ethertype ARP (0x0806), length 42: Request who-has 10.0.0.1 tell 10.0.0.2, length 28"
    = Some (Arp "9a:02:57:1e:8f:00" "10.0.0.2") ∧
  message_of "IP 10.0.0.1 > 10.0.0.2: ICMP echo request" = None.
Proof. vm_compute. repeat split. Qed.

(** ** Reading a capture *)

(** The monitor reads timed lines. *)
Definition read (lines : list (Z * string)) : M monitor unit :=
  for_each lines (λ x, _dhcp_line x.1 x.2).

(** The messages of the lines, with their times. *)
Definition messages (lines : list (Z * string)) : list (Z * message) :=
  omap (λ x, m ← message_of x.2; Some (x.1, m)) lines.

Definition relog {A} (x : option string) (r : monitor * res A) : monitor * res A :=
  (set_log x r.1, r.2).

(** The log has no influence on the handling of a message. *)
Lemma complete_log now t x s : _dhcp_complete now t (set_log x s) = relog x (_dhcp_complete now t s).
Proof.
  unfold _dhcp_complete. destruct (decide (t ∉ ["ACK"; "Offer"; "STATIC"])); [done|].
  unfold mbind, M_bind, getS, assertM, lift, whenM, modify; simpl.
  destruct (given (target_ip s)); [|done]. destruct (given (target_mac s)); [|done].
  destruct (target_ip s), (target_mac s) as [m|]; try done. simpl.
  destruct (dget m (device_dhcps s)); simpl; [|destruct (scan_start s); simpl; [|done]];
    by destruct (bool_decide (t = "ACK")).
Qed.

Lemma handle_log now m x s : handle now m (set_log x s) = relog x (handle now m s).
Proof.
  destruct m as [|ip|mac|t|mac ip]; [done| | |apply complete_log|].
  - unfold handle, mbind, M_bind, getS, assertM, modify. simpl. by destruct (given (target_ip s)).
  - unfold handle, mbind, M_bind, getS, assertM, modify. simpl. by destruct (given (target_mac s)).
  - simpl. unfold mbind, M_bind, modify.
    apply (complete_log now "STATIC" x (set_target (Some ip) (Some mac) s)).
Qed.

Definition handle_all (ms : list (Z * message)) : M monitor unit :=
  for_each ms (λ x, handle x.1 x.2).

Lemma handle_all_log ms x : ∀ s, handle_all ms (set_log x s) = relog x (handle_all ms s).
Proof.
  induction ms as [|[now m] ms IH]; intros s; [done|].
  unfold handle_all in *. simpl. unfold mbind, M_bind. rewrite handle_log.
  unfold relog. destruct (handle now m s) as [s' [[]|e]]; simpl; [apply IH|done].
Qed.

(** Reading lines is handling their messages, up to the log. *)
Lemma read_messages lines : ∀ s,
  ∃ x, read lines s = relog x (handle_all (messages lines) s).
Proof.
  induction lines as [|[now line] lines IH]; intros s.
  { exists (dhcp_log s). by destruct s. }
  unfold read in *. simpl. unfold mbind at 1, M_bind at 1.
  assert (∃ y, _dhcp_line now line s = match message_of line with
    | Some m => relog y (handle now m s)
    | None => relog y (s, Ok tt)
    end) as [y ->].
  { unfold _dhcp_line. case_bool_decide as Hl.
    - subst. exists (dhcp_log s). vm_compute message_of. by destruct s.
    - exists ((λ x, x +:+ line) <$> dhcp_log s). unfold mbind, M_bind, modify, log.
      destruct (message_of line) as [m|]; [apply handle_log|done]. }
  simpl. destruct (message_of line) as [m|]; simpl.
  - unfold handle_all at 1, relog at 1. simpl. unfold mbind, M_bind.
    destruct (handle now m s) as [s' [[]|e]]; simpl; [|by exists y].
    destruct (IH (set_log y s')) as [x ->]. exists x.
    change (for_each (messages lines) (λ x, handle x.1 x.2)) with (handle_all (messages lines)).
    rewrite handle_all_log. by unfold relog.
  - destruct (IH (set_log y s)) as [x ->]. exists x. rewrite handle_all_log. by unfold relog.
Qed.

(** ** One reply *)

(** The time since the device last got an address, or since the start. *)
Definition elapsed (s : monitor) (mac : string) (now start : Z) : Z :=
  now - default start (dget mac (device_dhcps s)).

Lemma given_true x : x ≠ "" → given (Some x) = true.
Proof. intros Hx. unfold given. by rewrite bool_decide_false. Qed.

(** The end of a reply whose address and client are known. *)
Lemma complete_run s now start ip mac type :
  scan_start s = Some start → target_ip s = Some ip → target_mac s = Some mac →
  ip ≠ "" → mac ≠ "" → type ≠ "STATIC" →
  let delta := elapsed s mac now start in
  ∃ s', _dhcp_complete now type s = (s', Ok tt) ∧
    notified s' = notified s ++ (if decide (type = "ACK" ∨ type = "Offer")
      then [(if 80 <? delta then "long" else "done",
             Some (Gateway.mkTarget type mac ip delta), false)] else []) ∧
    device_dhcps s' = (if decide (type = "ACK") then dset mac now (device_dhcps s)
                       else device_dhcps s).
Proof.
  intros Hst Hip Hmac Hi Hm Ht delta. unfold _dhcp_complete.
  destruct (decide (type ∉ ["ACK"; "Offer"; "STATIC"])) as [Hno|Hyes].
  { exists s. rewrite !decide_False by set_solver. by rewrite app_nil_r. }
  assert (type = "ACK" ∨ type = "Offer") as Ht' by (apply dec_stable in Hyes; set_solver).
  rewrite (decide_True (P := type = "ACK" ∨ type = "Offer")) by done.
  unfold mbind, M_bind, getS, assertM, lift, whenM, modify.
  rewrite Hip, Hmac, !given_true by done. simpl.
  assert (match dget mac (device_dhcps s) with Some t => Some t | None => scan_start s end
    = Some (default start (dget mac (device_dhcps s)))) as ->
    by (rewrite Hst; by destruct (dget mac (device_dhcps s))).
  simpl. rewrite (bool_decide_false (type = "STATIC")) by done. simpl.
  destruct Ht' as [-> | ->]; simpl; eexists; (split; [reflexivity|]); done.
Qed.

(** What the gateway passes on to the runner. *)
Definition forwarded (g : Gateway.Gateway) (s : monitor) : list notification :=
  omap (λ '(st, t, e), Gateway._dhcp_callback st t e g) (notified s).

(** C29: the lines of a DHCP reply (its header, the offered address and the
    client's address in either order, its type, with any other lines in between)
    make the monitor notify its gateway exactly once if the reply is an ACK or
    an Offer and not at all otherwise.  The notification names the address and
    the client of this reply and the seconds since the client's last ACK (or
    the start of the scan), and its state is [long] exactly when these are more
    than 80; an ACK, and nothing else, restarts the clock of its client.  If the
    client is a target of the gateway, the notification reaches the runner. *)
Theorem dhcp_reply_notified (s : monitor) (lines : list (Z * string)) (g : Gateway.Gateway)
    (start t0 t1 t2 now : Z) (ip mac type : string)
    (Hstart : scan_start s = Some start) (Hip : ip ≠ "") (Hmac : mac ≠ "") (Htype : type ≠ "STATIC")
    (Hlines : messages lines = [(t0, Start); (t1, YourIp ip); (t2, ClientMac mac); (now, Type_ type)]
            ∨ messages lines = [(t0, Start); (t1, ClientMac mac); (t2, YourIp ip); (now, Type_ type)]) :
  let delta := elapsed s mac now start in
  let news := if decide (type = "ACK" ∨ type = "Offer")
    then [(if 80 <? delta then "long" else "done", Some (Gateway.mkTarget type mac ip delta), false)]
    else [] in
  ∃ s', read lines s = (s', Ok tt) ∧
    notified s' = notified s ++ news ∧
    device_dhcps s' = (if decide (type = "ACK") then dset mac now (device_dhcps s)
                       else device_dhcps s) ∧
    (dmem mac (Gateway.targets g) = true → forwarded g s' = forwarded g s ++ news).
Proof.
  intros delta news. destruct (read_messages lines s) as [x Hread].
  assert (∃ s', handle_all (messages lines) s = (s', Ok tt) ∧ notified s' = notified s ++ news ∧
    device_dhcps s' = (if decide (type = "ACK") then dset mac now (device_dhcps s)
                       else device_dhcps s)) as (s' & Hrun & Hn & Hd).
  { assert (handle_all (messages lines) s
      = _dhcp_complete now type (set_target (Some ip) (Some mac) s)) as ->.
    { destruct Hlines as [-> | ->];
        unfold handle_all, handle, for_each, mbind, M_bind, modify, assertM, getS, mret, M_ret; simpl;
        unfold set_target; simpl; by destruct (_dhcp_complete now type _) as [s1 [[]|e]]. }
    by apply (complete_run (set_target (Some ip) (Some mac) s)). }
  exists (set_log x s'). rewrite Hread, Hrun. split_and!; [done..|]. intros Hg.
  unfold forwarded. simpl. rewrite Hn, omap_app. f_equal. subst news.
  destruct (decide (type = "ACK" ∨ type = "Offer")); [|done]. simpl.
  unfold Gateway._dhcp_callback. simpl. rewrite Hg. by rewrite andb_false_r.
Qed.

(** An acknowledgement, two minutes after the scan started. *)
Abbreviation demo_lines :=
  [(100, "IP 10.20.0.1.67 > 10.20.99.1.68: BOOTP/DHCP, Reply");
   (100, "  Your-IP 10.20.99.1"); (100, "  Server-IP 10.20.0.1");
   (100, "  Client-Ethernet-Address 9a:02:57:1e:8f:00");
   (120, "    DHCP-Message Option 53, length 1: ACK")] (only parsing).

Lemma dhcp_reply_notified_witness :
  ∃ s', read demo_lines (start None 0 init) = (s', Ok tt) ∧
    notified s' = [("long", Some (Gateway.mkTarget "ACK" "9a:02:57:1e:8f:00" "10.20.99.1" 120), false)].
Proof.
  destruct (dhcp_reply_notified (start None 0 init) demo_lines (Gateway.mkGateway "gw" 1 None None [] ∅ ∅ false false false false)
    0 100 100 100 120 "10.20.99.1" "9a:02:57:1e:8f:00" "ACK") as (s' & H1 & H2 & _);
    [reflexivity|discriminate|discriminate|discriminate|left; vm_compute; reflexivity|].
  exists s'. split; [exact H1|exact H2].
Defined.

End DhcpMonitor.
