(* ===== verification/StreamMonitor.v ===== *)
(** * The stream monitor (src/daq/stream_monitor.py)

    The event loop of the program: streams are monitored with a callback, a
    hang-up handler and an error handler; every round polls the descriptors,
    runs the idle handler and the loop hook, and processes the ready descriptors
    by priority.

    Handlers are code of other components.  What matters here is that they may
    start and stop monitoring, in any order, and that they may raise; an
    environment ([stream_env]) says what the [n]-th call of a handler does and
    what the [n]-th poll returns.

    - [event_loop_contained]: the tables stay consistent and no exception of a
      handler leaves the loop; its result says whether anything is monitored.
    - [ready_by_priority]: a round processes ready descriptors at most once, in
      descending order of priority, and only monitored ones. *)

From stdpp Require Import base list gmap strings sorting.
From Stdlib Require Import ZArith Lia.
From S2P Require Import Prelude.

Module StreamMonitor.
Local Open Scope list_scope.
Local Open Scope Z_scope.

Definition POLLIN : Z := 1.
Definition POLLERR : Z := 8.
Definition POLLHUP : Z := 16.
Definition POLLNVAL : Z := 32.

(** A handler: code of a client, or the copying of data ([copy_data]). *)
Inductive handler := Client (n : nat) | CopyData.

(** An entry of [callbacks] *)
Record stream := mkStream {
  name : string;
  callback : option handler;
  hangup : option handler;
  on_error : option handler
}.

Record state := mkState {
  callbacks : dict Z stream;
  fd_priority : dict Z Z;
  poller : gset Z;
  calls : nat;
  processed : list Z
}.

Definition set_callbacks (x : dict Z stream) (s : state) : state :=
  mkState x (fd_priority s) (poller s) (calls s) (processed s).
Definition set_priority (x : dict Z Z) (s : state) : state :=
  mkState (callbacks s) x (poller s) (calls s) (processed s).
Definition set_poller (x : gset Z) (s : state) : state :=
  mkState (callbacks s) (fd_priority s) x (calls s) (processed s).
Definition set_calls (x : nat) (s : state) : state :=
  mkState (callbacks s) (fd_priority s) (poller s) x (processed s).
Definition set_processed (x : list Z) (s : state) : state :=
  mkState (callbacks s) (fd_priority s) (poller s) (calls s) x.

(** [__init__] *)
Definition init : state := mkState [] [] ∅ 0 [].

(** What a handler does to the monitor. *)
Inductive action :=
  | Monitor (fd : Z) (st : stream) (copy_to : bool) (priority : Z)
  | Forget (fd : Z).

Class stream_env := {
  (** the actions of the handler that runs as the [n]-th call, and whether it
      raises after them *)
  effect : nat → handler → list action * bool;
  (** [poll] on the registered descriptors *)
  poll : nat → gset Z → list (Z * Z);
  (** whether reading or closing a descriptor, or changing its flags, succeeds *)
  io_ok : nat → Z → bool
}.

(** What [select.poll] guarantees: it reports registered descriptors, each once. *)
Class poll_contract (E : stream_env) : Prop := {
  poll_nodup : ∀ n reg, NoDup (poll n reg).*1;
  poll_registered : ∀ n reg fd ev, (fd, ev) ∈ poll n reg → fd ∈ reg
}.

Section monitor.
Context `{E : stream_env} (idle_handler loop_hook : option handler).

Abbreviation SM := (M state) (only parsing).

Definition io (fd : Z) : SM unit := λ s,
  (set_calls (S (calls s)) s, if io_ok (calls s) fd then Ok tt else Raise OtherException).

(** [monitor] *)
Definition monitor (fd : Z) (st : stream) (copy_to : bool) (priority : Z) : SM unit :=
  s ← getS;
  assertM (negb (dmem fd (callbacks s)));;
  cb ← (if copy_to then
          assertM (bool_decide (callback st = None));;
          io fd;;
          mret (Some CopyData)
        else mret (callback st));
  modify (λ s, set_callbacks
    (dset fd (mkStream (name st) cb (hangup st) (on_error st)) (callbacks s)) s);;
  modify (λ s, set_priority (dset fd priority (fd_priority s)) s);;
  modify (λ s, set_poller ({[fd]} ∪ poller s) s).

(** [forget]; the priority stays.  [unregister] of an unknown descriptor raises. *)
Definition forget (fd : Z) : SM unit :=
  s ← getS;
  assertM (dmem fd (callbacks s));;
  modify (λ s, set_callbacks (ddel fd (callbacks s)) s);;
  s ← getS;
  if decide (fd ∈ poller s) then modify (λ s, set_poller (poller s ∖ {[fd]}) s)
  else raise KeyError.

Definition act (a : action) : SM unit :=
  match a with
  | Monitor fd st copy_to priority => monitor fd st copy_to priority
  | Forget fd => forget fd
  end.

(** A call of a handler. *)
Definition run_handler (h : handler) : SM unit :=
  s ← getS;
  modify (λ s, set_calls (S (calls s)) s);;
  let '(actions, raises) := effect (calls s) h in
  for_each actions act;;
  if raises : bool then raise OtherException else mret tt.

(** [error_handler] *)
Definition error_handler (h : option handler) : SM unit :=
  match h with
  | Some h => try_except (run_handler h) (λ _, mret tt)
  | None => mret tt
  end.

(** [self.callbacks[fd]] *)
Definition stream_of (fd : Z) : SM stream :=
  s ← getS; lift (of_option KeyError (dget fd (callbacks s))).

(** [trigger_callback] *)
Definition trigger_callback (fd : Z) : SM unit :=
  st ← stream_of fd;
  try_except
    (match callback st with Some h => run_handler h | None => io fd end)
    (λ _, error_handler (on_error st)).

(** [trigger_hangup]; the stream is closed before the [try]. *)
Definition trigger_hangup (fd : Z) : SM unit :=
  st ← stream_of fd;
  io fd;;
  try_except
    (forget fd;; match hangup st with Some h => run_handler h | None => mret tt end)
    (λ _, error_handler (on_error st)).

(** [process_poll_result] *)
Definition process_poll_result (event fd : Z) : SM unit :=
  modify (λ s, set_processed (processed s ++ [fd]) s);;
  if negb (Z.land event POLLNVAL =? 0) then raise AssertionError
  else if negb (Z.land event POLLIN =? 0) then trigger_callback fd
  else if negb (Z.land event (Z.lor POLLHUP POLLERR) =? 0) then trigger_hangup fd
  else raise AssertionError.

(** [sorted(fds, key=lambda f: -priority)], a stable sort *)
Fixpoint insert_ready (p : Z) (x : Z * Z) (l : list (Z * (Z * Z))) : list (Z * (Z * Z)) :=
  match l with
  | [] => [(p, x)]
  | (q, y) :: l' => if q <=? p then (p, x) :: l else (q, y) :: insert_ready p x l'
  end.

Fixpoint sort_ready (prio : dict Z Z) (l : list (Z * Z)) : res (list (Z * (Z * Z))) :=
  match l with
  | [] => Ok []
  | x :: l' =>
      p ← of_option KeyError (dget x.1 prio);
      l'' ← sort_ready prio l';
      Ok (insert_ready p x l'')
  end.

Definition poll_now : SM (list (Z * Z)) := λ s,
  (set_calls (S (calls s)) s, Ok (poll (calls s) (poller s))).

(** One ready descriptor; an earlier handler may have dropped it. *)
Definition process_ready (x : Z * (Z * Z)) : SM unit :=
  s ← getS;
  whenM (dmem x.2.1 (callbacks s)) (process_poll_result x.2.2 x.2.1).

(** The idle handler and the loop hook; the value says that the round is over. *)
Definition before_poll : SM bool :=
  try_except
    (fds ← poll_now;
     stop ← (match idle_handler with
             | Some h =>
                 if bool_decide (fds = []) then
                   run_handler h;;
                   gets (λ s, bool_decide (callbacks s = []))
                 else mret false
             | None => mret false
             end);
     if stop : bool then mret true
     else
       (match loop_hook with Some h => run_handler h | None => mret tt end);;
       mret false)
    (λ _, mret false).

(** [event_loop] *)
Definition event_loop : SM bool :=
  stop ← before_poll;
  if stop : bool then mret false else
  fds ← poll_now;
  s ← getS;
  ready ← lift (sort_ready (fd_priority s) fds);
  for_each ready process_ready;;
  gets (λ s, negb (bool_decide (callbacks s = []))).

(** ** The tables *)

Record wf (s : state) : Prop := {
  wf_callbacks : dict_wf (callbacks s);
  wf_poller : ∀ fd, fd ∈ poller s ↔ fd ∈ dkeys (callbacks s);
  wf_priority : ∀ fd, fd ∈ poller s → is_Some (dget fd (fd_priority s))
}.

Lemma monitor_wf_init : wf init.
Proof. split; [apply NoDup_nil_2|set_solver|set_solver]. Qed.

Lemma wf_ext s s' :
  callbacks s' = callbacks s → poller s' = poller s → fd_priority s' = fd_priority s →
  wf s → wf s'.
Proof. intros H1 H2 H3 [? ? ?]. split; rewrite ?H1, ?H2, ?H3; done. Qed.

Lemma monitor_wf fd st copy_to priority : keeps wf (monitor fd st copy_to priority).
Proof.
  unfold monitor. apply keeps_bind; [by apply keeps_pure|intros s0].
  apply keeps_bind; [by apply keeps_pure|intros _].
  apply keeps_bind; [|intros cb].
  { walk ltac:(unfold io; intros s Hs; by apply (wf_ext s)). }
  intros s Hs. unfold mbind, M_bind, modify. simpl. split; simpl.
  - apply dict_wf_dset, Hs.
  - intros fd'. rewrite dkeys_dset, elem_of_union, elem_of_singleton, (wf_poller s Hs fd'). done.
  - intros fd'. rewrite elem_of_union, elem_of_singleton, dget_dset.
    destruct (decide (fd' = fd)); [eauto|]. intros [|]; [done|]. by apply Hs.
Qed.

Lemma forget_wf fd : keeps wf (forget fd).
Proof.
  intros s Hs. unfold forget, mbind, M_bind, getS, assertM, modify.
  destruct (dmem fd (callbacks s)) eqn:Hm; [|done]. simpl.
  assert (fd ∈ poller s) as Hp.
  { apply Hs, elem_of_dkeys. by apply dmem_true. }
  rewrite decide_True by done. split; simpl.
  - apply dict_wf_ddel, Hs.
  - intros fd'. rewrite dkeys_ddel by apply Hs.
    rewrite elem_of_difference, elem_of_singleton, (wf_poller s Hs fd'). naive_solver.
  - intros fd'. rewrite elem_of_difference. intros [? _]. by apply Hs.
Qed.

Lemma io_wf fd : keeps wf (io fd).
Proof. intros s Hs. by apply (wf_ext s). Qed.

Lemma run_handler_wf h : keeps wf (run_handler h).
Proof.
  unfold run_handler. walk ltac:(first
    [ apply monitor_wf | apply forget_wf | progress unfold act
    | apply keeps_modify; let s := fresh in let H := fresh in intros s H; by apply (wf_ext s) ]).
Qed.

Lemma error_handler_wf h : keeps wf (error_handler h).
Proof. unfold error_handler. walk ltac:(apply run_handler_wf). Qed.

Ltac step_wf := first
  [ apply run_handler_wf | apply error_handler_wf | apply io_wf | apply forget_wf
  | apply keeps_modify; let s := fresh in let H := fresh in intros s H; by apply (wf_ext s) ].

Lemma process_ready_wf x : keeps wf (process_ready x).
Proof.
  unfold process_ready, process_poll_result, trigger_callback, trigger_hangup, stream_of.
  walk step_wf.
Qed.

Lemma poll_now_wf : keeps wf poll_now.
Proof. intros s Hs. by apply (wf_ext s). Qed.

Lemma event_loop_wf : keeps wf event_loop.
Proof.
  unfold event_loop, before_poll.
  walk ltac:(first [ apply poll_now_wf | apply run_handler_wf | apply process_ready_wf ]).
Qed.

(** ** Exceptions *)

Lemma error_handler_ok h s : (error_handler h s).2 = Ok tt.
Proof.
  destruct h as [h|]; [|done]. simpl. unfold try_except.
  by destruct (run_handler h s) as [s' [[]|e]].
Qed.

Lemma guarded_ok (m : SM unit) h s : (try_except m (λ _, error_handler h) s).2 = Ok tt.
Proof. unfold try_except. destruct (m s) as [s' [[]|e]]; [done|]. apply error_handler_ok. Qed.

(** An event the loop knows. *)
Definition valid_event (event : Z) : bool :=
  (Z.land event POLLNVAL =? 0) &&
  (negb (Z.land event POLLIN =? 0) || negb (Z.land event (Z.lor POLLHUP POLLERR) =? 0)).

(** Processing a monitored descriptor raises only for an unknown event or for a
    stream that cannot be closed. *)
Lemma process_ready_raises x s e :
  (process_ready x s).2 = Raise e →
  (valid_event x.2.2 = false ∧ e = AssertionError) ∨
  (e = OtherException ∧ ∃ n, io_ok n x.2.1 = false).
Proof.
  unfold process_ready. rewrite (bind_ok getS _ s s s eq_refl). unfold whenM.
  destruct (dmem x.2.1 (callbacks s)) eqn:Hm; [|done]. apply dmem_true in Hm as [st Hst].
  unfold process_poll_result, valid_event.
  set (s1 := set_processed (processed s ++ [x.2.1]) s).
  rewrite (bind_ok (modify (λ s, set_processed (processed s ++ [x.2.1]) s)) _ s s1 tt eq_refl).
  assert (stream_of x.2.1 s1 = (s1, Ok st)) as Hs1.
  { unfold stream_of, mbind, M_bind, getS, lift. simpl. by rewrite Hst. }
  destruct (Z.land x.2.2 POLLNVAL =? 0); simpl; [|naive_solver].
  destruct (Z.land x.2.2 POLLIN =? 0); simpl.
  - destruct (Z.land x.2.2 (Z.lor POLLHUP POLLERR) =? 0); simpl; [naive_solver|].
    unfold trigger_hangup. rewrite (bind_ok _ _ _ _ _ Hs1). unfold mbind at 1, M_bind at 1, io at 1.
    destruct (io_ok (calls s1) x.2.1) eqn:Hio.
    + by rewrite guarded_ok.
    + intros [= <-]. right. eauto.
  - unfold trigger_callback. rewrite (bind_ok _ _ _ _ _ Hs1). by rewrite guarded_ok.
Qed.

Lemma for_each_raises ready : ∀ s e,
  (for_each ready process_ready s).2 = Raise e →
  ∃ x, x ∈ ready ∧ ((valid_event x.2.2 = false ∧ e = AssertionError) ∨
    (e = OtherException ∧ ∃ n, io_ok n x.2.1 = false)).
Proof.
  induction ready as [|x ready IH]; intros s e; [done|]. simpl. unfold mbind, M_bind.
  pose proof (process_ready_raises x s) as Hx.
  destruct (process_ready x s) as [s' [[]|e']]; simpl in *.
  - intros H%IH. destruct H as (y & ? & ?). exists y. split; [set_solver|done].
  - intros [= ->]. exists x. split; [set_solver|]. by apply Hx.
Qed.

(** ** Sorting by priority *)

Lemma insert_ready_perm p x l : insert_ready p x l ≡ₚ (p, x) :: l.
Proof.
  induction l as [|[q y] l IH]; simpl; [done|]. destruct (q <=? p); [done|].
  rewrite IH. apply Permutation_swap.
Qed.

Abbreviation by_priority := (λ a b : Z * (Z * Z), b.1 ≤ a.1) (only parsing).

Lemma insert_ready_sorted p x l :
  StronglySorted by_priority l → StronglySorted by_priority (insert_ready p x l).
Proof.
  induction 1 as [|[q y] l Hl IH Hq]; simpl; [by repeat constructor|].
  destruct (Z.leb_spec q p).
  - constructor; [by constructor|]. constructor; [done|].
    eapply Forall_impl; [exact Hq|]. simpl. intros a Ha. lia.
  - constructor; [done|]. rewrite insert_ready_perm. constructor; [simpl; lia|done].
Qed.

Lemma sort_ready_spec prio fds ready :
  sort_ready prio fds = Ok ready →
  ready.*2 ≡ₚ fds ∧ StronglySorted by_priority ready ∧
  Forall (λ x, dget x.2.1 prio = Some x.1) ready.
Proof.
  revert ready. induction fds as [|x fds IH]; intros ready H; simpl in H.
  - injection H as <-. split_and!; constructor.
  - destruct (dget x.1 prio) as [p|] eqn:Hp; [|done]. simpl in H.
    destruct (sort_ready prio fds) as [l|] eqn:Hl; [|done]. injection H as <-.
    destruct (IH l eq_refl) as (H1 & H2 & H3). split_and!.
    + rewrite insert_ready_perm. simpl. by rewrite H1.
    + by apply insert_ready_sorted.
    + rewrite insert_ready_perm. by constructor.
Qed.

(** The order of the descriptors, by the priorities. *)
Lemma sorted_fds prio (ready : list (Z * (Z * Z))) :
  StronglySorted by_priority ready → Forall (λ x, dget x.2.1 prio = Some x.1) ready →
  StronglySorted (λ a b, default 0 (dget b prio) ≤ default 0 (dget a prio))
    ((λ x, x.2.1) <$> ready).
Proof.
  induction 1 as [|x l Hl IH Hx]; intros Hp; [constructor|].
  inversion Hp as [|?? Hpx Hpl]; subst. rewrite fmap_cons, StronglySorted_cons. split; [|by apply IH].
  apply Forall_fmap, Forall_forall. intros y Hy. rewrite Forall_forall in Hx, Hpl. simpl.
  rewrite Hpx, (Hpl y Hy). by apply Hx.
Qed.

Lemma sort_ready_ok prio fds :
  Forall (λ x : Z * Z, is_Some (dget x.1 prio)) fds → ∃ ready, sort_ready prio fds = Ok ready.
Proof.
  induction 1 as [|x fds [p Hp] _ [l IH]]; simpl; [eauto|]. rewrite Hp. simpl. rewrite IH. eauto.
Qed.

(** ** The processed descriptors *)

Abbreviation untouched l := (λ s : state, processed s = l) (only parsing).

Lemma run_handler_processed l h : keeps (untouched l) (run_handler h).
Proof.
  unfold run_handler. walk ltac:(first
    [ progress unfold act, monitor, forget | by apply keeps_modify | by intros ? ? ]).
Qed.

Lemma trigger_processed l fd :
  keeps (untouched l) (trigger_callback fd) ∧ keeps (untouched l) (trigger_hangup fd).
Proof.
  unfold trigger_callback, trigger_hangup, stream_of, error_handler, forget.
  split; walk ltac:(first
    [ apply run_handler_processed | by apply keeps_modify | progress unfold io; by intros ? ? ]).
Qed.

Lemma before_poll_processed l : keeps (untouched l) before_poll.
Proof.
  unfold before_poll. walk ltac:(first
    [ apply run_handler_processed | progress unfold poll_now; by intros ? ? ]).
Qed.

(** One ready descriptor is recorded if it is monitored. *)
Lemma process_ready_processed x s :
  processed (process_ready x s).1
  = processed s ++ (if dmem x.2.1 (callbacks s) then [x.2.1] else []).
Proof.
  unfold process_ready. rewrite (bind_ok getS _ s s s eq_refl). unfold whenM.
  destruct (dmem x.2.1 (callbacks s)); [|by rewrite app_nil_r].
  unfold process_poll_result.
  set (s1 := set_processed (processed s ++ [x.2.1]) s).
  rewrite (bind_ok (modify (λ s, set_processed (processed s ++ [x.2.1]) s)) _ s s1 tt eq_refl).
  repeat case_match; try done; by apply trigger_processed.
Qed.

Lemma for_each_processed ready : ∀ s,
  ∃ l, processed (for_each ready process_ready s).1 = processed s ++ l ∧
    l `sublist_of` ((λ x, x.2.1) <$> ready).
Proof.
  induction ready as [|x ready IH]; intros s; simpl.
  { exists []. by rewrite app_nil_r. }
  unfold mbind, M_bind. pose proof (process_ready_processed x s) as Hx.
  destruct (process_ready x s) as [s' [[]|e]]; simpl in *.
  - destruct (IH s') as (l & Hl & Hsub). rewrite Hl, Hx.
    destruct (dmem x.2.1 (callbacks s)).
    + exists (x.2.1 :: l). rewrite <- app_assoc. split; [done|by constructor].
    + exists l. rewrite app_nil_r. split; [done|by constructor].
  - rewrite Hx. destruct (dmem x.2.1 (callbacks s)); eexists; (split; [done|]);
      [constructor; apply sublist_nil_l|apply sublist_nil_l].
Qed.

(** ** A round *)

Lemma before_poll_ok s :
  ∃ s' b, before_poll s = (s', Ok b) ∧ (b = true → callbacks s' = []).
Proof.
  unfold before_poll, try_except.
  match goal with |- context [match ?m s with _ => _ end] => set (body := m) end.
  assert (∀ s' b, body s = (s', Ok b) → b = true → callbacks s' = []) as Hb.
  { intros s' b Hbody ->. unfold body in Hbody. unfold mbind at 1, M_bind at 1, poll_now in Hbody.
    unfold mbind at 1, M_bind at 1 in Hbody.
    match type of Hbody with context [match ?m with _ => _ end] =>
      destruct m as [s1 [stop|e]] eqn:Hstop; [|done] end.
    destruct stop.
    - injection Hbody as <-. destruct idle_handler as [h|]; [|done].
      case_bool_decide; [|done]. unfold mbind, M_bind in Hstop.
      destruct (run_handler h _) as [s2 [[]|e]]; [|done].
      injection Hstop as <- Hc. by apply bool_decide_eq_true in Hc.
    - unfold mbind, M_bind in Hbody. by destruct (_ s1) as [s2 [[]|e]]. }
  destruct (body s) as [s' [b|e]] eqn:Hbody; [|by exists s', false].
  exists s', b. split; [done|by apply Hb].
Qed.

(** The two outcomes of a round: it ends before the second poll because nothing
    is monitored any more, or it processes the ready descriptors. *)
Lemma event_loop_run s :
  ∃ s1 b, before_poll s = (s1, Ok b) ∧ processed s1 = processed s ∧ (wf s → wf s1) ∧
    ((b = true ∧ callbacks s1 = [] ∧ event_loop s = (s1, Ok false)) ∨
     (b = false ∧ event_loop s =
       (ready ← lift (sort_ready (fd_priority s1) (poll (calls s1) (poller s1)));
        for_each ready process_ready;;
        gets (λ s, negb (bool_decide (callbacks s = [])))) (set_calls (S (calls s1)) s1))).
Proof.
  destruct (before_poll_ok s) as (s1 & b & H1 & Hb). exists s1, b.
  assert (processed s1 = processed s) as Hp.
  { pose proof (before_poll_processed (processed s) s eq_refl) as H. by rewrite H1 in H. }
  assert (wf s → wf s1) as Hw.
  { intros Hs. assert (keeps wf before_poll) as Hk.
    { unfold before_poll. walk ltac:(first [ apply poll_now_wf | apply run_handler_wf ]). }
    specialize (Hk s Hs). by rewrite H1 in Hk. }
  split_and!; [done..|]. unfold event_loop. rewrite (bind_ok _ _ _ _ _ H1).
  destruct b; [left; auto|right; done].
Qed.

Lemma polled_priorities `{!poll_contract E} n s :
  wf s → Forall (λ x : Z * Z, is_Some (dget x.1 (fd_priority s))) (poll n (poller s)).
Proof.
  intros Hs. apply Forall_forall. intros [fd ev] Hin. apply (wf_priority s Hs).
  by eapply poll_registered.
Qed.

(** C30: a round of the event loop keeps the tables consistent (the poller knows
    exactly the monitored descriptors, each with a priority) whatever the
    handlers do and raise.  It raises only if the poller reports an unknown
    event or a stream cannot be closed, and otherwise returns whether any stream
    is monitored. *)
Theorem event_loop_contained `{!poll_contract E} (s : state) (Hwf : wf s) :
  let '(s', o) := event_loop s in
  wf s' ∧
  match o with
  | Ok b => b = negb (bool_decide (callbacks s' = []))
  | Raise e =>
      ∃ n reg fd event, (fd, event) ∈ poll n reg ∧
        ((valid_event event = false ∧ e = AssertionError) ∨
         (e = OtherException ∧ ∃ k, io_ok k fd = false))
  end.
Proof.
  pose proof (event_loop_wf s Hwf) as Hwf'.
  destruct (event_loop_run s) as (s1 & b & _ & _ & Hw & [(-> & Hc & Hrun)|(-> & Hrun)]).
  { rewrite Hrun in *. split; [done|]. by rewrite bool_decide_true. }
  destruct (sort_ready_ok (fd_priority s1) (poll (calls s1) (poller s1))) as [ready Hready];
    [by apply polled_priorities, Hw|].
  rewrite Hready in Hrun. rewrite (bind_ok (lift (Ok ready)) _ _ _ ready eq_refl) in Hrun.
  rewrite Hrun in *. unfold mbind, M_bind in *.
  pose proof (for_each_raises ready (set_calls (S (calls s1)) s1)) as Hraise.
  destruct (for_each ready process_ready _) as [s2 [[]|e]]; simpl in *; split; try done.
  destruct (Hraise e eq_refl) as ([p [fd ev]] & Hin & He). exists (calls s1), (poller s1), fd, ev.
  split; [|done]. apply sort_ready_spec in Hready as (Hp & _). rewrite <- Hp.
  apply list_elem_of_fmap. by exists (p, (fd, ev)).
Qed.

(** A round processes some of the descriptors one poll reported, each at
    most once and in descending order of the priorities they were monitored
    with. *)
Theorem ready_by_priority `{!poll_contract E} (s : state) (Hwf : wf s) :
  ∃ l n reg prio, processed (event_loop s).1 = processed s ++ l ∧
    (∀ fd, fd ∈ l → fd ∈ (poll n reg).*1) ∧ NoDup l ∧
    StronglySorted (λ a b, default 0 (dget b prio) ≤ default 0 (dget a prio)) l ∧
    (∀ fd, fd ∈ reg → is_Some (dget fd prio)).
Proof.
  destruct (event_loop_run s) as (s1 & b & _ & Hp & Hw & [(-> & Hc & Hrun)|(-> & Hrun)]).
  { exists [], O, ∅, []. rewrite Hrun, app_nil_r. split_and!; [done|set_solver|constructor..|].
    set_solver. }
  destruct (sort_ready_ok (fd_priority s1) (poll (calls s1) (poller s1))) as [ready Hready];
    [by apply polled_priorities, Hw|].
  rewrite Hready in Hrun. rewrite (bind_ok (lift (Ok ready)) _ _ _ ready eq_refl) in Hrun.
  destruct (for_each_processed ready (set_calls (S (calls s1)) s1)) as (l & Hl & Hsub).
  exists l, (calls s1), (poller s1), (fd_priority s1).
  apply sort_ready_spec in Hready as (Hperm & Hsorted & Hprio).
  assert (((λ x, x.2.1) <$> ready) = (ready.*2).*1) as Hfds by (by rewrite <- list_fmap_compose).
  split_and!.
  - rewrite Hrun. unfold mbind, M_bind.
    destruct (for_each ready process_ready _) as [s2 [[]|e]]; simpl in *; congruence.
  - intros fd Hfd. rewrite <- Hperm, <- Hfds. by eapply elem_of_sublist.
  - eapply sublist_NoDup; [|exact Hsub]. rewrite Hfds, Hperm. apply poll_nodup.
  - eapply sublist_sorted; [exact Hsub|]. by apply sorted_fds.
  - apply (wf_priority s1), Hw, Hwf.
Qed.

End monitor.

(** Two streams and a control stream that drops the second one. *)
#[local] Instance demo_env : stream_env := {|
  effect n h := match h with
                | Client 7 => ([Forget 5], true)
                | _ => ([], false)
                end;
  poll n reg := if decide (reg = {[4; 5; 6]}) then [(5, POLLIN); (6, POLLHUP); (4, POLLIN)] else [];
  io_ok _ _ := true
|}.

#[local] Instance demo_contract : poll_contract demo_env.
Proof.
  split.
  - intros n reg. simpl. destruct (decide (reg = {[4; 5; 6]})); by apply (bool_decide_unpack _).
  - intros n reg fd ev. simpl. destruct (decide (reg = {[4; 5; 6]})) as [->|]; set_solver.
Qed.

Definition plain (n : string) (cb : option handler) : stream := mkStream n cb None None.
Definition demo_monitor : M state unit :=
  monitor 4 (plain "control" (Some (Client 7))) false 9;;
  monitor 5 (plain "dropped" (Some (Client 8))) false 1;;
  monitor 6 (plain "closing" None) true 5.

Lemma demo_wf : wf (demo_monitor init).1.
Proof.
  unfold demo_monitor. assert (keeps wf (demo_monitor)) as H.
  { unfold demo_monitor. walk ltac:(apply monitor_wf). }
  apply H, monitor_wf_init.
Qed.

Lemma event_loop_contained_witness :
  let '(s', o) := event_loop None None (demo_monitor init).1 in
  wf s' ∧ o = Ok true ∧ callbacks s' = [(4, plain "control" (Some (Client 7)))].
Proof.
  pose proof (event_loop_contained None None (demo_monitor init).1 demo_wf) as H.
  destruct (event_loop None None (demo_monitor init).1) as [s' o] eqn:Hrun.
  destruct H as [H _]. split; [exact H|].
  pose proof (f_equal fst Hrun) as H1. pose proof (f_equal snd Hrun) as H2. simpl in H1, H2.
  split; [rewrite <- H2; vm_compute; reflexivity|rewrite <- H1; vm_compute; reflexivity].
Defined.

Lemma ready_by_priority_witness :
  processed (event_loop None None (demo_monitor init).1).1 = [4; 6] ∧
  ∃ l n reg prio, processed (event_loop None None (demo_monitor init).1).1
      = processed (demo_monitor init).1 ++ l ∧
    (∀ fd, fd ∈ l → fd ∈ (poll n reg).*1) ∧ NoDup l ∧
    StronglySorted (λ a b, default 0 (dget b prio) ≤ default 0 (dget a prio)) l ∧
    (∀ fd, fd ∈ reg → is_Some (dget fd prio)).
Proof.
  split; [vm_compute; reflexivity|].
  exact (ready_by_priority None None (demo_monitor init).1 demo_wf).
Defined.

End StreamMonitor.
