(* ===== verification/ExternalModule.v ===== *)
(** * Test modules in containers and processes
    (src/daq/test_modules: base_module.py, external_module.py, docker_module.py,
    native_module.py)

    [IpAddress]: what the modules use of Python's [ipaddress] (IPv4 addresses
    and networks as integers).

    [ExternalModule]: the life of a test process.  The module adds a host to the
    network, configures it, starts its process and has its output monitored; it
    ends when the stream hangs up, on an error or when it is terminated.  Every
    call to the outside may raise ([module_env]); what exists outside (the host,
    the monitored stream, the log file) is part of the state.

    - [host_ip_usable]: the address given to a test host is a free, usable
      address of the device's external subnet.
    - [failed_start_cleans_up]: a start that fails leaves nothing behind.
    - [completion_reported_once]: the end of the process is reported once. *)

From stdpp Require Import base list gmap strings pretty.
From Stdlib Require Import ZArith Lia Ascii.
From S2P Require Import Prelude PyText Devices.

Import PyText.

Module IpAddress.
Local Open Scope string_scope.
Local Open Scope list_scope.
Local Open Scope Z_scope.

(** [s.split(c)] *)
Fixpoint split_on (c : ascii) (l : list ascii) : list (list ascii) :=
  match l with
  | [] => [[]]
  | x :: l' =>
      let parts := split_on c l' in
      if decide (x = c) then [] :: parts
      else match parts with p :: parts' => (x :: p) :: parts' | [] => [[x]] end
  end.

Definition digit (c : ascii) : option Z :=
  let n := Z.of_nat (code c) - 48 in if (0 <=? n) && (n <=? 9) then Some n else None.

Fixpoint number (acc : Z) (l : list ascii) : option Z :=
  match l with
  | [] => Some acc
  | c :: l' => d ← digit c; number (10 * acc + d) l'
  end.

(** One to three digits without a leading zero, at most 255. *)
Definition octet (l : list ascii) : option Z :=
  match l with
  | [] => None
  | c :: l' =>
      if decide (3 < length l)%nat then None
      else if decide (c = "0"%char ∧ l' ≠ []) then None
      else n ← number 0 l; if n <=? 255 then Some n else None
  end.

Definition of_octets (l : list Z) : Z := foldl (λ acc n, 256 * acc + n) 0 l.

(** [int(ip_address(s))] *)
Definition ip_address (s : string) : res Z :=
  let parts := split_on "."%char (String.list_ascii_of_string s) in
  of_option ValueError
    (if decide (length parts = 4%nat) then of_octets <$> mapM octet parts else None).

Definition octets (z : Z) : list Z := [z / 2 ^ 24; z / 2 ^ 16 mod 256; z / 2 ^ 8 mod 256; z mod 256].

(** [str(ip)] *)
Definition show_ip (z : Z) : string := join "." (str_int <$> octets z).

(** [ip + n] *)
Definition ip_add (z n : Z) : res Z :=
  if (0 <=? z + n) && (z + n <? 2 ^ 32) then Ok (z + n) else Raise ValueError.

(** A network: its address and the length of its prefix. *)
Record network := mkNetwork { network_address : Z; prefixlen : Z }.

Definition broadcast_address (n : network) : Z :=
  network_address n + 2 ^ (32 - prefixlen n) - 1.

Definition in_network (z : Z) (n : network) : bool :=
  (network_address n <=? z) && (z <=? broadcast_address n).

(** [a.overlaps(b)] *)
Definition overlaps (a b : network) : bool :=
  in_network (network_address b) a || in_network (broadcast_address b) a ||
  in_network (network_address a) b || in_network (broadcast_address a) b.

(** [ip_network(s)]: an address, or an address without host bits and a prefix *)
Definition ip_network (s : string) : res network :=
  match split_on "/"%char (String.list_ascii_of_string s) with
  | [a] => z ← ip_address (String.string_of_list_ascii a); Ok (mkNetwork z 32)
  | [a; p] =>
      z ← ip_address (String.string_of_list_ascii a);
      len ← of_option ValueError (if decide (p = []) then None else number 0 p);
      if (0 <=? len) && (len <=? 32) && (z mod 2 ^ (32 - len) =? 0) then Ok (mkNetwork z len)
      else Raise ValueError
  | _ => Raise ValueError
  end.

Example addresses :
  ip_address "10.20.99.1" = Ok 169108225 ∧ ip_address "10.20.099.1" = Raise ValueError ∧
  ip_address "10.20.99" = Raise ValueError ∧ ip_address "1.2.3.256" = Raise ValueError ∧
  show_ip 169108225 = "10.20.99.1" ∧ ip_network "10.20.0.0/16" = Ok (mkNetwork 169082880 16) ∧
  ip_network "10.20.0.1/16" = Raise ValueError ∧ ip_network "10.20.0.1" = Ok (mkNetwork 169082881 32).
Proof. vm_compute. repeat split. Qed.

(** ** Round trip *)

Lemma split_on_clean c l : c ∉ l → split_on c l = [l].
Proof.
  induction l as [|x l IH]; intros Hc; [done|]. simpl. rewrite IH by set_solver.
  rewrite decide_False by set_solver. done.
Qed.

Lemma split_on_app c l m : c ∉ l → split_on c (l ++ c :: m) = l :: split_on c m.
Proof.
  induction l as [|x l IH]; intros Hc; simpl.
  - by rewrite decide_True.
  - rewrite IH by set_solver. by rewrite decide_False by set_solver.
Qed.

(** The 256 octets, by evaluation. *)
Definition octet_ok (n : Z) : bool :=
  let l := String.list_ascii_of_string (str_int n) in
  bool_decide (octet l = Some n) && forallb (λ c, negb (bool_decide (c = "."%char))) l
  && forallb (λ c, negb (bool_decide (c = "/"%char))) l.

Lemma all_octets_ok : forallb octet_ok (zseq 0 256) = true.
Proof. vm_compute. reflexivity. Qed.

Lemma octet_show n :
  0 ≤ n < 256 →
  octet (String.list_ascii_of_string (str_int n)) = Some n ∧
  ("."%char ∉ String.list_ascii_of_string (str_int n)) ∧
  ("/"%char ∉ String.list_ascii_of_string (str_int n)).
Proof.
  intros Hn. pose proof all_octets_ok as H. rewrite forallb_forall in H.
  specialize (H n). rewrite <- list_elem_of_In, elem_of_zseq in H.
  specialize (H ltac:(lia)). unfold octet_ok in H. rewrite !andb_true_iff in H.
  destruct H as [[H1 H2] H3]. rewrite forallb_forall in H2, H3.
  split; [by apply bool_decide_eq_true in H1|]. split; intros Hin%list_elem_of_In.
  - apply H2 in Hin. by rewrite bool_decide_true in Hin.
  - apply H3 in Hin. by rewrite bool_decide_true in Hin.
Qed.

Lemma octets_bounds z : 0 ≤ z < 2 ^ 32 → Forall (λ n, 0 ≤ n < 256) (octets z).
Proof. intros Hz. unfold octets. repeat constructor; zlia. Qed.

Lemma of_octets_octets z : 0 ≤ z < 2 ^ 32 → of_octets (octets z) = z.
Proof. intros Hz. unfold of_octets, octets. simpl. zlia. Qed.

(** Reading what was printed. *)
Lemma ip_address_show z : 0 ≤ z < 2 ^ 32 → ip_address (show_ip z) = Ok z.
Proof.
  intros Hz. pose proof (octets_bounds z Hz) as Hb. pose proof (of_octets_octets z Hz) as Ho.
  unfold ip_address, show_ip. unfold octets in *.
  rewrite !Forall_cons in Hb. destruct Hb as (H1 & H2 & H3 & H4 & _).
  destruct (octet_show _ H1) as (O1 & D1 & _), (octet_show _ H2) as (O2 & D2 & _),
    (octet_show _ H3) as (O3 & D3 & _), (octet_show _ H4) as (O4 & D4 & _).
  simpl. rewrite !chars_app. simpl. rewrite !split_on_app by done. rewrite split_on_clean by done.
  rewrite decide_True by done. simpl. rewrite O1, O2, O3, O4. simpl. f_equal. exact Ho.
Qed.

Lemma ip_network_show z : 0 ≤ z < 2 ^ 32 → ip_network (show_ip z) = Ok (mkNetwork z 32).
Proof.
  intros Hz. unfold ip_network. rewrite split_on_clean.
  - by rewrite String.string_of_list_ascii_of_string, ip_address_show.
  - pose proof (octets_bounds z Hz) as Hb. unfold show_ip, octets in *.
    rewrite !Forall_cons in Hb. destruct Hb as (H1 & H2 & H3 & H4 & _).
    destruct (octet_show _ H1) as (_ & _ & S1), (octet_show _ H2) as (_ & _ & S2),
      (octet_show _ H3) as (_ & _ & S3), (octet_show _ H4) as (_ & _ & S4).
    simpl. rewrite !chars_app. simpl. set_solver.
Qed.

(** ** Ranges *)

Lemma number_nonneg l : ∀ acc n, 0 ≤ acc → number acc l = Some n → 0 ≤ n.
Proof.
  induction l as [|c l IH]; intros acc n Ha H; simpl in H; [by simplify_eq|].
  unfold digit in H. destruct (Z.leb_spec 0 (Z.of_nat (code c) - 48)); simpl in H; [|done].
  destruct (Z.of_nat (code c) - 48 <=? 9); simpl in H; [|done]. eapply IH; [|exact H]. lia.
Qed.

Lemma octet_range l n : octet l = Some n → 0 ≤ n < 256.
Proof.
  unfold octet. destruct l as [|c l]; [done|]. repeat case_decide; try done.
  destruct (number 0 (c :: l)) as [m|] eqn:Hn; [|done]. cbn [mbind option_bind].
  apply number_nonneg in Hn; [|lia]. destruct (Z.leb_spec m 255); [|done].
  intros [= <-]. lia.
Qed.

Lemma ip_address_range s z : ip_address s = Ok z → 0 ≤ z < 2 ^ 32.
Proof.
  unfold ip_address. case_decide as Hl; [|done].
  destruct (mapM octet _) as [l|] eqn:Hm; [|done]. cbn. intros [= <-].
  pose proof (length_mapM _ _ _ Hm) as Hlen. rewrite Hl in Hlen.
  apply mapM_Some_1, (Forall2_Forall_r _ (λ n, 0 ≤ n < 256)) in Hm.
  2: { apply Forall_forall. intros x _ n. apply octet_range. }
  destruct l as [|a [|b [|c [|d [|]]]]]; try done.
  rewrite !Forall_cons in Hm. unfold of_octets. simpl. lia.
Qed.

Lemma ip_network_range s n :
  ip_network s = Ok n →
  0 ≤ prefixlen n ≤ 32 ∧ 0 ≤ network_address n ∧ broadcast_address n < 2 ^ 32.
Proof.
  unfold ip_network, broadcast_address. destruct (split_on _ _) as [|a [|p [|]]]; try done.
  - intros H. destruct (ip_address _) as [z|] eqn:Hz; [|done]. simpl in H.
    injection H as <-. simpl. apply ip_address_range in Hz. lia.
  - intros H. destruct (ip_address _) as [z|] eqn:Hz; [|done]. apply ip_address_range in Hz.
    unfold mbind, res_bind in H. destruct (of_option _ _) as [len|]; [|done].
    destruct (Z.leb_spec 0 len); simpl in H; [|done].
    destruct (Z.leb_spec len 32); simpl in H; [|done].
    destruct (Z.eqb_spec (z mod 2 ^ (32 - len)) 0) as [Hm|]; simpl in H; [|done].
    injection H as <-. simpl. split; [lia|]. split; [lia|].
    assert (2 ^ 32 = 2 ^ len * 2 ^ (32 - len)) as Hp by (rewrite <- Z.pow_add_r by lia; f_equal; lia).
    assert (0 < 2 ^ (32 - len)) by (apply Z.pow_pos_nonneg; lia).
    apply Z.mod_divide in Hm as [q ->]; [|lia].
    assert (q < 2 ^ len) by nia. nia.
Qed.

End IpAddress.

Module ExternalModule.
Import IpAddress.
Local Open Scope string_scope.
Local Open Scope list_scope.
Local Open Scope Z_scope.

(** ** Names and parameters *)

(** [%02d] *)
Definition two_digits (z : Z) : string :=
  if (0 <=? z) && (z <=? 9) then "0" +:+ str_int z else str_int z.

(** The host name of a module ([HostModule.__init__]): at most ten characters. *)
Definition host_name (test_name : string) (set_id : option Z) : res string :=
  n ← of_option TypeError set_id;
  let name := test_name +:+ two_digits n in
  guard_res (bool_decide (String.length name ≤ 10)%nat) AssertionError;;
  Ok name.

Abbreviation params := (dict string string) (only parsing).
Definition param (p : params) (k : string) : res string := of_option KeyError (dget k p).
Definition opt_param (p : params) (k : string) : string := default "" (dget k p).

(** [DhcpMode.Name(mode) if mode else ''] *)
Definition dhcp_mode_name (m : option Devices.dhcp_mode_t) : string :=
  match m with
  | None | Some Devices.DHCP_NORMAL => ""
  | Some Devices.DHCP_STATIC_IP => "STATIC_IP"
  | Some Devices.DHCP_EXTERNAL => "EXTERNAL"
  | Some Devices.DHCP_LONG_RESPONSE => "LONG_RESPONSE"
  | Some Devices.DHCP_IP_CHANGE => "IP_CHANGE"
  end.

(** [_get_env_vars] *)
Definition _get_env_vars (name : string) (mode : option Devices.dhcp_mode_t) (p : params) :
    res (list (string * string)) :=
  target_ip ← param p "target_ip";
  target_mac ← param p "target_mac";
  gateway_ip ← param p "gateway_ip";
  gateway_mac ← param p "gateway_mac";
  Ok [("TARGET_NAME", name); ("TARGET_IP", target_ip); ("TARGET_MAC", target_mac);
      ("TARGET_PORT", opt_param p "target_port"); ("GATEWAY_IP", gateway_ip);
      ("GATEWAY_MAC", gateway_mac); ("LOCAL_IP", opt_param p "local_ip");
      ("DHCP_MODE", dhcp_mode_name mode)].

(** [_map_if_exists]; [exists_path] and [abspath] are of [os.path]. *)
Definition _map_if_exists (exists_path : string → bool) (abspath : string → string)
    (basedir : string) (p : params) (kind : string) : option (string * string) :=
  base ← dget (kind +:+ "_base") p;
  if negb (bool_decide (base = "")) && exists_path base
  then Some (abspath base, basedir +:+ "/config/" +:+ kind) else None.

(** [_get_vol_maps] *)
Definition _get_vol_maps (exists_path : string → bool) (abspath : string → string)
    (daq_run_dir basedir : string) (p : params) : res (list (string * string)) :=
  scan_base ← param p "scan_base";
  Ok ((scan_base, basedir +:+ "/scans") ::
      omap (_map_if_exists exists_path abspath basedir p)
        [daq_run_dir; "port"; "device"; "type"; "gw"]).

(** The container and process variants. *)
Definition docker_env_vars (vars : list (string * string)) : list string :=
  (λ '(k, v), k +:+ "=" +:+ v) <$> vars.
Definition docker_vol_maps (maps : list (string * string)) : list string :=
  (λ '(a, b), a +:+ ":" +:+ b) <$> maps.
Definition native_env_vars (basedir : string) (vars : list (string * string)) :
    list (string * string) := vars ++ [("TEST_ROOT", basedir)].
Definition native_vol_maps (abspath : string → string) (lib_dir basedir : string)
    (maps : list (string * string)) : list (string * string) :=
  maps ++ [(abspath (lib_dir +:+ "/bin/retry_cmd"), "/bin/retry_cmd");
           (abspath (lib_dir +:+ "/bin/reporting.sh"), basedir +:+ "/reporting.sh")].

(** ** The address of a test host *)

(** The loop over [external_subnets]. *)
Fixpoint find_subnet (target_subnet : network) (target_ip : string) (specs : list string) :
    res (option string) :=
  match specs with
  | [] => Ok None
  | spec :: specs' =>
      subnet ← ip_network spec;
      if overlaps target_subnet subnet then
        target ← ip_address target_ip;
        new_ip ← ip_add target (if target =? broadcast_address subnet - 1 then -1 else 1);
        Ok (Some (show_ip new_ip +:+ "/" +:+ str_int (prefixlen subnet)))
      else find_subnet target_subnet target_ip specs'
  end.

(** [_get_host_ip] *)
Definition _get_host_ip (runner_subnet : network) (external_subnets : list string) (p : params) :
    res (option string) :=
  target_ip ← param p "target_ip";
  target_subnet ← ip_network target_ip;
  if overlaps target_subnet runner_subnet then Ok None
  else find_subnet target_subnet target_ip external_subnets.

(** A network the target is not in. *)
Definition disjoint (target : Z) (spec : string) : Prop :=
  ∃ n, ip_network spec = Ok n ∧ overlaps (mkNetwork target 32) n = false.

Lemma overlaps_self t n :
  network_address n < t < broadcast_address n → overlaps (mkNetwork t 32) n = true.
Proof.
  intros Ht. unfold overlaps. apply orb_true_iff. left. apply orb_true_iff. right.
  unfold in_network. simpl. rewrite andb_true_iff, !Z.leb_le. lia.
Qed.

(** For a device whose address is a usable address (neither the network's
    nor the broadcast address) of one of the configured external subnets, and
    not in the subnet of the test network or an earlier external one, the test
    host gets the neighbouring address, which is a usable address of the same
    subnet too, with the subnet's prefix. *)
Theorem host_ip_usable (runner : network) (p : dict string string) (t : Z) (n : network)
    (before after : list string) (spec : string)
    (Hp : dget "target_ip" p = Some (show_ip t))
    (Hrunner : overlaps (mkNetwork t 32) runner = false)
    (Hbefore : Forall (disjoint t) before) (Hspec : ip_network spec = Ok n)
    (Ht : network_address n < t < broadcast_address n) :
  ∃ u, _get_host_ip runner (before ++ spec :: after) p
      = Ok (Some (show_ip u +:+ "/" +:+ str_int (prefixlen n))) ∧
    network_address n < u < broadcast_address n ∧ u ≠ t ∧
    ip_address (show_ip u) = Ok u.
Proof.
  destruct (ip_network_range _ _ Hspec) as (Hlen & Ha & Hb).
  exists (t + (if t =? broadcast_address n - 1 then -1 else 1)).
  assert (network_address n < t + (if t =? broadcast_address n - 1 then -1 else 1)
          < broadcast_address n) as Hu.
  { destruct (Z.eqb_spec t (broadcast_address n - 1)) as [->|]; [|lia].
    unfold broadcast_address in *.
    destruct (decide (prefixlen n ≤ 30)) as [Hle|Hgt].
    - pose proof (Z.pow_le_mono_r 2 2 (32 - prefixlen n)). lia.
    - assert (prefixlen n = 31 ∨ prefixlen n = 32) as [He|He] by lia; rewrite He in *; simpl in *; lia. }
  split_and!; [|lia|lia|destruct (Z.eqb_spec t (broadcast_address n - 1)); lia|].
  2: { apply ip_address_show. lia. }
  unfold _get_host_ip, param. rewrite Hp. simpl. rewrite ip_network_show by lia. simpl.
  rewrite Hrunner. induction Hbefore as [|s before (m & Hm & Ho) _ IH]; simpl.
  - rewrite Hspec. simpl. rewrite overlaps_self by done. rewrite ip_address_show by lia. simpl.
    unfold ip_add. destruct (Z.leb_spec 0 (t + (if t =? broadcast_address n - 1 then -1 else 1)));
      [|lia].
    destruct (Z.ltb_spec (t + (if t =? broadcast_address n - 1 then -1 else 1)) (2 ^ 32)); [|lia].
    done.
  - rewrite Hm. simpl. by rewrite Ho.
Qed.

Lemma host_ip_usable_witness :
  ∃ u, _get_host_ip (mkNetwork 169082880 16) ["192.168.8.0/24"; "10.0.0.0/30"]
      [("target_ip", "10.0.0.2")] = Ok (Some (show_ip u +:+ "/" +:+ str_int 30)) ∧
    167772160 < u < 167772163 ∧ u ≠ 167772162.
Proof.
  destruct (host_ip_usable (mkNetwork 169082880 16) [("target_ip", "10.0.0.2")] 167772162
    (mkNetwork 167772160 30) ["192.168.8.0/24"] [] "10.0.0.0/30") as (u & H1 & H2 & H3 & _);
    [vm_compute; reflexivity|vm_compute; reflexivity| |vm_compute; reflexivity
    |vm_compute; split; reflexivity|].
  { constructor; [|constructor]. exists (mkNetwork 3232237568 24).
    split; vm_compute; reflexivity. }
  exists u. split; [exact H1|]. split; [exact H2|exact H3].
Defined.

(** ** The life of a module *)

Inductive call :=
  | AddHost | Configure | Activate | AssignIp | OpenLog | MonitorStream | CloseLog
  | TerminateHost | RemoveHost | MonitorForget | FinishHook.

(** A call back to the host: return code and exception. *)
Record report := mkReport { return_code : option Z; exception : option exn }.

(** [live], [running], [monitored] and [log_open] say what exists outside. *)
Record state := mkState {
  host : bool;
  pipe : bool;
  log : bool;
  _gateway_ip : option string;
  start_time : bool;
  live : bool;
  running : bool;
  monitored : bool;
  log_open : bool;
  reports : list report;
  calls : nat
}.

Definition set_host (x : bool) (s : state) : state :=
  mkState
    x (pipe s) (log s) (_gateway_ip s) (start_time s) (live s) (running s) (monitored s)
    (log_open s) (reports s) (calls s).
Definition set_pipe (x : bool) (s : state) : state :=
  mkState
    (host s) x (log s) (_gateway_ip s) (start_time s) (live s) (running s) (monitored s)
    (log_open s) (reports s) (calls s).
Definition set_log (x : bool) (s : state) : state :=
  mkState
    (host s) (pipe s) x (_gateway_ip s) (start_time s) (live s) (running s) (monitored
    s) (log_open s) (reports s) (calls s).
Definition set_gateway_ip (x : option string) (s : state) : state :=
  mkState
    (host s) (pipe s) (log s) x (start_time s) (live s) (running s) (monitored s)
    (log_open s) (reports s) (calls s).
Definition set_started (x : bool) (s : state) : state :=
  mkState
    (host s) (pipe s) (log s) (_gateway_ip s) x (live s) (running s) (monitored s)
    (log_open s) (reports s) (calls s).
Definition set_live (x : bool) (s : state) : state :=
  mkState
    (host s) (pipe s) (log s) (_gateway_ip s) (start_time s) x (running s) (monitored s)
    (log_open s) (reports s) (calls s).
Definition set_running (x : bool) (s : state) : state :=
  mkState
    (host s) (pipe s) (log s) (_gateway_ip s) (start_time s) (live s) x (monitored s)
    (log_open s) (reports s) (calls s).
Definition set_monitored (x : bool) (s : state) : state :=
  mkState
    (host s) (pipe s) (log s) (_gateway_ip s) (start_time s) (live s) (running s) x
    (log_open s) (reports s) (calls s).
Definition set_log_open (x : bool) (s : state) : state :=
  mkState
    (host s) (pipe s) (log s) (_gateway_ip s) (start_time s) (live s) (running s)
    (monitored s) x (reports s) (calls s).
Definition set_reports (x : list report) (s : state) : state :=
  mkState
    (host s) (pipe s) (log s) (_gateway_ip s) (start_time s) (live s) (running s)
    (monitored s) (log_open s) x (calls s).
Definition set_calls (x : nat) (s : state) : state :=
  mkState
    (host s) (pipe s) (log s) (_gateway_ip s) (start_time s) (live s) (running s)
    (monitored s) (log_open s) (reports s) x.

(** What the [n]-th call does, and the return code of the process. *)
Class module_env := {
  ok : nat → call → bool;
  exit_code : nat → option Z;
  has_intf : bool
}.

(** The configuration of a module. *)
Record conf := mkConf {
  test_name : string;
  device_mac : string;
  device_mode : option Devices.dhcp_mode_t;
  basedir : string;
  external_subnets : list string;
  runner_subnet : network;
  fail_module : dict string string;
  finish_hook : bool;
  is_docker : bool
}.

Section module.
Context `{E : module_env} (C : conf) (exists_path : string → bool) (abspath : string → string)
  (daq_run_dir : string) (name : string).

Abbreviation EM := (M state) (only parsing).

(** [__init__] *)
Definition init : state := mkState false false false None false false false false false [] 0.

(** The effect of a call outside. *)
Definition effect (c : call) (s : state) : state :=
  match c with
  | AddHost => set_live true s
  | RemoveHost => set_live false s
  | Activate => set_running true s
  | TerminateHost => set_running false s
  | MonitorStream => set_monitored true s
  | MonitorForget => set_monitored false s
  | OpenLog => set_log_open true s
  | CloseLog => set_log_open false s
  | Configure | AssignIp | FinishHook => s
  end.

Definition out (c : call) : EM unit := λ s,
  let s1 := set_calls (S (calls s)) s in
  if ok (calls s) c then (effect c s1, Ok tt) else (s1, Raise OtherException).

(** [_should_raise_test_exception] *)
Definition _should_raise_test_exception (trigger : string) : bool :=
  bool_decide (dget (test_name C +:+ "_" +:+ remove_char ":"%char (device_mac C)) (fail_module C)
               = Some trigger).

(** [_configure_host]; a container gets a name server too. *)
Definition _configure_host : EM unit :=
  out Configure;; whenM (is_docker C) (out Configure).

(** The second [try] of [start]. *)
Definition launch (p : params) : EM unit :=
  _configure_host;;
  out Activate;;
  host_ip ← lift (_get_host_ip (runner_subnet C) (external_subnets C) p);
  whenM (has_intf && bool_decide (is_Some host_ip)) (out AssignIp);;
  out OpenLog;;
  modify (set_log true);;
  whenM (_should_raise_test_exception "initialize") (raise OtherException);;
  out MonitorStream;;
  modify (set_pipe true);;
  whenM (_should_raise_test_exception "callback") (out CloseLog).

(** Its [except] clause. *)
Definition undo_launch (e : exn) : EM unit :=
  out TerminateHost;;
  out RemoveHost;;
  modify (set_host false);;
  s ← getS;
  whenM (pipe s) (out MonitorForget;; modify (set_pipe false));;
  raise e.

(** [start]: the variables and volume maps are arguments of the new host. *)
Definition start (p : params) : EM unit :=
  modify (set_started true);;
  gateway_ip ← lift (param p "gateway_ip");
  modify (set_gateway_ip (Some gateway_ip));;
  env_vars ← lift (_get_env_vars name (device_mode C) p);
  vol_maps ← lift (_get_vol_maps exists_path abspath daq_run_dir (basedir C) p);
  try_except (out AddHost) (λ _, raise DaqException);;
  modify (set_host true);;
  try_except (launch p) undo_launch.

(** [return_code if self.test_name != 'fail' else not return_code] *)
Definition modified_code (rc : option Z) : option Z :=
  if decide (test_name C = "fail") then Some (if default 0 rc =? 0 then 1 else 0) else rc.

(** [_finalize] *)
Definition _finalize : EM (option Z) :=
  s ← getS;
  assertM (host s);;
  whenM (finish_hook C) (out FinishHook);;
  out RemoveHost;;
  s ← getS;
  whenM (pipe s) (out MonitorForget;; modify (set_pipe false));;
  s ← getS;
  out TerminateHost;;
  let rc := exit_code (calls s) in
  modify (set_host false);;
  s ← getS;
  (if log s then out CloseLog else raise AttributeError);;
  modify (set_log false);;
  whenM (_should_raise_test_exception "finalize") (raise OtherException);;
  mret (modified_code rc).

(** [terminate] *)
Definition terminate : EM (option Z) := _finalize.

Definition callback (r : report) : EM unit := modify (λ s, set_reports (reports s ++ [r]) s).

(** [_error] *)
Definition _error (e : exn) : EM unit :=
  rc ← _finalize;
  match rc with
  | None => mret tt
  | Some _ => callback (mkReport None (Some e))
  end.

(** [_complete] *)
Definition _complete : EM unit :=
  r ← try_except
    (s ← getS;
     assertM (pipe s);;
     modify (set_pipe false);;
     rc ← _finalize;
     mret (mkReport rc None))
    (λ e, mret (mkReport (Some (-1)) (Some e)));
  callback r.

(** ** A start that fails *)

Section cleanup.
(** Cleaning up works. *)
Context (Hterm : ∀ n, ok n TerminateHost = true) (Hremove : ∀ n, ok n RemoveHost = true)
  (Hforget : ∀ n, ok n MonitorForget = true).

(** What is monitored is known as the pipe. *)
Abbreviation tracked := (λ s : state, pipe s = monitored s) (only parsing).

Lemma out_tracked c : c ≠ MonitorStream → c ≠ MonitorForget → keeps tracked (out c).
Proof.
  intros H1 H2 s Hs. unfold out. destruct (ok (calls s) c); [|done]. by destruct c.
Qed.

Lemma monitor_tracked A (m : EM A) :
  keeps tracked m → keeps tracked (out MonitorStream;; (modify (set_pipe true);; m)).
Proof.
  intros Hm s Hs. unfold mbind, M_bind, out, modify.
  destruct (ok (calls s) MonitorStream); [|done]. by apply Hm.
Qed.

Lemma launch_tracked p : keeps tracked (launch p).
Proof.
  unfold launch, _configure_host. walk ltac:(first
    [ apply monitor_tracked | by apply out_tracked | by apply keeps_modify ]).
Qed.

Lemma undo_launch_run e s :
  tracked s →
  let '(s', o) := undo_launch e s in
  o = Raise e ∧ host s' = false ∧ pipe s' = false ∧ live s' = false ∧ running s' = false ∧
  monitored s' = false.
Proof.
  intros Hs. unfold undo_launch, out, mbind, M_bind, modify, getS, whenM, raise.
  rewrite Hterm. simpl. rewrite Hremove. simpl.
  destruct (pipe s) eqn:Hp; simpl; [rewrite Hforget; done|]. by rewrite <- Hs.
Qed.

(** When starting a fresh module fails, at whatever point, and the clean-up
    calls work, nothing is left outside: no host on the network, no process and
    no monitored stream; and the module knows of none. *)
Theorem failed_start_cleans_up (p : dict string string) (s' : state) (e : exn)
    (Hfail : start p init = (s', Raise e)) :
  host s' = false ∧ pipe s' = false ∧ live s' = false ∧ running s' = false ∧ monitored s' = false.
Proof.
  unfold start in Hfail.
  rewrite (bind_ok (modify (set_started true)) _ init (set_started true init) tt eq_refl) in Hfail.
  set (s0 := set_started true init) in *.
  unfold mbind at 1, M_bind at 1, lift in Hfail.
  destruct (param p "gateway_ip") as [gip|e1]; [|by injection Hfail as <- _].
  rewrite (bind_ok (modify _) _ s0 (set_gateway_ip (Some gip) s0) tt eq_refl) in Hfail.
  set (s1 := set_gateway_ip (Some gip) s0) in *.
  unfold mbind at 1, M_bind at 1, lift in Hfail.
  destruct (_get_env_vars _ _ _) as [vars|e1]; [|by injection Hfail as <- _].
  unfold mbind at 1, M_bind at 1, lift in Hfail.
  destruct (_get_vol_maps _ _ _ _ _) as [maps|e1]; [|by injection Hfail as <- _].
  unfold mbind at 1, M_bind at 1, try_except at 1, out at 1 in Hfail.
  destruct (ok (calls s1) AddHost); [|by injection Hfail as <- _].
  unfold mbind at 1, M_bind at 1, modify at 1 in Hfail. unfold try_except in Hfail.
  set (s2 := set_host true _) in Hfail.
  pose proof (launch_tracked p s2 eq_refl) as Ht.
  destruct (launch p s2) as [s3 [[]|e1]]; simpl in Ht; [done|].
  pose proof (undo_launch_run e1 s3 Ht) as Hundo. rewrite Hfail in Hundo. tauto.
Qed.

End cleanup.

(** ** The end of the process *)

Lemma finalize_released s s' rc :
  _finalize s = (s', Ok rc) →
  host s' = false ∧ log s' = false ∧ pipe s' = false ∧ live s' = false ∧ running s' = false ∧
  log_open s' = false ∧ reports s' = reports s ∧ ∃ n, rc = modified_code (exit_code n).
Proof.
  intros H. unfold _finalize, out, mbind, M_bind, modify, getS, whenM, raise, assertM in H.
  destruct (host s); [|done].
  repeat match type of H with
  | context [if ?b then _ else _] => destruct b eqn:?; simpl in H; try done
  end; injection H as <- <-; simpl; split_and!; eauto.
Qed.

Lemma finalize_reports l : keeps (λ s, reports s = l) _finalize.
Proof.
  assert (∀ c, keeps (λ s, reports s = l) (out c)) as Hout.
  { intros c s Hs. unfold out. destruct (ok (calls s) c); [|done]. by destruct c. }
  unfold _finalize. walk ltac:(first [ apply Hout | by apply keeps_modify ]).
Qed.

(** Whatever raises while the module cleans up after its process, the end
    of the process is reported exactly once.  The report carries the exit code
    of the process (inverted for the module that is meant to fail) and then the
    host, the process and the log file are gone; otherwise it carries the code
    -1 and the exception. *)
Theorem completion_reported_once (s : state) :
  let '(s', o) := _complete s in
  o = Ok tt ∧ ∃ r, reports s' = reports s ++ [r] ∧
    match exception r with
    | None =>
        (∃ n, return_code r = modified_code (exit_code n)) ∧
        host s' = false ∧ log s' = false ∧ live s' = false ∧ running s' = false ∧
        log_open s' = false
    | Some _ => return_code r = Some (-1)
    end.
Proof.
  unfold _complete, try_except, callback, mbind, M_bind, getS, modify, assertM.
  destruct (pipe s); simpl; [|split; [done|]; by eexists].
  set (s1 := set_pipe false s). pose proof (finalize_reports (reports s) s1 eq_refl) as Hr.
  destruct (_finalize s1) as [s2 [rc|e]] eqn:Hf; simpl in *.
  - apply finalize_released in Hf as (? & ? & _ & ? & ? & ? & _ & n & ?).
    split; [done|]. exists (mkReport rc None). rewrite Hr. simpl. split_and!; eauto.
  - split; [done|]. exists (mkReport (Some (-1)) (Some e)). by rewrite Hr.
Qed.

End module.

(** A container whose output cannot be monitored. *)
#[local] Instance demo_env : module_env := {|
  ok _ c := match c with MonitorStream => false | _ => true end;
  exit_code _ := Some 0;
  has_intf := true
|}.
Definition demo_conf : conf :=
  mkConf "nmap" "9a:02:57:1e:8f:00" None "/" [] (mkNetwork 169082880 16) [] true true.
Definition demo_params : dict string string :=
  [("target_ip", "10.20.99.1"); ("target_mac", "9a:02:57:1e:8f:00"); ("gateway_ip", "10.20.0.1");
   ("gateway_mac", "9a:02:57:1e:8f:11"); ("scan_base", "inst/scans")].

Lemma failed_start_cleans_up_witness :
  let '(s', o) := start demo_conf (λ _, false) id "inst" "nmap01" demo_params init in
  o = Raise OtherException ∧ live s' = false ∧ running s' = false ∧ monitored s' = false.
Proof.
  destruct (start demo_conf (λ _, false) id "inst" "nmap01" demo_params init) as [s' o] eqn:Hrun.
  assert (o = Raise OtherException) as Ho.
  { pose proof (f_equal snd Hrun) as H. simpl in H. rewrite <- H. vm_compute. reflexivity. }
  rewrite Ho in Hrun |- *. split; [reflexivity|].
  destruct (failed_start_cleans_up (E := demo_env) demo_conf (λ _, false) id "inst" "nmap01" (λ _, eq_refl)
    (λ _, eq_refl) (λ _, eq_refl) demo_params s' OtherException Hrun) as (_ & _ & H1 & H2 & H3).
  split; [exact H1|split; [exact H2|exact H3]].
Defined.

End ExternalModule.
