(* ===== verification/Report.v ===== *)
(** * Device reports (src/daq/report.py)

    The report of one device: the results of its test modules are accumulated
    ([accumulate]), read from the modules' report files, counted by expectation
    and category, and written as a Markdown and a JSON document ([finalize]).

    - The dictionary of a test result is shared: it is an entry of [_results]
      and an entry of its module in the JSON document.  Entries of [_results]
      are never replaced, so the module's entry is the name of the test.
    - Files and the template engine are an interface ([report_env]); time stamps
      and the HTML and PDF converters have no effect on the model but may raise.
    - A configured test has optional strings for category, expectation and
      requirement. *)

From stdpp Require Import base list gmap strings.
From Stdlib Require Import ZArith Lia Ascii.
From S2P Require Import Prelude PyVal PyText.

Import PyText.

Module Report.
Local Open Scope string_scope.
Local Open Scope list_scope.
Local Open Scope Z_scope.

(** [ResultType], in the order of the enumeration, with its values *)
Inductive ResultType :=
  | REPORT_PATH | MODULE_CONFIG | MODULE_CONFIG_PATH | RETURN_CODE | EXCEPTION
  | ACTIVATION_LOG_PATH.

#[global] Instance ResultType_eq_dec : EqDecision ResultType.
Proof. solve_decision. Defined.

Definition result_types : list ResultType :=
  [REPORT_PATH; MODULE_CONFIG; MODULE_CONFIG_PATH; RETURN_CODE; EXCEPTION; ACTIVATION_LOG_PATH].

Definition value (t : ResultType) : string :=
  match t with
  | REPORT_PATH => "report_path"
  | MODULE_CONFIG => "module_config"
  | MODULE_CONFIG_PATH => "module_config_path"
  | RETURN_CODE => "return_code"
  | EXCEPTION => "exception"
  | ACTIVATION_LOG_PATH => "activation_log_path"
  end.

(** ** Tables: [MdTable] *)

Definition _DIV := "---".
Definition _MARK := "|".

Record MdTable := mkTable {
  headers : list string;
  _header_separator : string;
  rows : list (list string)
}.

Definition MdTable_init (hs : list string) : MdTable :=
  mkTable ([""] ++ hs ++ [""]) (join _MARK ([""] ++ map (λ _, _DIV) hs ++ [""])) [].

Definition add_row (row : list string) (t : MdTable) : MdTable :=
  mkTable (headers t) (_header_separator t) (rows t ++ [[""] ++ map strip row ++ [""]]).

Definition render (t : MdTable) : string :=
  join _MARK (headers t) +:+ nl +:+ _header_separator t +:+ nl
    +:+ join nl (map (join _MARK) (rows t)) +:+ nl.

(** ** Data *)

(** An entry of [module_config['tests']]. *)
Record test_info := mkInfo {
  category : option string;
  expected : option string;
  required : option string
}.
Definition no_info : test_info := mkInfo None None None.

(** The result dictionary of a test. *)
Record result := mkTest {
  r_result : string;
  test_name : string;
  module_name : option string;
  r_category : string;
  r_expected : string;
  result_description : string
}.
Definition set_result (v : string) (r : result) : result :=
  mkTest v (test_name r) (module_name r) (r_category r) (r_expected r) (result_description r).

(** The dictionary of a module in the JSON document: its information and the
    names of its tests. *)
Record module_out := mkOut {
  info : dict string val;
  tests : list string
}.

(** What the constructor reads from the configuration. *)
Record conf := mkConf {
  config_tests : option (dict string test_info);
  conf_results : list string;
  conf_expected : list string;
  conf_categories : list string;
  site_path : option string;
  _clean_mac : string;
  _report_prefix : string;
  _alt_prefix : option string
}.

Record Report := mkReport {
  _repitems : dict string (dict ResultType val);
  _finalized : bool;
  _results : dict string result;
  _result_headers : list string;
  _expected_headers : list string;
  _expecteds : dict string (dict string Z);
  _categories : list string;
  modules : dict string module_out;
  missing_tests : list string;
  _file_md : string;
  files : list (string * string)
}.

Definition set_repitems (x : dict string (dict ResultType val)) (s : Report) : Report :=
  mkReport
    x (_finalized s) (_results s) (_result_headers s) (_expected_headers s) (_expecteds
    s) (_categories s) (modules s) (missing_tests s) (_file_md s) (files s).
Definition set_finalized (x : bool) (s : Report) : Report :=
  mkReport
    (_repitems s) x (_results s) (_result_headers s) (_expected_headers s) (_expecteds
    s) (_categories s) (modules s) (missing_tests s) (_file_md s) (files s).
Definition set_results (x : dict string result) (s : Report) : Report :=
  mkReport
    (_repitems s) (_finalized s) x (_result_headers s) (_expected_headers s) (_expecteds
    s) (_categories s) (modules s) (missing_tests s) (_file_md s) (files s).
Definition set_result_headers (x : list string) (s : Report) : Report :=
  mkReport
    (_repitems s) (_finalized s) (_results s) x (_expected_headers s) (_expecteds s)
    (_categories s) (modules s) (missing_tests s) (_file_md s) (files s).
Definition set_expected_headers (x : list string) (s : Report) : Report :=
  mkReport
    (_repitems s) (_finalized s) (_results s) (_result_headers s) x (_expecteds s)
    (_categories s) (modules s) (missing_tests s) (_file_md s) (files s).
Definition set_expecteds (x : dict string (dict string Z)) (s : Report) : Report :=
  mkReport
    (_repitems s) (_finalized s) (_results s) (_result_headers s) (_expected_headers s)
    x (_categories s) (modules s) (missing_tests s) (_file_md s) (files s).
Definition set_categories (x : list string) (s : Report) : Report :=
  mkReport
    (_repitems s) (_finalized s) (_results s) (_result_headers s) (_expected_headers s)
    (_expecteds s) x (modules s) (missing_tests s) (_file_md s) (files s).
Definition set_modules (x : dict string module_out) (s : Report) : Report :=
  mkReport
    (_repitems s) (_finalized s) (_results s) (_result_headers s) (_expected_headers s)
    (_expecteds s) (_categories s) x (missing_tests s) (_file_md s) (files s).
Definition set_missing (x : list string) (s : Report) : Report :=
  mkReport
    (_repitems s) (_finalized s) (_results s) (_result_headers s) (_expected_headers s)
    (_expecteds s) (_categories s) (modules s) x (_file_md s) (files s).
Definition set_md (x : string) (s : Report) : Report :=
  mkReport
    (_repitems s) (_finalized s) (_results s) (_result_headers s) (_expected_headers s)
    (_expecteds s) (_categories s) (modules s) (missing_tests s) x (files s).
Definition set_files (x : list (string * string)) (s : Report) : Report :=
  mkReport
    (_repitems s) (_finalized s) (_results s) (_result_headers s) (_expected_headers s)
    (_expecteds s) (_categories s) (modules s) (missing_tests s) (_file_md s) x.

(** Files, the template engine and the converters. *)
Class report_env := {
  read_lines : string → option (list string);
  render_template : string → option (string + string);
  config_text : string;
  str_of : val → string;
  convert_pdf : res unit;
  dump_json : res unit;
  copy_file : string → res unit
}.

Section report.
Context `{E : report_env} (C : conf).

Abbreviation RM := (M Report) (only parsing).

Definition _NAME_FORMAT (mac mark : string) : string := "report_" +:+ mac +:+ "_" +:+ mark.
Definition _DEFAULT_CATEGORY := "Other".
Definition _DEFAULT_EXPECTED := "Other".
Definition _MISSING_TEST_RESULT := "gone".
Definition _NO_REQUIRED := "n/a".
Definition _CATEGORY_BASE_COLS := ["Category"; "Total Tests"; "Result"].
Definition _EXPECTED_HEADER := "Expectation".
Definition _SUMMARY_HEADERS := ["Result"; "Test"; "Category"; "Expectation"; "Notes"].
Definition _TEST_SEPARATOR (x : string) : string := nl +:+ "## " +:+ x +:+ nl.
Definition _TEST_SUBHEADER (x : string) : string := nl +:+ "#### " +:+ x +:+ nl.
Definition _DEFAULT_HEADER (x : string) : string := "# DAQ scan report for device " +:+ x.

(** [__init__] *)
Definition init : Report :=
  mkReport [] false [] (conf_results C) (conf_expected C) [] (conf_categories C) [] [] "" [].

(** [_RESULT_REGEX]: a result line of a module's report file *)
Definition not_percent (c : ascii) : bool := negb (bool_decide (c = "%"%char)).
Definition _RESULT_REGEX : Regex.re :=
  Regex.Seq Regex.Bol (Regex.Seq (Regex.lit "RESULT ")
    (Regex.Seq (Regex.Grp 1 (Regex.Rep false Regex.any)) (Regex.Seq (Regex.Plus is_space)
    (Regex.Seq (Regex.Grp 2 (Regex.Rep false Regex.any)) (Regex.Seq (Regex.Plus is_space)
    (Regex.Seq (Regex.Grp 3 (Regex.Rep true not_percent)) (Regex.Seq (Regex.Rep true is_space)
    (Regex.Seq (Regex.Opt (Regex.Grp 4 (Regex.Seq (Regex.lit "%%") (Regex.Rep true Regex.any))))
      Regex.Eol)))))))).

Definition parse_line (line : string) : option (string * string * string) :=
  g ← Regex.search _RESULT_REGEX line;
  r ← Regex.group 1 g; n ← Regex.group 2 g; e ← Regex.group 3 g;
  Some (r, n, e).

(** ** Accumulating *)

(** [accumulate]; the type of the argument is the assertion. *)
Definition accumulate (name : string) (rd : dict ResultType val) : RM unit :=
  modify (λ s,
    let old := default [] (dget name (_repitems s)) in
    set_repitems (dset name (foldl (λ d '(k, v), dset k v d) old rd) (_repitems s)) s).

(** [_get_test_info] *)
Definition _get_test_info (name : string) : test_info :=
  default no_info (tests ← config_tests C; dget name tests).

(** [if x not in l: l.append(x)] *)
Definition add_absent (x : string) (l : list string) : list string :=
  if decide (x ∈ l) then l else l ++ [x].

Definition count_of (e r : string) (x : dict string (dict string Z)) : Z :=
  default 0 (d ← dget e x; dget r d).

(** [_accumulate_result].  The message of the assertion is a format without a
    place for its argument, so a repeated test raises [TypeError]. *)
Definition _accumulate_result (name res extra : string) (module : option string) : RM unit :=
  s ← getS;
  if dmem name (_results s) then raise TypeError else
  modify (λ s, set_result_headers (add_absent res (_result_headers s)) s);;
  let test_info := _get_test_info name in
  let category_name := default _DEFAULT_CATEGORY (category test_info) in
  modify (λ s, set_categories (add_absent category_name (_categories s)) s);;
  let expected_name := default _DEFAULT_EXPECTED (expected test_info) in
  modify (λ s, set_expected_headers (add_absent expected_name (_expected_headers s)) s);;
  modify (λ s,
    let exp := default [] (dget expected_name (_expecteds s)) in
    set_expecteds (dset expected_name (dset res (default 0 (dget res exp) + 1) exp)
      (_expecteds s)) s);;
  modify (λ s, set_results
    (dset name (mkTest res name module category_name expected_name extra) (_results s)) s).

(** The body of the loop over the lines of a module's report file. *)
Definition process_line (module : string) (line : string) : RM unit :=
  match parse_line line with
  | None => mret tt
  | Some (res, name, extra) =>
      _accumulate_result name res extra (Some module);;
      modify (λ s, set_modules
        (match dget module (modules s) with
         | Some o => dset module (mkOut (info o) (tests o ++ [name])) (modules s)
         | None => modules s
         end) s)
  end.

(** The entries of a module's results that go into the JSON document. *)
Definition module_info (rd : dict ResultType val) : dict string val :=
  omap (λ t, v ← dget t rd; Some (value t, v)) result_types.

(** The body of the loop over the modules. *)
Definition process_module (item : string * dict ResultType val) : RM unit :=
  let '(name, rd) := item in
  modify (λ s, set_modules (dset name (mkOut (module_info rd) []) (modules s)) s);;
  match dget REPORT_PATH rd with
  | None => mret tt
  | Some (VStr path) =>
      lines ← lift (of_option OtherException (read_lines path));
      for_each lines (process_line name)
  | Some _ => raise TypeError
  end.

Definition true_string (o : option string) : bool :=
  match o with Some s => negb (bool_decide (s = "")) | None => false end.

(** [_find_missing_test_results] *)
Definition find_missing (name : string) : RM unit :=
  s ← getS;
  whenM (true_string (required (_get_test_info name)) && negb (dmem name (_results s)))
    (_accumulate_result name _MISSING_TEST_RESULT "" None;;
     modify (λ s, set_missing (missing_tests s ++ [name]) s)).
Definition _find_missing_test_results : RM unit :=
  match config_tests C with
  | Some tests => for_each (dkeys tests) find_missing
  | None => mret tt
  end.

(** [_process_results] *)
Definition _process_results : RM unit :=
  modify (set_modules []);;
  s ← getS;
  for_each (_repitems s) process_module;;
  _find_missing_test_results.

(** ** The Markdown document *)

(** [_write] and [_writeln] *)
Definition _write (msg : string) : RM unit := modify (λ s, set_md (_file_md s +:+ msg) s).
Definition _writeln (msg : string) : RM unit := _write (msg +:+ nl).

(** [_append_file] *)
Definition _append_file (path : string) : RM unit :=
  _writeln "```";;
  lines ← lift (of_option OtherException (read_lines path));
  _write (join "" lines);;
  _writeln "```".

(** [_append_report_header] *)
Definition _append_report_header : RM unit :=
  base ← lift (of_option TypeError (site_path C));
  match render_template (base +:+ "/report_template.md") with
  | None => _writeln (_DEFAULT_HEADER (_clean_mac C))
  | Some (inl page) => _writeln page
  | Some (inr e) =>
      _writeln ("Report generation error: " +:+ e);;
      _writeln ("Failing data model:" +:+ nl +:+ config_text)
  end.

(** The two verdicts of [_analyse_and_write_results]. *)
Definition device_passes (s : Report) : bool :=
  forallb (λ '(name, r), match required (_get_test_info name) with
                         | Some x => bool_decide (r_result r = x)
                         | None => true
                         end) (_results s).
Definition some_gone (s : Report) : bool :=
  existsb (λ '(name, r), match required (_get_test_info name) with
                         | Some _ => bool_decide (r_result r = "gone")
                         | None => false
                         end) (_results s).

Definition gone_message : string :=
  "**Some tests report as GONE. Please check for possible misconfiguration**".

Definition _analyse_and_write_results : RM unit :=
  s ← getS;
  _writeln ("Overall device result " +:+ if device_passes s then "PASS" else "FAIL");;
  _writeln "";;
  whenM (some_gone s) (_writeln gone_message;; _writeln "").

(** *** The category table *)

(** [list.index] *)
Fixpoint index_of (x : string) (l : list string) : option nat :=
  match l with
  | [] => None
  | y :: l' => if decide (x = y) then Some O else S <$> index_of x l'
  end.

(** The column of a result in the cell of its expectation. *)
Definition cell_index (r : string) : nat :=
  if decide (r = "pass" ∨ r = "info") then 0%nat
  else if decide (r = "skip") then 2%nat else 1%nat.

Definition bump (i j : nat) (m : list (list Z)) : list (list Z) :=
  alter (alter (Z.add 1) j) i m.

(** The row under construction: total, matrix and rolling result. *)
Record row_state := mkRow { total : Z; matrix : list (list Z); verdict : string }.

(** One test in the row of [cat].  An [info] result that meets another rolling
    result becomes [pass] in the shared result dictionary. *)
Definition category_test (cat : string) (acc : row_state) (name : string) : RM row_state :=
  s ← getS;
  r ← lift (of_option KeyError (dget name (_results s)));
  let test_info := _get_test_info name in
  let category_name := default _DEFAULT_CATEGORY (category test_info) in
  if bool_decide (category_name = cat) && bool_decide (is_Some (required test_info)) then
    let expected_name := default _DEFAULT_EXPECTED (expected test_info) in
    i ← lift (of_option ValueError (index_of expected_name (_expected_headers s)));
    let m := bump i (cell_index (r_result r)) (matrix acc) in
    if decide (verdict acc = r_result r ∨ verdict acc = _NO_REQUIRED) then
      mret (mkRow (total acc + 1) m (r_result r))
    else if decide (r_result r = "info") then
      modify (λ s, set_results (dset name (set_result "pass" r) (_results s)) s);;
      mret (mkRow (total acc + 1) m (verdict acc))
    else mret (mkRow (total acc + 1) m "fail")
  else mret acc.

(** [_join_category_results] *)
Definition _join_category_results (l : list Z) : string := join "/" (str_int <$> l).

Definition empty_row (s : Report) : row_state :=
  mkRow 0 (map (λ _, [0; 0; 0]) (_expected_headers s)) _NO_REQUIRED.

Definition category_row (cat : string) : RM (list string) :=
  s ← getS;
  acc ← fold_each (category_test cat) (empty_row s) (dkeys (_results s));
  mret ([cat; str_int (total acc); upper (verdict acc)]
        ++ (_join_category_results <$> matrix acc)).

Definition make_table (hs : list string) (rs : list (list string)) : MdTable :=
  foldl (λ t r, add_row r t) (MdTable_init hs) rs.

(** [_write_category_table] *)
Definition _write_category_table : RM unit :=
  s ← getS;
  rs ← fold_each (λ rs cat, r ← category_row cat; mret (rs ++ [r])) [] (_categories s);
  _write (render (make_table (_CATEGORY_BASE_COLS ++ _expected_headers s) rs));;
  _writeln "Syntax: Pass / Fail / Skip".

(** [_write_expected_table] *)
Definition expected_row (s : Report) (e : string) : list string :=
  e :: map (λ r, str_int (count_of e r (_expecteds s))) (_result_headers s).
Definition _write_expected_table : RM unit :=
  s ← getS;
  _write (render (make_table (_EXPECTED_HEADER :: _result_headers s)
    (map (expected_row s) (_expected_headers s)))).

(** [_write_result_table] *)
Definition result_row (r : result) : list string :=
  [r_result r; test_name r; r_category r; r_expected r; result_description r].
Definition sorted_results (s : Report) : list result :=
  omap (λ k, dget k (_results s)) (sort_keys (dkeys (_results s))).
Definition _write_result_table : RM unit :=
  s ← getS;
  _write (render (make_table _SUMMARY_HEADERS (map result_row (sorted_results s)))).

(** [_write_test_tables] *)
Definition _write_test_tables : RM unit :=
  _write_category_table;; _writeln "";;
  _write_expected_table;; _writeln "";;
  _write_result_table;; _writeln "".

(** [_write_test_summary] *)
Definition _write_test_summary : RM unit :=
  _writeln (_TEST_SEPARATOR "Report summary");;
  _analyse_and_write_results;;
  _write_test_tables.

(** *** The modules *)

(** [writeln] of [_write_repitems]: the header of the module comes before its
    first line; the flag says whether it was written. *)
Definition module_writeln (name : string) (written : bool) (line : string) : RM bool :=
  whenM (negb written) (_writeln (_TEST_SEPARATOR ("Module " +:+ name)));;
  _writeln line;;
  mret true.

(** [get_test_config(module_configs, test_name)] of host.py *)
Definition get_test_config (config : val) (name : string) : res val :=
  m ← PyVal.getitem config "modules"; PyVal.get m name VNone.

Definition config_table (config : dict string val) : MdTable :=
  make_table ["Attribute"; "Value"] (map (λ '(k, v), [k; str_of v]) config).

Definition write_report_part (name : string) (rd : dict ResultType val) (w : bool) : RM bool :=
  match dget REPORT_PATH rd with
  | None => mret w
  | Some (VStr path) =>
      w ← module_writeln name w (_TEST_SUBHEADER "Report");
      _append_file path;;
      mret w
  | Some _ => raise TypeError
  end.

Definition write_config_part (name : string) (rd : dict ResultType val) (w : bool) : RM bool :=
  match dget MODULE_CONFIG rd with
  | None => mret w
  | Some configs =>
      config ← lift (get_test_config configs name);
      if PyVal.truth config then
        match config with
        | VDict d =>
            w ← module_writeln name w (_TEST_SUBHEADER "Module Config");
            _write (render (config_table d));;
            mret w
        | VList _ | VStr _ =>
            module_writeln name w (_TEST_SUBHEADER "Module Config");; raise AttributeError
        | _ => raise TypeError
        end
      else mret w
  end.

Definition write_exception_part (name : string) (rd : dict ResultType val) (w : bool) : RM bool :=
  match dget EXCEPTION rd with
  | Some e =>
      if PyVal.truth e then
        w ← module_writeln name w (_TEST_SUBHEADER "Exceptions");
        match e with
        | VStr x => module_writeln name w x
        | _ => raise TypeError
        end
      else mret w
  | None => mret w
  end.

(** [_write_repitems] *)
Definition write_repitem (item : string * dict ResultType val) : RM unit :=
  let '(name, rd) := item in
  w ← write_report_part name rd false;
  w ← write_config_part name rd w;
  write_exception_part name rd w;;
  mret tt.
Definition _write_repitems : RM unit :=
  s ← getS; for_each (_repitems s) write_repitem.

(** [_write_md_report] *)
Definition _write_md_report : RM unit :=
  modify (set_md "");;
  _append_report_header;;
  _write_test_summary;;
  _write_repitems;;
  _writeln (_TEST_SEPARATOR "Report complete");;
  modify (λ s, set_files (files s ++ [(_report_prefix C +:+ ".md", _file_md s)]) s).

(** ** The documents *)

(** What the JSON document says of the tests of a module. *)
Definition json_tests (s : Report) (o : module_out) : list (string * result) :=
  omap (λ n, r ← dget n (_results s); Some (n, r)) (tests o).

Definition extensions : list string := [".md"; ".pdf"; ".json"].

(** [finalize]: the paths of the documents; the results are in the state. *)
Definition finalize : RM (dict string string) :=
  s ← getS;
  assertM (negb (_finalized s));;
  modify (set_finalized true);;
  _process_results;;
  _write_md_report;;
  lift convert_pdf;;
  lift dump_json;;
  for_each extensions (λ e,
    match _alt_prefix C with
    | Some _ => lift (copy_file e)
    | None => mret tt
    end);;
  mret (map (λ e, ("report_path" +:+ e, _report_prefix C +:+ e)) extensions).

End report.
End Report.
