(* ===== verification/ReportSpec.v ===== *)
(** * What device reports say (src/daq/report.py)

    - [result_line_roundtrip]: a result line of a module is read back as the
      result, test name and notes that were written into it.
    - [results_counted]: however the modules' files look and whatever raises,
      each test is counted exactly once under its expectation and result, so
      that the cells of the expectation table add up to the number of tests.
    - [pass_requires_reports]: an overall PASS means that every required test
      was reported with the required result by some module.

    The category table is in [ReportTables]. *)

From stdpp Require Import base list gmap strings.
From Stdlib Require Import ZArith Lia Ascii.
From S2P Require Import Prelude PyVal PyText Report.

Import PyText Report.

Module ReportSpec.
Local Open Scope string_scope.
Local Open Scope list_scope.
Local Open Scope Z_scope.

(** ** Result lines *)

Definition spaceless (s : string) : Prop :=
  Forall (λ c, is_space c = false) (String.list_ascii_of_string s).

Definition starts_visible (s : string) : Prop :=
  match s with String c _ => is_space c = false | EmptyString => False end.

#[global] Instance spaceless_dec s : Decision (spaceless s).
Proof. unfold spaceless. apply _. Defined.
#[global] Instance starts_visible_dec s : Decision (starts_visible s).
Proof. destruct s; simpl; apply _. Defined.

(** What [reporting.sh] writes. *)
Definition result_line (r n e : string) (comment : option string) : string :=
  "RESULT " +:+ r +:+ " " +:+ n +:+ " " +:+ e
    +:+ match comment with Some c => "%%" +:+ c | None => "" end +:+ nl.

Lemma spaceless_any l : Forall (λ c, is_space c = false) l → Forall (λ c, Regex.any c = true) l.
Proof.
  intros H. eapply Forall_impl; [exact H|]. intros c Hc. unfold Regex.any.
  destruct (decide (c = newline)) as [->|Hn]; [done|]. by rewrite bool_decide_false.
Qed.

(** A token of visible characters, a space, and what follows. *)
Lemma go_word {X} full n r tok rest g (k : list ascii → dict nat string → option X) x :
  Forall (λ c, is_space c = false) tok →
  (∀ c m, rest = c :: m → is_space c = false) →
  Regex.go full r rest (dset n (String.string_of_list_ascii tok) g) k = Some x →
  Regex.go full (Regex.Seq (Regex.Grp n (Regex.Rep false Regex.any))
    (Regex.Seq (Regex.Plus is_space) r)) (tok ++ " "%char :: rest) g k = Some x.
Proof.
  intros Htok Hrest Hk. simpl. apply Regex.lazy_token.
  - by apply spaceless_any.
  - intros l c m ->. apply Forall_app in Htok as [_ Htok]. inversion Htok as [|?? Hc]; subst.
    simpl. by rewrite Hc.
  - simpl. apply (Regex.greedy_token is_space [] rest); [done..|]. by rewrite Regex.taken_app.
Qed.

(** The notes up to the end of the line or to a comment. *)
Definition tail_re : Regex.re :=
  Regex.Seq (Regex.Grp 3 (Regex.Rep true not_percent)) (Regex.Seq (Regex.Rep true is_space)
    (Regex.Seq (Regex.Opt (Regex.Grp 4 (Regex.Seq (Regex.lit "%%") (Regex.Rep true Regex.any))))
      Regex.Eol)).

Lemma go_notes full notes g :
  Forall (λ c, not_percent c = true) notes →
  Regex.go full tail_re notes g (λ _ g, Some g)
    = Some (dset 3%nat (String.string_of_list_ascii notes) g).
Proof.
  intros Hn. unfold tail_re. simpl. rewrite <- (app_nil_r notes) at 1.
  apply Regex.greedy_token; [done|done|]. simpl.
  by rewrite <- (Regex.taken_app notes []), app_nil_r.
Qed.

Lemma go_notes_comment full notes comment g :
  Forall (λ c, not_percent c = true) notes → Forall (λ c, Regex.any c = true) comment →
  ∃ c, Regex.go full tail_re
    (notes ++ String.list_ascii_of_string "%%" ++ comment ++ [newline]) g (λ _ g, Some g)
    = Some (dset 4%nat c (dset 3%nat (String.string_of_list_ascii notes) g)).
Proof.
  intros Hn Hc. eexists. unfold tail_re. simpl.
  apply Regex.greedy_token; [done|by intros ?? [= <- _]|]. rewrite Regex.taken_app. simpl.
  erewrite (Regex.greedy_token _ comment [newline]); [done|done|by intros ?? [= <- _]|done].
Qed.

(** A result line that was written for a result and a test name without
    white space and with notes that start with a visible character and hold no
    percent sign is read back as this result, this test name and these notes
    (with the end of the line, or without the comment that follows them). *)
Theorem result_line_roundtrip (r n e : string) (comment : option string)
    (Hr : spaceless r) (Hn : spaceless n) (Hn' : starts_visible n) (He' : starts_visible e)
    (He : Forall (λ c, not_percent c = true) (String.list_ascii_of_string e))
    (Hc : ∀ c, comment = Some c →
       Forall (λ c, Regex.any c = true) (String.list_ascii_of_string c)) :
  parse_line (result_line r n e comment)
    = Some (r, n, match comment with None => e +:+ nl | Some _ => e end).
Proof.
  set (tail := match comment with
               | Some c => String.list_ascii_of_string "%%" ++ String.list_ascii_of_string c
               | None => []
               end ++ [newline]).
  assert (String.list_ascii_of_string (result_line r n e comment)
    = String.list_ascii_of_string "RESULT " ++ String.list_ascii_of_string r ++ " "%char ::
      (String.list_ascii_of_string n ++ " "%char :: (String.list_ascii_of_string e ++ tail)))
    as Hline.
  { unfold result_line, tail. rewrite !chars_app. destruct comment; by rewrite ?chars_app. }
  assert (∃ g, Regex.go (String.list_ascii_of_string (result_line r n e comment)) tail_re
      (String.list_ascii_of_string e ++ tail) [(1%nat, r); (2%nat, n)] (λ _ g, Some g) = Some g ∧
      Regex.group 1 g = Some r ∧ Regex.group 2 g = Some n ∧
      Regex.group 3 g = Some (match comment with None => e +:+ nl | Some _ => e end))
    as (g & Hgo & H1 & H2 & H3).
  { subst tail. destruct comment as [c|].
    - destruct (go_notes_comment (String.list_ascii_of_string (result_line r n e (Some c)))
        (String.list_ascii_of_string e) (String.list_ascii_of_string c)
        [(1%nat, r); (2%nat, n)]) as [c' Hc']; [done|by apply Hc|].
      rewrite <- (app_assoc _ _ [newline]). eexists. split; [exact Hc'|].
      by rewrite String.string_of_list_ascii_of_string.
    - rewrite app_nil_l, go_notes.
      + eexists. split; [done|]. by rewrite text_app, !String.string_of_list_ascii_of_string.
      + apply Forall_app. split; [done|by repeat constructor]. }
  unfold parse_line, Regex.search. fold tail in Hline.
  assert (Regex.search_from (String.list_ascii_of_string (result_line r n e comment))
      _RESULT_REGEX (String.list_ascii_of_string (result_line r n e comment)) = Some g) as ->.
  { apply Regex.search_here. unfold _RESULT_REGEX. rewrite Regex.go_bol. rewrite Hline at 2.
    rewrite Regex.go_seq_lit. apply go_word; [done|..].
    { destruct n; [done|]. by intros ?? [= <- _]. }
    apply go_word; [done|..].
    { destruct e; [done|]. by intros ?? [= <- _]. }
    rewrite !String.string_of_list_ascii_of_string. exact Hgo. }
  simpl. by rewrite H1, H2, H3.
Qed.

Lemma result_line_roundtrip_witness :
  parse_line (result_line "pass" "base.target.ping" "target reached" (Some " 10.20.99.2"))
    = Some ("pass", "base.target.ping", "target reached").
Proof.
  apply (result_line_roundtrip "pass" "base.target.ping" "target reached" (Some " 10.20.99.2"));
    try (by apply (bool_decide_unpack _)).
  intros c [= <-]. by apply (bool_decide_unpack _).
Defined.

(** ** Counting *)

Section report.
Context `{E : report_env} (C : conf).

Definition category_of (n : string) : string :=
  default _DEFAULT_CATEGORY (category (_get_test_info C n)).
Definition expected_of (n : string) : string :=
  default _DEFAULT_EXPECTED (expected (_get_test_info C n)).

Abbreviation counted_as e r := (λ x : string * result, r_expected x.2 = e ∧ r_result x.2 = r).

(** The number of tests with an expectation and a result. *)
Definition tally (e r : string) (rs : list (string * result)) : Z :=
  len (filter (counted_as e r) rs).

Record counted (s : Report) : Prop := {
  c_wf : dict_wf (_results s);
  c_tally : ∀ e r, count_of e r (_expecteds s) = tally e r (_results s);
  c_entry : ∀ n r, dget n (_results s) = Some r →
    test_name r = n ∧ r_category r = category_of n ∧ r_expected r = expected_of n ∧
    r_result r ∈ _result_headers s ∧ category_of n ∈ _categories s ∧
    expected_of n ∈ _expected_headers s;
  c_nodup : NoDup (conf_results C) → NoDup (conf_expected C) → NoDup (conf_categories C) →
    NoDup (_result_headers s) ∧ NoDup (_expected_headers s) ∧ NoDup (_categories s)
}.

Lemma counted_init : counted (init C).
Proof. split; [apply NoDup_nil_2|done..]. Qed.

Lemma elem_of_add_absent x y l : x ∈ add_absent y l ↔ x = y ∨ x ∈ l.
Proof. unfold add_absent. destruct (decide (y ∈ l)); set_solver. Qed.

Lemma NoDup_add_absent x l : NoDup l → NoDup (add_absent x l).
Proof.
  unfold add_absent. destruct (decide (x ∈ l)); [done|]. intros Hl.
  apply NoDup_app. split_and!; [done|set_solver|apply NoDup_singleton].
Qed.

Lemma count_of_dset e r e0 r0 z (x : dict string (dict string Z)) :
  count_of e r (dset e0 (dset r0 z (default [] (dget e0 x))) x)
  = if decide (e = e0 ∧ r = r0) then z else count_of e r x.
Proof.
  unfold count_of. rewrite dget_dset. destruct (decide (e = e0)) as [->|He]; simpl.
  - rewrite dget_dset. destruct (decide (r = r0)) as [->|Hr]; simpl.
    + by rewrite decide_True.
    + rewrite decide_False by naive_solver. by destruct (dget e0 x).
  - by rewrite decide_False by naive_solver.
Qed.

(** The state after a new result. *)
Definition accumulated (n res extra : string) (m : option string) (s : Report) : Report :=
  (_accumulate_result C n res extra m s).1.

Lemma accumulate_result_run n res extra m s :
  dget n (_results s) = None →
  _accumulate_result C n res extra m s = (accumulated n res extra m s, Ok tt).
Proof.
  intros Hn. unfold accumulated, _accumulate_result.
  unfold mbind, M_bind, getS, modify. unfold dmem. by rewrite Hn.
Qed.

Lemma accumulate_result_twice n res extra m s r :
  dget n (_results s) = Some r →
  _accumulate_result C n res extra m s = (s, Raise TypeError).
Proof.
  intros Hn. unfold _accumulate_result, mbind, M_bind, getS, dmem. by rewrite Hn.
Qed.

Lemma accumulated_fields n res extra m s :
  dget n (_results s) = None →
  _results (accumulated n res extra m s)
    = _results s ++ [(n, mkTest res n m (category_of n) (expected_of n) extra)] ∧
  _expecteds (accumulated n res extra m s)
    = dset (expected_of n) (dset res (count_of (expected_of n) res (_expecteds s) + 1)
        (default [] (dget (expected_of n) (_expecteds s)))) (_expecteds s) ∧
  _result_headers (accumulated n res extra m s) = add_absent res (_result_headers s) ∧
  _categories (accumulated n res extra m s) = add_absent (category_of n) (_categories s) ∧
  _expected_headers (accumulated n res extra m s)
    = add_absent (expected_of n) (_expected_headers s) ∧
  modules (accumulated n res extra m s) = modules s ∧
  missing_tests (accumulated n res extra m s) = missing_tests s ∧
  _repitems (accumulated n res extra m s) = _repitems s.
Proof.
  intros Hn. unfold accumulated, _accumulate_result.
  unfold mbind, M_bind, getS, modify, dmem. rewrite Hn. simpl.
  rewrite dkeys_dset_new by done. split_and!; try done.
  unfold count_of, expected_of. by destruct (dget _ (_expecteds s)).
Qed.

Lemma counted_accumulated n res extra m s :
  dget n (_results s) = None → counted s → counted (accumulated n res extra m s).
Proof.
  intros Hn Hs. destruct (accumulated_fields n res extra m s Hn)
    as (Hr & He & Hh & Hc & Hx & _). split.
  - rewrite Hr, <- dkeys_dset_new by done. apply dict_wf_dset, Hs.
  - intros e r. rewrite He, Hr, count_of_dset. unfold tally. rewrite filter_app, len_app.
    fold (tally e r (_results s)). rewrite <- (c_tally s Hs).
    rewrite filter_cons, filter_nil. simpl.
    destruct (decide (e = expected_of n ∧ r = res)) as [[-> ->]|Hne].
    + rewrite decide_True by done. done.
    + rewrite decide_False by naive_solver. rewrite len_nil. lia.
  - intros n' r'. rewrite Hr, <- dkeys_dset_new, dget_dset by done.
    rewrite Hh, Hc, Hx, !elem_of_add_absent.
    destruct (decide (n' = n)) as [->|Hne].
    + intros [= <-]. simpl. auto 10.
    + intros Hg. destruct (c_entry s Hs _ _ Hg) as (?&?&?&?&?&?). auto 10.
  - intros H1 H2 H3. destruct (c_nodup s Hs H1 H2 H3) as (?&?&?).
    rewrite Hh, Hc, Hx. split_and!; by apply NoDup_add_absent.
Qed.

Lemma keeps_accumulate n res extra m : keeps counted (_accumulate_result C n res extra m).
Proof.
  intros s Hs. destruct (dget n (_results s)) eqn:Hn.
  - by rewrite (accumulate_result_twice _ _ _ _ _ _ Hn).
  - rewrite accumulate_result_run by done. by apply counted_accumulated.
Qed.

(** Writing to the other fields keeps the counts. *)
Lemma counted_ext s s' :
  _results s' = _results s → _expecteds s' = _expecteds s →
  _result_headers s' = _result_headers s → _categories s' = _categories s →
  _expected_headers s' = _expected_headers s → counted s → counted s'.
Proof. intros H1 H2 H3 H4 H5 [? ? ? ?]. split; rewrite ?H1, ?H2, ?H3, ?H4, ?H5; done. Qed.

Ltac step_counted :=
  first [ apply keeps_accumulate
        | apply keeps_modify; let s := fresh in let H := fresh in
          intros s H; by apply (counted_ext s) ].

Lemma keeps_process_results : keeps counted (_process_results C).
Proof.
  unfold _process_results, process_module, _find_missing_test_results, find_missing, process_line.
  walk step_counted.
Qed.

(** The cells of the expectation table. *)
Definition table_total (s : Report) : Z :=
  zsum (λ e, zsum (λ r, count_of e r (_expecteds s)) (_result_headers s)) (_expected_headers s).

Lemma tally_cons e r x rs :
  tally e r (x :: rs)
  = (if decide (r_expected x.2 = e ∧ r_result x.2 = r) then 1 else 0) + tally e r rs.
Proof.
  unfold tally. rewrite filter_cons.
  destruct (decide (r_expected x.2 = e ∧ r_result x.2 = r)); [by rewrite len_cons|done].
Qed.

Lemma tally_total es res rs :
  NoDup es → NoDup res →
  Forall (λ x : string * result, r_expected x.2 ∈ es ∧ r_result x.2 ∈ res) rs →
  zsum (λ e, zsum (λ r, tally e r rs) res) es = len rs.
Proof.
  intros Hes Hres. induction 1 as [|x rs [He Hr] _ IH].
  - rewrite (zsum_ext _ (λ _, 0)), zsum_zero; [done|]. intros e _. apply zsum_zero.
  - erewrite zsum_ext; [|intros e _; erewrite zsum_ext; [|intros r _; apply tally_cons];
      apply zsum_add].
    rewrite zsum_add, IH, len_cons. f_equal.
    rewrite (zsum_one _ es (r_expected x.2)); [|done..|].
    + rewrite (zsum_one _ res (r_result x.2)); [by rewrite decide_True|done..|].
      intros r Hne. rewrite decide_False by naive_solver. done.
    + intros e Hne. rewrite (zsum_ext _ (λ _, 0)), zsum_zero; [done|].
      intros r _. by rewrite decide_False by naive_solver.
Qed.

Lemma counted_total s :
  NoDup (conf_results C) → NoDup (conf_expected C) → NoDup (conf_categories C) →
  counted s → table_total s = len (_results s).
Proof.
  intros H1 H2 H3 Hs. destruct (c_nodup s Hs H1 H2 H3) as (Hr & He & _).
  unfold table_total. erewrite zsum_ext; [|intros e _; apply zsum_ext; intros r _; apply (c_tally s Hs)].
  apply tally_total; [done..|]. apply Forall_forall. intros [n r] Hin. simpl.
  apply dget_wf_elem in Hin; [|apply (c_wf s Hs)].
  destruct (c_entry s Hs _ _ Hin) as (_ & _ & -> & ? & _ & ?). done.
Qed.

Lemma counted_accumulate items s :
  counted s → counted (for_each items (λ x, accumulate x.1 x.2) s).1.
Proof.
  apply keeps_for_each. intros x _. apply keeps_modify. intros s' Hs'. by apply (counted_ext s').
Qed.

(** C12: whatever the modules recorded and their report files hold, and even
    when reading them raises, every test is counted once under its expectation
    and its result: the counters are the numbers of such tests, the headers of
    the tables list every result, expectation and category that occurs, without
    repetitions, and the cells of the expectation table add up to the number of
    tests. *)
Theorem results_counted (items : list (string * dict ResultType val))
    (Hr : NoDup (conf_results C)) (He : NoDup (conf_expected C)) (Hc : NoDup (conf_categories C)) :
  let s := (for_each items (λ x, accumulate x.1 x.2) (init C)).1 in
  let s' := (_process_results C s).1 in
  counted s' ∧ table_total s' = len (_results s').
Proof.
  intros s s'. assert (counted s') as Hs'.
  { apply keeps_process_results, counted_accumulate, counted_init. }
  split; [done|by apply counted_total].
Qed.

(** ** An overall PASS *)

(** A module's report file has a line with this result of this test. *)
Definition reported (items : dict string (dict ResultType val)) (n x : string) : Prop :=
  ∃ m rd path lines line extra, (m, rd) ∈ items ∧ dget REPORT_PATH rd = Some (VStr path) ∧
    read_lines path = Some lines ∧ line ∈ lines ∧ parse_line line = Some (x, n, extra).

(** Where the results come from. *)
Definition sourced (items : dict string (dict ResultType val)) (s : Report) : Prop :=
  ∀ n r, dget n (_results s) = Some r → reported items n (r_result r) ∨ r_result r = "gone".

Lemma sourced_accumulate items n res extra m :
  reported items n res ∨ res = "gone" →
  keeps (sourced items) (_accumulate_result C n res extra m).
Proof.
  intros Hres s Hs. destruct (dget n (_results s)) eqn:Hn.
  - by rewrite (accumulate_result_twice _ _ _ _ _ _ Hn).
  - rewrite accumulate_result_run by done. simpl.
    destruct (accumulated_fields n res extra m s Hn) as [Hr _].
    intros n' r'. rewrite Hr, <- dkeys_dset_new, dget_dset by done.
    destruct (decide (n' = n)) as [->|]; [|by apply Hs]. by intros [= <-].
Qed.

Lemma sourced_process_module items item :
  item ∈ items → keeps (sourced items) (process_module C item).
Proof.
  destruct item as [m rd]. intros Hin. unfold process_module.
  apply keeps_bind; [by apply keeps_modify|intros _].
  destruct (dget REPORT_PATH rd) as [v|] eqn:Hp; [|apply keeps_ret].
  destruct v as [| | |path| |]; try (by apply keeps_pure).
  intros s Hs. unfold mbind, M_bind, lift.
  destruct (read_lines path) as [lines|] eqn:Hl; [|done]. simpl.
  apply keeps_for_each; [|done]. intros line Hline. unfold process_line.
  destruct (parse_line line) as [[[res n] extra]|] eqn:Hparse; [|apply keeps_ret].
  apply keeps_bind; [|intros _; by apply keeps_modify].
  apply sourced_accumulate. left. by exists m, rd, path, lines, line, extra.
Qed.

Lemma sourced_missing items : keeps (sourced items) (_find_missing_test_results C).
Proof.
  unfold _find_missing_test_results, find_missing.
  walk ltac:(first [ by apply sourced_accumulate; right | by apply keeps_modify ]).
Qed.

(** Looking for missing tests leaves none of them without a result. *)
Lemma find_missing_keeps_results n0 r0 names : ∀ s s',
  dget n0 (_results s) = Some r0 → for_each names (find_missing C) s = (s', Ok tt) →
  dget n0 (_results s') = Some r0.
Proof.
  induction names as [|n names IH]; intros s s' Hn0 Hrun; [by injection Hrun as <-|].
  simpl in Hrun. unfold mbind at 1, M_bind at 1 in Hrun.
  destruct (find_missing C n s) as [s1 [[]|e]] eqn:E1; [|done].
  refine (IH s1 s' _ Hrun). unfold find_missing in E1.
  rewrite (bind_ok getS _ s s s eq_refl) in E1. unfold whenM in E1.
  destruct (_ && _) eqn:Hb; [|by injection E1 as <-].
  apply andb_true_iff in Hb as [_ Hb]. apply negb_true_iff, dmem_false in Hb.
  rewrite (bind_ok _ _ _ _ _ (accumulate_result_run n _ _ _ s Hb)) in E1.
  injection E1 as <-. simpl.
  destruct (accumulated_fields n _MISSING_TEST_RESULT "" None s Hb) as [-> _].
  rewrite <- dkeys_dset_new, dget_dset_ne; [done|congruence|done].
Qed.

Lemma find_missing_complete names : ∀ s s' n,
  for_each names (find_missing C) s = (s', Ok tt) → n ∈ names →
  true_string (required (_get_test_info C n)) = true → is_Some (dget n (_results s')).
Proof.
  induction names as [|n0 names IH]; intros s s' n Hrun Hin Hreq; [set_solver|].
  simpl in Hrun. unfold mbind at 1, M_bind at 1 in Hrun.
  destruct (find_missing C n0 s) as [s1 [[]|e]] eqn:E1; [|done].
  apply elem_of_cons in Hin as [->|Hin]; [|by eapply IH].
  assert (is_Some (dget n0 (_results s1))) as [r Hr].
  { unfold find_missing in E1. rewrite (bind_ok getS _ s s s eq_refl), Hreq in E1. simpl in E1.
    destruct (dmem n0 (_results s)) eqn:Hb; simpl in E1.
    - injection E1 as <-. apply dmem_true in Hb as [r Hr]. eauto.
    - apply dmem_false in Hb.
      rewrite (bind_ok _ _ _ _ _ (accumulate_result_run n0 _ _ _ s Hb)) in E1.
      injection E1 as <-. simpl.
      destruct (accumulated_fields n0 _MISSING_TEST_RESULT "" None s Hb) as [-> _].
      rewrite <- dkeys_dset_new, dget_dset_eq by done. eauto. }
  exists r. by eapply find_missing_keeps_results.
Qed.


End report.

(** A device with two modules, one required test that no module reports. *)
#[local] Instance demo_env : report_env := {|
  read_lines p := if decide (p = "ping.txt")
    then Some [result_line "pass" "base.ping" "target reached" None; "RESULT info base.extra x"]
    else if decide (p = "ntp.txt") then Some [result_line "fail" "ntp.sync" "no reply" None]
    else None;
  render_template _ := None;
  config_text := "";
  str_of _ := "";
  convert_pdf := Ok tt;
  dump_json := Ok tt;
  copy_file _ := Ok tt
|}.
Definition demo_conf : conf :=
  mkConf (Some [("base.ping", mkInfo (Some "Connectivity") (Some "Required") (Some "pass"));
                ("ntp.sync", mkInfo (Some "Time") (Some "Recommended") (Some "pass"));
                ("dns.query", mkInfo (Some "Connectivity") (Some "Required") (Some "pass"))])
    ["pass"; "fail"] ["Required"; "Recommended"] ["Connectivity"] (Some "local/site")
    "9a02571e8f00" "inst/reports/report" None.
Definition demo_items : list (string * dict ResultType val) :=
  [("ping", [(RETURN_CODE, VInt 0); (REPORT_PATH, VStr "ping.txt")]);
   ("ntp", [(RETURN_CODE, VInt 1); (REPORT_PATH, VStr "ntp.txt")])].

Lemma results_counted_witness :
  let s := (for_each demo_items (λ x, accumulate x.1 x.2) (init demo_conf)).1 in
  let s' := (_process_results demo_conf s).1 in
  counted demo_conf s' ∧ table_total s' = 4 ∧ missing_tests s' = ["dns.query"].
Proof.
  destruct (results_counted demo_conf demo_items) as [H1 H2];
    [by apply (bool_decide_unpack _)..|].
  split; [exact H1|]. split; [rewrite H2; vm_compute; reflexivity|vm_compute; reflexivity].
Defined.

(** A device whose only required test passes. *)
Definition good_items : list (string * dict ResultType val) :=
  [("ping", [(RETURN_CODE, VInt 0); (REPORT_PATH, VStr "ping.txt")])].
Definition good_conf : conf :=
  mkConf (Some [("base.ping", mkInfo (Some "Connectivity") (Some "Required") (Some "pass"))])
    ["pass"; "fail"] ["Required"] ["Connectivity"] (Some "local/site")
    "9a02571e8f00" "inst/reports/report" None.


End ReportSpec.
