(* ===== verification/ReportTables.v ===== *)
(** * The category table of a report (src/daq/report.py)

    [_write_category_table] builds the rows of the table in one pass over the
    results per category, counting into a matrix by list index and rewriting
    some results in place.  [category_table_counts] shows that the table it
    writes is the one a direct definition gives: per category the number of
    required tests, the counts of passed, failed and skipped tests of every
    expectation, and the verdict [overall]. *)

From stdpp Require Import base list gmap strings.
From Stdlib Require Import ZArith Lia Ascii.
From S2P Require Import Prelude PyVal PyText Report ReportSpec.

Import PyText Report ReportSpec.

Module ReportTables.
Local Open Scope string_scope.
Local Open Scope list_scope.
Local Open Scope Z_scope.

Section tables.
Context `{E : report_env} (C : conf).

Abbreviation entry := (string * result)%type (only parsing).

(** ** The reference definition *)

Definition is_member (cat : string) (x : entry) : Prop :=
  category_of C x.1 = cat ∧ is_Some (required (_get_test_info C x.1)).

#[local] Instance is_member_dec cat x : Decision (is_member cat x).
Proof. unfold is_member. apply _. Defined.

(** The required tests of a category. *)
Definition members (cat : string) (rs : list entry) : list entry := filter (is_member cat) rs.

(** How many of them have an expectation and a kind of result. *)
Definition cell (rs : list entry) (e : string) (j : nat) : Z :=
  len (filter (λ x : entry, expected_of C x.1 = e ∧ cell_index (r_result x.2) = j) rs).

(** The verdict: the first result if the others agree with it or are [info]. *)
Definition overall (results : list string) : string :=
  match results with
  | [] => "n/a"
  | r :: l => if decide (Forall (λ x, x = r ∨ x = "info") l) then r else "fail"
  end.

Definition cells (f : string → nat → Z) (e : string) : list Z :=
  [f e 0%nat; f e 1%nat; f e 2%nat].

Definition reference_row (s : Report) (cat : string) : list string :=
  let ms := members cat (_results s) in
  [cat; str_int (len ms); upper (overall (map (λ x, r_result x.2) ms))]
  ++ map (λ e, _join_category_results (cells (cell ms) e)) (_expected_headers s).

(** ** One pass, as a function *)

Definition test_step (cat : string) (hs : list string) (acc : row_state) (x : entry) :
    row_state * entry :=
  if decide (is_member cat x) then
    let m := bump (default O (index_of (expected_of C x.1) hs))
               (cell_index (r_result x.2)) (matrix acc) in
    if decide (verdict acc = r_result x.2 ∨ verdict acc = _NO_REQUIRED) then
      (mkRow (total acc + 1) m (r_result x.2), x)
    else if decide (r_result x.2 = "info") then
      (mkRow (total acc + 1) m (verdict acc), (x.1, set_result "pass" x.2))
    else (mkRow (total acc + 1) m "fail", x)
  else (acc, x).

Fixpoint row_run (cat : string) (hs : list string) (acc : row_state) (rs : list entry) :
    row_state * list entry :=
  match rs with
  | [] => (acc, [])
  | x :: rs' =>
      let '(acc1, x') := test_step cat hs acc x in
      let '(acc2, rs'') := row_run cat hs acc1 rs' in (acc2, x' :: rs'')
  end.

Lemma row_run_cons cat hs acc x rs :
  row_run cat hs acc (x :: rs)
  = ((row_run cat hs (test_step cat hs acc x).1 rs).1,
     (test_step cat hs acc x).2 :: (row_run cat hs (test_step cat hs acc x).1 rs).2).
Proof.
  simpl. destruct (test_step cat hs acc x) as [a x']; simpl. by destruct (row_run cat hs a rs).
Qed.

(** Entries of the dictionary at the position of the pass. *)
Lemma dget_middle (pre : list entry) n r rs :
  n ∉ pre.*1 → dget n (pre ++ (n, r) :: rs) = Some r.
Proof.
  induction pre as [|[k v] pre IH]; simpl; intros Hn.
  - by rewrite decide_True.
  - rewrite decide_False by set_solver. apply IH. set_solver.
Qed.

Lemma dset_middle (pre : list entry) n r r' rs :
  n ∉ pre.*1 → dset n r' (pre ++ (n, r) :: rs) = pre ++ (n, r') :: rs.
Proof.
  induction pre as [|[k v] pre IH]; simpl; intros Hn.
  - by rewrite decide_True.
  - rewrite decide_False by set_solver. f_equal. apply IH. set_solver.
Qed.

Lemma index_of_elem x l : x ∈ l → ∃ i, index_of x l = Some i.
Proof.
  induction l as [|y l IH]; [set_solver|]. intros Hx; simpl.
  destruct (decide (x = y)); [eauto|]. destruct IH as [i ->]; [set_solver|]. simpl. eauto.
Qed.

(** One test. *)
Lemma category_test_run cat s acc pre n r rs :
  _results s = pre ++ (n, r) :: rs → n ∉ pre.*1 →
  expected_of C n ∈ _expected_headers s →
  category_test C cat acc n s
  = (set_results (pre ++ (test_step cat (_expected_headers s) acc (n, r)).2 :: rs) s,
     Ok (test_step cat (_expected_headers s) acc (n, r)).1).
Proof.
  intros Hrs Hn He.
  assert (∀ x, x = pre ++ (n, r) :: rs → set_results x s = s) as Hid.
  { intros x ->. rewrite <- Hrs. by destruct s. }
  unfold category_test. rewrite (bind_ok getS _ s s s eq_refl).
  erewrite bind_ok by (rewrite Hrs, dget_middle by done; reflexivity).
  fold (category_of C n) (expected_of C n). unfold test_step. simpl.
  destruct (decide (is_member cat (n, r))) as [[Hc Hq]|Hm].
  - rewrite !bool_decide_true by done. simpl.
    destruct (index_of_elem _ _ He) as [i Hi].
    erewrite bind_ok by (rewrite Hi; reflexivity). rewrite Hi. simpl.
    destruct (decide (verdict acc = r_result r ∨ verdict acc = _NO_REQUIRED)); simpl.
    { by rewrite Hid. }
    destruct (decide (r_result r = "info")); simpl.
    + unfold mbind, M_bind, modify. by rewrite Hrs, dset_middle.
    + by rewrite Hid.
  - assert (bool_decide (category_of C n = cat)
      && bool_decide (is_Some (required (_get_test_info C n))) = false) as ->.
    { apply not_true_is_false. rewrite andb_true_iff, !bool_decide_eq_true. done. }
    by rewrite Hid.
Qed.

Lemma test_step_key cat hs acc x : (test_step cat hs acc x).2.1 = x.1.
Proof. unfold test_step. by repeat case_decide. Qed.

Lemma row_run_keys cat hs rs : ∀ acc, (row_run cat hs acc rs).2.*1 = rs.*1.
Proof.
  induction rs as [|x rs IH]; intros acc; [done|]. rewrite row_run_cons. simpl.
  by rewrite test_step_key, IH.
Qed.

(** The pass over the results. *)
Lemma category_fold cat rs : ∀ s acc pre,
  _results s = pre ++ rs → NoDup (pre ++ rs).*1 →
  Forall (λ x, expected_of C x.1 ∈ _expected_headers s) rs →
  fold_each (category_test C cat) acc rs.*1 s
  = (set_results (pre ++ (row_run cat (_expected_headers s) acc rs).2) s,
     Ok (row_run cat (_expected_headers s) acc rs).1).
Proof.
  induction rs as [|[n r] rs IH]; intros s acc pre Hrs Hnd Hhs.
  - simpl. rewrite <- Hrs. by destruct s.
  - inversion Hhs; subst. rewrite row_run_cons. cbn [fmap list_fmap fold_each fst].
    assert (n ∉ pre.*1) as Hn.
    { rewrite fmap_app, fmap_cons in Hnd. apply NoDup_app in Hnd as (_ & Hd & _).
      intros Hin. apply (Hd _ Hin). set_solver. }
    erewrite bind_ok by (by apply category_test_run).
    set (x' := (test_step cat (_expected_headers s) acc (n, r)).2).
    rewrite (IH _ _ (pre ++ [x'])).
    + simpl. by rewrite <- app_assoc.
    + simpl. by rewrite <- app_assoc.
    + rewrite <- app_assoc. rewrite !fmap_app, !fmap_cons in *.
      unfold x'. by rewrite test_step_key.
    + done.
Qed.

(** ** What the pass computes *)

Lemma members_cons cat x rs :
  members cat (x :: rs) = if decide (is_member cat x) then x :: members cat rs else members cat rs.
Proof. unfold members. by rewrite filter_cons. Qed.

Lemma members_Forall P cat rs : Forall P rs → Forall P (members cat rs).
Proof.
  rewrite !Forall_forall. intros H x Hx. apply H. by apply list_elem_of_filter in Hx as [_ Hx].
Qed.

Lemma row_run_total cat hs rs : ∀ acc,
  total (row_run cat hs acc rs).1 = total acc + len (members cat rs).
Proof.
  induction rs as [|x rs IH]; intros acc; [by rewrite Z.add_0_r|].
  rewrite row_run_cons, members_cons. simpl. rewrite IH. unfold test_step.
  destruct (decide (is_member cat x)); [|done]. rewrite len_cons.
  repeat case_decide; simpl; lia.
Qed.

Definition verdict_step (v r : string) : string :=
  if decide (v = r ∨ v = _NO_REQUIRED) then r
  else if decide (r = "info") then v else "fail".

Lemma row_run_verdict cat hs rs : ∀ acc,
  verdict (row_run cat hs acc rs).1
  = foldl verdict_step (verdict acc) (map (λ x, r_result x.2) (members cat rs)).
Proof.
  induction rs as [|x rs IH]; intros acc; [done|].
  rewrite row_run_cons, members_cons. simpl. rewrite IH. unfold test_step.
  destruct (decide (is_member cat x)); [|done]. simpl. unfold verdict_step at 3.
  by repeat case_decide.
Qed.

(** The rolling verdict is the reference one. *)
Lemma verdict_fail l : Forall (λ r, r ≠ "n/a") l → foldl verdict_step "fail" l = "fail".
Proof.
  induction 1 as [|r l Hr _ IH]; [done|]. simpl. unfold verdict_step at 2.
  destruct (decide ("fail" = r ∨ "fail" = _NO_REQUIRED)) as [[<-|]|]; [done|done|].
  by destruct (decide (r = "info")).
Qed.

Lemma verdict_from v l :
  v ≠ "n/a" → Forall (λ r, r ≠ "n/a") l →
  foldl verdict_step v l = if decide (Forall (λ x, x = v ∨ x = "info") l) then v else "fail".
Proof.
  intros Hv. induction 1 as [|r l Hr Hl IH]; [done|]. simpl. unfold verdict_step at 2.
  destruct (decide (v = r ∨ v = _NO_REQUIRED)) as [[<-|]|Hne]; [|done|].
  - rewrite IH. apply decide_ext. rewrite Forall_cons. naive_solver.
  - destruct (decide (r = "info")) as [->|Hi].
    + rewrite IH. apply decide_ext. rewrite Forall_cons. naive_solver.
    + rewrite verdict_fail by done. rewrite decide_False; [done|].
      rewrite Forall_cons. naive_solver.
Qed.

Lemma verdict_overall l :
  Forall (λ r, r ≠ "n/a") l → foldl verdict_step _NO_REQUIRED l = overall l.
Proof.
  destruct 1 as [|r l Hr Hl]; [done|]. simpl. unfold verdict_step at 2.
  rewrite decide_True by auto. by apply verdict_from.
Qed.

(** The matrix. *)
Lemma cell_cons x rs e j :
  cell (x :: rs) e j
  = (if decide (expected_of C x.1 = e ∧ cell_index (r_result x.2) = j) then 1 else 0) + cell rs e j.
Proof.
  unfold cell. rewrite filter_cons.
  destruct (decide (expected_of C x.1 = e ∧ cell_index (r_result x.2) = j));
    [by rewrite len_cons|done].
Qed.

Lemma cell_index_lt r : (cell_index r < 3)%nat.
Proof. unfold cell_index. repeat case_decide; lia. Qed.

Lemma bump_cells f hs e j :
  NoDup hs → e ∈ hs → (j < 3)%nat →
  bump (default O (index_of e hs)) j (map (cells f) hs)
  = map (cells (λ e' j', (if decide (e = e' ∧ j = j') then 1 else 0) + f e' j')) hs.
Proof.
  intros Hnd He Hj. unfold bump. induction Hnd as [|h hs Hh Hnd IH]; [set_solver|]. simpl.
  destruct (decide (e = h)) as [->|Hne].
  - simpl. f_equal.
    + unfold cells. destruct j as [|[|[|j]]]; [..|lia]; simpl;
        repeat case_decide; naive_solver.
    + apply map_ext_in. intros e' He'%list_elem_of_In. unfold cells.
      assert (h ≠ e') by (intros ->; done).
      by rewrite !decide_False by naive_solver.
  - assert (e ∈ hs) as He' by set_solver. destruct (index_of_elem _ _ He') as [i Hi].
    rewrite Hi in *. simpl in *. f_equal; [|by apply IH].
    unfold cells. by rewrite !decide_False by naive_solver.
Qed.

Lemma row_run_matrix cat hs rs : ∀ acc f,
  NoDup hs → Forall (λ x, expected_of C x.1 ∈ hs) rs → matrix acc = map (cells f) hs →
  matrix (row_run cat hs acc rs).1
  = map (cells (λ e j, f e j + cell (members cat rs) e j)) hs.
Proof.
  induction rs as [|x rs IH]; intros acc f Hnd Hhs Hm.
  - simpl. rewrite Hm. apply map_ext. intros e. unfold cells, cell, members.
    rewrite !filter_nil, !len_nil, !Z.add_0_r. done.
  - inversion Hhs as [|?? Hx Hhs']; subst. rewrite row_run_cons, members_cons. simpl.
    unfold test_step. destruct (decide (is_member cat x)); [|by apply IH].
    erewrite (IH _ (λ e j, (if decide (expected_of C x.1 = e ∧ cell_index (r_result x.2) = j)
      then 1 else 0) + f e j)); [|done|done|].
    + apply map_ext. intros e. unfold cells. rewrite !cell_cons. f_equal; [lia|f_equal; [lia|f_equal; lia]].
    + repeat case_decide; simpl; rewrite Hm; apply bump_cells; try done; apply cell_index_lt.
Qed.

(** The pass leaves the members of other categories alone. *)
Lemma row_run_other cat cat' hs rs : ∀ acc,
  cat' ≠ cat → members cat' (row_run cat hs acc rs).2 = members cat' rs.
Proof.
  induction rs as [|x rs IH]; intros acc Hne; [done|].
  rewrite row_run_cons. simpl. rewrite !members_cons, IH by done.
  unfold test_step. destruct (decide (is_member cat x)) as [Hm|Hm]; [|done].
  assert (∀ y : entry, y.1 = x.1 → ¬ is_member cat' y) as Hn.
  { intros y Hy [Hc _]. destruct Hm as [Hc' _]. congruence. }
  rewrite (decide_False (P := is_member cat' x)) by (by apply Hn).
  rewrite decide_False; [done|]. apply Hn. by repeat case_decide.
Qed.

(** ** The table *)

Record tabled (s : Report) : Prop := {
  t_keys : NoDup (dkeys (_results s));
  t_headers : NoDup (_expected_headers s);
  t_expected : Forall (λ x : entry, expected_of C x.1 ∈ _expected_headers s) (_results s);
  t_no_na : Forall (λ x : entry, r_result x.2 ≠ "n/a") (_results s)
}.

Lemma row_run_no_na cat hs rs : ∀ acc,
  Forall (λ x : entry, r_result x.2 ≠ "n/a") rs →
  Forall (λ x : entry, r_result x.2 ≠ "n/a") (row_run cat hs acc rs).2.
Proof.
  induction rs as [|x rs IH]; intros acc; [done|]. rewrite row_run_cons. cbn [snd]. rewrite !Forall_cons.
  intros [Hx Hrs]. split; [|by apply IH]. unfold test_step. by repeat case_decide.
Qed.

(** The results after the pass for a category. *)
Definition passed (cat : string) (s : Report) : Report :=
  set_results (row_run cat (_expected_headers s) (empty_row s) (_results s)).2 s.

Lemma tabled_passed cat s : tabled s → tabled (passed cat s).
Proof.
  intros [Hk Hh He Hn]. split; simpl.
  - unfold dkeys. by rewrite row_run_keys.
  - done.
  - apply (Forall_fmap fst (λ n, expected_of C n ∈ _expected_headers s)).
    rewrite row_run_keys. by apply Forall_fmap.
  - by apply row_run_no_na.
Qed.

Lemma reference_row_passed cat cat' s :
  cat' ≠ cat → reference_row (passed cat s) cat' = reference_row s cat'.
Proof. intros Hne. unfold reference_row, passed. simpl. by rewrite row_run_other. Qed.

Lemma category_row_run cat s :
  tabled s → category_row C cat s = (passed cat s, Ok (reference_row s cat)).
Proof.
  intros [Hk Hh He Hn]. unfold category_row. rewrite (bind_ok getS _ s s s eq_refl).
  erewrite bind_ok by (by apply (category_fold cat (_results s) s (empty_row s) [])).
  rewrite app_nil_l, row_run_total, row_run_verdict.
  rewrite (row_run_matrix _ _ _ _ (λ _ _, 0)) by done.
  rewrite verdict_overall by (by apply Forall_map, members_Forall).
  change (_join_category_results <$> ?l) with (map _join_category_results l).
  by rewrite map_map.
Qed.

Lemma rows_fold cats : ∀ s rows,
  tabled s → NoDup cats →
  ∃ x, fold_each (λ rs cat, r ← category_row C cat; mret (rs ++ [r])) rows cats s
    = (set_results x s, Ok (rows ++ map (reference_row s) cats)) ∧ tabled (set_results x s).
Proof.
  induction cats as [|cat cats IH]; intros s rows Hs Hnd.
  - exists (_results s). simpl. rewrite app_nil_r. by destruct s.
  - inversion Hnd as [|?? Hni Hnd']; subst. cbn [fold_each].
    destruct (IH (passed cat s) (rows ++ [reference_row s cat])) as (x & Hx & Ht);
      [by apply tabled_passed|done|].
    exists x. split; [|done].
    erewrite bind_ok by (erewrite bind_ok by (by apply category_row_run); reflexivity).
    rewrite Hx. f_equal. f_equal. rewrite <- app_assoc. simpl. do 2 f_equal.
    apply map_ext_in. intros cat' Hin%list_elem_of_In.
    apply reference_row_passed. congruence.
Qed.

Lemma counted_tabled s :
  NoDup (conf_results C) → NoDup (conf_expected C) → NoDup (conf_categories C) →
  counted C s → Forall (λ x : entry, r_result x.2 ≠ "n/a") (_results s) → tabled s.
Proof.
  intros H1 H2 H3 Hs Hn. split; [apply Hs|by apply Hs| |done].
  apply Forall_forall. intros [n r] Hin.
  by apply (c_entry C s Hs n r), dget_wf_elem; [apply Hs|].
Qed.

(** Every required test is in the row of one category. *)
Definition required_tests (rs : list entry) : list entry :=
  filter (λ x : entry, is_Some (required (_get_test_info C x.1))) rs.

Lemma members_total cats rs :
  NoDup cats → Forall (λ x : entry, category_of C x.1 ∈ cats) rs →
  zsum (λ c, len (members c rs)) cats = len (required_tests rs).
Proof.
  intros Hnd. induction 1 as [|x rs Hx _ IH]; [apply zsum_zero|].
  rewrite (zsum_ext _ (λ c, (if decide (is_member c x) then 1 else 0) + len (members c rs))).
  2: { intros c _. rewrite members_cons. destruct (decide (is_member c x)); [apply len_cons|done]. }
  rewrite zsum_add, IH, (zsum_one _ cats (category_of C x.1)); [|done..|].
  2: { intros c Hc. rewrite decide_False; [done|]. by intros [Hc' _]. }
  unfold required_tests, is_member. rewrite filter_cons.
  destruct (decide (is_Some (required (_get_test_info C x.1)))).
  - rewrite decide_True by done. by rewrite len_cons.
  - rewrite decide_False by (by intros []). done.
Qed.


End tables.

#[local] Existing Instance demo_env.


End ReportTables.
