(* ===== verification/CombineReports.v ===== *)
(** * Combined reports (src/bin/python/combine_reports.py)

    The script that adds up the JSON reports of one device: it selects report
    files by the time in their names ([_get_local_reports]), counts results by
    test and by category ([main]) and writes tables ([_render_results]).

    - Documents are values of [PyVal].  A key that is no string makes the script
      raise [TypeError] while it counts or while it renders, before anything is
      written; the model raises when it meets the key.
    - The directory and its files, and the reports the cloud gives, are
      parameters.  The device is a MAC address, whose characters stand for
      themselves in a regular expression.
    - Times are dates without a time zone ([_convert_iso] drops it). *)

From stdpp Require Import base list gmap strings sorting.
From Stdlib Require Import ZArith Lia Ascii Sorted.
From S2P Require Import Prelude PyVal PyText PyTime Report.

Import PyText PyTime.

Module CombineReports.
Local Open Scope string_scope.
Local Open Scope list_scope.
Local Open Scope Z_scope.

(** [_iso_to_fname]; a time is always true. *)
Definition _iso_to_fname (t : option datetime) : option string :=
  remove_char ":" ∘ isoformat "T" <$> t.

(** [str] of an optional time, and of an optional string *)
Definition str_time (t : option datetime) : string := default "None" (isoformat " " <$> t).
Definition str_opt (s : option string) : string := default "None" s.

(** ** Local reports *)

Definition is_char (d : ascii) (c : ascii) : bool := bool_decide (c = d).

(** [report_re] *)
Definition stamp_classes : list (ascii → bool) :=
  replicate 4 is_digit ++ [is_char "-"] ++ replicate 2 is_digit ++ [is_char "-"]
  ++ replicate 2 is_digit ++ [is_char "T"] ++ replicate 6 is_digit.
Definition report_re (device : string) : Regex.re :=
  Regex.Seq Regex.Bol (Regex.Seq (Regex.lit ("report_" +:+ device +:+ "_"))
    (Regex.Seq (Regex.Grp 1 (Regex.classes stamp_classes))
      (Regex.Seq (Regex.lit ".json") Regex.Eol))).
Definition stamp_of (device file : string) : option string :=
  g ← Regex.search (report_re device) file; Regex.group 1 g.

Definition in_window (start end_ : option string) (stamp : string) : bool :=
  negb (match start with Some s => String.ltb stamp s | None => false end
        || match end_ with Some e => String.ltb e stamp | None => false end).

(** The names of the files [_get_local_reports] reads, in order. *)
Definition local_files (listing : list string) (device : string) (start end_ : option datetime)
    (count : Z) : list string :=
  let json_files := filter (λ f, is_Some (stamp_of device f)) listing in
  let json_files := rev (sort_keys json_files) in
  let json_files :=
    if negb (count =? 0) && (count <? len json_files) then slice_to count json_files
    else json_files in
  filter (λ f, match stamp_of device f with
               | Some stamp => in_window (_iso_to_fname start) (_iso_to_fname end_) stamp
               | None => false
               end = true) json_files.

(** ** Counting *)

Record aggregate := mkAggregate {
  a_tests : dict string (dict string Z);
  a_categories : dict string (dict string Z);
  a_missing : dict string Z;
  a_reports : list string
}.

Definition empty : aggregate := mkAggregate [] [] [] [].

(** [d.setdefault(k, 0); d[k] += 1], and the same in a nested dictionary *)
Definition bump (k : string) (d : dict string Z) : dict string Z :=
  dset k (default 0 (dget k d) + 1) d.
Definition tally (k r : string) (d : dict string (dict string Z)) : dict string (dict string Z) :=
  dset k (bump r (default [] (dget k d))) d.

Definition key (v : val) : res string :=
  match v with VStr s => Ok s | _ => Raise TypeError end.

(** [d.items()] *)
Definition items (v : val) : res (list (string * val)) :=
  match v with VDict d => Ok d | _ => Raise AttributeError end.

Fixpoint fold_res {A B} (f : B → A → res B) (b : B) (l : list A) : res B :=
  match l with [] => Ok b | x :: l' => b' ← f b x; fold_res f b' l' end.

(** The bodies of the nested loops of [main] *)
Definition add_test (a : aggregate) (item : string * val) : res aggregate :=
  result ← (PyVal.get item.2 "result" VNone ≫= key);
  category ← (PyVal.get item.2 "category" VNone ≫= key);
  Ok (mkAggregate (tally item.1 result (a_tests a)) (tally category result (a_categories a))
        (a_missing a) (a_reports a)).
Definition add_module (a : aggregate) (item : string * val) : res aggregate :=
  tests ← (PyVal.get item.2 "tests" (VDict []) ≫= items);
  fold_res add_test a tests.
Definition add_missing (a : aggregate) (test : val) : res aggregate :=
  t ← key test;
  Ok (mkAggregate (a_tests a) (a_categories a) (bump t (a_missing a)) (a_reports a)).
Definition add_report (a : aggregate) (report : val) : res aggregate :=
  stamp ← (PyVal.getitem report "timestamp" ≫= key);
  let a := mkAggregate (a_tests a) (a_categories a) (a_missing a)
             (Report.add_absent stamp (a_reports a)) in
  missing ← (PyVal.get report "missing_tests" (VList []) ≫= PyVal.iter);
  a ← fold_res add_missing a missing;
  modules ← (PyVal.get report "modules" (VDict []) ≫= items);
  fold_res add_module a modules.

(** ** Rendering *)

(** [_reduce_labels] *)
Definition _reduce_labels (sets : list (list string)) : list string :=
  sort_keys (remove_dups (concat sets)).

(** A table of counts, or of nothing *)
Definition count_table (title : string) (d : dict string (dict string Z)) : Report.MdTable :=
  let labels := _reduce_labels (dkeys <$> dvals d) in
  Report.make_table (title :: labels)
    (if bool_decide (d = []) then [["No results"]]
     else (λ '(k, r), k :: ((λ l, str_int (default 0 (dget l r))) <$> labels)) <$> d).

Definition missing_table (d : dict string Z) : Report.MdTable :=
  Report.make_table ["missing tests"; "count"]
    (if bool_decide (d = []) then [["None"]]
     else (λ t, [t; str_int (default 0 (dget t d))]) <$> sort_keys (dkeys d)).

Definition reports_table (l : list string) : Report.MdTable :=
  Report.make_table ["reports"] ((λ r, [r]) <$> sort_keys l).

(** [_render_results] *)
Definition _render_results (a : aggregate) : string :=
  join nl (Report.render <$>
    [count_table "test" (a_tests a); count_table "categories" (a_categories a);
     missing_table (a_missing a); reports_table (a_reports a)]).

(** ** The script *)

(** [":".join([device[i:i + 2] for i in range(0, len(device), 2)])] *)
Fixpoint pairs (l : list ascii) : list string :=
  match l with
  | [] => []
  | [a] => [String.string_of_list_ascii [a]]
  | a :: b :: l' => String.string_of_list_ascii [a; b] :: pairs l'
  end.

(** Where the reports come from. *)
Inductive source :=
  | Gcp (get_reports : string → res (list val))
  | Local (listing : list string) (load : string → res val).

Definition report_source (src : source) : string :=
  match src with Gcp _ => "gcp" | Local _ _ => "local" end.

Definition find_reports (src : source) (device : string) (start end_ : option datetime)
    (count : Z) (run_id : option string) : res (list val) :=
  match src with
  | Gcp get_reports => get_reports (join ":" (pairs (String.list_ascii_of_string device)))
  | Local listing load =>
      _ ← guard_res (negb (Report.true_string run_id)) AssertionError;
      fold_res (λ l f, v ← load f; Ok (l ++ [v])) []
        (local_files listing device start end_ count)
  end.

(** [main]; the state is the list of files it has written. *)
Definition main (dev : string) (start end_ : option datetime) (src : source) (reports_dir : string)
    (count : Z) (run_id : option string) : M (list (string * string)) unit :=
  let device := lower (remove_char ":" dev) in
  json_reports ← lift (find_reports src device start end_ count run_id);
  a ← lift (fold_res add_report empty json_reports);
  let path := reports_dir +:+ "/combo_" +:+ device +:+ "_" +:+ str_opt (_iso_to_fname start)
                +:+ "_" +:+ str_opt (_iso_to_fname end_) +:+ ".md" in
  let text := "# Combined Results" +:+ nl +:+ "Device: " +:+ device +:+ nl
                +:+ "Start: " +:+ str_time start +:+ nl +:+ "End: " +:+ str_time end_ +:+ nl
                +:+ "Source: " +:+ report_source src +:+ nl +:+ nl +:+ _render_results a in
  modify (λ files, files ++ [(path, text)]);;
  assertM ((count =? 0) || (count =? len json_reports)).

(** ** The reference: reports as plain data *)

Record outcome := mkOutcome { o_test : string; o_category : string; o_result : string }.
Record report := mkDoc {
  timestamp : string;
  missing : list string;
  modules : list (string * list outcome)
}.

Definition test_json (o : outcome) : string * val :=
  (o_test o, VDict [("result", VStr (o_result o)); ("category", VStr (o_category o))]).
Definition module_json (m : string * list outcome) : string * val :=
  (m.1, VDict [("tests", VDict (test_json <$> m.2))]).
Definition to_json (r : report) : val :=
  VDict [("modules", VDict (module_json <$> modules r)); ("timestamp", VStr (timestamp r));
         ("missing_tests", VList (VStr <$> missing r))].

Definition outcomes (r : report) : list outcome := modules r ≫= snd.

(** How many elements satisfy [p] *)
Definition count_if {A} (p : A → Prop) `{!∀ x, Decision (p x)} (l : list A) : Z := len (filter p l).

(** The sum of all cells of a table *)
Definition total (d : dict string (dict string Z)) : Z :=
  zsum (λ x : string * dict string Z, zsum snd x.2) d.

(** The aggregate counts [os], [ms] and the reports [rs]. *)
Record counts (a : aggregate) (os : list outcome) (ms rs : list string) : Prop := {
  counts_tests : ∀ t r, Report.count_of t r (a_tests a)
    = count_if (λ o, o_test o = t ∧ o_result o = r) os;
  counts_categories : ∀ c r, Report.count_of c r (a_categories a)
    = count_if (λ o, o_category o = c ∧ o_result o = r) os;
  counts_missing : ∀ t, default 0 (dget t (a_missing a)) = count_if (λ x, x = t) ms;
  counts_reports : ∀ x, x ∈ a_reports a ↔ x ∈ rs;
  counts_keys : ∀ t, t ∈ dkeys (a_tests a) ↔ ∃ o, o ∈ os ∧ o_test o = t;
  counts_labels : ∀ r, r ∈ _reduce_labels (dkeys <$> dvals (a_tests a)) ↔ ∃ o, o ∈ os ∧ o_result o = r;
  counts_total : total (a_tests a) = len os ∧ total (a_categories a) = len os
}.

(** ** Counting is exact *)

Lemma count_if_app {A} (p : A → Prop) `{!∀ x, Decision (p x)} l l' :
  count_if p (l ++ l') = count_if p l + count_if p l'.
Proof. unfold count_if. by rewrite filter_app, len_app. Qed.

Lemma count_if_one {A} (p : A → Prop) `{!∀ x, Decision (p x)} x :
  count_if p [x] = if decide (p x) then 1 else 0.
Proof. unfold count_if. rewrite filter_cons, filter_nil. by case_decide. Qed.

Lemma dget_bump k k' d :
  default 0 (dget k (bump k' d)) = default 0 (dget k d) + if decide (k' = k) then 1 else 0.
Proof.
  unfold bump. rewrite dget_dset. repeat case_decide; simplify_eq/=; [done|]. lia.
Qed.

Lemma count_tally t r k x d :
  Report.count_of t r (tally k x d)
  = Report.count_of t r d + if decide (k = t ∧ x = r) then 1 else 0.
Proof.
  unfold Report.count_of, tally. rewrite dget_dset. destruct (decide (t = k)) as [->|Hne].
  - pose proof (dget_bump r x (default [] (dget k d))) as H. simpl.
    destruct (dget k d) as [e|]; simpl in *; rewrite H; repeat case_decide; naive_solver.
  - rewrite (decide_False (P := k = t ∧ x = r)) by naive_solver. lia.
Qed.

Lemma zsum_dset (d : dict string Z) k v v' :
  dget k d = Some v → zsum snd (dset k v' d) = zsum snd d + (v' - v).
Proof.
  induction d as [|[k' w] d IH]; simpl; [done|]. case_decide; intros; simplify_eq/=; [lia|].
  rewrite IH by done. lia.
Qed.

Lemma zsum_app {A} (f : A → Z) l l' : zsum f (l ++ l') = zsum f l + zsum f l'.
Proof. induction l; simpl; [done|]. lia. Qed.

Lemma zsum_bump k d : zsum snd (bump k d) = zsum snd d + 1.
Proof.
  unfold bump. destruct (dget k d) as [v|] eqn:E; simpl.
  - rewrite (zsum_dset _ _ v) by done. lia.
  - rewrite dkeys_dset_new, zsum_app by done. simpl. lia.
Qed.

Lemma total_tally k r d : total (tally k r d) = total d + 1.
Proof.
  unfold total, tally. induction d as [|[k' e] d IH]; simpl.
  - done.
  - case_decide; simplify_eq/=; [rewrite zsum_bump; lia|]. rewrite IH. lia.
Qed.

Lemma labels_tally k r d x :
  x ∈ _reduce_labels (dkeys <$> dvals (tally k r d)) ↔
  x = r ∨ x ∈ _reduce_labels (dkeys <$> dvals d).
Proof.
  unfold _reduce_labels, tally. rewrite !elem_of_sort_keys, !elem_of_remove_dups.
  induction d as [|[k' e] d IH]; simpl.
  - set_solver.
  - unfold dvals in *. case_decide; simplify_eq/=; rewrite !elem_of_app;
      [unfold bump; rewrite dkeys_dset; naive_solver|]. rewrite IH. naive_solver.
Qed.

Lemma add_absent_elem x y l : y ∈ Report.add_absent x l ↔ y = x ∨ y ∈ l.
Proof. unfold Report.add_absent. case_decide; set_solver. Qed.

(** An operation that adds [dos] and [dms] to what is counted *)
Definition adds (r : aggregate → res aggregate) (dos : list outcome) (dms drs : list string) : Prop :=
  ∀ a os ms rs, counts a os ms rs →
    ∃ a', r a = Ok a' ∧ counts a' (os ++ dos) (ms ++ dms) (rs ++ drs).

Lemma adds_fold {A} (f : aggregate → A → res aggregate) (l : list A) dos dms :
  (∀ x, x ∈ l → adds (λ a, f a x) (dos x) (dms x) []) →
  adds (λ a, fold_res f a l) (l ≫= dos) (l ≫= dms) [].
Proof.
  induction l as [|x l IH]; intros Hf a os ms rs Ha; simpl.
  - rewrite !app_nil_r. eauto.
  - destruct (Hf x ltac:(set_solver) a os ms rs Ha) as (a1 & -> & H1). simpl.
    destruct (IH ltac:(set_solver) a1 _ _ _ H1) as (a2 & -> & H2).
    exists a2. split; [done|]. by rewrite !app_nil_r, !(assoc_L (++)) in *.
Qed.

Lemma add_test_adds o : adds (λ a, add_test a (test_json o)) [o] [] [].
Proof.
  intros a os ms rs [Ht Hc Hm Hr Hk Hl [Htt Htc]]. eexists; split; [done|]. rewrite !app_nil_r.
  constructor; simpl.
  - intros t r. by rewrite count_tally, Ht, count_if_app, count_if_one.
  - intros c r. by rewrite count_tally, Hc, count_if_app, count_if_one.
  - done.
  - done.
  - intros t. unfold tally. rewrite dkeys_dset, Hk. setoid_rewrite elem_of_app.
    setoid_rewrite list_elem_of_singleton. naive_solver.
  - intros r. rewrite labels_tally, Hl. setoid_rewrite elem_of_app.
    setoid_rewrite list_elem_of_singleton. naive_solver.
  - rewrite !total_tally, len_app, len_cons, len_nil. lia.
Qed.

Lemma add_missing_adds t : adds (λ a, add_missing a (VStr t)) [] [t] [].
Proof.
  intros a os ms rs [Ht Hc Hm Hr Hk Hl Htot]. eexists; split; [done|]. rewrite !app_nil_r.
  constructor; simpl; try done.
  intros x. by rewrite dget_bump, Hm, count_if_app, count_if_one.
Qed.

Lemma fold_res_fmap {A B C} (f : C → B → res C) (g : A → B) l : ∀ c,
  fold_res f c (g <$> l) = fold_res (λ c x, f c (g x)) c l.
Proof.
  induction l as [|x l IH]; intros c; simpl; [done|]. by destruct (f c (g x)); simpl.
Qed.

Lemma bind_single {A} (l : list A) : l ≫= (λ x, [x]) = l.
Proof. induction l as [|x l IH]; simpl; [done|by f_equal]. Qed.

Lemma bind_empty {A B} (l : list A) : l ≫= (λ _, []) = @nil B.
Proof. by induction l. Qed.

Lemma add_module_adds m : adds (λ a, add_module a (module_json m)) m.2 [] [].
Proof.
  intros a os ms rs Ha. unfold add_module, module_json. simpl. rewrite fold_res_fmap.
  pose proof (adds_fold (λ a o, add_test a (test_json o)) m.2 (λ o, [o]) (λ _, [])
    (λ o _, add_test_adds o) a os ms rs Ha) as H.
  by rewrite bind_single, bind_empty in H.
Qed.

Lemma add_report_adds r :
  adds (λ a, add_report a (to_json r)) (outcomes r) (missing r) [timestamp r].
Proof.
  intros a os ms rs [Ht Hc Hm Hr Hk Hl Htot]. unfold add_report. simpl. rewrite fold_res_fmap.
  destruct (adds_fold (λ a x, add_missing a (VStr x)) (missing r) (λ _, []) (λ x, [x])
    (λ x _, add_missing_adds x)
    (mkAggregate (a_tests a) (a_categories a) (a_missing a)
       (Report.add_absent (timestamp r) (a_reports a))) os ms (rs ++ [timestamp r]))
    as (a1 & -> & H1).
  { constructor; simpl; try done. intros x. rewrite add_absent_elem, Hr. set_solver. }
  simpl. rewrite fold_res_fmap. rewrite bind_single, bind_empty, !app_nil_r in H1.
  destruct (adds_fold (λ a m, add_module a (module_json m)) (modules r) snd (λ _, [])
    (λ m _, add_module_adds m) a1 _ _ _ H1) as (a2 & -> & H2).
  exists a2. split; [done|]. by rewrite bind_empty, !app_nil_r in H2.
Qed.

Lemma counts_empty : counts empty [] [] [].
Proof. constructor; try done; unfold count_if; simpl; set_solver. Qed.

Lemma add_reports_adds docs :
  adds (λ a, fold_res (λ a r, add_report a (to_json r)) a docs)
    (docs ≫= outcomes) (docs ≫= missing) (timestamp <$> docs).
Proof.
  induction docs as [|r docs IH]; intros a os ms rs Ha; simpl.
  - rewrite !app_nil_r. eauto.
  - destruct (add_report_adds r a os ms rs Ha) as (a1 & -> & H1). simpl.
    destruct (IH _ _ _ _ H1) as (a2 & -> & H2). exists a2. split; [done|].
    by rewrite <- !(assoc_L (++)) in H2.
Qed.

(** The combined report counts exactly.  Whatever reports are added up, the
    aggregation succeeds; the cell of every test (and of every category) and
    result is the number of outcomes with them over all modules of all reports,
    the missing tests are counted, every report is listed, the rows are the
    tests and the columns the results that occur, and both tables add up to the
    number of outcomes. *)
Theorem combined_counts (docs : list report) :
  ∃ a, fold_res add_report empty (to_json <$> docs) = Ok a ∧
    counts a (docs ≫= outcomes) (docs ≫= missing) (timestamp <$> docs).
Proof.
  rewrite fold_res_fmap. apply (add_reports_adds docs empty [] [] []), counts_empty.
Qed.

(** ** The order of times is the order of their names *)

Definition file_name (device : string) (t : datetime) : string :=
  "report_" +:+ device +:+ "_" +:+ remove_char ":" (isoformat "T" t) +:+ ".json".

(** The characters of a stamp *)
Definition stamp_body (t : datetime) : list ascii :=
  padded 4 (year t) ++ ["-"%char] ++ padded 2 (month t) ++ ["-"%char] ++ padded 2 (day t)
  ++ ["T"%char] ++ padded 2 (hour t) ++ padded 2 (minute t) ++ padded 2 (second t).
Definition stamp_chars (t : datetime) : list ascii := stamp_body t ++ fraction t.

#[local] Arguments padded : simpl never.

Lemma filter_fraction t : filter (λ x, x ≠ ":"%char) (fraction t) = fraction t.
Proof.
  unfold fraction. case_match; [done|].
  by rewrite filter_app, (filter_digits _ (padded _ _)) by (done || apply padded_digits).
Qed.

Lemma stamp_eq t :
  remove_char ":" (isoformat "T" t) = String.string_of_list_ascii (stamp_chars t).
Proof.
  unfold remove_char, isoformat, stamp_chars, stamp_body. f_equal.
  rewrite String.list_ascii_of_string_of_list_ascii.
  rewrite !filter_app, !(filter_digits _ (padded _ _)), filter_fraction by (done || apply padded_digits).
  by rewrite <- !(assoc_L (++)).
Qed.

Lemma length_body t : length (stamp_body t) = 17%nat.
Proof. unfold stamp_body. by rewrite !length_app, !length_padded. Qed.

Lemma compare_body s t l m :
  valid_time s → valid_time t →
  compare_chars (stamp_body s ++ l) (stamp_body t ++ m)
  = then_compare (time_compare s (mkTime (year t) (month t) (day t) (hour t) (minute t) (second t)
                    (microsecond s))) (compare_chars l m).
Proof.
  intros (?&?&?&?&?&?&_) (?&?&?&?&?&?&_).
  rewrite compare_app by (by rewrite !length_body). f_equal.
  unfold stamp_body, time_compare.
  cbn [year month day hour minute second microsecond]. rewrite Z.compare_refl.
  repeat rewrite compare_app by (by rewrite ?length_padded).
  rewrite !compare_padded by (simpl; lia). simpl.
  by repeat match goal with |- context [then_compare (?a ?= ?b) _] => destruct (a ?= b) end.
Qed.

Lemma compare_stamps s t :
  valid_time s → valid_time t → compare_chars (stamp_chars s) (stamp_chars t) = time_compare s t.
Proof.
  intros Hs Ht. unfold stamp_chars. rewrite compare_body, compare_fraction by done.
  unfold time_compare. cbn [year month day hour minute second microsecond].
  rewrite Z.compare_refl.
  by repeat match goal with |- context [then_compare (?a ?= ?b) _] => destruct (a ?= b) end.
Qed.

Definition name_chars (device : string) (t : datetime) : list ascii :=
  String.list_ascii_of_string ("report_" +:+ device +:+ "_") ++ stamp_chars t
  ++ String.list_ascii_of_string ".json".

Lemma file_name_chars device t :
  String.list_ascii_of_string (file_name device t) = name_chars device t.
Proof.
  unfold file_name, name_chars.
  by rewrite stamp_eq, !chars_app, String.list_ascii_of_string_of_list_ascii, <- !(assoc_L (++)).
Qed.

(** A whole second *)
Definition plain (t : datetime) : Prop := valid_time t ∧ microsecond t = 0.

Lemma plain_stamp t : plain t → stamp_chars t = stamp_body t.
Proof. intros [_ H]. unfold stamp_chars, fraction. by rewrite H, app_nil_r. Qed.

Lemma compare_files device s t :
  plain s → plain t → String.compare (file_name device s) (file_name device t) = time_compare s t.
Proof.
  intros Hs Ht. rewrite <- (String.string_of_list_ascii_of_string (file_name device s)),
    <- (String.string_of_list_ascii_of_string (file_name device t)), !file_name_chars.
  unfold name_chars. rewrite compare_app, compare_refl_chars by done. cbn [then_compare].
  rewrite !plain_stamp, compare_body, compare_refl_chars by (done || apply Hs || apply Ht).
  destruct Hs as [_ Hs], Ht as [_ Ht]. unfold time_compare.
  cbn [year month day hour minute second microsecond]. rewrite Hs, Ht.
  by repeat match goal with |- context [then_compare (?a ?= ?b) _] => destruct (a ?= b) end.
Qed.

Lemma stamp_of_file device t : plain t →
  stamp_of device (file_name device t) = Some (String.string_of_list_ascii (stamp_chars t)).
Proof.
  intros Ht. unfold stamp_of, Regex.search. rewrite file_name_chars.
  pose proof (Regex.search_here (name_chars device t) (report_re device) (name_chars device t)
    [(1%nat, String.string_of_list_ascii (stamp_chars t))]) as ->; [done|].
  unfold report_re. rewrite Regex.go_bol. unfold name_chars at 2. rewrite Regex.go_seq_lit.
  cbn [Regex.go]. rewrite Regex.go_classes.
  - rewrite Regex.taken_app, <- (app_nil_r (String.list_ascii_of_string ".json")).
    by rewrite Regex.go_lit.
  - rewrite (plain_stamp t Ht). unfold stamp_body, stamp_classes.
    change (replicate 6 is_digit)
      with (replicate 2 is_digit ++ replicate 2 is_digit ++ replicate 2 is_digit).
    repeat apply Forall2_app; try apply padded_fits; by repeat constructor.
Qed.

Lemma not_before s t : String.ltb s t = false ↔ String.compare s t ≠ Lt.
Proof. unfold String.ltb. by destruct (String.compare s t). Qed.

Lemma time_window start end_ t :
  plain t → (∀ s, start = Some s → valid_time s) → (∀ e, end_ = Some e → valid_time e) →
  in_window (_iso_to_fname start) (_iso_to_fname end_) (String.string_of_list_ascii (stamp_chars t))
    = true ↔
  (∀ s, start = Some s → time_compare t s ≠ Lt) ∧ (∀ e, end_ = Some e → time_compare e t ≠ Lt).
Proof.
  intros [Ht _] Hs He. unfold in_window, _iso_to_fname. rewrite negb_true_iff, orb_false_iff.
  f_equiv.
  - destruct start as [s|]; cbn [fmap option_fmap option_map compose]; [|naive_solver]. specialize (Hs s eq_refl).
    rewrite stamp_eq, not_before, compare_stamps by done. naive_solver.
  - destruct end_ as [e|]; cbn [fmap option_fmap option_map compose]; [|naive_solver]. specialize (He e eq_refl).
    rewrite stamp_eq, not_before, compare_stamps by done. naive_solver.
Qed.

Lemma filter_sublist {A} (P : A → Prop) `{!∀ x, Decision (P x)} l : filter P l `sublist_of` l.
Proof.
  induction l as [|x l IH]; [done|]. rewrite filter_cons. case_decide; by constructor.
Qed.

Lemma local_files_sorted listing device start end_ count :
  StronglySorted (flip String.le) (local_files listing device start end_ count).
Proof.
  unfold local_files. eapply sublist_sorted; [apply filter_sublist|].
  assert (StronglySorted (flip String.le)
    (rev (sort_keys (filter (λ f, is_Some (stamp_of device f)) listing)))) as H
    by apply reverse_sorted, sort_keys_sorted.
  case_match; [|done]. eapply sublist_sorted; [|done]. unfold slice_to. case_match; apply sublist_take.
Qed.

(** Which local reports are combined.  Without a limit, a report file (named
    by device and time, as the report generator names it) is read exactly if it
    is in the directory and its time is neither before the start nor after the
    end, at a resolution of microseconds; and the files are read from the latest
    to the earliest. *)
Theorem local_reports_window (listing : list string) (device : string) (start end_ : option datetime)
    (Hstart : ∀ s, start = Some s → valid_time s) (Hend : ∀ e, end_ = Some e → valid_time e) :
  let files := local_files listing device start end_ 0 in
  (∀ t, plain t → file_name device t ∈ files ↔
     file_name device t ∈ listing ∧
     (∀ s, start = Some s → time_compare t s ≠ Lt) ∧ (∀ e, end_ = Some e → time_compare e t ≠ Lt)) ∧
  (∀ i j t u, plain t → plain u → (i < j)%nat →
     files !! i = Some (file_name device t) → files !! j = Some (file_name device u) →
     time_compare t u ≠ Lt).
Proof.
  intros files. split.
  - intros t Ht. unfold files, local_files. simpl.
    rewrite list_elem_of_filter, stamp_of_file, time_window by done.
    rewrite list_elem_of_In, <- in_rev, <- list_elem_of_In, elem_of_sort_keys, list_elem_of_filter.
    rewrite stamp_of_file by done. naive_solver.
  - intros i j t u Ht Hu Hij Hi Hj.
    pose proof (local_files_sorted listing device start end_ 0) as Hsort. fold files in Hsort.
    rewrite <- (compare_files device t u Ht Hu).
    rewrite <- (take_drop (S i) files) in Hsort.
    assert (String.le (file_name device u) (file_name device t)) as Hle.
    { eapply (StronglySorted_app_1_elem_of (flip String.le)); [done| |].
      - apply list_elem_of_lookup. exists i. rewrite lookup_take_lt by lia. done.
      - apply list_elem_of_lookup. exists (j - S i)%nat. rewrite lookup_drop.
        by replace (S i + (j - S i))%nat with j by lia. }
    unfold String.le, String.leb in Hle. rewrite String.compare_antisym.
    destruct (String.compare (file_name device u) (file_name device t)); simpl in *; done.
Qed.

(** ** An example *)

Definition old_run : datetime := mkTime 2019 5 29 0 23 33 0.
Definition new_run : datetime := mkTime 2020 5 29 9 23 33 0.
Definition new_year : datetime := mkTime 2020 1 1 0 0 0 500000.
Definition demo_listing : list string :=
  ["report_d0_2019-05-29T002333.json"; "report_d1_2020-05-29T002333.json";
   "report_d0_2020-05-29T092333.json"; "report_d0_2020-05-29T092333.md"].

Lemma local_reports_window_witness :
  local_files demo_listing "d0" (Some new_year) None 0 = ["report_d0_2020-05-29T092333.json"] ∧
  (file_name "d0" new_run ∈ local_files demo_listing "d0" (Some new_year) None 0 ↔
     file_name "d0" new_run ∈ demo_listing ∧
     (∀ s, Some new_year = Some s → time_compare new_run s ≠ Lt) ∧
     (∀ e, None = Some e → time_compare e new_run ≠ Lt)).
Proof.
  split; [vm_compute; reflexivity|].
  apply (local_reports_window demo_listing "d0" (Some new_year) None).
  - intros s Hs. injection Hs as <-. unfold valid_time; simpl. lia.
  - intros e He. discriminate He.
  - split; [unfold valid_time; simpl; lia|reflexivity].
Defined.

(** The limit is applied before the time window: the one latest report is kept
    and then dropped because it is too late, and [main] fails after it has
    written a table of nothing. *)
Example limit_before_window :
  local_files demo_listing "d0" None (Some new_year) 1 = [] ∧
  local_files demo_listing "d0" None (Some new_year) 0 = ["report_d0_2019-05-29T002333.json"] ∧
  (main "d0" None (Some new_year) (Local demo_listing (λ _, Raise OtherException)) "inst/reports"
    1 None []).2 = Raise AssertionError.
Proof. vm_compute. done. Qed.

End CombineReports.
