(* ===== verification/TrafficTests.v ===== *)
(** * Tests of captured traffic (src/subset/network)

    The scripts that judge a device by the packets it sent: how often and to
    whom it sends ([NetworkTests], network_tests.py) and how it resolves names
    ([DnsTests], dns_tests.py).  Each appends its findings and one result line to
    its report file, which the device report reads.

    - A script's state is the text of its report file and its global
      [summary_text] ([TestScript]).
    - tcpdump is a parameter: the text it prints for a command line.  The
      configuration file is a parameter too, its lines or nothing when it cannot
      be read. *)

From stdpp Require Import base list gmap strings.
From Stdlib Require Import ZArith Lia Ascii.
From S2P Require Import Prelude PyText PyTime Report ReportSpec.

Import PyText PyTime.

(** ** What the scripts share *)

Module TestScript.
Local Open Scope string_scope.
Local Open Scope list_scope.
Local Open Scope Z_scope.

Record script := mkScript { report : string; summary_text : string }.
Definition init : script := mkScript "" "".

Abbreviation SM := (M script) (only parsing).

(** The report file is opened for appending. *)
Definition write_report (s : string) : SM unit :=
  modify (λ w, mkScript (report w +:+ s) (summary_text w)).

Definition add_summary (text : string) : SM unit :=
  modify (λ w, mkScript (report w)
    (if bool_decide (summary_text w = "") then text else summary_text w +:+ " " +:+ text)).

Definition dash_break_line : string := "--------------------" +:+ nl.
Definition ignore : string := "%%".

(** The main part of a script: the heading, the chosen test with its
    description (the result stays [fail] when there is none of that name), and
    the result line. *)
Definition run_script (tests : dict string (string * SM string)) (test_request : string) : SM string :=
  write_report (dash_break_line +:+ test_request +:+ nl +:+ dash_break_line);;
  result ← match dget test_request tests with
           | Some (description, test) =>
               write_report (description +:+ nl +:+ dash_break_line);; test
           | None => mret "fail"
           end;
  w ← getS;
  write_report ("RESULT " +:+ result +:+ " " +:+ test_request +:+ " "
                +:+ strip (summary_text w) +:+ nl);;
  mret result.

(** *** Strings *)

(** [s.rstrip()] *)
Definition rstrip (s : string) : string :=
  String.string_of_list_ascii (rev (lstrip (rev (String.list_ascii_of_string s)))).

(** [s.split('\n')] *)
Definition split_nl (l : list ascii) : list string := split_on newline l.

(** [s.splitlines()]: the characters that end a line, alone or as a carriage
    return with a line feed; no empty line at the end. *)
Definition ends_line (c : ascii) : bool :=
  bool_decide (code c ∈ [10; 11; 12; 13; 28; 29; 30; 133]%nat).
Fixpoint lines_from (cur : list ascii) (l : list ascii) : list string :=
  match l with
  | [] => if bool_decide (cur = []) then [] else [String.string_of_list_ascii cur]
  | c :: l' =>
      if ends_line c then
        String.string_of_list_ascii cur ::
        match l' with
        | d :: l'' => if bool_decide (c = "013"%char ∧ d = newline) then lines_from [] l''
                      else lines_from [] l'
        | [] => []
        end
      else lines_from (cur ++ [c]) l'
  end.
Definition splitlines (s : string) : list string := lines_from [] (String.list_ascii_of_string s).

(** [s[:n]] *)
Definition prefix_chars (n : nat) (s : string) : string :=
  String.string_of_list_ascii (take n (String.list_ascii_of_string s)).

(** The time a line of tcpdump starts with *)
Definition packet_time (line : string) : res datetime := strptime (prefix_chars 26 line).

End TestScript.

Import TestScript.

(** ** network_tests.py *)

Module NetworkTests.
Local Open Scope string_scope.
Local Open Scope list_scope.
Local Open Scope Z_scope.

Definition min_packet_length_bytes : Z := 20.
Definition max_packets_in_report : Z := 10.
Definition min_send_seconds : Z := 300.
Definition min_send_duration : string := "5 minutes".
Definition description_min_send : string :=
  "Device sends data at a frequency of less than 5 minutes.".
Definition description_communication_type : string := "Device sends unicast or broadcast packets.".

Section network_tests.
Context (shell : string → string) (system_conf : option (list string)).
Context (cap_pcap_file device_address : string).

Definition tcpdump_display_all_packets : string :=
  "tcpdump -tttt -n src host " +:+ device_address +:+ " -r " +:+ cap_pcap_file.
Definition tcpdump_display_arp_packets : string :=
  "tcpdump arp -n src host " +:+ device_address +:+ " -r " +:+ cap_pcap_file.
Definition tcpdump_display_broadcast_packets : string :=
  "tcpdump broadcast and src host " +:+ device_address +:+ " -r " +:+ cap_pcap_file.
Definition tcpdump_display_multicast_packets : string :=
  "tcpdump -n 'ip[16] & 240 = 224' -r " +:+ cap_pcap_file.

(** [len(s)] *)
Definition strlen (s : string) : Z := Z.of_nat (String.length s).

Definition add_packet_count_to_report (packet_type : string) (packet_count : Z) : M script unit :=
  write_report (ignore +:+ " " +:+ packet_type +:+ " packets received="
                +:+ str_int packet_count +:+ nl).

Definition add_packet_info_to_report (packets_received : string) : M script unit :=
  let packet_list := split_nl (String.list_ascii_of_string (strip packets_received)) in
  for_each (slice_to (Z.min (len packet_list) max_packets_in_report) packet_list)
    (λ p, write_report (ignore +:+ " " +:+ p +:+ nl));;
  write_report (ignore +:+ " packets_count=" +:+ str_int (len packet_list) +:+ nl).

Definition decode_shell_result (shell_result : string) : Z :=
  if min_packet_length_bytes <? strlen shell_result
  then len (split_nl (String.list_ascii_of_string (rstrip shell_result))) else 0.
(** [packets_received_count]; the result of a command is always a string. *)
Definition packets_received_count (shell_result : string) : Z := decode_shell_result shell_result.

(** [get_scan_length]: [None] stands for [False]. *)
Definition scan_re : Regex.re :=
  Regex.Seq Regex.Bol (Regex.Seq (Regex.lit "monitor_scan_sec=") (Regex.Grp 1 (Regex.Plus is_digit))).
Definition scan_line (scan_length : option Z) (line : string) : option Z :=
  match g ← Regex.search scan_re line; Regex.group 1 g with
  | Some digits =>
      let matched_length := int_of (String.list_ascii_of_string digits) in
      if 0 <? matched_length then Some matched_length else None
  | None => scan_length
  end.
Definition get_scan_length : M script (option Z) :=
  match system_conf with
  | Some lines => mret (foldl scan_line None lines)
  | None => write_report "Error encountered reading system.conf";; mret None
  end.

(** The loop over the packets of [test_connection_min_send]. *)
Fixpoint min_send_loop (previous : option datetime) (packets : list string) : res bool :=
  match packets with
  | [] => Ok false
  | packet :: packets' =>
      t ← packet_time packet;
      match previous with
      | None => min_send_loop (Some t) packets'
      | Some p =>
          if microseconds t - microseconds p <? min_send_seconds * 1000000 then Ok true
          else min_send_loop (Some t) packets'
      end
  end.

Definition test_connection_min_send : M script string :=
  scan_length ← get_scan_length;
  match scan_length with
  | None => add_summary "DAQ monitor scan not running, test skipped";; mret "skip"
  | Some scan_length =>
      let arp_packets_received := packets_received_count (shell tcpdump_display_arp_packets) in
      whenM (0 <? arp_packets_received) (add_summary "ARP packets received.");;
      let shell_result := shell tcpdump_display_all_packets in
      min_send_pass ← lift (min_send_loop None (splitlines shell_result));
      add_packet_info_to_report shell_result;;
      if negb min_send_pass then
        if min_send_seconds <? scan_length then
          add_summary ("Data packets were not sent at a frequency less than " +:+ min_send_duration);;
          mret "fail"
        else
          add_summary ("Please set DAQ monitor scan to be greater than " +:+ min_send_duration);;
          mret "skip"
      else
        add_summary ("Data packets were sent at a frequency of less than " +:+ min_send_duration);;
        mret "pass"
  end.

(** One kind of packets in [test_communication_type_broadcast] *)
Definition count_kind (kind : string) (count : Z) (test_result : string) : M script string :=
  if 0 <? count then
    add_summary (kind +:+ " packets received.");;
    add_packet_count_to_report kind count;;
    mret "pass"
  else mret test_result.

Definition test_communication_type_broadcast : M script string :=
  let broadcast_packets := packets_received_count (shell tcpdump_display_broadcast_packets) in
  test_result ← count_kind "Broadcast" broadcast_packets "fail";
  let multicast_packets := packets_received_count (shell tcpdump_display_multicast_packets) in
  test_result ← count_kind "Multicast" multicast_packets test_result;
  let unicast_packets := packets_received_count (shell tcpdump_display_all_packets)
                         - broadcast_packets - multicast_packets in
  count_kind "Unicast" unicast_packets test_result.

Definition tests : dict string (string * M script string) :=
  [("communication.network.min_send", (description_min_send, test_connection_min_send));
   ("communication.network.type",
      (description_communication_type, test_communication_type_broadcast))].

Definition main (test_request : string) : M script string := run_script tests test_request.

End network_tests.
End NetworkTests.

(** ** dns_tests.py *)

Module DnsTests.
Local Open Scope string_scope.
Local Open Scope list_scope.
Local Open Scope Z_scope.

Definition DESCRIPTION_HOSTNAME_CONNECT : string :=
  "Check device uses the DNS server from DHCP and resolves hostnames".
Definition DNS_SERVER_HOST : string := ".2".

(** [IP_REGEX]: one to three digits, and an address *)
Definition IP_REGEX : Regex.re :=
  let octet := up_to 2 in let dot := Regex.lit "." in
  Regex.Grp 1 (Regex.Seq octet (Regex.Seq dot (Regex.Seq octet (Regex.Seq dot
    (Regex.Seq octet (Regex.Seq dot octet)))))).

(** [re.findall(IP_REGEX, s)]: the whole match of every address, from left to
    right without overlaps; a match is never empty. *)
Fixpoint findall (full : list ascii) (fuel : nat) (rest : list ascii) : list string :=
  match fuel with
  | O => []
  | S fuel' =>
      match Regex.go full IP_REGEX rest [] (λ rest' g, Some (rest', Regex.group 1 g)) with
      | Some (rest', Some address) => address :: findall full fuel' rest'
      | _ => match rest with _ :: rest' => findall full fuel' rest' | [] => [] end
      end
  end.
Definition find_addresses (s : string) : list string :=
  let l := String.list_ascii_of_string s in findall l (S (length l)) l.

(** [re.sub(r'\.\d+$', DNS_SERVER_HOST, s)]; at most one place matches. *)
Definition last_octet : Regex.re := Regex.Seq (Regex.lit ".") (Regex.Seq (Regex.Plus is_digit) Regex.Eol).
Fixpoint sub_last (full rest : list ascii) : list ascii :=
  match Regex.go full last_octet rest [] (λ rest' _, Some rest') with
  | Some rest' => String.list_ascii_of_string DNS_SERVER_HOST ++ rest'
  | None => match rest with c :: rest' => c :: sub_last full rest' | [] => [] end
  end.
Definition get_dns_server_from_ip (ip_address : string) : string :=
  let l := String.list_ascii_of_string ip_address in String.string_of_list_ascii (sub_last l l).

Section dns_tests.
Context (shell : string → string) (cap_pcap_file device_address : string).

(** [exec_tcpdump] with the capture file of the script *)
Definition exec_tcpdump (tcpdump_filter : string) : list string :=
  let text := rstrip (shell ("tcpdump -tttt -n -r " +:+ cap_pcap_file +:+ " " +:+ tcpdump_filter)) in
  if bool_decide (text = "") then [] else split_nl (String.list_ascii_of_string text).

(** The inner loop: some packet is later than the response. *)
Fixpoint sent_after (response_time : datetime) (packets : list string) : res bool :=
  match packets with
  | [] => Ok false
  | packet :: packets' =>
      t ← packet_time packet;
      if bool_decide (time_compare t response_time = Gt) then Ok true
      else sent_after response_time packets'
  end.
Fixpoint any_address (response_time : datetime) (addresses : list string) : res bool :=
  match addresses with
  | [] => Ok false
  | address :: addresses' =>
      found ← sent_after response_time (exec_tcpdump ("dst host " +:+ address));
      if (found : bool) then Ok true else any_address response_time addresses'
  end.

Definition check_communication_for_response (response_line : string) : res bool :=
  response_time ← packet_time response_line;
  any_address response_time (drop 2 (find_addresses response_line)).

Fixpoint any_response (responses : list string) : res bool :=
  match responses with
  | [] => Ok false
  | response :: responses' =>
      found ← check_communication_for_response response;
      if (found : bool) then Ok true else any_response responses'
  end.

Definition test_dns (target_ip : string) : M script string :=
  let dhcp_dns_ip := get_dns_server_from_ip target_ip in
  let to_dns := exec_tcpdump ("dst port 53 and src host " +:+ target_ip) in
  let num_query_dns := len to_dns in
  if num_query_dns =? 0 then
    add_summary "Device did not send any DNS requests";; mret "skip"
  else
  let to_dhcp_dns := exec_tcpdump ("dst port 53 and src host " +:+ target_ip
                                   +:+ " and dst host " +:+ dhcp_dns_ip) in
  if len to_dhcp_dns <? num_query_dns then
    add_summary "Device sent DNS requests to servers other than the DHCP provided server";;
    mret "fail"
  else
  let dns_responses := exec_tcpdump ("src port 53 and src host " +:+ dhcp_dns_ip) in
  if len dns_responses =? 0 then
    add_summary "No results recieved from DNS server";; mret "fail"
  else
    found ← lift (any_response dns_responses);
    if (found : bool) then
      add_summary "Device sends DNS requests and resolves host names";; mret "pass"
    else
      add_summary "Device did not send data to IP addresses retrieved from the DNS server";;
      mret "fail".

Definition tests : dict string (string * M script string) :=
  [("dns.network.hostname_resolution", (DESCRIPTION_HOSTNAME_CONNECT, test_dns device_address))].

Definition main (test_request : string) : M script string := run_script tests test_request.

End dns_tests.
End DnsTests.
