(* ===== verification/NtpTests.v ===== *)
(** * Time synchronisation tests (src/subset/network/ntp_tests.py)

    The script that reads a capture with scapy and judges the NTP packets in it:
    the version the device uses and whether its clock follows the local server.

    - A captured packet is what the script reads of it: the addresses of its IP
      layer and, if it has one, its NTP layer, which is the payload of the UDP
      datagram in it.
    - Times are rational numbers of seconds; the script's floating point
      constant 0.128 is the rational 128/1000. *)

From stdpp Require Import base list gmap strings.
From Stdlib Require Import ZArith Lia Ascii QArith Qabs.
From S2P Require Import Prelude PyText TrafficTests.

Import PyText TestScript.

Module NtpTests.
Local Open Scope string_scope.
Local Open Scope list_scope.
Local Open Scope Z_scope.

Definition description_ntp_support : string := "Device supports NTP version 4.".
Definition description_ntp_update : string := "Device synchronizes its time to the NTP server.".
Definition NTP_VERSION_PASS : Z := 4.
Definition LOCAL_PREFIX : string := "10.20.".
Definition NTP_SERVER_SUFFIX : string := ".2".
Definition MODE_CLIENT : Z := 3.
Definition MODE_SERVER : Z := 4.
Definition YEAR_2500 : Q := inject_Z 16725225600.
Definition SECONDS_BETWEEN_1900_1970 : Q := inject_Z 2208988800.
Definition OFFSET_ALLOWANCE : Q := 128 # 1000.
Definition LEAP_ALARM : Z := 3.

Record ntp := mkNtp { version : Z; mode : Z; leap : Z; sent : Q; time : Q }.
Record packet := mkPacket { src : string; dst : string; layer : option ntp }.

(** [ntp_packets] with the capture as it is, and with a mode.  What the script
    reads of a packet without an NTP layer does not matter. *)
Definition ntp_payload (p : packet) : ntp := default (mkNtp 0 0 0 0 0) (layer p).
Definition wanted (m : option Z) (p : packet) : bool :=
  bool_decide (is_Some (layer p)) &&
  match m with None => true | Some m => m =? mode (ntp_payload p) end.
Definition ntp_packets (capture : list packet) (m : option Z) : list packet :=
  filter (λ p, wanted m p = true) capture.

Definition ntp_client_version (capture : list packet) : option Z :=
  match ntp_packets capture (Some MODE_CLIENT) with
  | [] => None
  | p :: _ => Some (version (ntp_payload p))
  end.

Definition test_ntp_support (capture : list packet) : M script string :=
  let packets := ntp_packets capture None in
  if 0 <? len packets then
    match ntp_client_version packets with
    | None => add_summary "No NTP packets received.";; mret "skip"
    | Some version =>
        if version =? NTP_VERSION_PASS then
          add_summary ("Using NTPv" +:+ str_int NTP_VERSION_PASS +:+ ".");; mret "pass"
        else
          add_summary ("Not using NTPv" +:+ str_int NTP_VERSION_PASS +:+ ".");; mret "fail"
    end
  else add_summary "No NTP packets received.";; mret "skip".

(** [s.endswith(t)] *)
Definition endswith (t s : string) : bool :=
  bool_decide (drop (String.length s - String.length t) (String.list_ascii_of_string s)
               = String.list_ascii_of_string t).
Definition server_address (a : string) : bool :=
  String.prefix LOCAL_PREFIX a && endswith NTP_SERVER_SUFFIX a.
Definition is_local (p : packet) : bool := server_address (dst p) || server_address (src p).

(** The state of the loop that looks for the latest poll. *)
Record poll := mkPoll {
  p1 : option packet; p2 : option packet; p3 : option packet; p4 : option packet
}.
Definition poll_step (s : poll) (p : packet) : poll :=
  let m := mode (ntp_payload p) in
  match p1 s, p2 s, p3 s, p4 s with
  | None, _, _, _ => if m =? MODE_CLIENT then mkPoll (Some p) (p2 s) (p3 s) (p4 s) else s
  | Some _, None, _, _ =>
      if m =? MODE_SERVER then mkPoll (p1 s) (Some p) (p3 s) (p4 s)
      else mkPoll (Some p) (p2 s) (p3 s) (p4 s)
  | Some _, Some _, None, _ =>
      if m =? MODE_CLIENT then mkPoll (p1 s) (p2 s) (Some p) (p4 s) else s
  | Some _, Some _, Some _, None =>
      if m =? MODE_SERVER then mkPoll (p3 s) (Some p) None None
      else mkPoll (p1 s) (p2 s) (Some p) (p4 s)
  | Some _, Some _, Some _, Some _ => s
  end.
Definition find_poll (l : list packet) : poll := foldl poll_step (mkPoll None None None None) l.

(** Time stamps count from 1900 or from 1970. *)
Definition since_1970 (t : Q) : Q :=
  if Qlt_le_dec YEAR_2500 t then (t - SECONDS_BETWEEN_1900_1970)%Q else t.
Definition clock_offset (a b : packet) : Q :=
  let t1 := since_1970 (sent (ntp_payload a)) in let t2 := since_1970 (time (ntp_payload a)) in
  let t3 := since_1970 (sent (ntp_payload b)) in let t4 := since_1970 (time (ntp_payload b)) in
  (Qabs ((t2 - t1) + (t3 - t4)) / 2)%Q.
Definition synchronized (a b : packet) : bool :=
  (if Qlt_le_dec (clock_offset a b) OFFSET_ALLOWANCE then true else false)
  && negb (leap (ntp_payload a) =? LEAP_ALARM).

Definition not_synchronized : M script string :=
  add_summary "Device clock not synchronized with local NTP server.";; mret "fail".

Definition test_ntp_update (capture : list packet) : M script string :=
  let packets := ntp_packets capture None in
  if len packets <? 2 then add_summary "Not enough NTP packets received.";; mret "skip" else
  let local_ntp_packets := filter (λ p, is_local p = true) packets in
  let using_local_server := negb (bool_decide (local_ntp_packets = [])) in
  if negb using_local_server || (len local_ntp_packets <? 2) then not_synchronized else
  let s := find_poll local_ntp_packets in
  match p1 s, p2 s with
  | Some a, Some b =>
      if synchronized a b then add_summary "Device clock synchronized.";; mret "pass"
      else not_synchronized
  | _, _ => not_synchronized
  end.

Definition tests (capture : list packet) : dict string (string * M script string) :=
  [("ntp.network.ntp_support", (description_ntp_support, test_ntp_support capture));
   ("ntp.network.ntp_update", (description_ntp_update, test_ntp_update capture))].

Definition main (capture : list packet) (test_request : string) : M script string :=
  run_script (tests capture) test_request.

(** ** The latest poll *)

Definition client (p : packet) : Prop := mode (ntp_payload p) = MODE_CLIENT.
Definition server (p : packet) : Prop := mode (ntp_payload p) = MODE_SERVER.
#[global] Instance client_dec p : Decision (client p) := decide (_ = _).
#[global] Instance server_dec p : Decision (server p) := decide (_ = _).

(** The reference: the last request that is followed at once by a reply *)
Fixpoint last_exchange (l : list packet) : option (packet * packet) :=
  match l with
  | a :: (b :: _) as l' =>
      match last_exchange l' with
      | Some x => Some x
      | None => if decide (client a ∧ server b) then Some (a, b) else None
      end
  | _ => None
  end.

Lemma last_exchange_snoc l a b :
  last_exchange ((l ++ [a]) ++ [b])
  = if decide (client a ∧ server b) then Some (a, b) else last_exchange (l ++ [a]).
Proof.
  induction l as [|x l IH]; [done|]. destruct l as [|y l]; simpl in *.
  - by case_decide.
  - rewrite IH. by case_decide.
Qed.

(** What the loop knows after the packets [l]. *)
Inductive seen : list packet → poll → Prop :=
  | seen_none l : Forall server l → seen l (mkPoll None None None None)
  | seen_request l c : client c → last_exchange (l ++ [c]) = None →
      seen (l ++ [c]) (mkPoll (Some c) None None None)
  | seen_exchange l c a b : server c → last_exchange (l ++ [c]) = Some (a, b) →
      seen (l ++ [c]) (mkPoll (Some a) (Some b) None None)
  | seen_next l c a b : client c → last_exchange (l ++ [c]) = Some (a, b) →
      seen (l ++ [c]) (mkPoll (Some a) (Some b) (Some c) None).

Lemma servers_no_exchange l : Forall server l → last_exchange l = None.
Proof.
  intros Hl. induction Hl as [|x l Hx Hl IH]; [done|]. destruct l as [|y l]; [done|].
  simpl in *. rewrite IH. rewrite decide_False; [done|]. intros [Hc _].
  unfold client, server in *. by rewrite Hx in Hc.
Qed.

Lemma seen_step l s x : seen l s → client x ∨ server x → seen (l ++ [x]) (poll_step s x).
Proof.
  intros Hs Hx. unfold poll_step.
  assert ((mode (ntp_payload x) =? MODE_CLIENT) = bool_decide (client x)) as ->
    by (unfold client; case_bool_decide; [by apply Z.eqb_eq|by apply Z.eqb_neq]).
  assert ((mode (ntp_payload x) =? MODE_SERVER) = bool_decide (server x)) as ->
    by (unfold server; case_bool_decide; [by apply Z.eqb_eq|by apply Z.eqb_neq]).
  assert (∀ p, client p → server p → False) as Hex
    by (unfold client, server; intros p H1 H2; by rewrite H1 in H2).
  destruct Hs as [l Hl|l c Hc Hn|l c a b Hc He|l c a b Hc He]; simpl;
    pose proof last_exchange_snoc as Hsnoc.
  - destruct Hx as [Hx|Hx].
    + rewrite bool_decide_true by done. apply seen_request; [done|].
      destruct l as [|y l _] using rev_ind; [done|]. rewrite Hsnoc, decide_False; [by apply servers_no_exchange|].
      naive_solver.
    + rewrite bool_decide_false by naive_solver. apply seen_none.
      apply Forall_app. by repeat constructor.
  - destruct Hx as [Hx|Hx].
    + rewrite bool_decide_false by naive_solver. apply seen_request; [done|].
      rewrite Hsnoc, decide_False; naive_solver.
    + rewrite bool_decide_true by done. apply seen_exchange; [done|].
      by rewrite Hsnoc, decide_True.
  - destruct Hx as [Hx|Hx].
    + rewrite bool_decide_true by done. apply seen_next; [done|].
      rewrite Hsnoc, decide_False; naive_solver.
    + rewrite bool_decide_false by naive_solver. apply seen_exchange; [done|].
      rewrite Hsnoc, decide_False; naive_solver.
  - destruct Hx as [Hx|Hx].
    + rewrite bool_decide_false by naive_solver. apply seen_next; [done|].
      rewrite Hsnoc, decide_False; naive_solver.
    + rewrite bool_decide_true by done. apply seen_exchange; [done|].
      by rewrite Hsnoc, decide_True.
Qed.

Lemma find_poll_seen l : Forall (λ p, client p ∨ server p) l → seen l (find_poll l).
Proof.
  induction l as [|x l IH] using rev_ind; intros Hl; [by apply seen_none|].
  apply Forall_app in Hl as [Hl Hx]. unfold find_poll. rewrite foldl_app. simpl.
  apply seen_step; [by apply IH|by inversion Hx].
Qed.

Lemma find_poll_last l : Forall (λ p, client p ∨ server p) l →
  (a ← p1 (find_poll l); b ← p2 (find_poll l); Some (a, b)) = last_exchange l.
Proof.
  intros Hl%find_poll_seen. destruct Hl as [l Hl|l c Hc Hn|l c a b Hc He|l c a b Hc He]; simpl;
    [by rewrite servers_no_exchange|done..].
Qed.

(** [a] and [b] are the last neighbours in [l] that are a request and a reply. *)
Definition latest_exchange (l : list packet) (a b : packet) : Prop :=
  ∃ l1 l2, l = l1 ++ a :: b :: l2 ∧ client a ∧ server b ∧
    ∀ m1 m2 c d, b :: l2 = m1 ++ c :: d :: m2 → ¬ (client c ∧ server d).

Lemma last_exchange_None l :
  last_exchange l = None ↔ ∀ l1 l2 a b, l = l1 ++ a :: b :: l2 → ¬ (client a ∧ server b).
Proof.
  induction l as [|x l IH]; [split; [|done]; by intros _ [|??] ???|].
  destruct l as [|y l].
  { split; [|done]. intros _ l1 l2 a b H. by destruct l1 as [|? [|??]]. }
  change (last_exchange (x :: y :: l)) with
    (match last_exchange (y :: l) with
     | Some x => Some x
     | None => if decide (client x ∧ server y) then Some (x, y) else None
     end).
  destruct (last_exchange (y :: l)) as [e|] eqn:E.
  - split; [done|]. intros H. apply IH. intros l1 l2 a b Heq. apply (H (x :: l1) l2). by rewrite Heq.
  - destruct IH as [IH _]. specialize (IH eq_refl). split.
    + intros H l1 l2 a b Heq Hab. destruct l1 as [|z l1]; simplify_eq/=.
      * by rewrite decide_True in H.
      * by apply (IH l1 l2 a b).
    + intros H. rewrite decide_False; [done|]. by apply (H [] l).
Qed.

Lemma last_exchange_Some l a b : last_exchange l = Some (a, b) ↔ latest_exchange l a b.
Proof.
  induction l as [|x l IH]; [split; [done|]; by intros ([|??] & ? & ? & _)|].
  destruct l as [|y l].
  { split; [done|]. intros (l1 & l2 & H & _). by destruct l1 as [|? [|??]]. }
  change (last_exchange (x :: y :: l)) with
    (match last_exchange (y :: l) with
     | Some x => Some x
     | None => if decide (client x ∧ server y) then Some (x, y) else None
     end).
  destruct (last_exchange (y :: l)) as [e|] eqn:E.
  - rewrite IH. split.
    + intros (l1 & l2 & Heq & H). exists (x :: l1), l2. by rewrite Heq.
    + intros (l1 & l2 & Heq & Ha & Hb & H). destruct l1 as [|z l1]; simpl in Heq;
        [injection Heq as -> -> ->|injection Heq as -> Heq].
      * by rewrite (proj2 (last_exchange_None (b :: l2)) H) in E.
      * by exists l1, l2.
  - pose proof (proj1 (last_exchange_None (y :: l)) E) as Hn. split.
    + case_decide as Hd; intros [= <- <-]. by exists [], l; destruct Hd.
    + intros (l1 & l2 & Heq & Ha & Hb & H). destruct l1 as [|z l1]; simpl in Heq;
        [injection Heq as -> -> ->; by rewrite decide_True|injection Heq as -> Heq].
      by destruct (Hn l1 l2 a b).
Qed.

Lemma synchronized_spec a b :
  synchronized a b = true ↔
  (clock_offset a b < OFFSET_ALLOWANCE)%Q ∧ leap (ntp_payload a) ≠ LEAP_ALARM.
Proof.
  unfold synchronized. rewrite andb_true_iff, negb_true_iff, Z.eqb_neq.
  destruct (Qlt_le_dec (clock_offset a b) OFFSET_ALLOWANCE) as [H|H]; [naive_solver|].
  split; [naive_solver|]. intros [H' _]. exfalso. by apply (Qle_not_lt _ _ H).
Qed.

Lemma one_no_exchange l : len l < 2 → last_exchange l = None.
Proof. destruct l as [|x [|y l]]; [done..|]. rewrite !len_cons. pose proof (len_nonneg l). lia. Qed.

Lemma ntp_update_verdict capture w :
  let local := filter (λ p, is_local p = true) (ntp_packets capture None) in
  Forall (λ p, client p ∨ server p) local →
  (test_ntp_update capture w).2
  = Ok (if len (ntp_packets capture None) <? 2 then "skip" else
        match last_exchange local with
        | Some (a, b) => if synchronized a b then "pass" else "fail"
        | None => "fail"
        end).
Proof.
  intros local Hl. unfold test_ntp_update. fold local. case_match; [done|].
  destruct (negb (negb (bool_decide (local = []))) || (len local <? 2)) eqn:E.
  - rewrite one_no_exchange; [done|]. apply orb_true_iff in E as [E|E]; [|lia].
    rewrite negb_involutive, bool_decide_eq_true in E. by rewrite E.
  - rewrite <- find_poll_last by done.
    destruct (p1 (find_poll local)), (p2 (find_poll local)); simpl; try done.
    by destruct (synchronized _ _).
Qed.

(** The verdict on time synchronisation.  If the packets from or to the
    local server are requests and replies, the test is skipped exactly when the
    capture has fewer than two NTP packets, and otherwise passes exactly when the
    latest request that was answered at once has a clock offset below the
    allowance and no leap alarm. *)
Theorem ntp_update_correct (capture : list packet) (w : script)
    (Hmodes : Forall (λ p, client p ∨ server p)
       (filter (λ p, is_local p = true) (ntp_packets capture None))) :
  let packets := ntp_packets capture None in
  let local := filter (λ p, is_local p = true) packets in
  ∃ r, (test_ntp_update capture w).2 = Ok r ∧ r ∈ ["pass"; "fail"; "skip"] ∧
    (r = "skip" ↔ len packets < 2) ∧
    (r = "pass" ↔ 2 ≤ len packets ∧ ∃ a b, latest_exchange local a b ∧
       (clock_offset a b < OFFSET_ALLOWANCE)%Q ∧ leap (ntp_payload a) ≠ LEAP_ALARM).
Proof.
  intros packets local. rewrite (ntp_update_verdict capture w Hmodes). fold packets local.
  setoid_rewrite <- last_exchange_Some. setoid_rewrite <- synchronized_spec.
  eexists. split; [done|]. destruct (Z.ltb_spec (len packets) 2).
  - split; [set_solver|]. split; [done|]. split; [done|lia].
  - destruct (last_exchange local) as [[a b]|]; [destruct (synchronized a b) eqn:E|];
      (split; [set_solver|]); (split; [split; [done|lia]|]).
    + split; [intros _; by eauto|done].
    + split; [done|]. intros (_ & a' & b' & Hab & Hs). congruence.
    + split; [done|]. by intros (_ & a' & b' & Hab & _).
Qed.

Definition demo_ntp (m : Z) (s t : Q) (from to : string) : packet :=
  mkPacket from to (Some (mkNtp 4 m 0 s t)).
Definition demo_capture : list packet :=
  [demo_ntp 3 10 (101 # 10) "10.20.99.5" "10.20.99.2"; demo_ntp 4 90 10 "10.20.99.2" "10.20.99.5";
   mkPacket "10.20.99.5" "8.8.8.8" None;
   demo_ntp 3 20 (201 # 10) "10.20.99.5" "10.20.99.2"; demo_ntp 4 20 (201 # 10) "10.20.99.2" "10.20.99.5"].

Lemma ntp_update_correct_witness :
  ∃ r, (test_ntp_update demo_capture init).2 = Ok r ∧ r ∈ ["pass"; "fail"; "skip"] ∧
    (r = "skip" ↔ len (ntp_packets demo_capture None) < 2) ∧
    (r = "pass" ↔ 2 ≤ len (ntp_packets demo_capture None) ∧
       ∃ a b, latest_exchange (filter (λ p, is_local p = true) (ntp_packets demo_capture None)) a b ∧
       (clock_offset a b < OFFSET_ALLOWANCE)%Q ∧ leap (ntp_payload a) ≠ LEAP_ALARM).
Proof.
  apply (ntp_update_correct demo_capture init).
  vm_compute. repeat constructor; (left; reflexivity) || (right; reflexivity).
Defined.

(** A packet of another mode between a request and its reply replaces the
    request. *)
Example other_mode_replaces_request :
  let request := demo_ntp 3 10 10 "10.20.99.5" "10.20.99.2" in
  let other := demo_ntp 1 99 99 "10.20.99.5" "10.20.99.2" in
  let reply := demo_ntp 4 10 10 "10.20.99.2" "10.20.99.5" in
  p1 (find_poll [request; other; reply]) = Some other.
Proof. done. Qed.

End NtpTests.
