(* ===== verification/DhcpTests.v ===== *)
(** * Address tests of a device (src/subset/ipaddr/dhcp_tests.py)

    The script that judges how a device handles its address, from the log of the
    address module (which says when it started which test and which notifications
    arrived) and from the captured packets.

    - A captured packet is what the script reads of it: its DHCP options and the
      source of an ICMP packet.
    - The log and the configured ranges are parameters. *)

From stdpp Require Import base list gmap strings.
From Stdlib Require Import ZArith Lia Ascii.
From S2P Require Import Prelude PyVal PyText TrafficTests.

Import PyText TestScript.

Module DhcpTests.
Local Open Scope string_scope.
Local Open Scope list_scope.
Local Open Scope Z_scope.

Definition DHCP_REQUEST : Z := 3.
Definition running_port_toggle : string := "running dhcp port_toggle test".
Definition running_dhcp_change : string := "running dhcp change test".
Definition running_ip_change : string := "running ip change test".
Definition ip_notification : string := "ip notification".

Record packet := mkPacket {
  options : option (list (string * val));
  icmp_src : option string
}.
Record dhcp_range := mkRange { range_start : string; range_end : string }.

(** ** Helpers *)

(** [_get_dhcp_option] *)
Definition _get_dhcp_option (opts : list (string * val)) (option : string) : val :=
  default VNone (dget option opts).

(** [_to_ipv4], and the order of tuples *)
Fixpoint map_res {A B} (f : A → res B) (l : list A) : res (list B) :=
  match l with [] => Ok [] | x :: l' => y ← f x; ys ← map_res f l'; Ok (y :: ys) end.
Definition _to_ipv4 (ip : string) : res (list Z) :=
  map_res (λ n, PyVal.to_int (VStr n)) (split_on "." (String.list_ascii_of_string ip)).
Fixpoint tuple_lt (l m : list Z) : bool :=
  match l, m with
  | [], [] => false
  | [], _ :: _ => true
  | _ :: _, [] => false
  | x :: l', y :: m' => if x =? y then tuple_lt l' m' else x <? y
  end.

(** [_in_range]: a chained comparison *)
Definition _in_range (ip start end_ : string) : res bool :=
  s ← _to_ipv4 start; i ← _to_ipv4 ip;
  if tuple_lt s i then e ← _to_ipv4 end_; Ok (tuple_lt i e) else Ok false.

(** One packet in [_supports_range] *)
Definition requests_in (start end_ : string) (p : packet) : res bool :=
  match options p with
  | None => Ok false
  | Some [] => Raise IndexError
  | Some ((_, kind) :: _ as opts) =>
      if negb (PyVal.py_eq kind (VInt DHCP_REQUEST)) then Ok false else
      match _get_dhcp_option opts "requested_addr" with
      | VNone => Ok false
      | VStr ip => _in_range ip start end_
      | _ => Raise AttributeError
      end
  end.
Fixpoint _supports_range (start end_ : string) (capture : list packet) : res bool :=
  match capture with
  | [] => Ok false
  | p :: capture' =>
      found ← requests_in start end_ p; rest ← _supports_range start end_ capture';
      Ok ((found : bool) || rest)
  end.

(** ** The tests *)

Definition verdict : Type := string * string.

(** [_test_dhcp_short] *)
Fixpoint notified_after (run : bool) (log : list string) : bool :=
  match log with
  | [] => false
  | line :: log' =>
      if run && PyVal.substring ip_notification line then true
      else notified_after (run || PyVal.substring running_port_toggle line) log'
  end.
Definition _test_dhcp_short (log : list string) : verdict :=
  if notified_after false log then ("pass", "DHCP request received.")
  else ("fail", "No DHCP request received.").

(** [line.split(ip_notification + ' ')[1].rstrip().split()[0]]: the text after the
    first occurrence, up to the next one *)
Definition notified_ip (line : string) : res string :=
  let sep := ip_notification +:+ " " in
  match String.index 0 sep line with
  | None => Raise IndexError
  | Some i =>
      let rest := String.substring (i + String.length sep) (String.length line) line in
      let part := match String.index 0 sep rest with
                  | Some j => String.substring 0 j rest
                  | None => rest
                  end in
      of_option IndexError (head (words (rstrip part)))
  end.

(** The loop over the log that [_test_ip_change] and [_test_dhcp_change] share:
    whether the test ran, and the address of the first notification after it *)
Fixpoint find_change (running : string) (run : bool) (log : list string) :
    res (bool * option string) :=
  match log with
  | [] => Ok (run, None)
  | line :: log' =>
      if run && PyVal.substring ip_notification line then
        ip ← notified_ip line; Ok (run, Some ip)
      else find_change running (run || PyVal.substring running line) log'
  end.

(** Some ping came from the address. *)
Definition ping_from (ip : option string) (capture : list packet) : bool :=
  existsb (λ p, match icmp_src p, ip with
                | Some src, Some ip => bool_decide (src = ip)
                | _, _ => false
                end) capture.

(** [_test_ip_change] *)
Definition _test_ip_change (log : list string) (capture : list packet) : res verdict :=
  x ← find_change running_ip_change false log;
  let '(run_ip_change, ip_change_ip) := (x : bool * option string) in
  if negb run_ip_change then Ok ("skip", "IP change test did not run.") else
  match ip_change_ip with
  | None => Ok ("fail", "No ip change found.")
  | Some _ =>
      Ok (if ping_from ip_change_ip capture then ("pass", "Ping response received after IP change.")
          else ("fail", "No ping response received after IP change."))
  end.

(** [_test_private_address] *)
Fixpoint all_supported (capture : list packet) (ranges : list dhcp_range) : res bool :=
  match ranges with
  | [] => Ok true
  | r :: ranges' =>
      ok ← _supports_range (range_start r) (range_end r) capture;
      rest ← all_supported capture ranges';
      Ok ((ok : bool) && rest)
  end.
Definition _test_private_address (ranges : list dhcp_range) (capture : list packet) : res verdict :=
  if bool_decide (ranges = []) then Ok ("skip", "No private address ranges were specified.") else
  passing ← all_supported capture ranges;
  Ok (if (passing : bool) then ("pass", "All private address ranges are supported.")
      else ("fail", "Not all private address ranges are supported.")).

(** [_test_dhcp_change]: the two guards test constant strings, which are never
    empty. *)
Definition _test_dhcp_change (log : list string) (capture : list packet) : res verdict :=
  x ← find_change running_dhcp_change false log;
  let dhcp_change_ip := (x : bool * option string).2 in
  if bool_decide (running_dhcp_change = "") then Ok ("skip", "DHCP change test did not run.") else
  if bool_decide (ip_notification = "") then Ok ("fail", "No ip change found.") else
  Ok (if ping_from dhcp_change_ip capture then ("pass", "Device has received new IP address.")
      else ("fail", "Device has not received new IP address.")).

(** [main]: the heading, the test and its description, and the result line. *)
Definition tests (ranges : list dhcp_range) (log : list string) (capture : list packet) :
    dict string (string * res verdict) :=
  [("connection.ipaddr.dhcp_disconnect",
     ("Reconnect device and check for DHCP request.", Ok (_test_dhcp_short log)));
   ("connection.ipaddr.ip_change",
     ("Device communicates after IP change.", _test_ip_change log capture));
   ("connection.ipaddr.private_address",
     ("Device supports all private address ranges.", _test_private_address ranges capture));
   ("connection.ipaddr.disconnect_ip_change",
     ("Device receives new IP address after IP change and port toggle.",
      _test_dhcp_change log capture))].

Definition main (ranges : list dhcp_range) (log : list string) (capture : list packet)
    (test_request : string) : M script unit :=
  write_report (dash_break_line +:+ test_request +:+ nl +:+ dash_break_line);;
  x ← match dget test_request (tests ranges log capture) with
      | Some (description, test) =>
          v ← lift test; write_report (description +:+ nl +:+ dash_break_line);; mret v
      | None => mret ("None", "None")
      end;
  write_report ("RESULT " +:+ (x : verdict).1 +:+ " " +:+ test_request +:+ " " +:+ x.2 +:+ nl).

(** ** Properties *)

Abbreviation mentions line text := (PyVal.substring text line = true) (only parsing).

(** [log] is a part without a mention of [running], a line that mentions it, and
    [rest]. *)
Definition started (running : string) (log rest : list string) : Prop :=
  ∃ before line, log = before ++ line :: rest ∧ mentions line running ∧
    Forall (λ l, PyVal.substring running l = false) before.
(** The first notification in [rest] *)
Definition first_notification (rest : list string) (line : string) : Prop :=
  ∃ before after, rest = before ++ line :: after ∧ mentions line ip_notification ∧
    Forall (λ l, PyVal.substring ip_notification l = false) before.

Lemma find_change_running running rest :
  match find_change running true rest with
  | Ok (b, ip) => b = true ∧
      match ip with
      | Some x => ∃ line, first_notification rest line ∧ notified_ip line = Ok x
      | None => Forall (λ l, PyVal.substring ip_notification l = false) rest
      end
  | Raise e => ∃ line, first_notification rest line ∧ notified_ip line = Raise e
  end.
Proof.
  induction rest as [|line rest IH]; simpl; [by repeat constructor|].
  destruct (PyVal.substring ip_notification line) eqn:Hn; simpl.
  - destruct (notified_ip line) as [ip|e] eqn:Hip; simpl; [split; [done|]|];
      exists line; (split; [|done]); by exists [], rest.
  - assert (∀ l, first_notification rest l → first_notification (line :: rest) l) as Hcons.
    { intros l (b & a & -> & Hl & Hb). exists (line :: b), a. repeat split; [done|]. by constructor. }
    destruct (find_change running true rest) as [[b ip]|e].
    + destruct IH as [-> IH]. split; [done|]. destruct ip as [x|].
      * destruct IH as (l & Hl & Hx). exists l. auto.
      * by constructor.
    + destruct IH as (l & Hl & Hx). exists l. auto.
Qed.

(** The loop before the test has started *)
Lemma find_change_waiting running log :
  (Forall (λ l, PyVal.substring running l = false) log ∧
     find_change running false log = Ok (false, None)) ∨
  ∃ rest, started running log rest ∧ find_change running false log = find_change running true rest.
Proof.
  induction log as [|line log IH]; [by left|]. simpl.
  destruct (PyVal.substring running line) eqn:Hr.
  - right. exists log. split; [by exists [], line|done].
  - destruct IH as [[Hall ->]|(rest & (b & l & -> & Hl & Hb) & ->)].
    + left. split; [by constructor|done].
    + right. exists rest. split; [|done]. exists (line :: b), l. repeat split; [done|]. by constructor.
Qed.

Lemma first_of_split {A} (P : A → Prop) b1 x1 r1 b2 x2 r2 :
  b1 ++ x1 :: r1 = b2 ++ x2 :: r2 → P x1 → P x2 → Forall (λ x, ¬ P x) b1 → Forall (λ x, ¬ P x) b2 →
  x1 = x2 ∧ r1 = r2.
Proof.
  revert b2. induction b1 as [|y b1 IH]; intros [|z b2] Heq H1 H2 Hb1 Hb2; simplify_eq/=; try done.
  - by inversion Hb2.
  - by inversion Hb1.
  - inversion Hb1; inversion Hb2; subst. by eapply IH.
Qed.

Lemma never_mentions text b :
  Forall (λ l, PyVal.substring text l = false) b → Forall (λ l, ¬ mentions l text) b.
Proof. intros H. eapply Forall_impl; [exact H|]. simpl. intros x Hx. by rewrite Hx. Qed.

Lemma started_unique running log rest rest' :
  started running log rest → started running log rest' → rest = rest'.
Proof.
  intros (b & l & -> & Hl & Hb) (b' & l' & Heq & Hl' & Hb').
  eapply (first_of_split (λ x, PyVal.substring running x = true)); [exact Heq|done|done|..];
    by apply never_mentions.
Qed.

Lemma first_unique rest line line' :
  first_notification rest line → first_notification rest line' → line = line'.
Proof.
  intros (b & a & -> & Hl & Hb) (b' & a' & Heq & Hl' & Hb').
  eapply (first_of_split (λ x, PyVal.substring ip_notification x = true)); [exact Heq|done|done|..];
    by apply never_mentions.
Qed.

Lemma ping_from_spec ip capture :
  ping_from ip capture = true ↔ ∃ p x, p ∈ capture ∧ icmp_src p = Some x ∧ ip = Some x.
Proof.
  unfold ping_from. rewrite existsb_exists. setoid_rewrite <- list_elem_of_In. split.
  - intros (p & Hp & H). exists p. destruct (icmp_src p) as [x|], ip as [y|]; try done.
    apply bool_decide_eq_true in H as ->. by exists y.
  - intros (p & x & Hp & Hx & ->). exists p. rewrite Hx. by rewrite bool_decide_true.
Qed.

(** The address of the first notification after the test started *)
Definition changed_to (running : string) (log : list string) (ip : string) : Prop :=
  ∃ rest line, started running log rest ∧ first_notification rest line ∧ notified_ip line = Ok ip.

Lemma find_change_spec running log :
  (∀ line, line ∈ log → mentions line ip_notification → is_ok (notified_ip line) = true) →
  ∃ run ip, find_change running false log = Ok (run, ip) ∧
    (run = false ↔ Forall (λ l, PyVal.substring running l = false) log) ∧
    (∀ x, ip = Some x ↔ changed_to running log x).
Proof.
  intros Hlog. destruct (find_change_waiting running log) as [[Hall ->]|(rest & Hrest & ->)].
  - exists false, None. split; [done|]. split; [done|]. intros x. split; [done|].
    intros (rest & line & (b & l & -> & Hl & _) & _). apply Forall_app in Hall as [_ Hall].
    inversion Hall; congruence.
  - pose proof (find_change_running running rest) as Hf.
    assert (∀ line, first_notification rest line → is_ok (notified_ip line) = true) as Hok.
    { intros line (b & a & -> & Hl & _). destruct Hrest as (b' & l' & -> & _). apply Hlog; set_solver. }
    destruct (find_change running true rest) as [[b ip]|e].
    + destruct Hf as [-> Hf]. exists true, ip. split; [done|]. split.
      { split; [done|]. destruct Hrest as (b & l & -> & Hl & _). intros H.
        apply Forall_app in H as [_ H]. inversion H; congruence. }
      intros x. split.
      * intros ->. destruct Hf as (line & Hl & Hx). by exists rest, line.
      * intros (rest' & line & Hs & Hl & Hx). rewrite <- (started_unique _ _ _ _ Hrest Hs) in Hl.
        destruct ip as [y|].
        -- destruct Hf as (line' & Hl' & Hy). rewrite (first_unique _ _ _ Hl Hl') in Hx. congruence.
        -- destruct Hl as (b & a & -> & Hl & _). apply Forall_app in Hf as [_ Hf].
           inversion Hf; congruence.
    + destruct Hf as (line & Hl & He). specialize (Hok line Hl). by rewrite He in Hok.
Qed.

(** The test of a changed address.  If every notification in the log names
    an address, the test ends with a verdict: [skip] exactly when the log never
    says that the test ran, and [pass] exactly when a ping came from the address
    of the first notification after the test had started. *)
Theorem ip_change_correct (log : list string) (capture : list packet)
    (Hlog : ∀ line, line ∈ log → mentions line ip_notification → is_ok (notified_ip line) = true) :
  ∃ v, _test_ip_change log capture = Ok v ∧
    (v.1 = "skip" ↔ Forall (λ l, PyVal.substring running_ip_change l = false) log) ∧
    (v.1 = "pass" ↔ ∃ ip p, changed_to running_ip_change log ip ∧ p ∈ capture ∧ icmp_src p = Some ip).
Proof.
  destruct (find_change_spec running_ip_change log Hlog) as (run & ip & Hf & Hrun & Hip).
  unfold _test_ip_change. rewrite Hf. simpl.
  assert (run = false → ip = None) as Hnone.
  { intros ->. destruct ip as [x|]; [|done]. destruct (proj1 (Hip x) eq_refl)
      as (rest & line & (b & l & Heq & Hl & _) & _).
    pose proof (proj1 Hrun eq_refl) as Hall. rewrite Heq in Hall.
    apply Forall_app in Hall as [_ Hall]. inversion Hall; congruence. }
  setoid_rewrite <- Hip. setoid_rewrite <- Hrun. destruct run; simpl.
  - destruct ip as [x|].
    + destruct (ping_from (Some x) capture) eqn:E; eexists; (split; [done|]); (split; [done|]).
      * split; [|done]. intros _. apply ping_from_spec in E as (p & y & Hp & Hy & [= ->]). eauto.
      * split; [done|]. intros (y & p & [= ->] & Hp & Hy).
        assert (ping_from (Some y) capture = true) by (apply ping_from_spec; eauto). congruence.
    + eexists. split; [done|]. split; [done|]. split; [done|]. by intros (y & p & ? & _).
  - rewrite Hnone by done. eexists. split; [done|]. split; [done|]. split; [done|].
    by intros (y & p & ? & _).
Qed.

(** The test of a changed lease is never skipped: when the log never says that it
    ran, it fails. *)
Theorem dhcp_change_never_skips (log : list string) (capture : list packet) :
  (∀ v, _test_dhcp_change log capture = Ok v → v.1 ≠ "skip") ∧
  (Forall (λ l, PyVal.substring running_dhcp_change l = false) log →
   _test_dhcp_change log capture = Ok ("fail", "Device has not received new IP address.")).
Proof.
  unfold _test_dhcp_change. split.
  - destruct (find_change running_dhcp_change false log) as [[run ip]|e]; simpl; intros v Hv; [|done].
    destruct (ping_from ip capture); by simplify_eq.
  - intros Hall. destruct (find_change_waiting running_dhcp_change log) as [[_ ->]|(rest & Hs & _)].
    + simpl. destruct (ping_from None capture) eqn:E; [|done].
      by apply ping_from_spec in E as (p & x & _ & _ & ?).
    + destruct Hs as (b & l & -> & Hl & _). apply Forall_app in Hall as [_ Hall].
      inversion Hall; congruence.
Qed.

Lemma supports_range_spec start end_ capture b :
  _supports_range start end_ capture = Ok b →
  (b = true ↔ ∃ p, p ∈ capture ∧ requests_in start end_ p = Ok true).
Proof.
  revert b. induction capture as [|p capture IH]; simpl; intros b H; [simplify_eq; set_solver|].
  destruct (requests_in start end_ p) as [found|] eqn:E; simpl in H; [|done].
  destruct (_supports_range start end_ capture) as [rest|] eqn:F; simpl in H; [|done].
  injection H as <-. rewrite orb_true_iff, (IH rest eq_refl). split.
  - intros [->|(q & Hq & H)]; [exists p; set_solver|exists q; set_solver].
  - intros (q & [->|Hq]%elem_of_cons & H); [left; congruence|eauto].
Qed.

(** The test of private addresses passes exactly when there are ranges and for
    each of them some DHCP request asked for an address inside of it. *)
Theorem private_address_correct (ranges : list dhcp_range) (capture : list packet) (v : verdict)
    (Hv : _test_private_address ranges capture = Ok v) :
  (v.1 = "skip" ↔ ranges = []) ∧
  (v.1 = "pass" ↔ ranges ≠ [] ∧
     ∀ r, r ∈ ranges → ∃ p, p ∈ capture ∧ requests_in (range_start r) (range_end r) p = Ok true).
Proof.
  unfold _test_private_address in Hv. case_bool_decide as Hr; [simplify_eq/=; naive_solver|].
  destruct (all_supported capture ranges) as [b|] eqn:E; simpl in Hv; [|done].
  assert (b = true ↔ ∀ r, r ∈ ranges →
    ∃ p, p ∈ capture ∧ requests_in (range_start r) (range_end r) p = Ok true) as Hb.
  { clear Hv Hr. revert b E. induction ranges as [|r ranges IH]; simpl; intros b E;
      [simplify_eq; set_solver|].
    destruct (_supports_range (range_start r) (range_end r) capture) as [ok|] eqn:F; simpl in E; [|done].
    destruct (all_supported capture ranges) as [rest|]; simpl in E; [|done].
    injection E as <-. rewrite andb_true_iff, (supports_range_spec _ _ _ _ F), (IH rest eq_refl).
    setoid_rewrite elem_of_cons. naive_solver. }
  destruct b; simplify_eq/=; split; try done; rewrite <- Hb; naive_solver.
Qed.

Definition demo_log : list string :=
  ["10:00 ip notification 10.20.1.5 of device"; "10:01 running ip change test";
   "10:02 ip notification 10.20.1.9 of device"].

Lemma ip_change_correct_witness :
  ∃ v, _test_ip_change demo_log [mkPacket None (Some "10.20.1.9")] = Ok v ∧
    (v.1 = "skip" ↔ Forall (λ l, PyVal.substring running_ip_change l = false) demo_log) ∧
    (v.1 = "pass" ↔ ∃ ip p, changed_to running_ip_change demo_log ip ∧
       p ∈ [mkPacket None (Some "10.20.1.9")] ∧ icmp_src p = Some ip).
Proof.
  apply (ip_change_correct demo_log [mkPacket None (Some "10.20.1.9")]).
  intros line Hl Hm. unfold demo_log in Hl.
  repeat (apply elem_of_cons in Hl as [->|Hl]; [vm_compute in Hm |- *; congruence|]).
  by apply elem_of_nil in Hl.
Defined.

End DhcpTests.
