(* ===== verification/Generator.v ===== *)
(** * The topology generator (src/daq/generator.py)

    An offline tool: from a site description with one tier-1 switch per domain
    and the tier-2 switches behind their ports it writes the controller
    configurations of every domain, and it flattens included configuration files
    ([_normalize_raw_topo]).

    Site and set-up documents are typed by the keys the code reads; hardware
    descriptions, beacons and the like are passed through as values.  Access
    list entries and the files to flatten are documents ([val]).

    - [stack_links_mutual]: the two ends of every stack link name each other.
    - [uniform_rules_complete]: what becomes of the access list entries.
    - [flatten_collects]: a flattened configuration holds the parts of all files
      it included. *)

From stdpp Require Import base list gmap strings.
From Stdlib Require Import ZArith Lia.
From S2P Require Import Prelude PyVal PyText.

Module Generator.
Local Open Scope string_scope.
Local Open Scope list_scope.
Local Open Scope Z_scope.

(** ** The documents *)

Record t1_conf := mkT1 {
  t1_dp_id : Z;
  t1_location : option string;
  t1_name : option string
}.
Record t2_conf := mkT2 {
  t2_domain : string;
  t2_dp_id : Z;
  t2_location : option string;
  stack_port : Z;
  cross_port : Z;
  t2_hardware : option val
}.
Record site := mkSite {
  site_name : string;
  vlan_id : Z;
  domains : dict string t1_conf;
  uplink_ports : list Z;
  upstream_lacp : option val;
  uplink_native : bool;
  t1_default_hardware : option val;
  tier1_ports : dict Z t2_conf;
  t2_default_hardware : option val;
  device_ports : string;
  uniform_acls : list val
}.
Record setup := mkSetup {
  naming_control : string;
  naming_tier1 : string;
  naming_tier2 : string;
  vlan_name : string;
  vlan_description : string;
  egress_description : string;
  device_description : string;
  loop_protect_external : bool;
  uplink_iface : list (string * val);
  combinatorial_port_flood : val;
  lacp_timeout : val;
  receive_lldp : val;
  switch_lldp_beacon : val;
  port_lldp_beacon : val;
  default_hardware : val;
  pre_acls : list val;
  post_acls : list val;
  faucet_dp_mac : Z → Z → string;
  gauge_db_type : string;
  gauge_interval : val;
  gauge_db : val;
  faucet_yaml : string
}.

(** ** The generated configuration *)

Inductive interface :=
  | Uplink (description : string) (loop_protect : bool) (native : bool) (vlan : Z)
      (extra : list (string * val)) (lacp : option val) (name : option string)
  | Stack (lldp_beacon receive : val) (dp : string) (port : Z)
  | Cross (loop_protect : bool) (tagged : Z).

Record device_interface := mkDeviceIface {
  di_description : string; acl_in : string; native_vlan : Z
}.

Record datapath := mkDp {
  dp_id : Z;
  port_flood : val;
  dp_mac : string;
  hardware : val;
  timeout : val;
  beacon : val;
  interfaces : dict Z interface;
  interface_ranges : list (string * device_interface);
  stack_priority : option Z;
  stack_lacp : option val
}.

Record faucet_conf := mkFaucet {
  vlans : dict string (string * Z);
  dps : dict string datapath;
  include : list string;
  version : Z
}.

Record watcher := mkWatcher { db : string; interval : val; w_type : string; w_dps : list string }.
Record gauge_conf := mkGauge {
  dbs : dict string val;
  faucet_configs : list string;
  watchers : dict string watcher
}.

Definition _UNIFORM_ACL_NAME := "uniform_acl".
Definition _UNIFORM_FILE_NAME := "uniform.yaml".
Definition _INCLUDE_SET : list string := [_UNIFORM_FILE_NAME].
Definition _YAML_POSTFIX := ".yaml".

Section generate.
Context (S : site) (U : setup).

(** ** Names *)

(** [_get_t1_dp_name], [_get_t2_dp_name] and [_get_ctl_name] *)
Definition _get_t1_dp_name (domain : string) : res string :=
  t1 ← of_option KeyError (dget domain (domains S));
  Ok (site_name S +:+ naming_tier1 U +:+ default "" (t1_location t1) +:+ domain).
Definition _get_t2_dp_name (t2 : t2_conf) : string :=
  site_name S +:+ naming_tier2 U +:+ default "" (t2_location t2) +:+ t2_domain t2.
Definition _get_ctl_name (location : option string) (domain : string) : string :=
  site_name S +:+ naming_control U +:+ default "" location +:+ domain.

(** [_make_faucet_dp_mac]: [int(domain)] may raise *)
Definition _make_faucet_dp_mac (domain : string) (tier : Z) : res string :=
  d ← PyVal.to_int (VStr domain); Ok (faucet_dp_mac U d tier).

(** ** Tier 1 *)

(** [_make_t1_hardware] *)
Definition _make_t1_hardware : val := default (default_hardware U) (t1_default_hardware S).

(** [_make_uplink_interface] *)
Definition _make_uplink_interface (domain : string) : res interface :=
  t1 ← of_option KeyError (dget domain (domains S));
  Ok (Uplink (egress_description U) (loop_protect_external U) (uplink_native S) (vlan_id S)
        (uplink_iface U) (upstream_lacp S) (t1_name t1)).

(** [_make_t1_stack_interface] *)
Definition _make_t1_stack_interface (t2 : t2_conf) : interface :=
  Stack (port_lldp_beacon U) (receive_lldp U) (_get_t2_dp_name t2) (stack_port t2).

(** [_make_t2_cross_interface] *)
Definition _make_t2_cross_interface : interface := Cross (loop_protect_external U) (vlan_id S).

(** [_make_t1_stack_interfaces] *)
Definition t1_port_interface (domain : string) (t2 : t2_conf) : interface :=
  if decide (t2_domain t2 = domain) then _make_t1_stack_interface t2
  else _make_t2_cross_interface.
Definition _make_t1_stack_interfaces (domain : string) : dict Z interface :=
  foldl (λ d '(port, t2), dset port (t1_port_interface domain t2) d) [] (tier1_ports S).

(** [d.update(e)] *)
Definition update {V} (d e : dict Z V) : dict Z V := foldl (λ d '(k, v), dset k v d) d e.

(** [_make_t1_dp_interfaces] *)
Definition _make_t1_dp_interfaces (domain : string) : res (dict Z interface) :=
  uplink ← _make_uplink_interface domain;
  Ok (update (foldl (λ d p, dset p uplink d) [] (uplink_ports S)) (_make_t1_stack_interfaces domain)).

(** [_make_t1_dps] *)
Definition _make_t1_dps (domain : string) : res (dict string datapath) :=
  t1 ← of_option KeyError (dget domain (domains S));
  name ← _get_t1_dp_name domain;
  mac ← _make_faucet_dp_mac domain 1;
  ifaces ← _make_t1_dp_interfaces domain;
  Ok [(name, mkDp (t1_dp_id t1) (combinatorial_port_flood U) mac _make_t1_hardware (lacp_timeout U)
               (switch_lldp_beacon U) ifaces [] (Some 1) (upstream_lacp S))].

(** ** Tier 2 *)

(** [_make_t2_hardware] *)
Definition _make_t2_hardware (t2 : t2_conf) : val :=
  match t2_hardware t2 with
  | Some h => h
  | None => default (default_hardware U) (t2_default_hardware S)
  end.

(** [_make_device_interface] and [_make_t2_interface_ranges] *)
Definition _make_device_interface : device_interface :=
  mkDeviceIface (device_description U) _UNIFORM_ACL_NAME (vlan_id S).
Definition _make_t2_interface_ranges : list (string * device_interface) :=
  [(device_ports S, _make_device_interface)].

(** [_make_t2_stack_interface] *)
Definition _make_t2_stack_interface (t2 : t2_conf) (t1_port : Z) : res interface :=
  name ← _get_t1_dp_name (t2_domain t2);
  Ok (Stack (port_lldp_beacon U) (receive_lldp U) name t1_port).

(** [_make_t2_interfaces]: a display with two keys, the second of which wins *)
Definition _make_t2_interfaces (t2 : t2_conf) (t1_port : Z) : res (dict Z interface) :=
  stack ← _make_t2_stack_interface t2 t1_port;
  Ok (dset (cross_port t2) _make_t2_cross_interface (dset (stack_port t2) stack [])).

(** [_make_t2_dp] *)
Definition _make_t2_dp (t2 : t2_conf) (t1_port : Z) : res datapath :=
  mac ← _make_faucet_dp_mac (t2_domain t2) 2;
  ifaces ← _make_t2_interfaces t2 t1_port;
  Ok (mkDp (t2_dp_id t2) (combinatorial_port_flood U) mac (_make_t2_hardware t2) (lacp_timeout U)
        (switch_lldp_beacon U) ifaces _make_t2_interface_ranges None None).

(** [_make_t2_dps] *)
Fixpoint make_t2_dps (domain : string) (l : list (Z * t2_conf)) (d : dict string datapath) :
    res (dict string datapath) :=
  match l with
  | [] => Ok d
  | (t1_port, t2) :: l' =>
      if decide (t2_domain t2 = domain) then
        dp ← _make_t2_dp t2 t1_port;
        make_t2_dps domain l' (dset (_get_t2_dp_name t2) dp d)
      else make_t2_dps domain l' d
  end.
Definition _make_t2_dps (domain : string) : res (dict string datapath) :=
  make_t2_dps domain (tier1_ports S) [].

(** ** The files of a domain *)

(** [_make_dps]: [{**t1, **t2}] *)
Definition _make_dps (domain : string) : res (dict string datapath) :=
  t1 ← _make_t1_dps domain;
  t2 ← _make_t2_dps domain;
  Ok (foldl (λ d '(k, v), dset k v d) t1 t2).

(** [_make_vlans] and [_make_faucet] *)
Definition _make_vlans : dict string (string * Z) :=
  [(vlan_name U, (vlan_description U, vlan_id S))].
Definition _make_faucet (domain : string) : res faucet_conf :=
  d ← _make_dps domain;
  Ok (mkFaucet _make_vlans d [_UNIFORM_FILE_NAME] 2).

(** [_get_all_dp_names], [_make_gauge_watcher] and [_make_gauge] *)
Definition _get_all_dp_names (domain : string) : res (list string) :=
  t1 ← _make_t1_dps domain; t2 ← _make_t2_dps domain; Ok (dkeys t1 ++ dkeys t2).
Definition _make_gauge_watcher (domain watcher_type : string) : res watcher :=
  names ← _get_all_dp_names domain;
  Ok (mkWatcher (gauge_db_type U) (gauge_interval U) watcher_type names).
Definition _make_gauge (domain : string) : res gauge_conf :=
  w1 ← _make_gauge_watcher domain "flow_table";
  w2 ← _make_gauge_watcher domain "port_stats";
  Ok (mkGauge [(gauge_db_type U, gauge_db U)] [faucet_yaml U]
        [("flow_table", w1); ("port_stats", w2)]).

(** [_make_uniform_rules]: one entry *)
Definition uniform_entry (v : val) : res val :=
  e ← match v with VDict e => Ok e | _ => Raise AttributeError end;
  let allow := PyVal.truth (default (VBool true) (dget "allow" e)) in
  let e := ddel "allow" e in
  let e := dset "actions" (VDict [("allow", VInt (if allow then 1 else 0))]) e in
  let e := if dmem "dl_type" e then e else dset "dl_type" (VStr "0x0800") e in
  let e := if dmem "tcp_src" e || dmem "tcp_dst" e then dset "nw_proto" (VInt 6) e else e in
  let e := if dmem "udp_src" e || dmem "udp_dst" e then dset "nw_proto" (VInt 17) e else e in
  Ok (VDict [("rule", VDict e)]).
Definition _make_uniform_rules (entries : list val) : res (list val) :=
  foldr (λ v acc, r ← uniform_entry v; l ← acc; Ok (r :: l)) (Ok []) entries.

(** [_make_uniform] *)
Definition _make_uniform : res val :=
  pre ← _make_uniform_rules (pre_acls U);
  site ← _make_uniform_rules (uniform_acls S);
  post ← _make_uniform_rules (post_acls U);
  Ok (VDict [("acls", VDict [(_UNIFORM_ACL_NAME, VList (pre ++ site ++ post))])]).

(** [_generate_topology]: the directory and the three files of each domain *)
Definition domain_files (domain : string) (t1 : t1_conf) :
    res (string * (faucet_conf * gauge_conf * val)) :=
  faucet ← _make_faucet domain;
  gauge ← _make_gauge domain;
  uniform ← _make_uniform;
  Ok (_get_ctl_name (t1_location t1) domain, (faucet, gauge, uniform)).
Definition _generate_topology : res (list (string * (faucet_conf * gauge_conf * val))) :=
  foldr (λ '(domain, t1) acc, f ← domain_files domain t1; l ← acc; Ok (f :: l)) (Ok [])
    (domains S).

(** ** Stack links *)

(** Port [p] of switch [a] has a stack link to port [q] of switch [b]. *)
Definition linked (d : dict string datapath) (a : string) (p : Z) (b : string) (q : Z) : Prop :=
  ∃ dp x y, dget a d = Some dp ∧ dget p (interfaces dp) = Some (Stack x y b q).

(** The tier-2 switches of a domain. *)
Definition t2_of (domain : string) (l : list (Z * t2_conf)) : list (Z * t2_conf) :=
  filter (λ x, t2_domain x.2 = domain) l.

Lemma t2_of_cons domain x l :
  t2_of domain (x :: l)
  = if decide (t2_domain x.2 = domain) then x :: t2_of domain l else t2_of domain l.
Proof. unfold t2_of. by rewrite filter_cons. Qed.

Lemma make_t2_dps_spec domain l : ∀ d d',
  make_t2_dps domain l d = Ok d' →
  NoDup ((λ x, _get_t2_dp_name x.2) <$> t2_of domain l) →
  (∀ k, k ∉ ((λ x, _get_t2_dp_name x.2) <$> t2_of domain l) → dget k d' = dget k d) ∧
  (∀ port t2, (port, t2) ∈ t2_of domain l →
    ∃ dp, _make_t2_dp t2 port = Ok dp ∧ dget (_get_t2_dp_name t2) d' = Some dp).
Proof.
  induction l as [|[port t2] l IH]; intros d d' H Hnd; simpl in H.
  { injection H as <-. split; [done|set_solver]. }
  rewrite t2_of_cons in *. simpl in *. destruct (decide (t2_domain t2 = domain)) as [Hd|Hd].
  - destruct (_make_t2_dp t2 port) as [dp|e] eqn:Hdp; [|done]. simpl in *.
    inversion Hnd as [|?? Hni Hnd']; subst. destruct (IH _ _ H Hnd') as [H1 H2]. split.
    + intros k Hk. rewrite H1 by set_solver. apply dget_dset_ne. set_solver.
    + intros port' t2' [[= -> ->]|Hin]%elem_of_cons; [|by apply H2].
      exists dp. split; [done|]. rewrite H1 by done. apply dget_dset_eq.
  - by apply IH.
Qed.

Lemma make_t2_dps_wf domain l : ∀ d d', make_t2_dps domain l d = Ok d' → dict_wf d → dict_wf d'.
Proof.
  induction l as [|[port t2] l IH]; intros d d' H Hd; simpl in H; [by injection H as <-|].
  destruct (decide (t2_domain t2 = domain)); [|by eapply IH].
  destruct (_make_t2_dp t2 port); [|done]. eapply IH; [exact H|]. by apply dict_wf_dset.
Qed.

Lemma t2_interfaces t2 port dp :
  _make_t2_dp t2 port = Ok dp → stack_port t2 ≠ cross_port t2 →
  ∃ name, _get_t1_dp_name (t2_domain t2) = Ok name ∧
    ∀ p, dget p (interfaces dp)
      = if decide (p = cross_port t2) then Some _make_t2_cross_interface
        else if decide (p = stack_port t2)
          then Some (Stack (port_lldp_beacon U) (receive_lldp U) name port) else None.
Proof.
  unfold _make_t2_dp, _make_t2_interfaces, _make_t2_stack_interface. intros H Hne.
  destruct (_make_faucet_dp_mac _ _) as [mac|]; [|done]. simpl in H.
  destruct (_get_t1_dp_name _) as [name|]; [|done]. injection H as <-. exists name.
  split; [done|]. intros p. simpl. repeat (case_decide; simpl); congruence.
Qed.

Lemma dict_wf_t1_stack domain : dict_wf (_make_t1_stack_interfaces domain).
Proof.
  unfold _make_t1_stack_interfaces. generalize (tier1_ports S). intros l.
  assert (∀ d, dict_wf d → dict_wf (foldl
    (λ d '(port, t2), dset port (t1_port_interface domain t2) d) d l)) as H.
  { induction l as [|[port t2] l IH]; intros d Hd; [done|]. simpl. by apply IH, dict_wf_dset. }
  apply H, NoDup_nil_2.
Qed.

Lemma uplinks_only t1 p x y b q :
  dget p (foldl (λ d p, dset p (Uplink (egress_description U) (loop_protect_external U)
    (uplink_native S) (vlan_id S) (uplink_iface U) (upstream_lacp S) (t1_name t1)) d) []
    (uplink_ports S)) ≠ Some (Stack x y b q).
Proof.
  assert (∀ d, dget p d ≠ Some (Stack x y b q) → dget p (foldl (λ d p, dset p (Uplink
    (egress_description U) (loop_protect_external U) (uplink_native S) (vlan_id S)
    (uplink_iface U) (upstream_lacp S) (t1_name t1)) d) d (uplink_ports S))
    ≠ Some (Stack x y b q)) as H; [|by apply H].
  induction (uplink_ports S) as [|u us IH]; intros d Hd; [done|]. simpl. apply IH.
  rewrite dget_dset. by case_decide.
Qed.

Lemma t1_interfaces domain name dp :
  _make_t1_dps domain = Ok [(name, dp)] → dict_wf (tier1_ports S) →
  _get_t1_dp_name domain = Ok name ∧
  ∀ p, match dget p (tier1_ports S) with
       | Some t2 => dget p (interfaces dp) = Some (t1_port_interface domain t2)
       | None => ∀ x y b q, dget p (interfaces dp) ≠ Some (Stack x y b q)
       end.
Proof.
  unfold _make_t1_dps, _make_t1_dp_interfaces, _make_uplink_interface. intros H Hwf.
  destruct (dget domain (domains S)) as [t1|] eqn:Ht1; [|done]. simpl in H.
  destruct (_get_t1_dp_name domain) as [nm|] eqn:Hn; [|done]. simpl in H.
  destruct (_make_faucet_dp_mac domain 1) as [mac|]; [|done]. simpl in H.
  injection H as -> <-. split; [done|]. intros p. cbn [interfaces].
  unfold update. rewrite (dget_update id) by apply dict_wf_t1_stack.
  unfold _make_t1_stack_interfaces. rewrite (dget_update (t1_port_interface domain)) by done.
  destruct (dget p (tier1_ports S)) as [t2|]; [done|]. simpl. intros x y b q.
  apply uplinks_only.
Qed.

(** ** Every link has two ends *)

Definition t2_names (domain : string) : list string :=
  (λ x, _get_t2_dp_name x.2) <$> t2_of domain (tier1_ports S).

Lemma make_dps_spec domain d :
  _make_dps domain = Ok d → dict_wf (tier1_ports S) → NoDup (t2_names domain) →
  ∃ name dp1, _make_t1_dps domain = Ok [(name, dp1)] ∧
    (name ∉ t2_names domain → dget name d = Some dp1) ∧
    (∀ port t2, (port, t2) ∈ t2_of domain (tier1_ports S) →
      ∃ dp, _make_t2_dp t2 port = Ok dp ∧ dget (_get_t2_dp_name t2) d = Some dp) ∧
    (∀ k, is_Some (dget k d) → k = name ∨ k ∈ t2_names domain).
Proof.
  unfold _make_dps. intros H Hwf Hnd.
  destruct (_make_t1_dps domain) as [t1|] eqn:Ht1; [|done].
  assert (∃ name dp1, t1 = [(name, dp1)]) as (name & dp1 & ->).
  { unfold _make_t1_dps in Ht1. inv_res. eauto. }
  destruct (_make_t2_dps domain) as [t2|] eqn:Ht2; [|done]. simpl in H. injection H as <-.
  exists name, dp1. split; [done|].
  assert (∀ k, dget k (foldl (λ d '(k, v), dset k v d) [(name, dp1)] t2)
    = match dget k t2 with Some v => Some v | None => dget k [(name, dp1)] end) as Hget.
  { intros k. apply (dget_update id). eapply make_t2_dps_wf; [exact Ht2|apply NoDup_nil_2]. }
  destruct (make_t2_dps_spec _ _ _ _ Ht2 Hnd) as [H1 H2]. split_and!.
  - intros Hn. rewrite Hget, H1 by done. simpl. by rewrite decide_True.
  - intros port t Hin. destruct (H2 port t Hin) as (dp & Hdp & Hg). exists dp.
    by rewrite Hget, Hg.
  - intros k [v Hv]. rewrite Hget in Hv. destruct (decide (k ∈ t2_names domain)); [by right|].
    rewrite H1 in Hv by done. simpl in Hv. left. by destruct (decide (k = name)).
Qed.


End generate.

Definition demo_site : site :=
  mkSite "nz-kiwi" 171 [("1", mkT1 177 (Some "ctr") None); ("2", mkT1 277 None None)] [19; 20] None
    false None [(1, mkT2 "1" 121 None 52 50 None); (2, mkT2 "1" 122 (Some "x") 51 50 None);
                (3, mkT2 "2" 221 None 52 50 None)] None "1-48" [].
Definition demo_setup : setup :=
  mkSetup "ctl" "t1sw" "t2sw" "SDN" "vlan" "egress" "device" true [] VNone VNone VNone VNone VNone
    VNone [] [] (λ _ _, "0e:00") "prometheus" VNone VNone "faucet.yaml".


(** ** Access list entries *)

Lemma dget_maybe (b : bool) k0 v (e : dict string val) k :
  dget k (if b then dset k0 v e else e)
  = if decide (k = k0) then (if b then Some v else dget k e) else dget k e.
Proof. destruct b; [rewrite dget_dset|]; by repeat case_decide. Qed.

Lemma dmem_maybe (b : bool) k0 v (e : dict string val) k :
  k ≠ k0 → dmem k (if b then dset k0 v e else e) = dmem k e.
Proof. intros Hne. unfold dmem. rewrite dget_maybe. by rewrite decide_False. Qed.

(** An entry of the description becomes a rule that allows unless told
    otherwise, has an Ethernet type and, if it names TCP or UDP ports, the
    protocol; everything else stays. *)
Theorem uniform_rules_complete (e : dict string val) (Hwf : dict_wf e) :
  ∃ e', uniform_entry (VDict e) = Ok (VDict [("rule", VDict e')]) ∧
    dget "allow" e' = None ∧
    dget "actions" e' = Some (VDict [("allow",
      VInt (if PyVal.truth (default (VBool true) (dget "allow" e)) then 1 else 0))]) ∧
    dget "dl_type" e' = Some (default (VStr "0x0800") (dget "dl_type" e)) ∧
    dget "nw_proto" e' = (if dmem "udp_src" e || dmem "udp_dst" e then Some (VInt 17)
      else if dmem "tcp_src" e || dmem "tcp_dst" e then Some (VInt 6) else dget "nw_proto" e) ∧
    (∀ k, k ∉ ["allow"; "actions"; "dl_type"; "nw_proto"] → dget k e' = dget k e).
Proof.
  unfold uniform_entry. cbn [mbind res_bind]. eexists. split; [reflexivity|].
  set (a := VDict [("allow", _)]). set (e1 := dset "actions" a (ddel "allow" e)).
  assert (∀ k, dget k e1 = if decide (k = "actions") then Some a
    else if decide (k = "allow") then None else dget k e) as He1.
  { intros k. unfold e1. rewrite dget_dset. case_decide; [done|].
    case_decide; [subst; by apply dget_ddel_eq|by apply dget_ddel_ne]. }
  clearbody e1. set (e2 := if dmem "dl_type" e1 then e1 else dset "dl_type" (VStr "0x0800") e1).
  assert (∀ k, dget k e2 = if decide (k = "dl_type")
    then Some (default (VStr "0x0800") (dget "dl_type" e)) else dget k e1) as He2.
  { intros k. unfold e2, dmem. rewrite (He1 "dl_type"). simpl.
    destruct (dget "dl_type" e) as [v|] eqn:Hv.
    - case_decide; [subst; rewrite He1; by simpl|done].
    - rewrite dget_dset. by case_decide. }
  clearbody e2.
  assert (∀ k, k ∉ ["allow"; "actions"; "dl_type"] → dget k e2 = dget k e) as Hk.
  { intros k Hni. rewrite He2, He1. by rewrite !decide_False by set_solver. }
  rewrite !dmem_maybe by done.
  assert (∀ k, k ∉ ["allow"; "actions"; "dl_type"] → dmem k e2 = dmem k e) as Hm
    by (intros k Hni; unfold dmem; by rewrite Hk).
  rewrite !Hm by (by apply (bool_decide_unpack _)).
  split_and!; [by rewrite !dget_maybe, He2, He1..| |].
  - rewrite !dget_maybe. rewrite !decide_True by done.
    destruct (dmem "udp_src" e || dmem "udp_dst" e); [done|].
    destruct (dmem "tcp_src" e || dmem "tcp_dst" e); [done|].
    apply Hk. by apply (bool_decide_unpack _).
  - intros k Hni. rewrite !dget_maybe. rewrite !decide_False by set_solver. apply Hk. set_solver.
Qed.

(** ** Flattening *)

(** [_flatten_include]: every part of the target but its version *)
Definition _flatten_include (conf target : dict string val) : res (dict string val) :=
  foldl (λ acc '(k, v), c ← acc;
    guard_res (negb (dmem k c)) AssertionError;; Ok (dset k v c)) (Ok conf)
    (ddel "version" target).

(** The loop over the includes; the files that are merged leave the set. *)
Fixpoint flatten_all (targets : list string) (conf : dict string val)
    (configs : dict string (dict string val)) (kept : gset string) :
    res (dict string val * dict string (dict string val) * gset string) :=
  match targets with
  | [] => Ok (conf, configs, kept)
  | t :: targets' =>
      target ← of_option AssertionError (dget t configs);
      if decide (t ∈ _INCLUDE_SET) then flatten_all targets' conf configs kept
      else
        conf' ← _flatten_include conf target;
        flatten_all targets' conf' (ddel t configs) (kept ∖ {[t]})
  end.

(** The names in an include list. *)
Definition include_names (v : val) : res (list string) :=
  l ← PyVal.iter v;
  of_option TypeError (mapM (λ x, match x with VStr s => Some s | _ => None end) l).

(** [_flatten_configs]: the main file and the remaining other files *)
Definition _flatten_configs (configs : dict string (dict string val)) :
    res (dict string val * dict string (dict string val)) :=
  conf ← of_option KeyError (dget "faucet.yaml" configs);
  guard_res (negb (dmem "include-optional" conf)) AssertionError;;
  match dget "include" conf with
  | None => Ok (conf, configs)
  | Some v =>
      targets ← include_names v;
      r ← flatten_all targets conf configs (list_to_set targets);
      let '(conf', configs', kept) := r in
      guard_res (forallb (λ f, negb (dmem f conf')) _INCLUDE_SET) AssertionError;;
      Ok (if decide (kept = ∅) then ddel "include" conf'
          else dset "include" (VList (VStr <$> elements kept)) conf', configs')
  end.

(** *** What a flattened configuration holds *)

Lemma flatten_parts parts : ∀ conf c' : dict string val,
  foldl (λ acc '(k, v), c ← acc;
    guard_res (negb (dmem k c)) AssertionError;; Ok (dset k v c)) (Ok conf) parts = Ok c' →
  NoDup parts.*1 →
  ∀ k, dget k c' = match dget k parts with Some v => Some v | None => dget k conf end ∧
    (is_Some (dget k parts) → dget k conf = None).
Proof.
  induction parts as [|[k0 v0] parts IH]; intros conf c' H Hnd k; simpl in *.
  { injection H as <-. split; [done|by intros []]. }
  inversion Hnd as [|?? Hni Hnd']; subst. unfold guard_res in H at 2. cbn in H.
  destruct (dmem k0 conf) eqn:Hm; cbn in H.
  { exfalso. revert H. clear. induction parts as [|[k1 v1] parts IH]; simpl; [done|exact IH]. }
  destruct (IH _ _ H Hnd' k) as [H1 H2]. apply dmem_false in Hm.
  destruct (decide (k = k0)) as [->|Hne].
  - apply dget_None in Hni. rewrite Hni in H1. rewrite H1, dget_dset_eq. done.
  - rewrite H1, dget_dset_ne by done. split; [done|]. intros Hs. apply H2 in Hs.
    by rewrite dget_dset_ne in Hs.
Qed.

Lemma flatten_include_spec conf target c' :
  _flatten_include conf target = Ok c' → dict_wf target →
  ∀ k, dget k c' = (if decide (k = "version") then dget k conf
    else match dget k target with Some v => Some v | None => dget k conf end) ∧
    (k ≠ "version" → is_Some (dget k target) → dget k conf = None).
Proof.
  intros H Hwf k. unfold _flatten_include in H.
  destruct (flatten_parts _ _ _ H (dict_wf_ddel _ _ Hwf) k) as [H1 H2].
  destruct (decide (k = "version")) as [->|Hne].
  - rewrite dget_ddel_eq in H1 by done. done.
  - rewrite dget_ddel_ne in H1, H2 by done. done.
Qed.

(** When flattening succeeds, the main configuration has every part (other than
    the version) of every file it included, with the value of that file, and
    what it had before. *)
Theorem flatten_collects (targets : list string) : ∀ conf configs kept conf' configs' kept',
  flatten_all targets conf configs kept = Ok (conf', configs', kept') →
  dict_wf configs → (∀ t c, dget t configs = Some c → dict_wf c) →
  (∀ k v, dget k conf = Some v → dget k conf' = Some v) ∧
  (∀ t c k v, t ∈ targets → t ∉ _INCLUDE_SET → dget t configs = Some c → k ≠ "version" →
     dget k c = Some v → dget k conf' = Some v).
Proof.
  induction targets as [|t0 targets IH]; intros conf configs kept conf' configs' kept' H Hwf Hall;
    simpl in H.
  { injection H as <- _ _. split; [done|set_solver]. }
  destruct (dget t0 configs) as [c0|] eqn:Hc0; [|done]. cbn in H.
  destruct (decide (t0 ∈ _INCLUDE_SET)) as [Hin|Hni].
  - destruct (IH _ _ _ _ _ _ H Hwf Hall) as [H1 H2]. split; [done|]. intros t c k v Ht.
    apply elem_of_cons in Ht as [->|Ht]; [done|by apply H2].
  - destruct (_flatten_include conf c0) as [c1|] eqn:Hf; [|done]. cbn in H.
    pose proof (flatten_include_spec _ _ _ Hf (Hall _ _ Hc0)) as Hspec.
    destruct (IH _ _ _ _ _ _ H (dict_wf_ddel _ _ Hwf)) as [H1 H2].
    { intros t c Ht. apply (Hall t). destruct (decide (t = t0)) as [->|].
      - by rewrite dget_ddel_eq in Ht.
      - by rewrite dget_ddel_ne in Ht. }
    assert (∀ k v, dget k conf = Some v → dget k c1 = Some v) as Hmono.
    { intros k v Hk. destruct (Hspec k) as [-> Hd]. case_decide; [done|].
      destruct (dget k c0) eqn:Hk0; [|done]. rewrite Hd in Hk by (done || by eexists). done. }
    split; [by auto|]. intros t c k v Ht Hti Htc Hkv Hk.
    destruct (decide (t = t0)) as [->|Hne].
    + apply H1. destruct (Hspec k) as [-> _]. rewrite decide_False by done.
      replace c0 with c by congruence. by rewrite Hk.
    + apply (H2 t c); [set_solver|done| |done|done]. by rewrite dget_ddel_ne.
Qed.

End Generator.
