(* ===== verification/Pentests.v ===== *)
(** * The brute-force login test (src/subset/pentests/brute_client.py,
      src/docker/include/pentests/brute_server.py)

    The test module's client tries a list of user names and passwords against a
    login prompt; the simulated device's server answers it.  Each is a state
    machine over the data it receives; [Exchange] composes them over one
    connection, on which what the server sends in several calls may arrive in
    one piece. *)

From stdpp Require Import base list gmap strings.
From Stdlib Require Import ZArith Lia Ascii.
From S2P Require Import Prelude PyText.

(** ** The client *)
Module BruteClient.
Local Open Scope string_scope.
Local Open Scope list_scope.

Definition expected : list string :=
  ["login:"; "Password:"; "Last login:"; "Login incorrect"; "Connection closed by foreign host."].
Definition expected_at (i : nat) : string := default "" (expected !! i).
Definition data_length : nat := 64.

Record client := Client {
  user_count : nat;
  pass_count : nat;
  login_report : string;
  return_code : Z
}.
Definition init : client := Client 0 0 "" 0.

Definition report (c : client) (s : string) : client :=
  Client (user_count c) (pass_count c) (login_report c +:+ s) (return_code c).

(** [l[i]] of a Python list; an index below zero counts from the end. *)
Definition py_index (l : list string) (i : Z) : res string :=
  let j := (if (i <? 0)%Z then i + Z.of_nat (length l) else i)%Z in
  if (j <? 0)%Z then Raise IndexError else of_option IndexError (l !! Z.to_nat j).

(** [data[-6:]] *)
Definition last6 (data : string) : string :=
  let l := String.list_ascii_of_string data in
  String.string_of_list_ascii (drop (length l - 6) l).

(** What the loop does next: go on, or leave it. *)
Inductive next := Continue | Break.

Section lists.
Context (username password : list string).

(** The body of the loop for the data [recv] returned: the client afterwards,
    what it sent, and whether it goes on; an exception leaves the loop. *)
Definition recv (c : client) (data : string) : client * list string * res next :=
  if bool_decide (data = "") then (c, [], Ok Continue)
  else if bool_decide (data = expected_at 2) then
    match py_index username (Z.of_nat (user_count c) - 1) with
    | Raise e => (c, [], Raise e)
    | Ok user =>
        let c := report c ("Username:" +:+ user +:+ PyText.nl) in
        match py_index password (Z.of_nat (pass_count c) - 1) with
        | Raise e => (c, [], Raise e)
        | Ok pass =>
            let c := report (report c ("Password:" +:+ pass +:+ PyText.nl))
                            ("Login success!" +:+ PyText.nl) in
            (Client (user_count c) (pass_count c) (login_report c) 1, [], Ok Break)
        end
    end
  else if bool_decide (last6 data = expected_at 0) then
    match username !! user_count c with
    | None => (c, [], Raise IndexError)
    | Some user =>
        let c := Client (S (user_count c)) (pass_count c) (login_report c) (return_code c) in
        if bool_decide (length username < user_count c)%nat
        then (report c ("Failed at username" +:+ PyText.nl), [user], Ok Break)
        else (c, [user], Ok Continue)
    end
  else if bool_decide (data = expected_at 1) then
    match password !! pass_count c with
    | None => (c, [], Raise IndexError)
    | Some pass =>
        let c := Client (user_count c) (S (pass_count c)) (login_report c) (return_code c) in
        if bool_decide (length password < pass_count c)%nat
        then (report c ("Failed at password" +:+ PyText.nl), [pass], Ok Break)
        else (c, [pass], Ok Continue)
    end
  else if bool_decide (data = expected_at 4) then
    (report (report c (data +:+ PyText.nl)) ("Failed after retries." +:+ PyText.nl), [], Ok Break)
  else (c, [], Ok Continue).

(** The text of an [IndexError] on a list. *)
Definition exc_text (e : exn) : string :=
  match e with IndexError => "list index out of range" | _ => "" end.

(** The handler around the loop: the client when the loop is left. *)
Definition finish (c : client) (r : res next) : option client :=
  match r with
  | Ok Continue => None
  | Ok Break => Some c
  | Raise e => Some (report c ("Exception " +:+ exc_text e +:+ PyText.nl))
  end.
End lists.
End BruteClient.

(** ** The server *)
Module BruteServer.
Local Open Scope string_scope.
Local Open Scope list_scope.

Definition request_msg : list string :=
  ["OFS1 login:"; "Password:"; "Last login:"; "Login incorrect"; "Connection closed by foreign host."].
Definition request (i : nat) : string := default "" (request_msg !! i).

(** [state] and [tries_count] live as long as the server, and so does [user]. *)
Record server := Server {
  state : nat;
  tries_count : nat;
  user : option string
}.
Definition init : server := Server 0 0 None.

Section credentials.
Context (username password : string).

(** The body of the inner loop on received data: the server, what it sends,
    and whether the connection stays open. *)
Definition recv (s : server) (data : string) : server * list string * bool :=
  if bool_decide (data = "") then (Server 0 (tries_count s) (user s), [], false)
  else
    match state s with
    | 0%nat => (Server 1 (tries_count s) (Some data), [request 1], true)
    | 1%nat =>
        if bool_decide (user s = Some username ∧ password = data)
        then (Server 2 (tries_count s) (user s), [request 2], true)
        else if bool_decide (tries_count s = 2%nat)
        then (s, [request 4], false)
        else (Server 0 (S (tries_count s)) (user s), [request 3; request 0], true)
    | _ => (s, [], true)
    end.
End credentials.

(** The credentials of the two modes. *)
Definition username_of (badmode : bool) : string := if badmode then "manager" else "notdefault".
Definition password_of (badmode : bool) : string := if badmode then "friend" else "notdefault".
End BruteServer.

(** ** One connection *)
Module Exchange.
Import BruteClient.
Local Open Scope string_scope.
Local Open Scope list_scope.

Record conn := Conn {
  client_of : client;
  server_of : BruteServer.server;
  pending : list string   (* what the server sent and the client has not received *)
}.

(** What ends an exchange: the client is done; nothing is on its way and both
    wait; or the server has closed and the client receives the empty text. *)
Inductive outcome := Done (c : client) | Waiting | Closed.

Section exchange.
Context (usernames passwords : list string) (username password : string).
(** How many of the pending pieces arrive in one [recv] call. *)
Context (together : nat → nat).

(** A text that one reception takes whole. *)
Definition fits (data : string) : Prop :=
  (0 < length (String.list_ascii_of_string data) ≤ data_length)%nat.

(** The pieces in which the server's [recv] returns what one call sent. *)
Fixpoint pieces (fuel : nat) (l : list ascii) : list (list ascii) :=
  match fuel, l with
  | S fuel', _ :: _ => take data_length l :: pieces fuel' (drop data_length l)
  | _, _ => []
  end.

(** The server's side of what the client sent. *)
Fixpoint serve (s : BruteServer.server) (sent : list (list ascii)) :
    BruteServer.server * list string * bool :=
  match sent with
  | [] => (s, [], true)
  | data :: sent' =>
      let '(s, out, open) := BruteServer.recv username password s (String.string_of_list_ascii data) in
      if open then let '(s, out', open) := serve s sent' in (s, out ++ out', open)
      else (s, out, false)
  end.

Definition sent_pieces (sent : list string) : list (list ascii) :=
  data ← sent; let l := String.list_ascii_of_string data in pieces (length l) l.

(** The client closes the connection: the server, if it still reads, receives
    the empty text. *)
Definition hang_up (s : BruteServer.server) (open : bool) : BruteServer.server :=
  if open then (BruteServer.recv username password s "").1.1 else s.

(** Receptions of the client, until it is done; everything the server can have
    pending fits into one of them. *)
Fixpoint exchange (fuel step : nat) (open : bool) (k : conn) : outcome * BruteServer.server :=
  match fuel with
  | O => (Waiting, server_of k)
  | S fuel' =>
      match pending k with
      | [] => (if open then Waiting else Closed, server_of k)
      | _ =>
          let n := (S (together step) `min` length (pending k))%nat in
          let '(c, sent, r) := recv usernames passwords (client_of k)
                                 (foldr String.append "" (take n (pending k))) in
          let '(s, out, open) := if open then serve (server_of k) (sent_pieces sent)
                                 else (server_of k, [], false) in
          match finish c r with
          | Some c => (Done c, hang_up s open)
          | None => exchange fuel' (S step) open (Conn c s (drop n (pending k) ++ out))
          end
      end
  end.

(** A connection to the server as it is, which sends its prompt at once.  A try
    takes three receptions at most, and the server allows three tries. *)
Definition attack (s : BruteServer.server) : outcome * BruteServer.server :=
  exchange 10 0 true (Conn init s [BruteServer.request 0]).

(** *** The phases of a try *)

Context (Husers : Forall fits usernames)
  (Hpasswords : Forall fits passwords).

Lemma sent_one data :
  fits data → sent_pieces [data] = [String.list_ascii_of_string data].
Proof.
  intros Hl. unfold sent_pieces. cbn [mbind list_bind]. rewrite app_nil_r.
  revert Hl. unfold fits.
  generalize (String.list_ascii_of_string data). intros l Hl.
  destruct l as [|c l]; [simpl in Hl; lia|]. cbn [length pieces].
  rewrite take_ge, drop_ge by lia. by destruct (length l).
Qed.

Lemma serve_one s data :
  fits data →
  serve s (sent_pieces [data]) = BruteServer.recv username password s data.
Proof.
  intros Hl. rewrite sent_one by done. cbn [serve].
  rewrite String.string_of_list_ascii_of_string.
  destruct (BruteServer.recv username password s data) as [[s' out] []]; [|done].
  by rewrite app_nil_r.
Qed.

Definition prompts : list (list string) :=
  [[BruteServer.request 0]; [BruteServer.request 3; BruteServer.request 0]].

(** The client after the prompt for the user name was received. *)
Lemma prompt_recv n pre :
  pre = "" ∨ pre = BruteServer.request 3 →
  recv usernames passwords (Client n n "" 0) (pre +:+ BruteServer.request 0) =
  match usernames !! n with
  | None => (Client n n "" 0, [], Raise IndexError)
  | Some u => (Client (S n) n "" 0, [u], Ok Continue)
  end.
Proof.
  intros Hpre. unfold recv.
  rewrite (bool_decide_false (pre +:+ _ = "")) by by destruct Hpre as [-> | ->].
  rewrite (bool_decide_false (pre +:+ _ = expected_at 2)) by by destruct Hpre as [-> | ->].
  rewrite (bool_decide_true (last6 _ = expected_at 0)) by by destruct Hpre as [-> | ->].
  cbn [user_count]. destruct (usernames !! n) as [u|] eqn:Hu; [|done]. cbn.
  apply lookup_lt_Some in Hu. by rewrite bool_decide_false by lia.
Qed.

(** An [IndexError] ends the client with its report and exit code 0. *)
Definition out_of_names (n m : nat) : client :=
  Client n m ("Exception list index out of range" +:+ PyText.nl) 0.

(** Either way the prompt arrives: the client sends the next name, if it has
    one. *)
Lemma prompt_phase fuel step s n p :
  p ∈ prompts → BruteServer.state s = 0%nat →
  ∃ fuel' step', (fuel ≤ fuel')%nat ∧
  exchange (S (S fuel)) step true (Conn (Client n n "" 0) s p) =
  match usernames !! n with
  | None => (Done (out_of_names n n), hang_up s true)
  | Some u => exchange fuel' step' true (Conn (Client (S n) n "" 0)
                (BruteServer.Server 1 (BruteServer.tries_count s) (Some u)) [BruteServer.request 1])
  end.
Proof.
  intros Hp Hs.
  assert (∀ pre fuel step p, (pre = "" ∨ pre = BruteServer.request 3) →
    p ≠ [] → foldr String.append "" (take (S (together step) `min` length p) p) =
      pre +:+ BruteServer.request 0 →
    drop (S (together step) `min` length p) p = [] →
    exchange (S fuel) step true (Conn (Client n n "" 0) s p) =
    match usernames !! n with
    | None => (Done (out_of_names n n), hang_up s true)
    | Some u => exchange fuel (S step) true (Conn (Client (S n) n "" 0)
                  (BruteServer.Server 1 (BruteServer.tries_count s) (Some u)) [BruteServer.request 1])
    end) as Hone.
  { intros pre f st q Hpre Hq Htake Hdrop. cbn [exchange pending client_of server_of].
    destruct q as [|x q]; [done|]. rewrite Htake, Hdrop, prompt_recv by done.
    destruct (usernames !! n) as [u|] eqn:Hu; [|done].
    rewrite serve_one by exact (Forall_lookup_1 _ _ _ _ Husers Hu).
    unfold BruteServer.recv. rewrite bool_decide_false.
    - by rewrite Hs.
    - intros ->. apply (Forall_lookup_1 _ _ _ _ Husers) in Hu. unfold fits in Hu. simpl in Hu. lia. }
  unfold prompts in Hp. apply elem_of_cons in Hp as [->|Hp].
  { exists (S fuel), (S step). split; [lia|]. apply (Hone ""); [by left|done|by destruct (together step)..]. }
  apply list_elem_of_singleton in Hp as ->. destruct (together step) as [|m] eqn:Hm.
  - exists fuel, (S (S step)). split; [lia|]. etransitivity.
    2:{ apply (Hone "" fuel (S step) [BruteServer.request 0]);
          [by left|done|by destruct (together (S step))..]. }
    remember (S fuel) as f. cbn [exchange pending client_of server_of]. rewrite Hm. done.
  - exists (S fuel), (S step). split; [lia|].
    apply (Hone (BruteServer.request 3)); [by right|done|rewrite Hm; by destruct m..].
Qed.

(** The password is requested and judged. *)
Lemma password_phase fuel step s n u :
  BruteServer.state s = 1%nat → BruteServer.user s = Some u →
  exchange (S fuel) step true (Conn (Client (S n) n "" 0) s [BruteServer.request 1]) =
  match passwords !! n with
  | None => (Done (out_of_names (S n) n), hang_up s true)
  | Some p =>
      let '(s, out, open) := BruteServer.recv username password s p in
      exchange fuel (S step) open (Conn (Client (S n) (S n) "" 0) s out)
  end.
Proof.
  intros Hs Hu. cbn [exchange pending client_of server_of].
  replace (S (together step) `min` length [BruteServer.request 1])%nat with 1%nat
    by by destruct (together step).
  cbn [take drop foldr]. change (BruteServer.request 1 +:+ "") with (BruteServer.request 1).
  unfold recv. cbn [pass_count user_count].
  change (bool_decide (BruteServer.request 1 = "")) with false.
  change (bool_decide (BruteServer.request 1 = expected_at 2)) with false.
  change (bool_decide (last6 (BruteServer.request 1) = expected_at 0)) with false.
  change (bool_decide (BruteServer.request 1 = expected_at 1)) with true. cbn iota.
  destruct (passwords !! n) as [p|] eqn:Hp; [|done]. cbn [pass_count].
  rewrite bool_decide_false by (apply lookup_lt_Some in Hp; lia).
  rewrite serve_one by exact (Forall_lookup_1 _ _ _ _ Hpasswords Hp).
  by destruct (BruteServer.recv username password s p) as [[? ?] ?].
Qed.

(** The answer to a right password. *)
Lemma success_phase fuel step open s n u p :
  usernames !! n = Some u → passwords !! n = Some p →
  ∃ c s', exchange (S fuel) step open (Conn (Client (S n) (S n) "" 0) s [BruteServer.request 2]) =
    (Done c, s') ∧ return_code c = 1%Z.
Proof.
  intros Hu Hp. cbn [exchange pending client_of server_of].
  replace (S (together step) `min` length [BruteServer.request 2])%nat with 1%nat
    by by destruct (together step).
  cbn [take drop foldr]. change (BruteServer.request 2 +:+ "") with (BruteServer.request 2).
  unfold recv. cbn [pass_count user_count].
  change (bool_decide (BruteServer.request 2 = "")) with false.
  change (bool_decide (BruteServer.request 2 = expected_at 2)) with true. cbn iota.
  assert (∀ l x, l !! n = Some x → py_index l (Z.of_nat (S n) - 1) = Ok x) as Hix.
  { intros l x Hl. unfold py_index. replace (Z.of_nat (S n) - 1)%Z with (Z.of_nat n) by lia.
    assert ((Z.of_nat n <? 0)%Z = false) as E by (apply Z.ltb_ge; lia). rewrite E. rewrite E. rewrite Nat2Z.id. by rewrite Hl. }
  rewrite (Hix _ _ Hu). cbn [report pass_count]. rewrite (Hix _ _ Hp).
  destruct open; do 2 eexists; split; reflexivity.
Qed.

(** The answer after the last try. *)
Lemma refused_phase fuel step open s n m :
  ∃ c s', exchange (S fuel) step open (Conn (Client n m "" 0) s [BruteServer.request 4]) =
    (Done c, s') ∧ return_code c = 0%Z ∧ (open = false → s' = s).
Proof.
  cbn [exchange pending client_of server_of].
  replace (S (together step) `min` length [BruteServer.request 4])%nat with 1%nat
    by by destruct (together step).
  destruct open; do 2 eexists; split_and!; reflexivity || done.
Qed.

(** The pair of a try is the credentials. *)
Definition hits (n : nat) : Prop := usernames !! n = Some username ∧ passwords !! n = Some password.

(** The tries from the [n]th on. *)
Lemma tries_phase k : ∀ n fuel step s p,
  (n + k = 3)%nat → (0 < k)%nat → (3 * k + 1 ≤ fuel)%nat → p ∈ prompts →
  BruteServer.state s = 0%nat → BruteServer.tries_count s = n →
  ∃ c s', exchange fuel step true (Conn (Client n n "" 0) s p) = (Done c, s') ∧
    (return_code c = 1%Z ↔ ∃ i, (n ≤ i < 3)%nat ∧ hits i).
Proof.
  induction k as [|k IH]; intros n fuel step s p Hn Hk Hf Hp Hs Ht; [lia|].
  do 4 (destruct fuel as [|fuel]; [lia|]).
  assert (∀ i, (n ≤ i < 3)%nat → hits i → hits n ∨ (S n ≤ i < 3)%nat) as Hnext.
  { intros i Hi Hh. destruct (decide (i = n)) as [->|]; [by left|right; lia]. }
  destruct (prompt_phase (S (S fuel)) step s n p Hp Hs) as (f & st & Hf' & ->).
  destruct (usernames !! n) as [u|] eqn:Hu.
  2:{ eexists _, _. split; [done|]. cbn. split; [done|]. intros (i & Hi & [Hh _]).
      apply lookup_lt_Some in Hh. apply lookup_ge_None in Hu. lia. }
  destruct f as [|f]; [lia|]. rewrite (password_phase f st _ n u) by done.
  destruct (passwords !! n) as [w|] eqn:Hw.
  2:{ eexists _, _. split; [done|]. cbn. split; [done|]. intros (i & Hi & [_ Hh]).
      apply lookup_lt_Some in Hh. apply lookup_ge_None in Hw. lia. }
  unfold BruteServer.recv. rewrite bool_decide_false.
  2:{ intros ->. apply (Forall_lookup_1 _ _ _ _ Hpasswords) in Hw. unfold fits in Hw. simpl in Hw. lia. }
  cbn [BruteServer.state BruteServer.user BruteServer.tries_count].
  destruct f as [|f]; [lia|].
  case_bool_decide as Hhit.
  { destruct Hhit as [[= ->] <-].
    destruct (success_phase f (S st) true (BruteServer.Server 2 (BruteServer.tries_count s) (Some username))
      n _ _ Hu Hw) as (c & s' & -> & Hc).
    exists c, s'. split; [done|]. split; [|done]. intros _. exists n. split; [lia|done]. }
  assert (¬ hits n) as Hno.
  { intros [H1 H2]. apply Hhit. rewrite Hu in H1. rewrite Hw in H2. by simplify_eq. }
  case_bool_decide as Hlast.
  - destruct (refused_phase f (S st) false (BruteServer.Server 1 (BruteServer.tries_count s) (Some u))
      (S n) (S n)) as (c & s' & -> & Hc & _).
    exists c, s'. split; [done|]. rewrite Hc. split; [done|]. intros (i & Hi & Hh).
    destruct (Hnext i Hi Hh); [done|lia].
  - edestruct (IH (S n) (S f) (S st) (BruteServer.Server 0 (S (BruteServer.tries_count s)) (Some u))
      [BruteServer.request 3; BruteServer.request 0]) as (c & s' & -> & Hc);
      [lia|lia|lia|by right; left|done|cbn; congruence|].
    exists c, s'. split; [done|]. rewrite Hc. split; intros (i & Hi & Hh).
    + exists i. split; [lia|done].
    + destruct (Hnext i Hi Hh); [done|]. by exists i.
Qed.

End exchange.

(** ** Properties *)

(** The client finds default credentials when they are among its first three
    pairs.  Against a server that was just started, however its messages are
    put together on the way, the exchange comes to its end, and the client's
    exit code is 1 exactly if one of the first three user names, with the
    password at the same position, is the server's. *)
Theorem brute_outcome (usernames passwords : list string) (username password : string)
    (together : nat → nat) (Husers : Forall fits usernames) (Hpasswords : Forall fits passwords) :
  ∃ c s, attack usernames passwords username password together BruteServer.init = (Done c, s) ∧
    (return_code c = 1%Z ↔
     ∃ i, (i < 3)%nat ∧ usernames !! i = Some username ∧ passwords !! i = Some password).
Proof.
  destruct (tries_phase usernames passwords username password together Husers Hpasswords
    3 0 10 0 BruteServer.init [BruteServer.request 0]) as (c & s & He & Hc); [lia..|by left|done|done|].
  exists c, s. split; [exact He|]. rewrite Hc. split; intros (i & Hi & H); exists i; split; (lia || done).
Qed.

(** The lists of user_list.json. *)
Definition user_list_username : list string := ["root"; "admin"; "manager"].
Definition user_list_password : list string := ["root"; "pass"; "friend"].

Ltac all_fit := repeat (constructor; [split; vm_compute; lia|]); constructor.

Lemma brute_outcome_witness :
  (∃ c s, attack user_list_username user_list_password "manager" "friend" (λ n, n)
            BruteServer.init = (Done c, s) ∧ return_code c = 1%Z) ∧
  (∃ c s, attack user_list_username user_list_password "notdefault" "notdefault" (λ n, n)
            BruteServer.init = (Done c, s) ∧ return_code c ≠ 1%Z).
Proof.
  split.
  - destruct (brute_outcome user_list_username user_list_password "manager" "friend" (λ n, n))
      as (c & s & He & Hc); [all_fit..|]. exists c, s. split; [exact He|]. apply Hc.
    exists 2%nat. split; [lia|]. split; reflexivity.
  - destruct (brute_outcome user_list_username user_list_password "notdefault" "notdefault" (λ n, n))
      as (c & s & He & Hc); [all_fit..|]. exists c, s. split; [exact He|].
    intros (i & Hi & Hu & _)%Hc. destruct i as [|[|[|]]]; try discriminate; lia.
Defined.

(** A server that locked a client out does not start afresh: whatever the next
    client's lists are, its first user name is taken as a password for the
    last user name of the locked-out one, and if that does not match the
    connection is closed.  The right credentials are refused. *)
Theorem locked_out_stays (names passwords : list string) (username password last : string)
    (together : nat → nat) (name : string)
    (Hnames : names !! 0%nat = Some name) (Hfits : fits name)
    (Hno : ¬ (last = username ∧ name = password)) :
  let locked := BruteServer.Server 1 2 (Some last) in
  ∃ c, attack names passwords username password together locked = (Done c, locked) ∧
    return_code c = 0%Z.
Proof.
  intros locked. unfold attack. cbn [exchange pending client_of server_of].
  replace (S (together 0%nat) `min` length [BruteServer.request 0])%nat with 1%nat
    by by destruct (together 0%nat).
  cbn [take drop foldr]. change init with (Client 0 0 "" 0).
  change (BruteServer.request 0 +:+ "") with ("" +:+ BruteServer.request 0).
  rewrite (prompt_recv names passwords 0 "") by by left. rewrite Hnames.
  rewrite serve_one by done. unfold BruteServer.recv at 1.
  rewrite bool_decide_false by (intros ->; unfold fits in Hfits; simpl in Hfits; lia).
  cbn [locked BruteServer.state BruteServer.user BruteServer.tries_count].
  rewrite bool_decide_false by naive_solver. rewrite bool_decide_true by done.
  cbn [finish app].
  destruct (refused_phase names passwords username password together 8 1 false locked 1 0)
    as (c & s & He & Hc & Hs). rewrite (Hs eq_refl) in He. by exists c.
Qed.

Lemma locked_out_stays_witness :
  (attack ["root"; "root"; "root"] ["a"; "b"; "c"] "manager" "friend" (λ _, 0%nat)
     BruteServer.init).2 = BruteServer.Server 1 2 (Some "root") ∧
  ∃ c, attack ["manager"] ["friend"] "manager" "friend" (λ _, 0%nat)
         (BruteServer.Server 1 2 (Some "root")) =
         (Done c, BruteServer.Server 1 2 (Some "root")) ∧
    return_code c = 0%Z.
Proof.
  split; [vm_compute; reflexivity|].
  apply (locked_out_stays ["manager"] ["friend"] "manager" "friend" "root" (λ _, 0%nat) "manager").
  - reflexivity.
  - split; vm_compute; lia.
  - by intros [? _].
Defined.

(** The branches that report running out of names are never taken: the client
    leaves its loop normally only when it is in, or is shut out.  A longer
    list than its counters allow ends in an exception. *)
Theorem running_out_raises (usernames passwords : list string) (c : client) (data : string) :
  (∀ c' sent, recv usernames passwords c data = (c', sent, Ok Break) →
     data = expected_at 2 ∨ data = expected_at 4) ∧
  (usernames !! user_count c = None → last6 data = expected_at 0 → data ≠ expected_at 2 →
     recv usernames passwords c data = (c, [], Raise IndexError)).
Proof.
  split.
  - intros c' sent. unfold recv. case_bool_decide; [done|]. case_bool_decide; [by left|].
    case_bool_decide; [|case_bool_decide; [|case_bool_decide; [by right|done]]].
    + destruct (usernames !! user_count c) eqn:Hu; [|done]. apply lookup_lt_Some in Hu.
      cbn [user_count]. by rewrite bool_decide_false by lia.
    + destruct (passwords !! pass_count c) eqn:Hu; [|done]. apply lookup_lt_Some in Hu.
      cbn [pass_count]. by rewrite bool_decide_false by lia.
  - intros Hn Hl Hd. unfold recv. rewrite (bool_decide_false (data = expected_at 2)) by done.
    rewrite (bool_decide_false (data = "")) by by intros ->.
    by rewrite bool_decide_true, Hn.
Qed.

(** A connection that was closed keeps the client in its loop. *)
Example closed_connection_spins (c : client) :
  recv user_list_username user_list_password c "" = (c, [], Ok Continue).
Proof. reflexivity. Qed.

End Exchange.
