(* ===== verification/Configurator.v ===== *)
(** * The configuration manager (src/daq/configurator.py, [Configurator])

    Configuration files are merged into one document: a file may include
    another one, whose settings it overrides, nested mappings are merged key by
    key, and the command line adds flags, settings and more files from left to
    right.

    The YAML library and the file system are parameters: the document a YAML or
    JSON file holds, the lines of a flat file, and the absolute form of a path.
    Printing the configuration is in [FlatConfig]. *)

From stdpp Require Import base list gmap strings.
From Stdlib Require Import ZArith Lia Ascii.
From S2P Require Import Prelude PyVal.

Module Configurator.
Import PyVal.
Local Open Scope string_scope.
Local Open Scope list_scope.
Local Open Scope Z_scope.

Definition FLAG_MAP : dict string string :=
  [("b", "build_tests"); ("c", "use_console"); ("d", "debug_mode"); ("e", "event_trigger");
   ("f", "fail_mode"); ("h", "show_help"); ("k", "keep_hold"); ("l", "result_linger");
   ("n", "no_test"); ("s", "single_shot")].

(** ** Merging *)

(** The value a key gets: [base[key] = deepcopy(value)], or the recursive merge
    when both are mappings. *)
Fixpoint merge_value (value : val) (old : option val) {struct value} : val :=
  match value with
  | VDict adding =>
      match old with
      | Some (VDict base) =>
          VDict ((fix go (adding base : list (string * val)) :=
                    match adding with
                    | [] => base
                    | (k, v) :: adding' => go adding' (dset k (merge_value v (dget k base)) base)
                    end) adding base)
      | _ => value
      end
  | _ => value
  end.

(** [_deep_merge_dict] *)
Fixpoint _deep_merge_dict (base adding : dict string val) : dict string val :=
  match adding with
  | [] => base
  | (k, v) :: adding' => _deep_merge_dict (dset k (merge_value v (dget k base)) base) adding'
  end.

(** ** Flat settings *)

Definition chars (s : string) : list ascii := String.list_ascii_of_string s.
Definition str (l : list ascii) : string := String.string_of_list_ascii l.

(** [l.split(c, 1)]: the text before the first [c] and, if there is one, the
    text after it. *)
Fixpoint split1 (c : ascii) (l : list ascii) : list ascii * option (list ascii) :=
  match l with
  | [] => ([], None)
  | x :: l' =>
      if bool_decide (x = c) then ([], Some l')
      else let '(a, b) := split1 c l' in (x :: a, b)
  end.

(** [l.strip(c)] *)
Fixpoint lstrip_char (c : ascii) (l : list ascii) : list ascii :=
  match l with
  | x :: l' => if bool_decide (x = c) then lstrip_char c l' else l
  | [] => []
  end.

Definition strip_char (c : ascii) (l : list ascii) : list ascii :=
  rev (lstrip_char c (rev (lstrip_char c l))).

Definition double_quote : ascii := "034"%char.
Definition single_quote : ascii := "'"%char.

Definition clean_value (v : val) : val :=
  match v with
  | VStr s => VStr (str (strip_char single_quote (strip_char double_quote (strip (chars s)))))
  | _ => v
  end.

(** [_parse_flat_item]: the configuration afterwards.  The recursion is on the
    remaining key, which gets shorter; its length is the fuel ([None] when it
    runs out, which [parse_flat_fuel] excludes). *)
Fixpoint parse_flat_loop (fuel : nat) (config : val) (key : list ascii) (v : val) : option (res val) :=
  match fuel with
  | O => None
  | S fuel' =>
      let v := clean_value v in
      match split1 "."%char (strip key) with
      | (k, None) => Some (match config with
                           | VDict d => Ok (VDict (dset (str k) v d))
                           | _ => Raise TypeError
                           end)
      | (k, Some rest) =>
          match config with
          | VDict d =>
              r ← parse_flat_loop fuel' (default (VDict []) (dget (str k) d)) rest v;
              Some (sub ← r; Ok (VDict (dset (str k) sub d)))
          | _ => Some (Raise AttributeError)
          end
      end
  end.

Definition _parse_flat_item (config : dict string val) (key : list ascii) (v : val) :
    res (dict string val) :=
  match parse_flat_loop (S (length key)) (VDict config) key v with
  | Some (Ok (VDict d)) => Ok d
  | Some (Ok _) => Raise TypeError
  | Some (Raise e) => Raise e
  | None => Raise RuntimeError
  end.

(** The text of a line before a comment. *)
Fixpoint uncomment (l : list ascii) : list ascii :=
  match l with
  | [] => []
  | x :: l' => if bool_decide (x = "#"%char) then [] else x :: uncomment l'
  end.

(** [_read_flat_config] on the lines of the file *)
Fixpoint read_flat_lines (config : dict string val) (lines : list (list ascii)) :
    res (dict string val) :=
  match lines with
  | [] => Ok config
  | line :: lines' =>
      match split1 "="%char (strip (uncomment line)) with
      | (k, Some v) => config ← _parse_flat_item config k (VStr (str v)); read_flat_lines config lines'
      | ([], None) => read_flat_lines config lines'
      | (_, None) => Raise OtherException
      end
  end.

(** ** Files *)

Section files.
(** [os.path.abspath]; the document of a YAML or JSON file; the lines of a flat
    file; [os.path.exists]. *)
Context (abspath : string → string) (yaml : string → res val)
  (text : string → res (list (list ascii))) (exists_ : string → bool).

Definition endswith (s suffix : string) : bool :=
  bool_decide (drop (length (chars s) - length (chars suffix)) (chars s) = chars suffix).

Definition _read_flat_config (config_file : string) : res val :=
  lines ← text config_file; d ← read_flat_lines [] lines; Ok (VDict d).

Definition _read_config (config_file : string) : res val :=
  if endswith config_file ".yaml" || endswith config_file ".json" then yaml config_file
  else if endswith config_file ".conf" then _read_flat_config config_file
  else Raise OtherException.

(** [os.path.dirname] of an absolute path, and [os.path.join] *)
Fixpoint upto_slash (l : list ascii) : list ascii :=
  match l with
  | [] => []
  | x :: l' => if bool_decide (x = "/"%char) then l else upto_slash l'
  end.

Definition dirname (path : string) : list ascii :=
  let head := upto_slash (rev (chars path)) in
  match lstrip_char "/"%char head with
  | [] => rev head
  | h => rev h
  end.

Definition join (dir : list ascii) (file : string) : string :=
  match rev dir with
  | [] => file
  | c :: _ => if bool_decide (c = "/"%char) then str (dir ++ chars file)
              else str (dir ++ ["/"%char] ++ chars file)
  end.

(** The file an [include] names. *)
Definition include_file (config_file : string) (include : val) : res string :=
  match include with
  | VStr s => Ok (if String.prefix "/" s then s else join (dirname config_file) s)
  | _ => Raise AttributeError
  end.

(** [merge_config]; [None] when the nesting of includes exceeds the fuel. *)
Fixpoint merge_config (fuel : nat) (base : dict string val) (config_file : string)
    (traversed : gset string) : option (res (dict string val * gset string)) :=
  match fuel with
  | O => None
  | S fuel' =>
      let config_file := abspath config_file in
      match _read_config config_file with
      | Raise e => Some (Raise e)
      | Ok config =>
          if bool_decide (config_file ∈ traversed) then Some (Raise OtherException) else
          let traversed := {[config_file]} ∪ traversed in
          match contains "include" config with
          | Raise e => Some (Raise e)
          | Ok false =>
              Some (match config with
                    | VDict adding => Ok (_deep_merge_dict base adding, traversed)
                    | _ => Raise AttributeError
                    end)
          | Ok true =>
              match config with
              | VList _ => Some (Raise TypeError)
              | VDict config =>
                  match include_file config_file (default VNone (dget "include" config)) with
                  | Raise e => Some (Raise e)
                  | Ok including =>
                      r ← merge_config fuel' base including traversed;
                      Some ('(base, traversed) ← r;
                            Ok (_deep_merge_dict base (ddel "include" config), traversed))
                  end
              | _ => Some (Raise AttributeError)
              end
          end
      end
  end.

(** [load_config] *)
Definition load_config (fuel : nat) (config_file : string) (optional : bool) :
    option (res (dict string val)) :=
  if exists_ config_file then
    r ← merge_config fuel [] config_file ∅; Some ('(d, _) ← r; Ok d)
  else Some (if optional then Ok [] else Raise OtherException).

(** [parse_args] on the arguments after the program name *)
Fixpoint parse_args (fuel : nat) (config : dict string val) (args : list string) :
    option (res (dict string val)) :=
  match args with
  | [] => Some (Ok config)
  | arg :: args' =>
      match chars arg with
      | [] => parse_args fuel config args'
      | c :: flag =>
          r ← (if bool_decide (c = "-"%char) then
                 Some (match dget (str flag) FLAG_MAP with
                       | Some name => _parse_flat_item config (chars name) (VBool true)
                       | None => Raise OtherException
                       end)
               else match split1 "="%char (chars arg) with
                    | (k, Some v) => Some (_parse_flat_item config k (VStr (str v)))
                    | _ => r ← merge_config fuel config arg ∅; Some ('(d, _) ← r; Ok d)
                    end);
          match r with
          | Raise e => Some (Raise e)
          | Ok config => parse_args fuel config args'
          end
      end
  end.

End files.

(** ** Settings by path *)

(** The value at a path of keys. *)
Fixpoint lookup_path (v : val) (path : list string) : option val :=
  match path with
  | [] => Some v
  | k :: path' => match v with VDict d => x ← dget k d; lookup_path x path' | _ => None end
  end.

(** The path leaves the document at a key that a mapping does not have: the
    document says nothing about it. *)
Fixpoint silent (v : val) (path : list string) : bool :=
  match path, v with
  | k :: path', VDict d => match dget k d with Some x => silent x path' | None => true end
  | _, _ => false
  end.

Definition is_mapping (v : val) : bool := match v with VDict _ => true | _ => false end.

(** The keys of every mapping are distinct, as they are in Python. *)
Fixpoint doc_wf (v : val) : Prop :=
  match v with
  | VDict d =>
      NoDup d.*1 ∧
      (fix all (d : list (string * val)) : Prop :=
         match d with [] => True | (_, x) :: d' => doc_wf x ∧ all d' end) d
  | _ => True
  end.

Lemma doc_wf_dict d :
  doc_wf (VDict d) → dict_wf d ∧ ∀ k x, dget k d = Some x → doc_wf x.
Proof.
  intros [Hnd Hall]. split; [exact Hnd|]. clear Hnd. intros k x.
  induction d as [|[k' y] d IH]; simpl; [done|]. destruct Hall as [Hy Hd].
  case_decide; [by intros [= <-]|by apply IH].
Qed.

Lemma merge_value_dict adding base :
  merge_value (VDict adding) (Some (VDict base)) = VDict (_deep_merge_dict base adding).
Proof.
  simpl. f_equal. revert base. induction adding as [|[k v] adding IH]; intros base; [done|].
  apply IH.
Qed.

Lemma merge_value_other v old :
  (∀ a b, v = VDict a → old ≠ Some (VDict b)) → merge_value v old = v.
Proof.
  destruct v; try done. destruct old as [[]|]; try done. intros H. by edestruct H.
Qed.

Lemma merge_get base adding k :
  dict_wf adding →
  dget k (_deep_merge_dict base adding) =
  match dget k adding with Some v => Some (merge_value v (dget k base)) | None => dget k base end.
Proof.
  unfold dict_wf, dkeys. revert base. induction adding as [|[k' v] adding IH]; intros base Hwf; [done|].
  cbn [fmap list_fmap fst] in Hwf. apply NoDup_cons in Hwf as [Hni Hnd].
  cbn [_deep_merge_dict]. rewrite IH by done. cbn [dget].
  destruct (decide (k = k')) as [->|Hne].
  - assert (dget k' adding = None) as -> by by apply dget_None. by rewrite dget_dset_eq.
  - by rewrite dget_dset_ne by done.
Qed.

Lemma silent_lookup v path : silent v path = true → lookup_path v path = None.
Proof.
  revert v. induction path as [|k path IH]; intros v; [done|].
  destruct v; try done. simpl. destruct (dget k d); simpl; [apply IH|done].
Qed.

(** ** Includes *)

Section includes.
Context (abspath : string → string) (yaml : string → res val)
  (text : string → res (list (list ascii))) (files : gset string).
(** Only these files can be read. *)
Hypothesis Hfiles : ∀ f c, _read_config yaml text f = Ok c → f ∈ files.

Lemma traverse_smaller (f : string) (traversed : gset string) :
  f ∈ files → f ∉ traversed →
  (size (files ∖ ({[f]} ∪ traversed)) < size (files ∖ traversed))%nat.
Proof. intros Hf Hn. apply subset_size. set_solver. Qed.

Lemma merge_config_total fuel base f traversed :
  (size (files ∖ traversed) < fuel)%nat →
  is_Some (merge_config abspath yaml text fuel base f traversed).
Proof.
  revert base f traversed. induction fuel as [|fuel IH]; intros base f traversed Hs; [lia|].
  cbn [merge_config]. destruct (_read_config yaml text (abspath f)) as [c|] eqn:Hr; [|by eexists].
  case_bool_decide as Hin; [by eexists|].
  pose proof (traverse_smaller (abspath f) traversed (Hfiles _ _ Hr) Hin).
  destruct (contains "include" c) as [[]|]; [|by eexists..].
  destruct c; try by eexists.
  destruct (include_file _ _) as [inc|]; [|by eexists].
  edestruct (IH base inc) as [r ->]; [|by eexists]. lia.
Qed.

(** Includes that never end. *)
Hypothesis Hendless : ∀ f, f ∈ files → ∃ d inc g, _read_config yaml text f = Ok (VDict d) ∧
  dget "include" d = Some inc ∧ include_file f inc = Ok g ∧ abspath g ∈ files.

Lemma merge_config_circular fuel base f traversed :
  (size (files ∖ traversed) < fuel)%nat → abspath f ∈ files →
  merge_config abspath yaml text fuel base f traversed = Some (Raise OtherException).
Proof.
  revert base f traversed. induction fuel as [|fuel IH]; intros base f traversed Hs Hf; [lia|].
  cbn [merge_config]. destruct (Hendless _ Hf) as (d & inc & g & Hr & Hi & Hg & Hin).
  rewrite Hr. case_bool_decide as Ht; [done|].
  pose proof (traverse_smaller (abspath f) traversed Hf Ht).
  cbn [contains]. unfold dmem. rewrite Hi. cbn [default from_option id]. rewrite Hg.
  rewrite IH; [done|lia|done].
Qed.
End includes.

(** The key gets shorter, so that its length is enough fuel. *)
Lemma length_lstrip l : (length (lstrip l) ≤ length l)%nat.
Proof. induction l as [|c l IH]; simpl; [lia|]. destruct (is_space c); simpl; lia. Qed.

Lemma length_strip l : (length (strip l) ≤ length l)%nat.
Proof.
  unfold strip. rewrite length_rev. pose proof (length_lstrip (rev (lstrip l))).
  rewrite length_rev in *. pose proof (length_lstrip l). lia.
Qed.

Lemma split1_shorter c l a b : split1 c l = (a, Some b) → (length b < length l)%nat.
Proof.
  revert a. induction l as [|x l IH]; intros a; simpl; [done|].
  case_bool_decide; [intros [= _ <-]; lia|].
  destruct (split1 c l) as [a' b'] eqn:E. intros [= <- ->]. specialize (IH a' eq_refl). lia.
Qed.

Lemma parse_flat_fuel fuel config key v :
  (length key < fuel)%nat → is_Some (parse_flat_loop fuel config key v).
Proof.
  revert config key v. induction fuel as [|fuel IH]; intros config key v Hl; [lia|].
  cbn [parse_flat_loop]. destruct (split1 _ (strip key)) as [k [rest|]] eqn:E; [|by eexists].
  destruct config; try by eexists. apply split1_shorter in E.
  pose proof (length_strip key).
  destruct (IH (default (VDict []) (dget (str k) d)) rest (clean_value v)) as [r ->]; [lia|].
  by eexists.
Qed.

(** Merging at a path *)
Lemma merge_paths (base adding : dict string val) (path : list string)
    (Hwf : doc_wf (VDict adding)) :
  (∀ v, lookup_path (VDict adding) path = Some v → is_mapping v = false →
     lookup_path (VDict (_deep_merge_dict base adding)) path = Some v) ∧
  (silent (VDict adding) path = true →
     lookup_path (VDict (_deep_merge_dict base adding)) path = lookup_path (VDict base) path).
Proof.
  revert base adding Hwf. induction path as [|k path IH]; intros base adding Hwf.
  { split; [|done]. intros v. simpl. by intros [= <-]. }
  destruct (doc_wf_dict adding Hwf) as [Hd Hsub]. cbn [lookup_path silent].
  rewrite merge_get by done. destruct (dget k adding) as [x|] eqn:Hx; [|done].
  specialize (Hsub k x Hx). cbn [mbind option_bind].
  destruct x as [| | | | |a]; [by split; [done|destruct path]..|].
  destruct (dget k base) as [[| | | | |b]|] eqn:Hb; cbn [mbind option_bind];
    try (rewrite merge_value_other by done; split; [done|]; intros Hs;
         rewrite (silent_lookup _ _ Hs); by destruct path).
  rewrite merge_value_dict. by apply IH.
Qed.

(** ** Properties *)

(** Merging respects every setting.  At every path of keys: a value (not a
    mapping) of the added document is the value of the merged one, and where
    the added document says nothing the merged one is as the base was. *)
Theorem deep_merge_paths (base adding : dict string val) (path : list string)
    (Hwf : doc_wf (VDict adding)) :
  (∀ v, lookup_path (VDict adding) path = Some v → is_mapping v = false →
     lookup_path (VDict (_deep_merge_dict base adding)) path = Some v) ∧
  (silent (VDict adding) path = true →
     lookup_path (VDict (_deep_merge_dict base adding)) path = lookup_path (VDict base) path).
Proof. by apply merge_paths. Qed.

Lemma deep_merge_paths_witness :
  lookup_path (VDict (_deep_merge_dict
    [("switch_setup", VDict [("model", VStr "a"); ("uplink_port", VInt 7)])]
    [("switch_setup", VDict [("model", VStr "b")])])) ["switch_setup"; "model"] = Some (VStr "b").
Proof.
  refine (proj1 (deep_merge_paths _ _ _ _) (VStr "b") _ _); [|reflexivity|reflexivity].
  simpl. split_and!; try exact I; (apply NoDup_cons; split; [apply not_elem_of_nil|apply NoDup_nil_2]).
Defined.


(** Two files that include each other. *)
Definition loop_yaml (f : string) : res val :=
  if bool_decide (f = "/c/a.yaml") then Ok (VDict [("include", VStr "b.yaml"); ("x", VInt 1)])
  else if bool_decide (f = "/c/b.yaml") then Ok (VDict [("include", VStr "/c/a.yaml")])
  else Raise OtherException.


End Configurator.
