(* ===== verification/FlatConfig.v ===== *)
(** * Printed configurations (src/daq/configurator.py, [print_config])

    The configurator prints a document as one [path=value] line per setting,
    and reads lines of that form back from a [.conf] file.  [str()] and
    [repr()] of document values are written out; [Leaves] gives a document as
    the list of its settings, and the round trip says which settings survive.
    The environment reference of YAML files and the help text are here too. *)

From stdpp Require Import base list gmap strings pretty.
From Stdlib Require Import ZArith Lia Ascii.
From S2P Require Import Prelude PyVal PyText Configurator.

(** ** [str()] and [repr()] of document values *)
Module PyStr.
Local Open Scope string_scope.
Local Open Scope list_scope.

Abbreviation chars := String.list_ascii_of_string (only parsing).
Abbreviation text := String.string_of_list_ascii (only parsing).

Definition backslash : ascii := "\"%char.
Definition hex_digit (n : nat) : ascii :=
  Ascii.ascii_of_nat (if bool_decide (n < 10)%nat then n + 48 else n + 87).

(** A code point below 256 that [str.isprintable] accepts. *)
Definition printable (c : ascii) : bool :=
  let n := Ascii.nat_of_ascii c in
  bool_decide ((32 ≤ n < 127 ∨ 161 ≤ n)%nat ∧ n ≠ 173%nat).

Definition escape (quote c : ascii) : list ascii :=
  let n := Ascii.nat_of_ascii c in
  if bool_decide (c = quote ∨ c = backslash) then [backslash; c]
  else if bool_decide (n = 9%nat) then [backslash; "t"%char]
  else if bool_decide (n = 10%nat) then [backslash; "n"%char]
  else if bool_decide (n = 13%nat) then [backslash; "r"%char]
  else if printable c then [c]
  else [backslash; "x"%char; hex_digit (n / 16); hex_digit (n mod 16)].

(** [repr(s)]: double quotes only around a text that has single quotes and no
    double ones. *)
Definition repr_str (s : string) : string :=
  let l := chars s in
  let quote := if bool_decide (Configurator.single_quote ∈ l ∧ Configurator.double_quote ∉ l)
               then Configurator.double_quote else Configurator.single_quote in
  text ([quote] ++ (l ≫= escape quote) ++ [quote]).

Fixpoint repr (v : val) : string :=
  match v with
  | VNone => "None"
  | VBool true => "True"
  | VBool false => "False"
  | VInt z => PyText.str_int z
  | VStr s => repr_str s
  | VList l => "[" +:+ PyText.join ", " (map repr l) +:+ "]"
  | VDict d => "{" +:+ PyText.join ", "
      ((fix go (d : list (string * val)) :=
          match d with
          | [] => []
          | (k, x) :: d' => (repr_str k +:+ ": " +:+ repr x) :: go d'
          end) d) +:+ "}"
  end.

(** [str(v)] *)
Definition py_str (v : val) : string := match v with VStr s => s | _ => repr v end.

Example repr_demo :
  repr (VList [VStr "it's"; VInt (-3); VDict [("a", VBool true)]; VNone]) =
    text (chars "[" ++ [Configurator.double_quote] ++ chars "it's" ++ [Configurator.double_quote]
            ++ chars ", -3, {'a': True}, None]").
Proof. reflexivity. Qed.

End PyStr.

Module FlatConfig.
Import PyVal Configurator PyStr.
Local Open Scope string_scope.
Local Open Scope list_scope.

(** ** Printing *)

Definition newline : ascii := PyText.newline.
Definition carriage_return : ascii := "013"%char.

(** The line of a setting; [quote] is a double quote when the text has a
    space. *)
Definition quote_of (value : val) : list ascii :=
  if bool_decide (" "%char ∈ chars (py_str value)) then [double_quote] else [].

Definition config_line (prefix key : list ascii) (value : val) : list ascii :=
  let quote := quote_of value in
  prefix ++ key ++ ["="%char] ++ quote ++ chars (py_str value) ++ quote.

(** What [_append_config] appends for the item [key] of the mapping it walks:
    the lines of a nested mapping, in the order of its sorted keys, or one
    line. *)
Fixpoint append_item (prefix : list ascii) (key : string) (value : val) : list (list ascii) :=
  match value with
  | VDict config =>
      let new_prefix := prefix ++ chars key ++ ["."%char] in
      let printed :=
        (fix go (d : list (string * val)) :=
           match d with
           | [] => []
           | (k, x) :: d' => (k, append_item new_prefix k x) :: go d'
           end) config in
      k ← PyText.sort_keys (dkeys config); default [] (dget k printed)
  | _ => [config_line prefix (chars key) value]
  end.

(** [_append_config] *)
Definition _append_config (config_list : list (list ascii)) (prefix : list ascii)
    (config : dict string val) : list (list ascii) :=
  foldl (λ lines key, match dget key config with
                      | Some value => lines ++ append_item prefix key value
                      | None => lines
                      end) config_list (PyText.sort_keys (dkeys config)).

Fixpoint join_lines (lines : list (list ascii)) : list ascii :=
  match lines with
  | [] => []
  | [l] => l
  | l :: lines' => l ++ [newline] ++ join_lines lines'
  end.

(** [print_config]: [print] with newlines between the items ends in one. *)
Definition print_config (config : dict string val) : list ascii :=
  join_lines (_append_config [] [] config) ++ [newline].

(** [show_help]: the lines it prints *)
Definition show_help : list string :=
  ["Common run options:"] ++
  ((λ option, "  -" +:+ option.1 +:+ ": " +:+ option.2) <$> FLAG_MAP) ++
  ["See firebase/public/protos.html#DaqConfig for all config options."].

(** [file.readline()] until the end of the file, in text mode: a carriage
    return, with the newline after it if there is one, is a newline. *)
Fixpoint readlines (line : list ascii) (l : list ascii) : list (list ascii) :=
  match l with
  | [] => if bool_decide (line = []) then [] else [line]
  | c :: l' =>
      if bool_decide (c = newline) then (line ++ [newline]) :: readlines [] l'
      else if bool_decide (c = carriage_return) then
        (line ++ [newline]) :: match l' with
                               | c' :: l'' => if bool_decide (c' = newline) then readlines [] l''
                                              else readlines [] l'
                               | [] => []
                               end
      else readlines (line ++ [c]) l'
  end.

(** The text of a [.conf] file, read. *)
Definition read_flat_text (l : list ascii) : res (dict string val) :=
  read_flat_lines [] (readlines [] l).

(** ** Environment references in YAML files *)

(** The longest prefix of [l] without a newline that ends before a closing
    brace, and what follows that brace. *)
Fixpoint to_last_brace (l : list ascii) : option (list ascii * list ascii) :=
  match l with
  | [] => None
  | c :: l' =>
      match (if bool_decide (c = newline) then None else to_last_brace l') with
      | Some (a, b) => Some (c :: a, b)
      | None => if bool_decide (c = "}"%char) then Some ([], l') else None
      end
  end.

(** [env_regex.match(value)]: the name and the rest of the value *)
Definition env_match (value : list ascii) : option (list ascii * list ascii) :=
  match value with
  | c :: c' :: l => if bool_decide (c = "$"%char ∧ c' = "{"%char) then to_last_brace l else None
  | _ => None
  end.

(** [env_constructor]; adding a text to the [None] of a variable that is not
    set raises. *)
Definition env_constructor (getenv : string → option string) (value : string) : res string :=
  match env_match (chars value) with
  | None => Raise AttributeError
  | Some (env_var, rest) =>
      match getenv (str env_var) with
      | Some s => Ok (s +:+ str rest)
      | None => Raise TypeError
      end
  end.

Definition demo_env (name : string) : option string :=
  if bool_decide (name = "A") then Some "a"
  else if bool_decide (name = "B") then Some "b" else None.

(** A value with two references is taken as one reference to a variable with
    braces in its name. *)
Example env_two_references :
  env_constructor demo_env "${A}/x" = Ok "a/x" ∧
  env_constructor demo_env "${A}/${B}" = Raise TypeError.
Proof. by split. Qed.

(** ** The settings of a document *)

(** The values that are no mappings, with their paths, in the printed order. *)
Fixpoint leaves (v : val) : list (list string * val) :=
  match v with
  | VDict d =>
      let sub := (fix go (d : list (string * val)) :=
                    match d with [] => [] | (k, x) :: d' => (k, leaves x) :: go d' end) d in
      k ← PyText.sort_keys (dkeys d); (λ l, (k :: l.1, l.2)) <$> default [] (dget k sub)
  | _ => [([], v)]
  end.

Fixpoint path_text (path : list string) : list ascii :=
  match path with
  | [] => []
  | [k] => chars k
  | k :: path' => chars k ++ ["."%char] ++ path_text path'
  end.

Definition leaf_line (prefix : list ascii) (leaf : list string * val) : list ascii :=
  config_line prefix (path_text leaf.1) leaf.2.

(** Induction over the mappings of a document. *)
Lemma val_dict_ind (P : val → Prop) :
  (∀ v, is_mapping v = false → P v) →
  (∀ d, (∀ k x, dget k d = Some x → P x) → P (VDict d)) → ∀ v, P v.
Proof.
  intros Hleaf Hdict. fix IH 1. intros [| | | | |d]; [by apply Hleaf..|].
  apply Hdict. induction d as [|[k x] d IHd]; intros k' y; simpl; [discriminate|].
  case_decide; [|exact (IHd k' y)]. intros [= <-]. exact (IH x).
Qed.

(** Looking up in a mapping whose values were replaced. *)
Lemma dget_go {B} (f : string → val → B) (d : list (string * val)) k :
  dget k ((fix go (d : list (string * val)) :=
             match d with [] => [] | (k, x) :: d' => (k, f k x) :: go d' end) d) = f k <$> dget k d.
Proof.
  induction d as [|[k' x] d IH]; simpl; [done|]. case_decide; [by subst|done].
Qed.

Lemma append_item_dict prefix key config :
  append_item prefix key (VDict config) =
  k ← PyText.sort_keys (dkeys config);
    match dget k config with
    | Some x => append_item (prefix ++ chars key ++ ["."%char]) k x
    | None => []
    end.
Proof.
  cbn [append_item]. induction (PyText.sort_keys (dkeys config)) as [|k l IH]; [done|].
  cbn [mbind list_bind]. rewrite IH, (dget_go (append_item _)). by destruct (dget k config).
Qed.

Lemma append_config_bind lines prefix config :
  _append_config lines prefix config =
  lines ++ (k ← PyText.sort_keys (dkeys config);
            match dget k config with Some x => append_item prefix k x | None => [] end).
Proof.
  unfold _append_config. revert lines.
  induction (PyText.sort_keys (dkeys config)) as [|k l IH]; intros lines.
  { by rewrite app_nil_r. }
  cbn [foldl mbind list_bind]. rewrite IH. destruct (dget k config); [|done]. by rewrite <- app_assoc.
Qed.

(** The printing of a nested mapping is [_append_config] itself. *)
Lemma append_item_rec prefix key config :
  append_item prefix key (VDict config) =
    _append_config [] (prefix ++ chars key ++ ["."%char]) config.
Proof. by rewrite append_item_dict, append_config_bind. Qed.

Lemma leaves_dict d :
  leaves (VDict d) =
  k ← PyText.sort_keys (dkeys d);
    match dget k d with Some x => (λ l, (k :: l.1, l.2)) <$> leaves x | None => [] end.
Proof.
  cbn [leaves]. induction (PyText.sort_keys (dkeys d)) as [|k l IH]; [done|].
  cbn [mbind list_bind]. rewrite IH, (dget_go (λ _, leaves)). by destruct (dget k d).
Qed.

Lemma leaves_leaf v : is_mapping v = false → leaves v = [([], v)].
Proof. by destruct v. Qed.

(** The settings of a document are its values that are no mappings. *)
Lemma elem_of_leaves p v w :
  (p, w) ∈ leaves v ↔ lookup_path v p = Some w ∧ is_mapping w = false.
Proof.
  revert v. induction p as [|k p IH]; intros v.
  - destruct (is_mapping v) eqn:Hv.
    + destruct v as [| | | | |d]; try done. rewrite leaves_dict. cbn [lookup_path].
      split; [|by intros [[= <-] ?]]. intros (k & Hin & _)%list_elem_of_bind.
      destruct (dget k d); [|by apply elem_of_nil in Hin].
      by apply list_elem_of_fmap in Hin as ([] & [=] & _).
    + rewrite leaves_leaf by done. rewrite list_elem_of_singleton. cbn [lookup_path].
      naive_solver.
  - destruct v as [| | | | |d];
      try (rewrite leaves_leaf, list_elem_of_singleton by done; naive_solver).
    rewrite leaves_dict, list_elem_of_bind. cbn [lookup_path]. split.
    + intros (k' & Hin & _). destruct (dget k' d) as [x|] eqn:Hx; [|by apply elem_of_nil in Hin].
      apply list_elem_of_fmap in Hin as ([p' w'] & [= -> -> ->] & Hin).
      rewrite Hx. cbn [mbind option_bind]. by apply IH.
    + intros [H Hw]. destruct (dget k d) as [x|] eqn:Hx; [|done]. cbn [mbind option_bind] in H.
      exists k. rewrite Hx. split.
      * apply list_elem_of_fmap. exists (p, w). split; [done|]. by apply IH.
      * rewrite PyText.elem_of_sort_keys. apply elem_of_dkeys. by rewrite Hx.
Qed.

(** The path of a setting of a mapping is not empty, and neither is any path
    below a key. *)
Lemma leaves_dict_path d p w : (p, w) ∈ leaves (VDict d) → p ≠ [].
Proof. intros [H Hw]%elem_of_leaves ->. by injection H as <-. Qed.

Definition keyed_line (prefix : list ascii) (key : string) (leaf : list string * val) :=
  leaf_line prefix (key :: leaf.1, leaf.2).

Lemma path_text_cons k p : p ≠ [] → path_text (k :: p) = chars k ++ ["."%char] ++ path_text p.
Proof. by destruct p. Qed.

Lemma fmap_bind_ext {A B C} (f : B → C) (g : A → list B) (h : A → list C) l :
  (∀ x, x ∈ l → f <$> g x = h x) → f <$> (l ≫= g) = l ≫= h.
Proof.
  induction l as [|x l IH]; intros H; [done|]. cbn [mbind list_bind].
  rewrite fmap_app, H by constructor. f_equal. apply IH. intros y Hy. apply H. by constructor.
Qed.

Lemma append_item_leaves v prefix key : append_item prefix key v = keyed_line prefix key <$> leaves v.
Proof.
  revert prefix key. induction v as [v Hv|d IH] using val_dict_ind; intros prefix key.
  - rewrite leaves_leaf by done. by destruct v.
  - rewrite append_item_dict, leaves_dict. symmetry. apply fmap_bind_ext. intros k _.
    destruct (dget k d) as [x|] eqn:Hx; [|done]. rewrite (IH k x Hx). rewrite <- list_fmap_compose.
    apply list_fmap_ext. intros ? [p w] _. unfold keyed_line, leaf_line, config_line.
    cbn [fst snd compose]. rewrite (path_text_cons key) by done. by rewrite <- !app_assoc.
Qed.

(** What is printed: one line per setting. *)
Lemma append_config_leaves config :
  _append_config [] [] config = leaf_line [] <$> leaves (VDict config).
Proof.
  rewrite append_config_bind, leaves_dict. cbn [app]. symmetry. apply fmap_bind_ext. intros k _.
  destruct (dget k config) as [x|]; [|done]. rewrite append_item_leaves, <- list_fmap_compose. done.
Qed.

(** ** Texts that stripping leaves alone *)

(** Neither the first nor the last character satisfies [p]. *)
Definition edge_free (p : ascii → bool) (l : list ascii) : bool :=
  match head l with Some c => negb (p c) | None => true end &&
  match last l with Some c => negb (p c) | None => true end.

Lemma edge_free_app p a c b :
  p c = false → edge_free p a = true → edge_free p b = true → edge_free p (a ++ c :: b) = true.
Proof.
  unfold edge_free. intros Hc [Ha _]%andb_prop [_ Hb]%andb_prop. apply andb_true_intro. split.
  - destruct a as [|x a]; simpl; [by rewrite Hc|done].
  - replace (last (a ++ c :: b)) with (last (c :: b)).
    + destruct b as [|y b]; [cbn; by rewrite Hc|]. rewrite last_cons_cons. done.
    + symmetry. rewrite last_app_cons. done.
Qed.

Lemma lstrip_head l : match head l with Some c => negb (is_space c) | None => true end = true →
  lstrip l = l.
Proof. destruct l as [|c l]; simpl; [done|]. by destruct (is_space c). Qed.

Lemma lstrip_char_head q l :
  match head l with Some c => negb (bool_decide (c = q)) | None => true end = true →
  lstrip_char q l = l.
Proof. destruct l as [|c l]; simpl; [done|]. by case_bool_decide. Qed.

Lemma head_rev {A} (l : list A) : head (rev l) = last l.
Proof. rewrite rev_alt. apply head_reverse. Qed.

Lemma strip_edge_free l : edge_free is_space l = true → strip l = l.
Proof.
  unfold edge_free. intros [Hh Hl]%andb_prop. unfold strip. rewrite (lstrip_head l) by done.
  rewrite lstrip_head; [apply rev_involutive|by rewrite head_rev].
Qed.

Lemma strip_char_edge_free q l : edge_free (λ c, bool_decide (c = q)) l = true → strip_char q l = l.
Proof.
  unfold edge_free. intros [Hh Hl]%andb_prop. unfold strip_char. rewrite (lstrip_char_head q l) by done.
  rewrite lstrip_char_head; [apply rev_involutive|by rewrite head_rev].
Qed.

(** A line with its newline. *)
Lemma strip_line l : l ≠ [] → edge_free is_space l = true → strip (l ++ [newline]) = l.
Proof.
  intros Hne H. pose proof H as [Hh Hl]%andb_prop. unfold strip.
  rewrite (lstrip_head (l ++ [newline])) by by destruct l.
  rewrite rev_app_distr. cbn [rev app]. change (lstrip (newline :: ?x)) with (lstrip x).
  rewrite lstrip_head by by rewrite head_rev. apply rev_involutive.
Qed.

(** A quoted text, unquoted. *)
Lemma strip_char_quoted q l :
  edge_free (λ c, bool_decide (c = q)) l = true → l ≠ [] → strip_char q ([q] ++ l ++ [q]) = l.
Proof.
  unfold edge_free. intros [Hh Hl]%andb_prop Hne. unfold strip_char.
  cbn [app lstrip_char]. rewrite bool_decide_true by done.
  rewrite (lstrip_char_head q (l ++ [q])) by by destruct l.
  rewrite rev_app_distr. cbn [rev app lstrip_char]. rewrite bool_decide_true by done.
  rewrite lstrip_char_head by by rewrite head_rev. apply rev_involutive.
Qed.

Lemma split1_at c a b : c ∉ a → split1 c (a ++ c :: b) = (a, Some b).
Proof.
  induction a as [|x a IH]; simpl; intros H; [by rewrite bool_decide_true|].
  apply not_elem_of_cons in H as [Hx Ha]. rewrite bool_decide_false by congruence. by rewrite IH.
Qed.

Lemma split1_none c a : c ∉ a → split1 c a = (a, None).
Proof.
  induction a as [|x a IH]; simpl; intros H; [done|].
  apply not_elem_of_cons in H as [Hx Ha]. rewrite bool_decide_false by congruence. by rewrite IH.
Qed.

Lemma uncomment_none l : "#"%char ∉ l → uncomment l = l.
Proof.
  induction l as [|x l IH]; simpl; intros H; [done|].
  apply not_elem_of_cons in H as [Hx Ha]. rewrite bool_decide_false by congruence. by rewrite IH.
Qed.

Lemma readlines_line line l rest :
  newline ∉ l → carriage_return ∉ l →
  readlines line (l ++ newline :: rest) = (line ++ l ++ [newline]) :: readlines [] rest.
Proof.
  revert line. induction l as [|x l IH]; intros line Hn Hr; cbn [app readlines].
  { by rewrite bool_decide_true. }
  apply not_elem_of_cons in Hn as [Hnx Hn], Hr as [Hrx Hr].
  rewrite !bool_decide_false by congruence. rewrite IH by done. by rewrite <- app_assoc.
Qed.

(** What is printed is read as the lines that were printed; the text of no
    lines is read as one empty line. *)
Lemma readlines_join lines :
  Forall (λ l, (newline ∉ l) ∧ (carriage_return ∉ l)) lines →
  readlines [] (join_lines lines ++ [newline]) =
    (match lines with [] => [[newline]] | _ => (λ l, l ++ [newline]) <$> lines end).
Proof.
  induction 1 as [|l lines [Hn Hr] Hls IH]; [done|].
  destruct lines as [|l' lines].
  { cbn [join_lines fmap list_fmap]. rewrite readlines_line by done. by simpl. }
  change (join_lines (l :: l' :: lines)) with (l ++ [newline] ++ join_lines (l' :: lines)).
  rewrite <- !app_assoc. cbn [app]. rewrite readlines_line by done. cbn [app].
  rewrite IH. done.
Qed.

(** ** Settings that are read back as they were printed *)

Definition free_of (bad : list ascii) (l : list ascii) : bool :=
  forallb (λ c, negb (bool_decide (c ∈ bad))) l.

(** A key that stays a key: no separators, comments or line ends in it, no
    white space around it. *)
Definition plain_key (key : string) : bool :=
  edge_free is_space (chars key) &&
  free_of ["."%char; "="%char; "#"%char; newline; carriage_return] (chars key).

(** A value whose text stays as it is: no comment or line end in it, no white
    space and no quotes around it. *)
Definition plain_value (value : val) : bool :=
  let l := chars (py_str value) in
  edge_free is_space l && edge_free (λ c, bool_decide (c = double_quote)) l &&
  edge_free (λ c, bool_decide (c = single_quote)) l && free_of ["#"%char; newline; carriage_return] l.

Definition plain_leaf (leaf : list string * val) : bool :=
  forallb plain_key leaf.1 && plain_value leaf.2.

Definition plain_config (config : dict string val) : bool :=
  forallb plain_leaf (leaves (VDict config)).

Lemma free_of_elem bad l c : free_of bad l = true → c ∈ bad → c ∉ l.
Proof.
  unfold free_of. rewrite forallb_forall. intros H Hc Hl.
  apply list_elem_of_In in Hl. apply H in Hl. by rewrite bool_decide_true in Hl.
Qed.

Lemma plain_key_split key :
  plain_key key = true →
  edge_free is_space (chars key) = true ∧
  ∀ c, c ∈ ["."%char; "="%char; "#"%char; newline; carriage_return] → c ∉ chars key.
Proof. intros [H1 H2]%andb_prop. split; [done|]. intros c. by apply free_of_elem. Qed.

Lemma path_text_edges (path : list string) :
  forallb plain_key path = true → edge_free is_space (path_text path) = true.
Proof.
  induction path as [|k [|k' path] IH]; [done| |].
  - cbn. intros [[H _]%plain_key_split _]%andb_prop. done.
  - intros [[H _]%plain_key_split Hp]%andb_prop. rewrite path_text_cons by done.
    by apply edge_free_app; [|done|apply IH].
Qed.

Lemma path_text_free (path : list string) c :
  forallb plain_key path = true →
  c ∈ ["="%char; "#"%char; newline; carriage_return] → c ∉ path_text path.
Proof.
  intros Hp Hc. assert (c ≠ "."%char) as Hd.
  { intros ->. revert Hc. by apply (bool_decide_eq_false_1 _). }
  induction path as [|k path IH]; [apply not_elem_of_nil|].
  apply andb_prop in Hp as [[_ Hk]%plain_key_split Hp].
  specialize (Hk c ltac:(by right)). destruct path as [|k' path]; [done|].
  rewrite path_text_cons by done. rewrite !elem_of_app, list_elem_of_singleton.
  specialize (IH Hp). tauto.
Qed.

(** ** Assigning at a path *)

Fixpoint set_path (config : val) (path : list string) (x : val) : res val :=
  match path with
  | [] => Ok x
  | k :: path' =>
      match config with
      | VDict d => sub ← set_path (default (VDict []) (dget k d)) path' x; Ok (VDict (dset k sub d))
      | _ => Raise (if bool_decide (path' = []) then TypeError else AttributeError)
      end
  end.

Lemma str_chars s : str (chars s) = s.
Proof. apply String.string_of_list_ascii_of_string. Qed.

(** [_parse_flat_item] assigns at the path its key spells. *)
Lemma parse_flat_path fuel config (path : list string) v v' :
  path ≠ [] → forallb plain_key path = true → (length (path_text path) < fuel)%nat →
  clean_value v = v' → clean_value v' = v' →
  parse_flat_loop fuel config (path_text path) v = Some (set_path config path v').
Proof.
  intros Hne Hp Hf Hv Hv'. revert fuel config path v Hne Hp Hf Hv.
  induction fuel as [|fuel IH]; intros config path v Hne Hp Hf Hv; [lia|].
  cbn [parse_flat_loop]. rewrite Hv, strip_edge_free by by apply path_text_edges.
  destruct path as [|k path]; [done|]. pose proof Hp as [[_ Hk]%plain_key_split Hp']%andb_prop.
  specialize (Hk "."%char ltac:(by left)). cbn [set_path].
  destruct (decide (path = [])) as [->|Hpath].
  - cbn [path_text set_path]. rewrite split1_none, str_chars by done. by destruct config.
  - rewrite path_text_cons in * by done. cbn [app]. rewrite split1_at, str_chars by done.
    destruct config; try by rewrite bool_decide_false.
    rewrite IH with (v := v'); [done..| |done]. rewrite !length_app in Hf. simpl in Hf. lia.
Qed.

Lemma set_path_mapping d (path : list string) x c :
  path ≠ [] → set_path (VDict d) path x = Ok c → ∃ d', c = VDict d'.
Proof.
  destruct path as [|k path]; [done|]. cbn [set_path]. intros _.
  destruct (set_path _ _ _); [|done]. intros [= <-]. by eexists.
Qed.

(** The assignment succeeds where no setting lies above the path, ... *)
Lemma set_path_ok config (path : list string) x :
  (∀ p k q v, path = p ++ k :: q → lookup_path config p = Some v → is_mapping v = true) →
  ∃ c, set_path config path x = Ok c.
Proof.
  revert config. induction path as [|k path IH]; intros config H; [by eexists|].
  pose proof (H [] k path config eq_refl eq_refl) as Hd. destruct config as [| | | | |d]; try done.
  cbn [set_path]. edestruct IH as [c ->]; [|by eexists].
  intros p k' q v Hpath. destruct (dget k d) as [y|] eqn:Hy; cbn [default from_option id].
  - intros Hv. apply (H (k :: p) k' q); [by rewrite Hpath|]. cbn [lookup_path]. by rewrite Hy.
  - destruct p; [by intros [= <-]|done].
Qed.

(** ... and afterwards the settings are the assigned one and the old ones that
    are not below its path. *)
Lemma set_path_lookup config (path : list string) x c (q : list string) w :
  is_mapping x = false → is_mapping w = false → set_path config path x = Ok c →
  lookup_path c q = Some w ↔
    (q = path ∧ w = x) ∨ (¬ path `prefix_of` q ∧ lookup_path config q = Some w).
Proof.
  intros Hx Hw. revert config c q. induction path as [|k path IH]; intros config c q.
  { intros [= <-]. split.
    - destruct q as [|k q]; [by intros [= ->]; left|]. by destruct x.
    - intros [[-> ->]|[H _]]; [done|]. destruct H. apply prefix_nil. }
  destruct config as [| | | | |d]; try done. cbn [set_path].
  destruct (set_path _ path x) as [sub|] eqn:Hsub; [|done]. intros [= <-].
  destruct q as [|k' q].
  { cbn [lookup_path]. split; [by intros [= <-]|]. intros [[? _]|[_ [= <-]]]; done. }
  cbn [lookup_path]. destruct (decide (k' = k)) as [->|Hne].
  - rewrite dget_dset_eq. cbn [mbind option_bind]. rewrite (IH _ _ q Hsub).
    assert (¬ path `prefix_of` q ↔ ¬ (k :: path) `prefix_of` (k :: q)) as ->.
    { split; intros H H'; apply H; [by apply prefix_cons_inv_2 in H'|by apply prefix_cons]. }
    destruct (dget k d) as [y|] eqn:Hy; cbn [mbind option_bind default from_option id];
      [naive_solver|].
    destruct q as [|k'' q]; cbn [lookup_path]; [|naive_solver].
    split; [intros [|[_ [= <-]]]; [naive_solver|done]|naive_solver].
  - rewrite dget_dset_ne by done. split; [|naive_solver]. intros H. right. split; [|done].
    intros Hpre%prefix_cons_inv_1. done.
Qed.

(** ** Reading printed settings *)

Lemma plain_value_clean v :
  plain_value v = true →
  clean_value (VStr (py_str v)) = VStr (py_str v) ∧
  clean_value (VStr (str (quote_of v ++ chars (py_str v) ++ quote_of v))) = VStr (py_str v).
Proof.
  unfold plain_value. intros [[[H1 H2]%andb_prop H3]%andb_prop _]%andb_prop.
  assert (clean_value (VStr (py_str v)) = VStr (py_str v)) as Hc.
  { unfold clean_value, Configurator.chars. f_equal.
    rewrite strip_edge_free by done. rewrite (strip_char_edge_free double_quote) by done.
    rewrite strip_char_edge_free by done. apply str_chars. }
  split; [done|]. unfold quote_of. case_bool_decide as Hq.
  - unfold clean_value, Configurator.chars. f_equal. unfold str at 2.
    rewrite String.list_ascii_of_string_of_list_ascii, strip_edge_free.
    + rewrite strip_char_quoted; [|done|by intros E; rewrite E in Hq; apply elem_of_nil in Hq].
      rewrite strip_char_edge_free by done. apply str_chars.
    + unfold edge_free. rewrite last_app, last_app. done.
  - rewrite app_nil_r. cbn [app]. by rewrite str_chars.
Qed.

Lemma quoted_free v c :
  c ∈ ["#"%char; newline; carriage_return] → plain_value v = true →
  c ∉ quote_of v ++ chars (py_str v) ++ quote_of v.
Proof.
  intros Hc [_ H]%andb_prop. pose proof (free_of_elem _ _ _ H Hc) as Hv.
  assert (c ∉ quote_of v) as Hq.
  { unfold quote_of. case_bool_decide; [|apply not_elem_of_nil].
    rewrite list_elem_of_singleton. intros ->. revert Hc. by apply (bool_decide_eq_false_1 _). }
  rewrite !elem_of_app. tauto.
Qed.

Lemma quoted_edges v :
  plain_value v = true → edge_free is_space (quote_of v ++ chars (py_str v) ++ quote_of v) = true.
Proof.
  unfold plain_value, quote_of. intros [[[H _]%andb_prop _]%andb_prop _]%andb_prop.
  case_bool_decide.
  - unfold edge_free. by rewrite last_app, last_app.
  - by rewrite app_nil_r.
Qed.

Section leaf.
Context (leaf : list string * val) (Hplain : plain_leaf leaf = true).

Lemma leaf_line_free c :
  c ∈ ["#"%char; newline; carriage_return] → c ∉ leaf_line [] leaf.
Proof.
  apply andb_prop in Hplain as [Hp Hv]. intros Hc. unfold leaf_line, config_line. cbn [app].
  pose proof (path_text_free _ c Hp ltac:(by right)). pose proof (quoted_free _ _ Hc Hv).
  assert (c ≠ "="%char) by (intros ->; revert Hc; by apply (bool_decide_eq_false_1 _)).
  rewrite elem_of_app, elem_of_cons. tauto.
Qed.

(** A printed line, read: an assignment at the path of the setting. *)
Lemma read_leaf_line config lines :
  leaf.1 ≠ [] →
  read_flat_lines config ((leaf_line [] leaf ++ [newline]) :: lines) =
  c ← set_path (VDict config) leaf.1 (VStr (py_str leaf.2));
    match c with VDict d => read_flat_lines d lines | _ => Raise TypeError end.
Proof.
  intros Hne. pose proof Hplain as [Hp Hv]%andb_prop. cbn [read_flat_lines].
  assert ("#"%char ∉ leaf_line [] leaf ++ [newline]) as Hc.
  { rewrite elem_of_app, list_elem_of_singleton. intros [H|[=]].
    revert H. apply leaf_line_free. by left. }
  rewrite uncomment_none by done. clear Hc. unfold leaf_line, config_line. cbn [app].
  rewrite strip_line; [|by destruct (path_text leaf.1)|].
  - rewrite split1_at by (apply path_text_free; [done|by left]).
    destruct (plain_value_clean _ Hv) as [Hc1 Hc2]. unfold _parse_flat_item.
    rewrite parse_flat_path with (v' := VStr (py_str leaf.2)) by (done || lia).
    by destruct (path_text leaf.1), (set_path (VDict config) leaf.1 _) as [[]|].
  - apply edge_free_app; [done|by apply path_text_edges|by apply quoted_edges].
Qed.
End leaf.

(** No setting lies above or below another one. *)
Definition prefix_free (l : list (list string * val)) : Prop :=
  ∀ a b, a ∈ l → b ∈ l → a.1 `prefix_of` b.1 → a = b.

Lemma lookup_path_app v p q : lookup_path v (p ++ q) = x ← lookup_path v p; lookup_path x q.
Proof.
  revert v. induction p as [|k p IH]; intros v; [done|]. cbn [app lookup_path].
  destruct v; try done. destruct (dget k d); cbn [mbind option_bind]; [apply IH|done].
Qed.

Lemma leaves_prefix_free v : prefix_free (leaves v).
Proof.
  intros [p x] [q y] [Hx Hmx]%elem_of_leaves [Hy Hmy]%elem_of_leaves [r Hr].
  cbn [fst] in Hr. subst q. rewrite lookup_path_app, Hx in Hy. cbn [mbind option_bind] in Hy.
  destruct r as [|k r]; [by rewrite app_nil_r; injection Hy as ->|]. by destruct x.
Qed.

(** The settings of a document that was read are those of [l]. *)
Definition holds (c : dict string val) (l : list (list string * val)) : Prop :=
  ∀ q w, is_mapping w = false →
    lookup_path (VDict c) q = Some w ↔ ∃ v, (q, v) ∈ l ∧ w = VStr (py_str v).

Lemma read_leaves c done todo :
  holds c done → prefix_free (done ++ todo) →
  Forall (λ leaf, plain_leaf leaf = true ∧ leaf.1 ≠ []) todo →
  ∃ c', read_flat_lines c ((λ l, l ++ [newline]) <$> (leaf_line [] <$> todo)) = Ok c' ∧
    holds c' (done ++ todo).
Proof.
  revert c done. induction todo as [|leaf todo IH]; intros c done Hc Hpf Hall.
  { exists c. split; [reflexivity|]. by rewrite app_nil_r. }
  apply Forall_cons in Hall as [[Hplain Hne] Hall']. cbn [fmap list_fmap].
  rewrite read_leaf_line by assumption.
  destruct (set_path_ok (VDict c) leaf.1 (VStr (py_str leaf.2))) as [v Hv].
  { intros p k q z Hp Hx. destruct (is_mapping z) eqn:Hm; [reflexivity|]. exfalso.
    apply Hc in Hx as (y & Hy & _); [|assumption].
    assert ((p, y) = leaf) as E.
    { apply Hpf; [set_solver..|]. cbn [fst]. rewrite Hp. by eexists. }
    rewrite <- E in Hp. cbn [fst] in Hp. apply (f_equal length) in Hp.
    rewrite length_app in Hp. simpl in Hp. lia. }
  rewrite Hv. destruct (set_path_mapping _ _ _ _ Hne Hv) as [d ->]. cbn [mbind res_bind].
  change (done ++ leaf :: todo) with (done ++ [leaf] ++ todo) in *. rewrite app_assoc in *.
  apply IH; [|assumption..]. intros q w Hw.
  rewrite (set_path_lookup (VDict c) leaf.1 (VStr (py_str leaf.2)) _ q w eq_refl Hw Hv).
  rewrite (Hc q w Hw). split.
  - intros [[-> ->]|[_ (y & Hy & ->)]]; [exists leaf.2|exists y]; (split; [|reflexivity]).
    + destruct leaf. set_solver.
    + set_solver.
  - intros (y & [Hy|Hy%list_elem_of_singleton]%elem_of_app & ->).
    + destruct (decide (leaf.1 `prefix_of` q)) as [Hpre|]; [|right; eauto].
      assert (leaf = (q, y)) as -> by (apply Hpf; [set_solver..|assumption]). by left.
    + subst leaf. by left.
Qed.

(** ** Property *)

(** C40: a configuration that is printed and read back keeps its settings.  When its
    keys and the texts of its values are plain, the text [print_config] writes
    is a flat file that is read without an error, and at every path the
    document that is read has exactly the printed settings: the text of the
    value there, and no setting anywhere else.  Only the types of the values,
    the order of the keys and empty mappings are lost. *)
Theorem print_read_roundtrip (config : dict string val) (Hplain : plain_config config = true) :
  ∃ config', read_flat_text (print_config config) = Ok config' ∧
    ∀ path w, is_mapping w = false →
      lookup_path (VDict config') path = Some w ↔
      ∃ v, lookup_path (VDict config) path = Some v ∧ is_mapping v = false ∧ w = VStr (py_str v).
Proof.
  assert (Forall (λ leaf, plain_leaf leaf = true ∧ leaf.1 ≠ []) (leaves (VDict config))) as Hall.
  { apply Forall_forall. intros [p v] Hin. split; [|by eapply leaves_dict_path].
    unfold plain_config in Hplain. rewrite forallb_forall in Hplain. apply Hplain.
    by apply list_elem_of_In. }
  unfold read_flat_text, print_config. rewrite append_config_leaves, readlines_join.
  2:{ apply Forall_fmap. eapply Forall_impl; [exact Hall|]. intros leaf [Hp _]. cbn.
      split; apply leaf_line_free; try done; by repeat constructor. }
  destruct (read_leaves [] [] (leaves (VDict config))) as (c & Hr & Hc);
    [|apply leaves_prefix_free|exact Hall|].
  { intros q w Hw. split; [|by intros (? & ?%elem_of_nil & _)].
    destruct q; [by intros [= <-]|done]. }
  exists c. split.
  - destruct (leaves (VDict config)); [by injection Hr as <-|exact Hr].
  - intros path w Hw. rewrite (Hc path w Hw). cbn [app]. split.
    + intros (v & [Hv Hm]%elem_of_leaves & ->). eauto.
    + intros (v & Hv & Hm & ->). exists v. by rewrite elem_of_leaves.
Qed.

Definition demo_config : dict string val :=
  [("switch_setup", VDict [("uplink_port", VInt 7); ("model", VStr "FAUX SWITCH")]);
   ("site_path", VStr "local/site/"); ("fail_mode", VBool true); ("empty", VDict [])].

Lemma print_read_roundtrip_witness :
  ∃ config', read_flat_text (print_config demo_config) = Ok config' ∧
    lookup_path (VDict config') ["switch_setup"; "model"] = Some (VStr "FAUX SWITCH") ∧
    lookup_path (VDict config') ["switch_setup"; "uplink_port"] = Some (VStr "7").
Proof.
  destruct (print_read_roundtrip demo_config) as (c & Hr & Hc); [reflexivity|].
  exists c. split_and!; [exact Hr|..]; (apply Hc; [reflexivity|]).
  - exists (VStr "FAUX SWITCH"). repeat split; reflexivity.
  - exists (VInt 7). repeat split; reflexivity.
Defined.

(** White space at the ends of a value is kept at the top level, where the
    value is cleaned once, and lost below, where it is cleaned once per key. *)
Example nested_value_loses_space :
  read_flat_text (print_config [("a", VStr " x "); ("b", VDict [("c", VStr " x ")])]) =
    Ok [("a", VStr " x "); ("b", VDict [("c", VStr "x")])].
Proof. reflexivity. Qed.

End FlatConfig.
