(* ===== verification/GeneratorFiles.v ===== *)
(** * The files of the topology generator (src/daq/generator.py)

    [TopologyGenerator.process]: an existing topology is normalized, or a new
    one is made from a site's description.  The computations on the documents
    are those of [Generator]; here they read a source directory and write the
    topology directory, a map from file names to documents.  Loading and
    dumping YAML keeps the document. *)

From stdpp Require Import base list gmap strings.
From Stdlib Require Import ZArith Lia Ascii.
From S2P Require Import Prelude PyVal Configurator Generator.

Module GeneratorFiles.
Import PyVal Generator.
Local Open Scope string_scope.
Local Open Scope list_scope.

(** The documents of a directory. *)
Abbreviation dir := (gmap string val) (only parsing).

(** [_write_yaml] *)
Definition _write_yaml (filename : string) (data : val) (topo : dir) : dir := <[filename := data]> topo.

(** [_delete_config_file] *)
Definition _delete_config_file (target : string) (topo : dir) : dir := delete target topo.

(** The targets whose files are deleted while the includes are flattened, up to
    the one that raises. *)
Fixpoint flattened (targets : list string) (conf : dict string val)
    (configs : dict string (dict string val)) : list string :=
  match targets with
  | [] => []
  | t :: targets' =>
      match dget t configs with
      | None => []
      | Some target =>
          if decide (t ∈ _INCLUDE_SET) then flattened targets' conf configs
          else match _flatten_include conf target with
               | Raise _ => []
               | Ok conf' => t :: flattened targets' conf' (ddel t configs)
               end
      end
  end.

(** What [_flatten_configs] deletes. *)
Definition deletions (configs : dict string (dict string val)) : list string :=
  match dget "faucet.yaml" configs with
  | None => []
  | Some conf =>
      if dmem "include-optional" conf then [] else
      match dget "include" conf with
      | None => []
      | Some v => match include_names v with
                  | Ok targets => flattened targets conf configs
                  | Raise _ => []
                  end
      end
  end.

(** The loop over the source directory. *)
Definition yaml_files (source : list (string * dict string val)) : dict string (dict string val) :=
  foldl (λ configs '(filename, doc),
    if Configurator.endswith filename _YAML_POSTFIX then dset filename doc configs else configs) [] source.

Definition write_all (configs : dict string (dict string val)) (topo : dir) : dir :=
  foldl (λ topo '(filename, doc), _write_yaml filename (VDict doc) topo) topo configs.

(** The configurations after flattening: the main one was changed in place. *)
Definition flat_configs (conf : dict string val) (configs : dict string (dict string val)) :
    dict string (dict string val) :=
  if dmem "faucet.yaml" configs then dset "faucet.yaml" conf configs else configs.

(** [_normalize_raw_topo]: the source directory, and the topology directory
    before and afterwards *)
Definition _normalize_raw_topo (source_dir : string) (source : list (string * dict string val))
    (topo : dir) : dir * res unit :=
  if bool_decide (source_dir = "") then (topo, Raise AssertionError) else
  let configs := yaml_files source in
  let topo := foldl (λ topo t, _delete_config_file t topo) topo (deletions configs) in
  match _flatten_configs configs with
  | Raise e => (topo, Raise e)
  | Ok (conf, configs) => (write_all (flat_configs conf configs) topo, Ok tt)
  end.

(** [process]: which of the two the options ask for, and the exit code *)
Definition process (raw_topo site_config : bool) (normalize generate : res unit) : res Z :=
  if raw_topo then normalize;; Ok 0%Z
  else if site_config then generate;; Ok 0%Z
  else Ok (-1)%Z.

(** The documents of a generated topology, by directory and file name. *)
Inductive generated := GFaucet (c : faucet_conf) | GGauge (c : gauge_conf) | GUniform (c : val).
Abbreviation gen_dir := (gmap (string * string) generated) (only parsing).

Section generate.
Context (S : site) (U : setup).

(** [_write_config] of the target of a domain *)
Definition _write_config (location : option string) (domain filename : string) (data : generated)
    (topo : gen_dir) : gen_dir := <[(_get_ctl_name S U location domain, filename) := data]> topo.

(** The loop of [_generate_topology]: each file is made and then written, so
    that those before one that cannot be made are there. *)
Definition generate_domain (domain : string) (t1 : t1_conf) (topo : gen_dir) : gen_dir * res unit :=
  match _make_faucet S U domain with
  | Raise e => (topo, Raise e)
  | Ok faucet =>
      let topo := _write_config (t1_location t1) domain "faucet.yaml" (GFaucet faucet) topo in
      match _make_gauge S U domain with
      | Raise e => (topo, Raise e)
      | Ok gauge =>
          let topo := _write_config (t1_location t1) domain "gauge.yaml" (GGauge gauge) topo in
          match _make_uniform S U with
          | Raise e => (topo, Raise e)
          | Ok uniform =>
              (_write_config (t1_location t1) domain _UNIFORM_FILE_NAME (GUniform uniform) topo, Ok tt)
          end
      end
  end.

Fixpoint generate_domains (l : list (string * t1_conf)) (topo : gen_dir) : gen_dir * res unit :=
  match l with
  | [] => (topo, Ok tt)
  | (domain, t1) :: l' =>
      match generate_domain domain t1 topo with
      | (topo, Ok _) => generate_domains l' topo
      | r => r
      end
  end.
End generate.

(** ** Lemmas *)

Lemma deleted_lookup ts (topo : dir) k :
  foldl (λ topo t, _delete_config_file t topo) topo ts !! k =
    if bool_decide (k ∈ ts) then None else topo !! k.
Proof.
  revert topo. induction ts as [|t ts IH]; intros topo; [done|]. cbn [foldl]. rewrite IH.
  unfold _delete_config_file. destruct (decide (k = t)) as [->|Hne].
  - rewrite lookup_delete_eq, (bool_decide_true (t ∈ t :: ts)) by left. by case_bool_decide.
  - rewrite lookup_delete_ne by done. rewrite (bool_decide_ext (k ∈ ts) (k ∈ t :: ts)); [done|].
    rewrite elem_of_cons. tauto.
Qed.

Lemma written_lookup configs (topo : dir) k :
  dict_wf configs →
  write_all configs topo !! k = match dget k configs with Some d => Some (VDict d) | None => topo !! k end.
Proof.
  unfold write_all, _write_yaml. revert topo. unfold dict_wf, dkeys.
  induction configs as [|[k' d] configs IH]; intros topo Hwf; [done|].
  cbn [fmap list_fmap fst] in Hwf. apply NoDup_cons in Hwf as [Hni Hnd].
  cbn [foldl dget]. rewrite IH by done. destruct (decide (k = k')) as [->|Hne].
  - apply dget_None in Hni. rewrite Hni. apply lookup_insert_eq.
  - by rewrite lookup_insert_ne.
Qed.

Lemma yaml_files_wf source : dict_wf (yaml_files source).
Proof.
  unfold yaml_files. assert (∀ d : dict string (dict string val), dict_wf d → dict_wf (foldl (λ configs '(filename, doc),
    if Configurator.endswith filename _YAML_POSTFIX then dset filename doc configs else configs) d source)) as H.
  { induction source as [|[f doc] source IH]; intros d Hd; [done|]. cbn [foldl]. apply IH.
    case_match; [by apply dict_wf_dset|done]. }
  apply H. constructor.
Qed.

(** Flattening that succeeds deletes every target it does not preserve, and
    takes these configurations, and no others, out. *)
Lemma flatten_all_configs targets : ∀ conf configs kept conf' configs' kept',
  dict_wf configs → flatten_all targets conf configs kept = Ok (conf', configs', kept') →
  dict_wf configs' ∧
  (∀ t, t ∈ flattened targets conf configs ↔ t ∈ targets ∧ t ∉ _INCLUDE_SET) ∧
  (∀ t, dget t configs' = if bool_decide (t ∈ flattened targets conf configs) then None else dget t configs).
Proof.
  induction targets as [|t0 targets IH]; intros conf configs kept conf' configs' kept' Hwf H.
  { injection H as _ <- _. split; [done|]. split; [set_solver|done]. }
  cbn [flatten_all flattened] in *. destruct (dget t0 configs) as [c0|] eqn:Hc0; [|done]. cbn in H.
  destruct (decide (t0 ∈ _INCLUDE_SET)) as [Hin|Hni].
  - destruct (IH _ _ _ _ _ _ Hwf H) as (H1 & H2 & H3). split; [done|]. split; [|done].
    intros t. rewrite H2, elem_of_cons. naive_solver.
  - destruct (_flatten_include conf c0) as [c1|] eqn:Hf; [|done]. cbn in H.
    destruct (IH _ _ _ _ _ _ (dict_wf_ddel _ _ Hwf) H) as (H1 & H2 & H3). split; [done|]. split.
    + intros t. rewrite !elem_of_cons, H2. naive_solver.
    + intros t. rewrite H3. destruct (decide (t = t0)) as [->|Hne].
      * rewrite dget_ddel_eq by done. rewrite (bool_decide_true (t0 ∈ t0 :: _)) by left. by case_bool_decide.
      * rewrite dget_ddel_ne by done.
        rewrite (bool_decide_ext (t ∈ flattened targets c1 (ddel t0 configs))
                   (t ∈ t0 :: flattened targets c1 (ddel t0 configs))); [done|].
        rewrite elem_of_cons. tauto.
Qed.

(** Only configurations that were loaded are deleted. *)
Lemma flattened_known targets : ∀ conf configs t,
  dict_wf configs → t ∈ flattened targets conf configs → is_Some (dget t configs).
Proof.
  induction targets as [|t0 targets IH]; intros conf configs t Hwf; cbn [flattened];
    [by intros ?%elem_of_nil|].
  destruct (dget t0 configs) as [c0|] eqn:Hc0; [|by intros ?%elem_of_nil].
  case_decide; [by apply IH|]. destruct (_flatten_include conf c0); [|by intros ?%elem_of_nil].
  intros [->|Hin]%elem_of_cons; [by eexists|].
  apply IH in Hin; [|by apply dict_wf_ddel]. destruct (decide (t = t0)) as [->|]; [by eexists|].
  by rewrite dget_ddel_ne in Hin.
Qed.

(** Flattening keeps the parts the main configuration has. *)
Lemma flatten_include_keeps conf target c' k v :
  _flatten_include conf target = Ok c' → dget k conf = Some v → dget k c' = Some v.
Proof.
  unfold _flatten_include. revert conf. induction (ddel "version" target) as [|[k0 v0] parts IH];
    intros conf H Hk; cbn [foldl] in H; [by injection H as <-|].
  cbn [mbind res_bind] in H. destruct (dmem k0 conf) eqn:Hm; cbn [negb guard_res mbind res_bind] in H.
  - exfalso. revert H. clear. induction parts as [|[k1 v1] parts IH]; [done|exact IH].
  - apply (IH _ H). rewrite dget_dset_ne; [done|]. intros ->. apply dmem_false in Hm. congruence.
Qed.

Lemma flatten_keeps targets : ∀ conf configs kept conf' configs' kept' k v,
  flatten_all targets conf configs kept = Ok (conf', configs', kept') →
  dget k conf = Some v → dget k conf' = Some v.
Proof.
  induction targets as [|t targets IH]; intros conf configs kept conf' configs' kept' k v H Hk;
    cbn [flatten_all] in H; [by injection H as <- _ _|].
  destruct (dget t configs) as [c0|]; [|done]. cbn in H. case_decide; [by eapply IH|].
  destruct (_flatten_include conf c0) as [c1|] eqn:Hf; [|done]. cbn in H.
  eapply IH; [exact H|]. by eapply flatten_include_keeps.
Qed.

(** The directory of a domain is its own. *)
Definition own_directory (S : site) (U : setup) (l : list (string * t1_conf)) : Prop :=
  NoDup ((λ '(domain, t1), _get_ctl_name S U (t1_location t1) domain) <$> l).

Lemma generate_domain_writes S U domain t1 topo topo' :
  generate_domain S U domain t1 topo = (topo', Ok tt) →
  (∃ faucet, _make_faucet S U domain = Ok faucet ∧
     topo' !! (_get_ctl_name S U (t1_location t1) domain, "faucet.yaml") = Some (GFaucet faucet)) ∧
  ∀ d f, d ≠ _get_ctl_name S U (t1_location t1) domain → topo' !! (d, f) = topo !! (d, f).
Proof.
  unfold generate_domain, _write_config. destruct (_make_faucet S U domain) as [faucet|]; [|done].
  destruct (_make_gauge S U domain) as [gauge|]; [|done]. destruct (_make_uniform S U); [|done].
  intros [= <-]. split.
  - exists faucet. split; [done|]. rewrite !lookup_insert_ne by (intros [=]). apply lookup_insert_eq.
  - intros d f Hd. by rewrite !lookup_insert_ne by congruence.
Qed.

(** A generated topology has the main configuration of every domain, in a
    directory of its own, and nothing else is changed. *)
Lemma generate_domains_all S U l : ∀ topo topo',
  own_directory S U l → generate_domains S U l topo = (topo', Ok tt) →
  (∀ domain t1, (domain, t1) ∈ l → ∃ faucet, _make_faucet S U domain = Ok faucet ∧
     topo' !! (_get_ctl_name S U (t1_location t1) domain, "faucet.yaml") = Some (GFaucet faucet)) ∧
  (∀ d f, (∀ domain t1, (domain, t1) ∈ l → d ≠ _get_ctl_name S U (t1_location t1) domain) →
     topo' !! (d, f) = topo !! (d, f)).
Proof.
  unfold own_directory. induction l as [|[domain t1] l IH]; intros topo topo' Hnd H.
  { injection H as <-. split; [by intros ? ? ?%elem_of_nil|done]. }
  cbn [fmap list_fmap] in Hnd. apply NoDup_cons in Hnd as [Hni Hnd]. cbn [generate_domains] in H.
  destruct (generate_domain S U domain t1 topo) as [topo1 [[]|]] eqn:E; [|done].
  apply generate_domain_writes in E as [(faucet & Hf & Hw) Hsame].
  destruct (IH _ _ Hnd H) as [H1 H2]. split.
  - intros domain' t1' [[= -> ->]|Hin]%elem_of_cons; [|by apply H1].
    exists faucet. split; [done|]. rewrite H2; [done|]. intros domain'' t1'' Hin Heq. apply Hni.
    apply list_elem_of_fmap. exists (domain'', t1''). by split.
  - intros d f Hd. rewrite H2 by (intros ? ? Hin; apply Hd; by right). apply Hsame, Hd. left.
Qed.

(** ** Property *)

(** Normalizing a topology merges its included files and leaves none of them
    behind.  When it succeeds: the files that the main configuration included,
    but for the uniform rules, are in the topology directory neither anew nor
    from an earlier run; every other YAML file of the source is there as it
    was, and the main one has lost no part; files of other names are not
    touched. *)
Theorem normalize_removes_included (source_dir : string) (source : list (string * dict string val))
    (topo topo' : dir) (conf : dict string val) (targets : list string) (include : val)
    (Hmain : dget "faucet.yaml" (yaml_files source) = Some conf)
    (Hinc : dget "include" conf = Some include) (Hnames : include_names include = Ok targets)
    (Hself : "faucet.yaml" ∉ targets)
    (Hrun : _normalize_raw_topo source_dir source topo = (topo', Ok tt)) :
  (∀ t, t ∈ targets → t ∉ _INCLUDE_SET → topo' !! t = None) ∧
  (∀ t d, dget t (yaml_files source) = Some d → t ≠ "faucet.yaml" → t ∉ targets ∨ t ∈ _INCLUDE_SET →
     topo' !! t = Some (VDict d)) ∧
  (∃ conf', topo' !! "faucet.yaml" = Some (VDict conf') ∧
     ∀ k v, k ≠ "include" → dget k conf = Some v → dget k conf' = Some v) ∧
  (∀ t, dget t (yaml_files source) = None → topo' !! t = topo !! t).
Proof.
  unfold _normalize_raw_topo in Hrun. case_bool_decide; [done|]. pose proof (yaml_files_wf source) as Hwf.
  set (configs := yaml_files source) in *.
  unfold deletions, _flatten_configs in Hrun. rewrite Hmain in Hrun. cbn [of_option mbind res_bind] in Hrun.
  destruct (dmem "include-optional" conf); [done|]. rewrite Hinc, Hnames in Hrun. cbn [negb guard_res mbind res_bind] in Hrun.
  destruct (flatten_all targets conf configs (list_to_set targets)) as [[[c1 configs1] kept]|] eqn:Hf; [|done].
  cbn [mbind res_bind] in Hrun.
  destruct (flatten_all_configs _ _ _ _ _ _ _ Hwf Hf) as (Hwf1 & Hdel & Hget).
  destruct (forallb _ _) in Hrun; [|done]. cbn [guard_res mbind res_bind] in Hrun. injection Hrun as <-.
  set (c2 := if decide (kept = ∅) then _ else _).
  assert (dget "faucet.yaml" configs1 = Some conf) as Hm1.
  { rewrite Hget, bool_decide_false; [done|]. rewrite Hdel. tauto. }
  assert (dict_wf (flat_configs c2 configs1)) as Hwf2.
  { unfold flat_configs. case_match; [by apply dict_wf_dset|done]. }
  assert (∀ t, t ≠ "faucet.yaml" → dget t (flat_configs c2 configs1) = dget t configs1) as Hother.
  { intros t Ht. unfold flat_configs. case_match; [by rewrite dget_dset_ne|done]. }
  split_and!.
  - intros t Ht Hn. rewrite written_lookup, deleted_lookup by done.
    rewrite Hother, Hget by (intros ->; done). rewrite (bool_decide_true (t ∈ flattened _ _ _)); [done|].
    by apply Hdel.
  - intros t d Hd Hne Hor. rewrite written_lookup by done. rewrite Hother, Hget by done.
    rewrite bool_decide_false; [by rewrite Hd|]. rewrite Hdel. tauto.
  - exists c2. split.
    + rewrite written_lookup by done. unfold flat_configs, dmem. by rewrite Hm1, dget_dset_eq.
    + intros k v Hk Hv. assert (dget k c1 = Some v) as Hc1 by (eapply flatten_keeps; done).
      unfold c2. case_decide; [by rewrite dget_ddel_ne|by rewrite dget_dset_ne].
  - intros t Ht. rewrite written_lookup, deleted_lookup by done.
    assert (t ≠ "faucet.yaml") as Hne by (intros ->; congruence).
    rewrite Hother, Hget, Ht by done.
    rewrite bool_decide_false; [done|]. intros Hin%flattened_known; [|done].
    rewrite Ht in Hin. by destruct Hin.
Qed.

Definition demo_source : list (string * dict string val) :=
  [("faucet.yaml", [("version", VInt 2); ("include", VList [VStr "acls.yaml"; VStr "uniform.yaml"])]);
   ("acls.yaml", [("version", VInt 2); ("acls", VDict [])]); ("uniform.yaml", [("x", VInt 1)]);
   ("notes.txt", [])].

Lemma normalize_removes_included_witness :
  let topo' := (_normalize_raw_topo "raw" demo_source {["acls.yaml" := VNone; "old.yaml" := VInt 7]}).1 in
  topo' !! "acls.yaml" = None ∧ topo' !! "uniform.yaml" = Some (VDict [("x", VInt 1)]) ∧
  topo' !! "old.yaml" = Some (VInt 7).
Proof.
  intros topo'.
  destruct (normalize_removes_included "raw" demo_source {["acls.yaml" := VNone; "old.yaml" := VInt 7]} topo'
    [("version", VInt 2); ("include", VList [VStr "acls.yaml"; VStr "uniform.yaml"])]
    ["acls.yaml"; "uniform.yaml"] (VList [VStr "acls.yaml"; VStr "uniform.yaml"])) as (H1 & H2 & _ & H4).
  - reflexivity.
  - reflexivity.
  - reflexivity.
  - apply (bool_decide_unpack _). reflexivity.
  - vm_compute. reflexivity.
  - split_and!.
    + apply H1; [left|]. apply (bool_decide_unpack _). reflexivity.
    + apply H2; [reflexivity|discriminate|]. right. left.
    + apply H4. reflexivity.
Defined.

End GeneratorFiles.
