(* ===== verification/Forchestrator.v ===== *)
(** * The orchestrator and its services (src/daq/forchestrator.py,
      src/daq/http_server.py, and the connection of src/daq/faucet_event_client.py)

    - [Connection]: how the event client waits for the controller's socket and
      connects to it; one budget of retries is shared by both loops.
    - [HttpServer]: the map from paths to request targets, and the answer to a
      request.  URL parsing, the text of an exception and the text of the map
      are parameters.
    - [Forchestrator]: the event loop on top of the event client. *)

From stdpp Require Import base list gmap strings pretty.
From Stdlib Require Import ZArith Lia Ascii.
From S2P Require Import Prelude PyVal PyText FaucetEvents Configurator FlatConfig.

(** ** The connection of the event client *)
Module Connection.
Local Open Scope list_scope.

Definition FAUCET_RETRIES : nat := 20.

Section connect.
(** What the [n]th test for the socket's path gives, and whether the [n]th call
    of [sock.connect] succeeds. *)
Context (path_exists accepts : nat → bool).

(** The first loop: the retries that are left, or the failed assertion. *)
Fixpoint wait_path (retries n : nat) : res nat :=
  if path_exists n then Ok retries
  else match retries with
       | O => Raise AssertionError
       | S retries' => wait_path retries' (S n)
       end.

(** The second loop, over [range(retries)]: whether it connected, and after how
    many calls. *)
Fixpoint try_connect (retries n : nat) : bool * nat :=
  match retries with
  | O => (false, n)
  | S retries' => if accepts n then (true, S n) else try_connect retries' (S n)
  end.

(** [connect]: the seconds slept on success. *)
Definition connect : res nat :=
  retries ← wait_path FAUCET_RETRIES 0;
  let '(connected, calls) := try_connect retries 0 in
  guard_res connected AssertionError;;
  Ok ((FAUCET_RETRIES - retries) + 5 * calls)%nat.

Lemma wait_path_ok retries n left :
  wait_path retries n = Ok left ↔
  (left ≤ retries)%nat ∧ path_exists (n + (retries - left))%nat = true ∧
  ∀ m, (n ≤ m < n + (retries - left))%nat → path_exists m = false.
Proof.
  revert n. induction retries as [|r IH]; intros n; cbn [wait_path].
  - destruct (path_exists n) eqn:He; split.
    + intros [= <-]. replace (n + (0 - 0))%nat with n by lia. split_and!; [lia|done|lia].
    + intros (H & _ & _). by replace left with 0%nat by lia.
    + done.
    + intros (H & Hp & _). replace (n + (0 - left))%nat with n in Hp by lia. congruence.
  - destruct (path_exists n) eqn:He.
    + split.
      * intros [= <-]. replace (n + (S r - S r))%nat with n by lia. split_and!; [lia|done|lia].
      * intros (H & _ & Hm). destruct (decide (left = S r)) as [->|]; [done|].
        rewrite (Hm n) in He by lia. done.
    + rewrite IH. split.
      * intros (H & Hp & Hm). replace (S r - left)%nat with (S (r - left)) by lia.
        replace (n + S (r - left))%nat with (S n + (r - left))%nat by lia. split_and!; [lia|done|].
        intros m Hl. destruct (decide (m = n)) as [->|]; [done|]. apply Hm. lia.
      * intros (H & Hp & Hm). destruct (decide (left = S r)) as [->|].
        { replace (n + (S r - S r))%nat with n in Hp by lia. congruence. }
        replace (n + (S r - left))%nat with (S n + (r - left))%nat in Hp by lia.
        split_and!; [lia|done|]. intros m Hl. apply Hm. lia.
Qed.

Lemma try_connect_ok retries n :
  (try_connect retries n).1 = true ↔ ∃ m, (n ≤ m < n + retries)%nat ∧ accepts m = true.
Proof.
  revert n. induction retries as [|r IH]; intros n; cbn [try_connect].
  - split; [done|]. intros (m & H & _). lia.
  - destruct (accepts n) eqn:Ha; [split; [|done]; exists n; split; [lia|done]|].
    rewrite IH. split; intros (m & Hm & H).
    + exists m. split; [lia|done].
    + destruct (decide (m = n)) as [->|]; [congruence|]. exists m. split; [lia|done].
Qed.

Lemma try_connect_calls retries n : (n ≤ (try_connect retries n).2 ≤ n + retries)%nat.
Proof.
  revert n. induction retries as [|r IH]; intros n; cbn [try_connect]; [simpl; lia|].
  destruct (accepts n); [simpl; lia|]. specialize (IH (S n)). lia.
Qed.
End connect.

(** Connecting shares its retries between its two loops.  It succeeds exactly
    when the socket's path appears after some number [w] of waits, at most
    twenty, and one of the [20 - w] calls of [connect] that are left succeeds;
    a socket that appears at the last test is never connected to.  The client
    sleeps at most 100 seconds before the outcome is known. *)
Theorem connect_budget (path_exists accepts : nat → bool) :
  ((∃ t, connect path_exists accepts = Ok t) ↔
   ∃ w i, (w + i < FAUCET_RETRIES)%nat ∧ path_exists w = true ∧
     (∀ m, (m < w)%nat → path_exists m = false) ∧ accepts i = true) ∧
  (∀ t, connect path_exists accepts = Ok t → (t ≤ 100)%nat).
Proof.
  unfold connect. destruct (wait_path path_exists FAUCET_RETRIES 0) as [left|e] eqn:Hw.
  - pose proof Hw as (Hle & Hp & Hm)%wait_path_ok. cbn [mbind res_bind]. rewrite Nat.add_0_l in Hp, Hm.
    pose proof (try_connect_ok accepts left 0) as Hok.
    pose proof (try_connect_calls accepts left 0) as Hcalls.
    destruct (try_connect accepts left 0) as [connected calls]. cbn [fst snd] in *.
    split.
    + split.
      * intros [t Ht]. destruct connected; [|done].
        destruct (proj1 Hok eq_refl) as (i & Hi & Ha).
        exists (FAUCET_RETRIES - left)%nat, i. split_and!; [lia|exact Hp| |done].
        intros m Hl. apply Hm. lia.
      * intros (w & i & Hwi & Hpw & Hbefore & Ha). replace connected with true; [by eexists|].
        symmetry. apply Hok. exists i. split; [|done].
        assert (w = FAUCET_RETRIES - left)%nat; [|lia].
        destruct (lt_eq_lt_dec w (FAUCET_RETRIES - left)) as [[Hlt|]|Hgt]; [|done|].
        -- rewrite (Hm w) in Hpw by lia. done.
        -- rewrite (Hbefore _ Hgt) in Hp. done.
    + intros t. destruct connected; [|done]. intros [= <-]. unfold FAUCET_RETRIES in *. lia.
  - cbn [mbind res_bind]. split; [|done]. split; [by intros []|].
    intros (w & i & Hwi & Hpw & Hbefore & _).
    assert (wait_path path_exists FAUCET_RETRIES 0 = Ok (FAUCET_RETRIES - w)%nat) as Hc; [|congruence].
    apply wait_path_ok. unfold FAUCET_RETRIES in *. replace (0 + (20 - (20 - w)))%nat with w by lia.
    split_and!; [lia|done|]. intros m Hl. apply Hbefore. lia.
Qed.

(** A socket that appears with the twentieth wait, and would accept. *)
Example late_socket_refused :
  connect (λ n, bool_decide (n = 20)%nat) (λ _, true) = Raise AssertionError.
Proof. reflexivity. Qed.

(** [disconnect] and [close] need a socket; [close] drops the buffer too. *)
Record endpoint := Endpoint { sock : bool; buffer : option (list ascii) }.

Definition disconnect (e : endpoint) : res endpoint :=
  if sock e then Ok (Endpoint false (buffer e)) else Raise AttributeError.

Definition close (e : endpoint) : res endpoint :=
  if sock e then Ok (Endpoint false None) else Raise AttributeError.

End Connection.

(** ** The request server *)
Module HttpServer.
Import PyVal.
Local Open Scope string_scope.
Local Open Scope list_scope.

Abbreviation target := (dict string val → res val) (only parsing).

(** [_paths] *)
Abbreviation paths := (dict string target) (only parsing).

Definition map_request (path : string) (t : target) (p : paths) : paths := dset path t p.

Section requests.
(** [urlparse] with [parse_qsl]: the path and the pairs of the query; [str] of
    an exception, and of the map of paths. *)
Context (parse : string → string * list (string * string))
  (exc_text : exn → string) (paths_text : paths → string).

Definition get_data (p : paths) (path : string) (opts : dict string val) : val :=
  match dget path p with
  | Some t => match t opts with Ok v => v | Raise e => VStr (exc_text e) end
  | None => VStr (paths_text p)
  end.

(** The loop over the pairs of the query. *)
Definition opts_of (pairs : list (string * string)) : dict string val :=
  foldl (λ opts pair, dset pair.1 (VStr pair.2) opts) [] pairs.

(** [path[1:]] *)
Definition tail_text (s : string) : string :=
  match s with EmptyString => "" | String _ s' => s' end.

(** [do_GET]: the status and the body of the response *)
Definition do_GET (p : paths) (url : string) : Z * string :=
  let '(path, pairs) := parse url in
  (200%Z, PyStr.py_str (get_data p (tail_text path) (opts_of pairs))).

End requests.

Lemma opts_of_get pairs k :
  dget k (opts_of pairs) = VStr <$> (last (omap (λ p, if bool_decide (p.1 = k) then Some p.2 else None) pairs)).
Proof.
  unfold opts_of. induction pairs as [|[k' v] pairs IH] using rev_ind; [done|].
  rewrite foldl_app, omap_app. cbn [foldl omap list_omap fst snd].
  destruct (decide (k' = k)) as [->|Hne].
  - rewrite dget_dset_eq, bool_decide_true by done. by rewrite last_snoc.
  - rewrite dget_dset_ne, bool_decide_false, app_nil_r by done. exact IH.
Qed.

End HttpServer.

(** ** The orchestrator *)
Module Forchestrator.
Import PyVal FaucetEventClient.
Local Open Scope string_scope.
Local Open Scope list_scope.

(** [get_overview] *)
Definition get_overview (params : dict string val) : res val :=
  Ok (VDict [("hello", VStr "world"); ("params", VDict params)]).

(** [(a, b, c) = l] *)
Definition unpack3 (l : list val) : res (val * val * val) :=
  match l with [a; b; c] => Ok (a, b, c) | _ => Raise ValueError end.

(** The sequence [as_port_learn] returns. *)
Definition port_learn_items (event : val) : res (list val) :=
  '(dpid, port, mac, vid) ← as_port_learn event; Ok [dpid; vopt port; mac; vid].

(** What the loop's body does with an event that is not empty. *)
Definition handle_event (event : val) : res unit :=
  _ ← as_port_state event;
  items ← port_learn_items event;
  _ ← unpack3 items;
  _ ← as_config_change event;
  Ok tt.

Section json.
Context `{Json}.

(** [_handle_faucet_events]: [None] when the fuel, which bounds the events
    handled and the lines of each of them, runs out. *)
Fixpoint _handle_faucet_events (fuel : nat) (c : client) : option (client * res bool) :=
  match fuel with
  | O => None
  | S fuel' =>
      match next_event fuel' c with
      | None => None
      | Some (c, Raise e) => Some (c, Raise e)
      | Some (c, Ok event) =>
          if truth event then
            match handle_event event with
            | Raise e => Some (c, Raise e)
            | Ok _ => _handle_faucet_events fuel' c
            end
          else Some (c, Ok true)
      end
  end.

(** The loop of [main_loop], on [rounds] states of the client that other
    threads and the network lead to between the calls. *)
Fixpoint main_loop (fuel : nat) (rounds : list (client → client)) (c : client) :
    option (client * res bool) :=
  match rounds with
  | [] => Some (c, Ok true)
  | change :: rounds' =>
      match _handle_faucet_events fuel (change c) with
      | Some (c, Ok true) => main_loop fuel rounds' c
      | r => r
      end
  end.

Lemma handle_event_raises event : ∃ e, handle_event event = Raise e.
Proof.
  unfold handle_event. destruct (as_port_state event); [|by eexists]. cbn [mbind res_bind].
  unfold port_learn_items. destruct (as_port_learn event) as [[[[? ?] ?] ?]|]; by eexists.
Qed.

(** The orchestrator survives no event: whatever the event is, handling it
    raises, since the learning information has four parts and is unpacked into
    three; the event loop goes on exactly as long as nothing happens. *)
Theorem orchestrator_fails_on_event (fuel : nat) (c c' : client) (event : val)
    (Hnext : next_event fuel c = Some (c', Ok event)) :
  if truth event then ∃ e, _handle_faucet_events (S fuel) c = Some (c', Raise e)
  else _handle_faucet_events (S fuel) c = Some (c', Ok true).
Proof.
  cbn [_handle_faucet_events]. rewrite Hnext. destruct (truth event); [|done].
  destruct (handle_event_raises event) as [e ->]. by exists e.
Qed.
End json.

(** ** The overview request *)

(** The overview that is served has, for each name in the query of the
    request, the last value the query gives it. *)
Theorem overview_served (parse : string → string * list (string * string))
    (exc_text : exn → string) (paths_text : dict string (dict string val → res val) → string)
    (url : string) (pairs : list (string * string))
    (Hparse : parse url = ("/overview", pairs)) :
  ∃ params,
    HttpServer.do_GET parse exc_text paths_text
      (HttpServer.map_request "overview" get_overview []) url =
      (200%Z, PyStr.py_str (VDict [("hello", VStr "world"); ("params", VDict params)])) ∧
    ∀ k v, dget k params = Some v ↔
      ∃ s, v = VStr s ∧ last (omap (λ p, if bool_decide (p.1 = k) then Some p.2 else None) pairs) = Some s.
Proof.
  exists (HttpServer.opts_of pairs). split.
  - unfold HttpServer.do_GET. by rewrite Hparse.
  - intros k v. rewrite HttpServer.opts_of_get.
    destruct (last _) as [s|]; simpl; naive_solver.
Qed.

Lemma overview_served_witness :
  ∃ params, HttpServer.do_GET (λ _, ("/overview", [("a", "1"); ("a", "2")])) (λ _, "") (λ _, "")
      (HttpServer.map_request "overview" get_overview []) "/overview?a=1&a=2" =
    (200%Z, PyStr.py_str (VDict [("hello", VStr "world"); ("params", VDict params)])) ∧
    dget "a" params = Some (VStr "2").
Proof.
  destruct (overview_served (λ _, ("/overview", [("a", "1"); ("a", "2")])) (λ _, "") (λ _, "")
    "/overview?a=1&a=2" _ eq_refl) as (params & H & Hp).
  exists params. split; [exact H|]. apply Hp. exists "2". split; reflexivity.
Defined.

End Forchestrator.
