(* ===== verification/Services.v ===== *)
(** * Logging and the programs around the components (src/daq/logger.py,
      src/daq/traffic_analyzer.py, src/daq/varz_state_collector.py,
      src/daq/session_server.py, src/daq/entry.py,
      src/subset/dot1x/authenticator/authenticator.py)

    - [Logger]: the named loggers and their handlers.
    - [Analyzer]: the life of the traffic analyzer, with the chain of timers
      that [_periodic_tasks] keeps.
    - [Varz]: the command line of the statistics collector.
    - [SessionStart]: starting a session on the server.
    - [EntryLogging]: the log levels of the program.
    - [AuthConfig]: the configuration of the authenticator. *)

From stdpp Require Import base list gmap strings pretty.
From Stdlib Require Import ZArith Lia Ascii.
From S2P Require Import Prelude PyVal PyText Sessions TrafficStats.

(** ** Loggers *)
Module Logger.
Local Open Scope string_scope.
Local Open Scope list_scope.

(** Handler objects: the log file of the program, of which there is one; a
    stream to the console; the file of one [get_logger] call; a cloud handler. *)
Inductive handler := DefaultFile | StdOut (id : nat) | LogFile (path : string) (id : nat) | Cloud (id : nat).
#[export] Instance handler_eq_dec : EqDecision handler.
Proof. solve_decision. Defined.

(** [LOGGERS] has the names that were asked for; the handlers are those of the
    [logging] module's loggers, where the root logger has the empty name. *)
Record loggers := Loggers {
  LOGGERS : list (option string);
  handlers : gmap string (list handler);
  stackdriver_handler : option nat;
  next_id : nat
}.
Definition init : loggers := Loggers [] ∅ None 0.

Definition named (name : option string) : bool :=
  match name with Some n => negb (bool_decide (n = "")) | None => false end.
Definition key (name : option string) : string := default "" name.
Definition handlers_of (n : string) (s : loggers) : list handler := default [] (handlers s !! n).

(** [logger.addHandler(h)]: a handler is there once. *)
Definition add (h : handler) (l : list handler) : list handler := if bool_decide (h ∈ l) then l else l ++ [h].
Definition addHandler (n : string) (h : handler) (s : loggers) : loggers :=
  Loggers (LOGGERS s) (<[n := add h (handlers_of n s)]> (handlers s)) (stackdriver_handler s)
    (S (next_id s)).

(** [get_logger] *)
Definition new_logger (name : option string) (s : loggers) : loggers :=
  let s := Loggers (LOGGERS s ++ [name]) (handlers s) (stackdriver_handler s) (next_id s) in
  if named name then
    match stackdriver_handler s with Some id => addHandler (key name) (Cloud id) s | None => s end
  else addHandler (key name) (StdOut (next_id s)) (addHandler (key name) DefaultFile s).
Definition get_logger (name : option string) (log_file : option string) (s : loggers) : loggers :=
  let s := if bool_decide (name ∈ LOGGERS s) then s else new_logger name s in
  match log_file with
  | Some f => if bool_decide (f = "") then s else addHandler (key name) (LogFile f (next_id s)) s
  | None => s
  end.

(** [set_stackdriver_client]; [id] is the handler it makes *)
Definition set_stackdriver_client (id : nat) (s : loggers) : loggers :=
  let s := foldl (λ s name, if named name then addHandler (key name) (Cloud id) s else s) s (LOGGERS s) in
  Loggers (LOGGERS s) (handlers s) (Some id) (next_id s).

Inductive op := Get (name : option string) (log_file : option string) | SetCloud (id : nat).
Definition act (o : op) (s : loggers) : loggers :=
  match o with Get name f => get_logger name f s | SetCloud id => set_stackdriver_client id s end.
Definition run (l : list op) (s : loggers) : loggers := foldl (λ s o, act o s) s l.

(** How often a handler is in a logger. *)
Definition count (h : handler) (n : string) (s : loggers) : nat :=
  length (filter (λ x, x = h) (handlers_of n s)).

Lemma count_add h n k s m :
  count h m (addHandler n k s) =
    if decide (m = n ∧ k = h) then (1 `max` count h m s)%nat else count h m s.
Proof.
  unfold count, handlers_of at 1, addHandler. cbn [handlers].
  destruct (decide (m = n)) as [->|Hne].
  2:{ rewrite lookup_insert_ne by done. by rewrite decide_False by naive_solver. }
  rewrite lookup_insert_eq. cbn [from_option id]. unfold add. case_bool_decide as Hin.
  - case_decide as Hd; [|done]. destruct Hd as [_ ->].
    assert (0 < length (filter (λ x, x = h) (handlers_of n s)))%nat; [|lia].
    destruct (filter (λ x, x = h) (handlers_of n s)) as [|x l] eqn:E; [|simpl; lia].
    exfalso. assert (h ∈ filter (λ x, x = h) (handlers_of n s)) as Hf by by apply list_elem_of_filter.
    rewrite E in Hf. by apply elem_of_nil in Hf.
  - rewrite filter_app, length_app. destruct (decide (k = h)) as [->|Hk].
    + rewrite decide_True by done. rewrite filter_cons_True by done. cbn [length filter list_filter].
      assert (filter (λ x, x = h) (handlers_of n s) = []) as ->; [|done].
      destruct (filter _ _) as [|x l] eqn:E; [done|]. exfalso. apply Hin.
      assert (x ∈ filter (λ x, x = h) (handlers_of n s)) as Hx by (rewrite E; left).
      by apply list_elem_of_filter in Hx as [-> ?].
    + rewrite decide_False by naive_solver. rewrite filter_cons_False by done. simpl. lia.
Qed.

(** What holds of the cloud handlers: at most once anywhere, never at the root,
    and the current one at every named logger. *)
Record cloud_inv (s : loggers) : Prop := {
  at_most_once : ∀ id n, (count (Cloud id) n s ≤ 1)%nat;
  not_at_root : ∀ id, count (Cloud id) "" s = 0%nat;
  current : ∀ id name, stackdriver_handler s = Some id → name ∈ LOGGERS s → named name = true →
    count (Cloud id) (key name) s = 1%nat
}.

Lemma addHandler_other n h s :
  (∀ id, h ≠ Cloud id) → cloud_inv s → cloud_inv (addHandler n h s).
Proof.
  intros Hh [H1 H2 H3]. split.
  - intros id m. rewrite count_add, decide_False; [apply H1|]. intros [_ ?]. by eapply Hh.
  - intros id. rewrite count_add, decide_False; [apply H2|]. intros [_ ?]. by eapply Hh.
  - intros id name Hc Hin Hn. rewrite count_add, decide_False; [by apply H3|]. intros [_ ?]. by eapply Hh.
Qed.

Lemma named_key name : named name = true → key name ≠ "".
Proof. destruct name as [n|]; [|done]. simpl. by case_bool_decide. Qed.

(** A cloud handler at a named logger keeps the counts, and is there then. *)
Lemma count_add_cloud name id s :
  named name = true → (∀ i n, (count (Cloud i) n s ≤ 1)%nat) → (∀ i, count (Cloud i) "" s = 0%nat) →
  let s' := addHandler (key name) (Cloud id) s in
  (∀ i n, (count (Cloud i) n s' ≤ 1)%nat) ∧ (∀ i, count (Cloud i) "" s' = 0%nat) ∧
  count (Cloud id) (key name) s' = 1%nat ∧
  (∀ i n, count (Cloud i) n s = 1%nat → count (Cloud i) n s' = 1%nat).
Proof.
  intros Hn H1 H2 s'. pose proof (named_key _ Hn) as Hk. unfold s'. split_and!.
  - intros i n. rewrite count_add. specialize (H1 i n). case_decide; lia.
  - intros i. rewrite count_add, decide_False by naive_solver. done.
  - rewrite count_add, decide_True by done. specialize (H1 id (key name)). lia.
  - intros i n Hc. rewrite count_add, Hc. by case_decide.
Qed.

Lemma get_logger_inv name f s : cloud_inv s → cloud_inv (get_logger name f s).
Proof.
  intros Hs. unfold get_logger.
  assert (cloud_inv (if bool_decide (name ∈ LOGGERS s) then s else new_logger name s)) as Hs'.
  { case_bool_decide; [done|]. destruct Hs as [H1 H2 H3]. unfold new_logger.
    set (s0 := Loggers _ (handlers s) _ _).
    assert (∀ h n, count h n s0 = count h n s) as Hc by done.
    destruct (named name) eqn:Hn.
    - destruct (stackdriver_handler s0) as [id|] eqn:Hid.
      + destruct (count_add_cloud name id s0 Hn) as (Ha & Hb & Hd & He); [intros i n; rewrite Hc; apply H1|intros i; rewrite Hc; apply H2|].
        split; [done|done|]. intros id' name' Hid' Hin Hn'. cbn in Hid', Hin.
        assert (id' = id) as -> by (cbn in Hid; congruence).
        apply elem_of_app in Hin as [Hin|Hin%list_elem_of_singleton]; [|by subst].
        apply He. rewrite Hc. by apply H3.
      + split; [intros i n; rewrite Hc; apply H1|intros i; rewrite Hc; apply H2|]. intros id' name' Hid' Hin Hn'. by rewrite Hid in Hid'.
    - do 2 (apply addHandler_other; [done|]). split; [intros i n; rewrite Hc; apply H1|intros i; rewrite Hc; apply H2|].
      intros id name' Hid Hin Hn'. rewrite Hc. apply H3; [done| |done].
      apply elem_of_app in Hin as [Hin|Hin%list_elem_of_singleton]; [done|congruence]. }
  destruct f as [f|]; [|done]. destruct (bool_decide (f = "")); [done|]. by apply addHandler_other.
Qed.

Lemma set_cloud_all id l : ∀ s,
  (∀ i n, (count (Cloud i) n s ≤ 1)%nat) → (∀ i, count (Cloud i) "" s = 0%nat) →
  let s' := foldl (λ s name, if named name then addHandler (key name) (Cloud id) s else s) s l in
  (∀ i n, (count (Cloud i) n s' ≤ 1)%nat) ∧ (∀ i, count (Cloud i) "" s' = 0%nat) ∧
  (∀ i n, count (Cloud i) n s = 1%nat → count (Cloud i) n s' = 1%nat) ∧
  (∀ name, name ∈ l → named name = true → count (Cloud id) (key name) s' = 1%nat) ∧
  LOGGERS s' = LOGGERS s.
Proof.
  induction l as [|name l IH]; intros s H1 H2; cbn [foldl].
  { split_and!; try done. by intros ? ?%elem_of_nil. }
  destruct (named name) eqn:Hn.
  - destruct (count_add_cloud name id s Hn H1 H2) as (Ha & Hb & Hc & Hd).
    destruct (IH _ Ha Hb) as (I1 & I2 & I3 & I4 & I5). split_and!; [done|done|by eauto| |done].
    intros name' [->|Hin]%elem_of_cons Hn'; [by apply I3|by apply I4].
  - destruct (IH _ H1 H2) as (I1 & I2 & I3 & I4 & I5). split_and!; try done.
    intros name' [->|Hin]%elem_of_cons Hn'; [congruence|by apply I4].
Qed.

(** The cloud log gets every named logger once.  However loggers are asked for
    and cloud clients are set, the handler of the current client is in every
    named logger exactly once, whether the logger came before or after it, and
    no cloud handler is ever in the root logger, to which the others pass
    their messages. *)
Theorem cloud_handler_once (l : list op) (id : nat) (name : option string) :
  let s := run l init in
  count (Cloud id) "" s = 0%nat ∧
  (stackdriver_handler s = Some id → name ∈ LOGGERS s → named name = true →
   count (Cloud id) (key name) s = 1%nat).
Proof.
  assert (∀ s, cloud_inv s → cloud_inv (run l s)) as Hrun.
  { induction l as [|o l IH]; intros s Hs; [done|]. apply IH. destruct o as [n f|i].
    - by apply get_logger_inv.
    - destruct Hs as [H1 H2 _]. unfold act, set_stackdriver_client.
      destruct (set_cloud_all i (LOGGERS s) s H1 H2) as (I1 & I2 & _ & I4 & I5).
      split; [done|done|]. intros i' n [= <-] Hin Hn. cbn [LOGGERS] in Hin. rewrite I5 in Hin. by apply I4. }
  assert (∀ h n, count h n init = 0%nat) as Hzero.
  { intros h n. unfold count, handlers_of, init. cbn [handlers]. by rewrite lookup_empty. }
  assert (cloud_inv init) as Hinit by (split; [intros i n; rewrite Hzero; lia|done|by intros]).
  destruct (Hrun init Hinit) as [_ H2 H3]. intros s. split; [apply H2|by apply H3].
Qed.

Lemma cloud_handler_once_witness :
  let s := run [Get None None; Get (Some "gcp") None; SetCloud 1; Get (Some "host") (Some "h.log")] init in
  count (Cloud 1) "host" s = 1%nat ∧ count (Cloud 1) "gcp" s = 1%nat.
Proof.
  intros s. split.
  - exact (proj2 (cloud_handler_once
      [Get None None; Get (Some "gcp") None; SetCloud 1; Get (Some "host") (Some "h.log")] 1 (Some "host"))
      eq_refl ltac:(apply (bool_decide_unpack _); reflexivity) eq_refl).
  - exact (proj2 (cloud_handler_once
      [Get None None; Get (Some "gcp") None; SetCloud 1; Get (Some "host") (Some "h.log")] 1 (Some "gcp"))
      eq_refl ltac:(apply (bool_decide_unpack _); reflexivity) eq_refl).
Defined.

(** Asking again for a logger with a log file adds another handler: the tests
    of one device after the other log into the files of all before. *)
Definition log_files (n : string) (s : loggers) : list string :=
  omap (λ h, match h with LogFile f _ => Some f | _ => None end) (handlers_of n s).

Example log_files_accumulate :
  log_files "ipaddr.ipaddr01"
    (run [Get (Some "ipaddr.ipaddr01") (Some "run-1/module.log");
          Get (Some "ipaddr.ipaddr01") (Some "run-2/module.log");
          Get (Some "ipaddr.ipaddr01") (Some "run-2/module.log")] init) =
    ["run-1/module.log"; "run-2/module.log"; "run-2/module.log"].
Proof. reflexivity. Qed.

End Logger.

(** ** The traffic analyzer as a program *)
Module Analyzer.
Import TrafficStats.
Local Open Scope string_scope.
Local Open Scope list_scope.

(** The analyzer with the threads and timers of which each will run
    [_periodic_tasks] once. *)
Record program := Program { stats : analyzer; _initialized : bool; pending : nat }.

Definition set_run (b : bool) (s : analyzer) : analyzer :=
  mkAnalyzer (_duts s) (_device_placements s) (_switch_configs s) b (scheduled s).
Definition set_duts (d : gset string) (s : analyzer) : analyzer :=
  mkAnalyzer d (_device_placements s) (_switch_configs s) (_run s) (scheduled s).

Definition init : program := Program (mkAnalyzer ∅ [] [] false false) false 0.

(** [_reload_device_specs] with the addresses of the file, and [initialize] *)
Definition initialize (specs : res (list string)) (p : program) : program * res unit :=
  match specs with
  | Ok macs => (Program (set_duts (list_to_set macs) (stats p)) true (pending p), Ok tt)
  | Raise e => (p, Raise e)
  end.

(** [start] and [stop] *)
Definition start (p : program) : program * res unit :=
  if _initialized p then (Program (set_run true (stats p)) true (S (pending p)), Ok tt)
  else (p, Raise AssertionError).
Definition stop (p : program) : program := Program (set_run false (stats p)) (_initialized p) (pending p).

(** A pending thread or timer runs [_periodic_tasks]; it sets a timer only when
    it comes to its end. *)
Definition tick (parsed : res switches) (responses : nat → res (Z * list metric)) (p : program) : program :=
  match pending p with
  | O => p
  | S n =>
      let s := fst (_periodic_tasks parsed responses (stats p)) in
      Program s (_initialized p) (if scheduled s then S n else n)
  end.

Lemma periodic_stopped parsed responses s :
  _run s = false → _periodic_tasks parsed responses s = (set_scheduled false s, Ok tt).
Proof. intros Hr. unfold _periodic_tasks, mbind, M_bind, modify, getS. cbn. by rewrite Hr. Qed.

(** After [stop], what is pending ends without touching the analyzer's data. *)
Theorem stop_ends_tasks (parsed : res switches) (responses : nat → res (Z * list metric)) (p : program) :
  let p' := Nat.iter (pending p) (tick parsed responses) (stop p) in
  pending p' = 0%nat ∧ _device_placements (stats p') = _device_placements (stats p) ∧
  _switch_configs (stats p') = _switch_configs (stats p).
Proof.
  intros p'. assert (∀ n q, _run (stats q) = false → (n ≤ pending q)%nat →
    pending (Nat.iter n (tick parsed responses) q) = (pending q - n)%nat ∧
    _run (stats (Nat.iter n (tick parsed responses) q)) = false ∧
    _device_placements (stats (Nat.iter n (tick parsed responses) q)) = _device_placements (stats q) ∧
    _switch_configs (stats (Nat.iter n (tick parsed responses) q)) = _switch_configs (stats q)) as H.
  { induction n as [|n IH]; intros q Hr Hn; [cbn; split_and!; try done; lia|].
    destruct (IH q Hr) as (H1 & H2 & H3 & H4); [lia|]. rewrite !Nat.iter_succ.
    set (q' := Nat.iter n (tick parsed responses) q) in *. unfold tick.
    destruct (pending q') as [|m] eqn:Hp; [lia|]. rewrite periodic_stopped by done. cbn.
    split_and!; [lia|done..]. }
  destruct (H (pending p) (stop p)) as (H1 & _ & H3 & H4); [done|done|].
  split_and!; [unfold p'; rewrite H1; cbn; lia|done..].
Qed.

(** A round that raises ends the updates of a running analyzer. *)
Example failed_round_ends :
  let p := Program (mkAnalyzer ∅ [] [] true false) true 1 in
  let p' := tick (Ok []) (λ _, Raise OtherException) p in
  pending p' = 0%nat ∧ _run (stats p') = true.
Proof. by split. Qed.

End Analyzer.

(** ** The command line of the statistics collector *)
Module Varz.
Import TrafficStats PyText.
Local Open Scope string_scope.
Local Open Scope list_scope.

(** [s.split(c)] *)
Definition split (c : ascii) (s : string) : list string := split_on c (String.list_ascii_of_string s).

(** [label, value = match.split('=')], for every part of the option *)
Definition parse_label_matches (option : string) : res (dict string string) :=
  if bool_decide (option = "") then Ok [] else
  foldl (λ acc part, d ← acc;
    match split "="%char part with
    | [label; value] => Ok (dset label value d)
    | _ => Raise ValueError
    end) (Ok []) (split ","%char option).

(** What [main] collects: the metrics of the controller and of the gauge that
    were asked for. *)
Definition collect (faucet gauge : nat → res (Z * list metric)) (label_option : string)
    (faucet_targets gauge_targets : string) : res (dict string (dict string (list sample))) :=
  matches ← parse_label_matches label_option;
  m1 ← (if bool_decide (faucet_targets = "") then Ok []
        else m ← _retry_get_metrics faucet (split ","%char faucet_targets) retries;
             Ok [("faucet_metrics", report_metrics m matches)]);
  m2 ← (if bool_decide (gauge_targets = "") then Ok []
        else m ← _retry_get_metrics gauge (split ","%char gauge_targets) retries;
             Ok [("gauge_metrics", report_metrics m matches)]);
  Ok (m1 ++ m2).

Example label_matches_demo :
  parse_label_matches "dp_name=sec,in_port=3" = Ok [("dp_name", "sec"); ("in_port", "3")] ∧
  parse_label_matches "a=b=c" = Raise ValueError ∧ parse_label_matches "a" = Raise ValueError.
Proof. by split_and!. Qed.

End Varz.

(** ** Starting a session *)
Module SessionStart.
Import SessionServer.
Local Open Scope string_scope.
Local Open Scope list_scope.

Definition DEFAULT_BIND_ADDRESS : string := "0.0.0.0".
Definition DEFAULT_SERVER_PORT : Z := 50051.

(** The address the server is bound to; an empty address and port 0 are
    replaced by the defaults. *)
Definition address (server_address : option string) (server_port : option Z) : string :=
  let a := match server_address with
           | Some a => if bool_decide (a = "") then DEFAULT_BIND_ADDRESS else a
           | None => DEFAULT_BIND_ADDRESS
           end in
  let p := match server_port with
           | Some p => if (p =? 0)%Z then DEFAULT_SERVER_PORT else p
           | None => DEFAULT_SERVER_PORT
           end in
  a +:+ ":" +:+ PyText.str_int p.

(** [StartSession]: the session is set up, and the stream for it is returned;
    nothing of the stream runs yet.  An exception fails the call. *)
Definition StartSession (on_session : request → M server unit) (now : Z) (r : request) :
    M server string :=
  _init_session on_session now r;; mret (device_mac r).

End SessionStart.

(** ** The configuration of the authenticator *)
Module AuthConfig.
Import PyVal.
Local Open Scope string_scope.

Record settings := Settings {
  debug : val; interface : val; listen_ip : val; listen_port : val; remote_ip : val; remote_port : val;
  secret : val; radius_id : val
}.

Section config.
(** The address and the hardware address of an interface, and the name of the
    main one. *)
Context (interface_name : string) (interface_ip interface_mac : val → res string).

(** [_load_config] on the document of the file; the defaults are computed also
    when they are not used. *)
Definition _load_config (full_config : val) : res settings :=
  modules ← get full_config "modules" VNone;
  config ← get modules "dot1x" VNone;
  debug ← get config "debug" VNone;
  interface ← get config "interface" (VStr interface_name);
  radius_config ← get config "radius_server" (VDict []);
  socket_info ← get radius_config "radius_socket_info" (VDict []);
  ip ← interface_ip interface;
  listen_ip ← get socket_info "listen_ip" (VStr ip);
  listen_port ← get socket_info "listen_port" (VInt 0);
  remote_ip ← get socket_info "remote_ip" (VStr "127.0.0.1");
  remote_port ← get socket_info "remote_port" (VInt 1812);
  secret ← get radius_config "secret" (VStr "SECRET");
  mac ← interface_mac interface;
  radius_id ← get radius_config "id" (VStr mac);
  Ok (Settings debug interface listen_ip listen_port remote_ip remote_port secret radius_id).
End config.

(** An empty configuration gives the defaults. *)
Example default_settings :
  _load_config "h-eth0" (λ _, Ok "10.0.0.2") (λ _, Ok "02:00:00:00:00:01")
    (VDict [("modules", VDict [("dot1x", VDict [])])]) =
  Ok (Settings VNone (VStr "h-eth0") (VStr "10.0.0.2") (VInt 0) (VStr "127.0.0.1") (VInt 1812)
        (VStr "SECRET") (VStr "02:00:00:00:00:01")).
Proof. reflexivity. Qed.

End AuthConfig.

(** ** The log levels of the program *)
Module EntryLogging.
Import PyVal.
Local Open Scope string_scope.

Section levels.
(** The levels mininet's log module knows by name. *)
Context (LEVELS : dict string Z).

(** [configure_logging]: the level of the root logger, the level of its first
    handler, which is used by everything, and mininet's level *)
Record levels := Levels { root_level : Z; file_level : Z; mininet_level : val }.

Definition configure_logging (config : dict string val) : res levels :=
  let log_def := if truth (default VNone (dget "debug_mode" config)) then "debug" else "info" in
  info ← of_option KeyError (dget "info" LEVELS);
  level ← match default (VStr log_def) (dget "daq_loglevel" config) with
          | VStr daq_env => Ok (default info (dget daq_env LEVELS))
          | VList _ | VDict _ => Raise TypeError
          | _ => Ok info
          end;
  debug ← of_option KeyError (dget "debug" LEVELS);
  Ok (Levels level debug (default (VStr "info") (dget "mininet_loglevel" config))).
End levels.

(** [_stripped_alt_logger]: what is logged of a message, if anything *)
Definition _stripped_alt_logger (msg : string) : option string :=
  let stripped := PyText.strip msg in
  if bool_decide (stripped = "") then None else Some stripped.

Definition demo_levels : dict string Z := [("debug", 10); ("info", 20); ("error", 40)]%Z.

Example levels_demo :
  configure_logging demo_levels [("debug_mode", VBool true)] = Ok (Levels 10 10 (VStr "info")) ∧
  configure_logging demo_levels [("daq_loglevel", VStr "loud")] = Ok (Levels 20 10 (VStr "info")) ∧
  _stripped_alt_logger "  *** Done " = Some "*** Done" ∧ _stripped_alt_logger "   " = None.
Proof. by split_and!. Qed.

End EntryLogging.
