(* ===== verification/Startup.v ===== *)
(** * Small parts around the components

    - [RunnerStart]: what src/daq/runner.py sets up besides its tables, and how it
      is cleaned up.
    - [HostModule]: the base class of test modules and the image of a container
      test (src/daq/test_modules/base_module.py, docker_module.py).
    - [HeartbeatScheduler]: the timer of the authenticator
      (src/subset/dot1x/authenticator/heartbeat_scheduler.py). *)

From stdpp Require Import base list gmap strings pretty.
From Stdlib Require Import ZArith Lia Ascii.
From S2P Require Import Prelude PyVal PyText Host TrafficTests ExternalModule Services.

(** ** The runner *)
Module RunnerStart.
Import PyVal.
Local Open Scope string_scope.
Local Open Scope list_scope.

(** [_get_states]: the columns of the status page, in the order a host goes
    through them. *)
Definition _get_states (config : val) : res (list val) :=
  tests ← getitem config "test_list";
  match tests with
  | VList l => Ok ((VStr <$> ConnectedHost.pre_states) ++ l ++ (VStr <$> ConnectedHost.post_states))
  | _ => Raise TypeError
  end.

(** [_init_device_result_handler]: the port and the local address of the session
    server, or [None] when there is none. *)
Definition _init_device_result_handler (config run_trigger : val) : res (option (val * val)) :=
  device_reporting ← get config "device_reporting" (VDict []);
  server_port ← get device_reporting "server_port" VNone;
  egress_vlan ← get run_trigger "egress_vlan" VNone;
  switch_setup ← get config "switch_setup" (VDict []);
  endpoint ← get switch_setup "endpoint" (VDict []);
  local_ip ← get endpoint "ip" VNone;
  if truth server_port then
    guard_res (negb (truth egress_vlan)) AssertionError;;
    Ok (Some (server_port, local_ip))
  else Ok None.

(** [cleanup]: the network is stopped, and an exception of that is logged; the
    result log, open or not, is closed. *)
Record state := State { network_running : bool; result_log : bool }.

Definition cleanup (stop : res unit) (s : state) : state * res unit :=
  let s := match stop with
           | Ok _ => State false (result_log s)
           | Raise _ => s
           end in
  (if result_log s then State (network_running s) false else s, Ok tt).

(** A remote session and a trunk to another switch exclude each other, and
    without a port for sessions there is no server, whatever the rest says. *)
Lemma sessions_exclude_egress config run_trigger port ip :
  _init_device_result_handler config run_trigger = Ok (Some (port, ip)) →
  truth port = true ∧ ∃ v, get run_trigger "egress_vlan" VNone = Ok v ∧ truth v = false.
Proof.
  unfold _init_device_result_handler.
  destruct (get config "device_reporting" (VDict [])) as [dr|]; [|done]. simpl.
  destruct (get dr "server_port" VNone) as [p|]; [|done]. simpl.
  destruct (get run_trigger "egress_vlan" VNone) as [v|]; [|done]. simpl.
  destruct (get config "switch_setup" (VDict [])) as [sw|]; [|done]. simpl.
  destruct (get sw "endpoint" (VDict [])) as [e|]; [|done]. simpl.
  destruct (get e "ip" VNone) as [i|]; [|done]. simpl.
  destruct (truth p) eqn:Hp; [|done]. destruct (truth v) eqn:Hv; [done|].
  simpl. intros [= <- <-]. eauto.
Qed.

(** The log is closed after [cleanup] whether or not the network could be
    stopped, no exception leaves it, and calling it again changes nothing. *)
Lemma cleanup_closes stop s :
  let '(s', r) := cleanup stop s in
  r = Ok () ∧ result_log s' = false ∧ cleanup stop s' = (s', Ok ()).
Proof. destruct s as [n l], stop as [[]|]; destruct l; done. Qed.

End RunnerStart.

(** ** Test modules *)
Module HostModule.
Import ExternalModule.
Local Open Scope string_scope.
Local Open Scope list_scope.

(** The attributes [start] sets; [started] is the time. *)
Record module := Module_ {
  tmpdir : list string;
  test_name : string;
  name : string;
  port : option Z;
  start_time : option Z
}.

Definition init (tmpdir : list string) (test_name : string) (set_id : option Z) : res module :=
  name ← host_name test_name set_id;
  Ok (Module_ tmpdir test_name name None None).

(** [get_logger]: the name and the file of the logger of a module. *)
Definition get_logger (log_name : string) (m : module) : string * list string :=
  (log_name +:+ "." +:+ name m, tmpdir m ++ ["nodes"; name m; "tmp"; "module.log"]).

Definition start (p : option Z) (now : Z) (m : module) : module :=
  Module_ (tmpdir m) (test_name m) (name m) p (Some now).

(** [__repr__] *)
Definition repr (device : string) (m : module) : string :=
  "Target device " +:+ device +:+ " test " +:+ test_name m.

Definition IMAGE_NAME_FORMAT (test_name : string) : string := "daqf/test_" +:+ test_name.
Definition TAGGED_IMAGE_FORMAT (test_name : string) : string :=
  IMAGE_NAME_FORMAT test_name +:+ ":latest".

(** [_check_image] on the text docker prints *)
Definition _check_image (lines : string) (m : module) : res unit :=
  guard_res (bool_decide (TAGGED_IMAGE_FORMAT (test_name m) ∈ TestScript.splitlines lines)) AssertionError.

(** The interface of a module's host is its name and [-eth0]; the kernel allows
    15 characters.  A module that could be made has an interface. *)
Lemma interface_fits d t i m :
  init d t i = Ok m → (String.length (name m +:+ "-eth0") ≤ 15)%nat.
Proof.
  unfold init, host_name. destruct i as [n|]; [|done]. simpl.
  destruct (bool_decide _) eqn:Hb; [|done]. simpl. intros [= <-]. simpl.
  apply bool_decide_eq_true in Hb.
  assert (∀ a b, String.length (a +:+ b) = (String.length a + String.length b)%nat) as Happ.
  { clear. intros a b. induction a as [|c a IH]; [done|]. simpl. by rewrite IH. }
  rewrite !Happ in *. simpl. lia.
Qed.

(** From the hundredth device on, a test with a name of eight characters cannot
    be made. *)
Example long_names :
  is_ok (init [] "password" (Some 99)) = true ∧ is_ok (init [] "password" (Some 100)) = false.
Proof. by split. Qed.

End HostModule.

(** ** The timer of the authenticator *)
Module HeartbeatScheduler.
Section scheduler.
Context {S : Type}.

(** The state of the callbacks [S] is shared; [pending] counts the threads and
    timers of which each will run [_periodic_task] once. *)
Record scheduler := Scheduler {
  _callbacks : list (M S unit);
  _run : bool;
  pending : nat
}.

Definition init : scheduler := Scheduler [] false 0.
Definition add_callback (c : M S unit) (h : scheduler) : scheduler :=
  Scheduler (_callbacks h ++ [c]) (_run h) (pending h).

(** The callbacks in order; the exception of one is logged.  A callback that stops
    the scheduler is a [stop] after the task: the flag is read at its start only. *)
Definition call_all (cs : list (M S unit)) (s : S) : S := foldl (λ s c, fst (c s)) s cs.

Definition _periodic_task (h : scheduler) (s : S) : scheduler * S :=
  match pending h with
  | O => (h, s)
  | Datatypes.S n =>
      if _run h then (h, call_all (_callbacks h) s)   (* sets the next timer *)
      else (Scheduler (_callbacks h) false n, s)
  end.

Definition start (h : scheduler) : scheduler :=
  Scheduler (_callbacks h) true (Datatypes.S (pending h)).
Definition stop (h : scheduler) : scheduler := Scheduler (_callbacks h) false (pending h).

Definition tick (x : scheduler * S) : scheduler * S := _periodic_task (fst x) (snd x).

(** While it runs, every tick calls every callback once, in order, whatever they
    raise, and there is a next tick. *)
Lemma ticks_call_all n h s :
  _run h = true → (0 < pending h)%nat →
  Nat.iter n tick (h, s) = (h, Nat.iter n (call_all (_callbacks h)) s).
Proof.
  intros Hr Hp. induction n as [|n IH]; [done|]. rewrite !Nat.iter_succ, IH.
  unfold tick, _periodic_task. cbn [fst snd].
  destruct (pending h) as [|k]; [lia|]. by rewrite Hr.
Qed.

(** After [stop] nothing is called any more, and the timers run out. *)
Lemma stop_silences h s :
  Nat.iter (pending h) tick (stop h, s) = (Scheduler (_callbacks h) false 0, s).
Proof.
  unfold stop. destruct h as [cs r p]. simpl. induction p as [|p IH]; [done|].
  by rewrite Nat.iter_succ_r.
Qed.

End scheduler.
Arguments scheduler : clear implicits.
End HeartbeatScheduler.
