(* ===== verification/HostConfig.v ===== *)
(** * Test lists and configuration layers (src/daq/runner.py, src/daq/host.py)

    - [TestList]: the runner's list of tests, read from files of [add], [remove]
      and [include] commands ([_get_test_list], [_init_test_list]).
    - [HostConfig]: the configuration of a host.  The runner's base
      configuration is overlaid with the files of the device's type, of the
      device and of its port ([_load_module_config]); a device configuration may
      be updated from outside ([_dev_config_updated]).

    Files are a part of the state (a map from absolute paths to documents): the
    host writes configuration files and reads them again.  The lines of a test
    list file, flat configuration files, the environment, [os.path.abspath] and
    [os.path.exists] of a directory are parameters. *)

From stdpp Require Import base list gmap strings.
From Stdlib Require Import ZArith Lia Ascii.
From S2P Require Import Prelude PyVal PyText Configurator.

Import PyText.

(** ** Test lists *)

Module TestList.
Local Open Scope string_scope.
Local Open Scope list_scope.
Local Open Scope Z_scope.

(** [test_ordering]; an [add] without a name adds [None]. *)
Record ordering := mkOrdering {
  first : list (option string); last : list (option string); body : list (option string)
}.
Definition no_tests : ordering := mkOrdering [] [] [].

(** [test_ordering.get(section, body).append(argument)] *)
Definition add_test (section argument : option string) (o : ordering) : ordering :=
  if decide (section = Some "first") then mkOrdering (first o ++ [argument]) (last o) (body o)
  else if decide (section = Some "last") then mkOrdering (first o) (last o ++ [argument]) (body o)
  else mkOrdering (first o) (last o) (body o ++ [argument]).

(** [if x in l: l.remove(x)] *)
Fixpoint remove_first {A} `{EqDecision A} (x : A) (l : list A) : list A :=
  match l with
  | [] => []
  | y :: l' => if decide (x = y) then l' else y :: remove_first x l'
  end.
Definition remove_test (argument : option string) (o : ordering) : ordering :=
  mkOrdering (remove_first argument (first o)) (remove_first argument (last o))
    (remove_first argument (body o)).

(** The words of a line before its comment *)
Definition line_words (line : string) : list string :=
  words (String.string_of_list_ascii (Configurator.uncomment (String.list_ascii_of_string line))).

(** An [include] with an environment variable at its beginning: the expression
    takes everything up to the last brace. *)
Definition env_regex : Regex.re :=
  Regex.Seq (Regex.lit "${") (Regex.Seq (Regex.Grp 1 (Regex.Rep true Regex.any)) (Regex.lit "}")).
Definition match_env (argument : string) : option (string * string) :=
  let l := String.list_ascii_of_string argument in
  Regex.go l env_regex l [] (λ rest g,
    v ← Regex.group 1 g; Some (v, String.string_of_list_ascii rest)).

Section files.
Context (read_file : string → option (list string)) (getenv : string → option string).

Definition include_name (argument : option string) : res string :=
  match argument with
  | None => Raise TypeError
  | Some a =>
      match match_env a with
      | Some (env_var, rest) => v ← of_option TypeError (getenv env_var); Ok (v +:+ rest)
      | None => Ok a
      end
  end.

(** [get_test_list] on a file and on its lines; [None] when the nesting of
    includes exceeds the fuel. *)
Fixpoint get_test_list (fuel : nat) (o : ordering) (test_file : string) : option (res ordering) :=
  match fuel with
  | O => None
  | S fuel' =>
      match read_file test_file with
      | None => Some (Raise OtherException)
      | Some lines =>
          (fix go (o : ordering) (lines : list string) : option (res ordering) :=
             match lines with
             | [] => Some (Ok o)
             | line :: lines' =>
                 let cmd := line_words line in
                 let argument := cmd !! 1%nat in
                 if decide (cmd !! 0%nat = Some "add") then
                   go (add_test (cmd !! 2%nat) argument o) lines'
                 else if decide (cmd !! 0%nat = Some "remove") then
                   go (remove_test argument o) lines'
                 else if decide (cmd !! 0%nat = Some "include") then
                   match include_name argument with
                   | Raise e => Some (Raise e)
                   | Ok file =>
                       match get_test_list fuel' o file with
                       | Some (Ok o) => go o lines'
                       | r => r
                       end
                   end
                 else go o lines'
             end) o lines
      end
  end.

(** [_get_test_list] *)
Definition _get_test_list (fuel : nat) (no_test : bool) (test_file : string) :
    option (res (list (option string))) :=
  if no_test then Some (Ok []) else
  r ← get_test_list fuel no_tests test_file;
  Some (o ← r; Ok (first o ++ body o ++ last o)).

(** [_init_test_list], and the report of the tests in the constructor, which
    raises on a test without a name *)
Definition _init_test_list (fuel : nat) (no_test keep_hold : bool) (test_file : string) :
    option (res (list string)) :=
  r ← _get_test_list fuel no_test test_file;
  Some (l ← r;
        let l := if keep_hold && negb (bool_decide (Some "hold" ∈ l)) then l ++ [Some "hold"] else l in
        of_option TypeError (mapM id l)).

(** *** The commands of a file with its includes, in order *)

Inductive command :=
  | Add (section name : option string)
  | Remove (name : option string).

Definition apply (o : ordering) (c : command) : ordering :=
  match c with Add s n => add_test s n o | Remove n => remove_test n o end.

Fixpoint commands (fuel : nat) (test_file : string) : option (res (list command)) :=
  match fuel with
  | O => None
  | S fuel' =>
      match read_file test_file with
      | None => Some (Raise OtherException)
      | Some lines =>
          (fix go (lines : list string) : option (res (list command)) :=
             match lines with
             | [] => Some (Ok [])
             | line :: lines' =>
                 let cmd := line_words line in
                 let argument := cmd !! 1%nat in
                 let here (cs : list command) :=
                   r ← go lines'; Some (rest ← r; Ok (cs ++ rest)) in
                 if decide (cmd !! 0%nat = Some "add") then here [Add (cmd !! 2%nat) argument]
                 else if decide (cmd !! 0%nat = Some "remove") then here [Remove argument]
                 else if decide (cmd !! 0%nat = Some "include") then
                   match include_name argument with
                   | Raise e => Some (Raise e)
                   | Ok file =>
                       match commands fuel' file with
                       | Some (Ok cs) => here cs
                       | r => r
                       end
                   end
                 else here []
             end) lines
      end
  end.

(** Reading a file is applying its commands. *)
Lemma get_test_list_commands fuel : ∀ o f,
  get_test_list fuel o f
  = match commands fuel f with
    | Some (Ok cs) => Some (Ok (foldl apply o cs))
    | Some (Raise e) => Some (Raise e)
    | None => None
    end.
Proof.
  induction fuel as [|fuel IH]; intros o f; [done|]. simpl.
  destruct (read_file f) as [lines|]; [|done].
  revert o. induction lines as [|line lines IHl]; intros o; [done|]. cbn zeta.
  destruct (decide (line_words line !! 0%nat = Some "add")).
  { rewrite IHl. by destruct (_ lines) as [[]|]. }
  destruct (decide (line_words line !! 0%nat = Some "remove")).
  { rewrite IHl. by destruct (_ lines) as [[]|]. }
  destruct (decide (line_words line !! 0%nat = Some "include")).
  - destruct (include_name _) as [file|]; [|done]. rewrite IH.
    destruct (commands fuel file) as [[cs|]|]; [|done..]. rewrite IHl.
    destruct (_ lines) as [[]|]; [|done..]. simpl. by rewrite foldl_app.
  - rewrite IHl. by destruct (_ lines) as [[]|].
Qed.

End files.

(** *** How often a test is listed *)

(** The occurrences of a test in a section: an [add] to the section adds one, a
    [remove] takes one away if there is one. *)
Definition occurrences (x : option string) (l : list (option string)) : nat :=
  length (filter (λ y, y = x) l).
Definition home (section : option string) : option string :=
  if decide (section = Some "first" ∨ section = Some "last") then section else Some "body".
Definition net (target x : option string) (n : nat) (c : command) : nat :=
  match c with
  | Add s y => if decide (home s = target ∧ y = x) then S n else n
  | Remove y => if decide (y = x) then pred n else n
  end.

Lemma occurrences_snoc x y l :
  occurrences x (l ++ [y]) = (occurrences x l + if decide (y = x) then 1 else 0)%nat.
Proof.
  unfold occurrences. rewrite filter_app, length_app. f_equal.
  rewrite filter_cons, filter_nil. by case_decide.
Qed.

Lemma occurrences_remove x y l :
  occurrences x (remove_first y l) = if decide (y = x) then pred (occurrences x l) else occurrences x l.
Proof.
  unfold occurrences. induction l as [|z l IH]; simpl; [by case_decide|].
  rewrite filter_cons. destruct (decide (y = z)) as [->|Hne].
  - by destruct (decide (z = x)).
  - rewrite filter_cons. destruct (decide (z = x)) as [->|Hz]; simpl; rewrite IH; [|done].
    by destruct (decide (y = x)).
Qed.

Definition section_of (target : option string) (o : ordering) : list (option string) :=
  if decide (target = Some "first") then first o
  else if decide (target = Some "last") then last o else body o.

Definition sections : list (option string) := [Some "first"; Some "last"; Some "body"].

Lemma section_add target s y o : target ∈ sections →
  section_of target (add_test s y o)
  = if decide (home s = target) then section_of target o ++ [y] else section_of target o.
Proof.
  intros Ht. unfold add_test, section_of, home.
  destruct (decide (s = Some "first")) as [->|H1]; [|destruct (decide (s = Some "last")) as [->|H2]];
    [..|rewrite (decide_False (P := s = Some "first" ∨ s = Some "last")) by naive_solver];
    repeat (apply elem_of_cons in Ht as [->|Ht]); try done; by apply elem_of_nil in Ht.
Qed.

Lemma apply_net target x o c : target ∈ sections →
  occurrences x (section_of target (apply o c)) = net target x (occurrences x (section_of target o)) c.
Proof.
  intros Ht. destruct c as [s y|y]; simpl.
  - rewrite section_add by done. destruct (decide (home s = target)).
    + rewrite occurrences_snoc. destruct (decide (y = x)); [rewrite decide_True by done|
        rewrite decide_False by naive_solver]; lia.
    + by rewrite decide_False by naive_solver.
  - rewrite <- occurrences_remove. f_equal. unfold section_of. by repeat case_decide.
Qed.

Lemma fold_net target x cs : target ∈ sections → ∀ o,
  occurrences x (section_of target (foldl apply o cs))
  = foldl (net target x) (occurrences x (section_of target o)) cs.
Proof.
  intros Ht. induction cs as [|c cs IH]; intros o; [done|]. simpl. by rewrite IH, apply_net.
Qed.

(** What the test list holds.  If the commands of the test list file and of
    the files it includes can be read, the list has every test as often as it
    was added to a section and not taken away again by a later [remove], over
    the three sections, with the tests of [first] before those of the body and
    these before those of [last]. *)
Theorem test_list_counts (read_file : string → option (list string)) (getenv : string → option string)
    (fuel : nat) (test_file : string) (cs : list command)
    (Hcs : commands read_file getenv fuel test_file = Some (Ok cs)) :
  ∃ f b l, _get_test_list read_file getenv fuel false test_file = Some (Ok (f ++ b ++ l)) ∧
    ∀ x, occurrences x f = foldl (net (Some "first") x) 0%nat cs ∧
         occurrences x b = foldl (net (Some "body") x) 0%nat cs ∧
         occurrences x l = foldl (net (Some "last") x) 0%nat cs.
Proof.
  unfold _get_test_list. rewrite get_test_list_commands, Hcs. simpl.
  set (o := foldl apply no_tests cs). exists (first o), (body o), (last o). split; [done|].
  intros x. unfold o. split_and!.
  - by apply (fold_net (Some "first")); unfold sections; set_solver.
  - by apply (fold_net (Some "body")); unfold sections; set_solver.
  - by apply (fold_net (Some "last")); unfold sections; set_solver.
Qed.

Definition demo_files (f : string) : option (list string) :=
  if decide (f = "host.conf") then
    Some ["include ${DAQ}/base.conf # the standard tests" +:+ nl; "remove dhcp" +:+ nl; "add tls last" +:+ nl]
  else if decide (f = "/daq/base.conf") then
    Some ["add pass" +:+ nl; "add dhcp" +:+ nl; "add ping first" +:+ nl]
  else None.

Lemma test_list_counts_witness :
  _get_test_list demo_files (λ _, Some "/daq") 3 false "host.conf"
    = Some (Ok [Some "ping"; Some "pass"; Some "tls"]) ∧
  ∃ f b l, _get_test_list demo_files (λ _, Some "/daq") 3 false "host.conf" = Some (Ok (f ++ b ++ l)).
Proof.
  split; [vm_compute; reflexivity|].
  destruct (test_list_counts demo_files (λ _, Some "/daq") 3 "host.conf"
    [Add None (Some "pass"); Add None (Some "dhcp"); Add (Some "first") (Some "ping");
     Remove (Some "dhcp"); Add (Some "last") (Some "tls")]) as (f & b & l & H & _);
    [vm_compute; reflexivity|].
  exists f, b, l. exact H.
Defined.

(** A file that includes itself is read without end: in Python, until the
    recursion limit. *)
Example endless_include (fuel : nat) :
  _get_test_list (λ _, Some ["include host.conf"]) (λ _, None) fuel false "host.conf" = None.
Proof.
  unfold _get_test_list. rewrite get_test_list_commands.
  assert (commands (λ _, Some ["include host.conf"]) (λ _, None) fuel "host.conf" = None) as ->; [|done].
  induction fuel as [|fuel IH]; [done|]. cbn [commands].
  change (line_words "include host.conf") with ["include"; "host.conf"]. simpl.
  change (include_name (λ _, None) (Some "host.conf")) with (Ok "host.conf"). by rewrite IH.
Qed.

End TestList.

(** ** Configuration layers *)

Module HostConfig.
Local Open Scope string_scope.
Local Open Scope list_scope.
Local Open Scope Z_scope.

Definition _MODULE_CONFIG : string := "module_config.json".
Definition _DEVICE_CONFIG : string := "device_config.json".
Definition _TYPE_CONFIG : string := "type_config.json".
Definition _PORT_CONFIG : string := "port_config.json".
Definition _AUX_DIR : string := "aux/".

(** What does not change while a host lives *)
Record conf := mkConf {
  site_path : option string;
  run_id : string;
  target_mac : string;
  target_port : option Z;
  _port_base : option string;
  _device_base : option string;
  base_config : dict string val;
  run_info : dict string val;
  switch_setup : dict string val;
  _usi_config : val;
  test_list : list string;
  _default_timeout_sec : option Z
}.

(** The host's configuration and the files; [recorded] are the configurations
    it published. *)
Record state := mkState {
  files : gmap string val;
  _loaded_config : option (dict string val);
  recorded : list (dict string val)
}.

Section host.
Context (abspath : string → string) (flat_files : gmap string (list (list ascii))) (now : val).
Context (C : conf).

Abbreviation HM := (M state) (only parsing).

(** [os.path.join] *)
Definition path_join (dir file : string) : string :=
  if String.prefix "/" file then file else Configurator.join (Configurator.chars dir) file.
Definition exists_ (s : state) (path : string) : bool := bool_decide (is_Some (files s !! abspath path)).
Definition yaml (s : state) (path : string) : res val := of_option OtherException (files s !! path).
Definition text (path : string) : res (list (list ascii)) := of_option OtherException (flat_files !! path).

(** [configurator.merge_config(base, file)]; the fuel is enough for every chain
    of includes ([merge_runs]). *)
Definition merge_config (base : dict string val) (file : string) : HM (dict string val) :=
  s ← getS;
  match Configurator.merge_config abspath (yaml s) text
          (S (size (dom (files s) ∪ dom flat_files))) base file ∅ with
  | Some r => '(d, _) ← lift r; mret d
  | None => raise RuntimeError
  end.

(** [if not path] *)
Definition true_path (path : option string) : option string :=
  match path with Some "" => None | _ => path end.

(** [_load_config] *)
Definition _load_config (config : dict string val) (path : option string) (filename : string) :
    HM (dict string val) :=
  match true_path path with
  | None => mret config
  | Some p =>
      s ← getS;
      if exists_ s (path_join p _MODULE_CONFIG) then raise OtherException else
      if exists_ s (path_join p filename) then merge_config config (path_join p filename)
      else mret config
  end.

(** [_write_module_config] *)
Definition _write_module_config (config : dict string val) (path : string) : HM unit :=
  modify (λ s, mkState (<[abspath (path_join path _MODULE_CONFIG) := VDict config]> (files s))
                 (_loaded_config s) (recorded s)).

(** [_type_path] *)
Definition _type_path : HM (option string) :=
  dev_config ← _load_config [] (_device_base C) _DEVICE_CONFIG;
  let device_type := default VNone (dget "device_type" dev_config) in
  if negb (PyVal.truth device_type) then mret None else
  site ← lift (of_option TypeError (site_path C));
  match device_type with
  | VStr t => mret (Some (abspath (path_join (path_join site "device_types") t)))
  | _ => raise TypeError
  end.

(** [_type_aux_path] *)
Definition _type_aux_path (path_exists : string → bool) : HM (option string) :=
  type_path ← _type_path;
  mret (match true_path type_path with
        | None => None
        | Some p => let aux_path := path_join p _AUX_DIR in if path_exists aux_path then Some aux_path else None
        end).

(** [_get_switch_config] *)
Definition _get_switch_config : dict string val :=
  (λ '(k, key), (k, default VNone (dget key (switch_setup C)))) <$>
    [("ip", "ip_addr"); ("model", "model"); ("username", "username"); ("password", "password")].

(** [_merge_run_info] *)
Definition _merge_run_info (config : dict string val) : dict string val :=
  let info := [("run_id", VStr (run_id C)); ("mac_addr", VStr (target_mac C)); ("started", now);
               ("switch", VDict _get_switch_config); ("usi", _usi_config C)] in
  dset "run_info" (VDict (foldl (λ d '(k, v), dset k v d) info (run_info C))) config.

(** [_load_module_config]; the runner hands out a copy of its configuration. *)
Definition _load_module_config (with_run_info : bool) : HM (dict string val) :=
  let config := base_config C in
  let config := if with_run_info then _merge_run_info config else config in
  type_path ← _type_path;
  config ← _load_config config type_path _TYPE_CONFIG;
  config ← _load_config config (_device_base C) _DEVICE_CONFIG;
  _load_config config (_port_base C) _PORT_CONFIG.

(** [_make_config_bundle]: an empty configuration is replaced by the loaded one *)
Definition bundled (config : dict string val) (s : state) : dict string val :=
  if bool_decide (config = []) then default [] (_loaded_config s) else config.

(** [reload_config] of a host that is ready or not *)
Definition reload_config (device_ready : bool) : HM (dict string val) :=
  new_config ← _load_module_config device_ready;
  whenM device_ready (modify (λ s, mkState (files s) (Some new_config) (recorded s)));;
  modify (λ s, mkState (files s) (_loaded_config s) (recorded s ++ [bundled new_config s]));;
  mret new_config.

(** [_dev_config_updated] *)
Definition _dev_config_updated (device_ready : bool) (dev_config : dict string val) : HM unit :=
  base ← lift (of_option TypeError (_device_base C));
  _write_module_config dev_config base;;
  reload_config device_ready;; mret tt.

(** *** What the tests read *)

(** [get_test_config], [_test_enabled] and [_get_enabled_tests] *)
Definition _get_test_config (config : dict string val) (test : string) : res val :=
  modules ← of_option KeyError (dget "modules" config); PyVal.get modules test VNone.
Definition _test_enabled (config : dict string val) (test : string) : res bool :=
  c ← _get_test_config config test;
  v ← PyVal.get (if PyVal.truth c then c else VDict []) "enabled" (VBool false);
  Ok (PyVal.truth v).
Fixpoint enabled_of (config : dict string val) (tests : list string) : res (list string) :=
  match tests with
  | [] => Ok []
  | t :: tests' =>
      b ← _test_enabled config t; rest ← enabled_of config tests';
      Ok (if (b : bool) then t :: rest else rest)
  end.
Definition _get_enabled_tests (config : dict string val) : res (list string) :=
  enabled_of config (test_list C).

(** [_get_test_timeout] and [get_port_flap_timeout] *)
Definition _get_test_timeout (config : dict string val) (test : string) : res val :=
  if bool_decide (test = "hold") then Ok VNone else
  test_module ← _get_test_config config test;
  if negb (PyVal.truth test_module) then Ok (PyVal.vopt (_default_timeout_sec C)) else
  PyVal.get test_module "timeout_sec" (PyVal.vopt (_default_timeout_sec C)).
Definition get_port_flap_timeout (config : dict string val) (test : string) : res val :=
  test_module ← _get_test_config config test;
  if negb (PyVal.truth test_module) then Ok VNone else PyVal.get test_module "port_flap_timeout_sec" VNone.

(** [_get_static_ip] and [_get_dhcp_mode] (the name of the mode) *)
Definition _get_static_ip (config : dict string val) : val := default VNone (dget "static_ip" config).
Definition _get_dhcp_mode (config : dict string val) : res val :=
  modules ← of_option KeyError (dget "modules" config);
  ipaddr ← PyVal.get modules "ipaddr" (VDict []);
  PyVal.get ipaddr "dhcp_mode" (VStr "NORMAL").

(** [_get_unique_upload_path] of a file with the given base name *)
Definition _get_unique_upload_path (test_name : option string) (base : string) : string :=
  let partial := match true_path test_name with
                 | Some t => path_join (path_join "tests" t) base
                 | None => base
                 end in
  path_join (path_join "run_id" (run_id C)) partial.

(** *** Properties *)

Lemma merge_runs s base file :
  is_Some (Configurator.merge_config abspath (yaml s) text
    (S (size (dom (files s) ∪ dom flat_files))) base file ∅).
Proof.
  apply (Configurator.merge_config_total _ _ _ (dom (files s) ∪ dom flat_files)).
  - intros f c. unfold Configurator._read_config, Configurator._read_flat_config, yaml, text.
    case_match; [|case_match; [|done]]; intros Hc; apply elem_of_union; [left|right];
      apply elem_of_dom; [destruct (files s !! f)|destruct (flat_files !! f)]; done.
  - rewrite difference_empty_L. lia.
Qed.

(** A document that overlays a configuration: what the file of a layer holds, or
    nothing *)
Definition layer (s : state) (path : option string) (filename : string) : dict string val :=
  match true_path path with
  | None => []
  | Some p => match files s !! abspath (path_join p filename) with Some (VDict d) => d | _ => [] end
  end.
(** The layer can be read: no configuration of the old name is in the way, and
    the file, if there is one, is a JSON mapping without an include. *)
Definition readable (s : state) (path : option string) (filename : string) : Prop :=
  ∀ p, true_path path = Some p →
    exists_ s (path_join p _MODULE_CONFIG) = false ∧
    Configurator.endswith (abspath (path_join p filename)) ".json" = true ∧
    (∀ v, files s !! abspath (path_join p filename) = Some v →
       ∃ d, v = VDict d ∧ dget "include" d = None).

Lemma load_layer s config path filename :
  readable s path filename →
  _load_config config path filename s
  = (s, Ok (Configurator._deep_merge_dict config (layer s path filename))).
Proof.
  intros Hr. unfold _load_config, layer. destruct (true_path path) as [p|] eqn:Hp; [|done].
  destruct (Hr p Hp) as (Hold & Hext & Hdoc). rewrite (bind_ok getS _ s s s eq_refl), Hold.
  unfold exists_. destruct (files s !! abspath (path_join p filename)) as [v|] eqn:Hf.
  - rewrite bool_decide_true by done. destruct (Hdoc v eq_refl) as (d & -> & Hinc).
    unfold merge_config. rewrite (bind_ok getS _ s s s eq_refl). cbn [Configurator.merge_config].
    assert (Configurator._read_config (yaml s) text (abspath (path_join p filename)) = Ok (VDict d)) as ->.
    { unfold Configurator._read_config. rewrite Hext, orb_true_r. unfold yaml. by rewrite Hf. }
    rewrite bool_decide_false by set_solver. unfold PyVal.contains, dmem. by rewrite Hinc.
  - rewrite bool_decide_false; [done|]. by intros [].
Qed.

(** Overlaying documents: the last one that says something decides. *)
Lemma overlay_paths ds base path :
  Forall (λ d, Configurator.doc_wf (VDict d)) ds →
  let merged := foldl Configurator._deep_merge_dict base ds in
  (∀ lo x hi v, ds = lo ++ x :: hi → Forall (λ d, Configurator.silent (VDict d) path = true) hi →
     Configurator.lookup_path (VDict x) path = Some v → Configurator.is_mapping v = false →
     Configurator.lookup_path (VDict merged) path = Some v) ∧
  (Forall (λ d, Configurator.silent (VDict d) path = true) ds →
     Configurator.lookup_path (VDict merged) path = Configurator.lookup_path (VDict base) path).
Proof.
  revert base. induction ds as [|d ds IH]; intros base Hwf; simpl.
  { split; [|done]. by intros [|??] ???. }
  inversion Hwf as [|?? Hd Hds]; subst.
  destruct (Configurator.merge_paths base d path Hd) as [Hset Hsilent].
  destruct (IH (Configurator._deep_merge_dict base d) Hds) as [IHset IHsilent]. split.
  - intros lo x hi v Heq Hhi Hx Hv. destruct lo as [|y lo]; simplify_eq/=.
    + rewrite IHsilent by done. by apply Hset.
    + by eapply IHset.
  - intros Hall. inversion Hall; subst. by rewrite IHsilent, Hsilent.
Qed.

(** C21: which layer a setting comes from.  If the files of the type, the device
    and the port can be read, loading the configuration succeeds, and at every
    path of keys its value is that of the last of these layers that sets it (to
    something other than a mapping, with the later layers saying nothing), and
    the value of the base configuration where all of them say nothing. *)
Theorem config_precedence (s : state) (with_run_info : bool) (tp : option string)
    (Htype : _type_path s = (s, Ok tp))
    (Hread : readable s tp _TYPE_CONFIG ∧ readable s (_device_base C) _DEVICE_CONFIG ∧
             readable s (_port_base C) _PORT_CONFIG) :
  let layers := [layer s tp _TYPE_CONFIG; layer s (_device_base C) _DEVICE_CONFIG;
                 layer s (_port_base C) _PORT_CONFIG] in
  let base := if with_run_info then _merge_run_info (base_config C) else base_config C in
  Forall (λ d, Configurator.doc_wf (VDict d)) layers →
  ∃ c, _load_module_config with_run_info s = (s, Ok c) ∧
    ∀ path,
    (∀ lo x hi v, layers = lo ++ x :: hi → Forall (λ d, Configurator.silent (VDict d) path = true) hi →
       Configurator.lookup_path (VDict x) path = Some v → Configurator.is_mapping v = false →
       Configurator.lookup_path (VDict c) path = Some v) ∧
    (Forall (λ d, Configurator.silent (VDict d) path = true) layers →
       Configurator.lookup_path (VDict c) path = Configurator.lookup_path (VDict base) path).
Proof.
  intros layers base Hwf. destruct Hread as (H1 & H2 & H3).
  exists (foldl Configurator._deep_merge_dict base layers). split.
  - unfold _load_module_config. rewrite (bind_ok _ _ _ _ _ Htype).
    rewrite (bind_ok _ _ _ _ _ (load_layer _ _ _ _ H1)), (bind_ok _ _ _ _ _ (load_layer _ _ _ _ H2)).
    by rewrite load_layer.
  - intros path. by apply overlay_paths.
Qed.

(** An update of a device's configuration is refused, and so is every later
    one.  The update is written under the old name of the configuration file,
    which loading refuses: it raises, the host keeps its old configuration, and
    reloading raises from then on, as long as the file is there. *)
Theorem device_update_refused (s : state) (ready : bool) (doc : dict string val) (base : string)
    (Hbase : _device_base C = Some base) (Hne : base ≠ "") :
  let '(s1, o) := _dev_config_updated ready doc s in
  o = Raise OtherException ∧ _loaded_config s1 = _loaded_config s ∧ recorded s1 = recorded s ∧
  ∀ s2 ready', files s1 ⊆ files s2 → reload_config ready' s2 = (s2, Raise OtherException).
Proof.
  assert (true_path (_device_base C) = Some base) as Htrue by (rewrite Hbase; by destruct base).
  assert (∀ s2 ready', exists_ s2 (path_join base _MODULE_CONFIG) = true →
    reload_config ready' s2 = (s2, Raise OtherException)) as Hload.
  { intros s2 ready' He.
    assert (_load_config [] (_device_base C) _DEVICE_CONFIG s2 = (s2, Raise OtherException)) as Hl.
    { unfold _load_config. rewrite Htrue, (bind_ok getS _ s2 s2 s2 eq_refl). by rewrite He. }
    unfold reload_config, _load_module_config, _type_path, mbind, M_bind. by rewrite Hl. }
  set (s1 := mkState (<[abspath (path_join base _MODULE_CONFIG) := VDict doc]> (files s))
               (_loaded_config s) (recorded s)).
  assert (∀ s2, files s1 ⊆ files s2 → exists_ s2 (path_join base _MODULE_CONFIG) = true) as He.
  { intros s2 Hsub. unfold exists_. apply bool_decide_true. exists (VDict doc).
    eapply lookup_weaken; [|exact Hsub]. by apply lookup_insert_eq. }
  assert (_dev_config_updated ready doc s = (s1, Raise OtherException)) as ->.
  { unfold _dev_config_updated. rewrite Hbase. simpl. unfold mbind at 1, M_bind at 1. simpl.
    rewrite (bind_ok (_write_module_config doc base) _ s s1 tt eq_refl).
    unfold mbind, M_bind. by rewrite Hload by by apply He. }
  split_and!; [done..|]. intros s2 ready' Hsub. by apply Hload, He.
Qed.

End host.
(** *** Examples *)

Definition demo_conf : conf :=
  mkConf (Some "/site") "5e" "aa:bb" (Some 1) (Some "/cfg/port-01") (Some "/site/mac_addrs/aabb")
    [("location", VStr "here")] [("version", VStr "1.9")] [] VNone ["pass"] None.
Definition demo_state : state :=
  mkState (list_to_map
    [("/site/mac_addrs/aabb/device_config.json",
        VDict [("device_type", VStr "lamp"); ("location", VStr "shelf")]);
     ("/site/device_types/lamp/type_config.json",
        VDict [("location", VStr "store"); ("voltage", VInt 12)])]) None [].

Lemma config_precedence_witness :
  ∃ c, _load_module_config id ∅ VNone demo_conf false demo_state = (demo_state, Ok c) ∧
    Configurator.lookup_path (VDict c) ["location"] = Some (VStr "shelf") ∧
    Configurator.lookup_path (VDict c) ["voltage"] = Some (VInt 12).
Proof.
  destruct (config_precedence id ∅ VNone demo_conf demo_state false
    (Some "/site/device_types/lamp")) as (c & Hc & Hpath).
  - vm_compute. reflexivity.
  - split_and!; intros p Hp; injection Hp as <-; (split; [vm_compute; reflexivity|]);
      (split; [vm_compute; reflexivity|]); intros v Hv; vm_compute in Hv; inversion Hv; subst;
      eexists; (split; [reflexivity|reflexivity]).
  - repeat constructor; vm_compute; set_solver.
  - exists c. split; [exact Hc|]. split.
    + destruct (Hpath ["location"]) as [H _].
      eapply (H [_] _ [_]); [reflexivity|repeat constructor|reflexivity|reflexivity].
    + destruct (Hpath ["voltage"]) as [H _].
      eapply (H [] _ [_; _]); [reflexivity|repeat constructor|reflexivity|reflexivity].
Defined.

Lemma device_update_refused_witness :
  let '(s1, o) := _dev_config_updated id ∅ VNone demo_conf true [("location", VStr "lab")] demo_state in
  o = Raise OtherException ∧ _loaded_config s1 = _loaded_config demo_state ∧
  recorded s1 = recorded demo_state ∧
  ∀ s2 ready', files s1 ⊆ files s2 →
    reload_config id ∅ VNone demo_conf ready' s2 = (s2, Raise OtherException).
Proof.
  apply (device_update_refused id ∅ VNone demo_conf demo_state true [("location", VStr "lab")]
    "/site/mac_addrs/aabb"); [reflexivity|discriminate].
Defined.

End HostConfig.
