(* ===== verification/HostFiles.v ===== *)
(** * The directories of devices and tests (src/daq/host.py, src/daq/runner.py)

    - [Files]: what is used of the file system ([os.makedirs], [os.listdir],
      [shutil.rmtree], [shutil.copy], [os.symlink]).
    - [HostFiles]: the run directory of a host ([_init_devdir]), the
      configuration directories of its port and device ([_get_port_base],
      [_get_device_base] with the device template), the root of a native test
      ([_new_test]), the installed native tests ([_get_test_metadata]) and the
      removal of what earlier runs left ([_cleanup_previous_runs]).

    A path is the list of its names from the root; a path is absolute, a
    relative one is relative to [cwd].  A symbolic link is followed when it is
    the last name of a path or of its directory; a link to another link is not.  The order of a directory's listing is that of the
    map, and nothing depends on it. *)

From stdpp Require Import base list gmap fin_maps strings pretty.
From Stdlib Require Import ZArith Lia Ascii.
From S2P Require Import Prelude PyText.

Module Files.
Local Open Scope string_scope.
Local Open Scope list_scope.

Abbreviation path := (list string) (only parsing).
Inductive node := Dir | File (content : string) | Link (target : list string).
#[export] Instance node_eq_dec : EqDecision node.
Proof. solve_decision. Defined.
Abbreviation fs := (gmap (list string) node) (only parsing).

Abbreviation FM := (M fs) (only parsing).

(** The node a path leads to; the root always exists. *)
Definition lookup_node (p : path) (f : fs) : option node :=
  if bool_decide (p = []) then Some Dir else
  match f !! p with
  | Some (Link t) => if bool_decide (t = []) then Some Dir else f !! t
  | o => o
  end.
Definition exists_ (p : path) (f : fs) : bool := bool_decide (is_Some (lookup_node p f)).
Definition isdir (p : path) (f : fs) : bool :=
  match lookup_node p f with Some Dir => true | _ => false end.
Definition isfile (p : path) (f : fs) : bool :=
  match lookup_node p f with Some (File _) => true | _ => false end.
(** A directory that is not a link *)
Definition realdir (p : path) (f : fs) : bool :=
  bool_decide (p = []) || bool_decide (f !! p = Some Dir).
(** Where a link leads *)
Definition realpath (p : path) (f : fs) : path :=
  match f !! p with Some (Link t) => t | _ => p end.

Definition parent (p : path) : path := reverse (tail (reverse p)).
Definition name (p : path) : option string := last p.

(** A new entry of a directory: [os.mkdir], [os.symlink] *)
Definition new_entry (p : path) (n : node) : FM unit :=
  f ← getS;
  match name p with
  | Some x =>
      let q := realpath (parent p) f ++ [x] in
      if negb (isdir (parent p) f) || bool_decide (is_Some (f !! q)) then raise OtherException
      else modify <[q := n]>
  | None => raise OtherException
  end.
Definition mkdir (p : path) : FM unit := new_entry p Dir.
Definition symlink (src dst : path) : FM unit := new_entry dst (Link src).

(** [os.makedirs], on the names from the last one *)
Fixpoint makedirs_rev (r : list string) : FM unit :=
  match r with
  | [] => raise OtherException
  | _ :: head =>
      f ← getS;
      whenM (negb (exists_ (reverse head) f)) (makedirs_rev head);;
      mkdir (reverse r)
  end.
Definition makedirs (p : path) : FM unit := makedirs_rev (reverse p).

(** [shutil.rmtree]: a link is refused. *)
Definition without (p : path) (f : fs) : fs := filter (λ kv, ¬ p `prefix_of` kv.1) f.
Definition rmtree (p : path) : FM unit :=
  f ← getS;
  match f !! p with
  | Some Dir => modify (without p)
  | _ => raise OtherException
  end.
(** [shutil.rmtree] with [ignore_errors] *)
Definition rmtree_quiet (p : path) : FM unit := try_except (rmtree p) (λ _, mret tt).

(** [os.listdir] *)
Definition child (p q : path) : option string :=
  match reverse q with
  | n :: h => if bool_decide (reverse h = p) then Some n else None
  | [] => None
  end.
Definition names (p : path) (f : fs) : list string := omap (child p) (map_to_list f).*1.
Definition listdir (p : path) : FM (list string) :=
  f ← getS;
  if isdir p f then mret (names (realpath p f) f) else raise OtherException.

(** [shutil.copy] of a file into a directory *)
Definition copy (src dst_dir : path) : FM unit :=
  f ← getS;
  match lookup_node src f, name src with
  | Some (File c), Some n =>
      let dst := realpath (realpath dst_dir f ++ [n]) f in
      if negb (isdir dst_dir f) || isdir dst f || negb (realdir (parent dst) f) then raise OtherException
      else modify <[dst := File c]>
  | _, _ => raise OtherException
  end.

(** Every entry is in a directory. *)
Definition fs_wf (f : fs) : Prop :=
  f !! [] = None ∧ ∀ p n, is_Some (f !! (p ++ [n])) → p = [] ∨ f !! p = Some Dir.
(** What is outside of the directory [d] is the same. *)
Definition outside (d : path) (f f' : fs) : Prop := ∀ q, ¬ d `prefix_of` q → f' !! q = f !! q.

Lemma snoc_ne_nil (p : path) n : p ++ [n] ≠ [].
Proof. by destruct p. Qed.
Lemma parent_snoc (p : path) n : parent (p ++ [n]) = p.
Proof. unfold parent. rewrite reverse_snoc. simpl. by rewrite reverse_involutive. Qed.
Lemma prefix_snoc_inv (p q : path) n : p `prefix_of` (q ++ [n]) → p `prefix_of` q ∨ p = q ++ [n].
Proof.
  intros [k E]. destruct k as [|m k _] using rev_ind; [right; by rewrite app_nil_r in E|].
  rewrite app_assoc in E. apply app_inj_tail in E as [-> _]. left. by apply prefix_app_r.
Qed.
Lemma name_snoc (p : path) n : name (p ++ [n]) = Some n.
Proof. apply last_snoc. Qed.
Lemma name_Some p n : name p = Some n → p = parent p ++ [n].
Proof.
  intros H. apply last_Some in H as [l ->]. by rewrite parent_snoc.
Qed.

(** A directory, with its link followed, is one. *)
Lemma isdir_real p f : fs_wf f → isdir p f = true → realdir (realpath p f) f = true.
Proof.
  intros [Hroot _]. unfold isdir, lookup_node, realdir, realpath. case_bool_decide as Hp.
  { subst. by rewrite Hroot, bool_decide_true. }
  destruct (f !! p) as [[|c|t]|] eqn:E; try done.
  - intros _. rewrite (bool_decide_true (f !! p = Some Dir)) by done. apply orb_true_r.
  - case_bool_decide as Ht; [done|]. intros Hd. apply bool_decide_eq_true. by destruct (f !! t) as [[]|].
Qed.

Lemma wf_insert f p x n : fs_wf f → realdir p f = true → f !! (p ++ [x]) ≠ Some Dir →
  fs_wf (<[p ++ [x] := n]> f).
Proof.
  intros [Hroot Hwf] Hp Hx. unfold realdir in Hp. apply orb_true_iff in Hp. split.
  { by rewrite lookup_insert_ne by apply snoc_ne_nil. }
  intros q m. destruct (decide (q ++ [m] = p ++ [x])) as [Heq|Hne].
  - apply app_inj_tail in Heq as [-> ->]. intros _. destruct Hp as [Hp|Hp]; apply bool_decide_eq_true in Hp; [by left|].
    right. rewrite lookup_insert_ne; [done|]. intros Heq. by apply (f_equal length) in Heq; rewrite length_app in Heq; simpl in Heq; lia.
  - rewrite lookup_insert_ne by done. intros Hs. destruct (Hwf q m Hs) as [->|Hq]; [by left|].
    right. rewrite lookup_insert_ne; [done|]. intros <-. done.
Qed.

Lemma wf_without f p : fs_wf f → fs_wf (without p f).
Proof.
  intros [Hroot Hwf]. unfold without. split.
  { apply map_lookup_filter_None. by left. }
  intros q m [n Hn]. apply map_lookup_filter_Some in Hn as [Hn Hp]. simpl in Hp.
  destruct (Hwf q m (mk_is_Some _ _ Hn)) as [->|Hq]; [by left|]. right.
  apply map_lookup_filter_Some. split; [done|]. simpl. intros Hpq. apply Hp. by apply prefix_app_r.
Qed.

(** Below an entry that is missing there is nothing. *)
Lemma wf_missing f p q : fs_wf f → p ≠ [] → f !! p ≠ Some Dir → p `prefix_of` q → p ≠ q → f !! q = None.
Proof.
  intros [_ Hwf] Hp Hd [k ->]. induction k as [|n k IH] using rev_ind; [by rewrite app_nil_r|]. intros _.
  destruct (f !! (p ++ k ++ [n])) eqn:E; [|done]. rewrite app_assoc in E.
  destruct (Hwf _ _ (mk_is_Some _ _ E)) as [H|H].
  - by destruct p.
  - destruct k as [|m k]; [by rewrite app_nil_r in H|]. rewrite IH in H; [done|].
    intros Heq. by apply (f_equal length) in Heq; rewrite length_app in Heq; simpl in Heq; lia.
Qed.

(** Every operation keeps the tree a tree. *)
Lemma new_entry_keeps p n : keeps fs_wf (new_entry p n).
Proof.
  intros f Hf. unfold new_entry. rewrite (bind_ok getS _ f f f eq_refl).
  destruct (name p) as [x|]; [|done]. destruct (isdir (parent p) f) eqn:Hd; [|done]. simpl.
  case_bool_decide as He; [done|]. simpl. apply wf_insert; [done|by apply isdir_real|].
  intros H. apply He. by rewrite H.
Qed.
Lemma makedirs_keeps p : keeps fs_wf (makedirs p).
Proof.
  unfold makedirs. induction (reverse p) as [|x r IH]; simpl; [by intros f|].
  walk ltac:(first [exact IH|apply new_entry_keeps]).
Qed.
Lemma rmtree_keeps p : keeps fs_wf (rmtree p).
Proof.
  intros f Hf. unfold rmtree. rewrite (bind_ok getS _ f f f eq_refl).
  destruct (f !! p) as [[]|]; try done. by apply wf_without.
Qed.
Lemma listdir_keeps p : keeps fs_wf (listdir p).
Proof. unfold listdir. apply keeps_pure. intros f. rewrite (bind_ok getS _ f f f eq_refl). by case_match. Qed.
Lemma copy_keeps src d : keeps fs_wf (copy src d).
Proof.
  intros f Hf. unfold copy. rewrite (bind_ok getS _ f f f eq_refl).
  destruct (lookup_node src f) as [[|c|]|]; try done. destruct (name src) as [n|]; [|done].
  set (dst := realpath (realpath d f ++ [n]) f). destruct (isdir d f); [|done].
  destruct (isdir dst f) eqn:Hd; [done|]. destruct (realdir (parent dst) f) eqn:Hp; [|done]. simpl.
  destruct (decide (dst = [])) as [E|Hne]; [by rewrite E in Hd|].
  destruct (name dst) as [x|] eqn:Hx; [|by apply last_None in Hx]. apply name_Some in Hx. rewrite Hx.
  apply wf_insert; [done..|]. rewrite <- Hx. intros H. unfold isdir, lookup_node in Hd.
  by rewrite bool_decide_false, H in Hd by done.
Qed.

(** *** What the operations do *)

Lemma elem_of_names p f n : n ∈ names p f ↔ is_Some (f !! (p ++ [n])).
Proof.
  unfold names. rewrite list_elem_of_omap. split.
  - intros (q & Hq & Hc). unfold child in Hc. destruct (reverse q) as [|m h] eqn:E; [done|].
    case_bool_decide as Hh; simplify_eq. apply (f_equal reverse) in E.
    rewrite reverse_involutive, reverse_cons in E. rewrite <- E.
    apply list_elem_of_fmap in Hq as ([q' x] & -> & Hq). apply elem_of_map_to_list in Hq. by eexists.
  - intros [x Hx]. exists (p ++ [n]). split.
    + apply list_elem_of_fmap. exists (p ++ [n], x). split; [done|]. by apply elem_of_map_to_list.
    + unfold child. rewrite reverse_snoc, reverse_involutive. by rewrite bool_decide_true.
Qed.

Lemma NoDup_omap_inj {A B} (h : A → option B) l :
  (∀ x y b, h x = Some b → h y = Some b → x = y) → NoDup l → NoDup (omap h l).
Proof.
  intros Hinj. induction 1 as [|x l Hx Hl IH]; [constructor|]. cbn [omap list_omap].
  destruct (h x) as [b|] eqn:Hb; [|done]. constructor; [|done]. rewrite list_elem_of_omap.
  intros (y & Hy & Hyb). by rewrite (Hinj x y b Hb Hyb) in Hx.
Qed.

Lemma NoDup_names p f : NoDup (names p f).
Proof.
  unfold names. apply NoDup_omap_inj; [|apply NoDup_fst_map_to_list].
  assert (∀ q n, child p q = Some n → q = p ++ [n]) as Hc.
  { intros q n. unfold child. destruct (reverse q) as [|m h] eqn:E; [done|].
    case_bool_decide as Hh; [|done]. intros [= <-]. apply (f_equal reverse) in E.
    by rewrite reverse_involutive, reverse_cons, Hh in E. }
  intros q q' n H H'. by rewrite (Hc _ _ H), (Hc _ _ H').
Qed.

Lemma realpath_dir p f : f !! p = Some Dir → realpath p f = p.
Proof. unfold realpath. by intros ->. Qed.
Lemma isdir_dir p f : f !! p = Some Dir → isdir p f = true.
Proof. unfold isdir, lookup_node. intros ->. by case_bool_decide. Qed.
Lemma isdir_None p f : p ≠ [] → f !! p = None → isdir p f = false.
Proof. unfold isdir, lookup_node. intros ? ->. by case_bool_decide. Qed.

Lemma new_entry_ok p x n f : fs_wf f → p = [] ∨ f !! p = Some Dir → f !! (p ++ [x]) = None →
  new_entry (p ++ [x]) n f = (<[p ++ [x] := n]> f, Ok tt).
Proof.
  intros [Hroot _] Hp Hx. unfold new_entry. rewrite (bind_ok getS _ f f f eq_refl).
  rewrite name_snoc, parent_snoc.
  assert (realpath p f = p) as Hr by (destruct Hp as [->|Hp]; [unfold realpath; by rewrite Hroot|by apply realpath_dir]).
  assert (isdir p f = true) as -> by (destruct Hp as [->|Hp]; [done|by apply isdir_dir]).
  rewrite Hr, Hx. by rewrite bool_decide_false by by intros [].
Qed.

(** On the way to a directory that is to be made there are directories, or
    nothing yet. *)
Definition clear_way (p : path) (f : fs) : Prop :=
  ∀ q, q ≠ [] → q `prefix_of` p → f !! q = None ∨ f !! q = Some Dir.

Lemma makedirs_ok p f : fs_wf f → p ≠ [] → clear_way p f → f !! p = None →
  ∃ f', makedirs p f = (f', Ok tt) ∧ f' !! p = Some Dir ∧
    ∀ q, ¬ q `prefix_of` p → f' !! q = f !! q.
Proof.
  induction p as [|x p IH] using rev_ind; [done|]. intros Hwf _ Hway Hx.
  assert (∀ q, q `prefix_of` p → q `prefix_of` (p ++ [x])) as Hpre by (intros q Hq; by apply prefix_app_r).
  unfold makedirs. rewrite reverse_snoc. cbn [makedirs_rev]. rewrite (bind_ok getS _ f f f eq_refl).
  rewrite reverse_cons, reverse_involutive. fold (makedirs p).
  assert (∃ f1, whenM (negb (exists_ p f)) (makedirs p) f = (f1, Ok tt) ∧ fs_wf f1 ∧
    (p = [] ∨ f1 !! p = Some Dir) ∧ ∀ q, ¬ q `prefix_of` p → f1 !! q = f !! q) as (f1 & Hw & Hwf1 & Hp & Hsame).
  { unfold exists_. destruct (decide (p = [])) as [->|Hne].
    { exists f. split_and!; try done. by left. }
    destruct (Hway p Hne (Hpre _ (reflexivity _))) as [Hn|Hd].
    - rewrite bool_decide_false.
      2:{ unfold lookup_node. rewrite bool_decide_false, Hn by done. by intros []. }
      destruct IH as (f1 & Hm & Hd & Hs); try done. { intros q Hq Hqp. apply Hway; auto. }
      exists f1. split_and!; [done| |by right|done].
      pose proof (makedirs_keeps p f Hwf) as Hk. by rewrite Hm in Hk.
    - rewrite bool_decide_true. 2:{ unfold lookup_node. rewrite bool_decide_false, Hd by done. by eexists. }
      exists f. split_and!; try done. by right. }
  rewrite (bind_ok _ _ _ _ _ Hw). unfold mkdir. rewrite new_entry_ok; [|done..|].
  - eexists. split_and!; [reflexivity|apply lookup_insert_eq|]. intros q Hq.
    rewrite lookup_insert_ne by (by intros <-). apply Hsame. by eauto.
  - rewrite Hsame; [done|]. intros H. apply prefix_length in H. rewrite length_app in H. simpl in H. lia.
Qed.

(** A directory that is filled entry by entry *)
Lemma fill (d : path) (step : string → FM unit) (g : string → node) ns : ∀ f,
  NoDup ns → f !! d = Some Dir → fs_wf f → (∀ n, n ∈ ns → f !! (d ++ [n]) = None) →
  (∀ f1 n, n ∈ ns → outside d f f1 → fs_wf f1 → f1 !! d = Some Dir → f1 !! (d ++ [n]) = None →
     step n f1 = (<[d ++ [n] := g n]> f1, Ok tt)) →
  ∃ f', for_each ns step f = (f', Ok tt) ∧
    (∀ n, n ∈ ns → f' !! (d ++ [n]) = Some (g n)) ∧
    (∀ q, (∀ n, n ∈ ns → q ≠ d ++ [n]) → f' !! q = f !! q).
Proof.
  induction ns as [|n ns IH]; intros f Hnd Hd Hwf Hnone Hstep; cbn [for_each].
  { exists f. split_and!; [done|set_solver|done]. }
  apply NoDup_cons in Hnd as [Hn Hnd].
  assert (∀ m, d ++ [m] ≠ d) as Hdm.
  { intros m Heq. apply (f_equal length) in Heq. rewrite length_app in Heq. simpl in Heq. lia. }
  assert (step n f = (<[d ++ [n] := g n]> f, Ok tt)) as Hs by (apply Hstep; [left|done..|apply Hnone; left]).
  rewrite (bind_ok _ _ _ _ _ Hs).
  destruct (IH (<[d ++ [n] := g n]> f)) as (f' & Hf & Hin & Hout).
  - done.
  - by rewrite lookup_insert_ne.
  - apply wf_insert; [done| |by rewrite Hnone by left]. unfold realdir. rewrite Hd. by rewrite orb_true_r.
  - intros m Hm. rewrite lookup_insert_ne; [by apply Hnone; right|].
    intros Heq. apply app_inj_tail in Heq as [_ ->]. done.
  - intros f1 m Hm Ho. apply Hstep; [by right|]. intros q Hq. rewrite Ho by done.
    apply lookup_insert_ne. intros <-. by apply Hq, prefix_app_r.
  - exists f'. split_and!; [done| |].
    + intros m Hm. apply elem_of_cons in Hm as [->|Hm]; [|by apply Hin].
      rewrite Hout; [by apply lookup_insert_eq|]. intros k Hk Heq. apply app_inj_tail in Heq as [_ ->]. done.
    + intros q Hq. rewrite Hout by (intros k Hk; apply Hq; by right).
      apply lookup_insert_ne. intros <-. apply (Hq n); [left|done].
Qed.

End Files.

(** ** The directories *)

Module HostFiles.
Import Files.
Local Open Scope string_scope.
Local Open Scope list_scope.

Definition DEV_DIR_PREFIX : string := "run-".

(** A host's settings that name directories; [run_dir] is [DAQ_RUN_DIR]. *)
Record conf := mkConf {
  cwd : list string;
  run_dir : list string;
  test_config : option (list string);
  site_path : option (list string);
  device_template : option (list string);
  target_mac : string;
  target_port : option Z
}.

Section host.
Context (C : conf).
Abbreviation FM := (M fs) (only parsing).

(** [target_mac.replace(':', '')] *)
Definition clean_mac : string :=
  String.string_of_list_ascii (filter (λ c, c ≠ ":"%char) (String.list_ascii_of_string (target_mac C))).
Definition devdir : list string := run_dir C ++ [(DEV_DIR_PREFIX ++ clean_mac)%string].

(** [_init_devdir] *)
Definition _init_devdir : FM (list string) :=
  rmtree_quiet devdir;;
  makedirs devdir;;
  mret devdir.

(** ['port-%02d' % port] *)
Definition port_dir (port : Z) : string :=
  ("port-" ++ (if bool_decide (0 ≤ port < 10)%Z then "0" else "") ++ pretty port)%string.

(** [_get_port_base] *)
Definition _get_port_base : FM (option (list string)) :=
  match test_config C, target_port C with
  | Some tc, Some port =>
      if bool_decide (port = 0%Z) then mret None else
      let conf_base := tc ++ [port_dir port] in
      f ← getS;
      mret (if isdir conf_base f then Some conf_base else None)
  | _, _ => mret None
  end.

(** [_create_device_dir] *)
Definition _create_device_dir (p : list string) : FM unit :=
  makedirs p;;
  match device_template C with
  | None => mret tt
  | Some template_dir =>
      files ← listdir template_dir;
      for_each files (λ file, copy (template_dir ++ [file]) p)
  end.

(** [_get_device_base] *)
Definition _get_device_base : FM (option (list string)) :=
  match site_path C with
  | None => mret None
  | Some site =>
      let dev_path := site ++ ["mac_addrs"; clean_mac] in
      f ← getS;
      whenM (negb (isdir dev_path f)) (_create_device_dir dev_path);;
      mret (Some dev_path)
  end.

(** [_device_aux_path] *)
Definition _device_aux_path (device_base : list string) : FM (list string) :=
  let p := device_base ++ ["aux"] in
  f ← getS;
  whenM (negb (exists_ p f)) (makedirs p);;
  mret p.

(** The classes of test modules: with the root directory and the command of a
    native one *)
Inductive test_module := NativeModule (basedir : list string) (startup_cmd : string) | IpAddrModule | DockerModule.
Record metadatum := mkMeta { startup_cmd : string; basedir : list string }.

(** [_new_test] with the installed native tests *)
Definition test_root : list string := devdir ++ ["test_root"].
Definition _new_test (test_metadata : dict string metadatum) (test_name : string) : FM test_module :=
  match dget test_name test_metadata with
  | Some m =>
      f ← getS;
      whenM (isdir test_root f) (rmtree test_root);;
      makedirs test_root;;
      src_files ← listdir (basedir m);
      for_each src_files (λ src_file, symlink (basedir m ++ [src_file]) (test_root ++ [src_file]));;
      mret (NativeModule test_root (startup_cmd m))
  | None => mret (if bool_decide (test_name = "ipaddr") then IpAddrModule else DockerModule)
  end.

(** [_cleanup_previous_runs]: the names come from [DAQ_RUN_DIR], and are then
    looked up as they are, in the working directory. *)
Definition _cleanup_previous_runs (report_base_dir : list string) : FM unit :=
  f ← getS;
  whenM (isdir report_base_dir f) (rmtree_quiet report_base_dir);;
  paths ← listdir (run_dir C);
  for_each paths (λ p,
    f ← getS;
    whenM (String.prefix DEV_DIR_PREFIX p && isdir (cwd C ++ [p]) f) (rmtree_quiet (cwd C ++ [p]))).

(** *** Properties *)

Lemma rmtree_quiet_runs p f : rmtree_quiet p f = (match f !! p with Some Dir => without p f | _ => f end, Ok tt).
Proof.
  unfold rmtree_quiet, try_except, rmtree. rewrite (bind_ok getS _ f f f eq_refl).
  by destruct (f !! p) as [[]|].
Qed.

Lemma lookup_without p q f : without p f !! q = if decide (p `prefix_of` q) then None else f !! q.
Proof.
  unfold without. destruct (decide _) as [H|H].
  - apply map_lookup_filter_None. right. by intros x _ Hn.
  - destruct (f !! q) as [x|] eqn:E.
    + apply map_lookup_filter_Some. by split.
    + apply map_lookup_filter_None. by left.
Qed.

(** A directory that is removed, if it is there, and made again *)
Lemma remake p f : fs_wf f → p ≠ [] → clear_way p f →
  let f0 := match f !! p with Some Dir => without p f | _ => f end in
  ∃ f', makedirs p f0 = (f', Ok tt) ∧ f' !! p = Some Dir ∧
    (∀ q, p `prefix_of` q → q ≠ p → f' !! q = None) ∧
    (∀ q, ¬ q `prefix_of` p → ¬ p `prefix_of` q → f' !! q = f !! q).
Proof.
  intros Hwf Hne Hway f0.
  assert (fs_wf f0 ∧ f0 !! p = None ∧ clear_way p f0 ∧
    (∀ q, ¬ p `prefix_of` q → f0 !! q = f !! q)) as (Hwf0 & Hnone & Hway0 & Hsame).
  { unfold f0. destruct (Hway p Hne (reflexivity _)) as [Hp|Hp]; rewrite Hp; [by split_and!|]. split_and!.
    - by apply wf_without.
    - rewrite lookup_without. by rewrite decide_True.
    - intros q Hq Hqp. rewrite lookup_without. destruct (decide _); [by left|by apply Hway].
    - intros q Hq. rewrite lookup_without. by rewrite decide_False. }
  destruct (makedirs_ok p f0 Hwf0 Hne Hway0 Hnone) as (f' & Hm & Hd & Hs).
  exists f'. split_and!; [done..| |].
  - intros q Hq Hqp. rewrite Hs.
    + by apply (wf_missing f0 p); [| |rewrite Hnone| |].
    + intros H. apply Hqp. by apply (anti_symm prefix).
  - intros q H1 H2. rewrite Hs by done. by apply Hsame.
Qed.

Lemma devdir_ne : devdir ≠ [].
Proof. apply snoc_ne_nil. Qed.

(** A host starts in an empty directory.  Whatever an earlier run of the
    device left, the run directory is there afterwards with nothing in it, and
    nothing outside of it and the way to it has changed. *)
Theorem run_dir_fresh (f : fs) (Hwf : fs_wf f) (Hway : clear_way devdir f) :
  ∃ f', _init_devdir f = (f', Ok devdir) ∧ f' !! devdir = Some Dir ∧
    (∀ q, devdir `prefix_of` q → q ≠ devdir → f' !! q = None) ∧
    (∀ q, ¬ q `prefix_of` devdir → ¬ devdir `prefix_of` q → f' !! q = f !! q).
Proof.
  destruct (remake devdir f Hwf devdir_ne Hway) as (f' & Hm & Hd & He & Hs).
  exists f'. split_and!; try done. unfold _init_devdir.
  rewrite (bind_ok _ _ _ _ _ (rmtree_quiet_runs devdir f)). by rewrite (bind_ok _ _ _ _ _ Hm).
Qed.

Lemma copy_ok t n c d f : f !! (t ++ [n]) = Some (File c) → f !! d = Some Dir → f !! (d ++ [n]) = None →
  copy (t ++ [n]) d f = (<[d ++ [n] := File c]> f, Ok tt).
Proof.
  intros Ht Hd Hn. unfold copy. rewrite (bind_ok getS _ f f f eq_refl).
  assert (lookup_node (t ++ [n]) f = Some (File c)) as ->.
  { unfold lookup_node. rewrite bool_decide_false by apply snoc_ne_nil. by rewrite Ht. }
  assert (realpath (d ++ [n]) f = d ++ [n]) as Hreal by (unfold realpath; by rewrite Hn).
  rewrite name_snoc, (realpath_dir d f), Hreal, parent_snoc by done.
  rewrite (isdir_dir d), (isdir_None (d ++ [n])) by first [done|apply snoc_ne_nil].
  unfold realdir. by rewrite Hd, (bool_decide_true (Some Dir = Some Dir)), orb_true_r.
Qed.

Lemma listdir_ok p f : f !! p = Some Dir → listdir p f = (f, Ok (names p f)).
Proof.
  intros Hp. unfold listdir. rewrite (bind_ok getS _ f f f eq_refl).
  by rewrite isdir_dir, realpath_dir.
Qed.

(** An empty directory [d] gets an entry for each one of the directory [b]. *)
Lemma mirror (d b : list string) (step : string → FM unit) (g : string → node → node) f :
  fs_wf f → f !! d = Some Dir → f !! b = Some Dir → (∀ n, d ≠ b ++ [n]) →
  (∀ q, d `prefix_of` q → d ≠ q → f !! q = None) →
  (∀ f2 n x, f !! (b ++ [n]) = Some x → f2 !! (b ++ [n]) = Some x → fs_wf f2 → f2 !! d = Some Dir →
     f2 !! (d ++ [n]) = None → step n f2 = (<[d ++ [n] := g n x]> f2, Ok tt)) →
  ∃ f', (files ← listdir b; for_each files step) f = (f', Ok tt) ∧ f' !! d = Some Dir ∧
    (∀ n, f' !! (d ++ [n]) = g n <$> f !! (b ++ [n])) ∧ outside d f f' ∧
    (∀ q, (length d + 1 < length q)%nat → d `prefix_of` q → f' !! q = None).
Proof.
  intros Hwf Hd Hb Hbd Hbelow Hstep.
  assert (∀ n, d ++ [n] ≠ d) as Hdn.
  { intros n Heq. apply (f_equal length) in Heq. rewrite length_app in Heq. simpl in Heq. lia. }
  assert (∀ n x, f !! (b ++ [n]) = Some x → ¬ d `prefix_of` (b ++ [n])) as Hout.
  { intros n x Hx Hp. by rewrite (Hbelow _ Hp (Hbd n)) in Hx. }
  destruct (fill d step (λ n, default Dir (g n <$> f !! (b ++ [n]))) (names b f) f) as (f' & Hf & Hin & Hother);
    [apply NoDup_names|done..| | |].
  - intros n _. apply Hbelow; [by apply prefix_app_r|by apply not_eq_sym].
  - intros f2 n Hn Ho. apply elem_of_names in Hn as [x Hx]. rewrite Hx. simpl. apply Hstep; [done|].
    rewrite Ho; [done|by eapply Hout].
  - exists f'. rewrite (bind_ok _ _ _ _ _ (listdir_ok b f Hb)). split_and!; [done| | | |].
    + rewrite Hother; [done|]. intros n _. by apply not_eq_sym.
    + intros n. destruct (decide (n ∈ names b f)) as [Hn|Hn].
      * rewrite Hin by done. by apply elem_of_names in Hn as [x ->].
      * rewrite Hother by (intros m Hm Heq; by apply app_inj_tail in Heq as [_ ->]).
        rewrite elem_of_names, <- eq_None_not_Some in Hn. rewrite Hn.
        apply Hbelow; [by apply prefix_app_r|by apply not_eq_sym].
    + intros q Hq. apply Hother. intros n _ ->. by apply Hq, prefix_app_r.
    + intros q Hlen Hq. rewrite Hother.
      * apply Hbelow; [done|]. intros ->. lia.
      * intros n _ ->. rewrite length_app in Hlen. simpl in Hlen. lia.
Qed.

(** A directory made where there was none is empty. *)
Lemma made_empty (d : list string) (f f1 : fs) : fs_wf f → d ≠ [] → f !! d = None → (∀ q, ¬ q `prefix_of` d → f1 !! q = f !! q) →
  ∀ q, d `prefix_of` q → d ≠ q → f1 !! q = None.
Proof.
  intros Hwf Hne Hnone Hs q Hq Hdq. rewrite Hs; [|intros H; apply Hdq; by apply (anti_symm prefix)].
  apply (wf_missing f d); [done|done|by rewrite Hnone|done|done].
Qed.

(** The configuration directory of a device.  A directory that is there is
    used as it is; one that is missing is made with the files of the template,
    which has only files, and nothing else. *)
Theorem device_dir_from_template (f : fs) (site t : list string)
    (Hsite : site_path C = Some site) (Ht : device_template C = Some t) (Hwf : fs_wf f)
    (Htdir : f !! t = Some Dir) (Htfiles : ∀ n x, f !! (t ++ [n]) = Some x → ∃ c, x = File c) :
  let d := site ++ ["mac_addrs"; clean_mac] in
  (isdir d f = true → _get_device_base f = (f, Ok (Some d))) ∧
  (f !! d = None → clear_way d f → ¬ t `prefix_of` d →
   ∃ f', _get_device_base f = (f', Ok (Some d)) ∧ f' !! d = Some Dir ∧
     (∀ n, f' !! (d ++ [n]) = f !! (t ++ [n])) ∧
     (∀ q, ¬ q `prefix_of` d → ¬ d `prefix_of` q → f' !! q = f !! q)).
Proof.
  intros d. unfold _get_device_base. rewrite Hsite. rewrite (bind_ok getS _ f f f eq_refl). fold d.
  assert (d ≠ []) as Hne by (by destruct site).
  split; [by intros ->|]. intros Hnone Hway Htd. rewrite isdir_None by done. cbn [negb whenM].
  destruct (makedirs_ok d f Hwf Hne Hway Hnone) as (f1 & Hm & Hd & Hs).
  pose proof (makedirs_keeps d f Hwf) as Hwf1. rewrite Hm in Hwf1. simpl in Hwf1.
  assert (∀ n, ¬ (t ++ [n]) `prefix_of` d) as Htn.
  { intros n H. apply Htd. etrans; [|exact H]. by apply prefix_app_r. }
  destruct (mirror d t (λ file, copy (t ++ [file]) d) (λ _ x, x) f1) as (f' & Hf & Hd' & Hin & Hout & _).
  - done.
  - done.
  - by rewrite Hs.
  - intros n Heq. by apply (Htn n); rewrite Heq.
  - by apply (made_empty d f).
  - intros f2 n x Hx Hx2 _ Hd2 Hn2. rewrite Hs in Hx by done. destruct (Htfiles n x Hx) as [c ->].
    by apply copy_ok.
  - exists f'. split_and!; [|done| |].
    + rewrite (bind_ok (_create_device_dir d) _ f f' tt); [done|]. unfold _create_device_dir.
      by rewrite (bind_ok _ _ _ _ _ Hm), Ht.
    + intros n. rewrite Hin, Hs by done. by destruct (f !! (t ++ [n])).
    + intros q H1 H2. by rewrite Hout, Hs.
Qed.

(** C33: what a native test can see.  The root of a native test is made again
    for every test: afterwards it has a link to each file of the module's
    directory under the same name, and nothing else, such as files of the test
    before. *)
Theorem test_root_links (f : fs) (metadata : dict string metadatum) (test : string) (m : metadatum)
    (Hm : dget test metadata = Some m) (Hwf : fs_wf f) (Hway : clear_way test_root f)
    (Hbase : f !! basedir m = Some Dir)
    (Hapart : ¬ test_root `prefix_of` basedir m ∧ ¬ basedir m `prefix_of` test_root) :
  ∃ f', _new_test metadata test f = (f', Ok (NativeModule test_root (startup_cmd m))) ∧
    (∀ n, f' !! (test_root ++ [n]) = (λ _, Link (basedir m ++ [n])) <$> f !! (basedir m ++ [n])) ∧
    (∀ q, (length test_root + 1 < length q)%nat → test_root `prefix_of` q → f' !! q = None) ∧
    (∀ q, ¬ q `prefix_of` test_root → ¬ test_root `prefix_of` q → f' !! q = f !! q).
Proof.
  destruct Hapart as [Hab Hba]. assert (test_root ≠ []) as Hne by apply snoc_ne_nil.
  destruct (remake test_root f Hwf Hne Hway) as (f1 & Hmk & Hd & Hempty & Hs).
  set (f0 := match f !! test_root with Some Dir => without test_root f | _ => f end) in *.
  assert (whenM (isdir test_root f) (rmtree test_root) f = (f0, Ok tt)) as Hrm.
  { unfold f0. destruct (Hway test_root Hne (reflexivity _)) as [H|H]; rewrite H.
    - by rewrite isdir_None.
    - rewrite isdir_dir by done. unfold whenM, rmtree. rewrite (bind_ok getS _ f f f eq_refl). by rewrite H. }
  assert (fs_wf f1) as Hwf1.
  { assert (fs_wf f0) as Hwf0 by (unfold f0; repeat case_match; by try apply wf_without).
    pose proof (makedirs_keeps test_root f0 Hwf0) as H. by rewrite Hmk in H. }
  assert (∀ n, ¬ (basedir m ++ [n]) `prefix_of` test_root) as Hbn.
  { intros n H. apply Hba. etrans; [|exact H]. by apply prefix_app_r. }
  destruct (mirror test_root (basedir m) (λ x, symlink (basedir m ++ [x]) (test_root ++ [x]))
    (λ n _, Link (basedir m ++ [n])) f1) as (f' & Hf & Hd' & Hin & Hout & Hdeep).
  - done.
  - done.
  - by rewrite Hs.
  - intros n Heq. by apply (Hbn n); rewrite Heq.
  - intros q Hq Hn. by apply Hempty; [|apply not_eq_sym].
  - intros f2 n x _ _ Hwf2 Hd2 Hn2. apply new_entry_ok; [done|by right|done].
  - exists f'. split_and!; [| |done|intros q H1 H2; by rewrite Hout, Hs].
    + unfold _new_test. rewrite Hm. rewrite (bind_ok getS _ f f f eq_refl), (bind_ok _ _ _ _ _ Hrm).
      rewrite (bind_ok _ _ _ _ _ Hmk). rewrite <- bind_assoc. by rewrite (bind_ok _ _ _ _ _ Hf).
    + intros n. rewrite Hin, Hs; [done|apply Hbn|]. intros H.
      apply prefix_snoc_inv in H as [H|H]; [done|]. by apply (Hbn n); rewrite <- H.
Qed.

(** The tree stays a tree.  Whatever a directory operation of the host or the
    runner does, and wherever it fails, every entry is in a directory. *)
Theorem directories_kept (f : fs) (p : list string) (report_base_dir : list string)
    (metadata : dict string metadatum) (test : string) (Hwf : fs_wf f) :
  fs_wf (_init_devdir f).1 ∧ fs_wf (_get_device_base f).1 ∧ fs_wf (_device_aux_path p f).1 ∧
  fs_wf (_new_test metadata test f).1 ∧ fs_wf (_cleanup_previous_runs report_base_dir f).1.
Proof.
  assert (∀ A (m : FM A), keeps fs_wf m → fs_wf (m f).1) as Hk by (intros A m H; by apply H).
  unfold _init_devdir, _get_device_base, _create_device_dir, _device_aux_path, _new_test,
    _cleanup_previous_runs, rmtree_quiet.
  split_and!; apply Hk;
    walk ltac:(first [apply makedirs_keeps|apply rmtree_keeps|apply listdir_keeps|apply copy_keeps
                     |apply new_entry_keeps]).
Qed.

End host.

(** [_get_test_metadata] on the files that the glob yields, each with the
    document it holds *)
Definition meta_step (r : res (dict string metadatum)) (file : list string * option (dict string string)) :
    res (dict string metadatum) :=
  metadata ← r;
  metadatum ← of_option ValueError file.2;
  '(module, cmd) ← of_option AssertionError
     (n ← dget "name" metadatum; c ← dget "startup_cmd" metadatum; Some (n, c));
  if dmem module metadata then Raise AssertionError
  else Ok (dset module (mkMeta cmd (parent file.1)) metadata).
Definition _get_test_metadata (meta_files : list (list string * option (dict string string))) :
    res (dict string metadatum) := foldl meta_step (Ok []) meta_files.

(** The module and the command that a file declares *)
Definition declares (file : list string * option (dict string string)) (module cmd : string) : Prop :=
  ∃ d, file.2 = Some d ∧ dget "name" d = Some module ∧ dget "startup_cmd" d = Some cmd.

Definition installed (file : list string * option (dict string string)) (kv : string * metadatum) : Prop :=
  declares file kv.1 (startup_cmd kv.2) ∧ basedir kv.2 = parent file.1.

Lemma meta_raise e fs : foldl meta_step (Raise e) fs = Raise e.
Proof. by induction fs. Qed.

(** One file: it declares a module that is not there yet. *)
Lemma meta_step_ok md file md' :
  (meta_step (Ok md) file = Ok md') ↔ ∃ kv, installed file kv ∧ (kv.1 ∉ md.*1) ∧ md' = (md ++ [kv]).
Proof.
  unfold meta_step, installed, declares. destruct file as [p o]. cbn. split.
  - destruct o as [d|]; [|done]. cbn. destruct (dget "name" d) as [n|] eqn:Hn; [|done].
    destruct (dget "startup_cmd" d) as [c|] eqn:Hc; [|done]. cbn. unfold dmem.
    destruct (dget n md) eqn:Hm; [done|]. intros [= <-].
    exists (n, mkMeta c (parent p)). cbn. split_and!; [by eauto|done|by apply dget_None|by apply dkeys_dset_new].
  - intros ([n [c b]] & ((d & -> & Hn & Hc) & Hb) & Hni & ->). cbn in *. rewrite Hn. cbn. rewrite Hc. cbn.
    apply dget_None in Hni. unfold dmem. rewrite Hni. by rewrite dkeys_dset_new, <- Hb.
Qed.

Lemma metadata_files files : ∀ md0 md,
  (foldl meta_step (Ok md0) files = Ok md) ↔
  ∃ es, md = md0 ++ es ∧ Forall2 installed files es ∧ NoDup es.*1 ∧ ∀ n, n ∈ es.*1 → n ∉ md0.*1.
Proof.
  induction files as [|file files IH]; intros md0 md; cbn [foldl].
  { split.
    - intros [= <-]. exists []. rewrite app_nil_r. split_and!; [done|constructor|constructor|set_solver].
    - intros (es & -> & Hes & _). apply Forall2_nil_inv_l in Hes as ->. by rewrite app_nil_r. }
  destruct (meta_step (Ok md0) file) as [md1|e] eqn:Hs.
  - apply meta_step_ok in Hs as (kv & Hkv & Hni & ->). rewrite IH. split.
    + intros (es & -> & Hes & Hnd & Hdis). exists (kv :: es). rewrite <- app_assoc. split_and!; [done|by constructor| |].
      * cbn. apply NoDup_cons. split; [|done]. intros H. apply (Hdis _ H). rewrite fmap_app. set_solver.
      * cbn. intros n Hn. apply elem_of_cons in Hn as [->|Hn]; [done|]. specialize (Hdis n Hn).
        rewrite fmap_app in Hdis. set_solver.
    + intros (es & -> & Hes & Hnd & Hdis). apply Forall2_cons_inv_l in Hes as (kv' & es' & Hkv' & Hes & ->).
      assert (kv' = kv) as ->.
      { destruct kv as [n [c b]], kv' as [n' [c' b']], Hkv as ((d & H1 & H2 & H3) & H4),
          Hkv' as ((d' & H1' & H2' & H3') & H4'). cbn in *. by simplify_eq. }
      exists es'. cbn in Hnd, Hdis. apply NoDup_cons in Hnd as [Hk Hnd].
      rewrite <- app_assoc. split_and!; [done..|]. intros n Hn. rewrite fmap_app. cbn.
      specialize (Hdis n). set_solver.
  - rewrite meta_raise. split; [done|]. intros (es & -> & Hes & Hnd & Hdis).
    apply Forall2_cons_inv_l in Hes as (kv & es' & Hkv & Hes & ->).
    assert (meta_step (Ok md0) file = Ok (md0 ++ [kv])) as Hok.
    { apply meta_step_ok. exists kv. split_and!; [done| |done]. apply Hdis. cbn. left. }
    by rewrite Hs in Hok.
Qed.

(** The installed tests.  Reading the modules succeeds exactly if every file
    declares a module with its command and no two declare the same one; the
    result is then the table of these modules, each with its command and the
    directory of its file. *)
Theorem test_metadata_exact (files : list (list string * option (dict string string)))
    (md : dict string metadatum) :
  (_get_test_metadata files = Ok md) ↔ (Forall2 installed files md ∧ NoDup md.*1).
Proof.
  unfold _get_test_metadata. rewrite metadata_files. split.
  - intros (es & -> & Hes & Hnd & _). done.
  - intros [Hes Hnd]. exists md. split_and!; [done..|set_solver].
Qed.

(** *** Examples *)

Definition demo_conf : conf :=
  mkConf ["daq"] ["daq"; "inst"] None (Some ["daq"; "local"; "site"]) (Some ["daq"; "template"]) "9a:02:57" (Some 1%Z).
Definition demo_fs : fs := list_to_map
  [(["daq"], Dir); (["daq"; "inst"], Dir); (["daq"; "inst"; "run-9a0257"], Dir);
   (["daq"; "inst"; "run-9a0257"; "old.txt"], File "x");
   (["daq"; "template"], Dir); (["daq"; "template"; "module_config.json"], File "{}");
   (["daq"; "ping"], Dir); (["daq"; "ping"; "test_ping"], File "#!/bin/bash")].

Lemma demo_fs_wf : fs_wf demo_fs.
Proof.
  split; [done|]. intros p n [x Hx]. apply elem_of_list_to_map_2 in Hx.
  repeat (apply elem_of_cons in Hx as [Hx|Hx];
    [injection Hx as Hx ->; apply (f_equal reverse) in Hx; rewrite reverse_snoc in Hx; cbn in Hx;
     injection Hx as -> Hx; apply (f_equal reverse) in Hx; rewrite reverse_involutive in Hx; subst p;
     vm_compute; by auto|]).
  by apply elem_of_nil in Hx.
Qed.


(** The way to a directory: all its prefixes are looked at. *)
Lemma clear_way_check (p : list string) (f : fs) :
  forallb (λ k, let q := take k p in bool_decide (q = []) ||
    bool_decide (f !! q = None) || bool_decide (f !! q = Some Dir)) (seq 0 (S (length p))) = true →
  clear_way p f.
Proof.
  intros H q Hq [k ->]. rewrite forallb_forall in H. specialize (H (length q)).
  cbn zeta in H. rewrite take_app_length in H. rewrite bool_decide_false in H by done. cbn in H.
  assert (bool_decide (f !! q = None) || bool_decide (f !! q = Some Dir) = true) as H1.
  { apply H. right. apply in_seq. rewrite length_app. destruct q; [done|]. cbn. lia. }
  apply orb_true_iff in H1 as [H1|H1]; apply bool_decide_eq_true in H1; auto.
Qed.

Lemma run_dir_fresh_witness :
  ∃ f', _init_devdir demo_conf demo_fs = (f', Ok ["daq"; "inst"; "run-9a0257"]) ∧
    f' !! ["daq"; "inst"; "run-9a0257"; "old.txt"] = None.
Proof.
  destruct (run_dir_fresh demo_conf demo_fs demo_fs_wf) as (f' & H & _ & Hempty & _).
  - apply clear_way_check. vm_compute. reflexivity.
  - exists f'. split; [exact H|]. apply Hempty; [|discriminate]. exists ["old.txt"]. reflexivity.
Defined.

Lemma device_dir_from_template_witness :
  ∃ f', _get_device_base demo_conf demo_fs = (f', Ok (Some ["daq"; "local"; "site"; "mac_addrs"; "9a0257"])) ∧
    f' !! ["daq"; "local"; "site"; "mac_addrs"; "9a0257"; "module_config.json"] = Some (File "{}").
Proof.
  destruct (device_dir_from_template demo_conf demo_fs ["daq"; "local"; "site"] ["daq"; "template"]
    eq_refl eq_refl demo_fs_wf eq_refl) as [_ H].
  - intros n x Hx. apply elem_of_list_to_map_2 in Hx.
    repeat (apply elem_of_cons in Hx as [Hx|Hx]; [injection Hx as; subst; first [done|by eexists]|]).
    by apply elem_of_nil in Hx.
  - destruct H as (f' & H & _ & Hin & _).
    + reflexivity.
    + apply clear_way_check. vm_compute. reflexivity.
    + intros [k Hk]. discriminate Hk.
    + exists f'. split; [exact H|]. apply (Hin "module_config.json").
Defined.

Lemma test_root_links_witness :
  ∃ f', _new_test demo_conf [("ping", mkMeta "./test_ping" ["daq"; "ping"])] "ping" demo_fs =
      (f', Ok (NativeModule ["daq"; "inst"; "run-9a0257"; "test_root"] "./test_ping")) ∧
    f' !! ["daq"; "inst"; "run-9a0257"; "test_root"; "test_ping"] = Some (Link ["daq"; "ping"; "test_ping"]).
Proof.
  destruct (test_root_links demo_conf demo_fs [("ping", mkMeta "./test_ping" ["daq"; "ping"])] "ping"
    (mkMeta "./test_ping" ["daq"; "ping"]) eq_refl demo_fs_wf) as (f' & H & Hin & _).
  - apply clear_way_check. vm_compute. reflexivity.
  - reflexivity.
  - split; intros [k Hk]; discriminate Hk.
  - exists f'. split; [exact H|]. apply (Hin "test_ping").
Defined.

Lemma directories_kept_witness : fs_wf (_init_devdir demo_conf demo_fs).1.
Proof. refine (proj1 (directories_kept demo_conf demo_fs [] [] [] "ping" demo_fs_wf)). Defined.

(** What an earlier run left stays: its directory is looked for in the working
    directory. *)
Example previous_runs_stay :
  (_cleanup_previous_runs demo_conf ["daq"; "inst"; "reports"] demo_fs).1
    !! ["daq"; "inst"; "run-9a0257"; "old.txt"] = Some (File "x").
Proof. vm_compute. reflexivity. Qed.

(** A template with a directory is refused, when a part of it is copied; the next
    run then uses the part as it is. *)
Definition nested_fs : fs := <[["daq"; "template"; "aux"] := Dir]> demo_fs.
Example nested_template_half_copied :
  let '(f1, o1) := _get_device_base demo_conf nested_fs in
  let '(f2, o2) := _get_device_base demo_conf f1 in
  o1 = Raise OtherException ∧ o2 = Ok (Some ["daq"; "local"; "site"; "mac_addrs"; "9a0257"]).
Proof. vm_compute. split; reflexivity. Qed.

End HostFiles.
