(* ===== verification/NativeHost.v ===== *)
(** * Native test hosts (src/daq/test_modules/native_host.py)

    A native test runs its start command in a shell of a test host: its
    configuration is linked into the directory of the test, the process is
    started with the environment of the test, and both are undone when the host
    is terminated.  The network side of the host ([mininet.node.Host]) is not
    part of the model; a process is what [popen] returns, with the return code
    [poll] may give it.  Shell commands whose result is not looked at may fail
    quietly. *)

From stdpp Require Import base list gmap fin_maps strings.
From Stdlib Require Import ZArith Lia Ascii.
From S2P Require Import Prelude HostFiles.

Module NativeHost.
Import Files.
Local Open Scope string_scope.
Local Open Scope list_scope.

Record proc := Proc {
  piped : bool;            (* [stdout] is a pipe *)
  stdout_open : bool;
  returncode : option Z
}.

Record host := Host {
  name_of : string;
  basedir : list string;
  tmpdir : list string;
  env_vars : list (string * string);
  vol_maps : list (list string * list string);
  startup_cmd : list string;
  active_pipe : option proc;
  active_log : bool;       (* the log file that is open *)
  shell : bool             (* the host's own shell, of [mininet.node.Host] *)
}.

Definition with_active (pipe : option proc) (log : bool) (h : host) : host :=
  Host (name_of h) (basedir h) (tmpdir h) (env_vars h) (vol_maps h) (startup_cmd h) pipe log (shell h).
Definition without_shell (h : host) : host :=
  Host (name_of h) (basedir h) (tmpdir h) (env_vars h) (vol_maps h) (startup_cmd h)
    (active_pipe h) (active_log h) false.

(** A start command: absolute, or relative to the test's directory. *)
Inductive command := Absolute (p : list string) | Relative (p : list string).

(** [NativeHost.__init__] *)
Definition init (name : string) (base tmp : list string) (vars : option (list (string * string)))
    (maps : option (list (list string * list string))) (cmd : command) : host :=
  Host name base tmp (default [] vars)
    (default [] maps ++ [(tmp ++ ["tmp"], base ++ ["tmp"])])
    match cmd with Absolute p => p | Relative p => base ++ p end
    None false true.

(** The class [make_native_host] makes: the host's directory is below the given
    one. *)
Definition make_native_host (base : list string) (cmd : command) (name : string)
    (tmp : list string) (vars : option (list (string * string)))
    (maps : option (list (list string * list string))) : res host :=
  guard_res (negb (bool_decide (tmp = []))) AssertionError;;
  Ok (init name base (tmp ++ [name]) vars maps cmd).

(** ** Shell commands *)

Definition quiet (m : FM unit) : FM unit := try_except m (λ _, mret tt).

(** [mkdir p] *)
Definition sh_mkdir (p : path) : FM unit := quiet (mkdir p).

(** [ln -s src dst]: into [dst] if that is a directory *)
Definition sh_ln (src dst : path) : FM unit :=
  f ← getS;
  quiet (if isdir dst f then new_entry (dst ++ option_list (name src)) (Link src)
         else new_entry dst (Link src)).

(** The entry a path names: links in its directory are followed, the entry
    itself may be a link. *)
Definition entry (p : path) (f : fs) : path :=
  match name p with Some x => realpath (parent p) f ++ [x] | None => p end.

(** [rm -f p] *)
Definition sh_rm (p : path) : FM unit :=
  modify (λ f, if bool_decide (f !! entry p f = Some Dir) then f else delete (entry p f) f).

(** [rm -r p] *)
Definition sh_rm_r (p : path) : FM unit :=
  modify (λ f, match f !! entry p f with
               | Some Dir => without (entry p f) f
               | _ => delete (entry p f) f
               end).

(** [open(p, 'w')] *)
Definition open_w (p : path) : FM unit :=
  f ← getS;
  let q := realpath (entry p f) f in
  if negb (isdir (parent p) f) || isdir q f then raise OtherException
  else modify <[q := File ""]>.

(** ** The life of the process *)

(** [{**os.environ, **dict(self.env_vars)}] *)
Definition process_env (environ : dict string string) (vars : list (string * string)) :
    dict string string := foldl (λ d kv, dset kv.1 kv.2 d) environ vars.

Definition config_dir (h : host) : path := basedir h ++ ["config"].

Definition link_volumes (maps : list (list string * list string)) : FM unit :=
  for_each maps (λ m, sh_ln m.1 m.2).
Definition unlink_volumes (maps : list (list string * list string)) : FM unit :=
  for_each maps (λ m, sh_rm m.2).

(** What is started: the command and its environment. *)
Record spawned := Spawned { cmd_of : path; env_of : dict string string }.

(** [activate]; [popen] says whether starting the command succeeds.  The host
    keeps the log it opened when starting fails. *)
Definition activate (environ : dict string string) (popen : path → bool) (log_name : string)
    (h : host) (f : fs) : fs * (host * res spawned) :=
  if bool_decide (is_Some (active_pipe h)) then (f, (h, Raise AssertionError)) else
  let env := process_env environ (env_vars h) in
  let f := (sh_mkdir (config_dir h) f).1 in
  let f := (link_volumes (vol_maps h) f).1 in
  let logging := negb (bool_decide (log_name = "")) in
  match (if logging then open_w (tmpdir h ++ [log_name]) f else (f, Ok tt)) with
  | (f, Raise e) => (f, (h, Raise e))
  | (f, Ok _) =>
      let h := with_active (active_pipe h) logging h in
      if popen (startup_cmd h)
      then (f, (with_active (Some (Proc (negb logging) (negb logging) None)) logging h,
                Ok (Spawned (startup_cmd h) env)))
      else (f, (h, Raise OtherException))
  end.

(** [active_pipe.poll()] after the kill: the code the process has by then. *)
Definition poll (code : option Z) (p : proc) : proc := Proc (piped p) (stdout_open p) code.

(** [terminate]: the value it returns *)
Definition terminate (polled : option Z) (h : host) (f : fs) : fs * (host * option Z) :=
  let f := (unlink_volumes (vol_maps h) f).1 in
  let f := (sh_rm_r (config_dir h) f).1 in
  match active_pipe h with
  | None => (f, (without_shell h, None))
  | Some p =>
      let p := if piped p then Proc true false (returncode p) else p in
      let p := match returncode p with None => poll polled p | Some _ => p end in
      (* [None or 0] and [0 or 0] are 0 *)
      (f, (without_shell (with_active None false h), Some (default 0%Z (returncode p))))
  end.

(** ** What the commands do *)

(** A place for a link: nothing is there, and it is in a directory. *)
Definition free_place (f : fs) (d : path) : Prop :=
  f !! d = None ∧ ∃ p x, d = p ++ [x] ∧ (p = [] ∨ f !! p = Some Dir).

Lemma sh_ln_ok src dst f :
  fs_wf f → free_place f dst → sh_ln src dst f = (<[dst := Link src]> f, Ok tt).
Proof.
  intros Hwf [Hnone (p & x & -> & Hp)]. unfold sh_ln. rewrite (bind_ok getS _ f f f eq_refl).
  rewrite isdir_None by (done || apply snoc_ne_nil). unfold quiet, try_except.
  by rewrite new_entry_ok.
Qed.

Lemma free_place_insert f d e n :
  free_place f d → e ≠ d → f !! e = None → free_place (<[e := n]> f) d.
Proof.
  intros [Hnone (p & x & -> & Hp)] Hne He. split; [by rewrite lookup_insert_ne|].
  exists p, x. split; [done|]. destruct Hp as [->|Hp]; [by left|]. right.
  rewrite lookup_insert_ne; [done|]. intros ->. congruence.
Qed.

Lemma free_place_wf f d n : fs_wf f → free_place f d → fs_wf (<[d := n]> f).
Proof.
  intros Hwf [Hnone (p & x & -> & Hp)]. apply wf_insert; [done| |by rewrite Hnone].
  unfold realdir. destruct Hp as [->|Hp]; [done|].
  rewrite (bool_decide_true (f !! p = Some Dir)) by done. apply orb_true_r.
Qed.

(** The file system with the links. *)
Definition linked (maps : list (list string * list string)) (f : fs) : fs :=
  foldl (λ f m, <[m.2 := Link m.1]> f) f maps.

Lemma link_volumes_ok maps f :
  fs_wf f → NoDup maps.*2 → (∀ m, m ∈ maps → free_place f m.2) →
  link_volumes maps f = (linked maps f, Ok tt) ∧ fs_wf (linked maps f).
Proof.
  unfold link_volumes. revert f. induction maps as [|[s d] maps IH]; intros f Hwf Hnd Hfree; [done|].
  cbn [fmap list_fmap fst snd] in Hnd. apply NoDup_cons in Hnd as [Hni Hnd].
  pose proof (Hfree (s, d) ltac:(left)) as Hd. cbn [snd] in Hd. cbn [for_each fst snd].
  rewrite (bind_ok _ _ _ _ _ (sh_ln_ok s d f Hwf Hd)).
  apply IH; [by apply free_place_wf|done|]. intros m Hm. apply free_place_insert.
  - apply Hfree. by right.
  - intros ->. apply Hni. by apply list_elem_of_fmap_2.
  - apply Hd.
Qed.

Lemma linked_other maps f q : q ∉ maps.*2 → linked maps f !! q = f !! q.
Proof.
  unfold linked. revert f. induction maps as [|[s d] maps IH]; intros f Hq; [done|].
  cbn [fmap list_fmap snd] in Hq. apply not_elem_of_cons in Hq as [Hne Hq]. cbn [foldl].
  rewrite IH by done. by apply lookup_insert_ne.
Qed.

Lemma linked_in maps f s d : NoDup maps.*2 → (s, d) ∈ maps → linked maps f !! d = Some (Link s).
Proof.
  unfold linked. revert f. induction maps as [|[s' d'] maps IH]; intros f Hnd Hin; [by apply elem_of_nil in Hin|].
  cbn [fmap list_fmap snd] in Hnd. apply NoDup_cons in Hnd as [Hni Hnd]. cbn [foldl fst snd].
  apply elem_of_cons in Hin as [[= <- <-]|Hin]; [|by apply IH].
  change (linked maps (<[d := Link s]> f) !! d = Some (Link s)).
  rewrite linked_other by done. apply lookup_insert_eq.
Qed.

(** Removing the links: an entry in a real directory is removed, unless it is
    a directory itself. *)
Definition removable (f : fs) (d : path) : Prop :=
  f !! d ≠ Some Dir ∧ ∃ p x, d = p ++ [x] ∧ (p = [] ∨ f !! p = Some Dir).

Lemma entry_real f p x : fs_wf f → p = [] ∨ f !! p = Some Dir → entry (p ++ [x]) f = p ++ [x].
Proof.
  intros [Hroot _] Hp. unfold entry. rewrite name_snoc, parent_snoc. f_equal.
  destruct Hp as [->|Hp]; [|by apply realpath_dir]. unfold realpath. by rewrite Hroot.
Qed.

Lemma wf_delete f d : fs_wf f → f !! d ≠ Some Dir → fs_wf (delete d f).
Proof.
  intros [Hroot Hwf] Hd. split; [by apply lookup_delete_None; right|].
  intros p n [x Hx]. apply lookup_delete_Some in Hx as [Hne Hx].
  destruct (Hwf p n (mk_is_Some _ _ Hx)) as [->|Hp]; [by left|]. right.
  rewrite lookup_delete_ne; [done|]. intros ->. done.
Qed.

Definition unlinked (maps : list (list string * list string)) (f : fs) : fs :=
  foldl (λ f m, delete m.2 f) f maps.

Lemma unlink_volumes_ok maps f :
  fs_wf f → (∀ m, m ∈ maps → removable f m.2) →
  unlink_volumes maps f = (unlinked maps f, Ok tt) ∧ fs_wf (unlinked maps f).
Proof.
  unfold unlink_volumes. revert f. induction maps as [|[s d] maps IH]; intros f Hwf Hrm; [done|].
  destruct (Hrm (s, d) ltac:(left)) as [Hd (p & x & Ed & Hp)]. cbn [snd] in Hd, Ed. cbn [for_each snd].
  assert (sh_rm d f = (delete d f, Ok tt)) as Hs.
  { unfold sh_rm, modify. subst d. rewrite entry_real by done. by rewrite bool_decide_false. }
  rewrite (bind_ok _ _ _ _ _ Hs). apply IH; [by apply wf_delete|].
  intros m Hm. destruct (Hrm m ltac:(by right)) as [Hm1 (p' & x' & Em & Hp')]. split.
  - intros H. apply lookup_delete_Some in H as [_ H]. done.
  - exists p', x'. split; [done|]. destruct Hp' as [->|Hp']; [by left|right].
    rewrite lookup_delete_ne; [done|]. intros ->. done.
Qed.

Lemma unlinked_lookup maps f q :
  unlinked maps f !! q = if bool_decide (q ∈ maps.*2) then None else f !! q.
Proof.
  unfold unlinked. revert f. induction maps as [|[s d] maps IH]; intros f; [done|].
  cbn [foldl snd]. rewrite IH. cbn [fmap list_fmap snd].
  destruct (decide (q = d)) as [->|Hne].
  - rewrite lookup_delete_eq, (bool_decide_true (d ∈ d :: _)) by left. by case_bool_decide.
  - rewrite lookup_delete_ne by done. rewrite (bool_decide_ext (q ∈ maps.*2) (q ∈ d :: maps.*2)); [done|].
    rewrite elem_of_cons. tauto.
Qed.

(** ** Properties *)

(** The places the host uses: nothing is at the configuration directory and at
    the ends of the links, which are all different and, once the configuration
    directory exists, in directories; the log file can be written and is none
    of them. *)
Record ready (log_name : string) (h : host) (f : fs) : Prop := {
  ready_wf : fs_wf f;
  ready_base : f !! basedir h = Some Dir;
  ready_config : f !! config_dir h = None;
  ready_distinct : NoDup (vol_maps h).*2;
  ready_free : ∀ m, m ∈ vol_maps h → free_place (<[config_dir h := Dir]> f) m.2;
  ready_log_dir : f !! tmpdir h = Some Dir;
  ready_log : f !! (tmpdir h ++ [log_name]) = None ∨ ∃ c, f !! (tmpdir h ++ [log_name]) = Some (File c);
  ready_log_apart : (tmpdir h ++ [log_name] ∉ (vol_maps h).*2) ∧ tmpdir h ++ [log_name] ≠ config_dir h
}.

Section life.
Context (environ : dict string string) (log_name : string) (h : host) (f : fs)
  (Hready : ready log_name h f) (Hlog : log_name ≠ "").

Definition linked_fs : fs := linked (vol_maps h) (<[config_dir h := Dir]> f).
Definition logged_fs : fs := <[tmpdir h ++ [log_name] := File ""]> linked_fs.

Lemma mkdir_config : sh_mkdir (config_dir h) f = (<[config_dir h := Dir]> f, Ok tt).
Proof.
  unfold sh_mkdir, quiet, try_except, mkdir, config_dir.
  rewrite new_entry_ok; [done|apply Hready|right; apply Hready|apply Hready].
Qed.

Lemma config_wf : fs_wf (<[config_dir h := Dir]> f).
Proof.
  apply free_place_wf; [apply Hready|]. split; [apply Hready|]. exists (basedir h), "config".
  split; [done|]. right. apply Hready.
Qed.

Lemma free_not_dir m : m ∈ vol_maps h → m.2 ≠ tmpdir h ∧ m.2 ≠ config_dir h.
Proof.
  intros Hm. destruct (ready_free _ _ _ Hready m Hm) as [Hnone _]. split.
  - intros E. rewrite E, lookup_insert_ne in Hnone.
    + by rewrite (ready_log_dir _ _ _ Hready) in Hnone.
    + intros E'. pose proof (ready_config _ _ _ Hready) as H. rewrite E', (ready_log_dir _ _ _ Hready) in H. done.
  - intros E. by rewrite E, lookup_insert_eq in Hnone.
Qed.

Lemma not_a_link q : q = tmpdir h ∨ q = config_dir h → q ∉ (vol_maps h).*2.
Proof.
  intros Hq (m & -> & Hm)%list_elem_of_fmap. pose proof (free_not_dir m Hm) as [? ?]. naive_solver.
Qed.

Lemma open_log_ok : fs_wf linked_fs → open_w (tmpdir h ++ [log_name]) linked_fs = (logged_fs, Ok tt).
Proof.
  intros Hwf. assert (linked_fs !! tmpdir h = Some Dir) as Hd.
  { unfold linked_fs. rewrite linked_other by (apply not_a_link; by left).
    rewrite lookup_insert_ne; [apply Hready|]. intros E.
    pose proof (ready_config _ _ _ Hready) as H. rewrite E, (ready_log_dir _ _ _ Hready) in H. done. }
  assert (linked_fs !! (tmpdir h ++ [log_name]) = f !! (tmpdir h ++ [log_name])) as Hl.
  { unfold linked_fs. destruct (ready_log_apart _ _ _ Hready) as [H1 H2].
    rewrite linked_other by done. by apply lookup_insert_ne. }
  unfold open_w. rewrite (bind_ok getS _ linked_fs linked_fs linked_fs eq_refl).
  rewrite entry_real by (done || by right).
  assert (realpath (tmpdir h ++ [log_name]) linked_fs = tmpdir h ++ [log_name]) as ->.
  { unfold realpath. rewrite Hl. by destruct (ready_log _ _ _ Hready) as [-> |[c ->]]. }
  rewrite parent_snoc, isdir_dir by done. cbn [negb orb].
  assert (isdir (tmpdir h ++ [log_name]) linked_fs = false) as ->; [|done].
  unfold isdir, lookup_node. rewrite bool_decide_false by apply snoc_ne_nil. rewrite Hl.
  by destruct (ready_log _ _ _ Hready) as [-> |[c ->]].
Qed.

Lemma activate_ok (Hidle : active_pipe h = None) :
  activate environ (λ _, true) log_name h f =
  (logged_fs, (with_active (Some (Proc false false None)) true h,
               Ok (Spawned (startup_cmd h) (process_env environ (env_vars h))))).
Proof.
  unfold activate. rewrite Hidle. cbn [fst]. rewrite mkdir_config. cbn [fst].
  destruct (link_volumes_ok (vol_maps h) (<[config_dir h := Dir]> f)) as [-> Hwf];
    [apply config_wf|apply Hready..|]. cbn [fst].
  rewrite (bool_decide_false (log_name = "")) by done. cbn [negb].
  change (linked (vol_maps h) (<[config_dir h := Dir]> f)) with linked_fs in *.
  by rewrite open_log_ok.
Qed.
Lemma logged_same q :
  q ∉ (vol_maps h).*2 → q ≠ config_dir h → q ≠ tmpdir h ++ [log_name] → logged_fs !! q = f !! q.
Proof.
  intros H1 H2 H3. unfold logged_fs, linked_fs. rewrite lookup_insert_ne by done.
  rewrite linked_other by done. by rewrite lookup_insert_ne.
Qed.

Lemma logged_links s d : (s, d) ∈ vol_maps h → logged_fs !! d = Some (Link s).
Proof.
  intros Hin. unfold logged_fs, linked_fs. rewrite lookup_insert_ne.
  - apply linked_in; [apply Hready|done].
  - intros <-. apply (proj1 (ready_log_apart _ _ _ Hready)). by apply (list_elem_of_fmap_2 snd) in Hin.
Qed.

Lemma logged_config : logged_fs !! config_dir h = Some Dir.
Proof.
  unfold logged_fs, linked_fs. rewrite lookup_insert_ne by apply Hready.
  rewrite linked_other by (apply not_a_link; by right). apply lookup_insert_eq.
Qed.

Lemma free_before m : m ∈ vol_maps h → f !! m.2 = None.
Proof.
  intros Hm. destruct (ready_free _ _ _ Hready m Hm) as [Hnone _].
  rewrite lookup_insert_ne in Hnone; [done|]. symmetry. by apply free_not_dir.
Qed.

Lemma logged_dirs d : f !! d = Some Dir → logged_fs !! d = Some Dir.
Proof.
  intros Hd. rewrite logged_same; [done|..].
  - intros (m & -> & Hm)%list_elem_of_fmap. apply free_before in Hm. congruence.
  - intros ->. pose proof (ready_config _ _ _ Hready). congruence.
  - intros ->. destruct (ready_log _ _ _ Hready) as [Hl|[c Hl]]; congruence.
Qed.

Lemma logged_wf : fs_wf logged_fs.
Proof.
  destruct (link_volumes_ok (vol_maps h) (<[config_dir h := Dir]> f)) as [_ Hwf];
    [apply config_wf|apply Hready..|].
  unfold logged_fs. destruct (ready_log_apart _ _ _ Hready) as [H1 H2].
  change (linked (vol_maps h) (<[config_dir h := Dir]> f)) with linked_fs in Hwf.
  apply wf_insert; [done| |].
  - unfold realdir. assert (linked_fs !! tmpdir h = Some Dir) as ->; [|apply orb_true_r].
    pose proof (logged_dirs _ (ready_log_dir _ _ _ Hready)) as Hd. unfold logged_fs in Hd.
    rewrite lookup_insert_ne in Hd; [done|]. intros E. apply (f_equal length) in E.
    rewrite length_app in E. simpl in E. lia.
  - unfold linked_fs. rewrite linked_other by done. rewrite lookup_insert_ne by done.
    by destruct (ready_log _ _ _ Hready) as [-> |[c ->]].
Qed.

Lemma logged_removable m : m ∈ vol_maps h → removable logged_fs m.2.
Proof.
  intros Hm. destruct m as [s d]. split; [cbn [snd]; by rewrite (logged_links s d Hm)|].
  destruct (ready_free _ _ _ Hready _ Hm) as [_ (p & x & E & Hp)]. exists p, x. split; [done|].
  destruct Hp as [->|Hp]; [by left|right]. destruct (decide (p = config_dir h)) as [->|Hne].
  - apply logged_config.
  - rewrite lookup_insert_ne in Hp by done. by apply logged_dirs.
Qed.

Lemma config_not_above_log : ¬ config_dir h `prefix_of` (tmpdir h ++ [log_name]).
Proof.
  destruct Hready as [Hwf Hbase Hcfg Hnd Hfree Htmp Hl [Hla Hlc]].
  intros [Hp|Hp]%prefix_snoc_inv; [|by symmetry in Hp].
  destruct (decide (config_dir h = tmpdir h)) as [E|E]; [rewrite E in Hcfg; congruence|].
  rewrite (wf_missing f (config_dir h) (tmpdir h)) in Htmp; try done; [apply snoc_ne_nil|].
  by rewrite Hcfg.
Qed.

(** What termination restores. *)
Lemma restored q :
  (if bool_decide (config_dir h `prefix_of` q ∨ q ∈ (vol_maps h).*2) then None else logged_fs !! q) =
  <[tmpdir h ++ [log_name] := File ""]> f !! q.
Proof.
  destruct (decide (q = tmpdir h ++ [log_name])) as [->|Hq].
  { rewrite lookup_insert_eq, bool_decide_false; [apply lookup_insert_eq|].
    intros [Hp|Hp]; [by apply config_not_above_log|]. by destruct (ready_log_apart _ _ _ Hready) as [? _]. }
  rewrite lookup_insert_ne by done. case_bool_decide as Hc.
  - symmetry. destruct Hc as [Hp|(m & -> & Hm)%list_elem_of_fmap]; [|by apply free_before].
    pose proof (ready_config _ _ _ Hready) as Hcfg.
    destruct (decide (config_dir h = q)) as [<-|Hne]; [done|].
    apply (wf_missing f (config_dir h)); [apply Hready|apply snoc_ne_nil|by rewrite Hcfg|done|done].
  - apply logged_same; [tauto| |done]. intros ->. apply Hc. by left.
Qed.
End life.

(** The file system a host's termination leaves: the links and everything below
    the configuration directory are gone, all else is as it was. *)
Lemma terminate_fs polled h f :
  fs_wf f → (∀ m, m ∈ vol_maps h → removable f m.2) → f !! config_dir h = Some Dir →
  f !! basedir h = Some Dir →
  ∀ q, (terminate polled h f).1 !! q =
    if bool_decide (config_dir h `prefix_of` q ∨ q ∈ (vol_maps h).*2) then None else f !! q.
Proof.
  intros Hwf Hrm Hcfg Hbase q. unfold terminate.
  destruct (unlink_volumes_ok (vol_maps h) f Hwf Hrm) as [-> Hwf']. cbn [fst].
  set (g := unlinked (vol_maps h) f).
  assert (∀ d, f !! d = Some Dir → d ∉ (vol_maps h).*2) as Hdir.
  { intros d Hd (m & -> & Hm)%list_elem_of_fmap. by destruct (Hrm m Hm). }
  assert (∀ d, f !! d = Some Dir → g !! d = Some Dir) as Hg.
  { intros d Hd. unfold g. by rewrite unlinked_lookup, bool_decide_false by by apply Hdir. }
  assert ((sh_rm_r (config_dir h) g).1 = without (config_dir h) g) as ->.
  { unfold sh_rm_r, modify, config_dir. rewrite entry_real by (done || right; auto).
    change (basedir h ++ ["config"]) with (config_dir h). by rewrite (Hg _ Hcfg). }
  assert (without (config_dir h) g !! q =
    if bool_decide (config_dir h `prefix_of` q ∨ q ∈ (vol_maps h).*2) then None else f !! q) as Hq.
  { unfold without. destruct (decide (config_dir h `prefix_of` q)) as [Hp|Hp].
    - rewrite bool_decide_true by by left. apply map_lookup_filter_None. right. intros ? _ H. by apply H.
    - destruct (g !! q) as [n|] eqn:E.
      + transitivity (Some n); [by apply map_lookup_filter_Some|]. unfold g in E.
        rewrite unlinked_lookup in E. case_bool_decide; [done|]. rewrite bool_decide_false; [done|tauto].
      + transitivity (@None node); [by apply map_lookup_filter_None; left|]. unfold g in E.
        rewrite unlinked_lookup in E. destruct (decide (q ∈ (vol_maps h).*2)).
        * by rewrite bool_decide_true by by right.
        * rewrite bool_decide_false in E by done. rewrite bool_decide_false; [done|tauto]. }
  by destruct (active_pipe h).
Qed.

(** C27: a native test leaves no trace but its log.  From a file system in which the
    host's places are free, activating it starts the command with the
    environment of the test over that of the program, with every volume linked
    to its place and the rest of the file system unchanged; and terminating it
    removes the links and the configuration directory, whatever the process
    did to other files, so that a process that changed nothing leaves the file
    system as it was, with the log.  The code [terminate] returns is the one
    the process ended with, and 0 when it was not known. *)
Theorem native_host_life (environ : dict string string) (log_name : string) (h : host) (f : fs)
    (polled : option Z) (Hready : ready log_name h f) (Hlog : log_name ≠ "")
    (Hidle : active_pipe h = None) :
  ∃ f1 h1, activate environ (λ _, true) log_name h f =
      (f1, (h1, Ok (Spawned (startup_cmd h) (process_env environ (env_vars h))))) ∧
    (∀ s d, (s, d) ∈ vol_maps h → f1 !! d = Some (Link s)) ∧
    (∀ q, q ∉ (vol_maps h).*2 → q ≠ config_dir h → q ≠ tmpdir h ++ [log_name] → f1 !! q = f !! q) ∧
    (∀ environ' log', activate environ' (λ _, true) log' h1 f1 = (f1, (h1, Raise AssertionError))) ∧
    ∃ f2 h2, terminate polled h1 f1 = (f2, (h2, Some (default 0%Z polled))) ∧
      active_pipe h2 = None ∧ f2 = <[tmpdir h ++ [log_name] := File ""]> f.
Proof.
  rewrite activate_ok by done. do 2 eexists. split; [reflexivity|].
  split_and!; [by apply logged_links|by apply logged_same|done|].
  eexists _, _. split; [reflexivity|]. split; [done|].
  apply map_eq. intros q. set (h1 := with_active (Some (Proc false false None)) true h).
  etransitivity; [|by apply restored].
  apply (terminate_fs polled h1); [by apply logged_wf|..].
  - exact (logged_removable _ _ _ Hready).
  - exact (logged_config _ _ _ Hready).
  - exact (logged_dirs _ _ _ Hready _ (ready_base _ _ _ Hready)).
Qed.

(** A ready host. *)
Definition demo_fs : fs := list_to_map
  [(["t"], Dir); (["t"; "root"], Dir); (["r"], Dir); (["r"; "nodes"], Dir); (["s"], Dir); (["d"], Dir)].
Definition demo_host : host :=
  init "native01" ["t"; "root"] ["r"; "nodes"] (Some [("TARGET_IP", "10.20.0.5")])
    (Some [(["s"], ["t"; "root"; "scans"]); (["d"], ["t"; "root"; "config"; "device"])])
    (Relative ["entrypoint"]).

Lemma native_demo_wf : fs_wf demo_fs.
Proof.
  split; [reflexivity|]. intros p n [x Hx]. apply elem_of_list_to_map_2 in Hx. revert Hx.
  assert (∀ l, Forall (λ e : list string * node, ∃ q m, e.1 = q ++ [m] ∧ (q = [] ∨ demo_fs !! q = Some Dir)) l →
    (p ++ [n], x) ∈ l → p = [] ∨ demo_fs !! p = Some Dir) as H.
  { intros l Hl Hin. rewrite Forall_forall in Hl. destruct (Hl _ Hin) as (q & m & E & Hq).
    cbn [fst] in E. by apply app_inj_tail in E as [-> _]. }
  apply H. repeat constructor.
  - by exists [], "t"; split; [|left].
  - by exists ["t"], "root"; split; [|right].
  - by exists [], "r"; split; [|left].
  - by exists ["r"], "nodes"; split; [|right].
  - by exists [], "s"; split; [|left].
  - by exists [], "d"; split; [|left].
Qed.

Lemma demo_ready : ready "activate.log" demo_host demo_fs.
Proof.
  constructor; try reflexivity.
  - apply native_demo_wf.
  - apply (bool_decide_unpack _). reflexivity.
  - intros m Hm. repeat (apply elem_of_cons in Hm as [->|Hm]); [..|by apply elem_of_nil in Hm].
    + split; [reflexivity|]. exists ["t"; "root"], "scans". split; [done|by right].
    + split; [reflexivity|]. exists ["t"; "root"; "config"], "device". split; [done|by right].
    + split; [reflexivity|]. exists ["t"; "root"], "tmp". split; [done|by right].
  - by left.
  - split; [|done]. apply (bool_decide_unpack _). reflexivity.
Qed.

Lemma native_host_life_witness :
  ∃ f1 h1, activate [] (λ _, true) "activate.log" demo_host demo_fs =
      (f1, (h1, Ok (Spawned ["t"; "root"; "entrypoint"] [("TARGET_IP", "10.20.0.5")]))) ∧
    f1 !! ["t"; "root"; "config"; "device"] = Some (Link ["d"]).
Proof.
  destruct (native_host_life [] "activate.log" demo_host demo_fs None) as (f1 & h1 & H & Hl & _);
    [exact demo_ready|discriminate|reflexivity|].
  exists f1, h1. split; [exact H|]. apply Hl. right. left.
Defined.

(** ** The links hosts share *)

(** Every native test links [/bin/retry_cmd] ([native_vol_maps]): terminating
    one host takes the link from another one that is still running. *)
Definition retry_link : list string * list string := (["lib"; "retry_cmd"], ["bin"; "retry_cmd"]).
Definition shared_fs : fs := list_to_map
  [(["bin"], Dir); (["lib"], Dir); (["lib"; "retry_cmd"], File "x"); (["a"], Dir); (["b"], Dir); (["n"], Dir)].
Definition host_in (d : string) : host :=
  init d [d] ["n"] None (Some [retry_link]) (Relative ["entrypoint"]).

Example shared_link_lost :
  let '(f1, (ha, _)) := activate [] (λ _, true) "a.log" (host_in "a") shared_fs in
  let '(f2, (hb, _)) := activate [] (λ _, true) "b.log" (host_in "b") f1 in
  let '(f3, _) := terminate None ha f2 in
  f2 !! ["bin"; "retry_cmd"] = Some (Link ["lib"; "retry_cmd"]) ∧
  is_Some (active_pipe hb) ∧ f3 !! ["bin"; "retry_cmd"] = None.
Proof. vm_compute. split; [done|]. split; [by eexists|done]. Qed.

End NativeHost.
