(* ===== verification/RunnerConfig.v ===== *)
(** * Runner set-up and callbacks (src/daq/runner.py), switch ports
      (src/daq/host.py)

    - [RunnerConfig]: the base configuration: the installation's file overlaid
      with the site's, read at the start and again when the site's configuration
      is changed from outside ([_load_base_config], [_base_config_changed]).
    - [CallbackQueue]: callbacks from other threads wait for the main loop
      ([_queue_callback], [_handle_queued_events]).
    - [SwitchPort]: the switch port of a device is connected and disconnected
      through the switch service ([_build_switch_info], [connect_port]).

    Files are maps from absolute paths, as in [HostConfig]. *)

From stdpp Require Import base list gmap strings pretty.
From Stdlib Require Import ZArith Lia Ascii.
From S2P Require Import Prelude PyVal PyText Configurator HostConfig.

Import PyText.

Module RunnerConfig.
Local Open Scope string_scope.
Local Open Scope list_scope.
Local Open Scope Z_scope.

Definition _SITE_CONFIG : string := "site_config.json".
Definition _RUNNER_CONFIG_PATH : string := "runner/setup".

(** The runner's configuration, what it registered in the cloud and published,
    and the hosts that were told to reload *)
Record state := mkState {
  files : gmap string val;
  _base_config : dict string val;
  registered : list (string * dict string val);
  published : list (dict string val);
  reloaded : list nat
}.
Definition set_base c s := mkState (files s) c (registered s) (published s) (reloaded s).

Section runner.
Context (abspath : string → string) (flat_files : gmap string (list (list ascii))).
Context (base_conf site_path : string).
(** The outcome of a host's [reload_config], and of the cloud's calls *)
Context (reload_outcome : list nat → nat → res unit) (cloud_outcome : list (string * dict string val) → res unit).

Abbreviation RM := (M state) (only parsing).

Definition site_config_file : string := HostConfig.path_join site_path _SITE_CONFIG.
Definition exists_ (s : state) (path : string) : bool := bool_decide (is_Some (files s !! abspath path)).
Definition yaml (s : state) (path : string) : res val := of_option OtherException (files s !! path).
Definition text (path : string) : res (list (list ascii)) := of_option OtherException (flat_files !! path).
Definition fuel (s : state) : nat := S (size (dom (files s) ∪ dom flat_files)).

(** [configurator.merge_config] and [load_config] on the files *)
Definition merge_config (base : dict string val) (file : string) : RM (dict string val) :=
  s ← getS;
  match Configurator.merge_config abspath (yaml s) text (fuel s) base file ∅ with
  | Some r => '(d, _) ← lift r; mret d
  | None => raise RuntimeError
  end.
Definition load_config (file : string) (optional : bool) : RM (dict string val) :=
  s ← getS;
  match Configurator.load_config abspath (yaml s) text (exists_ s) (fuel s) file optional with
  | Some r => lift r
  | None => raise RuntimeError
  end.

(** [_load_base_config]; an empty site configuration is not merged. *)
Definition _load_base_config (register : bool) : RM (dict string val) :=
  base ← load_config base_conf false;
  site_config ← load_config site_config_file true;
  whenM register
    (s ← getS;
     lift (cloud_outcome (registered s));;
     modify (λ s, mkState (files s) (_base_config s)
       (registered s ++ [(_RUNNER_CONFIG_PATH, site_config)]) (published s) (reloaded s)));;
  if bool_decide (site_config = []) then mret base else merge_config base site_config_file.

(** [_publish_runner_config] *)
Definition _publish_runner_config (c : dict string val) : RM unit :=
  modify (λ s, mkState (files s) (_base_config s) (registered s) (published s ++ [c]) (reloaded s)).

(** [get_base_config]: a copy *)
Definition get_base_config : RM (dict string val) := gets _base_config.

(** [configurator.write_config] on the site's file *)
Definition write_site_config (new_config : dict string val) : RM unit :=
  modify (λ s, mkState (<[abspath site_config_file := VDict new_config]> (files s)) (_base_config s)
    (registered s) (published s) (reloaded s)).

(** A host is told to reload. *)
Definition reload_host (h : nat) : RM unit := λ s,
  (mkState (files s) (_base_config s) (registered s) (published s) (reloaded s ++ [h]),
   reload_outcome (reloaded s) h).

(** [_base_config_changed] with the devices that have a host *)
Definition _base_config_changed (triggered : list nat) (new_config : dict string val) : RM unit :=
  write_site_config new_config;;
  c ← _load_base_config false;
  modify (set_base c);;
  _publish_runner_config c;;
  for_each triggered reload_host.

(** *** Properties *)

(** A file that can be read and includes nothing *)
Definition plain_file (s : state) (path : string) (d : dict string val) : Prop :=
  files s !! abspath path = Some (VDict d) ∧ dget "include" d = None ∧
  Configurator.endswith (abspath path) ".json" || Configurator.endswith (abspath path) ".yaml" = true.

Lemma merge_plain s base path d : plain_file s path d →
  merge_config base path s = (s, Ok (Configurator._deep_merge_dict base d)).
Proof.
  intros (Hf & Hi & He). unfold merge_config. rewrite (bind_ok getS _ s s s eq_refl).
  unfold fuel. cbn [Configurator.merge_config].
  assert (Configurator._read_config (yaml s) text (abspath path) = Ok (VDict d)) as ->.
  { unfold Configurator._read_config. rewrite orb_comm in He. rewrite He. unfold yaml. by rewrite Hf. }
  rewrite bool_decide_false by set_solver. unfold PyVal.contains, dmem. by rewrite Hi.
Qed.

Lemma load_plain s path d b : plain_file s path d →
  load_config path b s = (s, Ok (Configurator._deep_merge_dict [] d)).
Proof.
  intros Hp. pose proof (merge_plain s [] path d Hp) as Hm. destruct Hp as (Hf & _).
  unfold load_config. rewrite (bind_ok getS _ s s s eq_refl).
  unfold merge_config in Hm. rewrite (bind_ok getS _ s s s eq_refl) in Hm.
  unfold Configurator.load_config, exists_. rewrite Hf, bool_decide_true by done.
  destruct (Configurator.merge_config _ _ _ _ [] path ∅) as [[[d' seen]|e]|];
    cbv in Hm |- *; by simplify_eq.
Qed.

(** Loading the site's document [d] over the installation's document [b] *)
Lemma load_base_plain s b d : plain_file s base_conf b → plain_file s site_config_file d →
  dict_wf d →
  _load_base_config false s =
    (s, Ok (Configurator._deep_merge_dict (Configurator._deep_merge_dict [] b) d)).
Proof.
  intros Hb Hd Hwf. unfold _load_base_config.
  rewrite (bind_ok _ _ _ _ _ (load_plain s base_conf b false Hb)).
  rewrite (bind_ok _ _ _ _ _ (load_plain s site_config_file d true Hd)).
  rewrite (bind_ok (whenM false _) _ s s tt eq_refl).
  case_bool_decide as Hn; [|by apply merge_plain].
  destruct d as [|[k v] d]; [done|].
  pose proof (Configurator.merge_get [] ((k, v) :: d) k Hwf) as Hg. rewrite Hn in Hg.
  simpl in Hg. by rewrite decide_True in Hg.
Qed.

(** The hosts are told one after the other, up to the first that fails. *)
Lemma reload_prefix hs s :
  let '(s', o) := for_each hs reload_host s in
  files s' = files s ∧ _base_config s' = _base_config s ∧ published s' = published s ∧
  ∃ told, told `prefix_of` hs ∧ reloaded s' = reloaded s ++ told ∧ (o = Ok tt → told = hs).
Proof.
  revert s. induction hs as [|h hs IH]; intros s; cbn [for_each].
  { split_and!; try done. exists []. by rewrite app_nil_r. }
  unfold mbind, M_bind, reload_host at 1.
  destruct (reload_outcome (reloaded s) h) as [[]|e].
  - specialize (IH (mkState (files s) (_base_config s) (registered s) (published s) (reloaded s ++ [h]))).
    destruct (for_each _ _ _) as [s' o]. destruct IH as (Hf & Hb & Hp & told & Ht & Hr & Ho).
    split_and!; try done. exists (h :: told). split_and!.
    + by apply prefix_cons.
    + rewrite Hr. cbn. by rewrite <- app_assoc.
    + intros ->. by rewrite Ho.
  - split_and!; try done. exists [h]. split_and!; [by apply prefix_cons, prefix_nil|done|done].
Qed.

(** A changed site configuration takes effect.  When the site's document is
    replaced from outside (neither document including another file), at every
    path of keys the base configuration has the new document's value where it
    sets one, and the installation's where it says nothing; it is this
    configuration that is published; and the hosts are told to reload after
    that, in order, all of them when none fails. *)
Theorem base_config_follows_site (s : state) (triggered : list nat) (b new_config : dict string val)
    (Hne : abspath base_conf ≠ abspath site_config_file)
    (Hb : plain_file s base_conf b) (Hwfb : Configurator.doc_wf (VDict b))
    (Hinc : dget "include" new_config = None) (Hwf : Configurator.doc_wf (VDict new_config))
    (Hext : Configurator.endswith (abspath site_config_file) ".json" = true) :
  let '(s', o) := _base_config_changed triggered new_config s in
  (∀ path,
    (∀ v, Configurator.lookup_path (VDict new_config) path = Some v → Configurator.is_mapping v = false →
       Configurator.lookup_path (VDict (_base_config s')) path = Some v) ∧
    (∀ v, Configurator.silent (VDict new_config) path = true →
       Configurator.lookup_path (VDict b) path = Some v → Configurator.is_mapping v = false →
       Configurator.lookup_path (VDict (_base_config s')) path = Some v)) ∧
  published s' = published s ++ [_base_config s'] ∧
  files s' !! abspath site_config_file = Some (VDict new_config) ∧
  ∃ told, told `prefix_of` triggered ∧ reloaded s' = reloaded s ++ told ∧ (o = Ok tt → told = triggered).
Proof.
  set (s1 := mkState (<[abspath site_config_file := VDict new_config]> (files s)) (_base_config s)
               (registered s) (published s) (reloaded s)).
  assert (plain_file s1 base_conf b) as Hb1.
  { destruct Hb as (Hf & Hi & He). split_and!; [|done..]. cbn. by rewrite lookup_insert_ne. }
  assert (plain_file s1 site_config_file new_config) as Hn1.
  { split_and!; [cbn; by apply lookup_insert_eq|done|by rewrite Hext]. }
  destruct (Configurator.doc_wf_dict _ Hwf) as [Hdwf _].
  pose proof (load_base_plain s1 b new_config Hb1 Hn1 Hdwf) as Hload.
  set (c := Configurator._deep_merge_dict (Configurator._deep_merge_dict [] b) new_config) in *.
  unfold _base_config_changed. rewrite (bind_ok (write_site_config new_config) _ s s1 tt eq_refl).
  rewrite (bind_ok _ _ _ _ _ Hload).
  rewrite (bind_ok (modify (set_base c)) _ s1 (set_base c s1) tt eq_refl).
  rewrite (bind_ok (_publish_runner_config c) _ (set_base c s1)
    (mkState (files s1) c (registered s) (published s ++ [c]) (reloaded s)) tt eq_refl).
  pose proof (reload_prefix triggered
    (mkState (files s1) c (registered s) (published s ++ [c]) (reloaded s))) as Hr.
  destruct (for_each _ _ _) as [s' o]. destruct Hr as (Hf & Hbc & Hp & Hr). cbn in Hf, Hbc, Hp, Hr.
  rewrite Hbc, Hp, Hf. split_and!; [|done|by apply lookup_insert_eq|done].
  intros path. destruct (Configurator.merge_paths (Configurator._deep_merge_dict [] b) new_config path Hwf)
    as [Hset Hsil]. split; [done|]. intros v Hs Hv Hm. unfold c. rewrite Hsil by done.
  by apply (proj1 (Configurator.merge_paths [] b path Hwfb)).
Qed.
End runner.

(** *** Example *)

Definition demo_state : state :=
  mkState (list_to_map
    [("config/system/base.yaml", VDict [("location", VStr "here"); ("version", VInt 1)]);
     ("local/site/site_config.json", VDict [("location", VStr "lab")])]) [] [] [] [].
Definition no_failure : list nat → nat → res unit := λ _ _, Ok tt.

Lemma base_config_follows_site_witness :
  let s' := (_base_config_changed (λ f, f) ∅ "config/system/base.yaml" "local/site" no_failure (λ _, Ok tt)
               [4; 5]%nat [("location", VStr "roof")] demo_state).1 in
  Configurator.lookup_path (VDict (_base_config s')) ["location"] = Some (VStr "roof") ∧
  Configurator.lookup_path (VDict (_base_config s')) ["version"] = Some (VInt 1).
Proof.
  pose proof (base_config_follows_site (λ f, f) ∅ "config/system/base.yaml" "local/site" no_failure (λ _, Ok tt)
    demo_state [4; 5]%nat [("location", VStr "here"); ("version", VInt 1)] [("location", VStr "roof")]) as H.
  destruct (_base_config_changed _ _ _ _ _ _ _ _ _) as [s' o]. cbn [fst].
  destruct H as (H & _).
  - vm_compute. discriminate.
  - split_and!; vm_compute; reflexivity.
  - simpl. split; [|done]. apply (bool_decide_unpack _). vm_compute. exact I.
  - reflexivity.
  - simpl. split; [|done]. apply (bool_decide_unpack _). vm_compute. exact I.
  - vm_compute. reflexivity.
  - split.
    + by apply (proj1 (H ["location"])).
    + by apply (proj2 (H ["version"])).
Defined.

End RunnerConfig.

(** ** Callbacks of other threads *)

Module CallbackQueue.
Section queue.
(** A callback [c] calls [_queue_callback] for [more c] and then returns or
    raises; the lock is reentrant, so it may do so while it is being handled. *)
Context {C : Type} (more : C → list C) (outcome : C → res unit).

(** The queue; [arrived] and [called] are the callbacks in the order they were
    queued and called. *)
Record state := mkState { _callback_queue : list C; arrived : list C; called : list C }.
Definition init : state := mkState [] [] [].

(** [_queue_callback] *)
Definition _queue_callback (c : C) : M state unit :=
  modify (λ s, mkState (_callback_queue s ++ [c]) (arrived s ++ [c]) (called s)).

Definition call (c : C) : M state unit :=
  modify (λ s, mkState (_callback_queue s) (arrived s) (called s ++ [c]));;
  for_each (more c) _queue_callback;;
  lift (outcome c).

(** [_handle_queued_events] *)
Definition _handle_queued_events : M state unit :=
  callbacks ← gets _callback_queue;
  modify (λ s, mkState [] (arrived s) (called s));;
  for_each callbacks call.

(** The threads and the main loop, in any order *)
Inductive step : state → state → Prop :=
  | step_queue s c : step s (_queue_callback c s).1
  | step_handle s : step s (_handle_queued_events s).1.

Lemma queue_all cs s :
  for_each cs _queue_callback s = (mkState (_callback_queue s ++ cs) (arrived s ++ cs) (called s), Ok tt).
Proof.
  revert s. induction cs as [|c cs IH]; intros s; cbn [for_each].
  { rewrite !app_nil_r. by destruct s. }
  rewrite (bind_ok (_queue_callback c) _ s _ tt eq_refl), IH. cbn. by rewrite <- !app_assoc.
Qed.

Lemma call_runs c s :
  call c s = (mkState (_callback_queue s ++ more c) (arrived s ++ more c) (called s ++ [c]), outcome c).
Proof.
  unfold call. rewrite (bind_ok (modify _) _ s _ tt eq_refl).
  by rewrite (bind_ok _ _ _ _ _ (queue_all (more c) _)).
Qed.

(** The callbacks are called in order, up to one that raises. *)
Lemma call_all cs s :
  ∃ done lost, cs = done ++ lost ∧
    (for_each cs call s).1 = mkState (_callback_queue s ++ mjoin (more <$> done))
      (arrived s ++ mjoin (more <$> done)) (called s ++ done) ∧
    ((∀ c, c ∈ cs → outcome c = Ok tt) → lost = []).
Proof.
  revert s. induction cs as [|c cs IH]; intros s; cbn [for_each].
  { exists [], []. cbn. rewrite !app_nil_r. destruct s. by split_and!. }
  unfold mbind at 1, M_bind at 1. rewrite call_runs. destruct (outcome c) as [[]|e] eqn:Ho.
  - destruct (IH (mkState (_callback_queue s ++ more c) (arrived s ++ more c) (called s ++ [c])))
      as (dn & lost & -> & Hs & Hall).
    exists (c :: dn), lost. split_and!; [done| |set_solver].
    rewrite Hs. cbn. by rewrite <- !app_assoc.
  - exists [c], cs. split_and!; [done| |].
    + cbn. by rewrite !app_nil_r.
    + intros H. rewrite H in Ho by left. done.
Qed.

(** Callbacks are called once and in order.  However the threads that queue
    them interleave with the main loop, and whatever the callbacks queue
    themselves: those called, followed by those waiting, are the ones that
    arrived in their order, and all of them if no callback raises. *)
Theorem callbacks_in_order (s : state) (Hreach : rtc step init s) :
  sublist (called s ++ _callback_queue s) (arrived s) ∧
  ((∀ c, outcome c = Ok tt) → called s ++ _callback_queue s = arrived s).
Proof.
  revert s Hreach. refine (rtc_ind_r _ _ _ _); [by split|].
  intros s1 s2 _ Hstep [Hsub Hall]. destruct Hstep as [s c|s]; cbn.
  - rewrite app_assoc. split; [by apply sublist_app|]. intros H. by rewrite Hall.
  - unfold _handle_queued_events. rewrite (bind_ok (gets _callback_queue) _ s s _ eq_refl).
    rewrite (bind_ok (modify _) _ s _ tt eq_refl).
    destruct (call_all (_callback_queue s) (mkState [] (arrived s) (called s))) as (dn & lost & Hq & Hs & Hnone).
    rewrite Hs. cbn. rewrite Hq in Hsub, Hall. split.
    + apply sublist_app; [|done]. etrans; [|exact Hsub].
      rewrite app_assoc. by apply sublist_inserts_r.
    + intros Hok. rewrite <- Hall, Hnone by auto. by rewrite app_nil_r.
Qed.
End queue.

Arguments state : clear implicits.

Lemma callbacks_in_order_witness :
  let s := (_handle_queued_events (λ c : nat, if bool_decide (c = 1) then [7] else [])%nat (λ _, Ok tt)
              (mkState [1; 2] [1; 2] [])).1%nat in
  (called s ++ _callback_queue s = arrived s)%nat ∧ called s = [1; 2]%nat.
Proof.
  split; [|reflexivity].
  refine (proj2 (callbacks_in_order (λ c : nat, if bool_decide (c = 1)%nat then [7]%nat else []) (λ _, Ok tt) _ _) _).
  - eapply rtc_r; [eapply rtc_r; [eapply rtc_r; [apply rtc_refl|]|]|].
    + apply (step_queue _ _ init 1%nat).
    + apply (step_queue _ _ _ 2%nat).
    + apply step_handle.
  - intros c. reflexivity.
Defined.

(** The callbacks behind one that raises are lost. *)
Example callback_lost :
  (_handle_queued_events (λ _ : nat, []) (λ c, if bool_decide (c = 1)%nat then Raise RuntimeError else Ok tt)
     (mkState [1; 2]%nat [1; 2]%nat [])).1 = mkState [] [1; 2]%nat [1]%nat.
Proof. reflexivity. Qed.

End CallbackQueue.

(** ** The switch port of a device *)

Module SwitchPort.
Local Open Scope string_scope.
Local Open Scope list_scope.
Local Open Scope Z_scope.

(** The switch models of the service's interface *)
Definition SwitchModel : dict string Z :=
  [("ALLIED_TELESIS_X230", 0); ("CISCO_9300", 1); ("OVS_SWITCH", 2)].
Definition OVS_SWITCH : Z := 2.

Record SwitchInfo := mkInfo {
  ip_addr : option string; device_port : Z; model : Z; username : option string; password : option string
}.

(** A string field of the message: [None] leaves it unset. *)
Definition string_field (v : val) : res (option string) :=
  match v with VStr s => Ok (Some s) | VNone => Ok None | _ => Raise TypeError end.

Section port.
Context (switch_setup : dict string val) (target_port : option Z).
(** [rpc_timeout_sec] of the configuration; the answers of the service *)
Context (rpc_timeout_sec : option Z) (answer : list (bool * SwitchInfo * Z) → res bool).

Definition _RPC_TIMEOUT_SEC : Z := 20.
Definition setting (key : string) : val := default VNone (dget key switch_setup).

Definition is_str (s : string) (v : val) : bool := match v with VStr x => String.eqb x s | _ => false end.

(** [_build_switch_info] *)
Definition _build_switch_info : res (option SwitchInfo) :=
  let model_str := setting "model" in
  match target_port with
  | None => Ok None
  | Some port =>
      if is_str "FAUX_SWITCH" model_str || bool_decide (port = 0) then Ok None else
      switch_model ←
        (if PyVal.truth model_str then
           match model_str with
           | VStr m => of_option ValueError (dget m SwitchModel)
           | _ => Raise ValueError
           end
         else Ok OVS_SWITCH);
      ip ← string_field (setting "ip_addr");
      user ← string_field (setting "username");
      pass ← string_field (setting "password");
      Ok (Some (mkInfo ip port switch_model user pass))
  end.

(** [connect_port]; the state is the calls that were made. *)
Definition connect_port (connect : bool) : M (list (bool * SwitchInfo * Z)) bool :=
  info ← lift _build_switch_info;
  match info with
  | None => mret false
  | Some switch_info =>
      let timeout := default _RPC_TIMEOUT_SEC rpc_timeout_sec in
      calls ← getS;
      modify (λ calls, calls ++ [(connect, switch_info, timeout)]);;
      _ ← lift (answer calls);
      mret true
  end.

(** A port is switched at most once per request, and [True] is returned
    exactly if it was.  A device without a port and the simulated switch are
    left alone; a model that is not known is refused before any call. *)
Theorem connect_port_calls (connect : bool) (calls : list (bool * SwitchInfo * Z)) :
  let '(calls', o) := connect_port connect calls in
  (o = Ok true → ∃ info, _build_switch_info = Ok (Some info) ∧
     calls' = calls ++ [(connect, info, default _RPC_TIMEOUT_SEC rpc_timeout_sec)]) ∧
  (o = Ok false → calls' = calls ∧ _build_switch_info = Ok None) ∧
  (target_port = None ∨ target_port = Some 0 ∨ setting "model" = VStr "FAUX_SWITCH" →
     (calls', o) = (calls, Ok false)) ∧
  (∀ m port, target_port = Some port → port ≠ 0 → setting "model" = VStr m → m ≠ "" → m ≠ "FAUX_SWITCH" →
     dget m SwitchModel = None → (calls', o) = (calls, Raise ValueError)).
Proof.
  assert (target_port = None ∨ target_port = Some 0 ∨ setting "model" = VStr "FAUX_SWITCH" →
    _build_switch_info = Ok None) as Hskip.
  { unfold _build_switch_info. intros [Hs | [Hs | Hs]]; rewrite Hs; [done| |by destruct target_port].
    by rewrite (bool_decide_true (0 = 0)), orb_true_r. }
  assert (∀ m port, target_port = Some port → port ≠ 0 → setting "model" = VStr m → m ≠ "" →
    m ≠ "FAUX_SWITCH" → dget m SwitchModel = None → _build_switch_info = Raise ValueError) as Hunknown.
  { intros m port Hp Hp0 Hm Hne Hf Hd. unfold _build_switch_info. rewrite Hp, Hm.
    rewrite bool_decide_false by done. cbn [is_str]. rewrite (proj2 (String.eqb_neq m "FAUX_SWITCH")) by done. cbn [orb].
    assert (PyVal.truth (VStr m) = true) as -> by (by destruct m). by rewrite Hd. }
  unfold connect_port. destruct _build_switch_info as [[info|]|e].
  - rewrite (bind_ok (lift _) _ calls calls _ eq_refl), (bind_ok getS _ calls calls calls eq_refl).
    rewrite (bind_ok (modify _) _ calls _ tt eq_refl).
    destruct (answer calls) as [b|e]; cbn; (split_and!; [| |by intros H; specialize (Hskip H)|naive_solver]);
      intros [=]; by eexists.
  - cbn. split_and!; [done|done|done|naive_solver].
  - cbn. split_and!; [done|done|by intros H; specialize (Hskip H)|naive_solver].
Qed.
End port.

Example faux_switch_left_alone :
  connect_port [("model", VStr "FAUX_SWITCH")] (Some 3) None (λ _, Ok true) true [] = ([], Ok false).
Proof. reflexivity. Qed.

End SwitchPort.
