(* ===== verification/Gcp.v ===== *)
(** * The cloud connection (src/daq/gcp.py)

    - [Timestamp]: the time stamps of the cloud documents, which hosts also use
      for their timeouts ([to_timestamp], [parse_timestamp]).
    - [GcpManager]: registered configurations with their listeners, reports,
      uploads, messages, and the permissions of users.

    Firestore, Pub/Sub and the storage bucket are not part of the repository:
    the document store is a class ([Firestore]) with laws for the documents and
    the listeners ([FirestoreLaws]); messages and uploads are recorded calls;
    queries are data, and running them is a parameter. *)

From stdpp Require Import base list gmap strings pretty sorting.
From Stdlib Require Import ZArith Lia Ascii.
From S2P Require Import Prelude PyVal PyText PyTime.

Import PyText.

(** ** Time stamps *)

Module Timestamp.
Import PyTime.
Local Open Scope string_scope.
Local Open Scope list_scope.
Local Open Scope Z_scope.

(** [strftime]; the year has no leading zeros. *)
Definition year_text (y : Z) : list ascii :=
  if 1000 <=? y then padded 4 y else String.list_ascii_of_string (pretty y).
Definition body (t : datetime) : list ascii :=
  year_text (year t) ++ ["-"%char] ++ padded 2 (month t) ++ ["-"%char] ++ padded 2 (day t)
  ++ ["T"%char] ++ padded 2 (hour t) ++ [":"%char] ++ padded 2 (minute t) ++ [":"%char]
  ++ padded 2 (second t) ++ ["."%char].
Definition strftime (t : datetime) : list ascii := body t ++ padded 6 (microsecond t).

(** [to_timestamp]: the text without its last three characters *)
Definition to_timestamp (t : datetime) : string :=
  let s := strftime t in
  String.string_of_list_ascii (take (length s - 3) s ++ ["Z"%char]).

(** [parse_timestamp]: the expression Python makes of the format *)
Definition timestamp_re : Regex.re :=
  Regex.Seq (Regex.Grp 1 year_re) (Regex.Seq (Regex.lit "-")
  (Regex.Seq (Regex.Grp 2 month_re) (Regex.Seq (Regex.lit "-")
  (Regex.Seq (Regex.Grp 3 day_re) (Regex.Seq (Regex.lit "T")
  (Regex.Seq (Regex.Grp 4 hour_re) (Regex.Seq (Regex.lit ":")
  (Regex.Seq (Regex.Grp 5 minute_re) (Regex.Seq (Regex.lit ":")
  (Regex.Seq (Regex.Grp 6 second_re) (Regex.Seq (Regex.lit ".")
  (Regex.Seq (Regex.Grp 7 (up_to 5)) (Regex.lit "Z"))))))))))))).

Definition parse_timestamp (timestamp_str : string) : res datetime :=
  let l := String.list_ascii_of_string timestamp_str in
  match Regex.go l timestamp_re l [] (λ rest g, Some (rest, g)) with
  | Some ([], g) =>
      let t := mkTime (field 1 g) (field 2 g) (field 3 g) (field 4 g) (field 5 g) (field 6 g)
                 (micro_field g) in
      if date_ok t then Ok t else Raise ValueError
  | _ => Raise ValueError
  end.

(** A time in whole milliseconds *)
Definition truncated (t : datetime) : datetime :=
  mkTime (year t) (month t) (day t) (hour t) (minute t) (second t) (1000 * (microsecond t / 1000)).

Lemma padded_split a b z : padded (a + b) z = padded a (z / 10 ^ Z.of_nat b) ++ padded b z.
Proof.
  revert z. induction b as [|b IH]; intros z.
  - rewrite Nat.add_0_r. change (10 ^ Z.of_nat 0) with 1. by rewrite Z.div_1_r, app_nil_r.
  - rewrite Nat.add_succ_r. cbn [padded]. rewrite IH, <- (assoc_L (++)). do 2 f_equal.
    rewrite Nat2Z.inj_succ, Z.pow_succ_r by lia. by rewrite Z.div_div by lia.
Qed.

(** A time stamp has three digits of the fraction. *)
Lemma to_timestamp_chars t :
  String.list_ascii_of_string (to_timestamp t) = body t ++ padded 3 (microsecond t / 1000) ++ ["Z"%char].
Proof.
  unfold to_timestamp. rewrite String.list_ascii_of_string_of_list_ascii. unfold strftime.
  rewrite (padded_split 3 3). change (10 ^ Z.of_nat 3) with 1000. rewrite !(assoc_L (++)).
  rewrite length_app, length_padded.
  replace (length (body t ++ padded 3 (microsecond t / 1000)) + 3 - 3)%nat
    with (length (body t ++ padded 3 (microsecond t / 1000))) by lia.
  by rewrite take_app_length.
Qed.

Definition groups (t : datetime) : dict nat string :=
  [(1%nat, String.string_of_list_ascii (padded 4 (year t)));
   (2%nat, String.string_of_list_ascii (padded 2 (month t)));
   (3%nat, String.string_of_list_ascii (padded 2 (day t)));
   (4%nat, String.string_of_list_ascii (padded 2 (hour t)));
   (5%nat, String.string_of_list_ascii (padded 2 (minute t)));
   (6%nat, String.string_of_list_ascii (padded 2 (second t)));
   (7%nat, String.string_of_list_ascii (padded 3 (microsecond t / 1000)))].

(** The digits of a fraction before the closing letter *)
Lemma up_to_short {X} full n : ∀ l rest g (k : list ascii → dict nat string → option X) x,
  (length l ≤ S n)%nat → l ≠ [] → all_digits l → (∀ c r, rest = c :: r → is_digit c = false) →
  k rest g = Some x → Regex.go full (up_to n) (l ++ rest) g k = Some x.
Proof.
  induction n as [|n IH]; intros [|c l] rest g k x Hl Hne Hd Hrest Hk; simplify_eq/=;
    inversion Hd as [|?? Hc Hd']; subst; rewrite Hc.
  - destruct l; [done|simpl in Hl; lia].
  - destruct l as [|c' l].
    + simpl. destruct rest as [|r rest]; [by destruct n|].
      assert (Regex.go full (up_to n) (r :: rest) g k = None) as ->; [|done].
      destruct n; simpl; by rewrite (Hrest r rest).
    + by rewrite (IH (c' :: l) rest g k x); [|simpl in *; lia|done..].
Qed.

Lemma timestamp_matches t full : date_ok t = true → 1000 ≤ year t →
  Regex.go full timestamp_re (body t ++ padded 3 (microsecond t / 1000) ++ ["Z"%char]) []
    (λ rest g, Some (rest, g)) = Some ([], groups t).
Proof.
  intros Ht Hy. destruct (date_ok_spec t Ht) as (?&?&?&?&?&?&?).
  unfold timestamp_re, body, year_text. destruct (Z.leb_spec 1000 (year t)); [|lia].
  rewrite <- !(assoc_L (++)). apply year_then, char_then.
  eapply two_then; [exact month_takes|done|]. apply char_then.
  eapply two_then; [exact day_takes|done|]. apply char_then.
  eapply two_then; [exact hour_takes|done|]. apply char_then.
  eapply two_then; [exact minute_takes|done|]. apply char_then.
  eapply two_then; [exact second_takes|done|]. apply char_then.
  cbn [Regex.go]. apply up_to_short.
  - rewrite length_padded. lia.
  - intros Hn. apply (f_equal length) in Hn. by rewrite length_padded in Hn.
  - apply padded_digits.
  - by intros c r [= <- _].
  - rewrite Regex.taken_app. reflexivity.
Qed.

Lemma micro_three g z :
  dget 7%nat g = Some (String.string_of_list_ascii (padded 3 z)) → 0 ≤ z < 1000 →
  micro_field g = 1000 * z.
Proof.
  intros Hg Hz. unfold micro_field, Regex.group. rewrite Hg.
  cbn [fmap option_fmap option_map default]. unfold default, id.
  rewrite String.list_ascii_of_string_of_list_ascii, length_padded.
  assert (int_of (padded 3 z) = z) as Hi by (apply int_of_padded; done).
  unfold int_of in *. rewrite filter_app, foldl_app.
  change (filter (λ c, c ≠ " "%char) (replicate (6 - 3) "0"%char)) with ["0"%char; "0"%char; "0"%char].
  cbn [foldl]. change (Z.of_nat (code "0"%char) - 48) with 0. rewrite Hi. lia.
Qed.

(** A time stamp is parsed back, to the millisecond. *)
Lemma parse_to_timestamp t :
  date_ok t = true → 1000 ≤ year t → parse_timestamp (to_timestamp t) = Ok (truncated t).
Proof.
  intros Ht Hy. destruct (date_ok_spec t Ht) as (?&?&?&?&?&?&?).
  unfold parse_timestamp. rewrite to_timestamp_chars, timestamp_matches by done.
  assert (0 ≤ microsecond t / 1000 < 1000) by zlia.
  rewrite (field_eq 1 _ 4 (year t)), (field_eq 2 _ 2 (month t)),
    (field_eq 3 _ 2 (day t)), (field_eq 4 _ 2 (hour t)), (field_eq 5 _ 2 (minute t)),
    (field_eq 6 _ 2 (second t)) by (done || simpl; lia).
  rewrite (micro_three _ (microsecond t / 1000)) by done.
  assert (date_ok (truncated t) = true) as Hd; [|unfold truncated in *; by rewrite Hd].
  revert Ht. unfold date_ok, truncated. simpl. rewrite !andb_true_iff, !Z.leb_le, !Z.ltb_lt.
  intros Hall. destruct_and!. split_and!; try done; zlia.
Qed.

Lemma compare_timestamps s t :
  date_ok s = true → date_ok t = true → 1000 ≤ year s → 1000 ≤ year t →
  String.compare (to_timestamp s) (to_timestamp t) = time_compare (truncated s) (truncated t).
Proof.
  intros Hs Ht Hys Hyt. destruct (date_ok_spec s Hs) as (?&?&?&?&?&?&?), (date_ok_spec t Ht) as (?&?&?&?&?&?&?).
  rewrite <- (String.string_of_list_ascii_of_string (to_timestamp s)),
    <- (String.string_of_list_ascii_of_string (to_timestamp t)), !to_timestamp_chars.
  unfold body, year_text. destruct (Z.leb_spec 1000 (year s)), (Z.leb_spec 1000 (year t)); try lia.
  rewrite <- !(assoc_L (++)).
  repeat rewrite compare_app by (by rewrite ?length_padded).
  rewrite !compare_padded by (simpl; zlia). unfold time_compare, truncated. simpl.
  rewrite <- (Zmult_compare_compat_l (microsecond s / 1000) (microsecond t / 1000) 1000) by lia.
  by repeat match goal with |- context [then_compare (?a ?= ?b) _] => destruct (a ?= b) end.
Qed.

(** Time stamps say the time, to the millisecond.  The time stamp of a date
    (from the year 1000 on) is parsed back to the time without its microseconds,
    so that a host's timeout counts from the start it wrote; and comparing the
    texts of two time stamps, as the cloud's queries do, compares these times. *)
Theorem timestamps_faithful (s t : datetime)
    (Hs : date_ok s = true ∧ 1000 ≤ year s) (Ht : date_ok t = true ∧ 1000 ≤ year t) :
  parse_timestamp (to_timestamp s) = Ok (truncated s) ∧
  String.compare (to_timestamp s) (to_timestamp t) = time_compare (truncated s) (truncated t).
Proof.
  destruct Hs, Ht. split; [by apply parse_to_timestamp|by apply compare_timestamps].
Qed.

Lemma timestamps_faithful_witness :
  parse_timestamp (to_timestamp (mkTime 2020 5 29 9 23 33 123456)) = Ok (mkTime 2020 5 29 9 23 33 123000) ∧
  String.compare "2020-05-29T09:23:33.123Z" "2020-05-29T09:23:34.000Z" = Lt.
Proof.
  destruct (timestamps_faithful (mkTime 2020 5 29 9 23 33 123456) (mkTime 2020 5 29 9 23 34 0)) as [H1 H2].
  - split; [reflexivity|simpl; lia].
  - split; [reflexivity|simpl; lia].
  - split; [exact H1|exact H2].
Defined.

End Timestamp.

(** ** The document store *)

Module Firestore.

(** A configuration document *)
Record config_doc := mkDoc { config : val; saved : string; timestamp : string }.

(** The store with its listeners, known by their numbers *)
Class Firestore (W : Type) := {
  docs : W → gmap string config_doc;
  listeners : W → gset nat;
  set_doc : string → config_doc → M W unit;
  delete_doc : string → M W unit;
  update_saved : string → string → M W unit;
  on_snapshot : string → M W nat;
  unsubscribe : nat → M W unit
}.

(** What the calls do when they return; calls that raise do nothing. *)
Class FirestoreLaws (W : Type) `{Firestore W} := {
  set_doc_ok p d w w' : set_doc p d w = (w', Ok tt) →
    docs w' = <[p := d]> (docs w) ∧ listeners w' = listeners w;
  delete_doc_ok p w w' : delete_doc p w = (w', Ok tt) →
    docs w' = delete p (docs w) ∧ listeners w' = listeners w;
  update_saved_ok p t w w' : update_saved p t w = (w', Ok tt) →
    docs w' = alter (λ d, mkDoc (config d) t (timestamp d)) p (docs w) ∧ listeners w' = listeners w;
  on_snapshot_ok p w w' f : on_snapshot p w = (w', Ok f) →
    (f ∉ listeners w) ∧ listeners w' = {[f]} ∪ listeners w ∧ docs w' = docs w;
  unsubscribe_ok f w w' : unsubscribe f w = (w', Ok tt) →
    listeners w' = listeners w ∖ {[f]} ∧ docs w' = docs w;
  calls_fail_same : ∀ w w' e,
    (∀ p d, set_doc p d w = (w', Raise e) → w' = w) ∧
    (∀ p, delete_doc p w = (w', Raise e) → w' = w) ∧
    (∀ p t, update_saved p t w = (w', Raise e) → w' = w) ∧
    (∀ p, on_snapshot p w = (w', Raise e) → w' = w) ∧
    (∀ f, unsubscribe f w = (w', Raise e) → w' = w)
}.
End Firestore.

(** ** The manager *)

Module GcpManager.
Import PyVal Timestamp.
Import PyTime(datetime).
Import Firestore(Firestore, FirestoreLaws, config_doc, mkDoc).
Local Open Scope string_scope.
Local Open Scope list_scope.
Local Open Scope Z_scope.

Definition DEFAULT_LIMIT : Z := 100.
Definition REPORT_BUCKET_FORMAT (project : string) : string := project +:+ ".appspot.com".

(** [os.path.join] below a directory name *)
Definition join (a b : string) : string :=
  if String.prefix "/" b then b else a +:+ "/" +:+ b.

(** [_parse_creds]: the project has to be the one of the credentials, and the
    client is the part of the address before its only at sign. *)
Definition _parse_creds (project : string) (cred : val) : res string :=
  p ← getitem cred "project_id";
  guard_res (py_eq p (VStr project)) AssertionError;;
  email ← getitem cred "client_email";
  match email with
  | VStr e =>
      match split_on "@" (String.list_ascii_of_string e) with
      | [client; _] => Ok client
      | _ => Raise ValueError
      end
  | _ => Raise AttributeError
  end.

(** [_get_site_name]; the site's cloud configuration, if the file exists *)
Definition _get_site_name (cfg : val) (client : string) (cloud_config : option val) : res val :=
  getitem cfg "site_path";;
  match cloud_config with
  | None => Ok (VStr client)
  | Some c => getitem c "site_name"
  end.

(** What the constructor keeps: nothing without credentials *)
Record account := mkAccount { _project : string; _client_name : string; _site_name : val }.

(** [__init__] with the outcome of loading the credentials (the project and the
    document), up to the connections *)
Definition init (cfg : val) (load_credentials : val → res (string * val)) (cloud_config : option val) :
    res (option account) :=
  cred_file ← get cfg "gcp_cred" VNone;
  if negb (truth cred_file) then Ok None else
  '(project, cred) ← load_credentials cred_file;
  client ← _parse_creds project cred;
  site ← _get_site_name cfg client cloud_config;
  Ok (Some (mkAccount project client site)).

(** [get_logging_client] *)
Definition get_logging_client (a : option account) : option string :=
  a ≫= λ a, if bool_decide (_client_name a = "") then None else Some (_client_name a).

(** *** Configurations *)

Record listener := mkListener {
  future : nat;
  doc_path : string;
  callback : nat;
  immediate : bool
}.

(** A message that was published *)
Record message := mkMessage { m_topic : string; m_type : string; m_time : string; m_payload : val }.

Section manager.
Context {W : Type} {HF : Firestore W}.

Record manager := mkManager {
  store : W;
  _config_callbacks : dict string listener;
  delivered : list (nat * val);
  messages : list message;
  uploads : list (string * string)
}.
Definition set_store v s := mkManager v (_config_callbacks s) (delivered s) (messages s) (uploads s).
Definition set_callbacks v s := mkManager (store s) v (delivered s) (messages s) (uploads s).
Definition set_delivered v s := mkManager (store s) (_config_callbacks s) v (messages s) (uploads s).
Definition set_messages v s := mkManager (store s) (_config_callbacks s) (delivered s) v (uploads s).
Definition set_uploads v s := mkManager (store s) (_config_callbacks s) (delivered s) (messages s) v.

Abbreviation GM := (M manager) (only parsing).
Definition on_store {A} (m : M W A) : GM A := λ s,
  let '(w, r) := m (store s) in (set_store w s, r).

(** The outcome of a callback and of sending, which may depend on what was
    delivered or sent before *)
Context (run_callback : list (nat * val) → nat → val → res unit).
Context (publish : list message → message → res unit).
Context (upload : list (string * string) → string → res unit).

Definition full_path (client path : string) : string :=
  "origin/" +:+ client +:+ "/" +:+ path +:+ "/config/definition".

(** The handler [_on_snapshot] gives to the runner: the documents of a snapshot
    with their paths *)
Definition call (cb : nat) (c : val) : GM unit :=
  s ← getS;
  modify (set_delivered (delivered s ++ [(cb, c)]));;
  lift (run_callback (delivered s) cb c).
Definition _on_snapshot (cb : nat) (imm : bool) (doc_snapshot : list (string * config_doc)) : GM unit :=
  for_each doc_snapshot (λ '(path, doc),
    whenM (imm || negb (bool_decide (Firestore.saved doc = Firestore.timestamp doc)))
      (call cb (Firestore.config doc);;
       on_store (Firestore.update_saved path (Firestore.timestamp doc)))).

(** [_register_callback]; patching the callbacks of the listener's stream
    ([_apply_callback_hack]) makes its errors come to [_hack_recv]. *)
Definition _register_callback (path : string) (cb : nat) (imm : bool) : GM unit :=
  f ← on_store (Firestore.on_snapshot path);
  modify (λ s, set_callbacks (dset path (mkListener f path cb imm) (_config_callbacks s)) s).

(** [register_config] and [release_config] *)
Definition unsubscribe_old (p : string) : GM unit :=
  s ← getS;
  match dget p (_config_callbacks s) with
  | None => mret tt
  | Some l =>
      on_store (Firestore.unsubscribe (future l));;
      modify (λ s, set_callbacks (ddel p (_config_callbacks s)) s)
  end.
Definition register_config (a : option account) (now : datetime) (path : string) (config : option val)
    (cb : option nat) (imm : bool) : GM unit :=
  match a with
  | None => mret tt
  | Some a =>
      assertM (negb (bool_decide (path = "")));;
      let p := full_path (_client_name a) path in
      unsubscribe_old p;;
      (match config with
       | Some c => let t := to_timestamp now in on_store (Firestore.set_doc p (mkDoc c t t))
       | None => on_store (Firestore.delete_doc p)
       end);;
      match cb with
      | None => mret tt
      | Some cb => assertM (bool_decide (is_Some config));; _register_callback p cb imm
      end
  end.
Definition release_config (a : option account) (now : datetime) (path : string) : GM unit :=
  register_config a now path None None false.

(** [_restart_callback] *)
Definition _restart_callback (path : string) : GM unit :=
  s ← getS;
  l ← lift (of_option KeyError (dget path (_config_callbacks s)));
  _register_callback path (callback l) (immediate l).

(** [_hack_recv] of a stream whose receiving returned or raised, perhaps with an
    internal error of the server *)
Definition _hack_recv {A} (recv : res A) (internal : bool) (path : string) : GM A :=
  match recv with
  | Ok x => mret x
  | Raise e => whenM internal (_restart_callback path);; raise e
  end.

(** [_wrap_callback]: every callback runs, errors are logged. *)
Definition _wrap_callback {S} (callbacks : list (M S unit)) : M S unit :=
  for_each callbacks (λ c, try_except c (λ _, mret tt)).

(** *** Messages and files *)

Definition publish_message (a : option account) (now : datetime) (topic message_type : string)
    (payload : val) : GM unit :=
  match a with
  | None => mret tt
  | Some _ =>
      s ← getS;
      let m := mkMessage topic message_type (to_timestamp now) payload in
      lift (publish (messages s) m);;
      modify (set_messages (messages s ++ [m]))
  end.

Definition upload_file (a : option account) (file_name : string) (destination : option string) :
    GM (option string) :=
  match a with
  | None => mret None
  | Some a =>
      let client := if bool_decide (_client_name a = "") then "other" else _client_name a in
      let dest := match destination with
                  | Some d => if bool_decide (d = "") then file_name else d
                  | None => file_name
                  end in
      let path := join "origin" (join client dest) in
      s ← getS;
      lift (upload (uploads s) file_name);;
      modify (set_uploads (uploads s ++ [(file_name, path)]));;
      mret (Some path)
  end.

End manager.

(** *** Permissions *)

(** [_query_user] *)
Definition _query_user (reply : string) : bool :=
  bool_decide (reply ∈ ["y"; "Y"; "yes"; "YES"; "Yes"; "sure"]).

(** [register_offenders]: the users with their permission documents; the answer
    to the question about a user's address *)
Definition register_offender (input : string → string) (permissions : gmap string bool)
    (user : string * string) : gmap string bool :=
  let '(id, email) := user in
  if default false (permissions !! id) then permissions
  else if _query_user (input ("Enable access for " +:+ email +:+ "? (N/y) ")) then <[id := true]> permissions
  else permissions.
Definition register_offenders (a : option account) (input : string → string)
    (users : list (string * string)) (permissions : gmap string bool) : gmap string bool :=
  match a with
  | None => permissions
  | Some _ => foldl (register_offender input) permissions users
  end.

(** *** Reports *)

(** The fields of a run that queries use, and its report: the path of the report
    in the document of the last test, and the documents in the bucket *)
Record run := mkRun {
  deviceId : string;
  updated : string;
  daq_run_id : string;
  report_path : option string
}.

Inductive field := DeviceId | Updated | DaqRunId.
Inductive comparison_op := IsEq | IsGe | IsLe.
Record query := mkQuery {
  wheres : list (field * comparison_op * string);
  order_by : field;
  descending : bool;
  limit : Z
}.

(** The query of [get_reports] *)
Definition reports_query (device : string) (start end_ : option datetime) (count : option Z)
    (run_id : option string) : query :=
  let limit_count := match count with Some n => if n =? 0 then DEFAULT_LIMIT else n | None => DEFAULT_LIMIT end in
  mkQuery
    ([(DeviceId, IsEq, device)]
     ++ (match start with Some t => [(Updated, IsGe, to_timestamp t)] | None => [] end)
     ++ (match end_ with Some t => [(Updated, IsLe, to_timestamp t)] | None => [] end)
     ++ (match run_id with
         | Some r => if bool_decide (r = "") then [] else [(DaqRunId, IsEq, r)]
         | None => [] end))
    Updated true limit_count.

Section reports.
Context (run_query : query → list run) (download : string → res val).

(** [_get_json_report] *)
Definition _get_json_report (r : run) : res (option val) :=
  match report_path r with
  | None => Ok None
  | Some blob => if bool_decide (blob = "") then Ok None else v ← download blob; Ok (Some v)
  end.

(** [get_reports]: the reports it yields before it ends or raises *)
Fixpoint yield_reports (runids : list run) : list val * res unit :=
  match runids with
  | [] => ([], Ok tt)
  | r :: rest =>
      match _get_json_report r with
      | Raise e => ([], Raise e)
      | Ok o =>
          let '(l, out) := yield_reports rest in
          (match o with Some v => if truth v then v :: l else l | None => l end, out)
      end
  end.
Definition get_reports (a : option account) (device : string) (start end_ : option datetime)
    (count : option Z) (run_id : option string) : list val * res unit :=
  match a with
  | None => ([], Ok tt)
  | Some _ => yield_reports (run_query (reports_query device start end_ count run_id))
  end.
End reports.

End GcpManager.
