(* ===== verification/GcpSpec.v ===== *)
(** * Properties of the cloud connection (src/daq/gcp.py)

    - the listeners that are active are those of the table, so that releasing a
      configuration ends its listener ([listeners_tracked]);
    - a change of a configuration is delivered once ([change_delivered_once]);
    - the reports of a query are the newest runs of the device in the time
      window ([cloud_reports_window]). *)

From stdpp Require Import base list gmap strings pretty sorting relations.
From Stdlib Require Import ZArith Lia Ascii.
From S2P Require Import Prelude PyVal PyText PyTime Gcp.

Module GcpSpec.
Import PyVal Timestamp GcpManager.
Import PyTime(datetime, time_compare, date_ok, year).
Import Firestore(Firestore, FirestoreLaws, config_doc, mkDoc, listeners, docs).
Local Open Scope string_scope.
Local Open Scope list_scope.
Local Open Scope Z_scope.

Section manager.
Context {W : Type} {HF : Firestore W} {HL : FirestoreLaws W}.
Context (run_callback : list (nat * val) → nat → val → res unit).
Implicit Types (s : @manager W).

(** ** Listeners *)

Definition futures s : list nat := future <$> dvals (_config_callbacks s).

Record tracked (base : gset nat) s : Prop := {
  t_wf : dict_wf (_config_callbacks s);
  t_nodup : NoDup (futures s);
  t_base : ∀ f, f ∈ futures s → f ∉ base;
  t_all : listeners (store s) = base ∪ list_to_set (futures s)
}.

(** Calls on the store other than [on_snapshot] and [unsubscribe] *)
Definition same_listeners s s' : Prop :=
  _config_callbacks s' = _config_callbacks s ∧ listeners (store s') = listeners (store s).
#[local] Instance same_listeners_preorder : PreOrder same_listeners.
Proof. split; [by intros s|]. intros s1 s2 s3 [] []. split; congruence. Qed.

Lemma tracked_same base s s' : same_listeners s s' → tracked base s → tracked base s'.
Proof. intros [H1 H2] [? ? ? ?]. split; unfold futures in *; rewrite ?H1, ?H2; done. Qed.

Lemma set_doc_same p d : preserves same_listeners (on_store (Firestore.set_doc p d)).
Proof.
  intros s. unfold on_store. destruct (Firestore.set_doc p d (store s)) as [w [[]|e]] eqn:E; simpl.
  - apply Firestore.set_doc_ok in E as [_ E]. by split.
  - apply (Firestore.calls_fail_same (store s) w e) in E as ->. by split.
Qed.
Lemma delete_doc_same p : preserves same_listeners (on_store (Firestore.delete_doc p)).
Proof.
  intros s. unfold on_store. destruct (Firestore.delete_doc p (store s)) as [w [[]|e]] eqn:E; simpl.
  - apply Firestore.delete_doc_ok in E as [_ E]. by split.
  - apply (Firestore.calls_fail_same (store s) w e) in E as ->. by split.
Qed.
Lemma update_saved_same p t : preserves same_listeners (on_store (Firestore.update_saved p t)).
Proof.
  intros s. unfold on_store. destruct (Firestore.update_saved p t (store s)) as [w [[]|e]] eqn:E; simpl.
  - apply Firestore.update_saved_ok in E as [_ E]. by split.
  - apply (Firestore.calls_fail_same (store s) w e) in E as ->. by split.
Qed.

Lemma on_snapshot_same cb imm l : preserves same_listeners (GcpManager._on_snapshot run_callback cb imm l).
Proof.
  unfold GcpManager._on_snapshot, call. frame.
  apply preserves_when; [apply _|]. frame; [by intros ?|apply update_saved_same].
Qed.

(** ** The keys and futures of the table *)

Lemma futures_delete (d : dict string listener) p l : dict_wf d → dget p d = Some l →
  future <$> dvals d ≡ₚ future l :: (future <$> dvals (ddel p d)).
Proof.
  induction d as [|[k v] d IH]; [done|]. intros Hwf. simpl. inversion Hwf; subst.
  destruct (decide (p = k)) as [->|Hne].
  - intros [= ->]. done.
  - intros Hg. simpl. rewrite IH by done. apply Permutation_swap.
Qed.

Lemma unsubscribe_old_tracked base p s s' r :
  tracked base s → unsubscribe_old p s = (s', r) →
  tracked base s' ∧ (r = Ok tt → dget p (_config_callbacks s') = None ∧
    ∀ l, dget p (_config_callbacks s) = Some l → future l ∉ listeners (store s')).
Proof.
  intros [Hwf Hnd Hb Hall]. unfold unsubscribe_old. rewrite (bind_ok getS _ _ _ _ eq_refl).
  destruct (dget p (_config_callbacks s)) as [l|] eqn:Hg; [|intros [= <- <-]; by split].
  unfold mbind, M_bind, on_store. destruct (Firestore.unsubscribe (future l) (store s)) as [w [[]|e]] eqn:E.
  - apply Firestore.unsubscribe_ok in E as [E _]. intros [= <- <-].
    pose proof (futures_delete _ _ _ Hwf Hg) as Hperm. unfold futures in *.
    rewrite Hperm in Hnd. inversion Hnd as [|?? Hni Hnd']; subst.
    assert (future l ∉ base) as Hlb by (apply Hb; rewrite Hperm; set_solver).
    split; [split; simpl; unfold futures; simpl|].
    + by apply dict_wf_ddel.
    + done.
    + intros f Hf. apply Hb. rewrite Hperm. set_solver.
    + rewrite E, Hall, Hperm. simpl. set_solver.
    + intros _. split; [by apply dget_ddel_eq|]. intros l' [= <-]. simpl. rewrite E. set_solver.
  - apply (Firestore.calls_fail_same (store s) w e) in E as ->. intros [= <- <-]. split; [|done].
    by split.
Qed.

Lemma register_callback_tracked base p cb imm s :
  tracked base s → dget p (_config_callbacks s) = None →
  tracked base (fst (_register_callback p cb imm s)).
Proof.
  intros [Hwf Hnd Hb Hall] Hn. unfold _register_callback, mbind, M_bind, on_store.
  destruct (Firestore.on_snapshot p (store s)) as [w [f|e]] eqn:E; simpl.
  - apply Firestore.on_snapshot_ok in E as (Hf & E & _). rewrite Hall in Hf, E.
    unfold futures in *. rewrite dkeys_dset_new by done.
    assert (future <$> dvals (_config_callbacks s ++ [(p, mkListener f p cb imm)])
      = (future <$> dvals (_config_callbacks s)) ++ [f]) as Hd by (unfold dvals; by rewrite !fmap_app).
    split; simpl; unfold futures; simpl; rewrite ?Hd.
    + unfold dict_wf, dkeys in *. rewrite fmap_app. apply NoDup_app. split_and!; [done| |apply NoDup_singleton].
      intros x Hx ->%list_elem_of_singleton. by apply dget_None in Hn.
    + apply NoDup_app. split_and!; [done| |apply NoDup_singleton].
      intros x Hx ->%list_elem_of_singleton. set_solver.
    + intros x [Hx| ->%list_elem_of_singleton]%elem_of_app; [by apply Hb|set_solver].
    + rewrite E, list_to_set_app_L. simpl. set_solver.
  - apply (Firestore.calls_fail_same (store s) w e) in E as ->. by split.
Qed.

Lemma register_config_tracked base a now path config cb imm s s' r :
  tracked base s → register_config a now path config cb imm s = (s', r) → tracked base s'.
Proof.
  intros Ht. unfold register_config. destruct a as [a|]; [|by intros [= <- <-]].
  unfold mbind at 1, M_bind at 1, assertM. destruct (negb _); [|by intros [= <- <-]].
  set (p := full_path _ _). unfold mbind at 1, M_bind at 1.
  destruct (unsubscribe_old p s) as [s1 [[]|e]] eqn:E1;
    apply (unsubscribe_old_tracked base) in E1 as [Ht1 Hold]; [|done| |done]; [|by intros [= <- <-]].
  destruct (Hold eq_refl) as [Hnone _]. unfold mbind at 1, M_bind at 1.
  set (m := match config with Some c => _ | None => _ end).
  assert (same_listeners s1 (fst (m s1))) as Hs.
  { unfold m. destruct config; [apply set_doc_same|apply delete_doc_same]. }
  destruct (m s1) as [s2 [[]|e]]; simpl in Hs; pose proof (tracked_same _ _ _ Hs Ht1) as Ht2;
    [|by intros [= <- <-]].
  destruct cb as [cb|]; [|by intros [= <- <-]].
  unfold mbind at 1, M_bind at 1, assertM. destruct (bool_decide _); [|by intros [= <- <-]].
  intros H. apply (f_equal fst) in H. simpl in H. rewrite <- H.
  apply register_callback_tracked; [done|]. by destruct Hs as [-> _].
Qed.

(** A history of the manager: configurations are registered and released,
    snapshots are handled, and documents are changed from outside. *)
Inductive gcp_step : relation (@manager W) :=
  | step_register a now path config cb imm s :
      gcp_step s (fst (register_config a now path config cb imm s))
  | step_snapshot cb imm l s : gcp_step s (fst (GcpManager._on_snapshot run_callback cb imm l s))
  | step_outside s w : listeners w = listeners (store s) → gcp_step s (set_store w s).

Lemma history_tracked base s s' : tracked base s → rtc gcp_step s s' → tracked base s'.
Proof.
  intros Ht Hrun. revert Ht. induction Hrun as [|s1 s2 s3 Hs _ IH]; [done|]. intros Ht. apply IH.
  destruct Hs as [a now path config cb imm s|cb imm l s|s w Hw].
  - destruct (register_config a now path config cb imm s) as [s' r] eqn:E.
    by eapply register_config_tracked.
  - eapply tracked_same; [apply on_snapshot_same|done].
  - apply (tracked_same base s); [|done]. by split.
Qed.

(** Listeners are released.  Starting without registered configurations,
    after any history (whatever calls raise, and whatever changes documents
    outside), the active listeners are those that were there before and one for
    each entry of the table; and releasing a configuration, if it returns,
    leaves no entry and no listener of that configuration. *)
Theorem listeners_tracked (s0 s s' : manager) (a : account) (now : datetime) (path : string)
    (Hstart : _config_callbacks s0 = []) (Hrun : rtc gcp_step s0 s)
    (Hrel : release_config (Some a) now path s = (s', Ok tt)) :
  listeners (store s) = listeners (store s0) ∪ list_to_set (futures s) ∧ NoDup (futures s) ∧
  dget (full_path (_client_name a) path) (_config_callbacks s') = None ∧
  ∀ l, dget (full_path (_client_name a) path) (_config_callbacks s) = Some l →
    future l ∉ listeners (store s').
Proof.
  assert (tracked (listeners (store s0)) s0) as Ht0.
  { split; unfold futures; rewrite Hstart; simpl; [apply NoDup_nil_2|apply NoDup_nil_2|set_solver|set_solver]. }
  pose proof (history_tracked _ _ _ Ht0 Hrun) as Ht. split; [apply Ht|]. split; [apply Ht|].
  unfold release_config, register_config in Hrel. apply bind_ok_inv in Hrel as (s1 & [] & E1 & H1).
  unfold assertM in E1. destruct (negb _); [|done]. injection E1 as <-.
  apply bind_ok_inv in H1 as (s2 & [] & E2 & H2).
  apply (unsubscribe_old_tracked _ _ _ _ _ Ht) in E2 as [_ Hold]. destruct (Hold eq_refl) as [Hn Hl].
  apply bind_ok_inv in H2 as (s3 & [] & E3 & H3). injection H3 as <-.
  destruct (delete_doc_same (full_path (_client_name a) path) s2) as [Hc Hls]. rewrite E3 in Hc, Hls.
  simpl in *. rewrite Hc, Hls. done.
Qed.

(** ** Changes of a configuration *)

(** Handling a snapshot of one document *)
Lemma snapshot_known cb p d s : Firestore.saved d = Firestore.timestamp d →
  GcpManager._on_snapshot run_callback cb false [(p, d)] s = (s, Ok tt).
Proof.
  intros Hd. unfold GcpManager._on_snapshot. simpl. by rewrite bool_decide_true.
Qed.

Lemma snapshot_changed cb p d s w :
  Firestore.saved d ≠ Firestore.timestamp d →
  run_callback (delivered s) cb (Firestore.config d) = Ok tt →
  Firestore.update_saved p (Firestore.timestamp d) (store s) = (w, Ok tt) →
  GcpManager._on_snapshot run_callback cb false [(p, d)] s
  = (set_store w (set_delivered (delivered s ++ [(cb, Firestore.config d)]) s), Ok tt).
Proof.
  intros Hd Hcb Hup. unfold GcpManager._on_snapshot, call. simpl. rewrite bool_decide_false by done. simpl.
  unfold mbind, M_bind, getS, modify, lift. simpl. rewrite Hcb. unfold on_store. simpl. by rewrite Hup.
Qed.

(** Snapshots of a document as it is in the store, one after the other *)
Fixpoint snapshots (k : nat) (cb : nat) (p : string) : M (@manager W) unit :=
  match k with
  | O => mret tt
  | S k' =>
      s ← getS;
      (match docs (store s) !! p with
       | Some d => GcpManager._on_snapshot run_callback cb false [(p, d)]
       | None => mret tt
       end);;
      snapshots k' cb p
  end.

Lemma snapshots_known k cb p s d :
  docs (store s) !! p = Some d → Firestore.saved d = Firestore.timestamp d →
  snapshots k cb p s = (s, Ok tt).
Proof.
  intros Hd Hs. induction k as [|k IH]; [done|]. simpl. rewrite (bind_ok getS _ _ _ _ eq_refl), Hd.
  by rewrite (bind_ok _ _ _ _ _ (snapshot_known cb p d s Hs)).
Qed.

End manager.

(** ** Reports *)

Section reports.
Context (run_query : query → list run) (download : string → res val) (runs : list run).

Definition value (f : field) (r : run) : string :=
  match f with DeviceId => deviceId r | Updated => updated r | DaqRunId => daq_run_id r end.
Definition holds (c : field * comparison_op * string) (r : run) : Prop :=
  let '(f, op, x) := c in
  match op with
  | IsEq => value f r = x
  | IsGe => String.compare (value f r) x ≠ Lt
  | IsLe => String.compare (value f r) x ≠ Gt
  end.
#[global] Instance holds_dec c r : Decision (holds c r).
Proof. destruct c as [[f []] x]; simpl; solve_decision. Defined.

(** What a query returns: the documents that satisfy its conditions, in its
    order, up to its limit *)
Definition query_laws : Prop := ∀ q, order_by q = Updated → descending q = true →
  ∃ l, l ≡ₚ filter (λ r, Forall (λ c, holds c r) (wheres q)) runs ∧
    StronglySorted (λ r r', String.compare (updated r) (updated r') ≠ Lt) l ∧
    run_query q = take (Z.to_nat (limit q)) l.

(** The time of a run, and the runs of the device in the window *)
Context (u : run → datetime).
Definition proper (t : datetime) : Prop := date_ok t = true ∧ 1000 ≤ year t.
Definition time_le (s t : datetime) : Prop := time_compare (truncated s) (truncated t) ≠ Gt.
Definition wanted (device : string) (start end_ : option datetime) (run_id : option string) (r : run) : Prop :=
  deviceId r = device ∧ (∀ t, start = Some t → time_le t (u r)) ∧ (∀ t, end_ = Some t → time_le (u r) t) ∧
  (∀ i, run_id = Some i → i ≠ "" → daq_run_id r = i).

Lemma compare_flip x y : String.compare x y ≠ Lt ↔ String.compare y x ≠ Gt.
Proof. rewrite (String.compare_antisym x y). by destruct (String.compare y x). Qed.

Lemma holds_wanted device start end_ count run_id r :
  updated r = to_timestamp (u r) → proper (u r) →
  (∀ t, start = Some t ∨ end_ = Some t → proper t) →
  Forall (λ c, holds c r) (wheres (reports_query device start end_ count run_id))
  ↔ wanted device start end_ run_id r.
Proof using u.
  clear -u.
  intros Hu [Hd Hy] Hw. unfold reports_query, wanted, time_le. simpl.
  rewrite Forall_cons, !Forall_app. unfold holds at 1. simpl.
  assert (∀ t, proper t → String.compare (updated r) (to_timestamp t) ≠ Lt ↔
    time_compare (truncated t) (truncated (u r)) ≠ Gt) as Hge.
  { intros t []. rewrite compare_flip, Hu. by rewrite compare_timestamps. }
  assert (∀ t, proper t → String.compare (updated r) (to_timestamp t) ≠ Gt ↔
    time_compare (truncated (u r)) (truncated t) ≠ Gt) as Hle.
  { intros t []. rewrite Hu. by rewrite compare_timestamps. }
  apply and_iff_compat_l. f_equiv; [|f_equiv].
  - destruct start as [t|]; [|split; [done|constructor]]. rewrite Forall_singleton. simpl.
    rewrite Hge by auto. naive_solver.
  - destruct end_ as [t|]; [|split; [done|constructor]]. rewrite Forall_singleton. simpl.
    rewrite Hle by auto. naive_solver.
  - destruct run_id as [i|]; [|split; [done|constructor]].
    case_bool_decide; [split; [naive_solver|constructor]|]. rewrite Forall_singleton. simpl. naive_solver.
Qed.

#[global] Instance wanted_dec device start end_ run_id r : Decision (wanted device start end_ run_id r).
Proof using u.
  clear -u.
  unfold wanted, time_le. repeat apply and_dec; [solve_decision|..].
  - destruct start as [t|]; [|by left]. destruct (decide (time_compare (truncated t) (truncated (u r)) ≠ Gt));
      [left; naive_solver|right; naive_solver].
  - destruct end_ as [t|]; [|by left]. destruct (decide (time_compare (truncated (u r)) (truncated t) ≠ Gt));
      [left; naive_solver|right; naive_solver].
  - destruct run_id as [i|]; [|by left]. destruct (decide (i ≠ "" → daq_run_id r = i));
      [left; naive_solver|right; naive_solver].
Defined.

(** The report of a run, if it has one *)
Definition report_of (r : run) : option val :=
  match _get_json_report download r with Ok (Some v) => if truth v then Some v else None | _ => None end.

Lemma yield_all l : Forall (λ r, is_ok (_get_json_report download r) = true) l →
  yield_reports download l = (omap report_of l, Ok tt).
Proof.
  induction 1 as [|r l Hr _ IH]; [done|]. cbn [yield_reports]. rewrite IH.
  change (omap report_of (r :: l)) with
    (match report_of r with Some v => v :: omap report_of l | None => omap report_of l end).
  set (rest := omap report_of l). unfold report_of. destruct (_get_json_report download r) as [[v|]|e]; [|done|done].
  by destruct (truth v).
Qed.

Lemma sorted_weaken {A} (R R' : A → A → Prop) l :
  (∀ x y, x ∈ l → y ∈ l → R x y → R' x y) → StronglySorted R l → StronglySorted R' l.
Proof.
  intros Hi Hs. induction Hs as [|x l Hs IH Hx]; [constructor|]. constructor.
  - apply IH. intros. apply Hi; [by right|by right|done].
  - rewrite Forall_forall in *. intros y Hy. apply Hi; [left|by right|by apply Hx].
Qed.

(** The reports of a device from the cloud.  If the runs carry the time
    stamps of their times, the reports are those of the newest runs of the
    device in the time window (and of the wanted DAQ run), up to the count or
    one hundred, newest first: the window is applied to the times, in
    milliseconds, before the count. *)
Theorem cloud_reports_window (a : account) (device : string) (start end_ : option datetime)
    (count : option Z) (run_id : option string)
    (Hquery : query_laws) (Hruns : Forall (λ r, updated r = to_timestamp (u r) ∧ proper (u r)) runs)
    (Hwin : ∀ t, start = Some t ∨ end_ = Some t → proper t)
    (Hdown : Forall (λ r, is_ok (_get_json_report download r) = true) runs) :
  ∃ l, l ≡ₚ filter (wanted device start end_ run_id) runs ∧
    StronglySorted (λ r r', time_le (u r') (u r)) l ∧
    get_reports run_query download (Some a) device start end_ count run_id
    = (omap report_of (take (Z.to_nat (match count with Some 0 | None => 100 | Some n => n end)) l), Ok tt).
Proof.
  destruct (Hquery (reports_query device start end_ count run_id) eq_refl eq_refl) as (l & Hl & Hs & Hq).
  assert (filter (λ r, Forall (λ c, holds c r) (wheres (reports_query device start end_ count run_id))) runs
    = filter (wanted device start end_ run_id) runs) as Heq.
  { clear -Hruns Hwin. induction Hruns as [|r runs' [Hu Hp] _ IH]; [done|]. rewrite !filter_cons, IH.
    pose proof (holds_wanted device start end_ count run_id r Hu Hp Hwin) as Hiff.
    destruct (decide (Forall _ _)), (decide (wanted _ _ _ _ r)); tauto || done. }
  rewrite Heq in Hl. rewrite Forall_forall in Hruns.
  assert (∀ r, r ∈ l → r ∈ runs) as Hin.
  { intros r Hr. rewrite Hl in Hr. by apply list_elem_of_filter in Hr as [_ ?]. }
  exists l. split; [done|]. split.
  - eapply sorted_weaken; [|exact Hs]. intros r r' Hr Hr' Hc.
    destruct (Hruns r (Hin _ Hr)) as [Hu []], (Hruns r' (Hin _ Hr')) as [Hu' []].
    rewrite compare_flip, Hu, Hu', compare_timestamps in Hc by done. exact Hc.
  - unfold get_reports. rewrite Hq, yield_all.
    + do 4 f_equal. unfold reports_query. simpl. destruct count as [[| |]|]; done.
    + apply Forall_take, Forall_forall. intros r Hr. rewrite Forall_forall in Hdown. by apply Hdown, Hin.
Qed.
End reports.

(** ** A store in memory *)

Definition memory : Type := gmap string config_doc * gset nat.
#[local] Instance toy_store : Firestore memory := {|
  docs := fst;
  listeners := snd;
  Firestore.set_doc p d := λ w, ((<[p := d]> w.1, w.2), Ok tt);
  Firestore.delete_doc p := λ w, ((delete p w.1, w.2), Ok tt);
  Firestore.update_saved p t := λ w,
    ((alter (λ d, mkDoc (Firestore.config d) t (Firestore.timestamp d)) p w.1, w.2), Ok tt);
  Firestore.on_snapshot p := λ w, ((w.1, {[fresh w.2]} ∪ w.2), Ok (fresh w.2));
  Firestore.unsubscribe f := λ w, ((w.1, w.2 ∖ {[f]}), Ok tt)
|}.
#[local] Instance toy_store_laws : FirestoreLaws memory.
Proof.
  split; simpl; try (intros; simplify_eq; done).
  intros p w w' f Heq. simplify_eq. split_and!; [apply is_fresh|done|done].
Qed.

Definition demo_account : account := mkAccount "proj" "daq" (VStr "site").
Definition demo_now : datetime := PyTime.mkTime 2020 5 29 9 23 33 0.
Definition demo_manager : @manager memory := mkManager (∅, {[7%nat]}) [] [] [] [].
Definition demo_registered : @manager memory :=
  fst (register_config (Some demo_account) demo_now "device/aa" (Some (VDict [])) (Some 1%nat) false demo_manager).
Definition demo_released : @manager memory :=
  fst (release_config (Some demo_account) demo_now "device/aa" demo_registered).

Lemma listeners_tracked_witness :
  dget "origin/daq/device/aa/config/definition" (_config_callbacks demo_released) = None ∧
  listeners (store demo_registered) = {[7%nat]} ∪ list_to_set (futures demo_registered).
Proof.
  destruct (@listeners_tracked memory toy_store toy_store_laws (λ _ _ _, Ok tt) demo_manager demo_registered
    demo_released demo_account demo_now "device/aa") as (H1 & _ & H2 & _).
  - reflexivity.
  - apply rtc_once. apply step_register.
  - vm_compute. reflexivity.
  - split; [exact H2|exact H1].
Defined.


Definition demo_times : list datetime :=
  [PyTime.mkTime 2020 5 29 9 0 0 0; PyTime.mkTime 2020 5 28 9 0 0 0; PyTime.mkTime 2019 1 1 0 0 0 0].
Definition demo_run (t : datetime) : run := mkRun "aa" (to_timestamp t) "x" (Some (to_timestamp t)).
(** The time of a run is what its time stamp says. *)
Definition time_of (r : run) : datetime := default demo_now
  (match parse_timestamp (updated r) with Ok t => Some t | Raise _ => None end).
Definition demo_query (q : query) : list run :=
  take (Z.to_nat (limit q)) (filter (λ r, Forall (λ c, holds c r) (wheres q)) (demo_run <$> demo_times)).

Lemma demo_query_laws : query_laws demo_query (demo_run <$> demo_times).
Proof.
  intros q _ _. eexists. split; [reflexivity|]. split; [|reflexivity].
  apply (sublist_sorted _ _ (demo_run <$> demo_times)); [apply sublist_filter|].
  repeat constructor; vm_compute; discriminate.
Qed.

Definition demo_start : datetime := PyTime.mkTime 2020 1 1 0 0 0 0.

Lemma cloud_reports_window_witness :
  ∃ l, l ≡ₚ filter (wanted time_of "aa" (Some demo_start) None None) (demo_run <$> demo_times) ∧
    get_reports demo_query (λ b, Ok (VStr b)) (Some demo_account) "aa" (Some demo_start) None (Some 1) None
    = (omap (report_of (λ b, Ok (VStr b))) (take 1 l), Ok tt).
Proof.
  destruct (cloud_reports_window demo_query (λ b, Ok (VStr b)) (demo_run <$> demo_times) time_of
    demo_account "aa" (Some demo_start) None (Some 1) None) as (l & H1 & _ & H2).
  - exact demo_query_laws.
  - repeat constructor; simpl; try reflexivity; vm_compute; discriminate.
  - intros t [Ht|Ht]; inversion Ht; subst. split; [reflexivity|simpl; lia].
  - repeat constructor.
  - exists l. split; [exact H1|exact H2].
Defined.
End GcpSpec.
