(* ===== verification/HostCloud.v ===== *)
(** * A host and the cloud (src/daq/host.py)

    What a connected host registers with the cloud connection and releases
    again: the configuration of its device, and the control document of its
    port.  The operations are composed with those of [GcpManager]; the effect
    on the store and its listeners is proved from the laws of [Firestore].

    The small operations of the host around its test modules are here too: run
    identifiers, the texts of exceptions, the parameters of a module and the
    hooks the configuration may name. *)

From stdpp Require Import base list gmap strings pretty.
From Stdlib Require Import ZArith Lia Ascii.
From S2P Require Import Prelude PyVal PyText PyTime Configurator Devices ExternalModule HostConfig HostFiles Gcp GcpSpec.

Module HostCloud.
Import PyVal Timestamp GcpManager GcpSpec.
Import PyTime(datetime).
Import Firestore(Firestore, FirestoreLaws, config_doc, mkDoc, listeners, docs).
Local Open Scope string_scope.
Local Open Scope list_scope.
Local Open Scope Z_scope.

(** ** Registered documents *)

(** [_DEVICE_PATH % mac] and [_CONTROL_PATH % port] *)
Definition device_path (mac : string) : string := "device/" +:+ mac.
Definition control_path (port : Z) : string := "control/port-" +:+ PyText.str_int port.

(** The callbacks [_dev_config_updated] and [_control_updated]. *)
Definition DEV_CONFIG_UPDATED : nat := 0.
Definition CONTROL_UPDATED : nat := 1.

(** [_make_control_bundle] *)
Definition _make_control_bundle (ready : bool) : val := VDict [("paused", VBool ready)].

(** [_make_config_bundle]; an empty configuration is replaced by the loaded one *)
Definition _make_config_bundle (loaded : dict string val) (config : option (dict string val))
    (now : datetime) : val :=
  let config := match config with
                | Some c => if truth (VDict c) then c else loaded
                | None => loaded
                end in
  VDict [("config", VDict config); ("timestamp", VStr (to_timestamp now))].

Section host.
Context {W : Type} {HF : Firestore W} {HL : FirestoreLaws W}.
Context (publish : list message → message → res unit).
Implicit Types (s : @manager W).
Context (a : account) (now : datetime).
Context (target_mac : string) (target_port : option Z).

(** Whether the host has a port: the number of its switch port is true. *)
Definition has_port : option Z :=
  match target_port with Some p => if p =? 0 then None else Some p | None => None end.

(** [_initialize_config] with the loaded device configuration; [result] is the
    recorded result with the configuration. *)
Definition _initialize_config (dev_config : dict string val) (ready : bool) (result : val) :
    M (@manager W) unit :=
  register_config (Some a) now (device_path target_mac) (Some (VDict dev_config))
    (Some DEV_CONFIG_UPDATED) false;;
  (match has_port with
   | Some p => register_config (Some a) now (control_path p) (Some (_make_control_bundle ready))
                 (Some CONTROL_UPDATED) true
   | None => mret tt
   end);;
  publish_message publish (Some a) now "daq_runner" "test_result" result.

(** [_release_config] *)
Definition _release_config : M (@manager W) unit :=
  release_config (Some a) now (device_path target_mac);;
  match has_port with
  | Some p => release_config (Some a) now (control_path p)
  | None => mret tt
  end.

(** *** One registration and one release *)

Definition doc_path_of (path : string) : string := full_path (_client_name a) path.

Lemma register_effect path c cb imm s s' :
  dget (doc_path_of path) (_config_callbacks s) = None →
  register_config (Some a) now path (Some c) (Some cb) imm s = (s', Ok tt) →
  ∃ f, (f ∉ listeners (store s)) ∧ listeners (store s') = {[f]} ∪ listeners (store s) ∧
    _config_callbacks s' = _config_callbacks s ++ [(doc_path_of path, mkListener f (doc_path_of path) cb imm)] ∧
    docs (store s') = <[doc_path_of path := mkDoc c (to_timestamp now) (to_timestamp now)]> (docs (store s)).
Proof.
  intros Hn Hreg. unfold register_config in Hreg. fold (doc_path_of path) in Hreg.
  apply bind_ok_inv in Hreg as (s1 & [] & E1 & H1). unfold assertM in E1.
  destruct (negb _); [|done]. injection E1 as <-.
  apply bind_ok_inv in H1 as (s2 & [] & E2 & H2). unfold unsubscribe_old in E2.
  rewrite (bind_ok getS _ _ _ _ eq_refl), Hn in E2. injection E2 as <-.
  apply bind_ok_inv in H2 as (s3 & [] & E3 & H3).
  apply bind_ok_inv in H3 as (s4 & [] & E4 & H4).
  rewrite bool_decide_true in E4 by by eexists. injection E4 as <-.
  unfold on_store in E3. destruct (Firestore.set_doc _ _ _) as [w3 r3] eqn:E. injection E3 as <- ->.
  apply Firestore.set_doc_ok in E as [Ed El].
  unfold _register_callback in H4. apply bind_ok_inv in H4 as (s5 & f & E5 & H5). injection H5 as <-.
  unfold on_store in E5. destruct (Firestore.on_snapshot _ _) as [w5 r5] eqn:E6. injection E5 as <- ->.
  apply Firestore.on_snapshot_ok in E6 as (Hf & El' & Ed'). simpl in *.
  exists f. rewrite El in Hf, El'. rewrite Ed', Ed, El'. by rewrite dkeys_dset_new.
Qed.

Lemma dget_new {A} k (v : A) (d e : dict string A) :
  dget k d = None → dget k (d ++ (k, v) :: e) = Some v.
Proof.
  induction d as [|[k' x] d IH]; cbn [dget app]; [by rewrite decide_True|]. by case_decide.
Qed.

Lemma ddel_new {A} k (v : A) (d e : dict string A) :
  dget k d = None → ddel k (d ++ (k, v) :: e) = d ++ e.
Proof.
  induction d as [|[k' x] d IH]; cbn [dget ddel app]; [by rewrite decide_True|].
  case_decide; [done|]. intros H'. by rewrite IH.
Qed.

Lemma release_effect path d l e s s' :
  _config_callbacks s = d ++ (doc_path_of path, l) :: e → dget (doc_path_of path) d = None →
  release_config (Some a) now path s = (s', Ok tt) →
  docs (store s') = delete (doc_path_of path) (docs (store s)) ∧
  listeners (store s') = listeners (store s) ∖ {[future l]} ∧ _config_callbacks s' = d ++ e.
Proof.
  unfold release_config, register_config. fold (doc_path_of path). intros Htable Hn Hrel.
  apply bind_ok_inv in Hrel as (s1 & [] & E1 & H1). unfold assertM in E1.
  destruct (negb _); [|done]. injection E1 as <-.
  apply bind_ok_inv in H1 as (s2 & [] & E2 & H2).
  apply bind_ok_inv in H2 as (s3 & [] & E3 & H3). injection H3 as <-.
  unfold on_store in E3. destruct (Firestore.delete_doc _ _) as [w3 r3] eqn:E. injection E3 as <- ->.
  apply Firestore.delete_doc_ok in E as [Ed El]. cbn [store set_store _config_callbacks].
  unfold unsubscribe_old in E2. rewrite (bind_ok getS _ _ _ _ eq_refl) in E2.
  rewrite Htable, dget_new in E2 by done.
  apply bind_ok_inv in E2 as (s4 & [] & E4 & H4). injection H4 as <-.
  unfold on_store in E4. destruct (Firestore.unsubscribe _ _) as [w4 r4] eqn:E5. injection E4 as <- ->.
  apply Firestore.unsubscribe_ok in E5 as [El4 Ed4]. simpl in *.
  rewrite Ed, El, Ed4, El4, Htable. by rewrite ddel_new.
Qed.

(** The two documents are different. *)
Lemma paths_apart mac p : doc_path_of (device_path mac) ≠ doc_path_of (control_path p).
Proof.
  unfold doc_path_of, full_path. intros H. do 3 apply (inj (String.app _)) in H. discriminate.
Qed.

Lemma size_new (X : gset nat) f : f ∉ X → size ({[f]} ∪ X) = S (size X).
Proof. intros HX. rewrite size_union by set_solver. by rewrite size_singleton. Qed.

Lemma publish_store topic kind m s s' :
  publish_message publish (Some a) now topic kind m s = (s', Ok tt) →
  store s' = store s ∧ _config_callbacks s' = _config_callbacks s.
Proof.
  unfold publish_message. rewrite (bind_ok getS _ _ _ _ eq_refl). intros H.
  apply bind_ok_inv in H as (s1 & [] & E1 & H1). unfold lift in E1. injection E1 as <- _.
  by injection H1 as <-.
Qed.

(** C23: a host takes back what it registered.  When its documents are not
    registered yet, and the cloud's calls return: after [_initialize_config] the
    documents are there, with a listener each; and after [_release_config],
    whatever changes of documents and deliveries came between, the documents
    are gone, no listener is left but those that were there before, and the
    table of registered configurations is what it was. *)
Theorem config_released (dev_config : dict string val) (ready : bool) (result : val)
    s s1 s1' s2
    (Hdev : dget (doc_path_of (device_path target_mac)) (_config_callbacks s) = None)
    (Hctl : ∀ p, has_port = Some p → dget (doc_path_of (control_path p)) (_config_callbacks s) = None)
    (Hinit : _initialize_config dev_config ready result s = (s1, Ok tt))
    (Hbetween : same_listeners s1 s1')
    (Hrel : _release_config s1' = (s2, Ok tt)) :
  (∃ t, docs (store s1) !! doc_path_of (device_path target_mac) = Some (mkDoc (VDict dev_config) t t)) ∧
  size (listeners (store s1)) =
    (size (listeners (store s)) + match has_port with Some _ => 2 | None => 1 end)%nat ∧
  listeners (store s2) = listeners (store s) ∧ _config_callbacks s2 = _config_callbacks s ∧
  docs (store s2) !! doc_path_of (device_path target_mac) = None ∧
  ∀ p, has_port = Some p → docs (store s2) !! doc_path_of (control_path p) = None.
Proof.
  unfold _initialize_config in Hinit. apply bind_ok_inv in Hinit as (sa & [] & Ea & Ha).
  apply register_effect in Ea as (f & Hf & Hla & Hca & Hda); [|done].
  apply bind_ok_inv in Ha as (sb & [] & Eb & Hb). apply publish_store in Hb as [Hst Hcb].
  destruct Hbetween as [Hcb' Hls']. rewrite Hcb in Hcb'. rewrite Hst in Hls' |- *.
  unfold _release_config in Hrel. apply bind_ok_inv in Hrel as (sr & [] & Er & Hr).
  destruct has_port as [p|] eqn:Hp.
  - assert (∀ l, dget (doc_path_of (control_path p)) (_config_callbacks s ++ [(doc_path_of (device_path target_mac), l)]) = None) as Hnew.
    { intros l. rewrite <- dkeys_dset_new by done. rewrite dget_dset_ne; [by apply Hctl|].
      symmetry. apply paths_apart. }
    apply register_effect in Eb as (g & Hg & Hlb & Hcb2 & Hdb); [|by rewrite Hca].
    rewrite Hca, <- app_assoc in Hcb2. cbn [app] in Hcb2. rewrite <- Hcb' in Hcb2.
    apply (release_effect _ _ _ _ _ _ Hcb2) in Er as (Hdr & Hlr & Hcr); [|done].
    apply (release_effect _ _ _ _ _ _ Hcr) in Hr as (Hd2 & Hl2 & Hc2); [|by apply Hctl].
    rewrite app_nil_r in Hc2. cbn [future] in Hlr, Hl2. split_and!; [| | |done| |].
    + eexists. rewrite Hdb, lookup_insert_ne by (symmetry; apply paths_apart).
      rewrite Hda. apply lookup_insert_eq.
    + rewrite Hlb, size_new, Hla, size_new by done. lia.
    + rewrite Hl2, Hlr, Hls', Hlb, Hla. rewrite Hla in Hg. clear -Hf Hg. set_solver.
    + rewrite Hd2, lookup_delete_ne by (symmetry; apply paths_apart). rewrite Hdr. apply lookup_delete_eq.
    + intros q [= <-]. rewrite Hd2. apply lookup_delete_eq.
  - injection Eb as <-. injection Hr as <-. rewrite <- Hcb' in Hca.
    apply (release_effect _ _ _ _ _ _ Hca) in Er as (Hdr & Hlr & Hcr); [|done].
    rewrite app_nil_r in Hcr. cbn [future] in Hlr. split_and!; [| | |done| |done].
    + eexists. rewrite Hda. apply lookup_insert_eq.
    + rewrite Hla, size_new by done. lia.
    + rewrite Hlr, Hls', Hla. clear -Hf. set_solver.
    + rewrite Hdr. apply lookup_delete_eq.
Qed.

End host.

Definition demo_init : @manager memory := fst (@_initialize_config memory toy_store (λ _ _, Ok tt)
  demo_account demo_now "aa" (Some 3) [] true VNone demo_manager).
Definition demo_release : @manager memory :=
  fst (@_release_config memory toy_store demo_account demo_now "aa" (Some 3) demo_init).

Lemma config_released_witness :
  size (@listeners _ toy_store (store demo_init)) = 3%nat ∧
  @listeners _ toy_store (store demo_release) = {[7%nat]}.
Proof.
  destruct (@config_released memory toy_store toy_store_laws (λ _ _, Ok tt) demo_account demo_now
    "aa" (Some 3) [] true VNone demo_manager demo_init demo_init demo_release)
    as (_ & H1 & H2 & _).
  - reflexivity.
  - intros p [= <-]. reflexivity.
  - vm_compute. reflexivity.
  - split; reflexivity.
  - vm_compute. reflexivity.
  - split; [exact H1|exact H2].
Defined.

(** ** Run identifiers *)

(** [w] hexadecimal digits *)
Definition hex_char (d : Z) : ascii :=
  Ascii.ascii_of_nat (Z.to_nat (if d <? 10 then d + 48 else d + 87)).
Fixpoint hex_fixed (w : nat) (z : Z) : list ascii :=
  match w with
  | O => []
  | S w' => hex_fixed w' (z / 16) ++ [hex_char (z mod 16)]
  end.

(** [make_runid]: ['%06x'] of the seconds *)
Definition make_runid (seconds : Z) : list ascii :=
  hex_fixed (6 `max` (Z.to_nat (Z.log2 seconds / 4) + 1))%nat seconds.

Lemma hex_char_val d : 0 ≤ d < 16 → digit_val 16 (hex_char d) = Some d ∧ hex_char d ≠ "_"%char.
Proof.
  intros Hd. assert (d ∈ [0; 1; 2; 3; 4; 5; 6; 7; 8; 9; 10; 11; 12; 13; 14; 15]) as Hin.
  { rewrite !elem_of_cons. lia. }
  repeat (apply elem_of_cons in Hin as [->|Hin]; [by split|]). by apply elem_of_nil in Hin.
Qed.

Lemma digits_hex w z acc sep rest :
  0 ≤ z → digits 16 acc sep (hex_fixed (S w) z ++ rest) =
    digits 16 (16 ^ Z.of_nat (S w) * acc + z mod 16 ^ Z.of_nat (S w)) false rest.
Proof.
  revert z acc sep rest. induction w as [|w IH]; intros z acc sep rest Hz;
    destruct (hex_char_val (z mod 16) (Z.mod_pos_bound z 16 eq_refl)) as [Hv Hu].
  - cbn [hex_fixed app digits]. rewrite bool_decide_false, Hv by done. f_equal.
  - change (hex_fixed (S (S w)) z) with (hex_fixed (S w) (z / 16) ++ [hex_char (z mod 16)]).
    rewrite <- app_assoc, IH by (apply Z.div_pos; lia). cbn [app digits].
    rewrite bool_decide_false, Hv by done. f_equal.
    rewrite (Nat2Z.inj_succ (S w)), Z.pow_succ_r by lia.
    rewrite (Z.rem_mul_r z 16) by (lia || apply Z.pow_pos_nonneg; lia). ring.
Qed.

(** A run's identifier is the second it was made in: it is the hexadecimal text
    of that number, so that runs of different seconds have different
    identifiers. *)
Theorem runid_time (seconds : Z) (Hpos : 0 ≤ seconds) :
  digits 16 0 true (make_runid seconds) = Some seconds ∧ (6 ≤ length (make_runid seconds))%nat.
Proof.
  assert (∀ w z, length (hex_fixed w z) = w) as Hlen.
  { induction w as [|w IH]; intros z; [done|]. cbn [hex_fixed]. rewrite length_app, IH. simpl. lia. }
  unfold make_runid. set (w := (6 `max` _)%nat). split; [|rewrite Hlen; lia].
  destruct w as [|w'] eqn:Ew; [lia|]. rewrite <- (app_nil_r (hex_fixed _ _)), digits_hex by done.
  cbn [digits]. f_equal. rewrite Z.mul_0_r, Z.add_0_l. apply Z.mod_small. split; [done|].
  destruct (decide (seconds = 0)) as [->|Hne]; [apply Z.pow_pos_nonneg; lia|].
  rewrite <- Ew. change 16 with (2 ^ 4). rewrite <- Z.pow_mul_r by lia.
  apply Z.log2_lt_pow2; [lia|].
  pose proof (Z.mul_succ_div_gt (Z.log2 seconds) 4 eq_refl). pose proof (Z.log2_nonneg seconds).
  assert (0 ≤ Z.log2 seconds / 4) by (apply Z.div_pos; lia). lia.
Qed.

Lemma runid_time_witness : digits 16 0 true (make_runid 1590744213) = Some 1590744213.
Proof. apply (runid_time 1590744213). lia. Defined.

(** ** Texts *)

(** [_shorten_filename] *)
Definition _shorten_filename (path_prefix : string) (long_name : option string) : option string :=
  match long_name with
  | Some n => if negb (bool_decide (n = "")) && String.prefix path_prefix n
              then Some (String.string_of_list_ascii
                           (drop (String.length path_prefix + 1) (String.list_ascii_of_string n)))
              else Some n
  | None => None
  end.

(** What is recorded as an exception: an exception object, whose class has a
    name, or another value. *)
Inductive recorded := NoException | ExceptionObject (class : string) | OtherValue (text : string).

(** [_exception_message] *)
Definition _exception_message (e : recorded) : option string :=
  match e with
  | NoException => None
  | ExceptionObject class => Some class
  | OtherValue text => if bool_decide (text = "" ∨ text = "None") then None else Some text
  end.

(** ** The host's directories and hooks *)

(** [_host_name], [_host_dir_path], [_host_tmp_path] *)
Definition _host_name (test_host : option string) : string := default "unknown" test_host.
Definition _host_dir_path (devdir : list string) (test_host : option string) : list string :=
  devdir ++ ["nodes"; _host_name test_host].
Definition _host_tmp_path (devdir : list string) (test_host : option string) : list string :=
  _host_dir_path devdir test_host ++ ["tmp"].

(** [_finish_hook]: the script and the directory it is run with, if any *)
Definition _finish_hook (script : option string) (devdir : list string) (test_host : option string) :
    M (gmap (list string) Files.node) (option (string * list string)) :=
  match script with
  | None => mret None
  | Some script =>
      if bool_decide (script = "") then mret None else
      let finish_dir := devdir ++ ["finish"; _host_name test_host] in
      Files.rmtree_quiet finish_dir;;
      Files.makedirs finish_dir;;
      mret (Some (script, finish_dir))
  end.

(** [_topology_hook] *)
Definition _topology_hook (script : option string) (network_dir : list string) :
    option (string * list string) :=
  match script with
  | None => None
  | Some script => if bool_decide (script = "") then None else Some (script, network_dir)
  end.

(** The finish hook is run with an empty directory of the test host: what an
    earlier run left there is gone, and nothing outside of it changed but the
    directories that lead to it. *)
Theorem finish_dir_fresh (script : string) (devdir : list string) (test_host : option string)
    (f : gmap (list string) Files.node) (Hscript : script ≠ "") (Hwf : Files.fs_wf f)
    (Hway : Files.clear_way (devdir ++ ["finish"; _host_name test_host]) f) :
  let finish_dir := devdir ++ ["finish"; _host_name test_host] in
  ∃ f', _finish_hook (Some script) devdir test_host f = (f', Ok (Some (script, finish_dir))) ∧
    f' !! finish_dir = Some Files.Dir ∧
    (∀ q, finish_dir `prefix_of` q → q ≠ finish_dir → f' !! q = None) ∧
    (∀ q, ¬ q `prefix_of` finish_dir → ¬ finish_dir `prefix_of` q → f' !! q = f !! q).
Proof.
  intros finish_dir. assert (finish_dir ≠ []) as Hne by by destruct devdir.
  destruct (HostFiles.remake finish_dir f Hwf Hne Hway) as (f' & Hm & Hd & He & Hs).
  exists f'. split_and!; try done. unfold _finish_hook. rewrite bool_decide_false by done.
  fold finish_dir. rewrite (bind_ok _ _ _ _ _ (HostFiles.rmtree_quiet_runs finish_dir f)).
  by rewrite (bind_ok _ _ _ _ _ Hm).
Qed.

(** ** The parameters of a test module *)

(** [template % n]: [directive] is the part of a conversion that was read, its
    zero flag and width; [used] says that the number was already inserted. *)
Definition pad (zero : bool) (width : nat) (n : Z) : list ascii :=
  let sign := if n <? 0 then ["-"%char] else [] in
  let body := String.list_ascii_of_string (pretty (Z.abs n)) in
  let missing := (width - length sign - length body)%nat in
  if zero then sign ++ replicate missing "0"%char ++ body
  else replicate missing " "%char ++ sign ++ body.

Fixpoint percent (directive : option (bool * nat)) (used : bool) (n : Z) (l : list ascii) :
    res (list ascii) :=
  match l, directive with
  | [], None => if used then Ok [] else Raise TypeError
  | [], Some _ => Raise ValueError
  | c :: l', None =>
      if bool_decide (c = "%"%char) then percent (Some (false, 0%nat)) used n l'
      else r ← percent None used n l'; Ok (c :: r)
  | c :: l', Some (zero, width) =>
      if bool_decide (c = "%"%char) then r ← percent None used n l'; Ok ("%"%char :: r)
      else if bool_decide (c = "0"%char ∧ width = 0%nat) then percent (Some (true, 0%nat)) used n l'
      else match digit_val 10 c with
           | Some d => percent (Some (zero, (10 * width + Z.to_nat d)%nat)) used n l'
           | None =>
               if bool_decide (c ∈ ["d"%char; "i"%char; "u"%char; "s"%char]) then
                 if used then Raise TypeError else
                 r ← percent None true n l';
                 Ok (pad (zero && negb (bool_decide (c = "s"%char))) width n ++ r)
               else Raise ValueError
           end
  end.

Example mods_addr_of_port :
  percent None false 3 (String.list_ascii_of_string "192.0.2.1%d/24") =
    Ok (String.list_ascii_of_string "192.0.2.13/24").
Proof. reflexivity. Qed.

(** What the host knows when it starts a module. *)
Record module_input := Input {
  i_switch_setup : dict string val;
  i_test_port : Z;
  i_target_ip : option string;
  i_target_mac : string;
  i_target_port : option Z;
  i_gateway_ip : string;
  i_gateway_mac : string;
  i_inst_base : string;
  i_port_base : option string;
  i_device_base : option string;
  i_type_base : option string;
  i_gw_base : string;
  i_scan_base : string
}.

Definition opt_str (o : option string) : val := match o with Some s => VStr s | None => VNone end.

(** [ext_loip] *)
Definition ext_loip (i : module_input) : res (option string) :=
  match dget "mods_addr" (i_switch_setup i) with
  | None => Ok None
  | Some (VStr template) =>
      r ← percent None false (i_test_port i) (String.list_ascii_of_string template);
      Ok (Some (String.string_of_list_ascii r))
  | Some _ => Raise TypeError
  end.

Definition _get_switch_config (i : module_input) : dict string val :=
  (λ '(k, key), (k, default VNone (dget key (i_switch_setup i)))) <$>
    [("ip", "ip_addr"); ("model", "model"); ("username", "username"); ("password", "password")].

(** [_get_module_params] *)
Definition _get_module_params (i : module_input) : res (dict string val) :=
  loip ← ext_loip i;
  let params :=
    [("local_ip", opt_str loip); ("target_ip", opt_str (i_target_ip i));
     ("target_mac", VStr (i_target_mac i));
     ("target_port", match i_target_port i with
                     | Some p => if p =? 0 then VNone else VStr (PyText.str_int p)
                     | None => VNone
                     end);
     ("gateway_ip", VStr (i_gateway_ip i)); ("gateway_mac", VStr (i_gateway_mac i));
     ("inst_base", VStr (i_inst_base i)); ("port_base", opt_str (i_port_base i));
     ("device_base", opt_str (i_device_base i)); ("type_base", opt_str (i_type_base i));
     ("gw_base", VStr (i_gw_base i)); ("scan_base", VStr (i_scan_base i))] in
  Ok (match loip with
      | Some ip => if bool_decide (ip = "") then params
                   else foldl (λ d '(k, v), dset k v d) params (_get_switch_config i)
      | None => params
      end).

(** The parameters that have a value, as the modules use them. *)
Definition given (params : dict string val) : dict string string :=
  omap (λ '(k, v), match v with VStr s => Some (k, s) | _ => None end) params.

(** A module gets what it needs.  Once the host has an address, the parameters
    it gives a module let the module build its environment and its volumes:
    the variables name the device and the gateway, and the scans are mapped to
    the module's directory; the address on the switch's network is given when
    the switch has one. *)
Theorem module_params_suffice (i : module_input) (name ip : string)
    (mode : option Devices.dhcp_mode_t) (exists_path : string → bool) (abspath : string → string)
    (run_dir basedir : string) (params : dict string val) (Hip : i_target_ip i = Some ip)
    (Hparams : _get_module_params i = Ok params) :
  (∃ vars, ExternalModule._get_env_vars name mode (given params) = Ok vars ∧
     dget "TARGET_IP" vars = Some ip ∧ dget "TARGET_MAC" vars = Some (i_target_mac i) ∧
     dget "GATEWAY_IP" vars = Some (i_gateway_ip i) ∧ dget "GATEWAY_MAC" vars = Some (i_gateway_mac i) ∧
     ∃ loip, ext_loip i = Ok loip ∧ dget "LOCAL_IP" vars = Some (default "" loip)) ∧
  ∃ maps, ExternalModule._get_vol_maps exists_path abspath run_dir basedir (given params) = Ok maps ∧
    (i_scan_base i, basedir +:+ "/scans") ∈ maps.
Proof.
  unfold _get_module_params in Hparams. destruct (ext_loip i) as [loip|] eqn:Hl; [|done].
  injection Hparams as <-. rewrite Hip.
  destruct (i_target_port i) as [p|]; [destruct (p =? 0)|];
    (destruct loip as [lo|]; [case_bool_decide as Hlo|]);
    destruct (i_port_base i), (i_device_base i), (i_type_base i);
    (split; [eexists; split; [reflexivity|]; split_and!; try reflexivity; eexists; split; reflexivity
            |eexists; split; [reflexivity|left]]).
Qed.

End HostCloud.
