(* ===== verification/Bytes.v ===== *)
(** * Bytes, Python strings and the [struct] module

    What the 802.1x authenticator uses of Python's [bytes], [str], [int] and
    [struct]: byte strings are lists of integers ([bytes_ok] says that they are
    in range), a [str] is the list of its code points, and the big-endian
    formats of [struct.pack]/[struct.unpack] raise [StructError] as in Python.
    UTF-8 is CPython's strict codec: no surrogates, no overlong forms. *)

From stdpp Require Import base list strings.
From Stdlib Require Import ZArith Lia Ascii.
From S2P Require Import Prelude.

Abbreviation bytes := (list Z) (only parsing).
Abbreviation str := (list Z) (only parsing).

Definition byte_ok (b : Z) : Prop := 0 ≤ b < 256.
Definition bytes_ok (l : bytes) : Prop := Forall byte_ok l.

(** The code points of an ASCII literal. *)
Fixpoint of_literal (s : string) : str :=
  match s with
  | EmptyString => []
  | String a s' => Z.of_N (N_of_ascii a) :: of_literal s'
  end.

(** ** [struct] *)

(** ["!B"] and ["!H"] *)
Definition pack_B (v : Z) : res bytes :=
  if (0 <=? v) && (v <? 256) then Ok [v] else Raise StructError.
Definition pack_H (v : Z) : res bytes :=
  if (0 <=? v) && (v <? 65536) then Ok [v / 256; v mod 256] else Raise StructError.

(** ["!<n>s"]: longer values are cut, shorter ones padded with zero bytes. *)
Definition pack_s (n : nat) (v : bytes) : bytes :=
  take n v ++ replicate (n - length v) 0.

Definition unpack_B (l : bytes) : res Z :=
  match l with [a] => Ok a | _ => Raise StructError end.
Definition unpack_BB (l : bytes) : res (Z * Z) :=
  match l with [a; b] => Ok (a, b) | _ => Raise StructError end.
Definition unpack_BBH (l : bytes) : res (Z * Z * Z) :=
  match l with
  | [a; b; c; d] => Ok (a, b, 256 * c + d)
  | _ => Raise StructError
  end.
Definition unpack_BBH16s (l : bytes) : res (Z * Z * Z * bytes) :=
  match l with
  | a :: b :: c :: d :: auth =>
      if (length auth =? 16)%nat then Ok (a, b, 256 * c + d, auth) else Raise StructError
  | _ => Raise StructError
  end.
Definition unpack_6s6sH (l : bytes) : res (bytes * bytes * Z) :=
  if (length l =? 14)%nat then
    match drop 12 l with
    | [c; d] => Ok (take 6 l, take 6 (drop 6 l), 256 * c + d)
    | _ => Raise StructError
    end
  else Raise StructError.
(** ["!<n>s"] with [n] the length of the argument; ["!4s"]. *)
Definition unpack_s (n : nat) (l : bytes) : res bytes :=
  if (length l =? n)%nat then Ok l else Raise StructError.

(** ** Integers and bytes, big endian *)

Definition from_bytes (l : bytes) : Z := foldl (λ acc b, 256 * acc + b) 0 l.

Fixpoint to_bytes_aux (n : nat) (v : Z) : bytes :=
  match n with
  | O => []
  | S n' => to_bytes_aux n' (v / 256) ++ [v mod 256]
  end.
(** [v.to_bytes(n, 'big')] *)
Definition to_bytes (n : nat) (v : Z) : res bytes :=
  if (0 <=? v) && (v <? 256 ^ Z.of_nat n) then Ok (to_bytes_aux n v) else Raise OverflowError.

Lemma from_bytes_snoc l b : from_bytes (l ++ [b]) = 256 * from_bytes l + b.
Proof. unfold from_bytes. by rewrite foldl_app. Qed.

Lemma from_to_bytes_aux n v :
  0 ≤ v < 256 ^ Z.of_nat n → from_bytes (to_bytes_aux n v) = v.
Proof.
  revert v. induction n as [|n IH]; intros v Hv.
  - simpl in *. unfold from_bytes; simpl. lia.
  - simpl. rewrite from_bytes_snoc, IH; [zlia|].
    rewrite Nat2Z.inj_succ, Z.pow_succ_r in Hv by lia.
    split; [apply Z.div_pos; lia|]. apply Z.div_lt_upper_bound; lia.
Qed.

Lemma length_to_bytes_aux n v : length (to_bytes_aux n v) = n.
Proof. revert v. induction n; intros v; simpl; [done|]. rewrite length_app, IHn. simpl. lia. Qed.

Lemma to_bytes_aux_ok n v : bytes_ok (to_bytes_aux n v).
Proof.
  revert v. induction n as [|n IH]; intros v; simpl; [apply Forall_nil_2|].
  apply Forall_app_2; [apply IH|]. apply Forall_singleton. unfold byte_ok.
  apply Z.mod_pos_bound. lia.
Qed.

(** ** UTF-8 *)

Definition is_surrogate (c : Z) : bool := (55296 <=? c) && (c <=? 57343).

(** A code point Python can encode. *)
Definition scalar_ok (c : Z) : Prop := 0 ≤ c < 1114112 ∧ is_surrogate c = false.

Definition utf8_cp (c : Z) : option bytes :=
  if c <? 0 then None
  else if c <? 128 then Some [c]
  else if c <? 2048 then Some [192 + c / 64; 128 + c mod 64]
  else if c <? 65536 then
    if is_surrogate c then None
    else Some [224 + c / 4096; 128 + (c / 64) mod 64; 128 + c mod 64]
  else if c <? 1114112 then
    Some [240 + c / 262144; 128 + (c / 4096) mod 64; 128 + (c / 64) mod 64; 128 + c mod 64]
  else None.

(** [s.encode()] *)
Fixpoint encode (s : str) : res bytes :=
  match s with
  | [] => Ok []
  | c :: s' => match utf8_cp c with
               | Some b => r ← encode s'; Ok (b ++ r)
               | None => Raise UnicodeEncodeError
               end
  end.

Definition cont (b : Z) : bool := (128 <=? b) && (b <? 192).

Definition cp2 (a b : Z) : Z := (a - 192) * 64 + (b - 128).
Definition cp3 (a b c : Z) : Z := (a - 224) * 4096 + (b - 128) * 64 + (c - 128).
Definition cp4 (a b c d : Z) : Z :=
  (a - 240) * 262144 + (b - 128) * 4096 + (c - 128) * 64 + (d - 128).

Definition ok2 (a b : Z) : bool := (194 <=? a) && (a <? 224) && cont b.
Definition ok3 (a b c : Z) : bool :=
  (224 <=? a) && (a <? 240) && cont b && cont c &&
  (2048 <=? cp3 a b c) && negb (is_surrogate (cp3 a b c)).
Definition ok4 (a b c d : Z) : bool :=
  (240 <=? a) && (a <? 245) && cont b && cont c && cont d &&
  (65536 <=? cp4 a b c d) && (cp4 a b c d <? 1114112).

(** [b.decode()] *)
Fixpoint decode_opt (l : bytes) : option str :=
  match l with
  | [] => Some []
  | a :: l1 =>
      if (0 <=? a) && (a <? 128) then cons a <$> decode_opt l1
      else match l1 with
      | [] => None
      | b :: l2 =>
          if ok2 a b then cons (cp2 a b) <$> decode_opt l2
          else match l2 with
          | [] => None
          | c :: l3 =>
              if ok3 a b c then cons (cp3 a b c) <$> decode_opt l3
              else match l3 with
              | [] => None
              | d :: l4 =>
                  if ok4 a b c d then cons (cp4 a b c d) <$> decode_opt l4 else None
              end
          end
      end
  end.

Definition decode (l : bytes) : res str := of_option UnicodeDecodeError (decode_opt l).

(** Boolean facts of the codec, as arithmetic. *)
Ltac utf8_bool :=
  repeat match goal with
  | H : (_ && _) = true |- _ => apply andb_true_iff in H as [? ?]
  | H : negb _ = true |- _ => apply negb_true_iff in H
  | H : (_ <=? _) = true |- _ => apply Z.leb_le in H
  | H : (_ <? _) = true |- _ => apply Z.ltb_lt in H
  end.

Lemma is_surrogate_false c : is_surrogate c = false ↔ c < 55296 ∨ 57343 < c.
Proof. unfold is_surrogate. rewrite andb_false_iff, !Z.leb_gt. lia. Qed.

Lemma cont_true b : cont b = true ↔ 128 ≤ b < 192.
Proof. unfold cont. rewrite andb_true_iff, Z.leb_le, Z.ltb_lt. lia. Qed.

Lemma ok2_true a b : ok2 a b = true ↔ 194 ≤ a < 224 ∧ 128 ≤ b < 192.
Proof. unfold ok2. rewrite !andb_true_iff, cont_true, Z.leb_le, Z.ltb_lt. lia. Qed.

Lemma ok3_true a b c :
  ok3 a b c = true ↔ 224 ≤ a < 240 ∧ 128 ≤ b < 192 ∧ 128 ≤ c < 192 ∧
    2048 ≤ cp3 a b c ∧ (cp3 a b c < 55296 ∨ 57343 < cp3 a b c).
Proof.
  unfold ok3. rewrite !andb_true_iff, negb_true_iff, is_surrogate_false, !cont_true,
    !Z.leb_le, !Z.ltb_lt. lia.
Qed.

Lemma ok4_true a b c d :
  ok4 a b c d = true ↔ 240 ≤ a < 245 ∧ 128 ≤ b < 192 ∧ 128 ≤ c < 192 ∧ 128 ≤ d < 192 ∧
    65536 ≤ cp4 a b c d < 1114112.
Proof. unfold ok4. rewrite !andb_true_iff, !cont_true, !Z.leb_le, !Z.ltb_lt. lia. Qed.

Lemma bool_false (b : bool) : b ≠ true → b = false.
Proof. by destruct b. Qed.

(** Decoding the encoding of one code point, whatever follows. *)
Lemma decode_cp c b rest :
  utf8_cp c = Some b → decode_opt (b ++ rest) = cons c <$> decode_opt rest.
Proof.
  unfold utf8_cp.
  destruct (Z.ltb_spec c 0); [done|].
  destruct (Z.ltb_spec c 128).
  { intros [= <-]. simpl. destruct (Z.leb_spec 0 c); [|lia].
    by destruct (Z.ltb_spec c 128); [|lia]. }
  destruct (Z.ltb_spec c 2048).
  { intros [= <-]. cbn [app decode_opt].
    rewrite (bool_false ((0 <=? _) && _))
      by (rewrite andb_true_iff, Z.ltb_lt, Z.leb_le; zlia).
    assert (ok2 (192 + c / 64) (128 + c mod 64) = true) as -> by (apply ok2_true; zlia).
    do 2 f_equal. unfold cp2. zlia. }
  destruct (Z.ltb_spec c 65536).
  { destruct (is_surrogate c) eqn:Hs; [done|]. apply is_surrogate_false in Hs.
    intros [= <-]. cbn [app decode_opt].
    assert (cp3 (224 + c / 4096) (128 + (c / 64) mod 64) (128 + c mod 64) = c) as Hcp
      by (unfold cp3; zlia).
    rewrite (bool_false ((0 <=? _) && _))
      by (rewrite andb_true_iff, Z.ltb_lt, Z.leb_le; zlia).
    rewrite (bool_false (ok2 _ _)) by (rewrite ok2_true; zlia).
    assert (ok3 (224 + c / 4096) (128 + (c / 64) mod 64) (128 + c mod 64) = true) as ->
      by (apply ok3_true; rewrite Hcp; zlia).
    by rewrite Hcp. }
  destruct (Z.ltb_spec c 1114112); [|done].
  intros [= <-]. cbn [app decode_opt].
  assert (cp4 (240 + c / 262144) (128 + (c / 4096) mod 64) (128 + (c / 64) mod 64)
    (128 + c mod 64) = c) as Hcp by (unfold cp4; zlia).
  rewrite (bool_false ((0 <=? _) && _))
    by (rewrite andb_true_iff, Z.ltb_lt, Z.leb_le; zlia).
  rewrite (bool_false (ok2 _ _)) by (rewrite ok2_true; zlia).
  rewrite (bool_false (ok3 _ _ _)) by (rewrite ok3_true; zlia).
  assert (ok4 (240 + c / 262144) (128 + (c / 4096) mod 64) (128 + (c / 64) mod 64)
    (128 + c mod 64) = true) as -> by (apply ok4_true; rewrite Hcp; zlia).
  by rewrite Hcp.
Qed.

Lemma decode_encode s b : encode s = Ok b → decode b = Ok s.
Proof.
  unfold decode. enough (∀ b, encode s = Ok b → decode_opt b = Some s) as H.
  { intros Hb. by rewrite (H b Hb). }
  clear b. induction s as [|c s IH]; intros b; simpl; [by intros [= <-]|].
  destruct (utf8_cp c) as [bc|] eqn:Hc; [|done]. intros Hb. inv_res.
  rewrite (decode_cp _ _ _ Hc), (IH _ eq_refl). done.
Qed.

(** The code point a decoded group denotes is encoded by the same group. *)
Lemma encode_cp1 a : 0 ≤ a < 128 → utf8_cp a = Some [a].
Proof.
  intros ?. unfold utf8_cp. destruct (Z.ltb_spec a 0); [lia|].
  by destruct (Z.ltb_spec a 128); [|lia].
Qed.

Lemma encode_cp2 a b : ok2 a b = true → utf8_cp (cp2 a b) = Some [a; b].
Proof.
  rewrite ok2_true. intros ?. unfold utf8_cp, cp2.
  destruct (Z.ltb_spec ((a - 192) * 64 + (b - 128)) 0); [lia|].
  destruct (Z.ltb_spec ((a - 192) * 64 + (b - 128)) 128); [lia|].
  destruct (Z.ltb_spec ((a - 192) * 64 + (b - 128)) 2048); [|lia].
  do 3 f_equal; [|f_equal]; zlia.
Qed.

Lemma encode_cp3 a b c : ok3 a b c = true → utf8_cp (cp3 a b c) = Some [a; b; c].
Proof.
  rewrite ok3_true. unfold utf8_cp. set (v := cp3 a b c). intros (?&?&?&?&?).
  assert (v = (a - 224) * 4096 + (b - 128) * 64 + (c - 128)) as Hv by done.
  clearbody v.
  destruct (Z.ltb_spec v 0); [lia|]. destruct (Z.ltb_spec v 128); [lia|].
  destruct (Z.ltb_spec v 2048); [lia|]. destruct (Z.ltb_spec v 65536); [|lia].
  assert (is_surrogate v = false) as -> by (apply is_surrogate_false; lia).
  do 2 f_equal; [|f_equal; [|f_equal]]; zlia.
Qed.

Lemma encode_cp4 a b c d : ok4 a b c d = true → utf8_cp (cp4 a b c d) = Some [a; b; c; d].
Proof.
  rewrite ok4_true. unfold utf8_cp. set (v := cp4 a b c d). intros (?&?&?&?&?).
  assert (v = (a - 240) * 262144 + (b - 128) * 4096 + (c - 128) * 64 + (d - 128)) as Hv by done.
  clearbody v.
  destruct (Z.ltb_spec v 0); [lia|]. destruct (Z.ltb_spec v 128); [lia|].
  destruct (Z.ltb_spec v 2048); [lia|]. destruct (Z.ltb_spec v 65536); [lia|].
  destruct (Z.ltb_spec v 1114112); [|lia].
  do 2 f_equal; [|f_equal; [|f_equal; [|f_equal]]]; zlia.
Qed.

Lemma encode_cons c b s r :
  utf8_cp c = Some b → encode s = Ok r → encode (c :: s) = Ok (b ++ r).
Proof. intros Hc Hs. simpl. by rewrite Hc, Hs. Qed.

(** Decoding is injective: the bytes are recovered by encoding. *)
Lemma encode_decode l s : decode l = Ok s → encode s = Ok l.
Proof.
  unfold decode. enough (∀ n l s, (length l ≤ n)%nat → decode_opt l = Some s → encode s = Ok l) as H.
  { destruct (decode_opt l) eqn:E; intros [= <-]. by eapply H. }
  clear. induction n as [|n IH]; intros l s Hn.
  { destruct l; [|simpl in Hn; lia]. by intros [= <-]. }
  destruct l as [|a l1]; [by intros [= <-]|]. cbn [decode_opt]. simpl in Hn.
  destruct ((0 <=? a) && (a <? 128)) eqn:Ha.
  { intros (s1 & Hs & ->)%fmap_Some. utf8_bool.
    apply (encode_cons _ [a]); [by apply encode_cp1|apply IH; [lia|done]]. }
  destruct l1 as [|b l2]; [done|]. simpl in Hn. destruct (ok2 a b) eqn:H2.
  { intros (s1 & Hs & ->)%fmap_Some.
    apply (encode_cons _ [a; b]); [by apply encode_cp2|apply IH; [lia|done]]. }
  destruct l2 as [|c l3]; [done|]. simpl in Hn. destruct (ok3 a b c) eqn:H3.
  { intros (s1 & Hs & ->)%fmap_Some.
    apply (encode_cons _ [a; b; c]); [by apply encode_cp3|apply IH; [lia|done]]. }
  destruct l3 as [|d l4]; [done|]. simpl in Hn. destruct (ok4 a b c d) eqn:H4; [|done].
  intros (s1 & Hs & ->)%fmap_Some.
  apply (encode_cons _ [a; b; c; d]); [by apply encode_cp4|apply IH; [lia|done]].
Qed.

(** ASCII text is its own encoding. *)
Definition ascii_ok (s : str) : Prop := Forall (λ c, 0 ≤ c < 128) s.

Lemma encode_ascii s : ascii_ok s → encode s = Ok s.
Proof.
  induction 1 as [|c s Hc Hs IH]; [done|].
  by apply (encode_cons c [c]); [apply encode_cp1|].
Qed.

Lemma utf8_cp_ok c b : utf8_cp c = Some b → bytes_ok b.
Proof.
  unfold utf8_cp, bytes_ok, byte_ok.
  repeat match goal with
  | |- context [if ?x <? ?y then _ else _] => destruct (Z.ltb_spec x y)
  | |- context [if is_surrogate ?x then _ else _] => destruct (is_surrogate x)
  end; intros [= <-]; repeat constructor; zlia.
Qed.

Lemma encode_ok s b : encode s = Ok b → bytes_ok b.
Proof.
  revert b. induction s as [|c s IH]; intros b; simpl; [intros [= <-]; apply Forall_nil_2|].
  destruct (utf8_cp c) as [bc|] eqn:Hc; [|done]. intros Hb. inv_res.
  apply Forall_app_2; [by eapply utf8_cp_ok|by apply IH].
Qed.

(** ** Lemmas on the formats *)

Lemma pack_B_ok v b : pack_B v = Ok b → b = [v] ∧ byte_ok v.
Proof.
  unfold pack_B, byte_ok. destruct (Z.leb_spec 0 v), (Z.ltb_spec v 256); simpl; intros [= <-].
  split; [done|lia].
Qed.

Lemma pack_B_in v : byte_ok v → pack_B v = Ok [v].
Proof.
  unfold pack_B, byte_ok. intros ?.
  by destruct (Z.leb_spec 0 v), (Z.ltb_spec v 256); try lia.
Qed.

Lemma pack_H_ok v b :
  pack_H v = Ok b → b = [v / 256; v mod 256] ∧ 0 ≤ v < 65536.
Proof.
  unfold pack_H. destruct (Z.leb_spec 0 v), (Z.ltb_spec v 65536); simpl; intros [= <-].
  split; [done|lia].
Qed.

Lemma pack_H_in v : 0 ≤ v < 65536 → pack_H v = Ok [v / 256; v mod 256].
Proof.
  unfold pack_H. intros ?.
  by destruct (Z.leb_spec 0 v), (Z.ltb_spec v 65536); try lia.
Qed.

Lemma join_H v : 256 * (v / 256) + v mod 256 = v.
Proof. zlia. Qed.

Lemma split_H a b : byte_ok a → byte_ok b → (256 * a + b) / 256 = a ∧ (256 * a + b) mod 256 = b.
Proof. unfold byte_ok. intros. split; zlia. Qed.

Lemma pack_s_exact n v : length v = n → pack_s n v = v.
Proof.
  intros <-. unfold pack_s. rewrite firstn_all, Nat.sub_diag. apply app_nil_r.
Qed.

Lemma length_pack_s n v : length (pack_s n v) = n.
Proof. unfold pack_s. rewrite length_app, length_take, length_replicate. lia. Qed.

Lemma unpack_s_self v : unpack_s (length v) v = Ok v.
Proof. unfold unpack_s. by rewrite Nat.eqb_refl. Qed.
