(* ===== verification/Mac.v ===== *)
(** * MAC addresses (src/subset/dot1x/authenticator/mac_address.py)

    A [MacAddress] is its byte string.  [from_string] accepts what the regular
    expression accepts: six groups of one or two hexadecimal digits separated
    by colons. *)

From stdpp Require Import base list sets.
From Stdlib Require Import ZArith Lia.
From S2P Require Import Prelude Bytes.

(** ** String helpers of Python *)

(** [sep.join(parts)] for a one-character separator. *)
Fixpoint join (sep : Z) (parts : list str) : str :=
  match parts with
  | [] => []
  | [p] => p
  | p :: ps => p ++ sep :: join sep ps
  end.

(** [s.split(sep)] for a one-character separator: never the empty list. *)
Fixpoint split (sep : Z) (s : str) : list str :=
  match s with
  | [] => [[]]
  | c :: s' =>
      if c =? sep then [] :: split sep s'
      else match split sep s' with
           | p :: ps => (c :: p) :: ps
           | [] => [[c]]
           end
  end.

(** [s.replace(c, by)] for a one-character pattern. *)
Definition replace (c : Z) (by_ : str) (s : str) : str :=
  s ≫= λ x, if x =? c then by_ else [x].

Definition COLON : Z := 58.
Definition DASH : Z := 45.

(** A lower-case hexadecimal digit, and the value of a digit of either case. *)
Definition hex_digit (v : Z) : Z := if v <? 10 then 48 + v else 87 + v.
Definition hex_val (c : Z) : option Z :=
  if (48 <=? c) && (c <=? 57) then Some (c - 48)
  else if (97 <=? c) && (c <=? 102) then Some (c - 87)
  else if (65 <=? c) && (c <=? 70) then Some (c - 55)
  else None.

(** ["%02x" % x] for a byte [x] *)
Definition hex02 (x : Z) : str := [hex_digit (x / 16); hex_digit (x mod 16)].

(** [int(s, 16)] on a string of hexadecimal digits. *)
Fixpoint hex_digits (acc : Z) (s : str) : option Z :=
  match s with
  | [] => Some acc
  | c :: s' => v ← hex_val c; hex_digits (16 * acc + v) s'
  end.
Definition int16 (s : str) : res Z :=
  match s with
  | [] => Raise ValueError
  | _ => of_option ValueError (hex_digits 0 s)
  end.

Module MacAddress.

(** One group of the regular expression: one or two digits. *)
Definition group_val (g : str) : option Z :=
  match g with
  | [a] => hex_digits 0 [a]
  | [a; b] => hex_digits 0 [a; b]
  | _ => None
  end.

(** [from_string] *)
Definition from_string (s : str) : res bytes :=
  let groups := split COLON s in
  if (length groups =? 6)%nat
  then of_option ValueError (mapM group_val groups)
  else Raise ValueError.

(** [__str__] *)
Definition to_str (address : bytes) : str := join COLON (hex02 <$> address).

Definition mac_ok (address : bytes) : Prop := length address = 6%nat ∧ bytes_ok address.

Lemma hex_val_digit v : 0 ≤ v < 16 → hex_val (hex_digit v) = Some v.
Proof.
  intros Hv. unfold hex_digit. destruct (Z.ltb_spec v 10); unfold hex_val; z_cases;
    simpl; try lia; f_equal; lia.
Qed.

Lemma hex02_val x : byte_ok x → group_val (hex02 x) = Some x.
Proof.
  unfold byte_ok. intros Hx. unfold hex02, group_val, hex_digits.
  rewrite hex_val_digit by zlia. simpl. rewrite hex_val_digit by zlia. simpl.
  f_equal. zlia.
Qed.

Lemma hex_digit_not_colon v : 0 ≤ v < 16 → hex_digit v ≠ COLON.
Proof. unfold hex_digit, COLON. destruct (Z.ltb_spec v 10); lia. Qed.

Lemma split_app_sep p s :
  COLON ∉ p → split COLON (p ++ COLON :: s) = p :: split COLON s.
Proof.
  induction p as [|c p IH]; intros Hp; simpl; [done|].
  destruct (Z.eqb_spec c COLON) as [->|]; [set_solver|].
  rewrite IH by set_solver. done.
Qed.

Lemma split_no_sep p : COLON ∉ p → split COLON p = [p].
Proof.
  induction p as [|c p IH]; intros Hp; simpl; [done|].
  destruct (Z.eqb_spec c COLON) as [->|]; [set_solver|].
  by rewrite IH by set_solver.
Qed.

Lemma split_join ps :
  ps ≠ [] → Forall (λ p, COLON ∉ p) ps → split COLON (join COLON ps) = ps.
Proof.
  induction ps as [|p ps IH]; intros Hne Hall; [done|].
  inversion_clear Hall as [|?? Hp Hps]. destruct ps as [|q ps].
  - simpl. by apply split_no_sep.
  - change (join COLON (p :: q :: ps)) with (p ++ COLON :: join COLON (q :: ps)).
    rewrite split_app_sep by done. by rewrite IH.
Qed.

Lemma hex02_no_colon x : byte_ok x → COLON ∉ hex02 x.
Proof.
  unfold byte_ok, hex02. intros Hx.
  pose proof (hex_digit_not_colon (x / 16) ltac:(zlia)).
  pose proof (hex_digit_not_colon (x mod 16) ltac:(zlia)). set_solver.
Qed.

Lemma hex02_ascii x : byte_ok x → ascii_ok (hex02 x).
Proof.
  unfold byte_ok, hex02, ascii_ok, hex_digit. intros Hx.
  repeat constructor; z_cases; zlia.
Qed.

Lemma to_str_split a : bytes_ok a → a ≠ [] → split COLON (to_str a) = hex02 <$> a.
Proof.
  intros Hok Hne. apply split_join.
  - destruct a; [done|discriminate].
  - apply Forall_fmap. eapply Forall_impl; [done|]. intros x. apply hex02_no_colon.
Qed.

Lemma to_str_nonempty a : mac_ok a → to_str a ≠ [].
Proof.
  intros [Hlen _]. destruct a as [|x [|y a]]; try done.
Qed.

(** Parsing the text of an address gives the address back. *)
Lemma from_string_to_str a : mac_ok a → from_string (to_str a) = Ok a.
Proof.
  intros [Hlen Hok]. unfold from_string. rewrite to_str_split; [|done|by destruct a].
  rewrite length_fmap, Hlen. simpl.
  assert (mapM group_val (hex02 <$> a) = Some a) as ->; [|done].
  apply mapM_Some, Forall2_fmap_l. clear Hlen.
  induction Hok as [|x a Hx Ha IH]; constructor; [by apply hex02_val|done].
Qed.

End MacAddress.
