(* ===== verification/AuthSockets.v ===== *)
(** * Sockets and utilities of the authenticator

    The files eap_socket.py, radius_socket.py and utils.py of
    src/subset/dot1x/authenticator.  The system calls are parameters: an
    environment gives the outcome of each, and the state records what the code
    asked for.  Native [struct] formats are those of a little-endian machine
    with the usual alignment, on which ['16sI'] and ["IHH8s"] have no padding. *)

From stdpp Require Import base list strings.
From Stdlib Require Import ZArith Lia.
From S2P Require Import Prelude Bytes Mac.

(** Runs the operations of the state monad that are in sight. *)
Ltac run := unfold lift, modify, gets, getS, mbind, M_bind; cbn beta iota.

(** ** Native integers of [struct] *)

Module Native.

(** The [n] bytes of [v], lowest first, and back. *)
Definition le (n : nat) (v : Z) : bytes := rev (to_bytes_aux n v).
Definition of_le (l : bytes) : Z := from_bytes (rev l).

Lemma of_le_le n v : 0 ≤ v < 256 ^ Z.of_nat n → of_le (le n v) = v.
Proof. intros Hv. unfold of_le, le. rewrite rev_involutive. by apply from_to_bytes_aux. Qed.

Lemma length_le n v : length (le n v) = n.
Proof. unfold le. by rewrite length_rev, length_to_bytes_aux. Qed.

(** Packing ['I'] and ['H'] raises out of range. *)
Definition pack_I (v : Z) : res bytes :=
  guard_res ((0 <=? v) && (v <? 2 ^ 32)) StructError ≫= λ _, Ok (le 4 v).
Definition pack_Hn (v : Z) : res bytes :=
  guard_res ((0 <=? v) && (v <? 2 ^ 16)) StructError ≫= λ _, Ok (le 2 v).

(** [unpack('16sI', l)] wants exactly 20 bytes. *)
Definition unpack_16sI (l : bytes) : res (bytes * Z) :=
  if (length l =? 20)%nat then Ok (take 16 l, of_le (drop 16 l)) else Raise StructError.

(** What the kernel reads from a membership request: the [packet_mreq] with its
    interface, type, address length and address. *)
Definition read_mreq (l : bytes) : Z * Z * Z * bytes :=
  (of_le (slice 0 4 l), of_le (slice 4 6 l), of_le (slice 6 8 l), slice 8 16 l).

(** [socket.htons] on a little-endian machine *)
Definition htons (v : Z) : Z := 256 * (v mod 256) + v / 256 mod 256.

End Native.

(** ** utils.py: loggers *)

Module AuthLog.

Inductive target := Stdout | DebugFile.
#[global] Instance target_eq_dec : EqDecision target.
Proof. solve_decision. Defined.

Definition INFO : Z := 20.
Definition DEBUG : Z := 10.
(** The level of a logger [logging.getLogger] creates *)
Definition NOTSET : Z := 0.

Record logger := { level : Z; handlers : list (target * Z) }.

(** The loggers of the process by name; [getLogger] gives the one there is. *)
Definition getLogger (logname : str) (ls : dict str logger) : logger :=
  default {| level := NOTSET; handlers := [] |} (dget logname ls).

Definition get_logger (logname : str) (ls : dict str logger) : dict str logger :=
  let l := getLogger logname ls in
  dset logname
    {| level := INFO; handlers := handlers l ++ [(Stdout, INFO); (DebugFile, DEBUG)] |} ls.

Definition enable_debug_logs (logname : str) (ls : dict str logger) : dict str logger :=
  let l := getLogger logname ls in
  dset logname
    {| level := DEBUG; handlers := (λ h, (h.1, DEBUG)) <$> handlers l |} ls.

(** Where a message of a level is written: to every handler that takes the level,
    once the logger does. *)
Definition written (lvl : Z) (l : logger) : list target :=
  if level l <=? lvl then (filter (λ h, h.2 <= lvl) (handlers l)).*1 else [].

Lemma get_logger_iter logname n ls :
  handlers (getLogger logname (Nat.iter n (get_logger logname) ls))
  = handlers (getLogger logname ls)
    ++ concat (replicate n [(Stdout, INFO); (DebugFile, DEBUG)]).
Proof.
  induction n as [|n IH]; [by rewrite app_nil_r|].
  rewrite Nat.iter_succ. unfold get_logger at 1, getLogger at 1.
  rewrite dget_dset_eq. simpl. rewrite IH, <-app_assoc. f_equal.
  clear IH. induction n as [|n IH]; [done|]. simpl. simpl in IH. by rewrite IH.
Qed.

Lemma get_logger_level logname n ls :
  level (getLogger logname (Nat.iter (S n) (get_logger logname) ls)) = INFO.
Proof.
  rewrite Nat.iter_succ. unfold get_logger at 1, getLogger at 1. by rewrite dget_dset_eq.
Qed.

(** Every call for the same name adds two handlers: once [n] objects have asked
    for their logger (each authentication session asks for [AuthSM]), a message
    is printed [n] times. *)
Lemma messages_repeat logname n :
  written INFO (getLogger logname (Nat.iter n (get_logger logname) []))
  = concat (replicate n [Stdout; DebugFile]).
Proof.
  destruct n as [|n]; [done|]. unfold written. rewrite get_logger_level, get_logger_iter.
  change (INFO <=? INFO) with true. cbv iota.
  change (handlers (getLogger logname [])) with (@nil (target * Z)).
  rewrite app_nil_l. generalize (S n). clear n. intros n.
  induction n as [|n IH]; [done|].
  rewrite !replicate_S. cbn [concat]. by rewrite filter_app, fmap_app, IH.
Qed.

(** Debug messages reach the debug file only once debugging is enabled. *)
Lemma debug_needs_enabling logname n ls :
  written DEBUG (getLogger logname (Nat.iter (S n) (get_logger logname) ls)) = [].
Proof. unfold written. by rewrite get_logger_level. Qed.

Lemma debug_enabled logname ls :
  written DEBUG (getLogger logname (enable_debug_logs logname ls))
  = (handlers (getLogger logname ls)).*1.
Proof.
  unfold enable_debug_logs. unfold getLogger at 1. rewrite dget_dset_eq. simpl.
  unfold written. cbn [level handlers]. change (DEBUG <=? DEBUG) with true. cbv iota.
  induction (handlers (getLogger logname ls)) as [|[t v] l IH]; [done|].
  rewrite fmap_cons, filter_cons_True, !fmap_cons, IH by done. done.
Qed.

End AuthLog.

(** ** utils.py: the interface *)

Module Interface.

(** [fcntl.ioctl]: what the kernel answers to a request on a datagram socket. *)
Definition kernel : Type := Z → bytes → res bytes.

Definition SIOCGIFADDR : Z := 0x8915.
Definition SIOCGIFHWADDR : Z := 0x8927.

Definition get_interface_name (hostname : str) : str := hostname ++ of_literal "-eth0".

(** [str(v)] for a byte *)
Definition dec_byte (v : Z) : str :=
  if v <? 10 then [48 + v]
  else if v <? 100 then [48 + v / 10; 48 + v mod 10]
  else [48 + v / 100; 48 + v / 10 mod 10; 48 + v mod 10].

(** [socket.inet_ntoa]: four bytes; any other number is an [OSError]. *)
Definition inet_ntoa (l : bytes) : res str :=
  if (length l =? 4)%nat then Ok (join 46 (dec_byte <$> l)) else Raise OtherException.

(** The text is cut before it is encoded ... *)
Definition get_interface_ip (k : kernel) (ifname : str) : res str :=
  b ← encode (take 15 ifname);
  reply ← k SIOCGIFADDR (pack_s 256 b);
  inet_ntoa (slice 20 24 reply).

(** ... and here after it was. *)
Definition get_interface_mac (k : kernel) (ifname : str) : res str :=
  b ← encode ifname;
  reply ← k SIOCGIFHWADDR (pack_s 256 (take 15 b));
  Ok (join COLON (hex02 <$> slice 18 24 reply)).

(** The text of the hardware address is one the address class parses, and it
    gives the six bytes of the reply. *)
Lemma interface_mac_parsed k ifname b reply :
  encode ifname = Ok b →
  k SIOCGIFHWADDR (pack_s 256 (take 15 b)) = Ok reply →
  bytes_ok reply → (24 <= length reply)%nat →
  (mac ← get_interface_mac k ifname; MacAddress.from_string mac) = Ok (slice 18 24 reply).
Proof.
  intros Hb Hk Hok Hlen. unfold get_interface_mac. rewrite Hb. simpl. rewrite Hk. simpl.
  apply MacAddress.from_string_to_str. split.
  - unfold slice. rewrite length_take, length_drop. lia.
  - unfold slice. apply Forall_take, Forall_drop, Hok.
Qed.

End Interface.

(** ** eap_socket.py *)

Module EapSocket.
Import Native.

Definition SIOCGIFINDEX : Z := 0x8933.
Definition PACKET_MR_PROMISC : Z := 1.
Definition SOL_PACKET : Z := 263.
Definition PACKET_ADD_MEMBERSHIP : Z := 1.

(** A socket of the system: its filter, the interface it is bound to, the options
    that were set, its timeout in tenths of a second and what was sent. *)
Record sock := {
  filter_ : Z;
  bound : option str;
  options : list (Z * Z * bytes);
  timeout : option Z;
  sent : list bytes;
  closed : bool
}.

Record PromiscuousSocket := {
  socket : option sock;
  interface_index : option Z;
  interface_name : str;
  eap_address : bytes
}.

Definition set_socket (x : sock) (s : PromiscuousSocket) : PromiscuousSocket :=
  {| socket := Some x; interface_index := interface_index s;
     interface_name := interface_name s; eap_address := eap_address s |}.
Definition set_index (i : Z) (s : PromiscuousSocket) : PromiscuousSocket :=
  {| socket := socket s; interface_index := Some i;
     interface_name := interface_name s; eap_address := eap_address s |}.

(** What the system calls on the raw socket answer. *)
Record system := {
  sys_socket : Z → res unit;
  sys_bind : str → res unit;
  sys_ioctl : Z → bytes → res bytes;
  sys_setsockopt : Z → Z → bytes → res unit
}.

(** [__init__] *)
Definition init (k : Interface.kernel) (interface_name : str) : res PromiscuousSocket :=
  mac ← Interface.get_interface_mac k interface_name;
  address ← MacAddress.from_string mac;
  Ok {| socket := None; interface_index := None; interface_name := interface_name;
        eap_address := address |}.

Section Setup.
Context (sys : system).

(** An operation on the socket; [None] has no methods. *)
Definition on_socket (f : sock → sock) : M PromiscuousSocket unit :=
  s ← getS;
  match socket s with
  | Some x => modify (set_socket (f x))
  | None => raise AttributeError
  end.

Definition open (socket_filter : Z) : M PromiscuousSocket unit :=
  lift (sys_socket sys socket_filter);;
  modify (set_socket {| filter_ := socket_filter; bound := None; options := [];
                        timeout := None; sent := []; closed := false |});;
  name ← gets interface_name;
  lift (sys_bind sys name);;
  on_socket (λ x, {| filter_ := filter_ x; bound := Some name; options := options x;
                     timeout := timeout x; sent := sent x; closed := closed x |}).

Definition get_interface_index : M PromiscuousSocket unit :=
  name ← gets interface_name;
  b ← lift (encode name);
  zero ← lift (pack_I 0);
  response ← lift (sys_ioctl sys SIOCGIFINDEX (pack_s 16 b ++ zero));
  r ← lift (unpack_16sI response);
  modify (set_index r.2).

(** The membership request; packing [None] is a [struct.error]. *)
Definition membership (index : option Z) (address : bytes) : res bytes :=
  i ← of_option StructError index;
  a ← pack_I i;
  b ← pack_Hn PACKET_MR_PROMISC;
  c ← pack_Hn (Z.of_nat (length address));
  Ok (a ++ b ++ c ++ pack_s 8 address).

Definition set_interface_promiscuous : M PromiscuousSocket unit :=
  s ← getS;
  request ← lift (membership (interface_index s) (eap_address s));
  lift (sys_setsockopt sys SOL_PACKET PACKET_ADD_MEMBERSHIP request);;
  on_socket (λ x, {| filter_ := filter_ x; bound := bound x;
                     options := options x ++ [(SOL_PACKET, PACKET_ADD_MEMBERSHIP, request)];
                     timeout := timeout x; sent := sent x; closed := closed x |}).

(** An error of a system call is logged and raised again. *)
Definition _setup (socket_filter : Z) : M PromiscuousSocket unit :=
  open socket_filter;;
  get_interface_index;;
  set_interface_promiscuous.

Definition shutdown : M PromiscuousSocket unit :=
  on_socket (λ x, {| filter_ := filter_ x; bound := bound x; options := options x;
                     timeout := timeout x; sent := sent x; closed := true |}).

(** [EapSocket.setup]: the EAPOL frames, with a timeout of two seconds. *)
Definition setup : M PromiscuousSocket unit :=
  _setup (htons 0x888e);;
  on_socket (λ x, {| filter_ := filter_ x; bound := bound x; options := options x;
                     timeout := Some 20; sent := sent x; closed := closed x |}).

(** [EapSocket.send] on an open socket *)
Definition send (data : bytes) : M PromiscuousSocket unit :=
  on_socket (λ x, {| filter_ := filter_ x; bound := bound x; options := options x;
                     timeout := timeout x; sent := sent x ++ [data]; closed := closed x |}).

End Setup.

(** *** Receiving

    What one turn of the loop meets: the socket was closed, or the call gives
    data, times out, fails with an error number, or raises something else. *)
Inductive event :=
  | Closed
  | Data (data : bytes)
  | Timeout
  | OSError (errno : Z)
  | Exception (e : exn).

Definition EBADFD : Z := 77.

(** [EapSocket.receive]: [None] when the turns that are given do not end it. *)
Fixpoint receive (turns : list event) : option (res (option bytes)) :=
  match turns with
  | [] => None
  | Closed :: _ => Some (Ok None)
  | Data data :: _ => Some (Ok (Some data))
  | Timeout :: turns => receive turns
  | OSError errno :: turns =>
      if errno =? EBADFD then Some (Ok None) else receive turns
  | Exception e :: _ => Some (Raise e)
  end.

(** *** Properties *)

(** The kernel reads from the request the interface, the promiscuous mode and the
    address, which has its six bytes at the front of the eight. *)
Lemma membership_read i address :
  0 ≤ i < 2 ^ 32 → length address = 6%nat →
  ∃ request, membership (Some i) address = Ok request ∧ length request = 16%nat ∧
    read_mreq request = (i, PACKET_MR_PROMISC, 6, address ++ [0; 0]).
Proof.
  intros Hi Hlen.
  assert (Hp : pack_I i = Ok (le 4 i)).
  { unfold pack_I. by rewrite (proj2 (Z.leb_le 0 i)), (proj2 (Z.ltb_lt i (2 ^ 32))) by lia. }
  unfold membership. cbn [of_option mbind res_bind]. rewrite Hp, Hlen.
  cbn [mbind res_bind]. eexists. split; [reflexivity|].
  pose proof (of_le_le 4 i ltac:(lia)) as Hle. pose proof (length_le 4 i) as H4.
  destruct (le 4 i) as [|x1 [|x2 [|x3 [|x4 [|]]]]]; try discriminate H4.
  destruct address as [|a1 [|a2 [|a3 [|a4 [|a5 [|a6 [|]]]]]]]; try discriminate Hlen.
  split; [done|]. rewrite <-Hle. reflexivity.
Qed.

(** Setting up the socket when the system calls succeed and the kernel answers the
    request for the name of the interface with its index. *)
Theorem setup_listens sys s b i :
  let frame := htons 0x888e in
  sys_socket sys frame = Ok () →
  sys_bind sys (interface_name s) = Ok () →
  encode (interface_name s) = Ok b → 0 ≤ i < 2 ^ 32 → length (eap_address s) = 6%nat →
  sys_ioctl sys SIOCGIFINDEX (pack_s 16 b ++ [0; 0; 0; 0]) = Ok (pack_s 16 b ++ le 4 i) →
  (∀ request, sys_setsockopt sys SOL_PACKET PACKET_ADD_MEMBERSHIP request = Ok ()) →
  ∃ s' x request,
    setup sys s = (s', Ok ()) ∧ interface_index s' = Some i ∧ socket s' = Some x ∧
    filter_ x = frame ∧ bound x = Some (interface_name s) ∧ timeout x = Some 20 ∧
    options x = [(SOL_PACKET, PACKET_ADD_MEMBERSHIP, request)] ∧
    read_mreq request = (i, PACKET_MR_PROMISC, 6, eap_address s ++ [0; 0]).
Proof.
  intros frame Hs Hb He Hi Hlen Hio Hset.
  destruct (membership_read i (eap_address s) Hi Hlen) as (request & Hm & _ & Hread).
  unfold setup, _setup. fold frame.
  assert (Hopen : ∃ x, open sys frame s = (set_socket x s, Ok ()) ∧ filter_ x = frame ∧
    bound x = Some (interface_name s) ∧ options x = []).
  { eexists. unfold open, on_socket. rewrite Hs. run. cbn [interface_name set_socket].
    rewrite Hb. run. done. }
  destruct Hopen as (x & Hopen & Hf & Hbound & Hopt).
  assert (Hindex : get_interface_index sys (set_socket x s)
    = (set_index i (set_socket x s), Ok ())).
  { unfold get_interface_index. run. cbn [interface_name set_socket]. rewrite He. run.
    change (pack_I 0) with (Ok [0; 0; 0; 0]). cbn beta iota. rewrite Hio. cbn beta iota.
    unfold unpack_16sI. rewrite length_app, length_pack_s, length_le. cbn [Nat.eqb Nat.add].
    cbn [snd].
    rewrite drop_app_length' by (symmetry; apply length_pack_s). by rewrite of_le_le by lia. }
  do 3 eexists. rewrite bind_assoc, (bind_ok _ _ _ _ _ Hopen), bind_assoc,
    (bind_ok _ _ _ _ _ Hindex).
  unfold set_interface_promiscuous, on_socket. run.
  cbn [interface_index eap_address socket set_socket set_index]. rewrite Hm. run.
  rewrite Hset. run. split_and!; try reflexivity; cbn; [done|done|by rewrite Hopt|done].
Qed.

(** A system on which everything succeeds and the interface has the index 3, and
    the socket of the interface [h1-eth0]. *)
Definition demo_system : system :=
  {| sys_socket := λ _, Ok (); sys_bind := λ _, Ok ();
     sys_ioctl := λ _ request, Ok (take 16 request ++ [3; 0; 0; 0]);
     sys_setsockopt := λ _ _ _, Ok () |}.
Definition demo_kernel : Interface.kernel :=
  λ _ request, Ok (take 18 request ++ [154; 2; 87; 30; 143; 1] ++ drop 24 request).

Example setup_demo :
  match init demo_kernel (Interface.get_interface_name (of_literal "h1")) with
  | Ok s =>
      match setup demo_system s with
      | (s', Ok _) => eap_address s' = [154; 2; 87; 30; 143; 1] ∧ interface_index s' = Some 3
      | _ => False
      end
  | _ => False
  end.
Proof. vm_compute. done. Qed.

(** Timeouts and errors other than a bad descriptor do not end [receive]. *)
Definition skipped (e : event) : bool :=
  match e with
  | Timeout => true
  | OSError errno => negb (errno =? EBADFD)
  | _ => false
  end.

Lemma receive_skips es turns : forallb skipped es = true → receive (es ++ turns) = receive turns.
Proof.
  induction es as [|e es IH]; [done|]. simpl. intros [He Hes]%andb_true_iff.
  destruct e; try discriminate He; [by apply IH|].
  simpl in He. destruct (errno =? EBADFD); [done|]. by apply IH.
Qed.

(** [receive] gives the first data, [None] once the socket is closed, or the first
    exception that is not an error of the system, and nothing else ends it. *)
Lemma receive_first turns r :
  receive turns = Some r ↔
  ∃ es e rest, turns = es ++ e :: rest ∧ forallb skipped es = true ∧ skipped e = false ∧
    r = match e with
        | Data data => Ok (Some data)
        | Exception x => Raise x
        | _ => Ok None
        end.
Proof.
  split.
  - induction turns as [|e turns IH]; [done|]. intros Hr.
    destruct (skipped e) eqn:He.
    + change (e :: turns) with ([e] ++ turns) in Hr.
      rewrite receive_skips in Hr by (simpl; by rewrite He).
      destruct (IH Hr) as (es & e' & rest & -> & Hes & He' & ->).
      exists (e :: es), e', rest. split_and!; [done|by simpl; rewrite He|done|done].
    + exists [], e, turns. split_and!; try done.
      destruct e; simpl in *; try congruence. apply negb_false_iff in He. rewrite He in Hr. congruence.
  - intros (es & e & rest & -> & Hes & He & ->). rewrite receive_skips by done.
    destruct e; simpl in *; try done. destruct (errno =? EBADFD); done.
Qed.

(** An interface that went down (errno 100) fails every reception at once: however
    many turns the loop makes, it does not return. *)
Lemma receive_spins n : receive (replicate n (OSError 100)) = None.
Proof. induction n; done. Qed.

End EapSocket.

(** ** radius_socket.py *)

Module RadiusSocket.

Definition ENOTCONN : Z := 107.

Record RadiusSocket := {
  opened : bool;                       (* [self.socket] is a socket *)
  bound : option (str * Z);
  sent : list (bytes * (str * Z));
  closed : bool;
  listen_ip : str;
  listen_port : Z;
  server_ip : str;
  server_port : Z
}.

Definition init (listen_ip : str) (listen_port : Z) (server_ip : str) (server_port : Z)
  : RadiusSocket :=
  {| opened := false; bound := None; sent := []; closed := false;
     listen_ip := listen_ip; listen_port := listen_port;
     server_ip := server_ip; server_port := server_port |}.

Definition with_socket (o : bool) (b : option (str * Z)) (out : list (bytes * (str * Z)))
  (c : bool) (s : RadiusSocket) : RadiusSocket :=
  {| opened := o; bound := b; sent := out; closed := c;
     listen_ip := listen_ip s; listen_port := listen_port s;
     server_ip := server_ip s; server_port := server_port s |}.

(** [setup]: the answers of [socket.socket] and of [bind]. *)
Definition setup (sys_socket : res unit) (sys_bind : str * Z → res unit)
  : M RadiusSocket unit :=
  lift sys_socket;;
  modify (with_socket true None [] false);;
  s ← getS;
  lift (sys_bind (listen_ip s, listen_port s));;
  modify (with_socket true (Some (listen_ip s, listen_port s)) [] false).

(** [send], on a socket that takes the data *)
Definition send (data : bytes) : M RadiusSocket unit :=
  s ← getS;
  if opened s
  then modify (with_socket true (bound s) (sent s ++ [(data, (server_ip s, server_port s))])
                 (closed s))
  else raise AttributeError.

(** [receive]: one datagram, cut to 4096 bytes. *)
Definition receive (datagram : bytes) : M RadiusSocket bytes :=
  s ← getS;
  if opened s then mret (take 4096 datagram) else raise AttributeError.

(** [shutdown]: [Some errno] when the system's shutdown fails.  An unconnected
    socket is closed all the same, another error leaves it open. *)
Definition shutdown (sys_shutdown : option Z) : M RadiusSocket unit :=
  s ← getS;
  if opened s then
    match sys_shutdown with
    | Some errno =>
        if errno =? ENOTCONN
        then modify (with_socket true (bound s) (sent s) true)
        else raise OtherException
    | None => modify (with_socket true (bound s) (sent s) true)
    end
  else raise AttributeError.

Lemma send_open data s :
  opened s = true →
  send data s = (with_socket true (bound s) (sent s ++ [(data, (server_ip s, server_port s))])
                   (closed s) s, Ok ()).
Proof. intros Ho. unfold send. run. by rewrite Ho. Qed.

(** After a set-up that succeeds, what is sent goes to the server, in order. *)
Lemma sends_to_server b s out :
  b (listen_ip s, listen_port s) = Ok () →
  ∃ s', (setup (Ok ()) b;; for_each out send) s = (s', Ok ()) ∧
    bound s' = Some (listen_ip s, listen_port s) ∧
    sent s' = (λ d, (d, (server_ip s, server_port s))) <$> out.
Proof.
  intros Hb. unfold setup. run. cbn [listen_ip listen_port with_socket]. rewrite Hb. run.
  set (s1 := with_socket _ _ _ _ (with_socket _ _ _ _ _)).
  assert (Hgen : ∀ out s1, opened s1 = true →
    ∃ s', for_each out send s1 = (s', Ok ()) ∧ bound s' = bound s1 ∧
      sent s' = sent s1 ++ ((λ d, (d, (server_ip s1, server_port s1))) <$> out)).
  { clear. intros out. induction out as [|d out IH]; intros s1 Ho.
    - exists s1. by rewrite app_nil_r.
    - cbn [for_each]. rewrite (bind_ok _ _ _ _ _ (send_open d s1 Ho)).
      destruct (IH (with_socket true (bound s1)
        (sent s1 ++ [(d, (server_ip s1, server_port s1))]) (closed s1) s1) eq_refl)
        as (s' & Hr & Hbound & Hsent).
      exists s'. split; [exact Hr|]. split; [exact Hbound|].
      rewrite Hsent. cbn. by rewrite <-app_assoc. }
  destruct (Hgen out s1 eq_refl) as (s' & Hr & Hbound & Hsent). by exists s'.
Qed.

(** Shutting down closes the socket, connected or not; after another error of the
    system it stays open. *)
Lemma shutdown_closes e s :
  opened s = true →
  closed (fst (shutdown e s)) = (if decide (e = None ∨ e = Some ENOTCONN) then true else closed s)
  ∧ (snd (shutdown e s) = Ok () ↔ e = None ∨ e = Some ENOTCONN).
Proof.
  intros Ho. unfold shutdown. run. rewrite Ho. destruct e as [n|]; cbn.
  - destruct (Z.eqb_spec n ENOTCONN) as [->|Hn]; cbn; destruct (decide _) as [Hd|Hd];
      naive_solver.
  - destruct (decide _); naive_solver.
Qed.

End RadiusSocket.
