(* ===== verification/Eap.v ===== *)
(** * EAP packets (src/subset/dot1x/authenticator/eap.py)

    The classes of EAP packets as one inductive type, [Eap.parse] with the
    table of registered parsers, and the [pack] methods. *)

From stdpp Require Import base list.
From Stdlib Require Import ZArith Lia.
From S2P Require Import Prelude Bytes.

Module Eap.

Definition EAP_HEADER_LENGTH : nat := 4.
Definition EAP_TYPE_LENGTH : nat := 1.

Definition REQUEST : Z := 1.
Definition RESPONSE : Z := 2.
Definition SUCCESS : Z := 3.
Definition FAILURE : Z := 4.
Definition IDENTITY : Z := 1.
Definition LEGACY_NAK : Z := 3.
Definition MD5_CHALLENGE : Z := 4.
Definition TLS : Z := 13.
Definition TTLS : Z := 21.
Definition PEAP : Z := 25.

(** The three subclasses of [EapTLSBase]. *)
Inductive tls_kind := KTLS | KTTLS | KPEAP.

(** [desired_auth_types] is a tuple of byte strings: [struct.unpack] returns a
    tuple and [parse] keeps it. *)
Inductive eap :=
  | EapIdentity (code packet_id : Z) (identity : str)
  | EapMd5Challenge (code packet_id : Z) (challenge extra_data : bytes)
  | EapSuccess (packet_id : Z)
  | EapFailure (packet_id : Z)
  | EapLegacyNak (code packet_id : Z) (desired_auth_types : list bytes)
  | EapTLSBase (kind : tls_kind) (code packet_id flags : Z) (extra_data : bytes).

Definition tls_type (k : tls_kind) : Z :=
  match k with KTLS => TLS | KTTLS => TTLS | KPEAP => PEAP end.

(** ** Parsing *)

Definition parse_identity (code packet_id : Z) (m : bytes) : res eap :=
  identity ← rethrow is_unicode MessageParseError (decode m);
  Ok (EapIdentity code packet_id identity).

Definition parse_md5 (code packet_id : Z) (m : bytes) : res eap :=
  value_length ← rethrow is_struct MessageParseError (unpack_B (take 1 m));
  let n := (1 + Z.to_nat value_length)%nat in
  Ok (EapMd5Challenge code packet_id (slice 1 n m) (drop n m)).

Definition parse_nak (code packet_id : Z) (m : bytes) : res eap :=
  t ← rethrow is_struct MessageParseError (unpack_s (length m) m);
  Ok (EapLegacyNak code packet_id [t]).

Definition parse_tls (k : tls_kind) (code packet_id : Z) (m : bytes) : res eap :=
  match m with
  | [] => Raise MessageParseError
  | flags :: extra => Ok (EapTLSBase k code packet_id flags extra)
  end.

(** [PARSERS], filled by [register_parser]. *)
Definition PARSERS (packet_type : Z) : option (Z → Z → bytes → res eap) :=
  if packet_type =? IDENTITY then Some parse_identity
  else if packet_type =? MD5_CHALLENGE then Some parse_md5
  else if packet_type =? LEGACY_NAK then Some parse_nak
  else if packet_type =? TLS then Some (parse_tls KTLS)
  else if packet_type =? TTLS then Some (parse_tls KTTLS)
  else if packet_type =? PEAP then Some (parse_tls KPEAP)
  else None.

(** [Eap.parse] *)
Definition parse (m : bytes) : res eap :=
  '(code, packet_id, length) ←
     rethrow is_struct MessageParseError (unpack_BBH (take EAP_HEADER_LENGTH m));
  if (code =? REQUEST) || (code =? RESPONSE) then
    packet_type ← rethrow is_struct MessageParseError
      (unpack_B (slice EAP_HEADER_LENGTH (EAP_HEADER_LENGTH + EAP_TYPE_LENGTH) m));
    let data := slice (EAP_HEADER_LENGTH + EAP_TYPE_LENGTH) (Z.to_nat length) m in
    rethrow is_key MessageParseError
      (p ← of_option KeyError (PARSERS packet_type); p code packet_id data)
  else if code =? SUCCESS then Ok (EapSuccess packet_id)
  else if code =? FAILURE then Ok (EapFailure packet_id)
  else Raise MessageParseError.

(** ** Packing *)

(** [Eap.pack] of the base class *)
Definition pack_base (code packet_id packet_type : Z) (body : bytes) : res bytes :=
  c ← pack_B code;
  i ← pack_B packet_id;
  n ← pack_H (Z.of_nat EAP_HEADER_LENGTH + Z.of_nat EAP_TYPE_LENGTH + len body);
  t ← pack_B packet_type;
  Ok (c ++ i ++ n ++ t ++ body).

(** [struct.pack("!BBH", code, packet_id, EAP_HEADER_LENGTH)] *)
Definition pack_result (code packet_id : Z) : res bytes :=
  c ← pack_B code; i ← pack_B packet_id;
  n ← pack_H (Z.of_nat EAP_HEADER_LENGTH);
  Ok (c ++ i ++ n).

(** [struct.pack("!%ds" % len(types), *types)]: one format item, so any number
    of values but one is an error, and the value is cut to that many bytes. *)
Definition pack_nak_body (types : list bytes) : res bytes :=
  match types with
  | [t] => Ok (pack_s (length types) t)
  | _ => Raise StructError
  end.

Definition pack (e : eap) : res bytes :=
  match e with
  | EapIdentity code packet_id identity =>
      packed_identity ← encode identity;
      pack_base code packet_id IDENTITY packed_identity
  | EapMd5Challenge code packet_id challenge extra_data =>
      value_length ← pack_B (len challenge);
      pack_base code packet_id MD5_CHALLENGE (value_length ++ challenge ++ extra_data)
  | EapSuccess packet_id => pack_result SUCCESS packet_id
  | EapFailure packet_id => pack_result FAILURE packet_id
  | EapLegacyNak code packet_id types =>
      body ← pack_nak_body types;
      pack_base code packet_id LEGACY_NAK body
  | EapTLSBase k code packet_id flags extra_data =>
      f ← pack_B flags;
      pack_base code packet_id (tls_type k) (f ++ extra_data)
  end.

(** ** Lemmas *)

(** A frame as [pack_base] writes it. *)
Lemma pack_base_ok code i t body b :
  pack_base code i t body = Ok b →
  b = code :: i :: (5 + len body) / 256 :: (5 + len body) mod 256 :: t :: body ∧
  byte_ok code ∧ byte_ok i ∧ byte_ok t ∧ 5 + len body < 65536.
Proof.
  unfold pack_base. intros H. inv_res.
  repeat match goal with
  | H : pack_B _ = Ok _ |- _ => apply pack_B_ok in H as [-> ?]
  | H : pack_H _ = Ok _ |- _ => apply pack_H_ok in H as [-> ?]
  end.
  split_and!; try done. unfold EAP_HEADER_LENGTH, EAP_TYPE_LENGTH in *. lia.
Qed.

(** Parsing the frame [pack_base] writes runs the registered parser on its body. *)
Lemma parse_framed code i t body p :
  code = REQUEST ∨ code = RESPONSE → 5 + len body < 65536 → PARSERS t = Some p →
  parse (code :: i :: (5 + len body) / 256 :: (5 + len body) mod 256 :: t :: body)
  = rethrow is_key MessageParseError (p code i body).
Proof.
  intros Hc Hlen Hp. unfold parse, EAP_HEADER_LENGTH, EAP_TYPE_LENGTH. simpl.
  rewrite join_H. pose proof (len_nonneg body).
  assert (slice 5 (Z.to_nat (5 + len body))
    (code :: i :: (5 + len body) / 256 :: (5 + len body) mod 256 :: t :: body) = body) as ->.
  { unfold slice. simpl. apply take_ge. unfold len. lia. }
  unfold slice; simpl.
  assert ((code =? REQUEST) || (code =? RESPONSE) = true) as ->.
  { destruct Hc as [-> | ->]; done. }
  by rewrite Hp.
Qed.

(** What the parsers return is never a [KeyError]. *)
Lemma parsers_total t p c i m :
  PARSERS t = Some p → (∃ e, p c i m = Ok e) ∨ p c i m = Raise MessageParseError.
Proof.
  unfold PARSERS.
  destruct (t =? IDENTITY).
  { intros [= <-]. unfold parse_identity, decode. destruct (decode_opt m); simpl; eauto. }
  destruct (t =? MD5_CHALLENGE).
  { intros [= <-]. unfold parse_md5. destruct m as [|x m]; simpl; eauto. }
  destruct (t =? LEGACY_NAK).
  { intros [= <-]. unfold parse_nak. rewrite unpack_s_self. simpl. eauto. }
  destruct (t =? TLS); [intros [= <-]; destruct m; simpl; eauto|].
  destruct (t =? TTLS); [intros [= <-]; destruct m; simpl; eauto|].
  destruct (t =? PEAP); [intros [= <-]; destruct m; simpl; eauto|done].
Qed.

Lemma rethrow_key_id {A} (r : res A) :
  (∃ a, r = Ok a) ∨ r = Raise MessageParseError → rethrow is_key MessageParseError r = r.
Proof. intros [[a ->]| ->]; done. Qed.

(** [Eap.parse] returns a packet or raises [MessageParseError], on any input. *)
Lemma eap_message_parse_total m : (∃ e, parse m = Ok e) ∨ parse m = Raise MessageParseError.
Proof.
  unfold parse, EAP_HEADER_LENGTH, EAP_TYPE_LENGTH.
  destruct m as [|code [|i [|l1 [|l2 m]]]]; simpl; eauto.
  destruct ((code =? REQUEST) || (code =? RESPONSE)).
  - destruct m as [|t m]; unfold slice at 1; simpl; eauto.
    destruct (PARSERS t) as [p|] eqn:Hp; simpl; eauto.
    destruct (parsers_total t p code i (slice 5 (Z.to_nat (256 * l1 + l2))
      (code :: i :: l1 :: l2 :: t :: m)) Hp) as [[e He]|He];
      apply (f_equal (rethrow is_key MessageParseError)) in He; eauto.
  - destruct (code =? SUCCESS); [eauto|]. destruct (code =? FAILURE); eauto.
Qed.

(** Packets [pack] can represent faithfully: a request or response code, and
    exactly one desired type of one byte in a NAK. *)
Definition packable (e : eap) : Prop :=
  match e with
  | EapIdentity c _ _ | EapMd5Challenge c _ _ _ | EapTLSBase _ c _ _ _ =>
      c = REQUEST ∨ c = RESPONSE
  | EapLegacyNak c _ types => (c = REQUEST ∨ c = RESPONSE) ∧ ∃ t, types = [[t]]
  | EapSuccess _ | EapFailure _ => True
  end.

Lemma parse_pack_result code i b :
  code = SUCCESS ∨ code = FAILURE → pack_result code i = Ok b →
  b = [code; i; 0; 4] ∧ byte_ok i.
Proof.
  intros Hc. unfold pack_result. intros H. inv_res.
  repeat match goal with
  | H : pack_B _ = Ok _ |- _ => apply pack_B_ok in H as [-> ?]
  | H : pack_H _ = Ok _ |- _ => apply pack_H_ok in H as [-> ?]
  end. done.
Qed.

Lemma parse_pack e b : packable e → pack e = Ok b → parse b = Ok e.
Proof.
  destruct e as [c i s|c i ch ex|i|i|c i ts|k c i f ex]; simpl; intros Hp H.
  - inv_res. apply pack_base_ok in H as (-> & _ & _ & _ & ?).
    rewrite (parse_framed _ _ _ _ parse_identity) by done.
    unfold parse_identity. by rewrite (decode_encode s) by done.
  - inv_res. apply pack_B_ok in E as [-> ?].
    apply pack_base_ok in H as (-> & _ & _ & _ & ?).
    rewrite (parse_framed _ _ _ _ parse_md5) by done.
    unfold parse_md5; simpl. unfold slice; simpl.
    rewrite drop_0, Nat.sub_0_r. unfold len. rewrite Nat2Z.id.
    by rewrite take_app_length, drop_app_length.
  - apply parse_pack_result in H as [-> ?]; [done|by left].
  - apply parse_pack_result in H as [-> ?]; [done|by right].
  - destruct Hp as [Hc [t ->]]. simpl in H.
    apply pack_base_ok in H as (-> & _ & _ & _ & ?).
    by rewrite (parse_framed _ _ _ _ parse_nak) by done.
  - inv_res. apply pack_B_ok in E as [-> ?].
    apply pack_base_ok in H as (-> & _ & _ & _ & ?).
    rewrite (parse_framed _ _ _ _ (parse_tls k)) by (try done; by destruct k). done.
Qed.
(** ** Relaying: parsing a received packet and packing it again *)

Lemma pack_base_in code i t body :
  byte_ok code → byte_ok i → byte_ok t → 5 + len body < 65536 →
  pack_base code i t body =
  Ok (code :: i :: (5 + len body) / 256 :: (5 + len body) mod 256 :: t :: body).
Proof.
  intros ????. pose proof (len_nonneg body). unfold pack_base.
  rewrite !pack_B_in by done.
  rewrite pack_H_in by (unfold EAP_HEADER_LENGTH, EAP_TYPE_LENGTH; lia). done.
Qed.

(** The declared length of a packet, from its header. *)
Definition declared (m : bytes) : Z :=
  match m with _ :: _ :: a :: b :: _ => 256 * a + b | _ => 0 end.

(** A frame whose declared lengths agree with its contents: the header length
    with the bytes that are there, the value size of an MD5 challenge with its
    value, and a NAK asks for one authentication type. *)
Definition well_framed (m : bytes) : bool :=
  match m with
  | code :: _ :: a :: b :: rest =>
      let n := 256 * a + b in
      if (code =? SUCCESS) || (code =? FAILURE) then n =? 4
      else match rest with
           | t :: body =>
               (5 <=? n) && (n <=? len m) &&
               (if t =? MD5_CHALLENGE
                then match body with v :: _ => 6 + v <=? n | [] => false end
                else if t =? LEGACY_NAK then n =? 6 else true)
           | [] => false
           end
  | _ => false
  end.

(** The frame cut at its declared length, with its header written back. *)
Lemma take_declared code i a b t body :
  byte_ok a → byte_ok b → 5 ≤ 256 * a + b ≤ 5 + len body →
  take (Z.to_nat (256 * a + b)) (code :: i :: a :: b :: t :: body) =
  code :: i :: (5 + len (take (Z.to_nat (256 * a + b) - 5) body)) / 256
       :: (5 + len (take (Z.to_nat (256 * a + b) - 5) body)) mod 256
       :: t :: take (Z.to_nat (256 * a + b) - 5) body.
Proof.
  intros Ha Hb Hn. unfold len in *. rewrite length_take.
  replace (5 + Z.of_nat ((Z.to_nat (256 * a + b) - 5) `min` length body))
    with (256 * a + b) by lia.
  destruct (split_H a b Ha Hb) as [-> ->].
  replace (Z.to_nat (256 * a + b)) with (5 + (Z.to_nat (256 * a + b) - 5))%nat at 1 by lia.
  done.
Qed.

(** What each parser returns is packed into the same body. *)
Lemma parsers_pack t p code i body e :
  PARSERS t = Some p → p code i body = Ok e → bytes_ok body →
  (t = MD5_CHALLENGE → ∃ v rest, body = v :: rest ∧ v ≤ len rest) →
  (t = LEGACY_NAK → len body = 1) →
  pack e = pack_base code i t body.
Proof.
  unfold PARSERS. intros Hp He Hok Hmd5 Hnak.
  destruct (Z.eqb_spec t IDENTITY) as [->|].
  { injection Hp as <-. unfold parse_identity in He.
    destruct (decode body) as [s|[]] eqn:Hd; simpl in He; inv_res.
    simpl. by rewrite (encode_decode _ _ Hd). }
  destruct (Z.eqb_spec t MD5_CHALLENGE) as [->|].
  { injection Hp as <-. destruct (Hmd5 eq_refl) as (v & rest & -> & Hv).
    apply Forall_cons in Hok as [Hvok _]. unfold parse_md5 in He. simpl in He. inv_res.
    unfold slice. simpl. rewrite drop_0, Nat.sub_0_r.
    assert (len (take (Z.to_nat v) rest) = v) as ->.
    { unfold len in *. unfold byte_ok in Hvok. rewrite length_take. lia. }
    rewrite pack_B_in by done. simpl. by rewrite take_drop. }
  destruct (Z.eqb_spec t LEGACY_NAK) as [->|].
  { injection Hp as <-. specialize (Hnak eq_refl). unfold parse_nak in He.
    rewrite unpack_s_self in He. simpl in He. inv_res. simpl.
    rewrite pack_s_exact; [done|]. unfold len in Hnak. lia. }
  assert (∀ k, parse_tls k code i body = Ok e → t = tls_type k →
    pack e = pack_base code i t body) as Htls.
  { intros k Hk ->. destruct body as [|f ex]; simpl in Hk; [done|]. injection Hk as <-.
    apply Forall_cons in Hok as [Hf _]. simpl. by rewrite pack_B_in by done. }
  destruct (Z.eqb_spec t TLS); [injection Hp as <-; by eapply (Htls KTLS)|].
  destruct (Z.eqb_spec t TTLS); [injection Hp as <-; by eapply (Htls KTTLS)|].
  destruct (Z.eqb_spec t PEAP); [injection Hp as <-; by eapply (Htls KPEAP)|done].
Qed.

(** A parsed request or response went through its registered parser. *)
Lemma parse_request_inv code i a b t body e :
  parse (code :: i :: a :: b :: t :: body) = Ok e → code = REQUEST ∨ code = RESPONSE →
  ∃ p, PARSERS t = Some p ∧ p code i (take (Z.to_nat (256 * a + b) - 5) body) = Ok e.
Proof.
  intros H Hc. unfold parse, EAP_HEADER_LENGTH, EAP_TYPE_LENGTH in H. simpl in H.
  assert ((code =? REQUEST) || (code =? RESPONSE) = true) as Hb
    by (destruct Hc as [-> | ->]; done).
  rewrite Hb in H. unfold slice in H. simpl in H. rewrite drop_0 in H.
  destruct (PARSERS t) as [p|]; [|done]. exists p. split; [done|]. simpl in H.
  destruct (p code i _) as [e'|[]]; simpl in H; congruence.
Qed.

Lemma parse_code code i a b rest e :
  parse (code :: i :: a :: b :: rest) = Ok e →
  (code = REQUEST ∨ code = RESPONSE) ∨
  (code = SUCCESS ∧ e = EapSuccess i) ∨ (code = FAILURE ∧ e = EapFailure i).
Proof.
  unfold parse, EAP_HEADER_LENGTH. simpl.
  destruct (Z.eqb_spec code REQUEST); [by left; left|].
  destruct (Z.eqb_spec code RESPONSE); [by left; right|].
  simpl. destruct (Z.eqb_spec code SUCCESS); [intros [= <-]; by right; left|].
  destruct (Z.eqb_spec code FAILURE); [intros [= <-]; by right; right|done].
Qed.

Lemma pack_result_in code i : byte_ok code → byte_ok i → pack_result code i = Ok [code; i; 0; 4].
Proof. intros. unfold pack_result. by rewrite !pack_B_in by done. Qed.

(** Relaying is transparent.  When [Eap.parse] accepts a well-framed packet,
    packing the parsed object gives the received bytes back, up to the declared
    length: what the authenticator forwards between supplicant and RADIUS server
    is what it received. *)
Theorem relay_transparent m e :
  bytes_ok m → well_framed m = true → parse m = Ok e →
  pack e = Ok (take (Z.to_nat (declared m)) m).
Proof.
  intros Hok Hwf He. destruct m as [|code [|i [|a [|b rest]]]]; try done.
  apply Forall_cons in Hok as [Hcode Hok]. apply Forall_cons in Hok as [Hi Hok].
  apply Forall_cons in Hok as [Ha Hok]. apply Forall_cons in Hok as [Hb Hok].
  destruct (parse_code _ _ _ _ _ _ He) as [Hc|[[-> ->]|[-> ->]]]; cycle 1.
  1,2: simpl in Hwf; apply Z.eqb_eq in Hwf; simpl;
    rewrite pack_result_in by done; rewrite Hwf; unfold byte_ok in *; simpl;
    repeat f_equal; lia.
  assert ((code =? SUCCESS) || (code =? FAILURE) = false) as Hnr
    by (destruct Hc as [-> | ->]; done).
  unfold well_framed in Hwf. rewrite Hnr in Hwf. destruct rest as [|t body]; [done|].
  apply andb_true_iff in Hwf as [[H5 Hle]%andb_true_iff Hkind].
  apply Z.leb_le in H5, Hle. rewrite !len_cons in Hle.
  apply Forall_cons in Hok as [Ht Hbody].
  destruct (parse_request_inv _ _ _ _ _ _ _ He Hc) as (p & Hp & Hpe).
  assert (len (take (Z.to_nat (256 * a + b) - 5) body) = 256 * a + b - 5) as Hlen.
  { unfold len in *. rewrite length_take. lia. }
  rewrite (parsers_pack _ _ _ _ _ _ Hp Hpe); [|by apply Forall_take| |].
  - unfold declared. rewrite take_declared by (done || lia).
    rewrite pack_base_in; [done..|]. unfold byte_ok in *. lia.
  - intros ->. rewrite Z.eqb_refl in Hkind. destruct body as [|v rest]; [done|].
    apply Z.leb_le in Hkind. apply Forall_cons in Hbody as [Hv _].
    exists v, (take (Z.to_nat (256 * a + b) - 6) rest). split.
    + by replace (Z.to_nat (256 * a + b) - 5)%nat
        with (S (Z.to_nat (256 * a + b) - 6)) by (unfold byte_ok in *; lia).
    + unfold len in *. simpl in Hle. rewrite length_take. unfold byte_ok in *. lia.
  - intros ->. simpl in Hkind. apply Z.eqb_eq in Hkind. lia.
Qed.

Lemma relay_transparent_witness :
  let m := [2; 7; 0; 9; 1; 117; 115; 101; 114; 255; 255] in
  ∃ e, parse m = Ok e ∧ pack e = Ok [2; 7; 0; 9; 1; 117; 115; 101; 114].
Proof.
  exists (EapIdentity 2 7 [117; 115; 101; 114]). split; [reflexivity|].
  apply (relay_transparent [2; 7; 0; 9; 1; 117; 115; 101; 114; 255; 255]);
    [repeat constructor; lia|reflexivity|reflexivity].
Defined.

(** A NAK that asks for several authentication types loses all but the
    first when it is relayed: [struct.unpack] returns a one-element tuple, whose
    length, one, is then used as the length of the packed string. *)
Theorem nak_relay_truncates code i t rest e :
  code = REQUEST ∨ code = RESPONSE → byte_ok i → byte_ok t → len rest < 65530 →
  parse (code :: i :: (6 + len rest) / 256 :: (6 + len rest) mod 256 :: LEGACY_NAK
           :: t :: rest) = Ok e →
  e = EapLegacyNak code i [t :: rest] ∧ pack e = Ok [code; i; 0; 6; LEGACY_NAK; t].
Proof.
  intros Hc Hi Ht Hlen He. pose proof (len_nonneg rest).
  destruct (parse_request_inv _ _ _ _ _ _ _ He Hc) as (p & [= <-] & Hpe).
  rewrite join_H, take_ge in Hpe by (unfold len; simpl; lia).
  unfold parse_nak in Hpe. rewrite unpack_s_self in Hpe. simpl in Hpe. inv_res.
  split; [done|]. simpl. rewrite pack_base_in; [done| |done|done|done].
  destruct Hc as [-> | ->]; unfold byte_ok, REQUEST, RESPONSE; lia.
Qed.

Lemma nak_relay_truncates_witness :
  ∃ e, parse [2; 9; 0; 8; 3; 13; 21; 25] = Ok e ∧ pack e = Ok [2; 9; 0; 6; 3; 13].
Proof.
  exists (EapLegacyNak 2 9 [[13; 21; 25]]). split; [reflexivity|].
  apply (nak_relay_truncates 2 9 13 [21; 25]); [right; reflexivity|split; lia|split; lia| |];
    reflexivity.
Defined.

End Eap.
