(* ===== verification/Messages.v ===== *)
(** * Authenticator messages and the frames that carry them
      (src/subset/dot1x/authenticator: message_parser.py, ethernet_packet.py,
      auth_8021x.py)

    The message classes, the EAPOL and Ethernet headers, [MessageParser] and the
    Ethernet side of [MessagePacker].  Packing to RADIUS is in the file of the
    RADIUS packets. *)

From stdpp Require Import base list sets.
From Stdlib Require Import ZArith Lia.
From S2P Require Import Prelude Bytes Mac Eap.
Import Eap.

(** ** Ethernet packets *)

Module EthernetPacket.

Definition ETHERNET_HEADER_LENGTH : nat := 6 + 6 + 2.

Record EthernetPacket := { dst_mac : bytes; src_mac : bytes; ethertype : Z; data : bytes }.

Definition parse (packed_message : bytes) : res EthernetPacket :=
  '(dst, src, ety) ← rethrow is_struct MessageParseError
     (unpack_6s6sH (take ETHERNET_HEADER_LENGTH packed_message));
  Ok {| dst_mac := dst; src_mac := src; ethertype := ety;
        data := drop ETHERNET_HEADER_LENGTH packed_message |}.

Definition pack (p : EthernetPacket) : res bytes :=
  ety ← pack_H (ethertype p);
  Ok ((pack_s 6 (dst_mac p) ++ pack_s 6 (src_mac p) ++ ety) ++ data p).

End EthernetPacket.

(** ** EAPOL packets *)

Module Auth8021x.

Definition AUTH_8021X_HEADER_LENGTH : nat := 1 + 1 + 2.

Record Auth8021x := { version : Z; packet_type : Z; data : bytes }.

Definition parse (packed_message : bytes) : res Auth8021x :=
  '(v, t, length) ← rethrow is_struct MessageParseError
     (unpack_BBH (take AUTH_8021X_HEADER_LENGTH packed_message));
  Ok {| version := v; packet_type := t;
        data := slice AUTH_8021X_HEADER_LENGTH
                  (AUTH_8021X_HEADER_LENGTH + Z.to_nat length) packed_message |}.

Definition pack (p : Auth8021x) : res bytes :=
  v ← pack_B (version p);
  t ← pack_B (packet_type p);
  n ← pack_H (len (data p));
  Ok ((v ++ t ++ n) ++ data p).

End Auth8021x.

(** ** Messages *)

(** The source address of a message: the parser sets a [MacAddress], the RADIUS
    side [None], and the state machine its text. *)
Inductive src_t :=
  | SrcNone
  | SrcMac (address : bytes)
  | SrcStr (text : str).

Inductive message :=
  | SuccessMessage (src_mac : src_t) (message_id : Z)
  | FailureMessage (src_mac : src_t) (message_id : Z)
  | IdentityMessage (src_mac : src_t) (message_id code : Z) (identity : str)
  | LegacyNakMessage (src_mac : src_t) (message_id code : Z) (desired_auth_types : list bytes)
  | Md5ChallengeMessage (src_mac : src_t) (message_id code : Z) (challenge extra_data : bytes)
  | TlsMessageBase (kind : tls_kind) (src_mac : src_t) (message_id code flags : Z)
      (extra_data : bytes)
  | EapolStartMessage (src_mac : src_t)
  | EapolLogoffMessage (src_mac : src_t).

Definition message_src (m : message) : src_t :=
  match m with
  | SuccessMessage s _ | FailureMessage s _ | IdentityMessage s _ _ _
  | LegacyNakMessage s _ _ _ | Md5ChallengeMessage s _ _ _ _ | TlsMessageBase _ s _ _ _ _
  | EapolStartMessage s | EapolLogoffMessage s => s
  end.

(** [isinstance(m, EapolStartMessage)], [isinstance(m, IdentityMessage)] *)
Definition is_eapol_start (m : message) : bool :=
  match m with EapolStartMessage _ => true | _ => false end.
Definition identity_of (m : message) : option str :=
  match m with IdentityMessage _ _ _ i => Some i | _ => None end.

Module MessageParser.

(** The [build] methods, dispatched on the class of the parsed packet. *)
Definition build (src_mac : src_t) (e : eap) : message :=
  match e with
  | EapIdentity code packet_id identity => IdentityMessage src_mac packet_id code identity
  | EapMd5Challenge code packet_id ch ex => Md5ChallengeMessage src_mac packet_id code ch ex
  | EapLegacyNak code packet_id types => LegacyNakMessage src_mac packet_id code types
  | EapTLSBase k code packet_id flags ex => TlsMessageBase k src_mac packet_id code flags ex
  | EapSuccess packet_id => SuccessMessage src_mac packet_id
  | EapFailure packet_id => FailureMessage src_mac packet_id
  end.

Definition eap_parse (data : bytes) (src_mac : src_t) : res message :=
  e ← Eap.parse data; Ok (build src_mac e).

Definition one_x_parse (data : bytes) (src_mac : src_t) : res message :=
  p ← Auth8021x.parse data;
  if Auth8021x.packet_type p =? 0 then eap_parse (Auth8021x.data p) src_mac
  else if Auth8021x.packet_type p =? 1 then Ok (EapolStartMessage src_mac)
  else if Auth8021x.packet_type p =? 2 then Ok (EapolLogoffMessage src_mac)
  else Raise MessageParseError.

(** The message and the destination address. *)
Definition ethernet_parse (packed_message : bytes) : res (message * bytes) :=
  p ← EthernetPacket.parse packed_message;
  if negb (EthernetPacket.ethertype p =? 0x888e) then Raise MessageParseError
  else m ← one_x_parse (EthernetPacket.data p) (SrcMac (EthernetPacket.src_mac p));
       Ok (m, EthernetPacket.dst_mac p).

End MessageParser.

Module MessagePacker.

(** The EAP object [eap_pack] builds; the EAPOL messages have none. *)
Definition to_eap (m : message) : option eap :=
  match m with
  | IdentityMessage _ i c s => Some (EapIdentity c i s)
  | LegacyNakMessage _ i c types => Some (EapLegacyNak c i types)
  | Md5ChallengeMessage _ i c ch ex => Some (EapMd5Challenge c i ch ex)
  | TlsMessageBase k _ i c f ex => Some (EapTLSBase k c i f ex)
  | SuccessMessage _ i => Some (EapSuccess i)
  | FailureMessage _ i => Some (EapFailure i)
  | EapolStartMessage _ | EapolLogoffMessage _ => None
  end.

(** Version, packet type and packed EAP. *)
Definition eap_pack (m : message) : res (Z * Z * bytes) :=
  match to_eap m with
  | Some e => data ← Eap.pack e; Ok (1, 0, data)
  | None => Ok (1, if is_eapol_start m then 1 else 2, [])
  end.

Definition pack (m : message) : res bytes :=
  '(v, t, data) ← eap_pack m;
  Auth8021x.pack {| Auth8021x.version := v; Auth8021x.packet_type := t;
                    Auth8021x.data := data |}.

(** The addresses are [None] before they are known: reading [.address] of [None]
    raises [AttributeError]. *)
Definition ethernet_pack (m : message) (src_mac dst_mac : option bytes) : res bytes :=
  data ← pack m;
  dst ← of_option AttributeError dst_mac;
  src ← of_option AttributeError src_mac;
  EthernetPacket.pack {| EthernetPacket.dst_mac := dst; EthernetPacket.src_mac := src;
                         EthernetPacket.ethertype := 0x888e; EthernetPacket.data := data |}.

End MessagePacker.

Import MessageParser MessagePacker.

(** ** Lemmas *)

Lemma eap_parse_total d s :
  (∃ m, eap_parse d s = Ok m) ∨ eap_parse d s = Raise MessageParseError.
Proof.
  unfold eap_parse. destruct (Eap.eap_message_parse_total d) as [[e ->]| ->]; simpl; eauto.
Qed.

Lemma one_x_parse_total d s :
  (∃ m, one_x_parse d s = Ok m) ∨ one_x_parse d s = Raise MessageParseError.
Proof.
  unfold one_x_parse, Auth8021x.parse, Auth8021x.AUTH_8021X_HEADER_LENGTH.
  destruct d as [|v [|t [|a [|b d]]]]; simpl; eauto.
  destruct (t =? 0); [apply eap_parse_total|].
  destruct (t =? 1); [eauto|]. destruct (t =? 2); eauto.
Qed.

Lemma ethernet_parse_cases b :
  (∃ m dst, ethernet_parse b = Ok (m, dst)) ∨ ethernet_parse b = Raise MessageParseError.
Proof.
  unfold ethernet_parse, EthernetPacket.parse.
  destruct (rethrow is_struct MessageParseError
    (unpack_6s6sH (take EthernetPacket.ETHERNET_HEADER_LENGTH b))) as [[[dst src] ety]|e] eqn:E.
  - simpl. destruct (ety =? 34958); simpl; [|eauto].
    destruct (one_x_parse_total (drop EthernetPacket.ETHERNET_HEADER_LENGTH b) (SrcMac src))
      as [[m ->]| ->]; simpl; eauto.
  - right. unfold unpack_6s6sH in E. simpl.
    repeat case_match; simpl in E; congruence.
Qed.

(** A message with another source address. *)
Definition with_src (s : src_t) (m : message) : message :=
  match m with
  | SuccessMessage _ i => SuccessMessage s i
  | FailureMessage _ i => FailureMessage s i
  | IdentityMessage _ i c x => IdentityMessage s i c x
  | LegacyNakMessage _ i c x => LegacyNakMessage s i c x
  | Md5ChallengeMessage _ i c x y => Md5ChallengeMessage s i c x y
  | TlsMessageBase k _ i c f x => TlsMessageBase k s i c f x
  | EapolStartMessage _ => EapolStartMessage s
  | EapolLogoffMessage _ => EapolLogoffMessage s
  end.

(** The messages whose EAP packet survives packing. *)
Definition msg_packable (m : message) : Prop :=
  match to_eap m with Some e => packable e | None => True end.

Lemma build_to_eap s m e : to_eap m = Some e → build s e = with_src s m.
Proof. by destruct m; intros [= <-]. Qed.

Lemma eap_parse_pack m e b s :
  to_eap m = Some e → packable e → Eap.pack e = Ok b → eap_parse b s = Ok (with_src s m).
Proof.
  intros Hm Hp Hb. unfold eap_parse. rewrite (Eap.parse_pack _ _ Hp Hb). simpl.
  by rewrite (build_to_eap s m e).
Qed.

Lemma auth_parse_pack v t d b :
  Auth8021x.pack {| Auth8021x.version := v; Auth8021x.packet_type := t; Auth8021x.data := d |}
    = Ok b →
  Auth8021x.parse b =
    Ok {| Auth8021x.version := v; Auth8021x.packet_type := t; Auth8021x.data := d |}.
Proof.
  unfold Auth8021x.pack. simpl. intros H. inv_res.
  apply pack_B_ok in E as [-> ?]. apply pack_B_ok in E0 as [-> ?].
  apply pack_H_ok in E1 as [-> ?].
  unfold Auth8021x.parse, Auth8021x.AUTH_8021X_HEADER_LENGTH. simpl. rewrite join_H.
  do 2 f_equal. unfold slice. simpl. rewrite drop_0. apply take_ge. unfold len. lia.
Qed.

Lemma one_x_parse_pack m b s :
  msg_packable m → pack m = Ok b → one_x_parse b s = Ok (with_src s m).
Proof.
  unfold msg_packable, pack, eap_pack. intros Hp H.
  destruct (to_eap m) as [e|] eqn:He; simpl in H.
  - inv_res. unfold one_x_parse. rewrite (auth_parse_pack _ _ _ _ H). simpl.
    by eapply eap_parse_pack.
  - unfold one_x_parse. rewrite (auth_parse_pack _ _ _ _ H). simpl. by destruct m.
Qed.

Lemma ethernet_parse_pack_frame dst src ety d b :
  length dst = 6%nat → length src = 6%nat →
  EthernetPacket.pack {| EthernetPacket.dst_mac := dst; EthernetPacket.src_mac := src;
    EthernetPacket.ethertype := ety; EthernetPacket.data := d |} = Ok b →
  EthernetPacket.parse b =
    Ok {| EthernetPacket.dst_mac := dst; EthernetPacket.src_mac := src;
          EthernetPacket.ethertype := ety; EthernetPacket.data := d |}.
Proof.
  intros Hd Hs. unfold EthernetPacket.pack. simpl. intros H. inv_res.
  apply pack_H_ok in E as [-> ?]. rewrite !pack_s_exact by done.
  destruct dst as [|d1 [|d2 [|d3 [|d4 [|d5 [|d6 [|]]]]]]]; try done.
  destruct src as [|s1 [|s2 [|s3 [|s4 [|s5 [|s6 [|]]]]]]]; try done.
  unfold EthernetPacket.parse, EthernetPacket.ETHERNET_HEADER_LENGTH. simpl.
  by rewrite join_H, drop_0.
Qed.

Lemma ethernet_parse_pack m src dst b :
  msg_packable m → length src = 6%nat → length dst = 6%nat →
  ethernet_pack m (Some src) (Some dst) = Ok b →
  ethernet_parse b = Ok (with_src (SrcMac src) m, dst).
Proof.
  intros Hp Hs Hd H. unfold ethernet_pack in H. simpl in H. inv_res.
  unfold ethernet_parse. rewrite (ethernet_parse_pack_frame _ _ _ _ _ Hd Hs H). simpl.
  by rewrite (one_x_parse_pack m a (SrcMac src)).
Qed.

(** ** Properties *)

(** Whatever bytes arrive on the EAP socket, [ethernet_parse] returns a
    message and a destination or raises [MessageParseError]: the receiving loop,
    which catches only that exception, survives any frame. *)
Theorem ethernet_parse_total b :
  (∃ m dst, ethernet_parse b = Ok (m, dst)) ∨ ethernet_parse b = Raise MessageParseError.
Proof. apply ethernet_parse_cases. Qed.

(** A message packed into an Ethernet frame is parsed back by the peer, with
    the frame's source as its source address and the same destination. *)
Theorem ethernet_roundtrip m src dst b :
  msg_packable m → length src = 6%nat → length dst = 6%nat →
  ethernet_pack m (Some src) (Some dst) = Ok b →
  ethernet_parse b = Ok (with_src (SrcMac src) m, dst).
Proof. apply ethernet_parse_pack. Qed.

Lemma ethernet_roundtrip_witness :
  ethernet_parse (replicate 6 2 ++ replicate 6 1 ++ [0x88; 0x8e; 1; 0; 0; 6; 1; 255; 0; 6; 1; 65])
  = Ok (IdentityMessage (SrcMac (replicate 6 1)) 255 REQUEST [65], replicate 6 2).
Proof.
  apply (ethernet_roundtrip (IdentityMessage (SrcStr []) 255 REQUEST [65])
    (replicate 6 1) (replicate 6 2)); [left; reflexivity|reflexivity|reflexivity|reflexivity].
Defined.
