(* ===== verification/Md5.v ===== *)
(** * MD5 and HMAC-MD5

    The two functions of Python's [hashlib] and [hmac] that the RADIUS code
    calls, as executable definitions: MD5 of RFC 1321 on 32-bit words kept in
    range with [mod 2^32], and HMAC of RFC 2104 over it. *)

From stdpp Require Import base list strings.
From Stdlib Require Import ZArith Lia.
From S2P Require Import Prelude Bytes.

Definition W32 : Z := 4294967296.
Definition add32 (a b : Z) : Z := (a + b) mod W32.
Definition not32 (a : Z) : Z := Z.lxor a (W32 - 1).
Definition rotl32 (a n : Z) : Z :=
  Z.lor (Z.shiftl a n mod W32) (Z.shiftr a (32 - n)).

(** [floor(2^32 * abs(sin(i + 1)))] *)
Definition md5_K : list Z :=
  [3614090360; 3905402710; 606105819; 3250441966; 4118548399; 1200080426;
   2821735955; 4249261313; 1770035416; 2336552879; 4294925233; 2304563134;
   1804603682; 4254626195; 2792965006; 1236535329; 4129170786; 3225465664;
   643717713; 3921069994; 3593408605; 38016083; 3634488961; 3889429448;
   568446438; 3275163606; 4107603335; 1163531501; 2850285829; 4243563512;
   1735328473; 2368359562; 4294588738; 2272392833; 1839030562; 4259657740;
   2763975236; 1272893353; 4139469664; 3200236656; 681279174; 3936430074;
   3572445317; 76029189; 3654602809; 3873151461; 530742520; 3299628645;
   4096336452; 1126891415; 2878612391; 4237533241; 1700485571; 2399980690;
   4293915773; 2240044497; 1873313359; 4264355552; 2734768916; 1309151649;
   4149444226; 3174756917; 718787259; 3951481745].

Definition md5_s : list Z :=
  [7; 12; 17; 22; 7; 12; 17; 22; 7; 12; 17; 22; 7; 12; 17; 22;
   5; 9; 14; 20; 5; 9; 14; 20; 5; 9; 14; 20; 5; 9; 14; 20;
   4; 11; 16; 23; 4; 11; 16; 23; 4; 11; 16; 23; 4; 11; 16; 23;
   6; 10; 15; 21; 6; 10; 15; 21; 6; 10; 15; 21; 6; 10; 15; 21].

(** The non-linear function and the index of the message word of step [i]. *)
Definition md5_F (i : nat) (b c d : Z) : Z :=
  if (i <? 16)%nat then Z.lor (Z.land b c) (Z.land (not32 b) d)
  else if (i <? 32)%nat then Z.lor (Z.land d b) (Z.land (not32 d) c)
  else if (i <? 48)%nat then Z.lxor (Z.lxor b c) d
  else Z.lxor c (Z.lor b (not32 d)).
Definition md5_g (i : nat) : nat :=
  if (i <? 16)%nat then i
  else if (i <? 32)%nat then (5 * i + 1) mod 16
  else if (i <? 48)%nat then (3 * i + 5) mod 16
  else (7 * i) mod 16.

Record md5_state := { st_a : Z; st_b : Z; st_c : Z; st_d : Z }.

Definition md5_step (m : list Z) (s : md5_state) (i : nat) : md5_state :=
  let f := add32 (add32 (md5_F i (st_b s) (st_c s) (st_d s)) (st_a s))
                 (add32 (nth i md5_K 0) (nth (md5_g i) m 0)) in
  {| st_a := st_d s; st_b := add32 (st_b s) (rotl32 f (nth i md5_s 0));
     st_c := st_b s; st_d := st_c s |}.

(** Little-endian words of four bytes. *)
Fixpoint le_words (l : bytes) : list Z :=
  match l with
  | b0 :: b1 :: b2 :: b3 :: l' =>
      (b0 + 256 * b1 + 65536 * b2 + 16777216 * b3) :: le_words l'
  | _ => []
  end.

Fixpoint le_bytes (n : nat) (v : Z) : bytes :=
  match n with
  | O => []
  | S n' => v mod 256 :: le_bytes n' (v / 256)
  end.

Definition md5_block (s : md5_state) (block : bytes) : md5_state :=
  let r := foldl (md5_step (le_words block)) s (seq 0 64) in
  {| st_a := add32 (st_a s) (st_a r); st_b := add32 (st_b s) (st_b r);
     st_c := add32 (st_c s) (st_c r); st_d := add32 (st_d s) (st_d r) |}.

Definition md5_init : md5_state :=
  {| st_a := 0x67452301; st_b := 0xefcdab89; st_c := 0x98badcfe; st_d := 0x10325476 |}.

(** The message, one bit, zeros up to 56 modulo 64, and the length in bits. *)
Definition md5_pad (m : bytes) : bytes :=
  m ++ [128] ++ replicate ((119 - length m mod 64) mod 64) 0 ++ le_bytes 8 (8 * len m).

(** The blocks of 64 bytes; [fuel] is at least the number of blocks. *)
Fixpoint md5_blocks (fuel : nat) (s : md5_state) (l : bytes) : md5_state :=
  match fuel with
  | O => s
  | S fuel' =>
      match l with
      | [] => s
      | _ => md5_blocks fuel' (md5_block s (take 64 l)) (drop 64 l)
      end
  end.

Definition md5_digest (s : md5_state) : bytes :=
  le_bytes 4 (st_a s) ++ le_bytes 4 (st_b s) ++ le_bytes 4 (st_c s) ++ le_bytes 4 (st_d s).

(** [hashlib.md5(m).digest()] *)
Definition md5 (m : bytes) : bytes :=
  md5_digest (md5_blocks (S (S (length m / 64))) md5_init (md5_pad m)).

(** [hmac.new(key, m, 'md5').digest()] *)
Definition hmac_md5 (key m : bytes) : bytes :=
  let k := pack_s 64 (if 64 <? len key then md5 key else key) in
  md5 ((Z.lxor 0x5c <$> k) ++ md5 ((Z.lxor 0x36 <$> k) ++ m)).

Lemma length_le_bytes n v : length (le_bytes n v) = n.
Proof. revert v. induction n; intros v; simpl; auto. Qed.

Lemma le_bytes_ok n v : bytes_ok (le_bytes n v).
Proof.
  revert v. induction n; intros v; simpl; constructor; [|apply IHn].
  unfold byte_ok. apply Z.mod_pos_bound. lia.
Qed.

Lemma length_md5 m : length (md5 m) = 16%nat.
Proof. unfold md5, md5_digest. by rewrite !length_app, !length_le_bytes. Qed.

Lemma md5_ok m : bytes_ok (md5 m).
Proof. unfold md5, md5_digest. repeat apply Forall_app_2; apply le_bytes_ok. Qed.

Lemma length_hmac_md5 key m : length (hmac_md5 key m) = 16%nat.
Proof. apply length_md5. Qed.

Lemma hmac_md5_ok key m : bytes_ok (hmac_md5 key m).
Proof. apply md5_ok. Qed.

(** The padded message is a whole number of blocks, and the fuel covers them:
    no input byte is left out of the digest. *)
Lemma length_md5_pad m : length (md5_pad m) = (64 * ((length m + 8) / 64 + 1))%nat.
Proof.
  unfold md5_pad. rewrite !length_app, length_replicate, length_le_bytes. simpl length.
  pose proof (Nat.div_mod_eq (length m + 8) 64). pose proof (Nat.div_mod_eq (length m) 64).
  pose proof (Nat.mod_upper_bound (length m) 64 ltac:(lia)).
  pose proof (Nat.mod_upper_bound (length m + 8) 64 ltac:(lia)).
  pose proof (Nat.div_mod_eq (119 - length m mod 64) 64).
  pose proof (Nat.mod_upper_bound (119 - length m mod 64) 64 ltac:(lia)).
  lia.
Qed.

Lemma md5_fuel_enough m : (length (md5_pad m) <= 64 * S (S (length m / 64)))%nat.
Proof.
  rewrite length_md5_pad.
  pose proof (Nat.div_mod_eq (length m + 8) 64). pose proof (Nat.div_mod_eq (length m) 64).
  pose proof (Nat.mod_upper_bound (length m) 64 ltac:(lia)).
  pose proof (Nat.mod_upper_bound (length m + 8) 64 ltac:(lia)). lia.
Qed.

(** RFC 1321 and RFC 2202 test vectors. *)
Example md5_empty :
  md5 [] = [0xd4; 0x1d; 0x8c; 0xd9; 0x8f; 0x00; 0xb2; 0x04;
            0xe9; 0x80; 0x09; 0x98; 0xec; 0xf8; 0x42; 0x7e].
Proof. vm_compute. reflexivity. Qed.

Example md5_alphanumeric :
  md5 (of_literal "ABCDEFGHIJKLMNOPQRSTUVWXYZabcdefghijklmnopqrstuvwxyz0123456789")
  = [0xd1; 0x74; 0xab; 0x98; 0xd2; 0x77; 0xd9; 0xf5;
     0xa5; 0x61; 0x1c; 0x2c; 0x9f; 0x41; 0x9d; 0x9f].
Proof. vm_compute. reflexivity. Qed.

Example hmac_md5_jefe :
  hmac_md5 (of_literal "Jefe") (of_literal "what do ya want for nothing?")
  = [0x75; 0x0c; 0x78; 0x3e; 0x6a; 0xb0; 0xb5; 0x03;
     0xea; 0xa8; 0x6e; 0x31; 0x0a; 0x5d; 0xb7; 0x38].
Proof. vm_compute. reflexivity. Qed.
