(* ===== verification/RadiusData.v ===== *)
(** * RADIUS data types (src/subset/dot1x/authenticator/radius_datatypes.py)

    A data object is its class and its [bytes_data], which is [None] when the
    constructor was given no usable value.  The constructors take the Python
    type their class documents: an integer, a string, bytes, or [None]. *)

From stdpp Require Import base list strings.
From Stdlib Require Import ZArith Lia.
From S2P Require Import Prelude Bytes Mac.

Module DataType.

Inductive dtype := Integer | Enum | Text | String | Concat | Vsa.

#[global] Instance dtype_eq_dec : EqDecision dtype.
Proof. solve_decision. Defined.

Definition DATA_TYPE_VALUE (t : dtype) : Z :=
  match t with
  | Integer => 1 | Enum => 2 | Text => 4 | String => 5 | Concat => 6 | Vsa => 14
  end.

Definition AVP_HEADER_LEN : Z := 1 + 1.

Definition MAX_DATA_LENGTH (t : dtype) : Z :=
  match t with Integer | Enum => 4 | _ => 253 end.
Definition MIN_DATA_LENGTH (t : dtype) : Z :=
  match t with Integer | Enum => 4 | Vsa => 5 | _ => 1 end.

Record data_t := { kind : dtype; bytes_data : option bytes }.

(** [is_valid_length] *)
Definition is_valid_length (t : dtype) (packed_value : bytes) : res unit :=
  if (len packed_value <? MIN_DATA_LENGTH t) || (MAX_DATA_LENGTH t <? len packed_value)
  then Raise ValueError else Ok tt.

(** ** Constructors *)

(** [Integer(raw_data=n)] and [Enum(raw_data=n)]: zero is falsy. *)
Definition init_int (t : dtype) (raw : option Z) : res data_t :=
  match raw with
  | Some n =>
      if n =? 0 then Ok {| kind := t; bytes_data := None |}
      else b ← rethrow (λ e, bool_decide (e = OverflowError)) ValueError
                 (to_bytes (Z.to_nat (MAX_DATA_LENGTH t)) n);
           Ok {| kind := t; bytes_data := Some b |}
  | None => Ok {| kind := t; bytes_data := None |}
  end.

(** [Text(raw_data=s)] *)
Definition init_text (raw : option str) : res data_t :=
  match raw with
  | Some s =>
      b ← encode s;
      _ ← is_valid_length Text b;
      Ok {| kind := Text; bytes_data := Some b |}
  | None => Ok {| kind := Text; bytes_data := None |}
  end.

(** [String(raw_data=x)] for bytes or a string *)
Definition init_string (raw : option (bytes + str)) : res data_t :=
  match raw with
  | Some x =>
      b ← match x with inl b => Ok b | inr s => encode s end;
      _ ← is_valid_length String b;
      Ok {| kind := String; bytes_data := Some b |}
  | None => Ok {| kind := String; bytes_data := None |}
  end.

(** [bytes.fromhex]: pairs of digits, ASCII whitespace between the pairs. *)
Definition is_space (c : Z) : bool := (c =? 32) || ((9 <=? c) && (c <=? 13)).
Fixpoint fromhex (s : str) : option bytes :=
  match s with
  | [] => Some []
  | a :: s' =>
      if is_space a then fromhex s'
      else match s' with
           | b :: s'' => x ← hex_val a; y ← hex_val b; r ← fromhex s''; Some (16 * x + y :: r)
           | [] => None
           end
  end.

(** [Concat(raw_data=s)]: the empty string is falsy. *)
Definition init_concat (raw : option str) : res data_t :=
  match raw with
  | Some ((_ :: _) as s) =>
      b ← of_option ValueError (fromhex s);
      Ok {| kind := Concat; bytes_data := Some b |}
  | _ => Ok {| kind := Concat; bytes_data := None |}
  end.

(** [Vsa(raw_data=b)]: the empty value is falsy. *)
Definition init_vsa (raw : option bytes) : res data_t :=
  match raw with
  | Some ((_ :: _) as b) =>
      _ ← is_valid_length Vsa b;
      Ok {| kind := Vsa; bytes_data := Some b |}
  | _ => Ok {| kind := Vsa; bytes_data := None |}
  end.

(** ** Parsing *)

Definition is_value_or_struct (e : exn) : bool :=
  bool_decide (e = ValueError) || bool_decide (e = StructError).

(** The [parse] class methods: [Concat] checks no length, the others do. *)
Definition parse (t : dtype) (packed_value : bytes) : res data_t :=
  match t with
  | Integer | Enum =>
      rethrow is_value_or_struct MessageParseError
        (_ ← is_valid_length t packed_value;
         b ← unpack_s 4 packed_value;
         Ok {| kind := t; bytes_data := Some b |})
  | Text | String | Vsa =>
      rethrow is_value_or_struct MessageParseError
        (_ ← is_valid_length t packed_value;
         b ← unpack_s (length packed_value) packed_value;
         Ok {| kind := t; bytes_data := Some b |})
  | Concat =>
      b ← rethrow (λ e, bool_decide (e = StructError)) MessageParseError
            (unpack_s (length packed_value) packed_value);
      Ok {| kind := t; bytes_data := Some b |}
  end.

(** ** Lengths *)

(** [len(self.bytes_data)] *)
Definition data_len (d : data_t) : res Z :=
  match bytes_data d with Some b => Ok (len b) | None => Raise TypeError end.

Definition data_length (d : data_t) : res Z :=
  match kind d with Integer | Enum => Ok 4 | _ => data_len d end.

(** [Concat] counts one header per chunk; [math.ceil(n / 253 + 1)] is the
    integer ceiling, exact for every length a packet can have. *)
Definition full_length (d : data_t) : res Z :=
  match kind d with
  | Concat =>
      n ← data_len d;
      Ok (AVP_HEADER_LEN * ((n + (MAX_DATA_LENGTH Concat - 1)) / MAX_DATA_LENGTH Concat + 1)
          + n - AVP_HEADER_LEN)
  | _ => n ← data_length d; Ok (n + AVP_HEADER_LEN)
  end.

(** ** Packing *)

(** One iteration of [chunks]: the chunk that starts at [i], with its header.
    Only the last start satisfies [i + 253 > list_length]. *)
Definition pack_chunk (attribute_type : Z) (data : bytes) (i : nat) : res bytes :=
  let max := Z.to_nat (MAX_DATA_LENGTH Concat) in
  let length_ := if (length data <? i + max)%nat then (length data mod max)%nat else max in
  let chunk := slice i (i + length_) data in
  t ← pack_B attribute_type;
  n ← pack_B (len chunk + AVP_HEADER_LEN);
  Ok (t ++ n ++ chunk).

(** [range(0, list_length, MAX_DATA_LENGTH)] *)
Definition chunk_starts (n : nat) : list nat :=
  let max := Z.to_nat (MAX_DATA_LENGTH Concat) in
  (λ k, (max * k)%nat) <$> seq 0 ((n + (max - 1)) / max).

Fixpoint join_packed (l : list (res bytes)) : res bytes :=
  match l with
  | [] => Ok []
  | r :: l' => b ← r; rest ← join_packed l'; Ok (b ++ rest)
  end.

Definition pack_concat (attribute_type : Z) (data : bytes) : res bytes :=
  join_packed (pack_chunk attribute_type data <$> chunk_starts (length data)).

(** The [pack] methods: [struct.pack] rejects [None] for ["!4s"], [len(None)]
    raises [TypeError] for the others. *)
Definition pack (attribute_type : Z) (d : data_t) : res bytes :=
  match kind d, bytes_data d with
  | (Integer | Enum), Some b => Ok (pack_s 4 b)
  | (Integer | Enum), None => Raise StructError
  | (Text | String | Vsa), Some b => Ok (pack_s (length b) b)
  | Concat, Some b => pack_concat attribute_type b
  | _, None => Raise TypeError
  end.

(** ** Well-formed data: what [parse] returns *)

Definition data_wf (d : data_t) : Prop :=
  ∃ b, bytes_data d = Some b ∧ bytes_ok b ∧
       (kind d ≠ Concat → MIN_DATA_LENGTH (kind d) ≤ len b ≤ MAX_DATA_LENGTH (kind d)).

Lemma is_valid_length_ok t b u :
  is_valid_length t b = Ok u → MIN_DATA_LENGTH t ≤ len b ≤ MAX_DATA_LENGTH t.
Proof.
  unfold is_valid_length.
  destruct (Z.ltb_spec (len b) (MIN_DATA_LENGTH t)), (Z.ltb_spec (MAX_DATA_LENGTH t) (len b));
    simpl; intros [=]. lia.
Qed.

Lemma is_valid_length_in t b :
  MIN_DATA_LENGTH t ≤ len b ≤ MAX_DATA_LENGTH t → is_valid_length t b = Ok tt.
Proof.
  intros ?. unfold is_valid_length.
  destruct (Z.ltb_spec (len b) (MIN_DATA_LENGTH t)), (Z.ltb_spec (MAX_DATA_LENGTH t) (len b));
    simpl; try lia. done.
Qed.

(** [parse] accepts exactly the values of valid length, and keeps the bytes. *)
Lemma parse_ok t b d :
  parse t b = Ok d →
  d = {| kind := t; bytes_data := Some b |} ∧
  (t ≠ Concat → MIN_DATA_LENGTH t ≤ len b ≤ MAX_DATA_LENGTH t).
Proof.
  intros H. destruct t; simpl in H;
    try (destruct (is_valid_length _ b) as [[]|[]] eqn:E; simpl in H; try discriminate H);
    try (apply is_valid_length_ok in E);
    try (rewrite unpack_s_self in H; simpl in H; injection H as <-; by split);
    unfold unpack_s in H; destruct (length b =? 4)%nat; simpl in H;
      try discriminate H; injection H as <-; by split.
Qed.

Lemma parse_in t b :
  (t ≠ Concat → MIN_DATA_LENGTH t ≤ len b ≤ MAX_DATA_LENGTH t) →
  parse t b = Ok {| kind := t; bytes_data := Some b |}.
Proof.
  intros H. destruct t; simpl;
    try (rewrite is_valid_length_in by (by apply H); simpl);
    try (rewrite unpack_s_self; done);
    specialize (H ltac:(done)); simpl in H; unfold unpack_s, len in *;
    by replace (length b =? 4)%nat with true by (symmetry; apply Nat.eqb_eq; lia).
Qed.

(** Whatever [parse] raises is a [MessageParseError]. *)
Lemma value_parse_total t b :
  (∃ d, parse t b = Ok d) ∨ parse t b = Raise MessageParseError.
Proof.
  destruct t; simpl;
    try (destruct (is_valid_length _ b) as [[]|e] eqn:E; simpl;
      [|right; unfold is_valid_length in E; case_match; simplify_eq; reflexivity]);
    rewrite ?unpack_s_self; simpl; eauto;
    unfold unpack_s; destruct (length b =? 4)%nat; simpl; eauto.
Qed.

(** ** Chunks *)

Lemma chunk_starts_S n :
  (0 < n)%nat →
  chunk_starts n = 0%nat :: (Nat.add 253 <$> chunk_starts (n - 253)).
Proof.
  intros Hn. unfold chunk_starts. change (Z.to_nat (MAX_DATA_LENGTH Concat)) with 253%nat.
  change (253 - 1)%nat with 252%nat.
  replace ((n + 252) / 253)%nat with (S ((n - 253 + 252) / 253)).
  - rewrite <- cons_seq, fmap_cons, <- fmap_S_seq, <- !list_fmap_compose.
    f_equal. apply list_fmap_ext. intros i x _. simpl. lia.
  - destruct (le_lt_dec n 253) as [Hle|Hgt].
    + replace (n - 253)%nat with 0%nat by lia.
      rewrite (Nat.div_small (0 + 252)) by lia.
      apply (Nat.div_unique _ _ _ (n - 1)); lia.
    + replace (n + 252)%nat with (n - 253 + 252 + 1 * 253)%nat by lia.
      rewrite Nat.div_add by lia. lia.
Qed.

Lemma pack_chunk_shift t data i :
  pack_chunk t data (253 + i) = pack_chunk t (drop 253 data) i ∨ (length data < 253 + i)%nat.
Proof.
  destruct (le_lt_dec (253 + i) (length data)) as [Hle|]; [left|by right].
  unfold pack_chunk. change (Z.to_nat (MAX_DATA_LENGTH Concat)) with 253%nat. cbv zeta.
  rewrite length_drop. unfold slice. rewrite !drop_drop.
  replace ((length data - 253) mod 253)%nat with (length data mod 253)%nat.
  - destruct (Nat.ltb_spec (length data) (253 + i + 253)),
      (Nat.ltb_spec (length data - 253) (i + 253)); try lia.
    + replace (253 + i + length data mod 253 - (253 + i))%nat
        with (i + length data mod 253 - i)%nat by lia. done.
    + replace (253 + i + 253 - (253 + i))%nat with (i + 253 - i)%nat by lia. done.
  - replace (length data) with (length data - 253 + 1 * 253)%nat at 1 by lia.
    by rewrite Nat.Div0.mod_add.
Qed.

Lemma chunk_starts_lt n i : i ∈ chunk_starts n → (i < n)%nat.
Proof.
  unfold chunk_starts. change (Z.to_nat (MAX_DATA_LENGTH Concat)) with 253%nat.
  rewrite list_elem_of_fmap. intros (k & -> & Hk%elem_of_seq).
  pose proof (Nat.div_mod_eq (n + (253 - 1)) 253). lia.
Qed.

(** The first chunk is the first 253 bytes, the rest is packed likewise. *)
Lemma pack_chunk_first t data :
  byte_ok t → data ≠ [] →
  pack_chunk t data 0 = Ok (t :: (len (take 253 data) + 2) :: take 253 data).
Proof.
  intros Ht Hne. unfold pack_chunk. change (Z.to_nat (MAX_DATA_LENGTH Concat)) with 253%nat.
  assert (slice 0 (0 + if (length data <? 0 + 253)%nat then (length data mod 253)%nat else 253%nat)
    data = take 253 data) as ->.
  { unfold slice. rewrite drop_0, Nat.sub_0_r. destruct (Nat.ltb_spec (length data) (0 + 253)).
    - rewrite Nat.mod_small by lia. rewrite !take_ge by lia. done.
    - done. }
  rewrite !pack_B_in; [done|done|]. unfold byte_ok, len, AVP_HEADER_LEN.
  rewrite length_take. lia.
Qed.

Lemma pack_concat_nil t : pack_concat t [] = Ok [].
Proof. done. Qed.

Lemma pack_concat_cons t data :
  byte_ok t → data ≠ [] →
  pack_concat t data =
  (rest ← pack_concat t (drop 253 data);
   Ok ((t :: (len (take 253 data) + 2) :: take 253 data) ++ rest)).
Proof.
  intros Ht Hne. unfold pack_concat.
  rewrite chunk_starts_S by (destruct data; [done|simpl; lia]).
  rewrite fmap_cons, <- list_fmap_compose.
  assert (pack_chunk t data ∘ Nat.add 253 <$> chunk_starts (length data - 253) =
    pack_chunk t (drop 253 data) <$> chunk_starts (length (drop 253 data))) as ->.
  { rewrite length_drop. apply list_fmap_ext. intros i x Hx.
    apply list_elem_of_lookup_2, chunk_starts_lt in Hx. unfold compose.
    destruct (pack_chunk_shift t data x); [done|lia]. }
  cbn [join_packed]. by rewrite pack_chunk_first by done.
Qed.

(** Induction on the chunks of a byte string. *)
Lemma chunk_ind (P : bytes → Prop) :
  P [] → (∀ l, l ≠ [] → P (drop 253 l) → P l) → ∀ l, P l.
Proof.
  intros H0 HS l. induction l as [l IH] using (well_founded_induction
    (Wf_nat.well_founded_ltof _ (@length Z))).
  destruct l as [|x l]; [done|]. apply HS; [done|]. apply IH. unfold Wf_nat.ltof.
  rewrite length_drop. simpl. lia.
Qed.

(** [full_length] of a [Concat] value is the length of what [pack] writes. *)
Lemma pack_concat_ok t data :
  byte_ok t → bytes_ok data →
  ∃ b, pack_concat t data = Ok b ∧ bytes_ok b ∧
       len b = 2 * ((len data + 252) / 253) + len data.
Proof.
  intros Ht. induction data as [|l Hne IH] using chunk_ind; intros Hok.
  - exists []. split_and!; [done|apply Forall_nil_2|done].
  - destruct IH as (rest & Hr & Hrok & Hlen); [by apply Forall_drop|].
    rewrite pack_concat_cons by done. rewrite Hr. simpl. eexists. split_and!; [done| |].
    + constructor; [done|]. constructor.
      { unfold byte_ok, len. rewrite length_take. lia. }
      apply Forall_app_2; [by apply Forall_take|done].
    + rewrite !len_cons, len_app, Hlen. unfold len. rewrite length_take, length_drop.
      assert (0 < length l)%nat by (destruct l; [done|simpl; lia]).
      destruct (le_lt_dec (length l) 253).
      * replace (length l - 253)%nat with 0%nat by lia.
        rewrite (Z.div_small (Z.of_nat 0 + 252)) by lia.
        replace ((Z.of_nat (length l) + 252) / 253) with 1; [lia|].
        apply (Z.div_unique _ _ _ (Z.of_nat (length l) - 1)); lia.
      * replace (Z.of_nat (length l) + 252)
          with (Z.of_nat (length l - 253) + 252 + 1 * 253) by lia.
        rewrite Z.div_add by lia. lia.
Qed.

End DataType.
