(* ===== verification/RadiusAttr.v ===== *)
(** * RADIUS attributes (src/subset/dot1x/authenticator/radius_attributes.py)

    The registered attribute classes, their [create], [parse], [pack],
    [full_length] and [data] methods, and the User-Password cipher. *)

From stdpp Require Import base list sets strings.
From Stdlib Require Import ZArith Lia.
From S2P Require Import Prelude Bytes Mac Eap Messages Md5 RadiusData.
Import DataType.

Module Attribute.

Inductive attr_class :=
  | UserName | UserPassword | NASIPAddress | NASPort | ServiceType | FilterId
  | FramedMTU | ReplyMessage | State | VendorSpecific | SessionTimeout
  | CalledStationId | CallingStationId | NASIdentifier | AcctSessionId
  | NASPortType | TunnelType | TunnelMediumType | ConnectInfo | EAPMessage
  | MessageAuthenticator | TunnelPrivateGroupID | NASFilterRule.

#[global] Instance attr_class_eq_dec : EqDecision attr_class.
Proof. solve_decision. Defined.

Definition TYPE (c : attr_class) : Z :=
  match c with
  | UserName => 1 | UserPassword => 2 | NASIPAddress => 4 | NASPort => 5
  | ServiceType => 6 | FilterId => 11 | FramedMTU => 12 | ReplyMessage => 18
  | State => 24 | VendorSpecific => 26 | SessionTimeout => 27
  | CalledStationId => 30 | CallingStationId => 31 | NASIdentifier => 32
  | AcctSessionId => 44 | NASPortType => 61 | TunnelType => 64
  | TunnelMediumType => 65 | ConnectInfo => 77 | EAPMessage => 79
  | MessageAuthenticator => 80 | TunnelPrivateGroupID => 81 | NASFilterRule => 92
  end.

Definition DATA_TYPE (c : attr_class) : dtype :=
  match c with
  | UserName | FilterId | ReplyMessage | CalledStationId | CallingStationId
  | NASIdentifier | AcctSessionId | ConnectInfo => Text
  | UserPassword | NASIPAddress | State | MessageAuthenticator
  | TunnelPrivateGroupID | NASFilterRule => String
  | NASPort | FramedMTU | SessionTimeout => Integer
  | ServiceType | NASPortType | TunnelType | TunnelMediumType => Enum
  | VendorSpecific => Vsa
  | EAPMessage => Concat
  end.

Definition DESCRIPTION (c : attr_class) : string :=
  match c with
  | UserName => "User-Name" | UserPassword => "User-Password"
  | NASIPAddress => "NAS-IP-Address" | NASPort => "NAS-Port"
  | ServiceType => "Service-Type" | FilterId => "Filter-Id"
  | FramedMTU => "Framed-MTU" | ReplyMessage => "Reply-Message"
  | State => "State" | VendorSpecific => "Vendor-Specific"
  | SessionTimeout => "Session-Timeout" | CalledStationId => "Called-Station-Id"
  | CallingStationId => "Calling-Station-Id" | NASIdentifier => "NAS-Identifier"
  | AcctSessionId => "Acct-Session-Id" | NASPortType => "NAS-Port-Type"
  | TunnelType => "Tunnel-Type" | TunnelMediumType => "Tunnel-Medium-Type"
  | ConnectInfo => "Connect-Info" | EAPMessage => "EAP-Message"
  | MessageAuthenticator => "Message-Authenticator"
  | TunnelPrivateGroupID => "Tunnel-Private-Group-ID"
  | NASFilterRule => "NAS-Filter-Rule"
  end.

Definition all_classes : list attr_class :=
  [UserName; UserPassword; NASIPAddress; NASPort; ServiceType; FilterId;
   FramedMTU; ReplyMessage; State; VendorSpecific; SessionTimeout;
   CalledStationId; CallingStationId; NASIdentifier; AcctSessionId;
   NASPortType; TunnelType; TunnelMediumType; ConnectInfo; EAPMessage;
   MessageAuthenticator; TunnelPrivateGroupID; NASFilterRule].

(** [ATTRIBUTE_TYPES], filled by [register_attribute_type]. *)
Definition ATTRIBUTE_TYPES (type_ : Z) : option attr_class :=
  list_find (λ c, TYPE c = type_) all_classes ≫= λ p, Some p.2.

Definition HEADER_SIZE : Z := 1 + 1.

Record attribute := { cls : attr_class; _data_type : data_t }.

Definition bytes_data (a : attribute) : option bytes := DataType.bytes_data (_data_type a).
(** The [bytes_data] setter. *)
Definition set_bytes_data (v : bytes) (a : attribute) : attribute :=
  {| cls := cls a; _data_type := {| kind := kind (_data_type a);
                                    DataType.bytes_data := Some v |} |}.

(** [cls.create] of the classes the authenticator creates. *)
Definition create_text (c : attr_class) (s : option str) : res attribute :=
  d ← init_text s; Ok {| cls := c; _data_type := d |}.
Definition create_string (c : attr_class) (x : option (bytes + str)) : res attribute :=
  d ← init_string x; Ok {| cls := c; _data_type := d |}.
Definition create_int (c : attr_class) (n : option Z) : res attribute :=
  d ← init_int (DATA_TYPE c) n; Ok {| cls := c; _data_type := d |}.
(** [EAPMessage.create] for a message, and for anything else. *)
Definition create_eap (m : message) : res attribute :=
  '(_, _, b) ← MessagePacker.eap_pack m;
  Ok {| cls := EAPMessage;
        _data_type := {| kind := Concat; DataType.bytes_data := Some b |} |}.
Definition create_concat (c : attr_class) (s : option str) : res attribute :=
  d ← init_concat s; Ok {| cls := c; _data_type := d |}.
Definition create_vsa (c : attr_class) (b : option bytes) : res attribute :=
  d ← init_vsa b; Ok {| cls := c; _data_type := d |}.

Definition parse (c : attr_class) (packed_value : bytes) : res attribute :=
  d ← DataType.parse (DATA_TYPE c) packed_value; Ok {| cls := c; _data_type := d |}.

Definition full_length (a : attribute) : res Z := DataType.full_length (_data_type a).

(** [pack], with the override of [EAPMessage]. *)
Definition pack (a : attribute) : res bytes :=
  match cls a with
  | EAPMessage => DataType.pack (TYPE EAPMessage) (_data_type a)
  | c =>
      n ← full_length a;
      t ← pack_B (TYPE c);
      l ← pack_B n;
      v ← DataType.pack (TYPE c) (_data_type a);
      Ok ((t ++ l) ++ v)
  end.

(** The values [data] returns. *)
Inductive value :=
  | VInt (n : Z)
  | VStr (s : str)
  | VBytes (b : option bytes)
  | VMsg (m : message).

Definition data (a : attribute) : res value :=
  match cls a with
  | EAPMessage =>
      match bytes_data a with
      | Some b => m ← MessageParser.eap_parse b SrcNone; Ok (VMsg m)
      | None => Raise TypeError
      end
  | _ =>
      match kind (_data_type a), bytes_data a with
      | (Integer | Enum), Some b => Ok (VInt (from_bytes b))
      | (Integer | Enum), None => Raise TypeError
      | Text, Some b => s ← decode b; Ok (VStr s)
      | Text, None => Raise AttributeError
      | (String | Concat | Vsa), b => Ok (VBytes b)
      end
  end.

(** ** User-Password *)

Module UserPasswordCipher.

Definition BASE : nat := 16.

(** [type(secret) is str], [type(req_authenticator) is int] *)
Definition secret_bytes (secret : bytes + str) : res bytes :=
  match secret with inl b => Ok b | inr s => encode s end.
Definition authenticator_bytes (req : bytes + Z) : res bytes :=
  match req with inl b => Ok b | inr n => to_bytes 16 n end.

(** [bytes(x ^ y for x, y in zip(a, b))] *)
Definition xor_bytes (a b : bytes) : bytes := zip_with Z.lxor a b.

(** The loops run at most once per byte of their argument. *)
Fixpoint encrypt_loop (fuel : nat) (secret b_sec padded : bytes) : bytes :=
  match fuel, padded with
  | S fuel', _ :: _ =>
      let p_sec := take BASE padded in
      let c_sec := xor_bytes b_sec p_sec in
      c_sec ++ encrypt_loop fuel' secret (md5 (secret ++ c_sec)) (drop BASE padded)
  | _, _ => []
  end.

Definition encrypt (secret : bytes + str) (req_authenticator : bytes + Z) (password : str)
  : res bytes :=
  secret ← secret_bytes secret;
  req ← authenticator_bytes req_authenticator;
  let padded_width := ((length password + (BASE - 1)) / BASE * BASE)%nat in
  padded ← encode (password ++ replicate (padded_width - length password) 0);
  Ok (encrypt_loop (length padded) secret (md5 (secret ++ req)) padded).

(** [p_sec.decode('ascii')] *)
Definition decode_ascii (b : bytes) : res str :=
  if forallb (λ c, (0 <=? c) && (c <? 128)) b then Ok b else Raise UnicodeDecodeError.

Fixpoint decrypt_loop (fuel : nat) (secret b_sec ciphertext : bytes) : res str :=
  match fuel, ciphertext with
  | S fuel', _ :: _ =>
      let c_sec := take BASE ciphertext in
      p_sec ← decode_ascii (xor_bytes b_sec c_sec);
      rest ← decrypt_loop fuel' secret (md5 (secret ++ c_sec)) (drop BASE ciphertext);
      Ok (p_sec ++ rest)
  | _, _ => Ok []
  end.

(** [s.strip('\0')] *)
Fixpoint lstrip0 (s : str) : str :=
  match s with 0 :: s' => lstrip0 s' | _ => s end.
Definition strip0 (s : str) : str := reverse (lstrip0 (reverse (lstrip0 s))).

Definition decrypt (secret : bytes + str) (req_authenticator : bytes + Z) (ciphertext : bytes)
  : res str :=
  secret ← secret_bytes secret;
  req ← authenticator_bytes req_authenticator;
  cleartext ← decrypt_loop (length ciphertext) secret (md5 (secret ++ req)) ciphertext;
  Ok (strip0 cleartext).

Lemma xor_bytes_invol a b : (length b <= length a)%nat → xor_bytes a (xor_bytes a b) = b.
Proof.
  revert b. induction a as [|x a IH]; intros [|y b] H; simpl in *; try done; [lia|].
  rewrite IH by lia. by rewrite <- Z.lxor_assoc, Z.lxor_nilpotent, Z.lxor_0_l.
Qed.

Lemma length_xor_bytes a b :
  length (xor_bytes a b) = (length a `min` length b)%nat.
Proof. apply length_zip_with. Qed.

Lemma decode_ascii_ok b : ascii_ok b → decode_ascii b = Ok b.
Proof.
  intros H. unfold decode_ascii.
  assert (forallb (λ c, (0 <=? c) && (c <? 128)) b = true) as ->; [|done].
  apply forallb_forall. intros c Hc%list_elem_of_In.
  eapply Forall_forall in H; [|done]. apply andb_true_iff. rewrite Z.leb_le, Z.ltb_lt. lia.
Qed.

(** One iteration of each loop on whole chunks. *)
Lemma encrypt_loop_S n secret b_sec padded :
  padded ≠ [] →
  encrypt_loop (S n) secret b_sec padded =
  xor_bytes b_sec (take BASE padded) ++
  encrypt_loop n secret (md5 (secret ++ xor_bytes b_sec (take BASE padded))) (drop BASE padded).
Proof. by destruct padded. Qed.

Lemma decrypt_loop_S m secret b_sec c r :
  length c = BASE →
  decrypt_loop (S m) secret b_sec (c ++ r) =
  (p_sec ← decode_ascii (xor_bytes b_sec c);
   rest ← decrypt_loop m secret (md5 (secret ++ c)) r; Ok (p_sec ++ rest)).
Proof.
  intros Hc. assert (c ++ r ≠ []) by (by destruct c).
  transitivity (p_sec ← decode_ascii (xor_bytes b_sec (take BASE (c ++ r)));
    rest ← decrypt_loop m secret (md5 (secret ++ take BASE (c ++ r))) (drop BASE (c ++ r));
    Ok (p_sec ++ rest)).
  - by destruct (c ++ r).
  - by rewrite take_app_length', drop_app_length' by done.
Qed.

Lemma length_encrypt_loop n secret b_sec padded :
  length b_sec = BASE → (length padded <= n)%nat →
  length (encrypt_loop n secret b_sec padded) = length padded.
Proof.
  revert b_sec padded. induction n as [|n IH]; intros b_sec padded Hb Hn.
  { destruct padded; [done|simpl in Hn; lia]. }
  destruct (decide (padded = [])) as [->|Hne]; [done|].
  assert (0 < length padded)%nat by (destruct padded; [done|simpl; lia]).
  rewrite encrypt_loop_S, length_app, length_xor_bytes, length_take by done.
  rewrite IH; rewrite ?length_drop; [|apply length_md5|]; unfold BASE in *; lia.
Qed.

(** Decrypting what the loop encrypted, chunk by chunk. *)
Lemma decrypt_encrypt_loop n m secret b_sec padded :
  length b_sec = BASE → ascii_ok padded → (length padded <= n)%nat →
  (length padded <= m)%nat → (∃ k, length padded = k * BASE)%nat →
  decrypt_loop m secret b_sec (encrypt_loop n secret b_sec padded) = Ok padded.
Proof.
  revert m b_sec padded. induction n as [|n IH]; intros m b_sec padded Hb Ha Hn Hm [k Hk].
  { destruct padded; [|simpl in Hn; lia]. by destruct m. }
  destruct (decide (padded = [])) as [->|Hne]; [by destruct m|].
  assert (16 <= length padded)%nat as H16.
  { destruct k; [by destruct padded|]. rewrite Hk. unfold BASE. lia. }
  destruct m as [|m]; [lia|].
  rewrite encrypt_loop_S by done.
  rewrite decrypt_loop_S by (rewrite length_xor_bytes, length_take; unfold BASE in *; lia).
  rewrite xor_bytes_invol by (rewrite length_take; unfold BASE in *; lia).
  rewrite decode_ascii_ok by (by apply Forall_take). simpl.
  rewrite IH; [simpl; by rewrite take_drop|apply length_md5|by apply Forall_drop| | |].
  - rewrite length_drop. unfold BASE in *. lia.
  - rewrite length_drop. unfold BASE in *. lia.
  - exists (k - 1)%nat. rewrite length_drop, Hk. unfold BASE. lia.
Qed.

Lemma lstrip0_zeros n : lstrip0 (replicate n 0) = [].
Proof. by induction n. Qed.

Lemma lstrip0_zeros_app n s : lstrip0 (replicate n 0 ++ s) = lstrip0 s.
Proof. by induction n. Qed.

Lemma strip0_pad s n : strip0 (s ++ replicate n 0) = strip0 s.
Proof.
  unfold strip0. induction s as [|c s IH].
  - simpl. by rewrite lstrip0_zeros.
  - destruct c; [apply IH|..];
      cbn [app lstrip0]; rewrite app_comm_cons, reverse_app, reverse_replicate;
      by rewrite lstrip0_zeros_app.
Qed.

(** A User-Password of ASCII text is recovered by decryption with the same
    secret and request authenticator, up to the NUL characters at its ends that
    are the padding of the cipher. *)
Theorem password_roundtrip secret req password sb rb :
  secret_bytes secret = Ok sb → authenticator_bytes req = Ok rb → ascii_ok password →
  ∃ c, encrypt secret req password = Ok c ∧ decrypt secret req c = Ok (strip0 password).
Proof.
  intros Hs Hr Ha. unfold encrypt, decrypt. rewrite Hs, Hr. cbn [mbind res_bind].
  set (padded := password ++ _).
  assert (ascii_ok padded) as Hp.
  { apply Forall_app_2; [done|]. apply Forall_replicate. lia. }
  rewrite (encode_ascii padded Hp). cbn [mbind res_bind]. eexists. split; [done|].
  assert (length padded = (length password + (BASE - 1)) / BASE * BASE)%nat as Hlen.
  { unfold padded. rewrite length_app, length_replicate. unfold BASE.
    change (16 - 1)%nat with 15%nat.
    pose proof (Nat.div_mod_eq (length password + 15) 16).
    pose proof (Nat.mod_upper_bound (length password + 15) 16 ltac:(lia)). lia. }
  rewrite decrypt_encrypt_loop; [|apply length_md5|done|done| |by eexists].
  - simpl. unfold padded. by rewrite strip0_pad.
  - by rewrite length_encrypt_loop by (apply length_md5 || done).
Qed.

Lemma password_roundtrip_witness :
  ∃ c, encrypt (inr (of_literal "SECRET")) (inr 5) (of_literal "0242ac17006f") = Ok c ∧
       decrypt (inr (of_literal "SECRET")) (inr 5) c = Ok (of_literal "0242ac17006f").
Proof.
  apply (password_roundtrip (inr (of_literal "SECRET")) (inr 5) (of_literal "0242ac17006f")
    (of_literal "SECRET") (replicate 15 0 ++ [5])); [reflexivity|reflexivity|].
  repeat constructor; lia.
Defined.

End UserPasswordCipher.

End Attribute.
