(* ===== verification/RadiusList.v ===== *)
(** * Lists of RADIUS attributes
      (src/subset/dot1x/authenticator/radius.py, class [RadiusAttributesList])

    Extraction of the attributes of a packet, with the reassembly of the
    EAP-Message fragments, and the packing of a list.  The extraction loop is
    run with fuel; [None] is "the loop has not ended". *)

From stdpp Require Import base list sets strings.
From Stdlib Require Import ZArith Lia.
From S2P Require Import Prelude Bytes Eap Messages RadiusData RadiusAttr.
Import DataType Attribute.

Module RadiusAttributesList.

(** ** Queries and packing *)

(** [find]: the first attribute with the description. *)
Fixpoint find (item : string) (l : list attribute) : option attribute :=
  match l with
  | [] => None
  | a :: l' => if decide (item = DESCRIPTION (cls a)) then Some a else find item l'
  end.

(** [indexof]: the number of bytes before the item. *)
Fixpoint indexof (item : string) (l : list attribute) : res Z :=
  match l with
  | [] => Raise ValueError
  | a :: l' =>
      if decide (item = DESCRIPTION (cls a)) then Ok 0
      else n ← Attribute.full_length a; i ← indexof item l'; Ok (n + i)
  end.

(** [__len__] *)
Fixpoint total_length (l : list attribute) : res Z :=
  match l with
  | [] => Ok 0
  | a :: l' => n ← Attribute.full_length a; t ← total_length l'; Ok (n + t)
  end.

Fixpoint pack (l : list attribute) : res bytes :=
  match l with
  | [] => Ok []
  | a :: l' => b ← Attribute.pack a; rest ← pack l'; Ok (b ++ rest)
  end.

Fixpoint to_dict_from (ret : dict string value) (l : list attribute) : res (dict string value) :=
  match l with
  | [] => Ok ret
  | a :: l' => v ← Attribute.data a; to_dict_from (dset (DESCRIPTION (cls a)) v ret) l'
  end.
Definition to_dict (l : list attribute) : res (dict string value) := to_dict_from [] l.

(** ** Extraction *)

Record extraction := {
  index : Z;
  last_attribute : Z;
  attributes : list attribute;
  attributes_to_concat : dict Z (list (attribute * Z))
}.

Definition extraction_init : extraction :=
  {| index := -1; last_attribute := -1; attributes := []; attributes_to_concat := [] |}.

(** The body of the loop after the attribute was parsed. *)
Definition record_attribute (a : attribute) (st : extraction) : extraction :=
  let t := TYPE (cls a) in
  let i := if bool_decide (DATA_TYPE (cls a) ≠ Concat) || negb (last_attribute st =? t)
           then index st + 1 else index st in
  {| index := i;
     last_attribute := t;
     attributes := attributes st ++ [a];
     attributes_to_concat :=
       if DATA_TYPE_VALUE (DATA_TYPE (cls a)) =? DATA_TYPE_VALUE Concat
       then dset t (default [] (dget t (attributes_to_concat st)) ++ [(a, i)])
              (attributes_to_concat st)
       else attributes_to_concat st |}.

(** One attribute at the head of [rest], which is [attributes_data[pos:]], and
    the amount [pos] grows by. *)
Definition extract_one (rest : bytes) : res (attribute * Z) :=
  '(type_, attr_length) ← rethrow is_struct MessageParseError
     (unpack_BB (take (Z.to_nat HEADER_SIZE) rest));
  let data := slice (Z.to_nat HEADER_SIZE) (Z.to_nat attr_length) rest in
  let packed_value := slice_to (attr_length - HEADER_SIZE) data in
  a ← rethrow is_key MessageParseError
        (c ← of_option KeyError (ATTRIBUTE_TYPES type_); Attribute.parse c packed_value);
  Ok (a, attr_length).

Fixpoint extract_attributes (fuel : nat) (rest : bytes) (st : extraction)
  : option (res extraction) :=
  match fuel with
  | O => None
  | S fuel' =>
      match rest with
      | [] => Some (Ok st)
      | _ =>
          match extract_one rest with
          | Raise e => Some (Raise e)
          | Ok (a, n) =>
              extract_attributes fuel' (drop (Z.to_nat n) rest) (record_attribute a st)
          end
      end
  end.

(** [d.bytes_data] of the parts, joined; a part without bytes is a [TypeError]. *)
Fixpoint concat_data (l : list (attribute * Z)) : res bytes :=
  match l with
  | [] => Ok []
  | (a, _) :: l' =>
      b ← of_option TypeError (Attribute.bytes_data a); rest ← concat_data l'; Ok (b ++ rest)
  end.

(** The merged attributes and the position of the last of their parts. *)
Fixpoint concatenated (items : list (Z * list (attribute * Z))) : res (list (attribute * Z)) :=
  match items with
  | [] => Ok []
  | (v, parts) :: items' =>
      b ← concat_data parts;
      c ← of_option KeyError (ATTRIBUTE_TYPES v);
      a ← Attribute.parse c b;
      rest ← concatenated items';
      Ok ((a, match last parts with Some (_, i) => i | None => 0 end) :: rest)
  end.

(** [l.insert(i, x)] for [0 <= i]: past the end it appends. *)
Definition insert_at {A} (i : Z) (x : A) (l : list A) : list A :=
  take (Z.to_nat i) l ++ x :: drop (Z.to_nat i) l.

Definition merge_concat_attributes (st : extraction) : res (list attribute) :=
  cas ← concatenated (attributes_to_concat st);
  let kept := foldl (λ l (ca : attribute * Z),
    filter (λ x, TYPE (cls x) ≠ TYPE (cls ca.1)) l) (attributes st) cas in
  Ok (foldl (λ l ca, insert_at ca.2 ca.1 l) kept cas).

(** [RadiusAttributesList.parse] with the given fuel. *)
Definition parse_fuel (fuel : nat) (attributes_data : bytes) : option (res (list attribute)) :=
  r ← extract_attributes fuel attributes_data extraction_init;
  Some (st ← r; merge_concat_attributes st).

(** One iteration per byte and a last test are enough, unless the loop is
    infinite. *)
Definition parse (attributes_data : bytes) : option (res (list attribute)) :=
  parse_fuel (S (length attributes_data)) attributes_data.

(** ** Well-formed attributes: what [Attribute.parse] returns *)

Definition attr_wf (a : attribute) : Prop :=
  kind (_data_type a) = DATA_TYPE (cls a) ∧ data_wf (_data_type a).

(** The attribute of class [c] with bytes [v]. *)
Definition mk (c : attr_class) (v : bytes) : attribute :=
  {| cls := c; _data_type := {| kind := DATA_TYPE c; DataType.bytes_data := Some v |} |}.

Definition valid_bytes (c : attr_class) (v : bytes) : Prop :=
  bytes_ok v ∧
  (c ≠ EAPMessage → MIN_DATA_LENGTH (DATA_TYPE c) ≤ len v ≤ MAX_DATA_LENGTH (DATA_TYPE c)).

Lemma data_type_concat c : DATA_TYPE c = Concat ↔ c = EAPMessage.
Proof. by destruct c. Qed.

Lemma attr_wf_mk a : attr_wf a ↔ ∃ v, a = mk (cls a) v ∧ valid_bytes (cls a) v.
Proof.
  split.
  - intros [Hk (b & Hb & Hok & Hr)]. exists b. destruct a as [c [k bd]]. simpl in *. subst.
    split; [done|]. split; [done|]. intros Hc. apply Hr. by rewrite data_type_concat.
  - intros (v & -> & Hok & Hr). split; [done|]. exists v. split_and!; [done|done|].
    simpl. rewrite data_type_concat. exact Hr.
Qed.

Lemma attr_parse_ok c v a :
  Attribute.parse c v = Ok a →
  a = mk c v ∧
  (c ≠ EAPMessage → MIN_DATA_LENGTH (DATA_TYPE c) ≤ len v ≤ MAX_DATA_LENGTH (DATA_TYPE c)).
Proof.
  unfold Attribute.parse. intros H. inv_res. apply parse_ok in E as [-> Hr].
  split; [done|]. by rewrite <- data_type_concat.
Qed.

Lemma attr_parse_in c v : valid_bytes c v → Attribute.parse c v = Ok (mk c v).
Proof.
  intros [_ Hr]. unfold Attribute.parse. rewrite parse_in; [done|].
  by rewrite data_type_concat.
Qed.

Lemma attr_parse_total c v :
  (∃ a, Attribute.parse c v = Ok a) ∨ Attribute.parse c v = Raise MessageParseError.
Proof.
  unfold Attribute.parse. destruct (value_parse_total (DATA_TYPE c) v) as [[d ->]| ->]; simpl; eauto.
Qed.

Lemma ATTRIBUTE_TYPES_TYPE c : ATTRIBUTE_TYPES (TYPE c) = Some c.
Proof. by destruct c. Qed.

Lemma ATTRIBUTE_TYPES_Some t c : ATTRIBUTE_TYPES t = Some c → TYPE c = t.
Proof.
  unfold ATTRIBUTE_TYPES. intros ([i x] & Hf & [= <-])%bind_Some.
  by apply list_find_Some in Hf as (_ & ? & _).
Qed.

Lemma TYPE_inj c1 c2 : TYPE c1 = TYPE c2 → c1 = c2.
Proof.
  intros H. apply (f_equal ATTRIBUTE_TYPES) in H.
  rewrite !ATTRIBUTE_TYPES_TYPE in H. by injection H.
Qed.

Lemma TYPE_byte c : byte_ok (TYPE c).
Proof. destruct c; unfold byte_ok; simpl; lia. Qed.

Lemma DESCRIPTION_inj c1 c2 : DESCRIPTION c1 = DESCRIPTION c2 → c1 = c2.
Proof. by destruct c1, c2. Qed.

Lemma max_data_length t : MAX_DATA_LENGTH t ≤ 253.
Proof. destruct t; simpl; lia. Qed.

(** The bytes of an attribute that is not fragmented. *)
Definition raw1 (c : attr_class) (v : bytes) : bytes := TYPE c :: (len v + 2) :: v.

(** The length of a well-formed attribute on the wire. *)
Definition wire_len (c : attr_class) (v : bytes) : Z :=
  if decide (c = EAPMessage) then 2 * ((len v + 252) / 253) + len v else len v + 2.

Lemma full_length_mk c v :
  valid_bytes c v → Attribute.full_length (mk c v) = Ok (wire_len c v).
Proof.
  intros [Hok Hr]. unfold Attribute.full_length, wire_len, DataType.full_length. simpl.
  case_decide as Hc.
  - subst. cbn [DATA_TYPE]. unfold AVP_HEADER_LEN. f_equal.
    change (253 - 1) with 252. lia.
  - specialize (Hr Hc). unfold data_length, data_len, AVP_HEADER_LEN. simpl.
    destruct c; simpl in *; try done; f_equal; lia.
Qed.

Lemma pack_mk c v :
  valid_bytes c v → c ≠ EAPMessage → Attribute.pack (mk c v) = Ok (raw1 c v).
Proof.
  intros Hv Hc. pose proof (full_length_mk c v Hv) as Hf. destruct Hv as [Hok Hr].
  specialize (Hr Hc). pose proof (max_data_length (DATA_TYPE c)) as Hm.
  pose proof (len_nonneg v).
  assert (DataType.pack (TYPE c) (_data_type (mk c v)) = Ok v) as Hp.
  { unfold DataType.pack. simpl.
    destruct c; simpl in *; try done; rewrite pack_s_exact; try done; unfold len in Hr; lia. }
  assert (Attribute.pack (mk c v) = n ← Attribute.full_length (mk c v); t ← pack_B (TYPE c);
    l ← pack_B n; v ← DataType.pack (TYPE c) (_data_type (mk c v)); Ok ((t ++ l) ++ v)) as ->.
  { by destruct c. }
  rewrite Hf. unfold wire_len. rewrite decide_False by done. cbn [mbind res_bind].
  rewrite !pack_B_in; [|apply TYPE_byte|unfold byte_ok; lia]. cbn [mbind res_bind].
  by rewrite Hp.
Qed.

Lemma attr_pack_ok a :
  attr_wf a →
  ∃ b, Attribute.pack a = Ok b ∧ Attribute.full_length a = Ok (len b) ∧
       len b = wire_len (cls a) (default [] (Attribute.bytes_data a)).
Proof.
  intros (v & -> & Hv)%attr_wf_mk. set (c := cls a) in *.
  rewrite full_length_mk by done.
  change (default [] (Attribute.bytes_data (mk c v))) with v. cbn [cls mk].
  unfold wire_len. case_decide as Hc.
  - rewrite Hc. destruct (pack_concat_ok (TYPE EAPMessage) v (TYPE_byte _) (proj1 Hv))
      as (b & Hb & _ & Hl). exists b. by rewrite Hl.
  - exists (raw1 c v). rewrite pack_mk by done. unfold raw1.
    rewrite !len_cons. split_and!; [done|f_equal; lia|lia].
Qed.

(** The length an attribute announces is the number of bytes it packs to,
    for every attribute the parser can return, fragmented or not. *)
Theorem full_length_pack a :
  attr_wf a → ∃ b, Attribute.pack a = Ok b ∧ Attribute.full_length a = Ok (len b).
Proof. intros (b & Hb & Hl & _)%attr_pack_ok. by exists b. Qed.

Lemma full_length_pack_witness :
  ∃ b, Attribute.pack (mk EAPMessage (replicate 300 7)) = Ok b ∧
       Attribute.full_length (mk EAPMessage (replicate 300 7)) = Ok (len b).
Proof.
  apply (full_length_pack (mk EAPMessage (replicate 300 7))). split; [reflexivity|].
  exists (replicate 300 7). split; [reflexivity|]. split; [|intros H; by destruct H].
  apply Forall_replicate. unfold byte_ok. lia.
Defined.

(** ** Extraction inverts packing *)

Lemma extract_one_raw1 c v rest :
  valid_bytes c v → len v ≤ 253 →
  extract_one (raw1 c v ++ rest) = Ok (mk c v, len v + 2).
Proof.
  intros Hv Hl. unfold extract_one, raw1. change (Z.to_nat HEADER_SIZE) with 2%nat.
  cbn [app take unpack_BB rethrow mbind res_bind].
  rewrite take_0. cbn [rethrow mbind res_bind].
  assert (slice 2 (Z.to_nat (len v + 2)) (TYPE c :: len v + 2 :: v ++ rest) = v) as ->.
  { unfold slice. simpl. rewrite drop_0.
    replace (Z.to_nat (len v + 2) - 2)%nat with (length v) by (unfold len; lia).
    apply take_app_length. }
  rewrite slice_to_len by (unfold HEADER_SIZE; lia).
  rewrite ATTRIBUTE_TYPES_TYPE. cbn [of_option mbind res_bind].
  by rewrite attr_parse_in.
Qed.

(** The unfragmented attributes on the wire: pairs of a class and a value. *)
Definition elem_ok (e : attr_class * bytes) : Prop := valid_bytes e.1 e.2 ∧ len e.2 ≤ 253.
Definition raws (l : list (attr_class * bytes)) : bytes := l ≫= λ e, raw1 e.1 e.2.
Definition record_all (st : extraction) (l : list (attr_class * bytes)) : extraction :=
  foldl (λ st e, record_attribute (mk e.1 e.2) st) st l.

Lemma raws_app l1 l2 : raws (l1 ++ l2) = raws l1 ++ raws l2.
Proof. apply bind_app. Qed.

Lemma raws_pairs c cs : raws ((c,.) <$> cs) = cs ≫= λ v, raw1 c v.
Proof.
  induction cs as [|v cs IH]; [done|].
  change (raws ((c,.) <$> v :: cs)) with (raw1 c v ++ raws ((c,.) <$> cs)). by rewrite IH.
Qed.

Lemma length_raws l : (length l <= length (raws l))%nat.
Proof.
  induction l as [|e l IH]; [simpl; lia|].
  change (raws (e :: l)) with (raw1 e.1 e.2 ++ raws l). rewrite length_app. simpl. lia.
Qed.

Lemma extract_raws fuel l st :
  Forall elem_ok l → (length l < fuel)%nat →
  extract_attributes fuel (raws l) st = Some (Ok (record_all st l)).
Proof.
  revert fuel st. induction l as [|[c v] l IH]; intros fuel st Hok Hf.
  { by destruct fuel; [simpl in Hf; lia|]. }
  apply Forall_cons in Hok as [[Hv Hl] Hok]. destruct fuel as [|fuel]; [simpl in Hf; lia|].
  change (raws ((c, v) :: l)) with (raw1 c v ++ raws l).
  cbn [extract_attributes]. unfold raw1 at 1. cbn [app].
  change (TYPE c :: len v + 2 :: v ++ raws l) with (raw1 c v ++ raws l).
  rewrite extract_one_raw1 by done.
  rewrite drop_app_length' by (unfold raw1, len; simpl; lia).
  rewrite IH; [done|done|simpl in Hf; lia].
Qed.

(** The fragments [Concat.pack] cuts a value into. *)
Lemma pack_concat_chunks t data :
  byte_ok t → bytes_ok data →
  ∃ cs, pack_concat t data = Ok (cs ≫= λ c, t :: (len c + 2) :: c) ∧ mjoin cs = data ∧
        Forall (λ c, bytes_ok c ∧ len c ≤ 253) cs ∧ (data ≠ [] → cs ≠ []).
Proof.
  intros Ht. induction data as [|l Hne IH] using chunk_ind; intros Hok.
  - exists []. by split_and!.
  - destruct IH as (cs & Hp & Hj & Hcs & _); [by apply Forall_drop|].
    exists (take 253 l :: cs). rewrite pack_concat_cons by done. rewrite Hp.
    split_and!; [done| | |done].
    + simpl. rewrite Hj. apply take_drop.
    + constructor; [|done]. split; [by apply Forall_take|].
      unfold len. rewrite length_take. lia.
Qed.

(** The unfragmented attributes one attribute is packed to. *)
Lemma pack_raws a :
  attr_wf a →
  ∃ cs, Attribute.pack a = Ok (raws ((cls a,.) <$> cs)) ∧
        Attribute.bytes_data a = Some (mjoin cs) ∧
        Forall elem_ok ((cls a,.) <$> cs) ∧
        (cls a ≠ EAPMessage → a = mk (cls a) (mjoin cs) ∧ cs = [mjoin cs]) ∧
        (Attribute.bytes_data a ≠ Some [] → cs ≠ []).
Proof.
  intros (v & Ha & Hv)%attr_wf_mk. rewrite Ha. set (c := cls a) in *. simpl.
  destruct (decide (c = EAPMessage)) as [Hc|Hc].
  - rewrite Hc in *. destruct (pack_concat_chunks (TYPE EAPMessage) v (TYPE_byte _) (proj1 Hv))
      as (cs & Hp & Hj & Hcs & Hne).
    exists cs. split_and!.
    + change (Attribute.pack (mk EAPMessage v)) with (pack_concat (TYPE EAPMessage) v).
      rewrite Hp. by rewrite raws_pairs.
    + by rewrite Hj.
    + apply Forall_fmap. eapply Forall_impl; [exact Hcs|]. intros x [Hx Hlx].
      split; [|done]. by split.
    + done.
    + intros H. apply Hne. intros ->. done.
  - exists [v]. rewrite pack_mk by done.
    assert (len v ≤ 253) by (pose proof (max_data_length (DATA_TYPE c)); destruct Hv as [_ Hr];
      specialize (Hr Hc); lia).
    simpl. unfold raws. simpl. rewrite !app_nil_r. split_and!; try done.
    repeat constructor; try done; by apply Hv.
Qed.

(** ** The bookkeeping of the extraction loop *)

Lemma record_plain c v st :
  c ≠ EAPMessage →
  record_attribute (mk c v) st =
  {| index := index st + 1; last_attribute := TYPE c; attributes := attributes st ++ [mk c v];
     attributes_to_concat := attributes_to_concat st |}.
Proof.
  intros Hc. unfold record_attribute. simpl.
  rewrite bool_decide_eq_true_2 by (by rewrite data_type_concat).
  by destruct c.
Qed.

(** The values of attributes of class [c ≠ EAPMessage] for all of [l]. *)
Definition plain (l : list (attr_class * bytes)) : Prop := Forall (λ e, e.1 ≠ EAPMessage) l.

Definition mks (l : list (attr_class * bytes)) : list attribute := (λ e, mk e.1 e.2) <$> l.

Lemma record_all_plain l st :
  plain l →
  index (record_all st l) = index st + len l ∧
  attributes (record_all st l) = attributes st ++ mks l ∧
  attributes_to_concat (record_all st l) = attributes_to_concat st ∧
  (last_attribute st ≠ TYPE EAPMessage → last_attribute (record_all st l) ≠ TYPE EAPMessage).
Proof.
  intros Hl. revert st. induction Hl as [|[c v] l Hc Hl IH]; intros st.
  { rewrite app_nil_r, len_nil. split_and!; try done. simpl. lia. }
  change (record_all st ((c, v) :: l)) with (record_all (record_attribute (mk c v) st) l).
  destruct (IH (record_attribute (mk c v) st)) as (Hi & Ha & Hd & Hlast).
  rewrite (record_plain c v st Hc) in *. simpl in *. rewrite Hi, Ha, Hd, len_cons.
  split_and!; [lia|by rewrite <- app_assoc|done|].
  intros _. apply Hlast. intros HT%(TYPE_inj c EAPMessage). done.
Qed.

(** The fragments after the first one of a run. *)
Lemma record_all_fragments cs st parts :
  last_attribute st = TYPE EAPMessage →
  attributes_to_concat st = [(TYPE EAPMessage, parts)] →
  attributes (record_all st ((EAPMessage,.) <$> cs)) =
    attributes st ++ mks ((EAPMessage,.) <$> cs) ∧
  attributes_to_concat (record_all st ((EAPMessage,.) <$> cs)) =
    [(TYPE EAPMessage, parts ++ ((λ v, (mk EAPMessage v, index st)) <$> cs))].
Proof.
  revert st parts. induction cs as [|v cs IH]; intros st parts Hlast Hd.
  { simpl. by rewrite !app_nil_r. }
  change (record_all st ((EAPMessage,.) <$> v :: cs))
    with (record_all (record_attribute (mk EAPMessage v) st) ((EAPMessage,.) <$> cs)).
  assert (record_attribute (mk EAPMessage v) st =
    {| index := index st; last_attribute := TYPE EAPMessage;
       attributes := attributes st ++ [mk EAPMessage v];
       attributes_to_concat := [(TYPE EAPMessage, parts ++ [(mk EAPMessage v, index st)])] |})
    as ->.
  { unfold record_attribute. rewrite Hd. simpl. rewrite Hlast. done. }
  edestruct IH as [-> ->]; [done|done|]. simpl. by rewrite <- !app_assoc.
Qed.

Lemma record_all_eap cs st :
  cs ≠ [] → last_attribute st ≠ TYPE EAPMessage → attributes_to_concat st = [] →
  attributes (record_all st ((EAPMessage,.) <$> cs)) =
    attributes st ++ mks ((EAPMessage,.) <$> cs) ∧
  attributes_to_concat (record_all st ((EAPMessage,.) <$> cs)) =
    [(TYPE EAPMessage, (λ v, (mk EAPMessage v, index st + 1)) <$> cs)].
Proof.
  intros Hne Hlast Hd. destruct cs as [|v cs]; [done|].
  change (record_all st ((EAPMessage,.) <$> v :: cs))
    with (record_all (record_attribute (mk EAPMessage v) st) ((EAPMessage,.) <$> cs)).
  assert (record_attribute (mk EAPMessage v) st =
    {| index := index st + 1; last_attribute := TYPE EAPMessage;
       attributes := attributes st ++ [mk EAPMessage v];
       attributes_to_concat := [(TYPE EAPMessage, [(mk EAPMessage v, index st + 1)])] |}) as ->.
  { unfold record_attribute. rewrite Hd. simpl.
    destruct (Z.eqb_spec (last_attribute st) 79); done. }
  edestruct (record_all_fragments cs) as [-> ->]; [done|done|]. simpl.
  by rewrite <- !app_assoc.
Qed.

Lemma concat_data_parts cs i :
  concat_data ((λ v, (mk EAPMessage v, i)) <$> cs) = Ok (mjoin cs).
Proof.
  induction cs as [|v cs IH]; [done|]. rewrite fmap_cons. cbn [concat_data].
  rewrite IH. done.
Qed.

Lemma filter_plain l :
  plain l → filter (λ x, TYPE (cls x) ≠ TYPE EAPMessage) (mks l) = mks l.
Proof.
  induction 1 as [|[c v] l Hc Hl IH]; [done|].
  unfold mks. rewrite fmap_cons, filter_cons_True; [by f_equal|].
  simpl. intros HT%(TYPE_inj c EAPMessage). done.
Qed.

Lemma filter_eap cs :
  filter (λ x, TYPE (cls x) ≠ TYPE EAPMessage) (mks ((EAPMessage,.) <$> cs)) = [].
Proof.
  induction cs as [|v cs IH]; [done|].
  unfold mks in *. rewrite !fmap_cons, filter_cons_False; [done|]. simpl. by intros [].
Qed.

(** Merging the fragments of one run puts the whole attribute in its place. *)
Lemma merge_one_run pre cs post st :
  plain pre → plain post → cs ≠ [] → bytes_ok (mjoin cs) →
  attributes st = mks pre ++ mks ((EAPMessage,.) <$> cs) ++ mks post →
  attributes_to_concat st = [(TYPE EAPMessage, (λ v, (mk EAPMessage v, len pre)) <$> cs)] →
  merge_concat_attributes st = Ok (mks pre ++ mk EAPMessage (mjoin cs) :: mks post).
Proof.
  intros Hpre Hpost Hne Hok Ha Hd. unfold merge_concat_attributes. rewrite Hd.
  cbn [concatenated]. rewrite concat_data_parts. cbn [mbind res_bind].
  rewrite ATTRIBUTE_TYPES_TYPE. cbn [of_option mbind res_bind].
  rewrite attr_parse_in by (by split). cbn [mbind res_bind].
  destruct cs as [|v cs _] using rev_ind; [done|].
  rewrite fmap_app, last_app. cbn [fmap list_fmap last mbind res_bind foldl fst snd].
  rewrite Ha. cbn [cls mk]. rewrite !filter_app, filter_eap.
  rewrite (filter_plain pre), (filter_plain post) by done.
  unfold insert_at. rewrite app_nil_l. do 2 f_equal.
  - rewrite take_app_length'; [done|].
    unfold mks. rewrite length_fmap. unfold len. lia.
  - f_equal. rewrite drop_app_length'; [done|].
    unfold mks. rewrite length_fmap. unfold len. lia.
Qed.

(** Lists the packer produces: well-formed attributes, and at most one
    EAP-Message, which is not empty. *)
Record list_wf (l : list attribute) : Prop := {
  list_attr_wf : Forall attr_wf l;
  list_eap_nonempty :
    Forall (λ a, cls a = EAPMessage → Attribute.bytes_data a ≠ Some []) l;
  list_one_eap : (length (filter (λ a, cls a = EAPMessage) l) <= 1)%nat
}.

Lemma filter_eap_nil l :
  filter (λ a, cls a = EAPMessage) l = [] → Forall (λ a, cls a ≠ EAPMessage) l.
Proof.
  induction l as [|a l IH]; [constructor|]. destruct (decide (cls a = EAPMessage)).
  - by rewrite filter_cons_True.
  - rewrite filter_cons_False by done. intros ?. constructor; auto.
Qed.

(** The list around its EAP-Message. *)
Lemma list_wf_split l :
  list_wf l →
  Forall (λ a, cls a ≠ EAPMessage) l ∨
  ∃ pre e post, l = pre ++ e :: post ∧ cls e = EAPMessage ∧
    Attribute.bytes_data e ≠ Some [] ∧
    Forall (λ a, cls a ≠ EAPMessage) pre ∧ Forall (λ a, cls a ≠ EAPMessage) post.
Proof.
  intros [_ Hne Hone]. induction Hne as [|a l Ha Hl IH]; [left; constructor|].
  destruct (decide (cls a = EAPMessage)) as [Hc|Hc].
  - rewrite filter_cons_True in Hone by done. right. exists [], a, l.
    split_and!; [done|done|by apply Ha|constructor|]. apply filter_eap_nil.
    apply length_zero_iff_nil. simpl in Hone. lia.
  - rewrite filter_cons_False in Hone by done.
    destruct (IH Hone) as [Hp|(pre & e & post & -> & He & Hb & Hpre & Hpost)].
    + left. by constructor.
    + right. exists (a :: pre), e, post. split_and!; [done|done|done|by constructor|done].
Qed.

Lemma pack_app l1 l2 b1 b2 :
  pack l1 = Ok b1 → pack l2 = Ok b2 → pack (l1 ++ l2) = Ok (b1 ++ b2).
Proof.
  revert b1. induction l1 as [|a l1 IH]; intros b1 H1 H2; simpl in *; inv_res; [done|].
  rewrite (IH _ eq_refl H2). simpl. by rewrite app_assoc.
Qed.

Lemma pack_plain l :
  Forall attr_wf l → Forall (λ a, cls a ≠ EAPMessage) l →
  ∃ es, pack l = Ok (raws es) ∧ Forall elem_ok es ∧ plain es ∧ l = mks es ∧ length es = length l.
Proof.
  induction 1 as [|a l Ha Hl IH]; intros Hp.
  { exists []. split_and!; try done; constructor. }
  apply Forall_cons in Hp as [Hc Hp]. destruct (IH Hp) as (es & He & Hok & Hpl & Hm & Hlen).
  destruct (pack_raws a Ha) as (cs & Hpk & Hb & Hcs & Hmk & _).
  destruct (Hmk Hc) as [Hmk1 Hmk2]. rewrite Hmk2 in Hpk, Hcs.
  exists ((cls a, mjoin cs) :: es). split_and!.
  - simpl. rewrite Hpk, He. simpl. unfold raws at 1. simpl. by rewrite app_nil_r.
  - constructor; [|done]. by apply Forall_cons in Hcs as [? _].
  - by constructor.
  - unfold mks. rewrite fmap_cons. f_equal; [done|]. exact Hm.
  - simpl. by rewrite Hlen.
Qed.

Lemma parse_raws es st' l :
  Forall elem_ok es → record_all extraction_init es = st' →
  merge_concat_attributes st' = Ok l → parse (raws es) = Some (Ok l).
Proof.
  intros Hok Hst Hm. unfold parse, parse_fuel.
  rewrite extract_raws; [|done|pose proof (length_raws es); lia].
  simpl. rewrite Hst. by rewrite Hm.
Qed.

(** The core of the round trip, shared by the packet round trip. *)
Lemma list_parse_pack l b :
  list_wf l → pack l = Ok b → parse b = Some (Ok l).
Proof.
  intros Hl Hb. destruct (list_wf_split l Hl) as [Hpl|(pre & e & post & -> & Hc & Hne & Hpre & Hpost)];
    destruct Hl as [Hwf _ _].
  - destruct (pack_plain l Hwf Hpl) as (es & He & Hok & Hp & -> & _).
    rewrite He in Hb. injection Hb as <-. eapply parse_raws; [done|done|].
    destruct (record_all_plain es extraction_init Hp) as (_ & Ha & Hd & _).
    unfold merge_concat_attributes. rewrite Hd, Ha. done.
  - apply Forall_app in Hwf as [Wpre [We Wpost]%Forall_cons].
    destruct (pack_plain pre Wpre Hpre) as (es1 & He1 & Hok1 & Hp1 & Hm1 & Hl1).
    destruct (pack_plain post Wpost Hpost) as (es2 & He2 & Hok2 & Hp2 & Hm2 & _).
    destruct (pack_raws e We) as (cs & Hpk & Hbd & Hcs & _ & Hcsne). rewrite Hc in *.
    assert (b = raws (es1 ++ ((EAPMessage,.) <$> cs) ++ es2)) as ->.
    { rewrite (pack_app pre (e :: post) (raws es1) (raws ((EAPMessage,.) <$> cs) ++ raws es2)) in Hb;
        [|done|simpl; by rewrite Hpk, He2]. injection Hb as <-. by rewrite !raws_app. }
    apply (attr_wf_mk e) in We as (v & Hev & [Hvok _]). rewrite Hc in Hev.
    assert (v = mjoin cs) as -> by (rewrite Hev in Hbd; by injection Hbd).
    eapply parse_raws; [by repeat apply Forall_app_2|done|].
    unfold record_all. rewrite !foldl_app.
    fold (record_all extraction_init es1).
    destruct (record_all_plain es1 extraction_init Hp1) as (Hi & Ha & Hd & Hlast).
    fold (record_all (record_all extraction_init es1) ((EAPMessage,.) <$> cs)).
    destruct (record_all_eap cs (record_all extraction_init es1)) as [Ha' Hd'];
      [by apply Hcsne|by apply Hlast|by rewrite Hd|].
    fold (record_all (record_all (record_all extraction_init es1) ((EAPMessage,.) <$> cs)) es2).
    edestruct (record_all_plain es2) as (_ & Ha2 & Hd2 & _); [done|].
    rewrite Hev, Hm1, Hm2. apply merge_one_run; [done|done|by apply Hcsne|done| |].
    + by rewrite Ha2, Ha', Ha, <- app_assoc.
    + rewrite Hd2, Hd', Hi. simpl. do 2 f_equal.
      apply list_fmap_ext. intros. do 2 f_equal. lia.
Qed.

(** C14: parsing the bytes of a packed attribute list gives the list back, the
    EAP-Message reassembled from its fragments at its original position. *)
Theorem attributes_roundtrip l :
  list_wf l → ∃ b, pack l = Ok b ∧ parse b = Some (Ok l).
Proof.
  intros Hl. assert (∃ b, pack l = Ok b) as [b Hb].
  { destruct Hl as [Hwf _ _]. induction Hwf as [|a l Ha _ [b Hb]]; [by eexists|].
    destruct (pack_raws a Ha) as (cs & Hp & _). simpl. rewrite Hp, Hb. by eexists. }
  exists b. split; [done|]. by apply list_parse_pack.
Qed.

Lemma attributes_roundtrip_witness :
  let l := [mk UserName [117]; mk EAPMessage (replicate 300 9); mk State [1; 2]] in
  ∃ b, pack l = Ok b ∧ parse b = Some (Ok l).
Proof.
  apply (attributes_roundtrip [mk UserName [117]; mk EAPMessage (replicate 300 9); mk State [1; 2]]).
  split.
  - repeat constructor; try (eexists; split; [reflexivity|]; split; [|]);
      try (apply Forall_replicate; unfold byte_ok; lia);
      try (repeat constructor; lia); try (intros H; by destruct H); intros _; split; vm_compute;
      discriminate.
  - repeat constructor; simpl; discriminate.
  - vm_compute. repeat constructor.
Defined.

(** ** Termination of the extraction *)

Lemma extract_one_total rest :
  (∃ a n, extract_one rest = Ok (a, n)) ∨ extract_one rest = Raise MessageParseError.
Proof.
  unfold extract_one. change (Z.to_nat HEADER_SIZE) with 2%nat.
  destruct rest as [|t [|n rest]]; [right; reflexivity..|].
  cbn [take]. rewrite take_0. cbn [unpack_BB rethrow mbind res_bind].
  destruct (ATTRIBUTE_TYPES t) as [c|]; [|right; reflexivity].
  cbn [of_option mbind res_bind].
  edestruct (attr_parse_total c) as [[a ->]| ->]; [left; by eexists _, _|right; reflexivity].
Qed.

(** What one iteration returns, on a byte string. *)
Lemma extract_one_inv rest a n :
  bytes_ok rest → extract_one rest = Ok (a, n) →
  ∃ c v tail, a = mk c v ∧ rest = TYPE c :: n :: tail ∧ valid_bytes c v ∧ byte_ok n ∧
    v = take (Z.to_nat n - 2) tail ∧ (n < 2 → v = []).
Proof.
  intros Hok. unfold extract_one. change (Z.to_nat HEADER_SIZE) with 2%nat.
  destruct rest as [|t [|m tail]]; [done..|].
  apply Forall_cons in Hok as [Ht Hok]. apply Forall_cons in Hok as [Hm Hok].
  cbn [take]. rewrite take_0. cbn [unpack_BB rethrow mbind res_bind].
  destruct (ATTRIBUTE_TYPES t) as [c|] eqn:Hc; [|done]. apply ATTRIBUTE_TYPES_Some in Hc as <-.
  cbn [of_option mbind res_bind].
  assert (slice_to (m - HEADER_SIZE) (slice 2 (Z.to_nat m) (TYPE c :: m :: tail)) =
    take (Z.to_nat m - 2) tail) as ->.
  { unfold slice. simpl. rewrite drop_0. unfold HEADER_SIZE, byte_ok in *.
    destruct (Z.le_gt_cases 2 m).
    - apply slice_to_len. unfold len. rewrite length_take. lia.
    - replace (Z.to_nat m - 2)%nat with 0%nat by lia. apply slice_to_nil. }
  destruct (Attribute.parse c _) as [a'|e] eqn:E; [|by destruct e].
  cbn [rethrow mbind res_bind]. intros [= <- <-]. apply attr_parse_ok in E as [-> Hr].
  exists c, (take (Z.to_nat m - 2) tail), tail. split_and!; try done.
  - split; [by apply Forall_take|done].
  - intros ?. replace (Z.to_nat m - 2)%nat with 0%nat by lia. done.
Qed.

(** An iteration that does not advance is on an EAP-Message of length zero. *)
Lemma extract_one_zero rest a n :
  bytes_ok rest → extract_one rest = Ok (a, n) → n ≤ 0 →
  ∃ tail, rest = TYPE EAPMessage :: 0 :: tail.
Proof.
  intros Hok H Hn. destruct (extract_one_inv _ _ _ Hok H)
    as (c & v & tail & -> & -> & [_ Hr] & Hb & -> & Hz).
  exists tail. rewrite (Hz ltac:(lia)) in Hr. unfold byte_ok in Hb.
  destruct (decide (c = EAPMessage)) as [->|Hc]; [do 2 f_equal; lia|].
  specialize (Hr Hc). exfalso. destruct c; simpl in Hr; rewrite len_nil in Hr; lia || done.
Qed.

Lemma extract_zero_diverges fuel tail st :
  extract_attributes fuel (TYPE EAPMessage :: 0 :: tail) st = None.
Proof. revert st. induction fuel as [|fuel IH]; intros st; [done|]. apply IH. Qed.

Lemma extract_mono fuel k rest st r :
  extract_attributes fuel rest st = Some r → extract_attributes (fuel + k) rest st = Some r.
Proof.
  revert rest st. induction fuel as [|fuel IH]; intros rest st; [done|]. simpl.
  destruct rest; [done|]. destruct (extract_one _) as [[a n]|]; [apply IH|done].
Qed.

(** With one unit of fuel per byte and one more, the loop ends or it has reached
    an EAP-Message of length zero, where it stays for ever. *)
Lemma extract_ends fuel rest st :
  bytes_ok rest → (length rest < fuel)%nat →
  (∃ r, extract_attributes fuel rest st = Some r) ∨
  ((∀ fuel', extract_attributes fuel' rest st = None) ∧
   ∃ k tail, drop k rest = TYPE EAPMessage :: 0 :: tail).
Proof.
  revert rest st. induction fuel as [|fuel IH]; intros rest st Hok Hf; [lia|].
  cbn [extract_attributes]. destruct rest as [|x rest]; [left; by eexists|].
  destruct (extract_one (x :: rest)) as [[a n]|e] eqn:E; [|left; by eexists].
  destruct (Z.le_gt_cases n 0) as [Hn|Hn].
  - destruct (extract_one_zero _ _ _ Hok E Hn) as [tail Ht]. right. rewrite Ht.
    split; [intros; apply extract_zero_diverges|]. by exists 0%nat, tail.
  - assert (length (drop (Z.to_nat n) (x :: rest)) < fuel)%nat as Hl.
    { rewrite length_drop. simpl in *. lia. }
    destruct (IH (drop (Z.to_nat n) (x :: rest)) (record_attribute a st)) as
      [Hr|[Hd (k & tail & Hk)]]; [by apply Forall_drop|done|by left|].
    right. split.
    + intros [|fuel']; [done|]. cbn [extract_attributes]. rewrite E. apply Hd.
    + exists (Z.to_nat n + k)%nat, tail. by rewrite <- drop_drop.
Qed.

(** C37: the extraction of the attributes ends with a result unless the data
    contains an EAP-Message attribute of length zero: more fuel than
    [parse] uses changes nothing, and without such an attribute it returns. *)
Theorem parse_terminates data :
  bytes_ok data →
  (∀ k tail, drop k data ≠ TYPE EAPMessage :: 0 :: tail) →
  ∃ r, parse data = Some r ∧ ∀ n, parse_fuel (S (length data) + n) data = Some r.
Proof.
  intros Hok Hno. unfold parse, parse_fuel.
  destruct (extract_ends (S (length data)) data extraction_init Hok ltac:(lia))
    as [[r Hr]|[_ (k & tail & Hk)]]; [|by destruct (Hno k tail)].
  exists (st ← r; merge_concat_attributes st). rewrite Hr. split; [done|].
  intros n. by rewrite (extract_mono _ n _ _ _ Hr).
Qed.

Lemma parse_terminates_witness :
  ∃ r, parse [24; 3; 5] = Some r ∧ ∀ n, parse_fuel (S 3 + n) [24; 3; 5] = Some r.
Proof.
  apply (parse_terminates [24; 3; 5]); [repeat constructor; lia|].
  intros [|[|[|k]]] tail; simpl; rewrite ?drop_nil; discriminate.
Defined.

(** An EAP-Message attribute of length zero at the head of the data makes
    the extraction loop run for ever: no amount of fuel gives a result, so the
    thread that received the packet never handles another one. *)
Theorem zero_length_eap_diverges fuel tail :
  parse_fuel fuel (TYPE EAPMessage :: 0 :: tail) = None.
Proof. unfold parse_fuel. by rewrite extract_zero_diverges. Qed.

(** ** What parsing returns: well-formed attributes that fit in the input *)

Lemma Forall_filter_sub {A} (P Q : A → Prop) `{!∀ x, Decision (Q x)} l :
  Forall P l → Forall P (filter Q l).
Proof.
  intros Hl. apply Forall_forall. intros x [_ Hx]%list_elem_of_filter.
  by apply (proj1 (Forall_forall P l) Hl).
Qed.

Definition sumZ {A} (f : A → Z) (l : list A) : Z := foldr (λ x, Z.add (f x)) 0 l.

Lemma sumZ_app {A} (f : A → Z) l1 l2 : sumZ f (l1 ++ l2) = sumZ f l1 + sumZ f l2.
Proof. induction l1 as [|x l1 IH]; simpl; [done|]. rewrite IH. lia. Qed.

Lemma sumZ_insert_at {A} (f : A → Z) i x l : sumZ f (insert_at i x l) = f x + sumZ f l.
Proof.
  unfold insert_at. rewrite sumZ_app. simpl. rewrite <- (take_drop (Z.to_nat i) l) at 3.
  rewrite sumZ_app. lia.
Qed.

Lemma sumZ_split {A} (f : A → Z) (P : A → Prop) `{!∀ x, Decision (P x)} l :
  sumZ f l = sumZ f (filter P l) + sumZ f (filter (λ x, ¬ P x) l).
Proof.
  induction l as [|x l IH]; [done|]. simpl. rewrite IH. destruct (decide (P x)).
  - rewrite filter_cons_True, filter_cons_False by (done || tauto). simpl. lia.
  - rewrite filter_cons_False, filter_cons_True by (done || tauto). simpl. lia.
Qed.

Definition value_of (a : attribute) : bytes := default [] (Attribute.bytes_data a).

Lemma value_of_mk c v : value_of (mk c v) = v.
Proof. done. Qed.

(** The bytes of the input an attribute accounts for, at least. *)
Definition cost (a : attribute) : Z :=
  if decide (cls a = EAPMessage ∧ value_of a = []) then 0 else len (value_of a) + 2.
Definition wlen (a : attribute) : Z := wire_len (cls a) (value_of a).

Lemma total_length_wf l : Forall attr_wf l → total_length l = Ok (sumZ wlen l).
Proof.
  induction 1 as [|a l Ha _ IH]; [done|]. cbn [total_length]. rewrite IH.
  apply attr_wf_mk in Ha as (v & Ha & Hv). rewrite Ha at 1.
  rewrite full_length_mk by done. simpl. unfold wlen, value_of. rewrite Ha. done.
Qed.

Lemma pack_wf l :
  Forall attr_wf l → ∃ b, pack l = Ok b ∧ len b = sumZ wlen l.
Proof.
  induction 1 as [|a l Ha _ (b & Hb & Hl)]; [by exists []|].
  destruct (attr_pack_ok a Ha) as (ba & Hba & _ & Hla). cbn [pack]. rewrite Hba, Hb.
  exists (ba ++ b). split; [done|]. rewrite len_app, Hl, Hla. done.
Qed.

Record extraction_inv (st : extraction) : Prop := {
  inv_wf : Forall (λ a, attr_wf a ∧ len (value_of a) ≤ 253) (attributes st);
  inv_concat :
    (attributes_to_concat st = [] ∧ filter (λ a, cls a = EAPMessage) (attributes st) = []) ∨
    ∃ parts, attributes_to_concat st = [(TYPE EAPMessage, parts)] ∧
             parts.*1 = filter (λ a, cls a = EAPMessage) (attributes st)
}.

Lemma record_attribute_inv c v st :
  valid_bytes c v → len v ≤ 253 → extraction_inv st →
  extraction_inv (record_attribute (mk c v) st).
Proof.
  intros Hv Hl [Hwf Hc]. split.
  - apply Forall_app_2; [done|]. apply Forall_singleton. split; [|done].
    apply attr_wf_mk. by exists v.
  - cbn [record_attribute attributes]. rewrite filter_app.
    destruct (decide (c = EAPMessage)) as [->|Hne].
    + right. destruct Hc as [[Hd Hf]|(parts & Hd & Hf)].
      * cbn [record_attribute attributes_to_concat]. rewrite Hd. simpl.
        eexists. split; [done|]. by rewrite Hf, filter_cons_True by done.
      * cbn [record_attribute attributes_to_concat]. rewrite Hd. simpl.
        eexists. split; [done|]. rewrite fmap_app, Hf. by rewrite filter_cons_True by done.
    + rewrite (record_plain c v st Hne). cbn [attributes_to_concat].
      rewrite filter_cons_False, filter_nil, app_nil_r by done. exact Hc.
Qed.

(** One iteration accounts for the attribute it returns. *)
Lemma extract_one_cost rest a n :
  bytes_ok rest → extract_one rest = Ok (a, n) →
  ∃ c v, a = mk c v ∧ valid_bytes c v ∧ len v ≤ 253 ∧
    cost a + len (drop (Z.to_nat n) rest) ≤ len rest.
Proof.
  intros Hok H. destruct (extract_one_inv _ _ _ Hok H)
    as (c & v & tail & -> & -> & Hv & Hb & -> & Hz). unfold byte_ok in Hb.
  eexists c, _. split_and!; [done|done| |].
  - unfold len. rewrite length_take. lia.
  - unfold cost. cbn [cls mk]. case_decide as Hd.
    + unfold len. rewrite length_drop. simpl. lia.
    + rewrite value_of_mk in *.
      destruct (Z.le_gt_cases 2 n).
      * unfold len. rewrite length_drop, length_take. simpl. lia.
      * exfalso. apply Hd. rewrite (Hz ltac:(lia)) in *. split; [|done].
        destruct (decide (c = EAPMessage)) as [|Hc]; [done|].
        destruct Hv as [_ Hr]. specialize (Hr Hc).
        destruct c; simpl in Hr; rewrite len_nil in Hr; lia || done.
Qed.

Lemma extract_ok fuel rest st st' :
  bytes_ok rest → extraction_inv st →
  extract_attributes fuel rest st = Some (Ok st') →
  extraction_inv st' ∧
  sumZ cost (attributes st') ≤ sumZ cost (attributes st) + len rest.
Proof.
  revert rest st. induction fuel as [|fuel IH]; intros rest st Hok Hinv; [done|].
  cbn [extract_attributes]. destruct rest as [|x rest].
  { intros [= <-]. split; [done|]. rewrite len_nil. lia. }
  destruct (extract_one (x :: rest)) as [[a n]|e] eqn:E; [|done]. intros H.
  destruct (extract_one_cost _ _ _ Hok E) as (c & v & -> & Hv & Hl & Hcost).
  destruct (IH _ _ (Forall_drop _ _ _ Hok) (record_attribute_inv c v st Hv Hl Hinv) H)
    as [Hinv' Hs]. split; [done|].
  cbn [record_attribute attributes] in Hs. rewrite sumZ_app in Hs. cbn [sumZ foldr] in Hs. lia.
Qed.

Lemma extract_raise fuel rest st e :
  extract_attributes fuel rest st = Some (Raise e) → e = MessageParseError.
Proof.
  revert rest st. induction fuel as [|fuel IH]; intros rest st; [done|].
  cbn [extract_attributes]. destruct rest as [|x rest]; [done|].
  destruct (extract_one_total (x :: rest)) as [(a & n & ->)| ->]; [apply IH|by intros [= <-]].
Qed.

(** The bytes of the parts, and what the merged attribute costs. *)
Lemma concat_data_wf parts :
  Forall (λ p : attribute * Z, attr_wf p.1 ∧ len (value_of p.1) ≤ 253 ∧ cls p.1 = EAPMessage) parts →
  ∃ b, concat_data parts = Ok b ∧ bytes_ok b ∧ wire_len EAPMessage b ≤ sumZ cost parts.*1.
Proof.
  induction 1 as [|[a i] parts (Ha & Hl & Hc) _ (b & Hb & Hok & Hs)].
  { exists []. split_and!; [done|constructor|done]. }
  simpl in Ha, Hl, Hc. apply attr_wf_mk in Ha as (v & Ha & [Hv _]).
  assert (value_of a = v) as Hval by (by rewrite Ha).
  assert (Attribute.bytes_data a = Some v) as Hbd by (by rewrite Ha).
  exists (v ++ b). cbn [concat_data]. rewrite Hbd, Hb. split_and!; [done|by apply Forall_app_2|].
  cbn [fmap list_fmap sumZ foldr fst]. fold (sumZ cost parts.*1).
  unfold wire_len in *. rewrite decide_True in * by done. rewrite len_app.
  unfold cost at 1. rewrite Hval in *. pose proof (len_nonneg v). case_decide as Hd.
  - destruct Hd as [_ ->]. rewrite len_nil, !Z.add_0_l. lia.
  - assert ((len v + len b + 252) / 253 ≤ (len b + 252) / 253 + 1); [|lia].
    rewrite <- Z.div_add by lia. apply Z.div_le_mono; lia.
Qed.

Lemma wlen_cost l :
  Forall attr_wf l → Forall (λ a, cls a ≠ EAPMessage) l → sumZ wlen l = sumZ cost l.
Proof.
  induction 1 as [|a l Ha _ IH]; [done|]. intros [Hc Hl]%Forall_cons. simpl.
  rewrite IH by done. f_equal. unfold wlen, wire_len, cost.
  by rewrite !decide_False by tauto.
Qed.

Lemma merge_wf st :
  extraction_inv st →
  ∃ l, merge_concat_attributes st = Ok l ∧ Forall attr_wf l ∧
       sumZ wlen l ≤ sumZ cost (attributes st).
Proof.
  intros [Hwf Hc]. unfold merge_concat_attributes.
  assert (Forall attr_wf (attributes st)) as Hwf1.
  { eapply Forall_impl; [exact Hwf|]. by intros x [? _]. }
  destruct Hc as [[-> Hf]|(parts & -> & Hf)].
  { exists (attributes st). split_and!; [done|done|]. rewrite wlen_cost; [done|done|].
    apply Forall_forall. intros a Ha Heq.
    assert (a ∈ filter (λ a, cls a = EAPMessage) (attributes st)) as Hin
      by (by apply list_elem_of_filter). rewrite Hf in Hin. by apply not_elem_of_nil in Hin. }
  destruct (concat_data_wf parts) as (b & Hb & Hok & Hs).
  { apply Forall_forall. intros [a i] Ha.
    assert (a ∈ filter (λ a, cls a = EAPMessage) (attributes st)) as [Heq Hin]%list_elem_of_filter.
    { rewrite <- Hf. apply list_elem_of_fmap. by exists (a, i). }
    pose proof (proj1 (Forall_forall _ _) Hwf a Hin) as [? ?]. done. }
  cbn [concatenated]. rewrite Hb. cbn [mbind res_bind]. rewrite ATTRIBUTE_TYPES_TYPE.
  cbn [of_option mbind res_bind]. rewrite attr_parse_in by (by split). cbn [mbind res_bind].
  eexists. split; [done|]. cbn [foldl fst snd cls mk]. split.
  - unfold insert_at. apply Forall_app_2; [by apply Forall_take, Forall_filter_sub|].
    constructor; [|by apply Forall_drop, Forall_filter_sub]. apply attr_wf_mk. exists b. by split_and!.
  - rewrite sumZ_insert_at.
    rewrite (sumZ_split cost (λ a, cls a = EAPMessage) (attributes st)), <- Hf.
    rewrite (list_filter_iff (λ x, TYPE (cls x) ≠ TYPE EAPMessage) (λ a, cls a ≠ EAPMessage)).
    + rewrite wlen_cost; [|by apply Forall_filter_sub|]; [change (wlen (mk EAPMessage b))
        with (wire_len EAPMessage b); lia|].
      apply Forall_forall. by intros x [? _]%list_elem_of_filter.
    + intros x. split; intros Hx; contradict Hx; [by rewrite Hx|by apply TYPE_inj].
Qed.

(** Parsing a byte string, in one lemma for the packet proofs. *)
Lemma parse_result data r :
  bytes_ok data → parse data = Some r →
  r = Raise MessageParseError ∨
  ∃ l, r = Ok l ∧ Forall attr_wf l ∧ sumZ wlen l ≤ len data.
Proof.
  unfold parse, parse_fuel. intros Hok (r0 & Hr & [= <-])%bind_Some.
  destruct r0 as [st|e]; [right|left; by rewrite (extract_raise _ _ _ _ Hr)].
  edestruct extract_ok as [Hinv Hs]; [done| |exact Hr|].
  { split; [constructor|by left]. }
  destruct (merge_wf st Hinv) as (l & Hm & Hwf & Hl). exists l. split_and!; [exact Hm|done|].
  simpl in Hs. lia.
Qed.

End RadiusAttributesList.
