(* ===== verification/Radius.v ===== *)
(** * RADIUS packets
      (src/subset/dot1x/authenticator: radius.py, and the RADIUS side of
      [MessagePacker] in message_parser.py)

    Packing, building and validating a packet, [Radius.parse], and the requests
    the authenticator builds.  [parse] returns an option because the extraction
    of the attributes may not end. *)

From stdpp Require Import base list sets strings.
From Stdlib Require Import ZArith Lia.
From S2P Require Import Prelude Bytes Mac Eap Messages Md5 RadiusData RadiusAttr RadiusList.
Import DataType Attribute.

Module Radius.

Definition RADIUS_HEADER_LENGTH : Z := 1 + 1 + 2 + 16.

Definition ACCESS_REQUEST : Z := 1.
Definition ACCESS_ACCEPT : Z := 2.
Definition ACCESS_REJECT : Z := 3.
Definition ACCESS_CHALLENGE : Z := 11.

(** [CODE] is the class attribute of the four packet classes. *)
Record RadiusPacket := {
  CODE : Z;
  packet_id : Z;
  authenticator : bytes;
  attributes : list attribute;
  packed : option bytes
}.

(** [PACKET_TYPE_PARSERS]: the codes with a registered class. *)
Definition registered (code : Z) : bool :=
  (code =? ACCESS_REQUEST) || (code =? ACCESS_ACCEPT) || (code =? ACCESS_REJECT)
  || (code =? ACCESS_CHALLENGE).

Definition new_packet (code id : Z) (auth : bytes) (attrs : list attribute) : RadiusPacket :=
  {| CODE := code; packet_id := id; authenticator := auth; attributes := attrs; packed := None |}.

Definition set_authenticator (a : bytes) (p : RadiusPacket) : RadiusPacket :=
  {| CODE := CODE p; packet_id := packet_id p; authenticator := a;
     attributes := attributes p; packed := packed p |}.
Definition set_attributes (l : list attribute) (p : RadiusPacket) : RadiusPacket :=
  {| CODE := CODE p; packet_id := packet_id p; authenticator := authenticator p;
     attributes := l; packed := packed p |}.
Definition set_packed (b : bytes) (p : RadiusPacket) : RadiusPacket :=
  {| CODE := CODE p; packet_id := packet_id p; authenticator := authenticator p;
     attributes := attributes p; packed := Some b |}.

(** [RadiusPacket.pack] *)
Definition pack (p : RadiusPacket) : res bytes :=
  n ← RadiusAttributesList.total_length (attributes p);
  c ← pack_B (CODE p);
  i ← pack_B (packet_id p);
  l ← pack_H (RADIUS_HEADER_LENGTH + n);
  packed_attributes ← RadiusAttributesList.pack (attributes p);
  Ok ((c ++ i ++ l ++ pack_s 16 (authenticator p)) ++ packed_attributes).

(** [for i in range(16): self.packed[i + position] = v[i]] *)
Fixpoint write_at (pos : nat) (v l : bytes) : res bytes :=
  match v with
  | [] => Ok l
  | x :: v' => if (pos <? length l)%nat then write_at (S pos) v' (<[pos := x]> l)
               else Raise IndexError
  end.

(** [build]: the packet in its final form. *)
Definition build (secret : option str) (p : RadiusPacket) : res bytes :=
  packed0 ← match packed p with Some ((_ :: _) as b) => Ok b | _ => pack p end;
  match RadiusAttributesList.indexof (DESCRIPTION MessageAuthenticator) (attributes p) with
  | Raise ValueError => Ok packed0
  | Raise e => Raise e
  | Ok i =>
      let position := i + RADIUS_HEADER_LENGTH + HEADER_SIZE in
      match secret with
      | Some ((_ :: _) as s) =>
          key ← encode s;
          write_at (Z.to_nat position) (hmac_md5 key packed0) packed0
      | _ => Ok packed0
      end
  end.

(** [validate_response_authenticator], returning the modified copy. *)
Definition validate_response_authenticator (p : RadiusPacket) (request_authenticator : bytes)
    (secret : str) (code : Z) : res RadiusPacket :=
  if negb (bool_decide (request_authenticator = [])) &&
     ((code =? ACCESS_REJECT) || (code =? ACCESS_ACCEPT) || (code =? ACCESS_CHALLENGE))
  then
    let p' := set_authenticator request_authenticator p in
    b ← pack p';
    key ← encode secret;
    if bool_decide (md5 (b ++ key) = authenticator p) then Ok (set_packed b p')
    else Raise InvalidResponseAuthenticatorError
  else Ok p.

(** The first Message-Authenticator with other bytes; the validation writes
    zeros there. *)
Fixpoint set_message_authenticator (v : bytes) (l : list attribute) : list attribute :=
  match l with
  | [] => []
  | a :: l' =>
      if decide (DESCRIPTION MessageAuthenticator = DESCRIPTION (cls a))
      then set_bytes_data v a :: l'
      else a :: set_message_authenticator v l'
  end.

Definition validate_message_authenticator (p : RadiusPacket) (secret : str)
    (request_authenticator : bytes) : res unit :=
  match RadiusAttributesList.find (DESCRIPTION MessageAuthenticator) (attributes p) with
  | None => Ok tt
  | Some ma =>
      b ← pack (set_attributes (set_message_authenticator (replicate 16 0) (attributes p))
                  (set_authenticator request_authenticator p));
      key ← encode secret;
      match Attribute.bytes_data ma with
      | Some original_ma =>
          if bool_decide (original_ma = hmac_md5 key b) then Ok tt
          else Raise InvalidMessageAuthenticatorError
      | None => Raise TypeError
      end
  end.

(** [validate_packet]: the checks run on a deep copy, the packet is returned. *)
Definition validate_packet (p : RadiusPacket) (secret : str) (request_authenticator : bytes)
    (code : Z) : res RadiusPacket :=
  match secret with
  | [] => Raise ValueError
  | _ =>
      copy ← validate_response_authenticator p request_authenticator secret code;
      _ ← validate_message_authenticator copy secret request_authenticator;
      Ok p
  end.

Definition is_invalid (e : exn) : bool :=
  bool_decide (e = InvalidMessageAuthenticatorError)
  || bool_decide (e = InvalidResponseAuthenticatorError).

(** [Radius.parse] *)
Definition parse (packed_message : bytes) (secret : str)
    (packet_id_to_request_authenticator : dict Z bytes) : option (res RadiusPacket) :=
  match rethrow is_struct MessageParseError
          (unpack_BBH16s (take (Z.to_nat RADIUS_HEADER_LENGTH) packed_message)) with
  | Raise e => Some (Raise e)
  | Ok (code, id, _, auth) =>
      if registered code then
        r ← RadiusAttributesList.parse (drop (Z.to_nat RADIUS_HEADER_LENGTH) packed_message);
        Some (attrs ← r;
              request_authenticator ←
                (if code =? ACCESS_REQUEST then Ok auth
                 else rethrow is_key MessageParseError
                        (of_option KeyError (dget id packet_id_to_request_authenticator)));
              rethrow is_invalid MessageParseError
                (validate_packet (new_packet code id auth attrs) secret
                   request_authenticator code))
      else Some (Raise MessageParseError)
  end.

(** ** The requests of [MessagePacker] *)

(** The text of the source address, as [str(src_mac)]. *)
Definition radius_attributes (eap_message : message) (src_mac : str) (username : option str)
    (state : option bytes) (nas_port : option Z) (extra_attributes : list attribute)
  : res (list attribute) :=
  user ← create_text UserName username;
  calling ← create_text CallingStationId (Some src_mac);
  port ← match nas_port with
         | Some n => if n =? 0 then Ok [] else a ← create_int NASPort (Some n); Ok [a]
         | None => Ok []
         end;
  eap ← create_eap eap_message;
  st ← match state with
       | Some ((_ :: _) as s) => a ← create_string State (Some (inl s)); Ok [a]
       | _ => Ok []
       end;
  ma ← create_string MessageAuthenticator (Some (inl (replicate 16 0)));
  Ok ([user; calling] ++ port ++ extra_attributes ++ [eap] ++ st ++ [ma]).

Definition radius_pack (eap_message : message) (src_mac : str) (username : option str)
    (radius_packet_id : Z) (request_authenticator : bytes) (state : option bytes)
    (secret : option str) (nas_port : option Z) (extra_attributes : list attribute)
  : res bytes :=
  attrs ← radius_attributes eap_message src_mac username state nas_port extra_attributes;
  build secret (new_packet ACCESS_REQUEST radius_packet_id request_authenticator attrs).

Definition radius_mab_attributes (src_mac : str) (request_authenticator : bytes) (secret : str)
    (nas_port : option Z) : res (list attribute) :=
  let no_dots_mac := replace COLON [] src_mac in
  user ← create_text UserName (Some no_dots_mac);
  calling ← create_text CallingStationId (Some (replace COLON [DASH] src_mac));
  port ← match nas_port with
         | Some n => if n =? 0 then Ok [] else a ← create_int NASPort (Some n); Ok [a]
         | None => Ok []
         end;
  ciphertext ← UserPasswordCipher.encrypt (inr secret) (inl request_authenticator) no_dots_mac;
  password ← create_string UserPassword (Some (inl ciphertext));
  ma ← create_string MessageAuthenticator (Some (inl (replicate 16 0)));
  Ok ([user; calling] ++ port ++ [password; ma]).

Definition radius_mab_pack (src_mac : str) (radius_packet_id : Z) (request_authenticator : bytes)
    (secret : str) (nas_port : option Z) : res bytes :=
  attrs ← radius_mab_attributes src_mac request_authenticator secret nas_port;
  build (Some secret)
    (new_packet ACCESS_REQUEST radius_packet_id request_authenticator attrs).

(** ** Lemmas *)

Abbreviation attr_wf := RadiusAttributesList.attr_wf (only parsing).
Abbreviation wire_size l :=
  (RadiusAttributesList.sumZ RadiusAttributesList.wlen l) (only parsing).

(** A packet with well-formed attributes that fits packs. *)
Definition fits (p : RadiusPacket) : Prop :=
  byte_ok (CODE p) ∧ byte_ok (packet_id p) ∧ Forall attr_wf (attributes p) ∧
  RADIUS_HEADER_LENGTH + wire_size (attributes p) < 65536.

Lemma wire_size_nonneg l : Forall attr_wf l → 0 ≤ wire_size l.
Proof.
  intros H. destruct (RadiusAttributesList.pack_wf l H) as (b & _ & <-). apply len_nonneg.
Qed.

Lemma pack_fits p :
  fits p →
  ∃ ab, RadiusAttributesList.pack (attributes p) = Ok ab ∧
    pack p = Ok ([CODE p; packet_id p; (20 + len ab) / 256; (20 + len ab) mod 256]
                 ++ pack_s 16 (authenticator p) ++ ab).
Proof.
  intros (Hc & Hi & Hwf & Hs). pose proof (wire_size_nonneg _ Hwf).
  destruct (RadiusAttributesList.pack_wf _ Hwf) as (ab & Hab & Hl).
  exists ab. split; [done|]. unfold pack. unfold RADIUS_HEADER_LENGTH in *.
  rewrite RadiusAttributesList.total_length_wf by done. cbn [mbind res_bind].
  rewrite !pack_B_in by done. cbn [mbind res_bind].
  rewrite pack_H_in by lia. cbn [mbind res_bind]. rewrite Hab, Hl. cbn [mbind res_bind].
  change (1 + 1 + 2 + 16) with 20. by rewrite <- !app_assoc.
Qed.

Lemma set_bytes_data_wf a :
  cls a = MessageAuthenticator → attr_wf a → attr_wf (set_bytes_data (replicate 16 0) a).
Proof.
  intros Hc [Hk _]. split; [done|]. exists (replicate 16 0).
  split_and!; [done|by apply Forall_replicate|].
  intros _. simpl. rewrite Hk, Hc. vm_compute. by split.
Qed.

(** Zeroing the Message-Authenticator keeps the list well-formed, and it grows
    by less than 16 bytes. *)
Lemma zero_ma_wf l :
  Forall attr_wf l →
  Forall attr_wf (set_message_authenticator (replicate 16 0) l) ∧
  wire_size (set_message_authenticator (replicate 16 0) l) ≤ wire_size l + 15.
Proof.
  induction 1 as [|a l Ha Hl [IH1 IH2]]; [by split; [constructor|]|].
  cbn [set_message_authenticator]. case_decide as Hd.
  - apply RadiusAttributesList.DESCRIPTION_inj in Hd. split.
    + constructor; [|done]. by apply set_bytes_data_wf.
    + apply RadiusAttributesList.attr_wf_mk in Ha as (v & Ha & [_ Hr]). rewrite <- Hd in *.
      specialize (Hr ltac:(done)). simpl in Hr. rewrite Ha.
      cbn [RadiusAttributesList.sumZ foldr].
      unfold RadiusAttributesList.wlen at 1 3, RadiusAttributesList.wire_len. simpl.
      unfold RadiusAttributesList.value_of, Attribute.bytes_data; simpl.
      rewrite !len_cons, len_nil. lia.
  - split; [by constructor|]. cbn [RadiusAttributesList.sumZ foldr].
    fold (wire_size (set_message_authenticator (replicate 16 0) l)) (wire_size l). lia.
Qed.

Lemma set_authenticator_fits a p : fits p → fits (set_authenticator a p).
Proof. done. Qed.

Lemma find_wf item l a :
  Forall attr_wf l → RadiusAttributesList.find item l = Some a → attr_wf a.
Proof.
  induction 1 as [|x l Hx Hl IH]; simpl; [done|]. case_decide; [by intros [= <-]|done].
Qed.

Lemma wf_bytes a : attr_wf a → ∃ b, Attribute.bytes_data a = Some b.
Proof. intros [_ (b & Hb & _)]. by exists b. Qed.

(** The outcomes of the two validations on a packet with room for the zeros. *)
Lemma validate_response_cases p ra secret key code :
  fits p → encode secret = Ok key →
  (∃ q, validate_response_authenticator p ra secret code = Ok q ∧
        CODE q = CODE p ∧ packet_id q = packet_id p ∧ attributes q = attributes p) ∨
  validate_response_authenticator p ra secret code = Raise InvalidResponseAuthenticatorError.
Proof.
  intros Hf Hk. destruct (validate_response_authenticator p ra secret code) as [q|e] eqn:H;
    unfold validate_response_authenticator in H; [left; exists q|right];
    (destruct (negb _ && _) in H; [|by inv_res]);
    destruct (pack_fits (set_authenticator ra p) Hf) as (ab & _ & Hp); rewrite Hp, Hk in H;
    cbn [mbind res_bind] in H; case_bool_decide; by inv_res.
Qed.

Lemma validate_message_cases p secret key ra :
  fits p → RADIUS_HEADER_LENGTH + wire_size (attributes p) + 15 < 65536 →
  encode secret = Ok key →
  validate_message_authenticator p secret ra = Ok tt ∨
  validate_message_authenticator p secret ra = Raise InvalidMessageAuthenticatorError.
Proof.
  intros (Hc & Hi & Hwf & _) Hs Hk. unfold validate_message_authenticator.
  destruct (RadiusAttributesList.find _ _) as [ma|] eqn:Hfind; [|by left].
  destruct (zero_ma_wf _ Hwf) as [Hz1 Hz2].
  destruct (pack_fits (set_attributes (set_message_authenticator (replicate 16 0) (attributes p))
    (set_authenticator ra p))) as (ab & _ & ->).
  { split_and!; cbn [CODE packet_id attributes set_attributes set_authenticator]; [done..|lia]. }
  rewrite Hk. cbn [mbind res_bind]. 
  destruct (wf_bytes ma (find_wf _ _ _ Hwf Hfind)) as [b ->].
  destruct (bool_decide (b = _)); [by left|by right].
Qed.

Lemma validate_packet_cases p secret key ra code :
  fits p → RADIUS_HEADER_LENGTH + wire_size (attributes p) + 15 < 65536 →
  secret ≠ [] → encode secret = Ok key →
  validate_packet p secret ra code = Ok p ∨
  ∃ e, validate_packet p secret ra code = Raise e ∧ is_invalid e = true.
Proof.
  intros Hf Hs Hne Hk. unfold validate_packet. destruct secret as [|c secret]; [done|].
  destruct (validate_response_cases p ra (c :: secret) key code Hf Hk)
    as [(q & -> & Hq1 & Hq2 & Hq3)| ->]; [|right; by eexists].
  cbn [mbind res_bind].
  destruct (validate_message_cases q (c :: secret) key ra) as [-> | ->].
  - unfold fits in *. by rewrite Hq1, Hq2, Hq3.
  - by rewrite Hq3.
  - done.
  - by left.
  - right. by eexists.
Qed.

(** The header of a packet of at least 20 bytes. *)
Lemma unpack_header m code id n auth :
  rethrow is_struct MessageParseError
    (unpack_BBH16s (take (Z.to_nat RADIUS_HEADER_LENGTH) m)) = Ok (code, id, n, auth) →
  bytes_ok m →
  byte_ok code ∧ byte_ok id ∧ len (drop (Z.to_nat RADIUS_HEADER_LENGTH) m) = len m - 20.
Proof.
  change (Z.to_nat RADIUS_HEADER_LENGTH) with 20%nat. intros H Hok.
  destruct (take 20 m) as [|a [|b [|c [|d rest]]]] eqn:Ht; try done. simpl in H.
  destruct (Nat.eqb_spec (length rest) 16) as [Hl|]; [|done]. simpl in H.
  injection H as <- <- <- <-.
  assert (bytes_ok (take 20 m)) as Hok' by (by apply Forall_take). rewrite Ht in Hok'.
  apply Forall_cons in Hok' as [Ha Hok']. apply Forall_cons in Hok' as [Hb _].
  split_and!; [done|done|]. unfold len. rewrite length_drop.
  apply (f_equal length) in Ht. rewrite length_take in Ht. cbn [length] in Ht. lia.
Qed.

Lemma registered_byte code : registered code = true → byte_ok code.
Proof.
  unfold registered, byte_ok, ACCESS_REQUEST, ACCESS_ACCEPT, ACCESS_REJECT, ACCESS_CHALLENGE.
  rewrite !orb_true_iff, !Z.eqb_eq. lia.
Qed.

(** C38: with a usable secret, parsing any datagram of the size the socket reads
    (4096 bytes) returns a validated packet or raises [MessageParseError], the
    exception the receiving loop handles; the only other outcome is the endless
    extraction of a zero-length EAP-Message. *)
Theorem parse_only_parse_errors m secret key table :
  bytes_ok m → len m ≤ 4096 → secret ≠ [] → encode secret = Ok key →
  (∃ p, parse m secret table = Some (Ok p)) ∨
  parse m secret table = Some (Raise MessageParseError) ∨
  (parse m secret table = None ∧
   ∃ k tail, drop k m = TYPE EAPMessage :: 0 :: tail).
Proof.
  intros Hok Hlen Hne Hk. unfold parse.
  destruct (rethrow is_struct MessageParseError _) as [[[[code id] n] auth]|e] eqn:Hh; cycle 1.
  { right; left. do 2 f_equal. unfold unpack_BBH16s in Hh.
    repeat case_match; simpl in Hh; congruence. }
  destruct (unpack_header _ _ _ _ _ Hh Hok) as (Hcode & Hid & Hl).
  destruct (registered code) eqn:Hreg; [|by right; left].
  set (rest := drop (Z.to_nat RADIUS_HEADER_LENGTH) m) in *.
  assert (bytes_ok rest) as Hokr by (by apply Forall_drop).
  destruct (RadiusAttributesList.parse rest) as [r|] eqn:Hp; cycle 1.
  { right; right. split; [done|]. unfold RadiusAttributesList.parse in Hp.
    destruct (RadiusAttributesList.extract_ends (S (length rest)) rest
      RadiusAttributesList.extraction_init Hokr ltac:(lia)) as [[r Hr]|[_ (k & tail & Ht)]].
    - unfold RadiusAttributesList.parse_fuel in Hp. by rewrite Hr in Hp.
    - exists (Z.to_nat RADIUS_HEADER_LENGTH + k)%nat, tail. by rewrite <- drop_drop. }
  cbn [mbind option_bind].
  destruct (RadiusAttributesList.parse_result rest r Hokr Hp) as [->|(l & -> & Hwf & Hs)];
    [by right; left|]. cbn [mbind res_bind].
  assert (∀ ra, (∃ p, rethrow is_invalid MessageParseError
      (validate_packet (new_packet code id auth l) secret ra code) = Ok p) ∨
    rethrow is_invalid MessageParseError
      (validate_packet (new_packet code id auth l) secret ra code) = Raise MessageParseError)
    as Hval.
  { intros ra. assert (RADIUS_HEADER_LENGTH + wire_size l + 15 < 65536) as Hroom
      by (unfold RADIUS_HEADER_LENGTH; lia).
    destruct (validate_packet_cases (new_packet code id auth l) secret key ra code)
      as [-> |(e & -> & He)]; [|done|done|done|left; by eexists|right; simpl; by rewrite He].
    split_and!; try done. cbn [attributes new_packet]. lia. }
  destruct (code =? ACCESS_REQUEST).
  - cbn [mbind res_bind]. destruct (Hval auth) as [[p ->]| ->]; [left; by eexists|by right; left].
  - destruct (dget id table) as [ra|]; [|by right; left]. cbn [of_option rethrow mbind res_bind].
    destruct (Hval ra) as [[p ->]| ->]; [left; by eexists|by right; left].
Qed.

Lemma parse_only_parse_errors_witness :
  let m := [2; 7; 0; 20] ++ replicate 16 0 in
  (∃ p, parse m (of_literal "SECRET") [] = Some (Ok p)) ∨
  parse m (of_literal "SECRET") [] = Some (Raise MessageParseError) ∨
  (parse m (of_literal "SECRET") [] = None ∧
   ∃ k tail, drop k m = TYPE EAPMessage :: 0 :: tail).
Proof.
  apply (parse_only_parse_errors ([2; 7; 0; 20] ++ replicate 16 0) (of_literal "SECRET")
    (of_literal "SECRET") []); [repeat constructor; lia|vm_compute; discriminate|discriminate|].
  reflexivity.
Defined.

(** ** Responses *)

(** [pack] does not read the cached bytes. *)
Lemma pack_set_packed b p : pack (set_packed b p) = pack p.
Proof. done. Qed.

Lemma rethrow_ok {A} f e (r : res A) a : rethrow f e r = Ok a → r = Ok a.
Proof. destruct r as [|x]; simpl; [done|]. by destruct (f x). Qed.

(** What an accepted packet went through. *)
Lemma parse_accepted m secret table p :
  parse m secret table = Some (Ok p) →
  ∃ ra, validate_packet p secret ra (CODE p) = Ok p ∧ registered (CODE p) = true ∧
        take 2 m = [CODE p; packet_id p] ∧
        (if CODE p =? ACCESS_REQUEST then ra = authenticator p
         else dget (packet_id p) table = Some ra).
Proof.
  unfold parse. destruct (rethrow is_struct MessageParseError _) as [[[[code id] n] auth]|e] eqn:Hh;
    [|done].
  destruct (registered code) eqn:Hreg; [|done].
  intros (r & Hr & Hp)%bind_Some. injection Hp as Hp.
  destruct r as [l|]; [|done]. cbn [mbind res_bind] in Hp.
  assert (take 2 m = [code; id]) as H2.
  { apply rethrow_ok in Hh. change (Z.to_nat RADIUS_HEADER_LENGTH) with 20%nat in Hh.
    destruct m as [|a [|b [|c [|d m]]]]; try done. simpl in *.
    destruct (length _ =? 16)%nat; [|done]. by injection Hh as <- <- <- <-. }
  destruct (code =? ACCESS_REQUEST) eqn:Hc.
  - cbn [mbind res_bind] in Hp. apply rethrow_ok in Hp as Hv. exists auth.
    assert (p = new_packet code id auth l) as ->.
    { unfold validate_packet in Hv. destruct secret; [done|]. by inv_res. }
    cbn [CODE packet_id authenticator new_packet]. by rewrite Hc.
  - destruct (dget id table) as [ra|] eqn:Hd; [|done].
    cbn [of_option rethrow mbind res_bind] in Hp. apply rethrow_ok in Hp as Hv. exists ra.
    assert (p = new_packet code id auth l) as ->.
    { unfold validate_packet in Hv. destruct secret; [done|]. by inv_res. }
    cbn [CODE packet_id authenticator new_packet]. by rewrite Hc.
Qed.

(** C10: a response the parser accepts is authentic.  Its packet id is one the
    authenticator used, its Response Authenticator is the MD5 of the packet
    under the authenticator of that request and the secret, and its
    Message-Authenticator, if there is one, is the HMAC-MD5 of the packet under
    the same authenticator. *)
Theorem accepted_response_authentic m secret table p :
  (∀ id ra, dget id table = Some ra → ra ≠ []) →
  parse m secret table = Some (Ok p) → CODE p ≠ ACCESS_REQUEST →
  ∃ ra key b,
    dget (packet_id p) table = Some ra ∧ encode secret = Ok key ∧
    pack (set_authenticator ra p) = Ok b ∧ authenticator p = md5 (b ++ key) ∧
    ∀ ma, RadiusAttributesList.find (DESCRIPTION MessageAuthenticator) (attributes p) = Some ma →
      ∃ b', pack (set_attributes (set_message_authenticator (replicate 16 0) (attributes p))
                    (set_authenticator ra p)) = Ok b' ∧
            Attribute.bytes_data ma = Some (hmac_md5 key b').
Proof.
  intros Htab Hp Hc. destruct (parse_accepted _ _ _ _ Hp) as (ra & Hv & Hreg & _ & Hra).
  destruct (Z.eqb_spec (CODE p) ACCESS_REQUEST); [done|].
  specialize (Htab _ _ Hra). unfold validate_packet in Hv. destruct secret as [|c secret]; [done|].
  unfold validate_response_authenticator in Hv. rewrite bool_decide_eq_false_2 in Hv by done.
  assert ((CODE p =? ACCESS_REJECT) || (CODE p =? ACCESS_ACCEPT) || (CODE p =? ACCESS_CHALLENGE)
    = true) as Hcode.
  { unfold registered in Hreg. rewrite !orb_true_iff, !Z.eqb_eq in *. tauto. }
  rewrite Hcode in Hv. cbn [negb andb] in Hv.
  destruct (pack (set_authenticator ra p)) as [b|] eqn:Hb; [|done]. cbn [mbind res_bind] in Hv.
  destruct (encode (c :: secret)) as [key|] eqn:Hk; [|done].
  cbn [mbind res_bind] in Hv. case_bool_decide as Hmd5; [|done].
  exists ra, key, b. split_and!; [done|done|done|done|]. intros ma Hma.
  unfold validate_message_authenticator in Hv.
  cbn [mbind res_bind] in Hv.
  change (attributes (set_packed b (set_authenticator ra p))) with (attributes p) in Hv.
  rewrite Hma, Hk in Hv.
  change (pack (set_attributes (set_message_authenticator (replicate 16 0) (attributes p))
    (set_authenticator ra (set_packed b (set_authenticator ra p)))))
    with (pack (set_attributes (set_message_authenticator (replicate 16 0) (attributes p))
    (set_authenticator ra p))) in Hv.
  destruct (pack (set_attributes _ _)) as [b'|]; [|done]. exists b'. split; [done|].
  cbn [mbind res_bind] in Hv. destruct (Attribute.bytes_data ma); [|done].
  case_bool_decide; [by subst|done].
Qed.

Lemma accepted_response_authentic_witness :
  let ra := replicate 16 1 in
  let auth := md5 ([2; 5; 0; 20] ++ ra ++ of_literal "SECRET") in
  let p := new_packet ACCESS_ACCEPT 5 auth [] in
  parse ([2; 5; 0; 20] ++ auth) (of_literal "SECRET") [(5, ra)] = Some (Ok p) ∧
  ∃ ra key b,
    dget (packet_id p) [(5, replicate 16 1)] = Some ra ∧
    encode (of_literal "SECRET") = Ok key ∧
    pack (set_authenticator ra p) = Ok b ∧ authenticator p = md5 (b ++ key) ∧
    ∀ ma, RadiusAttributesList.find (DESCRIPTION MessageAuthenticator) (attributes p) = Some ma →
      ∃ b', pack (set_attributes (set_message_authenticator (replicate 16 0) (attributes p))
                    (set_authenticator ra p)) = Ok b' ∧
            Attribute.bytes_data ma = Some (hmac_md5 key b').
Proof.
  split; [vm_compute; reflexivity|].
  apply (accepted_response_authentic
    ([2; 5; 0; 20] ++ md5 ([2; 5; 0; 20] ++ replicate 16 1 ++ of_literal "SECRET"))).
  - intros id ra. simpl. destruct (decide (id = 5)); intros H; [|discriminate H].
    injection H as <-. discriminate.
  - vm_compute. reflexivity.
  - discriminate.
Defined.

(** An Access-Request is accepted from anyone: with no Message-Authenticator
    in it, neither check applies, and the parser returns it whatever the secret
    and the outstanding requests are. *)
Theorem unauthenticated_request_accepted id auth attrs ab c secret table :
  byte_ok id → length auth = 16%nat → bytes_ok auth →
  RadiusAttributesList.list_wf attrs → RadiusAttributesList.pack attrs = Ok ab →
  RadiusAttributesList.find (DESCRIPTION MessageAuthenticator) attrs = None →
  parse ([ACCESS_REQUEST; id; (20 + len ab) / 256; (20 + len ab) mod 256] ++ auth ++ ab)
    (c :: secret) table
  = Some (Ok (new_packet ACCESS_REQUEST id auth attrs)).
Proof.
  intros Hid Hlen Hok Hwf Hab Hfind. unfold parse.
  change (Z.to_nat RADIUS_HEADER_LENGTH) with 20%nat.
  assert (take 20 ([ACCESS_REQUEST; id; (20 + len ab) / 256; (20 + len ab) mod 256] ++ auth ++ ab)
    = ACCESS_REQUEST :: id :: (20 + len ab) / 256 :: (20 + len ab) mod 256 :: auth) as ->.
  { simpl. do 4 f_equal. by apply take_app_length'. }
  assert (drop 20 ([ACCESS_REQUEST; id; (20 + len ab) / 256; (20 + len ab) mod 256] ++ auth ++ ab)
    = ab) as -> by (simpl; by apply drop_app_length').
  cbn [unpack_BBH16s]. rewrite Hlen. cbn [Nat.eqb rethrow registered]. simpl.
  rewrite (RadiusAttributesList.list_parse_pack attrs ab Hwf Hab). simpl.
  unfold validate_response_authenticator. rewrite andb_false_r. simpl.
  unfold validate_message_authenticator. simpl in *. by rewrite Hfind.
Qed.

Lemma unauthenticated_request_accepted_witness :
  parse ([1; 9; 0; 20] ++ replicate 16 3) (of_literal "SECRET") []
  = Some (Ok (new_packet ACCESS_REQUEST 9 (replicate 16 3) [])).
Proof.
  apply (unauthenticated_request_accepted 9 (replicate 16 3) [] []);
    [split; lia|reflexivity|repeat constructor; lia| |reflexivity|reflexivity].
  split; simpl; repeat constructor.
Defined.

(** ** Requests *)

Lemma write_at_app a v z b :
  length v = length z → write_at (length a) v (a ++ z ++ b) = Ok (a ++ v ++ b).
Proof.
  revert a z. induction v as [|x v IH]; intros a [|y z] Hl; try done. simpl in Hl. cbn [write_at].
  assert ((length a <? length (a ++ (y :: z) ++ b))%nat = true) as ->.
  { apply Nat.ltb_lt. rewrite !length_app. simpl. lia. }
  replace (<[length a := x]> (a ++ (y :: z) ++ b)) with ((a ++ [x]) ++ z ++ b).
  - replace (S (length a)) with (length (a ++ [x])) by (rewrite length_app; simpl; lia).
    rewrite IH by lia. by rewrite <- app_assoc.
  - replace (length a) with (length a + 0)%nat by lia. rewrite insert_app_r, <- app_assoc. done.
Qed.

Lemma find_split item l a :
  RadiusAttributesList.find item l = Some a →
  ∃ pre post, l = pre ++ a :: post ∧ item = DESCRIPTION (cls a) ∧
              Forall (λ x, item ≠ DESCRIPTION (cls x)) pre.
Proof.
  induction l as [|x l IH]; simpl; [done|]. case_decide.
  - intros [= ->]. exists [], l. split_and!; [done|done|constructor].
  - intros (pre & post & -> & Hi & Hp)%IH. exists (x :: pre), post.
    split_and!; [done|done|by constructor].
Qed.

Lemma find_app item pre a post :
  item = DESCRIPTION (cls a) → Forall (λ x, item ≠ DESCRIPTION (cls x)) pre →
  RadiusAttributesList.find item (pre ++ a :: post) = Some a.
Proof.
  intros Hi Hp. induction Hp as [|x pre Hx _ IH]; simpl.
  - by rewrite decide_True.
  - by rewrite decide_False.
Qed.

Lemma indexof_app item pre a post b :
  item = DESCRIPTION (cls a) → Forall (λ x, item ≠ DESCRIPTION (cls x)) pre →
  Forall attr_wf pre → RadiusAttributesList.pack pre = Ok b →
  RadiusAttributesList.indexof item (pre ++ a :: post) = Ok (len b).
Proof.
  intros Hi Hp Hwf. revert b. induction Hp as [|x pre Hx Hp IH]; intros b Hb; simpl in *.
  - inv_res. by rewrite decide_True.
  - apply Forall_cons in Hwf as [Hwx Hwf]. rewrite decide_False by done.
    destruct (RadiusAttributesList.attr_pack_ok x Hwx) as (bx & Hbx & Hl & _).
    rewrite Hbx in Hb. inv_res. rewrite Hl. simpl. rewrite (IH Hwf _ eq_refl). simpl.
    by rewrite len_app.
Qed.

Lemma set_ma_app v pre a post :
  cls a = MessageAuthenticator →
  Forall (λ x, DESCRIPTION MessageAuthenticator ≠ DESCRIPTION (cls x)) pre →
  set_message_authenticator v (pre ++ a :: post) = pre ++ set_bytes_data v a :: post.
Proof.
  intros Hc Hp. induction Hp as [|x pre Hx _ IH]; cbn [app set_message_authenticator].
  - by rewrite decide_True by (by rewrite Hc).
  - by rewrite decide_False, IH.
Qed.

Abbreviation MA v := (RadiusAttributesList.mk MessageAuthenticator v) (only parsing).

Lemma ma_valid v :
  length v = 16%nat → bytes_ok v → RadiusAttributesList.valid_bytes MessageAuthenticator v.
Proof. intros Hl Hok. split; [done|]. intros _. unfold len. rewrite Hl. simpl. lia. Qed.

(** Another value in the Message-Authenticator keeps the list well-formed. *)
Lemma list_wf_ma pre post v v' :
  length v' = 16%nat → bytes_ok v' →
  RadiusAttributesList.list_wf (pre ++ MA v :: post) →
  RadiusAttributesList.list_wf (pre ++ MA v' :: post).
Proof.
  intros Hl Hok [H1 H2 H3]. rewrite Forall_app, Forall_cons in H1, H2.
  destruct H1 as (? & _ & ?), H2 as (? & _ & ?). split.
  - rewrite Forall_app, Forall_cons. split_and!; [done| |done].
    apply RadiusAttributesList.attr_wf_mk. exists v'. split; [done|]. by apply ma_valid.
  - rewrite Forall_app, Forall_cons. by split_and!.
  - rewrite filter_app in *. by rewrite filter_cons_False in * by done.
Qed.

(** The bytes of a list around its Message-Authenticator. *)
Lemma pack_around_ma pre post v bp bq :
  RadiusAttributesList.pack pre = Ok bp → RadiusAttributesList.pack post = Ok bq →
  length v = 16%nat → bytes_ok v →
  RadiusAttributesList.pack (pre ++ MA v :: post) = Ok ((bp ++ [80; 18]) ++ v ++ bq).
Proof.
  intros Hp Hq Hl Hok.
  rewrite (RadiusAttributesList.pack_app pre (MA v :: post) bp ([80; 18] ++ v ++ bq) Hp).
  - by rewrite <- app_assoc.
  - cbn [RadiusAttributesList.pack]. rewrite RadiusAttributesList.pack_mk by
      (done || by apply ma_valid). rewrite Hq. cbn [mbind res_bind].
    unfold RadiusAttributesList.raw1. unfold len. rewrite Hl. done.
Qed.

(** Parsing the bytes of a request whose Message-Authenticator is right. *)
Lemma parse_request id auth attrs ab s key mac table :
  RadiusAttributesList.list_wf attrs → RadiusAttributesList.pack attrs = Ok ab →
  length auth = 16%nat → s ≠ [] → encode s = Ok key →
  RadiusAttributesList.find (DESCRIPTION MessageAuthenticator) attrs = Some (MA mac) →
  (∃ b, pack (new_packet ACCESS_REQUEST id auth
          (set_message_authenticator (replicate 16 0) attrs)) = Ok b ∧ mac = hmac_md5 key b) →
  parse ([ACCESS_REQUEST; id; (20 + len ab) / 256; (20 + len ab) mod 256] ++ auth ++ ab) s table
  = Some (Ok (new_packet ACCESS_REQUEST id auth attrs)).
Proof.
  intros Hwf Hab Hlen Hs Hk Hfind (b & Hb & ->). unfold parse.
  change (Z.to_nat RADIUS_HEADER_LENGTH) with 20%nat.
  assert (take 20 ([ACCESS_REQUEST; id; (20 + len ab) / 256; (20 + len ab) mod 256] ++ auth ++ ab)
    = ACCESS_REQUEST :: id :: (20 + len ab) / 256 :: (20 + len ab) mod 256 :: auth) as ->.
  { simpl. do 4 f_equal. by apply take_app_length'. }
  assert (drop 20 ([ACCESS_REQUEST; id; (20 + len ab) / 256; (20 + len ab) mod 256] ++ auth ++ ab)
    = ab) as -> by (simpl; by apply drop_app_length').
  cbn [unpack_BBH16s]. rewrite Hlen. cbn [Nat.eqb rethrow].
  change (registered ACCESS_REQUEST) with true. cbv iota.
  rewrite (RadiusAttributesList.list_parse_pack attrs ab Hwf Hab). cbn [mbind option_bind res_bind].
  change (ACCESS_REQUEST =? ACCESS_REQUEST) with true. cbn [mbind res_bind].
  unfold validate_packet. destruct s as [|c s]; [done|].
  unfold validate_response_authenticator.
  replace (_ && _) with false by (by rewrite andb_false_r). cbn [mbind res_bind].
  unfold validate_message_authenticator. cbn [attributes new_packet]. rewrite Hfind.
  change (set_attributes (set_message_authenticator (replicate 16 0) attrs)
    (set_authenticator auth (new_packet ACCESS_REQUEST id auth attrs)))
    with (new_packet ACCESS_REQUEST id auth (set_message_authenticator (replicate 16 0) attrs)).
  rewrite Hb, Hk. cbn [mbind res_bind]. cbn -[hmac_md5].
  by rewrite bool_decide_eq_true_2.
Qed.

(** A request with a zeroed Message-Authenticator, built and parsed back. *)
Lemma build_parse id auth attrs s key :
  RadiusAttributesList.list_wf attrs →
  RadiusAttributesList.find (DESCRIPTION MessageAuthenticator) attrs = Some (MA (replicate 16 0)) →
  byte_ok id → length auth = 16%nat → RADIUS_HEADER_LENGTH + wire_size attrs < 65536 →
  s ≠ [] → encode s = Ok key →
  ∃ b mac, build (Some s) (new_packet ACCESS_REQUEST id auth attrs) = Ok b ∧
    length mac = 16%nat ∧
    ∀ table, parse b s table =
      Some (Ok (new_packet ACCESS_REQUEST id auth (set_message_authenticator mac attrs))).
Proof.
  intros Hwf Hfind Hid Hlen Hsz Hs Hk. pose proof Hwf as [Hwf1 _ _].
  destruct (pack_fits (new_packet ACCESS_REQUEST id auth attrs)) as (ab & Hab & Hpk).
  { split_and!; [by split|done|done|done]. }
  cbn [CODE packet_id authenticator attributes new_packet] in Hpk, Hab.
  rewrite pack_s_exact in Hpk by done.
  destruct (find_split _ _ _ Hfind) as (pre & post & -> & Hi & Hpre).
  apply Forall_app in Hwf1 as [Wpre [_ Wpost]%Forall_cons].
  destruct (RadiusAttributesList.pack_wf pre Wpre) as (bp & Hbp & _).
  destruct (RadiusAttributesList.pack_wf post Wpost) as (bq & Hbq & _).
  remember (replicate 16 0) as zeros eqn:Hzeq.
  assert (length zeros = 16%nat) as Hz by (by subst).
  assert (bytes_ok zeros) as Hzok by (subst; by apply Forall_replicate).
  rewrite (pack_around_ma pre post zeros bp bq Hbp Hbq Hz Hzok) in Hab. injection Hab as <-.
  set (hdr := [_; _; _; _]) in Hpk.
  set (packed0 := hdr ++ auth ++ (bp ++ [80; 18]) ++ zeros ++ bq) in Hpk.
  set (mac := hmac_md5 key packed0).
  assert (length mac = 16%nat) as Hmac by apply length_hmac_md5.
  assert (bytes_ok mac) as Hmacok by apply hmac_md5_ok.
  exists (hdr ++ auth ++ (bp ++ [80; 18]) ++ mac ++ bq), mac. split_and!; [|done|].
  - unfold build. cbn [packed new_packet attributes]. rewrite Hpk. cbn [mbind res_bind].
    rewrite (indexof_app _ pre _ post bp) by done. destruct s as [|c s]; [done|].
    rewrite Hk. cbn [mbind res_bind]. fold packed0 mac.
    replace (Z.to_nat (len bp + RADIUS_HEADER_LENGTH + HEADER_SIZE))
      with (length (hdr ++ auth ++ bp ++ [80; 18])).
    + pose proof (write_at_app (hdr ++ auth ++ bp ++ [80; 18]) mac zeros bq ltac:(congruence)) as Hw.
      rewrite <- !app_assoc in Hw. unfold packed0. by rewrite <- !app_assoc.
    + rewrite !length_app, Hlen. unfold len, RADIUS_HEADER_LENGTH, HEADER_SIZE. simpl. lia.
  - intros table. rewrite set_ma_app by done.
    change (set_bytes_data mac (MA zeros)) with (MA mac).
    replace hdr with [ACCESS_REQUEST; id; (20 + len ((bp ++ [80; 18]) ++ mac ++ bq)) / 256;
      (20 + len ((bp ++ [80; 18]) ++ mac ++ bq)) mod 256].
    2: { unfold hdr. unfold len. by rewrite !length_app, Hmac, Hz. }
    eapply parse_request; [by eapply list_wf_ma| |done|done|done| |].
    + by apply pack_around_ma.
    + by apply find_app.
    + exists packed0. split; [|done]. rewrite <- Hzeq, set_ma_app by done. exact Hpk.
Qed.

(** A request built with a zeroed Message-Authenticator passes the receiver's
    checks under the same secret, which gets the same packet id, authenticator
    and attributes, the Message-Authenticator filled in. *)
Theorem built_request_validates id auth attrs s key :
  RadiusAttributesList.list_wf attrs →
  RadiusAttributesList.find (DESCRIPTION MessageAuthenticator) attrs = Some (MA (replicate 16 0)) →
  byte_ok id → length auth = 16%nat → RADIUS_HEADER_LENGTH + wire_size attrs < 65536 →
  s ≠ [] → encode s = Ok key →
  ∃ b mac, build (Some s) (new_packet ACCESS_REQUEST id auth attrs) = Ok b ∧
    length mac = 16%nat ∧
    ∀ table, parse b s table =
      Some (Ok (new_packet ACCESS_REQUEST id auth (set_message_authenticator mac attrs))).
Proof. apply build_parse. Qed.

Lemma built_request_validates_witness :
  ∃ b mac, build (Some (of_literal "SECRET"))
             (new_packet ACCESS_REQUEST 3 (replicate 16 8) [MA (replicate 16 0)]) = Ok b ∧
    length mac = 16%nat ∧
    ∀ table, parse b (of_literal "SECRET") table =
      Some (Ok (new_packet ACCESS_REQUEST 3 (replicate 16 8) [MA mac])).
Proof.
  apply (built_request_validates 3 (replicate 16 8) [MA (replicate 16 0)] (of_literal "SECRET")
    (of_literal "SECRET"));
    [|reflexivity|split; lia|reflexivity|reflexivity|discriminate|reflexivity].
  split; [|repeat constructor; discriminate|vm_compute; repeat constructor].
  repeat constructor. exists (replicate 16 0). split; [reflexivity|].
  split; [repeat constructor; lia|]. intros _. split; vm_compute; discriminate.
Defined.

(** What the factories return. *)
Lemma create_text_ok c s a :
  DATA_TYPE c = Text → create_text c (Some s) = Ok a →
  ∃ b, encode s = Ok b ∧ a = RadiusAttributesList.mk c b ∧ attr_wf a.
Proof.
  intros Hc H. unfold create_text, init_text in H.
  destruct (encode s) as [b|] eqn:He; [|done]. simpl in H.
  destruct (is_valid_length Text b) eqn:Hv; [|done]. apply is_valid_length_ok in Hv.
  simpl in H. injection H as <-. exists b. split_and!; [done| |].
  - unfold RadiusAttributesList.mk. by rewrite Hc.
  - split; [done|]. exists b. split_and!; [done|by eapply encode_ok|]. intros _. exact Hv.
Qed.

Lemma create_string_ok c b a :
  DATA_TYPE c = String → bytes_ok b → create_string c (Some (inl b)) = Ok a →
  a = RadiusAttributesList.mk c b ∧ attr_wf a.
Proof.
  intros Hc Hok H. unfold create_string, init_string in H. simpl in H.
  destruct (is_valid_length String b) eqn:Hv; [|done]. apply is_valid_length_ok in Hv.
  simpl in H. injection H as <-. split.
  - unfold RadiusAttributesList.mk. by rewrite Hc.
  - split; [done|]. exists b. split_and!; [done|done|]. intros _. exact Hv.
Qed.

Lemma create_int_ok c n a :
  DATA_TYPE c = Integer ∨ DATA_TYPE c = Enum → n ≠ 0 → create_int c (Some n) = Ok a →
  cls a = c ∧ attr_wf a.
Proof.
  intros Hc Hn H. unfold create_int, init_int in H.
  destruct (Z.eqb_spec n 0); [done|]. unfold to_bytes in H.
  destruct (_ && _); [|done]. simpl in H. injection H as <-.
  split; [done|]. split; [done|]. eexists. split_and!; [done|apply to_bytes_aux_ok|].
  intros _. simpl. unfold len. rewrite length_to_bytes_aux.
  destruct Hc as [-> | ->]; simpl; lia.
Qed.

Lemma create_eap_ok m v t eb a :
  MessagePacker.eap_pack m = Ok (v, t, eb) → create_eap m = Ok a →
  a = RadiusAttributesList.mk EAPMessage eb.
Proof. unfold create_eap. intros -> H. simpl in H. by injection H as <-. Qed.

(** An attribute the requests may carry beside the EAP-Message and the
    Message-Authenticator. *)
Definition ordinary (a : attribute) : Prop :=
  attr_wf a ∧ cls a ≠ EAPMessage ∧ cls a ≠ MessageAuthenticator.

Lemma ordinary_find item l a post :
  Forall ordinary l → item = DESCRIPTION (cls a) →
  cls a = EAPMessage ∨ cls a = MessageAuthenticator →
  RadiusAttributesList.find item (l ++ a :: post) = Some a.
Proof.
  intros Hl -> Hc. apply find_app; [done|]. eapply Forall_impl; [exact Hl|].
  intros x (_ & H1 & H2) Hd%RadiusAttributesList.DESCRIPTION_inj.
  destruct Hc; congruence.
Qed.

Lemma filter_ordinary l :
  Forall ordinary l → filter (λ a, cls a = EAPMessage) l = [].
Proof.
  induction 1 as [|a l (_ & Ha & _) _ IH]; [done|]. by rewrite filter_cons_False.
Qed.

(** The shape of the attributes of a request. *)
Lemma ordinary_list_wf pre eb post :
  Forall ordinary pre → Forall ordinary post → eb ≠ [] → bytes_ok eb →
  RadiusAttributesList.list_wf
    (pre ++ RadiusAttributesList.mk EAPMessage eb :: post ++ [MA (replicate 16 0)]).
Proof.
  intros Hpre Hpost Hne Hok. split.
  - rewrite Forall_app, Forall_cons, Forall_app, Forall_singleton. split_and!.
    + eapply Forall_impl; [exact Hpre|]. by intros x (? & _).
    + apply RadiusAttributesList.attr_wf_mk. exists eb. split; [done|]. by split.
    + eapply Forall_impl; [exact Hpost|]. by intros x (? & _).
    + apply RadiusAttributesList.attr_wf_mk. exists (replicate 16 0). split; [done|].
      apply ma_valid; [done|]. by apply Forall_replicate.
  - rewrite Forall_app, Forall_cons, Forall_app, Forall_singleton. split_and!.
    + eapply Forall_impl; [exact Hpre|]. by intros x (_ & ? & _).
    + intros _. simpl. intros [=]. done.
    + eapply Forall_impl; [exact Hpost|]. by intros x (_ & ? & _).
    + done.
  - rewrite filter_app, filter_cons_True, filter_app by done.
    rewrite !filter_ordinary by done. simpl. lia.
Qed.

(** The attributes [radius_pack] sends. *)
Lemma radius_attributes_shape m v t eb src username ub state nas extra attrs :
  MessagePacker.eap_pack m = Ok (v, t, eb) → encode username = Ok ub →
  match state with Some b => bytes_ok b | None => True end →
  Forall ordinary extra →
  radius_attributes m src (Some username) state nas extra = Ok attrs →
  ∃ pre post, Forall ordinary pre ∧ Forall ordinary post ∧
    attrs = (RadiusAttributesList.mk UserName ub :: pre)
            ++ RadiusAttributesList.mk EAPMessage eb :: post ++ [MA (replicate 16 0)] ∧
    ordinary (RadiusAttributesList.mk UserName ub).
Proof.
  intros Hm Hu Hst Hex H. unfold radius_attributes in H. inv_res.
  destruct (create_text_ok UserName username _ eq_refl E) as (ub' & Hub & -> & Huwf).
  rewrite Hu in Hub. injection Hub as <-.
  destruct (create_text_ok CallingStationId src _ eq_refl E0) as (cb & _ & -> & Hcwf).
  rewrite (create_eap_ok _ _ _ _ _ Hm E2).
  destruct (create_string_ok MessageAuthenticator (replicate 16 0) a4 eq_refl) as [-> _];
    [by apply Forall_replicate|done|].
  assert (Forall ordinary a1) as Hport.
  { destruct nas as [n|]; [|injection E1 as <-; constructor].
    destruct (Z.eqb_spec n 0); [injection E1 as <-; constructor|].
    destruct (create_int NASPort (Some n)) as [p|] eqn:Hp; [|done]. injection E1 as <-.
    destruct (create_int_ok NASPort n p ltac:(by left)) as [Hc Hwf]; [done..|].
    constructor; [|constructor]. split_and!; [done|by rewrite Hc..]. }
  assert (Forall ordinary a3) as Hstate.
  { destruct state as [[|x b]|]; [injection E3 as <-; constructor| |injection E3 as <-; constructor].
    destruct (create_string State (Some (inl (x :: b)))) as [p|] eqn:Hp; [|done].
    injection E3 as <-.
    destruct (create_string_ok State (x :: b) p eq_refl Hst) as [-> Hwf]; [done|].
    constructor; [by split_and!|constructor]. }
  exists (RadiusAttributesList.mk CallingStationId cb :: a1 ++ extra), a3. split_and!.
  - constructor; [by split_and!|]. by apply Forall_app_2.
  - done.
  - simpl. do 2 f_equal. by rewrite <- app_assoc.
  - by split_and!.
Qed.

Lemma find_ma_last pre eb post v :
  Forall ordinary pre → Forall ordinary post →
  RadiusAttributesList.find (DESCRIPTION MessageAuthenticator)
    (pre ++ RadiusAttributesList.mk EAPMessage eb :: post ++ [MA v]) = Some (MA v).
Proof.
  intros Hpre Hpost.
  assert (∀ l, Forall ordinary l →
    Forall (λ x, DESCRIPTION MessageAuthenticator ≠ DESCRIPTION (cls x)) l) as Hord.
  { intros l Hl. eapply Forall_impl; [exact Hl|].
    intros x (_ & _ & H2) Hd%RadiusAttributesList.DESCRIPTION_inj. by destruct H2. }
  rewrite app_comm_cons, app_assoc. apply find_app; [done|].
  apply Forall_app_2; [by apply Hord|]. constructor; [done|by apply Hord].
Qed.

Lemma find_set_ma item v l :
  item ≠ DESCRIPTION MessageAuthenticator →
  RadiusAttributesList.find item (set_message_authenticator v l) = RadiusAttributesList.find item l.
Proof.
  intros Hi. induction l as [|a l IH]; [done|].
  cbn [set_message_authenticator]. case_decide as Hd; cbn [RadiusAttributesList.find].
  - change (cls (set_bytes_data v a)) with (cls a). rewrite <- Hd. by rewrite !decide_False.
  - by rewrite IH.
Qed.

(** The request [radius_pack] makes of an EAP message reaches a server that
    shares the secret: it validates there, under the packet id and the request
    authenticator it was given, and carries the packed EAP message and the user
    name unchanged. *)
Theorem radius_pack_delivers m v t eb src username ub id ra state s key nas extra attrs table :
  MessagePacker.eap_pack m = Ok (v, t, eb) → eb ≠ [] → bytes_ok eb →
  encode username = Ok ub →
  match state with Some b => bytes_ok b | None => True end →
  Forall ordinary extra →
  radius_attributes m src (Some username) state nas extra = Ok attrs →
  RADIUS_HEADER_LENGTH + wire_size attrs < 65536 →
  byte_ok id → length ra = 16%nat → s ≠ [] → encode s = Ok key →
  ∃ b p, radius_pack m src (Some username) id ra state (Some s) nas extra = Ok b ∧
    parse b s table = Some (Ok p) ∧
    CODE p = ACCESS_REQUEST ∧ packet_id p = id ∧ authenticator p = ra ∧
    RadiusAttributesList.find (DESCRIPTION EAPMessage) (attributes p)
      = Some (RadiusAttributesList.mk EAPMessage eb) ∧
    RadiusAttributesList.find (DESCRIPTION UserName) (attributes p)
      = Some (RadiusAttributesList.mk UserName ub).
Proof.
  intros Hm Hne Hok Hu Hst Hex Hattrs Hsz Hid Hra Hs Hk.
  destruct (radius_attributes_shape _ _ _ _ _ _ _ _ _ _ _ Hm Hu Hst Hex Hattrs)
    as (pre & post & Hpre & Hpost & Heq & Huser).
  assert (Forall ordinary (RadiusAttributesList.mk UserName ub :: pre)) as Hpre'
    by (by constructor).
  destruct (build_parse id ra attrs s key) as (b & mac & Hb & _ & Hp); [| |done..|].
  - rewrite Heq. by apply ordinary_list_wf.
  - rewrite Heq. by apply find_ma_last.
  - exists b, (new_packet ACCESS_REQUEST id ra (set_message_authenticator mac attrs)).
    unfold radius_pack. rewrite Hattrs. cbn [mbind res_bind]. rewrite Hb.
    split_and!; [done|apply Hp|done|done|done|..]; cbn [attributes new_packet];
      rewrite find_set_ma, Heq by done; [|done].
    apply ordinary_find; [done|done|by left].
Qed.

Lemma radius_pack_delivers_witness :
  let m := IdentityMessage SrcNone 208 Eap.RESPONSE (of_literal "user") in
  ∃ b p, radius_pack m (of_literal "02:42:ac:17:00:6f") (Some (of_literal "user")) 0
           (replicate 16 7) None (Some (of_literal "SECRET")) (Some 3) [] = Ok b ∧
    parse b (of_literal "SECRET") [] = Some (Ok p) ∧
    CODE p = ACCESS_REQUEST ∧ packet_id p = 0 ∧ authenticator p = replicate 16 7 ∧
    RadiusAttributesList.find (DESCRIPTION EAPMessage) (attributes p)
      = Some (RadiusAttributesList.mk EAPMessage [2; 208; 0; 9; 1; 117; 115; 101; 114]) ∧
    RadiusAttributesList.find (DESCRIPTION UserName) (attributes p)
      = Some (RadiusAttributesList.mk UserName (of_literal "user")).
Proof.
  eapply (radius_pack_delivers (IdentityMessage SrcNone 208 Eap.RESPONSE (of_literal "user"))
    1 0 [2; 208; 0; 9; 1; 117; 115; 101; 114] (of_literal "02:42:ac:17:00:6f")
    (of_literal "user") (of_literal "user") 0 (replicate 16 7) None (of_literal "SECRET")
    (of_literal "SECRET") (Some 3) []);
    [reflexivity|discriminate|repeat constructor; lia|reflexivity|exact I|constructor
    |reflexivity|vm_compute; reflexivity|split; lia|reflexivity|discriminate|reflexivity].
Defined.

End Radius.
