(* ===== verification/EapModule.v ===== *)
(** * The EAP module (src/subset/dot1x/authenticator/eap_module.py)

    The queue of outgoing frames, the loop that receives frames and the loop
    that sends them, one iteration per definition.  The socket is the list of
    the frames that were sent; a closed socket sends nothing. *)

From stdpp Require Import base list strings.
From Stdlib Require Import ZArith Lia.
From S2P Require Import Prelude Bytes Mac Eap Messages.

Module EapModule.

Record EapModule := {
  eap_address : bytes;                     (* of the socket *)
  authenticator_mac : option bytes;
  outbound_message_queue : list (option bytes);
  shut_down : bool;
  sent : list bytes
}.

Definition init (address : bytes) : EapModule :=
  {| eap_address := address; authenticator_mac := None; outbound_message_queue := [];
     shut_down := false; sent := [] |}.

Definition set_authenticator_mac (a : option bytes) (s : EapModule) : EapModule :=
  {| eap_address := eap_address s; authenticator_mac := a;
     outbound_message_queue := outbound_message_queue s; shut_down := shut_down s;
     sent := sent s |}.
Definition put (x : option bytes) (s : EapModule) : EapModule :=
  {| eap_address := eap_address s; authenticator_mac := authenticator_mac s;
     outbound_message_queue := outbound_message_queue s ++ [x]; shut_down := shut_down s;
     sent := sent s |}.
Definition set_shut_down (s : EapModule) : EapModule :=
  {| eap_address := eap_address s; authenticator_mac := authenticator_mac s;
     outbound_message_queue := outbound_message_queue s; shut_down := true; sent := sent s |}.

(** [str(None)] before the first EAPOL start. *)
Definition get_auth_mac (s : EapModule) : str :=
  match authenticator_mac s with
  | Some a => MacAddress.to_str a
  | None => of_literal "None"
  end.

(** [str(message.src_mac)] *)
Definition src_str (src : src_t) : str :=
  match src with
  | SrcMac a => MacAddress.to_str a
  | SrcStr t => t
  | SrcNone => of_literal "None"
  end.

(** One iteration of [receive_eap_messages]: the arguments of the callback, or
    [None] when the frame is empty or cannot be parsed. *)
Definition receive_eap_message (packed_message : bytes)
  : M EapModule (option (str * message * bool)) :=
  match packed_message with
  | [] => mret None
  | _ =>
      match MessageParser.ethernet_parse packed_message with
      | Ok (eap, dst_mac) =>
          let is_eapol := is_eapol_start eap in
          s ← getS;
          _ ← whenM is_eapol (modify (set_authenticator_mac (Some (eap_address s))));
          mret (Some (src_str (message_src eap), eap, is_eapol))
      | Raise MessageParseError => mret None
      | Raise e => raise e
      end
  end.

Definition send_packed_eap_message (eap_message : bytes) : M EapModule unit :=
  modify (put (Some eap_message)).

Definition send_eapol_response (src_mac : str) : M EapModule unit :=
  src_mac_address ← lift (MacAddress.from_string src_mac);
  port_id ← gets authenticator_mac;
  let data := IdentityMessage (SrcStr src_mac) 255 Eap.REQUEST [] in
  b ← lift (MessagePacker.ethernet_pack data port_id (Some src_mac_address));
  send_packed_eap_message b.

Definition send_eap_message (src_mac : str) (data : message) : M EapModule unit :=
  src_mac_address ← lift (MacAddress.from_string src_mac);
  port_id ← gets authenticator_mac;
  b ← lift (MessagePacker.ethernet_pack data port_id (Some src_mac_address));
  send_packed_eap_message b.

(** One iteration of [send_eap_messages].  Once [shut_down] is set the thread
    leaves the loop; an item it was already waiting for is lost, because the
    socket was closed. *)
Definition send_eap_messages (s : EapModule) : EapModule :=
  if shut_down s then s
  else match outbound_message_queue s with
       | [] => s
       | x :: q =>
           {| eap_address := eap_address s; authenticator_mac := authenticator_mac s;
              outbound_message_queue := q; shut_down := shut_down s;
              sent := match x with
                      | Some ((_ :: _) as b) => sent s ++ [b]
                      | _ => sent s
                      end |}
       end.

Definition shut_down_module (s : EapModule) : EapModule := put None (set_shut_down s).

(** ** Lemmas *)

(** Queueing frames changes nothing but the queue. *)
Definition same_but_queue (s s' : EapModule) : Prop :=
  eap_address s' = eap_address s ∧ authenticator_mac s' = authenticator_mac s ∧
  shut_down s' = shut_down s ∧ sent s' = sent s ∧
  ∃ q, outbound_message_queue s' = outbound_message_queue s ++ q.

#[global] Instance same_but_queue_refl : Reflexive same_but_queue.
Proof. intros s. split_and!; try done. exists []. by rewrite app_nil_r. Qed.

Lemma send_eap_message_queue src m s :
  same_but_queue s (fst (send_eap_message src m s)).
Proof.
  unfold send_eap_message, mbind, M_bind, lift, gets.
  destruct (MacAddress.from_string src); [|reflexivity].
  destruct (MessagePacker.ethernet_pack _ _ _); [|reflexivity].
  split_and!; try done. by eexists.
Qed.

Lemma send_eapol_response_queue src s :
  same_but_queue s (fst (send_eapol_response src s)).
Proof.
  unfold send_eapol_response, mbind, M_bind, lift, gets.
  destruct (MacAddress.from_string src); [|reflexivity].
  destruct (MessagePacker.ethernet_pack _ _ _); [|reflexivity].
  split_and!; try done. by eexists.
Qed.

(** A message for a known address is queued as a frame from the authenticator. *)
Lemma send_eap_message_frame a m mac b s :
  MacAddress.mac_ok a → authenticator_mac s = Some mac →
  MessagePacker.ethernet_pack m (Some mac) (Some a) = Ok b →
  send_eap_message (MacAddress.to_str a) m s = (put (Some b) s, Ok tt).
Proof.
  intros Ha Hm Hb. unfold send_eap_message, mbind, M_bind, lift, gets.
  rewrite MacAddress.from_string_to_str by done. by rewrite Hm, Hb.
Qed.

End EapModule.
