(* ===== verification/RadiusModule.v ===== *)
(** * The RADIUS module (src/subset/dot1x/authenticator/radius_module.py)

    Packet ids and request authenticators, the encoding of a queued request,
    one iteration of the sending and of the receiving loop.  The random bytes
    of [os.urandom] are an argument. *)

From stdpp Require Import base list strings.
From Stdlib Require Import ZArith Lia.
From S2P Require Import Prelude Bytes Mac Eap Messages Md5 RadiusData RadiusAttr RadiusList Radius.
Import Attribute.

(** [port_id_to_int]; [int(s, 16)] on the digit groups of an address. *)
Definition port_id_to_int (port_id : str) : res Z :=
  match drop 3 (split COLON port_id) with
  | [dp; port_half_1; port_half_2] =>
      d ← int16 dp;
      p ← int16 (port_half_1 ++ port_half_2);
      b1 ← pack_H d;
      b2 ← pack_H p;
      Ok (from_bytes (b1 ++ b2))
  | _ => Raise ValueError
  end.

Lemma hex_digits_hex02 acc x :
  byte_ok x → hex_digits acc (hex02 x) = Some (256 * acc + x).
Proof.
  unfold byte_ok. intros Hx. unfold hex02, hex_digits.
  rewrite MacAddress.hex_val_digit by zlia. simpl.
  rewrite MacAddress.hex_val_digit by zlia. simpl. f_equal. zlia.
Qed.

Lemma hex_digits_hex02_0 x : byte_ok x → hex_digits 0 (hex02 x) = Some x.
Proof. intros Hx. by rewrite hex_digits_hex02. Qed.

Lemma hex_digits_app acc s1 s2 v :
  hex_digits acc s1 = Some v → hex_digits acc (s1 ++ s2) = hex_digits v s2.
Proof.
  revert acc. induction s1 as [|c s1 IH]; intros acc; simpl; [by intros [= ->]|].
  destruct (hex_val c); simpl; [apply IH|done].
Qed.

Lemma int16_digits s v : s ≠ [] → hex_digits 0 s = Some v → int16 s = Ok v.
Proof. unfold int16. intros Hs ->. by destruct s. Qed.

Lemma port_id_mac a0 a1 a2 dp p1 p2 :
  MacAddress.mac_ok [a0; a1; a2; dp; p1; p2] →
  port_id_to_int (MacAddress.to_str [a0; a1; a2; dp; p1; p2]) = Ok (65536 * dp + 256 * p1 + p2).
Proof.
  intros [_ Hok]. unfold port_id_to_int. rewrite MacAddress.to_str_split by done.
  cbn [fmap list_fmap drop].
  unfold bytes_ok in Hok. rewrite !Forall_cons in Hok.
  destruct Hok as (_ & _ & _ & Hdp & Hp1 & Hp2 & _).
  rewrite (int16_digits (hex02 dp) dp) by (done || by apply hex_digits_hex02_0).
  rewrite (int16_digits (hex02 p1 ++ hex02 p2) (256 * p1 + p2)).
  - cbn [mbind res_bind]. unfold byte_ok in *. rewrite !pack_H_in by lia.
    cbn [mbind res_bind]. f_equal. unfold from_bytes. simpl. zlia.
  - done.
  - rewrite (hex_digits_app 0 _ _ p1) by (by apply hex_digits_hex02_0).
    by apply hex_digits_hex02.
Qed.

(** The port id of an authenticator address is the number its last three
    bytes denote: distinct ports of a datapath get distinct ids. *)
Theorem port_id_to_int_mac a0 a1 a2 dp p1 p2 :
  MacAddress.mac_ok [a0; a1; a2; dp; p1; p2] →
  port_id_to_int (MacAddress.to_str [a0; a1; a2; dp; p1; p2]) = Ok (65536 * dp + 256 * p1 + p2).
Proof. apply port_id_mac. Qed.

Lemma port_id_to_int_mac_witness :
  port_id_to_int (of_literal "01:80:c2:00:00:03") = Ok 3.
Proof.
  apply (port_id_to_int_mac 1 128 194 0 0 3). split; [reflexivity|repeat constructor; lia].
Defined.

Record RadiusPacketInfo := {
  payload : message;
  src_mac : str;
  identity : option str;
  state : option bytes;
  port_id : Z
}.

(** The class name of a packet, as the callback receives it. *)
Inductive packet_type :=
  | RadiusAccessRequest | RadiusAccessAccept | RadiusAccessReject | RadiusAccessChallenge.

Definition packet_type_of (code : Z) : packet_type :=
  if code =? Radius.ACCESS_ACCEPT then RadiusAccessAccept
  else if code =? Radius.ACCESS_REJECT then RadiusAccessReject
  else if code =? Radius.ACCESS_CHALLENGE then RadiusAccessChallenge
  else RadiusAccessRequest.

Module RadiusModule.

Record RadiusModule := {
  radius_secret : str;
  module_id : str;
  outbound_message_queue : list (option RadiusPacketInfo);
  next_radius_id : Z;
  packet_id_to_request_authenticator : dict Z bytes;
  packet_id_to_mac : dict Z (str * Z);
  shut_down : bool;
  sent : list bytes
}.

Definition init (secret id : str) : RadiusModule :=
  {| radius_secret := secret; module_id := id; outbound_message_queue := [];
     next_radius_id := 0; packet_id_to_request_authenticator := [];
     packet_id_to_mac := []; shut_down := false; sent := [] |}.

Definition set_queue (q : list (option RadiusPacketInfo)) (s : RadiusModule) : RadiusModule :=
  {| radius_secret := radius_secret s; module_id := module_id s; outbound_message_queue := q;
     next_radius_id := next_radius_id s;
     packet_id_to_request_authenticator := packet_id_to_request_authenticator s;
     packet_id_to_mac := packet_id_to_mac s; shut_down := shut_down s; sent := sent s |}.
Definition set_next_radius_id (n : Z) (s : RadiusModule) : RadiusModule :=
  {| radius_secret := radius_secret s; module_id := module_id s;
     outbound_message_queue := outbound_message_queue s; next_radius_id := n;
     packet_id_to_request_authenticator := packet_id_to_request_authenticator s;
     packet_id_to_mac := packet_id_to_mac s; shut_down := shut_down s; sent := sent s |}.
Definition set_authenticators (d : dict Z bytes) (s : RadiusModule) : RadiusModule :=
  {| radius_secret := radius_secret s; module_id := module_id s;
     outbound_message_queue := outbound_message_queue s; next_radius_id := next_radius_id s;
     packet_id_to_request_authenticator := d;
     packet_id_to_mac := packet_id_to_mac s; shut_down := shut_down s; sent := sent s |}.
Definition set_macs (d : dict Z (str * Z)) (s : RadiusModule) : RadiusModule :=
  {| radius_secret := radius_secret s; module_id := module_id s;
     outbound_message_queue := outbound_message_queue s; next_radius_id := next_radius_id s;
     packet_id_to_request_authenticator := packet_id_to_request_authenticator s;
     packet_id_to_mac := d; shut_down := shut_down s; sent := sent s |}.
Definition set_shut_down (s : RadiusModule) : RadiusModule :=
  {| radius_secret := radius_secret s; module_id := module_id s;
     outbound_message_queue := outbound_message_queue s; next_radius_id := next_radius_id s;
     packet_id_to_request_authenticator := packet_id_to_request_authenticator s;
     packet_id_to_mac := packet_id_to_mac s; shut_down := true; sent := sent s |}.
Definition add_sent (b : bytes) (s : RadiusModule) : RadiusModule :=
  {| radius_secret := radius_secret s; module_id := module_id s;
     outbound_message_queue := outbound_message_queue s; next_radius_id := next_radius_id s;
     packet_id_to_request_authenticator := packet_id_to_request_authenticator s;
     packet_id_to_mac := packet_id_to_mac s; shut_down := shut_down s; sent := sent s ++ [b] |}.

Definition put (x : option RadiusPacketInfo) (s : RadiusModule) : RadiusModule :=
  set_queue (outbound_message_queue s ++ [x]) s.

Definition send_radius_packet (info : RadiusPacketInfo) : M RadiusModule unit :=
  modify (put (Some info)).

Definition get_next_radius_packet_id : M RadiusModule Z :=
  radius_id ← gets next_radius_id;
  _ ← modify (set_next_radius_id ((radius_id + 1) mod 256));
  mret radius_id.

Definition _prepare_extra_radius_attributes (module_id : str) : res (list attribute) :=
  called ← create_text CalledStationId (Some module_id);
  port ← create_int NASPortType (Some 15);
  nas ← create_text NASIdentifier (Some module_id);
  Ok [called; port; nas].

(** [urandom] are the bytes [os.urandom(16)] returned. *)
Definition _encode_radius_response (info : RadiusPacketInfo) (urandom : bytes)
  : M RadiusModule bytes :=
  radius_packet_id ← get_next_radius_packet_id;
  _ ← modify (λ s, set_macs (dset radius_packet_id (src_mac info, port_id info)
                              (packet_id_to_mac s)) s);
  _ ← modify (λ s, set_authenticators (dset radius_packet_id urandom
                              (packet_id_to_request_authenticator s)) s);
  s ← getS;
  extra ← lift (_prepare_extra_radius_attributes (module_id s));
  lift (Radius.radius_pack (payload info) (src_mac info) (identity info) radius_packet_id
          urandom (state info) (Some (radius_secret s)) (Some (port_id info)) extra).

(** One iteration of [send_radius_messages]; an exception ends the thread.  A
    thread that was waiting when [shut_down] was set finds the socket closed. *)
Definition send_radius_messages (urandom : bytes) : M RadiusModule unit :=
  s ← getS;
  if shut_down s then mret tt
  else match outbound_message_queue s with
       | [] => mret tt
       | x :: q =>
           _ ← modify (set_queue q);
           match x with
           | Some info =>
               packed_message ← _encode_radius_response info urandom;
               modify (add_sent packed_message)
           | None => mret tt
           end
       end.

(** The last EAP-Message and the last State of the attributes. *)
Fixpoint collect (eap_message : option message) (state : option bytes) (l : list attribute)
  : res (option message * option bytes) :=
  match l with
  | [] => Ok (eap_message, state)
  | a :: l' =>
      e ← (if decide (cls a = EAPMessage)
           then v ← Attribute.data a;
                match v with VMsg m => Ok (Some m) | _ => Ok eap_message end
           else Ok eap_message);
      st ← (if decide (cls a = State)
            then v ← Attribute.data a;
                 match v with VBytes b => Ok b | _ => Ok state end
            else Ok state);
      collect e st l'
  end.

(** One iteration of [receive_radius_messages] up to the callback: its
    arguments, [None] for a packet that cannot be parsed; the outer option is
    the endless loop of the parser. *)
Definition receive_radius_message (packed_message : bytes) (s : RadiusModule)
  : option (res (option (str * (option message * option bytes) * packet_type))) :=
  r ← Radius.parse packed_message (radius_secret s) (packet_id_to_request_authenticator s);
  Some (match r with
        | Raise MessageParseError => Ok None
        | Raise e => Raise e
        | Ok radius =>
            attrs ← collect None None (Radius.attributes radius);
            '(mac, _) ← of_option KeyError (dget (Radius.packet_id radius) (packet_id_to_mac s));
            Ok (Some (mac, attrs, packet_type_of (Radius.CODE radius)))
        end).

(** [shut_down_module]: closing the socket a second time is an [OSError]. *)
Definition shut_down_module : M RadiusModule unit :=
  s ← getS;
  _ ← modify (λ s, put None (set_shut_down s));
  if shut_down s then raise OtherException else mret tt.

(** ** The tables of outstanding requests *)

Record tables_ok (s : RadiusModule) : Prop := {
  tables_next : 0 ≤ next_radius_id s < 256;
  tables_same : ∀ id, dmem id (packet_id_to_request_authenticator s) = dmem id (packet_id_to_mac s);
  tables_range : ∀ id, dmem id (packet_id_to_mac s) = true → 0 ≤ id < 256;
  tables_auth : ∀ id ra, dget id (packet_id_to_request_authenticator s) = Some ra → ra ≠ []
}.

Lemma dmem_dset {V} k k' (v : V) (d : dict Z V) :
  dmem k (dset k' v d) = (k =? k') || dmem k d.
Proof.
  unfold dmem. rewrite dget_dset. destruct (Z.eqb_spec k k'); case_decide; by try lia.
Qed.

(** The state after encoding a request, whatever its outcome. *)
Lemma encode_state info ra s :
  let s' := fst (_encode_radius_response info ra s) in
  packet_id_to_mac s' = dset (next_radius_id s) (src_mac info, port_id info) (packet_id_to_mac s) ∧
  packet_id_to_request_authenticator s' =
    dset (next_radius_id s) ra (packet_id_to_request_authenticator s) ∧
  next_radius_id s' = (next_radius_id s + 1) mod 256 ∧
  radius_secret s' = radius_secret s ∧ module_id s' = module_id s ∧
  outbound_message_queue s' = outbound_message_queue s ∧ shut_down s' = shut_down s ∧
  sent s' = sent s.
Proof.
  unfold _encode_radius_response, get_next_radius_packet_id, mbind, M_bind, gets, modify, mret,
    M_ret, getS, lift. cbv beta iota zeta. simpl.
  destruct (_prepare_extra_radius_attributes (module_id s)); simpl; by split_and!.
Qed.

Lemma encode_tables info ra s :
  ra ≠ [] → tables_ok s → tables_ok (fst (_encode_radius_response info ra s)).
Proof.
  intros Hra [Hn Hs Hr Ha].
  destruct (encode_state info ra s) as (Hm & Hau & Hnx & _). split.
  - rewrite Hnx. apply Z.mod_pos_bound. lia.
  - intros id. by rewrite Hm, Hau, !dmem_dset, Hs.
  - intros id. rewrite Hm, dmem_dset, orb_true_iff, Z.eqb_eq. intros [->|?]; auto.
  - intros id a. rewrite Hau, dget_dset. case_decide; [by intros [= <-]|apply Ha].
Qed.

(** The tables of outstanding requests stay in step: after any request is
    encoded, its id maps to the address it was sent for and to its request
    authenticator, and the entries of other ids are as before. *)
Theorem encode_registers_request info ra s :
  ra ≠ [] → tables_ok s →
  let s' := fst (_encode_radius_response info ra s) in
  tables_ok s' ∧
  dget (next_radius_id s) (packet_id_to_mac s') = Some (src_mac info, port_id info) ∧
  dget (next_radius_id s) (packet_id_to_request_authenticator s') = Some ra ∧
  (∀ id, id ≠ next_radius_id s →
     dget id (packet_id_to_mac s') = dget id (packet_id_to_mac s) ∧
     dget id (packet_id_to_request_authenticator s') =
       dget id (packet_id_to_request_authenticator s)) ∧
  next_radius_id s' = (next_radius_id s + 1) mod 256.
Proof.
  intros Hra Hok s'. split; [by apply encode_tables|].
  destruct (encode_state info ra s) as (Hm & Hau & Hnx & _). subst s'.
  rewrite Hm, Hau, !dget_dset_eq. split_and!; [done|done| |done].
  intros id Hid. by rewrite !dget_dset_ne.
Qed.

Lemma encode_registers_request_witness :
  let info := {| payload := SuccessMessage SrcNone 1; src_mac := of_literal "m"; identity := None;
                 state := None; port_id := 3 |} in
  let s' := fst (_encode_radius_response info [9] (init (of_literal "S") (of_literal "i"))) in
  tables_ok s' ∧
  dget 0 (packet_id_to_mac s') = Some (of_literal "m", 3) ∧
  dget 0 (packet_id_to_request_authenticator s') = Some [9] ∧
  (∀ id, id ≠ 0 →
     dget id (packet_id_to_mac s') = dget id (@nil (Z * (list Z * Z))) ∧
     dget id (packet_id_to_request_authenticator s') = dget id (@nil (Z * list Z))) ∧
  next_radius_id s' = 1.
Proof.
  apply (encode_registers_request
    {| payload := SuccessMessage SrcNone 1; src_mac := of_literal "m"; identity := None;
       state := None; port_id := 3 |} [9] (init (of_literal "S") (of_literal "i")));
    [discriminate|].
  split; simpl; [lia|reflexivity|discriminate|discriminate].
Defined.

(** A packet id is not reused while fewer than 256 later requests are
    encoded: a late response is still attributed to the supplicant it answers,
    under its own request authenticator. *)
Theorem request_id_window l s id mac ra :
  0 ≤ id < 256 → next_radius_id s = (id + 1) mod 256 → (length l <= 255)%nat →
  dget id (packet_id_to_mac s) = Some mac →
  dget id (packet_id_to_request_authenticator s) = Some ra →
  let s' := foldl (λ s x, fst (_encode_radius_response x.1 x.2 s)) s l in
  dget id (packet_id_to_mac s') = Some mac ∧
  dget id (packet_id_to_request_authenticator s') = Some ra.
Proof.
  intros Hid Hn Hl Hm Ha. cbv zeta.
  enough (∀ k, 1 ≤ k → k + Z.of_nat (length l) ≤ 256 → next_radius_id s = (id + k) mod 256 →
    dget id (packet_id_to_mac (foldl (λ s x, fst (_encode_radius_response x.1 x.2 s)) s l)) =
      Some mac ∧
    dget id (packet_id_to_request_authenticator
      (foldl (λ s x, fst (_encode_radius_response x.1 x.2 s)) s l)) = Some ra) as H
    by (apply (H 1); [lia|lia|done]).
  clear Hn Hl. revert s Hm Ha. induction l as [|[info r] l IH]; intros s Hm Ha k Hk1 Hk2 Hn; [done|].
  simpl. destruct (encode_state info r s) as (Hm' & Ha' & Hn' & _).
  assert (id ≠ next_radius_id s) as Hne by (rewrite Hn; simpl in Hk2; zlia).
  apply (IH _) with (k := k + 1).
  - by rewrite Hm', dget_dset_ne.
  - by rewrite Ha', dget_dset_ne.
  - lia.
  - simpl in Hk2. lia.
  - rewrite Hn', Hn. simpl in Hk2. zlia.
Qed.

Lemma request_id_window_witness :
  let i := {| payload := SuccessMessage SrcNone 1; src_mac := []; identity := None;
              state := None; port_id := 3 |} in
  let s := fst (_encode_radius_response i [9] (init [65] [66])) in
  let s' := foldl (λ s x, fst (_encode_radius_response x.1 x.2 s)) s [(i, [1]); (i, [2])] in
  dget 0 (packet_id_to_mac s') = Some ([], 3) ∧
  dget 0 (packet_id_to_request_authenticator s') = Some [9].
Proof.
  apply (request_id_window
    [({| payload := SuccessMessage SrcNone 1; src_mac := []; identity := None;
         state := None; port_id := 3 |}, [1]);
     ({| payload := SuccessMessage SrcNone 1; src_mac := []; identity := None;
         state := None; port_id := 3 |}, [2])]);
    [lia|reflexivity|simpl; lia|reflexivity|reflexivity].
Defined.

End RadiusModule.
