(* ===== verification/AuthSM.v ===== *)
(** * The authentication state machine
      (src/subset/dot1x/authenticator/authenticator.py, class [AuthStateMachine])

    A handler changes the fields of the machine and then calls the callbacks it
    was constructed with; no field is changed after the first callback.  So a
    handler is a computation on the machine that returns the calls it makes, and
    [run] performs them through the interface [AuthCallbacks].  Times are
    integers; [now] is what [time.time()] returns. *)

From stdpp Require Import base list strings.
From Stdlib Require Import ZArith Lia.
From S2P Require Import Prelude Bytes Mac Eap Messages RadiusAttr Radius RadiusModule.

Module AuthStateMachine.

Inductive sm_state := START | SUPPLICANT | RADIUS | FAIL | SUCCESS.

#[global] Instance sm_state_eq_dec : EqDecision sm_state.
Proof. solve_decision. Defined.

(** A call of one of the three callbacks. *)
Inductive action :=
  | EapSend (src_mac : str) (message : option message)
  | RadiusSend (info : RadiusPacketInfo)
  | AuthResult (src_mac : str) (is_success : bool).

Record AuthStateMachine := {
  state : option sm_state;
  src_mac : str;
  identity : option str;
  authentication_mac : str;
  radius_state : option bytes;
  _idle_time : Z;
  _max_retry_count : Z;
  _current_timeout : option Z;
  _retry : option action;            (* _retry_func and _retry_args *)
  _current_retries : option Z
}.

(** [__init__] *)
Definition new_machine (src auth_mac : str) (idle_time retry_count : Z) : AuthStateMachine :=
  {| state := None; src_mac := src; identity := None; authentication_mac := auth_mac;
     radius_state := None; _idle_time := idle_time; _max_retry_count := retry_count;
     _current_timeout := None; _retry := None; _current_retries := None |}.

Definition set_state (x : sm_state) (m : AuthStateMachine) : AuthStateMachine :=
  {| state := Some x; src_mac := src_mac m; identity := identity m;
     authentication_mac := authentication_mac m; radius_state := radius_state m;
     _idle_time := _idle_time m; _max_retry_count := _max_retry_count m;
     _current_timeout := _current_timeout m; _retry := _retry m;
     _current_retries := _current_retries m |}.
Definition set_identity (x : option str) (m : AuthStateMachine) : AuthStateMachine :=
  {| state := state m; src_mac := src_mac m; identity := x;
     authentication_mac := authentication_mac m; radius_state := radius_state m;
     _idle_time := _idle_time m; _max_retry_count := _max_retry_count m;
     _current_timeout := _current_timeout m; _retry := _retry m;
     _current_retries := _current_retries m |}.
Definition set_radius_state (x : option bytes) (m : AuthStateMachine) : AuthStateMachine :=
  {| state := state m; src_mac := src_mac m; identity := identity m;
     authentication_mac := authentication_mac m; radius_state := x;
     _idle_time := _idle_time m; _max_retry_count := _max_retry_count m;
     _current_timeout := _current_timeout m; _retry := _retry m;
     _current_retries := _current_retries m |}.
Definition set_current_timeout (x : option Z) (m : AuthStateMachine) : AuthStateMachine :=
  {| state := state m; src_mac := src_mac m; identity := identity m;
     authentication_mac := authentication_mac m; radius_state := radius_state m;
     _idle_time := _idle_time m; _max_retry_count := _max_retry_count m;
     _current_timeout := x; _retry := _retry m; _current_retries := _current_retries m |}.
Definition set_retry (x : option action) (n : option Z) (m : AuthStateMachine) : AuthStateMachine :=
  {| state := state m; src_mac := src_mac m; identity := identity m;
     authentication_mac := authentication_mac m; radius_state := radius_state m;
     _idle_time := _idle_time m; _max_retry_count := _max_retry_count m;
     _current_timeout := _current_timeout m; _retry := x; _current_retries := n |}.

Abbreviation SM := (M AuthStateMachine) (only parsing).

Definition _state_transition (target : sm_state) (expected : option sm_state) : SM unit :=
  m ← getS;
  _ ← match expected with
      | Some x => assertM (bool_decide (state m = Some x))
      | None => mret tt
      end;
  modify (set_state target).

(** [_set_timeout(timeout_time)] and [_set_timeout(clear=True)] *)
Definition _set_timeout (now timeout_time : Z) : SM unit :=
  modify (set_current_timeout (Some (now + timeout_time))).
Definition _clear_timeout : SM unit := modify (set_current_timeout None).

Definition _set_retry_actions (a : action) : SM unit := modify (set_retry (Some a) (Some 0)).
Definition _clear_retry_actions : SM unit := modify (set_retry None (Some 0)).

Definition initialize (now : Z) : SM unit :=
  m ← getS;
  _ ← _state_transition START None;
  _ ← _set_timeout now (_idle_time m);
  _set_retry_actions (EapSend (src_mac m) None).

Definition received_eapol_start (now : Z) : SM (list action) :=
  m ← getS;
  _ ← _state_transition SUPPLICANT (Some START);
  _ ← _set_timeout now (_idle_time m);
  _ ← _set_retry_actions (EapSend (src_mac m) None);
  mret [EapSend (src_mac m) None].

(** [not self.identity] *)
Definition no_identity (i : option str) : bool :=
  match i with Some (_ :: _) => false | _ => true end.

Definition received_eap_request (now : Z) (eap_message : message) : SM (list action) :=
  m0 ← getS;
  _ ← match identity_of eap_message with
      | Some i => whenM (no_identity (identity m0)) (modify (set_identity (Some i)))
      | None => mret tt
      end;
  _ ← _state_transition RADIUS (Some SUPPLICANT);
  m ← getS;
  port_id ← lift (port_id_to_int (authentication_mac m));
  let info := {| payload := eap_message; RadiusModule.src_mac := src_mac m;
                 RadiusModule.identity := identity m; RadiusModule.state := radius_state m;
                 RadiusModule.port_id := port_id |} in
  _ ← _set_timeout now (_idle_time m);
  _ ← _set_retry_actions (RadiusSend info);
  mret [RadiusSend info].

Definition received_radius_response (now : Z) (payload : option message)
    (radius_state : option bytes) (t : packet_type) : SM (list action) :=
  _ ← modify (set_radius_state radius_state);
  m ← getS;
  match t with
  | RadiusAccessReject =>
      _ ← _state_transition FAIL (Some RADIUS);
      mret [AuthResult (src_mac m) false;
            EapSend (src_mac m) (Some (FailureMessage (SrcStr (src_mac m)) 255))]
  | RadiusAccessAccept =>
      _ ← _state_transition SUCCESS (Some RADIUS);
      mret [AuthResult (src_mac m) true; EapSend (src_mac m) payload]
  | _ =>
      _ ← _state_transition SUPPLICANT (Some RADIUS);
      _ ← _set_timeout now (_idle_time m);
      _ ← _set_retry_actions (EapSend (src_mac m) payload);
      mret [EapSend (src_mac m) payload]
  end.

Definition _handle_timeout : SM (list action) :=
  m ← getS;
  _ ← _state_transition FAIL None;
  _ ← _clear_timeout;
  mret [AuthResult (src_mac m) false;
        EapSend (src_mac m) (Some (FailureMessage (SrcStr (src_mac m)) 255))].

(** A timer call before [initialize] would compare with [None]. *)
Definition handle_timer (now : Z) : SM (list action) :=
  m ← getS;
  match _current_timeout m with
  | Some t =>
      if negb (t =? 0) && (t <? now) then
        match _current_retries m with
        | Some n =>
            if n <? _max_retry_count m then
              _ ← modify (set_retry (_retry m) (Some (n + 1)));
              _ ← _set_timeout now (_idle_time m);
              match _retry m with
              | Some a => mret [a]
              | None => raise TypeError
              end
            else _handle_timeout
        | None => raise TypeError
        end
      else mret []
  | None => mret []
  end.

(** ** The interface to the authenticator *)

(** The three callbacks, over the state of whoever constructed the machine. *)
Class AuthCallbacks (W : Type) := {
  eap_send_callback : str → option message → M W unit;
  radius_send_callback : RadiusPacketInfo → M W unit;
  auth_callback : str → bool → M W unit
}.

Definition perform {W} `{AuthCallbacks W} (a : action) : M W unit :=
  match a with
  | EapSend src m => eap_send_callback src m
  | RadiusSend info => radius_send_callback info
  | AuthResult src b => auth_callback src b
  end.

(** ** Lemmas *)

(** A live machine: waiting for one of the peers, with a timeout and a retry. *)
Record live (m : AuthStateMachine) : Prop := {
  live_state : state m = Some SUPPLICANT ∨ state m = Some RADIUS;
  live_timeout : ∃ t, _current_timeout m = Some t;
  live_retry : ∃ a, _retry m = Some a ∧
    match a with
    | EapSend s _ => s = src_mac m
    | RadiusSend i => RadiusModule.src_mac i = src_mac m
    | AuthResult _ _ => False
    end;
  live_retries : ∃ n, _current_retries m = Some n ∧ 0 ≤ n ≤ _max_retry_count m
}.

(** The fields the handlers never change. *)
Definition same_fixed (m m' : AuthStateMachine) : Prop :=
  src_mac m' = src_mac m ∧ authentication_mac m' = authentication_mac m ∧
  _idle_time m' = _idle_time m ∧ _max_retry_count m' = _max_retry_count m.

Ltac sm_unfold :=
  unfold received_eapol_start, received_eap_request, received_radius_response, _handle_timeout,
    handle_timer, initialize, _state_transition, _set_timeout, _clear_timeout,
    _set_retry_actions, getS, modify, assertM, whenM, lift, raise, mret, M_ret, mbind, M_bind in *.

(** A call that does not end the authentication. *)
Definition relays (a : action) : Prop :=
  match a with AuthResult _ _ => False | _ => True end.

(** A handler leaves the machine live and only relays, or ends it: then its
    first call reports the result of this machine. *)
Definition outcome (m : AuthStateMachine) (x : AuthStateMachine * res (list action)) : Prop :=
  same_fixed m x.1 ∧
  match x.2 with
  | Raise _ => live x.1
  | Ok acts =>
      (live x.1 ∧ Forall relays acts) ∨
      (∃ b msg, acts = [AuthResult (src_mac m) b; EapSend (src_mac m) msg] ∧
                state x.1 = Some (if b then SUCCESS else FAIL))
  end.

(** Build [live] for a machine whose fields are known. *)
Ltac solve_live :=
  match goal with
  | H : live ?m |- live _ => destruct H as [? [? ?] (? & ? & ?) (? & ? & ?)]; split; simpl; eauto 6
  end.

Lemma set_identity_live x m : live m → live (set_identity x m).
Proof. intros H. solve_live. Qed.

Lemma set_radius_state_live x m : live m → live (set_radius_state x m).
Proof. intros H. solve_live. Qed.

Lemma set_state_live x m :
  x = SUPPLICANT ∨ x = RADIUS → live m → live (set_state x m).
Proof. intros [-> | ->] H; solve_live. Qed.

(** The machine after a transition that restarts the timer and the retries. *)
Lemma restart_live m x t a :
  0 ≤ _max_retry_count m → x = SUPPLICANT ∨ x = RADIUS →
  match a with
  | EapSend s _ => s = src_mac m
  | RadiusSend i => RadiusModule.src_mac i = src_mac m
  | AuthResult _ _ => False
  end →
  live (set_retry (Some a) (Some 0) (set_current_timeout (Some t) (set_state x m))).
Proof.
  intros Hm Hx Ha. split; simpl; [naive_solver|by eexists|by exists a|].
  exists 0. split; [done|lia].
Qed.

Lemma live_max m : live m → 0 ≤ _max_retry_count m.
Proof. intros [_ _ _ (n & _ & ?)]. lia. Qed.

(** The machine with the identity of an identity message, if it has none. *)
Definition learn_identity (e : message) (m : AuthStateMachine) : AuthStateMachine :=
  match identity_of e with
  | Some i => if no_identity (identity m) then set_identity (Some i) m else m
  | None => m
  end.

Lemma learn_identity_fixed e m :
  same_fixed m (learn_identity e m) ∧ state (learn_identity e m) = state m ∧
  radius_state (learn_identity e m) = radius_state m ∧
  (live m → live (learn_identity e m)).
Proof.
  unfold learn_identity. destruct (identity_of e); [destruct (no_identity _)|];
    split_and!; try done. apply set_identity_live.
Qed.

(** The three handlers, by the state they are called in. *)
Lemma received_eap_request_eq now e m :
  received_eap_request now e m =
  let m1 := learn_identity e m in
  if bool_decide (state m = Some SUPPLICANT) then
    let m2 := set_state RADIUS m1 in
    match port_id_to_int (authentication_mac m) with
    | Ok port =>
        let info := {| payload := e; RadiusModule.src_mac := src_mac m;
                       RadiusModule.identity := identity m1;
                       RadiusModule.state := radius_state m; port_id := port |} in
        (set_retry (Some (RadiusSend info)) (Some 0)
           (set_current_timeout (Some (now + _idle_time m)) m2), Ok [RadiusSend info])
    | Raise x => (m2, Raise x)
    end
  else (m1, Raise AssertionError).
Proof.
  unfold learn_identity. sm_unfold. cbv zeta.
  destruct (identity_of e) as [i|]; [destruct (no_identity (identity m))|]; simpl;
    destruct (bool_decide (state m = Some SUPPLICANT)); simpl; try done;
    by destruct (port_id_to_int (authentication_mac m)).
Qed.

Lemma received_radius_response_eq now payload rs t m :
  received_radius_response now payload rs t m =
  let m1 := set_radius_state rs m in
  if bool_decide (state m = Some RADIUS) then
    match t with
    | RadiusAccessReject =>
        (set_state FAIL m1, Ok [AuthResult (src_mac m) false;
           EapSend (src_mac m) (Some (FailureMessage (SrcStr (src_mac m)) 255))])
    | RadiusAccessAccept =>
        (set_state SUCCESS m1, Ok [AuthResult (src_mac m) true; EapSend (src_mac m) payload])
    | _ =>
        (set_retry (Some (EapSend (src_mac m) payload)) (Some 0)
           (set_current_timeout (Some (now + _idle_time m)) (set_state SUPPLICANT m1)),
         Ok [EapSend (src_mac m) payload])
    end
  else (m1, Raise AssertionError).
Proof.
  sm_unfold. destruct t; simpl; by destruct (bool_decide (state m = Some RADIUS)).
Qed.

Lemma handle_timer_eq now m :
  live m →
  ∃ t a n, _current_timeout m = Some t ∧ _retry m = Some a ∧ _current_retries m = Some n ∧
  handle_timer now m =
  if negb (t =? 0) && (t <? now) then
    if n <? _max_retry_count m
    then (set_current_timeout (Some (now + _idle_time m)) (set_retry (Some a) (Some (n + 1)) m),
          Ok [a])
    else (set_current_timeout None (set_state FAIL m),
          Ok [AuthResult (src_mac m) false;
              EapSend (src_mac m) (Some (FailureMessage (SrcStr (src_mac m)) 255))])
  else (m, Ok []).
Proof.
  intros [_ [t Ht] (a & Ha & _) (n & Hn & _)]. exists t, a, n. split_and!; try done.
  sm_unfold. rewrite Ht. destruct (negb _ && _); [|done]. rewrite Hn.
  destruct (n <? _max_retry_count m); [|done]. simpl. by rewrite Ha.
Qed.

Lemma received_eap_request_outcome now e m :
  live m → outcome m (received_eap_request now e m).
Proof.
  intros Hl. rewrite received_eap_request_eq. cbv zeta.
  destruct (learn_identity_fixed e m) as (Hf & Hs & Hr & Hlive). specialize (Hlive Hl).
  case_bool_decide; [|by split].
  destruct (port_id_to_int (authentication_mac m)); split; simpl; [done| |done|].
  - left. split; [|by repeat constructor].
    apply restart_live; [by apply (live_max (learn_identity e m))|by right|].
    simpl. by destruct Hf as [-> _].
  - apply set_state_live; [by right|done].
Qed.

Lemma received_radius_response_outcome now payload rs t m :
  live m → outcome m (received_radius_response now payload rs t m).
Proof.
  intros Hl. rewrite received_radius_response_eq. cbv zeta.
  case_bool_decide; [|split; [done|by apply set_radius_state_live]].
  assert (live (set_retry (Some (EapSend (src_mac m) payload)) (Some 0)
    (set_current_timeout (Some (now + _idle_time m))
      (set_state SUPPLICANT (set_radius_state rs m))))) as Hlive
    by (apply restart_live; [by apply (live_max m)|by left|done]).
  destruct t; (split; [done|]); cbn [fst snd].
  - left. split; [done|by repeat constructor].
  - right. by exists true, payload.
  - right. by eexists false, _.
  - left. split; [done|by repeat constructor].
Qed.

Lemma handle_timer_outcome now m :
  live m → outcome m (handle_timer now m).
Proof.
  intros Hl. destruct (handle_timer_eq now m Hl) as (t & a & n & Ht & Ha & Hn & ->).
  destruct (negb _ && _); [|split; [done|left; by split]].
  destruct (Z.ltb_spec n (_max_retry_count m)).
  - split; [done|]. left. pose proof Hl as [Hst _ (a' & Ha' & Hsrc) (n' & Hn' & Hb)].
    rewrite Ha in Ha'. injection Ha' as <-. rewrite Hn in Hn'. injection Hn' as <-.
    split; [|constructor; [by destruct a|constructor]].
    split; simpl; [done|by eexists|by exists a|]. exists (n + 1). split; [done|lia].
  - split; [done|]. right. by eexists false, _.
Qed.

(** A new machine after [initialize] and [received_eapol_start] is live. *)
Lemma new_machine_started now src auth idle retries :
  0 ≤ retries →
  ∃ m0 m, initialize now (new_machine src auth idle retries) = (m0, Ok tt) ∧
    received_eapol_start now m0 = (m, Ok [EapSend src None]) ∧
    live m ∧ src_mac m = src ∧ state m = Some SUPPLICANT ∧ authentication_mac m = auth.
Proof.
  intros Hr. eexists _, _. split; [sm_unfold; reflexivity|].
  split; [sm_unfold; reflexivity|]. split_and!; try done.
  apply restart_live; [done|by left|done].
Qed.

Lemma new_machine_max now src auth idle retries :
  _max_retry_count (fst (received_eapol_start now
    (fst (initialize now (new_machine src auth idle retries))))) = retries.
Proof. sm_unfold. reflexivity. Qed.

End AuthStateMachine.
