(* ===== verification/Authenticator.v ===== *)
(** * The authenticator
      (src/subset/dot1x/authenticator: authenticator.py, heartbeat_scheduler.py)

    The machines by supplicant address, the results, the two modules and the
    timer, driven by events: a frame or a datagram was received, the timer
    fired, or one of the sending threads took an item from its queue.  An event
    runs to its end before the next one: the interleaving of the threads inside
    a handler is not modelled.  A thread that let an exception escape is dead,
    one that entered the endless loop of the RADIUS parser is hung. *)

From stdpp Require Import base list strings relations.
From Stdlib Require Import ZArith Lia.
From S2P Require Import Prelude Bytes Mac Eap Messages Md5 RadiusAttr Radius RadiusModule EapModule AuthSM.

Module Authenticator.

Definition HEARTBEAT_INTERVAL : Z := 3.
Definition IDLE_TIME : Z := 9.
Definition RETRY_COUNT : Z := 3.
Definition EAPOL_IDLE_TIME : Z := 180.

Inductive thread := Running | Dead (e : exn) | Hung.

Record Authenticator := {
  state_machines : dict str AuthStateMachine.AuthStateMachine;
  results : dict str bool;
  eap_module : EapModule.EapModule;
  radius_module : RadiusModule.RadiusModule;
  _idle_time : Z;
  _max_retry_count : Z;
  _current_timeout : option Z;
  timer_run : bool;
  eap_receiver : thread;
  radius_receiver : thread;
  radius_sender : thread
}.

(** [__init__] and [_setup], with the values [_load_config] reads. *)
Definition init (now : Z) (eap_address : bytes) (secret radius_id : str) : Authenticator :=
  {| state_machines := []; results := [];
     eap_module := EapModule.init eap_address;
     radius_module := RadiusModule.init secret radius_id;
     _idle_time := IDLE_TIME; _max_retry_count := RETRY_COUNT;
     _current_timeout := Some (now + EAPOL_IDLE_TIME);
     timer_run := true; eap_receiver := Running; radius_receiver := Running;
     radius_sender := Running |}.

Definition set_machines (x : dict str AuthStateMachine.AuthStateMachine) (w : Authenticator) :=
  {| state_machines := x; results := results w; eap_module := eap_module w;
     radius_module := radius_module w; _idle_time := _idle_time w;
     _max_retry_count := _max_retry_count w; _current_timeout := _current_timeout w;
     timer_run := timer_run w; eap_receiver := eap_receiver w;
     radius_receiver := radius_receiver w; radius_sender := radius_sender w |}.
Definition set_results (x : dict str bool) (w : Authenticator) :=
  {| state_machines := state_machines w; results := x; eap_module := eap_module w;
     radius_module := radius_module w; _idle_time := _idle_time w;
     _max_retry_count := _max_retry_count w; _current_timeout := _current_timeout w;
     timer_run := timer_run w; eap_receiver := eap_receiver w;
     radius_receiver := radius_receiver w; radius_sender := radius_sender w |}.
Definition set_eap (x : EapModule.EapModule) (w : Authenticator) :=
  {| state_machines := state_machines w; results := results w; eap_module := x;
     radius_module := radius_module w; _idle_time := _idle_time w;
     _max_retry_count := _max_retry_count w; _current_timeout := _current_timeout w;
     timer_run := timer_run w; eap_receiver := eap_receiver w;
     radius_receiver := radius_receiver w; radius_sender := radius_sender w |}.
Definition set_radius (x : RadiusModule.RadiusModule) (w : Authenticator) :=
  {| state_machines := state_machines w; results := results w; eap_module := eap_module w;
     radius_module := x; _idle_time := _idle_time w;
     _max_retry_count := _max_retry_count w; _current_timeout := _current_timeout w;
     timer_run := timer_run w; eap_receiver := eap_receiver w;
     radius_receiver := radius_receiver w; radius_sender := radius_sender w |}.
Definition set_timer_run (x : bool) (w : Authenticator) :=
  {| state_machines := state_machines w; results := results w; eap_module := eap_module w;
     radius_module := radius_module w; _idle_time := _idle_time w;
     _max_retry_count := _max_retry_count w; _current_timeout := _current_timeout w;
     timer_run := x; eap_receiver := eap_receiver w;
     radius_receiver := radius_receiver w; radius_sender := radius_sender w |}.
Definition set_threads (e r s : thread) (w : Authenticator) :=
  {| state_machines := state_machines w; results := results w; eap_module := eap_module w;
     radius_module := radius_module w; _idle_time := _idle_time w;
     _max_retry_count := _max_retry_count w; _current_timeout := _current_timeout w;
     timer_run := timer_run w; eap_receiver := e; radius_receiver := r; radius_sender := s |}.

Abbreviation AM := (M Authenticator) (only parsing).

(** A call of a method of one of the modules. *)
Definition on_eap {A} (f : M EapModule.EapModule A) : AM A :=
  λ w, let '(e, r) := f (eap_module w) in (set_eap e w, r).
Definition on_radius {A} (f : M RadiusModule.RadiusModule A) : AM A :=
  λ w, let '(x, r) := f (radius_module w) in (set_radius x w, r).

Definition _end_authentication : AM unit :=
  _ ← modify (set_timer_run false);
  _ ← on_radius RadiusModule.shut_down_module;
  on_eap (modify EapModule.shut_down_module).

Definition send_eap_response (src_mac : str) (m : option message) : AM unit :=
  match m with
  | None => on_eap (EapModule.send_eapol_response src_mac)
  | Some x => on_eap (EapModule.send_eap_message src_mac x)
  end.

Definition send_radius_request (info : RadiusPacketInfo) : AM unit :=
  on_radius (RadiusModule.send_radius_packet info).

(** [src_mac] is [None] when no supplicant showed up. *)
Definition process_test_result (src_mac : option str) (is_success : bool) : AM unit :=
  _ ← match src_mac with
      | Some ((_ :: _) as src) =>
          _ ← modify (λ w, set_results (dset src is_success (results w)) w);
          w ← getS;
          _ ← lift (of_option KeyError (dget src (state_machines w)));
          modify (set_machines (ddel src (state_machines w)))
      | _ => mret tt
      end;
  _end_authentication.

#[global] Instance callbacks : AuthStateMachine.AuthCallbacks Authenticator := {|
  AuthStateMachine.eap_send_callback := send_eap_response;
  AuthStateMachine.radius_send_callback := send_radius_request;
  AuthStateMachine.auth_callback := λ src b, process_test_result (Some src) b
|}.

(** A handler of the machine of [src], and the calls it makes. *)
Definition run_machine (src : str)
    (h : M AuthStateMachine.AuthStateMachine (list AuthStateMachine.action)) : AM unit :=
  w ← getS;
  m ← lift (of_option KeyError (dget src (state_machines w)));
  let '(m', r) := h m in
  _ ← modify (set_machines (dset src m' (state_machines w)));
  acts ← lift r;
  for_each acts AuthStateMachine.perform.

Definition received_eap_request (now : Z) (src_mac : str) (eap_message : message)
    (is_eapol : bool) : AM unit :=
  if is_eapol then
    w ← getS;
    if negb (dmem src_mac (state_machines w) || dmem src_mac (results w)) then
      let auth_mac := EapModule.get_auth_mac (eap_module w) in
      let '(m, r) := AuthStateMachine.initialize now
        (AuthStateMachine.new_machine src_mac auth_mac (_idle_time w) (_max_retry_count w)) in
      _ ← lift r;
      _ ← modify (set_machines (dset src_mac m (state_machines w)));
      run_machine src_mac (AuthStateMachine.received_eapol_start now)
    else mret tt
  else run_machine src_mac (AuthStateMachine.received_eap_request now eap_message).

Definition received_radius_response (now : Z) (src_mac : str)
    (radius_attributes : option message * option bytes) (t : packet_type) : AM unit :=
  let '(eap_message, radius_state) := radius_attributes in
  run_machine src_mac
    (AuthStateMachine.received_radius_response now eap_message radius_state t).

(** [for state_machine in self.state_machines.values()]: the iterator raises
    when the dictionary has changed size since the loop began. *)
Fixpoint timer_loop (now : Z) (size : nat) (keys : list str) : AM unit :=
  match keys with
  | [] => mret tt
  | k :: keys' =>
      _ ← run_machine k (AuthStateMachine.handle_timer now);
      w ← getS;
      if (length (state_machines w) =? size)%nat then timer_loop now size keys'
      else raise RuntimeError
  end.

Definition handle_sm_timeout (now : Z) : AM unit :=
  w ← getS;
  match state_machines w, _current_timeout w with
  | [], Some t =>
      if t =? 0 then mret tt
      else if t <? now then process_test_result None false else mret tt
  | _, _ => timer_loop now (length (state_machines w)) (dkeys (state_machines w))
  end.

(** [HeartbeatScheduler._periodic_task]: the exceptions of a callback are logged. *)
Definition _periodic_task (now : Z) (w : Authenticator) : Authenticator :=
  if timer_run w then fst (try_except (handle_sm_timeout now) (λ _, mret tt) w) else w.

(** ** Events *)

Inductive event :=
  | EapFrame (now : Z) (frame : bytes)
  | RadiusDatagram (now : Z) (datagram : bytes)
  | Heartbeat (now : Z)
  | EapSender
  | RadiusSender (urandom : bytes).

(** One iteration of [receive_eap_messages], with its callback. *)
Definition eap_frame (now : Z) (frame : bytes) : AM unit :=
  r ← on_eap (EapModule.receive_eap_message frame);
  match r with
  | Some (src, m, is_eapol) => received_eap_request now src m is_eapol
  | None => mret tt
  end.

(** One iteration of [receive_radius_messages], with its callback. *)
Definition radius_datagram (now : Z)
    (r : res (option (str * (option message * option bytes) * packet_type))) : AM unit :=
  x ← lift r;
  match x with
  | Some (src, attrs, t) => received_radius_response now src attrs t
  | None => mret tt
  end.

Definition is_running (t : thread) : bool := match t with Running => true | _ => false end.

Definition step (e : event) (w : Authenticator) : Authenticator :=
  match e with
  | EapFrame now frame =>
      if is_running (eap_receiver w) && negb (EapModule.shut_down (eap_module w)) then
        match eap_frame now frame w with
        | (w', Ok _) => w'
        | (w', Raise x) => set_threads (Dead x) (radius_receiver w') (radius_sender w') w'
        end
      else w
  | RadiusDatagram now datagram =>
      if is_running (radius_receiver w) && negb (RadiusModule.shut_down (radius_module w)) then
        match RadiusModule.receive_radius_message datagram (radius_module w) with
        | None => set_threads (eap_receiver w) Hung (radius_sender w) w
        | Some r =>
            match radius_datagram now r w with
            | (w', Ok _) => w'
            | (w', Raise x) => set_threads (eap_receiver w') (Dead x) (radius_sender w') w'
            end
        end
      else w
  | Heartbeat now => _periodic_task now w
  | EapSender => set_eap (EapModule.send_eap_messages (eap_module w)) w
  | RadiusSender urandom =>
      if is_running (radius_sender w) then
        match on_radius (RadiusModule.send_radius_messages urandom) w with
        | (w', Ok _) => w'
        | (w', Raise x) => set_threads (eap_receiver w') (radius_receiver w') (Dead x) w'
        end
      else w
  end.

Definition run (es : list event) (w : Authenticator) : Authenticator := foldl (λ w e, step e w) w es.

(** [run_authentication_test] after the threads ended: the text and the result. *)
Fixpoint result_text (l : dict str bool) : str :=
  match l with
  | [] => []
  | (src, ok) :: l' =>
      of_literal "Authentication for " ++ src ++ of_literal " "
      ++ of_literal (if (ok : bool) then "succeeded" else "failed") ++ of_literal "."
      ++ result_text l'
  end.

Inductive test_result := skip | pass | fail.

Definition run_authentication_test (w : Authenticator) : str * test_result :=
  match results w with
  | [] => (of_literal "Authentication failed. No EAPOL messages received.", skip)
  | l => (result_text l, if forallb snd l then pass else fail)
  end.

(** ** The invariant *)

(** The modules are shut down together. *)
Definition ended (w : Authenticator) : bool := RadiusModule.shut_down (radius_module w).

Record machine_ok (w : Authenticator) (src : str) (m : AuthStateMachine.AuthStateMachine) : Prop := {
  ok_live : AuthStateMachine.live m;
  ok_src : AuthStateMachine.src_mac m = src;
  ok_mac : ∃ a, MacAddress.mac_ok a ∧ src = MacAddress.to_str a;
  ok_max : AuthStateMachine._max_retry_count m = _max_retry_count w;
  ok_auth : AuthStateMachine.authentication_mac m =
              MacAddress.to_str (EapModule.eap_address (eap_module w));
  ok_known : EapModule.authenticator_mac (eap_module w) =
               Some (EapModule.eap_address (eap_module w));
  ok_open : dget src (results w) = None
}.

Record inv (w : Authenticator) : Prop := {
  inv_machines_wf : dict_wf (state_machines w);
  inv_machines : ∀ src m, dget src (state_machines w) = Some m → machine_ok w src m;
  inv_ended : EapModule.shut_down (eap_module w) = ended w;
  inv_timer : timer_run w = negb (ended w);
  inv_results : results w ≠ [] → ended w = true;
  inv_one : (length (results w) <= 1)%nat;
  inv_max : 0 ≤ _max_retry_count w;
  inv_address : MacAddress.mac_ok (EapModule.eap_address (eap_module w));
  inv_tables : RadiusModule.tables_ok (radius_module w)
}.

(** What queueing a packet leaves alone. *)
Definition radius_same (x y : RadiusModule.RadiusModule) : Prop :=
  RadiusModule.radius_secret y = RadiusModule.radius_secret x ∧
  RadiusModule.next_radius_id y = RadiusModule.next_radius_id x ∧
  RadiusModule.packet_id_to_request_authenticator y =
    RadiusModule.packet_id_to_request_authenticator x ∧
  RadiusModule.packet_id_to_mac y = RadiusModule.packet_id_to_mac x ∧
  RadiusModule.shut_down y = RadiusModule.shut_down x ∧
  RadiusModule.sent y = RadiusModule.sent x.

Record queued (w w' : Authenticator) : Prop := {
  q_machines : state_machines w' = state_machines w;
  q_results : results w' = results w;
  q_eap : EapModule.same_but_queue (eap_module w) (eap_module w');
  q_radius : radius_same (radius_module w) (radius_module w');
  q_idle : _idle_time w' = _idle_time w;
  q_max : _max_retry_count w' = _max_retry_count w;
  q_timeout : _current_timeout w' = _current_timeout w;
  q_timer : timer_run w' = timer_run w;
  q_threads : (eap_receiver w', radius_receiver w', radius_sender w') =
              (eap_receiver w, radius_receiver w, radius_sender w)
}.

#[global] Instance queued_refl : Reflexive queued.
Proof. intros w. by split. Qed.

Lemma same_but_queue_trans x y z :
  EapModule.same_but_queue x y → EapModule.same_but_queue y z → EapModule.same_but_queue x z.
Proof.
  intros (A1 & A2 & A3 & A4 & q1 & A5) (B1 & B2 & B3 & B4 & q2 & B5).
  split_and!; [congruence..|]. exists (q1 ++ q2). by rewrite B5, A5, app_assoc.
Qed.

Lemma radius_same_trans x y z : radius_same x y → radius_same y z → radius_same x z.
Proof. unfold radius_same. intros (?&?&?&?&?&?) (?&?&?&?&?&?). split_and!; congruence. Qed.

#[global] Instance queued_trans : Transitive queued.
Proof.
  intros x y z [] []. split; try congruence.
  - by eapply same_but_queue_trans.
  - by eapply radius_same_trans.
Qed.

(** Relaying only queues. *)
Lemma perform_relays a : AuthStateMachine.relays a → preserves queued (AuthStateMachine.perform a).
Proof.
  intros Ha w. destruct a as [src m|info|]; [| |done].
  - cbn [AuthStateMachine.perform AuthStateMachine.eap_send_callback callbacks].
    unfold send_eap_response, on_eap. destruct m as [x|].
    + pose proof (EapModule.send_eap_message_queue src x (eap_module w)) as H.
      destruct (EapModule.send_eap_message src x (eap_module w)). by split.
    + pose proof (EapModule.send_eapol_response_queue src (eap_module w)) as H.
      destruct (EapModule.send_eapol_response src (eap_module w)). by split.
  - by split.
Qed.

Lemma for_each_relays acts :
  Forall AuthStateMachine.relays acts → preserves queued (for_each acts AuthStateMachine.perform).
Proof.
  intros Ha. apply preserves_for_each; [apply _..|].
  intros a Hin. apply perform_relays. by eapply Forall_forall in Ha.
Qed.

Lemma radius_same_tables x y :
  radius_same x y → RadiusModule.tables_ok x → RadiusModule.tables_ok y.
Proof. intros (_ & H1 & H2 & H3 & _) [A B C D]. split; rewrite ?H1, ?H2, ?H3; done. Qed.

Lemma queued_inv w w' : queued w w' → inv w → inv w'.
Proof.
  intros [Q1 Q2 (Qe1 & Qe2 & Qe3 & Qe4 & _) Qr Q5 Q6 Q7 Q8 Q9] [I1 I2 I3 I4 I5 I6 I7 I8 I9].
  pose proof Qr as (_ & _ & _ & _ & Qs & _).
  assert (ended w' = ended w) as He by done.
  split; rewrite ?Q1, ?Q2, ?Qe1, ?Qe3, ?Q6, ?Q8, ?He; try done.
  - intros src m Hm. destruct (I2 src m Hm). split; try done; by rewrite ?Q6, ?Qe1, ?Qe2, ?Q2.
  - by eapply radius_same_tables.
Qed.

(** ** Ending *)

(** The authenticator with its timer stopped and its modules shut down. *)
Definition closed (w : Authenticator) : Authenticator :=
  set_eap (EapModule.shut_down_module (eap_module w))
    (set_radius (RadiusModule.put None (RadiusModule.set_shut_down (radius_module w)))
       (set_timer_run false w)).

Lemma end_authentication_eq w :
  ended w = false → _end_authentication w = (closed w, Ok tt).
Proof.
  intros He. unfold _end_authentication, on_radius, on_eap, RadiusModule.shut_down_module,
    mbind, M_bind, getS, modify, raise, mret, M_ret.
  cbn [radius_module set_timer_run]. unfold ended in He. by rewrite He.
Qed.

(** The world in which the machine of [src] has ended with result [b]. *)
Definition with_result (src : str) (b : bool) (w : Authenticator) : Authenticator :=
  closed (set_machines (ddel src (state_machines w)) (set_results (dset src b (results w)) w)).

Lemma process_test_result_eq src b m w :
  src ≠ [] → ended w = false → dget src (state_machines w) = Some m →
  process_test_result (Some src) b w = (with_result src b w, Ok tt).
Proof.
  intros Hs He Hm. unfold process_test_result, mbind, M_bind, getS, modify, lift.
  destruct src as [|c src]; [done|]. cbn [state_machines set_results].
  rewrite Hm. cbn [of_option]. apply end_authentication_eq. done.
Qed.

(** ** One handler of one machine *)

(** What a handler does to the authenticator. *)
Inductive effect (src : str)
    (h : M AuthStateMachine.AuthStateMachine (list AuthStateMachine.action))
    (w : Authenticator) : Authenticator * res unit → Prop :=
  | effect_missing :
      dget src (state_machines w) = None →
      effect src h w (w, Raise KeyError)
  | effect_relay m m' acts w' r :
      dget src (state_machines w) = Some m → h m = (m', Ok acts) →
      AuthStateMachine.live m' → AuthStateMachine.same_fixed m m' →
      Forall AuthStateMachine.relays acts →
      queued (set_machines (dset src m' (state_machines w)) w) w' →
      effect src h w (w', r)
  | effect_raise m m' e :
      dget src (state_machines w) = Some m → h m = (m', Raise e) →
      AuthStateMachine.live m' → AuthStateMachine.same_fixed m m' →
      effect src h w (set_machines (dset src m' (state_machines w)) w, Raise e)
  | effect_final m m' b msg w' r :
      dget src (state_machines w) = Some m →
      h m = (m', Ok [AuthStateMachine.AuthResult src b; AuthStateMachine.EapSend src msg]) →
      queued (with_result src b (set_machines (dset src m' (state_machines w)) w)) w' →
      effect src h w (w', r).

Lemma run_machine_effect src h w :
  inv w → ended w = false →
  (∀ m, AuthStateMachine.live m → AuthStateMachine.outcome m (h m)) →
  effect src h w (run_machine src h w).
Proof.
  intros Hinv He Hh. unfold run_machine, mbind, M_bind, getS, lift, modify.
  destruct (dget src (state_machines w)) as [m|] eqn:Hm; [|by apply effect_missing].
  cbn [of_option]. destruct (inv_machines w Hinv src m Hm) as [Hl Hsrc (a & Ha & Hsa) _ _ _ _].
  pose proof (Hh m Hl) as [Hf Ho]. destruct (h m) as [m' r] eqn:Ehm. cbn [fst snd] in Hf, Ho.
  set (w1 := set_machines (dset src m' (state_machines w)) w).
  destruct r as [acts|e]; [|by eapply effect_raise].
  destruct Ho as [[Hlive Hrel]|(b & msg & -> & Hst)].
  - pose proof (for_each_relays acts Hrel w1) as Hq.
    destruct (for_each acts AuthStateMachine.perform w1) as [w' r]. by eapply effect_relay.
  - rewrite Hsrc in Ehm |- *.
    cbn [for_each AuthStateMachine.perform AuthStateMachine.auth_callback
         AuthStateMachine.eap_send_callback callbacks]. unfold mbind, M_bind.
    rewrite (process_test_result_eq src b m' w1); [|rewrite Hsa; by apply MacAddress.to_str_nonempty|done|].
    + pose proof (perform_relays (AuthStateMachine.EapSend src msg) I (with_result src b w1)) as Hq.
      cbn [AuthStateMachine.perform AuthStateMachine.eap_send_callback callbacks] in Hq.
      destruct (send_eap_response src msg (with_result src b w1)) as [w2 [u|e]];
        by eapply effect_final.
    + unfold w1. cbn [state_machines set_machines]. apply dget_dset_eq.
Qed.

(** ** The invariant is kept *)

Lemma set_machine_inv w src m m' :
  inv w → dget src (state_machines w) = Some m → AuthStateMachine.live m' →
  AuthStateMachine.same_fixed m m' →
  inv (set_machines (dset src m' (state_machines w)) w).
Proof.
  intros [I1 I2 I3 I4 I5 I6 I7 I8 I9] Hm Hl (F1 & F2 & F3 & F4). split; try done.
  - by apply dict_wf_dset.
  - intros k x. cbn [state_machines set_machines]. rewrite dget_dset. case_decide as Hk.
    + intros [= <-]. subst k. destruct (I2 src m Hm) as [L1 L2 L3 L4 L5 L6 L7].
      split; [done|by rewrite F1|done|by rewrite F4|by rewrite F2|done|done].
    + intros Hx. by destruct (I2 k x Hx).
Qed.

Lemma closed_radius_tables x :
  RadiusModule.tables_ok x →
  RadiusModule.tables_ok (RadiusModule.put None (RadiusModule.set_shut_down x)).
Proof. by intros [A B C D]. Qed.

(** The result of [src] may be recorded whatever became of its machine. *)
Lemma with_result_inv w src b d :
  inv w → ended w = false → dict_wf d →
  (∀ k, k ≠ src → dget k d = dget k (state_machines w)) →
  inv (with_result src b (set_machines d w)).
Proof.
  intros [I1 I2 I3 I4 I5 I6 I7 I8 I9] He Hd Hk.
  assert (results w = []) as Hr by (destruct (results w); [done|by rewrite I5 in He]).
  assert (state_machines (with_result src b (set_machines d w)) = ddel src d) as Hm by done.
  assert (results (with_result src b (set_machines d w)) = dset src b (results w)) as Hres by done.
  split; try done.
  - rewrite Hm. by apply dict_wf_ddel.
  - intros k x Hx. rewrite Hm in Hx. destruct (decide (k = src)) as [->|Hne].
    { rewrite dget_ddel_eq in Hx by done. done. }
    rewrite dget_ddel_ne, Hk in Hx by done. destruct (I2 k x Hx). split; try done.
    rewrite Hres. by rewrite dget_dset_ne.
  - rewrite Hres, Hr. simpl. lia.
  - by apply (closed_radius_tables (radius_module w)).
Qed.

Lemma effect_inv src h w x :
  inv w → ended w = false → effect src h w x → inv x.1.
Proof.
  intros Hinv He Hx. destruct Hx as [|m m' acts w' r Hm Hh Hl Hf _ Hq|m m' e Hm Hh Hl Hf|
    m m' b msg w' r Hm Hh Hq]; cbn [fst].
  - done.
  - eapply queued_inv; [done|]. by eapply set_machine_inv.
  - by eapply set_machine_inv.
  - eapply queued_inv; [done|]. apply with_result_inv; [done|done|..].
    + apply dict_wf_dset, (inv_machines_wf w Hinv).
    + intros k Hk. by apply dget_dset_ne.
Qed.

(** The source of a parsed frame is a well-formed address. *)
Lemma eap_parse_src d s m : MessageParser.eap_parse d s = Ok m → message_src m = s.
Proof.
  unfold MessageParser.eap_parse. intros H. inv_res. by destruct a.
Qed.

Lemma one_x_parse_src d s m : MessageParser.one_x_parse d s = Ok m → message_src m = s.
Proof.
  unfold MessageParser.one_x_parse. destruct (Auth8021x.parse d) as [p|]; [|done]. simpl.
  destruct (Auth8021x.packet_type p =? 0); [apply eap_parse_src|].
  destruct (Auth8021x.packet_type p =? 1); [by intros [= <-]|].
  destruct (Auth8021x.packet_type p =? 2); [by intros [= <-]|done].
Qed.

Lemma ethernet_parse_src f m dst :
  bytes_ok f → MessageParser.ethernet_parse f = Ok (m, dst) →
  ∃ a, message_src m = SrcMac a ∧ MacAddress.mac_ok a.
Proof.
  intros Hok H. unfold MessageParser.ethernet_parse, EthernetPacket.parse in H.
  change EthernetPacket.ETHERNET_HEADER_LENGTH with 14%nat in H.
  unfold unpack_6s6sH in H. destruct (Nat.eqb_spec (length (take 14 f)) 14) as [Hl|]; [|done].
  destruct (drop 12 (take 14 f)) as [|c [|d [|]]] eqn:Hd; try done. cbn in H.
  destruct (_ =? 34958) in H; [|done]. cbn in H.
  destruct (MessageParser.one_x_parse _ _) as [m'|] eqn:E in H; [|done].
  injection H as <- _. apply one_x_parse_src in E.
  eexists. split; [exact E|].
  split; [|by apply Forall_take, Forall_drop, Forall_take].
  rewrite length_take, length_drop, Hl. done.
Qed.

(** What the receiving loop hands to the authenticator. *)
Lemma receive_eap_message_spec f x y r :
  bytes_ok f → EapModule.receive_eap_message f x = (y, r) →
  (r = Ok None ∧ y = x) ∨
  ∃ a m, MacAddress.mac_ok a ∧ message_src m = SrcMac a ∧
    r = Ok (Some (MacAddress.to_str a, m, is_eapol_start m)) ∧
    y = if is_eapol_start m
        then EapModule.set_authenticator_mac (Some (EapModule.eap_address x)) x else x.
Proof.
  intros Hok. unfold EapModule.receive_eap_message.
  destruct f as [|b f]; [intros [= <- <-]; by left|].
  destruct (MessageParser.ethernet_parse (b :: f)) as [[m dst]|e] eqn:He.
  - destruct (ethernet_parse_src _ _ _ Hok He) as (a & Hsrc & Ha).
    unfold mbind, M_bind, getS, whenM, modify, mret, M_ret. rewrite Hsrc.
    intros H. right. exists a, m. destruct (is_eapol_start m); by injection H as <- <-.
  - destruct (ethernet_parse_cases (b :: f)) as [(m & dst & Hm)|Hm]; [congruence|].
    rewrite Hm in He. injection He as <-. intros [= <- <-]. by left.
Qed.

Lemma add_machine_inv w src m d :
  inv w → dict_wf d → dget src d = Some m →
  (∀ k, k ≠ src → dget k d = dget k (state_machines w)) → machine_ok w src m →
  inv (set_machines d w).
Proof.
  intros [I1 I2 I3 I4 I5 I6 I7 I8 I9] Hd Hm Hk Hok. split; try done.
  intros k x Hx. cbn [state_machines set_machines] in Hx. destruct (decide (k = src)) as [->|Hne].
  - rewrite Hm in Hx. injection Hx as <-. by destruct Hok.
  - rewrite Hk in Hx by done. by destruct (I2 k x Hx).
Qed.

(** A first EAPOL start creates a live machine and queues the identity request. *)
Lemma eapol_start_effect now a m w :
  inv w → ended w = false → MacAddress.mac_ok a →
  EapModule.authenticator_mac (eap_module w) = Some (EapModule.eap_address (eap_module w)) →
  dget (MacAddress.to_str a) (state_machines w) = None →
  dget (MacAddress.to_str a) (results w) = None →
  ∃ sm w', fst (received_eap_request now (MacAddress.to_str a) m true w) = w' ∧
    machine_ok w (MacAddress.to_str a) sm ∧
    AuthStateMachine.state sm = Some AuthStateMachine.SUPPLICANT ∧
    ∃ d, dict_wf d ∧ dget (MacAddress.to_str a) d = Some sm ∧
      (∀ k, k ≠ MacAddress.to_str a → dget k d = dget k (state_machines w)) ∧
      queued (set_machines d w) w'.
Proof.
  intros Hinv He Ha Hauth Hnm Hnr. set (src := MacAddress.to_str a) in *.
  unfold received_eap_request, mbind, M_bind, getS.
  rewrite (proj2 (dmem_false src (state_machines w)) Hnm), (proj2 (dmem_false src (results w)) Hnr).
  cbn [orb negb].
  destruct (AuthStateMachine.new_machine_started now src (EapModule.get_auth_mac (eap_module w))
    (_idle_time w) (_max_retry_count w) (inv_max w Hinv)) as (m0 & sm & Hi & Hst & Hl & Hs & Hss & Hau).
  rewrite Hi. unfold lift, modify, run_machine, mbind, M_bind, getS. cbn [of_option].
  set (w1 := set_machines (dset src m0 (state_machines w)) w).
  assert (dget src (state_machines w1) = Some m0) as -> by (unfold w1; simpl; by rewrite dget_dset_eq).
  unfold lift, modify. cbn [of_option]. rewrite Hst.
  set (d := dset src sm (state_machines w1)).
  eexists sm, _. split; [reflexivity|]. split; [|split; [done|]].
  - split; try done; [by exists a| |].
    + transitivity (_max_retry_count w); [|done].
      pose proof (AuthStateMachine.new_machine_max now src (EapModule.get_auth_mac (eap_module w))
        (_idle_time w) (_max_retry_count w)) as Hmx.
      rewrite Hi in Hmx. cbn [fst] in Hmx. rewrite Hst in Hmx. exact Hmx.
    + rewrite Hau. unfold EapModule.get_auth_mac. by rewrite Hauth.
  - exists d. split_and!.
    + by repeat apply dict_wf_dset; apply (inv_machines_wf w Hinv).
    + apply dget_dset_eq.
    + intros k Hk. unfold d, w1. simpl. by rewrite !dget_dset_ne.
    + apply (for_each_relays [AuthStateMachine.EapSend src None]). by repeat constructor.
Qed.

(** The frame may have set the address of the authenticator. *)
Lemma learn_auth_mac_inv w :
  inv w → inv (set_eap (EapModule.set_authenticator_mac
                  (Some (EapModule.eap_address (eap_module w))) (eap_module w)) w).
Proof.
  intros [I1 I2 I3 I4 I5 I6 I7 I8 I9]. split; try done.
  intros src m Hm. by destruct (I2 src m Hm).
Qed.

Lemma set_eap_same w : set_eap (eap_module w) w = w.
Proof. by destruct w. Qed.

Lemma received_eap_request_inv now a m b w :
  inv w → ended w = false → MacAddress.mac_ok a →
  (b = true → EapModule.authenticator_mac (eap_module w) =
              Some (EapModule.eap_address (eap_module w))) →
  inv (fst (received_eap_request now (MacAddress.to_str a) m b w)).
Proof.
  intros Hinv He Ha Hb. destruct b.
  - destruct (dmem (MacAddress.to_str a) (state_machines w) ||
              dmem (MacAddress.to_str a) (results w)) eqn:Hmem.
    { unfold received_eap_request, mbind, M_bind, getS. by rewrite Hmem. }
    apply orb_false_iff in Hmem as [Hm Hr]. apply dmem_false in Hm, Hr.
    destruct (eapol_start_effect now a m w Hinv He Ha (Hb eq_refl) Hm Hr)
      as (sm & w' & -> & Hok & _ & d & Hd & Hdm & Hk & Hq).
    eapply queued_inv; [done|]. by eapply add_machine_inv.
  - unfold received_eap_request. eapply (effect_inv _ _ _ _ Hinv He), run_machine_effect; [done..|].
    intros x. apply AuthStateMachine.received_eap_request_outcome.
Qed.

Lemma eap_frame_inv now f w :
  inv w → ended w = false → bytes_ok f → inv (fst (eap_frame now f w)).
Proof.
  intros Hinv He Hok. unfold eap_frame, on_eap, mbind, M_bind.
  destruct (EapModule.receive_eap_message f (eap_module w)) as [y r] eqn:Hrcv.
  destruct (receive_eap_message_spec f _ _ _ Hok Hrcv) as
    [[-> ->]|(a & m & Ha & Hsrc & -> & Hy)]; [by rewrite set_eap_same|].
  destruct (is_eapol_start m); rewrite Hy.
  - apply received_eap_request_inv; [by apply learn_auth_mac_inv|done|done|done].
  - rewrite set_eap_same. by apply received_eap_request_inv.
Qed.

Lemma radius_datagram_inv now r w :
  inv w → ended w = false → inv (fst (radius_datagram now r w)).
Proof.
  intros Hinv He. unfold radius_datagram, mbind, M_bind, lift.
  destruct r as [[[[src [em st]] t]|]|]; [|done..].
  eapply (effect_inv _ _ _ _ Hinv He), run_machine_effect; [done..|].
  intros x. apply AuthStateMachine.received_radius_response_outcome.
Qed.

(** Handling the timers ends the authentication at most once: the loop stops
    when a machine has been removed. *)
Lemma timer_loop_inv now size keys w :
  inv w → ended w = false → length (state_machines w) = size →
  Forall (λ k, is_Some (dget k (state_machines w))) keys →
  inv (fst (timer_loop now size keys w)).
Proof.
  revert w. induction keys as [|k keys IH]; intros w Hinv He Hsz Hkeys; [done|].
  apply Forall_cons in Hkeys as [[m0 Hm0] Hkeys].
  cbn [timer_loop]. unfold mbind at 1, M_bind at 1.
  pose proof (run_machine_effect k (AuthStateMachine.handle_timer now) w Hinv He
    (λ m, AuthStateMachine.handle_timer_outcome now m)) as Heff.
  pose proof (effect_inv _ _ _ _ Hinv He Heff) as Hinv'.
  destruct (run_machine k (AuthStateMachine.handle_timer now) w) as [w' [u|e]]; [|done].
  cbn [fst] in Hinv'. unfold mbind, M_bind, getS.
  destruct (Nat.eqb_spec (length (state_machines w')) size) as [Hl|]; [|done].
  inversion Heff as [Hn|m m' acts x r Hm Hh Hlv Hf Hrel Hq|m m' x Hm Hh Hlv Hf|
    m m' b msg x r Hm Hh Hq]; subst.
  - apply IH; [done| |done|].
    + destruct Hq as [_ _ _ (_ & _ & _ & _ & Hs & _) _ _ _ _ _]. unfold ended. by rewrite Hs.
    + eapply Forall_impl; [exact Hkeys|]. intros k' Hk'. cbv beta.
      rewrite (q_machines _ _ Hq). cbn [state_machines set_machines]. rewrite dget_dset.
      case_decide; [by eexists|done].
  - exfalso. rewrite (q_machines _ _ Hq) in Hl.
    change (state_machines (with_result k b (set_machines (dset k m' (state_machines w)) w)))
      with (ddel k (dset k m' (state_machines w))) in Hl.
    pose proof (length_ddel k (dset k m' (state_machines w)) m' ltac:(apply dget_dset_eq)).
    pose proof (length_dset k m' (state_machines w) m Hm). lia.
Qed.

Lemma closed_inv w :
  inv w → ended w = false → state_machines w = [] → inv (closed w).
Proof.
  intros [I1 I2 I3 I4 I5 I6 I7 I8 I9] He Hm. split; try done.
  - intros src m Hx. change (state_machines (closed w)) with (state_machines w) in Hx.
    by rewrite Hm in Hx.
  - by apply (closed_radius_tables (radius_module w)).
Qed.

Lemma dkeys_is_Some {K V} `{EqDecision K} (d : dict K V) :
  Forall (λ k, is_Some (dget k d)) (dkeys d).
Proof.
  apply Forall_forall. intros k Hk. destruct (dget k d) eqn:E; [by eexists|].
  by apply dget_None in E.
Qed.

Lemma heartbeat_inv now w : inv w → inv (_periodic_task now w).
Proof.
  intros Hinv. unfold _periodic_task. destruct (timer_run w) eqn:Ht; [|done].
  assert (ended w = false) as He.
  { pose proof (inv_timer w Hinv). destruct (ended w); [by rewrite Ht in *|done]. }
  assert (∀ x : Authenticator * res unit, fst (match x with (s', Ok a) => (s', Ok a)
    | (s', Raise e) => (s', Ok tt) end) = fst x) as Hfst by (by intros [s [|]]).
  unfold try_except. rewrite <- (Hfst _).
  enough (inv (fst (handle_sm_timeout now w))) as H.
  { destruct (handle_sm_timeout now w) as [w' [|]]; done. }
  unfold handle_sm_timeout, mbind, M_bind, getS.
  destruct (state_machines w) as [|p d] eqn:Hm.
  - destruct (_current_timeout w) as [t|]; [|done].
    destruct (t =? 0); [done|]. destruct (t <? now); [|done].
    change (process_test_result None false w) with (_end_authentication w).
    rewrite end_authentication_eq by done. by apply closed_inv.
  - rewrite <- Hm. apply timer_loop_inv; [done|done|done|apply dkeys_is_Some].
Qed.

(** What the environment may deliver: bytes, and 16 random bytes. *)
Definition event_ok (e : event) : Prop :=
  match e with
  | EapFrame _ frame => bytes_ok frame
  | RadiusDatagram _ datagram => bytes_ok datagram
  | RadiusSender urandom => length urandom = 16%nat
  | Heartbeat _ | EapSender => True
  end.

Lemma set_threads_inv e r s w : inv w → inv (set_threads e r s w).
Proof.
  intros [I1 I2 I3 I4 I5 I6 I7 I8 I9]. split; try done.
  intros src m Hm. by destruct (I2 src m Hm).
Qed.

(** Sending changes the queue of a module and what it sent. *)
Lemma eap_sender_inv w : inv w → inv (set_eap (EapModule.send_eap_messages (eap_module w)) w).
Proof.
  intros Hinv. pose proof Hinv as [I1 I2 I3 I4 I5 I6 I7 I8 I9]. unfold EapModule.send_eap_messages.
  destruct (EapModule.shut_down (eap_module w)) eqn:Hs; [by rewrite set_eap_same|].
  destruct (EapModule.outbound_message_queue (eap_module w)); [by rewrite set_eap_same|].
  split; try done. intros src m Hm. by destruct (I2 src m Hm).
Qed.

Lemma set_radius_inv x w :
  inv w → RadiusModule.shut_down x = ended w → RadiusModule.tables_ok x → inv (set_radius x w).
Proof.
  intros [I1 I2 I3 I4 I5 I6 I7 I8 I9] Hx Ht.
  assert (ended (set_radius x w) = ended w) as He by done.
  split; rewrite ?He; try done. intros src m Hm. by destruct (I2 src m Hm).
Qed.

Lemma send_radius_spec urandom x :
  RadiusModule.tables_ok x → urandom ≠ [] →
  let y := fst (RadiusModule.send_radius_messages urandom x) in
  RadiusModule.shut_down y = RadiusModule.shut_down x ∧ RadiusModule.tables_ok y ∧
  RadiusModule.radius_secret y = RadiusModule.radius_secret x ∧
  (RadiusModule.shut_down x = true → y = x).
Proof.
  intros Ht Hu. unfold RadiusModule.send_radius_messages, mbind, M_bind, getS, modify.
  destruct (RadiusModule.shut_down x) eqn:Hs; [done|].
  destruct (RadiusModule.outbound_message_queue x) as [|[info|] q]; [done| |].
  - set (x1 := RadiusModule.set_queue q x).
    assert (RadiusModule.tables_ok x1) as Ht1 by (destruct Ht; by split).
    pose proof (RadiusModule.encode_tables info urandom x1 Hu Ht1) as Ht2.
    destruct (RadiusModule.encode_state info urandom x1) as (_ & _ & _ & Hsec & _ & _ & Hsd & _).
    destruct (RadiusModule._encode_radius_response info urandom x1) as [y [b|e]]; cbn [fst] in *;
      (split_and!; [by transitivity (RadiusModule.shut_down x1); [exact Hsd|exact Hs]
                   |destruct Ht2; by split|exact Hsec|done]).
  - split_and!; try done. destruct Ht; by split.
Qed.

Lemma step_inv e w : event_ok e → inv w → inv (step e w).
Proof.
  intros He Hinv. pose proof (inv_ended w Hinv) as Hend. destruct e; cbn [step].
  - destruct (is_running _ && _) eqn:Hr; [|done]. apply andb_true_iff in Hr as [_ Hr].
    apply negb_true_iff in Hr. rewrite Hend in Hr.
    pose proof (eap_frame_inv now frame w Hinv Hr He) as H.
    destruct (eap_frame now frame w) as [w' [|]]; [done|by apply set_threads_inv].
  - destruct (is_running _ && _) eqn:Hr; [|done]. apply andb_true_iff in Hr as [_ Hr].
    apply negb_true_iff in Hr.
    destruct (RadiusModule.receive_radius_message _ _) as [r|]; [|by apply set_threads_inv].
    pose proof (radius_datagram_inv now r w Hinv Hr) as H.
    destruct (radius_datagram now r w) as [w' [|]]; [done|by apply set_threads_inv].
  - by apply heartbeat_inv.
  - by apply eap_sender_inv.
  - destruct (is_running _); [|done]. unfold on_radius.
    destruct (send_radius_spec urandom (radius_module w) (inv_tables w Hinv)) as (Hs & Ht & _);
      [intros ->; by simpl in He|].
    destruct (RadiusModule.send_radius_messages urandom (radius_module w)) as [y [|]];
      cbn [fst] in *; [|apply set_threads_inv]; by apply set_radius_inv.
Qed.

Lemma init_inv now addr secret id : MacAddress.mac_ok addr → inv (init now addr secret id).
Proof.
  intros Ha. split; try done; simpl; [apply NoDup_nil_2|lia].
Qed.

Lemma run_inv es w : Forall event_ok es → inv w → inv (run es w).
Proof.
  intros He. revert w. induction He as [|e es He _ IH]; intros w Hw; [done|].
  apply IH. by apply step_inv.
Qed.

(** Once the authentication has ended nothing moves. *)
Lemma step_ended e w :
  event_ok e → inv w → ended w = true →
  ended (step e w) = true ∧ results (step e w) = results w ∧
  state_machines (step e w) = state_machines w ∧
  EapModule.sent (eap_module (step e w)) = EapModule.sent (eap_module w) ∧
  RadiusModule.sent (radius_module (step e w)) = RadiusModule.sent (radius_module w).
Proof.
  intros Hok Hinv He. pose proof (inv_ended w Hinv) as Hend. rewrite He in Hend.
  pose proof (inv_timer w Hinv) as Ht. rewrite He in Ht.
  destruct e; cbn [step].
  - by rewrite Hend, andb_false_r.
  - unfold ended in He. by rewrite He, andb_false_r.
  - unfold _periodic_task. by rewrite Ht.
  - unfold EapModule.send_eap_messages. by rewrite Hend, set_eap_same.
  - destruct (is_running _); [|done]. unfold on_radius.
    destruct (send_radius_spec urandom (radius_module w) (inv_tables w Hinv)) as (_ & _ & _ & Hy);
      [intros ->; by simpl in Hok|]. specialize (Hy He).
    destruct (RadiusModule.send_radius_messages urandom (radius_module w)) as [y [|]];
      cbn [fst] in Hy; subst; done.
Qed.

Lemma run_ended es w :
  Forall event_ok es → inv w → ended w = true →
  results (run es w) = results w ∧
  EapModule.sent (eap_module (run es w)) = EapModule.sent (eap_module w) ∧
  RadiusModule.sent (radius_module (run es w)) = RadiusModule.sent (radius_module w).
Proof.
  intros Hes. revert w. induction Hes as [|e es He Hes IH]; intros w Hinv Hend; [done|].
  destruct (step_ended e w He Hinv Hend) as (H1 & H2 & _ & H4 & H5).
  destruct (IH (step e w) (step_inv e w He Hinv) H1) as (A & B & C).
  cbn [run foldl]. fold (run es (step e w)). by rewrite A, B, C.
Qed.

(** ** Where results come from *)

Lemma effect_results src h w x :
  effect src h w x →
  results x.1 = results w ∨
  ∃ m m' b msg, dget src (state_machines w) = Some m ∧
    h m = (m', Ok [AuthStateMachine.AuthResult src b; AuthStateMachine.EapSend src msg]) ∧
    results x.1 = dset src b (results w).
Proof.
  intros [|m m' acts w' r Hm Hh Hl Hf Hr Hq| |m m' b msg w' r Hm Hh Hq]; cbn [fst];
    [by left|left|by left|right].
  - by rewrite (q_results _ _ Hq).
  - exists m, m', b, msg. split_and!; [done|done|]. by rewrite (q_results _ _ Hq).
Qed.

Lemma eap_request_no_result now e m m' src b msg :
  AuthStateMachine.received_eap_request now e m ≠
  (m', Ok [AuthStateMachine.AuthResult src b; AuthStateMachine.EapSend src msg]).
Proof.
  rewrite AuthStateMachine.received_eap_request_eq. cbv zeta.
  destruct (bool_decide _); [|done]. by destruct (port_id_to_int _).
Qed.

Lemma timer_result_false now m m' src b msg :
  AuthStateMachine.live m →
  AuthStateMachine.handle_timer now m =
    (m', Ok [AuthStateMachine.AuthResult src b; AuthStateMachine.EapSend src msg]) → b = false.
Proof.
  intros Hl. destruct (AuthStateMachine.handle_timer_eq now m Hl)
    as (t & a & n & _ & _ & _ & ->).
  destruct (negb _ && _); [|done]. destruct (n <? _); [done|]. by intros [= _ _ <-].
Qed.

Lemma eap_frame_results now f w :
  inv w → ended w = false → bytes_ok f → results (fst (eap_frame now f w)) = results w.
Proof.
  intros Hinv He Hok. unfold eap_frame, on_eap, mbind, M_bind.
  destruct (EapModule.receive_eap_message f (eap_module w)) as [y r] eqn:Hrcv.
  destruct (receive_eap_message_spec f _ _ _ Hok Hrcv) as
    [[-> ->]|(a & m & Ha & Hsrc & -> & Hy)]; [by rewrite set_eap_same|].
  destruct (is_eapol_start m); rewrite Hy.
  - set (w1 := set_eap _ w).
    assert (inv w1) as Hinv1 by (by apply learn_auth_mac_inv).
    destruct (dmem (MacAddress.to_str a) (state_machines w1) ||
              dmem (MacAddress.to_str a) (results w1)) eqn:Hmem.
    { unfold received_eap_request, mbind, M_bind, getS. by rewrite Hmem. }
    apply orb_false_iff in Hmem as [Hm Hr]. apply dmem_false in Hm, Hr.
    destruct (eapol_start_effect now a m w1 Hinv1 He Ha eq_refl Hm Hr)
      as (sm & w' & -> & Hok' & _ & d & Hd & Hdm & Hk & Hq).
    by rewrite (q_results _ _ Hq).
  - rewrite set_eap_same. unfold received_eap_request.
    destruct (effect_results _ _ _ _ (run_machine_effect (MacAddress.to_str a) _ w Hinv He
      (λ x, AuthStateMachine.received_eap_request_outcome now m x)))
      as [->|(x & x' & b & msg & _ & Hh & _)]; [done|].
    by apply eap_request_no_result in Hh.
Qed.

Lemma timer_loop_true now size keys w k :
  inv w → ended w = false → length (state_machines w) = size →
  dget k (results (fst (timer_loop now size keys w))) = Some true →
  dget k (results w) = Some true.
Proof.
  revert w. induction keys as [|src keys IH]; intros w Hinv He Hsz; [done|].
  cbn [timer_loop]. unfold mbind at 1, M_bind at 1.
  pose proof (run_machine_effect src (AuthStateMachine.handle_timer now) w Hinv He
    (λ m, AuthStateMachine.handle_timer_outcome now m)) as Heff.
  pose proof (effect_inv _ _ _ _ Hinv He Heff) as Hinv'.
  assert (dget k (results (fst (run_machine src (AuthStateMachine.handle_timer now) w))) = Some true
    → dget k (results w) = Some true) as Hone.
  { destruct (effect_results _ _ _ _ Heff) as [->|(m & m' & b & msg & Hm & Hh & ->)]; [done|].
    apply timer_result_false in Hh; [|by apply (inv_machines w Hinv src m)].
    rewrite dget_dset. case_decide; [|done]. subst. by intros [=]. }
  destruct (run_machine src (AuthStateMachine.handle_timer now) w) as [w' [u|e]]; [|done].
  cbn [fst] in Hinv', Hone. unfold mbind, M_bind, getS.
  destruct (Nat.eqb_spec (length (state_machines w')) size) as [Hl|]; [|done].
  intros Ht. apply Hone. revert Ht. apply IH; [done| |done].
  inversion Heff as [Hn|m m' acts x r Hm Hh Hlv Hf Hrel Hq|m m' x Hm Hh Hlv Hf|
    m m' b msg x r Hm Hh Hq]; subst.
  - destruct Hq as [_ _ _ (_ & _ & _ & _ & Hs & _) _ _ _ _ _]. unfold ended. by rewrite Hs.
  - exfalso. rewrite (q_machines _ _ Hq) in Hl.
    change (state_machines (with_result src b (set_machines (dset src m' (state_machines w)) w)))
      with (ddel src (dset src m' (state_machines w))) in Hl.
    pose proof (length_ddel src (dset src m' (state_machines w)) m' ltac:(apply dget_dset_eq)).
    pose proof (length_dset src m' (state_machines w) m Hm). lia.
Qed.

Lemma heartbeat_true now w k :
  inv w → dget k (results (_periodic_task now w)) = Some true → dget k (results w) = Some true.
Proof.
  intros Hinv. unfold _periodic_task. destruct (timer_run w) eqn:Ht; [|done].
  assert (ended w = false) as He.
  { pose proof (inv_timer w Hinv). destruct (ended w); [by rewrite Ht in *|done]. }
  unfold try_except.
  enough (dget k (results (fst (handle_sm_timeout now w))) = Some true →
    dget k (results w) = Some true) as H.
  { destruct (handle_sm_timeout now w) as [w' [|]]; done. }
  unfold handle_sm_timeout, mbind, M_bind, getS.
  destruct (state_machines w) as [|p d] eqn:Hm.
  - destruct (_current_timeout w) as [t|]; [|done].
    destruct (t =? 0); [done|]. destruct (t <? now); [|done].
    change (process_test_result None false w) with (_end_authentication w).
    by rewrite end_authentication_eq.
  - rewrite <- Hm. by apply timer_loop_true.
Qed.

Lemma radius_result_inv now e st t m m' src b msg :
  AuthStateMachine.received_radius_response now e st t m =
    (m', Ok [AuthStateMachine.AuthResult src b; AuthStateMachine.EapSend src msg]) →
  AuthStateMachine.state m = Some AuthStateMachine.RADIUS ∧
  t = if b then RadiusAccessAccept else RadiusAccessReject.
Proof.
  rewrite AuthStateMachine.received_radius_response_eq. cbv zeta.
  case_bool_decide; [|done]. destruct t; try done; by intros [= _ _ <-].
Qed.

(** An Access-Accept handed to the callback was validated, and its id is that of
    a request for the supplicant. *)
Lemma receive_accept datagram x k attrs :
  RadiusModule.receive_radius_message datagram x = Some (Ok (Some (k, attrs, RadiusAccessAccept))) →
  ∃ p port, Radius.parse datagram (RadiusModule.radius_secret x)
      (RadiusModule.packet_id_to_request_authenticator x) = Some (Ok p) ∧
    Radius.CODE p = Radius.ACCESS_ACCEPT ∧
    dget (Radius.packet_id p) (RadiusModule.packet_id_to_mac x) = Some (k, port).
Proof.
  unfold RadiusModule.receive_radius_message. intros (r & Hp & Hr)%bind_Some.
  injection Hr as Hr. destruct r as [p|[]]; try done.
  destruct (RadiusModule.collect None None (Radius.attributes p)) as [a|]; [|done].
  cbn [mbind res_bind] in Hr.
  destruct (dget (Radius.packet_id p) _) as [[mac port]|] eqn:Hmac; [|done].
  cbn in Hr. injection Hr as -> _ Hcode. exists p, port. split_and!; try done.
  unfold packet_type_of in Hcode.
  destruct (Z.eqb_spec (Radius.CODE p) Radius.ACCESS_ACCEPT); [done|]. by repeat case_match.
Qed.

(** ** Timeouts *)

(** One heartbeat when one machine is waiting and its timeout has passed: a
    retry while there are any left, and the end after the last. *)
Lemma heartbeat_single now w src m t n :
  inv w → ended w = false → state_machines w = [(src, m)] →
  AuthStateMachine._current_timeout m = Some t → 0 < t → t < now →
  AuthStateMachine._current_retries m = Some n →
  let w' := _periodic_task now w in
  if n <? AuthStateMachine._max_retry_count m then
    ∃ m', state_machines w' = [(src, m')] ∧ ended w' = false ∧ results w' = results w ∧
      AuthStateMachine.same_fixed m m' ∧
      AuthStateMachine._current_timeout m' = Some (now + AuthStateMachine._idle_time m) ∧
      AuthStateMachine._current_retries m' = Some (n + 1)
  else results w' = [(src, false)] ∧ ended w' = true.
Proof.
  intros Hinv He Hms Ht H0 Hlt Hn w'.
  assert (dget src (state_machines w) = Some m) as Hm by (rewrite Hms; simpl; by rewrite decide_True).
  pose proof (inv_machines w Hinv src m Hm) as [Hl _ _ _ _ _ _].
  destruct (AuthStateMachine.handle_timer_eq now m Hl) as (t' & a & n' & Ht' & _ & Hn' & Heq).
  rewrite Ht in Ht'. injection Ht' as <-. rewrite Hn in Hn'. injection Hn' as <-.
  assert (negb (t =? 0) && (t <? now) = true) as Hexp.
  { destruct (Z.eqb_spec t 0), (Z.ltb_spec t now); simpl; lia. }
  rewrite Hexp in Heq.
  assert (w' = fst (run_machine src (AuthStateMachine.handle_timer now) w)) as ->.
  { unfold w', _periodic_task. rewrite (inv_timer w Hinv), He. cbn [negb].
    unfold try_except, handle_sm_timeout, mbind, M_bind, getS. rewrite Hms.
    cbn [length dkeys fmap list_fmap timer_loop fst].
    unfold mbind, M_bind, getS. destruct (run_machine src _ w) as [x [u|e]]; [|done].
    by destruct (length (state_machines x) =? 1)%nat. }
  pose proof (run_machine_effect src (AuthStateMachine.handle_timer now) w Hinv He
    (λ m, AuthStateMachine.handle_timer_outcome now m)) as Heff.
  assert (results w = []) as Hres.
  { pose proof (inv_results w Hinv) as Hr. destruct (results w); [done|].
    by rewrite Hr in He. }
  destruct Heff as [Hx|x x' acts w2 r Hx Hh _ Hf Hrel Hq|x x' e Hx Hh _ _|x x' b msg w2 r Hx Hh Hq];
    rewrite Hx in Hm; try done; injection Hm as ->; rewrite Heq in Hh;
    destruct (n <? AuthStateMachine._max_retry_count m); try done; cbn [fst].
  - injection Hh as <- <-. eexists. split_and!.
    + rewrite (q_machines _ _ Hq). cbn [state_machines set_machines]. rewrite Hms. simpl.
      by rewrite decide_True.
    + destruct Hq as [_ _ _ (_ & _ & _ & _ & Hs & _) _ _ _ _ _]. unfold ended. by rewrite Hs.
    + by rewrite (q_results _ _ Hq).
    + done.
    + done.
    + done.
  - injection Hh as _ <-. by apply Forall_cons in Hrel as [? _].
  - injection Hh as _ _ <- _. rewrite (q_results _ _ Hq). cbn. rewrite Hres. split; [done|].
    destruct Hq as [_ _ _ (_ & _ & _ & _ & Hs & _) _ _ _ _ _]. unfold ended. by rewrite Hs.
Qed.

(** Heartbeats that each find the timeout set at the previous one expired. *)
Fixpoint spaced (idle t : Z) (ts : list Z) : Prop :=
  match ts with
  | [] => True
  | now :: ts' => t < now ∧ spaced idle (now + idle) ts'
  end.

Lemma timeouts_end ts w src m t n :
  inv w → ended w = false → state_machines w = [(src, m)] →
  AuthStateMachine._current_timeout m = Some t → 0 < t → 0 ≤ AuthStateMachine._idle_time m →
  AuthStateMachine._current_retries m = Some n →
  spaced (AuthStateMachine._idle_time m) t ts →
  length ts = S (Z.to_nat (AuthStateMachine._max_retry_count m - n)) →
  results (run (Heartbeat <$> ts) w) = [(src, false)].
Proof.
  revert w m t n. induction ts as [|now ts IH]; intros w m t n Hinv He Hms Ht H0 Hidle Hn Hsp Hlen;
    [done|].
  destruct Hsp as [Hlt Hsp]. cbn [fmap list_fmap run foldl step].
  pose proof (heartbeat_single now w src m t n Hinv He Hms Ht H0 Hlt Hn) as Hone. cbv zeta in Hone.
  pose proof (heartbeat_inv now w Hinv) as Hinv'.
  simpl in Hlen. injection Hlen as Hlen.
  destruct (Z.ltb_spec n (AuthStateMachine._max_retry_count m)) as [Hr|Hr].
  - destruct Hone as (m' & Hms' & He' & _ & (_ & _ & Hi & Hmx) & Ht' & Hn').
    apply (IH _ m' (now + AuthStateMachine._idle_time m) (n + 1)); rewrite ?Hi, ?Hmx; try done;
      lia.
  - destruct Hone as [Hres _]. replace (Z.to_nat _) with 0%nat in Hlen by lia.
    by destruct ts.
Qed.

(** ** Relaying *)

Lemma run_machine_ok src h w m m' a :
  dget src (state_machines w) = Some m → h m = (m', Ok [a]) →
  run_machine src h w =
  AuthStateMachine.perform a (set_machines (dset src m' (state_machines w)) w).
Proof.
  intros Hm Hh. unfold run_machine, mbind, M_bind, getS, lift, modify. rewrite Hm.
  cbn [of_option]. rewrite Hh. cbn [for_each]. unfold mbind, M_bind, mret, M_ret.
  by destruct (AuthStateMachine.perform a _) as [x [[]|]].
Qed.

(** A message for the supplicant of a known machine is queued as its frame. *)
Lemma perform_eap_send src a msg b w :
  src = MacAddress.to_str a → MacAddress.mac_ok a →
  EapModule.authenticator_mac (eap_module w) = Some (EapModule.eap_address (eap_module w)) →
  MessagePacker.ethernet_pack msg (Some (EapModule.eap_address (eap_module w))) (Some a) = Ok b →
  AuthStateMachine.perform (AuthStateMachine.EapSend src (Some msg)) w =
  (set_eap (EapModule.put (Some b) (eap_module w)) w, Ok tt).
Proof.
  intros -> Ha Hk Hb. cbn [AuthStateMachine.perform AuthStateMachine.eap_send_callback callbacks
    send_eap_response]. unfold on_eap.
  by rewrite (EapModule.send_eap_message_frame a msg _ b _ Ha Hk Hb).
Qed.

(** ** A complete exchange, the concrete run of the examples *)

Definition demo_supplicant : bytes := [2; 66; 172; 23; 0; 111].
Definition demo_authenticator : bytes := [2; 66; 172; 24; 0; 112].
Definition demo_init : Authenticator :=
  init 0 demo_authenticator (of_literal "SECRET") (of_literal "02:42:ac:18:00:70").
Definition demo_frame (eapol : bytes) : bytes :=
  demo_authenticator ++ demo_supplicant ++ [0x88; 0x8e] ++ eapol.
Definition demo_start : bytes := demo_frame [1; 1; 0; 0].
Definition demo_identity : bytes :=
  demo_frame [1; 0; 0; 9; 2; 255; 0; 9; 1; 117; 115; 101; 114].
Definition demo_request : list event :=
  [EapFrame 1 demo_start; EapSender; EapFrame 2 demo_identity; RadiusSender (replicate 16 1)].
Definition demo_accept : event :=
  RadiusDatagram 3 ([2; 0; 0; 20] ++
    Md5.md5 ([2; 0; 0; 20] ++ replicate 16 1 ++ of_literal "SECRET")).

Example demo_passes :
  (run_authentication_test (run (demo_request ++ [demo_accept]) demo_init)).2 = pass.
Proof. vm_compute. reflexivity. Qed.

(** The machine of the supplicant after its EAPOL start. *)
Definition demo_machine : AuthStateMachine.AuthStateMachine :=
  fst (AuthStateMachine.received_eapol_start 1 (fst (AuthStateMachine.initialize 1
    (AuthStateMachine.new_machine (MacAddress.to_str demo_supplicant)
       (MacAddress.to_str demo_authenticator) IDLE_TIME RETRY_COUNT)))).

(** One frame went to the supplicant, one datagram to the server. *)
Example demo_sent :
  length (EapModule.sent (eap_module (run demo_request demo_init))) = 1%nat ∧
  length (RadiusModule.sent (radius_module (run demo_request demo_init))) = 1%nat.
Proof. split; vm_compute; reflexivity. Qed.

Lemma demo_mac_ok : MacAddress.mac_ok demo_authenticator ∧ MacAddress.mac_ok demo_supplicant.
Proof. split; (split; [reflexivity|repeat constructor; lia]). Qed.

Lemma demo_events_ok : Forall event_ok demo_request.
Proof. repeat constructor; simpl; lia. Qed.

Lemma demo_inv k : inv (run (take k demo_request) demo_init).
Proof. apply run_inv; [apply Forall_take, demo_events_ok|apply init_inv, demo_mac_ok]. Qed.

(** ** Properties *)

(** C24: in every state the authenticator can reach, whatever the network sends
    and in whatever order, a supplicant has a machine or a result and not both,
    every machine waits for one of its peers with a timer, a retry and at most
    the allowed number of retries, the two modules are open or shut together,
    and there is at most one result, after which everything is shut. *)
Theorem authenticator_invariant now addr secret id es :
  MacAddress.mac_ok addr → Forall event_ok es → inv (run es (init now addr secret id)).
Proof. intros Ha He. apply run_inv; [done|]. by apply init_inv. Qed.

Lemma authenticator_invariant_witness : inv (run demo_request demo_init).
Proof.
  apply (authenticator_invariant 0 demo_authenticator (of_literal "SECRET")
    (of_literal "02:42:ac:18:00:70") demo_request); [apply demo_mac_ok|apply demo_events_ok].
Defined.

(** A result is final: after it is recorded no event changes the results,
    and no frame or datagram leaves any more.  In particular the EAP-Success or
    EAP-Failure the handler queues after the result is never sent. *)
Theorem result_is_final now addr secret id es es' :
  MacAddress.mac_ok addr → Forall event_ok es → Forall event_ok es' →
  let w := run es (init now addr secret id) in
  results w ≠ [] →
  results (run es' w) = results w ∧
  EapModule.sent (eap_module (run es' w)) = EapModule.sent (eap_module w) ∧
  RadiusModule.sent (radius_module (run es' w)) = RadiusModule.sent (radius_module w).
Proof.
  intros Ha He He' w Hr. assert (inv w) as Hinv by (by apply run_inv; [|apply init_inv]).
  apply run_ended; [done|done|]. by apply (inv_results w Hinv).
Qed.

Lemma result_is_final_witness :
  let es := demo_request ++ [demo_accept] in
  EapModule.sent (eap_module (run [EapSender; EapSender] (run es demo_init))) =
  EapModule.sent (eap_module (run es demo_init)).
Proof.
  apply (result_is_final 0 demo_authenticator (of_literal "SECRET")
    (of_literal "02:42:ac:18:00:70") (demo_request ++ [demo_accept]) [EapSender; EapSender]).
  - apply demo_mac_ok.
  - apply Forall_app_2; [apply demo_events_ok|]. constructor; [|constructor].
    unfold event_ok, demo_accept. apply Forall_app_2; [repeat constructor; lia|apply Md5.md5_ok].
  - repeat constructor.
  - vm_compute. discriminate.
Defined.

(** C11: a supplicant is recorded as authenticated only when an Access-Accept
    arrives that the parser validated, in reply to a request that was sent for
    this supplicant, while its machine is waiting for the RADIUS server. *)
Theorem success_requires_accept now addr secret id es e src :
  MacAddress.mac_ok addr → Forall event_ok es → event_ok e →
  let w := run es (init now addr secret id) in
  dget src (results w) ≠ Some true → dget src (results (step e w)) = Some true →
  ∃ t datagram p port m, e = RadiusDatagram t datagram ∧
    Radius.parse datagram (RadiusModule.radius_secret (radius_module w))
      (RadiusModule.packet_id_to_request_authenticator (radius_module w)) = Some (Ok p) ∧
    Radius.CODE p = Radius.ACCESS_ACCEPT ∧
    dget (Radius.packet_id p) (RadiusModule.packet_id_to_mac (radius_module w)) = Some (src, port) ∧
    dget src (state_machines w) = Some m ∧
    AuthStateMachine.state m = Some AuthStateMachine.RADIUS.
Proof.
  intros Ha Hes Heok w Hnot Hyes.
  assert (inv w) as Hinv by (by apply run_inv; [|apply init_inv]). clearbody w.
  pose proof (inv_ended w Hinv) as Hend.
  destruct e as [t frame|t datagram|t| |urandom]; cbn [step] in Hyes.
  - destruct (is_running _ && _) eqn:Hr in Hyes; [|done]. apply andb_true_iff in Hr as [_ Hr].
    apply negb_true_iff in Hr. rewrite Hend in Hr.
    pose proof (eap_frame_results t frame w Hinv Hr Heok) as H.
    destruct (eap_frame t frame w) as [w' [|]]; cbn [fst] in H; simpl in Hyes; congruence.
  - destruct (is_running _ && _) eqn:Hr in Hyes; [|done]. apply andb_true_iff in Hr as [_ Hr].
    apply negb_true_iff in Hr.
    destruct (RadiusModule.receive_radius_message _ _) as [r|] eqn:Hrcv in Hyes; [|done].
    assert (dget src (results (fst (radius_datagram t r w))) = Some true) as Hyes'
      by (by destruct (radius_datagram t r w) as [w' [|]]). clear Hyes.
    unfold radius_datagram, mbind, M_bind, lift in Hyes'.
    destruct r as [[[[k [em st]] pt]|]|]; [|done..]. cbn [received_radius_response] in Hyes'.
    destruct (effect_results _ _ _ _ (run_machine_effect k _ w Hinv Hr
      (λ x, AuthStateMachine.received_radius_response_outcome t em st pt x)))
      as [Hres|(m & m' & b & msg & Hm & Hh & Hres)]; rewrite Hres in Hyes'; [done|].
    rewrite dget_dset in Hyes'. case_decide; [|done]. subst k. injection Hyes' as ->.
    apply radius_result_inv in Hh as [Hst ->].
    destruct (receive_accept _ _ _ _ Hrcv) as (p & port & Hp & Hcode & Hmac).
    by exists t, datagram, p, port, m.
  - by apply heartbeat_true in Hyes.
  - done.
  - destruct (is_running _); [|done].
    assert (results (fst (on_radius (RadiusModule.send_radius_messages urandom) w)) = results w) as H.
    { unfold on_radius. by destruct (RadiusModule.send_radius_messages urandom _). }
    destruct (on_radius (RadiusModule.send_radius_messages urandom) w) as [w' [|]];
      cbn [fst] in H; simpl in Hyes; congruence.
Qed.

Lemma success_requires_accept_witness :
  let w := run demo_request demo_init in
  ∃ t datagram p port m, demo_accept = RadiusDatagram t datagram ∧
    Radius.parse datagram (RadiusModule.radius_secret (radius_module w))
      (RadiusModule.packet_id_to_request_authenticator (radius_module w)) = Some (Ok p) ∧
    Radius.CODE p = Radius.ACCESS_ACCEPT ∧
    dget (Radius.packet_id p) (RadiusModule.packet_id_to_mac (radius_module w)) =
      Some (MacAddress.to_str demo_supplicant, port) ∧
    dget (MacAddress.to_str demo_supplicant) (state_machines w) = Some m ∧
    AuthStateMachine.state m = Some AuthStateMachine.RADIUS.
Proof.
  apply (success_requires_accept 0 demo_authenticator (of_literal "SECRET")
    (of_literal "02:42:ac:18:00:70") demo_request demo_accept).
  - apply demo_mac_ok.
  - apply demo_events_ok.
  - unfold event_ok, demo_accept. apply Forall_app_2; [repeat constructor; lia|apply Md5.md5_ok].
  - vm_compute. discriminate.
  - vm_compute. reflexivity.
Defined.



(** A challenge of the RADIUS server reaches the supplicant: the packet is
    handed on as one Ethernet frame from the authenticator to the address the
    request was for, which decodes there to the same EAP message, and the
    machine turns to the supplicant with its retries renewed. *)
Theorem challenge_relayed w now a m msg st :
  inv w → ended w = false → dget (MacAddress.to_str a) (state_machines w) = Some m →
  MacAddress.mac_ok a → AuthStateMachine.state m = Some AuthStateMachine.RADIUS →
  msg_packable msg → is_ok (MessagePacker.pack msg) = true →
  ∃ frame m',
    let w' := fst (radius_datagram now
      (Ok (Some (MacAddress.to_str a, (Some msg, st), RadiusAccessChallenge))) w) in
    EapModule.outbound_message_queue (eap_module w') =
      EapModule.outbound_message_queue (eap_module w) ++ [Some frame] ∧
    MessageParser.ethernet_parse frame =
      Ok (with_src (SrcMac (EapModule.eap_address (eap_module w))) msg, a) ∧
    dget (MacAddress.to_str a) (state_machines w') = Some m' ∧
    AuthStateMachine.state m' = Some AuthStateMachine.SUPPLICANT ∧
    AuthStateMachine.radius_state m' = st ∧
    AuthStateMachine._current_retries m' = Some 0.
Proof.
  intros Hinv He Hm Ha Hst Hpk Hok. set (src := MacAddress.to_str a) in *.
  destruct (inv_machines w Hinv src m Hm) as [Hl Hsrc _ _ _ Hknown _].
  pose proof (inv_address w Hinv) as [Hadr Hadrok].
  destruct (MessagePacker.pack msg) as [d|] eqn:Hd; [|done].
  assert (∃ frame, MessagePacker.ethernet_pack msg
    (Some (EapModule.eap_address (eap_module w))) (Some a) = Ok frame) as [frame Hf].
  { unfold MessagePacker.ethernet_pack. rewrite Hd. cbn. by eexists. }
  exists frame. unfold radius_datagram, received_radius_response. cbn [lift mbind M_bind].
  unfold mbind, M_bind, lift.
  rewrite (run_machine_ok src _ w m
    (fst (AuthStateMachine.received_radius_response now (Some msg) st RadiusAccessChallenge m))
    (AuthStateMachine.EapSend src (Some msg)) Hm).
  2: { rewrite AuthStateMachine.received_radius_response_eq. cbv zeta.
       rewrite bool_decide_eq_true_2 by done. by rewrite Hsrc. }
  rewrite AuthStateMachine.received_radius_response_eq. cbv zeta.
  rewrite bool_decide_eq_true_2 by done. cbn [fst].
  rewrite (perform_eap_send src a msg frame) by done.
  eexists. split_and!; [done| |cbn; apply dget_dset_eq|done|done|done].
  apply ethernet_parse_pack; try done. apply Ha.
Qed.

Lemma challenge_relayed_witness :
  let w := run demo_request demo_init in
  let msg := Md5ChallengeMessage SrcNone 7 Eap.REQUEST [1; 2; 3] [] in
  ∃ frame m',
    let w' := fst (radius_datagram 3
      (Ok (Some (MacAddress.to_str demo_supplicant, (Some msg, Some [5]), RadiusAccessChallenge))) w) in
    EapModule.outbound_message_queue (eap_module w') =
      EapModule.outbound_message_queue (eap_module w) ++ [Some frame] ∧
    MessageParser.ethernet_parse frame =
      Ok (with_src (SrcMac (EapModule.eap_address (eap_module w))) msg, demo_supplicant) ∧
    dget (MacAddress.to_str demo_supplicant) (state_machines w') = Some m' ∧
    AuthStateMachine.state m' = Some AuthStateMachine.SUPPLICANT ∧
    AuthStateMachine.radius_state m' = Some [5] ∧
    AuthStateMachine._current_retries m' = Some 0.
Proof.
  eapply (challenge_relayed (run demo_request demo_init) 3 demo_supplicant).
  - apply (demo_inv 4).
  - vm_compute. reflexivity.
  - vm_compute. reflexivity.
  - apply demo_mac_ok.
  - reflexivity.
  - left. reflexivity.
  - reflexivity.
Defined.

(** An EAP message of the supplicant reaches the RADIUS side: it is queued
    once, unchanged, with the address it came from, the identity the machine has
    learnt and the state of the last challenge, and the machine waits for the
    server. *)
Theorem supplicant_message_relayed w now a m msg :
  inv w → ended w = false → dget (MacAddress.to_str a) (state_machines w) = Some m →
  AuthStateMachine.state m = Some AuthStateMachine.SUPPLICANT →
  ∃ info m',
    let w' := fst (received_eap_request now (MacAddress.to_str a) msg false w) in
    RadiusModule.outbound_message_queue (radius_module w') =
      RadiusModule.outbound_message_queue (radius_module w) ++ [Some info] ∧
    payload info = msg ∧ src_mac info = MacAddress.to_str a ∧
    identity info = AuthStateMachine.identity (AuthStateMachine.learn_identity msg m) ∧
    RadiusModule.state info = AuthStateMachine.radius_state m ∧
    port_id_to_int (MacAddress.to_str (EapModule.eap_address (eap_module w))) = Ok (port_id info) ∧
    dget (MacAddress.to_str a) (state_machines w') = Some m' ∧
    AuthStateMachine.state m' = Some AuthStateMachine.RADIUS.
Proof.
  intros Hinv He Hm Hst. set (src := MacAddress.to_str a) in *.
  destruct (inv_machines w Hinv src m Hm) as [Hl Hsrc _ _ Hauth _ _].
  assert (∃ port, port_id_to_int (MacAddress.to_str (EapModule.eap_address (eap_module w))) = Ok port)
    as [port Hport].
  { pose proof (inv_address w Hinv) as Hadr. pose proof Hadr as [Hlen _].
    destruct (EapModule.eap_address (eap_module w)) as [|x0 [|x1 [|x2 [|x3 [|x4 [|x5 [|]]]]]]];
      try done. eexists. by apply port_id_mac. }
  pose proof (AuthStateMachine.received_eap_request_eq now msg m) as Heq. cbv zeta in Heq.
  rewrite bool_decide_eq_true_2 in Heq by done. rewrite Hauth, Hport in Heq.
  unfold received_eap_request. rewrite (run_machine_ok src _ w m _ _ Hm Heq).
  eexists _, _. split_and!; [done|done|exact Hsrc|done|done|done| |].
  - apply dget_dset_eq.
  - done.
Qed.

Lemma supplicant_message_relayed_witness :
  let w := run (take 2 demo_request) demo_init in
  let msg := IdentityMessage SrcNone 255 Eap.RESPONSE (of_literal "user") in
  ∃ info m',
    let w' := fst (received_eap_request 2 (MacAddress.to_str demo_supplicant) msg false w) in
    RadiusModule.outbound_message_queue (radius_module w') =
      RadiusModule.outbound_message_queue (radius_module w) ++ [Some info] ∧
    payload info = msg ∧ src_mac info = MacAddress.to_str demo_supplicant ∧
    identity info = Some (of_literal "user") ∧
    RadiusModule.state info = None ∧
    port_id_to_int (MacAddress.to_str (EapModule.eap_address (eap_module w))) = Ok (port_id info) ∧
    dget (MacAddress.to_str demo_supplicant) (state_machines w') = Some m' ∧
    AuthStateMachine.state m' = Some AuthStateMachine.RADIUS.
Proof.
  apply (supplicant_message_relayed (run (take 2 demo_request) demo_init) 2 demo_supplicant
    demo_machine (IdentityMessage SrcNone 255 Eap.RESPONSE (of_literal "user"))).
  - apply (demo_inv 2).
  - vm_compute. reflexivity.
  - vm_compute. reflexivity.
  - reflexivity.
Defined.

(** A frame of a supplicant that has no machine, which is not an EAPOL
    start, kills the receiving thread: the lookup of the machine raises
    [KeyError], which nothing catches, and every later frame is lost, the EAPOL
    start of any supplicant included. *)
Theorem stray_frame_kills_receiver w now frame msg dst a :
  inv w → ended w = false → eap_receiver w = Running → bytes_ok frame → frame ≠ [] →
  MessageParser.ethernet_parse frame = Ok (msg, dst) → message_src msg = SrcMac a →
  is_eapol_start msg = false → dget (MacAddress.to_str a) (state_machines w) = None →
  let w' := step (EapFrame now frame) w in
  eap_receiver w' = Dead KeyError ∧ ∀ now' frame', step (EapFrame now' frame') w' = w'.
Proof.
  intros Hinv He Hrun Hok Hne Hp Hsrc Hstart Hm. cbn [step]. rewrite Hrun, (inv_ended w Hinv), He.
  cbn [is_running negb andb].
  assert (eap_frame now frame w = (w, Raise KeyError)) as ->.
  { unfold eap_frame, on_eap, mbind, M_bind, EapModule.receive_eap_message.
    destruct frame as [|b frame]; [done|]. rewrite Hp, Hsrc, Hstart.
    unfold mbind, M_bind, getS, whenM, mret, M_ret. rewrite set_eap_same.
    unfold received_eap_request, run_machine, mbind, M_bind, getS, lift. cbn [EapModule.src_str].
    by rewrite Hm. }
  split; [done|]. intros. done.
Qed.

Lemma stray_frame_kills_receiver_witness :
  let w' := step (EapFrame 1 demo_identity) demo_init in
  eap_receiver w' = Dead KeyError ∧ ∀ now' frame', step (EapFrame now' frame') w' = w'.
Proof.
  eapply (stray_frame_kills_receiver demo_init 1 demo_identity).
  - apply (demo_inv 0).
  - reflexivity.
  - reflexivity.
  - repeat constructor; lia.
  - discriminate.
  - vm_compute. reflexivity.
  - reflexivity.
  - reflexivity.
  - reflexivity.
Defined.

(** What the test reports.  It passes exactly when the one result is a
    success, fails when it is a failure, and is skipped when no supplicant got as
    far as a result. *)
Theorem reported_result now addr secret id es :
  MacAddress.mac_ok addr → Forall event_ok es →
  let w := run es (init now addr secret id) in
  match (run_authentication_test w).2 with
  | pass => ∃ src, results w = [(src, true)]
  | fail => ∃ src, results w = [(src, false)]
  | skip => results w = []
  end.
Proof.
  intros Ha Hes w. assert (inv w) as Hinv by (by apply run_inv; [|apply init_inv]).
  pose proof (inv_one w Hinv) as Hone. unfold run_authentication_test.
  destruct (results w) as [|[src [|]] [|]]; simpl in *; try lia; by try eexists.
Qed.

Lemma reported_result_witness :
  let w := run demo_request demo_init in
  match (run_authentication_test w).2 with
  | pass => ∃ src, results w = [(src, true)]
  | fail => ∃ src, results w = [(src, false)]
  | skip => results w = []
  end.
Proof.
  apply (reported_result 0 demo_authenticator (of_literal "SECRET")
    (of_literal "02:42:ac:18:00:70") demo_request); [apply demo_mac_ok|apply demo_events_ok].
Defined.

End Authenticator.
